(* ===== verification/_CoqProject ===== *)
-Q . S2P
Prelude.v
Bytes.v
Ids.v
Sha256.v
Crc32c.v
Outcome.v
Json.v
Limits.v
Codec.v
Clock.v
Capability.v
Evidence.v
Catalog.v
Request.v
Candidate.v
Policy.v
Authority.v
Eligibility.v
Ranking.v
Decision.v
RouteReport.v
RouterState.v
PersistRecords.v
Persistence.v
PersistRoundTrip.v
FileStore.v
RouterMutation.v
Providers.v
RouterRoute.v
RouterLiveness.v
RouterDispatch.v
RouterInspect.v
RouterSnapshot.v
Frame.v
Transport.v
WireRecords.v
WireMessages.v
RouterPersist.v
RouterRun.v
ReferenceProfiles.v
Coordinator.v
CoordinatorRun.v
BackendWorker.v
WorkerJoin.v
ReferenceRun.v
InspectTool.v
Listener.v
CommandLine.v
HarnessClient.v
