(* ===== verification/Prelude.v ===== *)
(** * Model Router: a verification library

    Model Router (namespace [model_router], sources under [src/], headers under
    [include/model_router/]) decides which registered backend serves a request
    for a model: it keeps a catalog of models, providers and backends with the
    evidence observed about them, filters the candidates by hard eligibility,
    ranks the rest, commits a decision that is bound to the generations it was
    made under, hands decisions to a dispatcher, and keeps a durable history.
    This library is a shallow embedding of that program: a C++ function is a
    Gallina function, a mutating call is a function from the state it finds to
    its reply and the state it leaves, and code that runs between critical
    sections is a computation over a schedule of what other threads do.

    ** How the program's parts interact

    Every public call of [ModelRouter] goes to [ModelRouter::Impl], which keeps
    one [CanonicalState] under one lock.  Catalog and evidence calls change it in
    one critical section and then mark stale every retained decision that is no
    longer executable.  [route] takes a snapshot, asks the adapters, judges and
    ranks candidates without the lock, and commits in a last critical section
    that compares the bound authority with the state it then finds.  [dispatch],
    [revalidate] and [reroute] are made of several critical sections likewise.
    [save], [load], [start] and [shutdown] turn the state into durable records
    and back through the state file.

    ** Files and the code they model

    - [Prelude]: notation, record update, machine integers, stable sorting
      (the model of [std::sort]: every comparator used is a strict weak order,
      and where two elements compare equal the order of the model is one of
      those the library may produce), sorted vectors, binary search.
    - [Bytes], [Sha256] (detail/sha256.cpp), [Crc32c] (detail/crc32c.cpp).
    - [Ids] (ids.hpp, ids.cpp), [Outcome] (outcome.cpp), [Limits] (limits.cpp),
      [Clock] (clock.cpp), [Capability] (capability.cpp), [Evidence]
      (evidence.cpp), [Catalog] (catalog.cpp), [Request] (request.cpp),
      [Candidate] (candidate.cpp), [Policy] (policy.cpp), [Authority]
      (authority.cpp), [Decision] (decision.cpp): the data and their functions.
    - [Eligibility] (eligibility.cpp) and [Ranking] (ranking.cpp): the judgement
      of one candidate and the order of the eligible ones.
    - [RouterState] (router_impl.hpp, router.cpp): the state, its derived
      indexes, the authority that can be observed, what "still executable" means.
    - [RouterMutation] (router.cpp): every catalog, evidence and configuration
      call, [start] and [shutdown].
    - [Providers] (providers.hpp): adapters as parameters, the monad of
      computations over state, allocator, environment and schedule.  The
      allocator is the process's: the dispatcher draws the identities of its
      dispatches from the one the router draws from.
    - [RouterRoute] (router_route.cpp) and [RouterDispatch]
      (router_dispatch.cpp): the routing pass, and what happens to a decision.
    - [Codec]: the byte writer and reader that persistence.cpp and protocol.cpp
      share.  [PersistRecords], [Persistence], [PersistRoundTrip]
      (persistence.cpp): records, image, round trip.
    - [FileStore] (persistence.cpp): the state file, one library call per step.
    - [RouterInspect] (router_inspect.cpp): the invariant scan and its report.
    - [Json]: what a JSON text means, as a printer and a reader.  [RouteReport]
      (explanation.cpp) and [RouterSnapshot] (router_snapshot.cpp): the text and
      JSON of explanations, reports, snapshots and summaries.
    - [RouterLiveness] (router_route.cpp): what a pass is bound to answer.
    - [RouterPersist] (router_persist.cpp, router.cpp): export, import, save,
      load, start and shutdown with durable state.
    - [Frame], [WireRecords], [WireMessages] (distributed/protocol.cpp): frames
      with their length, type and checksum; the codecs of the records that cross
      the wire; the messages, each an instance of [WireMessage].
    - [Transport] (distributed/transport.cpp): a connection, one step per section
      under its mutex, with the answers of the operating system as labels.
      [Listener] (distributed/transport.cpp): the listener, the connector and the
      descriptors they and the connections own, with the accepting thread, the
      threads in [stop] (which takes no lock: each test, call and assignment of it
      is a step) and the ends of connections interleaved.
    - [RouterRun]: the invariants of routing and dispatch for whole computations,
      which the reference system's handlers are made of.
    - [ReferenceProfiles] (reference_backends.cpp): the reference catalog.
      [Coordinator], [CoordinatorRun] (reference/coordinator.cpp): the handler of
      each frame, the control plane, sessions and links, the dispatcher, start
      and stop.  [BackendWorker] (reference/backend_worker_main.cpp): what a
      worker sends and how it answers.  [WorkerJoin]: the two ends of one
      connection put together.  [ReferenceRun]: the whole reference system
      evaluated from the start of a coordinator to a refused dispatch.
    - [InspectTool] (tools/model_router_inspect.cpp): the command line of the
      inspection tool, what it prints and its exit status.
    - [CommandLine] and [HarnessClient] (reference/backend_worker_main.cpp,
      reference/router_coordinator_main.cpp, reference/reference_harness_main.cpp):
      the option loops, the arguments the harness passes, the client it drives a
      coordinator with.

    A field of a C++ struct is the record field of the same name with a prefix
    of two letters (the field [backend_id] of [BackendDescriptor] is
    [bd_backend_id]); functions keep their names, prefixed by the type where two
    types have one of the same name.  [std::map] is [gmap]; where the order of
    iteration matters the keys are sorted.

    ** What the theorems show

    - Primitives: the hash is the one of the standard, the checksum the
      bit-serial one; identities are not reused; comparison of authority finds
      exactly the stale components.
    - Judging and ranking: hard eligibility is the conjunction of its
      requirements with the first failing one reported; ranking is a total order
      on distinct candidates.
    - State: every mutating call keeps the router well formed, refines an
      abstract catalog in which fences are never lifted, never lowers a
      watermark, leaves the state alone when refused, and leaves only executable
      decisions current.
    - Routing, dispatch, reroute: for every schedule of other threads, and with
      each state the theorem speaks of named by the computation that reaches it
      from the world of the call: a route is answered by the admission, the best
      of what was found and judged, and a commit that re-checks it; a decision is
      handed over exactly when it is retained for the caller, revalidates and is
      still its target; a reroute needs the decision, the caller and the policy to
      permit it; a completion is taken exactly when it completes a dispatched
      decision; the history stays in order; and a pass that nothing interrupts
      decides.
    - Durability: what is saved is read back; corruption is detected; a crash
      leaves the old file or the new one; no authority and no observed state of a
      backend outlives a restart, and fences do; identities of plans may be issued
      a second time.
    - Reports: five of the JSON texts are read back as the values they were
      written from, where the digests of a route explanation, which are not
      escaped, need no escaping; a snapshot shows every backend and decision once.
    - Inspection: the scan accepts every state the calls can reach, and what it
      accepts satisfies the invariants it reports on.
    - The connection: frames arrive in the order they were sent however bytes are
      split and threads interleave; the queue is bounded; what [close] waits for.
      A frame that is refused hangs the session for good: the code reports it
      under the mutex with a function that locks that mutex, which for a
      [std::mutex] is undefined and is modelled as what POSIX does, a thread that
      waits for itself.  Such sessions use up the slots of the listener.
    - The wire: a frame and a message are read back as they were sent, up to
      what a record can carry; a frame changed in one byte is refused, and so are
      bytes left over after a message.
    - Sockets: as long as one thread at a time is in [stop] and a start runs
      alone, every descriptor has one owner and none is closed twice; two racing
      stops can close one twice; no more connections than slots; an [accept] that
      [stop] overtakes never returns.
    - The reference system: no frame breaks the router, and one that is not a
      message changes nothing; a dispatch is handed over only on the connection
      of the incarnation it is bound to; the end of a session fences that
      incarnation; a worker joins through the frames alone, after which the router
      holds what it published and no more about it, and its answer completes the
      dispatch; a coordinator starts; what the harness passes on a
      command line and polls for is what the processes read and answer.
    - The inspection tool: it changes no file, its JSON mode prints JSON, and its
      status of zero says that the arguments were understood and, unless the usage
      or the version was printed, that the file, the invariants and the decision
      it was asked about are there.
    - Where the program does not do what its comments say, the theorem states
      what it does.

    ** Bounds and fuel

    The loops of the code are structural recursions, except: the binary searches
    take the length of the vector as fuel; padding and the block loop of the
    hash take the number of blocks; [decode_records] takes one unit per byte of
    the payload, of which each turn uses at least six; a save makes at most
    seven library calls; a [stop] of the listener takes at most eleven steps; the
    harness polls 20000 times, as in the code.  Each bound is shown sufficient by the theorems about
    the function, none of which assumes that the fuel lasts.

    Integers are [Z]; a 64-bit value that can wrap is masked with [word64], and
    generations saturate as in the code.  Where an enumerator outside its type is
    read from a file the model has no value for it: [decode] answers [None].

    ** Not modelled

    Tests, examples and benchmarks, and the script of checks of the reference
    harness, which is one: clients of the library.  Child processes and pipes
    (reference/process.cpp), the lines the reference processes print and read,
    the system clock and the CUDA probe: calls of the operating system and of
    the CUDA runtime, of which the probe's answer is a parameter.  The adapters
    are parameters, and so is the clock.  The Windows branches of the file and
    socket operations are left out; the POSIX ones are modelled. *)
From stdpp Require Export base list gmap strings sorting pretty.
From Stdlib Require Export ZArith Lia.

#[export] Set Default Goal Selector "!".

(** ** Notations *)

Declare Scope router_scope.
Delimit Scope router_scope with router.
Open Scope router_scope.
Open Scope Z_scope.

(** C++ [==] and [!=] on values whose equality is decidable. *)
Notation "x == y" := (bool_decide (x = y)) (at level 38, no associativity) : router_scope.
Notation "x != y" := (negb (bool_decide (x = y))) (at level 38, no associativity) : router_scope.

(** An early return: [if (c) return r; k]. *)
Notation "'return_if' c 'with' r ';;' k" := (if c then r else k)
  (at level 10, c at level 99, r at level 99, k at level 200,
   format "'return_if'  c  'with'  r  ';;' '//' k") : router_scope.

(** Functional update of one field of a record.  A record declares its
    eta-expansion once (an instance of [Eta]); the setter of a projection is
    found by abstracting that projection in the eta-expansion. *)
Class Eta (R : Type) := eta_expand : R -> R.
Class Setter {R T : Type} (proj : R -> T) := update_field : (T -> T) -> R -> R.

Ltac solve_setter :=
  lazymatch goal with
  | |- @Setter ?R ?T ?proj =>
      let e := constr:(_ : Eta R) in
      let e := eval hnf in e in
      let e := eval pattern proj in e in
      lazymatch e with
      | ?body _ => exact (fun (f : T -> T) (r : R) => body (fun r' => f (proj r')) r)
      end
  end.

#[export] Hint Extern 1 (Setter _) => solve_setter : typeclass_instances.

Notation "r <| f := v |>" := (update_field (proj := f) (fun _ => v) r)
  (at level 1, left associativity, format "r  <| f  :=  v |>") : router_scope.

Arguments update_field {_ _} _ {_} / _ _.

(** ** Machine integers *)

Definition u64_max : Z := 18446744073709551615.
Definition u32_max : Z := 4294967295.

(** Wrap-around of [std::uint64_t]. *)
Definition word64 (x : Z) : Z := Z.land x u64_max.
(** [static_cast<std::uint32_t>]. *)
Definition word32 (x : Z) : Z := Z.land x u32_max.
Definition i64_max : Z := 9223372036854775807.
Definition i64_min : Z := -9223372036854775808.

Definition in_i64 (x : Z) : Prop := i64_min <= x <= i64_max.
Definition in_u64 (x : Z) : Prop := 0 <= x <= u64_max.

(** [std::to_string] on an integer. *)
Definition to_string_int (x : Z) : string := pretty x.

(** ** Boolean strict orders *)

(** A C++ comparison object: a strict weak ordering. *)
Class StrictWeakB {A} (ltb : A -> A -> bool) : Prop := {
  swb_irrefl : forall x, ltb x x = false;
  swb_trans : forall x y z, ltb x y = true -> ltb y z = true -> ltb x z = true;
  swb_negtrans : forall x y z, ltb x y = false -> ltb y z = false -> ltb x z = false
}.

(** A comparison whose incomparability is equality. *)
Class TotalB {A} (ltb : A -> A -> bool) : Prop := {
  total_swb :: StrictWeakB ltb;
  total_eq : forall x y, ltb x y = false -> ltb y x = false -> x = y
}.

(** [x] may stand before [y] in a range sorted by [ltb]. *)
Definition not_after {A} (ltb : A -> A -> bool) (x y : A) : Prop := ltb y x = false.

Section StrictWeak.
Context {A} (ltb : A -> A -> bool) `{!StrictWeakB ltb}.

Lemma swb_asym x y : ltb x y = true -> ltb y x = false.
Proof.
  intros H. destruct (ltb y x) eqn:E; [|done].
  pose proof (swb_trans _ _ _ H E) as C. by rewrite swb_irrefl in C.
Qed.

#[export] Instance not_after_trans : Transitive (not_after ltb).
Proof. intros x y z Hxy Hyz. exact (swb_negtrans _ _ _ Hyz Hxy). Qed.

Lemma swb_lt_le_trans x y z : ltb x y = true -> ltb z y = false -> ltb x z = true.
Proof.
  intros Hxy Hzy. destruct (ltb x z) eqn:E; [done|].
  pose proof (swb_negtrans _ _ _ E Hzy). congruence.
Qed.

Lemma swb_le_lt_trans x y z : ltb y x = false -> ltb y z = true -> ltb x z = true.
Proof.
  intros Hyx Hyz. destruct (ltb x z) eqn:E; [done|].
  pose proof (swb_negtrans _ _ _ Hyx E). congruence.
Qed.
End StrictWeak.

(** The order a key function induces. *)
Lemma swb_on {A B} (ltb : B -> B -> bool) (f : A -> B) `{!StrictWeakB ltb} :
  StrictWeakB (fun x y => ltb (f x) (f y)).
Proof.
  split; intros *; [apply swb_irrefl | apply swb_trans | apply swb_negtrans].
Qed.

Lemma total_on {A B} (ltb : B -> B -> bool) (f : A -> B) `{!TotalB ltb, !Inj (=) (=) f} :
  TotalB (fun x y => ltb (f x) (f y)).
Proof.
  split; [apply (swb_on ltb f)|].
  intros x y H1 H2. apply (inj f). by apply total_eq.
Qed.

Lemma swb_proper {A} (ltb ltb' : A -> A -> bool) :
  (forall x y, ltb x y = ltb' x y) -> StrictWeakB ltb -> StrictWeakB ltb'.
Proof. intros E [H1 H2 H3]. split; intros *; rewrite <- !E; [apply H1|apply H2|apply H3]. Qed.

Lemma total_proper {A} (ltb ltb' : A -> A -> bool) :
  (forall x y, ltb x y = ltb' x y) -> TotalB ltb -> TotalB ltb'.
Proof.
  intros E [[H1 H2 H3] H4]. repeat split; intros *; rewrite <- !E; [apply H1|apply H2|apply H3|apply H4].
Qed.

#[export] Instance Zltb_total : TotalB Z.ltb.
Proof. repeat split; intros; lia. Qed.

(** Lexicographic order on lists of integers. *)
Fixpoint lex_ltb (xs ys : list Z) : bool :=
  match xs, ys with
  | [], [] => false
  | [], _ :: _ => true
  | _ :: _, [] => false
  | x :: xs, y :: ys => if x <? y then true else if y <? x then false else lex_ltb xs ys
  end.

Ltac bool_cases :=
  repeat match goal with
  | |- context [if ?c then _ else _] => destruct c eqn:?
  | H : context [if ?c then _ else _] |- _ => destruct c eqn:?
  end.

#[export] Instance lex_ltb_total : TotalB lex_ltb.
Proof.
  repeat split.
  - induction x as [|x xs IH]; simpl; [done|]. by rewrite Z.ltb_irrefl.
  - induction x as [|x xs IH]; intros [|y ys] [|z zs]; simpl; try done.
    intros. bool_cases; try done; try lia. eapply IH; done.
  - induction x as [|x xs IH]; intros [|y ys] [|z zs]; simpl; try done.
    intros. bool_cases; try done; try lia. eapply IH; done.
  - intros x. induction x as [|x xs IH]; intros [|y ys]; simpl; try done.
    intros. bool_cases; try done. assert (x = y) as -> by lia. f_equal. by apply IH.
Qed.

(** One field of a member-by-member comparison. *)
Lemma lex_step {A} `{EqDecision A} (f : A -> Z) `{!Inj (=) (=) f} (x y : A) k :
  (if x != y then f x <? f y else k) =
  (if f x <? f y then true else if f y <? f x then false else k).
Proof.
  case_bool_decide as E; simpl; [subst y; by rewrite Z.ltb_irrefl|].
  destruct (f x <? f y) eqn:?; [done|]. destruct (f y <? f x) eqn:?; [done|].
  destruct E. apply (inj f). lia.
Qed.

Lemma lex_step_Z (x y : Z) k :
  (if negb (x =? y) then x <? y else k) =
  (if x <? y then true else if y <? x then false else k).
Proof. destruct (x =? y) eqn:?; simpl; bool_cases; try done; lia. Qed.

(** [std::string]'s [operator<]: bytes compared as unsigned characters. *)
Definition ascii_code (c : Ascii.ascii) : Z := Z.of_N (Ascii.N_of_ascii c).

Fixpoint string_codes (s : string) : list Z :=
  match s with
  | EmptyString => []
  | String c s => ascii_code c :: string_codes s
  end.

Definition string_ltb (s t : string) : bool := lex_ltb (string_codes s) (string_codes t).

#[export] Instance ascii_code_inj : Inj (=) (=) ascii_code.
Proof.
  intros x y H. apply N2Z.inj in H.
  rewrite <- (Ascii.ascii_N_embedding x), <- (Ascii.ascii_N_embedding y). by rewrite H.
Qed.

#[export] Instance string_codes_inj : Inj (=) (=) string_codes.
Proof.
  intros x. induction x as [|c x IH]; intros [|d y]; simpl; try done.
  intros [= H1 H2]. f_equal; [by apply (inj ascii_code) | by apply IH].
Qed.

#[export] Instance string_ltb_total : TotalB string_ltb.
Proof. apply (total_on lex_ltb string_codes). Qed.

(** ** Separated numbers: the canonical texts that are hashed *)

(** No occurrence of [c]. *)
Fixpoint string_free (c : Ascii.ascii) (s : string) : bool :=
  match s with
  | EmptyString => true
  | String d s => d != c && string_free c s
  end.

Lemma string_free_app c s t : string_free c (s +:+ t) = string_free c s && string_free c t.
Proof. induction s as [|d s IH]; simpl; [done|]. by rewrite IH, andb_assoc. Qed.

(** The first separator splits a text. *)
Lemma split_separator c s s' t t' :
  string_free c s = true -> string_free c s' = true ->
  s +:+ String c t = s' +:+ String c t' -> s = s' /\ t = t'.
Proof.
  revert s'. induction s as [|d s IH]; intros [|d' s']; simpl; rewrite ?andb_true_iff.
  - by intros _ _ [= ->].
  - intros _ [Hd _] [= <- _]. by rewrite bool_decide_eq_true_2 in Hd.
  - intros [Hd _] _ [= -> _]. by rewrite bool_decide_eq_true_2 in Hd.
  - intros [_ Hs] [_ Hs'] [= <- E]. by destruct (IH s' Hs Hs' E) as [-> ->].
Qed.

Lemma pretty_N_go_free c x s :
  (forall n, pretty_N_char n <> c) -> string_free c s = true -> string_free c (pretty_N_go x s) = true.
Proof.
  intros Hc. revert s. induction (N.lt_wf_0 x) as [x _ IH]; intros s Hs.
  destruct (decide (x = 0)%N) as [->|Hx]; [by rewrite pretty_N_go_0|].
  rewrite pretty_N_go_step by lia. apply IH; [apply N.div_lt; lia|]. simpl.
  by rewrite bool_decide_eq_false_2 by done.
Qed.

(** Decimal numbers contain digits and a sign only. *)
Lemma to_string_int_free c x :
  (forall n, pretty_N_char n <> c) -> Ascii.ascii_of_nat 45 <> c ->
  string_free c (to_string_int x) = true.
Proof.
  intros Hc Hd. assert (forall p, string_free c (pretty (Npos p)) = true) as Hp
    by (intros p; by apply pretty_N_go_free).
  destruct x as [|p|p]; [|exact (Hp p)|].
  - simpl. by rewrite bool_decide_eq_false_2 by exact (Hc 0%N).
  - change (string_free c ("-" +:+ pretty (Npos p)) = true). rewrite string_free_app, Hp. simpl.
    by rewrite bool_decide_eq_false_2 by done.
Qed.

#[export] Instance to_string_int_inj : Inj (=) (=) to_string_int.
Proof. intros x y. apply (inj pretty). Qed.

Lemma append_nil_r s : s +:+ "" = s.
Proof.
  induction s as [|c s IH]; [done|]. change (String c (s +:+ "") = String c s). by rewrite IH.
Qed.

Lemma append_assoc s t u : (s +:+ t) +:+ u = s +:+ (t +:+ u).
Proof.
  induction s as [|c s IH]; [done|].
  change (String c ((s +:+ t) +:+ u) = String c (s +:+ (t +:+ u))). by rewrite IH.
Qed.

Lemma concat_cons s l : String.concat "" (s :: l) = s +:+ String.concat "" l.
Proof. destruct l; [symmetry; apply append_nil_r | done]. Qed.

(** Numbers that each end in the same separator can be read back. *)
Lemma separated_inj c xs ys :
  (forall n, pretty_N_char n <> c) -> Ascii.ascii_of_nat 45 <> c ->
  String.concat "" ((fun v => to_string_int v +:+ String c "") <$> xs) =
  String.concat "" ((fun v => to_string_int v +:+ String c "") <$> ys) -> xs = ys.
Proof.
  intros Hc Hd. revert ys. induction xs as [|x xs IH]; intros [|y ys];
    rewrite ?fmap_cons, ?concat_cons, ?append_assoc; try done.
  - by destruct (to_string_int y).
  - by destruct (to_string_int x).
  - intros [Ex E]%split_separator; [|by apply to_string_int_free..].
    f_equal; [by apply (inj to_string_int) | by apply IH].
Qed.

(** ** Lists *)

Lemma StronglySorted_filter {A} (R : A -> A -> Prop) (P : A -> Prop) `{!forall x, Decision (P x)} l :
  StronglySorted R l -> StronglySorted R (filter P l).
Proof.
  induction 1 as [|x l Hl IH Hx]; [constructor|]. rewrite filter_cons. case_decide; [|done].
  apply StronglySorted_cons. split; [|done]. rewrite Forall_forall in Hx |- *.
  intros y [_ Hy]%list_elem_of_filter. by apply Hx.
Qed.

Lemma filter_empty_iff {A} (P : A -> Prop) `{!forall x, Decision (P x)} l :
  filter P l = [] <-> forall x, x ∈ l -> ~ P x.
Proof.
  split.
  - intros E x Hx HP. apply (not_elem_of_nil x). rewrite <- E. by apply list_elem_of_filter.
  - intros Hn. apply elem_of_nil_inv. intros x [HP Hx]%list_elem_of_filter. by apply (Hn x).
Qed.

(** ** [std::stable_sort] and [std::sort] *)

Section Sorting.
Context {A} (ltb : A -> A -> bool).

(** Insert [x] in front of the elements that are not strictly before it. *)
Fixpoint sorted_insert (x : A) (l : list A) : list A :=
  match l with
  | [] => [x]
  | y :: l' => if ltb y x then y :: sorted_insert x l' else x :: l
  end.

(** The stable sort: elements are inserted from the right, so equivalent
    elements keep their order. *)
Fixpoint stable_sort (l : list A) : list A :=
  match l with
  | [] => []
  | x :: l => sorted_insert x (stable_sort l)
  end.

Definition sorted_by (l : list A) : Prop := StronglySorted (not_after ltb) l.
(** Strictly increasing: sorted and free of equivalent elements. *)
Definition strictly_sorted_by (l : list A) : Prop :=
  StronglySorted (fun x y => ltb x y = true) l.

Lemma sorted_insert_perm x l : sorted_insert x l ≡ₚ x :: l.
Proof.
  induction l as [|y l IH]; simpl; [done|].
  destruct (ltb y x); [|done]. rewrite IH. constructor.
Qed.

Lemma stable_sort_perm l : stable_sort l ≡ₚ l.
Proof. induction l as [|x l IH]; simpl; [done|]. by rewrite sorted_insert_perm, IH. Qed.

Lemma stable_sort_length l : length (stable_sort l) = length l.
Proof. by rewrite (stable_sort_perm l). Qed.

Lemma elem_of_stable_sort x l : x ∈ stable_sort l <-> x ∈ l.
Proof. by rewrite (stable_sort_perm l). Qed.

Context `{!StrictWeakB ltb}.

Lemma sorted_insert_sorted x l : sorted_by l -> sorted_by (sorted_insert x l).
Proof.
  unfold sorted_by. induction l as [|y l IH]; simpl.
  - intros _. by repeat constructor.
  - rewrite StronglySorted_cons. intros [Hy Hl]. destruct (ltb y x) eqn:E.
    + rewrite StronglySorted_cons. split; [|by apply IH].
      rewrite sorted_insert_perm. constructor; [|done].
      unfold not_after. by apply swb_asym.
    + rewrite StronglySorted_cons. split; [|by rewrite StronglySorted_cons].
      constructor; [done|]. eapply Forall_impl; [done|]. intros z Hz.
      by apply (not_after_trans ltb _ y).
Qed.

Lemma stable_sort_sorted l : sorted_by (stable_sort l).
Proof. induction l as [|x l IH]; simpl; [constructor | by apply sorted_insert_sorted]. Qed.

Lemma strictly_sorted_sorted l : strictly_sorted_by l -> sorted_by l.
Proof.
  unfold strictly_sorted_by, sorted_by. induction 1 as [|x l Hl IH Hx]; constructor; [done|].
  eapply Forall_impl; [done|]. intros y Hy. by apply swb_asym.
Qed.

(** Checking neighbours is enough. *)
Lemma strictly_sorted_adjacent x y l :
  strictly_sorted_by (x :: y :: l) <-> ltb x y = true /\ strictly_sorted_by (y :: l).
Proof.
  unfold strictly_sorted_by. rewrite !StronglySorted_cons, Forall_cons. split; [naive_solver|].
  intros (Hxy & Hy & Hl). repeat split; try done.
  eapply Forall_impl; [exact Hy|]. intros z Hz. by eapply swb_trans.
Qed.

Lemma strictly_sorted_NoDup l : strictly_sorted_by l -> NoDup l.
Proof.
  unfold strictly_sorted_by. induction 1 as [|x l Hl IH Hx]; constructor; [|done].
  intros Hin. rewrite Forall_forall in Hx. pose proof (Hx x Hin) as C.
  by rewrite swb_irrefl in C.
Qed.

Lemma sorted_insert_head x l : Forall (not_after ltb x) l -> sorted_insert x l = x :: l.
Proof. destruct 1 as [|y l Hy Hl]; simpl; [done|]. unfold not_after in Hy. by rewrite Hy. Qed.

Lemma stable_sort_id l : sorted_by l -> stable_sort l = l.
Proof.
  induction 1 as [|x l Hl IH Hx]; simpl; [done|]. rewrite IH. by apply sorted_insert_head.
Qed.

(** Stability: elements equivalent to each other keep their order. *)
Lemma sorted_insert_filter (P : A -> Prop) `{!forall x, Decision (P x)} x l :
  (forall y, P x -> P y -> ltb y x = false) ->
  filter P (sorted_insert x l) = filter P (x :: l).
Proof.
  intros HP. induction l as [|y l IH]; simpl; [done|]. destruct (ltb y x) eqn:E; [|done].
  rewrite filter_cons, IH, !filter_cons. repeat case_decide; try done.
  by rewrite HP in E.
Qed.

Lemma stable_sort_filter (P : A -> Prop) `{!forall x, Decision (P x)} l :
  (forall x y, P x -> P y -> ltb y x = false) ->
  filter P (stable_sort l) = filter P l.
Proof.
  intros HP. induction l as [|x l IH]; simpl; [done|].
  rewrite sorted_insert_filter by by intros y; apply HP.
  by rewrite !filter_cons, IH.
Qed.
End Sorting.

Lemma sorted_by_fmap {A B} (ltb : B -> B -> bool) (f : A -> B) l :
  sorted_by (fun x y => ltb (f x) (f y)) l -> sorted_by ltb (f <$> l).
Proof.
  unfold sorted_by. induction 1 as [|x l Hl IH Hx]; [constructor|]. rewrite fmap_cons.
  constructor; [done|]. by rewrite Forall_fmap.
Qed.

Section SortingTotal.
Context {A} (ltb : A -> A -> bool) `{!TotalB ltb}.

Let swb : StrictWeakB ltb := total_swb.

Lemma sorted_by_unique l1 l2 : sorted_by ltb l1 -> sorted_by ltb l2 -> l1 ≡ₚ l2 -> l1 = l2.
Proof.
  intros H1 H2 Hp. eapply StronglySorted_unique_strong; [|exact H1|exact H2|exact Hp].
  intros x y _ _ Hxy Hyx. by apply total_eq.
Qed.

(** Sorting by a total order forgets the order of its input. *)
Lemma stable_sort_perm_eq l1 l2 : l1 ≡ₚ l2 -> stable_sort ltb l1 = stable_sort ltb l2.
Proof.
  intros Hp. apply sorted_by_unique; [by apply stable_sort_sorted.. |].
  by rewrite !stable_sort_perm.
Qed.
End SortingTotal.

(** Sorting by a comparison that ties only elements with the same key forgets
    the order of an input without duplicate keys. *)
Lemma stable_sort_perm_keys {A K} (ltb : A -> A -> bool) (key_of : A -> K) l1 l2 :
  StrictWeakB ltb ->
  (forall x y, ltb x y = false -> ltb y x = false -> key_of x = key_of y) ->
  l1 ≡ₚ l2 -> NoDup (key_of <$> l1) -> stable_sort ltb l1 = stable_sort ltb l2.
Proof.
  intros Hswb Htie Hp Hn. eapply (StronglySorted_unique_strong (not_after ltb)).
  - intros x y Hx Hy Hxy Hyx. rewrite (stable_sort_perm ltb l1) in Hx.
    rewrite (stable_sort_perm ltb l2), <- Hp in Hy.
    assert (key_of x = key_of y) as E by by apply Htie.
    apply list_elem_of_lookup in Hx as [i Hi]. apply list_elem_of_lookup in Hy as [j Hj].
    assert (i = j) as ->; [|congruence].
    eapply (NoDup_lookup (key_of <$> l1)); [done|by rewrite list_lookup_fmap, Hi|].
    by rewrite list_lookup_fmap, Hj, E.
  - apply (stable_sort_sorted ltb).
  - apply (stable_sort_sorted ltb).
  - by rewrite !(stable_sort_perm ltb).
Qed.

(** ** [std::unique]: drop the elements equivalent to the last one kept *)

Section Unique.
Context {A} (eqb : A -> A -> bool).

Fixpoint unique_after (kept : A) (l : list A) : list A :=
  match l with
  | [] => []
  | x :: l => if eqb kept x then unique_after kept l else x :: unique_after x l
  end.

Definition unique (l : list A) : list A :=
  match l with
  | [] => []
  | x :: l => x :: unique_after x l
  end.

Lemma unique_after_incl k l x : x ∈ unique_after k l -> x ∈ l.
Proof.
  revert k. induction l as [|y l IH]; intros k; simpl; [done|].
  destruct (eqb k y).
  - intros H%IH. by right.
  - intros [->|H]%elem_of_cons; [by left|]. right. by eapply IH.
Qed.

Lemma unique_incl l x : x ∈ unique l -> x ∈ l.
Proof.
  destruct l as [|y l]; simpl; [done|].
  intros [->|H]%elem_of_cons; [by left|]. right. by eapply unique_after_incl.
Qed.
End Unique.

Section UniqueSorted.
Context {A} (ltb eqb : A -> A -> bool) `{!StrictWeakB ltb}.
(** The equality of [std::unique] is the incomparability of the sort. *)
Hypothesis eqb_incomparable : forall x y, eqb x y = negb (ltb x y) && negb (ltb y x).

Lemma unique_after_strict k l :
  sorted_by ltb (k :: l) -> strictly_sorted_by ltb (k :: unique_after eqb k l).
Proof.
  unfold sorted_by, strictly_sorted_by. revert k.
  induction l as [|x l IH]; intros k; simpl; [by repeat constructor|].
  intros [[Hkx Hk]%Forall_cons [Hx Hl]%StronglySorted_cons]%StronglySorted_cons.
  rewrite eqb_incomparable. unfold not_after in Hkx. rewrite Hkx, andb_true_r.
  destruct (ltb k x) eqn:E; simpl.
  - assert (StronglySorted (fun x y => ltb x y = true) (x :: unique_after eqb x l)) as IHx.
    { apply IH. by constructor. }
    rewrite StronglySorted_cons. split; [|done]. constructor; [done|].
    apply StronglySorted_cons in IHx as [IHx _].
    eapply Forall_impl; [exact IHx|]. intros z Hz. by eapply swb_trans.
  - apply IH. by constructor.
Qed.

Lemma unique_strict l : sorted_by ltb l -> strictly_sorted_by ltb (unique eqb l).
Proof. destruct l as [|x l]; [constructor | apply unique_after_strict]. Qed.

Lemma unique_after_id k l :
  strictly_sorted_by ltb (k :: l) -> unique_after eqb k l = l.
Proof.
  unfold strictly_sorted_by. revert k. induction l as [|x l IH]; intros k; simpl; [done|].
  intros [[Hkx Hk]%Forall_cons [Hx Hl]%StronglySorted_cons]%StronglySorted_cons.
  rewrite eqb_incomparable, Hkx. simpl. f_equal. apply IH.
  apply StronglySorted_cons. by split.
Qed.

Lemma unique_id l : strictly_sorted_by ltb l -> unique eqb l = l.
Proof. destruct l as [|x l]; [done|]. intros H. simpl. f_equal. by apply unique_after_id. Qed.

(** A sort followed by [unique] leaves a strictly increasing list alone. *)
Lemma sort_unique_id l :
  strictly_sorted_by ltb l -> unique eqb (stable_sort ltb l) = l.
Proof.
  intros H. rewrite stable_sort_id; [by apply unique_id | by apply strictly_sorted_sorted].
Qed.

Lemma sort_unique_strict l : strictly_sorted_by ltb (unique eqb (stable_sort ltb l)).
Proof. apply unique_strict. by apply stable_sort_sorted. Qed.
End UniqueSorted.

(** Sort and deduplicate by a total order, as the [sort_ids] lambdas do. *)
Definition sort_unique {A} `{EqDecision A} (ltb : A -> A -> bool) (l : list A) : list A :=
  unique (fun x y => x == y) (stable_sort ltb l).

Section SortUnique.
Context {A} `{EqDecision A} (ltb : A -> A -> bool) `{!TotalB ltb}.

Let swb : StrictWeakB ltb := total_swb.

Lemma total_eqb_incomparable x y : x == y = negb (ltb x y) && negb (ltb y x).
Proof.
  apply eq_true_iff_eq. rewrite bool_decide_eq_true, andb_true_iff, !negb_true_iff. split.
  - intros ->. by rewrite (swb_irrefl y).
  - intros [H1 H2]. by apply total_eq.
Qed.

Lemma sort_unique_strictly_sorted l : strictly_sorted_by ltb (sort_unique ltb l).
Proof. exact (sort_unique_strict ltb _ total_eqb_incomparable l). Qed.

Lemma elem_of_unique_after (k : A) l x :
  x ∈ l -> x = k \/ x ∈ unique_after (fun x y => x == y) k l.
Proof.
  revert k. induction l as [|y l IH]; intros k; simpl; [by intros ?%elem_of_nil|].
  case_bool_decide as E; [subst k|]; intros [->|H]%elem_of_cons.
  - by left.
  - by apply IH.
  - right. by left.
  - right. destruct (IH y H) as [->|?]; [by left | by right].
Qed.

Lemma elem_of_sort_unique (x : A) l : x ∈ sort_unique ltb l <-> x ∈ l.
Proof.
  unfold sort_unique. split.
  - intros Hx%unique_incl. by rewrite elem_of_stable_sort in Hx.
  - rewrite <- (elem_of_stable_sort ltb). destruct (stable_sort ltb l) as [|y l']; simpl; [done|].
    intros [->|H]%elem_of_cons; [by left|].
    destruct (elem_of_unique_after y l' x H) as [->|?]; [by left | by right].
Qed.

Lemma strictly_sorted_ext (l1 l2 : list A) :
  strictly_sorted_by ltb l1 -> strictly_sorted_by ltb l2 ->
  (forall x, x ∈ l1 <-> x ∈ l2) -> l1 = l2.
Proof.
  intros H1 H2 He. apply (sorted_by_unique ltb).
  - by apply strictly_sorted_sorted.
  - by apply strictly_sorted_sorted.
  - apply NoDup_Permutation; [| |done].
    + by eapply strictly_sorted_NoDup.
    + by eapply strictly_sorted_NoDup.
Qed.

Lemma sort_unique_ext (l1 l2 : list A) :
  (forall x, x ∈ l1 <-> x ∈ l2) -> sort_unique ltb l1 = sort_unique ltb l2.
Proof.
  intros He. apply strictly_sorted_ext; [apply sort_unique_strictly_sorted..|].
  intros x. by rewrite !elem_of_sort_unique.
Qed.

Lemma sort_unique_app (l1 l2 k : list A) :
  sort_unique ltb l1 = sort_unique ltb l2 -> sort_unique ltb (l1 ++ k) = sort_unique ltb (l2 ++ k).
Proof.
  intros E. apply sort_unique_ext. intros x.
  by rewrite !elem_of_app, <- (elem_of_sort_unique x l1), E, elem_of_sort_unique.
Qed.

Lemma sort_unique_app_comm (l : list A) x y :
  sort_unique ltb ((l ++ [x]) ++ [y]) = sort_unique ltb ((l ++ [y]) ++ [x]).
Proof. apply sort_unique_ext. intros z. rewrite !elem_of_app. tauto. Qed.

Lemma sort_unique_idem (l : list A) : sort_unique ltb (sort_unique ltb l) = sort_unique ltb l.
Proof. apply sort_unique_ext. intros x. apply elem_of_sort_unique. Qed.
End SortUnique.

(** ** [std::lower_bound] and [std::binary_search] *)

Section BinarySearch.
Context {A K} (less : A -> K -> bool).

(** The halving loop on the range [first, first + len). *)
Fixpoint lower_bound_loop (fuel : nat) (l : list A) (key : K) (first len : nat) : nat :=
  match fuel with
  | O => first
  | S fuel =>
      match len with
      | O => first
      | S _ =>
          let half := (len / 2)%nat in
          match l !! (first + half)%nat with
          | Some mid =>
              if less mid key
              then lower_bound_loop fuel l key (first + half + 1) (len - half - 1)
              else lower_bound_loop fuel l key first half
          | None => first
          end
      end
  end.

(** The length bounds the number of halvings. *)
Definition lower_bound (l : list A) (key : K) : nat :=
  lower_bound_loop (length l) l key 0 (length l).

(** [l] is partitioned by [less _ key] at [n], as every sorted range is. *)
Definition partition_point (l : list A) (key : K) (n : nat) : Prop :=
  (n <= length l)%nat /\
  (forall i x, l !! i = Some x -> less x key = bool_decide (i < n)%nat).

Lemma lower_bound_loop_spec fuel l key n first len :
  partition_point l key n ->
  (len <= fuel)%nat -> (first <= n)%nat -> (n <= first + len)%nat ->
  (first + len <= length l)%nat ->
  lower_bound_loop fuel l key first len = n.
Proof.
  intros [Hn Hp]. revert first len.
  induction fuel as [|fuel IH]; intros first len Hf H1 H2 H3; cbn [lower_bound_loop]; [lia|].
  destruct len as [|len]; [lia|].
  set (half := (S len / 2)%nat).
  assert (half < S len)%nat as Hhalf by (apply Nat.div_lt; lia).
  destruct (l !! (first + half)%nat) as [mid|] eqn:E.
  - rewrite (Hp _ _ E). case_bool_decide; apply IH; lia.
  - apply lookup_ge_None in E. lia.
Qed.

Lemma lower_bound_spec l key n : partition_point l key n -> lower_bound l key = n.
Proof. intros H. apply lower_bound_loop_spec; [done|..]; destruct H; lia. Qed.
End BinarySearch.

(** The reference definition of the first position whose element is not less. *)
Fixpoint first_not_less {A K} (less : A -> K -> bool) (l : list A) (key : K) : nat :=
  match l with
  | [] => 0
  | x :: l => if less x key then S (first_not_less less l key) else 0
  end.

Definition binary_search {A} (ltb : A -> A -> bool) (l : list A) (v : A) : bool :=
  match l !! lower_bound ltb l v with
  | Some x => negb (ltb v x)
  | None => false
  end.

Section Searching.
(** Elements of [A] are looked up by a key of type [K]. *)
Context {A K} (ltb : K -> K -> bool) `{!TotalB ltb} (key_of : A -> K).

Let swb : StrictWeakB ltb := total_swb.
Let less (x : A) (k : K) : bool := ltb (key_of x) k.
Let sorted (l : list A) : Prop := sorted_by ltb (key_of <$> l).

Lemma first_not_less_partition l k :
  sorted l -> partition_point less l k (first_not_less less l k).
Proof.
  unfold sorted, sorted_by. induction l as [|x l IH]; intros H; simpl.
  { split; [simpl; lia|]. intros i y Hy. by rewrite lookup_nil in Hy. }
  rewrite fmap_cons in H. apply StronglySorted_cons in H as [Hx Hl].
  destruct (IH Hl) as [Hn Hp]. destruct (less x k) eqn:E.
  - split; [simpl; lia|]. intros [|i] y Hy; simpl in Hy.
    + injection Hy as <-. rewrite E. symmetry. apply bool_decide_eq_true. lia.
    + rewrite (Hp _ _ Hy). apply bool_decide_ext. lia.
  - split; [simpl; lia|]. intros i y Hy. rewrite bool_decide_eq_false_2 by lia.
    destruct i as [|i]; simpl in Hy; [by injection Hy as <-|].
    apply list_elem_of_lookup_2 in Hy. rewrite Forall_fmap, Forall_forall in Hx.
    pose proof (Hx _ Hy) as Hxy. unfold less in *. exact (swb_negtrans _ _ _ Hxy E).
Qed.

(** On a sorted range the halving search is the linear one. *)
Lemma lower_bound_first_not_less l k :
  sorted l -> lower_bound less l k = first_not_less less l k.
Proof. intros H. by apply lower_bound_spec, first_not_less_partition. Qed.
End Searching.

(** [find] of the C++ containers kept sorted by key: the element whose key is
    [k], found by [lower_bound] and one equality test. *)
Definition find_sorted {A K} `{EqDecision K} (ltb : K -> K -> bool) (key_of : A -> K)
    (l : list A) (k : K) : option A :=
  match l !! lower_bound (fun x => ltb (key_of x)) l k with
  | Some x => if key_of x == k then Some x else None
  | None => None
  end.

Section FindSorted.
Context {A K} `{EqDecision K} (ltb : K -> K -> bool) `{!TotalB ltb} (key_of : A -> K).

Let swb : StrictWeakB ltb := total_swb.

Lemma find_sorted_elem l k x :
  find_sorted ltb key_of l k = Some x -> x ∈ l /\ key_of x = k.
Proof.
  unfold find_sorted. destruct (l !! _) eqn:E; [|done]. case_bool_decide; [|done].
  intros [= ->]. split; [by eapply list_elem_of_lookup_2 | done].
Qed.

Lemma find_sorted_complete l x :
  strictly_sorted_by ltb (key_of <$> l) -> x ∈ l ->
  find_sorted ltb key_of l (key_of x) = Some x.
Proof.
  intros Hs Hx. unfold find_sorted. rewrite (lower_bound_first_not_less ltb key_of) by by apply strictly_sorted_sorted.
  induction l as [|y l IH]; [by apply elem_of_nil in Hx|]. simpl.
  rewrite fmap_cons in Hs. apply StronglySorted_cons in Hs as [Hy Hs].
  apply elem_of_cons in Hx as [<-|Hx].
  - rewrite swb_irrefl. simpl. by rewrite bool_decide_eq_true_2.
  - rewrite Forall_fmap, Forall_forall in Hy. rewrite (Hy x Hx). by apply IH.
Qed.

Lemma find_sorted_Some l k x :
  strictly_sorted_by ltb (key_of <$> l) ->
  find_sorted ltb key_of l k = Some x <-> x ∈ l /\ key_of x = k.
Proof.
  intros Hs. split; [apply find_sorted_elem|]. intros [Hx <-]. by apply find_sorted_complete.
Qed.

(** With duplicate keys the search finds the first. *)
Lemma find_sorted_head l k :
  sorted_by ltb (key_of <$> l) ->
  find_sorted ltb key_of l k = head (filter (fun x => key_of x = k) l).
Proof.
  intros Hs. unfold find_sorted. rewrite (lower_bound_first_not_less ltb key_of) by done.
  induction l as [|y l IH]; [done|]. cbn [first_not_less].
  rewrite fmap_cons in Hs. apply StronglySorted_cons in Hs as [Hy Hs].
  rewrite filter_cons. destruct (ltb (key_of y) k) eqn:E.
  - change ((y :: l) !! S ?n) with (l !! n). rewrite IH by done.
    rewrite decide_False; [done|]. intros Ek. by rewrite Ek, swb_irrefl in E.
  - simpl. case_decide as Ek; [by rewrite bool_decide_eq_true_2|].
    rewrite bool_decide_eq_false_2 by done. symmetry.
    destruct (filter _ l) as [|z l'] eqn:Ef; [done|]. exfalso.
    assert (z ∈ filter (fun x => key_of x = k) l) as Hz by (rewrite Ef; by left).
    apply list_elem_of_filter in Hz as [<- Hz]. rewrite Forall_fmap, Forall_forall in Hy.
    apply Ek. apply total_eq; [done|]. by apply (Hy z).
Qed.

Lemma find_sorted_None l k :
  strictly_sorted_by ltb (key_of <$> l) ->
  find_sorted ltb key_of l k = None <-> (forall x, x ∈ l -> key_of x <> k).
Proof.
  intros Hs. split.
  - intros Hn x Hx <-. by rewrite find_sorted_complete in Hn.
  - intros Hn. destruct (find_sorted _ _ _ _) as [x|] eqn:E; [|done].
    apply find_sorted_elem in E as [Hx <-]. by destruct (Hn x Hx).
Qed.
End FindSorted.

(** ** Vectors kept sorted by key: insert-or-replace and erase *)

Section SortedVector.
Context {A K} `{EqDecision K} (ltb : K -> K -> bool) (key_of : A -> K).

Definition position (l : list A) (k : K) : nat := lower_bound (fun x => ltb (key_of x)) l k.

(** The element at the lower bound is replaced when its key matches,
    otherwise the new element is inserted in front of it. *)
Definition has_key (l : list A) (k : K) : bool :=
  match l !! position l k with Some y => key_of y == k | None => false end.
Definition replace_sorted (l : list A) (x : A) : list A := <[position l (key_of x) := x]> l.
Definition insert_sorted (l : list A) (x : A) : list A :=
  let i := position l (key_of x) in take i l ++ x :: drop i l.
Definition erase_sorted (l : list A) (k : K) : list A := delete (position l k) l.

Context `{!TotalB ltb}.
Let swb : StrictWeakB ltb := total_swb.

Definition keys_sorted (l : list A) : Prop := strictly_sorted_by ltb (key_of <$> l).

Lemma keys_sorted_cons x l :
  keys_sorted (x :: l) <->
  (forall y, y ∈ l -> ltb (key_of x) (key_of y) = true) /\ keys_sorted l.
Proof.
  unfold keys_sorted, strictly_sorted_by.
  by rewrite fmap_cons, StronglySorted_cons, Forall_fmap, Forall_forall.
Qed.

Lemma position_cons x l k :
  keys_sorted (x :: l) ->
  position (x :: l) k = if ltb (key_of x) k then S (position l k) else 0%nat.
Proof.
  intros Hs. unfold position. rewrite !(lower_bound_first_not_less ltb key_of); [done|..];
    apply strictly_sorted_sorted; try done. by apply keys_sorted_cons in Hs as [_ ?].
Qed.

Lemma has_key_find l k : has_key l k = bool_decide (is_Some (find_sorted ltb key_of l k)).
Proof.
  unfold has_key, find_sorted, position. destruct (l !! _); [|done]. by case_bool_decide.
Qed.

(** Insert-or-replace, by structural recursion. *)
Fixpoint put (l : list A) (x : A) : list A :=
  match l with
  | [] => [x]
  | y :: l' => if ltb (key_of y) (key_of x) then y :: put l' x
               else if key_of y == key_of x then x :: l' else x :: l
  end.

Lemma put_spec l x :
  keys_sorted l ->
  (if has_key l (key_of x) then replace_sorted l x else insert_sorted l x) = put l x.
Proof.
  induction l as [|y l IH]; intros Hs; [done|].
  unfold has_key, replace_sorted, insert_sorted in *. rewrite position_cons by done.
  apply keys_sorted_cons in Hs as [_ Hs]. specialize (IH Hs). simpl.
  destruct (ltb (key_of y) (key_of x)); simpl; [|by case_bool_decide].
  rewrite <- IH. by repeat case_match.
Qed.

Lemma keys_sorted_app_l l k : keys_sorted (l ++ k) -> keys_sorted l.
Proof.
  induction l as [|x l IH]; intros Hs; [constructor|].
  apply keys_sorted_cons in Hs as [Hx Hs]. apply keys_sorted_cons. split; [|by apply IH].
  intros y Hy. apply Hx, elem_of_app. by left.
Qed.

(** An element whose key comes last is appended. *)
Lemma put_append l x : keys_sorted (l ++ [x]) -> put l x = l ++ [x].
Proof.
  induction l as [|y l IH]; intros Hs; [done|]. apply keys_sorted_cons in Hs as [Hy Hs]. simpl.
  rewrite (Hy x) by (apply elem_of_app; right; by apply list_elem_of_singleton). by rewrite IH.
Qed.

Lemma put_elem l x z :
  keys_sorted l -> z ∈ put l x <-> z = x \/ (z ∈ l /\ key_of z <> key_of x).
Proof.
  induction l as [|y l IH]; intros Hs; simpl.
  { rewrite list_elem_of_singleton. set_solver. }
  apply keys_sorted_cons in Hs as [Hy Hs]. specialize (IH Hs).
  destruct (ltb (key_of y) (key_of x)) eqn:E; [|case_bool_decide as Ek].
  - rewrite !elem_of_cons, IH. split; [|naive_solver].
    intros [->|?]; [right|naive_solver]. split; [by left|].
    intros Ek. by rewrite Ek, swb_irrefl in E.
  - rewrite !elem_of_cons. split; [|naive_solver]. intros [->|Hz]; [by left|right].
    split; [by right|]. intros Ek'. pose proof (Hy z Hz) as C.
    by rewrite Ek', Ek, swb_irrefl in C.
  - rewrite !elem_of_cons. split; [|naive_solver]. intros [->|[->|Hz]]; [by left|right..].
    + split; [by left|done].
    + split; [by right|]. intros Ek'. pose proof (Hy z Hz) as C. rewrite Ek' in C. congruence.
Qed.

Lemma put_sorted l x : keys_sorted l -> keys_sorted (put l x).
Proof.
  induction l as [|y l IH]; intros Hs; simpl.
  { apply keys_sorted_cons. split; [by intros ? ?%elem_of_nil | constructor]. }
  pose proof Hs as Hs0. apply keys_sorted_cons in Hs as [Hy Hs].
  destruct (ltb (key_of y) (key_of x)) eqn:E; [|case_bool_decide as Ek];
    apply keys_sorted_cons.
  - split; [|by apply IH]. intros z [->|[Hz _]]%put_elem; [done| |done]. by apply Hy.
  - rewrite Ek in Hy. by split.
  - split; [|done]. intros z Hz.
    assert (ltb (key_of x) (key_of y) = true) as Hxy.
    { destruct (ltb (key_of x) (key_of y)) eqn:E2; [done|]. destruct Ek. by apply total_eq. }
    apply elem_of_cons in Hz as [->|Hz]; [done|]. eapply swb_trans; [exact Hxy | by apply Hy].
Qed.

Lemma put_length l x :
  keys_sorted l -> length (put l x) = if has_key l (key_of x) then length l else S (length l).
Proof.
  intros Hs. rewrite <- put_spec by done. destruct (has_key _ _); [apply length_insert|].
  unfold insert_sorted. rewrite length_app. simpl. rewrite length_take, length_drop. lia.
Qed.

Lemma find_put l x k :
  keys_sorted l ->
  find_sorted ltb key_of (put l x) k =
    if key_of x == k then Some x else find_sorted ltb key_of l k.
Proof.
  intros Hs. pose proof (put_sorted l x Hs) as Hp. case_bool_decide as Ek.
  - subst k. apply find_sorted_complete; [done..|]. apply put_elem; [done|by left].
  - destruct (find_sorted ltb key_of l k) as [z|] eqn:E.
    + apply find_sorted_Some in E as [Hz <-]; [|done..].
      apply find_sorted_complete; [done..|]. apply put_elem; [done|]. right. naive_solver.
    + apply find_sorted_None; [done..|]. intros z [->|[Hz _]]%put_elem; [done| |done].
      by apply (find_sorted_None ltb key_of l k).
Qed.

Lemma erase_elem l k z :
  keys_sorted l -> has_key l k = true ->
  z ∈ erase_sorted l k <-> z ∈ l /\ key_of z <> k.
Proof.
  unfold erase_sorted, has_key. induction l as [|y l IH]; intros Hs; [done|].
  rewrite position_cons by done. apply keys_sorted_cons in Hs as [Hy Hs].
  destruct (ltb (key_of y) k) eqn:E.
  - change ((y :: l) !! S ?n) with (l !! n). change (delete (S ?n) (y :: l)) with (y :: delete n l).
    intros Hk. rewrite !elem_of_cons, IH by done. split; [|naive_solver].
    intros [->|?]; [|naive_solver]. split; [by left|]. intros Ek. by rewrite Ek, swb_irrefl in E.
  - simpl. intros Hk%bool_decide_eq_true. rewrite elem_of_cons. split; [|naive_solver].
    intros Hz. split; [by right|]. intros Ek. pose proof (Hy z Hz) as C.
    by rewrite Hk, Ek, swb_irrefl in C.
Qed.

Lemma delete_keys_sorted l n : keys_sorted l -> keys_sorted (delete n l).
Proof.
  revert n. induction l as [|y l IH]; intros n Hs; [done|].
  apply keys_sorted_cons in Hs as [Hy Hs]. destruct n as [|n]; [done|].
  change (delete (S n) (y :: l)) with (y :: delete n l). apply keys_sorted_cons.
  split; [|by apply IH]. intros z Hz. apply Hy.
  eapply elem_of_submseteq; [exact Hz|]. apply sublist_submseteq, sublist_delete.
Qed.

Lemma find_erase l k k' :
  keys_sorted l -> has_key l k = true ->
  find_sorted ltb key_of (erase_sorted l k) k' =
    if k == k' then None else find_sorted ltb key_of l k'.
Proof.
  intros Hs Hk. assert (keys_sorted (erase_sorted l k)) as He by by apply delete_keys_sorted.
  case_bool_decide as Ek.
  - subst k'. apply find_sorted_None; [done..|]. by intros z [_ ?]%erase_elem.
  - destruct (find_sorted ltb key_of l k') as [z|] eqn:E.
    + apply find_sorted_Some in E as [Hz <-]; [|done..].
      apply find_sorted_complete; [done..|]. apply erase_elem; naive_solver.
    + apply find_sorted_None; [done..|]. intros z [Hz _]%erase_elem; [|done..].
      by apply (find_sorted_None ltb key_of l k').
Qed.
End SortedVector.

Section BinarySearchSpec.
Context {A} `{EqDecision A} (ltb : A -> A -> bool) `{!TotalB ltb}.

Let swb : StrictWeakB ltb := total_swb.

(** Membership in a canonical list is what [binary_search] decides. *)
Lemma binary_search_elem (l : list A) v :
  strictly_sorted_by ltb l -> binary_search ltb l v = bool_decide (v ∈ l).
Proof.
  intros Hs. unfold binary_search.
  replace (lower_bound ltb l v) with (first_not_less ltb l v).
  2: { symmetry. apply (lower_bound_first_not_less ltb (fun x => x)).
       rewrite list_fmap_id. by apply strictly_sorted_sorted. }
  induction l as [|y l IH]; [done|]. cbn [first_not_less].
  apply StronglySorted_cons in Hs as [Hy Hs]. destruct (ltb y v) eqn:E.
  - change ((y :: l) !! S ?n) with (l !! n). rewrite IH by done.
    apply bool_decide_ext. rewrite elem_of_cons. split; [by right|].
    intros [->|?]; [by rewrite swb_irrefl in E|done].
  - simpl. apply eq_true_iff_eq. rewrite negb_true_iff, bool_decide_eq_true, elem_of_cons. split.
    + intros Hvy. left. by apply total_eq.
    + intros [->|Hv]; [apply swb_irrefl|]. rewrite Forall_forall in Hy.
      apply swb_asym; [done|]. by apply Hy.
Qed.
End BinarySearchSpec.

(** ** Sorting a vector by key and keeping the first of each key *)

Section SortUniqueBy.
Context {A K} `{EqDecision K} (ltb : K -> K -> bool) (key_of : A -> K).

Definition key_less (x y : A) : bool := ltb (key_of x) (key_of y).

Definition sort_unique_by (l : list A) : list A :=
  unique (fun x y => key_of x == key_of y) (stable_sort key_less l).

Context `{!TotalB ltb}.

#[local] Instance key_less_swb : StrictWeakB key_less := swb_on ltb key_of (StrictWeakB0 := total_swb).

Lemma key_eqb_incomparable x y :
  key_of x == key_of y = negb (key_less x y) && negb (key_less y x).
Proof. apply (total_eqb_incomparable ltb). Qed.

Lemma strictly_sorted_by_keys l :
  strictly_sorted_by key_less l <-> keys_sorted ltb key_of l.
Proof.
  unfold keys_sorted, strictly_sorted_by, key_less.
  induction l as [|x l IH]; [by split; constructor|].
  by rewrite fmap_cons, !StronglySorted_cons, IH, Forall_fmap.
Qed.

Lemma sort_unique_by_sorted l : keys_sorted ltb key_of (sort_unique_by l).
Proof.
  apply strictly_sorted_by_keys, (sort_unique_strict key_less _ key_eqb_incomparable).
Qed.

Lemma sort_unique_by_id l : keys_sorted ltb key_of l -> sort_unique_by l = l.
Proof.
  intros Hl%strictly_sorted_by_keys. exact (sort_unique_id key_less _ key_eqb_incomparable _ Hl).
Qed.

(** Without duplicate keys the result does not depend on the order. *)
Lemma sort_unique_by_perm l1 l2 :
  l1 ≡ₚ l2 -> NoDup (key_of <$> l1) -> sort_unique_by l1 = sort_unique_by l2.
Proof.
  intros Hp Hn. unfold sort_unique_by. f_equal.
  refine (stable_sort_perm_keys key_less key_of l1 l2 _ (fun x y => total_eq (ltb := ltb) (key_of x) (key_of y)) Hp Hn).
Qed.

(** The first element with a key survives [unique]. *)
Lemma head_filter_unique_after k x l :
  key_of x <> k ->
  head (filter (fun y => key_of y = k) (unique_after (fun x y => key_of x == key_of y) x l)) =
  head (filter (fun y => key_of y = k) l).
Proof.
  revert x. induction l as [|y l IH]; intros x Hx; simpl; [done|].
  case_bool_decide as E.
  - rewrite IH by done. rewrite filter_cons_False; [done|]. congruence.
  - rewrite !filter_cons. case_decide as Ey; [done|]. by apply IH.
Qed.

Lemma head_filter_unique k l :
  head (filter (fun y => key_of y = k) (unique (fun x y => key_of x == key_of y) l)) =
  head (filter (fun y => key_of y = k) l).
Proof.
  destruct l as [|x l]; [done|]. simpl. rewrite !filter_cons. case_decide; [done|].
  by apply head_filter_unique_after.
Qed.

Lemma find_sort_unique_by l k :
  find_sorted ltb key_of (sort_unique_by l) k = head (filter (fun x => key_of x = k) l).
Proof.
  rewrite (find_sorted_head ltb key_of) by
    exact (strictly_sorted_sorted (StrictWeakB0 := total_swb) ltb _ (sort_unique_by_sorted l)).
  unfold sort_unique_by. rewrite head_filter_unique, stable_sort_filter; [done|].
  intros x y <- E. unfold key_less. rewrite E. apply (swb_irrefl (StrictWeakB := total_swb)).
Qed.
End SortUniqueBy.

(** ** Chains of early returns *)

(** A check that returns [e] leaves the chain's result at [a] only when its
    condition is false. *)
Lemma return_if_eq {A} (c : bool) (e k a : A) :
  e <> a -> (return_if c with e ;; k) = a <-> c = false /\ k = a.
Proof. destruct c; naive_solver. Qed.

(** Rewrite a chain of early returns, each with a result other than the one
    the chain is equated with, into the conjunction of its negated guards. *)
Ltac early_returns :=
  repeat (rewrite return_if_eq; [|first [discriminate | assumption]]).
