(* ===== verification/Bytes.v ===== *)
(** * Bytes and little-endian words

    What the checksum, the durable format and the wire protocol share: a byte
    is an integer from 0 to 255, a buffer a list of bytes, and a word is spread
    over its bytes from the least significant one upwards. *)
From S2P Require Import Prelude.

Definition is_byte (b : Z) : Prop := 0 <= b < 256.
Definition is_u32 (x : Z) : Prop := 0 <= x < 2 ^ 32.
#[export] Instance is_byte_dec b : Decision (is_byte b) := _.
#[export] Instance is_u32_dec x : Decision (is_u32 x) := _.

(** [static_cast<std::uint8_t>(x & 0xFFu)]. *)
Definition low_byte (x : Z) : Z := Z.land x 255.

(** The word whose bytes these are. *)
Fixpoint le_word (bytes : list Z) : Z :=
  match bytes with
  | [] => 0
  | b :: bytes => Z.lor b (Z.shiftl (le_word bytes) 8)
  end.

(** The [n] low bytes of a word. *)
Fixpoint le_bytes (n : nat) (x : Z) : list Z :=
  match n with
  | O => []
  | S n => low_byte x :: le_bytes n (Z.shiftr x 8)
  end.

(** ** Facts *)

Lemma low_byte_mod x : low_byte x = x mod 256.
Proof. unfold low_byte. change 255 with (Z.ones 8). by rewrite Z.land_ones by lia. Qed.

Lemma low_byte_is_byte x : is_byte (low_byte x).
Proof. rewrite low_byte_mod. unfold is_byte. pose proof (Z.mod_pos_bound x 256). lia. Qed.

Lemma low_byte_id b : is_byte b -> low_byte b = b.
Proof. intros H. rewrite low_byte_mod. by apply Z.mod_small. Qed.

(** A byte and a shifted word have no bit in common: their disjunction is the
    sum. *)
Lemma land_byte b w : is_byte b -> Z.land b (Z.shiftl w 8) = 0.
Proof.
  intros Hb. apply Z.bits_inj'. intros n Hn. rewrite Z.land_spec, Z.bits_0.
  destruct (Z.ltb_spec n 8); [by rewrite (Z.shiftl_spec_low w), andb_false_r by lia|].
  rewrite <- (Z.mod_small b (2 ^ 8)) by done. by rewrite Z.mod_pow2_bits_high by lia.
Qed.

Lemma lor_byte b w : is_byte b -> Z.lor b (Z.shiftl w 8) = b + 256 * w.
Proof.
  intros Hb. rewrite <- Z.lxor_lor, <- Z.add_nocarry_lxor by by apply land_byte.
  rewrite Z.shiftl_mul_pow2 by lia. lia.
Qed.

Lemma le_word_cons b bytes : is_byte b -> le_word (b :: bytes) = b + 256 * le_word bytes.
Proof. apply lor_byte. Qed.

Lemma le_word_bound bytes :
  Forall is_byte bytes -> 0 <= le_word bytes < 256 ^ Z.of_nat (length bytes).
Proof.
  induction 1 as [|b bytes Hb _ IH]; [done|].
  rewrite le_word_cons by done. simpl length. rewrite Nat2Z.inj_succ, Z.pow_succ_r by lia.
  unfold is_byte in Hb. lia.
Qed.

Lemma le_word_inj xs ys :
  Forall is_byte xs -> Forall is_byte ys -> length xs = length ys -> le_word xs = le_word ys -> xs = ys.
Proof.
  intros Hx. revert ys. induction Hx as [|x xs Hx _ IH]; intros ys Hy Hl E; [by destruct ys|].
  destruct Hy as [|y ys Hy Hys]; [done|]. rewrite !le_word_cons in E by done. unfold is_byte in *.
  assert (x = y) as -> by lia. f_equal. apply IH; [done| |lia]. simpl in Hl. lia.
Qed.

Lemma le_bytes_length n x : length (le_bytes n x) = n.
Proof. revert x. induction n; intros x; simpl; [done|]. by rewrite IHn. Qed.

Lemma le_bytes_are_bytes n x : Forall is_byte (le_bytes n x).
Proof. revert x. induction n; intros x; simpl; constructor; auto using low_byte_is_byte. Qed.

Lemma le_word_bytes n x : le_word (le_bytes n x) = x mod 256 ^ Z.of_nat n.
Proof.
  revert x. induction n as [|n IH]; intros x; [simpl; by rewrite Z.mod_1_r|].
  simpl le_bytes. rewrite le_word_cons by apply low_byte_is_byte. rewrite IH, low_byte_mod.
  rewrite Nat2Z.inj_succ, Z.pow_succ_r, Z.shiftr_div_pow2 by lia. change (2 ^ 8) with 256.
  rewrite (Z.rem_mul_r x 256) by lia. lia.
Qed.

Lemma le_bytes_word bytes : Forall is_byte bytes -> le_bytes (length bytes) (le_word bytes) = bytes.
Proof.
  intros H. apply le_word_inj; [apply le_bytes_are_bytes|done|apply le_bytes_length|].
  rewrite le_word_bytes. apply Z.mod_small. by apply le_word_bound.
Qed.

(** Strings as buffers. *)
Fixpoint string_of_bytes (bytes : list Z) : string :=
  match bytes with
  | [] => EmptyString
  | b :: bytes => String (Ascii.ascii_of_N (Z.to_N b)) (string_of_bytes bytes)
  end.

Lemma string_codes_bytes s : Forall is_byte (string_codes s).
Proof.
  induction s as [|c s IH]; simpl; constructor; [|done]. unfold is_byte, ascii_code.
  pose proof (Ascii.N_ascii_bounded c). lia.
Qed.

Lemma string_of_codes s : string_of_bytes (string_codes s) = s.
Proof.
  induction s as [|c s IH]; simpl; [done|]. unfold ascii_code. by rewrite N2Z.id, Ascii.ascii_N_embedding, IH.
Qed.

Lemma string_codes_length s : length (string_codes s) = String.length s.
Proof. induction s; simpl; congruence. Qed.
