(* ===== verification/Ids.v ===== *)
(** * Identities and generations ([include/model_router/ids.hpp], [src/ids.cpp])

    [EntityId<Tag>] and [Generation<Tag>] are 64-bit values with a phantom
    tag, so identities of different kinds stay different types here as well.
    [IdAllocator] is the process-wide counter: its atomic cell is the state
    that [next] and [observe] thread. *)
From S2P Require Import Prelude.

(** The identity tags. *)
Inductive Tag :=
| RouterTag | RouterBootTag | RouterEpochTag | CoordinatorEpochTag
| RouteRequestTag | RouteDecisionTag | RoutePlanTag | DispatchTag
| ModelTag | ModelVersionTag | ArtifactTag | ModelFamilyTag
| ProviderTag | BackendTag | BackendBootTag | BackendRegistrationTag
| EndpointTag | SessionTag
| CapabilityTag | CapabilityProfileTag | HealthTag | AvailabilityTag
| ReadinessTag | ResidencyTag | CapacityTag | ReservationTag
| PolicyTag | BudgetTag | CostEvidenceTag | PriceTag | SloTag
| CompatibilityTag | TrustTag
| TenantTag | NamespaceTag | CorrelationTag.

Record EntityId (t : Tag) := EntityIdOf { id_value : Z }.
Record Generation (t : Tag) := GenerationOf { generation_value : Z }.
Arguments EntityIdOf {_} _.
Arguments GenerationOf {_} _.
Arguments id_value {_} _.
Arguments generation_value {_} _.

(** What both templates promise: a value that determines the identity. *)
Class Identity (A : Type) := {
  value : A -> Z;
  of_value : Z -> A;
  of_value_value : forall x, of_value (value x) = x
}.

#[export] Instance entity_id_identity t : Identity (EntityId t).
Proof. refine {| value := id_value; of_value := EntityIdOf |}. by intros []. Defined.

#[export] Instance generation_identity t : Identity (Generation t).
Proof. refine {| value := generation_value; of_value := GenerationOf |}. by intros []. Defined.

(** [operator==] and [operator<=>] compare the value. *)
#[export] Instance value_inj `{Identity A} : Inj (=) (=) (value (A := A)).
Proof. intros x y E. by rewrite <- (of_value_value x), <- (of_value_value y), E. Qed.

#[export] Instance entity_id_eq_dec t : EqDecision (EntityId t).
Proof. solve_decision. Defined.
#[export] Instance generation_eq_dec t : EqDecision (Generation t).
Proof. solve_decision. Defined.

#[export] Instance entity_id_countable t : Countable (EntityId t).
Proof. by apply (inj_countable' id_value EntityIdOf); intros []. Defined.
#[export] Instance generation_countable t : Countable (Generation t).
Proof. by apply (inj_countable' generation_value GenerationOf); intros []. Defined.

Section Identity.
Context `{Identity A}.

(** Value 0 is the invalid identity. *)
Definition valid (x : A) : bool := negb (value x =? 0).

(** The default-constructed identity. *)
Definition none : A := of_value 0.

Definition id_ltb (x y : A) : bool := value x <? value y.

#[export] Instance id_ltb_total : TotalB id_ltb.
Proof. apply (total_on Z.ltb value). Qed.
End Identity.

(** ** Generations *)

(** [Generation::kMax]. *)
Definition generation_max : Z := u64_max.

(** Saturates instead of wrapping into a previously valid value. *)
Definition next {t} (g : Generation t) : Generation t :=
  GenerationOf (if generation_value g =? generation_max
                then generation_max else generation_value g + 1).

(** [to_string] of an identity or generation. *)
Definition id_to_string `{Identity A} (x : A) : string :=
  if valid x then to_string_int (value x) else "none".

(** ** The identity allocator *)

(** [kCeiling]. *)
Definition id_ceiling : Z := u64_max.

(** The atomic cell [g_highest_issued]. *)
Definition Allocator := Z.

(** [IdAllocator::next]: the successful compare-exchange. *)
Definition allocator_next (highest : Allocator) : Z * Allocator :=
  if id_ceiling <=? highest then (id_ceiling, highest)
  else (highest + 1, highest + 1).

(** [IdAllocator::observe]. *)
Definition allocator_observe (seen : Z) (highest : Allocator) : Allocator :=
  if id_ceiling <? seen then highest
  else if highest <? seen then seen else highest.

(** [IdAllocator::highest_issued]. *)
Definition allocator_highest_issued (highest : Allocator) : Z := highest.

(** [allocate_id<Tag>()]. *)
Definition allocate_id (t : Tag) (highest : Allocator) : EntityId t * Allocator :=
  let '(v, highest) := allocator_next highest in (EntityIdOf v, highest).

(** One call made by some thread: the compare-exchange makes each call one
    atomic step on the cell. *)
Inductive AllocatorCall := CallNext | CallObserve (seen : Z).

Fixpoint allocator_run (calls : list AllocatorCall) (highest : Allocator) : list Z * Allocator :=
  match calls with
  | [] => ([], highest)
  | CallNext :: calls =>
      let '(v, highest) := allocator_next highest in
      let '(vs, highest) := allocator_run calls highest in (v :: vs, highest)
  | CallObserve seen :: calls => allocator_run calls (allocator_observe seen highest)
  end.

(** ** Facts *)

Lemma next_in_range {t} (g : Generation t) :
  in_u64 (generation_value g) -> in_u64 (generation_value (next g)).
Proof. unfold in_u64, next, generation_max, u64_max. simpl. case_match; lia. Qed.

Lemma next_advances {t} (g : Generation t) :
  0 <= generation_value g < generation_max -> generation_value g < generation_value (next g).
Proof. unfold next. simpl. destruct (_ =? _) eqn:Heqb; [|lia]. apply Z.eqb_eq in Heqb. lia. Qed.

Lemma next_valid {t} (g : Generation t) : 0 <= generation_value g -> valid (next g) = true.
Proof. unfold valid, next, generation_max, u64_max. simpl. case_match; lia. Qed.

Lemma allocator_next_bounds h v h' :
  0 <= h <= id_ceiling -> allocator_next h = (v, h') -> h <= h' <= id_ceiling /\ v = h' /\ 0 < v.
Proof.
  unfold allocator_next, id_ceiling, u64_max. intros ?. case_match; intros [= <- <-]; lia.
Qed.

Lemma allocator_observe_bounds s h :
  0 <= h <= id_ceiling -> h <= allocator_observe s h <= id_ceiling.
Proof. unfold allocator_observe. repeat case_match; lia. Qed.

Lemma allocator_run_bounds calls h vs h' :
  0 <= h <= id_ceiling -> allocator_run calls h = (vs, h') ->
  h <= h' <= id_ceiling /\ Forall (fun v => h <= v <= h' /\ 0 < v) vs.
Proof.
  revert h vs h'. induction calls as [|[|s] calls IH]; intros h vs h' Hh; simpl.
  - intros [= <- <-]. split; [lia | constructor].
  - destruct (allocator_next h) as [v h1] eqn:E1.
    destruct (allocator_run calls h1) as [vs1 h2] eqn:E2. intros [= <- <-].
    destruct (allocator_next_bounds _ _ _ Hh E1) as [? [-> ?]].
    destruct (IH h1 vs1 h2 ltac:(lia) E2) as [? Hvs]. split; [lia|].
    constructor; [lia|]. eapply Forall_impl; [exact Hvs|]. simpl. intros; lia.
  - intros E. pose proof (allocator_observe_bounds s h Hh).
    destruct (IH (allocator_observe s h) vs h' ltac:(lia) E) as [? Hvs]. split; [lia|].
    eapply Forall_impl; [exact Hvs|]. simpl. intros; lia.
Qed.

(** ** Properties *)

(** C38: Identities are never reused below the ceiling.  Whatever calls to
    [next] and [observe] interleave, as long as the cell has not reached the
    ceiling, the identities handed out are strictly increasing, all above the
    value the cell started from, and valid. *)
Theorem allocator_unique calls h vs h' :
  0 <= h <= id_ceiling -> allocator_run calls h = (vs, h') -> h' < id_ceiling ->
  StronglySorted Z.lt vs /\ Forall (fun v => h < v <= h') vs.
Proof.
  revert h vs h'. induction calls as [|[|s] calls IH]; intros h vs h' Hh; simpl.
  - intros [= <- <-] _. split; constructor.
  - destruct (allocator_next h) as [v h1] eqn:E1.
    destruct (allocator_run calls h1) as [vs1 h2] eqn:E2. intros [= <- <-] Hlt.
    destruct (allocator_next_bounds _ _ _ Hh E1) as [? [-> ?]].
    destruct (allocator_run_bounds calls h1 vs1 h2 ltac:(lia) E2) as [? _].
    assert (h1 = h + 1) as -> by (unfold allocator_next in E1; case_match; [lia | congruence]).
    destruct (IH (h + 1) vs1 h2 ltac:(lia) E2 Hlt) as [Hs Hf].
    split; constructor; try done; try lia; (eapply Forall_impl; [exact Hf|]); simpl; intros; lia.
  - intros E Hlt. pose proof (allocator_observe_bounds s h Hh).
    destruct (IH (allocator_observe s h) vs h' ltac:(lia) E Hlt) as [Hs Hf]. split; [done|].
    eapply Forall_impl; [exact Hf|]. simpl. intros; lia.
Qed.

Lemma allocator_unique_witness :
  allocator_run [CallNext; CallObserve 10; CallNext] 4 = ([5; 11], 11) /\
  StronglySorted Z.lt [5; 11].
Proof.
  split; [reflexivity|].
  apply (allocator_unique [CallNext; CallObserve 10; CallNext] 4 [5; 11] 11);
    [vm_compute; split; discriminate | reflexivity | reflexivity].
Defined.

(** At the ceiling the allocator aliases: every further call returns the
    ceiling identity again, valid and already issued. *)
Theorem allocator_ceiling_aliases t :
  allocate_id t id_ceiling = (EntityIdOf id_ceiling, id_ceiling) /\
  fst (allocate_id t (id_ceiling - 1)) = fst (allocate_id t id_ceiling) /\
  valid (fst (allocate_id t id_ceiling)) = true.
Proof. by vm_compute. Qed.
