(* ===== verification/Sha256.v ===== *)
(** * SHA-256 ([detail/sha256.hpp], [src/detail/sha256.cpp])

    The streaming digest behind every semantic digest of the router.  Words
    are 32-bit values with the wrap-around of [std::uint32_t]; bytes are
    values below 256; the buffer keeps the first [buffer_size_] bytes. *)
From S2P Require Import Prelude.

(** ** 32-bit words *)

Definition word32 (x : Z) : Z := Z.land x u32_max.
Definition add32 (x y : Z) : Z := word32 (x + y).
Definition not32 (x : Z) : Z := Z.lxor x u32_max.
Definition rotr (v bits : Z) : Z := Z.lor (Z.shiftr v bits) (word32 (Z.shiftl v (32 - bits))).

(** One line of the table. *)
Definition row (a b c d e f g : Z) : list Z := [a; b; c; d; e; f; g].

Definition kRoundConstants : list Z :=
  row 0x428a2f98 0x71374491 0xb5c0fbcf 0xe9b5dba5 0x3956c25b 0x59f111f1 0x923f82a4 ++
  row 0xab1c5ed5 0xd807aa98 0x12835b01 0x243185be 0x550c7dc3 0x72be5d74 0x80deb1fe ++
  row 0x9bdc06a7 0xc19bf174 0xe49b69c1 0xefbe4786 0x0fc19dc6 0x240ca1cc 0x2de92c6f ++
  row 0x4a7484aa 0x5cb0a9dc 0x76f988da 0x983e5152 0xa831c66d 0xb00327c8 0xbf597fc7 ++
  row 0xc6e00bf3 0xd5a79147 0x06ca6351 0x14292967 0x27b70a85 0x2e1b2138 0x4d2c6dfc ++
  row 0x53380d13 0x650a7354 0x766a0abb 0x81c2c92e 0x92722c85 0xa2bfe8a1 0xa81a664b ++
  row 0xc24b8b70 0xc76c51a3 0xd192e819 0xd6990624 0xf40e3585 0x106aa070 0x19a4c116 ++
  row 0x1e376c08 0x2748774c 0x34b0bcb5 0x391c0cb3 0x4ed8aa4a 0x5b9cca4f 0x682e6ff3 ++
  row 0x748f82ee 0x78a5636f 0x84c87814 0x8cc70208 0x90befffa 0xa4506ceb 0xbef9a3f7 ++
  [0xc67178f2].
(** The eight working variables. *)
Record Sha256State := Sha256StateOf {
  sh_a : Z; sh_b : Z; sh_c : Z; sh_d : Z; sh_e : Z; sh_f : Z; sh_g : Z; sh_h : Z
}.

Definition initial_state : Sha256State :=
  Sha256StateOf 0x6a09e667 0xbb67ae85 0x3c6ef372 0xa54ff53a 0x510e527f 0x9b05688c 0x1f83d9ab
                0x5be0cd19.

(** ** The block function *)

Fixpoint schedule_head (block : list Z) (words : nat) : list Z :=
  match words, block with
  | S words, b0 :: b1 :: b2 :: b3 :: block =>
      Z.lor (Z.lor (Z.shiftl b0 24) (Z.shiftl b1 16)) (Z.lor (Z.shiftl b2 8) b3)
        :: schedule_head block words
  | _, _ => []
  end.

Definition schedule_next (schedule : list Z) (index : nat) : Z :=
  let at_ k := nth (index - k) schedule 0 in
  let s0 := Z.lxor (Z.lxor (rotr (at_ 15%nat) 7) (rotr (at_ 15%nat) 18)) (Z.shiftr (at_ 15%nat) 3) in
  let s1 := Z.lxor (Z.lxor (rotr (at_ 2%nat) 17) (rotr (at_ 2%nat) 19)) (Z.shiftr (at_ 2%nat) 10) in
  add32 (add32 (add32 (at_ 16%nat) s0) (at_ 7%nat)) s1.

Definition schedule (block : list Z) : list Z :=
  fold_left (fun w index => w ++ [schedule_next w index]) (seq 16 48) (schedule_head block 16).

Definition round (s : Sha256State) (kw : Z * Z) : Sha256State :=
  let (k, w) := kw in
  let '(Sha256StateOf a b c d e f g h) := s in
  let s1 := Z.lxor (Z.lxor (rotr e 6) (rotr e 11)) (rotr e 25) in
  let ch := Z.lxor (Z.land e f) (Z.land (not32 e) g) in
  let temp1 := add32 (add32 (add32 (add32 h s1) ch) k) w in
  let s0 := Z.lxor (Z.lxor (rotr a 2) (rotr a 13)) (rotr a 22) in
  let maj := Z.lxor (Z.lxor (Z.land a b) (Z.land a c)) (Z.land b c) in
  let temp2 := add32 s0 maj in
  Sha256StateOf (add32 temp1 temp2) a b c (add32 d temp1) e f g.

Definition transform (s : Sha256State) (block : list Z) : Sha256State :=
  let r := fold_left round (zip kRoundConstants (schedule block)) s in
  Sha256StateOf (add32 (sh_a s) (sh_a r)) (add32 (sh_b s) (sh_b r)) (add32 (sh_c s) (sh_c r))
                (add32 (sh_d s) (sh_d r)) (add32 (sh_e s) (sh_e r)) (add32 (sh_f s) (sh_f r))
                (add32 (sh_g s) (sh_g r)) (add32 (sh_h s) (sh_h r)).

(** ** Streaming *)

Record Sha256 := {
  sha_state : Sha256State;
  sha_buffer : list Z;
  sha_total_bytes : Z
}.

Definition sha256_init : Sha256 :=
  {| sha_state := initial_state; sha_buffer := []; sha_total_bytes := 0 |}.

(** The loop [while (offset + 64 <= size) transform(bytes + offset)]; [fuel]
    bounds the number of whole blocks. *)
Fixpoint transform_blocks (fuel : nat) (s : Sha256State) (bytes : list Z) : Sha256State * list Z :=
  match fuel with
  | O => (s, bytes)
  | S fuel =>
      if (64 <=? length bytes)%nat
      then transform_blocks fuel (transform s (take 64 bytes)) (drop 64 bytes)
      else (s, bytes)
  end.

Definition update (bytes : list Z) (h : Sha256) : Sha256 :=
  return_if bytes == [] with h ;;
  let total := word64 (sha_total_bytes h + Z.of_nat (length bytes)) in
  let buffer_size := length (sha_buffer h) in
  let taken := if (buffer_size =? 0)%nat then 0%nat
               else Nat.min (length bytes) (64 - buffer_size) in
  let buffer := sha_buffer h ++ take taken bytes in
  let rest := drop taken bytes in
  let '(s, buffer) :=
    if (length buffer =? 64)%nat then (transform (sha_state h) buffer, [])
    else (sha_state h, buffer) in
  let '(s, tail) := transform_blocks (length rest) s rest in
  {| sha_state := s; sha_buffer := match tail with [] => buffer | _ => tail end;
     sha_total_bytes := total |}.

Definition length_bytes (bit_length : Z) : list Z :=
  (fun i => Z.land (Z.shiftr bit_length ((7 - Z.of_nat i) * 8)) 255) <$> seq 0 8.

Definition word_bytes (w : Z) : list Z :=
  [Z.land (Z.shiftr w 24) 255; Z.land (Z.shiftr w 16) 255; Z.land (Z.shiftr w 8) 255; Z.land w 255].

Definition state_bytes (s : Sha256State) : list Z :=
  word_bytes (sh_a s) ++ word_bytes (sh_b s) ++ word_bytes (sh_c s) ++ word_bytes (sh_d s) ++
  word_bytes (sh_e s) ++ word_bytes (sh_f s) ++ word_bytes (sh_g s) ++ word_bytes (sh_h s).

Definition pad_length (buffer_size : nat) : nat :=
  if (buffer_size <? 56)%nat then (56 - buffer_size)%nat else (120 - buffer_size)%nat.

(** [finish]: pad with 0x80 and zeros, append the bit length, read the state. *)
Definition finish (h : Sha256) : list Z :=
  let bit_length := word64 (sha_total_bytes h * 8) in
  let padding := take (pad_length (length (sha_buffer h))) (0x80 :: repeat 0 71) in
  state_bytes (sha_state (update (length_bytes bit_length) (update padding h))).

Definition string_bytes (s : string) : list Z := string_codes s.

Definition sha256 (text : string) : list Z := finish (update (string_bytes text) sha256_init).

Definition kHex (nibble : Z) : Ascii.ascii :=
  Ascii.ascii_of_N (Z.to_N (if nibble <? 10 then 48 + nibble else 87 + nibble)).

Fixpoint to_hex (digest : list Z) : string :=
  match digest with
  | [] => ""
  | byte :: digest => String (kHex (Z.shiftr byte 4)) (String (kHex (Z.land byte 15)) (to_hex digest))
  end.

Definition sha256_hex (text : string) : string := to_hex (sha256 text).

(** ** Facts about block absorption *)

Definition absorb (s : Sha256State) (l : list Z) : Sha256State * list Z :=
  transform_blocks (length l) s l.

Lemma transform_blocks_fuel n m s l :
  (length l <= n)%nat -> (length l <= m)%nat -> transform_blocks n s l = transform_blocks m s l.
Proof.
  revert m s l. induction n as [|n IH]; intros m s l Hn Hm.
  - destruct l; [by destruct m | simpl in Hn; lia].
  - destruct m as [|m]; [by destruct l; [|simpl in Hm; lia]|]. cbn [transform_blocks].
    destruct (Nat.leb_spec 64 (length l)); [|done].
    apply IH; rewrite length_drop; lia.
Qed.

Lemma absorb_step s l :
  (64 <= length l)%nat -> absorb s l = absorb (transform s (take 64 l)) (drop 64 l).
Proof.
  intros Hl. unfold absorb at 1. destruct (length l) as [|n] eqn:E; [lia|].
  cbn [transform_blocks]. rewrite E. destruct (Nat.leb_spec 64 (S n)); [|lia].
  apply transform_blocks_fuel; rewrite length_drop; lia.
Qed.

Lemma absorb_short s l : (length l < 64)%nat -> absorb s l = (s, l).
Proof.
  intros Hl. unfold absorb. destruct (length l) as [|n] eqn:E; [done|].
  cbn [transform_blocks]. rewrite E. destruct (Nat.leb_spec 64 (S n)); [lia|done].
Qed.

(** Induction on whole blocks. *)
Lemma block_ind (P : list Z -> Prop) :
  (forall l, (length l < 64)%nat -> P l) ->
  (forall l, (64 <= length l)%nat -> P (drop 64 l) -> P l) -> forall l, P l.
Proof.
  intros Hs Hl l. induction l as [l IH] using (induction_ltof1 _ (@length Z)).
  destruct (decide (length l < 64)%nat) as [H|H]; [by apply Hs|].
  apply Hl; [lia|]. apply IH. unfold ltof. rewrite length_drop. lia.
Qed.

Lemma absorb_tail s l : (length (absorb s l).2 < 64)%nat.
Proof.
  revert s. induction l as [l Hl|l Hl IH] using block_ind; intros s.
  - by rewrite absorb_short.
  - by rewrite absorb_step.
Qed.

Lemma absorb_app s x y :
  absorb s (x ++ y) = absorb (absorb s x).1 ((absorb s x).2 ++ y).
Proof.
  revert s. induction x as [x Hx|x Hx IH] using block_ind; intros s.
  - by rewrite (absorb_short s x).
  - rewrite (absorb_step s x) by done. rewrite absorb_step by (rewrite length_app; lia).
    rewrite take_app_le, drop_app_le by lia. apply IH.
Qed.

Definition sha_wf (h : Sha256) : Prop := (length (sha_buffer h) < 64)%nat.

Lemma word64_word64 x y : word64 (word64 x + y) = word64 (x + y).
Proof.
  unfold word64. change u64_max with (Z.ones 64). rewrite !Z.land_ones by lia.
  apply Zplus_mod_idemp_l.
Qed.

(** [update] absorbs the buffered bytes followed by the new ones. *)
Lemma update_absorb x h :
  sha_wf h -> x <> [] ->
  update x h = {| sha_state := (absorb (sha_state h) (sha_buffer h ++ x)).1;
                  sha_buffer := (absorb (sha_state h) (sha_buffer h ++ x)).2;
                  sha_total_bytes := word64 (sha_total_bytes h + Z.of_nat (length x)) |}.
Proof.
  unfold sha_wf. intros Hh Hx. unfold update. rewrite bool_decide_eq_false_2 by done. cbv zeta.
  fold (absorb (sha_state h)). destruct h as [s b total]. simpl in *.
  destruct (Nat.eqb_spec (length b) 0) as [E|E].
  - apply length_zero_iff_nil in E as ->. cbn [app length Nat.eqb].
    rewrite drop_0, take_0. unfold absorb. cbn [app length Nat.eqb].
    by destruct (transform_blocks (length x) s x) as [s' []].
  - set (n := Nat.min (length x) (64 - length b)).
    destruct (Nat.eqb_spec (length (b ++ take n x)) 64) as [E64|E64];
      rewrite length_app, length_take in E64.
    + fold (absorb (transform s (b ++ take n x)) (drop n x)).
      assert (absorb s (b ++ x) = absorb (transform s (b ++ take n x)) (drop n x)) as Ha.
      { rewrite <- (take_drop n x) at 1. rewrite app_assoc, absorb_step
          by (rewrite !length_app, length_take; lia).
        rewrite take_app_length', drop_app_length' by (rewrite length_app, length_take; lia).
        done. }
      rewrite Ha. by destruct (absorb _ (drop n x)) as [s' []].
    + assert (n = length x) as Hn by lia. rewrite Hn, drop_all, firstn_all. simpl.
      rewrite absorb_short by (rewrite length_app; lia). done.
Qed.

Lemma update_wf x h : sha_wf h -> sha_wf (update x h).
Proof.
  intros Hh. destruct (decide (x = [])) as [->|Hx]; [done|].
  rewrite update_absorb by done. apply absorb_tail.
Qed.

Lemma sha256_init_wf : sha_wf sha256_init.
Proof. unfold sha_wf. simpl. lia. Qed.

(** ** The reference digest: pad the whole message, then fold its blocks *)

Fixpoint chunks (n : nat) (l : list Z) : list (list Z) :=
  match n with O => [] | S n => take 64 l :: chunks n (drop 64 l) end.

(** 0x80, the zeros that leave 8 bytes of the last block, the bit length. *)
Definition padded (message : list Z) : list Z :=
  message ++ 0x80 :: repeat 0 ((119 - length message mod 64) mod 64) ++
  length_bytes (word64 (8 * Z.of_nat (length message))).

Definition sha256_reference (message : list Z) : list Z :=
  state_bytes (fold_left transform (chunks (length (padded message) / 64) (padded message))
                         initial_state).

Lemma absorb_chunks n s l :
  length l = (64 * n)%nat -> absorb s l = (fold_left transform (chunks n l) s, []).
Proof.
  revert s l. induction n as [|n IH]; intros s l Hl.
  - by destruct l.
  - rewrite absorb_step by lia. simpl. apply IH. rewrite length_drop. lia.
Qed.

Lemma absorb_snd_length s l : length (absorb s l).2 = (length l mod 64)%nat.
Proof.
  revert s. induction l as [l Hl|l Hl IH] using block_ind; intros s.
  - rewrite absorb_short by done. cbn [snd]. by rewrite Nat.mod_small.
  - rewrite absorb_step, IH, length_drop by done.
    rewrite <- (Nat.Div0.mod_add (length l - 64) 1 64). f_equal. lia.
Qed.

Lemma padding_bytes n :
  (n < 64)%nat ->
  take (pad_length n) (0x80 :: repeat 0 71) = 0x80 :: repeat 0 ((119 - n) mod 64).
Proof.
  intros Hn. do 64 (destruct n as [|n]; [reflexivity|]). lia.
Qed.

Lemma padded_length message : (64 | length (padded message))%nat.
Proof.
  unfold padded, length_bytes.
  rewrite length_app. cbn [length]. rewrite length_app, repeat_length, length_fmap.
  change (length (seq 0 8)) with 8%nat.
  pose proof (Nat.mod_upper_bound (length message) 64 ltac:(lia)) as Hm.
  pose proof (Nat.div_mod_eq (length message) 64) as Hd.
  set (q := (length message / 64)%nat) in *. set (n := (length message mod 64)%nat) in *.
  destruct (decide (n < 56)%nat).
  - replace ((119 - n) mod 64)%nat with (55 - n)%nat; [exists (q + 1)%nat; lia|].
    replace (119 - n)%nat with (55 - n + 1 * 64)%nat by lia.
    rewrite Nat.Div0.mod_add, Nat.mod_small; lia.
  - rewrite Nat.mod_small by lia. exists (q + 2)%nat. lia.
Qed.

Lemma word64_bits n : word64 (word64 n * 8) = word64 (8 * n).
Proof.
  unfold word64. change u64_max with (Z.ones 64). rewrite !Z.land_ones by lia.
  rewrite Z.mul_comm. apply Zmult_mod_idemp_r.
Qed.

Lemma finish_update_init m :
  finish (update m sha256_init) = state_bytes (absorb initial_state (padded m)).1.
Proof.
  set (h := update m sha256_init).
  assert (sha_wf h) as Hh by apply update_wf, sha256_init_wf.
  assert (sha_state h = (absorb initial_state m).1 /\ sha_buffer h = (absorb initial_state m).2 /\
          sha_total_bytes h = word64 (Z.of_nat (length m))) as (Hs & Hb & Ht).
  { subst h. destruct (decide (m = [])) as [->|Hm]; [done|].
    by rewrite update_absorb by (done || apply sha256_init_wf). }
  unfold finish. cbv zeta. rewrite padding_bytes by done.
  rewrite Hb, absorb_snd_length, Ht, word64_bits. f_equal.
  set (pad := 0x80 :: _). set (len := length_bytes _).
  rewrite update_absorb; [|by apply update_wf|done]. simpl sha_state.
  rewrite update_absorb by done. simpl sha_state. simpl sha_buffer.
  rewrite <- absorb_app, Hs, Hb, <- app_assoc, <- absorb_app. reflexivity.
Qed.

(** ** Properties *)

(** The digest is 32 bytes long. *)
Lemma sha256_length text : length (sha256 text) = 32%nat.
Proof. reflexivity. Qed.

(** The digest does not depend on how a message is split into updates. *)
Theorem sha256_streaming (x y : list Z) (h : Sha256) (Hh : (length (sha_buffer h) < 64)%nat) :
  update (x ++ y) h = update y (update x h).
Proof.
  destruct (decide (x = [])) as [->|Hx]; [done|]. destruct (decide (y = [])) as [->|Hy].
  { rewrite app_nil_r. done. }
  assert (sha_wf (update x h)) as Hu by by apply update_wf.
  rewrite (update_absorb y) by done. rewrite !update_absorb by (done || by destruct x). simpl.
  rewrite app_assoc, absorb_app, word64_word64, length_app, Nat2Z.inj_add, Z.add_assoc. done.
Qed.

Lemma sha256_streaming_witness :
  update ([1; 2] ++ [3]) sha256_init = update [3] (update [1; 2] sha256_init).
Proof. apply (sha256_streaming [1; 2] [3] sha256_init). vm_compute. lia. Defined.

(** C40: the streaming implementation computes the padded-message digest: the
    blocks of the message followed by 0x80, the zeros and the 64-bit length,
    folded from the initial state.  The padded message is whole blocks, and
    the digest of "abc" is the published test vector. *)
Theorem sha256_correct (text : string) :
  sha256 text = sha256_reference (string_bytes text) /\
  (64 | length (padded (string_bytes text)))%nat /\
  sha256_hex "abc" = "ba7816bf8f01cfea414140de5dae2223b00361a396177a9cb410ff61f20015ad".
Proof.
  split; [|split; [apply padded_length | reflexivity]].
  unfold sha256, sha256_reference. destruct (padded_length (string_bytes text)) as [n Hn].
  rewrite Hn, Nat.div_mul by lia.
  rewrite finish_update_init, (absorb_chunks n) by (rewrite Hn; lia). reflexivity.
Qed.
