(* ===== verification/Crc32c.v ===== *)
(** * CRC-32C ([detail/crc32c.hpp], [detail/crc32c.cpp])

    The table-driven checksum of the frames and of the durable image, shown to
    be the bit-serial one, and what it detects. *)
From S2P Require Import Prelude Bytes.

(** [kPolynomial], 0x82F63B78. *)
Definition kPolynomial : Z := 2197175160.

(** One turn of the inner loop that fills the table. *)
Definition crc_step (v : Z) : Z :=
  if negb (Z.land v 1 =? 0) then Z.lxor (Z.shiftr v 1) kPolynomial else Z.shiftr v 1.

Definition table_entry (index : Z) : Z := Nat.iter 8 crc_step index.

(** [kTable], evaluated once as the [constexpr] is. *)
Definition kTable : list Z := Eval vm_compute in table_entry <$> seqZ 0 256.

(** The object: its member [state_]. *)
Record Crc32c := Crc32cOf { crc_state : Z }.
Definition crc32c_init : Crc32c := Crc32cOf u32_max.

(** The body of the loop of [update]. *)
Definition crc_byte (state byte : Z) : Z :=
  Z.lxor (nth (Z.to_nat (Z.land (Z.lxor state byte) 255)) kTable 0) (Z.shiftr state 8).

Definition crc_update (bytes : list Z) (c : Crc32c) : Crc32c :=
  Crc32cOf (fold_left crc_byte bytes (crc_state c)).

Definition crc_value (c : Crc32c) : Z := Z.lxor (crc_state c) u32_max.

Definition crc32c (bytes : list Z) : Z := crc_value (crc_update bytes crc32c_init).

(** ** The bit-serial reference *)

(** The register is divided by the polynomial one bit at a time, with the
    message added to its low end. *)
Definition crc_reference_byte (state byte : Z) : Z := Nat.iter 8 crc_step (Z.lxor state byte).
Definition crc32c_reference (bytes : list Z) : Z :=
  Z.lxor (fold_left crc_reference_byte bytes u32_max) u32_max.

(** ** The step is linear and, on 32 bits, injective *)

Lemma odd_land v : negb (Z.land v 1 =? 0) = Z.odd v.
Proof.
  change 1 with (Z.ones 1). rewrite Z.land_ones by lia. change (2 ^ 1) with 2. rewrite Zmod_odd.
  by destruct (Z.odd v).
Qed.

Lemma crc_step_eq v : crc_step v = Z.lxor (Z.shiftr v 1) (if Z.odd v then kPolynomial else 0).
Proof. unfold crc_step. rewrite odd_land. destruct (Z.odd v); [done|]. by rewrite Z.lxor_0_r. Qed.

Lemma crc_step_lxor x y : crc_step (Z.lxor x y) = Z.lxor (crc_step x) (crc_step y).
Proof.
  rewrite !crc_step_eq, Z.shiftr_lxor.
  assert (Z.odd (Z.lxor x y) = xorb (Z.odd x) (Z.odd y)) as ->.
  { by rewrite <- !Z.bit0_odd, Z.lxor_spec. }
  apply Z.bits_inj'. intros n Hn. rewrite !Z.lxor_spec.
  destruct (Z.odd x), (Z.odd y); simpl; rewrite ?Z.bits_0;
    destruct (Z.testbit (Z.shiftr x 1) n), (Z.testbit (Z.shiftr y 1) n); try done; by destruct (Z.testbit kPolynomial n).
Qed.

Lemma crc_iter_lxor n x y :
  Nat.iter n crc_step (Z.lxor x y) = Z.lxor (Nat.iter n crc_step x) (Nat.iter n crc_step y).
Proof. induction n as [|n IH]; simpl; [done|]. by rewrite IH, crc_step_lxor. Qed.

(** Zero bits only move the register. *)
Lemma crc_iter_shiftl n x : 0 <= x -> Nat.iter n crc_step (Z.shiftl x (Z.of_nat n)) = x.
Proof.
  intros Hx. induction n as [|n IH]; [done|].
  rewrite Nat.iter_succ_r, crc_step_eq.
  assert (Z.odd (Z.shiftl x (Z.of_nat (S n))) = false) as ->.
  { rewrite <- Z.bit0_odd, Z.shiftl_spec_low; [done|lia]. }
  rewrite Z.lxor_0_r, Z.shiftr_shiftl_l by lia. by replace (Z.of_nat (S n) - 1) with (Z.of_nat n) by lia.
Qed.

Lemma u32_bits x : is_u32 x <-> 0 <= x /\ forall n, 32 <= n -> Z.testbit x n = false.
Proof.
  unfold is_u32. split.
  - intros [H0 H1]. split; [done|]. intros n Hn. rewrite <- (Z.mod_small x (2 ^ 32)) by done.
    by apply Z.mod_pow2_bits_high.
  - intros [H0 H1]. split; [done|]. destruct (decide (x = 0)) as [->|]; [done|].
    apply Z.log2_lt_pow2; [lia|]. destruct (decide (Z.log2 x < 32)) as [|Hl]; [done|].
    specialize (H1 (Z.log2 x) ltac:(lia)). rewrite Z.bit_log2 in H1 by lia. discriminate H1.
Qed.

Lemma crc_step_top v : is_u32 v -> Z.testbit (crc_step v) 31 = Z.odd v.
Proof.
  intros [_ H]%u32_bits. rewrite crc_step_eq, Z.lxor_spec, Z.shiftr_spec by lia.
  rewrite H by lia. by destruct (Z.odd v).
Qed.

Lemma crc_step_u32 v : is_u32 v -> is_u32 (crc_step v).
Proof.
  rewrite !u32_bits. intros [H0 H]. rewrite crc_step_eq. split.
  - apply Z.lxor_nonneg. rewrite Z.shiftr_nonneg. by destruct (Z.odd v).
  - intros n Hn. rewrite Z.lxor_spec, Z.shiftr_spec, H by lia.
    destruct (Z.odd v); [|apply Z.bits_0].
    rewrite <- (Z.mod_small kPolynomial (2 ^ 32)) by (unfold kPolynomial; lia).
    by rewrite Z.mod_pow2_bits_high by lia.
Qed.

Lemma crc_step_inj v w : is_u32 v -> is_u32 w -> crc_step v = crc_step w -> v = w.
Proof.
  intros Hv Hw E. assert (Z.odd v = Z.odd w) as Ho.
  { by rewrite <- (crc_step_top v), <- (crc_step_top w), E by done. }
  rewrite !crc_step_eq, Ho in E. apply (f_equal (fun x => Z.lxor x (if Z.odd w then kPolynomial else 0))) in E.
  rewrite !Z.lxor_assoc, Z.lxor_nilpotent, !Z.lxor_0_r in E.
  rewrite !Z.shiftr_div_pow2 in E by lia. change (2 ^ 1) with 2 in E.
  rewrite (Z.div_mod v 2), (Z.div_mod w 2) by lia. by rewrite E, !Zmod_odd, Ho.
Qed.

Lemma crc_iter_u32 n v : is_u32 v -> is_u32 (Nat.iter n crc_step v).
Proof. intros H. induction n; simpl; [done|]. by apply crc_step_u32. Qed.

Lemma crc_iter_inj n v w :
  is_u32 v -> is_u32 w -> Nat.iter n crc_step v = Nat.iter n crc_step w -> v = w.
Proof.
  intros Hv Hw. induction n as [|n IH]; simpl; [done|]. intros E. apply IH.
  by apply crc_step_inj in E; [|apply crc_iter_u32..].
Qed.

Lemma lxor_u32 x y : is_u32 x -> is_u32 y -> is_u32 (Z.lxor x y).
Proof.
  rewrite !u32_bits. intros [Hx Hx'] [Hy Hy']. split; [by apply Z.lxor_nonneg|].
  intros n Hn. by rewrite Z.lxor_spec, Hx', Hy'.
Qed.

Lemma lxor_cancel_l z x y : Z.lxor z x = Z.lxor z y -> x = y.
Proof.
  intros E. apply (f_equal (Z.lxor z)) in E. by rewrite <- !Z.lxor_assoc, Z.lxor_nilpotent, !Z.lxor_0_l in E.
Qed.

(** ** The table is right *)

Lemma kTable_entry i : is_byte i -> nth (Z.to_nat i) kTable 0 = table_entry i.
Proof.
  intros [H0 H1]. assert (kTable = table_entry <$> seqZ 0 256) as -> by reflexivity.
  rewrite nth_lookup, list_lookup_fmap, lookup_seqZ_lt by lia. simpl. f_equal. lia.
Qed.

(** A word is its low byte and the rest. *)
Lemma split_low x : 0 <= x -> x = Z.lxor (Z.land x 255) (Z.shiftl (Z.shiftr x 8) 8).
Proof.
  intros Hx. apply Z.bits_inj'. intros n Hn. rewrite Z.lxor_spec, Z.land_spec.
  change 255 with (Z.ones 8). rewrite Z.testbit_ones_nonneg by lia.
  destruct (Z.ltb_spec n 8).
  - rewrite Z.shiftl_spec_low by lia. by rewrite andb_true_r, xorb_false_r.
  - rewrite Z.shiftl_spec, Z.shiftr_spec by lia. rewrite andb_false_r. by replace (n - 8 + 8) with n by lia.
Qed.

Lemma crc_byte_reference state byte :
  0 <= state -> is_byte byte -> crc_byte state byte = crc_reference_byte state byte.
Proof.
  intros Hs Hb. unfold crc_byte, crc_reference_byte.
  assert (Hx : 0 <= Z.lxor state byte) by (apply Z.lxor_nonneg; unfold is_byte in Hb; lia).
  rewrite (split_low (Z.lxor state byte)) at 2 by done. rewrite crc_iter_lxor.
  rewrite (crc_iter_shiftl 8) by by apply Z.shiftr_nonneg.
  rewrite kTable_entry by apply low_byte_is_byte. f_equal.
  rewrite Z.shiftr_lxor. assert (Z.shiftr byte 8 = 0) as ->; [|by rewrite Z.lxor_0_r].
  rewrite Z.shiftr_div_pow2 by lia. by apply Z.div_small.
Qed.

(** Processing bytes is dividing the register plus the word they form. *)
Lemma crc_reference_word bytes state :
  Forall is_byte bytes ->
  fold_left crc_reference_byte bytes state =
  Nat.iter (8 * length bytes) crc_step (Z.lxor state (le_word bytes)).
Proof.
  intros H. revert state. induction H as [|b bytes Hb Hbs IH]; intros state; [by rewrite Z.lxor_0_r|].
  cbn [fold_left]. rewrite IH. unfold crc_reference_byte.
  rewrite <- (crc_iter_shiftl 8 (le_word bytes)) at 1 by apply le_word_bound, Hbs.
  rewrite <- crc_iter_lxor, <- Nat.iter_add. f_equal; [simpl length; lia|].
  rewrite Z.lxor_assoc. f_equal. cbn [le_word]. apply Z.lxor_lor. by apply land_byte.
Qed.

Lemma crc_fold_reference bytes state :
  is_u32 state -> Forall is_byte bytes ->
  fold_left crc_byte bytes state = fold_left crc_reference_byte bytes state /\
  is_u32 (fold_left crc_byte bytes state).
Proof.
  intros Hs H. revert state Hs. induction H as [|b bytes Hb _ IH]; intros state Hs; [done|].
  simpl. rewrite crc_byte_reference by (done || apply Hs). apply IH.
  apply crc_iter_u32, lxor_u32; [done|]. unfold is_byte, is_u32 in *. lia.
Qed.

Lemma init_u32 : is_u32 u32_max.
Proof. done. Qed.

(** Whatever the input, the result is 32 bits wide. *)
Lemma kTable_u32 i : is_u32 (nth i kTable 0).
Proof.
  assert (H : Forall is_u32 kTable) by (apply (bool_decide_unpack _); vm_compute; exact I).
  destruct (nth_in_or_default i kTable 0) as [Hin| ->]; [|done].
  rewrite Forall_forall in H. by apply H, list_elem_of_In.
Qed.

Lemma crc_byte_u32 state byte : is_u32 state -> is_u32 (crc_byte state byte).
Proof.
  intros Hs. apply lxor_u32; [apply kTable_u32|]. unfold is_u32 in *. rewrite Z.shiftr_div_pow2 by lia.
  split; [apply Z.div_pos; lia|]. apply Z.div_lt_upper_bound; lia.
Qed.

Lemma crc32c_u32 bytes : is_u32 (crc32c bytes).
Proof.
  unfold crc32c, crc_value, crc_update. cbn [crc_state crc32c_init]. apply lxor_u32; [|done].
  generalize init_u32. generalize u32_max. induction bytes as [|b bytes IH]; intros t Ht; [done|].
  simpl. by apply IH, crc_byte_u32.
Qed.

(** ** The properties *)

(** C26: The table-driven checksum is the bit-serial CRC-32C: for every sequence of
    bytes, [crc32c] is what dividing the message bit by bit yields. *)
Theorem crc32c_is_bit_serial (bytes : list Z) (Hbytes : Forall is_byte bytes) :
  crc32c bytes = crc32c_reference bytes.
Proof.
  unfold crc32c, crc_value, crc_update. cbn [crc_state crc32c_init].
  by rewrite (proj1 (crc_fold_reference bytes u32_max init_u32 Hbytes)).
Qed.

Lemma crc32c_is_bit_serial_witness :
  crc32c (string_codes "123456789") = 3808858755 /\
  crc32c (string_codes "123456789") = crc32c_reference (string_codes "123456789").
Proof. split; [reflexivity|]. apply crc32c_is_bit_serial. by apply string_codes_bytes. Defined.

(** A stretch of bytes is a permutation of the registers. *)
Lemma crc_fold_inj bytes v w :
  Forall is_byte bytes -> is_u32 v -> is_u32 w ->
  fold_left crc_byte bytes v = fold_left crc_byte bytes w -> v = w.
Proof.
  intros H Hv Hw. revert v w Hv Hw. induction H as [|b bytes Hb _ IH]; intros v w Hv Hw; [done|].
  simpl. assert (Hbu : is_u32 b) by (unfold is_byte, is_u32 in *; lia).
  rewrite !crc_byte_reference by (done || apply Hv || apply Hw). intros E. apply IH in E.
  - apply crc_iter_inj in E; [|by apply lxor_u32..]. rewrite !(Z.lxor_comm _ b) in E. by apply lxor_cancel_l in E.
  - by apply crc_iter_u32, lxor_u32.
  - by apply crc_iter_u32, lxor_u32.
Qed.

(** Up to four bytes, the register tells the words apart. *)
Lemma crc_burst_inj xs ys v :
  Forall is_byte xs -> Forall is_byte ys -> length xs = length ys -> (length xs <= 4)%nat -> is_u32 v ->
  fold_left crc_byte xs v = fold_left crc_byte ys v -> xs = ys.
Proof.
  intros Hx Hy Hl Hs Hv.
  destruct (crc_fold_reference xs v Hv Hx) as [-> _]. destruct (crc_fold_reference ys v Hv Hy) as [-> _].
  rewrite !crc_reference_word, Hl by done.
  assert (Hword : forall l, Forall is_byte l -> length l = length ys -> is_u32 (le_word l)).
  { intros l Hb E. pose proof (le_word_bound l Hb) as Hw. unfold is_u32.
    pose proof (Z.pow_le_mono_r 256 (Z.of_nat (length l)) 4). lia. }
  intros E. apply crc_iter_inj, lxor_cancel_l in E; [by apply le_word_inj|apply lxor_u32; auto..].
Qed.

Lemma crc32c_burst prefix burst burst' suffix :
  Forall is_byte prefix -> Forall is_byte burst -> Forall is_byte burst' -> Forall is_byte suffix ->
  length burst = length burst' -> (length burst <= 4)%nat -> burst <> burst' ->
  crc32c (prefix ++ burst ++ suffix) <> crc32c (prefix ++ burst' ++ suffix).
Proof.
  intros Hp Hb Hb' Hs Hl Hshort Hne. unfold crc32c, crc_value, crc_update.
  cbn [crc_state crc32c_init]. rewrite !fold_left_app, (Z.lxor_comm _ u32_max), (Z.lxor_comm _ u32_max).
  destruct (crc_fold_reference prefix u32_max init_u32 Hp) as [_ Ht].
  intros E%lxor_cancel_l. apply crc_fold_inj in E; [|done|by apply crc_fold_reference..].
  by apply crc_burst_inj in E.
Qed.

(** The checksum detects every burst of at most four bytes: two messages of the
    same length that agree except within four consecutive bytes have different
    checksums. *)
Theorem crc32c_detects_burst (prefix burst burst' suffix : list Z)
    (Hprefix : Forall is_byte prefix) (Hburst : Forall is_byte burst) (Hburst' : Forall is_byte burst')
    (Hsuffix : Forall is_byte suffix)
    (Hlength : length burst = length burst') (Hshort : (length burst <= 4)%nat) (Hdiffer : burst <> burst') :
  crc32c (prefix ++ burst ++ suffix) <> crc32c (prefix ++ burst' ++ suffix).
Proof.
  by apply crc32c_burst.
Qed.

Lemma crc32c_detects_burst_witness :
  crc32c (string_codes "abc" ++ string_codes "1234" ++ string_codes "xyz") <>
  crc32c (string_codes "abc" ++ string_codes "4321" ++ string_codes "xyz").
Proof. apply crc32c_detects_burst; try apply string_codes_bytes; [reflexivity|simpl; lia|discriminate]. Defined.
