(* ===== verification/Outcome.v ===== *)
(** * Typed outcomes and explanations ([outcome.hpp], [outcome.cpp])

    The outcome enumeration, its classification predicates, the canonically
    ordered explanation attached to every operation and its two renderings,
    and the canonical order of rejection records. *)
From S2P Require Import Prelude Ids.

Module OutcomeCode.
Inductive t :=
  | ACCEPTED | NO_CHANGE | ROUTED | DEFERRED | REVALIDATION_REQUIRED | REROUTE_REQUIRED
  | NO_ELIGIBLE_CANDIDATE | REJECT_STALE_ROUTER_EPOCH | REJECT_STALE_COORDINATOR_EPOCH
  | REJECT_STALE_REQUEST | REJECT_STALE_MODEL | REJECT_STALE_BACKEND
  | REJECT_STALE_BACKEND_BOOT | REJECT_STALE_ENDPOINT | REJECT_STALE_CAPABILITY
  | REJECT_STALE_POLICY | REJECT_STALE_BUDGET | REJECT_STALE_PRICE | REJECT_STALE_SLO
  | REJECT_STALE_HEALTH | REJECT_STALE_AVAILABILITY | REJECT_STALE_READINESS
  | REJECT_STALE_RESIDENCY | REJECT_STALE_CAPACITY | REJECT_STALE_COMPATIBILITY
  | REJECT_STALE_TRUST | REJECT_STALE_RESERVATION | REJECT_STALE_ARTIFACT | REJECT_CAPABILITY
  | REJECT_CONTEXT_LIMIT | REJECT_MODALITY | REJECT_STRUCTURED_OUTPUT | REJECT_TOOL_CALLING
  | REJECT_STREAMING | REJECT_QUALITY | REJECT_POLICY | REJECT_BUDGET | REJECT_COST
  | REJECT_COST_UNKNOWN | REJECT_SLO | REJECT_TRUST | REJECT_LOCALITY | REJECT_RESIDENCY
  | REJECT_COMPATIBILITY | REJECT_UNAVAILABLE | REJECT_NOT_READY | REJECT_UNHEALTHY
  | REJECT_DRAINING | REJECT_RETIRED | REJECT_CAPACITY | REJECT_RESERVATION | REJECT_AFFINITY
  | REJECT_INVALID | REJECT_CONFLICT | REJECT_UNKNOWN_EVIDENCE | REJECT_LIMIT | REJECT_SPOOFED
  | FENCED | SUPERSEDED | DISPATCHED | COMPLETED | FAILED | CANCELLED | SHUTTING_DOWN
  | INTERNAL_ERROR | kCount.

Definition all : list t := [
  ACCEPTED; NO_CHANGE; ROUTED; DEFERRED; REVALIDATION_REQUIRED; REROUTE_REQUIRED;
  NO_ELIGIBLE_CANDIDATE; REJECT_STALE_ROUTER_EPOCH; REJECT_STALE_COORDINATOR_EPOCH;
  REJECT_STALE_REQUEST; REJECT_STALE_MODEL; REJECT_STALE_BACKEND;
  REJECT_STALE_BACKEND_BOOT; REJECT_STALE_ENDPOINT; REJECT_STALE_CAPABILITY;
  REJECT_STALE_POLICY; REJECT_STALE_BUDGET; REJECT_STALE_PRICE; REJECT_STALE_SLO;
  REJECT_STALE_HEALTH; REJECT_STALE_AVAILABILITY; REJECT_STALE_READINESS;
  REJECT_STALE_RESIDENCY; REJECT_STALE_CAPACITY; REJECT_STALE_COMPATIBILITY;
  REJECT_STALE_TRUST; REJECT_STALE_RESERVATION; REJECT_STALE_ARTIFACT; REJECT_CAPABILITY;
  REJECT_CONTEXT_LIMIT; REJECT_MODALITY; REJECT_STRUCTURED_OUTPUT; REJECT_TOOL_CALLING;
  REJECT_STREAMING; REJECT_QUALITY; REJECT_POLICY; REJECT_BUDGET; REJECT_COST;
  REJECT_COST_UNKNOWN; REJECT_SLO; REJECT_TRUST; REJECT_LOCALITY; REJECT_RESIDENCY;
  REJECT_COMPATIBILITY; REJECT_UNAVAILABLE; REJECT_NOT_READY; REJECT_UNHEALTHY;
  REJECT_DRAINING; REJECT_RETIRED; REJECT_CAPACITY; REJECT_RESERVATION; REJECT_AFFINITY;
  REJECT_INVALID; REJECT_CONFLICT; REJECT_UNKNOWN_EVIDENCE; REJECT_LIMIT; REJECT_SPOOFED;
  FENCED; SUPERSEDED; DISPATCHED; COMPLETED; FAILED; CANCELLED; SHUTTING_DOWN;
  INTERNAL_ERROR; kCount].

(** [static_cast<std::uint16_t>(code)]. *)
Definition index (code : t) : Z :=
  match code with
  | ACCEPTED => 0 | NO_CHANGE => 1 | ROUTED => 2 | DEFERRED => 3 | REVALIDATION_REQUIRED => 4
  | REROUTE_REQUIRED => 5 | NO_ELIGIBLE_CANDIDATE => 6 | REJECT_STALE_ROUTER_EPOCH => 7
  | REJECT_STALE_COORDINATOR_EPOCH => 8 | REJECT_STALE_REQUEST => 9
  | REJECT_STALE_MODEL => 10 | REJECT_STALE_BACKEND => 11 | REJECT_STALE_BACKEND_BOOT => 12
  | REJECT_STALE_ENDPOINT => 13 | REJECT_STALE_CAPABILITY => 14 | REJECT_STALE_POLICY => 15
  | REJECT_STALE_BUDGET => 16 | REJECT_STALE_PRICE => 17 | REJECT_STALE_SLO => 18
  | REJECT_STALE_HEALTH => 19 | REJECT_STALE_AVAILABILITY => 20
  | REJECT_STALE_READINESS => 21 | REJECT_STALE_RESIDENCY => 22 | REJECT_STALE_CAPACITY => 23
  | REJECT_STALE_COMPATIBILITY => 24 | REJECT_STALE_TRUST => 25
  | REJECT_STALE_RESERVATION => 26 | REJECT_STALE_ARTIFACT => 27 | REJECT_CAPABILITY => 28
  | REJECT_CONTEXT_LIMIT => 29 | REJECT_MODALITY => 30 | REJECT_STRUCTURED_OUTPUT => 31
  | REJECT_TOOL_CALLING => 32 | REJECT_STREAMING => 33 | REJECT_QUALITY => 34
  | REJECT_POLICY => 35 | REJECT_BUDGET => 36 | REJECT_COST => 37 | REJECT_COST_UNKNOWN => 38
  | REJECT_SLO => 39 | REJECT_TRUST => 40 | REJECT_LOCALITY => 41 | REJECT_RESIDENCY => 42
  | REJECT_COMPATIBILITY => 43 | REJECT_UNAVAILABLE => 44 | REJECT_NOT_READY => 45
  | REJECT_UNHEALTHY => 46 | REJECT_DRAINING => 47 | REJECT_RETIRED => 48
  | REJECT_CAPACITY => 49 | REJECT_RESERVATION => 50 | REJECT_AFFINITY => 51
  | REJECT_INVALID => 52 | REJECT_CONFLICT => 53 | REJECT_UNKNOWN_EVIDENCE => 54
  | REJECT_LIMIT => 55 | REJECT_SPOOFED => 56 | FENCED => 57 | SUPERSEDED => 58
  | DISPATCHED => 59 | COMPLETED => 60 | FAILED => 61 | CANCELLED => 62 | SHUTTING_DOWN => 63
  | INTERNAL_ERROR => 64 | kCount => 65
  end.

#[export] Instance index_inj : Inj (=) (=) index.
Proof.
  assert (forall x, nth_error all (Z.to_nat (index x)) = Some x) as H by by intros [].
  intros x y E. pose proof (H x) as Hx. rewrite E, H in Hx. by injection Hx.
Qed.

#[export] Instance eq_dec : EqDecision t.
Proof.
  refine (fun x y => match decide (index x = index y) with
                     | left E => left (index_inj x y E)
                     | right N => right (fun E => N (f_equal index E))
                     end).
Defined.

(** The table [kOutcomeNames]; an index past its end is an unknown outcome. *)
Definition to_string (code : t) : string :=
  match code with
  | ACCEPTED => "ACCEPTED"
  | NO_CHANGE => "NO_CHANGE"
  | ROUTED => "ROUTED"
  | DEFERRED => "DEFERRED"
  | REVALIDATION_REQUIRED => "REVALIDATION_REQUIRED"
  | REROUTE_REQUIRED => "REROUTE_REQUIRED"
  | NO_ELIGIBLE_CANDIDATE => "NO_ELIGIBLE_CANDIDATE"
  | REJECT_STALE_ROUTER_EPOCH => "REJECT_STALE_ROUTER_EPOCH"
  | REJECT_STALE_COORDINATOR_EPOCH => "REJECT_STALE_COORDINATOR_EPOCH"
  | REJECT_STALE_REQUEST => "REJECT_STALE_REQUEST"
  | REJECT_STALE_MODEL => "REJECT_STALE_MODEL"
  | REJECT_STALE_BACKEND => "REJECT_STALE_BACKEND"
  | REJECT_STALE_BACKEND_BOOT => "REJECT_STALE_BACKEND_BOOT"
  | REJECT_STALE_ENDPOINT => "REJECT_STALE_ENDPOINT"
  | REJECT_STALE_CAPABILITY => "REJECT_STALE_CAPABILITY"
  | REJECT_STALE_POLICY => "REJECT_STALE_POLICY"
  | REJECT_STALE_BUDGET => "REJECT_STALE_BUDGET"
  | REJECT_STALE_PRICE => "REJECT_STALE_PRICE"
  | REJECT_STALE_SLO => "REJECT_STALE_SLO"
  | REJECT_STALE_HEALTH => "REJECT_STALE_HEALTH"
  | REJECT_STALE_AVAILABILITY => "REJECT_STALE_AVAILABILITY"
  | REJECT_STALE_READINESS => "REJECT_STALE_READINESS"
  | REJECT_STALE_RESIDENCY => "REJECT_STALE_RESIDENCY"
  | REJECT_STALE_CAPACITY => "REJECT_STALE_CAPACITY"
  | REJECT_STALE_COMPATIBILITY => "REJECT_STALE_COMPATIBILITY"
  | REJECT_STALE_TRUST => "REJECT_STALE_TRUST"
  | REJECT_STALE_RESERVATION => "REJECT_STALE_RESERVATION"
  | REJECT_STALE_ARTIFACT => "REJECT_STALE_ARTIFACT"
  | REJECT_CAPABILITY => "REJECT_CAPABILITY"
  | REJECT_CONTEXT_LIMIT => "REJECT_CONTEXT_LIMIT"
  | REJECT_MODALITY => "REJECT_MODALITY"
  | REJECT_STRUCTURED_OUTPUT => "REJECT_STRUCTURED_OUTPUT"
  | REJECT_TOOL_CALLING => "REJECT_TOOL_CALLING"
  | REJECT_STREAMING => "REJECT_STREAMING"
  | REJECT_QUALITY => "REJECT_QUALITY"
  | REJECT_POLICY => "REJECT_POLICY"
  | REJECT_BUDGET => "REJECT_BUDGET"
  | REJECT_COST => "REJECT_COST"
  | REJECT_COST_UNKNOWN => "REJECT_COST_UNKNOWN"
  | REJECT_SLO => "REJECT_SLO"
  | REJECT_TRUST => "REJECT_TRUST"
  | REJECT_LOCALITY => "REJECT_LOCALITY"
  | REJECT_RESIDENCY => "REJECT_RESIDENCY"
  | REJECT_COMPATIBILITY => "REJECT_COMPATIBILITY"
  | REJECT_UNAVAILABLE => "REJECT_UNAVAILABLE"
  | REJECT_NOT_READY => "REJECT_NOT_READY"
  | REJECT_UNHEALTHY => "REJECT_UNHEALTHY"
  | REJECT_DRAINING => "REJECT_DRAINING"
  | REJECT_RETIRED => "REJECT_RETIRED"
  | REJECT_CAPACITY => "REJECT_CAPACITY"
  | REJECT_RESERVATION => "REJECT_RESERVATION"
  | REJECT_AFFINITY => "REJECT_AFFINITY"
  | REJECT_INVALID => "REJECT_INVALID"
  | REJECT_CONFLICT => "REJECT_CONFLICT"
  | REJECT_UNKNOWN_EVIDENCE => "REJECT_UNKNOWN_EVIDENCE"
  | REJECT_LIMIT => "REJECT_LIMIT"
  | REJECT_SPOOFED => "REJECT_SPOOFED"
  | FENCED => "FENCED"
  | SUPERSEDED => "SUPERSEDED"
  | DISPATCHED => "DISPATCHED"
  | COMPLETED => "COMPLETED"
  | FAILED => "FAILED"
  | CANCELLED => "CANCELLED"
  | SHUTTING_DOWN => "SHUTTING_DOWN"
  | INTERNAL_ERROR => "INTERNAL_ERROR"
  | kCount => "UNKNOWN_OUTCOME"
  end.

Definition is_acceptance (code : t) : bool :=
  match code with
  | ACCEPTED | NO_CHANGE | ROUTED | DISPATCHED | COMPLETED => true
  | _ => false
  end.

Definition is_rejection (code : t) : bool :=
  match code with
  | ACCEPTED | NO_CHANGE | ROUTED | DISPATCHED | COMPLETED | SUPERSEDED => false
  | _ => true
  end.

Definition requires_revalidation (code : t) : bool :=
  match code with
  | REVALIDATION_REQUIRED | REROUTE_REQUIRED | REJECT_STALE_ROUTER_EPOCH
  | REJECT_STALE_COORDINATOR_EPOCH | REJECT_STALE_REQUEST | REJECT_STALE_MODEL
  | REJECT_STALE_BACKEND | REJECT_STALE_BACKEND_BOOT | REJECT_STALE_ENDPOINT
  | REJECT_STALE_CAPABILITY | REJECT_STALE_POLICY | REJECT_STALE_BUDGET | REJECT_STALE_PRICE
  | REJECT_STALE_SLO | REJECT_STALE_HEALTH | REJECT_STALE_AVAILABILITY
  | REJECT_STALE_READINESS | REJECT_STALE_RESIDENCY | REJECT_STALE_CAPACITY
  | REJECT_STALE_COMPATIBILITY | REJECT_STALE_TRUST | REJECT_STALE_RESERVATION
  | REJECT_STALE_ARTIFACT | REJECT_UNKNOWN_EVIDENCE => true
  | _ => false
  end.

Definition is_hard_rejection (code : t) : bool :=
  is_rejection code && negb (requires_revalidation code) &&
  code != SHUTTING_DOWN && code != INTERNAL_ERROR.

Definition permits_fallback (code : t) : bool :=
  match code with
  | REJECT_STALE_BACKEND_BOOT | REJECT_STALE_ENDPOINT | REJECT_STALE_HEALTH
  | REJECT_STALE_AVAILABILITY | REJECT_STALE_READINESS | REJECT_STALE_CAPACITY
  | REJECT_UNAVAILABLE | REJECT_NOT_READY | REJECT_UNHEALTHY | REJECT_CAPACITY
  | REVALIDATION_REQUIRED | REROUTE_REQUIRED => true
  | _ => false
  end.
End OutcomeCode.

Export (hints) OutcomeCode.

(** ** Explanations *)

Record ExplanationFactor := { factor_key : string; factor_value : string }.

Record Explanation := {
  ex_code : OutcomeCode.t;
  ex_subject : string;
  ex_message : string;
  ex_factors : list ExplanationFactor
}.

#[export] Instance explanation_eta : Eta Explanation := fun e =>
  {| ex_code := ex_code e; ex_subject := ex_subject e; ex_message := ex_message e;
     ex_factors := ex_factors e |}.

(** The default-constructed explanation. *)
Definition explanation_default : Explanation :=
  {| ex_code := OutcomeCode.INTERNAL_ERROR; ex_subject := ""; ex_message := ""; ex_factors := [] |}.

Definition explanation_find (e : Explanation) (key : string) : option string :=
  factor_value <$> find_sorted string_ltb factor_key (ex_factors e) key.

Definition explanation_add_factor (key v : string) (e : Explanation) : Explanation :=
  e <| ex_factors := ex_factors e ++ [{| factor_key := key; factor_value := v |}] |>.

Definition explanation_canonicalize (e : Explanation) : Explanation :=
  e <| ex_factors := stable_sort (fun l r => string_ltb (factor_key l) (factor_key r)) (ex_factors e) |>.

(** *** Rendering *)

Definition hex_digit (n : N) : Ascii.ascii :=
  match String.get (N.to_nat n) "0123456789abcdef" with Some c => c | None => Ascii.ascii_of_nat 48 end.

Definition dquote : Ascii.ascii := Ascii.ascii_of_nat 34.
Definition backslash : Ascii.ascii := Ascii.ascii_of_nat 92.
Definition str1 (c : Ascii.ascii) : string := String c EmptyString.

Definition escape_char (c : Ascii.ascii) : string :=
  let n := Ascii.N_of_ascii c in
  if c == dquote then String backslash (str1 dquote)
  else if c == backslash then String backslash (str1 backslash)
  else if (n =? 10)%N then String backslash "n"
  else if (n =? 13)%N then String backslash "r"
  else if (n =? 9)%N then String backslash "t"
  else if (n <? 32)%N then
    String backslash ("u00" +:+ String (hex_digit (N.shiftr n 4)) (str1 (hex_digit (N.land n 15))))
  else str1 c.

Fixpoint escape_json (text : string) : string :=
  match text with
  | EmptyString => EmptyString
  | String c text => escape_char c +:+ escape_json text
  end.

(** The factors joined by commas. *)
Fixpoint join_comma (parts : list string) : string :=
  match parts with
  | [] => ""
  | [p] => p
  | p :: parts => p +:+ "," +:+ join_comma parts
  end.

Definition explanation_to_text (e : Explanation) : string :=
  OutcomeCode.to_string (ex_code e) +:+
  (if ex_subject e == "" then "" else " " +:+ ex_subject e) +:+
  " {" +:+ join_comma ((fun f => factor_key f +:+ "=" +:+ factor_value f) <$> ex_factors e) +:+ "}" +:+
  (if ex_message e == "" then "" else " " +:+ ex_message e).

Definition quoted (s : string) : string := str1 dquote +:+ s +:+ str1 dquote.

Definition explanation_to_json (e : Explanation) : string :=
  "{" +:+ quoted "code" +:+ ":" +:+ quoted (OutcomeCode.to_string (ex_code e)) +:+
  "," +:+ quoted "subject" +:+ ":" +:+ quoted (escape_json (ex_subject e)) +:+
  "," +:+ quoted "message" +:+ ":" +:+ quoted (escape_json (ex_message e)) +:+
  "," +:+ quoted "factors" +:+ ":{" +:+
  join_comma ((fun f => quoted (escape_json (factor_key f)) +:+ ":" +:+
                        quoted (escape_json (factor_value f))) <$> ex_factors e) +:+ "}}".

(** *** The builder *)

Record ExplanationBuilder := {
  b_code : OutcomeCode.t;
  b_subject : string;
  b_message : string;
  b_factors : list (string * string)
}.

Definition builder (code : OutcomeCode.t) (subject : string) : ExplanationBuilder :=
  {| b_code := code; b_subject := subject; b_message := ""; b_factors := [] |}.

Definition add (key v : string) (b : ExplanationBuilder) : ExplanationBuilder :=
  {| b_code := b_code b; b_subject := b_subject b; b_message := b_message b;
     b_factors := b_factors b ++ [(key, v)] |}.
Definition add_int (key : string) (v : Z) : ExplanationBuilder -> ExplanationBuilder :=
  add key (to_string_int v).
Definition add_bool (key : string) (v : bool) : ExplanationBuilder -> ExplanationBuilder :=
  add key (if v then "true" else "false").
Definition set_message (message : string) (b : ExplanationBuilder) : ExplanationBuilder :=
  {| b_code := b_code b; b_subject := b_subject b; b_message := message;
     b_factors := b_factors b |}.

(** A chain of builder calls. *)
Notation "b >>> f" := (f b) (at level 50, left associativity, only parsing) : router_scope.

Definition build (b : ExplanationBuilder) : Explanation :=
  explanation_canonicalize
    (fold_left (fun e '(k, v) => explanation_add_factor k v e) (b_factors b)
      {| ex_code := b_code b; ex_subject := b_subject b; ex_message := b_message b;
         ex_factors := [] |}).

(** ** Operation results *)

Record MutationResult := { mr_code : OutcomeCode.t; mr_explanation : Explanation }.

Definition mutation_make (code : OutcomeCode.t) (subject message : string) : MutationResult :=
  {| mr_code := code; mr_explanation := build (builder code subject >>> set_message message) |}.

(** The result of an operation that filled in a builder of the same code. *)
Definition mutation_built (b : ExplanationBuilder) : MutationResult :=
  {| mr_code := b_code b; mr_explanation := build b |}.

Definition accepted (r : MutationResult) : bool := OutcomeCode.is_acceptance (mr_code r).
Definition rejected (r : MutationResult) : bool := OutcomeCode.is_rejection (mr_code r).

(** ** Rejection records *)

Record RouteRejection := {
  rj_model_id : Z;
  rj_model_generation : Generation ModelTag;
  rj_backend_id : Z;
  rj_backend_generation : Generation BackendTag;
  rj_backend_boot : Generation BackendBootTag;
  rj_endpoint_id : Z;
  rj_code : OutcomeCode.t;
  rj_detail : string
}.

Definition rejection_canonical_less (l r : RouteRejection) : bool :=
  if negb (rj_model_id l =? rj_model_id r) then rj_model_id l <? rj_model_id r
  else if rj_model_generation l != rj_model_generation r
  then id_ltb (rj_model_generation l) (rj_model_generation r)
  else if negb (rj_backend_id l =? rj_backend_id r) then rj_backend_id l <? rj_backend_id r
  else if rj_backend_boot l != rj_backend_boot r
  then id_ltb (rj_backend_boot l) (rj_backend_boot r)
  else if rj_backend_generation l != rj_backend_generation r
  then id_ltb (rj_backend_generation l) (rj_backend_generation r)
  else if negb (rj_endpoint_id l =? rj_endpoint_id r) then rj_endpoint_id l <? rj_endpoint_id r
  else if rj_code l != rj_code r
  then OutcomeCode.index (rj_code l) <? OutcomeCode.index (rj_code r)
  else string_ltb (rj_detail l) (rj_detail r).

(** ** Facts *)

(** The order of rejection records is the lexicographic order of their fields. *)
Definition rejection_fields (r : RouteRejection) : list Z :=
  [rj_model_id r; value (rj_model_generation r); rj_backend_id r; value (rj_backend_boot r);
   value (rj_backend_generation r); rj_endpoint_id r; OutcomeCode.index (rj_code r)]
  ++ string_codes (rj_detail r).

#[export] Instance rejection_fields_inj : Inj (=) (=) rejection_fields.
Proof.
  intros [? [] ? [] [] ? ? ?] [? [] ? [] [] ? ? ?].
  unfold rejection_fields. simpl. intros E. by simplify_eq.
Qed.

Lemma rejection_canonical_less_lex l r :
  rejection_canonical_less l r = lex_ltb (rejection_fields l) (rejection_fields r).
Proof.
  unfold rejection_canonical_less, id_ltb.
  rewrite !lex_step_Z, !(lex_step value), (lex_step OutcomeCode.index). done.
Qed.

#[export] Instance rejection_canonical_less_total : TotalB rejection_canonical_less.
Proof.
  apply (total_proper (fun l r => lex_ltb (rejection_fields l) (rejection_fields r))).
  - intros. symmetry. apply rejection_canonical_less_lex.
  - apply (total_on lex_ltb rejection_fields).
Qed.

Lemma fold_add_factor fs e :
  fold_left (fun e '(k, v) => explanation_add_factor k v e) fs e =
  e <| ex_factors := ex_factors e ++ ((fun '(k, v) => {| factor_key := k; factor_value := v |}) <$> fs) |>.
Proof.
  revert e. induction fs as [|[k v] fs IH]; intros [c s m l]; simpl; [by rewrite app_nil_r|].
  rewrite IH. simpl. by rewrite <- app_assoc.
Qed.

(** ** Properties *)

(** An explanation answers [find key] with the value of the first factor
    added under that key, whatever order the factors were added in: the
    stable sort keeps the insertion order of equal keys and the binary search
    lands on the first of them. *)
Theorem explanation_find_build (b : ExplanationBuilder) (key : string) :
  explanation_find (build b) key = snd <$> head (filter (fun f => fst f = key) (b_factors b)).
Proof.
  unfold explanation_find, build, explanation_canonicalize. rewrite fold_add_factor. simpl.
  rewrite (find_sorted_head string_ltb factor_key).
  2: { apply sorted_by_fmap, stable_sort_sorted, (swb_on string_ltb factor_key). }
  rewrite stable_sort_filter by (intros x y <- <-; apply (swb_irrefl (ltb := string_ltb))).
  induction (b_factors b) as [|[k v] fs IH]; [done|]. rewrite fmap_cons, !filter_cons. simpl.
  by repeat case_decide.
Qed.

(** Rejection records are ordered totally by their content, so a list of
    rejections sorted by [canonical_less] does not depend on the order in
    which the rejections were recorded. *)
Theorem rejections_order_independent (l1 l2 : list RouteRejection) :
  l1 ≡ₚ l2 ->
  stable_sort rejection_canonical_less l1 = stable_sort rejection_canonical_less l2.
Proof. apply stable_sort_perm_eq, _. Qed.

Definition sample_rejection (m : Z) (c : OutcomeCode.t) : RouteRejection :=
  {| rj_model_id := m; rj_model_generation := GenerationOf 1; rj_backend_id := 7;
     rj_backend_generation := GenerationOf 1; rj_backend_boot := GenerationOf 3;
     rj_endpoint_id := 9; rj_code := c; rj_detail := "" |}.

Lemma rejections_order_independent_witness :
  stable_sort rejection_canonical_less
    [sample_rejection 2 OutcomeCode.REJECT_COST; sample_rejection 1 OutcomeCode.REJECT_SLO] =
  stable_sort rejection_canonical_less
    [sample_rejection 1 OutcomeCode.REJECT_SLO; sample_rejection 2 OutcomeCode.REJECT_COST].
Proof. apply rejections_order_independent. apply perm_swap. Defined.

(** Every outcome is exactly one of: effect took place, superseded, fresh
    authority needed, hard rejection, or router unavailable; and an outcome
    that permits a fallback is always a rejection. *)
Theorem outcome_partition (c : OutcomeCode.t) :
  (if OutcomeCode.is_acceptance c then 1 else 0) +
  (if c == OutcomeCode.SUPERSEDED then 1 else 0) +
  (if OutcomeCode.requires_revalidation c then 1 else 0) +
  (if OutcomeCode.is_hard_rejection c then 1 else 0) +
  (if c == OutcomeCode.SHUTTING_DOWN then 1 else 0) +
  (if c == OutcomeCode.INTERNAL_ERROR then 1 else 0) = 1 /\
  implb (OutcomeCode.permits_fallback c) (OutcomeCode.is_rejection c) = true.
Proof. by destruct c. Qed.
