(* ===== verification/Json.v ===== *)
(** * JSON documents

    The reports of the program are written as JSON, each by its own string
    building.  What such a text is to mean is said here once: [Json] is a
    document, [render] writes it without white space the way every [to_json] of
    the program does, and [read_json] reads it back following the grammar of
    RFC 8259 (no white space between tokens, numbers without fraction or
    exponent, [\u] escapes of the first 256 code points).  Bytes from 128 upwards
    are taken as they come: a text is UTF-8 if its parts are. *)
From S2P Require Import Prelude.
From S2P Require Import Bytes.
From S2P Require Import Sha256.
From S2P Require Import Outcome.
From Stdlib Require Import Ascii.
#[local] Open Scope string_scope.

#[local] Unset Elimination Schemes.
Inductive Json :=
| JBool (b : bool)
| JNumber (x : Z)
| JString (text : string)
| JArray (elements : list Json)
| JObject (members : list (string * Json)).
#[local] Set Elimination Schemes.

Fixpoint render (j : Json) : string :=
  match j with
  | JBool b => if b then "true" else "false"
  | JNumber x => to_string_int x
  | JString text => quoted (escape_json text)
  | JArray elements => "[" +:+ join_comma (map render elements) +:+ "]"
  | JObject members =>
      "{" +:+ join_comma (map (fun kv => quoted (escape_json kv.1) +:+ ":" +:+ render kv.2) members) +:+ "}"
  end.

(** ** Reading *)

Definition is_digit (c : Ascii.ascii) : bool := let n := Ascii.N_of_ascii c in ((48 <=? n) && (n <=? 57))%N.
Definition digit_value (c : Ascii.ascii) : Z := Z.of_N (Ascii.N_of_ascii c) - 48.

Fixpoint read_digits (acc : Z) (s : string) : Z * string :=
  match s with
  | String c rest => if is_digit c then read_digits (10 * acc + digit_value c) rest else (acc, s)
  | EmptyString => (acc, s)
  end.

(** An integer part: no leading zero. *)
Definition read_natural (s : string) : option (Z * string) :=
  match s with
  | String c rest =>
      return_if negb (is_digit c) with None ;;
      return_if c == "0"%char with Some (0, rest) ;;
      Some (read_digits 0 s)
  | EmptyString => None
  end.

Definition read_number (s : string) : option (Z * string) :=
  match s with
  | String c rest =>
      if c == "-"%char then '(x, rest) ← read_natural rest; Some (- x, rest) else read_natural s
  | EmptyString => None
  end.

Definition hex_value (c : Ascii.ascii) : option N :=
  let n := Ascii.N_of_ascii c in
  if ((48 <=? n) && (n <=? 57))%N then Some (n - 48)%N
  else if ((97 <=? n) && (n <=? 102))%N then Some (n - 87)%N
  else if ((65 <=? n) && (n <=? 70))%N then Some (n - 55)%N
  else None.

(** What a character stands for after a backslash. *)
Definition unescape (c : Ascii.ascii) : option Ascii.ascii :=
  if (c == dquote) || (c == backslash) || (c == "/"%char) then Some c
  else if c == "b"%char then Some (Ascii.ascii_of_nat 8)
  else if c == "f"%char then Some (Ascii.ascii_of_nat 12)
  else if c == "n"%char then Some (Ascii.ascii_of_nat 10)
  else if c == "r"%char then Some (Ascii.ascii_of_nat 13)
  else if c == "t"%char then Some (Ascii.ascii_of_nat 9)
  else None.

Definition push (c : Ascii.ascii) (r : option (string * string)) : option (string * string) :=
  '(text, rest) ← r; Some (String c text, rest).

(** A string up to its closing quote: no raw control character. *)
Fixpoint read_text (s : string) : option (string * string) :=
  match s with
  | EmptyString => None
  | String c rest =>
      if c == dquote then Some ("", rest)
      else if c == backslash then
        match rest with
        | String e rest =>
            if e == "u"%char then
              match rest with
              | String z1 (String z2 (String h1 (String h2 rest))) =>
                  return_if negb ((z1 == "0"%char) && (z2 == "0"%char)) with None ;;
                  n1 ← hex_value h1; n2 ← hex_value h2;
                  push (Ascii.ascii_of_N (16 * n1 + n2)) (read_text rest)
              | _ => None
              end
            else c ← unescape e; push c (read_text rest)
        | EmptyString => None
        end
      else if (Ascii.N_of_ascii c <? 32)%N then None
      else push c (read_text rest)
  end.

(** The rest of [s] after the character [c]. *)
Definition after (c : Ascii.ascii) (s : string) : option string :=
  match s with String d rest => if d == c then Some rest else None | EmptyString => None end.

Fixpoint after_word (word s : string) : option string :=
  match word with EmptyString => Some s | String c word => rest ← after c s; after_word word rest end.

(** [n] bounds the number of values, elements and members opened. *)
Fixpoint read_value (n : nat) (s : string) : option (Json * string) :=
  match n, s with
  | O, _ | _, EmptyString => None
  | S n, String c rest =>
      if c == dquote then '(text, rest) ← read_text rest; Some (JString text, rest)
      else if c == "["%char then
        match after "]" rest with
        | Some rest => Some (JArray [], rest)
        | None => '(l, rest) ← read_elements n rest; Some (JArray l, rest)
        end
      else if c == "{"%char then
        match after "}" rest with
        | Some rest => Some (JObject [], rest)
        | None => '(l, rest) ← read_members n rest; Some (JObject l, rest)
        end
      else if c == "t"%char then rest ← after_word "true" s; Some (JBool true, rest)
      else if c == "f"%char then rest ← after_word "false" s; Some (JBool false, rest)
      else '(x, rest) ← read_number s; Some (JNumber x, rest)
  end
with read_elements (n : nat) (s : string) : option (list Json * string) :=
  match n with
  | O => None
  | S n =>
      '(j, s) ← read_value n s;
      match after "," s with
      | Some s => '(l, s) ← read_elements n s; Some (j :: l, s)
      | None => s ← after "]" s; Some ([j], s)
      end
  end
with read_members (n : nat) (s : string) : option (list (string * Json) * string) :=
  match n with
  | O => None
  | S n =>
      s ← after dquote s; '(k, s) ← read_text s; s ← after ":" s; '(j, s) ← read_value n s;
      match after "," s with
      | Some s => '(l, s) ← read_members n s; Some ((k, j) :: l, s)
      | None => s ← after "}" s; Some ([(k, j)], s)
      end
  end.

Definition read_json (s : string) : option Json :=
  match read_value (String.length s) s with
  | Some (j, EmptyString) => Some j
  | _ => None
  end.

Example read_sample :
  read_json (render (JObject [("a", JArray [JNumber (-120); JBool true; JString (String dquote "x")]); ("b", JObject [])])) =
  Some (JObject [("a", JArray [JNumber (-120); JBool true; JString (String dquote "x")]); ("b", JObject [])]).
Proof. vm_compute. reflexivity. Qed.

(** ** A document is read back as it was rendered *)

Section Induction.
Context (P : Json -> Prop).
Hypotheses (Hbool : forall b, P (JBool b)) (Hnumber : forall x, P (JNumber x))
  (Hstring : forall text, P (JString text)) (Harray : forall l, Forall P l -> P (JArray l))
  (Hobject : forall l, Forall (fun kv => P kv.2) l -> P (JObject l)).

Lemma Json_ind : forall j, P j.
Proof.
  fix IH 1. intros [b|x|text|l|l]; [apply Hbool|apply Hnumber|apply Hstring|apply Harray|apply Hobject].
  - induction l as [|j l IHl]; [apply Forall_nil_2|]. apply Forall_cons_2; [apply IH|exact IHl].
  - induction l as [|[k j] l IHl]; [apply Forall_nil_2|]. apply Forall_cons_2; [apply IH|exact IHl].
Qed.
End Induction.

(** *** Strings *)

Lemma read_escaped_char c s : read_text (escape_char c +:+ s) = push c (read_text s).
Proof. destruct c as [[] [] [] [] [] [] [] []]; reflexivity. Qed.

Lemma read_escaped text rest :
  read_text (escape_json text +:+ String dquote rest) = Some (text, rest).
Proof.
  induction text as [|c text IH]; [reflexivity|]. cbn [escape_json].
  by rewrite append_assoc, read_escaped_char, IH.
Qed.

Lemma quoted_app text rest : quoted text +:+ rest = String dquote (text +:+ String dquote rest).
Proof. unfold quoted. by rewrite !append_assoc. Qed.

Lemma read_quoted text rest :
  read_text (escape_json text +:+ String dquote rest) = Some (text, rest).
Proof. apply read_escaped. Qed.

(** *** Numbers *)

(** Nothing that could belong to a number comes next. *)
Definition delimited (rest : string) : Prop :=
  match rest with String c _ => is_digit c = false | EmptyString => True end.

(** What holds of each of the first [k] numbers, found by trying them. *)
Lemma try_below (P : N -> bool) (k : nat) n :
  forallb (fun i => P (N.of_nat i)) (seq 0 k) = true -> (n < N.of_nat k)%N -> P n = true.
Proof.
  intros H Hn. rewrite forallb_forall in H. rewrite <- (N2Nat.id n). apply H, in_seq. lia.
Qed.

Lemma pretty_digit n : (n < 10)%N ->
  is_digit (pretty_N_char n) = true /\ digit_value (pretty_N_char n) = Z.of_N n /\
  ((0 < n)%N -> pretty_N_char n <> "0"%char).
Proof.
  intros Hn. assert (H : is_digit (pretty_N_char n) && (digit_value (pretty_N_char n) =? Z.of_N n)%Z = true).
  { apply (try_below (fun n => is_digit (pretty_N_char n) && (digit_value (pretty_N_char n) =? Z.of_N n)%Z) 10);
      [reflexivity|exact Hn]. }
  apply andb_true_iff in H as [Hd Hv%Z.eqb_eq]. split_and!; [done|done|]. intros Hp E. rewrite E in Hv.
  change (digit_value "0") with 0 in Hv. lia.
Qed.

Lemma read_pretty_go x s rest :
  read_digits 0 (pretty_N_go x s +:+ rest) = read_digits (Z.of_N x) (s +:+ rest).
Proof.
  revert s. induction (N.lt_wf_0 x) as [x _ IH]; intros s.
  destruct (decide (x = 0)%N) as [->|Hx]; [by rewrite pretty_N_go_0|].
  rewrite pretty_N_go_step by lia. rewrite IH by (apply N.div_lt; lia).
  destruct (pretty_digit (x mod 10)) as (Hd & Hv & _); [by apply N.mod_lt|].
  change (String ?c s +:+ rest) with (String c (s +:+ rest)). cbn [read_digits].
  rewrite Hd, Hv. f_equal. pose proof (N.div_mod x 10). lia.
Qed.

Lemma pretty_go_head x s : (0 < x)%N ->
  exists n t, pretty_N_go x s = String (pretty_N_char n) t /\ (0 < n < 10)%N.
Proof.
  revert s. induction (N.lt_wf_0 x) as [x _ IH]; intros s Hx. rewrite pretty_N_go_step by done.
  destruct (decide (x < 10)%N) as [Hlt|Hge].
  - rewrite N.div_small by done. rewrite pretty_N_go_0. exists (x mod 10)%N, s. split; [done|].
    rewrite N.mod_small by done. lia.
  - apply IH; [apply N.div_lt; lia|]. apply N.div_str_pos. lia.
Qed.

Lemma read_digits_stop acc rest : delimited rest -> read_digits acc rest = (acc, rest).
Proof. destruct rest as [|c rest]; simpl; [done|]. by intros ->. Qed.

Lemma read_positive p rest : delimited rest ->
  exists n t, pretty (N.pos p) +:+ rest = String (pretty_N_char n) t /\ (0 < n < 10)%N /\
    read_natural (pretty (N.pos p) +:+ rest) = Some (Z.pos p, rest).
Proof.
  intros Hr. destruct (pretty_go_head (N.pos p) "") as (n & t & E & Hn); [lia|].
  change (pretty (N.pos p)) with (pretty_N_go (N.pos p) "").
  pose proof (read_pretty_go (N.pos p) "" rest) as Hd. rewrite E in Hd |- *.
  exists n, (t +:+ rest). split; [done|]. split; [done|].
  destruct (pretty_digit n) as (Hd1 & _ & H0); [lia|].
  change (String ?c t +:+ rest) with (String c (t +:+ rest)) in *. unfold read_natural. rewrite Hd1. cbn [negb].
  rewrite bool_decide_eq_false_2 by (apply H0; lia). rewrite Hd. by rewrite read_digits_stop.
Qed.

Lemma read_int x rest : delimited rest -> read_number (to_string_int x +:+ rest) = Some (x, rest).
Proof.
  intros Hr. destruct x as [|p|p].
  - destruct rest as [|c rest]; reflexivity.
  - destruct (read_positive p rest Hr) as (n & t & E & Hn & H).
    change (to_string_int (Z.pos p)) with (pretty (N.pos p)). rewrite <- H, E. unfold read_number.
    rewrite bool_decide_eq_false_2; [done|]. intros E'. destruct (pretty_digit n) as (Hd & _); [lia|].
    by rewrite E' in Hd.
  - destruct (read_positive p rest Hr) as (n & t & E & Hn & H).
    change (to_string_int (Z.neg p) +:+ rest) with (String "-"%char (pretty (N.pos p) +:+ rest)).
    unfold read_number. rewrite bool_decide_eq_true_2 by done. by rewrite H.
Qed.

(** The decimal form of a natural number is all digits. *)
Lemma natural_digits n : 0 <= n -> read_digits 0 (to_string_int n) = (n, "") /\ to_string_int n <> "".
Proof.
  intros Hn. destruct n as [|p|p]; [done| |lia].
  change (to_string_int (Z.pos p)) with (pretty (N.pos p)).
  destruct (read_positive p "" I) as (d & t & E & Hd & Hr). rewrite append_nil_r in E, Hr. rewrite E in Hr |- *.
  destruct (pretty_digit d) as (Hdigit & _ & H0); [lia|]. split; [|done].
  unfold read_natural in Hr. rewrite Hdigit, bool_decide_eq_false_2 in Hr by (apply H0; lia). cbn [negb] in Hr. congruence.
Qed.

(** The first character of a number opens nothing else. *)
Lemma number_head x : exists c t, to_string_int x = String c t /\ (is_digit c = true \/ c = "-"%char).
Proof.
  destruct x as [|p|p]; [by exists "0"%char, ""; split; [|left]| |].
  - destruct (read_positive p "" I) as (n & t & E & Hn & _). rewrite append_nil_r in E.
    exists (pretty_N_char n), t. split; [exact E|]. left. apply pretty_digit. lia.
  - exists "-"%char, (pretty (N.pos p)). by split; [|right].
Qed.

(** *** Documents *)

Lemma after_eq c s : after c (String c s) = Some s.
Proof. unfold after. by rewrite bool_decide_eq_true_2. Qed.
Lemma after_ne c d s : d <> c -> after c (String d s) = None.
Proof. intros H. unfold after. by rewrite bool_decide_eq_false_2. Qed.

(** Values, elements and members to open. *)
Fixpoint weight (j : Json) : nat :=
  match j with
  | JArray l => S (foldr (fun j n => S (weight j + n)) O l)
  | JObject l => S (foldr (fun kv n => S (weight kv.2 + n)) O l)
  | _ => 1
  end.

Lemma render_head j : exists c t, render j = String c t /\ c <> "]"%char.
Proof.
  destruct j as [[]|x|text|l|l]; try by eexists _, _.
  destruct (number_head x) as (c & t & E & H). exists c, t. split; [exact E|]. intros ->. destruct H as [H|H]; discriminate H.
Qed.

Definition reads (j : Json) : Prop :=
  forall n rest, (weight j <= n)%nat -> delimited rest -> read_value n (render j +:+ rest) = Some (j, rest).

Lemma join_comma_cons p parts :
  join_comma (p :: parts) = p +:+ match parts with [] => "" | _ => "," +:+ join_comma parts end.
Proof. destruct parts; cbn [join_comma]; [by rewrite append_nil_r|done]. Qed.

Lemma read_elements_render j l n rest :
  Forall reads (j :: l) -> (foldr (fun j n => S (weight j + n)) O (j :: l) <= n)%nat ->
  read_elements n (join_comma (map render (j :: l)) +:+ String "]"%char rest) = Some (j :: l, rest).
Proof.
  revert j n. induction l as [|j' l IH]; intros j n [Hj Hl]%Forall_cons Hn;
    (destruct n as [|n]; [simpl in Hn; lia|]); cbn [foldr] in Hn; cbn [read_elements].
  - cbn [map join_comma]. rewrite Hj by (done || lia). reflexivity.
  - rewrite map_cons, join_comma_cons. cbn [map]. rewrite append_assoc.
    rewrite Hj by (done || (simpl in Hn; lia)). cbn [mbind option_bind].
    change ((("," +:+ ?s) +:+ ?t)) with (String ","%char (s +:+ t)). rewrite after_eq.
    specialize (IH j' n Hl). cbn [map] in IH. rewrite IH; [reflexivity|]. simpl in Hn |- *. lia.
Qed.

Definition render_member (kv : string * Json) : string := quoted (escape_json kv.1) +:+ ":" +:+ render kv.2.

Lemma read_member_render k j rest :
  after dquote (render_member (k, j) +:+ rest) = Some (escape_json k +:+ String dquote (String ":"%char (render j +:+ rest))).
Proof.
  unfold render_member. cbn [fst snd]. rewrite append_assoc, quoted_app, after_eq. by rewrite append_assoc.
Qed.

Lemma read_members_render kv l n rest :
  Forall (fun kv => reads kv.2) (kv :: l) -> (foldr (fun kv n => S (weight kv.2 + n)) O (kv :: l) <= n)%nat ->
  read_members n (join_comma (map render_member (kv :: l)) +:+ String "}"%char rest) = Some (kv :: l, rest).
Proof.
  revert kv n. induction l as [|kv' l IH]; intros [k j] n [Hj Hl]%Forall_cons Hn;
    (destruct n as [|n]; [simpl in Hn; lia|]); cbn [foldr fst snd] in Hn, Hj; cbn [read_members].
  - cbn [map join_comma]. rewrite read_member_render. cbn [mbind option_bind]. rewrite read_escaped.
    cbn [mbind option_bind]. rewrite after_eq. cbn [mbind option_bind]. rewrite Hj by (done || lia). reflexivity.
  - rewrite map_cons, join_comma_cons. cbn [map]. rewrite append_assoc, read_member_render.
    cbn [mbind option_bind]. rewrite read_escaped. cbn [mbind option_bind]. rewrite after_eq. cbn [mbind option_bind].
    rewrite Hj by (done || (simpl in Hn; lia)). cbn [mbind option_bind].
    change ((("," +:+ ?s) +:+ ?t)) with (String ","%char (s +:+ t)). rewrite after_eq.
    specialize (IH kv' n Hl). cbn [map] in IH. rewrite IH; [reflexivity|]. simpl in Hn |- *. lia.
Qed.

Lemma read_number_value n x rest : delimited rest ->
  read_value (S n) (to_string_int x +:+ rest) = Some (JNumber x, rest).
Proof.
  intros Hr. pose proof (read_int x rest Hr) as H. destruct (number_head x) as (c & t & E & Hc).
  rewrite E in H |- *. change (String c t +:+ rest) with (String c (t +:+ rest)) in *. cbn [read_value].
  rewrite !bool_decide_eq_false_2; [by rewrite H|..]; intros ->; destruct Hc as [Hc|Hc]; discriminate Hc.
Qed.

Lemma read_render j : reads j.
Proof.
  induction j as [b|x|text|l IH|l IH] using Json_ind; intros n rest Hn Hr;
    (destruct n as [|n]; [simpl in Hn; lia|]).
  - by destruct b.
  - by apply read_number_value.
  - cbn [render]. rewrite quoted_app. cbn [read_value]. rewrite bool_decide_eq_true_2 by done.
    by rewrite read_escaped.
  - destruct l as [|j l]; [done|]. cbn [render]. rewrite !append_assoc.
    change ("[" +:+ ?s) with (String "["%char s). change ("]" +:+ rest) with (String "]"%char rest).
    cbn [read_value]. rewrite bool_decide_eq_false_2, bool_decide_eq_true_2 by done.
    assert (Ha : after "]" (join_comma (map render (j :: l)) +:+ String "]"%char rest) = None).
    { rewrite map_cons, join_comma_cons. destruct (render_head j) as (c & t & -> & Hc). by apply after_ne. }
    rewrite Ha. rewrite read_elements_render; [done|done|]. simpl in Hn |- *. lia.
  - destruct l as [|[k j] l]; [done|]. cbn [render]. fold render_member. rewrite !append_assoc.
    change ("{" +:+ ?s) with (String "{"%char s). change ("}" +:+ rest) with (String "}"%char rest).
    cbn [read_value]. rewrite !bool_decide_eq_false_2, bool_decide_eq_true_2 by done.
    rewrite read_members_render; [|done|simpl in Hn |- *; lia].
    rewrite map_cons, join_comma_cons, append_assoc.
    unfold render_member at 1. by rewrite append_assoc, quoted_app.
Qed.

Lemma length_append s t : String.length (s +:+ t) = (String.length s + String.length t)%nat.
Proof. induction s as [|c s IH]; [done|]. simpl. by rewrite IH. Qed.

Lemma length_quoted s : String.length (quoted s) = S (S (String.length s)).
Proof. unfold quoted. rewrite !length_append. simpl. lia. Qed.

Lemma weight_render j : (weight j <= String.length (render j))%nat.
Proof.
  induction j as [[]|x|text|l IH|l IH] using Json_ind; cbn [weight render]; try (simpl; lia).
  - destruct (number_head x) as (c & t & -> & _). simpl. lia.
  - rewrite !length_append. assert (H : (foldr (fun j n => S (weight j + n)) O l <=
      S (String.length (join_comma (map render l))))%nat); [|simpl in H |- *; lia].
    induction IH as [|j l Hj _ IHl]; [simpl; lia|]. cbn [foldr map]. rewrite join_comma_cons, length_append.
    destruct l; [simpl; lia|]. cbn [map] in *. rewrite length_append. simpl in *. lia.
  - fold render_member. rewrite !length_append. assert (H : (foldr (fun kv n => S (weight kv.2 + n)) O l <=
      S (String.length (join_comma (map render_member l))))%nat); [|simpl in H |- *; lia].
    induction IH as [|[k j] l Hj _ IHl]; [simpl; lia|]. cbn [foldr map]. rewrite join_comma_cons, length_append.
    unfold render_member at 1. rewrite !length_append, length_quoted. cbn [fst snd] in *.
    destruct l; [simpl; lia|]. cbn [map] in *. rewrite length_append. simpl in *. lia.
Qed.

Lemma read_json_render j : read_json (render j) = Some j.
Proof.
  unfold read_json. pose proof (read_render j _ "" (weight_render j) I) as H.
  rewrite append_nil_r in H. by rewrite H.
Qed.

(** ** Texts the program writes without escaping them *)

Fixpoint all_chars (P : ascii -> bool) (s : string) : bool :=
  match s with String c s => P c && all_chars P s | EmptyString => true end.

(** A character that stands for itself. *)
Definition literal (c : ascii) : bool :=
  negb (N_of_ascii c <? 32)%N && negb (c == dquote) && negb (c == backslash).

Lemma escape_literal c : literal c = true -> escape_char c = str1 c.
Proof. destruct c as [[] [] [] [] [] [] [] []]; done. Qed.

(** Nothing in the text needs escaping. *)
Definition unescaped (text : string) : Prop := escape_json text = text.

Lemma literal_unescaped s : all_chars literal s = true -> unescaped s.
Proof.
  induction s as [|c s IH]; [done|]. intros [Hc Hs]%andb_true_iff. unfold unescaped. cbn [escape_json].
  rewrite escape_literal by done. by rewrite (IH Hs).
Qed.

Lemma unescaped_app s t : unescaped s -> unescaped t -> unescaped (s +:+ t).
Proof.
  unfold unescaped. intros Hs Ht. rewrite <- Hs at 2. rewrite <- Ht at 2. clear Hs Ht.
  induction s as [|c s IH]; [done|]. change (String c s +:+ t) with (String c (s +:+ t)). cbn [escape_json].
  by rewrite IH, append_assoc.
Qed.

Lemma literal_pretty x s : all_chars literal s = true -> all_chars literal (pretty_N_go x s) = true.
Proof.
  revert s. induction (N.lt_wf_0 x) as [x _ IH]; intros s Hs.
  destruct (decide (x = 0)%N) as [->|Hx]; [by rewrite pretty_N_go_0|].
  rewrite pretty_N_go_step by lia. apply IH; [apply N.div_lt; lia|]. cbn [all_chars]. rewrite Hs, andb_true_r.
  apply (try_below (fun n => literal (pretty_N_char n)) 10); [reflexivity|by apply N.mod_lt].
Qed.

Lemma unescaped_int x : unescaped (to_string_int x).
Proof.
  apply literal_unescaped. destruct x as [|p|p]; [done|by apply (literal_pretty (N.pos p) "")|].
  by apply (literal_pretty (N.pos p) "").
Qed.

Lemma kHex_literal n : 0 <= n < 16 -> literal (kHex n) = true.
Proof.
  intros Hn. rewrite <- (Z2N.id n) by lia.
  apply (try_below (fun n => literal (kHex (Z.of_N n))) 16); [reflexivity|lia].
Qed.

Lemma to_hex_literal bytes : Forall is_byte bytes -> all_chars literal (to_hex bytes) = true.
Proof.
  induction 1 as [|b bytes Hb _ IH]; [done|]. cbn [to_hex all_chars]. unfold is_byte in Hb. rewrite IH.
  rewrite !kHex_literal; [done| |].
  - change 15 with (Z.ones 4). rewrite Z.land_ones by lia. by apply Z.mod_pos_bound.
  - rewrite Z.shiftr_div_pow2 by lia. split; [apply Z.div_pos; lia|]. apply Z.div_lt_upper_bound; lia.
Qed.

Lemma land_byte_is_byte x : is_byte (Z.land x 255).
Proof. apply low_byte_is_byte. Qed.

Lemma finish_bytes h : Forall is_byte (finish h).
Proof.
  unfold finish, state_bytes, word_bytes. cbn [app]. repeat (apply Forall_cons_2; [apply land_byte_is_byte|]).
  apply Forall_nil_2.
Qed.

Lemma unescaped_hex text : unescaped (sha256_hex text).
Proof. apply literal_unescaped, to_hex_literal, finish_bytes. Qed.
