(* ===== verification/Limits.v ===== *)
(** * Resource limits ([limits.hpp], [limits.cpp])

    Every externally influenced collection is bounded by one of these
    numbers; [validate] checks the relations between them. *)
From S2P Require Import Prelude.

Record ResourceLimits := {
  max_models : Z;
  max_providers : Z;
  max_backends : Z;
  max_backend_incarnations : Z;
  max_endpoints : Z;
  max_model_bindings_per_backend : Z;
  max_capability_entries_per_model : Z;
  max_capability_entries_per_backend : Z;
  max_capability_entries : Z;
  max_candidates_per_request : Z;
  max_ranked_candidates : Z;
  max_fallback_candidates : Z;
  max_explanation_factors : Z;
  max_rejection_records : Z;
  max_route_requests : Z;
  max_route_decisions : Z;
  max_route_history : Z;
  max_dispatch_records : Z;
  max_requirement_entries : Z;
  max_allowlist_entries : Z;
  max_policy_records : Z;
  max_budget_records : Z;
  max_slo_records : Z;
  max_cost_records : Z;
  max_compatibility_records : Z;
  max_trust_records : Z;
  max_tenants : Z;
  max_namespaces : Z;
  max_tenant_policy_bindings : Z;
  max_connections : Z;
  max_session_threads : Z;
  max_send_queue_frames : Z;
  max_outstanding_correlations : Z;
  max_frame_payload_bytes : Z;
  max_payload_bytes : Z;
  max_frame_bytes : Z;
  max_string_bytes : Z;
  max_collection_entries : Z;
  max_metadata_entries : Z;
  max_metadata_key_bytes : Z;
  max_metadata_value_bytes : Z;
  max_persistence_bytes : Z;
  max_persistence_records : Z;
  max_temporary_files : Z
}.

Definition default_resource_limits : ResourceLimits := {|
  max_models := 8192;
  max_providers := 1024;
  max_backends := 16384;
  max_backend_incarnations := 65536;
  max_endpoints := 16384;
  max_model_bindings_per_backend := 256;
  max_capability_entries_per_model := 256;
  max_capability_entries_per_backend := 256;
  max_capability_entries := 1048576;
  max_candidates_per_request := 100000;
  max_ranked_candidates := 4096;
  max_fallback_candidates := 64;
  max_explanation_factors := 512;
  max_rejection_records := 100000;
  max_route_requests := 1000000;
  max_route_decisions := 1000000;
  max_route_history := 1000000;
  max_dispatch_records := 1000000;
  max_requirement_entries := 256;
  max_allowlist_entries := 4096;
  max_policy_records := 1024;
  max_budget_records := 1024;
  max_slo_records := 1024;
  max_cost_records := 65536;
  max_compatibility_records := 4096;
  max_trust_records := 4096;
  max_tenants := 4096;
  max_namespaces := 8192;
  max_tenant_policy_bindings := 4096;
  max_connections := 256;
  max_session_threads := 512;
  max_send_queue_frames := 4096;
  max_outstanding_correlations := 4096;
  max_frame_payload_bytes := 4194304;
  max_payload_bytes := 4194304;
  max_frame_bytes := 8388608;
  max_string_bytes := 4096;
  max_collection_entries := 100000;
  max_metadata_entries := 256;
  max_metadata_key_bytes := 128;
  max_metadata_value_bytes := 2048;
  max_persistence_bytes := 1073741824;
  max_persistence_records := 4000000;
  max_temporary_files := 256
|}.

#[export] Instance resource_limits_eta : Eta ResourceLimits := fun l =>
  {| max_models := max_models l;
     max_providers := max_providers l;
     max_backends := max_backends l;
     max_backend_incarnations := max_backend_incarnations l;
     max_endpoints := max_endpoints l;
     max_model_bindings_per_backend := max_model_bindings_per_backend l;
     max_capability_entries_per_model := max_capability_entries_per_model l;
     max_capability_entries_per_backend := max_capability_entries_per_backend l;
     max_capability_entries := max_capability_entries l;
     max_candidates_per_request := max_candidates_per_request l;
     max_ranked_candidates := max_ranked_candidates l;
     max_fallback_candidates := max_fallback_candidates l;
     max_explanation_factors := max_explanation_factors l;
     max_rejection_records := max_rejection_records l;
     max_route_requests := max_route_requests l;
     max_route_decisions := max_route_decisions l;
     max_route_history := max_route_history l;
     max_dispatch_records := max_dispatch_records l;
     max_requirement_entries := max_requirement_entries l;
     max_allowlist_entries := max_allowlist_entries l;
     max_policy_records := max_policy_records l;
     max_budget_records := max_budget_records l;
     max_slo_records := max_slo_records l;
     max_cost_records := max_cost_records l;
     max_compatibility_records := max_compatibility_records l;
     max_trust_records := max_trust_records l;
     max_tenants := max_tenants l;
     max_namespaces := max_namespaces l;
     max_tenant_policy_bindings := max_tenant_policy_bindings l;
     max_connections := max_connections l;
     max_session_threads := max_session_threads l;
     max_send_queue_frames := max_send_queue_frames l;
     max_outstanding_correlations := max_outstanding_correlations l;
     max_frame_payload_bytes := max_frame_payload_bytes l;
     max_payload_bytes := max_payload_bytes l;
     max_frame_bytes := max_frame_bytes l;
     max_string_bytes := max_string_bytes l;
     max_collection_entries := max_collection_entries l;
     max_metadata_entries := max_metadata_entries l;
     max_metadata_key_bytes := max_metadata_key_bytes l;
     max_metadata_value_bytes := max_metadata_value_bytes l;
     max_persistence_bytes := max_persistence_bytes l;
     max_persistence_records := max_persistence_records l;
     max_temporary_files := max_temporary_files l |}.

(** [add_failure]: only the first violation is described. *)
Definition add_failure (message : string) (name : string) (v : Z) (relation : string) (bound : Z) :=
  if message == "" then
    name +:+ "=" +:+ to_string_int v +:+ " violates " +:+ relation +:+ "=" +:+ to_string_int bound
  else message.

(** One [if (violated) add_failure(...)] statement. *)
Definition fail_if (violated : bool) (name : string) (v : Z) (relation : string) (bound : Z)
    (message : string) : string :=
  if violated then add_failure message name v relation bound else message.

Definition limits_validate (l : ResourceLimits) : string :=
  fold_left (fun message check => check message) [
    fail_if (max_models l =? 0) "max_models" (max_models l) "minimum" 1;
    fail_if (max_backends l =? 0) "max_backends" (max_backends l) "minimum" 1;
    fail_if (max_candidates_per_request l =? 0) "max_candidates_per_request" (max_candidates_per_request l) "minimum" 1;
    fail_if (max_ranked_candidates l =? 0) "max_ranked_candidates" (max_ranked_candidates l) "minimum" 1;
    fail_if (max_candidates_per_request l <? max_ranked_candidates l) "max_ranked_candidates" (max_ranked_candidates l) "max_candidates_per_request" (max_candidates_per_request l);
    fail_if (max_ranked_candidates l <? max_fallback_candidates l) "max_fallback_candidates" (max_fallback_candidates l) "max_ranked_candidates" (max_ranked_candidates l);
    fail_if (max_explanation_factors l =? 0) "max_explanation_factors" (max_explanation_factors l) "minimum" 1;
    fail_if (max_rejection_records l <? max_candidates_per_request l) "max_rejection_records" (max_rejection_records l) "max_candidates_per_request" (max_candidates_per_request l);
    fail_if (max_frame_payload_bytes l =? 0) "max_frame_payload_bytes" (max_frame_payload_bytes l) "minimum" 1;
    fail_if (max_frame_bytes l <? max_frame_payload_bytes l) "max_frame_bytes" (max_frame_bytes l) "max_frame_payload_bytes" (max_frame_payload_bytes l);
    fail_if (max_payload_bytes l =? 0) "max_payload_bytes" (max_payload_bytes l) "minimum" 1;
    fail_if (max_string_bytes l =? 0) "max_string_bytes" (max_string_bytes l) "minimum" 1;
    fail_if (max_collection_entries l =? 0) "max_collection_entries" (max_collection_entries l) "minimum" 1;
    fail_if (max_collection_entries l <? max_metadata_entries l) "max_metadata_entries" (max_metadata_entries l) "max_collection_entries" (max_collection_entries l);
    fail_if (max_persistence_bytes l =? 0) "max_persistence_bytes" (max_persistence_bytes l) "minimum" 1;
    fail_if (max_persistence_records l =? 0) "max_persistence_records" (max_persistence_records l) "minimum" 1;
    fail_if (max_send_queue_frames l =? 0) "max_send_queue_frames" (max_send_queue_frames l) "minimum" 1;
    fail_if (max_session_threads l =? 0) "max_session_threads" (max_session_threads l) "minimum" 1;
    fail_if (max_connections l =? 0) "max_connections" (max_connections l) "minimum" 1;
    fail_if (max_route_history l =? 0) "max_route_history" (max_route_history l) "minimum" 1;
    fail_if (max_requirement_entries l =? 0) "max_requirement_entries" (max_requirement_entries l) "minimum" 1;
    fail_if (max_model_bindings_per_backend l =? 0) "max_model_bindings_per_backend" (max_model_bindings_per_backend l) "minimum" 1;
    fail_if (max_backend_incarnations l <? max_backends l) "max_backend_incarnations" (max_backend_incarnations l) "max_backends" (max_backends l)
  ] "".

(** ** Facts *)

Lemma add_failure_nonempty message name v relation bound :
  name <> "" -> add_failure message name v relation bound <> "".
Proof. unfold add_failure. case_bool_decide; [|done]. by destruct name. Qed.

(** A nonempty message survives every later check. *)
Lemma fail_if_empty violated name v relation bound message :
  name <> "" ->
  fail_if violated name v relation bound message = "" <-> violated = false /\ message = "".
Proof.
  intros Hn. unfold fail_if, add_failure. destruct violated; [|naive_solver].
  case_bool_decide; [|naive_solver]. split; [|naive_solver]. by destruct name.
Qed.

(** The relations that a coherent limit set satisfies. *)
Record limits_coherent (l : ResourceLimits) : Prop := {
  coherent_positive : Forall (fun n => n <> 0)
    [max_models l; max_backends l; max_candidates_per_request l; max_ranked_candidates l;
     max_explanation_factors l; max_frame_payload_bytes l; max_payload_bytes l;
     max_string_bytes l; max_collection_entries l; max_persistence_bytes l;
     max_persistence_records l; max_send_queue_frames l; max_session_threads l;
     max_connections l; max_route_history l; max_requirement_entries l;
     max_model_bindings_per_backend l];
  coherent_ranked : max_ranked_candidates l <= max_candidates_per_request l;
  coherent_fallback : max_fallback_candidates l <= max_ranked_candidates l;
  coherent_rejections : max_candidates_per_request l <= max_rejection_records l;
  coherent_frame : max_frame_payload_bytes l <= max_frame_bytes l;
  coherent_metadata : max_metadata_entries l <= max_collection_entries l;
  coherent_incarnations : max_backends l <= max_backend_incarnations l
}.

Lemma default_limits_coherent : limits_coherent default_resource_limits.
Proof. split; [repeat constructor; discriminate | discriminate..]. Qed.

(** ** Properties *)

(** [ResourceLimits::validate] reports no violation exactly for the limit
    sets whose mandatory limits are nonzero and whose nested bounds are
    ordered; in particular every eligible candidate list that may be ranked
    fits the candidate bound and leaves room for every rejection record. *)
Theorem limits_validate_spec (l : ResourceLimits) :
  limits_validate l = "" <-> limits_coherent l.
Proof.
  unfold limits_validate. cbn [fold_left]. rewrite !fail_if_empty by done.
  rewrite !Z.eqb_neq, !Z.ltb_ge. split.
  - intros. destruct_and!. split; [by repeat constructor|lia..].
  - intros [Hp]. repeat (apply Forall_cons in Hp as [? Hp]). repeat split; try done; lia.
Qed.
