(* ===== verification/Codec.v ===== *)
(** * Bounded writers and readers of bytes

    [ByteWriter] and [ByteReader] of [persistence.cpp]; the writer and the
    reader of the wire protocol work the same way.  A failed writer or reader
    stays failed: [ok] is asked once, at the end. *)
From S2P Require Import Prelude Bytes Ids Limits.

(** ** Writing *)

(** [wr_error] and [rd_error] are the messages the writer and the reader of the
    wire protocol keep; those of the durable format keep none, and nothing
    there reads them. *)
Record ByteWriter := ByteWriterOf { wr_bytes : list Z; wr_ok : bool; wr_error : string }.
#[export] Instance byte_writer_eta : Eta ByteWriter := fun w =>
  {| wr_bytes := wr_bytes w; wr_ok := wr_ok w; wr_error := wr_error w |}.
Definition byte_writer : ByteWriter := ByteWriterOf [] true "".

(** A statement on the writer, and a block of statements. *)
Definition Put : Type := ByteWriter -> ByteWriter.
Definition in_order (block : list Put) : Put := fun w => fold_left (fun w statement => statement w) block w.

Definition put_u8 (value : Z) : Put := fun w => w <| wr_bytes := wr_bytes w ++ [value] |>.

(** The bytes of a word, from shift 0 upwards. *)
Fixpoint put_shifted (count : nat) (shift value : Z) : Put :=
  match count with
  | O => fun w => w
  | S count => fun w => put_shifted count (shift + 8) value (put_u8 (low_byte (Z.shiftr value shift)) w)
  end.

Definition put_u16 : Z -> Put := put_shifted 2 0.
Definition put_u32 : Z -> Put := put_shifted 4 0.
Definition put_u64 : Z -> Put := put_shifted 8 0.
(** [static_cast<std::uint64_t>] of a signed value. *)
Definition put_i64 (value : Z) : Put := put_u64 (word64 value).
Definition put_bool (value : bool) : Put := put_u8 (if value then 1 else 0).
Definition put_id {t} (id : EntityId t) : Put := put_u64 (value id).
Definition put_generation {t} (generation : Generation t) : Put := put_u64 (value generation).
(** The first failure is kept. *)
Definition writer_fail (error : string) : Put := fun w =>
  if wr_ok w then w <| wr_ok := false |> <| wr_error := error |> else w.
Definition string_too_long : string := "string exceeds the configured byte limit".

(** [bytes_.insert(bytes_.end(), ...)]. *)
Definition append_bytes (bytes : list Z) : Put := fun w => w <| wr_bytes := wr_bytes w ++ bytes |>.

Definition put_string (limits : ResourceLimits) (s : string) : Put := fun w =>
  let size := Z.of_nat (String.length s) in
  return_if negb (wr_ok w) || (max_string_bytes limits <? size) with writer_fail string_too_long w ;;
  append_bytes (string_codes s) (put_u32 size w).

(** A loop over a list. *)
Definition put_each {A} (put : A -> Put) (l : list A) : Put := in_order (put <$> l).

(** ** Reading *)

(** The unread bytes; [rd_known] is a ghost: it is cleared when a byte is cast
    to an enumeration it is no enumerator of, a value the inductive types of
    this development do not have. *)
Record ByteReader := ByteReaderOf { rd_rest : list Z; rd_ok : bool; rd_known : bool; rd_error : string }.
#[export] Instance byte_reader_eta : Eta ByteReader := fun r =>
  {| rd_rest := rd_rest r; rd_ok := rd_ok r; rd_known := rd_known r; rd_error := rd_error r |}.
(** Nothing has failed yet. *)
Notation "'reading' bytes" := (ByteReaderOf bytes true true "") (at level 10, bytes at level 9).
Definition byte_reader (bytes : list Z) : ByteReader := reading bytes.

Definition Get (A : Type) : Type := ByteReader -> A * ByteReader.
#[export] Instance get_ret : MRet Get := fun A a r => (a, r).
#[export] Instance get_bind : MBind Get := fun A B f m r => let '(a, r) := m r in f a r.

(** [return] of an early failure. *)
Definition or_fail {A B} (m : Get (option A)) (f : A -> Get (option B)) : Get (option B) :=
  m ≫= fun r => match r with None => mret None | Some a => f a end.

Definition reader_ok : Get bool := fun r => (rd_ok r, r).
Definition exhausted : Get bool := fun r => (bool_decide (rd_rest r = []), r).

Definition fail_reading (error : string) (r : ByteReader) : ByteReader :=
  if rd_ok r then r <| rd_ok := false |> <| rd_error := error |> else r.
Definition payload_ended : string := "payload ended inside a declared field".

Definition require (count : Z) : Get bool := fun r =>
  return_if negb (rd_ok r) || (Z.of_nat (length (rd_rest r)) <? count) with (false, fail_reading payload_ended r) ;;
  (true, r).

Definition get_u8 : Get Z := fun r =>
  let '(granted, r) := require 1 r in
  return_if negb granted with (0, r) ;;
  match rd_rest r with
  | b :: rest => (b, r <| rd_rest := rest |>)
  | [] => (0, r)
  end.

(** [value |= get_u8() << shift], from shift 0 upwards. *)
Fixpoint get_shifted (count : nat) (shift value : Z) : Get Z :=
  match count with
  | O => mret value
  | S count => b ← get_u8; get_shifted count (shift + 8) (Z.lor value (Z.shiftl b shift))
  end.

Definition get_u16 : Get Z := get_shifted 2 0 0.
Definition get_u32 : Get Z := get_shifted 4 0 0.
Definition get_u64 : Get Z := get_shifted 8 0 0.
(** [static_cast<std::int64_t>] of an unsigned value. *)
Definition signed64 (x : Z) : Z := if i64_max <? x then x - 2 ^ 64 else x.
Definition get_i64 : Get Z := x ← get_u64; mret (signed64 x).
Definition get_bool : Get bool := x ← get_u8; mret (negb (x =? 0)).
Definition get_id {t} : Get (EntityId t) := x ← get_u64; mret (EntityIdOf x).
Definition get_generation {t} : Get (Generation t) := x ← get_u64; mret (GenerationOf x).

Definition reader_fail {A} (error : string) (a : A) : Get A := fun r => (a, fail_reading error r).
Definition declared_too_long : string := "declared string length exceeds the configured limit".

Definition take_bytes (count : Z) : Get (list Z) := fun r =>
  (take (Z.to_nat count) (rd_rest r), r <| rd_rest := drop (Z.to_nat count) (rd_rest r) |>).

Definition get_string (limits : ResourceLimits) : Get string :=
  size ← get_u32;
  ok ← reader_ok;
  return_if negb ok || (max_string_bytes limits <? size) with reader_fail declared_too_long "" ;;
  granted ← require size;
  return_if negb granted with mret "" ;;
  bytes ← take_bytes size; mret (string_of_bytes bytes).

(** A [static_cast] to an enumeration: [index] is the underlying value of each
    of its [values]. *)
Definition enum_of {T} (values : list T) (index : T -> Z) (x : Z) : option T :=
  head (filter (fun v => index v = x) values).
Definition known_or {T} (out_of_range : T) (v : option T) : Get T := fun r =>
  match v with
  | Some v => (v, r)
  | None => (out_of_range, r <| rd_known := false |>)
  end.
Definition get_enum {T} (values : list T) (index : T -> Z) (out_of_range : T) (word : Get Z) : Get T :=
  x ← word; known_or out_of_range (enum_of values index x).

(** A counted loop whose body cannot leave it, and one whose body can. *)
Fixpoint get_each {A} (count : nat) (get : Get A) : Get (list A) :=
  match count with
  | O => mret []
  | S count => a ← get; l ← get_each count get; mret (a :: l)
  end.
Fixpoint get_each_or_fail {A} (count : nat) (get : Get (option A)) : Get (option (list A)) :=
  match count with
  | O => mret (Some [])
  | S count => or_fail get (fun a => or_fail (get_each_or_fail count get) (fun l => mret (Some (a :: l))))
  end.

(** ** What is written is read back *)

(** [codec put get a]: if writing succeeds, it had not failed before, it has
    appended bytes, and reading from them yields [a] and leaves what follows. *)
Definition codec {A} (put : Put) (get : Get A) (a : A) : Prop :=
  forall w, wr_ok (put w) = true -> wr_ok w = true /\
    exists bytes, wr_bytes (put w) = wr_bytes w ++ bytes /\ Forall is_byte bytes /\
      forall rest, get (reading (bytes ++ rest)) = (a, reading rest).

Lemma codec_intro {A} (put : Put) (get : Get A) a bytes :
  (forall w, put w = w <| wr_bytes := wr_bytes w ++ bytes |>) -> Forall is_byte bytes ->
  (forall rest, get (reading (bytes ++ rest)) = (a, reading rest)) ->
  codec put get a.
Proof. intros Hp Hb Hg w. rewrite Hp. intros Hw. split; [done|]. by exists bytes. Qed.

Lemma codec_map {A B} (put : Put) (get : Get A) (f : A -> B) a b :
  codec put get a -> f a = b -> codec put (x ← get; mret (f x)) b.
Proof.
  intros H <- w Hw. destruct (H w Hw) as (H1 & bytes & H2 & H3 & H4). split; [done|].
  exists bytes. split; [done|]. split; [done|]. intros rest. unfold mbind, get_bind. by rewrite H4.
Qed.

(** Sequencing: the first statement with the first read, the rest with the rest. *)
Lemma codec_cons {A B} put block (get : Get A) (k : A -> Get B) a b :
  codec put get a -> codec (in_order block) (k a) b -> codec (in_order (put :: block)) (get ≫= k) b.
Proof.
  intros H1 H2 w Hw. unfold in_order in Hw |- *. cbn [fold_left] in Hw |- *.
  destruct (H2 (put w) Hw) as (Hok & bs2 & E2 & B2 & G2). destruct (H1 w Hok) as (Hw0 & bs1 & E1 & B1 & G1).
  split; [done|]. exists (bs1 ++ bs2). split; [|split].
  - unfold in_order in E2. by rewrite E2, E1, app_assoc.
  - by apply Forall_app_2.
  - intros rest. unfold mbind, get_bind. by rewrite <- app_assoc, G1, G2.
Qed.

Lemma codec_nil {A} (a b : A) : a = b -> codec (in_order []) (mret a) b.
Proof.
  intros <- w Hw. split; [done|]. exists []. by rewrite app_nil_r.
Qed.

(** A block inside a block. *)
Lemma codec_block {A} put (get : Get A) a : codec (in_order [put]) get a -> codec put get a.
Proof. done. Qed.

(** An early failure that does not happen. *)
Lemma codec_or_fail {A B} put block (get : Get (option A)) (k : A -> Get (option B)) a b :
  codec put get (Some a) -> codec (in_order block) (k a) b ->
  codec (in_order (put :: block)) (or_fail get k) b.
Proof. intros H1 H2. unfold or_fail. by eapply codec_cons. Qed.

(** A question that reads nothing. *)
Lemma codec_ok {B} put (k : bool -> Get B) b : codec put (k true) b -> codec put (reader_ok ≫= k) b.
Proof.
  intros H w Hw. destruct (H w Hw) as (H1 & bytes & H2 & H3 & H4). split; [done|].
  exists bytes. split; [done|]. split; [done|]. exact H4.
Qed.

(** ** The primitive statements *)

Lemma get_u8_cons b rest : get_u8 (reading (b :: rest)) = (b, reading rest).
Proof.
  unfold get_u8, require. cbn [rd_ok rd_rest negb orb].
  by destruct (Z.ltb_spec (Z.of_nat (length (b :: rest))) 1) as [H|H]; [simpl in H; lia|].
Qed.

Lemma codec_u8 b : is_byte b -> codec (put_u8 b) get_u8 b.
Proof.
  intros Hb. apply (codec_intro _ _ _ [b]); [done|by constructor|]. intros rest. apply get_u8_cons.
Qed.

Lemma put_shifted_bytes count shift x w :
  0 <= shift ->
  put_shifted count shift x w = w <| wr_bytes := wr_bytes w ++ le_bytes count (Z.shiftr x shift) |>.
Proof.
  revert shift w. induction count as [|count IH]; intros shift w Hs; cbn [put_shifted le_bytes].
  - rewrite app_nil_r. by destruct w.
  - rewrite IH by lia. cbn. by rewrite <- app_assoc, Z.shiftr_shiftr by lia.
Qed.

Lemma get_shifted_word bytes shift value rest :
  Forall is_byte bytes -> 0 <= shift ->
  get_shifted (length bytes) shift value (reading (bytes ++ rest)) =
  (Z.lor value (Z.shiftl (le_word bytes) shift), reading rest).
Proof.
  intros H. revert shift value. induction H as [|b bytes Hb _ IH]; intros shift value Hs.
  - cbn. by rewrite Z.shiftl_0_l, Z.lor_0_r.
  - cbn [length app get_shifted]. unfold mbind, get_bind. rewrite get_u8_cons, IH by lia.
    cbn [le_word]. by rewrite Z.shiftl_lor, Z.shiftl_shiftl, Z.lor_assoc, (Z.add_comm 8) by lia.
Qed.

Lemma codec_word count x :
  0 <= x < 256 ^ Z.of_nat count -> codec (put_shifted count 0 x) (get_shifted count 0 0) x.
Proof.
  intros Hx. apply (codec_intro _ _ _ (le_bytes count x)); [|apply le_bytes_are_bytes|].
  - intros w. rewrite put_shifted_bytes by lia. by rewrite Z.shiftr_0_r.
  - intros rest. pose proof (get_shifted_word (le_bytes count x) 0 0 rest) as H.
    rewrite le_bytes_length in H. rewrite H by (apply le_bytes_are_bytes || lia).
    by rewrite Z.shiftl_0_r, Z.lor_0_l, le_word_bytes, Z.mod_small.
Qed.

Definition is_u64 (x : Z) : Prop := 0 <= x < 256 ^ 8.

Lemma codec_u16 x : 0 <= x < 65536 -> codec (put_u16 x) get_u16 x.
Proof. intros H. by apply codec_word. Qed.
Lemma codec_u32 x : is_u32 x -> codec (put_u32 x) get_u32 x.
Proof. intros H. by apply codec_word. Qed.
Lemma codec_u64 x : is_u64 x -> codec (put_u64 x) get_u64 x.
Proof. intros H. by apply codec_word. Qed.

Lemma word64_mod x : word64 x = x mod 2 ^ 64.
Proof. unfold word64, u64_max. change 18446744073709551615 with (Z.ones 64). by apply Z.land_ones. Qed.

Lemma signed64_word64 x : in_i64 x -> signed64 (word64 x) = x.
Proof.
  unfold in_i64, signed64, i64_min, i64_max. intros Hx. rewrite word64_mod.
  destruct (decide (0 <= x)).
  - rewrite Z.mod_small by lia. by destruct (Z.ltb_spec 9223372036854775807 x); [lia|].
  - rewrite <- (Z.mod_add x 1), Z.mod_small by lia.
    destruct (Z.ltb_spec 9223372036854775807 (x + 1 * 2 ^ 64)); lia.
Qed.

Lemma codec_i64 x : in_i64 x -> codec (put_i64 x) get_i64 x.
Proof.
  intros H. unfold get_i64. apply (codec_map _ _ _ (word64 x)); [|by apply signed64_word64].
  apply codec_u64. rewrite word64_mod. change (256 ^ 8) with (2 ^ 64). by apply Z.mod_pos_bound.
Qed.

Lemma codec_bool b : codec (put_bool b) get_bool b.
Proof. unfold get_bool. apply (codec_map _ _ _ (if b then 1 else 0)); [|by destruct b]. by destruct b; apply codec_u8. Qed.

Lemma codec_id {t} (id : EntityId t) : is_u64 (value id) -> codec (put_id id) get_id id.
Proof. intros H. unfold get_id. apply (codec_map _ _ _ (value id)); [by apply codec_u64|by destruct id]. Qed.

Lemma codec_generation {t} (g : Generation t) : is_u64 (value g) -> codec (put_generation g) get_generation g.
Proof. intros H. unfold get_generation. apply (codec_map _ _ _ (value g)); [by apply codec_u64|by destruct g]. Qed.

(** Casting an enumerator back: the values have different indexes. *)
Lemma enum_of_index {T} (values : list T) (index : T -> Z) v :
  v ∈ values -> (forall v', v' ∈ values -> index v' = index v -> v' = v) -> enum_of values index (index v) = Some v.
Proof.
  intros Hv Hinj. unfold enum_of. induction values as [|v' values IH]; [by apply not_elem_of_nil in Hv|].
  rewrite filter_cons. case_decide as E.
  - simpl. f_equal. by apply Hinj; [left|].
  - apply elem_of_cons in Hv as [->|Hv]; [done|]. apply IH; [done|]. intros v'' ? ?. by apply Hinj; [right|].
Qed.

Lemma codec_enum {T} (values : list T) index out_of_range put (word : Get Z) v :
  enum_of values index (index v) = Some v -> codec put word (index v) ->
  codec put (get_enum values index out_of_range word) v.
Proof.
  intros Hv H w Hw. destruct (H w Hw) as (H1 & bytes & H2 & H3 & H4). split; [done|].
  exists bytes. split; [done|]. split; [done|]. intros rest. unfold get_enum, mbind, get_bind.
  by rewrite H4, Hv.
Qed.

Lemma require_enough count rest :
  count <= Z.of_nat (length rest) -> require count (reading rest) = (true, reading rest).
Proof. intros H. unfold require. cbn [rd_ok rd_rest negb orb]. by destruct (Z.ltb_spec (Z.of_nat (length rest)) count); [lia|]. Qed.

Lemma append_bytes_eq bytes w : append_bytes bytes w = w <| wr_bytes := wr_bytes w ++ bytes |>.
Proof. done. Qed.

(** A string that could be written is not longer than the limit, whose length
    field is 32 bits wide. *)
Lemma codec_string limits s :
  is_u32 (max_string_bytes limits) -> codec (put_string limits s) (get_string limits) s.
Proof.
  intros Hl w. unfold put_string, writer_fail. destruct (wr_ok w) eqn:Ew; cbn [negb orb]; [|by rewrite Ew].
  destruct (Z.ltb_spec (max_string_bytes limits) (Z.of_nat (String.length s))) as [|Hs]; [done|].
  assert (Hu : is_u32 (Z.of_nat (String.length s))) by (unfold is_u32 in *; lia).
  rewrite append_bytes_eq. cbn [wr_ok wr_bytes]. intros Hok.
  destruct (codec_u32 _ Hu w Hok) as (_ & bytes & E & B & G). split; [done|].
  exists (bytes ++ string_codes s). split; [by rewrite E, app_assoc|].
  split; [by apply Forall_app_2, string_codes_bytes|]. intros rest.
  unfold get_string, mbind, get_bind. rewrite <- app_assoc, G. cbn [reader_ok rd_ok negb orb].
  destruct (Z.ltb_spec (max_string_bytes limits) (Z.of_nat (String.length s))); [lia|].
  rewrite require_enough by (rewrite length_app, string_codes_length; lia). cbn [negb].
  unfold take_bytes. cbn [rd_rest]. rewrite Nat2Z.id, <- string_codes_length.
  rewrite take_app_length, drop_app_length, string_of_codes. done.
Qed.

(** ** Loops *)

Lemma codec_each {A} (put : A -> Put) (get : Get A) l :
  Forall (fun a => codec (put a) get a) l -> codec (put_each put l) (get_each (length l) get) l.
Proof.
  unfold put_each. induction 1 as [|a l Ha _ IH]; cbn [fmap list_fmap length get_each]; [by apply codec_nil|].
  eapply codec_cons; [exact Ha|]. by apply (codec_map _ _ (cons a)) with l.
Qed.

Lemma codec_each_or_fail {A} (put : A -> Put) (get : Get (option A)) l :
  Forall (fun a => codec (put a) get (Some a)) l ->
  codec (put_each put l) (get_each_or_fail (length l) get) (Some l).
Proof.
  unfold put_each. induction 1 as [|a l Ha _ IH]; cbn [fmap list_fmap length get_each_or_fail]; [by apply codec_nil|].
  eapply codec_or_fail; [exact Ha|].
  apply codec_block. by eapply codec_or_fail; [exact IH|apply codec_nil].
Qed.
