(* ===== verification/Clock.v ===== *)
(** * Time ([clock.hpp], [clock.cpp])

    Wall-clock milliseconds, the "no expiry" sentinel, the expiry test every
    kind of evidence uses, and the logical clock.  An operation of the router
    reads the injected clock; the model passes the value read as the argument
    [now]. *)
From S2P Require Import Prelude.

(** [std::int64_t] milliseconds since the epoch. *)
Definition UnixMillis := Z.
Definition kNoExpiry : UnixMillis := 0.

Definition is_current (now expires_at : UnixMillis) : bool :=
  (expires_at =? kNoExpiry) || (now <? expires_at).

(** The member function [expired] of the evidence records. *)
Definition expired_at (expires_at now : UnixMillis) : bool :=
  negb (expires_at =? kNoExpiry) && (expires_at <=? now).

Record LogicalClock := { unix_millis : UnixMillis; monotonic_millis : Z }.

(** [advance]: the wall clock adds the converted amount, the monotonic clock
    wraps at 64 bits. *)
Definition clock_advance (millis : Z) (c : LogicalClock) : LogicalClock :=
  {| unix_millis := unix_millis c + millis;
     monotonic_millis := (monotonic_millis c + millis) mod 2 ^ 64 |}.

(** The two formulations of currentness agree. *)
Lemma is_current_expired now e : is_current now e = negb (expired_at e now).
Proof.
  unfold is_current, expired_at. rewrite negb_andb, negb_involutive, Z.leb_antisym.
  by rewrite negb_involutive.
Qed.

(** Evidence that has expired stays expired. *)
Lemma expired_at_mono e now now' :
  now <= now' -> expired_at e now = true -> expired_at e now' = true.
Proof. unfold expired_at. lia. Qed.
