(* ===== verification/Capability.v ===== *)
(** * Capability identity and evidence ([capability.hpp], [capability.cpp])

    Evidence states and their strength, namespaced keys with their validation
    and canonicalization loops, and the profile: a vector of claims kept
    sorted by key, searched by halving. *)
From S2P Require Import Prelude Ids Clock.

Module CapabilityState.
Inductive t := UNKNOWN | DECLARED | OBSERVED | VERIFIED | REVOKED | STALE | UNSUPPORTED | kCount.

#[export] Instance eq_dec : EqDecision t.
Proof. solve_decision. Defined.

(** [static_cast] to the underlying integer. *)
Definition index (s : t) : Z :=
  match s with
  | UNKNOWN => 0 | DECLARED => 1 | OBSERVED => 2 | VERIFIED => 3 | REVOKED => 4 | STALE => 5
  | UNSUPPORTED => 6 | kCount => 7
  end.

Definition to_string (s : t) : string :=
  match s with
  | UNKNOWN => "UNKNOWN" | DECLARED => "DECLARED" | OBSERVED => "OBSERVED"
  | VERIFIED => "VERIFIED" | REVOKED => "REVOKED" | STALE => "STALE"
  | UNSUPPORTED => "UNSUPPORTED" | kCount => "INVALID"
  end.
End CapabilityState.
Export (hints) CapabilityState.

Definition is_satisfying (s : CapabilityState.t) : bool :=
  s == CapabilityState.DECLARED || s == CapabilityState.OBSERVED || s == CapabilityState.VERIFIED.

Definition evidence_strength (s : CapabilityState.t) : Z :=
  match s with
  | CapabilityState.UNKNOWN => 0
  | CapabilityState.DECLARED => 1
  | CapabilityState.OBSERVED => 2
  | CapabilityState.VERIFIED => 3
  | _ => 0
  end.

(** ** Keys *)

Record CapabilityKey := CapabilityKeyOf { key_string : string }.

#[export] Instance capability_key_eq_dec : EqDecision CapabilityKey.
Proof. solve_decision. Defined.
#[export] Instance key_string_inj : Inj (=) (=) key_string.
Proof. by intros [] [] [= ->]. Qed.

Definition key_ltb (x y : CapabilityKey) : bool := string_ltb (key_string x) (key_string y).
#[export] Instance key_ltb_total : TotalB key_ltb.
Proof. apply (total_on string_ltb key_string). Qed.

Definition kMaxCapabilityKeyBytes : Z := 128.

Definition char_in (lo hi : Z) (c : Ascii.ascii) : bool := (lo <=? ascii_code c) && (ascii_code c <=? hi).
Definition slash : Ascii.ascii := Ascii.ascii_of_nat 47.
Definition dot : Ascii.ascii := Ascii.ascii_of_nat 46.
Definition dash : Ascii.ascii := Ascii.ascii_of_nat 45.
Definition underscore : Ascii.ascii := Ascii.ascii_of_nat 95.
Definition space : Ascii.ascii := Ascii.ascii_of_nat 32.
Definition tab : Ascii.ascii := Ascii.ascii_of_nat 9.

(** Lower-case letters, digits and the four separators. *)
Definition is_key_character (c : Ascii.ascii) : bool :=
  char_in 97 122 c || char_in 48 57 c || c == dot || c == dash || c == underscore || c == slash.

Fixpoint last_char (s : string) : option Ascii.ascii :=
  match s with
  | EmptyString => None
  | String c EmptyString => Some c
  | String _ s => last_char s
  end.
Definition first_char (s : string) : option Ascii.ascii :=
  match s with EmptyString => None | String c _ => Some c end.

(** The scan of [validate]: the error found, and whether a separator was
    seen. *)
Fixpoint key_scan (s : string) (previous_separator has_separator : bool) : string * bool :=
  match s with
  | EmptyString => ("", has_separator)
  | String c s =>
      if negb (is_key_character c) then ("capability key contains an invalid character", has_separator)
      else if c == slash then
        if previous_separator then ("capability key contains an empty segment", has_separator)
        else key_scan s true true
      else key_scan s false has_separator
  end.

Definition string_size (s : string) : Z := Z.of_nat (String.length s).

Definition capability_key_validate (v : string) : string :=
  return_if v == "" with "capability key is empty" ;;
  return_if kMaxCapabilityKeyBytes <? string_size v
    with "capability key exceeds " +:+ to_string_int kMaxCapabilityKeyBytes +:+ " bytes" ;;
  return_if (first_char v == Some slash) || (last_char v == Some slash)
    with "capability key has a leading or trailing separator" ;;
  let '(error, has_separator) := key_scan v false false in
  return_if error != "" with error ;;
  return_if negb has_separator
    with "capability key must be namespaced, for example domain/name" ;;
  "".

Definition lower_char (c : Ascii.ascii) : Ascii.ascii :=
  if char_in 65 90 c then Ascii.ascii_of_N (Ascii.N_of_ascii c - 65 + 97) else c.

(** The per-character rewriting of [canonicalize]. *)
Definition canonical_char (raw : Ascii.ascii) : Ascii.ascii :=
  let ch := lower_char raw in
  let ch := if ch == underscore || ch == dot then dash else ch in
  if ch == space || ch == tab then dash else ch.

Fixpoint map_string (f : Ascii.ascii -> Ascii.ascii) (s : string) : string :=
  match s with EmptyString => EmptyString | String c s => String (f c) (map_string f s) end.

(** Drop leading and repeated separators; [empty] says whether anything has
    been kept so far. *)
Fixpoint collapse_separators (s : string) (empty previous_separator : bool) : string :=
  match s with
  | EmptyString => EmptyString
  | String c s =>
      if c == slash then
        if empty || previous_separator then collapse_separators s empty previous_separator
        else String c (collapse_separators s false true)
      else String c (collapse_separators s false false)
  end.

(** [while (back() == '/') pop_back()]. *)
Fixpoint trim_trailing (s : string) : string :=
  match s with
  | EmptyString => EmptyString
  | String c s =>
      let s := trim_trailing s in
      if s == "" && c == slash then "" else String c s
  end.

Definition capability_key_canonicalize (v : string) : string :=
  let out := map_string canonical_char v in
  let collapsed := trim_trailing (collapse_separators out true false) in
  if capability_key_validate collapsed != "" then "" else collapsed.

(** ** Claims and requirements *)

Record CapabilityEvidence := {
  ce_key : CapabilityKey;
  ce_state : CapabilityState.t;
  ce_generation : Generation CapabilityTag;
  ce_profile_id : EntityId CapabilityProfileTag;
  ce_model_generation : Generation ModelTag;
  ce_backend_generation : Generation BackendTag;
  ce_backend_boot : Generation BackendBootTag;
  ce_observed_at : UnixMillis;
  ce_expires_at : UnixMillis;
  ce_source : string;
  ce_detail : string
}.
#[export] Instance capability_evidence_eta : Eta CapabilityEvidence := fun e =>
  {| ce_key := ce_key e; ce_state := ce_state e; ce_generation := ce_generation e;
     ce_profile_id := ce_profile_id e; ce_model_generation := ce_model_generation e;
     ce_backend_generation := ce_backend_generation e; ce_backend_boot := ce_backend_boot e;
     ce_observed_at := ce_observed_at e; ce_expires_at := ce_expires_at e;
     ce_source := ce_source e; ce_detail := ce_detail e |}.
#[export] Instance capability_evidence_eq_dec : EqDecision CapabilityEvidence.
Proof. solve_decision. Defined.

Definition ce_expired (e : CapabilityEvidence) (now : UnixMillis) : bool :=
  expired_at (ce_expires_at e) now.
Definition ce_known (e : CapabilityEvidence) : bool := ce_state e != CapabilityState.UNKNOWN.

Record CapabilityRequirement := {
  cr_key : CapabilityKey;
  cr_minimum_state : CapabilityState.t
}.
#[export] Instance capability_requirement_eq_dec : EqDecision CapabilityRequirement.
Proof. solve_decision. Defined.

(** ** Profiles *)

Record CapabilityProfile := {
  profile_id : EntityId CapabilityProfileTag;
  profile_generation : Generation CapabilityTag;
  profile_entries : list CapabilityEvidence
}.
#[export] Instance capability_profile_eta : Eta CapabilityProfile := fun p =>
  {| profile_id := profile_id p; profile_generation := profile_generation p;
     profile_entries := profile_entries p |}.

Definition profile_default : CapabilityProfile :=
  {| profile_id := none; profile_generation := none; profile_entries := [] |}.

(** [set]: false when the entry count would exceed the bound. *)
Definition profile_set (evidence : CapabilityEvidence) (max_entries : Z) (p : CapabilityProfile)
    : bool * CapabilityProfile :=
  let entries := profile_entries p in
  return_if has_key key_ltb ce_key entries (ce_key evidence)
    with (true, p <| profile_entries := replace_sorted key_ltb ce_key entries evidence |>) ;;
  return_if max_entries <=? Z.of_nat (length entries) with (false, p) ;;
  (true, p <| profile_entries := insert_sorted key_ltb ce_key entries evidence |>).

Definition profile_erase (key : CapabilityKey) (p : CapabilityProfile) : bool * CapabilityProfile :=
  let entries := profile_entries p in
  return_if negb (has_key key_ltb ce_key entries key) with (false, p) ;;
  (true, p <| profile_entries := erase_sorted key_ltb ce_key entries key |>).

Definition profile_find (p : CapabilityProfile) (key : CapabilityKey) : option CapabilityEvidence :=
  find_sorted key_ltb ce_key (profile_entries p) key.

Definition profile_evaluate (p : CapabilityProfile) (requirement : CapabilityRequirement)
    (now : UnixMillis) : string :=
  let name := key_string (cr_key requirement) in
  return_if name == "" with "required capability key is empty" ;;
  match profile_find p (cr_key requirement) with
  | None => "capability " +:+ name +:+ " has no evidence"
  | Some evidence =>
      return_if ce_state evidence == CapabilityState.UNKNOWN
        with "capability " +:+ name +:+ " is UNKNOWN" ;;
      return_if negb (is_satisfying (ce_state evidence))
        with "capability " +:+ name +:+ " is " +:+ CapabilityState.to_string (ce_state evidence) ;;
      return_if ce_expired evidence now
        with "capability " +:+ name +:+ " evidence is stale" ;;
      return_if evidence_strength (ce_state evidence) <?
                evidence_strength (cr_minimum_state requirement)
        with "capability " +:+ name +:+ " evidence is " +:+
             CapabilityState.to_string (ce_state evidence) +:+ " but " +:+
             CapabilityState.to_string (cr_minimum_state requirement) +:+ " is required" ;;
      ""
  end.

(** What one backend incarnation publishes. *)
Record BackendCapabilityPublication := {
  pub_backend_id : EntityId BackendTag;
  pub_backend_generation : Generation BackendTag;
  pub_backend_boot : Generation BackendBootTag;
  pub_profile_id : EntityId CapabilityProfileTag;
  pub_generation : Generation CapabilityTag;
  pub_claims : list CapabilityEvidence
}.

(** ** Facts about canonicalization *)

(** No leading separator (when [blocked]) and no doubled separator. *)
Fixpoint separators_ok (blocked : bool) (s : string) : bool :=
  match s with
  | EmptyString => true
  | String c s => if c == slash then negb blocked && separators_ok true s else separators_ok false s
  end.

Lemma collapse_ok s empty prev :
  separators_ok (empty || prev) (collapse_separators s empty prev) = true.
Proof.
  revert empty prev. induction s as [|c s IH]; intros empty prev; simpl; [done|].
  case_bool_decide as Ec.
  - destruct (empty || prev) eqn:E; [specialize (IH empty prev); by rewrite E in IH|]. simpl.
    rewrite bool_decide_eq_true_2 by done. simpl. apply (IH false true).
  - simpl. rewrite bool_decide_eq_false_2 by done. apply (IH false false).
Qed.

Lemma collapse_id s empty prev :
  separators_ok (empty || prev) s = true -> collapse_separators s empty prev = s.
Proof.
  revert empty prev. induction s as [|c s IH]; intros empty prev; simpl; [done|].
  case_bool_decide as Ec.
  - destruct (empty || prev); [done|]. intros H. by rewrite (IH false true).
  - intros H. by rewrite (IH false false).
Qed.

Lemma trim_ok b s : separators_ok b s = true -> separators_ok b (trim_trailing s) = true.
Proof.
  revert b. induction s as [|c s IH]; intros b; simpl; [done|].
  destruct (trim_trailing s) as [|d t] eqn:E; simpl.
  - repeat case_bool_decide; simpl; try done; repeat case_bool_decide; try done.
  - case_bool_decide as Ec; intros H.
    + apply andb_true_iff in H as [Hb H]. rewrite Hb. exact (IH true H).
    + exact (IH false H).
Qed.

Lemma trim_idem s : trim_trailing (trim_trailing s) = trim_trailing s.
Proof.
  induction s as [|c s IH]; simpl; [done|].
  destruct (trim_trailing s) as [|d t] eqn:E; simpl.
  - destruct (c == slash) eqn:Ec; simpl; [done|]. by rewrite Ec.
  - simpl in IH. by rewrite IH.
Qed.

Lemma map_string_id f s : map_string f s = s <-> Forall (fun c => f c = c) (String.list_ascii_of_string s).
Proof.
  induction s as [|c s IH]; simpl; [done|]. rewrite Forall_cons, <- IH. split.
  - by intros [= -> ->].
  - intros [E1 E2]. by rewrite E1, E2.
Qed.

Lemma collapse_chars P s empty prev :
  Forall P (String.list_ascii_of_string s) ->
  Forall P (String.list_ascii_of_string (collapse_separators s empty prev)).
Proof.
  revert empty prev. induction s as [|c s IH]; intros empty prev; simpl; [done|].
  rewrite Forall_cons. intros [Hc Hs]. repeat case_match; simpl; rewrite ?Forall_cons; auto.
Qed.

Lemma trim_chars P s :
  Forall P (String.list_ascii_of_string s) ->
  Forall P (String.list_ascii_of_string (trim_trailing s)).
Proof.
  induction s as [|c s IH]; simpl; [done|]. rewrite Forall_cons. intros [Hc Hs].
  case_match; simpl; [done|]. rewrite Forall_cons. auto.
Qed.

Lemma canonical_char_idem c : canonical_char (canonical_char c) = canonical_char c.
Proof. by destruct c as [[] [] [] [] [] [] [] []]. Qed.

Lemma map_canonical_chars s :
  Forall (fun c => canonical_char c = c) (String.list_ascii_of_string (map_string canonical_char s)).
Proof.
  induction s as [|c s IH]; simpl; [done|]. by constructor; [apply canonical_char_idem|].
Qed.

(** The three rewriting passes leave their own result alone. *)
Lemma normalize_idem (f : Ascii.ascii -> Ascii.ascii) v :
  (forall c, f (f c) = f c) ->
  let norm v := trim_trailing (collapse_separators (map_string f v) true false) in
  norm (norm v) = norm v.
Proof.
  intros Hf norm. unfold norm at 1. set (k := norm v).
  assert (map_string f k = k) as Hm.
  { apply map_string_id, trim_chars, collapse_chars. clear k.
    induction v as [|c v IH]; simpl; [done|]. by constructor. }
  assert (separators_ok true k = true) as Hk by (apply trim_ok, (collapse_ok _ true false)).
  rewrite Hm, collapse_id by done. apply trim_idem.
Qed.

Lemma validate_empty_key : capability_key_validate "" = "capability key is empty".
Proof. done. Qed.

(** ** Facts about profiles *)

(** The representation invariant: claims in strictly increasing key order. *)
Definition profile_wf (p : CapabilityProfile) : Prop := keys_sorted key_ltb ce_key (profile_entries p).

Lemma profile_default_wf : profile_wf profile_default.
Proof. constructor. Qed.

Lemma profile_set_entries e n p p' :
  profile_wf p -> profile_set e n p = (true, p') ->
  profile_entries p' = put key_ltb ce_key (profile_entries p) e /\
  profile_id p' = profile_id p /\ profile_generation p' = profile_generation p.
Proof.
  unfold profile_set. intros Hwf. rewrite <- (put_spec key_ltb ce_key) by done.
  intros E. by repeat case_match; simplify_eq.
Qed.

Lemma profile_set_wf e n p : profile_wf p -> profile_wf (snd (profile_set e n p)).
Proof.
  intros Hwf. destruct (profile_set e n p) as [[] p'] eqn:E; simpl.
  - apply profile_set_entries in E as (E & _); [|done]. unfold profile_wf. rewrite E.
    by apply (put_sorted key_ltb ce_key).
  - unfold profile_set in E. by repeat case_match; simplify_eq.
Qed.

Lemma profile_find_Some p k e :
  profile_wf p -> profile_find p k = Some e <-> e ∈ profile_entries p /\ ce_key e = k.
Proof. apply (find_sorted_Some key_ltb ce_key). Qed.

Lemma is_satisfying_strength s : is_satisfying s = (0 <? evidence_strength s).
Proof. by destruct s. Qed.

(** A claim proves a requirement at a minimum evidence state. *)
Definition claim_satisfies (e : CapabilityEvidence) (minimum : CapabilityState.t)
    (now : UnixMillis) : Prop :=
  is_satisfying (ce_state e) = true /\ ce_expired e now = false /\
  evidence_strength minimum <= evidence_strength (ce_state e).

(** ** Properties *)

(** Canonicalization is idempotent and produces nothing invalid: its
    result is either empty or a key that [validate] accepts, and
    canonicalizing the result again changes nothing. *)
Theorem capability_key_canonicalize_idem (v : string) :
  (capability_key_canonicalize v = "" \/
   capability_key_validate (capability_key_canonicalize v) = "") /\
  capability_key_canonicalize (capability_key_canonicalize v) = capability_key_canonicalize v.
Proof.
  pose proof (normalize_idem canonical_char v canonical_char_idem) as Hn. simpl in Hn.
  unfold capability_key_canonicalize.
  set (k := trim_trailing (collapse_separators (map_string canonical_char v) true false)) in *.
  destruct (decide (capability_key_validate k = "")) as [E|E].
  - rewrite (bool_decide_eq_true_2 _ E). simpl. split; [by right|].
    by rewrite Hn, (bool_decide_eq_true_2 _ E).
  - rewrite (bool_decide_eq_false_2 _ E). simpl. split; [by left|done].
Qed.

(** A capability profile is a finite map from keys to claims.  [set]
    keeps the entries in strictly increasing key order, never exceeds the
    bound by inserting, changes exactly the entry of its key, and is refused
    only when the key is new and the profile is full; [erase] removes exactly
    its key. *)
Theorem profile_set_find (p : CapabilityProfile) (e : CapabilityEvidence) (n : Z) (k : CapabilityKey) :
  profile_wf p ->
  let '(ok, p') := profile_set e n p in
  profile_wf p' /\
  (ok = false <-> profile_find p (ce_key e) = None /\ n <= Z.of_nat (length (profile_entries p))) /\
  profile_find p' k =
    (if ok && ce_key e == k then Some e else profile_find p k) /\
  (let '(removed, p'') := profile_erase k p' in
   profile_wf p'' /\ profile_find p'' k = None /\
   (removed = true <-> is_Some (profile_find p' k))).
Proof.
  intros Hwf. destruct (profile_set e n p) as [ok p'] eqn:E.
  assert (profile_wf p') as Hwf' by (pose proof (profile_set_wf e n p Hwf) as H; by rewrite E in H).
  assert (ok = true -> profile_entries p' = put key_ltb ce_key (profile_entries p) e) as Hput.
  { intros ->. by apply profile_set_entries in E as (? & _). }
  split; [done|]. split; [|split].
  - unfold profile_set in E. rewrite has_key_find in E. unfold profile_find.
    case_bool_decide as Hk.
    + injection E as <- _. destruct Hk as [x ->]. naive_solver.
    + rewrite <- eq_None_not_Some in Hk. rewrite Hk.
      destruct (n <=? _) eqn:En; injection E as <- _; [naive_solver lia | naive_solver lia].
  - unfold profile_find. destruct ok; simpl.
    + rewrite Hput by done. by apply (find_put key_ltb ce_key).
    + unfold profile_set in E. by repeat case_match; simplify_eq.
  - unfold profile_erase. rewrite has_key_find. fold (profile_find p' k).
    case_bool_decide as Hk; simpl.
    + split; [by apply (delete_keys_sorted key_ltb ce_key)|]. split; [|done]. unfold profile_find. simpl.
      rewrite (find_erase key_ltb ce_key); [|done|]; [by rewrite bool_decide_eq_true_2|].
      rewrite (has_key_find key_ltb ce_key). by apply bool_decide_eq_true_2.
    + split; [done|]. split; [by apply eq_None_not_Some|]. naive_solver.
Qed.

Definition sample_claim (key : string) (s : CapabilityState.t) : CapabilityEvidence :=
  {| ce_key := CapabilityKeyOf key; ce_state := s; ce_generation := GenerationOf 1;
     ce_profile_id := EntityIdOf 5; ce_model_generation := GenerationOf 1;
     ce_backend_generation := GenerationOf 1; ce_backend_boot := GenerationOf 1;
     ce_observed_at := 0; ce_expires_at := kNoExpiry; ce_source := ""; ce_detail := "" |}.

Lemma profile_set_find_witness :
  let '(ok, p') :=
    profile_set (sample_claim "tool/calling" CapabilityState.VERIFIED) 8 profile_default in
  profile_wf p' /\ ok = true /\ is_Some (profile_find p' (CapabilityKeyOf "tool/calling")).
Proof.
  pose proof (profile_set_find profile_default (sample_claim "tool/calling" CapabilityState.VERIFIED)
                8 (CapabilityKeyOf "tool/calling") ltac:(constructor)) as H.
  split; [exact (proj1 H)|]. split; [reflexivity|]. eexists. reflexivity.
Defined.

(** [evaluate] accepts a requirement exactly when the profile holds, under
    the required key, an unexpired claim in a satisfying state at least as
    strong as the stated minimum; UNKNOWN, REVOKED, STALE and UNSUPPORTED
    claims satisfy nothing. *)
Theorem profile_evaluate_spec (p : CapabilityProfile) (r : CapabilityRequirement) (now : UnixMillis) :
  profile_wf p ->
  profile_evaluate p r now = "" <->
  key_string (cr_key r) <> "" /\
  exists e, e ∈ profile_entries p /\ ce_key e = cr_key r /\
            claim_satisfies e (cr_minimum_state r) now.
Proof.
  intros Hwf. unfold profile_evaluate, claim_satisfies. case_bool_decide as Hk; [naive_solver|].
  assert (forall s t, s +:+ t = "" -> s = "") as Happ by by intros [].
  destruct (profile_find p (cr_key r)) as [e|] eqn:E.
  - apply profile_find_Some in E as [He Hek]; [|done].
    assert (forall e', e' ∈ profile_entries p -> ce_key e' = cr_key r -> e' = e) as Huniq.
    { intros e' He' Hk'. apply (inj Some). rewrite <- (proj2 (profile_find_Some p _ e Hwf) (conj He Hek)).
      symmetry. by apply profile_find_Some. }
    case_bool_decide as Hu; [|destruct (is_satisfying (ce_state e)) eqn:Hs;
      [simpl; destruct (ce_expired e now) eqn:Hx; [|destruct (_ <? _) eqn:Hlt]|]].
    all: split; [intros H; try (by apply Happ in H) | intros (_ & e' & H1 & H2 & H3)].
    all: try (pose proof (Huniq _ H1 H2) as ->; destruct H3 as (G1 & G2 & G3)).
    all: try congruence; try lia; try done.
    + rewrite Hu in G1. done.
    + split; [done|]. exists e. repeat split; try done. lia.
  - split; [done|]. intros (_ & e & H1 & H2 & _).
    by rewrite (proj2 (profile_find_Some p _ e Hwf) (conj H1 H2)) in E.
Qed.

Lemma profile_evaluate_spec_witness :
  let p := {| profile_id := none; profile_generation := none;
              profile_entries := [sample_claim "task/code" CapabilityState.OBSERVED] |} in
  profile_evaluate p {| cr_key := CapabilityKeyOf "task/code";
                        cr_minimum_state := CapabilityState.DECLARED |} 100 = "".
Proof.
  apply profile_evaluate_spec; [by repeat constructor|]. split; [discriminate|].
  eexists. split; [left|]. split; [reflexivity|]. repeat split; vm_compute; discriminate.
Defined.

(** [validate] calls keys canonical that [canonicalize] rewrites: the key
    [task/code_review] is accepted as it stands, and canonicalizing it yields
    the different key [task/code-review]. *)
Theorem canonical_key_not_fixed :
  capability_key_validate "task/code_review" = "" /\
  capability_key_canonicalize "task/code_review" = "task/code-review".
Proof. by vm_compute. Qed.
