(* ===== verification/Evidence.v ===== *)
(** * External evidence ([evidence.hpp], [evidence.cpp])

    Trust domains and locality keys, the boot-bound observations about one
    backend incarnation, capacity, reservations, latency, cost, budget, SLO
    and compatibility evidence, and the declarative policy snapshot. *)
From S2P Require Import Prelude Ids Outcome Clock Capability.

(** ** Enumerations *)

Module TrustDomain.
Inductive t := UNKNOWN | PUBLIC_REMOTE | TRUSTED_REMOTE | PRIVATE_NETWORK | LOCAL | kCount.

#[export] Instance eq_dec : EqDecision t.
Proof. solve_decision. Defined.

(** [static_cast] to the underlying integer. *)
Definition index (s : t) : Z :=
  match s with UNKNOWN => 0 | PUBLIC_REMOTE => 1 | TRUSTED_REMOTE => 2 | PRIVATE_NETWORK => 3 | LOCAL => 4 | kCount => 5 end.

Definition to_string (s : t) : string :=
  match s with
  | UNKNOWN => "UNKNOWN"
  | PUBLIC_REMOTE => "PUBLIC_REMOTE"
  | TRUSTED_REMOTE => "TRUSTED_REMOTE"
  | PRIVATE_NETWORK => "PRIVATE_NETWORK"
  | LOCAL => "LOCAL"
  | kCount => "INVALID"
  end.
End TrustDomain.
Export (hints) TrustDomain.

(** Trust ordering used for hard constraints; UNKNOWN is the least trusted. *)
Definition trust_rank (d : TrustDomain.t) : Z :=
  match d with
  | TrustDomain.UNKNOWN => 0
  | TrustDomain.PUBLIC_REMOTE => 1
  | TrustDomain.TRUSTED_REMOTE => 2
  | TrustDomain.PRIVATE_NETWORK => 3
  | TrustDomain.LOCAL => 4
  | TrustDomain.kCount => 0
  end.

Module HealthState.
Inductive t := UNKNOWN | HEALTHY | DEGRADED | UNHEALTHY | DRAINING | RETIRED | kCount.

#[export] Instance eq_dec : EqDecision t.
Proof. solve_decision. Defined.

(** [static_cast] to the underlying integer. *)
Definition index (s : t) : Z :=
  match s with UNKNOWN => 0 | HEALTHY => 1 | DEGRADED => 2 | UNHEALTHY => 3 | DRAINING => 4 | RETIRED => 5 | kCount => 6 end.

Definition to_string (s : t) : string :=
  match s with
  | UNKNOWN => "UNKNOWN"
  | HEALTHY => "HEALTHY"
  | DEGRADED => "DEGRADED"
  | UNHEALTHY => "UNHEALTHY"
  | DRAINING => "DRAINING"
  | RETIRED => "RETIRED"
  | kCount => "INVALID"
  end.
End HealthState.
Export (hints) HealthState.

Module AvailabilityState.
Inductive t := UNKNOWN | AVAILABLE | UNAVAILABLE | kCount.

#[export] Instance eq_dec : EqDecision t.
Proof. solve_decision. Defined.

(** [static_cast] to the underlying integer. *)
Definition index (s : t) : Z :=
  match s with UNKNOWN => 0 | AVAILABLE => 1 | UNAVAILABLE => 2 | kCount => 3 end.

Definition to_string (s : t) : string :=
  match s with
  | UNKNOWN => "UNKNOWN"
  | AVAILABLE => "AVAILABLE"
  | UNAVAILABLE => "UNAVAILABLE"
  | kCount => "INVALID"
  end.
End AvailabilityState.
Export (hints) AvailabilityState.

Module ReadinessState.
Inductive t := UNKNOWN | READY | WARMING | NOT_READY | kCount.

#[export] Instance eq_dec : EqDecision t.
Proof. solve_decision. Defined.

(** [static_cast] to the underlying integer. *)
Definition index (s : t) : Z :=
  match s with UNKNOWN => 0 | READY => 1 | WARMING => 2 | NOT_READY => 3 | kCount => 4 end.

Definition to_string (s : t) : string :=
  match s with
  | UNKNOWN => "UNKNOWN"
  | READY => "READY"
  | WARMING => "WARMING"
  | NOT_READY => "NOT_READY"
  | kCount => "INVALID"
  end.
End ReadinessState.
Export (hints) ReadinessState.

Module ResidencyState.
Inductive t := UNKNOWN | RESIDENT | LOADING | NOT_RESIDENT | EVICTING | kCount.

#[export] Instance eq_dec : EqDecision t.
Proof. solve_decision. Defined.

(** [static_cast] to the underlying integer. *)
Definition index (s : t) : Z :=
  match s with UNKNOWN => 0 | RESIDENT => 1 | LOADING => 2 | NOT_RESIDENT => 3 | EVICTING => 4 | kCount => 5 end.

Definition to_string (s : t) : string :=
  match s with
  | UNKNOWN => "UNKNOWN"
  | RESIDENT => "RESIDENT"
  | LOADING => "LOADING"
  | NOT_RESIDENT => "NOT_RESIDENT"
  | EVICTING => "EVICTING"
  | kCount => "INVALID"
  end.
End ResidencyState.
Export (hints) ResidencyState.

Module CapacityState.
Inductive t := UNKNOWN | AVAILABLE | SATURATED | kCount.

#[export] Instance eq_dec : EqDecision t.
Proof. solve_decision. Defined.

(** [static_cast] to the underlying integer. *)
Definition index (s : t) : Z :=
  match s with UNKNOWN => 0 | AVAILABLE => 1 | SATURATED => 2 | kCount => 3 end.

Definition to_string (s : t) : string :=
  match s with
  | UNKNOWN => "UNKNOWN"
  | AVAILABLE => "AVAILABLE"
  | SATURATED => "SATURATED"
  | kCount => "INVALID"
  end.
End CapacityState.
Export (hints) CapacityState.

Module CostKnownness.
Inductive t := UNKNOWN | ESTIMATED | QUOTED | CONTRACTED | kCount.

#[export] Instance eq_dec : EqDecision t.
Proof. solve_decision. Defined.

(** [static_cast] to the underlying integer. *)
Definition index (s : t) : Z :=
  match s with UNKNOWN => 0 | ESTIMATED => 1 | QUOTED => 2 | CONTRACTED => 3 | kCount => 4 end.

Definition to_string (s : t) : string :=
  match s with
  | UNKNOWN => "UNKNOWN"
  | ESTIMATED => "ESTIMATED"
  | QUOTED => "QUOTED"
  | CONTRACTED => "CONTRACTED"
  | kCount => "INVALID"
  end.
End CostKnownness.
Export (hints) CostKnownness.

Module BudgetVerdict.
Inductive t := UNKNOWN | ALLOWED | DENIED | kCount.

#[export] Instance eq_dec : EqDecision t.
Proof. solve_decision. Defined.

(** [static_cast] to the underlying integer. *)
Definition index (s : t) : Z :=
  match s with UNKNOWN => 0 | ALLOWED => 1 | DENIED => 2 | kCount => 3 end.

Definition to_string (s : t) : string :=
  match s with
  | UNKNOWN => "UNKNOWN"
  | ALLOWED => "ALLOWED"
  | DENIED => "DENIED"
  | kCount => "INVALID"
  end.
End BudgetVerdict.
Export (hints) BudgetVerdict.

Module SloVerdict.
Inductive t := UNKNOWN | FEASIBLE | INFEASIBLE | kCount.

#[export] Instance eq_dec : EqDecision t.
Proof. solve_decision. Defined.

(** [static_cast] to the underlying integer. *)
Definition index (s : t) : Z :=
  match s with UNKNOWN => 0 | FEASIBLE => 1 | INFEASIBLE => 2 | kCount => 3 end.

Definition to_string (s : t) : string :=
  match s with
  | UNKNOWN => "UNKNOWN"
  | FEASIBLE => "FEASIBLE"
  | INFEASIBLE => "INFEASIBLE"
  | kCount => "INVALID"
  end.
End SloVerdict.
Export (hints) SloVerdict.

Module CompatibilityVerdict.
Inductive t := UNKNOWN | COMPATIBLE | INCOMPATIBLE | kCount.

#[export] Instance eq_dec : EqDecision t.
Proof. solve_decision. Defined.

(** [static_cast] to the underlying integer. *)
Definition index (s : t) : Z :=
  match s with UNKNOWN => 0 | COMPATIBLE => 1 | INCOMPATIBLE => 2 | kCount => 3 end.

Definition to_string (s : t) : string :=
  match s with
  | UNKNOWN => "UNKNOWN"
  | COMPATIBLE => "COMPATIBLE"
  | INCOMPATIBLE => "INCOMPATIBLE"
  | kCount => "INVALID"
  end.
End CompatibilityVerdict.
Export (hints) CompatibilityVerdict.

Module FallbackPolicy.
Inductive t := FORBIDDEN | EXPLICIT_ONLY | PERMITTED | kCount.

#[export] Instance eq_dec : EqDecision t.
Proof. solve_decision. Defined.

(** [static_cast] to the underlying integer. *)
Definition index (s : t) : Z :=
  match s with FORBIDDEN => 0 | EXPLICIT_ONLY => 1 | PERMITTED => 2 | kCount => 3 end.

Definition to_string (s : t) : string :=
  match s with
  | FORBIDDEN => "FORBIDDEN"
  | EXPLICIT_ONLY => "EXPLICIT_ONLY"
  | PERMITTED => "PERMITTED"
  | kCount => "INVALID"
  end.
End FallbackPolicy.
Export (hints) FallbackPolicy.

(** ** Trust *)

Record TrustEvidence := {
  tr_profile_id : EntityId TrustTag;
  tr_generation : Generation TrustTag;
  tr_backend_id : EntityId BackendTag;
  tr_domain : TrustDomain.t;
  tr_observed_at : UnixMillis;
  tr_expires_at : UnixMillis;
  tr_source : string
}.
#[export] Instance trust_evidence_eta : Eta TrustEvidence := fun r =>
  {| tr_profile_id := tr_profile_id r;
     tr_generation := tr_generation r;
     tr_backend_id := tr_backend_id r;
     tr_domain := tr_domain r;
     tr_observed_at := tr_observed_at r;
     tr_expires_at := tr_expires_at r;
     tr_source := tr_source r |}.
Definition trust_evidence_default : TrustEvidence := {|
  tr_profile_id := none;
  tr_generation := none;
  tr_backend_id := none;
  tr_domain := TrustDomain.UNKNOWN;
  tr_observed_at := 0;
  tr_expires_at := kNoExpiry;
  tr_source := ""
|}.

Definition trust_current (e : TrustEvidence) (now : UnixMillis) : bool :=
  valid (tr_generation e) && tr_domain e != TrustDomain.UNKNOWN &&
  negb (expired_at (tr_expires_at e) now).

(** ** Locality keys *)

Record LocalityKey := LocalityKeyOf { locality_string : string }.
#[export] Instance locality_key_eq_dec : EqDecision LocalityKey.
Proof. solve_decision. Defined.
#[export] Instance locality_string_inj : Inj (=) (=) locality_string.
Proof. by intros [] [] [= ->]. Qed.

Definition locality_empty (k : LocalityKey) : bool := locality_string k == "".
Definition locality_ltb (x y : LocalityKey) : bool :=
  string_ltb (locality_string x) (locality_string y).
#[export] Instance locality_ltb_total : TotalB locality_ltb.
Proof. apply (total_on string_ltb locality_string). Qed.

Definition kMaxLocalityKeyBytes : Z := 128.

Definition is_locality_character (c : Ascii.ascii) : bool :=
  char_in 97 122 c || char_in 65 90 c || char_in 48 57 c || c == dot || c == dash ||
  c == underscore || c == slash.

(** The scan of [validate]: the first error found. *)
Fixpoint locality_scan (s : string) (previous_separator : bool) : string :=
  match s with
  | EmptyString => ""
  | String c s =>
      if negb (is_locality_character c) then "locality key contains an invalid character"
      else if c == slash then
        if previous_separator then "locality key contains an empty segment"
        else locality_scan s true
      else locality_scan s false
  end.

Definition locality_key_validate (v : string) : string :=
  return_if v == "" with "locality key is empty" ;;
  return_if kMaxLocalityKeyBytes <? string_size v
    with "locality key exceeds " +:+ to_string_int kMaxLocalityKeyBytes +:+ " bytes" ;;
  return_if (first_char v == Some slash) || (last_char v == Some slash)
    with "locality key has a leading or trailing separator" ;;
  locality_scan v false.

Definition locality_char (raw : Ascii.ascii) : Ascii.ascii :=
  let ch := lower_char raw in
  if ch == underscore then dash else ch.

Definition locality_key_canonicalize (v : string) : string :=
  let out := map_string locality_char v in
  let collapsed := trim_trailing (collapse_separators out true false) in
  if locality_key_validate collapsed != "" then "" else collapsed.

(** ** Observations about one backend incarnation *)

Record BackendEvidence (S : Type) (g : Tag) := BackendEvidenceOf {
  ev_state : S;
  ev_generation : Generation g;
  ev_backend_id : EntityId BackendTag;
  ev_backend_generation : Generation BackendTag;
  ev_backend_boot : Generation BackendBootTag;
  ev_endpoint_generation : Generation EndpointTag;
  ev_observed_at : UnixMillis;
  ev_expires_at : UnixMillis;
  ev_source : string;
  ev_detail : string
}.
Arguments BackendEvidenceOf {S g} _ _ _ _ _ _ _ _ _ _.
Arguments ev_state {S g} _.
Arguments ev_generation {S g} _.
Arguments ev_backend_id {S g} _.
Arguments ev_backend_generation {S g} _.
Arguments ev_backend_boot {S g} _.
Arguments ev_endpoint_generation {S g} _.
Arguments ev_observed_at {S g} _.
Arguments ev_expires_at {S g} _.
Arguments ev_source {S g} _.
Arguments ev_detail {S g} _.

Definition backend_evidence_default {S g} (unknown : S) : BackendEvidence S g :=
  BackendEvidenceOf unknown none none none none none 0 kNoExpiry "" "".

Definition ev_expired {S g} (e : BackendEvidence S g) (now : UnixMillis) : bool :=
  expired_at (ev_expires_at e) now.
Definition ev_current {S g} (e : BackendEvidence S g) (now : UnixMillis) : bool :=
  valid (ev_generation e) && valid (ev_backend_boot e) && negb (ev_expired e now).

Abbreviation HealthEvidence := (BackendEvidence HealthState.t HealthTag).
Abbreviation AvailabilityEvidence := (BackendEvidence AvailabilityState.t AvailabilityTag).
Abbreviation ReadinessEvidence := (BackendEvidence ReadinessState.t ReadinessTag).
Abbreviation ResidencyEvidence := (BackendEvidence ResidencyState.t ResidencyTag).
Abbreviation CapacityEvidence := (BackendEvidence CapacityState.t CapacityTag).

(** [kUnknownCount], [kUnknownLatencyMicros] and [kUnspecified]: the 32-bit
    sentinels for an absent value. *)
Definition kUnknownCount : Z := u32_max.
Definition kUnknownLatencyMicros : Z := u32_max.
Definition kUnspecified : Z := u32_max.

Record CapacityDetail := {
  cd_generation : Generation CapacityTag;
  cd_backend_id : EntityId BackendTag;
  cd_backend_boot : Generation BackendBootTag;
  cd_available_slots : Z;
  cd_total_slots : Z;
  cd_queue_depth : Z;
  cd_max_queue_depth : Z;
  cd_observed_at : UnixMillis;
  cd_expires_at : UnixMillis
}.
#[export] Instance capacity_detail_eta : Eta CapacityDetail := fun r =>
  {| cd_generation := cd_generation r;
     cd_backend_id := cd_backend_id r;
     cd_backend_boot := cd_backend_boot r;
     cd_available_slots := cd_available_slots r;
     cd_total_slots := cd_total_slots r;
     cd_queue_depth := cd_queue_depth r;
     cd_max_queue_depth := cd_max_queue_depth r;
     cd_observed_at := cd_observed_at r;
     cd_expires_at := cd_expires_at r |}.
#[export] Instance capacity_detail_eq_dec : EqDecision CapacityDetail.
Proof. solve_decision. Defined.
Definition capacity_detail_default : CapacityDetail := {|
  cd_generation := none;
  cd_backend_id := none;
  cd_backend_boot := none;
  cd_available_slots := kUnknownCount;
  cd_total_slots := kUnknownCount;
  cd_queue_depth := kUnknownCount;
  cd_max_queue_depth := kUnknownCount;
  cd_observed_at := 0;
  cd_expires_at := kNoExpiry
|}.

Definition cd_known (d : CapacityDetail) : bool := cd_available_slots d != kUnknownCount.

Record ReservationEvidence := {
  rs_reservation_id : EntityId ReservationTag;
  rs_generation : Generation ReservationTag;
  rs_backend_id : EntityId BackendTag;
  rs_backend_boot : Generation BackendBootTag;
  rs_request_id : EntityId RouteRequestTag;
  rs_expires_at : UnixMillis
}.
Definition reservation_evidence_default : ReservationEvidence := {|
  rs_reservation_id := none;
  rs_generation := none;
  rs_backend_id := none;
  rs_backend_boot := none;
  rs_request_id := none;
  rs_expires_at := kNoExpiry
|}.

Definition reservation_current (e : ReservationEvidence) (now : UnixMillis) : bool :=
  valid (rs_reservation_id e) && valid (rs_generation e) && valid (rs_backend_boot e) &&
  negb (expired_at (rs_expires_at e) now).

Record LatencyEvidence := {
  lt_health_generation : Generation HealthTag;
  lt_backend_id : EntityId BackendTag;
  lt_backend_boot : Generation BackendBootTag;
  lt_dispatch_micros : Z;
  lt_time_to_first_token_micros : Z;
  lt_completed_micros : Z;
  lt_tail_micros : Z;
  lt_queue_micros : Z;
  lt_warm_start_penalty_micros : Z;
  lt_cold_start_penalty_micros : Z;
  lt_sample_count : Z;
  lt_observed_at : UnixMillis;
  lt_expires_at : UnixMillis;
  lt_source : string
}.
#[export] Instance latency_evidence_eta : Eta LatencyEvidence := fun r =>
  {| lt_health_generation := lt_health_generation r;
     lt_backend_id := lt_backend_id r;
     lt_backend_boot := lt_backend_boot r;
     lt_dispatch_micros := lt_dispatch_micros r;
     lt_time_to_first_token_micros := lt_time_to_first_token_micros r;
     lt_completed_micros := lt_completed_micros r;
     lt_tail_micros := lt_tail_micros r;
     lt_queue_micros := lt_queue_micros r;
     lt_warm_start_penalty_micros := lt_warm_start_penalty_micros r;
     lt_cold_start_penalty_micros := lt_cold_start_penalty_micros r;
     lt_sample_count := lt_sample_count r;
     lt_observed_at := lt_observed_at r;
     lt_expires_at := lt_expires_at r;
     lt_source := lt_source r |}.
Definition latency_evidence_default : LatencyEvidence := {|
  lt_health_generation := none;
  lt_backend_id := none;
  lt_backend_boot := none;
  lt_dispatch_micros := kUnknownLatencyMicros;
  lt_time_to_first_token_micros := kUnknownLatencyMicros;
  lt_completed_micros := kUnknownLatencyMicros;
  lt_tail_micros := kUnknownLatencyMicros;
  lt_queue_micros := kUnknownLatencyMicros;
  lt_warm_start_penalty_micros := kUnknownLatencyMicros;
  lt_cold_start_penalty_micros := kUnknownLatencyMicros;
  lt_sample_count := 0;
  lt_observed_at := 0;
  lt_expires_at := kNoExpiry;
  lt_source := ""
|}.

Definition latency_expired (e : LatencyEvidence) (now : UnixMillis) : bool :=
  expired_at (lt_expires_at e) now.
Definition has_observation (e : LatencyEvidence) : bool := 0 <? lt_sample_count e.

(** ** Cost *)

Record CostUnit := {
  cu_currency : string;
  cu_basis : string
}.
#[export] Instance cost_unit_eq_dec : EqDecision CostUnit.
Proof. solve_decision. Defined.
Definition cost_unit_default : CostUnit := {|
  cu_currency := "";
  cu_basis := ""
|}.

Definition unit_valid (u : CostUnit) : bool := cu_currency u != "" && cu_basis u != "".
Definition compatible_with (u other : CostUnit) : bool :=
  unit_valid u && unit_valid other && cu_currency u == cu_currency other &&
  cu_basis u == cu_basis other.

Record Money := {
  mo_micros : Z;
  mo_unit : CostUnit
}.
Definition money_default : Money := {|
  mo_micros := 0;
  mo_unit := cost_unit_default
|}.

Record CostEvidence := {
  co_evidence_id : EntityId CostEvidenceTag;
  co_price_generation : Generation PriceTag;
  co_backend_id : EntityId BackendTag;
  co_model_id : EntityId ModelTag;
  co_unit : CostUnit;
  co_input_micros_per_unit : Z;
  co_output_micros_per_unit : Z;
  co_request_minimum_micros : Z;
  co_cache_read_micros_per_unit : Z;
  co_cache_write_micros_per_unit : Z;
  co_estimated_total_micros : Z;
  co_knownness : CostKnownness.t;
  co_effective_at : UnixMillis;
  co_expires_at : UnixMillis;
  co_source : string
}.
#[export] Instance cost_evidence_eta : Eta CostEvidence := fun r =>
  {| co_evidence_id := co_evidence_id r;
     co_price_generation := co_price_generation r;
     co_backend_id := co_backend_id r;
     co_model_id := co_model_id r;
     co_unit := co_unit r;
     co_input_micros_per_unit := co_input_micros_per_unit r;
     co_output_micros_per_unit := co_output_micros_per_unit r;
     co_request_minimum_micros := co_request_minimum_micros r;
     co_cache_read_micros_per_unit := co_cache_read_micros_per_unit r;
     co_cache_write_micros_per_unit := co_cache_write_micros_per_unit r;
     co_estimated_total_micros := co_estimated_total_micros r;
     co_knownness := co_knownness r;
     co_effective_at := co_effective_at r;
     co_expires_at := co_expires_at r;
     co_source := co_source r |}.
Definition cost_evidence_default : CostEvidence := {|
  co_evidence_id := none;
  co_price_generation := none;
  co_backend_id := none;
  co_model_id := none;
  co_unit := cost_unit_default;
  co_input_micros_per_unit := 0;
  co_output_micros_per_unit := 0;
  co_request_minimum_micros := 0;
  co_cache_read_micros_per_unit := 0;
  co_cache_write_micros_per_unit := 0;
  co_estimated_total_micros := 0;
  co_knownness := CostKnownness.UNKNOWN;
  co_effective_at := 0;
  co_expires_at := kNoExpiry;
  co_source := ""
|}.

Definition cost_known (e : CostEvidence) : bool := co_knownness e != CostKnownness.UNKNOWN.
Definition cost_current (e : CostEvidence) (now : UnixMillis) : bool :=
  cost_known e && valid (co_price_generation e) && unit_valid (co_unit e) &&
  negb (expired_at (co_expires_at e) now).

(** ** Budget, SLO and compatibility *)

Record BudgetSnapshot := {
  bu_budget_id : EntityId BudgetTag;
  bu_generation : Generation BudgetTag;
  bu_verdict : BudgetVerdict.t;
  bu_unit : CostUnit;
  bu_limit_micros : Z;
  bu_consumed_micros : Z;
  bu_remaining_micros : Z;
  bu_observed_at : UnixMillis;
  bu_expires_at : UnixMillis
}.
Definition budget_snapshot_default : BudgetSnapshot := {|
  bu_budget_id := none;
  bu_generation := none;
  bu_verdict := BudgetVerdict.UNKNOWN;
  bu_unit := cost_unit_default;
  bu_limit_micros := 0;
  bu_consumed_micros := 0;
  bu_remaining_micros := 0;
  bu_observed_at := 0;
  bu_expires_at := kNoExpiry
|}.

Definition budget_expired (b : BudgetSnapshot) (now : UnixMillis) : bool :=
  expired_at (bu_expires_at b) now.
Definition budget_current (b : BudgetSnapshot) (now : UnixMillis) : bool :=
  valid (bu_generation b) && bu_verdict b != BudgetVerdict.UNKNOWN && negb (budget_expired b now).

Record SloEvidence := {
  sl_slo_id : EntityId SloTag;
  sl_generation : Generation SloTag;
  sl_verdict : SloVerdict.t;
  sl_latency_target_micros : Z;
  sl_tail_latency_target_micros : Z;
  sl_deadline_micros : Z;
  sl_availability_class : Z;
  sl_throughput_class : Z;
  sl_quality_floor : Z;
  sl_observed_at : UnixMillis;
  sl_expires_at : UnixMillis;
  sl_source : string
}.
Definition slo_evidence_default : SloEvidence := {|
  sl_slo_id := none;
  sl_generation := none;
  sl_verdict := SloVerdict.UNKNOWN;
  sl_latency_target_micros := kUnspecified;
  sl_tail_latency_target_micros := kUnspecified;
  sl_deadline_micros := kUnspecified;
  sl_availability_class := 0;
  sl_throughput_class := 0;
  sl_quality_floor := 0;
  sl_observed_at := 0;
  sl_expires_at := kNoExpiry;
  sl_source := ""
|}.

Definition slo_expired (e : SloEvidence) (now : UnixMillis) : bool :=
  expired_at (sl_expires_at e) now.
Definition slo_current (e : SloEvidence) (now : UnixMillis) : bool :=
  valid (sl_generation e) && sl_verdict e != SloVerdict.UNKNOWN && negb (slo_expired e now).

Record CompatibilityEvidence := {
  cp_profile_id : EntityId CompatibilityTag;
  cp_generation : Generation CompatibilityTag;
  cp_backend_id : EntityId BackendTag;
  cp_verdict : CompatibilityVerdict.t;
  cp_protocol : string;
  cp_protocol_version : Z;
  cp_structured_output : bool;
  cp_tool_calling : bool;
  cp_streaming : bool;
  cp_max_context_tokens : Z;
  cp_observed_at : UnixMillis;
  cp_expires_at : UnixMillis;
  cp_source : string
}.
Definition compatibility_evidence_default : CompatibilityEvidence := {|
  cp_profile_id := none;
  cp_generation := none;
  cp_backend_id := none;
  cp_verdict := CompatibilityVerdict.UNKNOWN;
  cp_protocol := "";
  cp_protocol_version := 0;
  cp_structured_output := false;
  cp_tool_calling := false;
  cp_streaming := false;
  cp_max_context_tokens := 0;
  cp_observed_at := 0;
  cp_expires_at := kNoExpiry;
  cp_source := ""
|}.

Definition compatibility_current (e : CompatibilityEvidence) (now : UnixMillis) : bool :=
  valid (cp_generation e) && cp_verdict e == CompatibilityVerdict.COMPATIBLE &&
  negb (expired_at (cp_expires_at e) now).

(** ** Policy *)

Definition kUnclassifiedQuality : Z := 0.

Record PolicySnapshot := {
  po_policy_id : EntityId PolicyTag;
  po_generation : Generation PolicyTag;
  po_allowed_models : list (EntityId ModelTag);
  po_denied_models : list (EntityId ModelTag);
  po_allowed_providers : list (EntityId ProviderTag);
  po_denied_providers : list (EntityId ProviderTag);
  po_allowed_backends : list (EntityId BackendTag);
  po_denied_backends : list (EntityId BackendTag);
  po_preferred_model_families : list (EntityId ModelFamilyTag);
  po_denied_model_families : list (EntityId ModelFamilyTag);
  po_allowed_localities : list LocalityKey;
  po_denied_localities : list LocalityKey;
  po_bound_tenants : list (EntityId TenantTag);
  po_minimum_trust : TrustDomain.t;
  po_minimum_capability_evidence : CapabilityState.t;
  po_quality_floor : Z;
  po_maximum_request_cost : Money;
  po_maximum_latency_micros : Z;
  po_local_only : bool;
  po_deny_public_remote : bool;
  po_allow_unlisted_models : bool;
  po_allow_unlisted_providers : bool;
  po_allow_unlisted_backends : bool;
  po_fallback_policy : FallbackPolicy.t;
  po_fallback_permitted_outcomes : list OutcomeCode.t;
  po_max_fallback_depth : Z;
  po_max_provider_concentration_ppm : Z;
  po_observed_at : UnixMillis;
  po_expires_at : UnixMillis
}.
#[export] Instance policy_snapshot_eta : Eta PolicySnapshot := fun r =>
  {| po_policy_id := po_policy_id r;
     po_generation := po_generation r;
     po_allowed_models := po_allowed_models r;
     po_denied_models := po_denied_models r;
     po_allowed_providers := po_allowed_providers r;
     po_denied_providers := po_denied_providers r;
     po_allowed_backends := po_allowed_backends r;
     po_denied_backends := po_denied_backends r;
     po_preferred_model_families := po_preferred_model_families r;
     po_denied_model_families := po_denied_model_families r;
     po_allowed_localities := po_allowed_localities r;
     po_denied_localities := po_denied_localities r;
     po_bound_tenants := po_bound_tenants r;
     po_minimum_trust := po_minimum_trust r;
     po_minimum_capability_evidence := po_minimum_capability_evidence r;
     po_quality_floor := po_quality_floor r;
     po_maximum_request_cost := po_maximum_request_cost r;
     po_maximum_latency_micros := po_maximum_latency_micros r;
     po_local_only := po_local_only r;
     po_deny_public_remote := po_deny_public_remote r;
     po_allow_unlisted_models := po_allow_unlisted_models r;
     po_allow_unlisted_providers := po_allow_unlisted_providers r;
     po_allow_unlisted_backends := po_allow_unlisted_backends r;
     po_fallback_policy := po_fallback_policy r;
     po_fallback_permitted_outcomes := po_fallback_permitted_outcomes r;
     po_max_fallback_depth := po_max_fallback_depth r;
     po_max_provider_concentration_ppm := po_max_provider_concentration_ppm r;
     po_observed_at := po_observed_at r;
     po_expires_at := po_expires_at r |}.
Definition policy_snapshot_default : PolicySnapshot := {|
  po_policy_id := none;
  po_generation := none;
  po_allowed_models := [];
  po_denied_models := [];
  po_allowed_providers := [];
  po_denied_providers := [];
  po_allowed_backends := [];
  po_denied_backends := [];
  po_preferred_model_families := [];
  po_denied_model_families := [];
  po_allowed_localities := [];
  po_denied_localities := [];
  po_bound_tenants := [];
  po_minimum_trust := TrustDomain.UNKNOWN;
  po_minimum_capability_evidence := CapabilityState.UNKNOWN;
  po_quality_floor := kUnclassifiedQuality;
  po_maximum_request_cost := money_default;
  po_maximum_latency_micros := kUnspecified;
  po_local_only := false;
  po_deny_public_remote := false;
  po_allow_unlisted_models := true;
  po_allow_unlisted_providers := true;
  po_allow_unlisted_backends := true;
  po_fallback_policy := FallbackPolicy.EXPLICIT_ONLY;
  po_fallback_permitted_outcomes := [];
  po_max_fallback_depth := 1;
  po_max_provider_concentration_ppm := 0;
  po_observed_at := 0;
  po_expires_at := kNoExpiry
|}.

Definition policy_expired (p : PolicySnapshot) (now : UnixMillis) : bool :=
  expired_at (po_expires_at p) now.
Definition policy_current (p : PolicySnapshot) (now : UnixMillis) : bool :=
  valid (po_generation p) && negb (policy_expired p now).

(** Enumerators compare by their underlying integer. *)
Definition outcome_ltb (x y : OutcomeCode.t) : bool := OutcomeCode.index x <? OutcomeCode.index y.
#[export] Instance outcome_ltb_total : TotalB outcome_ltb.
Proof. apply (total_on Z.ltb OutcomeCode.index). Qed.

(** [PolicySnapshot::canonicalize]: every list sorted and deduplicated. *)
Definition policy_canonicalize (p : PolicySnapshot) : PolicySnapshot :=
  p
    <| po_allowed_models := sort_unique id_ltb (po_allowed_models p) |>
    <| po_denied_models := sort_unique id_ltb (po_denied_models p) |>
    <| po_allowed_providers := sort_unique id_ltb (po_allowed_providers p) |>
    <| po_denied_providers := sort_unique id_ltb (po_denied_providers p) |>
    <| po_allowed_backends := sort_unique id_ltb (po_allowed_backends p) |>
    <| po_denied_backends := sort_unique id_ltb (po_denied_backends p) |>
    <| po_preferred_model_families := sort_unique id_ltb (po_preferred_model_families p) |>
    <| po_denied_model_families := sort_unique id_ltb (po_denied_model_families p) |>
    <| po_bound_tenants := sort_unique id_ltb (po_bound_tenants p) |>
    <| po_allowed_localities := sort_unique locality_ltb (po_allowed_localities p) |>
    <| po_denied_localities := sort_unique locality_ltb (po_denied_localities p) |>
    <| po_fallback_permitted_outcomes := sort_unique outcome_ltb (po_fallback_permitted_outcomes p) |>.

Definition policy_validate (p : PolicySnapshot) : string :=
  return_if negb (valid (po_generation p)) with "policy generation is not valid" ;;
  return_if po_minimum_trust p != TrustDomain.UNKNOWN && (trust_rank (po_minimum_trust p) =? 0)
    with "policy minimum trust domain is not a known domain" ;;
  return_if mo_micros (po_maximum_request_cost p) <? 0
    with "policy maximum request cost is negative" ;;
  return_if (0 <? mo_micros (po_maximum_request_cost p)) &&
            negb (unit_valid (mo_unit (po_maximum_request_cost p)))
    with "policy maximum request cost has no unit identity" ;;
  return_if existsb (fun m => negb (valid m)) (po_allowed_models p)
    with "policy allowlist contains the invalid model identity" ;;
  return_if existsb (fun m => negb (valid m)) (po_denied_models p)
    with "policy denylist contains the invalid model identity" ;;
  return_if 10000 <? po_max_provider_concentration_ppm p
    with "policy max provider concentration exceeds 10000 parts per 10000" ;;
  return_if po_fallback_policy p == FallbackPolicy.FORBIDDEN && (po_max_fallback_depth p != 0)
    with "policy forbids fallback but permits a nonzero fallback depth" ;;
  "".

(** ** Facts *)

(** Every list of a canonical policy is strictly increasing. *)
Record policy_canonical (p : PolicySnapshot) : Prop := {
  canonical_allowed_models : strictly_sorted_by id_ltb (po_allowed_models p);
  canonical_denied_models : strictly_sorted_by id_ltb (po_denied_models p);
  canonical_allowed_providers : strictly_sorted_by id_ltb (po_allowed_providers p);
  canonical_denied_providers : strictly_sorted_by id_ltb (po_denied_providers p);
  canonical_allowed_backends : strictly_sorted_by id_ltb (po_allowed_backends p);
  canonical_denied_backends : strictly_sorted_by id_ltb (po_denied_backends p);
  canonical_preferred_model_families : strictly_sorted_by id_ltb (po_preferred_model_families p);
  canonical_denied_model_families : strictly_sorted_by id_ltb (po_denied_model_families p);
  canonical_bound_tenants : strictly_sorted_by id_ltb (po_bound_tenants p);
  canonical_allowed_localities : strictly_sorted_by locality_ltb (po_allowed_localities p);
  canonical_denied_localities : strictly_sorted_by locality_ltb (po_denied_localities p);
  canonical_fallback_permitted_outcomes : strictly_sorted_by outcome_ltb (po_fallback_permitted_outcomes p)
}.

Lemma policy_canonicalize_canonical p : policy_canonical (policy_canonicalize p).
Proof. split; apply (sort_unique_strictly_sorted _). Qed.

(** Two policies that differ only in the order and multiplicity of their list
    entries. *)
Definition policy_same_content (p q : PolicySnapshot) : Prop :=
  policy_canonicalize p = policy_canonicalize q.

#[export] Instance policy_same_content_equivalence : Equivalence policy_same_content.
Proof. unfold policy_same_content. split; [done | by intros ?? | intros ?????; congruence]. Qed.
