(* ===== verification/Catalog.v ===== *)
(** * Model, backend, endpoint and provider descriptors ([catalog.hpp],
    [catalog.cpp])

    The descriptors the router's catalog holds, their [validate] methods, the
    model bindings of a backend (kept sorted by model identity) and the
    modality bit sets. *)
From S2P Require Import Prelude Ids Outcome Clock Capability Evidence.

(** ** Enumerations and modality sets *)

Module Provenance.
Inductive t := REAL | SYNTHETIC | UNSUPPORTED | kCount.

#[export] Instance eq_dec : EqDecision t.
Proof. solve_decision. Defined.

(** [static_cast] to the underlying integer. *)
Definition index (s : t) : Z :=
  match s with REAL => 0 | SYNTHETIC => 1 | UNSUPPORTED => 2 | kCount => 3 end.

Definition to_string (s : t) : string :=
  match s with
  | REAL => "REAL"
  | SYNTHETIC => "SYNTHETIC"
  | UNSUPPORTED => "UNSUPPORTED"
  | kCount => "INVALID"
  end.
End Provenance.
Export (hints) Provenance.

Module ModelLifecycle.
Inductive t := UNKNOWN | CURRENT | DEPRECATED | RETIRED | kCount.

#[export] Instance eq_dec : EqDecision t.
Proof. solve_decision. Defined.

(** [static_cast] to the underlying integer. *)
Definition index (s : t) : Z :=
  match s with UNKNOWN => 0 | CURRENT => 1 | DEPRECATED => 2 | RETIRED => 3 | kCount => 4 end.

Definition to_string (s : t) : string :=
  match s with
  | UNKNOWN => "UNKNOWN"
  | CURRENT => "CURRENT"
  | DEPRECATED => "DEPRECATED"
  | RETIRED => "RETIRED"
  | kCount => "INVALID"
  end.
End ModelLifecycle.
Export (hints) ModelLifecycle.

(** [Modality]: the enumerators are bits; the class is kept as its 32-bit
    value, [ModalitySet] as the 32-bit word it wraps. *)
Definition Modality := Z.
Definition Modality_NONE : Modality := 0.
Definition Modality_TEXT : Modality := 1.
Definition Modality_IMAGE : Modality := 2.
Definition Modality_AUDIO : Modality := 4.
Definition Modality_VIDEO : Modality := 8.
Definition Modality_EMBEDDING : Modality := 16.

Record ModalitySet := ModalitySetOf { modality_bits : Z }.
#[export] Instance modality_set_eq_dec : EqDecision ModalitySet.
Proof. solve_decision. Defined.

Definition modality_none : ModalitySet := ModalitySetOf 0.
Definition modality_contains (s : ModalitySet) (m : Modality) : bool :=
  negb (Z.land (modality_bits s) m =? 0).
Definition modality_empty (s : ModalitySet) : bool := modality_bits s =? 0.
Definition modality_add (m : Modality) (s : ModalitySet) : ModalitySet :=
  ModalitySetOf (Z.lor (modality_bits s) m).
Definition modality_remove (m : Modality) (s : ModalitySet) : ModalitySet :=
  ModalitySetOf (Z.land (modality_bits s) (Z.lxor u32_max m)).
Definition modality_covers (s other : ModalitySet) : bool :=
  Z.land (modality_bits s) (modality_bits other) =? modality_bits other.

(** ** Models *)

Record ModelDescriptor := {
  md_model_id : EntityId ModelTag;
  md_model_generation : Generation ModelTag;
  md_model_version_id : EntityId ModelVersionTag;
  md_artifact_generation : Generation ArtifactTag;
  md_family_id : EntityId ModelFamilyTag;
  md_context_limit_tokens : Z;
  md_max_output_tokens : Z;
  md_input_modalities : ModalitySet;
  md_output_modalities : ModalitySet;
  md_quality_class : Z;
  md_lifecycle : ModelLifecycle.t;
  md_capability_profile_id : EntityId CapabilityProfileTag;
  md_capability_generation : Generation CapabilityTag;
  md_capabilities : CapabilityProfile;
  md_provenance : Provenance.t;
  md_registered_at : UnixMillis;
  md_expires_at : UnixMillis;
  md_display_name : string
}.
#[export] Instance model_descriptor_eta : Eta ModelDescriptor := fun r =>
  {| md_model_id := md_model_id r;
     md_model_generation := md_model_generation r;
     md_model_version_id := md_model_version_id r;
     md_artifact_generation := md_artifact_generation r;
     md_family_id := md_family_id r;
     md_context_limit_tokens := md_context_limit_tokens r;
     md_max_output_tokens := md_max_output_tokens r;
     md_input_modalities := md_input_modalities r;
     md_output_modalities := md_output_modalities r;
     md_quality_class := md_quality_class r;
     md_lifecycle := md_lifecycle r;
     md_capability_profile_id := md_capability_profile_id r;
     md_capability_generation := md_capability_generation r;
     md_capabilities := md_capabilities r;
     md_provenance := md_provenance r;
     md_registered_at := md_registered_at r;
     md_expires_at := md_expires_at r;
     md_display_name := md_display_name r |}.
Definition model_descriptor_default : ModelDescriptor := {|
  md_model_id := none;
  md_model_generation := none;
  md_model_version_id := none;
  md_artifact_generation := none;
  md_family_id := none;
  md_context_limit_tokens := 0;
  md_max_output_tokens := 0;
  md_input_modalities := modality_none;
  md_output_modalities := modality_none;
  md_quality_class := kUnclassifiedQuality;
  md_lifecycle := ModelLifecycle.UNKNOWN;
  md_capability_profile_id := none;
  md_capability_generation := none;
  md_capabilities := profile_default;
  md_provenance := Provenance.SYNTHETIC;
  md_registered_at := 0;
  md_expires_at := kNoExpiry;
  md_display_name := ""
|}.

Definition model_retired (m : ModelDescriptor) : bool := md_lifecycle m == ModelLifecycle.RETIRED.

Definition model_current (m : ModelDescriptor) (now : UnixMillis) : bool :=
  valid (md_model_generation m) && valid (md_artifact_generation m) &&
  md_lifecycle m == ModelLifecycle.CURRENT && negb (expired_at (md_expires_at m) now).

Definition model_validate (m : ModelDescriptor) : string :=
  return_if negb (valid (md_model_id m)) with "model identity is not valid" ;;
  return_if negb (valid (md_model_generation m)) with "model generation is not valid" ;;
  return_if negb (valid (md_artifact_generation m)) with "artifact generation is not valid" ;;
  return_if md_context_limit_tokens m =? 0 with "model context limit is zero" ;;
  return_if md_context_limit_tokens m <? md_max_output_tokens m
    with "model max output tokens exceed the context limit" ;;
  return_if modality_empty (md_input_modalities m) with "model declares no input modality" ;;
  return_if modality_empty (md_output_modalities m) with "model declares no output modality" ;;
  return_if negb (eqb (valid (md_capability_profile_id m)) (valid (md_capability_generation m)))
    with "model capability profile identity and generation disagree" ;;
  "".

(** ** Backends *)

Record ModelBinding := {
  mb_model_id : EntityId ModelTag;
  mb_model_generation : Generation ModelTag;
  mb_artifact_generation : Generation ArtifactTag;
  mb_context_limit_tokens : Z;
  mb_quality_class : Z;
  mb_cost : CostEvidence;
  mb_bound_at : UnixMillis
}.
#[export] Instance model_binding_eta : Eta ModelBinding := fun r =>
  {| mb_model_id := mb_model_id r;
     mb_model_generation := mb_model_generation r;
     mb_artifact_generation := mb_artifact_generation r;
     mb_context_limit_tokens := mb_context_limit_tokens r;
     mb_quality_class := mb_quality_class r;
     mb_cost := mb_cost r;
     mb_bound_at := mb_bound_at r |}.
Definition model_binding_default : ModelBinding := {|
  mb_model_id := none;
  mb_model_generation := none;
  mb_artifact_generation := none;
  mb_context_limit_tokens := 0;
  mb_quality_class := kUnclassifiedQuality;
  mb_cost := cost_evidence_default;
  mb_bound_at := 0
|}.

Record EndpointDescriptor := {
  ep_endpoint_id : EntityId EndpointTag;
  ep_endpoint_generation : Generation EndpointTag;
  ep_backend_id : EntityId BackendTag;
  ep_backend_boot : Generation BackendBootTag;
  ep_reference : string;
  ep_protocol : string;
  ep_protocol_version : Z
}.
#[export] Instance endpoint_descriptor_eta : Eta EndpointDescriptor := fun r =>
  {| ep_endpoint_id := ep_endpoint_id r;
     ep_endpoint_generation := ep_endpoint_generation r;
     ep_backend_id := ep_backend_id r;
     ep_backend_boot := ep_backend_boot r;
     ep_reference := ep_reference r;
     ep_protocol := ep_protocol r;
     ep_protocol_version := ep_protocol_version r |}.
#[export] Instance endpoint_descriptor_eq_dec : EqDecision EndpointDescriptor.
Proof. solve_decision. Defined.
Definition endpoint_descriptor_default : EndpointDescriptor := {|
  ep_endpoint_id := none;
  ep_endpoint_generation := none;
  ep_backend_id := none;
  ep_backend_boot := none;
  ep_reference := "";
  ep_protocol := "";
  ep_protocol_version := 0
|}.

Definition endpoint_validate (e : EndpointDescriptor) : string :=
  return_if negb (valid (ep_endpoint_id e)) with "endpoint identity is not valid" ;;
  return_if negb (valid (ep_endpoint_generation e)) with "endpoint generation is not valid" ;;
  return_if negb (valid (ep_backend_id e)) with "endpoint backend identity is not valid" ;;
  return_if negb (valid (ep_backend_boot e)) with "endpoint backend boot identity is not valid" ;;
  return_if ep_reference e == "" with "endpoint reference is empty" ;;
  "".

Record BackendDescriptor := {
  bd_backend_id : EntityId BackendTag;
  bd_backend_generation : Generation BackendTag;
  bd_backend_boot : Generation BackendBootTag;
  bd_registration_generation : Generation BackendRegistrationTag;
  bd_provider_id : EntityId ProviderTag;
  bd_provider_generation : Generation ProviderTag;
  bd_endpoint : EndpointDescriptor;
  bd_trust_profile_id : EntityId TrustTag;
  bd_trust_generation : Generation TrustTag;
  bd_trust_domain : TrustDomain.t;
  bd_locality : LocalityKey;
  bd_network_distance : Z;
  bd_capability_profile_id : EntityId CapabilityProfileTag;
  bd_capability_generation : Generation CapabilityTag;
  bd_capabilities : CapabilityProfile;
  bd_compatibility_profile_id : EntityId CompatibilityTag;
  bd_compatibility_generation : Generation CompatibilityTag;
  bd_model_bindings : list ModelBinding;
  bd_health : HealthEvidence;
  bd_availability : AvailabilityEvidence;
  bd_readiness : ReadinessEvidence;
  bd_residency : ResidencyEvidence;
  bd_capacity : CapacityEvidence;
  bd_capacity_detail : CapacityDetail;
  bd_latency : LatencyEvidence;
  bd_reliability_ppm : Z;
  bd_offline_capable : bool;
  bd_provenance : Provenance.t;
  bd_registered_at : UnixMillis;
  bd_expires_at : UnixMillis
}.
#[export] Instance backend_descriptor_eta : Eta BackendDescriptor := fun r =>
  {| bd_backend_id := bd_backend_id r;
     bd_backend_generation := bd_backend_generation r;
     bd_backend_boot := bd_backend_boot r;
     bd_registration_generation := bd_registration_generation r;
     bd_provider_id := bd_provider_id r;
     bd_provider_generation := bd_provider_generation r;
     bd_endpoint := bd_endpoint r;
     bd_trust_profile_id := bd_trust_profile_id r;
     bd_trust_generation := bd_trust_generation r;
     bd_trust_domain := bd_trust_domain r;
     bd_locality := bd_locality r;
     bd_network_distance := bd_network_distance r;
     bd_capability_profile_id := bd_capability_profile_id r;
     bd_capability_generation := bd_capability_generation r;
     bd_capabilities := bd_capabilities r;
     bd_compatibility_profile_id := bd_compatibility_profile_id r;
     bd_compatibility_generation := bd_compatibility_generation r;
     bd_model_bindings := bd_model_bindings r;
     bd_health := bd_health r;
     bd_availability := bd_availability r;
     bd_readiness := bd_readiness r;
     bd_residency := bd_residency r;
     bd_capacity := bd_capacity r;
     bd_capacity_detail := bd_capacity_detail r;
     bd_latency := bd_latency r;
     bd_reliability_ppm := bd_reliability_ppm r;
     bd_offline_capable := bd_offline_capable r;
     bd_provenance := bd_provenance r;
     bd_registered_at := bd_registered_at r;
     bd_expires_at := bd_expires_at r |}.
Definition backend_descriptor_default : BackendDescriptor := {|
  bd_backend_id := none;
  bd_backend_generation := none;
  bd_backend_boot := none;
  bd_registration_generation := none;
  bd_provider_id := none;
  bd_provider_generation := none;
  bd_endpoint := endpoint_descriptor_default;
  bd_trust_profile_id := none;
  bd_trust_generation := none;
  bd_trust_domain := TrustDomain.UNKNOWN;
  bd_locality := LocalityKeyOf "";
  bd_network_distance := 0;
  bd_capability_profile_id := none;
  bd_capability_generation := none;
  bd_capabilities := profile_default;
  bd_compatibility_profile_id := none;
  bd_compatibility_generation := none;
  bd_model_bindings := [];
  bd_health := (backend_evidence_default HealthState.UNKNOWN);
  bd_availability := (backend_evidence_default AvailabilityState.UNKNOWN);
  bd_readiness := (backend_evidence_default ReadinessState.UNKNOWN);
  bd_residency := (backend_evidence_default ResidencyState.UNKNOWN);
  bd_capacity := (backend_evidence_default CapacityState.UNKNOWN);
  bd_capacity_detail := capacity_detail_default;
  bd_latency := latency_evidence_default;
  bd_reliability_ppm := 0;
  bd_offline_capable := false;
  bd_provenance := Provenance.SYNTHETIC;
  bd_registered_at := 0;
  bd_expires_at := kNoExpiry
|}.

Definition backend_retired (b : BackendDescriptor) : bool := ev_state (bd_health b) == HealthState.RETIRED.
Definition backend_draining (b : BackendDescriptor) : bool := ev_state (bd_health b) == HealthState.DRAINING.

Definition find_binding (b : BackendDescriptor) (model_id : EntityId ModelTag) : option ModelBinding :=
  find_sorted id_ltb mb_model_id (bd_model_bindings b) model_id.

Definition backend_canonicalize (b : BackendDescriptor) : BackendDescriptor :=
  b <| bd_model_bindings := sort_unique_by id_ltb mb_model_id (bd_model_bindings b) |>.

(** The loop over the bindings; [previous] is the identity before it. *)
Fixpoint bindings_scan (previous : option (EntityId ModelTag)) (bindings : list ModelBinding) : string :=
  match bindings with
  | [] => ""
  | binding :: bindings =>
      return_if negb (valid (mb_model_id binding))
        with "backend model binding has an invalid model identity" ;;
      return_if negb (valid (mb_model_generation binding))
        with "backend model binding has an invalid model generation" ;;
      return_if negb (valid (mb_artifact_generation binding))
        with "backend model binding has an invalid artifact generation" ;;
      return_if match previous with
                | Some p => negb (id_ltb p (mb_model_id binding))
                | None => false
                end
        with "backend model bindings are not in canonical order or contain duplicates" ;;
      bindings_scan (Some (mb_model_id binding)) bindings
  end.

Definition backend_validate (b : BackendDescriptor) : string :=
  return_if negb (valid (bd_backend_id b)) with "backend identity is not valid" ;;
  return_if negb (valid (bd_backend_generation b)) with "backend generation is not valid" ;;
  return_if negb (valid (bd_backend_boot b)) with "backend boot identity is not valid" ;;
  return_if negb (valid (bd_registration_generation b))
    with "backend registration generation is not valid" ;;
  return_if negb (valid (bd_provider_id b)) with "backend provider identity is not valid" ;;
  return_if negb (valid (bd_provider_generation b)) with "backend provider generation is not valid" ;;
  let endpoint_error := endpoint_validate (bd_endpoint b) in
  return_if endpoint_error != "" with endpoint_error ;;
  return_if ep_backend_id (bd_endpoint b) != bd_backend_id b
    with "backend endpoint belongs to a different backend identity" ;;
  return_if ep_backend_boot (bd_endpoint b) != bd_backend_boot b
    with "backend endpoint belongs to a different backend incarnation" ;;
  return_if valid (bd_capability_generation b) && negb (valid (bd_capability_profile_id b))
    with "backend capability generation exists without a profile identity" ;;
  return_if valid (bd_compatibility_generation b) && negb (valid (bd_compatibility_profile_id b))
    with "backend compatibility generation exists without a profile identity" ;;
  return_if match bd_model_bindings b with [] => true | _ => false end
    with "backend declares no model binding" ;;
  bindings_scan None (bd_model_bindings b).

(** ** Providers *)

Record ProviderDescriptor := {
  pd_provider_id : EntityId ProviderTag;
  pd_generation : Generation ProviderTag;
  pd_display_name : string;
  pd_default_trust_domain : TrustDomain.t;
  pd_third_party : bool
}.
#[export] Instance provider_descriptor_eta : Eta ProviderDescriptor := fun r =>
  {| pd_provider_id := pd_provider_id r;
     pd_generation := pd_generation r;
     pd_display_name := pd_display_name r;
     pd_default_trust_domain := pd_default_trust_domain r;
     pd_third_party := pd_third_party r |}.
#[export] Instance provider_descriptor_eq_dec : EqDecision ProviderDescriptor.
Proof. solve_decision. Defined.
Definition provider_descriptor_default : ProviderDescriptor := {|
  pd_provider_id := none;
  pd_generation := none;
  pd_display_name := "";
  pd_default_trust_domain := TrustDomain.UNKNOWN;
  pd_third_party := true
|}.

(** ** Facts *)

Lemma endpoint_validate_spec e :
  endpoint_validate e = "" <->
  valid (ep_endpoint_id e) /\ valid (ep_endpoint_generation e) /\ valid (ep_backend_id e) /\
  valid (ep_backend_boot e) /\ ep_reference e <> "".
Proof.
  unfold endpoint_validate. early_returns. rewrite !negb_false_iff, bool_decide_eq_false.
  rewrite !Is_true_true. naive_solver.
Qed.

Definition binding_wf (b : ModelBinding) : Prop :=
  valid (mb_model_id b) /\ valid (mb_model_generation b) /\ valid (mb_artifact_generation b).

Lemma bindings_scan_spec previous l :
  bindings_scan previous l = "" <->
  Forall binding_wf l /\
  strictly_sorted_by id_ltb (option_list previous ++ (mb_model_id <$> l)).
Proof.
  revert previous. induction l as [|b l IH]; intros previous; cbn [bindings_scan].
  - destruct previous; split; repeat constructor.
  - early_returns. rewrite !negb_false_iff, IH, Forall_cons, fmap_cons. unfold binding_wf.
    rewrite !Is_true_true. destruct previous as [p|]; simpl; [|naive_solver].
    rewrite negb_false_iff, (strictly_sorted_adjacent id_ltb). naive_solver.
Qed.

(** What a coherent backend descriptor satisfies. *)
Record backend_coherent (b : BackendDescriptor) : Prop := {
  coherent_identity : valid (bd_backend_id b) /\ valid (bd_backend_generation b) /\
    valid (bd_backend_boot b) /\ valid (bd_registration_generation b) /\
    valid (bd_provider_id b) /\ valid (bd_provider_generation b);
  coherent_endpoint : endpoint_validate (bd_endpoint b) = "";
  coherent_endpoint_backend : ep_backend_id (bd_endpoint b) = bd_backend_id b;
  coherent_endpoint_boot : ep_backend_boot (bd_endpoint b) = bd_backend_boot b;
  coherent_capability : valid (bd_capability_generation b) -> valid (bd_capability_profile_id b);
  coherent_compatibility :
    valid (bd_compatibility_generation b) -> valid (bd_compatibility_profile_id b);
  coherent_bound : bd_model_bindings b <> [];
  coherent_bindings : Forall binding_wf (bd_model_bindings b);
  coherent_sorted : keys_sorted id_ltb mb_model_id (bd_model_bindings b)
}.

(** ** Properties *)

(** A backend descriptor passes [validate] exactly when it is coherent:
    every identity is present, the endpoint belongs to this backend and to
    this incarnation, no generation stands without its profile, and the
    bindings are complete and strictly ordered by model. *)
Theorem backend_validate_spec (b : BackendDescriptor) :
  backend_validate b = "" <-> backend_coherent b.
Proof.
  unfold backend_validate. cbv zeta.
  rewrite 6!return_if_eq by discriminate.
  destruct (decide (endpoint_validate (bd_endpoint b) = "")) as [E|E].
  2:{ rewrite bool_decide_eq_false_2 by done. simpl. split; [tauto|]. by intros []. }
  rewrite bool_decide_eq_true_2 by done. simpl. early_returns.
  rewrite bindings_scan_spec. simpl. rewrite !negb_false_iff, !bool_decide_eq_true.
  rewrite !andb_false_iff, !negb_false_iff. split.
  - intros (? & ? & ? & ? & ? & ? & ? & ? & Hc & Hp & Hb & ? & ?).
    split; try done; rewrite ?Is_true_true.
    + tauto.
    + destruct Hc; congruence.
    + destruct Hp; congruence.
    + by intros E'; rewrite E' in Hb.
  - intros [(? & ? & ? & ? & ? & ?) _ ? ? Hc Hp Hb ? ?]. rewrite !Is_true_true in *.
    repeat split; try done.
    + destruct (valid (bd_capability_generation b)); tauto.
    + destruct (valid (bd_compatibility_generation b)); tauto.
    + by destruct (bd_model_bindings b).
Qed.

(** [BackendDescriptor::canonicalize] makes the bindings a map from
    models: [find_binding] on the canonical descriptor answers with the first
    binding the descriptor listed for that model (a later duplicate is
    dropped), and canonicalizing again changes nothing. *)
Theorem backend_canonicalize_find (b : BackendDescriptor) (m : EntityId ModelTag) :
  find_binding (backend_canonicalize b) m =
    head (filter (fun x => mb_model_id x = m) (bd_model_bindings b)) /\
  keys_sorted id_ltb mb_model_id (bd_model_bindings (backend_canonicalize b)) /\
  backend_canonicalize (backend_canonicalize b) = backend_canonicalize b.
Proof.
  split_and!.
  - exact (find_sort_unique_by id_ltb mb_model_id _ m).
  - exact (sort_unique_by_sorted id_ltb mb_model_id _).
  - unfold backend_canonicalize at 1. simpl.
    rewrite (sort_unique_by_id id_ltb) by first [exact (sort_unique_by_sorted id_ltb mb_model_id _) | apply _]. by destruct b.
Qed.

(** Duplicated bindings are resolved by position: descriptors listing the
    same two bindings of one model in opposite orders stay different after
    [canonicalize], so the canonical form depends on the input order. *)
Theorem backend_canonicalize_order_dependent :
  let cheap := model_binding_default <| mb_model_id := EntityIdOf 7 |> in
  let large := cheap <| mb_context_limit_tokens := 4096 |> in
  let with_bindings l := backend_descriptor_default <| bd_model_bindings := l |> in
  find_binding (backend_canonicalize (with_bindings [cheap; large])) (EntityIdOf 7) = Some cheap /\
  find_binding (backend_canonicalize (with_bindings [large; cheap])) (EntityIdOf 7) = Some large /\
  cheap <> large.
Proof. split_and!; [reflexivity | reflexivity | discriminate]. Qed.
