(* ===== verification/Request.v ===== *)
(** * Requirements and requests ([request.hpp], [request.cpp])

    The normalized requirements of a route request, their validation,
    canonical form and digest, the request itself, and the failure classes
    that govern fallback. *)
From S2P Require Import Prelude Ids Sha256 Outcome Limits Clock Capability Evidence Catalog.

(** ** Data *)

Record RetryReroutePolicy := {
  rp_allow_retry : bool;
  rp_allow_reroute : bool;
  rp_allow_model_switch : bool;
  rp_allow_provider_switch : bool;
  rp_max_attempts : Z;
  rp_max_fallbacks : Z
}.
#[export] Instance retry_reroute_policy_eta : Eta RetryReroutePolicy := fun r =>
  {| rp_allow_retry := rp_allow_retry r;
     rp_allow_reroute := rp_allow_reroute r;
     rp_allow_model_switch := rp_allow_model_switch r;
     rp_allow_provider_switch := rp_allow_provider_switch r;
     rp_max_attempts := rp_max_attempts r;
     rp_max_fallbacks := rp_max_fallbacks r |}.
Definition retry_reroute_policy_default : RetryReroutePolicy := {|
  rp_allow_retry := true;
  rp_allow_reroute := true;
  rp_allow_model_switch := true;
  rp_allow_provider_switch := true;
  rp_max_attempts := 2;
  rp_max_fallbacks := 2
|}.

Record Stickiness := {
  sk_prefer_same_model_family : bool;
  sk_prefer_same_provider : bool;
  sk_prefer_same_backend : bool;
  sk_prefer_context_locality : bool;
  sk_family : EntityId ModelFamilyTag;
  sk_provider : EntityId ProviderTag;
  sk_backend : EntityId BackendTag
}.
#[export] Instance stickiness_eta : Eta Stickiness := fun r =>
  {| sk_prefer_same_model_family := sk_prefer_same_model_family r;
     sk_prefer_same_provider := sk_prefer_same_provider r;
     sk_prefer_same_backend := sk_prefer_same_backend r;
     sk_prefer_context_locality := sk_prefer_context_locality r;
     sk_family := sk_family r;
     sk_provider := sk_provider r;
     sk_backend := sk_backend r |}.
Definition stickiness_default : Stickiness := {|
  sk_prefer_same_model_family := false;
  sk_prefer_same_provider := false;
  sk_prefer_same_backend := false;
  sk_prefer_context_locality := false;
  sk_family := none;
  sk_provider := none;
  sk_backend := none
|}.

Record RouteRequirements := {
  rq_required_capabilities : list CapabilityRequirement;
  rq_preferred_capabilities : list CapabilityKey;
  rq_minimum_capability_evidence : CapabilityState.t;
  rq_min_context_tokens : Z;
  rq_max_output_tokens : Z;
  rq_input_modalities : ModalitySet;
  rq_output_modalities : ModalitySet;
  rq_require_structured_output : bool;
  rq_require_json_schema : bool;
  rq_require_tool_calling : bool;
  rq_require_streaming : bool;
  rq_require_logprobs : bool;
  rq_require_deterministic_seed : bool;
  rq_quality_floor : Z;
  rq_model_allowlist : list (EntityId ModelTag);
  rq_model_denylist : list (EntityId ModelTag);
  rq_family_allowlist : list (EntityId ModelFamilyTag);
  rq_family_denylist : list (EntityId ModelFamilyTag);
  rq_provider_allowlist : list (EntityId ProviderTag);
  rq_provider_denylist : list (EntityId ProviderTag);
  rq_backend_allowlist : list (EntityId BackendTag);
  rq_backend_denylist : list (EntityId BackendTag);
  rq_local_only : bool;
  rq_offline_only : bool;
  rq_remote_allowed : bool;
  rq_required_localities : list LocalityKey;
  rq_denied_localities : list LocalityKey;
  rq_minimum_trust : TrustDomain.t;
  rq_require_known_cost : bool;
  rq_enforce_cost_ceiling : bool;
  rq_maximum_cost : Money;
  rq_max_latency_micros : Z;
  rq_deadline_micros : Z;
  rq_require_slo : bool;
  rq_require_available : bool;
  rq_require_healthy : bool;
  rq_require_ready : bool;
  rq_require_resident : bool;
  rq_require_capacity : bool;
  rq_require_reservation : bool;
  rq_require_known_latency : bool;
  rq_require_known_compatibility : bool;
  rq_required_protocol : string;
  rq_required_protocol_version : Z;
  rq_affinity_model : EntityId ModelTag;
  rq_affinity_provider : EntityId ProviderTag;
  rq_affinity_backend : EntityId BackendTag;
  rq_stickiness : Stickiness;
  rq_allow_fallbacks : bool;
  rq_fallback_policy : FallbackPolicy.t;
  rq_retry_policy : RetryReroutePolicy
}.
#[export] Instance route_requirements_eta : Eta RouteRequirements := fun r =>
  {| rq_required_capabilities := rq_required_capabilities r;
     rq_preferred_capabilities := rq_preferred_capabilities r;
     rq_minimum_capability_evidence := rq_minimum_capability_evidence r;
     rq_min_context_tokens := rq_min_context_tokens r;
     rq_max_output_tokens := rq_max_output_tokens r;
     rq_input_modalities := rq_input_modalities r;
     rq_output_modalities := rq_output_modalities r;
     rq_require_structured_output := rq_require_structured_output r;
     rq_require_json_schema := rq_require_json_schema r;
     rq_require_tool_calling := rq_require_tool_calling r;
     rq_require_streaming := rq_require_streaming r;
     rq_require_logprobs := rq_require_logprobs r;
     rq_require_deterministic_seed := rq_require_deterministic_seed r;
     rq_quality_floor := rq_quality_floor r;
     rq_model_allowlist := rq_model_allowlist r;
     rq_model_denylist := rq_model_denylist r;
     rq_family_allowlist := rq_family_allowlist r;
     rq_family_denylist := rq_family_denylist r;
     rq_provider_allowlist := rq_provider_allowlist r;
     rq_provider_denylist := rq_provider_denylist r;
     rq_backend_allowlist := rq_backend_allowlist r;
     rq_backend_denylist := rq_backend_denylist r;
     rq_local_only := rq_local_only r;
     rq_offline_only := rq_offline_only r;
     rq_remote_allowed := rq_remote_allowed r;
     rq_required_localities := rq_required_localities r;
     rq_denied_localities := rq_denied_localities r;
     rq_minimum_trust := rq_minimum_trust r;
     rq_require_known_cost := rq_require_known_cost r;
     rq_enforce_cost_ceiling := rq_enforce_cost_ceiling r;
     rq_maximum_cost := rq_maximum_cost r;
     rq_max_latency_micros := rq_max_latency_micros r;
     rq_deadline_micros := rq_deadline_micros r;
     rq_require_slo := rq_require_slo r;
     rq_require_available := rq_require_available r;
     rq_require_healthy := rq_require_healthy r;
     rq_require_ready := rq_require_ready r;
     rq_require_resident := rq_require_resident r;
     rq_require_capacity := rq_require_capacity r;
     rq_require_reservation := rq_require_reservation r;
     rq_require_known_latency := rq_require_known_latency r;
     rq_require_known_compatibility := rq_require_known_compatibility r;
     rq_required_protocol := rq_required_protocol r;
     rq_required_protocol_version := rq_required_protocol_version r;
     rq_affinity_model := rq_affinity_model r;
     rq_affinity_provider := rq_affinity_provider r;
     rq_affinity_backend := rq_affinity_backend r;
     rq_stickiness := rq_stickiness r;
     rq_allow_fallbacks := rq_allow_fallbacks r;
     rq_fallback_policy := rq_fallback_policy r;
     rq_retry_policy := rq_retry_policy r |}.
Definition route_requirements_default : RouteRequirements := {|
  rq_required_capabilities := [];
  rq_preferred_capabilities := [];
  rq_minimum_capability_evidence := CapabilityState.DECLARED;
  rq_min_context_tokens := 0;
  rq_max_output_tokens := 0;
  rq_input_modalities := modality_none;
  rq_output_modalities := modality_none;
  rq_require_structured_output := false;
  rq_require_json_schema := false;
  rq_require_tool_calling := false;
  rq_require_streaming := false;
  rq_require_logprobs := false;
  rq_require_deterministic_seed := false;
  rq_quality_floor := kUnclassifiedQuality;
  rq_model_allowlist := [];
  rq_model_denylist := [];
  rq_family_allowlist := [];
  rq_family_denylist := [];
  rq_provider_allowlist := [];
  rq_provider_denylist := [];
  rq_backend_allowlist := [];
  rq_backend_denylist := [];
  rq_local_only := false;
  rq_offline_only := false;
  rq_remote_allowed := true;
  rq_required_localities := [];
  rq_denied_localities := [];
  rq_minimum_trust := TrustDomain.UNKNOWN;
  rq_require_known_cost := false;
  rq_enforce_cost_ceiling := false;
  rq_maximum_cost := money_default;
  rq_max_latency_micros := kUnspecified;
  rq_deadline_micros := kUnspecified;
  rq_require_slo := false;
  rq_require_available := true;
  rq_require_healthy := true;
  rq_require_ready := true;
  rq_require_resident := false;
  rq_require_capacity := false;
  rq_require_reservation := false;
  rq_require_known_latency := false;
  rq_require_known_compatibility := false;
  rq_required_protocol := "";
  rq_required_protocol_version := 0;
  rq_affinity_model := none;
  rq_affinity_provider := none;
  rq_affinity_backend := none;
  rq_stickiness := stickiness_default;
  rq_allow_fallbacks := true;
  rq_fallback_policy := FallbackPolicy.EXPLICIT_ONLY;
  rq_retry_policy := retry_reroute_policy_default
|}.

Record CallerAuthority := {
  ca_agent_runtime_id : Z;
  ca_agent_run_id : Z;
  ca_action_id : Z;
  ca_action_generation : Z;
  ca_attempt_generation : Z;
  ca_work_id : Z;
  ca_work_generation : Z
}.
#[export] Instance caller_authority_eta : Eta CallerAuthority := fun r =>
  {| ca_agent_runtime_id := ca_agent_runtime_id r;
     ca_agent_run_id := ca_agent_run_id r;
     ca_action_id := ca_action_id r;
     ca_action_generation := ca_action_generation r;
     ca_attempt_generation := ca_attempt_generation r;
     ca_work_id := ca_work_id r;
     ca_work_generation := ca_work_generation r |}.
Definition caller_authority_default : CallerAuthority := {|
  ca_agent_runtime_id := 0;
  ca_agent_run_id := 0;
  ca_action_id := 0;
  ca_action_generation := 0;
  ca_attempt_generation := 0;
  ca_work_id := 0;
  ca_work_generation := 0
|}.

Record RouteRequest := {
  rr_request_id : EntityId RouteRequestTag;
  rr_request_generation : Generation RouteRequestTag;
  rr_requirements : RouteRequirements;
  rr_caller : CallerAuthority;
  rr_tenant : EntityId TenantTag;
  rr_name_space : EntityId NamespaceTag;
  rr_policy_id : EntityId PolicyTag;
  rr_policy_generation : Generation PolicyTag;
  rr_budget_id : EntityId BudgetTag;
  rr_budget_generation : Generation BudgetTag;
  rr_slo_id : EntityId SloTag;
  rr_slo_generation : Generation SloTag;
  rr_correlation_id : EntityId CorrelationTag;
  rr_estimated_input_tokens : Z;
  rr_estimated_output_tokens : Z;
  rr_created_at : UnixMillis;
  rr_expires_at : UnixMillis
}.
#[export] Instance route_request_eta : Eta RouteRequest := fun r =>
  {| rr_request_id := rr_request_id r;
     rr_request_generation := rr_request_generation r;
     rr_requirements := rr_requirements r;
     rr_caller := rr_caller r;
     rr_tenant := rr_tenant r;
     rr_name_space := rr_name_space r;
     rr_policy_id := rr_policy_id r;
     rr_policy_generation := rr_policy_generation r;
     rr_budget_id := rr_budget_id r;
     rr_budget_generation := rr_budget_generation r;
     rr_slo_id := rr_slo_id r;
     rr_slo_generation := rr_slo_generation r;
     rr_correlation_id := rr_correlation_id r;
     rr_estimated_input_tokens := rr_estimated_input_tokens r;
     rr_estimated_output_tokens := rr_estimated_output_tokens r;
     rr_created_at := rr_created_at r;
     rr_expires_at := rr_expires_at r |}.
Definition route_request_default : RouteRequest := {|
  rr_request_id := none;
  rr_request_generation := none;
  rr_requirements := route_requirements_default;
  rr_caller := caller_authority_default;
  rr_tenant := none;
  rr_name_space := none;
  rr_policy_id := none;
  rr_policy_generation := none;
  rr_budget_id := none;
  rr_budget_generation := none;
  rr_slo_id := none;
  rr_slo_generation := none;
  rr_correlation_id := none;
  rr_estimated_input_tokens := 0;
  rr_estimated_output_tokens := 0;
  rr_created_at := 0;
  rr_expires_at := kNoExpiry
|}.

Definition request_expired (r : RouteRequest) (now : UnixMillis) : bool :=
  expired_at (rr_expires_at r) now.

Module FailureClass.
Inductive t := TRANSIENT_BACKEND_FAILURE | BACKEND_UNAVAILABLE | BACKEND_RESTARTED | MODEL_UNAVAILABLE | STALE_ROUTE | POLICY_CHANGED | BUDGET_CHANGED | PRICE_CHANGED | SLO_CHANGED | CAPACITY_CHANGED | COMPATIBILITY_CHANGED | PERMANENT_REJECTION | CALLER_CANCELLED | UNKNOWN | kCount.

#[export] Instance eq_dec : EqDecision t.
Proof. solve_decision. Defined.

(** [static_cast] to the underlying integer. *)
Definition index (s : t) : Z :=
  match s with TRANSIENT_BACKEND_FAILURE => 0 | BACKEND_UNAVAILABLE => 1 | BACKEND_RESTARTED => 2 | MODEL_UNAVAILABLE => 3 | STALE_ROUTE => 4 | POLICY_CHANGED => 5 | BUDGET_CHANGED => 6 | PRICE_CHANGED => 7 | SLO_CHANGED => 8 | CAPACITY_CHANGED => 9 | COMPATIBILITY_CHANGED => 10 | PERMANENT_REJECTION => 11 | CALLER_CANCELLED => 12 | UNKNOWN => 13 | kCount => 14 end.

Definition to_string (s : t) : string :=
  match s with
  | TRANSIENT_BACKEND_FAILURE => "TRANSIENT_BACKEND_FAILURE"
  | BACKEND_UNAVAILABLE => "BACKEND_UNAVAILABLE"
  | BACKEND_RESTARTED => "BACKEND_RESTARTED"
  | MODEL_UNAVAILABLE => "MODEL_UNAVAILABLE"
  | STALE_ROUTE => "STALE_ROUTE"
  | POLICY_CHANGED => "POLICY_CHANGED"
  | BUDGET_CHANGED => "BUDGET_CHANGED"
  | PRICE_CHANGED => "PRICE_CHANGED"
  | SLO_CHANGED => "SLO_CHANGED"
  | CAPACITY_CHANGED => "CAPACITY_CHANGED"
  | COMPATIBILITY_CHANGED => "COMPATIBILITY_CHANGED"
  | PERMANENT_REJECTION => "PERMANENT_REJECTION"
  | CALLER_CANCELLED => "CALLER_CANCELLED"
  | UNKNOWN => "UNKNOWN"
  | kCount => "INVALID"
  end.
End FailureClass.
Export (hints) FailureClass.

(** ** Validation of requirements *)

Definition size {A} (l : list A) : Z := Z.of_nat (length l).

(** The loop over the required capabilities: the first error found. *)
Fixpoint required_capabilities_error (l : list CapabilityRequirement) : string :=
  match l with
  | [] => ""
  | requirement :: l =>
      let key := key_string (cr_key requirement) in
      let key_error := capability_key_validate key in
      return_if key_error != "" with "required capability: " +:+ key_error ;;
      return_if cr_minimum_state requirement == CapabilityState.UNKNOWN
        with "required capability " +:+ key +:+
             " declares UNKNOWN as its minimum evidence state" ;;
      return_if negb (is_satisfying (cr_minimum_state requirement))
        with "required capability " +:+ key +:+
             " declares a non-satisfying minimum evidence state" ;;
      required_capabilities_error l
  end.

(** A loop that returns the first error of a list's elements, prefixed. *)
Fixpoint first_error {A} (prefix : string) (error_of : A -> string) (l : list A) : string :=
  match l with
  | [] => ""
  | x :: l =>
      return_if error_of x != "" with prefix +:+ error_of x ;;
      first_error prefix error_of l
  end.

Definition check_id_list {t} (l : list (EntityId t)) (name : string) : string :=
  return_if existsb (fun v => negb (valid v)) l with name +:+ " contains the invalid identity" ;; "".

(** [if (error = check(); !error.empty()) return error; k] *)
Definition or_else (error k : string) : string := return_if error != "" with error ;; k.

Definition requirements_validate (limits : ResourceLimits) (r : RouteRequirements) : string :=
  return_if max_requirement_entries limits <? size (rq_required_capabilities r)
    with "required capability count exceeds the configured limit" ;;
  return_if max_requirement_entries limits <? size (rq_preferred_capabilities r)
    with "preferred capability count exceeds the configured limit" ;;
  return_if (max_allowlist_entries limits <? size (rq_model_allowlist r)) ||
            (max_allowlist_entries limits <? size (rq_model_denylist r)) ||
            (max_allowlist_entries limits <? size (rq_provider_allowlist r)) ||
            (max_allowlist_entries limits <? size (rq_provider_denylist r)) ||
            (max_allowlist_entries limits <? size (rq_backend_allowlist r)) ||
            (max_allowlist_entries limits <? size (rq_backend_denylist r))
    with "identity allowlist or denylist exceeds the configured limit" ;;
  return_if (max_allowlist_entries limits <? size (rq_required_localities r)) ||
            (max_allowlist_entries limits <? size (rq_denied_localities r))
    with "locality list exceeds the configured limit" ;;
  or_else (required_capabilities_error (rq_required_capabilities r)) (
  or_else (first_error "preferred capability: " (fun k => capability_key_validate (key_string k))
             (rq_preferred_capabilities r)) (
  return_if rq_minimum_capability_evidence r == CapabilityState.UNKNOWN ||
            negb (is_satisfying (rq_minimum_capability_evidence r))
    with "minimum capability evidence state is not a satisfying state" ;;
  return_if (0 <? rq_max_output_tokens r) && (0 <? rq_min_context_tokens r) &&
            (rq_min_context_tokens r <? rq_max_output_tokens r)
    with "max output tokens exceed the minimum context length" ;;
  return_if modality_empty (rq_input_modalities r) && modality_empty (rq_output_modalities r) &&
            (match rq_required_capabilities r with [] => true | _ => false end)
    with "request declares no input, output, or capability requirement" ;;
  return_if negb (rq_remote_allowed r) && negb (rq_local_only r) && negb (rq_offline_only r)
    with "request forbids remote placement without permitting local placement" ;;
  return_if rq_local_only r && (match rq_denied_localities r with [] => false | _ => true end)
    with "request is local-only but also denies specific localities" ;;
  return_if rq_enforce_cost_ceiling r && (mo_micros (rq_maximum_cost r) <=? 0)
    with "cost ceiling is enforced but no positive ceiling is set" ;;
  return_if rq_enforce_cost_ceiling r && negb (unit_valid (mo_unit (rq_maximum_cost r)))
    with "cost ceiling has no unit identity" ;;
  return_if rq_minimum_trust r != TrustDomain.UNKNOWN && (trust_rank (rq_minimum_trust r) =? 0)
    with "minimum trust domain is not a known domain" ;;
  return_if max_fallback_candidates limits <? rp_max_fallbacks (rq_retry_policy r)
    with "requested fallback count exceeds the configured limit" ;;
  return_if negb (rq_allow_fallbacks r) && negb (rp_max_fallbacks (rq_retry_policy r) =? 0)
    with "fallbacks are disabled but a nonzero fallback count is requested" ;;
  or_else (check_id_list (rq_model_allowlist r) "model allowlist") (
  or_else (check_id_list (rq_model_denylist r) "model denylist") (
  or_else (check_id_list (rq_provider_allowlist r) "provider allowlist") (
  or_else (check_id_list (rq_provider_denylist r) "provider denylist") (
  or_else (check_id_list (rq_backend_allowlist r) "backend allowlist") (
  or_else (check_id_list (rq_backend_denylist r) "backend denylist") (
  or_else (first_error "required locality: " (fun k => locality_key_validate (locality_string k))
             (rq_required_localities r))
    (first_error "denied locality: " (fun k => locality_key_validate (locality_string k))
             (rq_denied_localities r))))))))))%Z.

(** ** Canonical form *)

Definition sort_ids {t} (l : list (EntityId t)) : list (EntityId t) := sort_unique id_ltb l.

Definition requirements_canonicalize (r : RouteRequirements) : RouteRequirements :=
  r <| rq_required_capabilities := sort_unique_by key_ltb cr_key (rq_required_capabilities r) |>
    <| rq_preferred_capabilities := sort_unique key_ltb (rq_preferred_capabilities r) |>
    <| rq_model_allowlist := sort_ids (rq_model_allowlist r) |>
    <| rq_model_denylist := sort_ids (rq_model_denylist r) |>
    <| rq_family_allowlist := sort_ids (rq_family_allowlist r) |>
    <| rq_family_denylist := sort_ids (rq_family_denylist r) |>
    <| rq_provider_allowlist := sort_ids (rq_provider_allowlist r) |>
    <| rq_provider_denylist := sort_ids (rq_provider_denylist r) |>
    <| rq_backend_allowlist := sort_ids (rq_backend_allowlist r) |>
    <| rq_backend_denylist := sort_ids (rq_backend_denylist r) |>
    <| rq_required_localities := sort_unique locality_ltb (rq_required_localities r) |>
    <| rq_denied_localities := sort_unique locality_ltb (rq_denied_localities r) |>.

(** ** Digests *)

Definition bit (b : bool) : string := if b then "1" else "0".
Definition id_list {t} (l : list (EntityId t)) : string :=
  String.concat "" ((fun v => to_string_int (value v) +:+ ",") <$> l).
Definition key_list (l : list LocalityKey) : string :=
  String.concat "" ((fun k => locality_string k +:+ ",") <$> l).
Definition capability_list (l : list CapabilityRequirement) : string :=
  String.concat "" ((fun r => key_string (cr_key r) +:+ "@" +:+
    CapabilityState.to_string (cr_minimum_state r) +:+ ",") <$> l).
Definition capability_key_list (l : list CapabilityKey) : string :=
  String.concat "" ((fun k => key_string k +:+ ",") <$> l).

(** The text that is hashed. *)
Definition requirements_text (r : RouteRequirements) : string :=
  String.concat "" [
    "cap="; capability_list (rq_required_capabilities r);
    ";pref="; capability_key_list (rq_preferred_capabilities r);
    ";minstate="; CapabilityState.to_string (rq_minimum_capability_evidence r);
    ";ctx="; to_string_int (rq_min_context_tokens r);
    ";out="; to_string_int (rq_max_output_tokens r);
    ";inmod="; to_string_int (modality_bits (rq_input_modalities r));
    ";outmod="; to_string_int (modality_bits (rq_output_modalities r));
    ";flags="; bit (rq_require_structured_output r); bit (rq_require_json_schema r);
    bit (rq_require_tool_calling r); bit (rq_require_streaming r); bit (rq_require_logprobs r);
    bit (rq_require_deterministic_seed r);
    ";quality="; to_string_int (rq_quality_floor r);
    ";ma="; id_list (rq_model_allowlist r); ";md="; id_list (rq_model_denylist r);
    ";fa="; id_list (rq_family_allowlist r); ";fd="; id_list (rq_family_denylist r);
    ";pa="; id_list (rq_provider_allowlist r); ";pd="; id_list (rq_provider_denylist r);
    ";ba="; id_list (rq_backend_allowlist r); ";bd="; id_list (rq_backend_denylist r);
    ";place="; bit (rq_local_only r); bit (rq_offline_only r); bit (rq_remote_allowed r);
    ";loc="; key_list (rq_required_localities r); ";denyloc="; key_list (rq_denied_localities r);
    ";trust="; TrustDomain.to_string (rq_minimum_trust r);
    ";cost="; bit (rq_require_known_cost r); bit (rq_enforce_cost_ceiling r);
    cu_currency (mo_unit (rq_maximum_cost r)); "/"; cu_basis (mo_unit (rq_maximum_cost r)); "/";
    to_string_int (mo_micros (rq_maximum_cost r));
    ";lat="; to_string_int (rq_max_latency_micros r);
    ";deadline="; to_string_int (rq_deadline_micros r);
    ";slo="; bit (rq_require_slo r);
    ";live="; bit (rq_require_available r); bit (rq_require_healthy r); bit (rq_require_ready r);
    bit (rq_require_resident r); bit (rq_require_capacity r); bit (rq_require_reservation r);
    bit (rq_require_known_latency r); bit (rq_require_known_compatibility r);
    ";proto="; rq_required_protocol r; "/"; to_string_int (rq_required_protocol_version r);
    ";aff="; to_string_int (value (rq_affinity_model r)); "/";
    to_string_int (value (rq_affinity_provider r)); "/";
    to_string_int (value (rq_affinity_backend r));
    ";stick="; bit (sk_prefer_same_model_family (rq_stickiness r));
    bit (sk_prefer_same_provider (rq_stickiness r)); bit (sk_prefer_same_backend (rq_stickiness r));
    bit (sk_prefer_context_locality (rq_stickiness r));
    to_string_int (value (sk_family (rq_stickiness r))); "/";
    to_string_int (value (sk_provider (rq_stickiness r))); "/";
    to_string_int (value (sk_backend (rq_stickiness r)));
    ";fb="; bit (rq_allow_fallbacks r); FallbackPolicy.to_string (rq_fallback_policy r);
    bit (rp_allow_retry (rq_retry_policy r)); bit (rp_allow_reroute (rq_retry_policy r));
    bit (rp_allow_model_switch (rq_retry_policy r));
    bit (rp_allow_provider_switch (rq_retry_policy r));
    to_string_int (rp_max_attempts (rq_retry_policy r));
    to_string_int (rp_max_fallbacks (rq_retry_policy r))].

Definition requirements_digest (r : RouteRequirements) : string := sha256_hex (requirements_text r).

Definition request_text (r : RouteRequest) : string :=
  String.concat "" [
    to_string_int (value (rr_request_id r)); "/"; to_string_int (value (rr_request_generation r)); "|";
    to_string_int (value (rr_tenant r)); "/"; to_string_int (value (rr_name_space r)); "|";
    to_string_int (value (rr_policy_id r)); "/"; to_string_int (value (rr_policy_generation r)); "|";
    to_string_int (value (rr_budget_id r)); "/"; to_string_int (value (rr_budget_generation r)); "|";
    to_string_int (value (rr_slo_id r)); "/"; to_string_int (value (rr_slo_generation r)); "|";
    to_string_int (ca_agent_runtime_id (rr_caller r)); "/";
    to_string_int (ca_agent_run_id (rr_caller r)); "/"; to_string_int (ca_action_id (rr_caller r)); "/";
    to_string_int (ca_action_generation (rr_caller r)); "/";
    to_string_int (ca_attempt_generation (rr_caller r)); "|";
    to_string_int (rr_estimated_input_tokens r); "/"; to_string_int (rr_estimated_output_tokens r); "|";
    requirements_digest (rr_requirements r)].

Definition request_digest (r : RouteRequest) : string := sha256_hex (request_text r).

(** ** Requests *)

Definition request_validate (limits : ResourceLimits) (r : RouteRequest) : string :=
  return_if negb (valid (rr_request_id r)) with "route request identity is not valid" ;;
  return_if negb (valid (rr_request_generation r)) with "route request generation is not valid" ;;
  return_if negb (valid (rr_policy_id r)) || negb (valid (rr_policy_generation r))
    with "route request has no valid policy identity and generation" ;;
  return_if negb (eqb (valid (rr_budget_id r)) (valid (rr_budget_generation r)))
    with "route request budget identity and generation disagree" ;;
  return_if negb (eqb (valid (rr_slo_id r)) (valid (rr_slo_generation r)))
    with "route request SLO identity and generation disagree" ;;
  return_if negb (valid (rr_tenant r)) with "route request has no valid tenant identity" ;;
  return_if rq_require_slo (rr_requirements r) &&
            (negb (valid (rr_slo_id r)) || negb (valid (rr_slo_generation r)))
    with "SLO is required but no valid SLO identity and generation are set" ;;
  return_if rr_expires_at r != kNoExpiry && (rr_expires_at r <? rr_created_at r)
    with "route request expires before it was created" ;;
  requirements_validate limits (rr_requirements r).

(** ** Failure classes *)

Definition classify_failure (code : OutcomeCode.t) : FailureClass.t :=
  match code with
  | OutcomeCode.REJECT_UNAVAILABLE
  | OutcomeCode.REJECT_UNHEALTHY
  | OutcomeCode.REJECT_NOT_READY => FailureClass.BACKEND_UNAVAILABLE
  | OutcomeCode.REJECT_STALE_BACKEND_BOOT => FailureClass.BACKEND_RESTARTED
  | OutcomeCode.REJECT_RETIRED
  | OutcomeCode.REJECT_STALE_MODEL
  | OutcomeCode.REJECT_STALE_ARTIFACT => FailureClass.MODEL_UNAVAILABLE
  | OutcomeCode.REJECT_STALE_ROUTER_EPOCH
  | OutcomeCode.REJECT_STALE_COORDINATOR_EPOCH
  | OutcomeCode.REJECT_STALE_REQUEST
  | OutcomeCode.REVALIDATION_REQUIRED
  | OutcomeCode.REJECT_STALE_BACKEND
  | OutcomeCode.REJECT_STALE_ENDPOINT => FailureClass.STALE_ROUTE
  | OutcomeCode.REJECT_POLICY
  | OutcomeCode.REJECT_STALE_POLICY
  | OutcomeCode.REJECT_TRUST
  | OutcomeCode.REJECT_STALE_TRUST => FailureClass.POLICY_CHANGED
  | OutcomeCode.REJECT_BUDGET
  | OutcomeCode.REJECT_STALE_BUDGET => FailureClass.BUDGET_CHANGED
  | OutcomeCode.REJECT_COST
  | OutcomeCode.REJECT_COST_UNKNOWN
  | OutcomeCode.REJECT_STALE_PRICE => FailureClass.PRICE_CHANGED
  | OutcomeCode.REJECT_SLO
  | OutcomeCode.REJECT_STALE_SLO => FailureClass.SLO_CHANGED
  | OutcomeCode.REJECT_CAPACITY
  | OutcomeCode.REJECT_STALE_CAPACITY => FailureClass.CAPACITY_CHANGED
  | OutcomeCode.REJECT_COMPATIBILITY
  | OutcomeCode.REJECT_STALE_COMPATIBILITY => FailureClass.COMPATIBILITY_CHANGED
  | OutcomeCode.CANCELLED => FailureClass.CALLER_CANCELLED
  | OutcomeCode.REJECT_CAPABILITY
  | OutcomeCode.REJECT_STALE_CAPABILITY
  | OutcomeCode.REJECT_CONTEXT_LIMIT
  | OutcomeCode.REJECT_MODALITY
  | OutcomeCode.REJECT_QUALITY
  | OutcomeCode.REJECT_INVALID
  | OutcomeCode.REJECT_CONFLICT
  | OutcomeCode.REJECT_LOCALITY
  | OutcomeCode.REJECT_RESIDENCY
  | OutcomeCode.REJECT_SPOOFED => FailureClass.PERMANENT_REJECTION
  | OutcomeCode.REJECT_STALE_HEALTH
  | OutcomeCode.REJECT_STALE_AVAILABILITY
  | OutcomeCode.REJECT_STALE_READINESS
  | OutcomeCode.REJECT_STALE_RESIDENCY => FailureClass.TRANSIENT_BACKEND_FAILURE
  | _ => FailureClass.UNKNOWN
  end.

Definition is_permanent (failure : FailureClass.t) : bool :=
  match failure with
  | FailureClass.PERMANENT_REJECTION
  | FailureClass.CALLER_CANCELLED
  | FailureClass.MODEL_UNAVAILABLE => true
  | _ => false
  end.

(** ** Facts *)

Lemma append_empty s t : s +:+ t = "" <-> s = "" /\ t = "".
Proof. destruct s; simpl; naive_solver. Qed.

Lemma or_else_empty e k : or_else e k = "" <-> e = "" /\ k = "".
Proof. unfold or_else. case_bool_decide; simpl; naive_solver. Qed.

Lemma error_first {A} (f : A -> string) prefix x k :
  (return_if f x != "" with prefix +:+ f x ;; k) = "" <-> f x = "" /\ k = "".
Proof.
  case_bool_decide as E; simpl; [naive_solver|]. rewrite append_empty. naive_solver.
Qed.

Lemma first_error_empty {A} (f : A -> string) prefix l :
  first_error prefix f l = "" <-> Forall (fun x => f x = "") l.
Proof.
  induction l as [|x l IH]; [by split; constructor|].
  cbn [first_error]. by rewrite error_first, IH, Forall_cons.
Qed.

Lemma required_capabilities_error_empty l :
  required_capabilities_error l = "" <->
  Forall (fun r => capability_key_validate (key_string (cr_key r)) = "" /\
                   is_satisfying (cr_minimum_state r) = true) l.
Proof.
  induction l as [|r l IH]; [by split; constructor|]. cbn [required_capabilities_error].
  rewrite (error_first (fun r => capability_key_validate (key_string (cr_key r))) _ r).
  rewrite Forall_cons, <- IH.
  assert (forall s c t, s +:+ (String c t) <> "") as Hs by by intros [].
  rewrite !return_if_eq by (rewrite append_empty; naive_solver).
  rewrite negb_false_iff, bool_decide_eq_false.
  split; [naive_solver|]. intros [[-> Hr] ->]. repeat split; try done. by intros E; rewrite E in Hr.
Qed.

Lemma check_id_list_empty {t} (l : list (EntityId t)) name :
  check_id_list l name = "" <-> Forall (fun v => valid v = true) l.
Proof.
  unfold check_id_list. rewrite return_if_eq by (rewrite append_empty; naive_solver).
  rewrite <- not_true_iff_false, existsb_exists, Forall_forall.
  split; [intros [H _] x Hx | intros H; split; [|done]; intros (x & Hx & E)].
  - apply not_false_iff_true. intros E. apply H. exists x. rewrite E. by rewrite <- list_elem_of_In.
  - apply list_elem_of_In in Hx. by rewrite (H x Hx) in E.
Qed.

(** What a coherent requirement set satisfies under the given limits. *)
Record requirements_coherent (limits : ResourceLimits) (r : RouteRequirements) : Prop := {
  coherent_sizes :
    Forall (fun n => n <= max_requirement_entries limits)
      [size (rq_required_capabilities r); size (rq_preferred_capabilities r)] /\
    Forall (fun n => n <= max_allowlist_entries limits)
      [size (rq_model_allowlist r); size (rq_model_denylist r);
       size (rq_provider_allowlist r); size (rq_provider_denylist r);
       size (rq_backend_allowlist r); size (rq_backend_denylist r);
       size (rq_required_localities r); size (rq_denied_localities r)];
  coherent_capabilities :
    Forall (fun c => capability_key_validate (key_string (cr_key c)) = "" /\
                     is_satisfying (cr_minimum_state c) = true) (rq_required_capabilities r);
  coherent_preferred :
    Forall (fun k => capability_key_validate (key_string k) = "") (rq_preferred_capabilities r);
  coherent_evidence : is_satisfying (rq_minimum_capability_evidence r) = true;
  coherent_shape : 0 < rq_max_output_tokens r -> 0 < rq_min_context_tokens r ->
    rq_max_output_tokens r <= rq_min_context_tokens r;
  coherent_something : modality_empty (rq_input_modalities r) = false \/
    modality_empty (rq_output_modalities r) = false \/ rq_required_capabilities r <> [];
  coherent_placement : rq_remote_allowed r = true \/ rq_local_only r = true \/
    rq_offline_only r = true;
  coherent_locality : rq_local_only r = true -> rq_denied_localities r = [];
  coherent_cost : rq_enforce_cost_ceiling r = true ->
    0 < mo_micros (rq_maximum_cost r) /\ unit_valid (mo_unit (rq_maximum_cost r)) = true;
  coherent_trust : rq_minimum_trust r = TrustDomain.UNKNOWN \/
    trust_rank (rq_minimum_trust r) <> 0;
  coherent_fallbacks : rp_max_fallbacks (rq_retry_policy r) <= max_fallback_candidates limits /\
    (rq_allow_fallbacks r = false -> rp_max_fallbacks (rq_retry_policy r) = 0);
  coherent_ids : Forall (fun v => valid v = true) (rq_model_allowlist r ++ rq_model_denylist r) /\
    Forall (fun v => valid v = true) (rq_provider_allowlist r ++ rq_provider_denylist r) /\
    Forall (fun v => valid v = true) (rq_backend_allowlist r ++ rq_backend_denylist r);
  coherent_localities : Forall (fun k => locality_key_validate (locality_string k) = "")
    (rq_required_localities r ++ rq_denied_localities r)
}.

Lemma andb_false_impl (b c : bool) : b && c = false <-> (b = true -> c = false).
Proof. destruct b, c; naive_solver. Qed.

Lemma match_nil_true {A} (l : list A) :
  match l with [] => true | _ => false end = false <-> l <> [].
Proof. by destruct l. Qed.
Lemma match_nil_false {A} (l : list A) :
  match l with [] => false | _ => true end = false <-> l = [].
Proof. by destruct l. Qed.

(** No outcome that permits fallback is of a permanent class, and the
    revalidation outcomes of a permanent class are exactly the stale model,
    artifact and capability ones. *)
Lemma classify_failure_fallback (c : OutcomeCode.t) :
  OutcomeCode.permits_fallback c = true -> is_permanent (classify_failure c) = false.
Proof. by destruct c. Qed.

Lemma classify_failure_revalidation (c : OutcomeCode.t) :
  OutcomeCode.requires_revalidation c = true ->
  is_permanent (classify_failure c) = true <->
  c ∈ [OutcomeCode.REJECT_STALE_MODEL; OutcomeCode.REJECT_STALE_ARTIFACT;
       OutcomeCode.REJECT_STALE_CAPABILITY].
Proof. destruct c; intros; try discriminate; vm_compute is_permanent; set_solver. Qed.

(** ** Properties *)

(** [RouteRequirements::validate] accepts exactly the coherent requirement
    sets: bounded lists of valid identities and keys, satisfying evidence
    minima, a non-empty and satisfiable shape and placement, a positive priced
    ceiling when one is enforced, and a fallback count the limits and the
    fallback switch allow. *)
Theorem requirements_validate_spec (limits : ResourceLimits) (r : RouteRequirements) :
  requirements_validate limits r = "" <-> requirements_coherent limits r.
Proof.
  unfold requirements_validate.
  repeat first [rewrite return_if_eq by discriminate | rewrite or_else_empty].
  rewrite !check_id_list_empty, !first_error_empty, required_capabilities_error_empty.
  rewrite !orb_false_iff, !Z.ltb_ge, !negb_false_iff.
  rewrite !andb_false_impl, !andb_true_iff, match_nil_true, match_nil_false.
  split.
  - intros. destruct_and!. split; rewrite ?Forall_app; try done; rewrite ?Forall_cons.
    + repeat split; try done; constructor.
    + intros ??. apply Z.ltb_ge. rewrite <- !Z.ltb_lt in *. auto.
    + destruct (modality_empty (rq_input_modalities r)), (modality_empty (rq_output_modalities r));
        naive_solver.
    + match goal with H : negb (rq_remote_allowed r) = true /\ _ -> _ |- _ => revert H end; clear.
      destruct (rq_remote_allowed r), (rq_local_only r), (rq_offline_only r); naive_solver.
    + intros Hc. rewrite <- Z.leb_gt, <- negb_false_iff. auto.
    + destruct (decide (rq_minimum_trust r = TrustDomain.UNKNOWN)) as [|E]; [by left|].
      right. apply Z.eqb_neq. rewrite bool_decide_eq_false_2 in * by done. auto.
    + split; [done|]. intros Hf. rewrite Hf in *. apply Z.eqb_eq, negb_false_iff. auto.
  - intros [[Hs1 Hs2] Hcap Hpref Hev Hshape Hsome Hplace Hloc Hcost Htrust [Hf1 Hf2] Hids Hlocs].
    rewrite !Forall_app in *. repeat (apply Forall_cons in Hs1 as [? Hs1] || apply Forall_cons in Hs2 as [? Hs2]).
    destruct_and!. repeat split; try done.
    + by apply bool_decide_eq_false_2; intros E; rewrite E in Hev.
    + rewrite !Z.ltb_lt, Z.ltb_ge. intros []. auto.
    + intros [E1 E2]. rewrite E1, E2 in Hsome. naive_solver.
    + destruct (rq_remote_allowed r), (rq_local_only r), (rq_offline_only r); naive_solver.
    + intros Hc. apply Z.leb_gt. by apply Hcost.
    + intros Hc. apply negb_false_iff. by apply Hcost.
    + rewrite negb_true_iff, bool_decide_eq_false, Z.eqb_neq. tauto.
    + rewrite negb_true_iff, negb_false_iff, Z.eqb_eq. done.
Qed.

(** Every set of limits leaves room for this requirement set. *)
Definition chat_requirements : RouteRequirements :=
  route_requirements_default <| rq_input_modalities := ModalitySetOf Modality_TEXT |>.

(** The canonical form forgets the order in which the identity and locality
    lists were written and keeps their members: two requirement sets whose
    lists have the same members, and whose capability requirements are the
    same up to order and name no key twice, have the same canonical form
    (hence the same digest), and canonicalizing is idempotent. *)
Theorem requirements_canonicalize_set (r : RouteRequirements)
    (caps : list CapabilityRequirement) (models : list (EntityId ModelTag))
    (localities : list LocalityKey)
    (Hcaps : caps ≡ₚ rq_required_capabilities r) (Hkeys : NoDup (cr_key <$> caps))
    (Hmodels : forall m, m ∈ models <-> m ∈ rq_model_allowlist r)
    (Hlocalities : forall k, k ∈ localities <-> k ∈ rq_required_localities r) :
  requirements_canonicalize (r <| rq_required_capabilities := caps |>
                               <| rq_model_allowlist := models |>
                               <| rq_required_localities := localities |>) =
    requirements_canonicalize r /\
  requirements_canonicalize (requirements_canonicalize r) = requirements_canonicalize r.
Proof.
  split.
  - unfold requirements_canonicalize, sort_ids. simpl.
    rewrite (sort_unique_by_perm key_ltb cr_key caps (rq_required_capabilities r)) by done.
    rewrite (sort_unique_ext id_ltb models (rq_model_allowlist r)) by done.
    by rewrite (sort_unique_ext locality_ltb localities (rq_required_localities r)) by done.
  - unfold requirements_canonicalize, sort_ids. simpl.
    rewrite !(sort_unique_idem id_ltb), !(sort_unique_idem key_ltb), !(sort_unique_idem locality_ltb).
    by rewrite (sort_unique_by_id key_ltb) by first [exact (sort_unique_by_sorted key_ltb cr_key _) | apply _].
Qed.

Lemma requirements_canonicalize_set_witness :
  let caps := [{| cr_key := CapabilityKeyOf "task/chat"; cr_minimum_state := CapabilityState.VERIFIED |};
               {| cr_key := CapabilityKeyOf "task/code"; cr_minimum_state := CapabilityState.DECLARED |}] in
  let r := chat_requirements <| rq_required_capabilities := caps |>
             <| rq_model_allowlist := [EntityIdOf 2; EntityIdOf 1; EntityIdOf 2] |> in
  requirements_canonicalize (r <| rq_required_capabilities := reverse caps |>
                               <| rq_model_allowlist := [EntityIdOf 1; EntityIdOf 2] |>
                               <| rq_required_localities := [] |>) =
    requirements_canonicalize r /\
  requirements_canonicalize (requirements_canonicalize r) = requirements_canonicalize r.
Proof.
  intros caps r. apply (requirements_canonicalize_set r (reverse caps) [EntityIdOf 1; EntityIdOf 2] []).
  - apply reverse_Permutation.
  - by apply (bool_decide_unpack _); vm_compute.
  - intros m. vm_compute rq_model_allowlist. set_solver.
  - done.
Defined.

(** With a capability named twice the canonical form depends on the order:
    the first occurrence decides the evidence state that is demanded. *)
Theorem requirements_canonicalize_order_dependent :
  let weak := {| cr_key := CapabilityKeyOf "task/chat"; cr_minimum_state := CapabilityState.DECLARED |} in
  let strong := {| cr_key := CapabilityKeyOf "task/chat"; cr_minimum_state := CapabilityState.VERIFIED |} in
  let canonical l := rq_required_capabilities
    (requirements_canonicalize (chat_requirements <| rq_required_capabilities := l |>)) in
  canonical [weak; strong] = [weak] /\ canonical [strong; weak] = [strong].
Proof. split; reflexivity. Qed.

(** The requirement digest is not injective: the attempt and fallback counts
    are written without a separator, so two coherent requirement sets that
    allow different numbers of fallbacks have the same digest. *)
Theorem requirements_digest_ambiguous :
  let with_counts attempts fallbacks := chat_requirements
    <| rq_retry_policy := retry_reroute_policy_default
         <| rp_max_attempts := attempts |> <| rp_max_fallbacks := fallbacks |> |> in
  requirements_validate default_resource_limits (with_counts 11 2) = "" /\
  requirements_validate default_resource_limits (with_counts 1 12) = "" /\
  requirements_digest (with_counts 11 2) = requirements_digest (with_counts 1 12) /\
  with_counts 11 2 <> with_counts 1 12.
Proof. split_and!; [reflexivity | reflexivity | reflexivity | discriminate]. Qed.

