(* ===== verification/Candidate.v ===== *)
(** * Candidates and their order ([candidate.hpp], [candidate.cpp])

    Candidate keys, ranking factors, weights and scales, discovered and ranked
    candidates, and [candidate_ranks_before], the one definition of "better". *)
From S2P Require Import Prelude Ids Sha256 Outcome Clock Capability Evidence Catalog.

(** ** Candidate keys *)

Record CandidateKey := {
  ck_model_id : EntityId ModelTag;
  ck_model_generation : Generation ModelTag;
  ck_artifact_generation : Generation ArtifactTag;
  ck_backend_id : EntityId BackendTag;
  ck_backend_generation : Generation BackendTag;
  ck_backend_boot : Generation BackendBootTag;
  ck_endpoint_id : EntityId EndpointTag;
  ck_endpoint_generation : Generation EndpointTag
}.
#[export] Instance candidate_key_eta : Eta CandidateKey := fun r =>
  {| ck_model_id := ck_model_id r;
     ck_model_generation := ck_model_generation r;
     ck_artifact_generation := ck_artifact_generation r;
     ck_backend_id := ck_backend_id r;
     ck_backend_generation := ck_backend_generation r;
     ck_backend_boot := ck_backend_boot r;
     ck_endpoint_id := ck_endpoint_id r;
     ck_endpoint_generation := ck_endpoint_generation r |}.
#[export] Instance candidate_key_eq_dec : EqDecision CandidateKey.
Proof. solve_decision. Defined.
Definition candidate_key_default : CandidateKey := {|
  ck_model_id := none;
  ck_model_generation := none;
  ck_artifact_generation := none;
  ck_backend_id := none;
  ck_backend_generation := none;
  ck_backend_boot := none;
  ck_endpoint_id := none;
  ck_endpoint_generation := none
|}.

Definition key_complete (k : CandidateKey) : bool :=
  valid (ck_model_id k) && valid (ck_model_generation k) && valid (ck_artifact_generation k) && valid (ck_backend_id k) &&
  valid (ck_backend_generation k) && valid (ck_backend_boot k) && valid (ck_endpoint_id k) && valid (ck_endpoint_generation k).

(** The defaulted [operator<=>] compares member by member. *)
Definition key_fields (k : CandidateKey) : list Z :=
  [value (ck_model_id k); value (ck_model_generation k); value (ck_artifact_generation k);
   value (ck_backend_id k); value (ck_backend_generation k); value (ck_backend_boot k);
   value (ck_endpoint_id k); value (ck_endpoint_generation k)].

Definition candidate_key_ltb (l r : CandidateKey) : bool := lex_ltb (key_fields l) (key_fields r).

Definition key_to_string (k : CandidateKey) : string :=
  String.concat "" [
    "model="; to_string_int (value (ck_model_id k)); "@"; to_string_int (value (ck_model_generation k));
    ".artifact="; to_string_int (value (ck_artifact_generation k));
    " backend="; to_string_int (value (ck_backend_id k)); "@";
    to_string_int (value (ck_backend_generation k));
    ".boot="; to_string_int (value (ck_backend_boot k));
    " endpoint="; to_string_int (value (ck_endpoint_id k)); "@";
    to_string_int (value (ck_endpoint_generation k))].

Definition key_digest (k : CandidateKey) : string := sha256_hex (key_to_string k).

(** ** Ranking factors, weights and scales *)

Module RankingFactor.
Inductive t :=
| CAPABILITY_FIT | PREFERRED_CAPABILITY_COVERAGE | QUALITY_CLASS | COST_TOTAL | LATENCY | TAIL_LATENCY | QUEUE_DELAY | WARMTH | RESIDENCY | LOCALITY | NETWORK_DISTANCE | PROVIDER_AVAILABILITY | BACKEND_HEALTH | BACKEND_READINESS | CAPACITY_HEADROOM | RESERVATION_CONFIDENCE | SLO_HEADROOM | CONTEXT_HEADROOM | TRUST_PREFERENCE | POLICY_PREFERENCE | MODEL_AFFINITY | CACHE_AFFINITY | HISTORICAL_RELIABILITY | FAILURE_DOMAIN_DIVERSITY | DATA_MOVEMENT_COST | BACKEND_STARTUP_COST | ROUTE_SWITCH_PENALTY | CONTINUITY_STICKINESS | CALLER_PREFERENCE | kCount.

#[export] Instance eq_dec : EqDecision t.
Proof. solve_decision. Defined.

(** [static_cast] to the underlying integer. *)
Definition index (f : t) : Z :=
  match f with
  | CAPABILITY_FIT => 0
  | PREFERRED_CAPABILITY_COVERAGE => 1
  | QUALITY_CLASS => 2
  | COST_TOTAL => 3
  | LATENCY => 4
  | TAIL_LATENCY => 5
  | QUEUE_DELAY => 6
  | WARMTH => 7
  | RESIDENCY => 8
  | LOCALITY => 9
  | NETWORK_DISTANCE => 10
  | PROVIDER_AVAILABILITY => 11
  | BACKEND_HEALTH => 12
  | BACKEND_READINESS => 13
  | CAPACITY_HEADROOM => 14
  | RESERVATION_CONFIDENCE => 15
  | SLO_HEADROOM => 16
  | CONTEXT_HEADROOM => 17
  | TRUST_PREFERENCE => 18
  | POLICY_PREFERENCE => 19
  | MODEL_AFFINITY => 20
  | CACHE_AFFINITY => 21
  | HISTORICAL_RELIABILITY => 22
  | FAILURE_DOMAIN_DIVERSITY => 23
  | DATA_MOVEMENT_COST => 24
  | BACKEND_STARTUP_COST => 25
  | ROUTE_SWITCH_PENALTY => 26
  | CONTINUITY_STICKINESS => 27
  | CALLER_PREFERENCE => 28
  | kCount => 29
  end.

Definition to_string (f : t) : string :=
  match f with
  | CAPABILITY_FIT => "capability_fit"
  | PREFERRED_CAPABILITY_COVERAGE => "preferred_capability_coverage"
  | QUALITY_CLASS => "quality_class"
  | COST_TOTAL => "cost_total"
  | LATENCY => "latency"
  | TAIL_LATENCY => "tail_latency"
  | QUEUE_DELAY => "queue_delay"
  | WARMTH => "warmth"
  | RESIDENCY => "residency"
  | LOCALITY => "locality"
  | NETWORK_DISTANCE => "network_distance"
  | PROVIDER_AVAILABILITY => "provider_availability"
  | BACKEND_HEALTH => "backend_health"
  | BACKEND_READINESS => "backend_readiness"
  | CAPACITY_HEADROOM => "capacity_headroom"
  | RESERVATION_CONFIDENCE => "reservation_confidence"
  | SLO_HEADROOM => "slo_headroom"
  | CONTEXT_HEADROOM => "context_headroom"
  | TRUST_PREFERENCE => "trust_preference"
  | POLICY_PREFERENCE => "policy_preference"
  | MODEL_AFFINITY => "model_affinity"
  | CACHE_AFFINITY => "cache_affinity"
  | HISTORICAL_RELIABILITY => "historical_reliability"
  | FAILURE_DOMAIN_DIVERSITY => "failure_domain_diversity"
  | DATA_MOVEMENT_COST => "data_movement_cost"
  | BACKEND_STARTUP_COST => "backend_startup_cost"
  | ROUTE_SWITCH_PENALTY => "route_switch_penalty"
  | CONTINUITY_STICKINESS => "continuity_stickiness"
  | CALLER_PREFERENCE => "caller_preference"
  | kCount => "unknown"
  end.

(** [canonical_factor_order]. *)
Definition canonical_order : list t := [
  CAPABILITY_FIT; PREFERRED_CAPABILITY_COVERAGE; QUALITY_CLASS;
  COST_TOTAL; LATENCY; TAIL_LATENCY;
  QUEUE_DELAY; WARMTH; RESIDENCY;
  LOCALITY; NETWORK_DISTANCE; PROVIDER_AVAILABILITY;
  BACKEND_HEALTH; BACKEND_READINESS; CAPACITY_HEADROOM;
  RESERVATION_CONFIDENCE; SLO_HEADROOM; CONTEXT_HEADROOM;
  TRUST_PREFERENCE; POLICY_PREFERENCE; MODEL_AFFINITY;
  CACHE_AFFINITY; HISTORICAL_RELIABILITY; FAILURE_DOMAIN_DIVERSITY;
  DATA_MOVEMENT_COST; BACKEND_STARTUP_COST; ROUTE_SWITCH_PENALTY;
  CONTINUITY_STICKINESS; CALLER_PREFERENCE].
End RankingFactor.
Export (hints) RankingFactor.

Definition kFactorScale : Z := 1000000.

Record FactorValue := {
  fv_factor : RankingFactor.t;
  fv_known : bool;
  fv_normalized : Z;
  fv_raw : Z;
  fv_weight_ppm : Z;
  fv_contribution : Z;
  fv_evidence_generation : Z;
  fv_source : string
}.
#[export] Instance factor_value_eta : Eta FactorValue := fun r =>
  {| fv_factor := fv_factor r;
     fv_known := fv_known r;
     fv_normalized := fv_normalized r;
     fv_raw := fv_raw r;
     fv_weight_ppm := fv_weight_ppm r;
     fv_contribution := fv_contribution r;
     fv_evidence_generation := fv_evidence_generation r;
     fv_source := fv_source r |}.
#[export] Instance factor_value_eq_dec : EqDecision FactorValue.
Proof. solve_decision. Defined.
Definition factor_value_default : FactorValue := {|
  fv_factor := RankingFactor.CAPABILITY_FIT;
  fv_known := false;
  fv_normalized := 0;
  fv_raw := 0;
  fv_weight_ppm := 0;
  fv_contribution := 0;
  fv_evidence_generation := 0;
  fv_source := ""
|}.

Record RankingWeights := {
  capability_fit_ppm : Z;
  preferred_capability_coverage_ppm : Z;
  quality_class_ppm : Z;
  cost_total_ppm : Z;
  latency_ppm : Z;
  tail_latency_ppm : Z;
  queue_delay_ppm : Z;
  warmth_ppm : Z;
  residency_ppm : Z;
  locality_ppm : Z;
  network_distance_ppm : Z;
  provider_availability_ppm : Z;
  backend_health_ppm : Z;
  backend_readiness_ppm : Z;
  capacity_headroom_ppm : Z;
  reservation_confidence_ppm : Z;
  slo_headroom_ppm : Z;
  context_headroom_ppm : Z;
  trust_preference_ppm : Z;
  policy_preference_ppm : Z;
  model_affinity_ppm : Z;
  cache_affinity_ppm : Z;
  historical_reliability_ppm : Z;
  failure_domain_diversity_ppm : Z;
  data_movement_cost_ppm : Z;
  backend_startup_cost_ppm : Z;
  route_switch_penalty_ppm : Z;
  continuity_stickiness_ppm : Z;
  caller_preference_ppm : Z
}.
#[export] Instance ranking_weights_eta : Eta RankingWeights := fun r =>
  {| capability_fit_ppm := capability_fit_ppm r;
     preferred_capability_coverage_ppm := preferred_capability_coverage_ppm r;
     quality_class_ppm := quality_class_ppm r;
     cost_total_ppm := cost_total_ppm r;
     latency_ppm := latency_ppm r;
     tail_latency_ppm := tail_latency_ppm r;
     queue_delay_ppm := queue_delay_ppm r;
     warmth_ppm := warmth_ppm r;
     residency_ppm := residency_ppm r;
     locality_ppm := locality_ppm r;
     network_distance_ppm := network_distance_ppm r;
     provider_availability_ppm := provider_availability_ppm r;
     backend_health_ppm := backend_health_ppm r;
     backend_readiness_ppm := backend_readiness_ppm r;
     capacity_headroom_ppm := capacity_headroom_ppm r;
     reservation_confidence_ppm := reservation_confidence_ppm r;
     slo_headroom_ppm := slo_headroom_ppm r;
     context_headroom_ppm := context_headroom_ppm r;
     trust_preference_ppm := trust_preference_ppm r;
     policy_preference_ppm := policy_preference_ppm r;
     model_affinity_ppm := model_affinity_ppm r;
     cache_affinity_ppm := cache_affinity_ppm r;
     historical_reliability_ppm := historical_reliability_ppm r;
     failure_domain_diversity_ppm := failure_domain_diversity_ppm r;
     data_movement_cost_ppm := data_movement_cost_ppm r;
     backend_startup_cost_ppm := backend_startup_cost_ppm r;
     route_switch_penalty_ppm := route_switch_penalty_ppm r;
     continuity_stickiness_ppm := continuity_stickiness_ppm r;
     caller_preference_ppm := caller_preference_ppm r |}.
Definition ranking_weights_default : RankingWeights := {|
  capability_fit_ppm := 300000;
  preferred_capability_coverage_ppm := 40000;
  quality_class_ppm := 120000;
  cost_total_ppm := 150000;
  latency_ppm := 80000;
  tail_latency_ppm := 40000;
  queue_delay_ppm := 30000;
  warmth_ppm := 60000;
  residency_ppm := 40000;
  locality_ppm := 40000;
  network_distance_ppm := 20000;
  provider_availability_ppm := 60000;
  backend_health_ppm := 100000;
  backend_readiness_ppm := 80000;
  capacity_headroom_ppm := 50000;
  reservation_confidence_ppm := 30000;
  slo_headroom_ppm := 70000;
  context_headroom_ppm := 20000;
  trust_preference_ppm := 60000;
  policy_preference_ppm := 60000;
  model_affinity_ppm := 50000;
  cache_affinity_ppm := 30000;
  historical_reliability_ppm := 40000;
  failure_domain_diversity_ppm := 20000;
  data_movement_cost_ppm := 20000;
  backend_startup_cost_ppm := 20000;
  route_switch_penalty_ppm := 30000;
  continuity_stickiness_ppm := 50000;
  caller_preference_ppm := 100000
|}.

Definition weight (w : RankingWeights) (f : RankingFactor.t) : Z :=
  match f with
  | RankingFactor.CAPABILITY_FIT => capability_fit_ppm w
  | RankingFactor.PREFERRED_CAPABILITY_COVERAGE => preferred_capability_coverage_ppm w
  | RankingFactor.QUALITY_CLASS => quality_class_ppm w
  | RankingFactor.COST_TOTAL => cost_total_ppm w
  | RankingFactor.LATENCY => latency_ppm w
  | RankingFactor.TAIL_LATENCY => tail_latency_ppm w
  | RankingFactor.QUEUE_DELAY => queue_delay_ppm w
  | RankingFactor.WARMTH => warmth_ppm w
  | RankingFactor.RESIDENCY => residency_ppm w
  | RankingFactor.LOCALITY => locality_ppm w
  | RankingFactor.NETWORK_DISTANCE => network_distance_ppm w
  | RankingFactor.PROVIDER_AVAILABILITY => provider_availability_ppm w
  | RankingFactor.BACKEND_HEALTH => backend_health_ppm w
  | RankingFactor.BACKEND_READINESS => backend_readiness_ppm w
  | RankingFactor.CAPACITY_HEADROOM => capacity_headroom_ppm w
  | RankingFactor.RESERVATION_CONFIDENCE => reservation_confidence_ppm w
  | RankingFactor.SLO_HEADROOM => slo_headroom_ppm w
  | RankingFactor.CONTEXT_HEADROOM => context_headroom_ppm w
  | RankingFactor.TRUST_PREFERENCE => trust_preference_ppm w
  | RankingFactor.POLICY_PREFERENCE => policy_preference_ppm w
  | RankingFactor.MODEL_AFFINITY => model_affinity_ppm w
  | RankingFactor.CACHE_AFFINITY => cache_affinity_ppm w
  | RankingFactor.HISTORICAL_RELIABILITY => historical_reliability_ppm w
  | RankingFactor.FAILURE_DOMAIN_DIVERSITY => failure_domain_diversity_ppm w
  | RankingFactor.DATA_MOVEMENT_COST => data_movement_cost_ppm w
  | RankingFactor.BACKEND_STARTUP_COST => backend_startup_cost_ppm w
  | RankingFactor.ROUTE_SWITCH_PENALTY => route_switch_penalty_ppm w
  | RankingFactor.CONTINUITY_STICKINESS => continuity_stickiness_ppm w
  | RankingFactor.CALLER_PREFERENCE => caller_preference_ppm w
  | RankingFactor.kCount => 0
  end.

(** The loop over the factors. *)
Fixpoint weights_scan (w : RankingWeights) (factors : list RankingFactor.t) : string :=
  match factors with
  | [] => ""
  | factor :: factors =>
      let v := weight w factor in
      return_if v <? 0
        with "ranking weight " +:+ RankingFactor.to_string factor +:+ " is negative" ;;
      return_if 10000000 <? v
        with "ranking weight " +:+ RankingFactor.to_string factor +:+
             " exceeds 10000000 parts per 10000" ;;
      weights_scan w factors
  end.
Definition weights_validate (w : RankingWeights) : string :=
  weights_scan w RankingFactor.canonical_order.

Record RankingScales := {
  cost_reference_micros : Z;
  latency_reference_micros : Z;
  tail_latency_reference_micros : Z;
  queue_reference_micros : Z;
  context_reference_tokens : Z;
  network_distance_reference : Z;
  startup_cost_reference_micros : Z;
  quality_reference : Z
}.
#[export] Instance ranking_scales_eta : Eta RankingScales := fun r =>
  {| cost_reference_micros := cost_reference_micros r;
     latency_reference_micros := latency_reference_micros r;
     tail_latency_reference_micros := tail_latency_reference_micros r;
     queue_reference_micros := queue_reference_micros r;
     context_reference_tokens := context_reference_tokens r;
     network_distance_reference := network_distance_reference r;
     startup_cost_reference_micros := startup_cost_reference_micros r;
     quality_reference := quality_reference r |}.
Definition ranking_scales_default : RankingScales := {|
  cost_reference_micros := 1000000;
  latency_reference_micros := 5000000;
  tail_latency_reference_micros := 20000000;
  queue_reference_micros := 1000000;
  context_reference_tokens := 1000000;
  network_distance_reference := 100000;
  startup_cost_reference_micros := 10000000;
  quality_reference := 1000
|}.

Definition scales_validate (s : RankingScales) : string :=
  return_if (cost_reference_micros s <=? 0) ||
            (latency_reference_micros s <=? 0) ||
            (tail_latency_reference_micros s <=? 0) ||
            (queue_reference_micros s <=? 0) ||
            (context_reference_tokens s <=? 0) ||
            (network_distance_reference s <=? 0) ||
            (startup_cost_reference_micros s <=? 0) ||
            (quality_reference s <=? 0)
    with "every ranking reference scale must be positive" ;;
  "".

(** ** Candidates *)

Record RouteCandidate := {
  rc_key : CandidateKey;
  rc_model : ModelDescriptor;
  rc_backend : BackendDescriptor;
  rc_endpoint : EndpointDescriptor;
  rc_context_limit_tokens : Z;
  rc_quality_class : Z;
  rc_required_satisfied : Z;
  rc_required_total : Z;
  rc_preferred_satisfied : Z;
  rc_preferred_total : Z;
  rc_discovery_source : string
}.
#[export] Instance route_candidate_eta : Eta RouteCandidate := fun r =>
  {| rc_key := rc_key r;
     rc_model := rc_model r;
     rc_backend := rc_backend r;
     rc_endpoint := rc_endpoint r;
     rc_context_limit_tokens := rc_context_limit_tokens r;
     rc_quality_class := rc_quality_class r;
     rc_required_satisfied := rc_required_satisfied r;
     rc_required_total := rc_required_total r;
     rc_preferred_satisfied := rc_preferred_satisfied r;
     rc_preferred_total := rc_preferred_total r;
     rc_discovery_source := rc_discovery_source r |}.
Definition route_candidate_default : RouteCandidate := {|
  rc_key := candidate_key_default;
  rc_model := model_descriptor_default;
  rc_backend := backend_descriptor_default;
  rc_endpoint := endpoint_descriptor_default;
  rc_context_limit_tokens := 0;
  rc_quality_class := kUnclassifiedQuality;
  rc_required_satisfied := 0;
  rc_required_total := 0;
  rc_preferred_satisfied := 0;
  rc_preferred_total := 0;
  rc_discovery_source := ""
|}.

Record RankedCandidate := {
  rk_key : CandidateKey;
  rk_score : Z;
  rk_factors : list FactorValue;
  rk_rank : Z
}.
#[export] Instance ranked_candidate_eta : Eta RankedCandidate := fun r =>
  {| rk_key := rk_key r;
     rk_score := rk_score r;
     rk_factors := rk_factors r;
     rk_rank := rk_rank r |}.
#[export] Instance ranked_candidate_eq_dec : EqDecision RankedCandidate.
Proof. solve_decision. Defined.
Definition ranked_candidate_default : RankedCandidate := {|
  rk_key := candidate_key_default;
  rk_score := 0;
  rk_factors := [];
  rk_rank := 0
|}.

Definition candidate_complete (c : RouteCandidate) : bool := key_complete (rc_key c).

Definition fully_known (r : RankedCandidate) : bool := forallb fv_known (rk_factors r).

Definition factor_ltb (x y : RankingFactor.t) : bool := RankingFactor.index x <? RankingFactor.index y.
Definition factor_less (l r : FactorValue) : bool := factor_ltb (fv_factor l) (fv_factor r).

Definition ranked_find (r : RankedCandidate) (f : RankingFactor.t) : option FactorValue :=
  find_sorted factor_ltb fv_factor (rk_factors r) f.

(** The loop over the common prefix: [Some b] when two factors decide. *)
Fixpoint factors_rank_before (ls rs : list FactorValue) : option bool :=
  match ls, rs with
  | lf :: ls, rf :: rs =>
      return_if fv_factor lf != fv_factor rf
        with Some (factor_ltb (fv_factor lf) (fv_factor rf)) ;;
      return_if negb (fv_contribution lf =? fv_contribution rf)
        with Some (fv_contribution rf <? fv_contribution lf) ;;
      return_if negb (fv_normalized lf =? fv_normalized rf)
        with Some (fv_normalized rf <? fv_normalized lf) ;;
      return_if negb (eqb (fv_known lf) (fv_known rf)) with Some (fv_known lf) ;;
      factors_rank_before ls rs
  | _, _ => None
  end.

Definition candidate_ranks_before (lhs rhs : RankedCandidate) : bool :=
  return_if negb (rk_score lhs =? rk_score rhs) with rk_score rhs <? rk_score lhs ;;
  match factors_rank_before (rk_factors lhs) (rk_factors rhs) with
  | Some decided => decided
  | None =>
      return_if negb (length (rk_factors lhs) =? length (rk_factors rhs))%nat
        with (length (rk_factors rhs) <? length (rk_factors lhs))%nat ;;
      candidate_key_ltb (rk_key lhs) (rk_key rhs)
  end.

(** ** Facts *)

#[export] Instance key_fields_inj : Inj (=) (=) key_fields.
Proof.
  intros [[] [] [] [] [] [] [] []] [[] [] [] [] [] [] [] []].
  unfold key_fields. simpl. intros E. by simplify_eq.
Qed.

#[export] Instance candidate_key_ltb_total : TotalB candidate_key_ltb.
Proof. apply (total_on lex_ltb key_fields). Qed.

#[export] Instance factor_index_inj : Inj (=) (=) RankingFactor.index.
Proof. by intros [] []. Qed.
#[export] Instance factor_ltb_total : TotalB factor_ltb.
Proof. apply (total_on Z.ltb RankingFactor.index). Qed.

(** The ranking order is the lexicographic order of a list of integers: the
    decreasing fields are negated and the end of the factor list is a mark
    above every factor, so that the longer list ranks first. *)
Definition factor_fields (f : FactorValue) : list Z :=
  [RankingFactor.index (fv_factor f); - fv_contribution f; - fv_normalized f;
   if fv_known f then 0 else 1].
Definition rank_fields (r : RankedCandidate) : list Z :=
  - rk_score r :: (rk_factors r ≫= factor_fields) ++ 100 :: key_fields (rk_key r).

Lemma factor_index_bound f : 0 <= RankingFactor.index f < 100.
Proof. destruct f; simpl; lia. Qed.

Lemma lex_step_opp (x y : Z) k :
  (if negb (x =? y) then y <? x else k) = (if - x <? - y then true else if - y <? - x then false else k).
Proof.
  destruct (Z.eqb_spec x y) as [->|]; simpl; [by rewrite Z.ltb_irrefl|].
  destruct (Z.ltb_spec (- x) (- y)), (Z.ltb_spec (- y) (- x)), (Z.ltb_spec y x); try done; lia.
Qed.

Lemma factors_rank_before_lex ls rs k1 k2 :
  match factors_rank_before ls rs with
  | Some decided => decided
  | None => return_if negb (length ls =? length rs)%nat with (length rs <? length ls)%nat ;;
            lex_ltb k1 k2
  end = lex_ltb ((ls ≫= factor_fields) ++ 100 :: k1) ((rs ≫= factor_fields) ++ 100 :: k2).
Proof.
  revert rs. induction ls as [|l ls IH]; intros [|r rs]; simpl; try done.
  - pose proof (factor_index_bound (fv_factor r)).
    destruct (Z.ltb_spec 100 (RankingFactor.index (fv_factor r))); [lia|].
    by destruct (Z.ltb_spec (RankingFactor.index (fv_factor r)) 100); [|lia].
  - pose proof (factor_index_bound (fv_factor l)).
    by destruct (Z.ltb_spec (RankingFactor.index (fv_factor l)) 100); [|lia].
  - rewrite <- IH. clear IH. unfold factor_ltb. rewrite <- (lex_step RankingFactor.index).
    rewrite <- !lex_step_opp. simpl Nat.eqb. simpl Nat.ltb.
    case_bool_decide; simpl; [|done]. destruct (_ =? fv_contribution r); simpl; [|done].
    destruct (_ =? fv_normalized r); simpl; [|done].
    by destruct (fv_known l), (fv_known r).
Qed.

Lemma candidate_ranks_before_lex l r :
  candidate_ranks_before l r = lex_ltb (rank_fields l) (rank_fields r).
Proof.
  unfold candidate_ranks_before, rank_fields, candidate_key_ltb. simpl.
  by rewrite lex_step_opp, <- factors_rank_before_lex.
Qed.

(** A strict weak order whose ties carry the same candidate key. *)
#[export] Instance candidate_ranks_before_swb : StrictWeakB candidate_ranks_before.
Proof.
  assert (StrictWeakB (fun l r => lex_ltb (rank_fields l) (rank_fields r))) as [H1 H2 H3]
    by apply (swb_on lex_ltb rank_fields).
  split; intros *; rewrite !candidate_ranks_before_lex; [apply H1 | apply H2 | apply H3].
Qed.

Lemma rank_fields_key l r : rank_fields l = rank_fields r -> rk_key l = rk_key r.
Proof.
  unfold rank_fields. intros [= _ E]. apply (f_equal reverse) in E.
  rewrite !reverse_app, !reverse_cons in E. apply (inj key_fields).
  apply app_inj_1 in E as [E _]; [|done]. apply app_inj_1 in E as [E _]; [|done].
  by apply (inj reverse).
Qed.

Lemma ranking_tie_key l r :
  candidate_ranks_before l r = false -> candidate_ranks_before r l = false -> rk_key l = rk_key r.
Proof. rewrite !candidate_ranks_before_lex. intros. by apply rank_fields_key, total_eq. Qed.

Lemma weights_validate_ok (w : RankingWeights) :
  weights_validate w = "" <-> forall f, 0 <= weight w f <= 10000000.
Proof.
  assert (forall l, weights_scan w l = "" <-> Forall (fun f => 0 <= weight w f <= 10000000) l) as Hs.
  { induction l as [|f l IH]; [by split; constructor|]. cbn [weights_scan].
    rewrite !return_if_eq by (by destruct f). rewrite IH, Forall_cons, !Z.ltb_ge. naive_solver lia. }
  unfold weights_validate. rewrite Hs, Forall_forall. split; [|naive_solver].
  intros H f. destruct (decide (f = RankingFactor.kCount)) as [->|Hf]; [simpl; lia|].
  apply H. apply (bool_decide_unpack _). by destruct f.
Qed.

(** ** Properties *)

(** C37: [candidate_ranks_before] is a strict order that is total on distinct
    candidates: it never ranks a candidate before itself, it is transitive,
    and two candidates with different keys are always ordered one way or the
    other, however their scores and factors tie. *)
Theorem candidate_ranks_before_order (x y z : RankedCandidate) :
  candidate_ranks_before x x = false /\
  (candidate_ranks_before x y && candidate_ranks_before y z = true ->
   candidate_ranks_before x z = true) /\
  (rk_key x <> rk_key y ->
   candidate_ranks_before x y = negb (candidate_ranks_before y x)).
Proof.
  split_and!; [apply swb_irrefl | intros []%andb_true_iff; by eapply swb_trans |].
  intros Hk. destruct (candidate_ranks_before x y) eqn:E.
  - by rewrite (swb_asym candidate_ranks_before) by done.
  - destruct (candidate_ranks_before y x) eqn:E'; [done|]. by destruct Hk; apply ranking_tie_key.
Qed.

Definition sample_ranked (b score : Z) : RankedCandidate :=
  {| rk_key := candidate_key_default <| ck_backend_id := EntityIdOf b |>;
     rk_score := score; rk_factors := []; rk_rank := 0 |}.

Lemma candidate_ranks_before_order_witness :
  let x := sample_ranked 1 5 in let y := sample_ranked 2 5 in let z := sample_ranked 3 4 in
  candidate_ranks_before x z = true /\
  candidate_ranks_before x y = negb (candidate_ranks_before y x).
Proof.
  intros x y z. split.
  - apply (proj1 (proj2 (candidate_ranks_before_order x y z))). reflexivity.
  - apply (proj2 (proj2 (candidate_ranks_before_order x y z))). discriminate.
Defined.

(** The weights are accepted exactly when every factor's weight lies between
    0 and ten million. *)
Theorem weights_validate_spec (w : RankingWeights) :
  weights_validate w = "" <-> forall f, 0 <= weight w f <= 10000000.
Proof. apply weights_validate_ok. Qed.
