(* ===== verification/Policy.v ===== *)
(** * Policy evaluation ([policy.hpp], [policy.cpp])

    The typed, side-effect-free evaluation of a policy snapshot against a
    request and against one candidate, the fallback decision, and the policy
    builder. *)
From S2P Require Import Prelude Ids Outcome Clock Capability Evidence Catalog Request Candidate.

(** ** Verdicts *)

Record PolicyVerdict := {
  pv_code : OutcomeCode.t;
  pv_detail : string;
  pv_preference : Z
}.

Definition kPreferenceScale : Z := kFactorScale.

Definition policy_allowed (v : PolicyVerdict) : bool := pv_code v == OutcomeCode.ACCEPTED.

Definition policy_reject (code : OutcomeCode.t) (detail : string) : PolicyVerdict :=
  {| pv_code := code; pv_detail := detail; pv_preference := 0 |}.

(** [contains] and [contains_key]: membership by binary search. *)
Definition contains {t} (l : list (EntityId t)) (v : EntityId t) : bool := binary_search id_ltb l v.
Definition contains_key (l : list LocalityKey) (v : LocalityKey) : bool :=
  binary_search locality_ltb l v.

Definition is_empty {A} (l : list A) : bool := match l with [] => true | _ => false end.

(** ** Requests *)

Definition evaluate_request (policy : PolicySnapshot) (request : RouteRequest) (now : UnixMillis)
    : PolicyVerdict :=
  return_if negb (valid (po_generation policy))
    with policy_reject OutcomeCode.REJECT_STALE_POLICY "policy generation is not valid" ;;
  return_if negb (policy_current policy now)
    with policy_reject OutcomeCode.REJECT_STALE_POLICY "policy evidence is stale" ;;
  return_if valid (po_policy_id policy) && po_policy_id policy != rr_policy_id request
    with policy_reject OutcomeCode.REJECT_STALE_POLICY
           "request names a different policy identity than the current snapshot" ;;
  return_if po_generation policy != rr_policy_generation request
    with policy_reject OutcomeCode.REJECT_STALE_POLICY
           "request policy generation is not the current policy generation" ;;
  return_if negb (is_empty (po_bound_tenants policy)) &&
            negb (contains (po_bound_tenants policy) (rr_tenant request))
    with policy_reject OutcomeCode.REJECT_CONFLICT
           "tenant is not bound to the current policy snapshot" ;;
  {| pv_code := OutcomeCode.ACCEPTED; pv_detail := ""; pv_preference := 0 |}.

(** ** Candidates

    The hard checks of [evaluate_candidate], in the order of the code; each
    part returns the rejection it makes, if any. *)

Definition policy_identity_checks (policy : PolicySnapshot) (candidate : RouteCandidate)
    : option PolicyVerdict :=
  let backend := rc_backend candidate in
  let key := rc_key candidate in
  let family := md_family_id (rc_model candidate) in
  return_if contains (po_denied_models policy) (ck_model_id key)
    with Some (policy_reject OutcomeCode.REJECT_POLICY "policy denies the model identity") ;;
  return_if valid family && contains (po_denied_model_families policy) family
    with Some (policy_reject OutcomeCode.REJECT_POLICY "policy denies the model family") ;;
  return_if contains (po_denied_providers policy) (bd_provider_id backend)
    with Some (policy_reject OutcomeCode.REJECT_POLICY "policy denies the provider") ;;
  return_if contains (po_denied_backends policy) (ck_backend_id key)
    with Some (policy_reject OutcomeCode.REJECT_POLICY "policy denies the backend") ;;
  return_if negb (locality_empty (bd_locality backend)) &&
            contains_key (po_denied_localities policy) (bd_locality backend)
    with Some (policy_reject OutcomeCode.REJECT_LOCALITY "policy denies the deployment locality") ;;
  return_if negb (is_empty (po_allowed_models policy)) &&
            negb (contains (po_allowed_models policy) (ck_model_id key))
    with Some (policy_reject OutcomeCode.REJECT_POLICY "model is not in the policy allowlist") ;;
  return_if is_empty (po_allowed_models policy) && negb (po_allow_unlisted_models policy)
    with Some (policy_reject OutcomeCode.REJECT_POLICY
                 "policy denies models that are not explicitly listed") ;;
  return_if negb (is_empty (po_allowed_providers policy)) &&
            negb (contains (po_allowed_providers policy) (bd_provider_id backend))
    with Some (policy_reject OutcomeCode.REJECT_POLICY "provider is not in the policy allowlist") ;;
  return_if is_empty (po_allowed_providers policy) && negb (po_allow_unlisted_providers policy)
    with Some (policy_reject OutcomeCode.REJECT_POLICY
                 "policy denies providers that are not explicitly listed") ;;
  return_if negb (is_empty (po_allowed_backends policy)) &&
            negb (contains (po_allowed_backends policy) (ck_backend_id key))
    with Some (policy_reject OutcomeCode.REJECT_POLICY "backend is not in the policy allowlist") ;;
  return_if is_empty (po_allowed_backends policy) && negb (po_allow_unlisted_backends policy)
    with Some (policy_reject OutcomeCode.REJECT_POLICY
                 "policy denies backends that are not explicitly listed") ;;
  return_if negb (is_empty (po_allowed_localities policy)) &&
            (locality_empty (bd_locality backend) ||
             negb (contains_key (po_allowed_localities policy) (bd_locality backend)))
    with Some (policy_reject OutcomeCode.REJECT_LOCALITY "locality is not in the policy allowlist") ;;
  None.

Definition policy_placement_checks (policy : PolicySnapshot) (candidate : RouteCandidate)
    : option PolicyVerdict :=
  let domain := bd_trust_domain (rc_backend candidate) in
  return_if po_local_only policy && domain != TrustDomain.LOCAL
    with Some (policy_reject OutcomeCode.REJECT_LOCALITY "policy is local-only") ;;
  return_if po_deny_public_remote policy && domain == TrustDomain.PUBLIC_REMOTE
    with Some (policy_reject OutcomeCode.REJECT_TRUST "policy denies public remote placement") ;;
  return_if po_minimum_trust policy != TrustDomain.UNKNOWN && domain == TrustDomain.UNKNOWN
    with Some (policy_reject OutcomeCode.REJECT_UNKNOWN_EVIDENCE
                 "policy sets a trust floor but candidate trust is UNKNOWN") ;;
  return_if po_minimum_trust policy != TrustDomain.UNKNOWN &&
            (trust_rank domain <? trust_rank (po_minimum_trust policy))
    with Some (policy_reject OutcomeCode.REJECT_TRUST
                 "candidate trust domain is below the policy floor") ;;
  None.

(** The price a cost ceiling is compared with: the candidate's binding, else
    the first binding, else a default (unknown) price. *)
Definition policy_cost (candidate : RouteCandidate) : CostEvidence :=
  match find_binding (rc_backend candidate) (ck_model_id (rc_key candidate)) with
  | Some binding => mb_cost binding
  | None => match bd_model_bindings (rc_backend candidate) with
            | [] => cost_evidence_default
            | binding :: _ => mb_cost binding
            end
  end.

Definition policy_floor_checks (policy : PolicySnapshot) (candidate : RouteCandidate)
    : option PolicyVerdict :=
  let latency := bd_latency (rc_backend candidate) in
  let ceiling := po_maximum_request_cost policy in
  let cost := policy_cost candidate in
  return_if negb (po_quality_floor policy =? kUnclassifiedQuality) &&
            (rc_quality_class candidate =? kUnclassifiedQuality)
    with Some (policy_reject OutcomeCode.REJECT_UNKNOWN_EVIDENCE
                 "policy sets a quality floor but candidate quality is unclassified") ;;
  return_if negb (po_quality_floor policy =? kUnclassifiedQuality) &&
            (rc_quality_class candidate <? po_quality_floor policy)
    with Some (policy_reject OutcomeCode.REJECT_QUALITY "candidate quality is below the policy floor") ;;
  return_if po_minimum_capability_evidence policy != CapabilityState.UNKNOWN &&
            existsb (fun evidence =>
                       is_satisfying (ce_state evidence) &&
                       (evidence_strength (ce_state evidence) <?
                        evidence_strength (po_minimum_capability_evidence policy)))
                    (profile_entries (md_capabilities (rc_model candidate)))
    with Some (policy_reject OutcomeCode.REJECT_CAPABILITY
                 "capability evidence is weaker than the policy minimum") ;;
  return_if (0 <? mo_micros ceiling) && negb (cost_known cost)
    with Some (policy_reject OutcomeCode.REJECT_UNKNOWN_EVIDENCE
                 "policy sets a cost ceiling but candidate price is UNKNOWN") ;;
  return_if (0 <? mo_micros ceiling) && negb (compatible_with (co_unit cost) (mo_unit ceiling))
    with Some (policy_reject OutcomeCode.REJECT_COST
                 "candidate price unit is not compatible with the policy cost ceiling unit") ;;
  return_if (0 <? mo_micros ceiling) && (mo_micros ceiling <? co_estimated_total_micros cost)
    with Some (policy_reject OutcomeCode.REJECT_COST "candidate cost exceeds the policy ceiling") ;;
  return_if negb (po_maximum_latency_micros policy =? kUnspecified) &&
            (lt_dispatch_micros latency =? kUnknownLatencyMicros)
    with Some (policy_reject OutcomeCode.REJECT_UNKNOWN_EVIDENCE
                 "policy sets a latency ceiling but candidate latency is UNKNOWN") ;;
  return_if negb (po_maximum_latency_micros policy =? kUnspecified) &&
            (po_maximum_latency_micros policy <? lt_dispatch_micros latency)
    with Some (policy_reject OutcomeCode.REJECT_SLO "candidate latency exceeds the policy ceiling") ;;
  None.

Definition policy_preference (policy : PolicySnapshot) (candidate : RouteCandidate) : Z :=
  let family := md_family_id (rc_model candidate) in
  let domain := bd_trust_domain (rc_backend candidate) in
  let preference :=
    if valid family && contains (po_preferred_model_families policy) family
    then kPreferenceScale ÷ 2 else 0 in
  let preference :=
    if domain != TrustDomain.UNKNOWN then preference + trust_rank domain * 100000 else preference in
  Z.min preference kPreferenceScale.

Definition evaluate_candidate (policy : PolicySnapshot) (request : RouteRequest)
    (candidate : RouteCandidate) (now : UnixMillis) : PolicyVerdict :=
  return_if negb (valid (po_generation policy)) || negb (policy_current policy now)
    with policy_reject OutcomeCode.REJECT_STALE_POLICY "policy evidence is not current" ;;
  match policy_identity_checks policy candidate ∪ policy_placement_checks policy candidate ∪
        policy_floor_checks policy candidate with
  | Some verdict => verdict
  | None => {| pv_code := OutcomeCode.ACCEPTED; pv_detail := "";
               pv_preference := policy_preference policy candidate |}
  end.

(** ** Fallback *)

Definition fallback_permitted (policy : PolicySnapshot) (requirements : RouteRequirements)
    (trigger : OutcomeCode.t) : bool :=
  return_if negb (rq_allow_fallbacks requirements) with false ;;
  return_if rp_max_fallbacks (rq_retry_policy requirements) =? 0 with false ;;
  match po_fallback_policy policy with
  | FallbackPolicy.FORBIDDEN => false
  | FallbackPolicy.PERMITTED => negb (is_permanent (classify_failure trigger))
  | FallbackPolicy.EXPLICIT_ONLY =>
      return_if negb (existsb (fun c => c == trigger) (po_fallback_permitted_outcomes policy))
        with false ;;
      negb (is_permanent (classify_failure trigger))
  | FallbackPolicy.kCount => false
  end.

(** ** The builder: one constructor per method *)

Inductive PolicyBuilderCall :=
| DenyModel (id : EntityId ModelTag)
| AllowModel (id : EntityId ModelTag)
| DenyProvider (id : EntityId ProviderTag)
| AllowProvider (id : EntityId ProviderTag)
| DenyBackend (id : EntityId BackendTag)
| AllowBackend (id : EntityId BackendTag)
| DenyFamily (id : EntityId ModelFamilyTag)
| PreferFamily (id : EntityId ModelFamilyTag)
| AllowLocality (k : LocalityKey)
| DenyLocality (k : LocalityKey)
| BindTenant (id : EntityId TenantTag)
| MinimumTrust (d : TrustDomain.t)
| MinimumCapabilityEvidence (s : CapabilityState.t)
| QualityFloor (q : Z)
| MaximumRequestCost (m : Money)
| MaximumLatency (micros : Z)
| LocalOnly (b : bool)
| DenyPublicRemote (b : bool)
| SetFallbackPolicy (p : FallbackPolicy.t)
| PermitFallbackOutcome (c : OutcomeCode.t)
| MaxFallbackDepth (n : Z)
| MaxProviderConcentration (ppm : Z)
| AllowUnlistedModels (b : bool)
| AllowUnlistedProviders (b : bool)
| AllowUnlistedBackends (b : bool)
| ExpiresAt (t : UnixMillis).

Definition policy_builder_step (p : PolicySnapshot) (call : PolicyBuilderCall) : PolicySnapshot :=
  match call with
  | DenyModel id => p <| po_denied_models := po_denied_models p ++ [id] |>
  | AllowModel id => p <| po_allowed_models := po_allowed_models p ++ [id] |>
  | DenyProvider id => p <| po_denied_providers := po_denied_providers p ++ [id] |>
  | AllowProvider id => p <| po_allowed_providers := po_allowed_providers p ++ [id] |>
  | DenyBackend id => p <| po_denied_backends := po_denied_backends p ++ [id] |>
  | AllowBackend id => p <| po_allowed_backends := po_allowed_backends p ++ [id] |>
  | DenyFamily id => p <| po_denied_model_families := po_denied_model_families p ++ [id] |>
  | PreferFamily id => p <| po_preferred_model_families := po_preferred_model_families p ++ [id] |>
  | AllowLocality k => p <| po_allowed_localities := po_allowed_localities p ++ [k] |>
  | DenyLocality k => p <| po_denied_localities := po_denied_localities p ++ [k] |>
  | BindTenant id => p <| po_bound_tenants := po_bound_tenants p ++ [id] |>
  | MinimumTrust d => p <| po_minimum_trust := d |>
  | MinimumCapabilityEvidence s => p <| po_minimum_capability_evidence := s |>
  | QualityFloor q => p <| po_quality_floor := q |>
  | MaximumRequestCost m => p <| po_maximum_request_cost := m |>
  | MaximumLatency micros => p <| po_maximum_latency_micros := micros |>
  | LocalOnly b => p <| po_local_only := b |>
  | DenyPublicRemote b => p <| po_deny_public_remote := b |>
  | SetFallbackPolicy f => p <| po_fallback_policy := f |>
  | PermitFallbackOutcome c =>
      p <| po_fallback_permitted_outcomes := po_fallback_permitted_outcomes p ++ [c] |>
  | MaxFallbackDepth n => p <| po_max_fallback_depth := n |>
  | MaxProviderConcentration ppm => p <| po_max_provider_concentration_ppm := ppm |>
  | AllowUnlistedModels b => p <| po_allow_unlisted_models := b |>
  | AllowUnlistedProviders b => p <| po_allow_unlisted_providers := b |>
  | AllowUnlistedBackends b => p <| po_allow_unlisted_backends := b |>
  | ExpiresAt t => p <| po_expires_at := t |>
  end.

Definition policy_builder (id : EntityId PolicyTag) (generation : Generation PolicyTag)
    : PolicySnapshot :=
  policy_snapshot_default <| po_policy_id := id |> <| po_generation := generation |>.

Definition policy_build (p : PolicySnapshot) : PolicySnapshot := policy_canonicalize p.

(** ** Facts *)

Lemma is_empty_true {A} (l : list A) : is_empty l = true <-> l = [].
Proof. by destruct l. Qed.

Lemma contains_elem {t} (l : list (EntityId t)) v :
  strictly_sorted_by id_ltb l -> contains l v = bool_decide (v ∈ l).
Proof. exact (binary_search_elem id_ltb l v). Qed.

Lemma contains_key_elem (l : list LocalityKey) v :
  strictly_sorted_by locality_ltb l -> contains_key l v = bool_decide (v ∈ l).
Proof. exact (binary_search_elem locality_ltb l v). Qed.

(** An allowlist admits an identity when it lists it, or when it is empty and
    unlisted identities are allowed. *)
Definition list_admits {A} (allowed : list A) (unlisted : bool) (x : A) : Prop :=
  (allowed = [] /\ unlisted = true) \/ x ∈ allowed.

Lemma list_admits_checks {A} `{EqDecision A} (allowed : list A) unlisted x :
  list_admits allowed unlisted x <->
  negb (is_empty allowed) && negb (bool_decide (x ∈ allowed)) = false /\
  is_empty allowed && negb unlisted = false.
Proof.
  unfold list_admits. destruct allowed as [|y l].
  - simpl. pose proof (not_elem_of_nil x). destruct unlisted; naive_solver.
  - cbn [is_empty negb andb]. rewrite negb_false_iff, bool_decide_eq_true. naive_solver.
Qed.

Lemma union_rejection {A} (x y : option A) : x ∪ y = None <-> x = None /\ y = None.
Proof. destruct x, y; naive_solver. Qed.

(** ** What a policy admits *)

Record identity_admitted (p : PolicySnapshot) (c : RouteCandidate) : Prop := {
  admitted_model : ck_model_id (rc_key c) ∉ po_denied_models p;
  admitted_family : valid (md_family_id (rc_model c)) = false \/
    md_family_id (rc_model c) ∉ po_denied_model_families p;
  admitted_provider : bd_provider_id (rc_backend c) ∉ po_denied_providers p;
  admitted_backend : ck_backend_id (rc_key c) ∉ po_denied_backends p;
  admitted_locality : locality_empty (bd_locality (rc_backend c)) = true \/
    bd_locality (rc_backend c) ∉ po_denied_localities p;
  listed_model :
    list_admits (po_allowed_models p) (po_allow_unlisted_models p) (ck_model_id (rc_key c));
  listed_provider :
    list_admits (po_allowed_providers p) (po_allow_unlisted_providers p)
                (bd_provider_id (rc_backend c));
  listed_backend :
    list_admits (po_allowed_backends p) (po_allow_unlisted_backends p) (ck_backend_id (rc_key c));
  listed_locality : po_allowed_localities p = [] \/
    (locality_empty (bd_locality (rc_backend c)) = false /\
     bd_locality (rc_backend c) ∈ po_allowed_localities p)
}.

Record placement_admitted (p : PolicySnapshot) (c : RouteCandidate) : Prop := {
  admitted_local : po_local_only p = true -> bd_trust_domain (rc_backend c) = TrustDomain.LOCAL;
  admitted_remote : po_deny_public_remote p = true ->
    bd_trust_domain (rc_backend c) <> TrustDomain.PUBLIC_REMOTE;
  admitted_trust : po_minimum_trust p <> TrustDomain.UNKNOWN ->
    bd_trust_domain (rc_backend c) <> TrustDomain.UNKNOWN /\
    trust_rank (po_minimum_trust p) <= trust_rank (bd_trust_domain (rc_backend c))
}.

Record floors_admitted (p : PolicySnapshot) (c : RouteCandidate) : Prop := {
  admitted_quality : po_quality_floor p <> kUnclassifiedQuality ->
    rc_quality_class c <> kUnclassifiedQuality /\ po_quality_floor p <= rc_quality_class c;
  admitted_evidence : po_minimum_capability_evidence p <> CapabilityState.UNKNOWN ->
    forall e, e ∈ profile_entries (md_capabilities (rc_model c)) ->
    is_satisfying (ce_state e) = true ->
    evidence_strength (po_minimum_capability_evidence p) <= evidence_strength (ce_state e);
  admitted_cost : 0 < mo_micros (po_maximum_request_cost p) ->
    cost_known (policy_cost c) = true /\
    compatible_with (co_unit (policy_cost c)) (mo_unit (po_maximum_request_cost p)) = true /\
    co_estimated_total_micros (policy_cost c) <= mo_micros (po_maximum_request_cost p);
  admitted_latency : po_maximum_latency_micros p <> kUnspecified ->
    lt_dispatch_micros (bd_latency (rc_backend c)) <> kUnknownLatencyMicros /\
    lt_dispatch_micros (bd_latency (rc_backend c)) <= po_maximum_latency_micros p
}.

Definition policy_admits (p : PolicySnapshot) (c : RouteCandidate) (now : UnixMillis) : Prop :=
  policy_current p now = true /\
  identity_admitted p c /\ placement_admitted p c /\ floors_admitted p c.

(** A guarded check [b && c]. *)
Lemma guard_false (b c : bool) : b && c = false <-> (b = true -> c = false).
Proof. destruct b, c; naive_solver. Qed.

Lemma policy_identity_checks_None p c :
  policy_canonical p -> policy_identity_checks p c = None <-> identity_admitted p c.
Proof.
  intros Hp. unfold policy_identity_checks. cbv zeta. early_returns.
  rewrite !contains_elem by apply Hp. rewrite !contains_key_elem by apply Hp.
  split.
  - intros (? & Hf & ? & ? & Hl & ? & ? & ? & ? & ? & ? & Ha & _).
    split; try (by eapply bool_decide_eq_false_1); try (by apply list_admits_checks).
    + apply andb_false_iff in Hf as [?|?%bool_decide_eq_false]; [by left|by right].
    + apply andb_false_iff in Hl as [?%negb_false_iff|?%bool_decide_eq_false]; [by left|by right].
    + destruct (po_allowed_localities p) as [|k l]; [by left|right]. cbn [is_empty negb andb] in Ha.
      by apply orb_false_iff in Ha as [? ?%negb_false_iff%bool_decide_eq_true].
  - intros [Hm Hf Hpr Hb Hl [??]%list_admits_checks [??]%list_admits_checks [??]%list_admits_checks Ha].
    repeat split; try done; try (by apply bool_decide_eq_false).
    + apply andb_false_iff. destruct Hf; [by left|right]. by apply bool_decide_eq_false.
    + apply andb_false_iff. destruct Hl as [->|]; [by left|right]. by apply bool_decide_eq_false.
    + destruct Ha as [->|[-> Ha]]; [done|]. rewrite bool_decide_eq_true_2 by done.
      apply andb_false_r.
Qed.

Lemma policy_placement_checks_None p c :
  policy_placement_checks p c = None <-> placement_admitted p c.
Proof.
  unfold policy_placement_checks. cbv zeta. early_returns.
  rewrite !guard_false, !negb_true_iff, !negb_false_iff, !bool_decide_eq_true, !bool_decide_eq_false, Z.ltb_ge.
  split; [intros (?&?&?&?&_); split; auto | intros [? ? Ht]; repeat split; try done; apply Ht].
Qed.

Lemma policy_floor_checks_None p c :
  policy_floor_checks p c = None <-> floors_admitted p c.
Proof.
  unfold policy_floor_checks. cbv zeta. early_returns.
  rewrite !guard_false, !negb_true_iff, !negb_false_iff, !Z.eqb_neq, !Z.ltb_ge, !Z.ltb_lt,
    bool_decide_eq_false.
  rewrite <- (not_true_iff_false (existsb _ _)), existsb_exists.
  split.
  - intros (?&?&He&?&?&?&?&?&_). split; auto.
    intros Hs e Hin Hsat. destruct (Z.ltb_spec (evidence_strength (ce_state e))
      (evidence_strength (po_minimum_capability_evidence p))) as [Hlt|]; [|done].
    destruct (He Hs). exists e. rewrite <- list_elem_of_In, Hsat. split; [done|]. by apply Z.ltb_lt.
  - intros [Hq He Hc Hl]. repeat split; try (by intros; apply Hq); try (by intros; apply Hc);
      try (by intros; apply Hl).
    intros Hs (e & Hin%list_elem_of_In & [Hsat Hlt%Z.ltb_lt]%andb_true_iff).
    specialize (He Hs e Hin Hsat). lia.
Qed.

(** Every check that fails makes a rejection. *)
Lemma policy_rejections_reject p c v :
  policy_identity_checks p c ∪ policy_placement_checks p c ∪ policy_floor_checks p c = Some v ->
  OutcomeCode.is_rejection (pv_code v) = true /\ pv_preference v = 0.
Proof.
  intros E. apply union_Some in E as [E|[_ E]]; [apply union_Some in E as [E|[_ E]]|]; revert E;
    unfold policy_identity_checks, policy_placement_checks, policy_floor_checks; cbv zeta;
    intros E; repeat (case_match; [by simplify_eq|]); done.
Qed.

Lemma policy_not_allowed_rejects p r c now :
  policy_allowed (evaluate_candidate p r c now) = false ->
  OutcomeCode.is_rejection (pv_code (evaluate_candidate p r c now)) = true.
Proof.
  unfold policy_allowed, evaluate_candidate. destruct (_ || _); [done|].
  destruct (_ ∪ _) as [v|] eqn:E; [|done]. intros _. by eapply policy_rejections_reject.
Qed.

(** The calls that add an entry to a list; the others set a single value. *)
Definition adds_entry (call : PolicyBuilderCall) : bool :=
  match call with
  | DenyModel _ | AllowModel _ | DenyProvider _ | AllowProvider _ | DenyBackend _
  | AllowBackend _ | DenyFamily _ | PreferFamily _ | AllowLocality _ | DenyLocality _
  | BindTenant _ | PermitFallbackOutcome _ => true
  | _ => false
  end.

(** A builder call only depends on the content of the policy. *)
#[export] Instance policy_builder_step_proper :
  Proper (policy_same_content ==> (=) ==> policy_same_content) policy_builder_step.
Proof.
  intros [] [] Hc call ? <-. unfold policy_same_content, policy_canonicalize in *. simpl in *.
  injection Hc; clear Hc; intros; subst. destruct call; simpl; f_equal; done || by apply (sort_unique_app _).
Qed.

#[export] Instance policy_builder_calls_proper calls :
  Proper (policy_same_content ==> policy_same_content) (fold_left policy_builder_step calls).
Proof.
  induction calls as [|c calls IH]; intros p q Hpq; simpl; [done|].
  apply IH. by rewrite Hpq.
Qed.

Lemma adds_entry_comm p a b :
  adds_entry a = true -> adds_entry b = true ->
  policy_same_content (policy_builder_step (policy_builder_step p a) b)
                      (policy_builder_step (policy_builder_step p b) a).
Proof.
  intros Ha Hb. unfold policy_same_content, policy_canonicalize.
  destruct a, b; try discriminate; simpl; try reflexivity; f_equal; apply (sort_unique_app_comm _).
Qed.

(** The code's decision is what the policy admits. *)
Lemma policy_admits_allowed (p : PolicySnapshot) (r : RouteRequest) (c : RouteCandidate)
    (now : UnixMillis) (Hp : policy_canonical p) :
  policy_allowed (evaluate_candidate p r c now) = true <-> policy_admits p c now.
Proof.
  unfold policy_allowed, evaluate_candidate, policy_admits. rewrite bool_decide_eq_true.
  rewrite <- policy_identity_checks_None, <- policy_placement_checks_None,
    <- policy_floor_checks_None by done.
  assert (negb (valid (po_generation p)) || negb (policy_current p now) =
          negb (policy_current p now)) as ->.
  { unfold policy_current. destruct (valid (po_generation p)); simpl; done. }
  destruct (policy_current p now); simpl; [|naive_solver].
  destruct (_ ∪ _) as [v|] eqn:E.
  - split.
    + intros Hv. simpl in Hv. apply policy_rejections_reject in E as [E _]. by rewrite Hv in E.
    + intros (_ & E1 & E2 & E3). by rewrite E1, E2, E3 in E.
  - apply union_rejection in E as [[E1 E2]%union_rejection E3]. by simpl.
Qed.

(** ** Properties *)

(** A canonical policy accepts a candidate exactly when it admits it: the
    policy is current, no denylist names the candidate, every allowlist admits
    it, its placement satisfies the local-only, public-remote and trust rules,
    and it meets the quality, evidence, cost and latency floors with known
    values; unknown evidence is never good enough. *)
Theorem evaluate_candidate_spec (p : PolicySnapshot) (r : RouteRequest) (c : RouteCandidate)
    (now : UnixMillis) (Hp : policy_canonical p) :
  policy_allowed (evaluate_candidate p r c now) = true <-> policy_admits p c now.
Proof. by apply policy_admits_allowed. Qed.

Definition local_candidate : RouteCandidate :=
  route_candidate_default
    <| rc_key := candidate_key_default <| ck_model_id := EntityIdOf 10 |> |>
    <| rc_backend := backend_descriptor_default <| bd_trust_domain := TrustDomain.LOCAL |>
                       <| bd_provider_id := EntityIdOf 5 |> |>.

Definition local_policy : PolicySnapshot :=
  policy_build (fold_left policy_builder_step
    [AllowModel (EntityIdOf 11); AllowModel (EntityIdOf 10); LocalOnly true;
     MinimumTrust TrustDomain.TRUSTED_REMOTE; DenyProvider (EntityIdOf 6)]
    (policy_builder (EntityIdOf 1) (GenerationOf 3))).

Lemma evaluate_candidate_spec_witness :
  policy_allowed (evaluate_candidate local_policy route_request_default local_candidate 100) = true /\
  policy_admits local_policy local_candidate 100.
Proof.
  split; [reflexivity|]. apply (evaluate_candidate_spec local_policy route_request_default).
  - apply policy_canonicalize_canonical.
  - reflexivity.
Defined.

(** A policy verdict is either a rejection without preference or an
    acceptance whose preference lies between 0 and the factor scale; the cap
    of the code is never reached by a larger sum. *)
Theorem evaluate_candidate_verdict (p : PolicySnapshot) (r : RouteRequest) (c : RouteCandidate)
    (now : UnixMillis) :
  let v := evaluate_candidate p r c now in
  (OutcomeCode.is_rejection (pv_code v) = true /\ pv_preference v = 0) \/
  (pv_code v = OutcomeCode.ACCEPTED /\ 0 <= pv_preference v <= 900000).
Proof.
  cbv zeta. unfold evaluate_candidate. destruct (_ || _); [by left|].
  destruct (_ ∪ _) as [v|] eqn:E; [left; by eapply policy_rejections_reject|right].
  split; [done|]. simpl. unfold policy_preference, kPreferenceScale, kFactorScale.
  destruct (_ && _), (bd_trust_domain (rc_backend c)); vm_compute; by split.
Qed.

Lemma fallback_permitted_iff (p : PolicySnapshot) (q : RouteRequirements) (trigger : OutcomeCode.t) :
  fallback_permitted p q trigger = true <->
  rq_allow_fallbacks q = true /\ rp_max_fallbacks (rq_retry_policy q) <> 0 /\
  (po_fallback_policy p = FallbackPolicy.PERMITTED \/
   (po_fallback_policy p = FallbackPolicy.EXPLICIT_ONLY /\
    trigger ∈ po_fallback_permitted_outcomes p)) /\
  is_permanent (classify_failure trigger) = false.
Proof.
  unfold fallback_permitted. rewrite <- Z.eqb_neq.
  assert (existsb (fun c => c == trigger) (po_fallback_permitted_outcomes p) =
          bool_decide (trigger ∈ po_fallback_permitted_outcomes p)) as ->.
  { apply eq_true_iff_eq. rewrite existsb_exists, bool_decide_eq_true. split.
    - intros (c & Hc & ->%bool_decide_eq_true). by apply list_elem_of_In.
    - intros Hc. exists trigger. rewrite bool_decide_eq_true, <- list_elem_of_In. done. }
  destruct (rq_allow_fallbacks q), (_ =? 0), (po_fallback_policy p),
    (is_permanent _), (decide (trigger ∈ po_fallback_permitted_outcomes p)) as [H|H];
    rewrite ?(bool_decide_eq_true_2 _ H), ?(bool_decide_eq_false_2 _ H); simpl; naive_solver.
Qed.

(** A fallback is permitted exactly when the request allows one, asks for at
    least one, the policy permits it (for EXPLICIT_ONLY by naming the outcome)
    and the failure is not permanent. *)
Theorem fallback_permitted_spec (p : PolicySnapshot) (q : RouteRequirements) (trigger : OutcomeCode.t) :
  fallback_permitted p q trigger = true <->
  rq_allow_fallbacks q = true /\ rp_max_fallbacks (rq_retry_policy q) <> 0 /\
  (po_fallback_policy p = FallbackPolicy.PERMITTED \/
   (po_fallback_policy p = FallbackPolicy.EXPLICIT_ONLY /\
    trigger ∈ po_fallback_permitted_outcomes p)) /\
  is_permanent (classify_failure trigger) = false.
Proof. apply fallback_permitted_iff. Qed.

(** The order in which a builder's list entries are added does not matter:
    any permutation of the allow, deny, prefer, bind and permit calls builds
    the same snapshot. *)
Theorem policy_build_order_independent (calls calls' : list PolicyBuilderCall) (p : PolicySnapshot)
    (Hperm : calls ≡ₚ calls') (Hadds : Forall (fun c => adds_entry c = true) calls) :
  policy_build (fold_left policy_builder_step calls p) =
  policy_build (fold_left policy_builder_step calls' p).
Proof.
  change (policy_same_content (fold_left policy_builder_step calls p)
                              (fold_left policy_builder_step calls' p)).
  revert p Hadds. induction Hperm as [|c l l' _ IH|a b l|l1 l2 l3 H12 IH1 _ IH2]; intros p Hadds.
  - reflexivity.
  - apply Forall_cons in Hadds as [_ Hadds]. by apply IH.
  - apply Forall_cons in Hadds as [Hb [Ha _]%Forall_cons]. simpl. by rewrite adds_entry_comm.
  - rewrite IH1 by done. apply IH2. by rewrite <- H12.
Qed.

Lemma policy_build_order_independent_witness :
  let calls := [AllowModel (EntityIdOf 2); DenyBackend (EntityIdOf 4); AllowModel (EntityIdOf 1)] in
  policy_build (fold_left policy_builder_step calls policy_snapshot_default) =
  policy_build (fold_left policy_builder_step (reverse calls) policy_snapshot_default).
Proof.
  intros calls. apply (policy_build_order_independent calls (reverse calls)).
  - symmetry. apply reverse_Permutation.
  - repeat constructor.
Defined.
