(* ===== verification/Authority.v ===== *)
(** * Route authority ([authority.hpp], [authority.cpp])

    The authority binding of a route decision, the components it depends on,
    and the comparison of a bound authority with the current one. *)
From S2P Require Import Prelude Ids Sha256 Outcome Clock.

(** ** Components and masks *)

Module AuthorityComponent.
Inductive t := NONE | ROUTER_EPOCH | COORDINATOR_EPOCH | REQUEST | MODEL | ARTIFACT | PROVIDER | BACKEND | BACKEND_BOOT | ENDPOINT | CAPABILITY | POLICY | BUDGET | PRICE | SLO | COMPATIBILITY | TRUST | HEALTH | AVAILABILITY | READINESS | RESIDENCY | CAPACITY | RESERVATION | TENANCY | DISPATCH | kCount.

#[export] Instance eq_dec : EqDecision t.
Proof. solve_decision. Defined.

(** The enumerator's value: one bit per component. *)
Definition bits (c : t) : Z :=
  match c with
  | NONE => 0
  | ROUTER_EPOCH => 1
  | COORDINATOR_EPOCH => 2
  | REQUEST => 4
  | MODEL => 8
  | ARTIFACT => 16
  | PROVIDER => 32
  | BACKEND => 64
  | BACKEND_BOOT => 128
  | ENDPOINT => 256
  | CAPABILITY => 512
  | POLICY => 1024
  | BUDGET => 2048
  | PRICE => 4096
  | SLO => 8192
  | COMPATIBILITY => 16384
  | TRUST => 32768
  | HEALTH => 65536
  | AVAILABILITY => 131072
  | READINESS => 262144
  | RESIDENCY => 524288
  | CAPACITY => 1048576
  | RESERVATION => 2097152
  | TENANCY => 4194304
  | DISPATCH => 8388608
  | kCount => 24
  end.

(** The components in bit order. *)
Definition all : list t := [
  ROUTER_EPOCH; COORDINATOR_EPOCH; REQUEST; MODEL; ARTIFACT; PROVIDER;
  BACKEND; BACKEND_BOOT; ENDPOINT; CAPABILITY; POLICY; BUDGET;
  PRICE; SLO; COMPATIBILITY; TRUST; HEALTH; AVAILABILITY;
  READINESS; RESIDENCY; CAPACITY; RESERVATION; TENANCY; DISPATCH].

Definition to_string (c : t) : string :=
  match c with
  | NONE => "none"
  | ROUTER_EPOCH => "router_epoch"
  | COORDINATOR_EPOCH => "coordinator_epoch"
  | REQUEST => "request"
  | MODEL => "model"
  | ARTIFACT => "artifact"
  | PROVIDER => "provider"
  | BACKEND => "backend"
  | BACKEND_BOOT => "backend_boot"
  | ENDPOINT => "endpoint"
  | CAPABILITY => "capability"
  | POLICY => "policy"
  | BUDGET => "budget"
  | PRICE => "price"
  | SLO => "slo"
  | COMPATIBILITY => "compatibility"
  | TRUST => "trust"
  | HEALTH => "health"
  | AVAILABILITY => "availability"
  | READINESS => "readiness"
  | RESIDENCY => "residency"
  | CAPACITY => "capacity"
  | RESERVATION => "reservation"
  | TENANCY => "tenancy"
  | DISPATCH => "dispatch"
  | kCount => "invalid"
  end.
End AuthorityComponent.
Export (hints) AuthorityComponent.

Record AuthorityMask := AuthorityMaskOf { mask_bits : Z }.

Definition mask_empty : AuthorityMask := AuthorityMaskOf 0.
Definition mask_contains (m : AuthorityMask) (c : AuthorityComponent.t) : bool :=
  negb (Z.land (mask_bits m) (AuthorityComponent.bits c) =? 0).
Definition mask_add (c : AuthorityComponent.t) (m : AuthorityMask) : AuthorityMask :=
  AuthorityMaskOf (Z.lor (mask_bits m) (AuthorityComponent.bits c)).
Definition mask_remove (c : AuthorityComponent.t) (m : AuthorityMask) : AuthorityMask :=
  AuthorityMaskOf (Z.land (mask_bits m) (Z.lxor u32_max (AuthorityComponent.bits c))).
Definition mask_all : AuthorityMask :=
  AuthorityMaskOf (Z.shiftl 1 (AuthorityComponent.bits AuthorityComponent.kCount) - 1).

(** ** The binding *)

Record RouteAuthority := {
  au_router_id : EntityId RouterTag;
  au_router_epoch : Generation RouterEpochTag;
  au_coordinator_epoch : Generation CoordinatorEpochTag;
  au_request_id : EntityId RouteRequestTag;
  au_request_generation : Generation RouteRequestTag;
  au_decision_id : EntityId RouteDecisionTag;
  au_decision_generation : Generation RouteDecisionTag;
  au_model_id : EntityId ModelTag;
  au_model_generation : Generation ModelTag;
  au_artifact_generation : Generation ArtifactTag;
  au_provider_id : EntityId ProviderTag;
  au_provider_generation : Generation ProviderTag;
  au_backend_id : EntityId BackendTag;
  au_backend_generation : Generation BackendTag;
  au_backend_boot : Generation BackendBootTag;
  au_registration_generation : Generation BackendRegistrationTag;
  au_endpoint_id : EntityId EndpointTag;
  au_endpoint_generation : Generation EndpointTag;
  au_capability_profile_id : EntityId CapabilityProfileTag;
  au_capability_generation : Generation CapabilityTag;
  au_policy_id : EntityId PolicyTag;
  au_policy_generation : Generation PolicyTag;
  au_budget_id : EntityId BudgetTag;
  au_budget_generation : Generation BudgetTag;
  au_cost_evidence_id : EntityId CostEvidenceTag;
  au_price_generation : Generation PriceTag;
  au_slo_id : EntityId SloTag;
  au_slo_generation : Generation SloTag;
  au_compatibility_profile_id : EntityId CompatibilityTag;
  au_compatibility_generation : Generation CompatibilityTag;
  au_trust_profile_id : EntityId TrustTag;
  au_trust_generation : Generation TrustTag;
  au_health_generation : Generation HealthTag;
  au_availability_generation : Generation AvailabilityTag;
  au_readiness_generation : Generation ReadinessTag;
  au_residency_generation : Generation ResidencyTag;
  au_capacity_generation : Generation CapacityTag;
  au_reservation_id : EntityId ReservationTag;
  au_reservation_generation : Generation ReservationTag;
  au_tenant : EntityId TenantTag;
  au_name_space : EntityId NamespaceTag;
  au_dispatch_generation : Generation DispatchTag;
  au_issued_at : UnixMillis;
  au_expires_at : UnixMillis
}.
#[export] Instance route_authority_eta : Eta RouteAuthority := fun r =>
  {| au_router_id := au_router_id r;
     au_router_epoch := au_router_epoch r;
     au_coordinator_epoch := au_coordinator_epoch r;
     au_request_id := au_request_id r;
     au_request_generation := au_request_generation r;
     au_decision_id := au_decision_id r;
     au_decision_generation := au_decision_generation r;
     au_model_id := au_model_id r;
     au_model_generation := au_model_generation r;
     au_artifact_generation := au_artifact_generation r;
     au_provider_id := au_provider_id r;
     au_provider_generation := au_provider_generation r;
     au_backend_id := au_backend_id r;
     au_backend_generation := au_backend_generation r;
     au_backend_boot := au_backend_boot r;
     au_registration_generation := au_registration_generation r;
     au_endpoint_id := au_endpoint_id r;
     au_endpoint_generation := au_endpoint_generation r;
     au_capability_profile_id := au_capability_profile_id r;
     au_capability_generation := au_capability_generation r;
     au_policy_id := au_policy_id r;
     au_policy_generation := au_policy_generation r;
     au_budget_id := au_budget_id r;
     au_budget_generation := au_budget_generation r;
     au_cost_evidence_id := au_cost_evidence_id r;
     au_price_generation := au_price_generation r;
     au_slo_id := au_slo_id r;
     au_slo_generation := au_slo_generation r;
     au_compatibility_profile_id := au_compatibility_profile_id r;
     au_compatibility_generation := au_compatibility_generation r;
     au_trust_profile_id := au_trust_profile_id r;
     au_trust_generation := au_trust_generation r;
     au_health_generation := au_health_generation r;
     au_availability_generation := au_availability_generation r;
     au_readiness_generation := au_readiness_generation r;
     au_residency_generation := au_residency_generation r;
     au_capacity_generation := au_capacity_generation r;
     au_reservation_id := au_reservation_id r;
     au_reservation_generation := au_reservation_generation r;
     au_tenant := au_tenant r;
     au_name_space := au_name_space r;
     au_dispatch_generation := au_dispatch_generation r;
     au_issued_at := au_issued_at r;
     au_expires_at := au_expires_at r |}.
#[export] Instance route_authority_eq_dec : EqDecision RouteAuthority.
Proof. solve_decision. Defined.
Definition route_authority_default : RouteAuthority := {|
  au_router_id := none;
  au_router_epoch := none;
  au_coordinator_epoch := none;
  au_request_id := none;
  au_request_generation := none;
  au_decision_id := none;
  au_decision_generation := none;
  au_model_id := none;
  au_model_generation := none;
  au_artifact_generation := none;
  au_provider_id := none;
  au_provider_generation := none;
  au_backend_id := none;
  au_backend_generation := none;
  au_backend_boot := none;
  au_registration_generation := none;
  au_endpoint_id := none;
  au_endpoint_generation := none;
  au_capability_profile_id := none;
  au_capability_generation := none;
  au_policy_id := none;
  au_policy_generation := none;
  au_budget_id := none;
  au_budget_generation := none;
  au_cost_evidence_id := none;
  au_price_generation := none;
  au_slo_id := none;
  au_slo_generation := none;
  au_compatibility_profile_id := none;
  au_compatibility_generation := none;
  au_trust_profile_id := none;
  au_trust_generation := none;
  au_health_generation := none;
  au_availability_generation := none;
  au_readiness_generation := none;
  au_residency_generation := none;
  au_capacity_generation := none;
  au_reservation_id := none;
  au_reservation_generation := none;
  au_tenant := none;
  au_name_space := none;
  au_dispatch_generation := none;
  au_issued_at := 0;
  au_expires_at := kNoExpiry
|}.

Definition authority_expired (a : RouteAuthority) (now : UnixMillis) : bool :=
  expired_at (au_expires_at a) now.

(** [if (c) mask.add(x);] *)
Definition add_when (c : bool) (x : AuthorityComponent.t) (m : AuthorityMask) : AuthorityMask :=
  if c then mask_add x m else m.

Definition required_mask (a : RouteAuthority) : AuthorityMask :=
  let mask := fold_left (fun m c => mask_add c m) [
    AuthorityComponent.ROUTER_EPOCH; AuthorityComponent.COORDINATOR_EPOCH; AuthorityComponent.REQUEST;
    AuthorityComponent.MODEL; AuthorityComponent.ARTIFACT; AuthorityComponent.BACKEND;
    AuthorityComponent.BACKEND_BOOT; AuthorityComponent.ENDPOINT; AuthorityComponent.CAPABILITY;
    AuthorityComponent.POLICY; AuthorityComponent.TRUST; AuthorityComponent.HEALTH;
    AuthorityComponent.AVAILABILITY; AuthorityComponent.READINESS; AuthorityComponent.TENANCY] mask_empty in
  let mask := add_when (valid (au_provider_id a) || valid (au_provider_generation a)) AuthorityComponent.PROVIDER mask in
  let mask := add_when (valid (au_budget_generation a)) AuthorityComponent.BUDGET mask in
  let mask := add_when (valid (au_price_generation a)) AuthorityComponent.PRICE mask in
  let mask := add_when (valid (au_slo_generation a)) AuthorityComponent.SLO mask in
  let mask := add_when (valid (au_compatibility_generation a)) AuthorityComponent.COMPATIBILITY mask in
  let mask := add_when (valid (au_residency_generation a)) AuthorityComponent.RESIDENCY mask in
  let mask := add_when (valid (au_capacity_generation a)) AuthorityComponent.CAPACITY mask in
  let mask := add_when (valid (au_reservation_id a) || valid (au_reservation_generation a)) AuthorityComponent.RESERVATION mask in
  let mask := add_when (valid (au_dispatch_generation a)) AuthorityComponent.DISPATCH mask in
  mask.

(** ** Comparison *)

Record AuthorityDifference := {
  df_component : AuthorityComponent.t;
  df_bound : Z;
  df_current : Z;
  df_code : OutcomeCode.t
}.
#[export] Instance authority_difference_eta : Eta AuthorityDifference := fun r =>
  {| df_component := df_component r;
     df_bound := df_bound r;
     df_current := df_current r;
     df_code := df_code r |}.

Definition difference_less (l r : AuthorityDifference) : bool :=
  if df_component l != df_component r
  then AuthorityComponent.bits (df_component l) <? AuthorityComponent.bits (df_component r)
  else if negb (df_bound l =? df_bound r) then df_bound l <? df_bound r
  else df_current l <? df_current r.

Record AuthorityComparison := {
  cm_code : OutcomeCode.t;
  cm_differences : list AuthorityDifference
}.
#[export] Instance authority_comparison_eta : Eta AuthorityComparison := fun r =>
  {| cm_code := cm_code r;
     cm_differences := cm_differences r |}.

Definition comparison_current (c : AuthorityComparison) : bool :=
  match cm_differences c with [] => true | _ => false end.

(** The arguments of the [record] calls, in the order of the code. *)
Definition recorded (bound current : RouteAuthority) : list AuthorityDifference :=
  let record component b c code :=
    {| df_component := component; df_bound := b; df_current := c; df_code := code |} in [
    record AuthorityComponent.ROUTER_EPOCH (value (au_router_epoch bound)) (value (au_router_epoch current))
      OutcomeCode.REJECT_STALE_ROUTER_EPOCH;
    record AuthorityComponent.COORDINATOR_EPOCH (value (au_coordinator_epoch bound)) (value (au_coordinator_epoch current))
      OutcomeCode.REJECT_STALE_COORDINATOR_EPOCH;
    record AuthorityComponent.REQUEST (value (au_request_id bound)) (value (au_request_id current))
      OutcomeCode.REJECT_STALE_REQUEST;
    record AuthorityComponent.REQUEST (value (au_request_generation bound)) (value (au_request_generation current))
      OutcomeCode.REJECT_STALE_REQUEST;
    record AuthorityComponent.MODEL (value (au_model_id bound)) (value (au_model_id current))
      OutcomeCode.REJECT_STALE_MODEL;
    record AuthorityComponent.MODEL (value (au_model_generation bound)) (value (au_model_generation current))
      OutcomeCode.REJECT_STALE_MODEL;
    record AuthorityComponent.ARTIFACT (value (au_artifact_generation bound)) (value (au_artifact_generation current))
      OutcomeCode.REJECT_STALE_ARTIFACT;
    record AuthorityComponent.PROVIDER (value (au_provider_id bound)) (value (au_provider_id current))
      OutcomeCode.REJECT_STALE_BACKEND;
    record AuthorityComponent.PROVIDER (value (au_provider_generation bound)) (value (au_provider_generation current))
      OutcomeCode.REJECT_STALE_BACKEND;
    record AuthorityComponent.BACKEND (value (au_backend_id bound)) (value (au_backend_id current))
      OutcomeCode.REJECT_STALE_BACKEND;
    record AuthorityComponent.BACKEND (value (au_backend_generation bound)) (value (au_backend_generation current))
      OutcomeCode.REJECT_STALE_BACKEND;
    record AuthorityComponent.BACKEND (value (au_registration_generation bound)) (value (au_registration_generation current))
      OutcomeCode.REJECT_STALE_BACKEND;
    record AuthorityComponent.BACKEND_BOOT (value (au_backend_boot bound)) (value (au_backend_boot current))
      OutcomeCode.REJECT_STALE_BACKEND_BOOT;
    record AuthorityComponent.ENDPOINT (value (au_endpoint_id bound)) (value (au_endpoint_id current))
      OutcomeCode.REJECT_STALE_ENDPOINT;
    record AuthorityComponent.ENDPOINT (value (au_endpoint_generation bound)) (value (au_endpoint_generation current))
      OutcomeCode.REJECT_STALE_ENDPOINT;
    record AuthorityComponent.CAPABILITY (value (au_capability_profile_id bound)) (value (au_capability_profile_id current))
      OutcomeCode.REJECT_STALE_CAPABILITY;
    record AuthorityComponent.CAPABILITY (value (au_capability_generation bound)) (value (au_capability_generation current))
      OutcomeCode.REJECT_STALE_CAPABILITY;
    record AuthorityComponent.POLICY (value (au_policy_id bound)) (value (au_policy_id current))
      OutcomeCode.REJECT_STALE_POLICY;
    record AuthorityComponent.POLICY (value (au_policy_generation bound)) (value (au_policy_generation current))
      OutcomeCode.REJECT_STALE_POLICY;
    record AuthorityComponent.BUDGET (value (au_budget_id bound)) (value (au_budget_id current))
      OutcomeCode.REJECT_STALE_BUDGET;
    record AuthorityComponent.BUDGET (value (au_budget_generation bound)) (value (au_budget_generation current))
      OutcomeCode.REJECT_STALE_BUDGET;
    record AuthorityComponent.PRICE (value (au_cost_evidence_id bound)) (value (au_cost_evidence_id current))
      OutcomeCode.REJECT_STALE_PRICE;
    record AuthorityComponent.PRICE (value (au_price_generation bound)) (value (au_price_generation current))
      OutcomeCode.REJECT_STALE_PRICE;
    record AuthorityComponent.SLO (value (au_slo_id bound)) (value (au_slo_id current))
      OutcomeCode.REJECT_STALE_SLO;
    record AuthorityComponent.SLO (value (au_slo_generation bound)) (value (au_slo_generation current))
      OutcomeCode.REJECT_STALE_SLO;
    record AuthorityComponent.COMPATIBILITY (value (au_compatibility_profile_id bound)) (value (au_compatibility_profile_id current))
      OutcomeCode.REJECT_STALE_COMPATIBILITY;
    record AuthorityComponent.COMPATIBILITY (value (au_compatibility_generation bound)) (value (au_compatibility_generation current))
      OutcomeCode.REJECT_STALE_COMPATIBILITY;
    record AuthorityComponent.TRUST (value (au_trust_profile_id bound)) (value (au_trust_profile_id current))
      OutcomeCode.REJECT_STALE_TRUST;
    record AuthorityComponent.TRUST (value (au_trust_generation bound)) (value (au_trust_generation current))
      OutcomeCode.REJECT_STALE_TRUST;
    record AuthorityComponent.HEALTH (value (au_health_generation bound)) (value (au_health_generation current))
      OutcomeCode.REJECT_STALE_HEALTH;
    record AuthorityComponent.AVAILABILITY (value (au_availability_generation bound)) (value (au_availability_generation current))
      OutcomeCode.REJECT_STALE_AVAILABILITY;
    record AuthorityComponent.READINESS (value (au_readiness_generation bound)) (value (au_readiness_generation current))
      OutcomeCode.REJECT_STALE_READINESS;
    record AuthorityComponent.RESIDENCY (value (au_residency_generation bound)) (value (au_residency_generation current))
      OutcomeCode.REJECT_STALE_RESIDENCY;
    record AuthorityComponent.CAPACITY (value (au_capacity_generation bound)) (value (au_capacity_generation current))
      OutcomeCode.REJECT_STALE_CAPACITY;
    record AuthorityComponent.RESERVATION (value (au_reservation_id bound)) (value (au_reservation_id current))
      OutcomeCode.REJECT_STALE_RESERVATION;
    record AuthorityComponent.RESERVATION (value (au_reservation_generation bound)) (value (au_reservation_generation current))
      OutcomeCode.REJECT_STALE_RESERVATION;
    record AuthorityComponent.TENANCY (value (au_tenant bound)) (value (au_tenant current))
      OutcomeCode.REJECT_CONFLICT;
    record AuthorityComponent.TENANCY (value (au_name_space bound)) (value (au_name_space current))
      OutcomeCode.REJECT_CONFLICT;
    record AuthorityComponent.DISPATCH (value (au_dispatch_generation bound)) (value (au_dispatch_generation current))
      OutcomeCode.REJECT_STALE_REQUEST].

(** Each call stands under [if (has(component))] and records only a difference. *)
Definition kept (bound current : RouteAuthority) (required : AuthorityMask) : list AuthorityDifference :=
  List.filter (fun d => mask_contains required (df_component d) && negb (df_bound d =? df_current d))
              (recorded bound current).

Definition compare_authority (bound current : RouteAuthority) (required : AuthorityMask)
    : AuthorityComparison :=
  match stable_sort difference_less (kept bound current required) with
  | [] => {| cm_code := OutcomeCode.ACCEPTED; cm_differences := [] |}
  | (d :: _) as sorted => {| cm_code := df_code d; cm_differences := sorted |}
  end.

(** ** Digest *)

Definition authority_values (a : RouteAuthority) : list Z := [
  value (au_router_id a); value (au_router_epoch a);
  value (au_coordinator_epoch a); value (au_request_id a);
  value (au_request_generation a); value (au_decision_id a);
  value (au_decision_generation a); value (au_model_id a);
  value (au_model_generation a); value (au_artifact_generation a);
  value (au_provider_id a); value (au_provider_generation a);
  value (au_backend_id a); value (au_backend_generation a);
  value (au_backend_boot a); value (au_registration_generation a);
  value (au_endpoint_id a); value (au_endpoint_generation a);
  value (au_capability_profile_id a); value (au_capability_generation a);
  value (au_policy_id a); value (au_policy_generation a);
  value (au_budget_id a); value (au_budget_generation a);
  value (au_cost_evidence_id a); value (au_price_generation a);
  value (au_slo_id a); value (au_slo_generation a);
  value (au_compatibility_profile_id a); value (au_compatibility_generation a);
  value (au_trust_profile_id a); value (au_trust_generation a);
  value (au_health_generation a); value (au_availability_generation a);
  value (au_readiness_generation a); value (au_residency_generation a);
  value (au_capacity_generation a); value (au_reservation_id a);
  value (au_reservation_generation a); value (au_tenant a);
  value (au_name_space a); value (au_dispatch_generation a)].

Definition authority_text (a : RouteAuthority) : string :=
  String.concat "" ((fun v => to_string_int v +:+ ",") <$> authority_values a).

Definition authority_digest (a : RouteAuthority) : string := sha256_hex (authority_text a).

Module Currentness.
Inductive t := CURRENT | STALE | REVALIDATION_REQUIRED | RECONSTRUCTED | kCount.

#[export] Instance eq_dec : EqDecision t.
Proof. solve_decision. Defined.

(** [static_cast] to the underlying integer. *)
Definition index (s : t) : Z :=
  match s with CURRENT => 0 | STALE => 1 | REVALIDATION_REQUIRED => 2 | RECONSTRUCTED => 3 | kCount => 4 end.

Definition to_string (s : t) : string :=
  match s with
  | CURRENT => "CURRENT"
  | STALE => "STALE"
  | REVALIDATION_REQUIRED => "REVALIDATION_REQUIRED"
  | RECONSTRUCTED => "RECONSTRUCTED"
  | kCount => "INVALID"
  end.
End Currentness.
Export (hints) Currentness.

(** ** What the comparison promises *)

(** The values a component stands for. *)
Definition component_values (a : RouteAuthority) (c : AuthorityComponent.t) : list Z :=
  match c with
  | AuthorityComponent.ROUTER_EPOCH => [value (au_router_epoch a)]
  | AuthorityComponent.COORDINATOR_EPOCH => [value (au_coordinator_epoch a)]
  | AuthorityComponent.REQUEST => [value (au_request_id a); value (au_request_generation a)]
  | AuthorityComponent.MODEL => [value (au_model_id a); value (au_model_generation a)]
  | AuthorityComponent.ARTIFACT => [value (au_artifact_generation a)]
  | AuthorityComponent.PROVIDER => [value (au_provider_id a); value (au_provider_generation a)]
  | AuthorityComponent.BACKEND => [value (au_backend_id a); value (au_backend_generation a); value (au_registration_generation a)]
  | AuthorityComponent.BACKEND_BOOT => [value (au_backend_boot a)]
  | AuthorityComponent.ENDPOINT => [value (au_endpoint_id a); value (au_endpoint_generation a)]
  | AuthorityComponent.CAPABILITY => [value (au_capability_profile_id a); value (au_capability_generation a)]
  | AuthorityComponent.POLICY => [value (au_policy_id a); value (au_policy_generation a)]
  | AuthorityComponent.BUDGET => [value (au_budget_id a); value (au_budget_generation a)]
  | AuthorityComponent.PRICE => [value (au_cost_evidence_id a); value (au_price_generation a)]
  | AuthorityComponent.SLO => [value (au_slo_id a); value (au_slo_generation a)]
  | AuthorityComponent.COMPATIBILITY => [value (au_compatibility_profile_id a); value (au_compatibility_generation a)]
  | AuthorityComponent.TRUST => [value (au_trust_profile_id a); value (au_trust_generation a)]
  | AuthorityComponent.HEALTH => [value (au_health_generation a)]
  | AuthorityComponent.AVAILABILITY => [value (au_availability_generation a)]
  | AuthorityComponent.READINESS => [value (au_readiness_generation a)]
  | AuthorityComponent.RESIDENCY => [value (au_residency_generation a)]
  | AuthorityComponent.CAPACITY => [value (au_capacity_generation a)]
  | AuthorityComponent.RESERVATION => [value (au_reservation_id a); value (au_reservation_generation a)]
  | AuthorityComponent.TENANCY => [value (au_tenant a); value (au_name_space a)]
  | AuthorityComponent.DISPATCH => [value (au_dispatch_generation a)]
  | _ => []
  end.

(** The outcome that names a stale component. *)
Definition stale_code (c : AuthorityComponent.t) : OutcomeCode.t :=
  match c with
  | AuthorityComponent.ROUTER_EPOCH => OutcomeCode.REJECT_STALE_ROUTER_EPOCH
  | AuthorityComponent.COORDINATOR_EPOCH => OutcomeCode.REJECT_STALE_COORDINATOR_EPOCH
  | AuthorityComponent.REQUEST => OutcomeCode.REJECT_STALE_REQUEST
  | AuthorityComponent.MODEL => OutcomeCode.REJECT_STALE_MODEL
  | AuthorityComponent.ARTIFACT => OutcomeCode.REJECT_STALE_ARTIFACT
  | AuthorityComponent.PROVIDER => OutcomeCode.REJECT_STALE_BACKEND
  | AuthorityComponent.BACKEND => OutcomeCode.REJECT_STALE_BACKEND
  | AuthorityComponent.BACKEND_BOOT => OutcomeCode.REJECT_STALE_BACKEND_BOOT
  | AuthorityComponent.ENDPOINT => OutcomeCode.REJECT_STALE_ENDPOINT
  | AuthorityComponent.CAPABILITY => OutcomeCode.REJECT_STALE_CAPABILITY
  | AuthorityComponent.POLICY => OutcomeCode.REJECT_STALE_POLICY
  | AuthorityComponent.BUDGET => OutcomeCode.REJECT_STALE_BUDGET
  | AuthorityComponent.PRICE => OutcomeCode.REJECT_STALE_PRICE
  | AuthorityComponent.SLO => OutcomeCode.REJECT_STALE_SLO
  | AuthorityComponent.COMPATIBILITY => OutcomeCode.REJECT_STALE_COMPATIBILITY
  | AuthorityComponent.TRUST => OutcomeCode.REJECT_STALE_TRUST
  | AuthorityComponent.HEALTH => OutcomeCode.REJECT_STALE_HEALTH
  | AuthorityComponent.AVAILABILITY => OutcomeCode.REJECT_STALE_AVAILABILITY
  | AuthorityComponent.READINESS => OutcomeCode.REJECT_STALE_READINESS
  | AuthorityComponent.RESIDENCY => OutcomeCode.REJECT_STALE_RESIDENCY
  | AuthorityComponent.CAPACITY => OutcomeCode.REJECT_STALE_CAPACITY
  | AuthorityComponent.RESERVATION => OutcomeCode.REJECT_STALE_RESERVATION
  | AuthorityComponent.TENANCY => OutcomeCode.REJECT_CONFLICT
  | AuthorityComponent.DISPATCH => OutcomeCode.REJECT_STALE_REQUEST
  | _ => OutcomeCode.REVALIDATION_REQUIRED
  end.

(** The required components whose values differ, in bit order. *)
Definition stale_components (bound current : RouteAuthority) (required : AuthorityMask)
    : list AuthorityComponent.t :=
  filter (fun c => mask_contains required c = true /\
                   component_values bound c <> component_values current c)
         AuthorityComponent.all.

(** ** Facts *)

#[export] Instance component_bits_inj : Inj (=) (=) AuthorityComponent.bits.
Proof. intros [] []; simpl; congruence. Qed.

#[export] Instance difference_less_swb : StrictWeakB difference_less.
Proof.
  set (fields d := [AuthorityComponent.bits (df_component d); df_bound d; df_current d]).
  assert (forall l r, difference_less l r = lex_ltb (fields l) (fields r)) as E.
  { intros l r. unfold difference_less, fields.
    rewrite (lex_step AuthorityComponent.bits), lex_step_Z. simpl.
    by destruct (df_current l <? df_current r), (df_current r <? df_current l). }
  destruct (swb_on lex_ltb fields) as [H1 H2 H3].
  split; intros *; rewrite !E; [apply H1 | apply H2 | apply H3].
Qed.

Definition component_records (bound current : RouteAuthority) (c : AuthorityComponent.t)
    : list AuthorityDifference :=
  zip_with (fun b v => {| df_component := c; df_bound := b; df_current := v; df_code := stale_code c |})
           (component_values bound c) (component_values current c).

Lemma recorded_components bound current :
  recorded bound current = AuthorityComponent.all ≫= component_records bound current.
Proof. reflexivity. Qed.

Lemma component_records_spec bound current c d :
  d ∈ component_records bound current c -> df_component d = c /\ df_code d = stale_code c.
Proof. unfold component_records. by intros (b & v & -> & _ & _)%elem_of_zip_with. Qed.

Lemma zip_with_differs {A} (f : Z -> Z -> A) (xs ys : list Z) :
  length xs = length ys -> xs <> ys -> exists b v, b <> v /\ f b v ∈ zip_with f xs ys.
Proof.
  revert ys. induction xs as [|x xs IH]; intros [|y ys] Hl Hn; try done.
  destruct (decide (x = y)) as [->|Hxy].
  - destruct (IH ys) as (b & v & Hbv & Hin); [by injection Hl | congruence |].
    exists b, v. split; [done|]. simpl. by right.
  - exists x, y. split; [done|]. simpl. by left.
Qed.

Lemma zip_with_same {A} (f : Z -> Z -> A) (xs : list Z) d :
  d ∈ zip_with f xs xs -> exists b, d = f b b.
Proof.
  induction xs as [|x xs IH]; simpl; [by intros ?%elem_of_nil|].
  intros [->|?]%elem_of_cons; [by exists x | by apply IH].
Qed.

Lemma component_values_length a a' c : length (component_values a c) = length (component_values a' c).
Proof. by destruct c. Qed.

(** The recorded differences are those of the stale components. *)
Lemma kept_component bound current required c :
  (exists d, d ∈ kept bound current required /\ df_component d = c) <->
  c ∈ stale_components bound current required.
Proof.
  unfold kept, stale_components. rewrite list_elem_of_filter, recorded_components. split.
  - intros (d & Hd & <-). apply list_elem_of_In, filter_In in Hd as [Hd [Hm Hne]%andb_true_iff].
    apply list_elem_of_In, list_elem_of_bind in Hd as (c & Hd & Hc).
    pose proof Hd as [E _]%component_records_spec. rewrite E in *.
    split; [split; [done|]|done]. intros Heq.
    unfold component_records in Hd. rewrite Heq in Hd. apply zip_with_same in Hd as [b ->].
    simpl in Hne. by rewrite Z.eqb_refl in Hne.
  - intros [[Hm Hne] Hc].
    edestruct (zip_with_differs (fun b v => {| df_component := c; df_bound := b; df_current := v;
                 df_code := stale_code c |})) as (b & v & Hbv & Hin);
      [apply (component_values_length bound current c) | exact Hne |].
    eexists {| df_component := c; df_bound := b; df_current := v; df_code := stale_code c |}.
    split; [|reflexivity]. apply list_elem_of_In, filter_In. split.
    + apply list_elem_of_In, list_elem_of_bind. by exists c.
    + simpl. rewrite Hm. by apply negb_true_iff, Z.eqb_neq.
Qed.

Lemma kept_code bound current required d :
  d ∈ kept bound current required -> df_code d = stale_code (df_component d).
Proof.
  unfold kept. rewrite recorded_components, list_elem_of_In, filter_In, <- list_elem_of_In.
  intros [(c & [-> ->]%component_records_spec & _)%list_elem_of_bind _]. done.
Qed.

Lemma stale_components_sorted bound current required c l :
  stale_components bound current required = c :: l ->
  forall c', c' ∈ stale_components bound current required ->
  AuthorityComponent.bits c <= AuthorityComponent.bits c'.
Proof.
  assert (StronglySorted (fun x y => AuthorityComponent.bits x <= AuthorityComponent.bits y)
            AuthorityComponent.all) as Hs by (repeat constructor; discriminate).
  intros E c' Hc'. unfold stale_components in *.
  apply (StronglySorted_filter _ (fun c => mask_contains required c = true /\
    component_values bound c <> component_values current c)) in Hs.
  rewrite E in Hs, Hc'. apply StronglySorted_cons in Hs as [Hs _].
  apply elem_of_cons in Hc' as [->|Hc']; [lia|]. rewrite Forall_forall in Hs. by apply Hs.
Qed.

(** No required component is stale exactly when each has the same values. *)
Lemma stale_components_none bound current required :
  stale_components bound current required = [] <->
  forall c, c ∈ AuthorityComponent.all -> mask_contains required c = true ->
  component_values bound c = component_values current c.
Proof.
  unfold stale_components. rewrite filter_empty_iff.
  split; intros H c Hc; specialize (H c Hc); [intros Hm | intros [Hm Hn]].
  - apply dec_stable. tauto.
  - tauto.
Qed.

(** A comparison that is not current carries a rejection. *)
Lemma compare_authority_rejects bound current required :
  comparison_current (compare_authority bound current required) = false ->
  OutcomeCode.is_rejection (cm_code (compare_authority bound current required)) = true.
Proof.
  unfold compare_authority, comparison_current.
  destruct (stable_sort difference_less (kept bound current required)) as [|d ds] eqn:E; simpl; [done|].
  intros _. assert (Hd : d ∈ kept bound current required).
  { rewrite <- (elem_of_stable_sort difference_less), E. by left. }
  rewrite (kept_code _ _ _ _ Hd).
  assert (Hs : df_component d ∈ stale_components bound current required)
    by (apply kept_component; by exists d).
  apply list_elem_of_filter in Hs as [_ Hs]. revert Hs.
  generalize (df_component d). intros c Hc.
  repeat (apply elem_of_cons in Hc as [->|Hc]; [reflexivity|]). by apply elem_of_nil in Hc.
Qed.

(** ** Properties *)

(** The comparison accepts exactly when no required component differs, and
    otherwise reports the outcome of the lowest differing component, whatever
    the values are; the differences it lists are of the differing components. *)
Theorem compare_authority_spec (bound current : RouteAuthority) (required : AuthorityMask) :
  let r := compare_authority bound current required in
  cm_code r = match stale_components bound current required with
              | [] => OutcomeCode.ACCEPTED
              | c :: _ => stale_code c
              end /\
  (comparison_current r = true <->
   forall c, c ∈ AuthorityComponent.all -> mask_contains required c = true ->
   component_values bound c = component_values current c) /\
  (forall d, d ∈ cm_differences r -> df_component d ∈ stale_components bound current required).
Proof.
  cbv zeta. unfold compare_authority, comparison_current.
  pose proof (kept_component bound current required) as Hk.
  pose proof (kept_code bound current required) as Hcode.
  pose proof (stale_components_sorted bound current required) as Hsorted.
  rewrite <- stale_components_none.
  destruct (stable_sort difference_less (kept bound current required)) as [|d ds] eqn:E; simpl.
  - assert (kept bound current required = []) as Ek.
    { apply Permutation_nil. rewrite <- E. apply (stable_sort_perm difference_less). }
    assert (stale_components bound current required = []) as ->.
    { apply elem_of_nil_inv. intros c (d & Hd & _)%Hk. rewrite Ek in Hd. by apply elem_of_nil in Hd. }
    split_and!; [done..|]. by intros d ?%elem_of_nil.
  - assert (forall y, y ∈ d :: ds <-> y ∈ kept bound current required) as Hel.
    { intros y. by rewrite <- E, elem_of_stable_sort. }
    assert (Hd : d ∈ kept bound current required) by (apply Hel; left).
    assert (df_component d ∈ stale_components bound current required) as Hc
      by (apply Hk; by exists d).
    destruct (stale_components bound current required) as [|c l] eqn:Es; [by apply elem_of_nil in Hc|].
    split_and!; [|done|].
    + rewrite (Hcode d Hd). f_equal. apply (inj AuthorityComponent.bits).
      apply Z.le_antisymm; [|by apply (Hsorted c l)].
      destruct (proj2 (Hk c)) as (y & Hy & <-); [left|].
      pose proof (stable_sort_sorted difference_less (kept bound current required)) as Hs.
      rewrite E in Hs. apply StronglySorted_cons in Hs as [Hs _]. rewrite Forall_forall in Hs.
      apply Hel, elem_of_cons in Hy as [->|Hy]; [lia|]. specialize (Hs y Hy).
      unfold not_after, difference_less in Hs. revert Hs. case_bool_decide as Eq; simpl.
      * rewrite Eq. lia.
      * intros ?%Z.ltb_ge. done.
    + intros y Hy. apply Hk. exists y. split; [by apply Hel|done].
Qed.

(** An authority always agrees with itself. *)
Lemma compare_authority_refl a required :
  compare_authority a a required = {| cm_code := OutcomeCode.ACCEPTED; cm_differences := [] |}.
Proof.
  unfold compare_authority.
  assert (kept a a required = []) as ->; [|done].
  apply elem_of_nil_inv. intros d Hd. assert (df_component d ∈ stale_components a a required) as Hs
    by (apply kept_component; by exists d).
  apply list_elem_of_filter in Hs as [[_ H] _]. by apply H.
Qed.

(** Only the required components are compared. *)
Lemma compare_authority_current bound current required :
  comparison_current (compare_authority bound current required) = true <->
  stale_components bound current required = [].
Proof.
  unfold compare_authority, comparison_current.
  pose proof (kept_component bound current required) as Hk.
  destruct (stable_sort difference_less (kept bound current required)) as [|d ds] eqn:E; simpl.
  - split; [intros _|done]. apply elem_of_nil_inv. intros c (d & Hd & _)%Hk.
    rewrite <- (elem_of_stable_sort difference_less), E in Hd. by apply elem_of_nil in Hd.
  - split; [done|]. intros Hs. exfalso. apply (not_elem_of_nil (df_component d)).
    rewrite <- Hs. apply Hk. exists d. split; [|done].
    rewrite <- (elem_of_stable_sort difference_less), E. by left.
Qed.

(** The text behind [authority_digest] determines the binding: two
    authorities with the same text agree on every identity and generation, so
    they can differ only in their issue and expiry times. *)
Theorem authority_text_determines (a b : RouteAuthority) :
  authority_text a = authority_text b <->
  b = a <| au_issued_at := au_issued_at b |> <| au_expires_at := au_expires_at b |>.
Proof.
  split.
  - intros E. unfold authority_text in E.
    apply (separated_inj (Ascii.ascii_of_nat 44)) in E.
    2: { intros n. unfold pretty_N_char. by repeat case_match. }
    2: discriminate.
    destruct a, b. unfold authority_values in E. simpl in *.
    repeat match goal with H : _ :: _ = _ :: _ |- _ => injection H as H ? end.
    f_equal; (reflexivity || (symmetry; by apply (inj value))).
  - intros ->. reflexivity.
Qed.
