(* ===== verification/Eligibility.v ===== *)
(** * Hard eligibility ([src/eligibility.hpp], [src/eligibility.cpp])

    The predicates that run before ranking.  Each part of
    [evaluate_hard_eligibility] returns the rejection it makes, if any; the
    whole function chains the parts in the order of the code. *)
From S2P Require Import Prelude Ids Outcome Clock Capability Evidence Catalog Request Candidate.
From S2P Require Import Policy.

(** ** Data *)

Record CandidateEvidence := {
  ce_cost : CostEvidence;
  ce_compatibility : CompatibilityEvidence;
  ce_trust : TrustEvidence;
  ce_slo : SloEvidence;
  ce_slo_verdict : SloVerdict.t;
  ce_slo_verdict_known : bool;
  ce_reservation : ReservationEvidence;
  ce_reservation_present : bool
}.
#[export] Instance candidate_evidence_eta : Eta CandidateEvidence := fun r =>
  {| ce_cost := ce_cost r; ce_compatibility := ce_compatibility r; ce_trust := ce_trust r;
     ce_slo := ce_slo r; ce_slo_verdict := ce_slo_verdict r;
     ce_slo_verdict_known := ce_slo_verdict_known r; ce_reservation := ce_reservation r;
     ce_reservation_present := ce_reservation_present r |}.
Definition candidate_evidence_default : CandidateEvidence := {|
  ce_cost := cost_evidence_default;
  ce_compatibility := compatibility_evidence_default;
  ce_trust := trust_evidence_default;
  ce_slo := slo_evidence_default;
  ce_slo_verdict := SloVerdict.UNKNOWN;
  ce_slo_verdict_known := false;
  ce_reservation := reservation_evidence_default;
  ce_reservation_present := false
|}.

(** The pointers of the input: [None] is the null pointer. *)
Record EligibilityInput := {
  in_request : option RouteRequest;
  in_candidate : option RouteCandidate;
  in_policy : option PolicySnapshot;
  in_budget : option BudgetSnapshot;
  in_evidence : option CandidateEvidence;
  in_now : UnixMillis
}.

Record EligibilityVerdict := {
  el_code : OutcomeCode.t;
  el_detail : string
}.

Definition eligible (v : EligibilityVerdict) : bool := el_code v == OutcomeCode.ACCEPTED.
Definition eligibility_ok : EligibilityVerdict := {| el_code := OutcomeCode.ACCEPTED; el_detail := "" |}.
Definition fail (code : OutcomeCode.t) (detail : string) : option EligibilityVerdict :=
  Some {| el_code := code; el_detail := detail |}.

(** The capability keys the shape checks name. *)
Definition key_structured_output := CapabilityKeyOf "output/structured".
Definition key_json_schema := CapabilityKeyOf "output/json-schema".
Definition key_tool_calling := CapabilityKeyOf "tool/calling".
Definition key_streaming := CapabilityKeyOf "output/streaming".
Definition key_logprobs := CapabilityKeyOf "output/logprobs".
Definition key_deterministic_seed := CapabilityKeyOf "behavior/deterministic-seed".

(** ** Capabilities, modalities and shape *)

(** The lambda [satisfies] of [check_capabilities]. *)
Definition satisfies (now : UnixMillis) (evidence : option CapabilityEvidence)
    (minimum : CapabilityState.t) : bool :=
  match evidence with
  | None => false
  | Some e =>
      is_satisfying (ce_state e) && negb (ce_expired e now) &&
      (evidence_strength minimum <=? evidence_strength (ce_state e))
  end.

(** The body of the loop for one requirement. *)
Definition check_capability (candidate : RouteCandidate) (now : UnixMillis)
    (requirement : CapabilityRequirement) : option EligibilityVerdict :=
  let name := key_string (cr_key requirement) in
  let model_evidence := profile_find (md_capabilities (rc_model candidate)) (cr_key requirement) in
  let backend_evidence := profile_find (bd_capabilities (rc_backend candidate)) (cr_key requirement) in
  return_if satisfies now model_evidence (cr_minimum_state requirement) ||
            satisfies now backend_evidence (cr_minimum_state requirement)
    with None ;;
  match model_evidence ∪ backend_evidence with
  | None => fail OutcomeCode.REJECT_CAPABILITY ("capability " +:+ name +:+ " has no evidence")
  | Some present =>
      return_if ce_state present == CapabilityState.UNKNOWN
        with fail OutcomeCode.REJECT_UNKNOWN_EVIDENCE ("capability " +:+ name +:+ " is UNKNOWN") ;;
      return_if negb (is_satisfying (ce_state present))
        with fail OutcomeCode.REJECT_CAPABILITY
               ("capability " +:+ name +:+ " is " +:+ CapabilityState.to_string (ce_state present)) ;;
      return_if ce_expired present now
        with fail OutcomeCode.REJECT_CAPABILITY ("capability " +:+ name +:+ " evidence is stale") ;;
      fail OutcomeCode.REJECT_CAPABILITY
        ("capability " +:+ name +:+
         " evidence is weaker than the required minimum evidence state")
  end.

Fixpoint check_capabilities (candidate : RouteCandidate) (now : UnixMillis)
    (requirements : list CapabilityRequirement) : option EligibilityVerdict :=
  match requirements with
  | [] => None
  | requirement :: requirements =>
      check_capability candidate now requirement ∪ check_capabilities candidate now requirements
  end.

Definition check_modalities (requirements : RouteRequirements) (candidate : RouteCandidate)
    : option EligibilityVerdict :=
  return_if negb (modality_covers (md_input_modalities (rc_model candidate))
                                  (rq_input_modalities requirements))
    with fail OutcomeCode.REJECT_MODALITY "model does not support a required input modality" ;;
  return_if negb (modality_covers (md_output_modalities (rc_model candidate))
                                  (rq_output_modalities requirements))
    with fail OutcomeCode.REJECT_MODALITY "model does not support a required output modality" ;;
  None.

(** The lambda [has_capability] of [check_shape]. *)
Definition has_capability (candidate : RouteCandidate) (now : UnixMillis) (key : CapabilityKey) : bool :=
  match profile_find (md_capabilities (rc_model candidate)) key with
  | None => false
  | Some found => is_satisfying (ce_state found) && negb (ce_expired found now)
  end.

Definition check_shape (q : RouteRequirements) (candidate : RouteCandidate)
    (evidence : CandidateEvidence) (now : UnixMillis) : option EligibilityVerdict :=
  let has := has_capability candidate now in
  let compatibility := ce_compatibility evidence in
  return_if rq_require_structured_output q && negb (has key_structured_output)
    with fail OutcomeCode.REJECT_STRUCTURED_OUTPUT "structured output is required but not proven" ;;
  return_if rq_require_json_schema q && negb (has key_json_schema)
    with fail OutcomeCode.REJECT_STRUCTURED_OUTPUT "JSON schema output is required but not proven" ;;
  return_if rq_require_tool_calling q && negb (has key_tool_calling)
    with fail OutcomeCode.REJECT_TOOL_CALLING "tool calling is required but not proven" ;;
  return_if rq_require_streaming q && negb (has key_streaming)
    with fail OutcomeCode.REJECT_STREAMING "streaming is required but not proven" ;;
  return_if rq_require_logprobs q && negb (has key_logprobs)
    with fail OutcomeCode.REJECT_CAPABILITY "logprobs are required but not proven" ;;
  return_if rq_require_deterministic_seed q && negb (has key_deterministic_seed)
    with fail OutcomeCode.REJECT_CAPABILITY "deterministic seeding is required but not proven" ;;
  return_if rq_required_protocol q != "" && negb (compatibility_current compatibility now)
    with fail OutcomeCode.REJECT_UNKNOWN_EVIDENCE
           "protocol compatibility is required but UNKNOWN or stale" ;;
  return_if rq_required_protocol q != "" &&
            (cp_protocol compatibility != rq_required_protocol q ||
             (negb (rq_required_protocol_version q =? 0) &&
              negb (cp_protocol_version compatibility =? rq_required_protocol_version q)))
    with fail OutcomeCode.REJECT_COMPATIBILITY "protocol identity or version is not compatible" ;;
  None.

(** ** Identity and lifecycle *)

Definition check_model (candidate : RouteCandidate) (now : UnixMillis) : option EligibilityVerdict :=
  let key := rc_key candidate in
  let model := rc_model candidate in
  return_if negb (key_complete key)
    with fail OutcomeCode.REJECT_INVALID "candidate identity is incomplete" ;;
  return_if md_lifecycle model == ModelLifecycle.RETIRED
    with fail OutcomeCode.REJECT_RETIRED "model generation is retired" ;;
  return_if negb (model_current model now)
    with fail OutcomeCode.REJECT_STALE_MODEL "model generation is not the current lifecycle state" ;;
  return_if negb (valid (ck_model_generation key)) || negb (valid (ck_artifact_generation key))
    with fail OutcomeCode.REJECT_STALE_ARTIFACT "model or artifact generation is not valid" ;;
  return_if ck_model_generation key != md_model_generation model ||
            ck_artifact_generation key != md_artifact_generation model
    with fail OutcomeCode.REJECT_STALE_MODEL
           "candidate identity does not match the current model generation" ;;
  match find_binding (rc_backend candidate) (ck_model_id key) with
  | None => fail OutcomeCode.REJECT_STALE_MODEL "backend no longer binds this model"
  | Some binding =>
      return_if mb_model_generation binding != ck_model_generation key ||
                mb_artifact_generation binding != ck_artifact_generation key
        with fail OutcomeCode.REJECT_STALE_MODEL
               "backend binding is not for the current model generation" ;;
      None
  end.

Definition check_incarnation (candidate : RouteCandidate) : option EligibilityVerdict :=
  let key := rc_key candidate in
  let backend := rc_backend candidate in
  return_if bd_backend_boot backend != ck_backend_boot key ||
            bd_backend_generation backend != ck_backend_generation key
    with fail OutcomeCode.REJECT_STALE_BACKEND_BOOT
           "candidate identity does not match the current backend incarnation" ;;
  return_if backend_retired backend with fail OutcomeCode.REJECT_RETIRED "backend is retired" ;;
  return_if backend_draining backend with fail OutcomeCode.REJECT_DRAINING "backend is draining" ;;
  return_if ep_endpoint_generation (rc_endpoint candidate) != ck_endpoint_generation key ||
            ep_endpoint_id (rc_endpoint candidate) != ck_endpoint_id key
    with fail OutcomeCode.REJECT_STALE_ENDPOINT
           "endpoint generation is not the current endpoint generation" ;;
  None.

(** ** Live evidence *)

(** The block each of availability, health, readiness, residency and capacity
    goes through, under its [require_...] flag. *)
Definition check_live {S g} `{EqDecision S} (required : bool) (e : BackendEvidence S g)
    (unknown wanted : S) (boot : Generation BackendBootTag) (now : UnixMillis)
    (stale_code bad_code : OutcomeCode.t) (subject : string) (bad : string)
    : option EligibilityVerdict :=
  return_if required && (negb (valid (ev_generation e)) || ev_state e == unknown)
    with fail OutcomeCode.REJECT_UNKNOWN_EVIDENCE (subject +:+ " is UNKNOWN") ;;
  return_if required && ev_expired e now
    with fail stale_code (subject +:+ " evidence is stale") ;;
  return_if required && ev_backend_boot e != boot
    with fail OutcomeCode.REJECT_STALE_BACKEND_BOOT
           (subject +:+ " evidence belongs to a different incarnation") ;;
  return_if required && ev_state e != wanted with fail bad_code bad ;;
  None.

Definition check_availability (q : RouteRequirements) (c : RouteCandidate) (now : UnixMillis) :=
  check_live (rq_require_available q) (bd_availability (rc_backend c))
    AvailabilityState.UNKNOWN AvailabilityState.AVAILABLE (ck_backend_boot (rc_key c)) now
    OutcomeCode.REJECT_STALE_AVAILABILITY OutcomeCode.REJECT_UNAVAILABLE
    "backend availability" "backend is not available".
Definition check_health (q : RouteRequirements) (c : RouteCandidate) (now : UnixMillis) :=
  check_live (rq_require_healthy q) (bd_health (rc_backend c))
    HealthState.UNKNOWN HealthState.HEALTHY (ck_backend_boot (rc_key c)) now
    OutcomeCode.REJECT_STALE_HEALTH OutcomeCode.REJECT_UNHEALTHY
    "backend health" "backend is not healthy".
Definition check_readiness (q : RouteRequirements) (c : RouteCandidate) (now : UnixMillis) :=
  check_live (rq_require_ready q) (bd_readiness (rc_backend c))
    ReadinessState.UNKNOWN ReadinessState.READY (ck_backend_boot (rc_key c)) now
    OutcomeCode.REJECT_STALE_READINESS OutcomeCode.REJECT_NOT_READY
    "backend readiness" "backend is not ready".
Definition check_residency (q : RouteRequirements) (c : RouteCandidate) (now : UnixMillis) :=
  check_live (rq_require_resident q) (bd_residency (rc_backend c))
    ResidencyState.UNKNOWN ResidencyState.RESIDENT (ck_backend_boot (rc_key c)) now
    OutcomeCode.REJECT_STALE_RESIDENCY OutcomeCode.REJECT_RESIDENCY
    "model residency" "model is not resident".
Definition check_capacity (q : RouteRequirements) (c : RouteCandidate) (now : UnixMillis) :=
  check_live (rq_require_capacity q) (bd_capacity (rc_backend c))
    CapacityState.UNKNOWN CapacityState.AVAILABLE (ck_backend_boot (rc_key c)) now
    OutcomeCode.REJECT_STALE_CAPACITY OutcomeCode.REJECT_CAPACITY
    "backend capacity" "backend capacity is saturated".

Definition check_reservation (q : RouteRequirements) (c : RouteCandidate)
    (evidence : CandidateEvidence) (now : UnixMillis) : option EligibilityVerdict :=
  let reservation := ce_reservation evidence in
  return_if rq_require_reservation q && negb (ce_reservation_present evidence)
    with fail OutcomeCode.REJECT_RESERVATION "a current reservation is required but absent" ;;
  return_if rq_require_reservation q && negb (reservation_current reservation now)
    with fail OutcomeCode.REJECT_STALE_RESERVATION "reservation is stale or expired" ;;
  return_if rq_require_reservation q &&
            (rs_backend_id reservation != ck_backend_id (rc_key c) ||
             rs_backend_boot reservation != ck_backend_boot (rc_key c))
    with fail OutcomeCode.REJECT_RESERVATION
           "reservation is not bound to this backend incarnation" ;;
  None.

Definition check_live_evidence (q : RouteRequirements) (c : RouteCandidate)
    (evidence : CandidateEvidence) (now : UnixMillis) : option EligibilityVerdict :=
  check_availability q c now ∪ check_health q c now ∪ check_readiness q c now ∪
  check_residency q c now ∪ check_capacity q c now ∪ check_reservation q c evidence now.

(** ** Limits, filters and placement *)

Definition check_limits (q : RouteRequirements) (c : RouteCandidate) : option EligibilityVerdict :=
  return_if rc_context_limit_tokens c <? rq_min_context_tokens q
    with fail OutcomeCode.REJECT_CONTEXT_LIMIT "context limit is insufficient" ;;
  return_if md_max_output_tokens (rc_model c) <? rq_max_output_tokens q
    with fail OutcomeCode.REJECT_CONTEXT_LIMIT "maximum output length exceeds the model limit" ;;
  return_if negb (rq_quality_floor q =? kUnclassifiedQuality) &&
            (rc_quality_class c =? kUnclassifiedQuality)
    with fail OutcomeCode.REJECT_UNKNOWN_EVIDENCE
           "a quality floor is required but candidate quality is unclassified" ;;
  return_if negb (rq_quality_floor q =? kUnclassifiedQuality) &&
            (rc_quality_class c <? rq_quality_floor q)
    with fail OutcomeCode.REJECT_QUALITY "candidate quality is below the required floor" ;;
  None.

Definition check_filters (q : RouteRequirements) (c : RouteCandidate) : option EligibilityVerdict :=
  let key := rc_key c in
  let family := md_family_id (rc_model c) in
  let provider := bd_provider_id (rc_backend c) in
  return_if negb (is_empty (rq_model_allowlist q)) && negb (contains (rq_model_allowlist q) (ck_model_id key))
    with fail OutcomeCode.REJECT_AFFINITY "model is not in the request allowlist" ;;
  return_if contains (rq_model_denylist q) (ck_model_id key)
    with fail OutcomeCode.REJECT_AFFINITY "model is in the request denylist" ;;
  return_if negb (is_empty (rq_family_allowlist q)) && negb (contains (rq_family_allowlist q) family)
    with fail OutcomeCode.REJECT_AFFINITY "model family is not in the request allowlist" ;;
  return_if contains (rq_family_denylist q) family
    with fail OutcomeCode.REJECT_AFFINITY "model family is in the request denylist" ;;
  return_if negb (is_empty (rq_provider_allowlist q)) && negb (contains (rq_provider_allowlist q) provider)
    with fail OutcomeCode.REJECT_AFFINITY "provider is not in the request allowlist" ;;
  return_if contains (rq_provider_denylist q) provider
    with fail OutcomeCode.REJECT_AFFINITY "provider is in the request denylist" ;;
  return_if negb (is_empty (rq_backend_allowlist q)) && negb (contains (rq_backend_allowlist q) (ck_backend_id key))
    with fail OutcomeCode.REJECT_AFFINITY "backend is not in the request allowlist" ;;
  return_if contains (rq_backend_denylist q) (ck_backend_id key)
    with fail OutcomeCode.REJECT_AFFINITY "backend is in the request denylist" ;;
  None.

Definition check_placement (q : RouteRequirements) (c : RouteCandidate) : option EligibilityVerdict :=
  let domain := bd_trust_domain (rc_backend c) in
  let locality := bd_locality (rc_backend c) in
  return_if rq_local_only q && domain != TrustDomain.LOCAL
    with fail OutcomeCode.REJECT_LOCALITY "request is local-only" ;;
  return_if negb (rq_remote_allowed q) && domain != TrustDomain.LOCAL
    with fail OutcomeCode.REJECT_LOCALITY "request forbids remote placement" ;;
  return_if rq_offline_only q && negb (bd_offline_capable (rc_backend c))
    with fail OutcomeCode.REJECT_LOCALITY "request is offline-only" ;;
  return_if negb (is_empty (rq_required_localities q)) &&
            (locality_empty locality || negb (contains_key (rq_required_localities q) locality))
    with fail OutcomeCode.REJECT_RESIDENCY "backend locality is not an allowed locality" ;;
  return_if negb (locality_empty locality) && contains_key (rq_denied_localities q) locality
    with fail OutcomeCode.REJECT_RESIDENCY "backend locality is denied" ;;
  return_if rq_minimum_trust q != TrustDomain.UNKNOWN && domain == TrustDomain.UNKNOWN
    with fail OutcomeCode.REJECT_UNKNOWN_EVIDENCE
           "a trust floor is required but candidate trust is UNKNOWN" ;;
  return_if rq_minimum_trust q != TrustDomain.UNKNOWN &&
            (trust_rank domain <? trust_rank (rq_minimum_trust q))
    with fail OutcomeCode.REJECT_TRUST "candidate trust domain is below the required floor" ;;
  None.

(** ** Policy, budget, cost, SLO, latency, compatibility *)

Definition check_policy (policy : PolicySnapshot) (request : RouteRequest) (c : RouteCandidate)
    (now : UnixMillis) : option EligibilityVerdict :=
  let verdict := evaluate_candidate policy request c now in
  return_if negb (policy_allowed verdict)
    with fail (pv_code verdict)
           (if pv_detail verdict == "" then "policy denied the candidate" else pv_detail verdict) ;;
  None.

Definition check_budget (budget : option BudgetSnapshot) (request : RouteRequest) (now : UnixMillis)
    : option EligibilityVerdict :=
  match budget with
  | None => None
  | Some budget =>
      return_if negb (valid (rr_budget_id request)) with None ;;
      return_if negb (valid (bu_generation budget)) || bu_verdict budget == BudgetVerdict.UNKNOWN
        with fail OutcomeCode.REJECT_UNKNOWN_EVIDENCE "budget verdict is UNKNOWN" ;;
      return_if budget_expired budget now
        with fail OutcomeCode.REJECT_STALE_BUDGET "budget evidence is stale" ;;
      return_if valid (bu_budget_id budget) && bu_budget_id budget != rr_budget_id request
        with fail OutcomeCode.REJECT_STALE_BUDGET "budget identity does not match the request" ;;
      return_if bu_generation budget != rr_budget_generation request
        with fail OutcomeCode.REJECT_STALE_BUDGET
               "budget generation is not the request budget generation" ;;
      return_if bu_verdict budget == BudgetVerdict.DENIED
        with fail OutcomeCode.REJECT_BUDGET "budget verdict denies the request" ;;
      None
  end.

Definition check_cost (q : RouteRequirements) (cost : CostEvidence) (now : UnixMillis)
    : option EligibilityVerdict :=
  let needed := rq_require_known_cost q || rq_enforce_cost_ceiling q in
  return_if needed && negb (cost_known cost)
    with fail OutcomeCode.REJECT_COST_UNKNOWN
           "cost evidence is UNKNOWN and the request requires a known cost" ;;
  return_if needed && negb (cost_current cost now)
    with fail OutcomeCode.REJECT_STALE_PRICE "cost evidence is stale or has no unit identity" ;;
  return_if rq_enforce_cost_ceiling q &&
            negb (compatible_with (co_unit cost) (mo_unit (rq_maximum_cost q)))
    with fail OutcomeCode.REJECT_COST
           "candidate cost unit is not compatible with the request ceiling unit" ;;
  return_if rq_enforce_cost_ceiling q &&
            (mo_micros (rq_maximum_cost q) <? co_estimated_total_micros cost)
    with fail OutcomeCode.REJECT_COST "estimated request cost exceeds the ceiling" ;;
  None.

Definition check_slo (request : RouteRequest) (evidence : CandidateEvidence) (now : UnixMillis)
    : option EligibilityVerdict :=
  let slo := ce_slo evidence in
  return_if negb (rq_require_slo (rr_requirements request)) with None ;;
  return_if negb (valid (sl_generation slo)) || sl_verdict slo == SloVerdict.UNKNOWN
    with fail OutcomeCode.REJECT_UNKNOWN_EVIDENCE "SLO verdict is UNKNOWN" ;;
  return_if slo_expired slo now
    with fail OutcomeCode.REJECT_STALE_SLO "SLO evidence is stale" ;;
  return_if valid (sl_slo_id slo) && sl_slo_id slo != rr_slo_id request
    with fail OutcomeCode.REJECT_STALE_SLO "SLO identity does not match the request" ;;
  return_if sl_generation slo != rr_slo_generation request
    with fail OutcomeCode.REJECT_STALE_SLO "SLO generation is not the request SLO generation" ;;
  return_if sl_verdict slo == SloVerdict.INFEASIBLE
    with fail OutcomeCode.REJECT_SLO "SLO is infeasible for this candidate" ;;
  return_if negb (ce_slo_verdict_known evidence)
    with fail OutcomeCode.REJECT_UNKNOWN_EVIDENCE "per-candidate SLO feasibility is UNKNOWN" ;;
  return_if ce_slo_verdict evidence == SloVerdict.INFEASIBLE
    with fail OutcomeCode.REJECT_SLO "per-candidate SLO feasibility is infeasible" ;;
  return_if ce_slo_verdict evidence == SloVerdict.UNKNOWN
    with fail OutcomeCode.REJECT_UNKNOWN_EVIDENCE "per-candidate SLO feasibility is UNKNOWN" ;;
  None.

Definition check_latency (q : RouteRequirements) (c : RouteCandidate) (now : UnixMillis)
    : option EligibilityVerdict :=
  let latency := bd_latency (rc_backend c) in
  let limited := negb (rq_max_latency_micros q =? kUnspecified) in
  return_if rq_require_known_latency q && (lt_dispatch_micros latency =? kUnknownLatencyMicros)
    with fail OutcomeCode.REJECT_UNKNOWN_EVIDENCE "latency evidence is required but UNKNOWN" ;;
  return_if limited && (lt_dispatch_micros latency =? kUnknownLatencyMicros)
    with fail OutcomeCode.REJECT_UNKNOWN_EVIDENCE
           "a latency ceiling is required but latency is UNKNOWN" ;;
  return_if limited && latency_expired latency now
    with fail OutcomeCode.REJECT_UNKNOWN_EVIDENCE "latency evidence is stale" ;;
  return_if limited && (rq_max_latency_micros q <? lt_dispatch_micros latency)
    with fail OutcomeCode.REJECT_SLO "observed latency exceeds the request ceiling" ;;
  None.

Definition check_compatibility (q : RouteRequirements) (evidence : CandidateEvidence)
    (now : UnixMillis) : option EligibilityVerdict :=
  let compatibility := ce_compatibility evidence in
  return_if rq_require_known_compatibility q && negb (compatibility_current compatibility now)
    with fail OutcomeCode.REJECT_UNKNOWN_EVIDENCE
           "compatibility evidence is required but UNKNOWN or stale" ;;
  return_if rq_required_protocol q == "" && valid (cp_generation compatibility) &&
            cp_verdict compatibility == CompatibilityVerdict.INCOMPATIBLE
    with fail OutcomeCode.REJECT_COMPATIBILITY "compatibility evidence is incompatible" ;;
  None.

(** ** The whole evaluation *)

(** Every check in the order of the code: the first rejection, if any. *)
Definition first_rejection (request : RouteRequest) (c : RouteCandidate) (policy : PolicySnapshot)
    (budget : option BudgetSnapshot) (evidence : CandidateEvidence) (now : UnixMillis)
    : option EligibilityVerdict :=
  let q := rr_requirements request in
  check_model c now ∪ check_incarnation c ∪ check_live_evidence q c evidence now ∪
  check_capabilities c now (rq_required_capabilities q) ∪ check_modalities q c ∪
  check_shape q c evidence now ∪ check_limits q c ∪ check_filters q c ∪ check_placement q c ∪
  check_policy policy request c now ∪ check_budget budget request now ∪
  check_cost q (ce_cost evidence) now ∪ check_slo request evidence now ∪ check_latency q c now ∪
  check_compatibility q evidence now.

Definition evaluate_hard_eligibility (input : EligibilityInput) : EligibilityVerdict :=
  match in_request input, in_candidate input, in_policy input, in_evidence input with
  | Some request, Some candidate, Some policy, Some evidence =>
      default eligibility_ok
        (first_rejection request candidate policy (in_budget input) evidence (in_now input))
  | _, _, _, _ => {| el_code := OutcomeCode.REJECT_INVALID;
                     el_detail := "eligibility input is incomplete" |}
  end.

(** ** What makes a candidate eligible *)

(** The membership lists of canonical requirements. *)
Record requirements_sorted (q : RouteRequirements) : Prop := {
  sorted_model_allowlist : strictly_sorted_by id_ltb (rq_model_allowlist q);
  sorted_model_denylist : strictly_sorted_by id_ltb (rq_model_denylist q);
  sorted_family_allowlist : strictly_sorted_by id_ltb (rq_family_allowlist q);
  sorted_family_denylist : strictly_sorted_by id_ltb (rq_family_denylist q);
  sorted_provider_allowlist : strictly_sorted_by id_ltb (rq_provider_allowlist q);
  sorted_provider_denylist : strictly_sorted_by id_ltb (rq_provider_denylist q);
  sorted_backend_allowlist : strictly_sorted_by id_ltb (rq_backend_allowlist q);
  sorted_backend_denylist : strictly_sorted_by id_ltb (rq_backend_denylist q);
  sorted_required_localities : strictly_sorted_by locality_ltb (rq_required_localities q);
  sorted_denied_localities : strictly_sorted_by locality_ltb (rq_denied_localities q)
}.

Lemma requirements_canonicalize_sorted q : requirements_sorted (requirements_canonicalize q).
Proof. split; apply (sort_unique_strictly_sorted _). Qed.

(** A current observation of the wanted state about this incarnation. *)
Definition live {S g} (e : BackendEvidence S g) (wanted : S) (boot : Generation BackendBootTag)
    (now : UnixMillis) : Prop :=
  valid (ev_generation e) = true /\ ev_state e = wanted /\ ev_expired e now = false /\
  ev_backend_boot e = boot.

Record model_ok (c : RouteCandidate) (now : UnixMillis) : Prop := {
  ok_complete : key_complete (rc_key c) = true;
  ok_current : model_current (rc_model c) now = true;
  ok_model_generation : ck_model_generation (rc_key c) = md_model_generation (rc_model c);
  ok_artifact : ck_artifact_generation (rc_key c) = md_artifact_generation (rc_model c);
  ok_binding : exists b, find_binding (rc_backend c) (ck_model_id (rc_key c)) = Some b /\
    mb_model_generation b = ck_model_generation (rc_key c) /\
    mb_artifact_generation b = ck_artifact_generation (rc_key c)
}.

Record incarnation_ok (c : RouteCandidate) : Prop := {
  ok_boot : bd_backend_boot (rc_backend c) = ck_backend_boot (rc_key c);
  ok_backend_generation : bd_backend_generation (rc_backend c) = ck_backend_generation (rc_key c);
  ok_not_retired : backend_retired (rc_backend c) = false;
  ok_not_draining : backend_draining (rc_backend c) = false;
  ok_endpoint_generation : ep_endpoint_generation (rc_endpoint c) = ck_endpoint_generation (rc_key c);
  ok_endpoint : ep_endpoint_id (rc_endpoint c) = ck_endpoint_id (rc_key c)
}.

Record live_ok (q : RouteRequirements) (c : RouteCandidate) (ev : CandidateEvidence)
    (now : UnixMillis) : Prop := {
  ok_available : rq_require_available q = true ->
    live (bd_availability (rc_backend c)) AvailabilityState.AVAILABLE (ck_backend_boot (rc_key c)) now;
  ok_healthy : rq_require_healthy q = true ->
    live (bd_health (rc_backend c)) HealthState.HEALTHY (ck_backend_boot (rc_key c)) now;
  ok_ready : rq_require_ready q = true ->
    live (bd_readiness (rc_backend c)) ReadinessState.READY (ck_backend_boot (rc_key c)) now;
  ok_resident : rq_require_resident q = true ->
    live (bd_residency (rc_backend c)) ResidencyState.RESIDENT (ck_backend_boot (rc_key c)) now;
  ok_capacity : rq_require_capacity q = true ->
    live (bd_capacity (rc_backend c)) CapacityState.AVAILABLE (ck_backend_boot (rc_key c)) now;
  ok_reservation : rq_require_reservation q = true ->
    ce_reservation_present ev = true /\ reservation_current (ce_reservation ev) now = true /\
    rs_backend_id (ce_reservation ev) = ck_backend_id (rc_key c) /\
    rs_backend_boot (ce_reservation ev) = ck_backend_boot (rc_key c)
}.

(** A required capability is proven by the model's claim or the backend's. *)
Definition capability_proven (c : RouteCandidate) (now : UnixMillis) (r : CapabilityRequirement) : Prop :=
  satisfies now (profile_find (md_capabilities (rc_model c)) (cr_key r)) (cr_minimum_state r) = true \/
  satisfies now (profile_find (bd_capabilities (rc_backend c)) (cr_key r)) (cr_minimum_state r) = true.

Record shape_ok (q : RouteRequirements) (c : RouteCandidate) (ev : CandidateEvidence)
    (now : UnixMillis) : Prop := {
  ok_input : modality_covers (md_input_modalities (rc_model c)) (rq_input_modalities q) = true;
  ok_output : modality_covers (md_output_modalities (rc_model c)) (rq_output_modalities q) = true;
  ok_flags : Forall (fun fk : bool * CapabilityKey => fst fk = true -> has_capability c now (snd fk) = true)
    [(rq_require_structured_output q, key_structured_output);
     (rq_require_json_schema q, key_json_schema);
     (rq_require_tool_calling q, key_tool_calling); (rq_require_streaming q, key_streaming);
     (rq_require_logprobs q, key_logprobs);
     (rq_require_deterministic_seed q, key_deterministic_seed)];
  ok_protocol : rq_required_protocol q <> "" ->
    compatibility_current (ce_compatibility ev) now = true /\
    cp_protocol (ce_compatibility ev) = rq_required_protocol q /\
    (rq_required_protocol_version q <> 0 ->
     cp_protocol_version (ce_compatibility ev) = rq_required_protocol_version q);
  ok_context : rq_min_context_tokens q <= rc_context_limit_tokens c;
  ok_max_output : rq_max_output_tokens q <= md_max_output_tokens (rc_model c);
  ok_quality : rq_quality_floor q <> kUnclassifiedQuality ->
    rc_quality_class c <> kUnclassifiedQuality /\ rq_quality_floor q <= rc_quality_class c
}.

Record filters_ok (q : RouteRequirements) (c : RouteCandidate) : Prop := {
  ok_model_allowed : list_admits (rq_model_allowlist q) true (ck_model_id (rc_key c));
  ok_model_denied : ck_model_id (rc_key c) ∉ rq_model_denylist q;
  ok_family_allowed : list_admits (rq_family_allowlist q) true (md_family_id (rc_model c));
  ok_family_denied : md_family_id (rc_model c) ∉ rq_family_denylist q;
  ok_provider_allowed : list_admits (rq_provider_allowlist q) true (bd_provider_id (rc_backend c));
  ok_provider_denied : bd_provider_id (rc_backend c) ∉ rq_provider_denylist q;
  ok_backend_allowed : list_admits (rq_backend_allowlist q) true (ck_backend_id (rc_key c));
  ok_backend_denied : ck_backend_id (rc_key c) ∉ rq_backend_denylist q
}.

Record placement_ok (q : RouteRequirements) (c : RouteCandidate) : Prop := {
  ok_local : rq_local_only q = true \/ rq_remote_allowed q = false ->
    bd_trust_domain (rc_backend c) = TrustDomain.LOCAL;
  ok_offline : rq_offline_only q = true -> bd_offline_capable (rc_backend c) = true;
  ok_locality : rq_required_localities q <> [] ->
    locality_empty (bd_locality (rc_backend c)) = false /\
    bd_locality (rc_backend c) ∈ rq_required_localities q;
  ok_locality_denied : locality_empty (bd_locality (rc_backend c)) = true \/
    bd_locality (rc_backend c) ∉ rq_denied_localities q;
  ok_trust : rq_minimum_trust q <> TrustDomain.UNKNOWN ->
    bd_trust_domain (rc_backend c) <> TrustDomain.UNKNOWN /\
    trust_rank (rq_minimum_trust q) <= trust_rank (bd_trust_domain (rc_backend c))
}.

Definition budget_ok (budget : option BudgetSnapshot) (r : RouteRequest) (now : UnixMillis) : Prop :=
  forall b, budget = Some b -> valid (rr_budget_id r) = true ->
  valid (bu_generation b) = true /\ bu_verdict b <> BudgetVerdict.UNKNOWN /\
  budget_expired b now = false /\
  (valid (bu_budget_id b) = true -> bu_budget_id b = rr_budget_id r) /\
  bu_generation b = rr_budget_generation r /\ bu_verdict b <> BudgetVerdict.DENIED.

Record economics_ok (q : RouteRequirements) (c : RouteCandidate) (ev : CandidateEvidence)
    (now : UnixMillis) : Prop := {
  ok_cost : rq_require_known_cost q = true \/ rq_enforce_cost_ceiling q = true ->
    cost_current (ce_cost ev) now = true;
  ok_ceiling : rq_enforce_cost_ceiling q = true ->
    compatible_with (co_unit (ce_cost ev)) (mo_unit (rq_maximum_cost q)) = true /\
    co_estimated_total_micros (ce_cost ev) <= mo_micros (rq_maximum_cost q);
  ok_known_latency : rq_require_known_latency q = true ->
    lt_dispatch_micros (bd_latency (rc_backend c)) <> kUnknownLatencyMicros;
  ok_latency : rq_max_latency_micros q <> kUnspecified ->
    lt_dispatch_micros (bd_latency (rc_backend c)) <> kUnknownLatencyMicros /\
    latency_expired (bd_latency (rc_backend c)) now = false /\
    lt_dispatch_micros (bd_latency (rc_backend c)) <= rq_max_latency_micros q;
  ok_compatibility : rq_require_known_compatibility q = true ->
    compatibility_current (ce_compatibility ev) now = true;
  ok_not_incompatible : rq_required_protocol q = "" ->
    valid (cp_generation (ce_compatibility ev)) = true ->
    cp_verdict (ce_compatibility ev) <> CompatibilityVerdict.INCOMPATIBLE
}.

Definition slo_ok (r : RouteRequest) (ev : CandidateEvidence) (now : UnixMillis) : Prop :=
  rq_require_slo (rr_requirements r) = true ->
  valid (sl_generation (ce_slo ev)) = true /\ sl_verdict (ce_slo ev) <> SloVerdict.UNKNOWN /\
  sl_verdict (ce_slo ev) <> SloVerdict.INFEASIBLE /\ slo_expired (ce_slo ev) now = false /\
  (valid (sl_slo_id (ce_slo ev)) = true -> sl_slo_id (ce_slo ev) = rr_slo_id r) /\
  sl_generation (ce_slo ev) = rr_slo_generation r /\
  ce_slo_verdict_known ev = true /\ ce_slo_verdict ev <> SloVerdict.INFEASIBLE /\
  ce_slo_verdict ev <> SloVerdict.UNKNOWN.

Record hard_eligible (r : RouteRequest) (c : RouteCandidate) (p : PolicySnapshot)
    (budget : option BudgetSnapshot) (ev : CandidateEvidence) (now : UnixMillis) : Prop := {
  he_model : model_ok c now;
  he_incarnation : incarnation_ok c;
  he_live : live_ok (rr_requirements r) c ev now;
  he_capabilities : Forall (capability_proven c now) (rq_required_capabilities (rr_requirements r));
  he_shape : shape_ok (rr_requirements r) c ev now;
  he_filters : filters_ok (rr_requirements r) c;
  he_placement : placement_ok (rr_requirements r) c;
  he_policy : policy_admits p c now;
  he_budget : budget_ok budget r now;
  he_slo : slo_ok r ev now;
  he_economics : economics_ok (rr_requirements r) c ev now
}.

(** ** Each check decides its part *)

Lemma bool_decide_neq_false {A} `{EqDecision A} (x y : A) : x != y = false <-> x = y.
Proof. by rewrite negb_false_iff, bool_decide_eq_true. Qed.

Ltac checks :=
  unfold fail; cbv zeta; early_returns;
  rewrite ?guard_false, ?orb_false_iff, ?negb_false_iff, ?negb_true_iff, ?bool_decide_eq_true,
    ?bool_decide_eq_false, ?Z.ltb_ge, ?Z.eqb_neq.

Lemma key_complete_generations k :
  key_complete k = true -> valid (ck_model_generation k) = true /\ valid (ck_artifact_generation k) = true.
Proof. unfold key_complete. rewrite !andb_true_iff. tauto. Qed.

Lemma model_current_not_retired m now : model_current m now = true -> md_lifecycle m <> ModelLifecycle.RETIRED.
Proof.
  unfold model_current. rewrite !andb_true_iff, bool_decide_eq_true. intros [[_ ->] _]. done.
Qed.

Lemma check_model_None c now : check_model c now = None <-> model_ok c now.
Proof.
  unfold check_model. checks.
  destruct (find_binding (rc_backend c) (ck_model_id (rc_key c))) as [b|] eqn:Eb.
  - checks. split.
    + intros (?&?&?&?&[??]&[??]&_). split; try done. by exists b.
    + intros [? ? ? ? (b' & [= <-]%(eq_trans (eq_sym Eb)) & ? & ?)].
      repeat split; try done; [by eapply model_current_not_retired|by apply key_complete_generations..].
  - split; [naive_solver|]. intros [_ _ _ _ (b' & E & _)]. by rewrite Eb in E.
Qed.

Lemma check_incarnation_None c : check_incarnation c = None <-> incarnation_ok c.
Proof.
  unfold check_incarnation. checks. split; [intros (?&?&?&?&_) | intros []];
    destruct_and?; repeat split; done.
Qed.

Lemma check_live_None {S g} `{EqDecision S} required (e : BackendEvidence S g) unknown wanted boot now
    sc bc s b :
  wanted <> unknown ->
  check_live required e unknown wanted boot now sc bc s b = None <->
  (required = true -> live e wanted boot now).
Proof.
  intros Hw. unfold check_live, live. checks. destruct required; [|naive_solver].
  split; [intros (Hg&?&?&?&_) _; tauto|].
  intros H'. destruct (H' eq_refl) as (Hg & Hs & ? & ?). repeat split; try done. by rewrite Hs.
Qed.

Lemma check_reservation_None q c ev now :
  check_reservation q c ev now = None <->
  (rq_require_reservation q = true ->
   ce_reservation_present ev = true /\ reservation_current (ce_reservation ev) now = true /\
   rs_backend_id (ce_reservation ev) = ck_backend_id (rc_key c) /\
   rs_backend_boot (ce_reservation ev) = ck_backend_boot (rc_key c)).
Proof. unfold check_reservation. checks. destruct (rq_require_reservation q); naive_solver. Qed.

Lemma check_live_evidence_None q c ev now :
  check_live_evidence q c ev now = None <-> live_ok q c ev now.
Proof.
  unfold check_live_evidence, check_availability, check_health, check_readiness, check_residency,
    check_capacity.
  rewrite !union_rejection, !check_live_None, check_reservation_None by done.
  split; [intros (((((?&?)&?)&?)&?)&?); by split | intros []; by split_and!].
Qed.

Lemma check_capability_None c now r : check_capability c now r = None <-> capability_proven c now r.
Proof.
  unfold check_capability, capability_proven. cbv zeta. rewrite <- orb_true_iff.
  destruct (_ || _); [naive_solver|].
  split; [|done]. destruct (_ ∪ _); unfold fail; [|done]. by repeat case_match.
Qed.

Lemma check_capabilities_None c now l :
  check_capabilities c now l = None <-> Forall (capability_proven c now) l.
Proof.
  induction l as [|r l IH]; [by split; constructor|]. cbn [check_capabilities].
  by rewrite union_rejection, check_capability_None, IH, Forall_cons.
Qed.

Lemma version_check a b : negb (a =? 0) && negb (b =? a) = false <-> (a <> 0 -> b = a).
Proof. destruct (Z.eqb_spec a 0), (Z.eqb_spec b a); naive_solver. Qed.

Lemma check_shape_None q c ev now :
  check_modalities q c = None /\ check_shape q c ev now = None /\ check_limits q c = None <->
  shape_ok q c ev now.
Proof.
  unfold check_modalities, check_shape, check_limits. checks. rewrite version_check. split.
  - intros ((?&?&_)&(?&?&?&?&?&?&?&?&_)&?&?&?&?&_). split; auto. by repeat constructor.
  - intros [? ? Hf Hp ? ? Hq].
    repeat (apply Forall_cons in Hf as [? Hf]). simpl in *.
    split_and!; try done; intros Hne; try apply Hp in Hne; try apply Hq in Hne; tauto.
Qed.

Lemma list_admits_listed {A} `{EqDecision A} (l : list A) x :
  list_admits l true x <-> (is_empty l = false -> bool_decide (x ∈ l) = true).
Proof.
  rewrite list_admits_checks, andb_false_r, guard_false, negb_true_iff, negb_false_iff. tauto.
Qed.

Lemma check_filters_None q c :
  requirements_sorted q -> check_filters q c = None <-> filters_ok q c.
Proof.
  intros Hq. unfold check_filters. checks. rewrite !contains_elem by apply Hq.
  rewrite !bool_decide_eq_true, !bool_decide_eq_false. split.
  - intros (?&?&?&?&?&?&?&?&_). split; try done; apply list_admits_listed; by rewrite bool_decide_eq_true.
  - intros [Hm ? Hf ? Hp ? Hb ?]. rewrite list_admits_listed in Hm. rewrite list_admits_listed in Hf.
    rewrite list_admits_listed in Hp. rewrite list_admits_listed in Hb.
    rewrite bool_decide_eq_true in Hm. rewrite bool_decide_eq_true in Hf.
    rewrite bool_decide_eq_true in Hp. rewrite bool_decide_eq_true in Hb. by split_and!.
Qed.

Lemma check_placement_None q c :
  requirements_sorted q -> check_placement q c = None <-> placement_ok q c.
Proof.
  intros Hq. unfold check_placement. checks. rewrite !contains_key_elem by apply Hq.
  rewrite bool_decide_eq_true, bool_decide_eq_false. split.
  - intros (?&?&?&Hl&Hd&?&?&_). split; try done.
    + intros []; auto.
    + intros Hne. apply Hl. by destruct (rq_required_localities q).
    + destruct (locality_empty _); [by left | right; by apply Hd].
    + auto.
  - intros [Hl ? Hr Hd Ht]. split_and!; try done; auto.
    + intros Hne. apply Hr. by destruct (rq_required_localities q).
    + intros E. destruct Hd as [Hd|]; [by rewrite E in Hd|done].
    + intros Hne. by apply Ht.
    + intros Hne. by apply Ht.
Qed.

Lemma check_policy_None p r c now :
  policy_canonical p -> check_policy p r c now = None <-> policy_admits p c now.
Proof.
  intros Hp. rewrite <- (policy_admits_allowed p r c now Hp). unfold check_policy. checks. tauto.
Qed.

Lemma check_budget_None budget r now : check_budget budget r now = None <-> budget_ok budget r now.
Proof.
  unfold check_budget, budget_ok. destruct budget as [b|]; [|naive_solver].
  destruct (valid (rr_budget_id r)); simpl.
  - checks. split; [intros (?&?&?&?&?&_) ? [= <-] _; tauto|].
    intros Hb. destruct (Hb b eq_refl eq_refl) as (?&?&?&?&?&?). by split_and!.
  - naive_solver.
Qed.

Lemma check_slo_None r ev now : check_slo r ev now = None <-> slo_ok r ev now.
Proof.
  unfold check_slo, slo_ok. destruct (rq_require_slo _); simpl; [checks|naive_solver].
  split; [intros (?&?&?&?&?&?&?&?&_) _; tauto|]. intros H'. specialize (H' eq_refl). tauto.
Qed.

Lemma cost_current_known cost now : cost_current cost now = true -> cost_known cost = true.
Proof. unfold cost_current. rewrite !andb_true_iff. tauto. Qed.

Lemma check_economics_None q c ev now :
  check_cost q (ce_cost ev) now = None /\ check_latency q c now = None /\
  check_compatibility q ev now = None <-> economics_ok q c ev now.
Proof.
  unfold check_cost, check_latency, check_compatibility. checks.
  rewrite !orb_true_iff, andb_true_iff, bool_decide_eq_true. split.
  - intros ((?&?&?&?&_)&(?&?&?&?&_)&?&?&_). split; auto.
  - intros [Hc Hce ? Hl ? ?]. split_and!; try done; try (by intros; apply Hce);
      try (by intros; apply Hl).
    + intros H'. eapply cost_current_known. by apply Hc.
    + intros []. auto.
Qed.

(** Every check that fails makes a rejection. *)
Definition rejects (o : option EligibilityVerdict) : Prop :=
  forall v, o = Some v -> OutcomeCode.is_rejection (el_code v) = true.

Lemma rejects_union o o' : rejects o -> rejects o' -> rejects (o ∪ o').
Proof. intros H1 H2 v [E|[_ E]]%union_Some; [by apply H1 | by apply H2]. Qed.

Lemma check_capabilities_rejects c now l : rejects (check_capabilities c now l).
Proof.
  induction l as [|r l IH]; [done|]. apply rejects_union; [|exact IH]. intros v.
  unfold check_capability, fail. cbv zeta. intros E. repeat (case_match; try (by simplify_eq)).
Qed.

Lemma check_live_rejects {S g} `{EqDecision S} required (e : BackendEvidence S g) unknown wanted boot
    now sc bc s b :
  OutcomeCode.is_rejection sc = true -> OutcomeCode.is_rejection bc = true ->
  rejects (check_live required e unknown wanted boot now sc bc s b).
Proof.
  intros Hs Hb v. unfold check_live, fail. intros E. repeat (case_match; [by simplify_eq|]). done.
Qed.

Ltac solve_rejects :=
  intros v; unfold fail; cbv zeta; intros E; repeat (case_match; try (by simplify_eq)).

Lemma first_rejection_rejects r c p budget ev now : rejects (first_rejection r c p budget ev now).
Proof.
  unfold first_rejection, check_live_evidence. cbv zeta.
  repeat apply rejects_union; try (by apply check_live_rejects);
    try apply check_capabilities_rejects.
  - unfold check_model. solve_rejects.
  - unfold check_incarnation. solve_rejects.
  - unfold check_reservation. solve_rejects.
  - unfold check_modalities. solve_rejects.
  - unfold check_shape. solve_rejects.
  - unfold check_limits. solve_rejects.
  - unfold check_filters. solve_rejects.
  - unfold check_placement. solve_rejects.
  - intros v. unfold check_policy, fail. cbv zeta. destruct (policy_allowed _) eqn:E; [done|].
    intros [= <-]. by apply policy_not_allowed_rejects.
  - unfold check_budget. solve_rejects.
  - unfold check_cost. solve_rejects.
  - unfold check_slo. solve_rejects.
  - unfold check_latency. solve_rejects.
  - unfold check_compatibility. solve_rejects.
Qed.

Definition eligibility_input (r : RouteRequest) (c : RouteCandidate) (p : PolicySnapshot)
    (budget : option BudgetSnapshot) (ev : CandidateEvidence) (now : UnixMillis) : EligibilityInput :=
  {| in_request := Some r; in_candidate := Some c; in_policy := Some p; in_budget := budget;
     in_evidence := Some ev; in_now := now |}.

Lemma first_rejection_None r c p budget ev now :
  requirements_sorted (rr_requirements r) -> policy_canonical p ->
  first_rejection r c p budget ev now = None <-> hard_eligible r c p budget ev now.
Proof.
  intros Hq Hp. unfold first_rejection. cbv zeta. rewrite !union_rejection.
  rewrite check_model_None, check_incarnation_None, check_live_evidence_None,
    check_capabilities_None, check_filters_None, check_placement_None, check_policy_None,
    check_budget_None, check_slo_None by done.
  pose proof (check_shape_None (rr_requirements r) c ev now) as Hs.
  pose proof (check_economics_None (rr_requirements r) c ev now) as He.
  split.
  - intros H. destruct_and!. split; try done; [by apply Hs | by apply He].
  - intros []. apply Hs in he_shape0 as (?&?&?). apply He in he_economics0 as (?&?&?).
    by repeat match goal with |- _ /\ _ => split end.
Qed.

Lemma evaluate_input r c p budget ev now :
  evaluate_hard_eligibility (eligibility_input r c p budget ev now) =
  default eligibility_ok (first_rejection r c p budget ev now).
Proof. reflexivity. Qed.

Lemma eligible_None r c p budget ev now :
  eligible (evaluate_hard_eligibility (eligibility_input r c p budget ev now)) = true <->
  first_rejection r c p budget ev now = None.
Proof.
  rewrite evaluate_input. unfold eligible. rewrite bool_decide_eq_true.
  destruct (first_rejection r c p budget ev now) as [v|] eqn:E; [|done].
  split; [|done]. change (el_code v = OutcomeCode.ACCEPTED -> Some v = None). intros Hv. apply first_rejection_rejects in E. by rewrite Hv in E.
Qed.

(** Whatever the lists, an eligible candidate is the current incarnation with
    the live evidence the request demands. *)
Lemma eligible_identity_live r c p budget ev now :
  eligible (evaluate_hard_eligibility (eligibility_input r c p budget ev now)) = true ->
  model_ok c now /\ incarnation_ok c /\ live_ok (rr_requirements r) c ev now.
Proof.
  rewrite eligible_None. unfold first_rejection. cbv zeta. rewrite !union_rejection.
  rewrite check_model_None, check_incarnation_None, check_live_evidence_None. tauto.
Qed.

(** ** Properties *)

(** C29: refinement of the eligibility contract.  For canonical requirements and
    policy, [evaluate_hard_eligibility] accepts exactly the candidates that
    satisfy every hard condition affirmatively (complete and current identity,
    this incarnation, live evidence for each required state, proven
    capabilities, fitting shape, filters, placement, policy, budget, SLO,
    cost, latency and compatibility); in every other case it rejects. *)
Theorem evaluate_hard_eligibility_spec (r : RouteRequest) (c : RouteCandidate) (p : PolicySnapshot)
    (budget : option BudgetSnapshot) (ev : CandidateEvidence) (now : UnixMillis)
    (Hq : requirements_sorted (rr_requirements r)) (Hp : policy_canonical p) :
  let v := evaluate_hard_eligibility (eligibility_input r c p budget ev now) in
  (eligible v = true <-> hard_eligible r c p budget ev now) /\
  (eligible v = false -> OutcomeCode.is_rejection (el_code v) = true).
Proof.
  cbv zeta. rewrite eligible_None, first_rejection_None by done. split; [done|].
  rewrite evaluate_input. destruct (first_rejection r c p budget ev now) as [v|] eqn:E; [|done].
  intros _. by apply first_rejection_rejects in E.
Qed.

(** The request-wide evidence minimum is never applied: no eligibility
    decision depends on [minimum_capability_evidence], so a capability that is
    only DECLARED satisfies a request that demands VERIFIED evidence for all
    its capabilities. *)
Theorem minimum_capability_evidence_unused (r : RouteRequest) (c : RouteCandidate)
    (p : PolicySnapshot) (budget : option BudgetSnapshot) (ev : CandidateEvidence)
    (now : UnixMillis) (s : CapabilityState.t) :
  evaluate_hard_eligibility
    (eligibility_input (r <| rr_requirements := (rr_requirements r)
                               <| rq_minimum_capability_evidence := s |> |>) c p budget ev now) =
  evaluate_hard_eligibility (eligibility_input r c p budget ev now).
Proof. reflexivity. Qed.

(** A candidate with a declared chat capability and live evidence. *)
Definition ready_candidate : RouteCandidate :=
  let key := {| ck_model_id := EntityIdOf 10; ck_model_generation := GenerationOf 1;
                ck_artifact_generation := GenerationOf 2; ck_backend_id := EntityIdOf 20;
                ck_backend_generation := GenerationOf 1; ck_backend_boot := GenerationOf 5;
                ck_endpoint_id := EntityIdOf 30; ck_endpoint_generation := GenerationOf 1 |} in
  let observed {S g} (s : S) : BackendEvidence S g :=
    BackendEvidenceOf s (GenerationOf 1) (EntityIdOf 20) (GenerationOf 1) (GenerationOf 5)
      (GenerationOf 1) 50 200 "probe" "" in
  let chat := {| ce_key := CapabilityKeyOf "task/chat"; ce_state := CapabilityState.DECLARED;
                 ce_generation := GenerationOf 1; ce_profile_id := EntityIdOf 40;
                 ce_model_generation := GenerationOf 1; ce_backend_generation := GenerationOf 1;
                 ce_backend_boot := GenerationOf 5; ce_observed_at := 0;
                 ce_expires_at := kNoExpiry; ce_source := ""; ce_detail := "" |} in
  route_candidate_default
    <| rc_key := key |>
    <| rc_model := model_descriptor_default
         <| md_model_id := ck_model_id key |> <| md_model_generation := ck_model_generation key |>
         <| md_artifact_generation := ck_artifact_generation key |>
         <| md_lifecycle := ModelLifecycle.CURRENT |>
         <| md_context_limit_tokens := 8192 |> <| md_max_output_tokens := 1024 |>
         <| md_input_modalities := ModalitySetOf 1 |> <| md_output_modalities := ModalitySetOf 1 |>
         <| md_capabilities := {| profile_id := EntityIdOf 40; profile_generation := GenerationOf 1;
                                  profile_entries := [chat] |} |> |>
    <| rc_backend := backend_descriptor_default
         <| bd_backend_id := ck_backend_id key |> <| bd_backend_boot := ck_backend_boot key |>
         <| bd_backend_generation := ck_backend_generation key |>
         <| bd_model_bindings := [model_binding_default <| mb_model_id := EntityIdOf 10 |>
              <| mb_model_generation := GenerationOf 1 |> <| mb_artifact_generation := GenerationOf 2 |>] |>
         <| bd_availability := observed AvailabilityState.AVAILABLE |>
         <| bd_health := observed HealthState.HEALTHY |>
         <| bd_readiness := observed ReadinessState.READY |> |>
    <| rc_endpoint := endpoint_descriptor_default
         <| ep_endpoint_id := ck_endpoint_id key |>
         <| ep_endpoint_generation := ck_endpoint_generation key |> |>
    <| rc_context_limit_tokens := 8192 |>.

Definition chat_request : RouteRequest :=
  route_request_default <| rr_requirements := route_requirements_default
    <| rq_required_capabilities := [{| cr_key := CapabilityKeyOf "task/chat";
                                       cr_minimum_state := CapabilityState.DECLARED |}] |>
    <| rq_input_modalities := ModalitySetOf 1 |> <| rq_min_context_tokens := 4096 |> |>.

Definition open_policy : PolicySnapshot := policy_snapshot_default <| po_generation := GenerationOf 1 |>.

Lemma evaluate_hard_eligibility_spec_witness :
  hard_eligible chat_request ready_candidate open_policy None candidate_evidence_default 100 /\
  ~ hard_eligible chat_request ready_candidate open_policy None candidate_evidence_default 250.
Proof.
  assert (requirements_sorted (rr_requirements chat_request)) as Hq by (split; constructor).
  assert (policy_canonical open_policy) as Hp by (split; constructor).
  split.
  - apply (evaluate_hard_eligibility_spec chat_request ready_candidate open_policy None
             candidate_evidence_default 100 Hq Hp). reflexivity.
  - intros He. apply (evaluate_hard_eligibility_spec chat_request ready_candidate open_policy None
             candidate_evidence_default 250 Hq Hp) in He. discriminate He.
Defined.

(** Evidence expires: whatever the request demands live is lost once the
    observation's expiry is reached, so no candidate whose availability is
    required stays eligible past the expiry of its availability evidence. *)
Theorem eligibility_expires (r : RouteRequest) (c : RouteCandidate) (p : PolicySnapshot)
    (budget : option BudgetSnapshot) (ev : CandidateEvidence) (now : UnixMillis)
    (Hreq : rq_require_available (rr_requirements r) = true)
    (Hbounded : ev_expires_at (bd_availability (rc_backend c)) <> kNoExpiry)
    (Hpast : ev_expires_at (bd_availability (rc_backend c)) <= now) :
  eligible (evaluate_hard_eligibility (eligibility_input r c p budget ev now)) = false.
Proof.
  apply not_true_iff_false. intros (_ & _ & Hlive)%eligible_identity_live.
  destruct (ok_available _ _ _ _ Hlive Hreq) as (_ & _ & He & _).
  unfold ev_expired, expired_at in He. lia.
Qed.

Lemma eligibility_expires_witness :
  eligible (evaluate_hard_eligibility
    (eligibility_input chat_request ready_candidate open_policy None candidate_evidence_default 200)) = false.
Proof.
  apply (eligibility_expires chat_request ready_candidate open_policy None candidate_evidence_default 200).
  - reflexivity.
  - discriminate.
  - vm_compute. discriminate.
Defined.
