(* ===== verification/Ranking.v ===== *)
(** * Factor construction ([src/ranking.hpp], [src/ranking.cpp])

    The integer arithmetic of the ranking, one definition per factor, the
    canonical factor vector and its score. *)
From S2P Require Import Prelude Ids Outcome Clock Capability Evidence Catalog Request Candidate.
From S2P Require Import Policy Eligibility.

(** ** Integer arithmetic on [std::int64_t]

    [z ÷ d] is the division of C++, which truncates. *)

Definition kScale : Z := kFactorScale.
Definition kMaxScore : Z := i64_max.

Definition saturating_add (lhs rhs : Z) : Z :=
  return_if (0 <? rhs) && (kMaxScore - rhs <? lhs) with kMaxScore ;;
  return_if (rhs <? 0) && (lhs <? i64_min - rhs) with i64_min ;;
  lhs + rhs.

Definition mul_div (v numerator denominator : Z) : Z :=
  return_if denominator <=? 0 with 0 ;;
  return_if (v =? 0) || (numerator =? 0) with 0 ;;
  return_if (0 <? v) && (0 <? numerator) && (kMaxScore ÷ numerator <? v) with kMaxScore ;;
  return_if (0 <? v) && (numerator <? 0) && (numerator <? i64_min ÷ v) with i64_min ;;
  (v * numerator) ÷ denominator.

(** [std::clamp]. *)
Definition clamp (v lo hi : Z) : Z := if v <? lo then lo else if hi <? v then hi else v.

Definition reference (v : Z) : Z := if 0 <? v then v else 1.

Definition normalize_higher_better (raw ref : Z) : Z :=
  return_if raw <=? 0 with 0 ;;
  clamp (mul_div raw kScale (reference ref)) 0 kScale.

Definition normalize_lower_better (raw ref : Z) : Z :=
  return_if raw <=? 0 with kScale ;;
  let cost := mul_div raw kScale (reference ref) in
  return_if kScale <=? cost with 0 ;;
  kScale - cost.

(** ** Factor values *)

Definition unknown (factor : RankingFactor.t) (w : Z) : FactorValue :=
  factor_value_default <| fv_factor := factor |> <| fv_weight_ppm := w |>.

Definition known_value (factor : RankingFactor.t) (raw normalized w : Z) : FactorValue :=
  let normalized := clamp normalized 0 kScale in
  factor_value_default
    <| fv_factor := factor |> <| fv_known := true |> <| fv_raw := raw |>
    <| fv_normalized := normalized |> <| fv_weight_ppm := w |>
    <| fv_contribution := mul_div normalized w kScale |>.

Record RankingContext := {
  cx_request : RouteRequest;
  cx_evidence : CandidateEvidence;
  cx_policy_verdict : option PolicyVerdict;
  cx_weights : RankingWeights;
  cx_scales : RankingScales;
  cx_now : UnixMillis;
  cx_continuity_backend : EntityId BackendTag;
  cx_has_continuity_backend : bool;
  cx_diversity_reference_provider : EntityId ProviderTag;
  cx_has_diversity_reference : bool
}.

Section Factors.
Context (candidate : RouteCandidate) (context : RankingContext).

Let q := rr_requirements (cx_request context).
Let evidence := cx_evidence context.
Let scales := cx_scales context.
Let now := cx_now context.
Let backend := rc_backend candidate.
Let latency := bd_latency backend.
Let latency_current := negb (latency_expired latency now).

(** [push(known_value(...))] when the evidence is there, [push(unknown(...))]
    otherwise. *)
Definition push_factor (factor : RankingFactor.t) (c : bool) (raw normalized : Z) : FactorValue :=
  if c then known_value factor raw normalized (weight (cx_weights context) factor)
  else unknown factor (weight (cx_weights context) factor).

(** [value.evidence_generation = generation; value.source = source]. *)
Definition from_evidence (generation : Z) (source : string) (v : FactorValue) : FactorValue :=
  if fv_known v then v <| fv_evidence_generation := generation |> <| fv_source := source |> else v.

Definition flag (b : bool) : Z := if b then 1 else 0.
Definition full (b : bool) : Z := if b then kScale else 0.

Definition factor_capability_fit : FactorValue :=
  push_factor RankingFactor.CAPABILITY_FIT (0 <? rc_required_total candidate)
    (rc_required_satisfied candidate)
    (mul_div (rc_required_satisfied candidate) kScale (rc_required_total candidate)).

Definition factor_preferred_coverage : FactorValue :=
  push_factor RankingFactor.PREFERRED_CAPABILITY_COVERAGE (0 <? rc_preferred_total candidate)
    (rc_preferred_satisfied candidate)
    (mul_div (rc_preferred_satisfied candidate) kScale (rc_preferred_total candidate)).

Definition factor_quality : FactorValue :=
  push_factor RankingFactor.QUALITY_CLASS (negb (rc_quality_class candidate =? kUnclassifiedQuality))
    (rc_quality_class candidate)
    (normalize_higher_better (rc_quality_class candidate) (quality_reference scales)).

Definition factor_cost : FactorValue :=
  let cost := ce_cost evidence in
  from_evidence (value (co_price_generation cost)) (co_source cost)
    (push_factor RankingFactor.COST_TOTAL
       (cost_known cost && cost_current cost now && compatible_with (co_unit cost) (co_unit cost))
       (co_estimated_total_micros cost)
       (normalize_lower_better (co_estimated_total_micros cost) (cost_reference_micros scales))).

(** One latency observation. *)
Definition push_latency (factor : RankingFactor.t) (micros ref : Z) : FactorValue :=
  push_factor factor (latency_current && negb (micros =? kUnknownLatencyMicros)) micros
    (normalize_lower_better micros ref).

Definition factor_latency : FactorValue :=
  from_evidence (value (lt_health_generation latency)) ""
    (push_latency RankingFactor.LATENCY (lt_dispatch_micros latency) (latency_reference_micros scales)).
Definition factor_tail_latency : FactorValue :=
  push_latency RankingFactor.TAIL_LATENCY (lt_tail_micros latency) (tail_latency_reference_micros scales).
Definition factor_queue_delay : FactorValue :=
  push_latency RankingFactor.QUEUE_DELAY (lt_queue_micros latency) (queue_reference_micros scales).

(** A boot-bound observation, scored by its state when known and unexpired. *)
Definition push_observation {S g} `{EqDecision S} (factor : RankingFactor.t) (e : BackendEvidence S g)
    (unknown_state : S) (index : S -> Z) (normalized : Z) : FactorValue :=
  from_evidence (value (ev_generation e)) ""
    (push_factor factor
       (valid (ev_generation e) && negb (ev_expired e now) && ev_state e != unknown_state)
       (index (ev_state e)) normalized).

Definition readiness_score (s : ReadinessState.t) : Z :=
  match s with ReadinessState.READY => kScale | ReadinessState.WARMING => kScale ÷ 2 | _ => 0 end.

Definition factor_warmth : FactorValue :=
  let readiness := bd_readiness backend in
  let penalty :=
    if latency_current && negb (lt_cold_start_penalty_micros latency =? kUnknownLatencyMicros)
    then mul_div (lt_cold_start_penalty_micros latency) kScale
                 (reference (startup_cost_reference_micros scales))
    else 0 in
  push_observation RankingFactor.WARMTH readiness ReadinessState.UNKNOWN ReadinessState.index
    (readiness_score (ev_state readiness) - penalty).

Definition factor_residency : FactorValue :=
  let residency := bd_residency backend in
  push_observation RankingFactor.RESIDENCY residency ResidencyState.UNKNOWN ResidencyState.index
    (match ev_state residency with
     | ResidencyState.RESIDENT => kScale | ResidencyState.LOADING => kScale ÷ 2 | _ => 0 end).

Definition factor_locality : FactorValue :=
  let rank := trust_rank (bd_trust_domain backend) in
  push_factor RankingFactor.LOCALITY (bd_trust_domain backend != TrustDomain.UNKNOWN)
    rank (mul_div rank kScale 4).

Definition factor_network_distance : FactorValue :=
  push_factor RankingFactor.NETWORK_DISTANCE (negb (bd_network_distance backend =? 0))
    (bd_network_distance backend)
    (normalize_lower_better (bd_network_distance backend) (network_distance_reference scales)).

Definition factor_availability : FactorValue :=
  let availability := bd_availability backend in
  push_observation RankingFactor.PROVIDER_AVAILABILITY availability AvailabilityState.UNKNOWN
    AvailabilityState.index (full (ev_state availability == AvailabilityState.AVAILABLE)).

Definition factor_health : FactorValue :=
  let health := bd_health backend in
  push_observation RankingFactor.BACKEND_HEALTH health HealthState.UNKNOWN HealthState.index
    (match ev_state health with
     | HealthState.HEALTHY => kScale | HealthState.DEGRADED => kScale ÷ 2 | _ => 0 end).

Definition factor_readiness : FactorValue :=
  let readiness := bd_readiness backend in
  push_observation RankingFactor.BACKEND_READINESS readiness ReadinessState.UNKNOWN
    ReadinessState.index (readiness_score (ev_state readiness)).

Definition factor_capacity : FactorValue :=
  let detail := bd_capacity_detail backend in
  from_evidence (value (ev_generation (bd_capacity backend))) ""
    (push_factor RankingFactor.CAPACITY_HEADROOM
       (cd_known detail && negb (cd_total_slots detail =? kUnknownCount) && (0 <? cd_total_slots detail))
       (cd_available_slots detail)
       (mul_div (cd_available_slots detail) kScale (cd_total_slots detail))).

Definition factor_reservation : FactorValue :=
  push_factor RankingFactor.RESERVATION_CONFIDENCE
    (ce_reservation_present evidence && reservation_current (ce_reservation evidence) now) 1 kScale.

Definition factor_slo_headroom : FactorValue :=
  let slo := ce_slo evidence in
  let target := if negb (sl_latency_target_micros slo =? kUnspecified)
                then sl_latency_target_micros slo else rq_max_latency_micros q in
  push_factor RankingFactor.SLO_HEADROOM
    (negb (target =? kUnspecified) && (0 <? target) && latency_current &&
     negb (lt_dispatch_micros latency =? kUnknownLatencyMicros))
    (lt_dispatch_micros latency) (normalize_lower_better (lt_dispatch_micros latency) target).

Definition factor_context_headroom : FactorValue :=
  let headroom := rc_context_limit_tokens candidate - rq_min_context_tokens q in
  push_factor RankingFactor.CONTEXT_HEADROOM
    ((0 <? rq_min_context_tokens q) && (rq_min_context_tokens q <=? rc_context_limit_tokens candidate))
    headroom (normalize_higher_better headroom (context_reference_tokens scales)).

Definition factor_trust : FactorValue :=
  let rank := trust_rank (bd_trust_domain backend) in
  from_evidence (value (bd_trust_generation backend)) ""
    (push_factor RankingFactor.TRUST_PREFERENCE (bd_trust_domain backend != TrustDomain.UNKNOWN)
       rank (mul_div rank kScale 4)).

Definition factor_policy : FactorValue :=
  match cx_policy_verdict context with
  | Some verdict =>
      from_evidence (value (rr_policy_generation (cx_request context))) ""
        (push_factor RankingFactor.POLICY_PREFERENCE true (pv_preference verdict) (pv_preference verdict))
  | None => push_factor RankingFactor.POLICY_PREFERENCE false 0 0
  end.

Definition factor_model_affinity : FactorValue :=
  let matches := rq_affinity_model q == ck_model_id (rc_key candidate) in
  push_factor RankingFactor.MODEL_AFFINITY (valid (rq_affinity_model q)) (flag matches) (full matches).

Definition factor_cache_affinity : FactorValue :=
  let matches := cx_continuity_backend context == ck_backend_id (rc_key candidate) in
  push_factor RankingFactor.CACHE_AFFINITY (cx_has_continuity_backend context) (flag matches) (full matches).

Definition factor_reliability : FactorValue :=
  push_factor RankingFactor.HISTORICAL_RELIABILITY (negb (bd_reliability_ppm backend =? 0))
    (bd_reliability_ppm backend) (mul_div (bd_reliability_ppm backend) kScale 10000).

Definition factor_diversity : FactorValue :=
  let different := negb (cx_diversity_reference_provider context == bd_provider_id backend) in
  push_factor RankingFactor.FAILURE_DOMAIN_DIVERSITY (cx_has_diversity_reference context)
    (flag different) (full different).

Definition factor_data_movement : FactorValue :=
  let local := bd_trust_domain backend == TrustDomain.LOCAL in
  let raw := if local then 0 else bd_network_distance backend in
  push_factor RankingFactor.DATA_MOVEMENT_COST (local || negb (bd_network_distance backend =? 0))
    raw (normalize_lower_better raw (network_distance_reference scales)).

Definition factor_startup : FactorValue :=
  push_latency RankingFactor.BACKEND_STARTUP_COST (lt_cold_start_penalty_micros latency)
    (startup_cost_reference_micros scales).

Definition factor_route_switch : FactorValue :=
  let same := cx_continuity_backend context == ck_backend_id (rc_key candidate) in
  push_factor RankingFactor.ROUTE_SWITCH_PENALTY (cx_has_continuity_backend context)
    (flag (negb same)) (full same).

(** The counters [requested] and [matched] over a list of preferences, each a
    pair of the condition to count it and the condition to match it. *)
Definition count_requested (preferences : list (bool * bool)) : Z :=
  fold_left (fun n (p : bool * bool) => if fst p then n + 1 else n) preferences 0.
Definition count_matched (preferences : list (bool * bool)) : Z :=
  fold_left (fun n (p : bool * bool) => if fst p && snd p then n + 1 else n) preferences 0.

Definition push_preferences (factor : RankingFactor.t) (preferences : list (bool * bool)) : FactorValue :=
  push_factor factor (0 <? count_requested preferences) (count_matched preferences)
    (mul_div (count_matched preferences) kScale (count_requested preferences)).

Definition factor_stickiness : FactorValue :=
  let s := rq_stickiness q in
  push_preferences RankingFactor.CONTINUITY_STICKINESS [
    (sk_prefer_same_model_family s, valid (sk_family s) && sk_family s == md_family_id (rc_model candidate));
    (sk_prefer_same_provider s, valid (sk_provider s) && sk_provider s == bd_provider_id backend);
    (sk_prefer_same_backend s, valid (sk_backend s) && sk_backend s == ck_backend_id (rc_key candidate));
    (sk_prefer_context_locality s, bd_trust_domain backend == TrustDomain.LOCAL)].

Definition factor_caller_preference : FactorValue :=
  push_preferences RankingFactor.CALLER_PREFERENCE [
    (valid (rq_affinity_model q), rq_affinity_model q == ck_model_id (rc_key candidate));
    (valid (rq_affinity_provider q), rq_affinity_provider q == bd_provider_id backend);
    (valid (rq_affinity_backend q), rq_affinity_backend q == ck_backend_id (rc_key candidate))].

(** The factors in the order they are pushed. *)
Definition pushed_factors : list FactorValue := [
  factor_capability_fit; factor_preferred_coverage; factor_quality; factor_cost; factor_latency;
  factor_tail_latency; factor_queue_delay; factor_warmth; factor_residency; factor_locality;
  factor_network_distance; factor_availability; factor_health; factor_readiness; factor_capacity;
  factor_reservation; factor_slo_headroom; factor_context_headroom; factor_trust; factor_policy;
  factor_model_affinity; factor_cache_affinity; factor_reliability; factor_diversity;
  factor_data_movement; factor_startup; factor_route_switch; factor_stickiness;
  factor_caller_preference].


Definition score_of (factors : list FactorValue) : Z :=
  fold_left (fun score f => saturating_add score (fv_contribution f)) factors 0.

(** The factor vector and its score. *)
Definition build_factors : list FactorValue * Z :=
  let factors := stable_sort factor_less pushed_factors in
  (factors, score_of factors).
End Factors.

(** ** Facts about the arithmetic *)

(** With non-negative operands the product never leaves 64 bits: the guard
    saturates exactly when it would. *)
Lemma mul_div_nonneg v n d :
  0 <= v -> 0 <= n <= i64_max -> 0 < d ->
  mul_div v n d = if i64_max <? v * n then i64_max else (v * n) ÷ d.
Proof.
  intros Hv Hn Hd. unfold mul_div, kMaxScore.
  destruct (Z.leb_spec d 0); [lia|].
  destruct (Z.eqb_spec v 0) as [->|]; simpl; [by rewrite Z.quot_0_l by lia|].
  destruct (Z.eqb_spec n 0) as [->|]; simpl; [by rewrite Z.mul_0_r, Z.quot_0_l by lia|].
  destruct (Z.ltb_spec 0 v); [|lia]. destruct (Z.ltb_spec 0 n); [|lia].
  destruct (Z.ltb_spec n 0); [lia|]. simpl. rewrite Z.quot_div_nonneg by (unfold i64_max; lia).
  destruct (Z.ltb_spec (i64_max / n) v) as [Hlt|Hle].
  - destruct (Z.ltb_spec i64_max (v * n)) as [|Hge]; [done|].
    assert (v <= i64_max / n) by (apply Z.div_le_lower_bound; lia). lia.
  - destruct (Z.ltb_spec i64_max (v * n)) as [Hgt|]; [|done].
    pose proof (Z.mul_div_le i64_max n ltac:(lia)). nia.
Qed.

Lemma clamp_bounds v lo hi : lo <= hi -> lo <= clamp v lo hi <= hi.
Proof. unfold clamp. intros. destruct (Z.ltb_spec v lo), (Z.ltb_spec hi v); lia. Qed.

Lemma reference_positive v : 0 < reference v.
Proof. unfold reference. destruct (Z.ltb_spec 0 v); lia. Qed.

Lemma mul_div_scale raw ref :
  0 < raw ->
  mul_div raw kScale (reference ref) =
  if i64_max <? raw * kScale then i64_max else (raw * kScale) ÷ reference ref.
Proof.
  intros. apply mul_div_nonneg; [lia | unfold kScale, kFactorScale, i64_max; lia | apply reference_positive].
Qed.

(** ** Facts about factors *)

(** A value of the vector under weights [w]. *)
Definition factor_wf (w : RankingWeights) (f : FactorValue) : Prop :=
  fv_weight_ppm f = weight w (fv_factor f) /\
  0 <= fv_normalized f <= kScale /\
  fv_contribution f = (fv_normalized f * weight w (fv_factor f)) ÷ kScale /\
  (fv_known f = false -> fv_normalized f = 0 /\ fv_raw f = 0).

Definition weights_ok (w : RankingWeights) : Prop := forall f, 0 <= weight w f <= 10000000.

Lemma contribution_bounds w f :
  weights_ok w -> factor_wf w f -> 0 <= fv_contribution f <= weight w (fv_factor f).
Proof.
  intros Hw (_ & Hn & -> & _). specialize (Hw (fv_factor f)). unfold kScale, kFactorScale in *.
  rewrite Z.quot_div_nonneg by nia. split; [apply Z.div_pos; nia|].
  apply Z.div_le_upper_bound; nia.
Qed.

Lemma push_factor_wf ctx factor c raw n :
  weights_ok (cx_weights ctx) -> factor_wf (cx_weights ctx) (push_factor ctx factor c raw n).
Proof.
  intros Hw. specialize (Hw factor). unfold push_factor, factor_wf.
  pose proof (clamp_bounds n 0 kScale ltac:(done)) as Hc.
  destruct c; simpl.
  - split_and!; try done; try lia. rewrite mul_div_nonneg; [|lia|unfold i64_max; lia|done].
    destruct (Z.ltb_spec i64_max (clamp n 0 kScale * weight (cx_weights ctx) factor)); [|done].
    unfold kScale, kFactorScale, i64_max in *. nia.
  - by split_and!.
Qed.

Lemma from_evidence_wf w g s f : factor_wf w f -> factor_wf w (from_evidence g s f).
Proof. unfold from_evidence. by destruct (fv_known f). Qed.

Lemma from_evidence_factor g s f : fv_factor (from_evidence g s f) = fv_factor f.
Proof. unfold from_evidence. by destruct (fv_known f). Qed.

Lemma push_factor_factor ctx factor c raw n : fv_factor (push_factor ctx factor c raw n) = factor.
Proof. unfold push_factor. by destruct c. Qed.

Create HintDb factors.
#[local] Hint Resolve push_factor_wf from_evidence_wf : factors.

Lemma pushed_factors_wf c ctx :
  weights_ok (cx_weights ctx) -> Forall (factor_wf (cx_weights ctx)) (pushed_factors c ctx).
Proof.
  intros Hw. unfold pushed_factors.
  repeat (apply Forall_cons; split); [..|apply Forall_nil_2]; try (by eauto with factors).
  unfold factor_policy. destruct (cx_policy_verdict ctx); eauto with factors.
Qed.

Lemma pushed_factors_order c ctx :
  fv_factor <$> pushed_factors c ctx = RankingFactor.canonical_order.
Proof.
  unfold pushed_factors, RankingFactor.canonical_order. rewrite !fmap_cons.
  repeat (apply (f_equal2 cons); [|]); try done;
    try first [apply push_factor_factor | exact (eq_trans (from_evidence_factor _ _ _) (push_factor_factor _ _ _ _ _))].
  unfold factor_policy. destruct (cx_policy_verdict ctx);
    rewrite ?from_evidence_factor; apply push_factor_factor.
Qed.

Lemma canonical_order_sorted : strictly_sorted_by factor_ltb RankingFactor.canonical_order.
Proof. unfold strictly_sorted_by, RankingFactor.canonical_order. repeat constructor. Qed.

(** The factors are pushed in canonical order, so sorting leaves them alone. *)
Lemma build_factors_pushed c ctx : (build_factors c ctx).1 = pushed_factors c ctx.
Proof.
  change (stable_sort factor_less (pushed_factors c ctx) = pushed_factors c ctx).
  apply (stable_sort_id factor_less).
  apply strictly_sorted_sorted; [apply (swb_on factor_ltb fv_factor)|].
  apply (strictly_sorted_by_keys factor_ltb fv_factor). unfold keys_sorted.
  rewrite pushed_factors_order. apply canonical_order_sorted.
Qed.

Definition contributions (l : list FactorValue) : Z := foldr (fun f n => fv_contribution f + n) 0 l.

Lemma saturating_add_exact a b : 0 <= a -> 0 <= b -> a + b <= i64_max -> saturating_add a b = a + b.
Proof.
  intros. unfold saturating_add, kMaxScore.
  destruct (Z.ltb_spec 0 b), (Z.ltb_spec (i64_max - b) a), (Z.ltb_spec b 0); simpl; lia.
Qed.

Lemma score_of_exact w l n :
  weights_ok w -> Forall (factor_wf w) l -> 0 <= n ->
  n + 10000000 * Z.of_nat (length l) <= i64_max ->
  fold_left (fun score f => saturating_add score (fv_contribution f)) l n = n + contributions l /\
  0 <= contributions l <= foldr (fun f m => weight w (fv_factor f) + m) 0 l.
Proof.
  intros Hw Hl. revert n. induction Hl as [|f l Hf Hl IH]; intros n Hn Hmax; simpl; [lia|].
  pose proof (contribution_bounds w f Hw Hf). specialize (Hw (fv_factor f)).
  rewrite saturating_add_exact by (simpl in Hmax; lia).
  destruct (IH (n + fv_contribution f)) as [-> ?]; simpl in Hmax; lia.
Qed.

(** ** Properties *)

(** The factor vector is complete, canonical and bounded.  With validated
    weights it lists each factor once, in canonical order; every normalized
    value lies in [0, 1000000] and contributes its weighted share; a factor
    without evidence contributes nothing; and the score is the exact sum of
    the contributions, so 64-bit saturation never happens. *)
Theorem build_factors_spec (c : RouteCandidate) (ctx : RankingContext)
    (Hweights : weights_validate (cx_weights ctx) = "") :
  let (factors, score) := build_factors c ctx in
  fv_factor <$> factors = RankingFactor.canonical_order /\
  Forall (factor_wf (cx_weights ctx)) factors /\
  score = contributions factors /\ 0 <= score <= 290000000.
Proof.
  pose proof (proj1 (weights_validate_ok _) Hweights : weights_ok (cx_weights ctx)) as Hw.
  pose proof (build_factors_pushed c ctx) as Hp. pose proof (pushed_factors_wf c ctx Hw) as Hwf.
  pose proof (pushed_factors_order c ctx) as Ho.
  assert ((build_factors c ctx).2 = score_of (build_factors c ctx).1) as Hs by done.
  destruct (build_factors c ctx) as [factors score]. cbn [fst snd] in *. subst factors.
  assert (length (pushed_factors c ctx) = 29%nat) as Hlen by done.
  destruct (score_of_exact (cx_weights ctx) (pushed_factors c ctx) 0 Hw Hwf) as [Hsum Hb];
    [lia | rewrite Hlen; unfold i64_max; lia |].
  unfold score_of in Hs. rewrite Hsum in Hs. split_and!; try done; [lia..|].
  assert (forall l : list FactorValue,
    foldr (fun f m => weight (cx_weights ctx) (fv_factor f) + m) 0 l <= 10000000 * Z.of_nat (length l)) as Hub.
  { induction l as [|f l IH]; simpl; [lia|]. specialize (Hw (fv_factor f)). lia. }
  specialize (Hub (pushed_factors c ctx)). rewrite Hlen in Hub. lia.
Qed.

Definition ready_context : RankingContext := {|
  cx_request := chat_request; cx_evidence := candidate_evidence_default;
  cx_policy_verdict := Some (evaluate_candidate open_policy chat_request ready_candidate 100);
  cx_weights := ranking_weights_default; cx_scales := ranking_scales_default; cx_now := 100;
  cx_continuity_backend := none; cx_has_continuity_backend := false;
  cx_diversity_reference_provider := none; cx_has_diversity_reference := false |}.

Lemma build_factors_spec_witness :
  fv_factor <$> (build_factors ready_candidate ready_context).1 = RankingFactor.canonical_order /\
  0 <= (build_factors ready_candidate ready_context).2 <= 290000000.
Proof.
  pose proof (build_factors_spec ready_candidate ready_context eq_refl) as H.
  destruct (build_factors ready_candidate ready_context) as [factors score].
  destruct H as (H1 & _ & _ & H2). exact (conj H1 H2).
Defined.

Lemma scaled_mono x y ref :
  0 < x <= y -> mul_div x kScale (reference ref) <= mul_div y kScale (reference ref).
Proof.
  intros. rewrite !mul_div_scale by lia. pose proof (reference_positive ref).
  assert (0 < x * kScale <= y * kScale) by (unfold kScale, kFactorScale; lia).
  assert ((x * kScale) ÷ reference ref <= x * kScale) by (apply Z.quot_le_upper_bound; nia).
  destruct (Z.ltb_spec i64_max (x * kScale)), (Z.ltb_spec i64_max (y * kScale)); try lia.
  apply Z.quot_le_mono; lia.
Qed.

Lemma clamp_mono v v' lo hi : lo <= hi -> v <= v' -> clamp v lo hi <= clamp v' lo hi.
Proof.
  unfold clamp. intros. destruct (Z.ltb_spec v lo), (Z.ltb_spec hi v), (Z.ltb_spec v' lo),
    (Z.ltb_spec hi v'); lia.
Qed.

(** The normalizations are monotone and stay in the factor scale: a larger
    raw value never lowers a higher-is-better factor and never raises a
    lower-is-better one, for every reference, saturated products included. *)
Theorem normalize_monotone (x y ref : Z) (Hxy : x <= y) :
  0 <= normalize_higher_better x ref <= normalize_higher_better y ref /\
  normalize_higher_better y ref <= kScale /\
  0 <= normalize_lower_better y ref <= normalize_lower_better x ref /\
  normalize_lower_better x ref <= kScale.
Proof.
  unfold normalize_higher_better, normalize_lower_better.
  pose proof (fun v => clamp_bounds v 0 kScale ltac:(done)) as Hc.
  assert (forall z, 0 < z -> 0 <= mul_div z kScale (reference ref)) as Hpos.
  { intros z Hz. rewrite mul_div_scale by done. destruct (_ <? _); [unfold i64_max; lia|].
    apply Z.quot_pos; [unfold kScale, kFactorScale; lia | apply reference_positive]. }
  assert (0 < kScale) by done.
  destruct (Z.leb_spec x 0), (Z.leb_spec y 0); try lia; cbv zeta.
  - specialize (Hc (mul_div y kScale (reference ref))). specialize (Hpos y ltac:(lia)).
    destruct (Z.leb_spec kScale (mul_div y kScale (reference ref))); lia.
  - pose proof (scaled_mono x y ref ltac:(lia)) as Hm.
    pose proof (clamp_mono _ _ 0 kScale ltac:(lia) Hm).
    pose proof (Hc (mul_div x kScale (reference ref))). pose proof (Hc (mul_div y kScale (reference ref))).
    pose proof (Hpos x ltac:(lia)).
    destruct (Z.leb_spec kScale (mul_div y kScale (reference ref))),
      (Z.leb_spec kScale (mul_div x kScale (reference ref))); lia.
Qed.

Lemma normalize_monotone_witness :
  0 <= normalize_lower_better 9000000 5000000 <= normalize_lower_better 2500000 5000000 /\
  normalize_lower_better 2500000 5000000 = 500000.
Proof.
  split; [|reflexivity].
  exact (proj1 (proj2 (proj2 (normalize_monotone 2500000 9000000 5000000 ltac:(lia))))).
Defined.

(** Capacity headroom ignores the expiry of its evidence: the factor is the
    same at every time, so a capacity report that expired long ago is still
    scored as known, where every other observation becomes unknown. *)
Theorem capacity_factor_ignores_expiry (c : RouteCandidate) (ctx : RankingContext) (t : UnixMillis) :
  let at_time now := {| cx_request := cx_request ctx; cx_evidence := cx_evidence ctx;
    cx_policy_verdict := cx_policy_verdict ctx; cx_weights := cx_weights ctx;
    cx_scales := cx_scales ctx; cx_now := now; cx_continuity_backend := cx_continuity_backend ctx;
    cx_has_continuity_backend := cx_has_continuity_backend ctx;
    cx_diversity_reference_provider := cx_diversity_reference_provider ctx;
    cx_has_diversity_reference := cx_has_diversity_reference ctx |} in
  factor_capacity c (at_time t) = factor_capacity c ctx /\
  (let detail := capacity_detail_default <| cd_available_slots := 8 |> <| cd_total_slots := 8 |>
                   <| cd_expires_at := 150 |> in
   let reported := ready_candidate <| rc_backend := (rc_backend ready_candidate)
                     <| bd_capacity_detail := detail |> |> in
   expired_at (cd_expires_at detail) 1000 = true /\
   fv_known (factor_capacity reported ready_context) = true /\
   fv_contribution (factor_capacity reported ready_context) = 50000).
Proof. cbv zeta. split; [reflexivity|]. vm_compute. repeat split. Qed.
