(* ===== verification/Decision.v ===== *)
(** * Route decisions ([decision.hpp], [decision.cpp], [explanation.cpp])

    Explanations, decisions, plans, dispatch and completion records, and the
    digests that identify a routing outcome. *)
From S2P Require Import Prelude Ids Sha256 Outcome Clock Evidence Request Candidate Authority.

Module RouteStatus.
Inductive t := CURRENT | SUPERSEDED | STALE | DISPATCHED | COMPLETED | FAILED | CANCELLED | kCount.

#[export] Instance eq_dec : EqDecision t.
Proof. solve_decision. Defined.

(** [static_cast] to the underlying integer. *)
Definition index (s : t) : Z :=
  match s with CURRENT => 0 | SUPERSEDED => 1 | STALE => 2 | DISPATCHED => 3 | COMPLETED => 4 | FAILED => 5 | CANCELLED => 6 | kCount => 7 end.

Definition to_string (s : t) : string :=
  match s with
  | CURRENT => "CURRENT"
  | SUPERSEDED => "SUPERSEDED"
  | STALE => "STALE"
  | DISPATCHED => "DISPATCHED"
  | COMPLETED => "COMPLETED"
  | FAILED => "FAILED"
  | CANCELLED => "CANCELLED"
  | kCount => "INVALID"
  end.
End RouteStatus.
Export (hints) RouteStatus.

(** ** Data *)

Record RouteExplanation := {
  rx_request_id : EntityId RouteRequestTag;
  rx_request_generation : Generation RouteRequestTag;
  rx_winner : CandidateKey;
  rx_eligible_count : Z;
  rx_rejected_count : Z;
  rx_rejections : list RouteRejection;
  rx_ranking : list RankedCandidate;
  rx_tie_break_reason : string;
  rx_authority : RouteAuthority;
  rx_cost : CostEvidence;
  rx_slo : SloEvidence;
  rx_budget : BudgetSnapshot;
  rx_policy : PolicySnapshot;
  rx_policy_result : OutcomeCode.t;
  rx_fallback_order : list CandidateKey;
  rx_currentness : Currentness.t;
  rx_revalidation_required : bool;
  rx_detail_retained : bool;
  rx_requirement_digest : string;
  rx_semantic_digest : string
}.
#[export] Instance route_explanation_eta : Eta RouteExplanation := fun r =>
  {| rx_request_id := rx_request_id r;
     rx_request_generation := rx_request_generation r;
     rx_winner := rx_winner r;
     rx_eligible_count := rx_eligible_count r;
     rx_rejected_count := rx_rejected_count r;
     rx_rejections := rx_rejections r;
     rx_ranking := rx_ranking r;
     rx_tie_break_reason := rx_tie_break_reason r;
     rx_authority := rx_authority r;
     rx_cost := rx_cost r;
     rx_slo := rx_slo r;
     rx_budget := rx_budget r;
     rx_policy := rx_policy r;
     rx_policy_result := rx_policy_result r;
     rx_fallback_order := rx_fallback_order r;
     rx_currentness := rx_currentness r;
     rx_revalidation_required := rx_revalidation_required r;
     rx_detail_retained := rx_detail_retained r;
     rx_requirement_digest := rx_requirement_digest r;
     rx_semantic_digest := rx_semantic_digest r |}.
Definition route_explanation_default : RouteExplanation := {|
  rx_request_id := none;
  rx_request_generation := none;
  rx_winner := candidate_key_default;
  rx_eligible_count := 0;
  rx_rejected_count := 0;
  rx_rejections := [];
  rx_ranking := [];
  rx_tie_break_reason := "";
  rx_authority := route_authority_default;
  rx_cost := cost_evidence_default;
  rx_slo := slo_evidence_default;
  rx_budget := budget_snapshot_default;
  rx_policy := policy_snapshot_default;
  rx_policy_result := OutcomeCode.ACCEPTED;
  rx_fallback_order := [];
  rx_currentness := Currentness.CURRENT;
  rx_revalidation_required := false;
  rx_detail_retained := true;
  rx_requirement_digest := "";
  rx_semantic_digest := ""
|}.

Record RouteDecision := {
  de_decision_id : EntityId RouteDecisionTag;
  de_decision_generation : Generation RouteDecisionTag;
  de_request_id : EntityId RouteRequestTag;
  de_request_generation : Generation RouteRequestTag;
  de_status : RouteStatus.t;
  de_code : OutcomeCode.t;
  de_authority : RouteAuthority;
  de_explanation : RouteExplanation;
  de_fallbacks : list CandidateKey;
  de_dispatch_generation : Generation DispatchTag;
  de_dispatch_id : EntityId DispatchTag;
  de_reservation : ReservationEvidence;
  de_created_at : UnixMillis;
  de_superseded_at : UnixMillis
}.
#[export] Instance route_decision_eta : Eta RouteDecision := fun r =>
  {| de_decision_id := de_decision_id r;
     de_decision_generation := de_decision_generation r;
     de_request_id := de_request_id r;
     de_request_generation := de_request_generation r;
     de_status := de_status r;
     de_code := de_code r;
     de_authority := de_authority r;
     de_explanation := de_explanation r;
     de_fallbacks := de_fallbacks r;
     de_dispatch_generation := de_dispatch_generation r;
     de_dispatch_id := de_dispatch_id r;
     de_reservation := de_reservation r;
     de_created_at := de_created_at r;
     de_superseded_at := de_superseded_at r |}.
Definition route_decision_default : RouteDecision := {|
  de_decision_id := none;
  de_decision_generation := none;
  de_request_id := none;
  de_request_generation := none;
  de_status := RouteStatus.CURRENT;
  de_code := OutcomeCode.ROUTED;
  de_authority := route_authority_default;
  de_explanation := route_explanation_default;
  de_fallbacks := [];
  de_dispatch_generation := none;
  de_dispatch_id := none;
  de_reservation := reservation_evidence_default;
  de_created_at := 0;
  de_superseded_at := 0
|}.

Record DispatchConstraints := {
  dk_require_revalidation : bool;
  dk_require_reservation : bool;
  dk_max_attempts : Z;
  dk_max_fallbacks : Z;
  dk_dispatch_deadline : UnixMillis
}.
#[export] Instance dispatch_constraints_eta : Eta DispatchConstraints := fun r =>
  {| dk_require_revalidation := dk_require_revalidation r;
     dk_require_reservation := dk_require_reservation r;
     dk_max_attempts := dk_max_attempts r;
     dk_max_fallbacks := dk_max_fallbacks r;
     dk_dispatch_deadline := dk_dispatch_deadline r |}.
Definition dispatch_constraints_default : DispatchConstraints := {|
  dk_require_revalidation := true;
  dk_require_reservation := false;
  dk_max_attempts := 2;
  dk_max_fallbacks := 2;
  dk_dispatch_deadline := kNoExpiry
|}.

Record RoutePlan := {
  pl_plan_id : EntityId RoutePlanTag;
  pl_plan_generation : Generation RoutePlanTag;
  pl_decision_id : EntityId RouteDecisionTag;
  pl_decision_generation : Generation RouteDecisionTag;
  pl_primary : CandidateKey;
  pl_fallbacks : list CandidateKey;
  pl_authority : RouteAuthority;
  pl_constraints : DispatchConstraints;
  pl_retry_policy : RetryReroutePolicy;
  pl_fallback_policy : FallbackPolicy.t;
  pl_created_at : UnixMillis;
  pl_expires_at : UnixMillis
}.
#[export] Instance route_plan_eta : Eta RoutePlan := fun r =>
  {| pl_plan_id := pl_plan_id r;
     pl_plan_generation := pl_plan_generation r;
     pl_decision_id := pl_decision_id r;
     pl_decision_generation := pl_decision_generation r;
     pl_primary := pl_primary r;
     pl_fallbacks := pl_fallbacks r;
     pl_authority := pl_authority r;
     pl_constraints := pl_constraints r;
     pl_retry_policy := pl_retry_policy r;
     pl_fallback_policy := pl_fallback_policy r;
     pl_created_at := pl_created_at r;
     pl_expires_at := pl_expires_at r |}.
Definition route_plan_default : RoutePlan := {|
  pl_plan_id := none;
  pl_plan_generation := none;
  pl_decision_id := none;
  pl_decision_generation := none;
  pl_primary := candidate_key_default;
  pl_fallbacks := [];
  pl_authority := route_authority_default;
  pl_constraints := dispatch_constraints_default;
  pl_retry_policy := retry_reroute_policy_default;
  pl_fallback_policy := FallbackPolicy.EXPLICIT_ONLY;
  pl_created_at := 0;
  pl_expires_at := kNoExpiry
|}.

Record DispatchRecord := {
  di_dispatch_id : EntityId DispatchTag;
  di_dispatch_generation : Generation DispatchTag;
  di_decision_id : EntityId RouteDecisionTag;
  di_decision_generation : Generation RouteDecisionTag;
  di_target : CandidateKey;
  di_code : OutcomeCode.t;
  di_failure : FailureClass.t;
  di_revalidation : AuthorityComparison;
  di_revalidated : bool;
  di_handed_off : bool;
  di_dispatched_at : UnixMillis;
  di_detail : string
}.
#[export] Instance dispatch_record_eta : Eta DispatchRecord := fun r =>
  {| di_dispatch_id := di_dispatch_id r;
     di_dispatch_generation := di_dispatch_generation r;
     di_decision_id := di_decision_id r;
     di_decision_generation := di_decision_generation r;
     di_target := di_target r;
     di_code := di_code r;
     di_failure := di_failure r;
     di_revalidation := di_revalidation r;
     di_revalidated := di_revalidated r;
     di_handed_off := di_handed_off r;
     di_dispatched_at := di_dispatched_at r;
     di_detail := di_detail r |}.
Definition dispatch_record_default : DispatchRecord := {|
  di_dispatch_id := none;
  di_dispatch_generation := none;
  di_decision_id := none;
  di_decision_generation := none;
  di_target := candidate_key_default;
  di_code := OutcomeCode.INTERNAL_ERROR;
  di_failure := FailureClass.UNKNOWN;
  di_revalidation := {| cm_code := OutcomeCode.ACCEPTED; cm_differences := [] |};
  di_revalidated := false;
  di_handed_off := false;
  di_dispatched_at := 0;
  di_detail := ""
|}.

Record CompletionRecord := {
  cn_dispatch_id : EntityId DispatchTag;
  cn_decision_id : EntityId RouteDecisionTag;
  cn_code : OutcomeCode.t;
  cn_failure : FailureClass.t;
  cn_observed_latency_micros : Z;
  cn_observed_ttft_micros : Z;
  cn_observed_at : UnixMillis;
  cn_detail : string
}.
#[export] Instance completion_record_eta : Eta CompletionRecord := fun r =>
  {| cn_dispatch_id := cn_dispatch_id r;
     cn_decision_id := cn_decision_id r;
     cn_code := cn_code r;
     cn_failure := cn_failure r;
     cn_observed_latency_micros := cn_observed_latency_micros r;
     cn_observed_ttft_micros := cn_observed_ttft_micros r;
     cn_observed_at := cn_observed_at r;
     cn_detail := cn_detail r |}.
Definition completion_record_default : CompletionRecord := {|
  cn_dispatch_id := none;
  cn_decision_id := none;
  cn_code := OutcomeCode.INTERNAL_ERROR;
  cn_failure := FailureClass.UNKNOWN;
  cn_observed_latency_micros := 0;
  cn_observed_ttft_micros := 0;
  cn_observed_at := 0;
  cn_detail := ""
|}.

Record RouteOutcome := {
  oc_code : OutcomeCode.t;
  oc_explanation : Explanation;
  oc_route : RouteExplanation;
  oc_decision : RouteDecision;
  oc_has_decision : bool
}.
#[export] Instance route_outcome_eta : Eta RouteOutcome := fun r =>
  {| oc_code := oc_code r;
     oc_explanation := oc_explanation r;
     oc_route := oc_route r;
     oc_decision := oc_decision r;
     oc_has_decision := oc_has_decision r |}.
Definition route_outcome_default : RouteOutcome := {|
  oc_code := OutcomeCode.INTERNAL_ERROR;
  oc_explanation := explanation_default;
  oc_route := route_explanation_default;
  oc_decision := route_decision_default;
  oc_has_decision := false
|}.

Definition dispatchable (d : RouteDecision) : bool :=
  (de_status d == RouteStatus.CURRENT) && (de_code d == OutcomeCode.ROUTED).

Definition routed (o : RouteOutcome) : bool := oc_code o == OutcomeCode.ROUTED.
Definition outcome_rejected (o : RouteOutcome) : bool := OutcomeCode.is_rejection (oc_code o).

Definition outcome_make (code : OutcomeCode.t) (subject message : string) : RouteOutcome :=
  route_outcome_default <| oc_code := code |>
    <| oc_explanation := build (builder code subject >>> set_message message) |>
    <| oc_has_decision := false |>.

(** ** Digests *)

(** The generations a digest binds, in the order of the [append] calls. *)
Definition bound_generations (a : RouteAuthority) : list Z := [
  value (au_router_epoch a); value (au_coordinator_epoch a); value (au_model_generation a);
  value (au_artifact_generation a); value (au_backend_generation a); value (au_backend_boot a);
  value (au_endpoint_generation a); value (au_capability_generation a); value (au_policy_generation a);
  value (au_budget_generation a); value (au_price_generation a); value (au_slo_generation a);
  value (au_compatibility_generation a); value (au_trust_generation a); value (au_health_generation a);
  value (au_availability_generation a); value (au_readiness_generation a);
  value (au_residency_generation a); value (au_capacity_generation a); value (au_reservation_generation a)].

Definition char_of (z : Z) : Ascii.ascii := Ascii.ascii_of_N (Z.to_N (Z.land z 255)).

(** The bytes of [value] from bit [shift] up, in [count] steps of eight bits. *)
Fixpoint bytes_le (count : nat) (v : Z) : string :=
  match count with
  | O => ""
  | S count => String (char_of v) (bytes_le count (Z.shiftr v 8))
  end.

(** [append_u64]: the eight bytes of a value, the least significant first. *)
Definition append_u64 (v : Z) : string := bytes_le 8 v.

(** [static_cast<std::uint64_t>] of a signed integer is [word64]. *)
Definition ranked_text (r : RankedCandidate) : string :=
  key_to_string (rk_key r) +:+ ":" +:+ append_u64 (word64 (rk_score r)) +:+ ":" +:+
  append_u64 (rk_rank r) +:+ ":" +:+
  String.concat "" (map (fun f => String (char_of (RankingFactor.index (fv_factor f)))
                                   (if fv_known f then "1" else "0")) (rk_factors r)) +:+ "|".

Definition rejection_text (r : RouteRejection) : string :=
  append_u64 (rj_model_id r) +:+ "/" +:+ append_u64 (value (rj_model_generation r)) +:+ "/" +:+
  append_u64 (rj_backend_id r) +:+ "/" +:+ append_u64 (value (rj_backend_boot r)) +:+ "/" +:+
  String (char_of (OutcomeCode.index (rj_code r))) ";".

(** The canonical text [compute_semantic_digest] hashes. *)
Definition explanation_digest_text (e : RouteExplanation) : string :=
  rx_requirement_digest e +:+ "|" +:+ key_to_string (rx_winner e) +:+ "|" +:+
  String.concat "" (map ranked_text (rx_ranking e)) +:+
  String.concat "" (map rejection_text (rx_rejections e)) +:+ "|" +:+
  String.concat "" (map (fun k => key_to_string k +:+ ";") (rx_fallback_order e)) +:+ "|" +:+
  String.concat "" (map (fun v => append_u64 v +:+ ",") (bound_generations (rx_authority e))).

Definition compute_semantic_digest (e : RouteExplanation) : string :=
  sha256_hex (explanation_digest_text e).

(** [RouteExplanation::canonicalize]: [fallback_order] keeps its order. *)
Definition number_ranks (l : list RankedCandidate) : list RankedCandidate :=
  imap (fun i r => r <| rk_rank := word32 (Z.of_nat i + 1) |>) l.
Definition route_explanation_canonicalize (e : RouteExplanation) : RouteExplanation :=
  e <| rx_rejections := stable_sort rejection_canonical_less (rx_rejections e) |>
    <| rx_ranking := map (fun r => r <| rk_factors := stable_sort factor_less (rk_factors r) |>)
                       (number_ranks (stable_sort candidate_ranks_before (rx_ranking e))) |>.

Definition append_key (k : CandidateKey) : string := key_to_string k +:+ "|".

Definition decision_digest_text (d : RouteDecision) : string :=
  rx_requirement_digest (de_explanation d) +:+ "|" +:+ append_key (rx_winner (de_explanation d)) +:+
  String.concat "" (map append_key (de_fallbacks d)) +:+
  OutcomeCode.to_string (de_code d) +:+ "|" +:+ rx_semantic_digest (de_explanation d) +:+ "|" +:+
  String.concat "" (map (fun v => to_string_int v +:+ ",") (bound_generations (de_authority d))).

Definition decision_semantic_digest (d : RouteDecision) : string := sha256_hex (decision_digest_text d).

Definition plan_digest_text (p : RoutePlan) : string :=
  to_string_int (value (pl_plan_id p)) +:+ "/" +:+ to_string_int (value (pl_plan_generation p)) +:+ "|" +:+
  to_string_int (value (pl_decision_id p)) +:+ "/" +:+
  to_string_int (value (pl_decision_generation p)) +:+ "|" +:+ append_key (pl_primary p) +:+
  String.concat "" (map append_key (pl_fallbacks p)) +:+ authority_digest (pl_authority p) +:+ "|" +:+
  bit (dk_require_revalidation (pl_constraints p)) +:+ bit (dk_require_reservation (pl_constraints p)) +:+
  to_string_int (dk_max_attempts (pl_constraints p)) +:+ to_string_int (dk_max_fallbacks (pl_constraints p)) +:+
  to_string_int (dk_dispatch_deadline (pl_constraints p)) +:+ "|" +:+
  FallbackPolicy.to_string (pl_fallback_policy p) +:+
  to_string_int (rp_max_attempts (pl_retry_policy p)) +:+ to_string_int (rp_max_fallbacks (pl_retry_policy p)) +:+
  bit (rp_allow_reroute (pl_retry_policy p)) +:+ bit (rp_allow_model_switch (pl_retry_policy p)) +:+
  bit (rp_allow_provider_switch (pl_retry_policy p)).

Definition plan_semantic_digest (p : RoutePlan) : string := sha256_hex (plan_digest_text p).

(** ** Two passes over the same canonical state *)

(** The same routing outcome under fresh request and decision identities: what
    two passes over the same canonical state produce. *)
Record same_routing (d d' : RouteDecision) : Prop := {
  same_requirements : rx_requirement_digest (de_explanation d) = rx_requirement_digest (de_explanation d');
  same_winner : rx_winner (de_explanation d) = rx_winner (de_explanation d');
  same_ranking : rx_ranking (de_explanation d) = rx_ranking (de_explanation d');
  same_rejections : rx_rejections (de_explanation d) = rx_rejections (de_explanation d');
  same_order : rx_fallback_order (de_explanation d) = rx_fallback_order (de_explanation d');
  same_fallbacks : de_fallbacks d = de_fallbacks d';
  same_code : de_code d = de_code d';
  same_bound : bound_generations (de_authority d) = bound_generations (de_authority d');
  same_explained : bound_generations (rx_authority (de_explanation d)) =
                   bound_generations (rx_authority (de_explanation d'))
}.

Lemma explanation_digest_text_same d d' :
  same_routing d d' ->
  explanation_digest_text (de_explanation d) = explanation_digest_text (de_explanation d').
Proof. intros []. unfold explanation_digest_text. congruence. Qed.

Definition digested (d : RouteDecision) : RouteDecision :=
  d <| de_explanation := (de_explanation d)
       <| rx_semantic_digest := compute_semantic_digest (de_explanation d) |> |>.

Lemma digested_text d :
  decision_digest_text (digested d) =
  rx_requirement_digest (de_explanation d) +:+ "|" +:+ append_key (rx_winner (de_explanation d)) +:+
  String.concat "" (map append_key (de_fallbacks d)) +:+
  OutcomeCode.to_string (de_code d) +:+ "|" +:+ compute_semantic_digest (de_explanation d) +:+ "|" +:+
  String.concat "" (map (fun v => to_string_int v +:+ ",") (bound_generations (de_authority d))).
Proof. reflexivity. Qed.

(** The digests identify the routing outcome, not the pass that made it: two
    decisions with the same ranking, rejections, fallbacks, code and bound
    generations get the same explanation digest and the same decision digest,
    whatever request, decision, dispatch identities, times, status and evidence
    payload they carry. *)
Theorem semantic_digest_identity_free (d d' : RouteDecision) (H : same_routing d d') :
  compute_semantic_digest (de_explanation d) = compute_semantic_digest (de_explanation d') /\
  decision_semantic_digest (digested d) = decision_semantic_digest (digested d').
Proof.
  assert (E : compute_semantic_digest (de_explanation d) = compute_semantic_digest (de_explanation d')).
  { unfold compute_semantic_digest. by rewrite (explanation_digest_text_same d d' H). }
  split; [exact E|]. unfold decision_semantic_digest. rewrite !digested_text, E.
  destruct H. congruence.
Qed.

Definition first_pass : RouteDecision :=
  route_decision_default <| de_decision_id := EntityIdOf 1 |> <| de_request_id := EntityIdOf 2 |>.
Definition second_pass : RouteDecision :=
  route_decision_default <| de_decision_id := EntityIdOf 7 |> <| de_request_id := EntityIdOf 8 |>
    <| de_authority := route_authority_default <| au_decision_id := EntityIdOf 7 |> |>.

Lemma semantic_digest_identity_free_witness :
  de_decision_id first_pass <> de_decision_id second_pass /\
  compute_semantic_digest (de_explanation first_pass) = compute_semantic_digest (de_explanation second_pass).
Proof.
  split; [discriminate|].
  exact (proj1 (semantic_digest_identity_free first_pass second_pass ltac:(split; reflexivity))).
Defined.
