(* ===== verification/RouteReport.v ===== *)
(** * Explanations in words ([explanation.cpp], [outcome.cpp])

    The text and the JSON of a route explanation, and the documents they are. *)
From S2P Require Import Prelude.
From S2P Require Import Ids.
From S2P Require Import Sha256.
From S2P Require Import Outcome.
From S2P Require Import Json.
From S2P Require Import Evidence.
From S2P Require Import Candidate.
From S2P Require Import Policy.
From S2P Require Import Authority.
From S2P Require Import Decision.

(** [std::to_string(x.value())] on identities and generations. *)
Definition number {A} `{Identity A} (x : A) : string := to_string_int (value x).
Definition newline : string := String (Ascii.ascii_of_nat 10) "".

(** ** Text *)

Definition factor_to_text (f : FactorValue) : string :=
  RankingFactor.to_string (fv_factor f) +:+ ":" +:+
  (if fv_known f then to_string_int (fv_normalized f) else "UNKNOWN").

Definition ranked_to_text (r : RankedCandidate) : string :=
  newline +:+ "  #" +:+ to_string_int (rk_rank r) +:+ " score=" +:+ to_string_int (rk_score r) +:+ " " +:+
  key_to_string (rk_key r) +:+ " factors=" +:+ join_comma (factor_to_text <$> rk_factors r).

Definition rejection_to_text (r : RouteRejection) : string :=
  newline +:+ "  model=" +:+ to_string_int (rj_model_id r) +:+ "@" +:+ number (rj_model_generation r) +:+
  " backend=" +:+ to_string_int (rj_backend_id r) +:+ "@" +:+ number (rj_backend_generation r) +:+
  ".boot=" +:+ number (rj_backend_boot r) +:+ " code=" +:+ OutcomeCode.to_string (rj_code r) +:+
  (if rj_detail r == "" then "" else " " +:+ rj_detail r).

Definition route_explanation_to_text (e : RouteExplanation) : string :=
  "request=" +:+ number (rx_request_id e) +:+ "/" +:+ number (rx_request_generation e) +:+
  newline +:+ "winner=" +:+ key_to_string (rx_winner e) +:+
  newline +:+ "eligible=" +:+ to_string_int (rx_eligible_count e) +:+
  " rejected=" +:+ to_string_int (rx_rejected_count e) +:+
  newline +:+ "polic=" +:+ OutcomeCode.to_string (rx_policy_result e) +:+
  " currentness=" +:+ Currentness.to_string (rx_currentness e) +:+
  " revalidation_required=" +:+ (if rx_revalidation_required e then "true" else "false") +:+
  newline +:+ "tie_break=" +:+ rx_tie_break_reason e +:+
  newline +:+ "authority_digest=" +:+ authority_digest (rx_authority e) +:+
  newline +:+ "ranking:" +:+
  (if rx_detail_retained e then ""
   else " (factor detail was not persisted; winner and bound authority are exact)") +:+
  String.concat "" (ranked_to_text <$> rx_ranking e) +:+
  (if negb (is_empty (rx_rejections e)) || negb (rx_detail_retained e) then
     newline +:+ "rejections:" +:+
     (if negb (rx_detail_retained e) && is_empty (rx_rejections e) then " (not persisted)" else "") +:+
     String.concat "" (rejection_to_text <$> rx_rejections e)
   else "") +:+
  (if is_empty (rx_fallback_order e) then ""
   else newline +:+ "fallbacks:" +:+
        String.concat "" ((fun k => newline +:+ "  " +:+ key_to_string k) <$> rx_fallback_order e)) +:+
  newline +:+ "cost=" +:+ cu_currency (co_unit (rx_cost e)) +:+ "/" +:+ cu_basis (co_unit (rx_cost e)) +:+ "/" +:+
  to_string_int (co_estimated_total_micros (rx_cost e)) +:+
  " knownness=" +:+ CostKnownness.to_string (co_knownness (rx_cost e)) +:+
  " price_generation=" +:+ number (co_price_generation (rx_cost e)) +:+
  newline +:+ "slo=" +:+ number (sl_slo_id (rx_slo e)) +:+ "/" +:+ number (sl_generation (rx_slo e)) +:+ "/" +:+
  SloVerdict.to_string (sl_verdict (rx_slo e)) +:+
  newline +:+ "budget=" +:+ number (bu_budget_id (rx_budget e)) +:+ "/" +:+ number (bu_generation (rx_budget e)) +:+
  "/" +:+ BudgetVerdict.to_string (bu_verdict (rx_budget e)) +:+
  newline +:+ "policy=" +:+ number (po_policy_id (rx_policy e)) +:+ "/" +:+ number (po_generation (rx_policy e)) +:+
  newline +:+ "requirement_digest=" +:+ rx_requirement_digest e +:+
  newline +:+ "semantic_digest=" +:+ rx_semantic_digest e.

(** ** JSON *)

(** The member [k] of an object, its value already written. *)
Definition member (k v : string) : string := quoted k +:+ ":" +:+ v.
Definition truth (b : bool) : string := if b then "true" else "false".

Definition factor_to_json (f : FactorValue) : string :=
  member (RankingFactor.to_string (fv_factor f))
    ("{" +:+ member "known" (truth (fv_known f)) +:+ "," +:+ member "value" (to_string_int (fv_normalized f)) +:+
     "," +:+ member "raw" (to_string_int (fv_raw f)) +:+ "," +:+ member "weight" (to_string_int (fv_weight_ppm f)) +:+
     "," +:+ member "contribution" (to_string_int (fv_contribution f)) +:+
     "," +:+ member "generation" (to_string_int (fv_evidence_generation f)) +:+
     "," +:+ member "source" (quoted (escape_json (fv_source f))) +:+ "}").

Definition ranked_to_json (r : RankedCandidate) : string :=
  "{" +:+ member "rank" (to_string_int (rk_rank r)) +:+ "," +:+ member "score" (to_string_int (rk_score r)) +:+
  "," +:+ member "candidate" (quoted (escape_json (key_to_string (rk_key r)))) +:+
  "," +:+ member "factors" ("{" +:+ join_comma (factor_to_json <$> rk_factors r) +:+ "}") +:+ "}".

Definition rejection_to_json (r : RouteRejection) : string :=
  "{" +:+ member "model" (to_string_int (rj_model_id r)) +:+
  "," +:+ member "model_generation" (number (rj_model_generation r)) +:+
  "," +:+ member "backend" (to_string_int (rj_backend_id r)) +:+
  "," +:+ member "backend_generation" (number (rj_backend_generation r)) +:+
  "," +:+ member "backend_boot" (number (rj_backend_boot r)) +:+
  "," +:+ member "endpoint" (to_string_int (rj_endpoint_id r)) +:+
  "," +:+ member "code" (quoted (OutcomeCode.to_string (rj_code r))) +:+
  "," +:+ member "detail" (quoted (escape_json (rj_detail r))) +:+ "}".

Definition cost_to_json (c : CostEvidence) : string :=
  "{" +:+ member "currency" (quoted (escape_json (cu_currency (co_unit c)))) +:+
  "," +:+ member "basis" (quoted (escape_json (cu_basis (co_unit c)))) +:+
  "," +:+ member "estimated_total_micros" (to_string_int (co_estimated_total_micros c)) +:+
  "," +:+ member "knownness" (quoted (CostKnownness.to_string (co_knownness c))) +:+
  "," +:+ member "price_generation" (number (co_price_generation c)) +:+ "}".

Definition route_explanation_to_json (e : RouteExplanation) : string :=
  "{" +:+ member "request" (quoted (number (rx_request_id e) +:+ "/" +:+ number (rx_request_generation e))) +:+
  "," +:+ member "winner" (quoted (escape_json (key_to_string (rx_winner e)))) +:+
  "," +:+ member "eligible" (to_string_int (rx_eligible_count e)) +:+
  "," +:+ member "rejected" (to_string_int (rx_rejected_count e)) +:+
  "," +:+ member "policy_result" (quoted (OutcomeCode.to_string (rx_policy_result e))) +:+
  "," +:+ member "currentness" (quoted (Currentness.to_string (rx_currentness e))) +:+
  "," +:+ member "revalidation_required" (truth (rx_revalidation_required e)) +:+
  "," +:+ member "tie_break" (quoted (escape_json (rx_tie_break_reason e))) +:+
  "," +:+ member "authority_digest" (quoted (authority_digest (rx_authority e))) +:+
  "," +:+ member "detail_retained" (truth (rx_detail_retained e)) +:+
  "," +:+ member "ranking" ("[" +:+ join_comma (ranked_to_json <$> rx_ranking e) +:+ "]") +:+
  "," +:+ member "rejections" ("[" +:+ join_comma (rejection_to_json <$> rx_rejections e) +:+ "]") +:+
  "," +:+ member "fallbacks"
            ("[" +:+ join_comma ((fun k => quoted (escape_json (key_to_string k))) <$> rx_fallback_order e) +:+ "]") +:+
  "," +:+ member "cost" (cost_to_json (rx_cost e)) +:+
  "," +:+ member "slo"
            ("{" +:+ member "id" (number (sl_slo_id (rx_slo e))) +:+
             "," +:+ member "generation" (number (sl_generation (rx_slo e))) +:+
             "," +:+ member "verdict" (quoted (SloVerdict.to_string (sl_verdict (rx_slo e)))) +:+ "}") +:+
  "," +:+ member "budget"
            ("{" +:+ member "id" (number (bu_budget_id (rx_budget e))) +:+
             "," +:+ member "generation" (number (bu_generation (rx_budget e))) +:+
             "," +:+ member "verdict" (quoted (BudgetVerdict.to_string (bu_verdict (rx_budget e)))) +:+ "}") +:+
  "," +:+ member "policy"
            ("{" +:+ member "id" (number (po_policy_id (rx_policy e))) +:+
             "," +:+ member "generation" (number (po_generation (rx_policy e))) +:+ "}") +:+
  "," +:+ member "requirement_digest" (quoted (rx_requirement_digest e)) +:+
  "," +:+ member "semantic_digest" (quoted (rx_semantic_digest e)) +:+ "}".

(** ** The documents *)

Definition factor_document (f : FactorValue) : string * Json :=
  (RankingFactor.to_string (fv_factor f),
   JObject [("known", JBool (fv_known f)); ("value", JNumber (fv_normalized f)); ("raw", JNumber (fv_raw f));
     ("weight", JNumber (fv_weight_ppm f)); ("contribution", JNumber (fv_contribution f));
     ("generation", JNumber (fv_evidence_generation f)); ("source", JString (fv_source f))]).

Definition ranked_document (r : RankedCandidate) : Json :=
  JObject [("rank", JNumber (rk_rank r)); ("score", JNumber (rk_score r));
    ("candidate", JString (key_to_string (rk_key r))); ("factors", JObject (factor_document <$> rk_factors r))].

Definition rejection_document (r : RouteRejection) : Json :=
  JObject [("model", JNumber (rj_model_id r)); ("model_generation", JNumber (value (rj_model_generation r)));
    ("backend", JNumber (rj_backend_id r)); ("backend_generation", JNumber (value (rj_backend_generation r)));
    ("backend_boot", JNumber (value (rj_backend_boot r))); ("endpoint", JNumber (rj_endpoint_id r));
    ("code", JString (OutcomeCode.to_string (rj_code r))); ("detail", JString (rj_detail r))].

Definition cost_document (c : CostEvidence) : Json :=
  JObject [("currency", JString (cu_currency (co_unit c))); ("basis", JString (cu_basis (co_unit c)));
    ("estimated_total_micros", JNumber (co_estimated_total_micros c));
    ("knownness", JString (CostKnownness.to_string (co_knownness c)));
    ("price_generation", JNumber (value (co_price_generation c)))].

Definition slo_document (s : SloEvidence) : Json :=
  JObject [("id", JNumber (value (sl_slo_id s))); ("generation", JNumber (value (sl_generation s)));
    ("verdict", JString (SloVerdict.to_string (sl_verdict s)))].

Definition budget_document (b : BudgetSnapshot) : Json :=
  JObject [("id", JNumber (value (bu_budget_id b))); ("generation", JNumber (value (bu_generation b)));
    ("verdict", JString (BudgetVerdict.to_string (bu_verdict b)))].

Definition route_explanation_document (e : RouteExplanation) : Json :=
  JObject [
    ("request", JString (number (rx_request_id e) +:+ "/" +:+ number (rx_request_generation e)));
    ("winner", JString (key_to_string (rx_winner e)));
    ("eligible", JNumber (rx_eligible_count e)); ("rejected", JNumber (rx_rejected_count e));
    ("policy_result", JString (OutcomeCode.to_string (rx_policy_result e)));
    ("currentness", JString (Currentness.to_string (rx_currentness e)));
    ("revalidation_required", JBool (rx_revalidation_required e));
    ("tie_break", JString (rx_tie_break_reason e));
    ("authority_digest", JString (authority_digest (rx_authority e)));
    ("detail_retained", JBool (rx_detail_retained e));
    ("ranking", JArray (ranked_document <$> rx_ranking e));
    ("rejections", JArray (rejection_document <$> rx_rejections e));
    ("fallbacks", JArray ((fun k => JString (key_to_string k)) <$> rx_fallback_order e));
    ("cost", cost_document (rx_cost e)); ("slo", slo_document (rx_slo e));
    ("budget", budget_document (rx_budget e));
    ("policy", JObject [("id", JNumber (value (po_policy_id (rx_policy e))));
                        ("generation", JNumber (value (po_generation (rx_policy e))))]);
    ("requirement_digest", JString (rx_requirement_digest e));
    ("semantic_digest", JString (rx_semantic_digest e))].

Definition factor_pair (f : ExplanationFactor) : string * Json := (factor_key f, JString (factor_value f)).
Definition explanation_document (e : Explanation) : Json :=
  JObject [("code", JString (OutcomeCode.to_string (ex_code e))); ("subject", JString (ex_subject e));
    ("message", JString (ex_message e)); ("factors", JObject (factor_pair <$> ex_factors e))].

(** ** Names and numbers need no escaping *)

Lemma outcome_unescaped c : unescaped (OutcomeCode.to_string c).
Proof. by destruct c. Qed.
Lemma factor_name_unescaped f : unescaped (RankingFactor.to_string f).
Proof. by destruct f. Qed.
Lemma knownness_unescaped k : unescaped (CostKnownness.to_string k).
Proof. by destruct k. Qed.
Lemma currentness_unescaped c : unescaped (Currentness.to_string c).
Proof. by destruct c. Qed.
Lemma slo_unescaped v : unescaped (SloVerdict.to_string v).
Proof. by destruct v. Qed.
Lemma budget_unescaped v : unescaped (BudgetVerdict.to_string v).
Proof. by destruct v. Qed.

Create HintDb unescaped.
#[export] Hint Resolve unescaped_app unescaped_int unescaped_hex outcome_unescaped factor_name_unescaped
  knownness_unescaped currentness_unescaped slo_unescaped budget_unescaped : unescaped.

Lemma number_unescaped {A} `{Identity A} (x : A) : unescaped (number x).
Proof. apply unescaped_int. Qed.
Lemma authority_digest_unescaped a : unescaped (authority_digest a).
Proof. apply unescaped_hex. Qed.
#[export] Hint Resolve number_unescaped authority_digest_unescaped : unescaped.
#[export] Hint Extern 5 (unescaped _) => reflexivity : unescaped.

(** ** What is written is the document *)

Lemma map_rendered_all {A} (to_json : A -> string) (document : A -> Json) (l : list A) :
  Forall (fun x => to_json x = render (document x)) l -> map render (document <$> l) = to_json <$> l.
Proof. induction 1 as [|x l H _ IH]; [done|]. cbn [fmap list_fmap map] in *. by rewrite IH, H. Qed.

Lemma map_rendered {A} (to_json : A -> string) (document : A -> Json) (l : list A) :
  (forall x, to_json x = render (document x)) -> map render (document <$> l) = to_json <$> l.
Proof. intros H. apply map_rendered_all, Forall_forall. auto. Qed.

(** Members whose keys need no escaping. *)
Lemma render_members {A} (to_json : A -> string) (document : A -> string * Json) (l : list A) :
  (forall x, to_json x = quoted (escape_json (document x).1) +:+ ":" +:+ render (document x).2) ->
  map (fun kv => quoted (escape_json kv.1) +:+ ":" +:+ render kv.2) (document <$> l) = to_json <$> l.
Proof. intros H. induction l as [|x l IH]; [done|]. cbn [fmap list_fmap map] in *. by rewrite IH, H. Qed.

(** Unfolds a document to the concatenation of its parts, grouped to the right. *)
Ltac spread := cbn [render map join_comma fst snd]; unfold member; rewrite ?append_assoc.

Lemma factor_rendered f :
  factor_to_json f = quoted (escape_json (factor_document f).1) +:+ ":" +:+ render (factor_document f).2.
Proof.
  unfold factor_to_json, factor_document. spread. rewrite factor_name_unescaped. reflexivity.
Qed.

Lemma ranked_rendered r : ranked_to_json r = render (ranked_document r).
Proof.
  unfold ranked_to_json, ranked_document. spread. rewrite (render_members factor_to_json) by apply factor_rendered.
  reflexivity.
Qed.

Lemma rejection_rendered r : rejection_to_json r = render (rejection_document r).
Proof. unfold rejection_to_json, rejection_document. spread. rewrite outcome_unescaped. reflexivity. Qed.

Lemma cost_rendered c : cost_to_json c = render (cost_document c).
Proof. unfold cost_to_json, cost_document. spread. rewrite knownness_unescaped. reflexivity. Qed.

Lemma explanation_rendered e : explanation_to_json e = render (explanation_document e).
Proof.
  unfold explanation_to_json, explanation_document. spread.
  rewrite (render_members (fun f => quoted (escape_json (factor_key f)) +:+ ":" +:+ quoted (escape_json (factor_value f))))
    by done.
  rewrite outcome_unescaped. reflexivity.
Qed.

(** The two digests are not escaped. *)
Definition plain_digests (e : RouteExplanation) : Prop :=
  unescaped (rx_requirement_digest e) /\ unescaped (rx_semantic_digest e).

Lemma request_unescaped (e : RouteExplanation) :
  unescaped (number (rx_request_id e) +:+ "/" +:+ number (rx_request_generation e)).
Proof. auto with unescaped. Qed.

Lemma route_explanation_rendered e :
  plain_digests e -> route_explanation_to_json e = render (route_explanation_document e).
Proof.
  intros [Hr Hs]. unfold route_explanation_to_json, route_explanation_document. cbn [render map fst snd].
  rewrite (map_rendered ranked_to_json) by apply ranked_rendered.
  rewrite (map_rendered rejection_to_json) by apply rejection_rendered.
  rewrite (map_rendered (fun k => quoted (escape_json (key_to_string k)))) by done.
  rewrite Hr, Hs, request_unescaped, authority_digest_unescaped, outcome_unescaped, currentness_unescaped.
  rewrite cost_rendered. unfold slo_document, budget_document. spread. rewrite slo_unescaped, budget_unescaped.
  reflexivity.
Qed.

(** ** What a reader gets *)

Lemma explanation_reads e : read_json (explanation_to_json e) = Some (explanation_document e).
Proof. rewrite explanation_rendered. apply read_json_render. Qed.

Lemma route_explanation_reads e :
  plain_digests e -> read_json (route_explanation_to_json e) = Some (route_explanation_document e).
Proof. intros H. rewrite route_explanation_rendered by done. apply read_json_render. Qed.
