(* ===== verification/RouterState.v ===== *)
(** * Canonical router state ([router_impl.hpp], [router.cpp])

    The authoritative state of a router, its derived indexes, and the single
    definition of "still executable". An ordered [std::map] is a [gmap]; where
    the code iterates one, the keys are taken in their order. *)
From S2P Require Import Prelude Ids Outcome Limits Clock Evidence Catalog Request Candidate.
From S2P Require Import Authority Decision.

(** ** Data *)

Record PersistenceCounters := {
  pc_highest_identity_issued : Z;
  pc_route_requests : Z;
  pc_route_decisions : Z;
  pc_dispatches : Z;
  pc_route_rejections : Z;
  pc_reroutes : Z;
  pc_fallbacks_taken : Z
}.
#[export] Instance persistence_counters_eta : Eta PersistenceCounters := fun r =>
  {| pc_highest_identity_issued := pc_highest_identity_issued r;
     pc_route_requests := pc_route_requests r;
     pc_route_decisions := pc_route_decisions r;
     pc_dispatches := pc_dispatches r;
     pc_route_rejections := pc_route_rejections r;
     pc_reroutes := pc_reroutes r;
     pc_fallbacks_taken := pc_fallbacks_taken r |}.
Definition persistence_counters_default : PersistenceCounters := {|
  pc_highest_identity_issued := 0;
  pc_route_requests := 0;
  pc_route_decisions := 0;
  pc_dispatches := 0;
  pc_route_rejections := 0;
  pc_reroutes := 0;
  pc_fallbacks_taken := 0
|}.

(** [++counter] on a [std::uint64_t]. *)
Definition incremented (x : Z) : Z := word64 (x + 1).

Record FencedBootRecord := {
  fb_backend_id : EntityId BackendTag;
  fb_backend_generation : Generation BackendTag;
  fb_backend_boot : Generation BackendBootTag;
  fb_reason : OutcomeCode.t;
  fb_fenced_at : UnixMillis
}.
#[export] Instance fenced_boot_record_eta : Eta FencedBootRecord := fun r =>
  {| fb_backend_id := fb_backend_id r;
     fb_backend_generation := fb_backend_generation r;
     fb_backend_boot := fb_backend_boot r;
     fb_reason := fb_reason r;
     fb_fenced_at := fb_fenced_at r |}.
Definition fenced_boot_record_default : FencedBootRecord := {|
  fb_backend_id := none;
  fb_backend_generation := none;
  fb_backend_boot := none;
  fb_reason := OutcomeCode.FENCED;
  fb_fenced_at := 0
|}.

Record FenceKey := {
  fk_backend_id : EntityId BackendTag;
  fk_backend_boot : Generation BackendBootTag
}.
#[export] Instance fence_key_eq_dec : EqDecision FenceKey.
Proof. solve_decision. Defined.

#[export] Instance fence_key_countable : Countable FenceKey.
Proof.
  by apply (inj_countable' (fun k => (fk_backend_id k, fk_backend_boot k))
              (fun p => {| fk_backend_id := p.1; fk_backend_boot := p.2 |})); intros [].
Defined.

Definition fence_key_ltb (x y : FenceKey) : bool :=
  if fk_backend_id x != fk_backend_id y then id_ltb (fk_backend_id x) (fk_backend_id y)
  else id_ltb (fk_backend_boot x) (fk_backend_boot y).

(** The entries of a [std::map] in the order of their keys. *)
Definition entries `{Countable K} {A} (ltb : K -> K -> bool) (m : gmap K A) : list (K * A) :=
  stable_sort (fun x y => ltb x.1 y.1) (map_to_list m).

(** Its values in that order. *)
Definition ordered_values `{Countable K} {A} (ltb : K -> K -> bool) (m : gmap K A) : list A :=
  (entries ltb m).*2.

(** [if (last < seen) last = seen;] over the values seen. *)
Definition raised {t} (seen : list (Generation t)) (last : Generation t) : Generation t :=
  fold_left (fun last g => if id_ltb last g then g else last) seen last.

Record RouteRecord := {
  rec_decision : RouteDecision;
  rec_plan : RoutePlan;
  rec_tenant : EntityId TenantTag;
  rec_name_space : EntityId NamespaceTag
}.
#[export] Instance route_record_eta : Eta RouteRecord := fun r =>
  {| rec_decision := rec_decision r;
     rec_plan := rec_plan r;
     rec_tenant := rec_tenant r;
     rec_name_space := rec_name_space r |}.
Definition route_record_default : RouteRecord := {|
  rec_decision := route_decision_default;
  rec_plan := route_plan_default;
  rec_tenant := none;
  rec_name_space := none
|}.

Record RouteLookup := {
  lk_decision_id : EntityId RouteDecisionTag;
  lk_decision_generation : Generation RouteDecisionTag;
  lk_request_id : EntityId RouteRequestTag;
  lk_request_generation : Generation RouteRequestTag;
  lk_status : RouteStatus.t;
  lk_code : OutcomeCode.t;
  lk_authority : RouteAuthority;
  lk_tenant : EntityId TenantTag;
  lk_name_space : EntityId NamespaceTag
}.

Record CanonicalState := {
  cs_router_id : EntityId RouterTag;
  cs_router_generation : Generation RouterTag;
  cs_router_epoch : Generation RouterEpochTag;
  cs_coordinator_epoch : Generation CoordinatorEpochTag;
  cs_router_boot : Generation RouterBootTag;
  cs_running : bool;
  cs_shutting_down : bool;
  cs_recovered : bool;
  cs_limits : ResourceLimits;
  cs_weights : RankingWeights;
  cs_scales : RankingScales;
  cs_models : gmap (EntityId ModelTag) ModelDescriptor;
  cs_providers : gmap (EntityId ProviderTag) ProviderDescriptor;
  cs_backends : gmap (EntityId BackendTag) BackendDescriptor;
  cs_fenced_boots : gmap FenceKey FencedBootRecord;
  cs_model_watermark : gmap (EntityId ModelTag) (Generation ModelTag);
  cs_backend_watermark : gmap (EntityId BackendTag) (Generation BackendTag);
  cs_policy : PolicySnapshot;
  cs_budget : BudgetSnapshot;
  cs_slo : SloEvidence;
  cs_compatibility : gmap (EntityId BackendTag) CompatibilityEvidence;
  cs_trust : gmap (EntityId BackendTag) TrustEvidence;
  cs_costs : gmap (EntityId BackendTag * EntityId ModelTag) CostEvidence;
  cs_reservations : gmap (EntityId BackendTag) ReservationEvidence;
  cs_routes : gmap (EntityId RouteDecisionTag) RouteRecord;
  cs_route_order : list (EntityId RouteDecisionTag);
  cs_dispatches : gmap (EntityId RouteDecisionTag) DispatchRecord;
  cs_dispatch_index : gmap (EntityId DispatchTag) (EntityId RouteDecisionTag);
  cs_index_by_model : gmap (EntityId ModelTag) (gset (EntityId BackendTag));
  cs_index_by_provider : gmap (EntityId ProviderTag) (gset (EntityId BackendTag));
  cs_index_by_trust : gmap Z (gset (EntityId BackendTag));
  cs_tenants : gset (EntityId TenantTag);
  cs_last_winner_by_tenant : gmap (EntityId TenantTag) (EntityId BackendTag);
  cs_counters : PersistenceCounters;
  cs_last_eligible : Z;
  cs_last_rejected : Z;
  cs_started_at : UnixMillis
}.
#[export] Instance canonical_state_eta : Eta CanonicalState := fun r =>
  {| cs_router_id := cs_router_id r;
     cs_router_generation := cs_router_generation r;
     cs_router_epoch := cs_router_epoch r;
     cs_coordinator_epoch := cs_coordinator_epoch r;
     cs_router_boot := cs_router_boot r;
     cs_running := cs_running r;
     cs_shutting_down := cs_shutting_down r;
     cs_recovered := cs_recovered r;
     cs_limits := cs_limits r;
     cs_weights := cs_weights r;
     cs_scales := cs_scales r;
     cs_models := cs_models r;
     cs_providers := cs_providers r;
     cs_backends := cs_backends r;
     cs_fenced_boots := cs_fenced_boots r;
     cs_model_watermark := cs_model_watermark r;
     cs_backend_watermark := cs_backend_watermark r;
     cs_policy := cs_policy r;
     cs_budget := cs_budget r;
     cs_slo := cs_slo r;
     cs_compatibility := cs_compatibility r;
     cs_trust := cs_trust r;
     cs_costs := cs_costs r;
     cs_reservations := cs_reservations r;
     cs_routes := cs_routes r;
     cs_route_order := cs_route_order r;
     cs_dispatches := cs_dispatches r;
     cs_dispatch_index := cs_dispatch_index r;
     cs_index_by_model := cs_index_by_model r;
     cs_index_by_provider := cs_index_by_provider r;
     cs_index_by_trust := cs_index_by_trust r;
     cs_tenants := cs_tenants r;
     cs_last_winner_by_tenant := cs_last_winner_by_tenant r;
     cs_counters := cs_counters r;
     cs_last_eligible := cs_last_eligible r;
     cs_last_rejected := cs_last_rejected r;
     cs_started_at := cs_started_at r |}.
Definition canonical_state_default : CanonicalState := {|
  cs_router_id := none;
  cs_router_generation := none;
  cs_router_epoch := none;
  cs_coordinator_epoch := none;
  cs_router_boot := none;
  cs_running := false;
  cs_shutting_down := false;
  cs_recovered := false;
  cs_limits := default_resource_limits;
  cs_weights := ranking_weights_default;
  cs_scales := ranking_scales_default;
  cs_models := ∅;
  cs_providers := ∅;
  cs_backends := ∅;
  cs_fenced_boots := ∅;
  cs_model_watermark := ∅;
  cs_backend_watermark := ∅;
  cs_policy := policy_snapshot_default;
  cs_budget := budget_snapshot_default;
  cs_slo := slo_evidence_default;
  cs_compatibility := ∅;
  cs_trust := ∅;
  cs_costs := ∅;
  cs_reservations := ∅;
  cs_routes := ∅;
  cs_route_order := [];
  cs_dispatches := ∅;
  cs_dispatch_index := ∅;
  cs_index_by_model := ∅;
  cs_index_by_provider := ∅;
  cs_index_by_trust := ∅;
  cs_tenants := ∅;
  cs_last_winner_by_tenant := ∅;
  cs_counters := persistence_counters_default;
  cs_last_eligible := 0;
  cs_last_rejected := 0;
  cs_started_at := 0
|}.

(** The keys of a [std::map] in iteration order. *)
Definition ordered_keys `{Countable K} {A} (ltb : K -> K -> bool) (m : gmap K A) : list K :=
  stable_sort ltb (map_to_list m).*1.

(** ** Derived indexes *)

Section Index.
Context `{Countable K}.

(** [index[key].insert(backend_id)]. *)
Definition index_insert (backend_id : EntityId BackendTag) (index : gmap K (gset (EntityId BackendTag)))
    (key : K) : gmap K (gset (EntityId BackendTag)) :=
  <[key := {[backend_id]} ∪ default ∅ (index !! key)]> index.

(** [index[key].erase(backend_id)], dropping an entry that becomes empty. *)
Definition index_erase (backend_id : EntityId BackendTag) (index : gmap K (gset (EntityId BackendTag)))
    (key : K) : gmap K (gset (EntityId BackendTag)) :=
  match index !! key with
  | None => index
  | Some ids =>
      let ids := ids ∖ {[backend_id]} in
      if bool_decide (ids = ∅) then delete key index else <[key := ids]> index
  end.
End Index.

Definition index_add_backend (backend : BackendDescriptor) (s : CanonicalState) : CanonicalState :=
  let id := bd_backend_id backend in
  s <| cs_index_by_provider := index_insert id (cs_index_by_provider s) (bd_provider_id backend) |>
    <| cs_index_by_trust := index_insert id (cs_index_by_trust s) (trust_rank (bd_trust_domain backend)) |>
    <| cs_index_by_model := fold_left (index_insert id) (map mb_model_id (bd_model_bindings backend))
                              (cs_index_by_model s) |>.

Definition index_remove_backend (backend : BackendDescriptor) (s : CanonicalState) : CanonicalState :=
  let id := bd_backend_id backend in
  s <| cs_index_by_provider := index_erase id (cs_index_by_provider s) (bd_provider_id backend) |>
    <| cs_index_by_trust := index_erase id (cs_index_by_trust s) (trust_rank (bd_trust_domain backend)) |>
    <| cs_index_by_model := fold_left (index_erase id) (map mb_model_id (bd_model_bindings backend))
                              (cs_index_by_model s) |>.

(** One turn of the loop of [rebuild_indexes]: the map key, not the descriptor's
    own identity, is inserted. *)
Definition rebuild_step (s : CanonicalState) (entry : EntityId BackendTag * BackendDescriptor)
    : CanonicalState :=
  let '(id, backend) := entry in
  s <| cs_index_by_provider := index_insert id (cs_index_by_provider s) (bd_provider_id backend) |>
    <| cs_index_by_trust := index_insert id (cs_index_by_trust s) (trust_rank (bd_trust_domain backend)) |>
    <| cs_index_by_model := fold_left (index_insert id) (map mb_model_id (bd_model_bindings backend))
                              (cs_index_by_model s) |>.

Definition rebuild_indexes (s : CanonicalState) : CanonicalState :=
  fold_left rebuild_step (map_to_list (cs_backends s))
    (s <| cs_index_by_model := ∅ |> <| cs_index_by_provider := ∅ |> <| cs_index_by_trust := ∅ |>).

(** ** The authority observable now *)

Definition lookup_from (r : RouteRecord) : RouteLookup :=
  let d := rec_decision r in {|
  lk_decision_id := de_decision_id d;
  lk_decision_generation := de_decision_generation d;
  lk_request_id := de_request_id d;
  lk_request_generation := de_request_generation d;
  lk_status := de_status d;
  lk_code := de_code d;
  lk_authority := de_authority d;
  lk_tenant := rec_tenant r;
  lk_name_space := rec_name_space r |}.

(** What the state says about a bound identity whose model and backend exist. *)
Definition observed_authority (s : CanonicalState) (bound : RouteAuthority) (model : ModelDescriptor)
    (descriptor : BackendDescriptor) : RouteAuthority :=
  let budget := valid (au_budget_generation bound) in
  let cost := match find_binding descriptor (au_model_id bound) with
              | Some binding => mb_cost binding
              | None => cost_evidence_default
              end in
  let reservation := default reservation_evidence_default (cs_reservations s !! au_backend_id bound) in {|
  au_router_id := au_router_id bound;
  au_router_epoch := cs_router_epoch s;
  au_coordinator_epoch := cs_coordinator_epoch s;
  au_request_id := au_request_id bound;
  au_request_generation := au_request_generation bound;
  au_decision_id := au_decision_id bound;
  au_decision_generation := au_decision_generation bound;
  au_model_id := au_model_id bound;
  au_model_generation := md_model_generation model;
  au_artifact_generation := md_artifact_generation model;
  au_provider_id := bd_provider_id descriptor;
  au_provider_generation := bd_provider_generation descriptor;
  au_backend_id := au_backend_id bound;
  au_backend_generation := bd_backend_generation descriptor;
  au_backend_boot := bd_backend_boot descriptor;
  au_registration_generation := bd_registration_generation descriptor;
  au_endpoint_id := ep_endpoint_id (bd_endpoint descriptor);
  au_endpoint_generation := ep_endpoint_generation (bd_endpoint descriptor);
  au_capability_profile_id := bd_capability_profile_id descriptor;
  au_capability_generation := bd_capability_generation descriptor;
  au_policy_id := po_policy_id (cs_policy s);
  au_policy_generation := po_generation (cs_policy s);
  au_budget_id := if budget then bu_budget_id (cs_budget s) else none;
  au_budget_generation := if budget then bu_generation (cs_budget s) else none;
  au_cost_evidence_id := co_evidence_id cost;
  au_price_generation := co_price_generation cost;
  au_slo_id := sl_slo_id (cs_slo s);
  au_slo_generation := sl_generation (cs_slo s);
  au_compatibility_profile_id := bd_compatibility_profile_id descriptor;
  au_compatibility_generation := bd_compatibility_generation descriptor;
  au_trust_profile_id := bd_trust_profile_id descriptor;
  au_trust_generation := bd_trust_generation descriptor;
  au_health_generation := ev_generation (bd_health descriptor);
  au_availability_generation := ev_generation (bd_availability descriptor);
  au_readiness_generation := ev_generation (bd_readiness descriptor);
  au_residency_generation := ev_generation (bd_residency descriptor);
  au_capacity_generation := ev_generation (bd_capacity descriptor);
  au_reservation_id := rs_reservation_id reservation;
  au_reservation_generation := rs_generation reservation;
  au_tenant := au_tenant bound;
  au_name_space := au_name_space bound;
  au_dispatch_generation := none;
  au_issued_at := 0;
  au_expires_at := kNoExpiry |}.

(** [None] is the result false, after which no caller reads the output. *)
Definition build_current_authority (s : CanonicalState) (bound : RouteAuthority) : option RouteAuthority :=
  match cs_models s !! au_model_id bound with
  | None => None
  | Some model =>
      match cs_backends s !! au_backend_id bound with
      | None => None
      | Some descriptor => Some (observed_authority s bound model descriptor)
      end
  end.

Definition is_fenced (s : CanonicalState) (backend_id : EntityId BackendTag)
    (boot : Generation BackendBootTag) : bool :=
  bool_decide (is_Some (cs_fenced_boots s !! {| fk_backend_id := backend_id; fk_backend_boot := boot |})).

Definition dispatchability_reason (s : CanonicalState) (bound : RouteAuthority) (now : UnixMillis)
    : OutcomeCode.t :=
  return_if authority_expired bound now with OutcomeCode.REJECT_STALE_REQUEST ;;
  return_if is_fenced s (au_backend_id bound) (au_backend_boot bound)
    with OutcomeCode.REJECT_STALE_BACKEND_BOOT ;;
  match build_current_authority s bound with
  | None => OutcomeCode.REJECT_STALE_BACKEND
  | Some observed =>
      let comparison := compare_authority bound observed (required_mask bound) in
      return_if negb (comparison_current comparison) with cm_code comparison ;;
      match cs_models s !! au_model_id bound, cs_backends s !! au_backend_id bound with
      | None, _ => OutcomeCode.REJECT_STALE_MODEL
      | Some _, None => OutcomeCode.REJECT_STALE_BACKEND
      | Some model, Some backend =>
          return_if md_lifecycle model == ModelLifecycle.RETIRED with OutcomeCode.REJECT_RETIRED ;;
          return_if md_lifecycle model != ModelLifecycle.CURRENT with OutcomeCode.REJECT_STALE_MODEL ;;
          return_if backend_retired backend with OutcomeCode.REJECT_RETIRED ;;
          return_if backend_draining backend with OutcomeCode.REJECT_DRAINING ;;
          return_if (bd_backend_boot backend != au_backend_boot bound)
                    || (bd_backend_generation backend != au_backend_generation bound)
            with OutcomeCode.REJECT_STALE_BACKEND_BOOT ;;
          return_if ep_endpoint_generation (bd_endpoint backend) != au_endpoint_generation bound
            with OutcomeCode.REJECT_STALE_ENDPOINT ;;
          OutcomeCode.ACCEPTED
      end
  end.

Definition is_authority_dispatchable (s : CanonicalState) (bound : RouteAuthority) (now : UnixMillis) : bool :=
  dispatchability_reason s bound now == OutcomeCode.ACCEPTED.

(** ** Retiring decisions *)

(** The three assignments that mark a record STALE. *)
Definition mark_stale (r : RouteRecord) : RouteRecord :=
  let d := rec_decision r in
  r <| rec_decision := d <| de_status := RouteStatus.STALE |>
         <| de_explanation := (de_explanation d) <| rx_currentness := Currentness.STALE |>
                                <| rx_revalidation_required := true |> |> |>.

Definition retained_executable (r : RouteRecord) : bool :=
  (de_status (rec_decision r) == RouteStatus.CURRENT) ||
  (de_status (rec_decision r) == RouteStatus.DISPATCHED).

Definition stale_for_backend (backend_id : EntityId BackendTag) (boot : Generation BackendBootTag)
    (r : RouteRecord) : RouteRecord :=
  let a := de_authority (rec_decision r) in
  return_if negb (retained_executable r) with r ;;
  return_if (au_backend_id a == backend_id) && (negb (valid boot) || (au_backend_boot a == boot))
    with mark_stale r ;;
  r.

Definition stale_decisions_for_backend (backend_id : EntityId BackendTag) (boot : Generation BackendBootTag)
    (s : CanonicalState) : CanonicalState :=
  s <| cs_routes := stale_for_backend backend_id boot <$> cs_routes s |>.

Definition stale_decision_if_not_dispatchable (s : CanonicalState) (now : UnixMillis) (r : RouteRecord)
    : RouteRecord :=
  return_if negb (retained_executable r) with r ;;
  return_if is_authority_dispatchable s (de_authority (rec_decision r)) now with r ;;
  mark_stale r.

(** The check of one record never reads another record. *)
Definition stale_decisions_for_authority_change (now : UnixMillis) (s : CanonicalState) : CanonicalState :=
  s <| cs_routes := stale_decision_if_not_dispatchable s now <$> cs_routes s |>.

Definition note_tenant (tenant : EntityId TenantTag) (s : CanonicalState) : CanonicalState :=
  if valid tenant then s <| cs_tenants := {[tenant]} ∪ cs_tenants s |> else s.

(** ** Still executable *)

Lemma mask_contains_add m x c :
  mask_contains (mask_add x m) c = mask_contains m c || mask_contains (AuthorityMaskOf (AuthorityComponent.bits x)) c.
Proof.
  unfold mask_contains, mask_add. simpl. rewrite Z.land_lor_distr_l.
  destruct (Z.eqb_spec (Z.land (mask_bits m) (AuthorityComponent.bits c)) 0) as [->|Hn]; [done|].
  apply negb_true_iff, Z.eqb_neq. intros E%Z.lor_eq_0_l. done.
Qed.

Lemma mask_contains_add_when b m x c : mask_contains m c = true -> mask_contains (add_when b x m) c = true.
Proof. destruct b; simpl; [|done]. rewrite mask_contains_add. by intros ->. Qed.

(** The components every decision depends on. *)
Definition base_components : list AuthorityComponent.t := [
  AuthorityComponent.ROUTER_EPOCH; AuthorityComponent.COORDINATOR_EPOCH; AuthorityComponent.REQUEST;
  AuthorityComponent.MODEL; AuthorityComponent.ARTIFACT; AuthorityComponent.BACKEND;
  AuthorityComponent.BACKEND_BOOT; AuthorityComponent.ENDPOINT; AuthorityComponent.CAPABILITY;
  AuthorityComponent.POLICY; AuthorityComponent.TRUST; AuthorityComponent.HEALTH;
  AuthorityComponent.AVAILABILITY; AuthorityComponent.READINESS; AuthorityComponent.TENANCY].

Lemma required_mask_base a c :
  c ∈ base_components -> mask_contains (required_mask a) c = true.
Proof.
  intros Hc. unfold required_mask. cbv zeta.
  do 9 apply mask_contains_add_when.
  revert c Hc. apply (Forall_forall _ base_components). repeat constructor.
Qed.

Lemma base_components_all c : c ∈ base_components -> c ∈ AuthorityComponent.all.
Proof. revert c. apply (Forall_forall _ base_components). repeat (constructor; [set_solver|]). constructor. Qed.

(** A bound authority is executable when it has neither expired nor been
    fenced, its model and backend are registered and serving, and every
    component it depends on has the value it was bound with. *)
Record executable (s : CanonicalState) (a : RouteAuthority) (now : UnixMillis)
    (m : ModelDescriptor) (b : BackendDescriptor) : Prop := {
  exec_fresh : authority_expired a now = false;
  exec_unfenced : is_fenced s (au_backend_id a) (au_backend_boot a) = false;
  exec_model : cs_models s !! au_model_id a = Some m;
  exec_backend : cs_backends s !! au_backend_id a = Some b;
  exec_lifecycle : md_lifecycle m = ModelLifecycle.CURRENT;
  exec_not_retired : ev_state (bd_health b) <> HealthState.RETIRED;
  exec_not_draining : ev_state (bd_health b) <> HealthState.DRAINING;
  exec_components : forall c, c ∈ AuthorityComponent.all -> mask_contains (required_mask a) c = true ->
    component_values a c = component_values (observed_authority s a m b) c
}.

Lemma executable_base s a now m b c :
  executable s a now m b -> c ∈ base_components ->
  component_values a c = component_values (observed_authority s a m b) c.
Proof.
  intros [] Hc. apply exec_components0; [by apply base_components_all | by apply required_mask_base].
Qed.

(** What an executable decision is bound to. *)
Lemma executable_bound s a now m b :
  executable s a now m b ->
  au_router_epoch a = cs_router_epoch s /\ au_coordinator_epoch a = cs_coordinator_epoch s /\
  au_model_generation a = md_model_generation m /\ au_backend_generation a = bd_backend_generation b /\
  au_backend_boot a = bd_backend_boot b /\
  au_endpoint_generation a = ep_endpoint_generation (bd_endpoint b) /\
  au_policy_generation a = po_generation (cs_policy s).
Proof.
  intros H. pose proof (fun c => executable_base _ _ _ _ _ c H) as Hc.
  pose proof (Hc AuthorityComponent.ROUTER_EPOCH ltac:(set_solver)) as H1.
  pose proof (Hc AuthorityComponent.COORDINATOR_EPOCH ltac:(set_solver)) as H2.
  pose proof (Hc AuthorityComponent.MODEL ltac:(set_solver)) as H3.
  pose proof (Hc AuthorityComponent.BACKEND ltac:(set_solver)) as H4.
  pose proof (Hc AuthorityComponent.BACKEND_BOOT ltac:(set_solver)) as H5.
  pose proof (Hc AuthorityComponent.ENDPOINT ltac:(set_solver)) as H6.
  pose proof (Hc AuthorityComponent.POLICY ltac:(set_solver)) as H7.
  simpl in H1, H2, H3, H4, H5, H6, H7. simplify_eq.
  split_and!; by apply (inj value).
Qed.

Lemma comparison_current_components s a m b :
  comparison_current (compare_authority a (observed_authority s a m b) (required_mask a)) = true <->
  forall c, c ∈ AuthorityComponent.all -> mask_contains (required_mask a) c = true ->
  component_values a c = component_values (observed_authority s a m b) c.
Proof. by rewrite compare_authority_current, stale_components_none. Qed.

Lemma dispatchability_reason_executable s a now m b :
  executable s a now m b -> dispatchability_reason s a now = OutcomeCode.ACCEPTED.
Proof.
  intros H. pose proof (executable_bound _ _ _ _ _ H) as (_ & _ & _ & Hg & Hb & He & _). destruct H.
  unfold dispatchability_reason, build_current_authority.
  rewrite exec_fresh0, exec_unfenced0, exec_model0, exec_backend0.
  rewrite (proj2 (comparison_current_components s a m b) exec_components0), exec_lifecycle0. simpl.
  unfold backend_retired, backend_draining.
  rewrite !bool_decide_false by done. rewrite Hg, Hb, He. by rewrite !bool_decide_true.
Qed.

(** The reason is ACCEPTED or a rejection, never another code. *)
Lemma dispatchability_reason_cases s a now :
  (exists m b, executable s a now m b) /\ dispatchability_reason s a now = OutcomeCode.ACCEPTED \/
  OutcomeCode.is_rejection (dispatchability_reason s a now) = true.
Proof.
  unfold dispatchability_reason, build_current_authority.
  destruct (authority_expired a now) eqn:Ee; [by right|].
  destruct (is_fenced s _ _) eqn:Ef; [by right|].
  destruct (cs_models s !! _) as [m|] eqn:Em; [|by right].
  destruct (cs_backends s !! _) as [b|] eqn:Eb; [|by right].
  destruct (comparison_current _) eqn:Ec; cbn [negb]; [|right; by apply compare_authority_rejects].
  rewrite comparison_current_components in Ec. unfold backend_retired, backend_draining.
  repeat (case_bool_decide; cbn [negb orb]; [try (by right)|try (by right)]).
  all: left; split; [|reflexivity]; exists m, b; by split.
Qed.

Lemma dispatchable_executable s a now :
  is_authority_dispatchable s a now = true <-> exists m b, executable s a now m b.
Proof.
  unfold is_authority_dispatchable. rewrite bool_decide_eq_true. split.
  - intros E. destruct (dispatchability_reason_cases s a now) as [[H _]|H]; [done|]. by rewrite E in H.
  - intros (m & b & H). by eapply dispatchability_reason_executable.
Qed.

(** C34: a bound authority is dispatchable exactly when it has not expired, its
    incarnation is not fenced, its model and backend are registered, the model
    is CURRENT, the backend neither retired nor draining, and every component
    the decision depends on still has the value it was bound with; any other
    authority gets a rejection code. *)
Theorem dispatchability_spec (s : CanonicalState) (a : RouteAuthority) (now : UnixMillis) :
  (is_authority_dispatchable s a now = true <-> exists m b, executable s a now m b) /\
  (is_authority_dispatchable s a now = false <->
   OutcomeCode.is_rejection (dispatchability_reason s a now) = true).
Proof.
  split; [apply dispatchable_executable|].
  unfold is_authority_dispatchable. rewrite bool_decide_eq_false. split.
  - by destruct (dispatchability_reason_cases s a now) as [[_ E]|E].
  - intros E E'. by rewrite E' in E.
Qed.

(** ** What marking decisions stale does *)

(** [r'] is [r], or [r] marked stale. *)
Definition only_staled (r r' : RouteRecord) : Prop :=
  r' = r \/ (retained_executable r = true /\ r' = mark_stale r).

Lemma mark_stale_not_executable r : retained_executable (mark_stale r) = false.
Proof. reflexivity. Qed.

Lemma stale_if_not_dispatchable_spec s now r :
  let r' := stale_decision_if_not_dispatchable s now r in
  only_staled r r' /\
  (retained_executable r' = true ->
   r' = r /\ is_authority_dispatchable s (de_authority (rec_decision r')) now = true).
Proof.
  cbv zeta. unfold stale_decision_if_not_dispatchable, only_staled.
  destruct (retained_executable r) eqn:E; simpl; [|rewrite E; naive_solver].
  destruct (is_authority_dispatchable _ _ _) eqn:Ed; simpl; [rewrite E; naive_solver|].
  rewrite mark_stale_not_executable. naive_solver.
Qed.

(** After an authority change every decision left CURRENT or DISPATCHED is
    dispatchable; the others are as they were, or marked stale. *)
Lemma stale_decisions_lookup now s id r' :
  cs_routes (stale_decisions_for_authority_change now s) !! id = Some r' ->
  exists r, cs_routes s !! id = Some r /\ only_staled r r' /\
    (retained_executable r' = true -> is_authority_dispatchable s (de_authority (rec_decision r')) now = true).
Proof.
  simpl. rewrite lookup_fmap, fmap_Some. intros (r & Hr & ->). exists r.
  destruct (stale_if_not_dispatchable_spec s now r) as [H1 H2]. naive_solver.
Qed.

Lemma stale_for_backend_spec id boot r : only_staled r (stale_for_backend id boot r).
Proof.
  unfold stale_for_backend, only_staled. destruct (retained_executable r); simpl; [|by left].
  destruct (_ && _); naive_solver.
Qed.

(** ** Index maintenance *)

Section IndexFacts.
Context `{Countable K} (keys : BackendDescriptor -> list K).
#[local] Abbreviation Index := (gmap K (gset (EntityId BackendTag))).

(** [index] is the scan of the backends under [keys]: no entry is empty. *)
Definition index_of (index : Index)
    (backends : gmap (EntityId BackendTag) BackendDescriptor) : Prop :=
  (forall k id, id ∈ default ∅ (index !! k) <-> exists d, backends !! id = Some d /\ k ∈ keys d) /\
  (forall k ids, index !! k = Some ids -> ids <> ∅).

Lemma index_of_unique i1 i2 backends : index_of i1 backends -> index_of i2 backends -> i1 = i2.
Proof.
  intros [H1 N1] [H2 N2]. apply map_eq. intros k.
  assert (E : default ∅ (i1 !! k) = default ∅ (i2 !! k)) by (apply set_eq; intros id; by rewrite H1, H2).
  destruct (i1 !! k) as [a|] eqn:Ea, (i2 !! k) as [b|] eqn:Eb; simpl in E; subst; try done.
  - by apply N1 in Ea.
  - by apply N2 in Eb.
Qed.

Lemma index_insert_elem id (index : Index) k k' id' :
  id' ∈ default ∅ (index_insert id index k !! k') <-> (id' = id /\ k' = k) \/ id' ∈ default ∅ (index !! k').
Proof.
  unfold index_insert. destruct (decide (k' = k)) as [->|Hk].
  - rewrite lookup_insert_eq. simpl. set_solver.
  - rewrite lookup_insert_ne by done. tauto.
Qed.

Lemma index_erase_elem id (index : Index) k k' id' :
  id' ∈ default ∅ (index_erase id index k !! k') <-> ~ (id' = id /\ k' = k) /\ id' ∈ default ∅ (index !! k').
Proof.
  unfold index_erase. destruct (index !! k) as [ids|] eqn:E.
  - destruct (decide (k' = k)) as [->|Hk].
    + case_bool_decide as Ei.
      * rewrite lookup_delete_eq, E. simpl. set_solver.
      * rewrite lookup_insert_eq, E. simpl. set_solver.
    + case_bool_decide; [rewrite lookup_delete_ne by done | rewrite lookup_insert_ne by done]; tauto.
  - split; [|tauto]. intros Hin. split; [|done]. intros [-> ->]. rewrite E in Hin. set_solver.
Qed.

Definition no_empty (index : Index) : Prop :=
  forall k ids, index !! k = Some ids -> ids <> ∅.

Lemma index_insert_no_empty id (index : Index) k : no_empty index -> no_empty (index_insert id index k).
Proof.
  intros Hn k' ids. unfold index_insert. rewrite lookup_insert_Some.
  intros [[-> <-]|[_ ?]]; [set_solver | by eapply Hn].
Qed.

Lemma index_erase_no_empty id (index : Index) k : no_empty index -> no_empty (index_erase id index k).
Proof.
  intros Hn k' ids. unfold index_erase. destruct (index !! k) eqn:E; [|apply Hn].
  case_bool_decide.
  - rewrite lookup_delete_Some. intros [_ ?]. by eapply Hn.
  - rewrite lookup_insert_Some. intros [[-> <-]|[_ ?]]; [done | by eapply Hn].
Qed.

Lemma fold_insert_elem id ks (index : Index) k' id' :
  id' ∈ default ∅ (fold_left (index_insert id) ks index !! k') <->
  (id' = id /\ k' ∈ ks) \/ id' ∈ default ∅ (index !! k').
Proof.
  revert index. induction ks as [|k ks IH]; intros index; simpl.
  - set_solver.
  - rewrite IH, index_insert_elem, elem_of_cons. naive_solver.
Qed.

Lemma fold_erase_elem id ks (index : Index) k' id' :
  id' ∈ default ∅ (fold_left (index_erase id) ks index !! k') <->
  ~ (id' = id /\ k' ∈ ks) /\ id' ∈ default ∅ (index !! k').
Proof.
  revert index. induction ks as [|k ks IH]; intros index; simpl.
  - set_solver.
  - rewrite IH, index_erase_elem, elem_of_cons. naive_solver.
Qed.

Lemma fold_no_empty (f : Index -> K -> Index)
    ks index :
  (forall i k, no_empty i -> no_empty (f i k)) -> no_empty index -> no_empty (fold_left f ks index).
Proof. intros Hf. revert index. induction ks; simpl; auto. Qed.

Lemma index_of_add index backends id d :
  index_of index backends -> backends !! id = None ->
  index_of (fold_left (index_insert id) (keys d) index) (<[id := d]> backends).
Proof.
  intros [Hi Hn] Hid. split; [|apply fold_no_empty; [apply index_insert_no_empty|done]].
  intros k id'. rewrite fold_insert_elem, Hi. split.
  - intros [[-> Hk]|(d' & Hd & Hk)].
    + exists d. by rewrite lookup_insert_eq.
    + exists d'. rewrite lookup_insert_ne; [done|congruence].
  - intros (d' & [[<- <-]|[Hne Hd]]%lookup_insert_Some & Hk); [by left|right; eauto].
Qed.

Lemma index_of_remove index backends id d :
  index_of index backends -> backends !! id = Some d ->
  index_of (fold_left (index_erase id) (keys d) index) (delete id backends).
Proof.
  intros [Hi Hn] Hid. split; [|apply fold_no_empty; [apply index_erase_no_empty|done]].
  intros k id'. rewrite fold_erase_elem, Hi. split.
  - intros [Hk (d' & Hd & Hk')]. exists d'. split; [|done]. apply lookup_delete_Some.
    split; [|done]. intros <-. apply Hk. naive_solver.
  - intros (d' & [Hne Hd]%lookup_delete_Some & Hk). split; [by intros [<- _]|eauto].
Qed.

Lemma index_of_empty : index_of ∅ ∅.
Proof. split; [|intros k ids; by rewrite lookup_empty]. intros k id. setoid_rewrite lookup_empty. set_solver. Qed.
End IndexFacts.

Definition provider_keys (d : BackendDescriptor) : list (EntityId ProviderTag) := [bd_provider_id d].
Definition trust_keys (d : BackendDescriptor) : list Z := [trust_rank (bd_trust_domain d)].
Definition model_keys (d : BackendDescriptor) : list (EntityId ModelTag) := map mb_model_id (bd_model_bindings d).

(** The three indexes are the scans of the backends. *)
Definition indexes_ok (s : CanonicalState) : Prop :=
  index_of model_keys (cs_index_by_model s) (cs_backends s) /\
  index_of provider_keys (cs_index_by_provider s) (cs_backends s) /\
  index_of trust_keys (cs_index_by_trust s) (cs_backends s).

(** The map key of a backend is its identity. *)
Definition keyed (s : CanonicalState) : Prop :=
  forall id d, cs_backends s !! id = Some d -> bd_backend_id d = id.

Lemma index_of_set {K} `{Countable K} (keys : BackendDescriptor -> list K) index backends id d d' :
  index_of keys index backends -> backends !! id = Some d ->
  index_of keys (fold_left (index_insert id) (keys d') (fold_left (index_erase id) (keys d) index))
    (<[id := d']> backends).
Proof.
  intros Hi Hd. rewrite <- insert_delete_eq. apply index_of_add; [by apply index_of_remove|].
  apply lookup_delete_eq.
Qed.

Lemma index_remove_ok s id d :
  indexes_ok s -> cs_backends s !! id = Some d -> bd_backend_id d = id ->
  indexes_ok ((index_remove_backend d s) <| cs_backends := delete id (cs_backends s) |>).
Proof.
  intros (Hm & Hp & Ht) Hd <-. split_and!.
  - exact (index_of_remove model_keys _ _ _ d Hm Hd).
  - exact (index_of_remove provider_keys _ _ _ d Hp Hd).
  - exact (index_of_remove trust_keys _ _ _ d Ht Hd).
Qed.

Lemma index_add_ok s d :
  indexes_ok s -> cs_backends s !! bd_backend_id d = None ->
  indexes_ok (index_add_backend d (s <| cs_backends := <[bd_backend_id d := d]> (cs_backends s) |>)).
Proof.
  intros (Hm & Hp & Ht) Hd. split_and!.
  - exact (index_of_add model_keys _ _ _ d Hm Hd).
  - exact (index_of_add provider_keys _ _ _ d Hp Hd).
  - exact (index_of_add trust_keys _ _ _ d Ht Hd).
Qed.

Lemma index_replace_ok s d d' :
  indexes_ok s -> cs_backends s !! bd_backend_id d' = Some d -> bd_backend_id d = bd_backend_id d' ->
  indexes_ok (index_add_backend d' ((index_remove_backend d s)
    <| cs_backends := <[bd_backend_id d' := d']> (cs_backends s) |>)).
Proof.
  intros (Hm & Hp & Ht) Hd E. unfold index_add_backend, index_remove_backend, indexes_ok. cbn.
  rewrite E. split_and!.
  - exact (index_of_set model_keys _ _ _ d d' Hm Hd).
  - exact (index_of_set provider_keys _ _ _ d d' Hp Hd).
  - exact (index_of_set trust_keys _ _ _ d d' Ht Hd).
Qed.

(** *** Rebuilding *)

Lemma rebuild_loop l s backends :
  index_of model_keys (cs_index_by_model s) backends ->
  index_of provider_keys (cs_index_by_provider s) backends ->
  index_of trust_keys (cs_index_by_trust s) backends ->
  NoDup l.*1 -> (forall id, id ∈ l.*1 -> backends !! id = None) ->
  let s' := fold_left rebuild_step l s in
  let backends' := fold_left (fun b e => <[e.1 := e.2]> b) l backends in
  index_of model_keys (cs_index_by_model s') backends' /\
  index_of provider_keys (cs_index_by_provider s') backends' /\
  index_of trust_keys (cs_index_by_trust s') backends' /\
  s' = s <| cs_index_by_model := cs_index_by_model s' |>
         <| cs_index_by_provider := cs_index_by_provider s' |>
         <| cs_index_by_trust := cs_index_by_trust s' |>.
Proof.
  revert s backends. induction l as [|[id d] l IH]; intros s backends Hm Hp Ht Hl Hf; cbv zeta.
  { split_and!; [done..|]. by destruct s. }
  apply NoDup_cons in Hl as [Hid Hl]. simpl in Hid.
  assert (Hb : backends !! id = None) by (apply Hf; left).
  destruct (IH (rebuild_step s (id, d)) (<[id := d]> backends)) as (H1 & H2 & H3 & H4).
  - exact (index_of_add model_keys _ _ id d Hm Hb).
  - exact (index_of_add provider_keys _ _ id d Hp Hb).
  - exact (index_of_add trust_keys _ _ id d Ht Hb).
  - done.
  - intros id' Hid'. rewrite lookup_insert_ne by (intros ->; done). apply Hf. by right.
  - split_and!; [done..|]. cbn [fold_left]. rewrite H4 at 1. by destruct s.
Qed.

Lemma fold_insert_map_to_list {K A} `{Countable K} (l : list (K * A)) (m : gmap K A) :
  NoDup l.*1 -> (forall k, k ∈ l.*1 -> m !! k = None) ->
  fold_left (fun b e => <[e.1 := e.2]> b) l m = list_to_map l ∪ m.
Proof.
  revert m. induction l as [|[k x] l IH]; intros m Hl Hf; simpl; [by rewrite (left_id_L ∅ (∪))|].
  apply NoDup_cons in Hl as [Hk Hl]. rewrite IH; [|done|].
  - rewrite <- insert_union_l, insert_union_r; [done|]. by apply not_elem_of_list_to_map_1.
  - intros k' Hk'. rewrite lookup_insert_ne by (intros ->; done). apply Hf. by right.
Qed.

(** What the loop does from the cleared indexes. *)
Lemma rebuild_indexes_loop s :
  (index_of model_keys (cs_index_by_model (rebuild_indexes s)) (cs_backends s) /\
   index_of provider_keys (cs_index_by_provider (rebuild_indexes s)) (cs_backends s) /\
   index_of trust_keys (cs_index_by_trust (rebuild_indexes s)) (cs_backends s)) /\
  rebuild_indexes s = s <| cs_index_by_model := cs_index_by_model (rebuild_indexes s) |>
    <| cs_index_by_provider := cs_index_by_provider (rebuild_indexes s) |>
    <| cs_index_by_trust := cs_index_by_trust (rebuild_indexes s) |>.
Proof.
  assert (E : fold_left (fun b e => <[e.1 := e.2]> b) (map_to_list (cs_backends s)) ∅ = cs_backends s).
  { rewrite fold_insert_map_to_list.
    - by rewrite (right_id_L ∅ (∪)), list_to_map_to_list.
    - apply NoDup_fst_map_to_list.
    - intros id _. apply lookup_empty. }
  pose proof (rebuild_loop (map_to_list (cs_backends s))
    (s <| cs_index_by_model := ∅ |> <| cs_index_by_provider := ∅ |> <| cs_index_by_trust := ∅ |>) ∅
    (index_of_empty _) (index_of_empty _) (index_of_empty _)
    (NoDup_fst_map_to_list _) (fun id _ => lookup_empty id)) as H.
  cbv zeta in H. rewrite E in H. destruct H as (H1 & H2 & H3 & H4). split; [done|].
  unfold rebuild_indexes. rewrite H4 at 1. by destruct s.
Qed.

Lemma rebuild_indexes_backends s : cs_backends (rebuild_indexes s) = cs_backends s.
Proof. by rewrite (proj2 (rebuild_indexes_loop s)). Qed.

(** Rebuilding establishes the indexes. *)
Lemma rebuild_indexes_ok s : indexes_ok (rebuild_indexes s).
Proof. unfold indexes_ok. rewrite rebuild_indexes_backends. apply rebuild_indexes_loop. Qed.

(** The indexes are right exactly when rebuilding them changes nothing. *)
Lemma indexes_ok_rebuild s : indexes_ok s <-> rebuild_indexes s = s.
Proof.
  split; [|intros <-; apply rebuild_indexes_ok].
  intros (Hm & Hp & Ht). destruct (rebuild_indexes_loop s) as [(Hm' & Hp' & Ht') E]. rewrite E.
  rewrite (index_of_unique _ _ _ _ Hm' Hm), (index_of_unique _ _ _ _ Hp' Hp), (index_of_unique _ _ _ _ Ht' Ht).
  by destruct s.
Qed.
