(* ===== verification/PersistRecords.v ===== *)
(** * The records of the durable format ([persistence.cpp])

    How the records the program shares are written and read, field by field,
    with the theorem that what is written is read back.  A value fits when each
    field is in the range of its machine type. *)
From S2P Require Import Prelude Bytes Ids Limits Clock Codec Capability Evidence Catalog Candidate Authority.
From S2P Require Import Outcome Decision.

(** ** Enumerations *)

Definition capability_states : list CapabilityState.t := [
  CapabilityState.UNKNOWN; CapabilityState.DECLARED; CapabilityState.OBSERVED; CapabilityState.VERIFIED;
  CapabilityState.REVOKED; CapabilityState.STALE; CapabilityState.UNSUPPORTED; CapabilityState.kCount].
Definition cost_knownness_values : list CostKnownness.t := [
  CostKnownness.UNKNOWN; CostKnownness.ESTIMATED; CostKnownness.QUOTED; CostKnownness.CONTRACTED;
  CostKnownness.kCount].
Definition lifecycles : list ModelLifecycle.t := [
  ModelLifecycle.UNKNOWN; ModelLifecycle.CURRENT; ModelLifecycle.DEPRECATED; ModelLifecycle.RETIRED;
  ModelLifecycle.kCount].
Definition provenances : list Provenance.t := [
  Provenance.REAL; Provenance.SYNTHETIC; Provenance.UNSUPPORTED; Provenance.kCount].
Definition trust_domains : list TrustDomain.t := [
  TrustDomain.UNKNOWN; TrustDomain.PUBLIC_REMOTE; TrustDomain.TRUSTED_REMOTE; TrustDomain.PRIVATE_NETWORK;
  TrustDomain.LOCAL; TrustDomain.kCount].
Definition route_statuses : list RouteStatus.t := [
  RouteStatus.CURRENT; RouteStatus.SUPERSEDED; RouteStatus.STALE; RouteStatus.DISPATCHED;
  RouteStatus.COMPLETED; RouteStatus.FAILED; RouteStatus.CANCELLED; RouteStatus.kCount].
Definition outcome_codes : list OutcomeCode.t := OutcomeCode.all ++ [OutcomeCode.kCount].

(** Reads whose caller rejects every value from [kCount] on: there the exact
    value does not matter. *)
Definition get_capability_state : Get CapabilityState.t :=
  x ← get_u8; mret (default CapabilityState.kCount (enum_of capability_states CapabilityState.index x)).
Definition get_cost_knownness : Get CostKnownness.t :=
  x ← get_u8; mret (default CostKnownness.kCount (enum_of cost_knownness_values CostKnownness.index x)).

(** Reads that nobody checks. *)
Definition get_lifecycle : Get ModelLifecycle.t :=
  get_enum lifecycles ModelLifecycle.index ModelLifecycle.kCount get_u8.
Definition get_provenance : Get Provenance.t := get_enum provenances Provenance.index Provenance.kCount get_u8.
Definition get_trust_domain : Get TrustDomain.t :=
  get_enum trust_domains TrustDomain.index TrustDomain.kCount get_u8.
Definition get_route_status : Get RouteStatus.t :=
  get_enum route_statuses RouteStatus.index RouteStatus.kCount get_u8.
Definition get_outcome_code : Get OutcomeCode.t :=
  get_enum outcome_codes OutcomeCode.index OutcomeCode.kCount get_u16.

(** ** Writers and readers *)

(** [static_cast<std::uint32_t>(l.size())]. *)
Definition size32 {A} (l : list A) : Z := Prelude.word32 (Z.of_nat (length l)).

Section Records.
Context (limits : ResourceLimits).

Definition write_capability (e : CapabilityEvidence) : Put := in_order [
  put_string limits (key_string (ce_key e)); put_u8 (CapabilityState.index (ce_state e));
  put_generation (ce_generation e); put_id (ce_profile_id e); put_generation (ce_model_generation e);
  put_generation (ce_backend_generation e); put_generation (ce_backend_boot e);
  put_i64 (ce_observed_at e); put_i64 (ce_expires_at e); put_string limits (ce_source e);
  put_string limits (ce_detail e)].

Definition read_capability : Get (option CapabilityEvidence) :=
  key ← get_string limits; state ← get_capability_state; generation ← get_generation;
  profile_id ← get_id; model_generation ← get_generation; backend_generation ← get_generation;
  backend_boot ← get_generation; observed_at ← get_i64; expires_at ← get_i64;
  source ← get_string limits; detail ← get_string limits;
  ok ← reader_ok;
  return_if negb ok || negb (CapabilityState.index state <? CapabilityState.index CapabilityState.kCount) with mret None ;;
  mret (Some {|
    ce_key := CapabilityKeyOf key; ce_state := state; ce_generation := generation;
    ce_profile_id := profile_id; ce_model_generation := model_generation;
    ce_backend_generation := backend_generation; ce_backend_boot := backend_boot;
    ce_observed_at := observed_at; ce_expires_at := expires_at; ce_source := source;
    ce_detail := detail |}).

Definition write_profile (p : CapabilityProfile) : Put := in_order [
  put_id (profile_id p); put_generation (profile_generation p); put_u32 (size32 (profile_entries p));
  put_each write_capability (profile_entries p)].

(** The loop over the entries: each goes through [set]. *)
Fixpoint read_entries (count : nat) (parsed : CapabilityProfile) : Get (option CapabilityProfile) :=
  match count with
  | O => mret (Some parsed)
  | S count =>
      or_fail read_capability (fun evidence =>
        let '(accepted, parsed) := profile_set evidence (max_capability_entries limits) parsed in
        return_if negb accepted with mret None ;;
        read_entries count parsed)
  end.

Definition read_profile : Get (option CapabilityProfile) :=
  id ← get_id; generation ← get_generation; count ← get_u32;
  ok ← reader_ok;
  return_if negb ok || (max_capability_entries limits <? count) with mret None ;;
  read_entries (Z.to_nat count) {| profile_id := id; profile_generation := generation; profile_entries := [] |}.

Definition write_cost (c : CostEvidence) : Put := in_order [
  put_id (co_evidence_id c); put_generation (co_price_generation c); put_id (co_backend_id c);
  put_id (co_model_id c); put_string limits (cu_currency (co_unit c));
  put_string limits (cu_basis (co_unit c)); put_i64 (co_input_micros_per_unit c);
  put_i64 (co_output_micros_per_unit c); put_i64 (co_request_minimum_micros c);
  put_i64 (co_cache_read_micros_per_unit c); put_i64 (co_cache_write_micros_per_unit c);
  put_i64 (co_estimated_total_micros c); put_u8 (CostKnownness.index (co_knownness c));
  put_i64 (co_effective_at c); put_i64 (co_expires_at c); put_string limits (co_source c)].

Definition read_cost : Get (option CostEvidence) :=
  evidence_id ← get_id; price_generation ← get_generation; backend_id ← get_id; model_id ← get_id;
  currency ← get_string limits; basis ← get_string limits; input_micros_per_unit ← get_i64;
  output_micros_per_unit ← get_i64; request_minimum_micros ← get_i64;
  cache_read_micros_per_unit ← get_i64; cache_write_micros_per_unit ← get_i64;
  estimated_total_micros ← get_i64; knownness ← get_cost_knownness; effective_at ← get_i64;
  expires_at ← get_i64; source ← get_string limits;
  ok ← reader_ok;
  return_if negb ok || negb (CostKnownness.index knownness <? CostKnownness.index CostKnownness.kCount) with mret None ;;
  mret (Some {|
    co_evidence_id := evidence_id; co_price_generation := price_generation;
    co_backend_id := backend_id; co_model_id := model_id;
    co_unit := {| cu_currency := currency; cu_basis := basis |};
    co_input_micros_per_unit := input_micros_per_unit;
    co_output_micros_per_unit := output_micros_per_unit;
    co_request_minimum_micros := request_minimum_micros;
    co_cache_read_micros_per_unit := cache_read_micros_per_unit;
    co_cache_write_micros_per_unit := cache_write_micros_per_unit;
    co_estimated_total_micros := estimated_total_micros; co_knownness := knownness;
    co_effective_at := effective_at; co_expires_at := expires_at; co_source := source |}).

Definition write_authority (a : RouteAuthority) : Put := in_order [
  put_id (au_router_id a); put_generation (au_router_epoch a); put_generation (au_coordinator_epoch a);
  put_id (au_request_id a); put_generation (au_request_generation a); put_id (au_decision_id a);
  put_generation (au_decision_generation a); put_id (au_model_id a);
  put_generation (au_model_generation a); put_generation (au_artifact_generation a);
  put_id (au_provider_id a); put_generation (au_provider_generation a); put_id (au_backend_id a);
  put_generation (au_backend_generation a); put_generation (au_backend_boot a);
  put_generation (au_registration_generation a); put_id (au_endpoint_id a);
  put_generation (au_endpoint_generation a); put_id (au_capability_profile_id a);
  put_generation (au_capability_generation a); put_id (au_policy_id a);
  put_generation (au_policy_generation a); put_id (au_budget_id a);
  put_generation (au_budget_generation a); put_id (au_cost_evidence_id a);
  put_generation (au_price_generation a); put_id (au_slo_id a); put_generation (au_slo_generation a);
  put_id (au_compatibility_profile_id a); put_generation (au_compatibility_generation a);
  put_id (au_trust_profile_id a); put_generation (au_trust_generation a);
  put_generation (au_health_generation a); put_generation (au_availability_generation a);
  put_generation (au_readiness_generation a); put_generation (au_residency_generation a);
  put_generation (au_capacity_generation a); put_id (au_reservation_id a);
  put_generation (au_reservation_generation a); put_id (au_tenant a); put_id (au_name_space a);
  put_generation (au_dispatch_generation a); put_i64 (au_issued_at a); put_i64 (au_expires_at a)].

Definition read_authority : Get RouteAuthority :=
  router_id ← get_id; router_epoch ← get_generation; coordinator_epoch ← get_generation;
  request_id ← get_id; request_generation ← get_generation; decision_id ← get_id;
  decision_generation ← get_generation; model_id ← get_id; model_generation ← get_generation;
  artifact_generation ← get_generation; provider_id ← get_id; provider_generation ← get_generation;
  backend_id ← get_id; backend_generation ← get_generation; backend_boot ← get_generation;
  registration_generation ← get_generation; endpoint_id ← get_id; endpoint_generation ← get_generation;
  capability_profile_id ← get_id; capability_generation ← get_generation; policy_id ← get_id;
  policy_generation ← get_generation; budget_id ← get_id; budget_generation ← get_generation;
  cost_evidence_id ← get_id; price_generation ← get_generation; slo_id ← get_id;
  slo_generation ← get_generation; compatibility_profile_id ← get_id;
  compatibility_generation ← get_generation; trust_profile_id ← get_id;
  trust_generation ← get_generation; health_generation ← get_generation;
  availability_generation ← get_generation; readiness_generation ← get_generation;
  residency_generation ← get_generation; capacity_generation ← get_generation; reservation_id ← get_id;
  reservation_generation ← get_generation; tenant ← get_id; name_space ← get_id;
  dispatch_generation ← get_generation; issued_at ← get_i64; expires_at ← get_i64;
  mret {|
    au_router_id := router_id; au_router_epoch := router_epoch;
    au_coordinator_epoch := coordinator_epoch; au_request_id := request_id;
    au_request_generation := request_generation; au_decision_id := decision_id;
    au_decision_generation := decision_generation; au_model_id := model_id;
    au_model_generation := model_generation; au_artifact_generation := artifact_generation;
    au_provider_id := provider_id; au_provider_generation := provider_generation;
    au_backend_id := backend_id; au_backend_generation := backend_generation;
    au_backend_boot := backend_boot; au_registration_generation := registration_generation;
    au_endpoint_id := endpoint_id; au_endpoint_generation := endpoint_generation;
    au_capability_profile_id := capability_profile_id;
    au_capability_generation := capability_generation; au_policy_id := policy_id;
    au_policy_generation := policy_generation; au_budget_id := budget_id;
    au_budget_generation := budget_generation; au_cost_evidence_id := cost_evidence_id;
    au_price_generation := price_generation; au_slo_id := slo_id; au_slo_generation := slo_generation;
    au_compatibility_profile_id := compatibility_profile_id;
    au_compatibility_generation := compatibility_generation; au_trust_profile_id := trust_profile_id;
    au_trust_generation := trust_generation; au_health_generation := health_generation;
    au_availability_generation := availability_generation;
    au_readiness_generation := readiness_generation; au_residency_generation := residency_generation;
    au_capacity_generation := capacity_generation; au_reservation_id := reservation_id;
    au_reservation_generation := reservation_generation; au_tenant := tenant;
    au_name_space := name_space; au_dispatch_generation := dispatch_generation;
    au_issued_at := issued_at; au_expires_at := expires_at |}.

Definition write_candidate_key (k : CandidateKey) : Put := in_order [
  put_id (ck_model_id k); put_generation (ck_model_generation k);
  put_generation (ck_artifact_generation k); put_id (ck_backend_id k);
  put_generation (ck_backend_generation k); put_generation (ck_backend_boot k);
  put_id (ck_endpoint_id k); put_generation (ck_endpoint_generation k)].

Definition read_candidate_key : Get CandidateKey :=
  model_id ← get_id; model_generation ← get_generation; artifact_generation ← get_generation;
  backend_id ← get_id; backend_generation ← get_generation; backend_boot ← get_generation;
  endpoint_id ← get_id; endpoint_generation ← get_generation;
  mret {|
    ck_model_id := model_id; ck_model_generation := model_generation;
    ck_artifact_generation := artifact_generation; ck_backend_id := backend_id;
    ck_backend_generation := backend_generation; ck_backend_boot := backend_boot;
    ck_endpoint_id := endpoint_id; ck_endpoint_generation := endpoint_generation |}.

Definition write_binding (b : ModelBinding) : Put := in_order [
  put_id (mb_model_id b); put_generation (mb_model_generation b);
  put_generation (mb_artifact_generation b); put_u32 (mb_context_limit_tokens b);
  put_u32 (mb_quality_class b); write_cost (mb_cost b); put_i64 (mb_bound_at b)].

Definition read_binding : Get (option ModelBinding) :=
  model_id ← get_id; model_generation ← get_generation; artifact_generation ← get_generation;
  context_limit_tokens ← get_u32; quality_class ← get_u32;
  or_fail read_cost (fun cost =>
    bound_at ← get_i64;
    mret (Some {|
      mb_model_id := model_id; mb_model_generation := model_generation;
      mb_artifact_generation := artifact_generation; mb_context_limit_tokens := context_limit_tokens;
      mb_quality_class := quality_class; mb_cost := cost; mb_bound_at := bound_at |})).
End Records.

(** ** Machine ranges *)

Definition capability_fits (e : CapabilityEvidence) : Prop :=
  Forall is_u64 [
    value (ce_generation e); value (ce_profile_id e); value (ce_model_generation e);
    value (ce_backend_generation e); value (ce_backend_boot e)] /\
  Forall in_i64 [ce_observed_at e; ce_expires_at e] /\
  ce_state e <> CapabilityState.kCount.

Definition profile_fits (p : CapabilityProfile) : Prop :=
  Forall is_u64 [value (profile_id p); value (profile_generation p)] /\
  Forall capability_fits (profile_entries p) /\ profile_wf p.

Definition cost_fits (c : CostEvidence) : Prop :=
  Forall is_u64 [
    value (co_evidence_id c); value (co_price_generation c); value (co_backend_id c);
    value (co_model_id c)] /\
  Forall in_i64 [co_effective_at c; co_expires_at c; co_input_micros_per_unit c; co_output_micros_per_unit c; co_request_minimum_micros c; co_cache_read_micros_per_unit c; co_cache_write_micros_per_unit c; co_estimated_total_micros c] /\
  co_knownness c <> CostKnownness.kCount.

Definition authority_fits (a : RouteAuthority) : Prop :=
  Forall is_u64 [
    value (au_router_id a); value (au_router_epoch a); value (au_coordinator_epoch a);
    value (au_request_id a); value (au_request_generation a); value (au_decision_id a);
    value (au_decision_generation a); value (au_model_id a); value (au_model_generation a);
    value (au_artifact_generation a); value (au_provider_id a); value (au_provider_generation a);
    value (au_backend_id a); value (au_backend_generation a); value (au_backend_boot a);
    value (au_registration_generation a); value (au_endpoint_id a); value (au_endpoint_generation a);
    value (au_capability_profile_id a); value (au_capability_generation a); value (au_policy_id a);
    value (au_policy_generation a); value (au_budget_id a); value (au_budget_generation a);
    value (au_cost_evidence_id a); value (au_price_generation a); value (au_slo_id a);
    value (au_slo_generation a); value (au_compatibility_profile_id a);
    value (au_compatibility_generation a); value (au_trust_profile_id a);
    value (au_trust_generation a); value (au_health_generation a);
    value (au_availability_generation a); value (au_readiness_generation a);
    value (au_residency_generation a); value (au_capacity_generation a); value (au_reservation_id a);
    value (au_reservation_generation a); value (au_tenant a); value (au_name_space a);
    value (au_dispatch_generation a)] /\
  Forall in_i64 [au_issued_at a; au_expires_at a].

Definition candidate_key_fits (k : CandidateKey) : Prop :=
  Forall is_u64 [
    value (ck_model_id k); value (ck_model_generation k); value (ck_artifact_generation k);
    value (ck_backend_id k); value (ck_backend_generation k); value (ck_backend_boot k);
    value (ck_endpoint_id k); value (ck_endpoint_generation k)].

Definition binding_fits (b : ModelBinding) : Prop :=
  Forall is_u64 [
    value (mb_model_id b); value (mb_model_generation b); value (mb_artifact_generation b)] /\
  Forall in_i64 [mb_bound_at b] /\
  Forall is_u32 [mb_context_limit_tokens b; mb_quality_class b] /\
  cost_fits (mb_cost b).

(** ** Round trips *)

Lemma outcome_code_index (c : OutcomeCode.t) : enum_of outcome_codes OutcomeCode.index (OutcomeCode.index c) = Some c.
Proof. by destruct c. Qed.

Lemma codec_lifecycle v : codec (put_u8 (ModelLifecycle.index v)) get_lifecycle v.
Proof. apply codec_enum; [by destruct v|]. apply codec_u8. by destruct v. Qed.
Lemma codec_provenance v : codec (put_u8 (Provenance.index v)) get_provenance v.
Proof. apply codec_enum; [by destruct v|]. apply codec_u8. by destruct v. Qed.
Lemma codec_trust_domain v : codec (put_u8 (TrustDomain.index v)) get_trust_domain v.
Proof. apply codec_enum; [by destruct v|]. apply codec_u8. by destruct v. Qed.
Lemma codec_route_status v : codec (put_u8 (RouteStatus.index v)) get_route_status v.
Proof. apply codec_enum; [by destruct v|]. apply codec_u8. by destruct v. Qed.
Lemma codec_outcome_code v : codec (put_u16 (OutcomeCode.index v)) get_outcome_code v.
Proof. apply codec_enum; [by destruct v|]. apply codec_u16. by destruct v. Qed.
Lemma codec_capability_state v : codec (put_u8 (CapabilityState.index v)) get_capability_state v.
Proof. unfold get_capability_state. eapply codec_map; [apply codec_u8; by destruct v|by destruct v]. Qed.
Lemma codec_cost_knownness v : codec (put_u8 (CostKnownness.index v)) get_cost_knownness v.
Proof. unfold get_cost_knownness. eapply codec_map; [apply codec_u8; by destruct v|by destruct v]. Qed.

(** The leaves of a record, and the walk along its fields. *)
Create HintDb codec discriminated.
#[export] Hint Constants Opaque : codec.
#[export] Hint Transparent Clock.UnixMillis : codec.
#[export] Hint Resolve codec_id codec_generation codec_i64 codec_u16 codec_u32 codec_u64 codec_bool codec_string
  codec_lifecycle codec_provenance codec_trust_domain codec_route_status codec_outcome_code
  codec_capability_state codec_cost_knownness : codec.

Ltac codec_step := first
  [ eapply codec_cons; [solve [eauto with codec]|]
  | eapply codec_or_fail; [solve [eauto with codec]|]
  | apply codec_ok; cbn [negb orb andb] ].
Ltac fit_hypotheses :=
  repeat match goal with
         | H : Forall _ (_ :: _) |- _ => apply Forall_cons in H as [? H]
         | H : _ /\ _ |- _ => destruct H
         end.

Lemma size32_id {A} (l : list A) : Z.of_nat (length l) <= u32_max -> size32 l = Z.of_nat (length l).
Proof.
  intros H. unfold size32, word32. change u32_max with (Z.ones 32). rewrite Z.land_ones by lia.
  apply Z.mod_small. unfold u32_max in H. lia.
Qed.

Lemma codec_size32 {A} (l : list A) : Z.of_nat (length l) <= u32_max -> codec (put_u32 (size32 l)) get_u32 (Z.of_nat (length l)).
Proof. intros H. rewrite size32_id by done. apply codec_u32. unfold is_u32, u32_max in *. lia. Qed.
#[export] Hint Resolve codec_size32 : codec.

Section RoundTrips.
Context (limits : ResourceLimits) (Hlimits : is_u32 (max_string_bytes limits)).

Lemma codec_authority a : authority_fits a -> codec (write_authority a) read_authority a.
Proof. intros H. unfold authority_fits in H. fit_hypotheses. repeat codec_step. apply codec_nil. by destruct a. Qed.

Lemma codec_candidate_key k : candidate_key_fits k -> codec (write_candidate_key k) read_candidate_key k.
Proof. intros H. unfold candidate_key_fits in H. fit_hypotheses. repeat codec_step. apply codec_nil. by destruct k. Qed.

Lemma codec_capability e : capability_fits e -> codec (write_capability limits e) (read_capability limits) (Some e).
Proof.
  intros H. unfold capability_fits in H. fit_hypotheses. unfold write_capability, read_capability.
  repeat codec_step.
  assert ((CapabilityState.index (ce_state e) <? CapabilityState.index CapabilityState.kCount) = true) as ->
    by by destruct (ce_state e).
  cbn [negb]. apply codec_nil. by destruct e as [[]].
Qed.

Lemma codec_cost c : cost_fits c -> codec (write_cost limits c) (read_cost limits) (Some c).
Proof.
  intros H. unfold cost_fits in H. fit_hypotheses. unfold write_cost, read_cost. repeat codec_step.
  assert ((CostKnownness.index (co_knownness c) <? CostKnownness.index CostKnownness.kCount) = true) as ->
    by by destruct (co_knownness c).
  cbn [negb]. apply codec_nil. by destruct c as [????[]].
Qed.

Lemma codec_binding b : binding_fits b -> codec (write_binding limits b) (read_binding limits) (Some b).
Proof.
  intros H. unfold binding_fits in H. fit_hypotheses. unfold write_binding, read_binding.
  do 5 codec_step. eapply codec_or_fail; [by apply codec_cost|]. codec_step. apply codec_nil. by destruct b.
Qed.

(** Setting an entry whose key comes after all others appends it. *)
Definition profile_of (id : EntityId CapabilityProfileTag) (g : Generation CapabilityTag)
    (entries : list CapabilityEvidence) : CapabilityProfile :=
  {| profile_id := id; profile_generation := g; profile_entries := entries |}.

Lemma profile_set_append e n id g entries :
  keys_sorted key_ltb ce_key (entries ++ [e]) -> Z.of_nat (length entries) < n ->
  profile_set e n (profile_of id g entries) = (true, profile_of id g (entries ++ [e])).
Proof.
  intros Hwf Hn. assert (Hp : profile_wf (profile_of id g entries))
    by exact (keys_sorted_app_l key_ltb ce_key _ _ Hwf).
  destruct (profile_set e n (profile_of id g entries)) as [ok p'] eqn:E.
  assert (ok = true) as ->.
  { unfold profile_set in E. destruct (has_key _ _ _ _); [by injection E|]. cbn in E.
    destruct (Z.leb_spec n (Z.of_nat (length entries))); [lia|by injection E]. }
  apply profile_set_entries in E as (E1 & E2 & E3); [|done]. f_equal.
  destruct p' as [id' g' entries']. cbn in E1, E2, E3. subst. unfold profile_of. f_equal.
  by apply (put_append key_ltb ce_key).
Qed.

Lemma codec_entries todo id g entries :
  Forall capability_fits todo -> keys_sorted key_ltb ce_key (entries ++ todo) ->
  Z.of_nat (length (entries ++ todo)) <= max_capability_entries limits ->
  codec (put_each (write_capability limits) todo) (read_entries limits (length todo) (profile_of id g entries))
    (Some (profile_of id g (entries ++ todo))).
Proof.
  intros Hall. revert entries. unfold put_each. induction Hall as [|e todo He _ IH]; intros entries Hwf Hn.
  - apply codec_nil. by rewrite app_nil_r.
  - cbn [length read_entries fmap list_fmap].
    assert (Happ : entries ++ e :: todo = (entries ++ [e]) ++ todo) by by rewrite <- app_assoc.
    rewrite Happ in Hwf, Hn |- *. eapply codec_or_fail; [by apply codec_capability|].
    rewrite profile_set_append; [by apply IH|exact (keys_sorted_app_l key_ltb ce_key _ _ Hwf)|].
    rewrite !length_app in Hn. simpl in Hn. lia.
Qed.

Lemma codec_profile p :
  profile_fits p -> Z.of_nat (length (profile_entries p)) <= max_capability_entries limits ->
  is_u32 (max_capability_entries limits) ->
  codec (write_profile limits p) (read_profile limits) (Some p).
Proof.
  intros (Hw & Hall & Hwf) Hn Hu. fit_hypotheses. unfold write_profile, read_profile.
  assert (Z.of_nat (length (profile_entries p)) <= u32_max) by (unfold is_u32, u32_max in *; lia).
  repeat codec_step.
  destruct (Z.ltb_spec (max_capability_entries limits) (Z.of_nat (length (profile_entries p)))); [lia|].
  cbn [negb orb]. rewrite Nat2Z.id. apply codec_block. destruct p as [id g entries].
  by apply (codec_entries entries id g []).
Qed.
End RoundTrips.
