(* ===== verification/Persistence.v ===== *)
(** * The durable state and its image ([persistence.hpp], [persistence.cpp])

    The durable state of a router, its canonical form and its coherence test;
    the byte image of it, header and records; and reading an image back.  File
    operations are not here: an image is a list of bytes. *)
From S2P Require Import Prelude Bytes Ids Sha256 Outcome Limits Clock Crc32c Codec Capability Evidence.
From S2P Require Import Catalog Candidate Authority Decision RouterState PersistRecords.

(** ** The durable state *)

(** A persisted model record has the model descriptor as its only member and is
    modelled by it. *)

Record PersistedBackendRecord := {
  pb_backend_id : EntityId BackendTag;
  pb_backend_generation : Generation BackendTag;
  pb_last_boot : Generation BackendBootTag;
  pb_last_registration_generation : Generation BackendRegistrationTag;
  pb_provider_id : EntityId ProviderTag;
  pb_provider_generation : Generation ProviderTag;
  pb_endpoint_id : EntityId EndpointTag;
  pb_last_endpoint_generation : Generation EndpointTag;
  pb_trust_profile_id : EntityId TrustTag;
  pb_trust_generation : Generation TrustTag;
  pb_trust_domain : TrustDomain.t;
  pb_locality : LocalityKey;
  pb_network_distance : Z;
  pb_capability_profile_id : EntityId CapabilityProfileTag;
  pb_capability_generation : Generation CapabilityTag;
  pb_capabilities : CapabilityProfile;
  pb_model_bindings : list ModelBinding;
  pb_offline_capable : bool;
  pb_provenance : Provenance.t;
  pb_registered_at : UnixMillis
}.
#[export] Instance persisted_backend_record_eta : Eta PersistedBackendRecord := fun r =>
  {| pb_backend_id := pb_backend_id r;
     pb_backend_generation := pb_backend_generation r;
     pb_last_boot := pb_last_boot r;
     pb_last_registration_generation := pb_last_registration_generation r;
     pb_provider_id := pb_provider_id r;
     pb_provider_generation := pb_provider_generation r;
     pb_endpoint_id := pb_endpoint_id r;
     pb_last_endpoint_generation := pb_last_endpoint_generation r;
     pb_trust_profile_id := pb_trust_profile_id r;
     pb_trust_generation := pb_trust_generation r;
     pb_trust_domain := pb_trust_domain r;
     pb_locality := pb_locality r;
     pb_network_distance := pb_network_distance r;
     pb_capability_profile_id := pb_capability_profile_id r;
     pb_capability_generation := pb_capability_generation r;
     pb_capabilities := pb_capabilities r;
     pb_model_bindings := pb_model_bindings r;
     pb_offline_capable := pb_offline_capable r;
     pb_provenance := pb_provenance r;
     pb_registered_at := pb_registered_at r |}.
Record PersistedRouteRecord := {
  pt_decision_id : EntityId RouteDecisionTag;
  pt_decision_generation : Generation RouteDecisionTag;
  pt_request_id : EntityId RouteRequestTag;
  pt_request_generation : Generation RouteRequestTag;
  pt_winner : CandidateKey;
  pt_fallbacks : list CandidateKey;
  pt_authority : RouteAuthority;
  pt_status : RouteStatus.t;
  pt_code : OutcomeCode.t;
  pt_cost : CostEvidence;
  pt_policy_generation : Generation PolicyTag;
  pt_price_generation : Generation PriceTag;
  pt_budget_generation : Generation BudgetTag;
  pt_slo_generation : Generation SloTag;
  pt_semantic_digest : string;
  pt_requirement_digest : string;
  pt_created_at : UnixMillis
}.
#[export] Instance persisted_route_record_eta : Eta PersistedRouteRecord := fun r =>
  {| pt_decision_id := pt_decision_id r;
     pt_decision_generation := pt_decision_generation r;
     pt_request_id := pt_request_id r;
     pt_request_generation := pt_request_generation r;
     pt_winner := pt_winner r;
     pt_fallbacks := pt_fallbacks r;
     pt_authority := pt_authority r;
     pt_status := pt_status r;
     pt_code := pt_code r;
     pt_cost := pt_cost r;
     pt_policy_generation := pt_policy_generation r;
     pt_price_generation := pt_price_generation r;
     pt_budget_generation := pt_budget_generation r;
     pt_slo_generation := pt_slo_generation r;
     pt_semantic_digest := pt_semantic_digest r;
     pt_requirement_digest := pt_requirement_digest r;
     pt_created_at := pt_created_at r |}.
Record RouterPersistentState := {
  st_router_id : EntityId RouterTag;
  st_router_generation : Generation RouterTag;
  st_last_router_epoch : Generation RouterEpochTag;
  st_last_coordinator_epoch : Generation CoordinatorEpochTag;
  st_last_boot : Generation RouterBootTag;
  st_limits : ResourceLimits;
  st_weights : RankingWeights;
  st_last_policy_generation : Generation PolicyTag;
  st_last_price_generation : Generation PriceTag;
  st_last_budget_generation : Generation BudgetTag;
  st_last_slo_generation : Generation SloTag;
  st_last_capability_generation : Generation CapabilityTag;
  st_last_model_generation : Generation ModelTag;
  st_last_backend_generation : Generation BackendTag;
  st_models : list ModelDescriptor;
  st_backends : list PersistedBackendRecord;
  st_fenced_boots : list FencedBootRecord;
  st_routes : list PersistedRouteRecord;
  st_counters : PersistenceCounters;
  st_saved_at : UnixMillis;
  st_last_started_at : UnixMillis
}.
#[export] Instance router_persistent_state_eta : Eta RouterPersistentState := fun r =>
  {| st_router_id := st_router_id r;
     st_router_generation := st_router_generation r;
     st_last_router_epoch := st_last_router_epoch r;
     st_last_coordinator_epoch := st_last_coordinator_epoch r;
     st_last_boot := st_last_boot r;
     st_limits := st_limits r;
     st_weights := st_weights r;
     st_last_policy_generation := st_last_policy_generation r;
     st_last_price_generation := st_last_price_generation r;
     st_last_budget_generation := st_last_budget_generation r;
     st_last_slo_generation := st_last_slo_generation r;
     st_last_capability_generation := st_last_capability_generation r;
     st_last_model_generation := st_last_model_generation r;
     st_last_backend_generation := st_last_backend_generation r;
     st_models := st_models r;
     st_backends := st_backends r;
     st_fenced_boots := st_fenced_boots r;
     st_routes := st_routes r;
     st_counters := st_counters r;
     st_saved_at := st_saved_at r;
     st_last_started_at := st_last_started_at r |}.
Definition router_persistent_state_default : RouterPersistentState := {|
  st_router_id := none;
  st_router_generation := none;
  st_last_router_epoch := none;
  st_last_coordinator_epoch := none;
  st_last_boot := none;
  st_limits := default_resource_limits;
  st_weights := ranking_weights_default;
  st_last_policy_generation := none;
  st_last_price_generation := none;
  st_last_budget_generation := none;
  st_last_slo_generation := none;
  st_last_capability_generation := none;
  st_last_model_generation := none;
  st_last_backend_generation := none;
  st_models := [];
  st_backends := [];
  st_fenced_boots := [];
  st_routes := [];
  st_counters := persistence_counters_default;
  st_saved_at := 0;
  st_last_started_at := 0
|}.

Record PersistenceResult := { pe_code : OutcomeCode.t; pe_detail : string }.

Record PersistenceLoad := {
  ld_code : OutcomeCode.t;
  ld_detail : string;
  ld_state : RouterPersistentState;
  ld_has_state : bool;
  ld_format_version : Z;
  ld_record_count : Z
}.
Definition pe_ok (r : PersistenceResult) : bool := pe_code r == OutcomeCode.ACCEPTED.
Definition load_ok (l : PersistenceLoad) : bool := ld_has_state l && (ld_code l == OutcomeCode.ACCEPTED).

(** ** Canonical form *)

Definition model_record_ltb (x y : ModelDescriptor) : bool :=
  if md_model_id x != md_model_id y then id_ltb (md_model_id x) (md_model_id y)
  else id_ltb (md_model_generation x) (md_model_generation y).
Definition backend_record_ltb (x y : PersistedBackendRecord) : bool := id_ltb (pb_backend_id x) (pb_backend_id y).
Definition binding_ltb (x y : ModelBinding) : bool := id_ltb (mb_model_id x) (mb_model_id y).
Definition fenced_canonical_less (x y : FencedBootRecord) : bool :=
  if fb_backend_id x != fb_backend_id y then id_ltb (fb_backend_id x) (fb_backend_id y)
  else if fb_backend_boot x != fb_backend_boot y then id_ltb (fb_backend_boot x) (fb_backend_boot y)
  else if fb_backend_generation x != fb_backend_generation y
  then id_ltb (fb_backend_generation x) (fb_backend_generation y)
  else OutcomeCode.index (fb_reason x) <? OutcomeCode.index (fb_reason y).
Definition route_record_ltb (x y : PersistedRouteRecord) : bool := id_ltb (pt_decision_id x) (pt_decision_id y).

Definition sort_bindings (b : PersistedBackendRecord) : PersistedBackendRecord :=
  b <| pb_model_bindings := stable_sort binding_ltb (pb_model_bindings b) |>.

Definition state_canonicalize (st : RouterPersistentState) : RouterPersistentState :=
  st <| st_models := stable_sort model_record_ltb (st_models st) |>
     <| st_backends := sort_bindings <$> stable_sort backend_record_ltb (st_backends st) |>
     <| st_fenced_boots := stable_sort fenced_canonical_less (st_fenced_boots st) |>
     <| st_routes := stable_sort route_record_ltb (st_routes st) |>.

(** ** Coherence *)

Definition count {A} (l : list A) : Z := Z.of_nat (length l).

(** The first error of a list of records. *)
Fixpoint first_error {A} (check : A -> string) (l : list A) : string :=
  match l with
  | [] => ""
  | x :: l => let error := check x in return_if error != "" with error ;; first_error check l
  end.

Definition check_model (m : ModelDescriptor) : string :=
  let error := model_validate m in
  if error != "" then "durable model record is invalid: " +:+ error else "".

Definition check_backend (limits : ResourceLimits) (b : PersistedBackendRecord) : string :=
  return_if negb (valid (pb_backend_id b)) || negb (valid (pb_backend_generation b)) || negb (valid (pb_last_boot b))
    with "durable backend record has an invalid identity" ;;
  return_if max_model_bindings_per_backend limits <? count (pb_model_bindings b)
    with "durable backend record exceeds the model binding limit" ;;
  return_if max_capability_entries_per_backend limits <? count (profile_entries (pb_capabilities b))
    with "durable backend record exceeds the capability limit" ;;
  "".

Definition check_fenced (f : FencedBootRecord) : string :=
  if negb (valid (fb_backend_id f)) || negb (valid (fb_backend_boot f))
  then "durable fenced record has an invalid identity" else "".

Definition check_route (r : PersistedRouteRecord) : string :=
  if negb (valid (pt_decision_id r)) || negb (valid (pt_decision_generation r))
  then "durable route record has an invalid identity" else "".

(** The first of two messages that is not empty. *)
Definition or_else (error next : string) : string := if error != "" then error else next.

Definition state_validate (limits : ResourceLimits) (st : RouterPersistentState) : string :=
  return_if negb (valid (st_router_id st)) with "durable state has no router identity" ;;
  return_if negb (valid (st_router_generation st)) with "durable state has no router generation" ;;
  let error := limits_validate limits in
  return_if error != "" with "durable limits are incoherent: " +:+ error ;;
  let error := weights_validate (st_weights st) in
  return_if error != "" with "durable ranking weights are incoherent: " +:+ error ;;
  return_if max_models limits <? count (st_models st)
    with "durable model record count exceeds the configured limit" ;;
  return_if max_backends limits <? count (st_backends st)
    with "durable backend record count exceeds the configured limit" ;;
  return_if max_backend_incarnations limits <? count (st_fenced_boots st)
    with "durable fenced incarnation count exceeds the configured limit" ;;
  return_if max_route_history limits <? count (st_routes st)
    with "durable route record count exceeds the configured limit" ;;
  return_if max_persistence_records limits <?
            count (st_models st) + count (st_backends st) + count (st_fenced_boots st) + count (st_routes st)
    with "durable record count exceeds the configured limit" ;;
  or_else (first_error check_model (st_models st))
    (or_else (first_error (check_backend limits) (st_backends st))
       (or_else (first_error check_fenced (st_fenced_boots st))
          (first_error check_route (st_routes st)))).

(** ** The semantic digest *)

Definition joined {A} (text : A -> string) (l : list A) : string := foldr (fun x rest => text x +:+ rest) "" l.

Definition model_text (m : ModelDescriptor) : string :=
  "|model=" +:+ to_string_int (value (md_model_id m)) +:+ "@" +:+ to_string_int (value (md_model_generation m)) +:+
  "." +:+ to_string_int (value (md_artifact_generation m)) +:+ ":" +:+ ModelLifecycle.to_string (md_lifecycle m).
Definition backend_text (b : PersistedBackendRecord) : string :=
  "|backend=" +:+ to_string_int (value (pb_backend_id b)) +:+ "@" +:+
  to_string_int (value (pb_backend_generation b)) +:+ ".boot=" +:+ to_string_int (value (pb_last_boot b)) +:+ ":" +:+
  to_string_int (count (pb_model_bindings b)).
Definition fenced_text (f : FencedBootRecord) : string :=
  "|fenced=" +:+ to_string_int (value (fb_backend_id f)) +:+ ".boot=" +:+ to_string_int (value (fb_backend_boot f)).
Definition route_text (r : PersistedRouteRecord) : string :=
  "|route=" +:+ to_string_int (value (pt_decision_id r)) +:+ ":" +:+ pt_semantic_digest r.

Definition canonical_text (st : RouterPersistentState) : string :=
  let c := st_counters st in
  "router=" +:+ to_string_int (value (st_router_id st)) +:+
  ";gen=" +:+ to_string_int (value (st_router_generation st)) +:+
  ";router_epoch=" +:+ to_string_int (value (st_last_router_epoch st)) +:+
  ";coordinator_epoch=" +:+ to_string_int (value (st_last_coordinator_epoch st)) +:+
  ";boot=" +:+ to_string_int (value (st_last_boot st)) +:+
  ";saved_at=" +:+ to_string_int (st_saved_at st) +:+
  ";counters=" +:+ to_string_int (pc_highest_identity_issued c) +:+ "," +:+ to_string_int (pc_route_requests c) +:+
  "," +:+ to_string_int (pc_route_decisions c) +:+ "," +:+ to_string_int (pc_dispatches c) +:+
  "," +:+ to_string_int (pc_route_rejections c) +:+ "," +:+ to_string_int (pc_reroutes c) +:+
  "," +:+ to_string_int (pc_fallbacks_taken c) +:+
  joined model_text (st_models st) +:+ joined backend_text (st_backends st) +:+
  joined fenced_text (st_fenced_boots st) +:+ joined route_text (st_routes st).

Definition state_semantic_digest (st : RouterPersistentState) : string := to_hex (sha256 (canonical_text st)).

(** ** Constants of the format *)

Definition kRecordMeta : Z := 1.
Definition kRecordModel : Z := 2.
Definition kRecordBackend : Z := 3.
Definition kRecordFenced : Z := 4.
Definition kRecordRoute : Z := 5.
Definition persistence_header_bytes : Z := 72.
Definition persistence_format_version : Z := 1.
(** The letters MRSTATE and a zero byte. *)
Definition persistence_magic : list Z := [77; 82; 83; 84; 65; 84; 69; 0].


(** ** Writing the records *)

Section Encode.
Context (limits : ResourceLimits).

Definition write_meta (st : RouterPersistentState) : Put := in_order [
  put_id (st_router_id st); put_generation (st_router_generation st);
  put_generation (st_last_router_epoch st); put_generation (st_last_coordinator_epoch st);
  put_generation (st_last_boot st); put_generation (st_last_policy_generation st);
  put_generation (st_last_price_generation st); put_generation (st_last_budget_generation st);
  put_generation (st_last_slo_generation st); put_generation (st_last_capability_generation st);
  put_generation (st_last_model_generation st); put_generation (st_last_backend_generation st);
  put_i64 (st_saved_at st); put_i64 (st_last_started_at st);
  put_u64 (pc_highest_identity_issued (st_counters st)); put_u64 (pc_route_requests (st_counters st));
  put_u64 (pc_route_decisions (st_counters st)); put_u64 (pc_dispatches (st_counters st));
  put_u64 (pc_route_rejections (st_counters st)); put_u64 (pc_reroutes (st_counters st));
  put_u64 (pc_fallbacks_taken (st_counters st)); put_u32 (max_models (st_limits st));
  put_u32 (max_backends (st_limits st)); put_u32 (max_route_history (st_limits st));
  put_u32 (max_fallback_candidates (st_limits st)); put_u32 (max_explanation_factors (st_limits st));
  put_u32 (max_string_bytes (st_limits st));
  put_u32 (max_capability_entries_per_backend (st_limits st));
  put_u32 (max_model_bindings_per_backend (st_limits st))].

Definition write_model (m : ModelDescriptor) : Put := in_order [
  put_id (md_model_id m); put_generation (md_model_generation m); put_id (md_model_version_id m);
  put_generation (md_artifact_generation m); put_id (md_family_id m);
  put_u32 (md_context_limit_tokens m); put_u32 (md_max_output_tokens m);
  put_u32 (modality_bits (md_input_modalities m)); put_u32 (modality_bits (md_output_modalities m));
  put_u32 (md_quality_class m); put_u8 (ModelLifecycle.index (md_lifecycle m));
  put_id (md_capability_profile_id m); put_generation (md_capability_generation m);
  write_profile limits (md_capabilities m); put_u8 (Provenance.index (md_provenance m));
  put_i64 (md_registered_at m); put_i64 (md_expires_at m); put_string limits (md_display_name m)].

Definition write_backend (b : PersistedBackendRecord) : Put := in_order [
  put_id (pb_backend_id b); put_generation (pb_backend_generation b); put_generation (pb_last_boot b);
  put_generation (pb_last_registration_generation b); put_id (pb_provider_id b);
  put_generation (pb_provider_generation b); put_id (pb_endpoint_id b);
  put_generation (pb_last_endpoint_generation b); put_id (pb_trust_profile_id b);
  put_generation (pb_trust_generation b); put_u8 (TrustDomain.index (pb_trust_domain b));
  put_string limits (locality_string (pb_locality b)); put_u32 (pb_network_distance b);
  put_id (pb_capability_profile_id b); put_generation (pb_capability_generation b);
  write_profile limits (pb_capabilities b);
  put_u32 (size32 (pb_model_bindings b)); put_each (write_binding limits) (pb_model_bindings b);
  put_bool (pb_offline_capable b); put_u8 (Provenance.index (pb_provenance b));
  put_i64 (pb_registered_at b)].

Definition write_fenced (f : FencedBootRecord) : Put := in_order [
  put_id (fb_backend_id f); put_generation (fb_backend_generation f); put_generation (fb_backend_boot f);
  put_u16 (OutcomeCode.index (fb_reason f)); put_i64 (fb_fenced_at f)].

Definition write_route (r : PersistedRouteRecord) : Put := in_order [
  put_id (pt_decision_id r); put_generation (pt_decision_generation r); put_id (pt_request_id r);
  put_generation (pt_request_generation r); write_candidate_key (pt_winner r);
  put_u32 (size32 (pt_fallbacks r)); put_each write_candidate_key (pt_fallbacks r);
  write_authority (pt_authority r); put_u8 (RouteStatus.index (pt_status r));
  put_u16 (OutcomeCode.index (pt_code r)); write_cost limits (pt_cost r);
  put_generation (pt_policy_generation r); put_generation (pt_price_generation r);
  put_generation (pt_budget_generation r); put_generation (pt_slo_generation r);
  put_string limits (pt_semantic_digest r); put_string limits (pt_requirement_digest r);
  put_i64 (pt_created_at r)].

(** The six bytes in front of a record's body. *)
Definition record_header (kind length : Z) : list Z := le_bytes 2 kind ++ le_bytes 4 length.
Definition record_bytes (kind : Z) (body : list Z) : list Z := record_header kind (size32 body) ++ body.

(** One record: its bytes, unless a string of it was too long. *)
Definition encode_record (kind : Z) (put : Put) : option (list Z) :=
  let w := put byte_writer in
  if wr_ok w then Some (record_bytes kind (wr_bytes w)) else None.

(** The records of one kind, one after the other. *)
Fixpoint encode_all {A} (kind : Z) (put : A -> Put) (l : list A) : option (list Z) :=
  match l with
  | [] => Some []
  | x :: l =>
      match encode_record kind (put x) with
      | None => None
      | Some bytes => (fun rest => bytes ++ rest) <$> encode_all kind put l
      end
  end.

Definition header_prefix (records payload_bytes payload_crc : Z) : list Z :=
  persistence_magic ++ le_bytes 4 persistence_format_version ++ le_bytes 4 persistence_header_bytes ++
  le_bytes 4 0 ++ le_bytes 4 records ++ le_bytes 8 payload_bytes ++ le_bytes 4 payload_crc.

Definition image_of (records : Z) (payload digest : list Z) : list Z :=
  let prefix := header_prefix records (count payload) (crc32c payload) in
  prefix ++ le_bytes 4 (crc32c prefix) ++ digest ++ payload.

Definition refused (code : OutcomeCode.t) (detail : string) : PersistenceResult :=
  {| pe_code := code; pe_detail := detail |}.

Definition encode_payload (st : RouterPersistentState) : PersistenceResult + list Z :=
  match encode_record kRecordMeta (write_meta st) with
  | None => inl (refused OutcomeCode.REJECT_LIMIT "meta record exceeds the configured bounds")
  | Some meta =>
  match encode_all kRecordModel write_model (st_models st) with
  | None => inl (refused OutcomeCode.REJECT_LIMIT "model record exceeds the configured bounds")
  | Some models =>
  match encode_all kRecordBackend write_backend (st_backends st) with
  | None => inl (refused OutcomeCode.REJECT_LIMIT "backend record exceeds the configured bounds")
  | Some backends =>
  match encode_all kRecordFenced write_fenced (st_fenced_boots st) with
  | None => inl (refused OutcomeCode.REJECT_LIMIT "fenced record exceeds the configured bounds")
  | Some fenced =>
  match encode_all kRecordRoute write_route (st_routes st) with
  | None => inl (refused OutcomeCode.REJECT_LIMIT "route record exceeds the configured bounds")
  | Some routes => inr (meta ++ models ++ backends ++ fenced ++ routes)
  end end end end end.

Definition record_count (st : RouterPersistentState) : Z :=
  1 + count (st_models st) + count (st_backends st) + count (st_fenced_boots st) + count (st_routes st).

(** The image and the number of its records. *)
Definition encode (state : RouterPersistentState) : PersistenceResult + list Z * Z :=
  let canonical := state_canonicalize state in
  let error := state_validate limits canonical in
  return_if error != "" with inl (refused OutcomeCode.REJECT_INVALID error) ;;
  match encode_payload canonical with
  | inl failure => inl failure
  | inr payload =>
      let records := record_count canonical in
      return_if max_persistence_records limits <? records
        with inl (refused OutcomeCode.REJECT_LIMIT "record count exceeds the configured persistence limit") ;;
      return_if max_persistence_bytes limits <? persistence_header_bytes + count payload
        with inl (refused OutcomeCode.REJECT_LIMIT "persistence image exceeds the configured byte limit") ;;
      inr (image_of records payload (sha256 (canonical_text canonical)), records)
  end.
End Encode.


(** ** Reading the records *)

Definition DecodeError : Type := OutcomeCode.t * string.

Definition or_reject {A B} (m : Get (option A)) (error : DecodeError) (f : A -> Get (DecodeError + B))
    : Get (DecodeError + B) :=
  m ≫= fun r => match r with None => mret (inl error) | Some a => f a end.

(** [!reader.ok() || !reader.exhausted()]: the record must end where its body
    does. *)
Definition closed {A} (detail : string) (m : Get (DecodeError + A)) : Get (DecodeError + A) :=
  m ≫= fun r => match r with
  | inl error => mret (inl error)
  | inr a =>
      ok ← reader_ok; all ← exhausted;
      mret (if negb ok || negb all then inl (OutcomeCode.REJECT_INVALID, detail) else inr a)
  end.

Section Decode.
Context (limits : ResourceLimits).

(** Nothing asks here whether the reads succeeded or the body is used up. *)
Definition read_meta (st : RouterPersistentState) : Get RouterPersistentState :=
  router_id ← get_id; router_generation ← get_generation; last_router_epoch ← get_generation;
  last_coordinator_epoch ← get_generation; last_boot ← get_generation;
  last_policy_generation ← get_generation; last_price_generation ← get_generation;
  last_budget_generation ← get_generation; last_slo_generation ← get_generation;
  last_capability_generation ← get_generation; last_model_generation ← get_generation;
  last_backend_generation ← get_generation; saved_at ← get_i64; last_started_at ← get_i64;
  highest_identity_issued ← get_u64; route_requests ← get_u64; route_decisions ← get_u64;
  dispatches ← get_u64; route_rejections ← get_u64; reroutes ← get_u64; fallbacks_taken ← get_u64;
  models ← get_u32; backends ← get_u32; route_history ← get_u32; fallback_candidates ← get_u32;
  explanation_factors ← get_u32; string_bytes ← get_u32; capability_entries_per_backend ← get_u32;
  model_bindings_per_backend ← get_u32;
  mret {|
    st_router_id := router_id; st_router_generation := router_generation;
    st_last_router_epoch := last_router_epoch; st_last_coordinator_epoch := last_coordinator_epoch;
    st_last_boot := last_boot;
    st_limits := (st_limits st) <| max_models := models |> <| max_backends := backends |>
      <| max_route_history := route_history |> <| max_fallback_candidates := fallback_candidates |>
      <| max_explanation_factors := explanation_factors |> <| max_string_bytes := string_bytes |>
      <| max_capability_entries_per_backend := capability_entries_per_backend |>
      <| max_model_bindings_per_backend := model_bindings_per_backend |>;
    st_weights := st_weights st; st_last_policy_generation := last_policy_generation;
    st_last_price_generation := last_price_generation;
    st_last_budget_generation := last_budget_generation; st_last_slo_generation := last_slo_generation;
    st_last_capability_generation := last_capability_generation;
    st_last_model_generation := last_model_generation;
    st_last_backend_generation := last_backend_generation; st_models := st_models st;
    st_backends := st_backends st; st_fenced_boots := st_fenced_boots st; st_routes := st_routes st;
    st_counters := {| pc_highest_identity_issued := highest_identity_issued; pc_route_requests :=
      route_requests; pc_route_decisions := route_decisions; pc_dispatches := dispatches;
      pc_route_rejections := route_rejections; pc_reroutes := reroutes; pc_fallbacks_taken :=
      fallbacks_taken |};
    st_saved_at := saved_at; st_last_started_at := last_started_at |}.

Definition read_model : Get (DecodeError + ModelDescriptor) :=
  model_id ← get_id; model_generation ← get_generation; model_version_id ← get_id;
  artifact_generation ← get_generation; family_id ← get_id; context_limit_tokens ← get_u32;
  max_output_tokens ← get_u32; input_modalities ← get_u32; output_modalities ← get_u32;
  quality_class ← get_u32; lifecycle ← get_lifecycle; capability_profile_id ← get_id;
  capability_generation ← get_generation;
  or_reject (read_profile limits)
    (OutcomeCode.REJECT_INVALID, "persistence model record has an invalid capability profile")
  (fun capabilities =>
  provenance ← get_provenance; registered_at ← get_i64; expires_at ← get_i64;
  display_name ← get_string limits;
  mret (inr {|
    md_model_id := model_id; md_model_generation := model_generation;
    md_model_version_id := model_version_id; md_artifact_generation := artifact_generation;
    md_family_id := family_id; md_context_limit_tokens := context_limit_tokens;
    md_max_output_tokens := max_output_tokens; md_input_modalities := ModalitySetOf input_modalities;
    md_output_modalities := ModalitySetOf output_modalities; md_quality_class := quality_class;
    md_lifecycle := lifecycle; md_capability_profile_id := capability_profile_id;
    md_capability_generation := capability_generation; md_capabilities := capabilities;
    md_provenance := provenance; md_registered_at := registered_at; md_expires_at := expires_at;
    md_display_name := display_name |})).

Definition read_backend : Get (DecodeError + PersistedBackendRecord) :=
  backend_id ← get_id; backend_generation ← get_generation; last_boot ← get_generation;
  last_registration_generation ← get_generation; provider_id ← get_id;
  provider_generation ← get_generation; endpoint_id ← get_id;
  last_endpoint_generation ← get_generation; trust_profile_id ← get_id;
  trust_generation ← get_generation; trust_domain ← get_trust_domain; locality ← get_string limits;
  network_distance ← get_u32; capability_profile_id ← get_id; capability_generation ← get_generation;
  or_reject (read_profile limits)
    (OutcomeCode.REJECT_INVALID, "persistence backend record has an invalid capability profile")
  (fun capabilities =>
  bindings ← get_u32;
  return_if max_model_bindings_per_backend limits <? bindings
    with mret (inl (OutcomeCode.REJECT_LIMIT, "persistence backend record exceeds the model binding limit")) ;;
  or_reject (get_each_or_fail (Z.to_nat bindings) (read_binding limits))
    (OutcomeCode.REJECT_INVALID, "persistence backend record has invalid cost evidence")
  (fun model_bindings =>
  offline_capable ← get_bool; provenance ← get_provenance; registered_at ← get_i64;
  mret (inr {|
    pb_backend_id := backend_id; pb_backend_generation := backend_generation;
    pb_last_boot := last_boot; pb_last_registration_generation := last_registration_generation;
    pb_provider_id := provider_id; pb_provider_generation := provider_generation;
    pb_endpoint_id := endpoint_id; pb_last_endpoint_generation := last_endpoint_generation;
    pb_trust_profile_id := trust_profile_id; pb_trust_generation := trust_generation;
    pb_trust_domain := trust_domain; pb_locality := LocalityKeyOf locality;
    pb_network_distance := network_distance; pb_capability_profile_id := capability_profile_id;
    pb_capability_generation := capability_generation; pb_capabilities := capabilities;
    pb_model_bindings := model_bindings; pb_offline_capable := offline_capable;
    pb_provenance := provenance; pb_registered_at := registered_at |}))).

Definition read_fenced : Get (DecodeError + FencedBootRecord) :=
  backend_id ← get_id; backend_generation ← get_generation; backend_boot ← get_generation;
  reason ← get_outcome_code; fenced_at ← get_i64;
  mret (inr {|
    fb_backend_id := backend_id; fb_backend_generation := backend_generation;
    fb_backend_boot := backend_boot; fb_reason := reason; fb_fenced_at := fenced_at |}).

Definition read_route : Get (DecodeError + PersistedRouteRecord) :=
  decision_id ← get_id; decision_generation ← get_generation; request_id ← get_id;
  request_generation ← get_generation; winner ← read_candidate_key;
  count ← get_u32;
  return_if max_fallback_candidates limits <? count
    with mret (inl (OutcomeCode.REJECT_LIMIT, "persistence route record exceeds the fallback limit")) ;;
  fallbacks ← get_each (Z.to_nat count) read_candidate_key;
  authority ← read_authority; status ← get_route_status; code ← get_outcome_code;
  or_reject (read_cost limits)
    (OutcomeCode.REJECT_INVALID, "persistence route record has invalid cost evidence")
  (fun cost =>
  policy_generation ← get_generation; price_generation ← get_generation;
  budget_generation ← get_generation; slo_generation ← get_generation;
  semantic_digest ← get_string limits; requirement_digest ← get_string limits; created_at ← get_i64;
  mret (inr {|
    pt_decision_id := decision_id; pt_decision_generation := decision_generation;
    pt_request_id := request_id; pt_request_generation := request_generation; pt_winner := winner;
    pt_fallbacks := fallbacks; pt_authority := authority; pt_status := status; pt_code := code;
    pt_cost := cost; pt_policy_generation := policy_generation;
    pt_price_generation := price_generation; pt_budget_generation := budget_generation;
    pt_slo_generation := slo_generation; pt_semantic_digest := semantic_digest;
    pt_requirement_digest := requirement_digest; pt_created_at := created_at |})).

(** The switch on the kind of a record. *)
Definition decode_record (kind : Z) (have_meta : bool) (st : RouterPersistentState)
    : Get (DecodeError + RouterPersistentState) :=
  if kind =? kRecordMeta then
    return_if have_meta
      with mret (inl (OutcomeCode.REJECT_INVALID, "persistence image contains more than one meta record")) ;;
    st ← read_meta st; mret (inr st)
  else if kind =? kRecordModel then
    r ← closed "persistence model record is malformed" read_model;
    mret (match r with inl e => inl e | inr m => inr (st <| st_models := st_models st ++ [m] |>) end)
  else if kind =? kRecordBackend then
    r ← closed "persistence backend record is malformed" read_backend;
    mret (match r with inl e => inl e | inr b => inr (st <| st_backends := st_backends st ++ [b] |>) end)
  else if kind =? kRecordFenced then
    r ← closed "persistence fenced record is malformed" read_fenced;
    mret (match r with inl e => inl e | inr f => inr (st <| st_fenced_boots := st_fenced_boots st ++ [f] |>) end)
  else if kind =? kRecordRoute then
    r ← closed "persistence route record is malformed" read_route;
    mret (match r with inl e => inl e | inr t => inr (st <| st_routes := st_routes st ++ [t] |>) end)
  else mret (inl (OutcomeCode.REJECT_INVALID, "persistence record has an unknown record kind")).

(** Where the loop over the payload stands: the state read so far, the records
    seen, whether one was the meta record, and the ghost of the reader. *)
Record Decoding := { dg_state : RouterPersistentState; dg_seen : Z; dg_meta : bool; dg_known : bool }.

(** One turn of the loop: the rest of the payload, or why it stops. *)
Definition decode_next (payload : list Z) (d : Decoding) : DecodeError + list Z * Decoding :=
  return_if count payload <? 6
    with inl (OutcomeCode.REJECT_INVALID, "persistence payload ends inside a record header") ;;
  let kind := le_word (take 2 payload) in
  let length := le_word (take 4 (drop 2 payload)) in
  let rest := drop 6 payload in
  return_if count rest <? length
    with inl (OutcomeCode.REJECT_INVALID, "persistence record length exceeds the remaining payload") ;;
  let body := take (Z.to_nat length) rest in
  return_if max_persistence_records limits <? dg_seen d + 1
    with inl (OutcomeCode.REJECT_LIMIT, "persistence record count exceeds the configured limit") ;;
  let '(result, reader) := decode_record kind (dg_meta d) (dg_state d) (byte_reader body) in
  match result with
  | inl error => inl error
  | inr st =>
      inr (drop (Z.to_nat length) rest,
           {| dg_state := st; dg_seen := dg_seen d + 1; dg_meta := dg_meta d || (kind =? kRecordMeta);
              dg_known := dg_known d && rd_known reader |})
  end.

(** Every turn uses up at least six bytes: one unit of fuel per byte is more
    than enough. *)
Fixpoint decode_records (fuel : nat) (payload : list Z) (d : Decoding) : DecodeError + Decoding :=
  match fuel, payload with
  | _, [] => inr d
  | O, _ => inl (OutcomeCode.INTERNAL_ERROR, "")
  | S fuel, _ =>
      match decode_next payload d with
      | inl error => inl error
      | inr (payload, d) => decode_records fuel payload d
      end
  end.

Definition u32_at (bytes : list Z) (at_byte : nat) : Z := le_word (take 4 (drop at_byte bytes)).
Definition u64_at (bytes : list Z) (at_byte : nat) : Z := le_word (take 8 (drop at_byte bytes)).

Definition load_failed (version : Z) (error : DecodeError) : PersistenceLoad :=
  {| ld_code := error.1; ld_detail := error.2; ld_state := router_persistent_state_default;
     ld_has_state := false; ld_format_version := version; ld_record_count := 0 |}.

(** The tests of the header, the lengths and the checksums. *)
Definition check_image (bytes : list Z) : option (Z * DecodeError) :=
  let invalid version detail := Some (version, (OutcomeCode.REJECT_INVALID, detail)) in
  let version := u32_at bytes 8 in
  let payload_bytes := u64_at bytes 24 in
  return_if count bytes <? persistence_header_bytes
    with invalid 0 "persistence image is shorter than its header" ;;
  return_if max_persistence_bytes limits <? count bytes
    with Some (0, (OutcomeCode.REJECT_LIMIT, "persistence image exceeds the configured byte limit")) ;;
  return_if take 8 bytes != persistence_magic with invalid 0 "persistence magic does not match" ;;
  return_if negb (version =? persistence_format_version)
    with invalid version ("unsupported persistence format version " +:+ to_string_int version) ;;
  return_if negb (u32_at bytes 12 =? persistence_header_bytes)
    with invalid version "persistence header size is not the format's header size" ;;
  return_if negb (u32_at bytes 16 =? 0) with invalid version "persistence header carries unknown flags" ;;
  return_if negb (u32_at bytes 36 =? crc32c (take 36 bytes))
    with invalid version "persistence header checksum mismatch" ;;
  return_if max_payload_bytes limits <? payload_bytes
    with Some (version, (OutcomeCode.REJECT_LIMIT, "persistence payload length exceeds the configured limit")) ;;
  let expected := word64 (persistence_header_bytes + payload_bytes) in
  return_if negb (expected =? count bytes)
    with invalid version (if count bytes <? expected then "persistence image is truncated"
                          else "persistence image has trailing garbage") ;;
  return_if negb (crc32c (drop 72 bytes) =? u32_at bytes 32)
    with invalid version "persistence payload checksum mismatch" ;;
  None.

(** The tests after the records have been read. *)
Definition settle_state (bytes : list Z) (d : Decoding) : DecodeError + RouterPersistentState :=
  return_if negb (dg_meta d) with inl (OutcomeCode.REJECT_INVALID, "persistence image has no meta record") ;;
  return_if negb (dg_seen d =? u32_at bytes 20)
    with inl (OutcomeCode.REJECT_INVALID, "persistence record count does not match the header") ;;
  let st := state_canonicalize (dg_state d) in
  let error := state_validate limits st in
  return_if error != "" with inl (OutcomeCode.REJECT_INVALID, error) ;;
  return_if sha256 (canonical_text st) != take 32 (drop 40 bytes)
    with inl (OutcomeCode.REJECT_INVALID, "persistence semantic digest does not match the decoded state") ;;
  inr st.

Definition fresh_decoding : Decoding :=
  {| dg_state := router_persistent_state_default; dg_seen := 0; dg_meta := false; dg_known := true |}.

(** [None]: the image decodes, but to a state with an enumerator outside its
    type, which the program accepts and the model cannot name. *)
Definition decode (bytes : list Z) : option PersistenceLoad :=
  match check_image bytes with
  | Some (version, error) => Some (load_failed version error)
  | None =>
      let version := u32_at bytes 8 in
      let payload := drop 72 bytes in
      match decode_records (length payload) payload fresh_decoding with
      | inl error => Some (load_failed version error)
      | inr d =>
          if negb (dg_known d) then None else
          match settle_state bytes d with
          | inl error => Some (load_failed version error)
          | inr st =>
              Some {| ld_code := OutcomeCode.ACCEPTED; ld_detail := ""; ld_state := st; ld_has_state := true;
                      ld_format_version := version; ld_record_count := u32_at bytes 20 |}
          end
      end
  end.
End Decode.


(** ** Machine ranges *)

Definition model_fits (m : ModelDescriptor) : Prop :=
  Forall is_u64 [
    value (md_model_id m); value (md_model_generation m); value (md_model_version_id m);
    value (md_artifact_generation m); value (md_family_id m); value (md_capability_profile_id m);
    value (md_capability_generation m)] /\
  Forall is_u32 [md_context_limit_tokens m; md_max_output_tokens m; modality_bits (md_input_modalities m);
    modality_bits (md_output_modalities m); md_quality_class m] /\
  Forall in_i64 [md_registered_at m; md_expires_at m] /\ profile_fits (md_capabilities m).

Definition persisted_backend_fits (b : PersistedBackendRecord) : Prop :=
  Forall is_u64 [
    value (pb_backend_id b); value (pb_backend_generation b); value (pb_last_boot b);
    value (pb_last_registration_generation b); value (pb_provider_id b);
    value (pb_provider_generation b); value (pb_endpoint_id b); value (pb_last_endpoint_generation b);
    value (pb_trust_profile_id b); value (pb_trust_generation b); value (pb_capability_profile_id b);
    value (pb_capability_generation b)] /\
  is_u32 (pb_network_distance b) /\ in_i64 (pb_registered_at b) /\ profile_fits (pb_capabilities b) /\
  Forall binding_fits (pb_model_bindings b).

Definition fenced_fits (f : FencedBootRecord) : Prop :=
  Forall is_u64 [value (fb_backend_id f); value (fb_backend_generation f); value (fb_backend_boot f)] /\
  in_i64 (fb_fenced_at f).

Definition persisted_route_fits (r : PersistedRouteRecord) : Prop :=
  Forall is_u64 [
    value (pt_decision_id r); value (pt_decision_generation r); value (pt_request_id r);
    value (pt_request_generation r); value (pt_policy_generation r); value (pt_price_generation r);
    value (pt_budget_generation r); value (pt_slo_generation r)] /\
  in_i64 (pt_created_at r) /\ candidate_key_fits (pt_winner r) /\ Forall candidate_key_fits (pt_fallbacks r) /\
  authority_fits (pt_authority r) /\ cost_fits (pt_cost r).

Definition meta_fits (st : RouterPersistentState) : Prop :=
  Forall is_u64 [
    value (st_router_id st); value (st_router_generation st); value (st_last_router_epoch st);
    value (st_last_coordinator_epoch st); value (st_last_boot st);
    value (st_last_policy_generation st); value (st_last_price_generation st);
    value (st_last_budget_generation st); value (st_last_slo_generation st);
    value (st_last_capability_generation st); value (st_last_model_generation st);
    value (st_last_backend_generation st); pc_highest_identity_issued (st_counters st);
    pc_route_requests (st_counters st); pc_route_decisions (st_counters st);
    pc_dispatches (st_counters st); pc_route_rejections (st_counters st); pc_reroutes (st_counters st);
    pc_fallbacks_taken (st_counters st)] /\
  Forall is_u32 [
    max_models (st_limits st); max_backends (st_limits st); max_route_history (st_limits st);
    max_fallback_candidates (st_limits st); max_explanation_factors (st_limits st);
    max_string_bytes (st_limits st); max_capability_entries_per_backend (st_limits st);
    max_model_bindings_per_backend (st_limits st)] /\
  Forall in_i64 [st_saved_at st; st_last_started_at st].

(** ** Canonical form *)

Lemma model_record_ltb_lex x y :
  lex_ltb [value (md_model_id x); value (md_model_generation x)]
          [value (md_model_id y); value (md_model_generation y)] = model_record_ltb x y.
Proof.
  unfold model_record_ltb, id_ltb. rewrite (lex_step value). simpl.
  repeat (case_match; try done).
Qed.
#[export] Instance model_record_ltb_swb : StrictWeakB model_record_ltb.
Proof.
  apply (swb_proper _ _ model_record_ltb_lex).
  apply (swb_on lex_ltb (fun m => [value (md_model_id m); value (md_model_generation m)])).
Qed.

Lemma fenced_canonical_less_lex x y :
  lex_ltb [value (fb_backend_id x); value (fb_backend_boot x); value (fb_backend_generation x);
           OutcomeCode.index (fb_reason x)]
          [value (fb_backend_id y); value (fb_backend_boot y); value (fb_backend_generation y);
           OutcomeCode.index (fb_reason y)] = fenced_canonical_less x y.
Proof.
  unfold fenced_canonical_less, id_ltb. rewrite !(lex_step value). simpl.
  repeat (case_match; try done).
Qed.
#[export] Instance fenced_canonical_less_swb : StrictWeakB fenced_canonical_less.
Proof.
  apply (swb_proper _ _ fenced_canonical_less_lex).
  apply (swb_on lex_ltb (fun f => [value (fb_backend_id f); value (fb_backend_boot f);
    value (fb_backend_generation f); OutcomeCode.index (fb_reason f)])).
Qed.

#[export] Instance backend_record_ltb_swb : StrictWeakB backend_record_ltb.
Proof. apply (swb_on id_ltb pb_backend_id). Qed.
#[export] Instance binding_ltb_swb : StrictWeakB binding_ltb.
Proof. apply (swb_on id_ltb mb_model_id). Qed.
#[export] Instance route_record_ltb_swb : StrictWeakB route_record_ltb.
Proof. apply (swb_on id_ltb pt_decision_id). Qed.

Lemma stable_sort_idem {A} (ltb : A -> A -> bool) `{!StrictWeakB ltb} l :
  stable_sort ltb (stable_sort ltb l) = stable_sort ltb l.
Proof. by apply stable_sort_id, stable_sort_sorted. Qed.

Lemma sort_bindings_idem b : sort_bindings (sort_bindings b) = sort_bindings b.
Proof. unfold sort_bindings. simpl. by rewrite stable_sort_idem by apply _. Qed.

(** Sorting by a key that a function keeps commutes with applying it. *)
Lemma stable_sort_fmap {A} (ltb : A -> A -> bool) (f : A -> A) l :
  (forall x y, ltb (f x) (f y) = ltb x y) -> stable_sort ltb (f <$> l) = f <$> stable_sort ltb l.
Proof.
  intros Hf. assert (Hinsert : forall x k, sorted_insert ltb (f x) (f <$> k) = f <$> sorted_insert ltb x k).
  { intros x k. induction k as [|y k IH]; [done|]. cbn. rewrite Hf.
    destruct (ltb y x); [|done]. cbn. f_equal. apply IH. }
  induction l as [|x l IH]; [done|]. rewrite fmap_cons. cbn [stable_sort]. by rewrite IH, Hinsert.
Qed.

Lemma canonicalize_twice st : state_canonicalize (state_canonicalize st) = state_canonicalize st.
Proof.
  unfold state_canonicalize. cbn. rewrite !stable_sort_idem by apply _.
  rewrite (stable_sort_fmap backend_record_ltb sort_bindings) by done. rewrite !stable_sort_idem by apply _.
  rewrite <- list_fmap_compose. by rewrite (list_fmap_ext (sort_bindings ∘ sort_bindings) sort_bindings)
    by (intros; apply sort_bindings_idem).
Qed.

(** The canonical form is canonical: canonicalizing again changes nothing, and
    it depends on the order of models, fences and routes only through records
    that compare equal. *)
Theorem state_canonicalize_idem (st : RouterPersistentState) :
  state_canonicalize (state_canonicalize st) = state_canonicalize st.
Proof. apply canonicalize_twice. Qed.

(** ** Layout of the image *)

Section Layout.
Context (records : Z) (payload digest : list Z) (Hdigest : length digest = 32%nat).
Let image := image_of records payload digest.

Lemma image_prefix : take 36 image = header_prefix records (count payload) (crc32c payload).
Proof. reflexivity. Qed.
Lemma image_magic : take 8 image = persistence_magic.
Proof. reflexivity. Qed.
Lemma image_digest : take 32 (drop 40 image) = digest.
Proof. change (drop 40 image) with (digest ++ payload). by rewrite <- Hdigest, take_app_length. Qed.
Lemma image_payload : drop 72 image = payload.
Proof.
  change 72%nat with (40 + 32)%nat. rewrite <- drop_drop. change (drop 40 image) with (digest ++ payload).
  by rewrite <- Hdigest, drop_app_length.
Qed.
Lemma image_u32 at_byte x : take 4 (drop at_byte image) = le_bytes 4 x -> is_u32 x -> u32_at image at_byte = x.
Proof. intros E Hx. unfold u32_at. rewrite E, le_word_bytes. by apply Z.mod_small. Qed.
Lemma image_version : u32_at image 8 = persistence_format_version.
Proof. reflexivity. Qed.
Lemma image_header_size : u32_at image 12 = persistence_header_bytes.
Proof. reflexivity. Qed.
Lemma image_flags : u32_at image 16 = 0.
Proof. reflexivity. Qed.
Lemma image_records : is_u32 records -> u32_at image 20 = records.
Proof. by apply image_u32. Qed.
Lemma image_payload_size : count payload < 2 ^ 64 -> u64_at image 24 = count payload.
Proof.
  intros H. change (u64_at image 24) with (le_word (le_bytes 8 (count payload))). rewrite le_word_bytes.
  apply Z.mod_small. unfold count in *. simpl in *. lia.
Qed.
Lemma image_payload_crc : u32_at image 32 = crc32c payload.
Proof. apply image_u32; [reflexivity|apply crc32c_u32]. Qed.
Lemma image_header_crc : u32_at image 36 = crc32c (header_prefix records (count payload) (crc32c payload)).
Proof. apply image_u32; [reflexivity|apply crc32c_u32]. Qed.
Lemma image_size : count image = persistence_header_bytes + count payload.
Proof.
  unfold count, image, image_of. rewrite !length_app, Hdigest. cbn [length header_prefix le_bytes].
  unfold persistence_header_bytes. simpl length. lia.
Qed.
End Layout.

(** ** What decoding accepts *)

Definition accepts (limits : ResourceLimits) (bytes : list Z) : Prop :=
  exists load, decode limits bytes = Some load /\ load_ok load = true.
Definition refuses (limits : ResourceLimits) (bytes : list Z) : Prop :=
  exists load, decode limits bytes = Some load /\ load_ok load = false.

Lemma load_failed_not_ok version error : load_ok (load_failed version error) = false.
Proof. done. Qed.

Lemma check_refuses limits bytes e : check_image limits bytes = Some e -> refuses limits bytes.
Proof. intros E. unfold refuses, decode. rewrite E. destruct e as [version error]. by eexists. Qed.

Lemma accepts_inv limits bytes :
  accepts limits bytes ->
  check_image limits bytes = None /\ exists d st,
    decode_records limits (length (drop 72 bytes)) (drop 72 bytes) fresh_decoding = inr d /\
    dg_known d = true /\ settle_state limits bytes d = inr st.
Proof.
  intros (load & E & Hok). unfold decode in E. destruct (check_image limits bytes) as [[version error]|]; [by simplify_eq|].
  split; [done|]. destruct (decode_records _ _ _ _) as [error|d]; [by simplify_eq|].
  destruct (dg_known d) eqn:Ek; [|done]. cbn [negb] in E.
  destruct (settle_state limits bytes d) as [error|st] eqn:Es; [by simplify_eq|]. by exists d, st.
Qed.

(** What the header of an image that passes promises. *)
Lemma check_image_None limits bytes :
  check_image limits bytes = None ->
  persistence_header_bytes <= count bytes /\ u32_at bytes 36 = crc32c (take 36 bytes) /\
  word64 (persistence_header_bytes + u64_at bytes 24) = count bytes /\
  crc32c (drop 72 bytes) = u32_at bytes 32.
Proof.
  unfold check_image. cbv zeta. intros H.
  repeat match type of H with (if ?c then _ else _) = None => destruct c eqn:?; [discriminate H|] end.
  repeat match goal with H : negb (_ =? _) = false |- _ => apply negb_false_iff, Z.eqb_eq in H end.
  split_and!; (done || lia).
Qed.

Lemma settle_digest limits bytes d st :
  settle_state limits bytes d = inr st ->
  sha256 (canonical_text (state_canonicalize (dg_state d))) = take 32 (drop 40 bytes).
Proof.
  unfold settle_state. cbv zeta. intros H.
  repeat match type of H with (if ?c then _ else _) = inr _ => destruct c eqn:?; [discriminate H|] end.
  by match goal with H : negb (bool_decide (sha256 _ = _)) = false |- _ => apply negb_false_iff, bool_decide_eq_true in H end.
Qed.

(** Equal beginnings have equal fields. *)
Lemma field_agree (bytes bytes' : list Z) m n k :
  (m + n <= k)%nat -> take k bytes' = take k bytes -> take n (drop m bytes') = take n (drop m bytes).
Proof.
  intros Hk E. rewrite !take_drop_commute. f_equal.
  assert (Hmin : forall l : list Z, take (m + n) l = take (m + n) (take k l)) by (intros l; rewrite take_take; f_equal; lia).
  by rewrite (Hmin bytes'), (Hmin bytes), E.
Qed.

(** Truncation and trailing garbage are refused: the header fixes the length,
    so of all images with the header of an accepted one only those of its very
    length can be accepted. *)
Theorem decode_exact_length (limits : ResourceLimits) (bytes bytes' : list Z)
    (Haccepts : accepts limits bytes) (Hheader : take 40 bytes' = take 40 bytes)
    (Hlength : length bytes' <> length bytes) :
  refuses limits bytes'.
Proof.
  apply accepts_inv in Haccepts as (Hc & _). apply check_image_None in Hc as (_ & _ & Hw & _).
  destruct (check_image limits bytes') as [e|] eqn:E; [by eapply check_refuses|].
  exfalso. apply check_image_None in E as (_ & _ & Hw' & _).
  unfold u64_at in Hw'. rewrite (field_agree bytes bytes' 24 8 40) in Hw' by (done || lia).
  fold (u64_at bytes 24) in Hw'. rewrite Hw in Hw'. unfold count in Hw'. lia.
Qed.

(** A byte inside a field of four. *)
Lemma field_differs pre post b b' at_byte :
  (at_byte <= length pre < at_byte + 4)%nat -> Forall is_byte pre -> Forall is_byte post -> is_byte b -> is_byte b' ->
  u32_at (pre ++ b :: post) at_byte = u32_at (pre ++ b' :: post) at_byte -> b = b'.
Proof.
  intros Hi Hp Hq Hb Hb' E. unfold u32_at in E.
  assert (Hall : forall c, is_byte c -> Forall is_byte (take 4 (drop at_byte (pre ++ c :: post)))).
  { intros c Hc. apply Forall_take, Forall_drop, Forall_app_2; [done|]. by constructor. }
  apply le_word_inj in E; [|by apply Hall|by apply Hall|].
  - rewrite !drop_app_le in E by lia. rewrite !take_app_ge in E by (rewrite length_drop; lia).
    apply app_inv_head in E. rewrite length_drop in E.
    replace (4 - (length pre - at_byte))%nat with (S (3 - (length pre - at_byte))) in E by lia.
    by injection E.
  - rewrite !length_take, !length_drop, !length_app. simpl. lia.
Qed.

Lemma crc_differs pre post b b' :
  Forall is_byte pre -> Forall is_byte post -> is_byte b -> is_byte b' -> b <> b' ->
  crc32c (pre ++ b :: post) <> crc32c (pre ++ b' :: post).
Proof.
  intros Hp Hq Hb Hb' Hne. apply (crc32c_burst pre [b] [b'] post); try done.
  - by constructor.
  - by constructor.
  - simpl. lia.
  - congruence.
Qed.

Section Corruption.
Context (limits : ResourceLimits) (pre post : list Z) (b b' : Z).
Context (Hpre : Forall is_byte pre) (Hpost : Forall is_byte post) (Hb : is_byte b) (Hb' : is_byte b').
Context (Hdiffer : b <> b').
Let good := pre ++ b :: post.
Let bad := pre ++ b' :: post.

Lemma before_change n : (n <= length pre)%nat -> take n bad = take n good.
Proof. intros Hn. unfold good, bad. by rewrite !take_app_le by done. Qed.

Lemma after_change n : (length pre < n)%nat -> drop n bad = drop n good.
Proof.
  intros Hn. unfold good, bad. rewrite !drop_app_ge by lia.
  by replace (n - length pre)%nat with (S (n - length pre - 1)) by lia.
Qed.

Lemma change_in_prefix n : (length pre < n)%nat -> crc32c (take n good) <> crc32c (take n bad).
Proof.
  intros Hn. unfold good, bad. rewrite !take_app_ge by lia.
  replace (n - length pre)%nat with (S (n - length pre - 1)) by lia. cbn [take].
  apply crc_differs; try done. by apply Forall_take.
Qed.

Lemma change_in_suffix n : (n <= length pre)%nat -> crc32c (drop n good) <> crc32c (drop n bad).
Proof.
  intros Hn. unfold good, bad. rewrite !drop_app_le by lia.
  apply crc_differs; try done. by apply Forall_drop.
Qed.

(** In the header's first fields, or in the checksum of the header. *)
Lemma header_change : (length pre < 40)%nat -> check_image limits good = None -> check_image limits bad <> None.
Proof.
  intros Hn (_ & Hc & _)%check_image_None (_ & Hc' & _)%check_image_None.
  destruct (decide (length pre < 36)%nat).
  - apply (change_in_prefix 36); [done|]. unfold u32_at in Hc, Hc'.
    rewrite after_change in Hc' by done. congruence.
  - rewrite before_change in Hc' by lia. apply Hdiffer.
    apply (field_differs pre post b b' 36); [lia|done..|]. fold good bad. congruence.
Qed.

(** In the digest: the records decode as before, to a state with another one. *)
Lemma digest_change d st :
  (40 <= length pre < 72)%nat -> settle_state limits good d = inr st -> exists e, settle_state limits bad d = inl e.
Proof.
  intros Hn Hs%settle_digest. destruct (settle_state limits bad d) as [e|st'] eqn:E; [by exists e|].
  apply settle_digest in E. exfalso. rewrite E in Hs. unfold good, bad in Hs.
  rewrite !drop_app_le in Hs by lia. rewrite !take_app_ge in Hs by (rewrite length_drop; lia).
  apply app_inv_head in Hs. rewrite length_drop in Hs.
  replace (32 - (length pre - 40))%nat with (S (31 - (length pre - 40))) in Hs by lia.
  by injection Hs.
Qed.

Lemma payload_change : (72 <= length pre)%nat -> check_image limits good = None -> check_image limits bad <> None.
Proof.
  intros Hn (_ & _ & _ & Hc)%check_image_None (_ & _ & _ & Hc')%check_image_None.
  apply (change_in_suffix 72); [done|]. rewrite Hc, Hc'. unfold u32_at. f_equal. symmetry.
  apply (field_agree good bad 32 4 72); [lia|]. by apply before_change.
Qed.

Lemma change_refused : accepts limits good -> refuses limits bad.
Proof.
  intros (Hc & d & st & Hr & Hk & Hs)%accepts_inv.
  destruct (check_image limits bad) as [e|] eqn:E; [by eapply check_refuses|].
  destruct (decide (length pre < 40)%nat); [by destruct header_change|].
  destruct (decide (72 <= length pre)%nat); [by destruct payload_change|].
  destruct (digest_change d st) as [e He]; [lia|done|].
  unfold refuses, decode. rewrite E, after_change, Hr, Hk by lia. cbn [negb].
  rewrite He. by eexists.
Qed.
End Corruption.

(** C19: Every single-byte corruption of an accepted image is refused, wherever it
    strikes: in the header, in one of the checksums, in the digest or in the
    payload. *)
Theorem decode_detects_corruption (limits : ResourceLimits) (pre post : list Z) (b b' : Z)
    (Hbytes : Forall is_byte (pre ++ b :: post)) (Hb' : is_byte b') (Hdiffer : b <> b')
    (Haccepts : accepts limits (pre ++ b :: post)) :
  refuses limits (pre ++ b' :: post).
Proof.
  apply Forall_app in Hbytes as [Hpre [Hb Hpost]%Forall_cons]. by apply (change_refused limits pre post b b').
Qed.
