(* ===== verification/PersistRoundTrip.v ===== *)
(** * Saving and loading the durable state ([persistence.cpp])

    The round trip of the image: what [encode] writes [decode] reads back, up to
    what the format does not carry. *)
From S2P Require Import Prelude Bytes Ids Sha256 Outcome Limits Clock Crc32c Codec Capability Evidence.
From S2P Require Import Catalog Candidate Authority Decision RouterState PersistRecords Persistence.

(** The eight limits that travel with the file. *)
Definition durable_limits (from into : ResourceLimits) : ResourceLimits :=
  into
  <| max_models := max_models from |>
  <| max_backends := max_backends from |>
  <| max_route_history := max_route_history from |>
  <| max_fallback_candidates := max_fallback_candidates from |>
  <| max_explanation_factors := max_explanation_factors from |>
  <| max_string_bytes := max_string_bytes from |>
  <| max_capability_entries_per_backend := max_capability_entries_per_backend from |>
  <| max_model_bindings_per_backend := max_model_bindings_per_backend from |>.

(** What the meta record carries over. *)
Definition with_meta (from into : RouterPersistentState) : RouterPersistentState := {|
  st_router_id := st_router_id from; st_router_generation := st_router_generation from;
  st_last_router_epoch := st_last_router_epoch from;
  st_last_coordinator_epoch := st_last_coordinator_epoch from; st_last_boot := st_last_boot from;
  st_limits := durable_limits (st_limits from) (st_limits into); st_weights := st_weights into;
  st_last_policy_generation := st_last_policy_generation from;
  st_last_price_generation := st_last_price_generation from;
  st_last_budget_generation := st_last_budget_generation from;
  st_last_slo_generation := st_last_slo_generation from;
  st_last_capability_generation := st_last_capability_generation from;
  st_last_model_generation := st_last_model_generation from;
  st_last_backend_generation := st_last_backend_generation from; st_models := st_models into;
  st_backends := st_backends into; st_fenced_boots := st_fenced_boots into;
  st_routes := st_routes into; st_counters := st_counters from; st_saved_at := st_saved_at from;
  st_last_started_at := st_last_started_at from |}.

Section Records.
Context (limits : ResourceLimits) (Hstrings : is_u32 (max_string_bytes limits)).
Context (Hclaims : is_u32 (max_capability_entries limits)).

Lemma codec_meta st into : meta_fits st -> codec (write_meta st) (read_meta into) (with_meta st into).
Proof.
  intros H. unfold meta_fits in H. fit_hypotheses. unfold write_meta, read_meta. repeat codec_step.
  apply codec_nil. unfold with_meta, durable_limits. by destruct (st_counters st).
Qed.

Lemma codec_or_reject {A B} put block (get : Get (option A)) e (k : A -> Get (DecodeError + B)) a b :
  codec put get (Some a) -> codec (in_order block) (k a) b ->
  codec (in_order (put :: block)) (or_reject get e k) b.
Proof. intros H1 H2. unfold or_reject. by eapply codec_cons. Qed.

Lemma codec_model m :
  model_fits m -> count (profile_entries (md_capabilities m)) <= max_capability_entries limits ->
  codec (write_model limits m) (read_model limits) (inr m).
Proof.
  intros H Hn. unfold model_fits in H. fit_hypotheses. unfold write_model, read_model. repeat codec_step.
  eapply codec_or_reject; [by apply codec_profile|]. repeat codec_step. apply codec_nil.
  by destruct m as [???????[][]].
Qed.

Lemma codec_list_count {A} (l : list A) bound :
  count l <= bound -> is_u32 bound -> codec (put_u32 (size32 l)) get_u32 (count l).
Proof. intros H Hb. apply codec_size32. unfold count, is_u32, u32_max in *. lia. Qed.

Lemma codec_backend b :
  persisted_backend_fits b -> count (profile_entries (pb_capabilities b)) <= max_capability_entries limits ->
  count (pb_model_bindings b) <= max_model_bindings_per_backend limits ->
  is_u32 (max_model_bindings_per_backend limits) ->
  codec (write_backend limits b) (read_backend limits) (inr b).
Proof.
  intros H Hn Hm Hu. unfold persisted_backend_fits in H. fit_hypotheses.
  unfold write_backend, read_backend. repeat codec_step.
  eapply codec_or_reject; [by apply codec_profile|].
  eapply codec_cons; [by eapply codec_list_count|].
  destruct (Z.ltb_spec (max_model_bindings_per_backend limits) (count (pb_model_bindings b))); [lia|].
  unfold count at 1. rewrite Nat2Z.id. eapply codec_or_reject.
  { apply codec_each_or_fail. eapply Forall_impl; [eassumption|]. intros binding. by apply codec_binding. }
  repeat codec_step. apply codec_nil. by destruct b as [???????????[]].
Qed.

Lemma codec_fenced f : fenced_fits f -> codec (write_fenced f) read_fenced (inr f).
Proof.
  intros H. unfold fenced_fits in H. fit_hypotheses. unfold write_fenced, read_fenced. repeat codec_step.
  apply codec_nil. by destruct f.
Qed.

Lemma codec_route r :
  persisted_route_fits r -> count (pt_fallbacks r) <= max_fallback_candidates limits ->
  is_u32 (max_fallback_candidates limits) ->
  codec (write_route limits r) (read_route limits) (inr r).
Proof.
  intros H Hn Hu. unfold persisted_route_fits in H. fit_hypotheses. unfold write_route, read_route.
  repeat codec_step. eapply codec_cons; [by apply codec_candidate_key|].
  eapply codec_cons; [by eapply codec_list_count|].
  destruct (Z.ltb_spec (max_fallback_candidates limits) (count (pt_fallbacks r))); [lia|].
  unfold count at 1. rewrite Nat2Z.id. eapply codec_cons.
  { apply codec_each. eapply Forall_impl; [eassumption|]. intros key. by apply codec_candidate_key. }
  eapply codec_cons; [by apply codec_authority|]. repeat codec_step.
  eapply codec_or_reject; [by apply codec_cost|]. repeat codec_step. apply codec_nil. by destruct r.
Qed.
End Records.

(** ** One record, and a run of records *)

(** A body that was written whole is read whole. *)
Lemma closed_codec {A} detail put (get : Get (DecodeError + A)) a w :
  codec put get (inr a) -> put byte_writer = w -> wr_ok w = true ->
  closed detail get (byte_reader (wr_bytes w)) = (inr a, reading []) /\
  Forall is_byte (wr_bytes w).
Proof.
  intros H <- Hw. destruct (H byte_writer Hw) as (_ & bytes & E & B & G). cbn in E. rewrite E.
  split; [|done]. specialize (G []). rewrite app_nil_r in G. unfold closed, byte_reader, mbind, get_bind.
  by rewrite G.
Qed.

Lemma record_bytes_length kind body : length (record_bytes kind body) = (6 + length body)%nat.
Proof. done. Qed.

Section Runs.
Context (limits : ResourceLimits).

(** From here on the loop continues with [d']. *)
Definition decode_all (payload : list Z) (d : Decoding) : DecodeError + Decoding :=
  decode_records limits (length payload) payload d.
Definition run_of (bytes : list Z) (d d' : Decoding) : Prop :=
  forall rest, decode_all (bytes ++ rest) d = decode_all rest d'.

Lemma decode_next_shorter payload d payload' d' :
  decode_next limits payload d = inr (payload', d') -> (length payload' < length payload)%nat.
Proof.
  unfold decode_next. cbv zeta. intros H.
  destruct (Z.ltb_spec (count payload) 6) as [|Hl]; [discriminate H|].
  destruct (count (drop 6 payload) <? _); [discriminate H|].
  destruct (max_persistence_records limits <? _); [discriminate H|].
  destruct (decode_record _ _ _ _ _) as [[error|st] reader]; [discriminate H|].
  injection H as <- _. rewrite !length_drop. unfold count in Hl. lia.
Qed.

Lemma decode_records_fuel fuel payload d :
  (length payload <= fuel)%nat -> decode_records limits fuel payload d = decode_all payload d.
Proof.
  unfold decode_all. remember (length payload) as n eqn:En. assert (Hn : (length payload <= n)%nat) by lia.
  clear En. revert fuel payload d Hn. induction n as [|n IH]; intros fuel payload d Hn Hf.
  { destruct payload; [|simpl in Hn; lia]. by destruct fuel. }
  destruct payload as [|b payload]; [by destruct fuel|]. destruct fuel as [|fuel]; [lia|]. cbn [decode_records].
  destruct (decode_next limits (b :: payload) d) as [error|[payload' d']] eqn:E; [done|].
  apply decode_next_shorter in E. rewrite !IH by lia. done.
Qed.

(** The loop [while (offset < payload.size())] of the decoder, without fuel:
    [loops payload d r] when its turns lead from [payload] and [d] to [r]. *)
Inductive loops : list Z -> Decoding -> DecodeError + Decoding -> Prop :=
| loops_end d : loops [] d (inr d)
| loops_refused b payload d error :
    decode_next limits (b :: payload) d = inl error -> loops (b :: payload) d (inl error)
| loops_turn b payload d payload' d' r :
    decode_next limits (b :: payload) d = inr (payload', d') -> loops payload' d' r ->
    loops (b :: payload) d r.

Lemma decode_records_loops fuel payload d :
  (length payload <= fuel)%nat -> loops payload d (decode_records limits fuel payload d).
Proof.
  revert payload d. induction fuel as [|fuel IH]; intros [|b payload] d Hf; cbn [decode_records];
    try apply loops_end; [simpl in Hf; lia|].
  destruct (decode_next limits (b :: payload) d) as [error|[payload' d']] eqn:E; [by apply loops_refused|].
  eapply loops_turn, IH; [exact E|]. apply decode_next_shorter in E. simpl in Hf, E. lia.
Qed.

(** C36: The loop that decodes the records of an image ends on every payload,
    with the result of its turns and no other: one unit of fuel per byte is
    enough, and more changes nothing. *)
Theorem decode_loop_terminates (payload : list Z) (d : Decoding) :
  loops payload d (decode_all payload d) /\
  (forall more, decode_records limits (length payload + more)%nat payload d = decode_all payload d) /\
  (forall r, loops payload d r -> r = decode_all payload d).
Proof.
  split; [by apply decode_records_loops|]. split; [intros more; apply decode_records_fuel; lia|].
  intros r H. induction H as [d|b payload d error E|b payload d payload' d' r E _ ->].
  - reflexivity.
  - unfold decode_all. cbn [length decode_records]. by rewrite E.
  - unfold decode_all at 2. cbn [length decode_records]. rewrite E. symmetry. apply decode_records_fuel.
    apply decode_next_shorter in E. simpl in E. lia.
Qed.

Lemma run_nil d : run_of [] d d.
Proof. done. Qed.

Lemma run_app bytes bytes' d d' d'' : run_of bytes d d' -> run_of bytes' d' d'' -> run_of (bytes ++ bytes') d d''.
Proof. intros H H' rest. by rewrite <- app_assoc, H. Qed.

Lemma decode_records_cons fuel payload d payload' d' :
  decode_next limits payload d = inr (payload', d') ->
  (length payload' <= fuel)%nat -> (0 < length payload <= S fuel)%nat ->
  decode_all payload d = decode_all payload' d'.
Proof.
  intros E Hf Hp. rewrite <- (decode_records_fuel (S fuel)) by lia.
  destruct payload as [|b payload]; [simpl in Hp; lia|]. cbn [decode_records]. rewrite E.
  by apply decode_records_fuel.
Qed.

Lemma run_eq bytes d d' d'' : run_of bytes d d' -> d' = d'' -> run_of bytes d d''.
Proof. by intros H <-. Qed.

(** One turn of the loop on a record that decodes. *)
Lemma run_record kind body d st :
  0 <= kind < 65536 -> count body <= u32_max -> dg_seen d + 1 <= max_persistence_records limits ->
  decode_record limits kind (dg_meta d) (dg_state d) (byte_reader body) = (inr st, reading []) ->
  run_of (record_bytes kind body) d
    {| dg_state := st; dg_seen := dg_seen d + 1; dg_meta := dg_meta d || (kind =? kRecordMeta);
       dg_known := dg_known d |}.
Proof.
  intros Hk Hb Hs Hd rest.
  assert (E : record_bytes kind body ++ rest =
              le_bytes 2 kind ++ le_bytes 4 (count body) ++ (body ++ rest)).
  { unfold record_bytes, record_header. rewrite size32_id by done. by rewrite <- !app_assoc. }
  rewrite E. set (payload := le_bytes 2 kind ++ _).
  assert (Hnext : decode_next limits payload d = inr (rest,
    {| dg_state := st; dg_seen := dg_seen d + 1; dg_meta := dg_meta d || (kind =? kRecordMeta);
       dg_known := dg_known d |})).
  { unfold decode_next. cbv zeta.
    assert (E1 : le_word (take 2 payload) = kind).
    { change (take 2 payload) with (le_bytes 2 kind). rewrite le_word_bytes. by apply Z.mod_small. }
    assert (E2 : le_word (take 4 (drop 2 payload)) = count body).
    { change (take 4 (drop 2 payload)) with (le_bytes 4 (count body)). rewrite le_word_bytes.
      apply Z.mod_small. unfold u32_max, count in *. simpl. lia. }
    assert (E3 : drop 6 payload = body ++ rest) by done.
    rewrite E1, E2, E3.
    destruct (Z.ltb_spec (count payload) 6) as [H|_].
    { unfold count, payload in H. simpl length in H. lia. }
    destruct (Z.ltb_spec (count (body ++ rest)) (count body)) as [H|_].
    { unfold count in H. rewrite length_app in H. lia. }
    destruct (Z.ltb_spec (max_persistence_records limits) (dg_seen d + 1)); [lia|].
    unfold count at 1 2. rewrite Nat2Z.id, take_app_length, Hd, drop_app_length. cbn [rd_known].
    by rewrite andb_true_r. }
  eapply (decode_records_cons (length payload)); [exact Hnext| |]; unfold payload; simpl length;
    rewrite ?length_app; lia.
Qed.

Lemma encode_record_Some kind put bytes :
  encode_record kind put = Some bytes ->
  wr_ok (put byte_writer) = true /\ bytes = record_bytes kind (wr_bytes (put byte_writer)).
Proof. unfold encode_record. cbv zeta. destruct (wr_ok (put byte_writer)); [|done]. by intros [= <-]. Qed.

(** A whole kind: each record goes through the same case of the switch. *)
Lemma run_all {A} kind put (get : Get (DecodeError + A)) detail (add : RouterPersistentState -> A -> RouterPersistentState)
    l bytes d :
  0 <= kind < 65536 -> kind <> kRecordMeta -> count bytes <= u32_max ->
  dg_seen d + count l <= max_persistence_records limits ->
  (forall have st a r, closed detail get r = (inr a, reading []) ->
     decode_record limits kind have st r = (inr (add st a), reading [])) ->
  Forall (fun a => codec (put a) get (inr a)) l ->
  encode_all kind put l = Some bytes ->
  run_of bytes d {| dg_state := fold_left add l (dg_state d); dg_seen := dg_seen d + count l;
                    dg_meta := dg_meta d; dg_known := dg_known d |}.
Proof.
  intros Hk Hm Hb Hs Hcase Hl. revert bytes d Hb Hs. induction Hl as [|a l Ha _ IH]; intros bytes d Hb Hs E.
  - simpl in E. injection E as <-. unfold count. simpl. rewrite Z.add_0_r. by destruct d.
  - cbn [encode_all] in E. destruct (encode_record kind (put a)) as [first|] eqn:Ef; [|done].
    destruct (encode_all kind put l) as [rest|] eqn:El; [|done].
    apply encode_record_Some in Ef as [Ew ->]. apply (inj Some) in E as <-.
    destruct (closed_codec detail (put a) get a _ Ha eq_refl Ew) as [Hc _].
    assert (Hsize : count (a :: l) = 1 + count l) by (unfold count; simpl length; lia).
    unfold count in Hb. rewrite length_app, record_bytes_length in Hb.
    eapply run_app.
    + apply (run_record kind _ d (add (dg_state d) a)); [done|unfold count; lia|unfold count in *; lia|].
      by apply Hcase.
    + assert ((kind =? kRecordMeta) = false) as -> by by apply Z.eqb_neq. rewrite orb_false_r.
      rewrite Hsize, Z.add_assoc. cbn [fold_left].
      apply (IH rest {| dg_state := add (dg_state d) a; dg_seen := dg_seen d + 1; dg_meta := dg_meta d;
        dg_known := dg_known d |}); [unfold count; lia|cbn; lia|done].
Qed.
End Runs.

(** ** The whole image *)

(** What is asked of a state whose image is to be read back: its fields are
    within their machine types, claims are in canonical order, and the counts
    that only the reader checks are within its limits. *)
Record image_conditions (limits : ResourceLimits) (st : RouterPersistentState) : Prop := {
  ic_limits : Forall is_u32 [max_string_bytes limits; max_capability_entries limits;
    max_model_bindings_per_backend limits; max_fallback_candidates limits; max_payload_bytes limits;
    max_persistence_records limits];
  ic_meta : meta_fits st;
  ic_models : Forall (fun m => model_fits m /\
    count (profile_entries (md_capabilities m)) <= max_capability_entries limits) (st_models st);
  ic_backends : Forall (fun b => persisted_backend_fits b /\
    count (profile_entries (pb_capabilities b)) <= max_capability_entries limits) (st_backends st);
  ic_fenced : Forall fenced_fits (st_fenced_boots st);
  ic_routes : Forall (fun r => persisted_route_fits r /\
    count (pt_fallbacks r) <= max_fallback_candidates limits) (st_routes st)
}.

(** What comes back: the canonical state, with the ranking weights and the other
    limits as a fresh state has them. *)
Definition restored (st : RouterPersistentState) : RouterPersistentState :=
  let c := state_canonicalize st in
  with_meta c router_persistent_state_default
    <| st_models := st_models c |> <| st_backends := st_backends c |>
    <| st_fenced_boots := st_fenced_boots c |> <| st_routes := st_routes c |>.

Lemma canonicalize_conditions limits st : image_conditions limits st -> image_conditions limits (state_canonicalize st).
Proof.
  intros [H1 H2 H3 H4 H5 H6]. split; cbn; try done; rewrite ?stable_sort_perm; try done.
  apply Forall_fmap. eapply Forall_impl; [exact H4|]. intros b [Hb Hn].
  split; [|done]. unfold persisted_backend_fits in *. cbn. rewrite stable_sort_perm. exact Hb.
Qed.

Lemma first_error_Forall {A} (check : A -> string) l : first_error check l = "" -> Forall (fun x => check x = "") l.
Proof.
  induction l as [|x l IH]; simpl; [constructor|]. intros E. case_bool_decide as Ec; [|done].
  constructor; [done|by apply IH].
Qed.

Lemma or_else_nothing e next : or_else e next = "" -> e = "" /\ next = "".
Proof. unfold or_else. case_bool_decide; [done|]. simpl. by intros. Qed.

(** A coherent state has every binding list within the limit. *)
Lemma validate_bindings limits st :
  state_validate limits st = "" ->
  Forall (fun b => count (pb_model_bindings b) <= max_model_bindings_per_backend limits) (st_backends st).
Proof.
  unfold state_validate. cbv zeta. intros H.
  repeat match type of H with (if ?c then _ else _) = "" => destruct c eqn:?; [try discriminate H|] end.
  all: try (by rewrite H in *). 
  apply or_else_nothing in H as [_ [H%first_error_Forall _]%or_else_nothing].
  eapply Forall_impl; [exact H|]. intros b Hb. unfold check_backend in Hb.
  destruct (_ || _); [discriminate Hb|].
  destruct (Z.ltb_spec (max_model_bindings_per_backend limits) (count (pb_model_bindings b))); [discriminate Hb|done].
Qed.

(** Each kind appends to its list. *)
Definition add_model (st : RouterPersistentState) (m : ModelDescriptor) : RouterPersistentState :=
  st <| st_models := st_models st ++ [m] |>.
Definition add_backend (st : RouterPersistentState) (b : PersistedBackendRecord) : RouterPersistentState :=
  st <| st_backends := st_backends st ++ [b] |>.
Definition add_fenced (st : RouterPersistentState) (f : FencedBootRecord) : RouterPersistentState :=
  st <| st_fenced_boots := st_fenced_boots st ++ [f] |>.
Definition add_route (st : RouterPersistentState) (r : PersistedRouteRecord) : RouterPersistentState :=
  st <| st_routes := st_routes st ++ [r] |>.

Lemma fold_add {A} (add : RouterPersistentState -> A -> RouterPersistentState)
    (into : RouterPersistentState -> list A -> RouterPersistentState) l :
  (forall st, into st [] = st) -> (forall st a l, into (add st a) l = into st (a :: l)) ->
  forall st, fold_left add l st = into st l.
Proof. intros H0 H1. induction l as [|a l IH]; intros st; simpl; [by rewrite H0|]. by rewrite IH, H1. Qed.

Lemma fold_add_model l st : fold_left add_model l st = st <| st_models := st_models st ++ l |>.
Proof.
  apply (fold_add _ (fun st l => st <| st_models := st_models st ++ l |>)).
  - intros []. cbn. by rewrite app_nil_r.
  - intros [] a k. unfold add_model. cbn. by rewrite <- app_assoc.
Qed.
Lemma fold_add_backend l st : fold_left add_backend l st = st <| st_backends := st_backends st ++ l |>.
Proof.
  apply (fold_add _ (fun st l => st <| st_backends := st_backends st ++ l |>)).
  - intros []. cbn. by rewrite app_nil_r.
  - intros [] a k. unfold add_backend. cbn. by rewrite <- app_assoc.
Qed.
Lemma fold_add_fenced l st : fold_left add_fenced l st = st <| st_fenced_boots := st_fenced_boots st ++ l |>.
Proof.
  apply (fold_add _ (fun st l => st <| st_fenced_boots := st_fenced_boots st ++ l |>)).
  - intros []. cbn. by rewrite app_nil_r.
  - intros [] a k. unfold add_fenced. cbn. by rewrite <- app_assoc.
Qed.
Lemma fold_add_route l st : fold_left add_route l st = st <| st_routes := st_routes st ++ l |>.
Proof.
  apply (fold_add _ (fun st l => st <| st_routes := st_routes st ++ l |>)).
  - intros []. cbn. by rewrite app_nil_r.
  - intros [] a k. unfold add_route. cbn. by rewrite <- app_assoc.
Qed.

Lemma restored_fold st :
  let c := state_canonicalize st in
  fold_left add_route (st_routes c) (fold_left add_fenced (st_fenced_boots c)
    (fold_left add_backend (st_backends c) (fold_left add_model (st_models c)
      (with_meta c router_persistent_state_default)))) = restored st.
Proof. cbv zeta. by rewrite fold_add_model, fold_add_backend, fold_add_fenced, fold_add_route. Qed.

Lemma decode_meta limits s r s' r' :
  read_meta s r = (s', r') -> decode_record limits kRecordMeta false s r = (inr s', r').
Proof. intros H. unfold decode_record, mbind, get_bind. cbn -[read_meta]. by rewrite H. Qed.

Lemma decode_model limits have s a r r' :
  closed "persistence model record is malformed" (read_model limits) r = (inr a, r') ->
  decode_record limits kRecordModel have s r = (inr (add_model s a), r').
Proof. intros H. unfold decode_record, mbind, get_bind. cbn -[closed read_model]. by rewrite H. Qed.
Lemma decode_backend limits have s a r r' :
  closed "persistence backend record is malformed" (read_backend limits) r = (inr a, r') ->
  decode_record limits kRecordBackend have s r = (inr (add_backend s a), r').
Proof. intros H. unfold decode_record, mbind, get_bind. cbn -[closed read_backend]. by rewrite H. Qed.
Lemma decode_fenced limits have s a r r' :
  closed "persistence fenced record is malformed" read_fenced r = (inr a, r') ->
  decode_record limits kRecordFenced have s r = (inr (add_fenced s a), r').
Proof. intros H. unfold decode_record, mbind, get_bind. cbn -[closed read_fenced]. by rewrite H. Qed.
Lemma decode_route limits have s a r r' :
  closed "persistence route record is malformed" (read_route limits) r = (inr a, r') ->
  decode_record limits kRecordRoute have s r = (inr (add_route s a), r').
Proof. intros H. unfold decode_record, mbind, get_bind. cbn -[closed read_route]. by rewrite H. Qed.

(** A payload is its records, kind after kind. *)
Lemma encode_payload_records limits st payload :
  encode_payload limits st = inr payload -> exists meta models backends fenced routes,
  payload = meta ++ models ++ backends ++ fenced ++ routes /\
  encode_record kRecordMeta (write_meta st) = Some meta /\
  encode_all kRecordModel (write_model limits) (st_models st) = Some models /\
  encode_all kRecordBackend (write_backend limits) (st_backends st) = Some backends /\
  encode_all kRecordFenced write_fenced (st_fenced_boots st) = Some fenced /\
  encode_all kRecordRoute (write_route limits) (st_routes st) = Some routes.
Proof.
  unfold encode_payload.
  destruct (encode_record kRecordMeta _) as [meta|]; [|done].
  destruct (encode_all kRecordModel _ _) as [models|]; [|done].
  destruct (encode_all kRecordBackend _ _) as [backends|]; [|done].
  destruct (encode_all kRecordFenced _ _) as [fenced|]; [|done].
  destruct (encode_all kRecordRoute _ _) as [routes|]; [|done].
  intros E. apply (inj inr) in E as <-. by exists meta, models, backends, fenced, routes.
Qed.

Section Whole.
Context (limits : ResourceLimits) (st : RouterPersistentState) (Hst : image_conditions limits st).
Let c := state_canonicalize st.
Context (Hvalid : state_validate limits c = "").

(** The loop reads back the meta record. *)
Lemma run_meta bytes :
  meta_fits c -> encode_record kRecordMeta (write_meta c) = Some bytes -> count bytes <= u32_max ->
  1 <= max_persistence_records limits ->
  run_of limits bytes fresh_decoding
    {| dg_state := with_meta c router_persistent_state_default; dg_seen := 1; dg_meta := true; dg_known := true |}.
Proof.
  intros Hmeta [Ew ->]%encode_record_Some Hsize Hn.
  destruct (codec_meta c router_persistent_state_default Hmeta byte_writer Ew) as (_ & body & Eb & _ & G).
  specialize (G []). rewrite app_nil_r in G. change (wr_bytes byte_writer) with (@nil Z) in Eb. rewrite app_nil_l in Eb.
  unfold count in Hsize. rewrite record_bytes_length in Hsize.
  refine (run_record limits kRecordMeta _ fresh_decoding (with_meta c router_persistent_state_default) _ _ Hn _).
  - done.
  - unfold count. lia.
  - rewrite Eb. by apply decode_meta.
Qed.

(** The loop reads back every record of the payload. *)
Lemma decode_payload payload :
  encode_payload limits c = inr payload -> count payload <= u32_max ->
  record_count c <= max_persistence_records limits ->
  decode_all limits payload fresh_decoding =
  inr {| dg_state := restored st; dg_seen := record_count c; dg_meta := true; dg_known := true |}.
Proof.
  intros E Hsize Hcount. destruct (canonicalize_conditions limits st Hst) as [Hl Hmeta Hm Hb Hf Hr]. fold c in Hmeta, Hm, Hb, Hf, Hr.
  fit_hypotheses. apply encode_payload_records in E as (meta & models & backends & fenced & routes & -> & E0 & E1 & E2 & E3 & E4).
  unfold count in Hsize. rewrite !length_app in Hsize.
  assert (Hrun : forall rest, decode_all limits ((meta ++ models ++ backends ++ fenced ++ routes) ++ rest) fresh_decoding =
    decode_all limits rest {| dg_state := restored st; dg_seen := record_count c; dg_meta := true; dg_known := true |}).
  { unfold record_count, count in *.
    eapply run_app; [|eapply run_app; [|eapply run_app; [|eapply run_app]]].
    - apply run_meta; [done|exact E0|unfold count; lia|lia].
    - eapply (run_all limits kRecordModel _ (read_model limits) _ add_model (st_models c)); [done|done|unfold count; lia|cbn [dg_seen fresh_decoding]; unfold count; lia| | |exact E1].
      + intros have s a r. apply decode_model.
      + eapply Forall_impl; [exact Hm|]. intros m [? ?]. by apply codec_model.
    - eapply (run_all limits kRecordBackend _ (read_backend limits) _ add_backend (st_backends c)); [done|done|unfold count; lia|cbn [dg_seen fresh_decoding]; unfold count; lia| | |exact E2].
      + intros have s a r. apply decode_backend.
      + pose proof (validate_bindings limits c Hvalid) as Hv. eapply Forall_impl; [apply Forall_and; split; [exact Hb|exact Hv]|].
        intros b [[? ?] ?]. by apply codec_backend.
    - eapply (run_all limits kRecordFenced _ read_fenced _ add_fenced (st_fenced_boots c)); [done|done|unfold count; lia|cbn [dg_seen fresh_decoding]; unfold count; lia| | |exact E3].
      + intros have s a r. apply decode_fenced.
      + eapply Forall_impl; [exact Hf|]. intros f ?. by apply codec_fenced.
    - eapply run_eq; [eapply (run_all limits kRecordRoute _ (read_route limits) _ add_route (st_routes c)); [done|done|unfold count; lia|cbn [dg_seen fresh_decoding]; unfold count; lia| | |exact E4]|].
      + intros have s a r. apply decode_route.
      + eapply Forall_impl; [exact Hr|]. intros r [? ?]. by apply codec_route.
      + cbn [dg_state dg_seen dg_meta dg_known fresh_decoding].
        pose proof (restored_fold st) as Hfold. cbv zeta in Hfold. fold c in Hfold. rewrite Hfold. f_equal; lia. }
  specialize (Hrun []). by rewrite app_nil_r in Hrun.
Qed.
End Whole.

(** ** The round trip *)

#[local] Opaque sha256 crc32c.

(** The digest covers nothing of what the format leaves out. *)
Lemma canonical_text_ext s s' :
  st_router_id s = st_router_id s' -> st_router_generation s = st_router_generation s' ->
  st_last_router_epoch s = st_last_router_epoch s' -> st_last_coordinator_epoch s = st_last_coordinator_epoch s' ->
  st_last_boot s = st_last_boot s' -> st_saved_at s = st_saved_at s' -> st_counters s = st_counters s' ->
  st_models s = st_models s' -> st_backends s = st_backends s' -> st_fenced_boots s = st_fenced_boots s' ->
  st_routes s = st_routes s' -> canonical_text s = canonical_text s'.
Proof. intros H1 H2 H3 H4 H5 H6 H7 H8 H9 H10 H11. unfold canonical_text. by rewrite H1, H2, H3, H4, H5, H6, H7, H8, H9, H10, H11. Qed.

Lemma restored_text st : canonical_text (restored st) = canonical_text (state_canonicalize st).
Proof. by apply canonical_text_ext. Qed.

Lemma restored_canonical st : state_canonicalize (restored st) = restored st.
Proof.
  pose proof (canonicalize_twice st) as H. unfold restored. revert H. generalize (state_canonicalize st). intros c H.
  apply (f_equal st_models) in H as H1. apply (f_equal st_backends) in H as H2.
  apply (f_equal st_fenced_boots) in H as H3. apply (f_equal st_routes) in H as H4. clear H.
  unfold state_canonicalize in *. cbn in *. by rewrite H1, H2, H3, H4.
Qed.

(** Coherence asks the weights, and of the rest the identities and the records. *)
Lemma state_validate_ext limits s s' :
  st_router_id s = st_router_id s' -> st_router_generation s = st_router_generation s' ->
  st_models s = st_models s' -> st_backends s = st_backends s' -> st_fenced_boots s = st_fenced_boots s' ->
  st_routes s = st_routes s' -> weights_validate (st_weights s') = "" ->
  state_validate limits s = "" -> state_validate limits s' = "".
Proof.
  intros H1 H2 H3 H4 H5 H6 Hw. unfold state_validate. rewrite H1, H2, H3, H4, H5, H6, Hw. cbv zeta.
  destruct (negb (valid _)); [done|]. destruct (negb (valid _)); [done|].
  destruct (limits_validate limits != ""); [done|].
  by destruct (weights_validate (st_weights s) != "").
Qed.

Lemma restored_valid limits st :
  state_validate limits (state_canonicalize st) = "" -> state_validate limits (restored st) = "".
Proof. apply state_validate_ext; reflexivity. Qed.

Lemma settle_restored limits st image d :
  dg_state d = restored st -> dg_meta d = true -> dg_seen d = u32_at image 20 ->
  state_validate limits (state_canonicalize st) = "" ->
  take 32 (drop 40 image) = sha256 (canonical_text (state_canonicalize st)) ->
  settle_state limits image d = inr (restored st).
Proof.
  intros Hs Hm Hn Hv Hd. unfold settle_state. rewrite Hs, Hm, Hn, Z.eqb_refl, restored_canonical.
  rewrite (restored_valid _ _ Hv), restored_text, Hd. cbn [negb]. cbv zeta.
  rewrite !bool_decide_eq_true_2 by done. done.
Qed.

(** The header an image is given passes the tests of the header. *)
Lemma check_image_header limits records payload digest :
  length digest = 32%nat -> persistence_header_bytes + count payload < 2 ^ 64 ->
  persistence_header_bytes + count payload <= max_persistence_bytes limits ->
  check_image limits (image_of records payload digest) =
  if max_payload_bytes limits <? count payload
  then Some (persistence_format_version,
         (OutcomeCode.REJECT_LIMIT, "persistence payload length exceeds the configured limit"))
  else None.
Proof.
  intros Hd Hu Hb. pose proof (image_size records payload digest Hd) as Hs.
  assert (Hpos : 0 <= count payload) by (unfold count; lia).
  unfold check_image. cbv zeta. rewrite Hs, image_payload_size by (unfold persistence_header_bytes in *; lia).
  destruct (Z.ltb_spec (persistence_header_bytes + count payload) persistence_header_bytes); [lia|].
  destruct (Z.ltb_spec (max_persistence_bytes limits) (persistence_header_bytes + count payload)); [lia|].
  rewrite image_magic, image_version, image_header_size, image_flags, image_prefix, image_header_crc, image_payload_crc.
  rewrite bool_decide_eq_true_2, !Z.eqb_refl by done. cbn [negb].
  destruct (Z.ltb_spec (max_payload_bytes limits) (count payload)); [done|].
  rewrite word64_mod, Z.mod_small, Z.eqb_refl by (unfold persistence_header_bytes in *; lia). cbn [negb].
  by rewrite image_payload, Z.eqb_refl.
Qed.

Lemma check_encoded limits records payload digest :
  length digest = 32%nat -> count payload <= max_payload_bytes limits ->
  persistence_header_bytes + count payload < 2 ^ 64 ->
  persistence_header_bytes + count payload <= max_persistence_bytes limits ->
  check_image limits (image_of records payload digest) = None.
Proof.
  intros Hd Hp Hu Hb. rewrite check_image_header by done.
  by destruct (Z.ltb_spec (max_payload_bytes limits) (count payload)); [lia|].
Qed.

#[local] Opaque state_validate encode_payload.

Lemma inr_pair_inj {X A B} (a a' : A) (b b' : B) : inr (A := X) (a, b) = inr (a', b') -> a = a' /\ b = b'.
Proof. by intros [= -> ->]. Qed.

#[local] Transparent encode_payload.
Lemma encode_payload_refuses limits st failure : encode_payload limits st = inl failure -> pe_ok failure = false.
Proof.
  unfold encode_payload. intros H.
  repeat match type of H with match ?x with Some _ => _ | None => _ end = _ => destruct x end.
  all: first [discriminate H | by injection H as <-].
Qed.
#[local] Opaque encode_payload.

(** A failure of [encode] is never ACCEPTED. *)
Lemma encode_refuses limits st failure : encode limits st = inl failure -> pe_ok failure = false.
Proof.
  unfold encode. cbv zeta. intros H. case_bool_decide as Ev; cbn [negb] in H; [|by injection H as <-].
  destruct (encode_payload limits (state_canonicalize st)) as [f|payload] eqn:E.
  { injection H as <-. by eapply encode_payload_refuses. }
  destruct (_ <? _); [by injection H as <-|]. destruct (_ <? _); [by injection H as <-|discriminate H].
Qed.

(** What a successful [encode] has done. *)
Lemma encode_inv limits st image records :
  encode limits st = inr (image, records) ->
  let c := state_canonicalize st in
  exists payload, state_validate limits c = "" /\ encode_payload limits c = inr payload /\
    records = record_count c /\ records <= max_persistence_records limits /\
    persistence_header_bytes + count payload <= max_persistence_bytes limits /\
    image = image_of records payload (sha256 (canonical_text c)).
Proof.
  unfold encode. cbv zeta. intros H. case_bool_decide as Ev; [|discriminate H]. cbn [negb] in H.
  destruct (encode_payload limits (state_canonicalize st)) as [|payload]; [discriminate H|].
  destruct (Z.ltb_spec (max_persistence_records limits) (record_count (state_canonicalize st))); [discriminate H|].
  destruct (Z.ltb_spec (max_persistence_bytes limits) (persistence_header_bytes + count payload)); [discriminate H|].
  apply inr_pair_inj in H as [<- <-]. exists payload. by split_and!.
Qed.

Lemma decode_image (limits : ResourceLimits) (st : RouterPersistentState) (image : list Z) (records : Z)
    (Hst : image_conditions limits st) (Hencode : encode limits st = inr (image, records))
    (Hpayload : count image <= persistence_header_bytes + max_payload_bytes limits) :
  decode limits image = Some {|
    ld_code := OutcomeCode.ACCEPTED; ld_detail := ""; ld_state := restored st; ld_has_state := true;
    ld_format_version := persistence_format_version; ld_record_count := records |}.
Proof.
  apply encode_inv in Hencode as (payload & Hv & Hp & Hr & Hn & Hb & ->).
  pose proof (sha256_length (canonical_text (state_canonicalize st))) as Hd.
  set (digest := sha256 (canonical_text (state_canonicalize st))) in *.
  rewrite image_size in Hpayload by done. pose proof (ic_limits _ _ Hst) as Hl. fit_hypotheses.
  unfold decode. rewrite check_encoded by (done || unfold is_u32, persistence_header_bytes in *; lia).
  rewrite image_payload by done. fold (decode_all limits payload fresh_decoding).
  rewrite (decode_payload limits st Hst Hv payload Hp) by (unfold is_u32, u32_max in *; lia || congruence).
  cbn [dg_known negb]. rewrite (settle_restored limits st); [|reflexivity|reflexivity| |done|].
  - rewrite image_version, image_records; [done|]. unfold is_u32, record_count, count in *. lia.
  - cbn [dg_seen]. rewrite image_records; [done|]. unfold is_u32, record_count, count in *. lia.
  - by apply image_digest.
Qed.

(** C17: What is saved is loaded: the image of a coherent state, when its payload is
    not longer than the reader's own limit, decodes to the canonical form of the
    state, with the record count of the image.  The format does not carry the
    ranking weights and all but eight of the limits: these come back as a fresh
    state has them. *)
Theorem decode_encode (limits : ResourceLimits) (st : RouterPersistentState) (image : list Z) (records : Z)
    (Hst : image_conditions limits st) (Hencode : encode limits st = inr (image, records))
    (Hpayload : count image <= persistence_header_bytes + max_payload_bytes limits) :
  decode limits image = Some {|
    ld_code := OutcomeCode.ACCEPTED; ld_detail := ""; ld_state := restored st; ld_has_state := true;
    ld_format_version := persistence_format_version; ld_record_count := records |}.
Proof. by apply decode_image. Qed.

Lemma check_overlong limits records payload digest :
  length digest = 32%nat -> max_payload_bytes limits < count payload -> 0 <= max_payload_bytes limits ->
  persistence_header_bytes + count payload < 2 ^ 64 ->
  persistence_header_bytes + count payload <= max_persistence_bytes limits ->
  check_image limits (image_of records payload digest) = Some (persistence_format_version,
    (OutcomeCode.REJECT_LIMIT, "persistence payload length exceeds the configured limit")).
Proof.
  intros Hd Hp Hu Hs32 Hb. pose proof (image_size records payload digest Hd) as Hs.
  rewrite (check_image_header limits records payload digest) by (done || lia).
  by destruct (Z.ltb_spec (max_payload_bytes limits) (count payload)); [|lia].
Qed.

(** Saving can succeed where loading must fail: nothing in [encode] bounds the
    payload by [max_payload_bytes], which [decode] enforces, so every image with
    a longer payload that is saved is refused when it is loaded. *)
Theorem saved_but_not_loadable (limits : ResourceLimits) (st : RouterPersistentState) (image : list Z) (records : Z)
    (Hlimit : 0 <= max_payload_bytes limits) (Hsize : count image < 2 ^ 64)
    (Hencode : encode limits st = inr (image, records))
    (Hpayload : persistence_header_bytes + max_payload_bytes limits < count image) :
  exists load, decode limits image = Some load /\ ld_code load = OutcomeCode.REJECT_LIMIT /\
    ld_has_state load = false.
Proof.
  apply encode_inv in Hencode as (payload & Hv & Hp & Hr & Hn & Hb & ->).
  pose proof (sha256_length (canonical_text (state_canonicalize st))) as Hd.
  rewrite image_size in Hpayload, Hsize by done. unfold decode.
  assert (E : check_image limits (image_of records payload (sha256 (canonical_text (state_canonicalize st)))) =
    Some (persistence_format_version, (OutcomeCode.REJECT_LIMIT, "persistence payload length exceeds the configured limit"))).
  { apply check_overlong; (done || lia). }
  rewrite E. by eexists.
Qed.

(** ** A durable state *)

Definition durable_claim : CapabilityEvidence :=
  {| ce_key := CapabilityKeyOf "tool/calling"; ce_state := CapabilityState.VERIFIED; ce_generation := GenerationOf 1;
     ce_profile_id := EntityIdOf 6; ce_model_generation := GenerationOf 1; ce_backend_generation := none;
     ce_backend_boot := none; ce_observed_at := 50; ce_expires_at := -1; ce_source := "operator"; ce_detail := "" |}.
Definition durable_model : ModelDescriptor :=
  model_descriptor_default <| md_model_id := EntityIdOf 3 |> <| md_model_generation := GenerationOf 2 |>
    <| md_artifact_generation := GenerationOf 1 |> <| md_context_limit_tokens := 4096 |>
    <| md_input_modalities := ModalitySetOf 1 |> <| md_output_modalities := ModalitySetOf 1 |>
    <| md_capabilities := profile_of (EntityIdOf 6) (GenerationOf 1) [durable_claim] |>.
Definition durable_backend : PersistedBackendRecord :=
  {| pb_backend_id := EntityIdOf 4; pb_backend_generation := GenerationOf 2; pb_last_boot := GenerationOf 9;
     pb_last_registration_generation := GenerationOf 1; pb_provider_id := EntityIdOf 5;
     pb_provider_generation := GenerationOf 1; pb_endpoint_id := EntityIdOf 7;
     pb_last_endpoint_generation := GenerationOf 1; pb_trust_profile_id := none; pb_trust_generation := none;
     pb_trust_domain := TrustDomain.LOCAL; pb_locality := LocalityKeyOf "local"; pb_network_distance := 0;
     pb_capability_profile_id := none; pb_capability_generation := none; pb_capabilities := profile_default;
     pb_model_bindings := [model_binding_default <| mb_model_id := EntityIdOf 3 |>
                             <| mb_model_generation := GenerationOf 2 |>];
     pb_offline_capable := true; pb_provenance := Provenance.REAL; pb_registered_at := 60 |}.
Definition durable_fence : FencedBootRecord :=
  fenced_boot_record_default <| fb_backend_id := EntityIdOf 4 |> <| fb_backend_boot := GenerationOf 8 |>.
Definition durable_route : PersistedRouteRecord :=
  {| pt_decision_id := EntityIdOf 20; pt_decision_generation := GenerationOf 1; pt_request_id := EntityIdOf 21;
     pt_request_generation := GenerationOf 1; pt_winner := candidate_key_default;
     pt_fallbacks := [candidate_key_default]; pt_authority := route_authority_default;
     pt_status := RouteStatus.COMPLETED; pt_code := OutcomeCode.ROUTED; pt_cost := cost_evidence_default;
     pt_policy_generation := none; pt_price_generation := none; pt_budget_generation := none;
     pt_slo_generation := none; pt_semantic_digest := "digest"; pt_requirement_digest := ""; pt_created_at := 70 |}.
Definition durable_state : RouterPersistentState :=
  router_persistent_state_default <| st_router_id := EntityIdOf 1 |> <| st_router_generation := GenerationOf 1 |>
    <| st_models := [durable_model] |> <| st_backends := [durable_backend] |>
    <| st_fenced_boots := [durable_fence] |> <| st_routes := [durable_route] |>.

Definition image_under (limits : ResourceLimits) : list Z :=
  match encode limits durable_state with inr (image, _) => image | inl _ => [] end.

Ltac fits_concretely :=
  repeat first [apply (bool_decide_unpack _); vm_compute; exact I | discriminate | progress split_and! | constructor].

Lemma durable_conditions : image_conditions default_resource_limits durable_state.
Proof.
  split; unfold meta_fits, model_fits, persisted_backend_fits, persisted_route_fits, fenced_fits; try fits_concretely.
  all: unfold capability_fits, profile_fits, profile_wf, binding_fits, candidate_key_fits, authority_fits, cost_fits;
    fits_concretely.
Qed.

Lemma decode_encode_witness :
  encode default_resource_limits durable_state = inr (image_under default_resource_limits, 5) /\
  exists load, decode default_resource_limits (image_under default_resource_limits) = Some load /\
    ld_state load = restored durable_state.
Proof.
  assert (E : encode default_resource_limits durable_state = inr (image_under default_resource_limits, 5))
    by (vm_compute; reflexivity).
  split; [exact E|].
  pose proof (decode_encode _ _ _ _ durable_conditions E) as H.
  eexists. split; [apply H; vm_compute; discriminate|]. cbn [ld_state]. exact (eq_refl (restored durable_state)).
Defined.

Lemma saved_but_not_loadable_witness :
  let limits := default_resource_limits <| max_payload_bytes := 16 |> in
  exists load, decode limits (image_under limits) = Some load /\ ld_code load = OutcomeCode.REJECT_LIMIT.
Proof.
  cbv zeta. set (limits := default_resource_limits <| max_payload_bytes := 16 |>).
  destruct (saved_but_not_loadable limits durable_state (image_under limits) 5) as (load & H1 & H2 & _).
  - vm_compute. discriminate.
  - vm_compute. reflexivity.
  - vm_compute. reflexivity.
  - vm_compute. reflexivity.
  - exact (ex_intro _ load (conj H1 H2)).
Defined.

(** The image of that state, its hundredth byte changed, and its end cut off. *)
Definition durable_image : list Z := Eval vm_compute in image_under default_resource_limits.

Definition accepted_image (limits : ResourceLimits) (bytes : list Z) : bool :=
  match decode limits bytes with Some load => load_ok load | None => false end.

Lemma accepted_image_accepts limits bytes : accepted_image limits bytes = true -> accepts limits bytes.
Proof. unfold accepted_image, accepts. destruct (decode limits bytes) as [load|]; [by exists load|done]. Qed.

Lemma decode_detects_corruption_witness :
  nth 99 durable_image 0 <> 255 /\
  refuses default_resource_limits (take 99 durable_image ++ 255 :: drop 100 durable_image).
Proof.
  split; [vm_compute; discriminate|].
  apply (decode_detects_corruption default_resource_limits (take 99 durable_image) (drop 100 durable_image)
           (nth 99 durable_image 0) 255).
  - apply (bool_decide_unpack _). vm_compute. exact I.
  - apply (bool_decide_unpack _). vm_compute. exact I.
  - vm_compute. discriminate.
  - apply accepted_image_accepts. vm_compute. reflexivity.
Defined.

Lemma decode_exact_length_witness : refuses default_resource_limits (durable_image ++ [0]).
Proof.
  apply (decode_exact_length default_resource_limits durable_image (durable_image ++ [0])).
  - apply accepted_image_accepts. vm_compute. reflexivity.
  - reflexivity.
  - vm_compute. discriminate.
Defined.
