(* ===== verification/FileStore.v ===== *)
(** * The state file ([persistence.cpp], atomic file operations)

    Writing and reading the state file with the C library and POSIX calls the
    code makes.  The file system is explicit: the directory, the contents, what
    has reached the device, and how each call turns out.  [write_image_atomic]
    is a machine that makes one library call per step, so that a crash, or
    another thread, can come between any two of them. *)
From S2P Require Import Prelude Bytes Ids Sha256 Outcome Limits Codec Persistence PersistRoundTrip.

(** ** The file system *)

(** How one library call turns out; a call that transfers bytes transfers
    [ft_bytes] of them when it fails. *)
Record Fault := { ft_fails : bool; ft_bytes : nat }.
Definition no_fault : Fault := {| ft_fails := false; ft_bytes := 0 |}.

(** [fs_dirty]: the files whose bytes may not be on the device.  [fs_pending]:
    earlier directories; no call of the program makes a change of the directory
    durable, so that a crash may bring any of them back. *)
Record FileSystem := {
  fs_names : gmap string Z;
  fs_pending : list (gmap string Z);
  fs_files : gmap Z (list Z);
  fs_dirty : gset Z;
  fs_next : Z;
  fs_faults : list Fault
}.
#[export] Instance file_system_eta : Eta FileSystem := fun r =>
  {| fs_names := fs_names r; fs_pending := fs_pending r; fs_files := fs_files r;
     fs_dirty := fs_dirty r; fs_next := fs_next r; fs_faults := fs_faults r |}.

Definition empty_disk : FileSystem :=
  {| fs_names := ∅; fs_pending := []; fs_files := ∅; fs_dirty := ∅; fs_next := 0; fs_faults := [] |}.

(** What a program that opens the path finds. *)
Definition contents (fs : FileSystem) (path : string) : option (list Z) :=
  fs_names fs !! path ≫= fun file => fs_files fs !! file.

(** What the path may hold after a crash: the directory is one of those that may
    have reached the device, and the bytes of a dirty file can be anything. *)
Definition survives (fs : FileSystem) (path : string) (found : option (list Z)) : Prop :=
  exists names, names ∈ fs_names fs :: fs_pending fs /\
    match names !! path with
    | None => found = None
    | Some file => (file ∈ fs_dirty fs) \/ found = fs_files fs !! file
    end.

Definition next_fault (fs : FileSystem) : Fault * FileSystem :=
  match fs_faults fs with
  | [] => (no_fault, fs)
  | fault :: faults => (fault, fs <| fs_faults := faults |>)
  end.

Definition set_names (names : gmap string Z) (fs : FileSystem) : FileSystem :=
  fs <| fs_names := names |> <| fs_pending := fs_names fs :: fs_pending fs |>.

(** [fopen(path, "wb")]: a file that exists is emptied. *)
Definition open_for_writing (path : string) (fs : FileSystem) : Z * FileSystem :=
  match fs_names fs !! path with
  | Some file => (file, fs <| fs_files := <[file := []]> (fs_files fs) |> <| fs_dirty := {[file]} ∪ fs_dirty fs |>)
  | None =>
      let file := fs_next fs in
      (file, set_names (<[path := file]> (fs_names fs)) fs
               <| fs_files := <[file := []]> (fs_files fs) |> <| fs_dirty := {[file]} ∪ fs_dirty fs |>
               <| fs_next := fs_next fs + 1 |>)
  end.

(** [fwrite] of the whole buffer at the start of the file: the number of bytes
    written. *)
Definition file_write (file : Z) (bytes : list Z) (fault : Fault) (fs : FileSystem) : nat * FileSystem :=
  let written := if ft_fails fault then Nat.min (ft_bytes fault) (length bytes) else length bytes in
  let old := default [] (fs_files fs !! file) in
  (written, fs <| fs_files := <[file := take written bytes ++ drop written old]> (fs_files fs) |>
               <| fs_dirty := {[file]} ∪ fs_dirty fs |>).

(** [fsync] that succeeds. *)
Definition file_sync (file : Z) (fs : FileSystem) : FileSystem := fs <| fs_dirty := fs_dirty fs ∖ {[file]} |>.

(** [rename]: [None] when there is nothing to rename. *)
Definition file_rename (from to : string) (fs : FileSystem) : option FileSystem :=
  match fs_names fs !! from with
  | None => None
  | Some file => Some (set_names (<[to := file]> (delete from (fs_names fs))) fs)
  end.

Definition file_remove (path : string) (fs : FileSystem) : FileSystem :=
  set_names (delete path (fs_names fs)) fs.

(** ** Writing *)

(** Where [write_image_atomic] stands: the library call it makes next.
    [Abandoning] closes the file after an error. *)
Inductive Stage :=
| Opening
| Writing (file : Z)
| Flushing (file : Z)
| Syncing (file : Z)
| Closing (file : Z)
| Renaming
| Abandoning (error : string)
| Removing (error : string)
| Finished (error : option string).

Definition temporary (path : string) : string := path +:+ ".tmp".

(** One library call. *)
Definition write_step (path : string) (image : list Z) (at_call : Stage) (fs : FileSystem) : Stage * FileSystem :=
  let '(fault, after) := next_fault fs in
  match at_call with
  | Finished error => (Finished error, fs)
  | Opening =>
      let fs := after in
      return_if ft_fails fault
        with (Finished (Some "cannot open the temporary state file for writing"), fs) ;;
      let '(file, fs) := open_for_writing (temporary path) fs in (Writing file, fs)
  | Writing file =>
      let fs := after in
      let '(written, fs) := file_write file image fault fs in
      return_if negb (written =? length image)%nat
        with (Abandoning "short write while writing the state image", fs) ;;
      (Flushing file, fs)
  | Flushing file =>
      let fs := after in
      return_if ft_fails fault with (Abandoning "flush failed while writing the state image", fs) ;;
      (Syncing file, fs)
  | Syncing file =>
      let fs := after in
      return_if ft_fails fault with (Abandoning "durable flush failed while writing the state image", fs) ;;
      (Closing file, file_sync file fs)
  | Closing file =>
      let fs := after in
      return_if ft_fails fault with (Removing "close failed while writing the state image", fs) ;;
      (Renaming, fs)
  | Renaming =>
      let fs := after in
      let failed := Removing "atomic replacement of the state file failed" in
      return_if ft_fails fault with (failed, fs) ;;
      match file_rename (temporary path) path fs with
      | None => (failed, fs)
      | Some fs => (Finished None, fs)
      end
  | Abandoning error => (Removing error, after)
  | Removing error =>
      (Finished (Some error), if ft_fails fault then after else file_remove (temporary path) after)
  end.

(** The first [calls] library calls. *)
Definition write_calls (path : string) (image : list Z) (calls : nat) (fs : FileSystem) : Stage * FileSystem :=
  Nat.iter calls (fun at_call => write_step path image at_call.1 at_call.2) (Opening, fs).

(** No run makes more than seven calls. *)
Definition most_calls : nat := 7.

(** [None] is the result true, otherwise the error. *)
Definition write_image_atomic (path : string) (image : list Z) (fs : FileSystem) : option string * FileSystem :=
  let '(at_call, fs) := write_calls path image most_calls fs in
  (match at_call with Finished error => error | _ => Some "" end, fs).

(** ** Reading *)

Definition read_image (path : string) (limits : ResourceLimits) (fs : FileSystem) : (string + list Z) * FileSystem :=
  let '(opened, fs) := next_fault fs in
  match (if ft_fails opened then None else contents fs path) with
  | None => (inl "cannot open the state file for reading", fs)
  | Some bytes =>
      let '(sought, fs) := next_fault fs in
      return_if ft_fails sought with (inl "cannot determine the state file size", fs) ;;
      let '(told, fs) := next_fault fs in
      return_if ft_fails told with (inl "cannot determine the state file size", fs) ;;
      return_if max_persistence_bytes limits <? count bytes
        with (inl "state file exceeds the configured byte limit", fs) ;;
      return_if bytes == [] with (inr bytes, fs) ;;
      let '(read, fs) := next_fault fs in
      return_if ft_fails read && (ft_bytes read <? length bytes)%nat
        with (inl "short read while reading the state image", fs) ;;
      (inr bytes, fs)
  end.

(** ** The store *)

Definition store_save (state : RouterPersistentState) (path : string) (limits : ResourceLimits) (fs : FileSystem)
    : PersistenceResult * FileSystem :=
  return_if path == "" with (refused OutcomeCode.REJECT_INVALID "persistence path is empty", fs) ;;
  match encode limits (state_canonicalize state) with
  | inl failure => (failure, fs)
  | inr (image, records) =>
      let '(error, fs) := write_image_atomic path image fs in
      match error with
      | Some error => (refused OutcomeCode.INTERNAL_ERROR error, fs)
      | None =>
          ({| pe_code := OutcomeCode.ACCEPTED;
              pe_detail := "records=" +:+ to_string_int records +:+ " bytes=" +:+ to_string_int (count image) |}, fs)
      end
  end.

(** [None]: see [decode]. *)
Definition store_load (path : string) (limits : ResourceLimits) (fs : FileSystem)
    : option PersistenceLoad * FileSystem :=
  return_if path == "" with (Some (load_failed 0 (OutcomeCode.REJECT_INVALID, "persistence path is empty")), fs) ;;
  match read_image path limits fs with
  | (inl error, fs) => (Some (load_failed 0 (OutcomeCode.REJECT_INVALID, error)), fs)
  | (inr image, fs) => (decode limits image, fs)
  end.

Definition validate_file (path : string) (limits : ResourceLimits) (fs : FileSystem)
    : option PersistenceResult * FileSystem :=
  let '(loaded, fs) := store_load path limits fs in
  ((fun l => {| pe_code := ld_code l; pe_detail := ld_detail l |}) <$> loaded, fs).

(** ** A crash between any two calls *)

Section CrashSafety.
Context (path : string).

Definition directories (fs : FileSystem) : list (gmap string Z) := fs_names fs :: fs_pending fs.

(** The file the path names, in whatever directory a crash may bring back, is on
    the device and is not the temporary file; and new files are new. *)
Record settled (fs : FileSystem) : Prop := {
  settled_target : forall names file, names ∈ directories fs -> names !! path = Some file ->
    (file ∉ fs_dirty fs) /\ file < fs_next fs /\ fs_names fs !! temporary path <> Some file;
  settled_temporary : forall file, fs_names fs !! temporary path = Some file -> file < fs_next fs
}.

(** The path keeps what it holds. *)
Record path_kept (fs fs' : FileSystem) : Prop := {
  pk_settled : settled fs';
  pk_survives : forall found, survives fs' path found -> survives fs path found;
  pk_contents : contents fs' path = contents fs path
}.

Lemma temporary_other : temporary path <> path.
Proof.
  unfold temporary. intros E. apply (f_equal String.length) in E.
  induction path as [|c s IH]; simpl in E; [discriminate|]. apply IH. by injection E.
Qed.

Lemma path_kept_refl fs : settled fs -> path_kept fs fs.
Proof. by split. Qed.

Lemma path_kept_trans fs1 fs2 fs3 : path_kept fs1 fs2 -> path_kept fs2 fs3 -> path_kept fs1 fs3.
Proof. intros [H1 H2 H3] [K1 K2 K3]. split; [done|auto|congruence]. Qed.

(** Only the temporary file changes. *)
Lemma touch_kept file fs fs' :
  settled fs -> fs_names fs !! temporary path = Some file ->
  fs_names fs' = fs_names fs -> fs_pending fs' = fs_pending fs -> fs_next fs <= fs_next fs' ->
  (forall f, f <> file -> fs_files fs' !! f = fs_files fs !! f) ->
  (forall f, f <> file -> (f ∈ fs_dirty fs' <-> f ∈ fs_dirty fs)) ->
  path_kept fs fs'.
Proof.
  intros Hs Ht En Ep Ex Hf Hd.
  assert (Hne : forall names f, names ∈ directories fs -> names !! path = Some f -> f <> file).
  { intros names f Hn E ->. by destruct (settled_target _ Hs names file Hn E) as (_ & _ & ?). }
  split; [split|..].
  - intros names f Hn E. unfold directories in Hn. rewrite En, Ep in Hn. rewrite En.
    destruct (settled_target _ Hs names f Hn E) as (H1 & H2 & H3). split_and!; [|lia|done]. rewrite Hd; [done|by eapply Hne].
  - intros f. rewrite En. intros E%(settled_temporary _ Hs). lia.
  - unfold survives. rewrite En, Ep. intros found (names & Hn & H). exists names. split; [done|].
    destruct (names !! path) as [f|] eqn:E; [|done]. rewrite <- Hf, <- Hd; [done|by eapply Hne..].
  - unfold contents. rewrite En. destruct (fs_names fs !! path) as [f|] eqn:E; [|done]. simpl.
    apply Hf. eapply Hne; [left|done].
Qed.

(** The directory changes, but not what the path names. *)
Lemma set_names_kept names fs :
  settled fs -> names !! path = fs_names fs !! path ->
  (forall d f, d ∈ directories fs -> d !! path = Some f -> names !! temporary path <> Some f) ->
  (forall f, names !! temporary path = Some f -> f < fs_next fs) ->
  path_kept fs (set_names names fs).
Proof.
  intros Hs E Ht Hb. split; [split; [|done]|..].
  - intros d f [->|Hd]%elem_of_cons Hf.
    + simpl in Hf. rewrite E in Hf. assert (fs_names fs ∈ directories fs) as H by left.
      destruct (settled_target _ Hs _ _ H Hf) as (? & ? & ?). split_and!; [done..|]. by eapply Ht.
    + destruct (settled_target _ Hs _ _ Hd Hf) as (? & ? & ?). split_and!; [done..|]. by eapply Ht.
  - intros found (d & [->|Hd]%elem_of_cons & H).
    + exists (fs_names fs). split; [left|]. by rewrite <- E.
    + by exists d.
  - unfold contents. simpl. by rewrite E.
Qed.

(** ** The stages *)

(** What holds between two calls. *)
Definition at_stage (image : list Z) (at_call : Stage) (fs0 fs : FileSystem) : Prop :=
  match at_call with
  | Opening | Abandoning _ | Removing _ | Finished (Some _) => path_kept fs0 fs
  | Writing file =>
      path_kept fs0 fs /\ fs_names fs !! temporary path = Some file /\ fs_files fs !! file = Some []
  | Flushing file | Syncing file =>
      path_kept fs0 fs /\ fs_names fs !! temporary path = Some file /\ fs_files fs !! file = Some image
  | Closing file =>
      path_kept fs0 fs /\ fs_names fs !! temporary path = Some file /\ fs_files fs !! file = Some image /\
      (file ∉ fs_dirty fs)
  | Renaming =>
      path_kept fs0 fs /\ exists file, fs_names fs !! temporary path = Some file /\
        fs_files fs !! file = Some image /\ (file ∉ fs_dirty fs)
  | Finished None =>
      settled fs /\ contents fs path = Some image /\
      forall found, survives fs path found -> survives fs0 path found \/ found = Some image
  end.

Lemma next_fault_kept fs : settled fs -> path_kept fs (next_fault fs).2.
Proof. intros [H1 H2]. unfold next_fault. destruct (fs_faults fs); (split; [split|..]); done. Qed.

Lemma open_kept fs :
  settled fs ->
  let '(file, fs') := open_for_writing (temporary path) fs in
  path_kept fs fs' /\ fs_names fs' !! temporary path = Some file /\ fs_files fs' !! file = Some [].
Proof.
  intros Hs. unfold open_for_writing. destruct (fs_names fs !! temporary path) as [file|] eqn:Et.
  - split_and!; [|done|apply lookup_insert_eq].
    apply (touch_kept file); try done; intros f Hf; cbn; [by apply lookup_insert_ne|set_solver].
  - set (fresh := fs <| fs_next := fs_next fs + 1 |>).
    assert (Hf : path_kept fs fresh).
    { split; [split|done|done].
      - intros d f Hd Hf. destruct (settled_target _ Hs d f Hd Hf) as (? & ? & ?). split_and!; [done|cbn; lia|done].
      - intros f. cbn. rewrite Et. discriminate. }
    assert (Hn : path_kept fresh (set_names (<[temporary path := fs_next fs]> (fs_names fs)) fresh)).
    { apply set_names_kept; [apply Hf|by apply lookup_insert_ne, temporary_other|..].
      - intros d f Hd E. rewrite lookup_insert_eq. intros [= <-]. destruct (settled_target _ Hs d _ Hd E). lia.
      - intros f. rewrite lookup_insert_eq. intros [= <-]. cbn. lia. }
    split_and!; [|apply lookup_insert_eq|apply lookup_insert_eq].
    eapply path_kept_trans; [exact Hf|]. eapply path_kept_trans; [exact Hn|].
    apply (touch_kept (fs_next fs)); [apply Hn|apply lookup_insert_eq|done|done|cbn; lia|..].
    + intros f Hne. cbn. by apply lookup_insert_ne.
    + intros f Hne. cbn. set_solver.
Qed.

Lemma write_kept file bytes fault fs :
  settled fs -> fs_names fs !! temporary path = Some file -> fs_files fs !! file = Some [] ->
  let '(written, fs') := file_write file bytes fault fs in
  path_kept fs fs' /\ fs_names fs' !! temporary path = Some file /\ fs_next fs' = fs_next fs /\
  (written = length bytes -> fs_files fs' !! file = Some bytes).
Proof.
  intros Hs Ht Hf. unfold file_write. set (written := if ft_fails fault then _ else _). split_and!; try done.
  - apply (touch_kept file); try done; intros f Hne; cbn; [by apply lookup_insert_ne|set_solver].
  - intros ->. cbn. rewrite lookup_insert_eq, Hf. simpl. by rewrite drop_nil, app_nil_r, firstn_all.
Qed.

Lemma sync_kept file fs :
  settled fs -> fs_names fs !! temporary path = Some file -> path_kept fs (file_sync file fs).
Proof. intros Hs Ht. apply (touch_kept file); try done. intros f Hne. cbn. set_solver. Qed.

Lemma remove_kept fs : settled fs -> path_kept fs (file_remove (temporary path) fs).
Proof.
  intros Hs. apply set_names_kept; [done|by apply lookup_delete_ne, temporary_other|..].
  - intros d f _ _. by rewrite lookup_delete_eq.
  - intros f. by rewrite lookup_delete_eq.
Qed.

(** Renaming puts the image in place, and only a crash before the directory is
    on the device brings the old one back. *)
Lemma rename_replaces image file fs :
  settled fs -> fs_names fs !! temporary path = Some file -> fs_files fs !! file = Some image ->
  (file ∉ fs_dirty fs) ->
  exists fs', file_rename (temporary path) path fs = Some fs' /\ settled fs' /\ contents fs' path = Some image /\
    forall found, survives fs' path found -> survives fs path found \/ found = Some image.
Proof.
  intros Hs Ht Hf Hd. pose proof (settled_temporary _ Hs _ Ht) as Hn. unfold file_rename. rewrite Ht. eexists. split; [done|].
  assert (Hnone : <[path := file]> (delete (temporary path) (fs_names fs)) !! temporary path = None).
  { rewrite lookup_insert_ne by (symmetry; apply temporary_other). apply lookup_delete_eq. }
  split_and!; [split|..].
  - intros d f Hin E. cbn. rewrite Hnone. apply elem_of_cons in Hin as [->|Hin].
    + cbn in E. rewrite lookup_insert_eq in E. injection E as <-. by split_and!.
    + destruct (settled_target _ Hs d f Hin E) as (? & ? & ?). by split_and!.
  - intros f. cbn. by rewrite Hnone.
  - unfold contents. cbn. rewrite lookup_insert_eq. exact Hf.
  - intros found (d & Hin & H). apply elem_of_cons in Hin as [->|Hin].
    + right. cbn in H. rewrite lookup_insert_eq in H. by destruct H as [? | ->].
    + left. by exists d.
Qed.

Lemma at_stage_faults image at_call fs0 fs faults :
  at_stage image at_call fs0 fs -> at_stage image at_call fs0 (fs <| fs_faults := faults |>).
Proof.
  assert (K : path_kept fs0 fs -> path_kept fs0 (fs <| fs_faults := faults |>)) by (intros [[H1 H2] H3 H4]; split; [split|..]; done).
  destruct at_call as [|file|file|file|file| |error|error|[error|]]; cbn [at_stage]; try done.
  1-5: by intros [Hk H]; split; [apply K|].
  intros ([H1 H2] & H). split; [by split|done].
Qed.

Lemma step_at_stage image at_call fs0 fs :
  at_stage image at_call fs0 fs ->
  at_stage image (write_step path image at_call fs).1 fs0 (write_step path image at_call fs).2.
Proof.
  intros H. unfold write_step.
  assert (Hn : exists fault faults, next_fault fs = (fault, fs <| fs_faults := faults |>)).
  { unfold next_fault. destruct (fs_faults fs) as [|fault faults] eqn:E; [|by eexists _, _].
    exists no_fault, []. rewrite <- E. by destruct fs. }
  destruct Hn as (fault & faults & ->). apply (at_stage_faults _ _ _ _ faults) in H as Hf.
  remember (fs <| fs_faults := faults |>) as after eqn:Ea. clear Ea.
  destruct at_call as [|file|file|file|file| |error|error|[error|]]; try done; clear H fs;
    rename after into fs; rename Hf into H; cbn [at_stage] in H.
  - destruct (ft_fails fault); [exact H|]. pose proof (open_kept fs (pk_settled _ _ H)) as Ho.
    destruct (open_for_writing _ fs) as [file fs']. destruct Ho as (H1 & H2 & H3). cbn.
    split_and!; [|done|done]. by eapply path_kept_trans.
  - destruct H as (Hk & Ht & Hf). pose proof (write_kept file image fault fs (pk_settled _ _ Hk) Ht Hf) as Hw.
    destruct (file_write file image fault fs) as [written fs']. destruct Hw as (H1 & H2 & H3).
    destruct (Nat.eqb_spec written (length image)) as [E|]; cbn; [|by eapply path_kept_trans].
    split_and!; [by eapply path_kept_trans|done|by apply H3].
  - destruct (ft_fails fault); cbn; [apply H|exact H].
  - destruct H as (Hk & Ht & Hf). destruct (ft_fails fault); cbn; [exact Hk|]. split_and!; [|done|done|set_solver].
    eapply path_kept_trans; [exact Hk|]. apply sync_kept; [apply Hk|done].
  - destruct (ft_fails fault); cbn; [apply H|]. destruct H as (Hk & H). split; [exact Hk|]. by exists file.
  - destruct H as (Hk & file & Ht & Hf & Hd). destruct (ft_fails fault); cbn; [exact Hk|].
    destruct (rename_replaces image file fs (pk_settled _ _ Hk) Ht Hf Hd) as (fs' & -> & H1 & H2 & H3).
    cbn. split_and!; [done|done|]. intros found [Hb|]%H3; [left; by apply Hk|by right].
  - cbn. destruct (ft_fails fault); [exact H|]. eapply path_kept_trans; [exact H|]. apply remove_kept, H.
Qed.

Lemma calls_at_stage image calls fs :
  settled fs -> at_stage image (write_calls path image calls fs).1 fs (write_calls path image calls fs).2.
Proof.
  intros Hs. unfold write_calls. induction calls as [|calls IH]; [by apply path_kept_refl|].
  cbn [Nat.iter]. by apply step_at_stage.
Qed.

(** Calls left before the run is over. *)
Definition calls_left (at_call : Stage) : nat :=
  match at_call with
  | Opening => 7 | Writing _ => 6 | Flushing _ => 5 | Syncing _ => 4 | Closing _ => 3 | Renaming => 2
  | Abandoning _ => 2 | Removing _ => 1 | Finished _ => 0
  end%nat.

Lemma step_calls_left image at_call fs :
  (calls_left (write_step path image at_call fs).1 <= calls_left at_call - 1)%nat.
Proof.
  unfold write_step. destruct (next_fault fs) as [fault after]. destruct at_call; simpl; try lia;
    try (destruct (ft_fails fault); simpl; lia).
  - destruct (ft_fails fault); simpl; [lia|]. destruct (open_for_writing _ after). simpl. lia.
  - destruct (file_write file image fault after). destruct (_ =? _)%nat; simpl; lia.
  - destruct (ft_fails fault); simpl; [lia|]. destruct (file_rename _ _ _); simpl; lia.
Qed.

(** The run is over after [most_calls]. *)
Lemma calls_finish image fs : exists error, (write_calls path image most_calls fs).1 = Finished error.
Proof.
  assert (H : forall n, (calls_left (write_calls path image n fs).1 <= 7 - n)%nat).
  { induction n as [|n IH]; [done|]. pose proof (step_calls_left image (write_calls path image n fs).1
      (write_calls path image n fs).2). change (write_calls path image (S n) fs) with
      (write_step path image (write_calls path image n fs).1 (write_calls path image n fs).2). lia. }
  specialize (H most_calls). destruct (write_calls path image most_calls fs).1; cbn in H; try lia. by eexists.
Qed.
End CrashSafety.

(** ** Properties of saving *)

(** What a completed run has done. *)
Lemma save_at (path : string) (image : list Z) (fs : FileSystem) :
  settled path fs ->
  exists error fs', write_image_atomic path image fs = (error, fs') /\ settled path fs' /\
  match error with
  | None => contents fs' path = Some image
  | Some _ => contents fs' path = contents fs path
  end.
Proof.
  intros Hs. unfold write_image_atomic. pose proof (calls_at_stage path image most_calls fs Hs) as H.
  destruct (calls_finish path image fs) as [error E].
  destruct (write_calls path image most_calls fs) as [at_call fs']. cbn in E, H |- *. subst at_call.
  eexists _, _. split; [done|]. destruct error as [error|]; cbn in H; (split; [apply H|]); apply H.
Qed.

(** C18: a save is atomic.  Whatever library calls fail, after any number of them
    a crash leaves under the path what a crash before the save could have left,
    or the whole new image; the run is over after [most_calls]; when it reports
    success the path holds the image, and when it reports an error the path is
    as it was.  The file system is then ready for the next save. *)
Theorem save_crash_safe (path : string) (image : list Z) (fs : FileSystem) (Hs : settled path fs) :
  (forall calls found, survives (write_calls path image calls fs).2 path found ->
     survives fs path found \/ found = Some image) /\
  let '(error, fs') := write_image_atomic path image fs in
  settled path fs' /\
  match error with
  | None => contents fs' path = Some image
  | Some _ => contents fs' path = contents fs path
  end.
Proof.
  split.
  - intros calls found. pose proof (calls_at_stage path image calls fs Hs) as H.
    destruct (write_calls path image calls fs) as [at_call fs']. cbn in H |- *. intros Hf.
    destruct at_call as [|file|file|file|file| |error|error|[error|]]; cbn in H.
    all: try (left; by apply H). by apply H.
  - by destruct (save_at path image fs Hs) as (error & fs' & -> & H).
Qed.

(** A disk with one state file. *)
Definition disk_with (path : string) (bytes : list Z) : FileSystem :=
  empty_disk <| fs_names := {[path := 0]} |> <| fs_files := {[0 := bytes]} |> <| fs_next := 1 |>.

Lemma disk_with_settled path bytes : settled path (disk_with path bytes).
Proof.
  split.
  - intros names file [->|Hn]%elem_of_cons; [|by apply elem_of_nil in Hn]. cbn.
    intros [_ <-]%lookup_singleton_Some. split_and!; [set_solver|lia|].
    by rewrite lookup_singleton_ne by (symmetry; apply temporary_other).
  - intros file. cbn. rewrite lookup_singleton_ne by (symmetry; apply temporary_other). discriminate.
Qed.

(** Two bytes are written over one; the second save fails to reach the device. *)
Definition failing_disk : FileSystem :=
  (disk_with "state" [7]) <| fs_faults := [no_fault; no_fault; no_fault; {| ft_fails := true; ft_bytes := 0 |}] |>.

Lemma save_crash_safe_witness :
  let fs := failing_disk in
  let '(error, fs') := write_image_atomic "state" [1; 2] fs in
  error <> None /\ settled "state" fs' /\ contents fs' "state" = Some [7].
Proof.
  cbv zeta. set (fs := failing_disk).
  assert (Hs : settled "state" fs) by (destruct (disk_with_settled "state" [7]) as [H1 H2]; by split).
  destruct (save_crash_safe "state" [1; 2] fs Hs) as [_ H].
  assert (E : (write_image_atomic "state" [1; 2] fs).1 = Some "durable flush failed while writing the state image")
    by (vm_compute; reflexivity).
  destruct (write_image_atomic "state" [1; 2] fs) as [error fs']. simpl in E. subst error.
  destruct H as [H1 H2]. split; [discriminate|]. split; [exact H1|]. rewrite H2. vm_compute. reflexivity.
Defined.

(** ** Two saves at once *)

(** One call of the first or of the second of two saves to the same path. *)
Definition either_step (path : string) (image1 image2 : list Z) (second : bool) (s : Stage * Stage * FileSystem)
    : Stage * Stage * FileSystem :=
  let '(at1, at2, fs) := s in
  if second then let '(at2, fs) := write_step path image2 at2 fs in (at1, at2, fs)
  else let '(at1, fs) := write_step path image1 at1 fs in (at1, at2, fs).

Definition both_saves (path : string) (image1 image2 : list Z) (schedule : list bool) (fs : FileSystem)
    : Stage * Stage * FileSystem :=
  fold_left (fun s second => either_step path image1 image2 second s) schedule (Opening, Opening, fs).

(** Atomicity is lost when two saves to one path overlap, since they share
    the temporary file and no lock is held while they write: there is an order
    of the calls in which none of them fails and the first save reports success,
    and yet the path then holds an empty file instead of its image. *)
Theorem concurrent_saves_tear (path : string) (image1 image2 : list Z) (fs : FileSystem)
    (Hfaults : fs_faults fs = []) (Htemporary : fs_names fs !! temporary path = None) :
  exists schedule, let '(at1, at2, fs') := both_saves path image1 image2 schedule fs in
    at1 = Finished None /\ contents fs' path = Some [].
Proof.
  exists [false; false; false; false; false; true; false].
  destruct fs as [names pending files dirty next faults]. cbn in Hfaults, Htemporary. subst faults.
  unfold both_saves, either_step, write_step, next_fault, open_for_writing, file_write, file_rename, file_sync.
  cbn -[temporary]. rewrite Htemporary. cbn -[temporary]. rewrite Nat.eqb_refl. cbn -[temporary].
  rewrite !lookup_insert_eq. cbn -[temporary]. rewrite lookup_insert_eq. cbn -[temporary]. split; [done|].
  unfold contents. cbn -[temporary]. rewrite !lookup_insert_eq. cbn -[temporary]. by rewrite lookup_insert_eq.
Qed.

Lemma concurrent_saves_tear_witness :
  contents (disk_with "state" [7]) "state" = Some [7] /\
  exists schedule, let '(at1, at2, fs') := both_saves "state" [1; 2] [3] schedule (disk_with "state" [7]) in
    at1 = Finished None /\ contents fs' "state" = Some [].
Proof.
  split; [vm_compute; reflexivity|].
  apply (concurrent_saves_tear "state" [1; 2] [3] (disk_with "state" [7])); vm_compute; reflexivity.
Defined.

(** ** What is saved is loaded *)

Section SaveLoad.
Context (limits : ResourceLimits).

Lemma read_image_contents path bytes fs :
  fs_faults fs = [] -> contents fs path = Some bytes -> count bytes <= max_persistence_bytes limits ->
  read_image path limits fs = (inr bytes, fs).
Proof.
  intros Hf Hc Hb. unfold read_image, next_fault. rewrite Hf. cbn [ft_fails no_fault]. rewrite Hc, Hf. cbn.
  rewrite Hf. cbn. destruct (Z.ltb_spec (max_persistence_bytes limits) (count bytes)); [lia|].
  destruct bytes; [done|]. by rewrite Hf.
Qed.

Lemma saved_loads (st : RouterPersistentState) (path : string) (fs fs' : FileSystem) (r : PersistenceResult)
    (Hs : settled path fs) (Hst : image_conditions limits st)
    (Hsave : store_save st path limits fs = (r, fs')) (Hok : pe_ok r = true)
    (Hpayload : forall image records, encode limits st = inr (image, records) ->
       count image <= persistence_header_bytes + max_payload_bytes limits) :
  exists load, store_load path limits (fs' <| fs_faults := [] |>) = (Some load, fs' <| fs_faults := [] |>) /\
    load_ok load = true /\ ld_state load = restored st.
Proof.
  unfold store_save in Hsave. unfold store_load. case_bool_decide as Ep.
  { injection Hsave as <- _. discriminate Hok. }
  assert (Hcanonical : encode limits (state_canonicalize st) = encode limits st).
  { unfold encode. by rewrite state_canonicalize_idem. }
  rewrite Hcanonical in Hsave. destruct (encode limits st) as [failure|[image records]] eqn:Ee.
  { injection Hsave as <- _. apply encode_refuses in Ee. congruence. }
  assert (Hsize : count image <= max_persistence_bytes limits).
  { destruct (encode_inv _ _ _ _ Ee) as (payload & _ & _ & _ & _ & Hb & ->).
    rewrite image_size; [lia|apply sha256_length]. }
  destruct (save_at path image fs Hs) as (error & fs1 & E & H). rewrite E in Hsave. clear E.
  destruct error as [error|]; injection Hsave as <- <-; [discriminate Hok|].
  destruct H as [_ H]. set (fs2 := fs1 <| fs_faults := [] |>).
  rewrite (read_image_contents path image fs2 eq_refl H Hsize).
  rewrite (decode_image limits st image records Hst Ee); [by eexists|]. by eapply Hpayload.
Qed.

(** Only a coherent state is saved. *)
Lemma store_save_valid st path fs r fs' :
  store_save st path limits fs = (r, fs') -> pe_ok r = true -> state_validate limits (state_canonicalize st) = "".
Proof.
  unfold store_save. destruct (path == ""); [by intros [= <- _]|].
  destruct (encode limits (state_canonicalize st)) as [failure|[image records]] eqn:Ee.
  - intros [= <- _] Hok. apply encode_refuses in Ee. congruence.
  - intros _ _. destruct (encode_inv _ _ _ _ Ee) as (payload & Hv & _). by rewrite canonicalize_twice in Hv.
Qed.

(** A save that succeeds and a load by a process that reads without faults,
    with the same limits, give back the durable state, up to what the format
    does not carry. *)
Theorem save_then_load (st : RouterPersistentState) (path : string) (fs fs' : FileSystem) (r : PersistenceResult)
    (Hs : settled path fs) (Hst : image_conditions limits st)
    (Hsave : store_save st path limits fs = (r, fs')) (Hok : pe_ok r = true)
    (Hpayload : forall image records, encode limits st = inr (image, records) ->
       count image <= persistence_header_bytes + max_payload_bytes limits) :
  exists load, store_load path limits (fs' <| fs_faults := [] |>) = (Some load, fs' <| fs_faults := [] |>) /\
    load_ok load = true /\ ld_state load = restored st.
Proof. by eapply saved_loads. Qed.
End SaveLoad.

Lemma save_then_load_witness :
  let saved := store_save durable_state "state" default_resource_limits (disk_with "state" [7]) in
  exists load, store_load "state" default_resource_limits (saved.2 <| fs_faults := [] |>) =
      (Some load, saved.2 <| fs_faults := [] |>) /\
    load_ok load = true /\ ld_state load = restored durable_state.
Proof.
  cbv zeta.
  apply (save_then_load default_resource_limits durable_state "state" (disk_with "state" [7])
    (store_save durable_state "state" default_resource_limits (disk_with "state" [7])).2
    (store_save durable_state "state" default_resource_limits (disk_with "state" [7])).1).
  - apply disk_with_settled.
  - exact durable_conditions.
  - by destruct (store_save durable_state "state" default_resource_limits (disk_with "state" [7])).
  - vm_compute. reflexivity.
  - intros image records E.
    assert (E' : encode default_resource_limits durable_state = inr (image_under default_resource_limits, 5))
      by (vm_compute; reflexivity).
    rewrite E' in E. injection E as <- _. vm_compute. discriminate.
Defined.
