(* ===== verification/RouterMutation.v ===== *)
(** * Canonical mutation ([router.cpp])

    The catalog, evidence and configuration operations of the router. Each runs
    in one critical section: an operation is a function from the state it finds
    to its reply and the state it leaves; [now] is the reading of the clock. *)
From S2P Require Import Prelude Ids Outcome Limits Clock Capability Evidence Catalog Request.
From S2P Require Import Candidate Authority Decision RouterState.

(** A reply and the state after it. *)
Definition Reply : Type := MutationResult * CanonicalState.

(** [return reject(code, subject, message);] *)
Definition reject (code : OutcomeCode.t) (subject message : string) (s : CanonicalState) : Reply :=
  (mutation_make code subject message, s).

(** [return MutationResult(OutcomeCode::ACCEPTED, builder.build());] *)
Definition accept (b : ExplanationBuilder) (s : CanonicalState) : Reply := (mutation_built b, s).

(** [size()] of a [std::map]. *)
Definition map_size `{Countable K} {A} (m : gmap K A) : Z := Z.of_nat (base.size m).

Definition generation_regressed (incoming current : Z) : bool :=
  negb (current =? 0) && negb (incoming =? 0) && (incoming <? current).

(** ** Catalog *)

Definition register_model (model : ModelDescriptor) (s : CanonicalState) : Reply :=
  let error := model_validate model in
  return_if error != "" with reject OutcomeCode.REJECT_INVALID "register_model" error s ;;
  return_if cs_shutting_down s
    with reject OutcomeCode.SHUTTING_DOWN "register_model" "router is shutting down" s ;;
  let existing := cs_models s !! md_model_id model in
  return_if (max_models (cs_limits s) <=? map_size (cs_models s)) && (existing == None)
    with reject OutcomeCode.REJECT_LIMIT "register_model" "model limit reached" s ;;
  return_if match cs_model_watermark s !! md_model_id model with
            | Some w => generation_regressed (value (md_model_generation model)) (value w)
            | None => false
            end
    with reject OutcomeCode.REJECT_STALE_MODEL "register_model"
           "model generation regressed below the observed watermark" s ;;
  return_if match existing with
            | Some e => (md_model_generation e == md_model_generation model) &&
                        (md_artifact_generation e == md_artifact_generation model) &&
                        (md_lifecycle e == md_lifecycle model)
            | None => false
            end
    with reject OutcomeCode.NO_CHANGE "register_model" "model generation is already registered" s ;;
  accept (builder OutcomeCode.ACCEPTED "register_model"
            >>> add_int "model_id" (value (md_model_id model))
            >>> add_int "model_generation" (value (md_model_generation model))
            >>> add_int "artifact_generation" (value (md_artifact_generation model)))
    (s <| cs_model_watermark := <[md_model_id model := md_model_generation model]> (cs_model_watermark s) |>
       <| cs_models := <[md_model_id model := model]> (cs_models s) |>).

Definition register_provider (provider : ProviderDescriptor) (s : CanonicalState) : Reply :=
  return_if negb (valid (pd_provider_id provider))
    with reject OutcomeCode.REJECT_INVALID "register_provider" "provider identity is invalid" s ;;
  return_if negb (valid (pd_generation provider))
    with reject OutcomeCode.REJECT_INVALID "register_provider" "provider generation is invalid" s ;;
  return_if cs_shutting_down s
    with reject OutcomeCode.SHUTTING_DOWN "register_provider" "router is shutting down" s ;;
  let existing := cs_providers s !! pd_provider_id provider in
  return_if (max_providers (cs_limits s) <=? map_size (cs_providers s)) && (existing == None)
    with reject OutcomeCode.REJECT_LIMIT "register_provider" "provider limit reached" s ;;
  return_if match existing with
            | Some e => (pd_generation e == pd_generation provider) &&
                        (pd_display_name e == pd_display_name provider)
            | None => false
            end
    with reject OutcomeCode.NO_CHANGE "register_provider" "provider generation is already registered" s ;;
  return_if match existing with
            | Some e => generation_regressed (value (pd_generation provider)) (value (pd_generation e))
            | None => false
            end
    with reject OutcomeCode.REJECT_STALE_BACKEND "register_provider" "provider generation regressed" s ;;
  accept (builder OutcomeCode.ACCEPTED "register_provider")
    (s <| cs_providers := <[pd_provider_id provider := provider]> (cs_providers s) |>).

(** [state.backends[id] = backend] with the indexes moved from the descriptor
    it replaces. *)
Definition replace_backend (backend : BackendDescriptor) (s : CanonicalState) : CanonicalState :=
  let id := bd_backend_id backend in
  let s := match cs_backends s !! id with
           | Some replaced => index_remove_backend replaced s
           | None => s
           end in
  index_add_backend backend (s <| cs_backends := <[id := backend]> (cs_backends s) |>).

Definition register_backend (backend : BackendDescriptor) (now : UnixMillis) (s : CanonicalState) : Reply :=
  let backend := backend_canonicalize backend in
  let error := backend_validate backend in
  let id := bd_backend_id backend in
  return_if error != "" with reject OutcomeCode.REJECT_INVALID "register_backend" error s ;;
  return_if cs_shutting_down s
    with reject OutcomeCode.SHUTTING_DOWN "register_backend" "router is shutting down" s ;;
  return_if is_fenced s id (bd_backend_boot backend)
    with reject OutcomeCode.REJECT_STALE_BACKEND_BOOT "register_backend"
           "backend incarnation is fenced and can never become authoritative again" s ;;
  let existing := cs_backends s !! id in
  return_if (max_backends (cs_limits s) <=? map_size (cs_backends s)) && (existing == None)
    with reject OutcomeCode.REJECT_LIMIT "register_backend" "backend limit reached" s ;;
  return_if match cs_backend_watermark s !! id with
            | Some w => generation_regressed (value (bd_backend_generation backend)) (value w)
            | None => false
            end
    with reject OutcomeCode.REJECT_STALE_BACKEND "register_backend"
           "backend generation regressed below the observed watermark" s ;;
  return_if match existing with
            | Some e => value (bd_registration_generation backend) <=? value (bd_registration_generation e)
            | None => false
            end
    with reject OutcomeCode.REJECT_STALE_BACKEND "register_backend"
           "registration generation did not advance" s ;;
  let s := s <| cs_backend_watermark := <[id := bd_backend_generation backend]> (cs_backend_watermark s) |> in
  accept (builder OutcomeCode.ACCEPTED "register_backend"
            >>> add_int "backend_id" (value id)
            >>> add_int "backend_generation" (value (bd_backend_generation backend))
            >>> add_int "backend_boot" (value (bd_backend_boot backend))
            >>> add_int "registration_generation" (value (bd_registration_generation backend))
            >>> add "provenance" (Provenance.to_string (bd_provenance backend)))
    (stale_decisions_for_authority_change now (replace_backend backend s)).

(** Removes the backend [existing] that [id] names. *)
Definition erase_backend (id : EntityId BackendTag) (existing : BackendDescriptor) (s : CanonicalState)
    : CanonicalState :=
  (index_remove_backend existing s) <| cs_backends := delete id (cs_backends s) |>.

(** The two passes over the retained decisions after an incarnation is gone. *)
Definition retire_incarnation (id : EntityId BackendTag) (boot : Generation BackendBootTag)
    (now : UnixMillis) (s : CanonicalState) : CanonicalState :=
  stale_decisions_for_authority_change now (stale_decisions_for_backend id boot s).

Definition fence_key (id : EntityId BackendTag) (boot : Generation BackendBootTag) : FenceKey :=
  {| fk_backend_id := id; fk_backend_boot := boot |}.

Definition unregister_backend (id : EntityId BackendTag) (generation : Generation BackendTag)
    (now : UnixMillis) (s : CanonicalState) : Reply :=
  return_if cs_shutting_down s
    with reject OutcomeCode.SHUTTING_DOWN "unregister_backend" "router is shutting down" s ;;
  match cs_backends s !! id with
  | None => reject OutcomeCode.NO_CHANGE "unregister_backend" "backend is not registered" s
  | Some existing =>
      return_if valid generation && (bd_backend_generation existing != generation)
        with reject OutcomeCode.REJECT_STALE_BACKEND "unregister_backend"
               "backend generation does not match the current registration" s ;;
      let retired_boot := bd_backend_boot existing in
      let fence_record := {| fb_backend_id := id; fb_backend_generation := bd_backend_generation existing;
        fb_backend_boot := retired_boot; fb_reason := OutcomeCode.FENCED; fb_fenced_at := now |} in
      let s := s <| cs_fenced_boots := <[fence_key id retired_boot := fence_record]> (cs_fenced_boots s) |> in
      accept (builder OutcomeCode.ACCEPTED "unregister_backend" >>> add_int "backend_id" (value id))
        (retire_incarnation id retired_boot now (erase_backend id existing s))
  end.

Definition fence_backend_boot (id : EntityId BackendTag) (generation : Generation BackendTag)
    (boot : Generation BackendBootTag) (reason : OutcomeCode.t) (now : UnixMillis) (s : CanonicalState) : Reply :=
  return_if negb (valid id) || negb (valid boot)
    with reject OutcomeCode.REJECT_INVALID "fence_backend_boot"
           "backend identity or incarnation is invalid" s ;;
  return_if is_fenced s id boot
    with reject OutcomeCode.NO_CHANGE "fence_backend_boot" "backend incarnation is already fenced" s ;;
  return_if max_backend_incarnations (cs_limits s) <=? map_size (cs_fenced_boots s)
    with reject OutcomeCode.REJECT_LIMIT "fence_backend_boot" "fenced incarnation limit reached" s ;;
  let record generation := {| fb_backend_id := id; fb_backend_generation := generation;
    fb_backend_boot := boot; fb_reason := reason; fb_fenced_at := now |} in
  let retires_current :=
    match cs_backends s !! id with
    | Some e => (bd_backend_boot e == boot) &&
                (negb (valid generation) || (bd_backend_generation e == generation))
    | None => false
    end in
  let '(fence_record, s) :=
    match cs_backends s !! id with
    | Some existing =>
        if retires_current then (record (bd_backend_generation existing), erase_backend id existing s)
        else (record generation, s)
    | None => (record generation, s)
    end in
  let s := s <| cs_fenced_boots := <[fence_key id boot := fence_record]> (cs_fenced_boots s) |> in
  accept (builder OutcomeCode.ACCEPTED "fence_backend_boot"
            >>> add_int "backend_id" (value id) >>> add_int "backend_boot" (value boot)
            >>> add "reason" (OutcomeCode.to_string reason))
    (retire_incarnation id boot now s).

(** The claims of a publication, bound to it and set one by one: an error, or
    the profile they make. *)
Fixpoint publish_claims (publication : BackendCapabilityPublication) (backend : BackendDescriptor)
    (max_entries : Z) (claims : list CapabilityEvidence) (profile : CapabilityProfile)
    : (OutcomeCode.t * string) + CapabilityProfile :=
  match claims with
  | [] => inr profile
  | claim :: claims =>
      let error := capability_key_validate (key_string (ce_key claim)) in
      return_if error != "" with inl (OutcomeCode.REJECT_INVALID, error) ;;
      let bound := claim <| ce_profile_id := pub_profile_id publication |>
        <| ce_generation := pub_generation publication |>
        <| ce_backend_boot := pub_backend_boot publication |>
        <| ce_backend_generation := bd_backend_generation backend |> in
      let '(ok, profile) := profile_set bound max_entries profile in
      return_if negb ok with inl (OutcomeCode.REJECT_LIMIT, "capability entry limit reached") ;;
      publish_claims publication backend max_entries claims profile
  end.

Definition publish_capabilities (publication : BackendCapabilityPublication) (now : UnixMillis)
    (s : CanonicalState) : Reply :=
  let reject code message := reject code "publish_capabilities" message s in
  let id := pub_backend_id publication in
  return_if negb (valid id) || negb (valid (pub_backend_boot publication))
    with reject OutcomeCode.REJECT_INVALID "publication has no valid backend identity or incarnation" ;;
  return_if negb (valid (pub_generation publication))
    with reject OutcomeCode.REJECT_INVALID "publication has no valid capability generation" ;;
  return_if cs_shutting_down s with reject OutcomeCode.SHUTTING_DOWN "router is shutting down" ;;
  return_if is_fenced s id (pub_backend_boot publication)
    with reject OutcomeCode.REJECT_STALE_BACKEND_BOOT
           "publication belongs to a fenced backend incarnation" ;;
  match cs_backends s !! id with
  | None => reject OutcomeCode.REJECT_STALE_BACKEND "backend is not registered"
  | Some backend =>
      return_if bd_backend_boot backend != pub_backend_boot publication
        with reject OutcomeCode.REJECT_STALE_BACKEND_BOOT
               "publication belongs to a different backend incarnation" ;;
      return_if valid (pub_backend_generation publication) &&
                (pub_backend_generation publication != bd_backend_generation backend)
        with reject OutcomeCode.REJECT_STALE_BACKEND "publication backend generation is not current" ;;
      return_if generation_regressed (value (pub_generation publication))
                  (value (bd_capability_generation backend))
        with reject OutcomeCode.REJECT_STALE_CAPABILITY "capability generation regressed" ;;
      let max_entries := max_capability_entries_per_backend (cs_limits s) in
      return_if max_entries <? Request.size (pub_claims publication)
        with reject OutcomeCode.REJECT_LIMIT "capability publication exceeds the configured limit" ;;
      let empty := {| profile_id := pub_profile_id publication;
                      profile_generation := pub_generation publication; profile_entries := [] |} in
      match publish_claims publication backend max_entries (pub_claims publication) empty with
      | inl (code, message) => reject code message
      | inr profile =>
          return_if valid (bd_capability_generation backend) &&
                    (pub_generation publication == bd_capability_generation backend)
            with (return_if profile_entries profile == profile_entries (bd_capabilities backend)
                    with reject OutcomeCode.NO_CHANGE "capability generation is already current" ;;
                  reject OutcomeCode.REJECT_CONFLICT
                    "capability claims changed without advancing the capability generation") ;;
          let backend := backend <| bd_capabilities := profile |>
            <| bd_capability_profile_id := pub_profile_id publication |>
            <| bd_capability_generation := pub_generation publication |> in
          accept (builder OutcomeCode.ACCEPTED "publish_capabilities"
                    >>> add_int "backend_id" (value id)
                    >>> add_int "backend_boot" (value (pub_backend_boot publication))
                    >>> add_int "capability_generation" (value (pub_generation publication))
                    >>> add_int "claims" (Request.size (pub_claims publication)))
            (stale_decisions_for_authority_change now
               (s <| cs_backends := <[id := backend]> (cs_backends s) |>))
      end
  end.

Definition retire_model (id : EntityId ModelTag) (generation : Generation ModelTag) (now : UnixMillis)
    (s : CanonicalState) : Reply :=
  return_if cs_shutting_down s
    with reject OutcomeCode.SHUTTING_DOWN "retire_model" "router is shutting down" s ;;
  match cs_models s !! id with
  | None => reject OutcomeCode.REJECT_STALE_MODEL "retire_model" "model is not registered" s
  | Some existing =>
      return_if valid generation && (md_model_generation existing != generation)
        with reject OutcomeCode.REJECT_STALE_MODEL "retire_model"
               "model generation is not the registered generation" s ;;
      return_if md_lifecycle existing == ModelLifecycle.RETIRED
        with reject OutcomeCode.NO_CHANGE "retire_model" "model is already retired" s ;;
      accept (builder OutcomeCode.ACCEPTED "retire_model" >>> add_int "model_id" (value id)
                >>> add_int "model_generation" (value (md_model_generation existing)))
        (stale_decisions_for_authority_change now
           (s <| cs_models := <[id := existing <| md_lifecycle := ModelLifecycle.RETIRED |>]> (cs_models s) |>))
  end.

(** ** Dynamic evidence *)

(** The slot of a descriptor that evidence of one kind is stored in: what
    [if constexpr] selects by the evidence type. *)
Class EvidenceSlot (S : Type) (g : Tag) := {
  slot : BackendDescriptor -> BackendEvidence S g;
  set_slot : BackendEvidence S g -> BackendDescriptor -> BackendDescriptor
}.
#[export] Instance health_slot : EvidenceSlot HealthState.t HealthTag :=
  {| slot := bd_health; set_slot e b := b <| bd_health := e |> |}.
#[export] Instance availability_slot : EvidenceSlot AvailabilityState.t AvailabilityTag :=
  {| slot := bd_availability; set_slot e b := b <| bd_availability := e |> |}.
#[export] Instance readiness_slot : EvidenceSlot ReadinessState.t ReadinessTag :=
  {| slot := bd_readiness; set_slot e b := b <| bd_readiness := e |> |}.
#[export] Instance capacity_slot : EvidenceSlot CapacityState.t CapacityTag :=
  {| slot := bd_capacity; set_slot e b := b <| bd_capacity := e |> |}.
#[export] Instance residency_slot : EvidenceSlot ResidencyState.t ResidencyTag :=
  {| slot := bd_residency; set_slot e b := b <| bd_residency := e |> |}.

Definition apply_evidence {S g} `{EqDecision S, EvidenceSlot S g} (evidence : BackendEvidence S g)
    (subject : string) (now : UnixMillis) (stale_code : OutcomeCode.t) (s : CanonicalState) : Reply :=
  let reject code message := reject code subject message s in
  let id := ev_backend_id evidence in
  return_if negb (valid id) || negb (valid (ev_backend_boot evidence))
    with reject OutcomeCode.REJECT_INVALID "evidence has no valid backend identity or incarnation" ;;
  return_if negb (valid (ev_generation evidence))
    with reject OutcomeCode.REJECT_INVALID "evidence has no valid generation" ;;
  return_if cs_shutting_down s with reject OutcomeCode.SHUTTING_DOWN "router is shutting down" ;;
  return_if is_fenced s id (ev_backend_boot evidence)
    with reject OutcomeCode.REJECT_STALE_BACKEND_BOOT "evidence belongs to a fenced backend incarnation" ;;
  match cs_backends s !! id with
  | None => reject OutcomeCode.REJECT_STALE_BACKEND "backend is not registered"
  | Some backend =>
      return_if bd_backend_boot backend != ev_backend_boot evidence
        with reject OutcomeCode.REJECT_STALE_BACKEND_BOOT
               "evidence belongs to a different backend incarnation" ;;
      return_if valid (ev_backend_generation evidence) &&
                (ev_backend_generation evidence != bd_backend_generation backend)
        with reject OutcomeCode.REJECT_STALE_BACKEND "evidence backend generation is not current" ;;
      let current := slot backend in
      return_if generation_regressed (value (ev_generation evidence)) (value (ev_generation current))
        with reject stale_code "evidence generation regressed" ;;
      return_if valid (ev_generation current) && (ev_generation evidence == ev_generation current)
        with (return_if (ev_state current == ev_state evidence) &&
                        (ev_expires_at current =? ev_expires_at evidence)
                with reject OutcomeCode.NO_CHANGE "evidence generation is already current" ;;
              reject OutcomeCode.REJECT_CONFLICT
                "evidence state changed without advancing its generation") ;;
      accept (builder OutcomeCode.ACCEPTED subject
                >>> add_int "backend_id" (value (bd_backend_id backend))
                >>> add_int "backend_boot" (value (bd_backend_boot backend))
                >>> add_int "generation" (value (ev_generation evidence)))
        (stale_decisions_for_authority_change now
           (s <| cs_backends := <[id := set_slot evidence backend]> (cs_backends s) |>))
  end.

Definition update_health (e : HealthEvidence) (now : UnixMillis) : CanonicalState -> Reply :=
  apply_evidence e "update_health" now OutcomeCode.REJECT_STALE_HEALTH.
Definition update_availability (e : AvailabilityEvidence) (now : UnixMillis) : CanonicalState -> Reply :=
  apply_evidence e "update_availability" now OutcomeCode.REJECT_STALE_AVAILABILITY.
Definition update_readiness (e : ReadinessEvidence) (now : UnixMillis) : CanonicalState -> Reply :=
  apply_evidence e "update_readiness" now OutcomeCode.REJECT_STALE_READINESS.
Definition update_residency (e : ResidencyEvidence) (now : UnixMillis) : CanonicalState -> Reply :=
  apply_evidence e "update_residency" now OutcomeCode.REJECT_STALE_RESIDENCY.

(** The second critical section of [update_capacity]: it takes the backend the
    detail names and stamps the detail with that backend's capacity generation. *)
Definition store_capacity_detail (detail : CapacityDetail) (s : CanonicalState) : CanonicalState :=
  match cs_backends s !! cd_backend_id detail with
  | None => s
  | Some existing =>
      s <| cs_backends := <[cd_backend_id detail := existing
             <| bd_capacity_detail := detail <| cd_generation := ev_generation (bd_capacity existing) |> |>]>
             (cs_backends s) |>
  end.

Definition update_capacity (e : CapacityEvidence) (detail : CapacityDetail) (now : UnixMillis)
    (s : CanonicalState) : Reply :=
  return_if valid (cd_backend_id detail) && (cd_backend_id detail != ev_backend_id e)
    with reject OutcomeCode.REJECT_CONFLICT "update_capacity"
           "capacity detail belongs to a different backend" s ;;
  return_if valid (cd_backend_boot detail) && (cd_backend_boot detail != ev_backend_boot e)
    with reject OutcomeCode.REJECT_CONFLICT "update_capacity"
           "capacity detail belongs to a different backend incarnation" s ;;
  let '(result, s) := apply_evidence e "update_capacity" now OutcomeCode.REJECT_STALE_CAPACITY s in
  return_if negb (accepted result) with (result, s) ;;
  (result, store_capacity_detail detail s).

Definition update_latency (e : LatencyEvidence) (now : UnixMillis) (s : CanonicalState) : Reply :=
  let reject code message := reject code "update_latency" message s in
  let id := lt_backend_id e in
  return_if negb (valid id) || negb (valid (lt_backend_boot e))
    with reject OutcomeCode.REJECT_INVALID
           "latency evidence has no valid backend identity or incarnation" ;;
  return_if cs_shutting_down s with reject OutcomeCode.SHUTTING_DOWN "router is shutting down" ;;
  return_if is_fenced s id (lt_backend_boot e)
    with reject OutcomeCode.REJECT_STALE_BACKEND_BOOT
           "latency evidence belongs to a fenced backend incarnation" ;;
  match cs_backends s !! id with
  | None => reject OutcomeCode.REJECT_STALE_BACKEND "backend is not registered"
  | Some backend =>
      return_if bd_backend_boot backend != lt_backend_boot e
        with reject OutcomeCode.REJECT_STALE_BACKEND_BOOT
               "latency evidence belongs to a different backend incarnation" ;;
      return_if generation_regressed (value (lt_health_generation e))
                  (value (lt_health_generation (bd_latency backend)))
        with reject OutcomeCode.REJECT_STALE_HEALTH "latency evidence generation regressed" ;;
      accept (builder OutcomeCode.ACCEPTED "update_latency"
                >>> add_int "backend_id" (value (bd_backend_id backend))
                >>> add_int "backend_boot" (value (bd_backend_boot backend)))
        (stale_decisions_for_authority_change now
           (s <| cs_backends := <[id := backend <| bd_latency := e |>]> (cs_backends s) |>))
  end.

(** ** Configuration evidence *)

Definition set_policy (policy : PolicySnapshot) (now : UnixMillis) (s : CanonicalState) : Reply :=
  let policy := policy_canonicalize policy in
  let error := policy_validate policy in
  let current := cs_policy s in
  return_if error != "" with reject OutcomeCode.REJECT_INVALID "set_policy" error s ;;
  return_if cs_shutting_down s
    with reject OutcomeCode.SHUTTING_DOWN "set_policy" "router is shutting down" s ;;
  return_if valid (po_generation current) &&
            generation_regressed (value (po_generation policy)) (value (po_generation current))
    with reject OutcomeCode.REJECT_STALE_POLICY "set_policy" "policy generation regressed" s ;;
  return_if valid (po_generation current) && (po_generation policy == po_generation current) &&
            (po_policy_id current != po_policy_id policy)
    with reject OutcomeCode.REJECT_CONFLICT "set_policy"
           "policy identity changed without advancing the policy generation" s ;;
  accept (builder OutcomeCode.ACCEPTED "set_policy"
            >>> add_int "policy_id" (value (po_policy_id policy))
            >>> add_int "policy_generation" (value (po_generation policy)))
    (stale_decisions_for_authority_change now (s <| cs_policy := policy |>)).

Definition set_budget (budget : BudgetSnapshot) (now : UnixMillis) (s : CanonicalState) : Reply :=
  let current := cs_budget s in
  return_if negb (valid (bu_generation budget))
    with reject OutcomeCode.REJECT_INVALID "set_budget" "budget generation is invalid" s ;;
  return_if cs_shutting_down s
    with reject OutcomeCode.SHUTTING_DOWN "set_budget" "router is shutting down" s ;;
  return_if valid (bu_generation current) &&
            generation_regressed (value (bu_generation budget)) (value (bu_generation current))
    with reject OutcomeCode.REJECT_STALE_BUDGET "set_budget" "budget generation regressed" s ;;
  accept (builder OutcomeCode.ACCEPTED "set_budget"
            >>> add_int "budget_id" (value (bu_budget_id budget))
            >>> add_int "budget_generation" (value (bu_generation budget))
            >>> add "verdict" (BudgetVerdict.to_string (bu_verdict budget)))
    (stale_decisions_for_authority_change now (s <| cs_budget := budget |>)).

Definition set_slo (slo : SloEvidence) (now : UnixMillis) (s : CanonicalState) : Reply :=
  let current := cs_slo s in
  return_if negb (valid (sl_generation slo))
    with reject OutcomeCode.REJECT_INVALID "set_slo" "SLO generation is invalid" s ;;
  return_if cs_shutting_down s
    with reject OutcomeCode.SHUTTING_DOWN "set_slo" "router is shutting down" s ;;
  return_if valid (sl_generation current) &&
            generation_regressed (value (sl_generation slo)) (value (sl_generation current))
    with reject OutcomeCode.REJECT_STALE_SLO "set_slo" "SLO generation regressed" s ;;
  accept (builder OutcomeCode.ACCEPTED "set_slo"
            >>> add_int "slo_id" (value (sl_slo_id slo))
            >>> add_int "slo_generation" (value (sl_generation slo))
            >>> add "verdict" (SloVerdict.to_string (sl_verdict slo)))
    (stale_decisions_for_authority_change now (s <| cs_slo := slo |>)).

Definition set_compatibility (e : CompatibilityEvidence) (now : UnixMillis) (s : CanonicalState) : Reply :=
  return_if negb (valid (cp_backend_id e)) || negb (valid (cp_generation e))
    with reject OutcomeCode.REJECT_INVALID "set_compatibility"
           "compatibility evidence has no valid backend identity or generation" s ;;
  return_if cs_shutting_down s
    with reject OutcomeCode.SHUTTING_DOWN "set_compatibility" "router is shutting down" s ;;
  return_if match cs_compatibility s !! cp_backend_id e with
            | Some existing => generation_regressed (value (cp_generation e)) (value (cp_generation existing))
            | None => false
            end
    with reject OutcomeCode.REJECT_STALE_COMPATIBILITY "set_compatibility"
           "compatibility generation regressed" s ;;
  accept (builder OutcomeCode.ACCEPTED "set_compatibility")
    (stale_decisions_for_authority_change now
       (s <| cs_compatibility := <[cp_backend_id e := e]> (cs_compatibility s) |>)).

(** The descriptor takes over the profile, generation and domain; its trust
    index entry moves with it. *)
Definition apply_trust (e : TrustEvidence) (s : CanonicalState) : CanonicalState :=
  match cs_backends s !! tr_backend_id e with
  | None => s
  | Some backend =>
      let s := index_remove_backend backend s in
      let backend := backend <| bd_trust_profile_id := tr_profile_id e |>
        <| bd_trust_generation := tr_generation e |> <| bd_trust_domain := tr_domain e |> in
      index_add_backend backend
        (s <| cs_backends := <[tr_backend_id e := backend]> (cs_backends s) |>)
  end.

Definition set_trust (e : TrustEvidence) (now : UnixMillis) (s : CanonicalState) : Reply :=
  let existing := cs_trust s !! tr_backend_id e in
  return_if negb (valid (tr_profile_id e)) || negb (valid (tr_generation e)) || negb (valid (tr_backend_id e))
    with reject OutcomeCode.REJECT_INVALID "set_trust"
           "trust evidence has no valid profile identity, generation, or backend identity" s ;;
  return_if cs_shutting_down s
    with reject OutcomeCode.SHUTTING_DOWN "set_trust" "router is shutting down" s ;;
  return_if match existing with
            | Some x => generation_regressed (value (tr_generation e)) (value (tr_generation x))
            | None => false
            end
    with reject OutcomeCode.REJECT_STALE_TRUST "set_trust" "trust generation regressed" s ;;
  return_if match existing with
            | Some x => (tr_generation e == tr_generation x) && (tr_domain x == tr_domain e)
            | None => false
            end
    with reject OutcomeCode.NO_CHANGE "set_trust" "trust generation is already current" s ;;
  accept (builder OutcomeCode.ACCEPTED "set_trust"
            >>> add_int "backend_id" (value (tr_backend_id e))
            >>> add_int "trust_profile_id" (value (tr_profile_id e))
            >>> add_int "trust_generation" (value (tr_generation e))
            >>> add "domain" (TrustDomain.to_string (tr_domain e)))
    (stale_decisions_for_authority_change now
       (apply_trust e (s <| cs_trust := <[tr_backend_id e := e]> (cs_trust s) |>))).

Definition set_cost (e : CostEvidence) (now : UnixMillis) (s : CanonicalState) : Reply :=
  let reject code message := reject code "set_cost" message s in
  let id := co_backend_id e in
  return_if negb (valid (co_price_generation e)) || negb (valid id) || negb (valid (co_model_id e))
    with reject OutcomeCode.REJECT_INVALID
           "cost evidence has no valid price generation, backend identity, or model identity" ;;
  return_if (co_knownness e != CostKnownness.UNKNOWN) && negb (unit_valid (co_unit e))
    with reject OutcomeCode.REJECT_INVALID "known cost evidence has no cost unit identity" ;;
  return_if co_estimated_total_micros e <? 0
    with reject OutcomeCode.REJECT_INVALID "cost evidence has a negative estimated total" ;;
  return_if cs_shutting_down s with reject OutcomeCode.SHUTTING_DOWN "router is shutting down" ;;
  match cs_backends s !! id with
  | None => reject OutcomeCode.REJECT_STALE_BACKEND "backend is not registered"
  | Some backend =>
      match find_binding backend (co_model_id e) with
      | None => reject OutcomeCode.REJECT_STALE_MODEL
                  "backend does not bind the model the cost evidence refers to"
      | Some binding =>
          let cost := mb_cost binding in
          return_if generation_regressed (value (co_price_generation e)) (value (co_price_generation cost))
            with reject OutcomeCode.REJECT_STALE_PRICE "price generation regressed" ;;
          return_if valid (co_price_generation cost) && (co_price_generation e == co_price_generation cost) &&
                    (co_knownness cost == co_knownness e) &&
                    (co_estimated_total_micros cost =? co_estimated_total_micros e) &&
                    (co_unit cost == co_unit e)
            with reject OutcomeCode.NO_CHANGE "price generation is already current" ;;
          let bindings := replace_sorted id_ltb mb_model_id (bd_model_bindings backend)
                            (binding <| mb_cost := e |>) in
          accept (builder OutcomeCode.ACCEPTED "set_cost"
                    >>> add_int "backend_id" (value id)
                    >>> add_int "model_id" (value (co_model_id e))
                    >>> add_int "price_generation" (value (co_price_generation e))
                    >>> add "knownness" (CostKnownness.to_string (co_knownness e))
                    >>> add "currency" (cu_currency (co_unit e))
                    >>> add "basis" (cu_basis (co_unit e))
                    >>> add_int "estimated_total_micros" (co_estimated_total_micros e))
            (stale_decisions_for_authority_change now
               (s <| cs_backends := <[id := backend <| bd_model_bindings := bindings |>]> (cs_backends s) |>
                  <| cs_costs := <[(id, co_model_id e) := e]> (cs_costs s) |>))
      end
  end.

(** ** Construction and lifecycle *)

Record ModelRouterOptions := {
  op_router_id : EntityId RouterTag;
  op_router_generation : Generation RouterTag;
  op_limits : ResourceLimits;
  op_weights : RankingWeights;
  op_scales : RankingScales;
  op_persistence_path : string;
  op_load_on_start : bool;
  op_save_on_shutdown : bool;
  op_use_catalog_adapters : bool
}.
#[export] Instance model_router_options_eta : Eta ModelRouterOptions := fun r =>
  {| op_router_id := op_router_id r;
     op_router_generation := op_router_generation r;
     op_limits := op_limits r;
     op_weights := op_weights r;
     op_scales := op_scales r;
     op_persistence_path := op_persistence_path r;
     op_load_on_start := op_load_on_start r;
     op_save_on_shutdown := op_save_on_shutdown r;
     op_use_catalog_adapters := op_use_catalog_adapters r |}.
Definition model_router_options_default : ModelRouterOptions := {|
  op_router_id := none;
  op_router_generation := none;
  op_limits := default_resource_limits;
  op_weights := ranking_weights_default;
  op_scales := ranking_scales_default;
  op_persistence_path := "";
  op_load_on_start := false;
  op_save_on_shutdown := false;
  op_use_catalog_adapters := true
|}.

Definition options_validate (o : ModelRouterOptions) : string :=
  let limits_error := limits_validate (op_limits o) in
  return_if limits_error != "" with "resource limits are incoherent: " +:+ limits_error ;;
  let weights_error := weights_validate (op_weights o) in
  return_if weights_error != "" with "ranking weights are incoherent: " +:+ weights_error ;;
  let scales_error := scales_validate (op_scales o) in
  return_if scales_error != "" with "ranking scales are incoherent: " +:+ scales_error ;;
  return_if op_save_on_shutdown o && (op_persistence_path o == "")
    with "save_on_shutdown is set without a persistence path" ;;
  return_if op_load_on_start o && (op_persistence_path o == "")
    with "load_on_start is set without a persistence path" ;;
  "".

(** The constructor: an identity is allocated when none is given. *)
Definition router_init (o : ModelRouterOptions) (ids : Allocator) : CanonicalState * Allocator :=
  let '(router_id, ids) := if valid (op_router_id o) then (op_router_id o, ids)
                           else allocate_id RouterTag ids in
  (canonical_state_default <| cs_limits := op_limits o |> <| cs_weights := op_weights o |>
     <| cs_scales := op_scales o |> <| cs_router_id := router_id |>
     <| cs_router_generation := if valid (op_router_generation o) then op_router_generation o
                                else GenerationOf 1 |>, ids).

(** The first critical section of [start]: it clears the shutdown flag before
    anything is loaded. *)
Definition start_admit (s : CanonicalState) : option MutationResult * CanonicalState :=
  return_if cs_running s
    with (Some (mutation_make OutcomeCode.NO_CHANGE "start" "router is already running"), s) ;;
  (None, s <| cs_shutting_down := false |>).

(** The last critical section of [start]: the epochs advance. *)
Definition start_publish (now : UnixMillis) (s : CanonicalState) : Reply :=
  return_if cs_running s
    with reject OutcomeCode.NO_CHANGE "start" "router is already running" s ;;
  let s := s <| cs_router_boot := next (cs_router_boot s) |>
    <| cs_router_epoch := next (cs_router_epoch s) |>
    <| cs_coordinator_epoch := next (cs_coordinator_epoch s) |>
    <| cs_running := true |> <| cs_shutting_down := false |> <| cs_started_at := now |> in
  accept (builder OutcomeCode.ACCEPTED "start"
            >>> add_int "router_id" (value (cs_router_id s))
            >>> add_int "router_generation" (value (cs_router_generation s))
            >>> add_int "router_epoch" (value (cs_router_epoch s))
            >>> add_int "coordinator_epoch" (value (cs_coordinator_epoch s))
            >>> add_int "router_boot" (value (cs_router_boot s))
            >>> add_bool "recovered" (cs_recovered s)
            >>> set_message "router identity published; dynamic evidence requires fresh publication") s.

(** [start] of a router without durable state to load. *)
Definition start (o : ModelRouterOptions) (now : UnixMillis) (s : CanonicalState) : Reply :=
  let options_error := options_validate o in
  return_if options_error != ""
    with reject OutcomeCode.REJECT_INVALID "start" ("router options are invalid: " +:+ options_error) s ;;
  match start_admit s with
  | (Some refused, s) => (refused, s)
  | (None, s) => start_publish now s
  end.

Definition shutdown_decision (r : RouteRecord) : RouteRecord :=
  return_if de_status (rec_decision r) == RouteStatus.CURRENT
    with r <| rec_decision := (rec_decision r) <| de_status := RouteStatus.STALE |> |> ;;
  r.

(** The first critical section of [shutdown], without the export of durable
    state that [save_on_shutdown] asks for. *)
Definition shutdown_stop (s : CanonicalState) : option MutationResult * CanonicalState :=
  return_if negb (cs_running s) && negb (cs_shutting_down s)
    with (Some (mutation_make OutcomeCode.NO_CHANGE "shutdown" "router is not running"), s) ;;
  (None, s <| cs_shutting_down := true |> <| cs_routes := shutdown_decision <$> cs_routes s |>
           <| cs_running := false |>).

(** [shutdown] of a router that does not save. *)
Definition shutdown (s : CanonicalState) : Reply :=
  match shutdown_stop s with
  | (Some refused, s) => (refused, s)
  | (None, s) =>
      accept (builder OutcomeCode.ACCEPTED "shutdown"
                >>> add_int "router_epoch" (value (cs_router_epoch s))
                >>> add_bool "persisted" false
                >>> set_message "router stopped accepting route requests") s
  end.

(** ** The mutating calls *)

Inductive MutationCall :=
| RegisterModel (model : ModelDescriptor)
| RegisterProvider (provider : ProviderDescriptor)
| RegisterBackend (backend : BackendDescriptor)
| UnregisterBackend (id : EntityId BackendTag) (generation : Generation BackendTag)
| PublishCapabilities (publication : BackendCapabilityPublication)
| RetireModel (id : EntityId ModelTag) (generation : Generation ModelTag)
| FenceBackendBoot (id : EntityId BackendTag) (generation : Generation BackendTag)
    (boot : Generation BackendBootTag) (reason : OutcomeCode.t)
| UpdateHealth (e : HealthEvidence)
| UpdateAvailability (e : AvailabilityEvidence)
| UpdateReadiness (e : ReadinessEvidence)
| UpdateResidency (e : ResidencyEvidence)
| UpdateCapacity (e : CapacityEvidence) (detail : CapacityDetail)
| UpdateLatency (e : LatencyEvidence)
| SetPolicy (policy : PolicySnapshot)
| SetBudget (budget : BudgetSnapshot)
| SetSlo (slo : SloEvidence)
| SetCompatibility (e : CompatibilityEvidence)
| SetTrust (e : TrustEvidence)
| SetCost (e : CostEvidence).

Definition perform (call : MutationCall) (now : UnixMillis) (s : CanonicalState) : Reply :=
  match call with
  | RegisterModel model => register_model model s
  | RegisterProvider provider => register_provider provider s
  | RegisterBackend backend => register_backend backend now s
  | UnregisterBackend id generation => unregister_backend id generation now s
  | PublishCapabilities publication => publish_capabilities publication now s
  | RetireModel id generation => retire_model id generation now s
  | FenceBackendBoot id generation boot reason => fence_backend_boot id generation boot reason now s
  | UpdateHealth e => update_health e now s
  | UpdateAvailability e => update_availability e now s
  | UpdateReadiness e => update_readiness e now s
  | UpdateResidency e => update_residency e now s
  | UpdateCapacity e detail => update_capacity e detail now s
  | UpdateLatency e => update_latency e now s
  | SetPolicy policy => set_policy policy now s
  | SetBudget budget => set_budget budget now s
  | SetSlo slo => set_slo slo now s
  | SetCompatibility e => set_compatibility e now s
  | SetTrust e => set_trust e now s
  | SetCost e => set_cost e now s
  end.

(** ** Reasoning about a reply *)

Lemma if_reply (Q : Reply -> Prop) (c : bool) r1 r2 :
  (c = true -> Q r1) -> (c = false -> Q r2) -> Q (if c then r1 else r2).
Proof. destruct c; auto. Qed.

(** Walks down the early returns of an operation to its replies. *)
Ltac walk_step :=
  lazymatch goal with
  | |- ?Q (if _ then _ else _) => apply (if_reply Q); intros ?
  | |- ?Q (match ?x with Some _ => _ | None => _ end) => destruct x eqn:?
  | |- ?Q (match ?x with inl _ => _ | inr _ => _ end) => destruct x as [[? ?]|?] eqn:?
  | |- ?Q (let '(_, _) := ?x in _) => destruct x eqn:?
  end.
Ltac walk := repeat (cbv zeta; walk_step).

Ltac unfold_call :=
  unfold perform, register_model, register_provider, register_backend, unregister_backend,
    publish_capabilities, retire_model, fence_backend_boot, update_health, update_availability,
    update_readiness, update_residency, update_capacity, update_latency, set_policy, set_budget, set_slo,
    set_compatibility, set_trust, set_cost.

(** ** Refused calls *)

(** What a reply that is not ACCEPTED leaves behind. *)
Definition refused_keeps (s : CanonicalState) (r : Reply) : Prop :=
  mr_code (fst r) <> OutcomeCode.ACCEPTED -> snd r = s.

Lemma reject_keeps code subject message s : refused_keeps s (reject code subject message s).
Proof. by intros _. Qed.

Lemma accept_keeps subject fs s s' :
  refused_keeps s (accept {| b_code := OutcomeCode.ACCEPTED; b_subject := subject; b_message := "";
                             b_factors := fs |} s').
Proof. by intros []. Qed.

Lemma apply_evidence_keeps {S g} `{EqDecision S, EvidenceSlot S g} (e : BackendEvidence S g) subject now code s :
  refused_keeps s (apply_evidence e subject now code s).
Proof. unfold apply_evidence. walk; first [apply reject_keeps | apply accept_keeps]. Qed.

Lemma publish_claims_code publication backend n claims profile code message :
  publish_claims publication backend n claims profile = inl (code, message) -> code <> OutcomeCode.ACCEPTED.
Proof.
  revert profile. induction claims as [|claim claims IH]; intros profile; simpl; [done|].
  destruct (_ != _); [by intros [= <- _]|]. destruct (profile_set _ _ _) as [ok profile'].
  destruct ok; simpl; [apply IH | by intros [= <- _]].
Qed.

(** The codes evidence is answered with: no other acceptance. *)
Lemma apply_evidence_code {S g} `{EqDecision S, EvidenceSlot S g} (e : BackendEvidence S g) subject now code s :
  OutcomeCode.is_rejection code = true ->
  let r := fst (apply_evidence e subject now code s) in
  accepted r = true -> mr_code r = OutcomeCode.ACCEPTED \/ mr_code r = OutcomeCode.NO_CHANGE.
Proof.
  intros Hcode. set (Q := fun r : Reply => accepted (fst r) = true ->
    mr_code (fst r) = OutcomeCode.ACCEPTED \/ mr_code (fst r) = OutcomeCode.NO_CHANGE).
  change (Q (apply_evidence e subject now code s)). unfold apply_evidence.
  walk; unfold Q, accepted; simpl; auto; try discriminate. destruct code; discriminate.
Qed.

Lemma update_capacity_keeps e detail now s :
  let r := update_capacity e detail now s in
  mr_code (fst r) <> OutcomeCode.ACCEPTED ->
  snd r = s \/ mr_code (fst r) = OutcomeCode.NO_CHANGE /\ snd r = store_capacity_detail detail s.
Proof.
  cbv zeta. unfold update_capacity.
  pose proof (apply_evidence_keeps e "update_capacity" now OutcomeCode.REJECT_STALE_CAPACITY s) as Hk.
  pose proof (apply_evidence_code e "update_capacity" now OutcomeCode.REJECT_STALE_CAPACITY s eq_refl) as Hc.
  destruct (apply_evidence _ _ _ _ _) as [result s']. unfold refused_keeps in Hk. cbn [fst snd] in Hk, Hc.
  destruct (_ && _); [by left|]. destruct (_ && _); [by left|]. cbv beta iota zeta.
  destruct (accepted result) eqn:Ea; cbn [negb fst snd]; [|left; by apply Hk].
  intros Hn. right. destruct (Hc eq_refl) as [?|?]; [done|]. by rewrite (Hk Hn).
Qed.

(** C33: a call that is not accepted changes nothing; the one exception is a
    repeated capacity report, which answers NO_CHANGE and still overwrites the
    stored capacity detail. *)
Theorem refused_call_keeps_state (call : MutationCall) (now : UnixMillis) (s : CanonicalState) :
  let r := perform call now s in
  mr_code (fst r) <> OutcomeCode.ACCEPTED ->
  snd r = s \/
  exists e detail, call = UpdateCapacity e detail /\ mr_code (fst r) = OutcomeCode.NO_CHANGE /\
    snd r = store_capacity_detail detail s.
Proof.
  cbv zeta. intros Hn.
  enough (refused_keeps s (perform call now s) \/
    exists e detail, call = UpdateCapacity e detail) as [Hk|(e & d & ->)].
  - left. by apply Hk.
  - destruct (update_capacity_keeps e d now s Hn) as [?|[? ?]]; [by left|]. right. by exists e, d.
  - destruct call; try (right; by eauto); left; unfold_call; try apply apply_evidence_keeps;
      walk; first [apply reject_keeps | apply accept_keeps].
Qed.

Lemma refused_call_keeps_state_witness :
  snd (perform (SetBudget budget_snapshot_default) 5 canonical_state_default) = canonical_state_default \/
  exists e detail, SetBudget budget_snapshot_default = UpdateCapacity e detail /\
    mr_code (fst (perform (SetBudget budget_snapshot_default) 5 canonical_state_default)) = OutcomeCode.NO_CHANGE /\
    snd (perform (SetBudget budget_snapshot_default) 5 canonical_state_default) =
      store_capacity_detail detail canonical_state_default.
Proof. apply (refused_call_keeps_state (SetBudget budget_snapshot_default) 5 canonical_state_default). discriminate. Defined.

(** ** Well-formed states *)

Record router_wf (s : CanonicalState) : Prop := {
  wf_keyed : keyed s;
  wf_models : forall id m, cs_models s !! id = Some m -> md_model_id m = id;
  wf_indexes : indexes_ok s;
  wf_backend_watermark : forall id d, cs_backends s !! id = Some d ->
    cs_backend_watermark s !! id = Some (bd_backend_generation d);
  wf_model_watermark : forall id m, cs_models s !! id = Some m ->
    cs_model_watermark s !! id = Some (md_model_generation m)
}.

(** No registered backend runs a fenced incarnation. *)
Definition fences_respected (s : CanonicalState) : Prop :=
  forall id d, cs_backends s !! id = Some d -> is_fenced s id (bd_backend_boot d) = false.

(** A descriptor that replaces another in place: same incarnation, same index
    keys. *)
Record in_place (d d' : BackendDescriptor) : Prop := {
  in_place_id : bd_backend_id d' = bd_backend_id d;
  in_place_boot : bd_backend_boot d' = bd_backend_boot d;
  in_place_generation : bd_backend_generation d' = bd_backend_generation d;
  in_place_provider : bd_provider_id d' = bd_provider_id d;
  in_place_trust : bd_trust_domain d' = bd_trust_domain d;
  in_place_models : model_keys d' = model_keys d
}.

Lemma index_of_in_place {K} `{Countable K} (keys : BackendDescriptor -> list K) index backends id d d' :
  index_of keys index backends -> backends !! id = Some d -> keys d' = keys d ->
  index_of keys index (<[id := d']> backends).
Proof.
  intros [Hi Hn] Hd E. split; [|done]. intros k id'. rewrite Hi. split; intros (x & Hx & Hk).
  - destruct (decide (id' = id)) as [->|Hne].
    + exists d'. rewrite lookup_insert_eq, E. naive_solver.
    + exists x. by rewrite lookup_insert_ne.
  - apply lookup_insert_Some in Hx as [[<- <-]|[_ Hx]]; [|eauto]. exists d. by rewrite <- E.
Qed.

Lemma wf_update_backend s id d d' :
  router_wf s -> cs_backends s !! id = Some d -> in_place d d' ->
  router_wf (s <| cs_backends := <[id := d']> (cs_backends s) |>).
Proof.
  intros [Hk Hm (Hi1 & Hi2 & Hi3) Hbw Hmw] Hd [E1 E2 E3 E4 E5 E6]. split; unfold keyed; simpl; try done.
  - intros id' x [[<- <-]|[_ Hx]]%lookup_insert_Some; [rewrite E1; by apply Hk | by apply Hk].
  - split_and!; simpl.
    + by eapply index_of_in_place.
    + eapply index_of_in_place; [done..|]. unfold provider_keys. by rewrite E4.
    + eapply index_of_in_place; [done..|]. unfold trust_keys. by rewrite E5.
  - intros id' x [[<- <-]|[_ Hx]]%lookup_insert_Some; [rewrite E3; by apply Hbw | by apply Hbw].
Qed.

(** Retained decisions, evidence maps and configuration play no part. *)
Lemma wf_frame s s' :
  cs_models s' = cs_models s -> cs_backends s' = cs_backends s ->
  cs_model_watermark s' = cs_model_watermark s -> cs_backend_watermark s' = cs_backend_watermark s ->
  cs_index_by_model s' = cs_index_by_model s -> cs_index_by_provider s' = cs_index_by_provider s ->
  cs_index_by_trust s' = cs_index_by_trust s ->
  router_wf s -> router_wf s'.
Proof.
  intros E1 E2 E4 E5 E6 E7 E8 [Hk Hm Hi Hbw Hmw].
  split; unfold keyed, indexes_ok in *; rewrite ?E1, ?E2, ?E4, ?E5, ?E6, ?E7, ?E8; done.
Qed.

Lemma wf_stale_change now s : router_wf s -> router_wf (stale_decisions_for_authority_change now s).
Proof. by apply wf_frame. Qed.
Lemma wf_retire id boot now s : router_wf s -> router_wf (retire_incarnation id boot now s).
Proof. by apply wf_frame. Qed.

Lemma wf_register_model m s :
  router_wf s ->
  router_wf (s <| cs_model_watermark := <[md_model_id m := md_model_generation m]> (cs_model_watermark s) |>
               <| cs_models := <[md_model_id m := m]> (cs_models s) |>).
Proof.
  intros [Hk Hm Hi Hbw Hmw]. split; unfold keyed; simpl; try done.
  - intros id x [[<- <-]|[_ Hx]]%lookup_insert_Some; [done|by apply Hm].
  - intros id x [[<- <-]|[Hne Hx]]%lookup_insert_Some; [by rewrite lookup_insert_eq|].
    rewrite lookup_insert_ne by done. by apply Hmw.
Qed.

Lemma wf_retire_model id m s :
  router_wf s -> cs_models s !! id = Some m ->
  router_wf (s <| cs_models := <[id := m <| md_lifecycle := ModelLifecycle.RETIRED |>]> (cs_models s) |>).
Proof.
  intros [Hk Hm Hi Hbw Hmw] E. split; unfold keyed; simpl; try done.
  - intros id' x [[<- <-]|[_ Hx]]%lookup_insert_Some; [exact (Hm _ _ E)|by apply Hm].
  - intros id' x [[<- <-]|[Hne Hx]]%lookup_insert_Some; [exact (Hmw _ _ E)|by apply Hmw].
Qed.

Lemma replace_backend_indexes d s :
  keyed s -> indexes_ok s -> indexes_ok (replace_backend d s).
Proof.
  intros Hk Hi. unfold replace_backend. destruct (cs_backends s !! bd_backend_id d) as [old|] eqn:E.
  - exact (index_replace_ok s old d Hi E (Hk _ _ E)).
  - by apply index_add_ok.
Qed.

Lemma replace_backend_frame d s :
  let s' := replace_backend d s in
  cs_backends s' = <[bd_backend_id d := d]> (cs_backends s) /\ cs_models s' = cs_models s /\
  cs_fenced_boots s' = cs_fenced_boots s /\ cs_model_watermark s' = cs_model_watermark s /\
  cs_backend_watermark s' = cs_backend_watermark s.
Proof. cbv zeta. unfold replace_backend. by destruct (cs_backends s !! _). Qed.

Lemma wf_replace_backend d s :
  router_wf s ->
  router_wf (replace_backend d
    (s <| cs_backend_watermark := <[bd_backend_id d := bd_backend_generation d]> (cs_backend_watermark s) |>)).
Proof.
  intros [Hk Hm Hi Hbw Hmw].
  set (s1 := s <| cs_backend_watermark := _ |>).
  pose proof (replace_backend_indexes d s1 Hk Hi) as Hi'.
  destruct (replace_backend_frame d s1) as (E1 & E2 & E3 & E4 & E5).
  split; unfold keyed in *; rewrite ?E1, ?E2, ?E4, ?E5; simpl; try done.
  - intros id x [[<- <-]|[_ Hx]]%lookup_insert_Some; [done|by apply Hk].
  - intros id x [[<- <-]|[Hne Hx]]%lookup_insert_Some; [by rewrite lookup_insert_eq|].
    rewrite lookup_insert_ne by done. by apply Hbw.
Qed.

Lemma wf_erase_backend id d s :
  router_wf s -> cs_backends s !! id = Some d -> router_wf (erase_backend id d s).
Proof.
  intros [Hk Hm Hi Hbw Hmw] E.
  pose proof (index_remove_ok s id d Hi E (Hk _ _ E)) as Hi'.
  split; unfold keyed; simpl; try done.
  - intros id' x [_ Hx]%lookup_delete_Some. by apply Hk.
  - intros id' x [_ Hx]%lookup_delete_Some. by apply Hbw.
Qed.

Lemma is_fenced_insert s id boot r id' boot' :
  is_fenced (s <| cs_fenced_boots := <[fence_key id boot := r]> (cs_fenced_boots s) |>) id' boot' =
  ((id' == id) && (boot' == boot)) || is_fenced s id' boot'.
Proof.
  unfold is_fenced, fence_key. cbn [cs_fenced_boots update_field].
  apply eq_true_iff_eq. rewrite orb_true_iff, andb_true_iff, !bool_decide_eq_true. simpl.
  destruct (decide (id' = id /\ boot' = boot)) as [[-> ->]|Hne].
  - rewrite lookup_insert_eq. naive_solver.
  - rewrite lookup_insert_ne by (intros [= -> ->]; tauto). tauto.
Qed.

(** ** Fences *)

Lemma fences_frame s s' :
  cs_backends s' = cs_backends s -> cs_fenced_boots s' = cs_fenced_boots s ->
  fences_respected s -> fences_respected s'.
Proof. intros E1 E2. unfold fences_respected, is_fenced. by rewrite E1, E2. Qed.

Lemma fences_update_backend s id d d' :
  fences_respected s -> cs_backends s !! id = Some d -> bd_backend_boot d' = bd_backend_boot d ->
  fences_respected (s <| cs_backends := <[id := d']> (cs_backends s) |>).
Proof.
  intros Hf Hd E id' x Hx. change (<[id := d']> (cs_backends s) !! id' = Some x) in Hx.
  apply lookup_insert_Some in Hx as [[<- <-]|[_ Hx]]; [rewrite E; exact (Hf _ _ Hd) | exact (Hf _ _ Hx)].
Qed.

Lemma fences_replace_backend d s :
  fences_respected s -> is_fenced s (bd_backend_id d) (bd_backend_boot d) = false ->
  fences_respected (replace_backend d s).
Proof.
  intros Hf Hu. destruct (replace_backend_frame d s) as (E1 & _ & E3 & _).
  unfold fences_respected, is_fenced in *. rewrite E1, E3.
  intros id' x [[<- <-]|[_ Hx]]%lookup_insert_Some; [done | exact (Hf _ _ Hx)].
Qed.

Lemma fences_erase_backend id d s : fences_respected s -> fences_respected (erase_backend id d s).
Proof.
  intros Hf id' x Hx. change (delete id (cs_backends s) !! id' = Some x) in Hx.
  apply lookup_delete_Some in Hx as [_ Hx]. exact (Hf _ _ Hx).
Qed.

(** Fencing is safe once no registered backend runs the incarnation. *)
Lemma fences_fence id boot r s :
  fences_respected s -> (forall d, cs_backends s !! id = Some d -> bd_backend_boot d <> boot) ->
  fences_respected (s <| cs_fenced_boots := <[fence_key id boot := r]> (cs_fenced_boots s) |>).
Proof.
  intros Hf Hb id' d Hd. change (cs_backends s !! id' = Some d) in Hd.
  rewrite is_fenced_insert, (Hf id' d Hd), orb_false_r.
  apply andb_false_iff. destruct (decide (id' = id)) as [->|Hne].
  - right. apply bool_decide_eq_false. by apply Hb.
  - left. by apply bool_decide_eq_false.
Qed.

(** What a slot promises: writing it is in place and read back. *)
Class EvidenceSlotLaws (S : Type) (g : Tag) `{EvidenceSlot S g} : Prop := {
  slot_set : forall e d, slot (set_slot e d) = e;
  set_slot_in_place : forall e d, in_place d (set_slot e d)
}.
#[export] Instance health_slot_laws : EvidenceSlotLaws HealthState.t HealthTag.
Proof. by repeat split. Qed.
#[export] Instance availability_slot_laws : EvidenceSlotLaws AvailabilityState.t AvailabilityTag.
Proof. by repeat split. Qed.
#[export] Instance readiness_slot_laws : EvidenceSlotLaws ReadinessState.t ReadinessTag.
Proof. by repeat split. Qed.
#[export] Instance capacity_slot_laws : EvidenceSlotLaws CapacityState.t CapacityTag.
Proof. by repeat split. Qed.
#[export] Instance residency_slot_laws : EvidenceSlotLaws ResidencyState.t ResidencyTag.
Proof. by repeat split. Qed.

(** Replacing the element a search found keeps the keys. *)
Lemma replace_sorted_keys {A K} `{EqDecision K} (ltb : K -> K -> bool) (key_of : A -> K) l k x x' :
  find_sorted ltb key_of l k = Some x -> key_of x' = k ->
  key_of <$> replace_sorted ltb key_of l x' = key_of <$> l.
Proof.
  unfold find_sorted, replace_sorted, position. intros Hf <-.
  destruct (l !! _) as [y|] eqn:E; [|done]. revert Hf. case_bool_decide as Ek; [|done]. intros _.
  rewrite list_fmap_insert, list_insert_id; [done|]. by rewrite list_lookup_fmap, E, <- Ek.
Qed.

Lemma find_binding_key d id b : find_binding d id = Some b -> mb_model_id b = id.
Proof. by intros [_ H]%find_sorted_elem. Qed.

Lemma wf_apply_trust e s : router_wf s -> router_wf (apply_trust e s).
Proof.
  intros Hwf. unfold apply_trust. destruct (cs_backends s !! tr_backend_id e) as [d|] eqn:E; [|done].
  pose proof Hwf as [Hk Hm Hi Hbw Hmw]. pose proof (Hk _ _ E) as Hid.
  set (d' := d <| bd_trust_profile_id := _ |> <| bd_trust_generation := _ |> <| bd_trust_domain := _ |>).
  assert (Hi' : indexes_ok (index_add_backend d' ((index_remove_backend d s)
    <| cs_backends := <[bd_backend_id d' := d']> (cs_backends s) |>))).
  { apply index_replace_ok; [done| |done]. change (bd_backend_id d') with (bd_backend_id d). by rewrite Hid. }
  change (bd_backend_id d') with (bd_backend_id d) in Hi'. rewrite Hid in Hi'.
  split; [| |exact Hi'| |]; unfold keyed; simpl; try done.
  - intros id x [[<- <-]|[_ Hx]]%lookup_insert_Some; [done|by apply Hk].
  - intros id x [[<- <-]|[_ Hx]]%lookup_insert_Some; [exact (Hbw _ _ E)|by apply Hbw].
Qed.

Definition keeps_wf (s : CanonicalState) (r : Reply) : Prop := router_wf s -> router_wf (snd r).

Lemma reject_wf code subject message s : keeps_wf s (reject code subject message s).
Proof. by intros H. Qed.

Lemma apply_evidence_wf {S g} `{EqDecision S, EvidenceSlotLaws S g} (e : BackendEvidence S g) subject now code s :
  keeps_wf s (apply_evidence e subject now code s).
Proof.
  unfold apply_evidence. walk; try apply reject_wf. intros Hwf.
  apply wf_stale_change, (wf_update_backend _ _ b); [done..|apply set_slot_in_place].
Qed.

Lemma store_capacity_detail_wf detail s : router_wf s -> router_wf (store_capacity_detail detail s).
Proof.
  intros Hwf. unfold store_capacity_detail. destruct (cs_backends s !! _) as [d|] eqn:E; [|done].
  by apply (wf_update_backend _ _ d).
Qed.

Lemma register_backend_wf d now s : keeps_wf s (register_backend d now s).
Proof.
  unfold register_backend. walk; try apply reject_wf; intros Hwf;
    by apply wf_stale_change, wf_replace_backend.
Qed.

Lemma unregister_backend_wf id generation now s : keeps_wf s (unregister_backend id generation now s).
Proof.
  unfold unregister_backend. walk; try apply reject_wf. intros Hwf. apply wf_retire.
  apply (wf_frame (erase_backend id b s)); try done. by apply wf_erase_backend.
Qed.

(** What the fence does to the catalog: the incarnation is erased when the
    generation given is none or the registered one. *)
Definition fence_catalog (id : EntityId BackendTag) (generation : Generation BackendTag)
    (boot : Generation BackendBootTag) (s : CanonicalState) : CanonicalState :=
  match cs_backends s !! id with
  | Some d => if (bd_backend_boot d == boot) && (negb (valid generation) || (bd_backend_generation d == generation))
              then erase_backend id d s else s
  | None => s
  end.

Lemma fence_backend_boot_effect (Q : Reply -> Prop) id generation boot reason now s :
  (forall code message, code <> OutcomeCode.ACCEPTED -> Q (reject code "fence_backend_boot" message s)) ->
  (forall r b, fence_key (fb_backend_id r) (fb_backend_boot r) = fence_key id boot -> Q (accept b (retire_incarnation id boot now ((fence_catalog id generation boot s)
     <| cs_fenced_boots := <[fence_key id boot := r]> (cs_fenced_boots s) |>)))) ->
  Q (fence_backend_boot id generation boot reason now s).
Proof.
  intros Hr Ha. unfold fence_backend_boot. walk; try by apply Hr.
  assert (Ec : c = fence_catalog id generation boot s /\ cs_fenced_boots c = cs_fenced_boots s /\
    fence_key (fb_backend_id f) (fb_backend_boot f) = fence_key id boot).
  { unfold fence_catalog. destruct (cs_backends s !! id) as [d|]; [destruct (_ && _)|];
      injection Heqp as <- <-; by split_and!. }
  destruct Ec as (-> & -> & Hk).
  by apply Ha.
Qed.

Lemma fence_backend_boot_wf id generation boot reason now s :
  keeps_wf s (fence_backend_boot id generation boot reason now s).
Proof.
  apply fence_backend_boot_effect; [by intros ? ? _ H|]. intros r b _ Hwf. apply wf_retire.
  apply (wf_frame (fence_catalog id generation boot s)); try done.
  unfold fence_catalog. destruct (cs_backends s !! id) as [d|] eqn:E; [|done].
  destruct (_ && _); [by apply wf_erase_backend|done].
Qed.

Lemma model_keys_cost d b e :
  find_binding d (co_model_id e) = Some b ->
  model_keys (d <| bd_model_bindings := replace_sorted id_ltb mb_model_id (bd_model_bindings d)
                                          (b <| mb_cost := e |>) |>) = model_keys d.
Proof.
  intros Hb. pose proof (find_binding_key _ _ _ Hb) as Ek.
  set (b' := b <| mb_cost := e |>).
  exact (replace_sorted_keys id_ltb mb_model_id _ _ b b' Hb Ek).
Qed.

Lemma perform_wf (call : MutationCall) (now : UnixMillis) (s : CanonicalState) : keeps_wf s (perform call now s).
Proof.
  destruct call; unfold perform; try apply apply_evidence_wf.
  - unfold register_model. walk; try apply reject_wf. intros Hs. by apply wf_register_model.
  - unfold register_provider. walk; try apply reject_wf. intros Hs. by apply (wf_frame s).
  - apply register_backend_wf.
  - apply unregister_backend_wf.
  - unfold publish_capabilities. walk; try apply reject_wf. intros Hs.
    by apply wf_stale_change, (wf_update_backend _ _ b).
  - unfold retire_model. walk; try apply reject_wf. intros Hs. by apply wf_stale_change, wf_retire_model.
  - apply fence_backend_boot_wf.
  - unfold update_capacity. walk; try apply reject_wf.
    + pose proof (apply_evidence_wf e "update_capacity" now OutcomeCode.REJECT_STALE_CAPACITY s) as H'.
      rewrite Heqr in H'. exact H'.
    + pose proof (apply_evidence_wf e "update_capacity" now OutcomeCode.REJECT_STALE_CAPACITY s) as H'.
      rewrite Heqr in H'. intros Hs. by apply store_capacity_detail_wf, H'.
  - unfold update_latency. walk; try apply reject_wf. intros Hs.
    by apply wf_stale_change, (wf_update_backend _ _ b).
  - unfold set_policy. walk; try apply reject_wf. intros Hs. by apply (wf_frame s).
  - unfold set_budget. walk; try apply reject_wf. intros Hs. by apply (wf_frame s).
  - unfold set_slo. walk; try apply reject_wf. intros Hs. by apply (wf_frame s).
  - unfold set_compatibility. walk; try apply reject_wf. intros Hs. by apply (wf_frame s).
  - unfold set_trust. walk; try apply reject_wf. intros Hs.
    by apply wf_stale_change, wf_apply_trust, (wf_frame s).
  - unfold set_cost. walk; try apply reject_wf. intros Hs. apply wf_stale_change.
    set (d' := b <| bd_model_bindings := _ |>).
    apply (wf_frame (s <| cs_backends := <[co_backend_id e := d']> (cs_backends s) |>)); try done.
    apply (wf_update_backend _ _ b); [done..|]. split; try done. by apply model_keys_cost.
Qed.

(** C31: every call keeps the router well formed: descriptors are stored under
    their own identity, the three derived indexes are exactly the scan of the
    registered backends (rebuilding them would change nothing), and the
    watermarks are the generations of the registered models and backends. *)
Theorem perform_keeps_wf (call : MutationCall) (now : UnixMillis) (s : CanonicalState) (Hwf : router_wf s) :
  router_wf (snd (perform call now s)) /\
  rebuild_indexes (snd (perform call now s)) = snd (perform call now s).
Proof.
  split; [by apply perform_wf|]. apply indexes_ok_rebuild, perform_wf, Hwf.
Qed.

Lemma wf_empty : router_wf canonical_state_default.
Proof. split; try done. split_and!; apply index_of_empty. Qed.

Lemma perform_keeps_wf_witness :
  router_wf canonical_state_default /\
  router_wf (snd (perform (SetBudget budget_snapshot_default) 5 canonical_state_default)).
Proof.
  split; [exact wf_empty|].
  exact (proj1 (perform_keeps_wf (SetBudget budget_snapshot_default) 5 canonical_state_default wf_empty)).
Defined.

(** ** What a call may do to the catalog *)

Record same_incarnation (d d' : BackendDescriptor) : Prop := {
  inc_id : bd_backend_id d' = bd_backend_id d;
  inc_boot : bd_backend_boot d' = bd_backend_boot d;
  inc_generation : bd_backend_generation d' = bd_backend_generation d;
  inc_registration : bd_registration_generation d' = bd_registration_generation d
}.

(** The abstract catalog: backends are registered unless fenced, updated within
    their incarnation, and erased by a fence; a fence is never lifted. *)
Inductive catalog_step (s s' : CanonicalState) : Prop :=
| catalog_same :
    cs_backends s' = cs_backends s -> cs_fenced_boots s' = cs_fenced_boots s -> catalog_step s s'
| catalog_updated id d d' :
    cs_backends s !! id = Some d -> same_incarnation d d' ->
    cs_backends s' = <[id := d']> (cs_backends s) -> cs_fenced_boots s' = cs_fenced_boots s ->
    catalog_step s s'
| catalog_registered d :
    is_fenced s (bd_backend_id d) (bd_backend_boot d) = false ->
    (forall old, cs_backends s !! bd_backend_id d = Some old ->
       value (bd_registration_generation old) < value (bd_registration_generation d)) ->
    cs_backends s' = <[bd_backend_id d := d]> (cs_backends s) -> cs_fenced_boots s' = cs_fenced_boots s ->
    catalog_step s s'
| catalog_fenced id boot r :
    fence_key (fb_backend_id r) (fb_backend_boot r) = fence_key id boot ->
    cs_fenced_boots s' = <[fence_key id boot := r]> (cs_fenced_boots s) ->
    cs_backends s' = cs_backends s \/ cs_backends s' = delete id (cs_backends s) ->
    catalog_step s s'.

Definition steps_catalog (s : CanonicalState) (r : Reply) : Prop := catalog_step s (snd r).

(** An update of the backend [d] found under its key. *)
Ltac catalog_update d :=
  eapply (catalog_updated _ _ _ d); [eassumption| |reflexivity|reflexivity]; by split.

Lemma reject_catalog code subject message s : steps_catalog s (reject code subject message s).
Proof. by apply catalog_same. Qed.

Class EvidenceSlotIncarnation (S : Type) (g : Tag) `{EvidenceSlot S g} : Prop :=
  set_slot_incarnation : forall e d, same_incarnation d (set_slot e d).
#[export] Instance health_incarnation : EvidenceSlotIncarnation HealthState.t HealthTag.
Proof. done. Qed.
#[export] Instance availability_incarnation : EvidenceSlotIncarnation AvailabilityState.t AvailabilityTag.
Proof. done. Qed.
#[export] Instance readiness_incarnation : EvidenceSlotIncarnation ReadinessState.t ReadinessTag.
Proof. done. Qed.
#[export] Instance capacity_incarnation : EvidenceSlotIncarnation CapacityState.t CapacityTag.
Proof. done. Qed.
#[export] Instance residency_incarnation : EvidenceSlotIncarnation ResidencyState.t ResidencyTag.
Proof. done. Qed.

Lemma apply_evidence_catalog {S g} `{EqDecision S, EvidenceSlotIncarnation S g} (e : BackendEvidence S g)
    subject now code s :
  steps_catalog s (apply_evidence e subject now code s).
Proof.
  unfold apply_evidence. walk; try apply reject_catalog.
  eapply (catalog_updated _ _ _ b); [eassumption|apply (set_slot_incarnation e)|reflexivity|reflexivity].
Qed.

Lemma apply_trust_backends e s :
  cs_backends (apply_trust e s) =
    match cs_backends s !! tr_backend_id e with
    | None => cs_backends s
    | Some d => <[tr_backend_id e := d <| bd_trust_profile_id := tr_profile_id e |>
        <| bd_trust_generation := tr_generation e |> <| bd_trust_domain := tr_domain e |>]> (cs_backends s)
    end /\
  cs_fenced_boots (apply_trust e s) = cs_fenced_boots s /\
  cs_backend_watermark (apply_trust e s) = cs_backend_watermark s /\
  cs_model_watermark (apply_trust e s) = cs_model_watermark s.
Proof. unfold apply_trust. by destruct (cs_backends s !! _). Qed.

Lemma store_capacity_detail_catalog detail s : catalog_step s (store_capacity_detail detail s).
Proof.
  unfold store_capacity_detail. destruct (cs_backends s !! _) as [d|] eqn:E; [|by apply catalog_same].
  catalog_update d.
Qed.

Lemma publish_catalog publication now s : steps_catalog s (publish_capabilities publication now s).
Proof.
  unfold publish_capabilities. walk; try apply reject_catalog. catalog_update b.
Qed.

Lemma register_backend_catalog d now s : steps_catalog s (register_backend d now s).
Proof.
  unfold register_backend. walk; try apply reject_catalog.
  set (s1 := s <| cs_backend_watermark := _ |>).
  destruct (replace_backend_frame (backend_canonicalize d) s1) as (E1 & _ & E3 & _).
  unfold steps_catalog, accept. cbn [snd]. generalize dependent (replace_backend (backend_canonicalize d) s1).
  intros s2 E1 E3. apply (catalog_registered _ _ (backend_canonicalize d)); [done| |exact E1|exact E3].
  intros old Ho. rewrite Ho in *. lia.
Qed.

Lemma fence_catalog_backends id generation boot s :
  cs_fenced_boots (fence_catalog id generation boot s) = cs_fenced_boots s /\
  (cs_backends (fence_catalog id generation boot s) = cs_backends s \/
   cs_backends (fence_catalog id generation boot s) = delete id (cs_backends s)).
Proof.
  unfold fence_catalog. destruct (cs_backends s !! id); [destruct (_ && _)|]; split; auto.
Qed.

Lemma unregister_catalog id generation now s : steps_catalog s (unregister_backend id generation now s).
Proof.
  unfold unregister_backend. walk; try apply reject_catalog.
  eapply (catalog_fenced _ _ id (bd_backend_boot b)); [|done|by right]. done.
Qed.

Lemma fence_backend_boot_catalog id generation boot reason now s :
  steps_catalog s (fence_backend_boot id generation boot reason now s).
Proof.
  apply fence_backend_boot_effect; [intros; apply reject_catalog|]. intros r b Hk.
  destruct (fence_catalog_backends id generation boot s) as [_ E].
  apply (catalog_fenced _ _ id boot r); [done|done|exact E].
Qed.

Lemma perform_catalog (call : MutationCall) (now : UnixMillis) (s : CanonicalState) :
  rtc catalog_step s (snd (perform call now s)).
Proof.
  destruct (decide (is_Some (match call with UpdateCapacity e d => Some (e, d) | _ => None end))) as [Hc|Hc].
  - destruct call; try by destruct Hc. simpl. unfold update_capacity.
    pose proof (apply_evidence_catalog e "update_capacity" now OutcomeCode.REJECT_STALE_CAPACITY s) as Ha.
    destruct (_ && _); [apply rtc_refl|]. destruct (_ && _); [apply rtc_refl|].
    destruct (apply_evidence _ _ _ _ _) as [result s']. unfold steps_catalog in Ha. simpl in Ha. simpl.
    eapply rtc_l; [exact Ha|]. destruct (negb (accepted result)); [apply rtc_refl|].
    apply rtc_once, store_capacity_detail_catalog.
  - apply rtc_once. change (steps_catalog s (perform call now s)).
    destruct call; try (by contradict Hc; eexists); unfold perform; try apply apply_evidence_catalog.
    + unfold register_model. walk; by apply catalog_same.
    + unfold register_provider. walk; by apply catalog_same.
    + apply register_backend_catalog.
    + apply unregister_catalog.
    + apply publish_catalog.
    + unfold retire_model. walk; by apply catalog_same.
    + apply fence_backend_boot_catalog.
    + unfold update_latency. walk; try apply reject_catalog. catalog_update b.
    + unfold set_policy. walk; by apply catalog_same.
    + unfold set_budget. walk; by apply catalog_same.
    + unfold set_slo. walk; by apply catalog_same.
    + unfold set_compatibility. walk; by apply catalog_same.
    + unfold set_trust. walk; try apply reject_catalog. set (s1 := s <| cs_trust := _ |>).
      destruct (apply_trust_backends e s1) as (E & Ef & _).
      destruct (cs_backends s1 !! tr_backend_id e) as [d|] eqn:Ed.
      * eapply (catalog_updated _ _ _ d); [exact Ed| |exact E|exact Ef]; by split.
      * by apply catalog_same.
    + unfold set_cost. walk; try apply reject_catalog. catalog_update b.
Qed.

(** C28: every call refines the abstract catalog: whatever it is asked, it
    registers only incarnations that are not fenced and whose registration
    generation advances, updates a backend only within its incarnation, erases
    a backend only by fencing, and never lifts a fence. *)
Theorem perform_refines_catalog (call : MutationCall) (now : UnixMillis) (s : CanonicalState) :
  rtc catalog_step s (snd (perform call now s)).
Proof. apply perform_catalog. Qed.

(** ** Fenced incarnations *)

Lemma is_fenced_same s s' id boot :
  cs_fenced_boots s' = cs_fenced_boots s -> is_fenced s' id boot = is_fenced s id boot.
Proof. unfold is_fenced. by intros ->. Qed.

Lemma is_fenced_fence s s' id boot r id' boot' :
  cs_fenced_boots s' = <[fence_key id boot := r]> (cs_fenced_boots s) ->
  is_fenced s id' boot' = true -> is_fenced s' id' boot' = true.
Proof.
  intros E H. rewrite (is_fenced_same (s <| cs_fenced_boots := <[fence_key id boot := r]> (cs_fenced_boots s) |>) s') by done.
  rewrite is_fenced_insert, H. apply orb_true_r.
Qed.

(** The incarnation is fenced and gone. *)
Definition retired_boot (s : CanonicalState) (id : EntityId BackendTag) (boot : Generation BackendBootTag) : Prop :=
  is_fenced s id boot = true /\ forall d, cs_backends s !! id = Some d -> bd_backend_boot d <> boot.

Lemma retired_boot_step s s' id boot :
  catalog_step s s' -> retired_boot s id boot -> retired_boot s' id boot.
Proof.
  intros Hstep [Hf Hb]. unfold retired_boot.
  destruct Hstep as [E1 E2|id' d d' Hd Hi E1 E2|d Hu Hr E1 E2|id' boot' r _ E2 E1].
  - by rewrite (is_fenced_same s s'), E1.
  - rewrite (is_fenced_same s s'), E1 by done. split; [done|].
    intros x [[-> <-]|[_ Hx]]%lookup_insert_Some; [|by apply Hb]. rewrite (inc_boot _ _ Hi). by apply Hb.
  - rewrite (is_fenced_same s s'), E1 by done. split; [done|].
    intros x [[<- <-]|[_ Hx]]%lookup_insert_Some; [|by apply Hb]. intros E. congruence.
  - split; [by eapply is_fenced_fence|].
    destruct E1 as [->| ->]; [done|]. intros x [_ Hx]%lookup_delete_Some. by apply Hb.
Qed.

(** A run of calls, each with the clock reading it sees. *)
Definition run_calls (calls : list (MutationCall * UnixMillis)) (s : CanonicalState) : CanonicalState :=
  fold_left (fun s c => snd (perform (fst c) (snd c) s)) calls s.

Lemma run_calls_wf calls s : router_wf s -> router_wf (run_calls calls s).
Proof.
  revert s. induction calls as [|[call now] calls IH]; intros s H; [done|]. by apply IH, perform_wf.
Qed.

Lemma run_calls_catalog calls s : rtc catalog_step s (run_calls calls s).
Proof.
  revert s. induction calls as [|[call now] calls IH]; intros s; [apply rtc_refl|].
  etrans; [apply (perform_catalog call now)|apply IH].
Qed.

Lemma retired_boot_steps s s' id boot :
  rtc catalog_step s s' -> retired_boot s id boot -> retired_boot s' id boot.
Proof. induction 1; [done|]. intros H'. by eapply IHrtc, retired_boot_step. Qed.

(** C12: a fenced incarnation never becomes authoritative again: once it is fenced
    and gone, no sequence of calls lifts the fence or registers a backend that
    runs it. *)
Theorem fenced_never_returns (calls : list (MutationCall * UnixMillis)) (s : CanonicalState)
    (id : EntityId BackendTag) (boot : Generation BackendBootTag) (H : retired_boot s id boot) :
  retired_boot (run_calls calls s) id boot.
Proof. eapply retired_boot_steps; [apply run_calls_catalog|exact H]. Qed.

(** A backend that passes validation, and the router state with it alone. *)
Definition sample_backend : BackendDescriptor :=
  backend_descriptor_default <| bd_backend_id := EntityIdOf 4 |> <| bd_backend_generation := GenerationOf 2 |>
    <| bd_backend_boot := GenerationOf 9 |> <| bd_registration_generation := GenerationOf 1 |>
    <| bd_provider_id := EntityIdOf 3 |> <| bd_provider_generation := GenerationOf 1 |>
    <| bd_endpoint := endpoint_descriptor_default <| ep_endpoint_id := EntityIdOf 6 |>
         <| ep_endpoint_generation := GenerationOf 1 |> <| ep_backend_id := EntityIdOf 4 |>
         <| ep_backend_boot := GenerationOf 9 |> <| ep_reference := "local:1" |> |>
    <| bd_model_bindings := [model_binding_default <| mb_model_id := EntityIdOf 5 |>
         <| mb_model_generation := GenerationOf 1 |> <| mb_artifact_generation := GenerationOf 1 |>] |>.
Definition sample_registered : CanonicalState :=
  snd (register_backend sample_backend 100 canonical_state_default).

(** The incarnation is fenced, and a registration that runs it is refused. *)
Definition sample_fenced : CanonicalState :=
  snd (fence_backend_boot (EntityIdOf 4) none (GenerationOf 9) OutcomeCode.FENCED 110 sample_registered).

Lemma fenced_never_returns_witness :
  let again := sample_backend <| bd_registration_generation := GenerationOf 2 |> in
  base.size (cs_backends sample_registered) = 1%nat /\
  mr_code (fst (register_backend again 120 sample_fenced)) = OutcomeCode.REJECT_STALE_BACKEND_BOOT /\
  retired_boot (run_calls [(RegisterBackend again, 120)] sample_fenced) (EntityIdOf 4) (GenerationOf 9).
Proof.
  split; [vm_compute; reflexivity|]. split; [vm_compute; reflexivity|].
  apply fenced_never_returns. split; [vm_compute; reflexivity|].
  intros d Hd. exfalso. revert Hd.
  replace (cs_backends sample_fenced !! EntityIdOf 4) with (@None BackendDescriptor)
    by (vm_compute; reflexivity). discriminate.
Defined.

(** Fencing with a generation that is not the registered one fences the
    incarnation but leaves its backend registered: the call is accepted and the
    catalog then holds a fenced incarnation. *)
Theorem fence_wrong_generation_keeps_backend (s : CanonicalState) (d : BackendDescriptor)
    (generation : Generation BackendTag) (reason : OutcomeCode.t) (now : UnixMillis)
    (Hid : valid (bd_backend_id d) = true) (Hboot : valid (bd_backend_boot d) = true)
    (Hd : cs_backends s !! bd_backend_id d = Some d)
    (Hu : is_fenced s (bd_backend_id d) (bd_backend_boot d) = false)
    (Hl : map_size (cs_fenced_boots s) < max_backend_incarnations (cs_limits s))
    (Hv : valid generation = true) (Hg : bd_backend_generation d <> generation) :
  let r := fence_backend_boot (bd_backend_id d) generation (bd_backend_boot d) reason now s in
  mr_code (fst r) = OutcomeCode.ACCEPTED /\ cs_backends (snd r) !! bd_backend_id d = Some d /\
  is_fenced (snd r) (bd_backend_id d) (bd_backend_boot d) = true /\ ~ fences_respected (snd r).
Proof.
  cbv zeta. unfold fence_backend_boot. rewrite Hid, Hboot, Hu, Hv.
  rewrite (proj2 (Z.leb_gt _ _) Hl), Hd. rewrite bool_decide_true, bool_decide_false by done.
  cbn [negb orb andb]. cbn iota beta zeta.
  match goal with |- context [retire_incarnation _ _ _ ?x] => set (s1 := x) end.
  assert (H1 : cs_backends s1 !! bd_backend_id d = Some d) by exact Hd.
  assert (H2 : is_fenced s1 (bd_backend_id d) (bd_backend_boot d) = true).
  { unfold s1. rewrite is_fenced_insert. by rewrite !bool_decide_true. }
  split_and!; [done|exact H1|exact H2|]. intros Hf.
  assert (H3 : is_fenced s1 (bd_backend_id d) (bd_backend_boot d) = false) by exact (Hf _ _ H1). congruence.
Qed.

Lemma fence_wrong_generation_keeps_backend_witness :
  let r := fence_backend_boot (EntityIdOf 4) (GenerationOf 1) (GenerationOf 9) OutcomeCode.FENCED 110
             sample_registered in
  mr_code (fst r) = OutcomeCode.ACCEPTED /\ is_fenced (snd r) (EntityIdOf 4) (GenerationOf 9) = true.
Proof.
  pose proof (fence_wrong_generation_keeps_backend sample_registered sample_backend (GenerationOf 1)
    OutcomeCode.FENCED 110 eq_refl eq_refl ltac:(vm_compute; reflexivity) ltac:(vm_compute; reflexivity)
    ltac:(vm_compute; reflexivity) eq_refl ltac:(discriminate)) as H.
  cbv zeta in H. split; [exact (proj1 H) | exact (proj1 (proj2 (proj2 H)))].
Defined.

(** ** Decisions after an accepted call *)

(** Every decision still CURRENT or DISPATCHED can be executed at [now]. *)
Definition decisions_dispatchable (now : UnixMillis) (s : CanonicalState) : Prop :=
  forall id r, cs_routes s !! id = Some r -> retained_executable r = true ->
  is_authority_dispatchable s (de_authority (rec_decision r)) now = true.

Lemma stale_change_dispatchable now s : decisions_dispatchable now (stale_decisions_for_authority_change now s).
Proof. intros id r Hr He. destruct (stale_decisions_lookup now s id r Hr) as (_ & _ & _ & H). exact (H He). Qed.

(** The stored capacity detail is no part of any authority. *)
Lemma store_capacity_detail_dispatchable detail s a now :
  is_authority_dispatchable (store_capacity_detail detail s) a now = is_authority_dispatchable s a now.
Proof.
  unfold store_capacity_detail. destruct (cs_backends s !! cd_backend_id detail) as [d|] eqn:E; [|done].
  unfold is_authority_dispatchable. f_equal. unfold dispatchability_reason, build_current_authority.
  cbn [cs_backends cs_models update_field].
  destruct (decide (au_backend_id a = cd_backend_id detail)) as [->|Hne].
  - rewrite lookup_insert_eq, E. reflexivity.
  - rewrite lookup_insert_ne by done. reflexivity.
Qed.

Definition restales (now : UnixMillis) (r : Reply) : Prop :=
  mr_code (fst r) = OutcomeCode.ACCEPTED -> decisions_dispatchable now (snd r).

Lemma accept_restales b now s : restales now (accept b (stale_decisions_for_authority_change now s)).
Proof. intros _. apply stale_change_dispatchable. Qed.

Lemma reject_restales code subject message now s :
  code <> OutcomeCode.ACCEPTED -> restales now (reject code subject message s).
Proof. by intros H H'. Qed.

Lemma apply_evidence_restales {S g} `{EqDecision S, EvidenceSlot S g} (e : BackendEvidence S g) subject now code s :
  code <> OutcomeCode.ACCEPTED -> restales now (apply_evidence e subject now code s).
Proof. intros Hc. unfold apply_evidence. walk; first [by apply reject_restales | apply accept_restales]. Qed.

(** The calls that change nothing an authority is bound to, or do not look at
    the retained decisions. *)
Definition skips_decisions (call : MutationCall) : bool :=
  match call with RegisterModel _ | RegisterProvider _ => true | _ => false end.

(** C32: after an accepted call, other than the registration of a model or a
    provider, every decision left CURRENT or DISPATCHED can still be executed:
    what the call invalidated has been marked stale. *)
Theorem accepted_call_restales (call : MutationCall) (now : UnixMillis) (s : CanonicalState)
    (Hc : skips_decisions call = false)
    (Ha : mr_code (fst (perform call now s)) = OutcomeCode.ACCEPTED) :
  decisions_dispatchable now (snd (perform call now s)).
Proof.
  revert Ha. change (restales now (perform call now s)).
  destruct call; try discriminate Hc; unfold_call;
    try (apply apply_evidence_restales; discriminate);
    try (walk; first [apply accept_restales | apply reject_restales; discriminate]).
  - walk; first [apply accept_restales | apply reject_restales; discriminate
                | apply reject_restales; by eapply publish_claims_code].
  - pose proof (apply_evidence_restales e "update_capacity" now OutcomeCode.REJECT_STALE_CAPACITY s) as Hk.
    destruct (apply_evidence _ _ _ _ _) as [result s'].
    destruct (_ && _); [discriminate|]. destruct (_ && _); [discriminate|]. cbv beta iota zeta.
    destruct (negb (accepted result)); [apply Hk; discriminate|].
    intros Ha id r Hr He. cbn [snd]. rewrite store_capacity_detail_dispatchable.
    apply (Hk ltac:(discriminate) Ha id r); [|done]. revert Hr. unfold store_capacity_detail. simpl.
    by destruct (cs_backends s' !! _).
Qed.

(** A decision bound to the sample backend and to generation 1 of its model. *)
Definition sample_model : ModelDescriptor :=
  model_descriptor_default <| md_model_id := EntityIdOf 5 |> <| md_model_generation := GenerationOf 1 |>
    <| md_artifact_generation := GenerationOf 1 |> <| md_lifecycle := ModelLifecycle.CURRENT |>
    <| md_input_modalities := ModalitySetOf Modality_TEXT |>
    <| md_output_modalities := ModalitySetOf Modality_TEXT |> <| md_context_limit_tokens := 8192 |>.
Definition sample_catalog : CanonicalState := snd (register_model sample_model sample_registered).
Definition sample_authority : RouteAuthority :=
  observed_authority sample_catalog
    (route_authority_default <| au_model_id := EntityIdOf 5 |> <| au_backend_id := EntityIdOf 4 |>)
    sample_model sample_backend.
Definition sample_record : RouteRecord :=
  route_record_default <| rec_decision := route_decision_default <| de_decision_id := EntityIdOf 30 |>
    <| de_authority := sample_authority |> |>.
Definition sample_routed : CanonicalState :=
  sample_catalog <| cs_routes := {[ EntityIdOf 30 := sample_record ]} |>.

Lemma accepted_call_restales_witness :
  map (fun e => de_status (rec_decision (snd e))) (map_to_list (cs_routes sample_routed)) = [RouteStatus.CURRENT] /\
  decisions_dispatchable 200 (snd (perform (RetireModel (EntityIdOf 5) none) 200 sample_routed)).
Proof.
  split; [vm_compute; reflexivity|].
  apply accepted_call_restales; [reflexivity | vm_compute; reflexivity].
Defined.

(** Registering a model never looks at the retained decisions, although a
    decision is to be current only while it can be executed: after generation 2
    of a model is registered, the decision bound to generation 1 is still
    CURRENT and can no longer be executed. *)
Theorem register_model_leaves_decisions_current :
  (forall model s, cs_routes (snd (register_model model s)) = cs_routes s) /\
  (let newer := sample_model <| md_model_generation := GenerationOf 2 |> in
   let r := register_model newer sample_routed in
   is_authority_dispatchable sample_routed sample_authority 200 = true /\
   mr_code (fst r) = OutcomeCode.ACCEPTED /\
   option_map (fun x => de_status (rec_decision x)) (cs_routes (snd r) !! EntityIdOf 30) = Some RouteStatus.CURRENT /\
   dispatchability_reason (snd r) sample_authority 200 = OutcomeCode.REJECT_STALE_MODEL).
Proof.
  split; [|vm_compute; repeat split].
  intros model s. unfold register_model.
  set (Q := fun r : Reply => cs_routes (snd r) = cs_routes s).
  enough (Q (register_model model s)) by done. unfold register_model. walk; reflexivity.
Qed.

(** Compatibility evidence is bound by no decision: whatever is published
    about a backend, even that it is incompatible, every authority stays as
    dispatchable as it was, because the descriptor whose generation the bound
    authority carries is never updated. *)
Theorem compatibility_never_bound (e : CompatibilityEvidence) (now t : UnixMillis) (s : CanonicalState)
    (a : RouteAuthority) :
  let s' := snd (set_compatibility e now s) in
  cs_backends s' = cs_backends s /\
  is_authority_dispatchable s' a t = is_authority_dispatchable s a t.
Proof.
  set (Q := fun r : Reply => cs_backends (snd r) = cs_backends s /\
    is_authority_dispatchable (snd r) a t = is_authority_dispatchable s a t).
  change (Q (set_compatibility e now s)). unfold set_compatibility. walk; by split.
Qed.

(** Unregistering a backend fences its incarnation without looking at the
    limit on fenced incarnations, which [fence_backend_boot] enforces: at the
    limit it is still accepted and the fence map grows beyond it. *)
Theorem unregister_ignores_fence_limit (s : CanonicalState) (id : EntityId BackendTag) (d : BackendDescriptor)
    (now : UnixMillis) (Hs : cs_shutting_down s = false) (Hd : cs_backends s !! id = Some d)
    (Hf : fences_respected s) (Hl : map_size (cs_fenced_boots s) = max_backend_incarnations (cs_limits s)) :
  let r := unregister_backend id none now s in
  mr_code (fst r) = OutcomeCode.ACCEPTED /\
  map_size (cs_fenced_boots (snd r)) = max_backend_incarnations (cs_limits (snd r)) + 1.
Proof.
  cbv zeta. unfold unregister_backend. rewrite Hs, Hd. cbn [negb andb valid value none].
  split; [done|]. simpl. unfold map_size in *. rewrite map_size_insert_None; [lia|].
  pose proof (Hf _ _ Hd) as Hn. unfold is_fenced in Hn. apply bool_decide_eq_false in Hn.
  by apply eq_None_not_Some.
Qed.

(** One incarnation may be fenced, and one is. *)
Definition sample_at_limit : CanonicalState :=
  snd (fence_backend_boot (EntityIdOf 4) none (GenerationOf 8) OutcomeCode.FENCED 110
    (sample_registered <| cs_limits := default_resource_limits <| max_backends := 1 |>
       <| max_backend_incarnations := 1 |> |>)).

Lemma unregister_ignores_fence_limit_witness :
  let r := unregister_backend (EntityIdOf 4) none 120 sample_at_limit in
  mr_code (fst r) = OutcomeCode.ACCEPTED /\
  map_size (cs_fenced_boots (snd r)) = max_backend_incarnations (cs_limits (snd r)) + 1.
Proof.
  apply (unregister_ignores_fence_limit sample_at_limit (EntityIdOf 4) sample_backend 120);
    try (vm_compute; reflexivity).
  apply (bool_decide_unpack (map_Forall
    (fun id d => is_fenced sample_at_limit id (bd_backend_boot d) = false) (cs_backends sample_at_limit))).
  vm_compute. exact I.
Defined.

(** ** Generation watermarks *)

Lemma not_regressed incoming current :
  generation_regressed incoming current = false -> current <> 0 -> incoming <> 0 -> current <= incoming.
Proof.
  unfold generation_regressed. intros H Hc Hi.
  rewrite (proj2 (Z.eqb_neq _ _) Hc), (proj2 (Z.eqb_neq _ _) Hi) in H. simpl in H. lia.
Qed.

Lemma model_validate_generation m : model_validate m = "" -> valid (md_model_generation m) = true.
Proof.
  unfold model_validate. destruct (negb (valid (md_model_id m))); [discriminate|].
  by destruct (valid (md_model_generation m)).
Qed.

Lemma backend_validate_generation d : backend_validate d = "" -> valid (bd_backend_generation d) = true.
Proof.
  unfold backend_validate. destruct (negb (valid (bd_backend_id d))); [discriminate|].
  by destruct (valid (bd_backend_generation d)).
Qed.

(** The watermarks of [s'] are at or above those of [s]. *)
Definition watermark_rises {K t} `{Countable K} (m m' : gmap K (Generation t)) : Prop :=
  forall id w, m !! id = Some w -> valid w = true -> 
    exists w', m' !! id = Some w' /\ valid w' = true /\ value w <= value w'.

Lemma watermark_rises_refl {K t} `{Countable K} (m : gmap K (Generation t)) : watermark_rises m m.
Proof. intros id w Hw Hv. exists w. split_and!; [done|done|lia]. Qed.

Lemma watermark_rises_trans {K t} `{Countable K} (m1 m2 m3 : gmap K (Generation t)) :
  watermark_rises m1 m2 -> watermark_rises m2 m3 -> watermark_rises m1 m3.
Proof.
  intros H1 H2 id w Hw Hv. destruct (H1 id w Hw Hv) as (w2 & Hw2 & Hv2 & Hle).
  destruct (H2 id w2 Hw2 Hv2) as (w3 & ? & ? & ?). exists w3. split_and!; [done|done|lia].
Qed.

Lemma watermark_rises_insert {K t} `{Countable K} (m : gmap K (Generation t)) id (g : Generation t) :
  valid g = true ->
  match m !! id with Some w => generation_regressed (value g) (value w) | None => false end = false ->
  watermark_rises m (<[id := g]> m).
Proof.
  intros Hg Hr id' w Hw Hv. destruct (decide (id' = id)) as [->|Hne].
  - rewrite Hw in Hr. exists g. rewrite lookup_insert_eq. split_and!; [done|done|].
    unfold valid in Hg, Hv. apply not_regressed; [done|..]; intros E; rewrite E in *; done.
  - exists w. rewrite lookup_insert_ne by done. split_and!; [done|done|lia].
Qed.

Definition watermarks_rise (s : CanonicalState) (r : Reply) : Prop :=
  watermark_rises (cs_model_watermark s) (cs_model_watermark (snd r)) /\
  watermark_rises (cs_backend_watermark s) (cs_backend_watermark (snd r)).

Lemma watermarks_same s r :
  cs_model_watermark (snd r) = cs_model_watermark s -> cs_backend_watermark (snd r) = cs_backend_watermark s ->
  watermarks_rise s r.
Proof. unfold watermarks_rise. intros -> ->. split; apply watermark_rises_refl. Qed.

Lemma apply_evidence_watermarks {S g} `{EqDecision S, EvidenceSlot S g} (e : BackendEvidence S g)
    subject now code s : watermarks_rise s (apply_evidence e subject now code s).
Proof. unfold apply_evidence. walk; by apply watermarks_same. Qed.

Lemma store_capacity_detail_watermarks detail s :
  cs_model_watermark (store_capacity_detail detail s) = cs_model_watermark s /\
  cs_backend_watermark (store_capacity_detail detail s) = cs_backend_watermark s.
Proof. unfold store_capacity_detail. by destruct (cs_backends s !! _). Qed.

Lemma perform_watermarks call now s : watermarks_rise s (perform call now s).
Proof.
  destruct call; unfold perform; try apply apply_evidence_watermarks.
  - unfold register_model. walk; try by apply watermarks_same.
    split; [|apply watermark_rises_refl]. apply watermark_rises_insert; [|done].
    apply model_validate_generation. by apply negb_false_iff, bool_decide_eq_true in H.
  - unfold register_provider. walk; by apply watermarks_same.
  - unfold register_backend. walk; try by apply watermarks_same.
    unfold watermarks_rise, accept. cbn [snd]. set (s1 := s <| cs_backend_watermark := _ |>).
    destruct (replace_backend_frame (backend_canonicalize backend) s1) as (_ & _ & _ & E4 & E5).
    generalize dependent (replace_backend (backend_canonicalize backend) s1). intros s2 E4 E5.
    split; [change (watermark_rises (cs_model_watermark s) (cs_model_watermark s2))
           |change (watermark_rises (cs_backend_watermark s) (cs_backend_watermark s2))];
      [rewrite E4; apply watermark_rises_refl | rewrite E5].
    apply watermark_rises_insert; [|done].
    apply backend_validate_generation. by apply negb_false_iff, bool_decide_eq_true in H.
  - unfold unregister_backend. walk; by apply watermarks_same.
  - unfold publish_capabilities. walk; by apply watermarks_same.
  - unfold retire_model. walk; by apply watermarks_same.
  - apply fence_backend_boot_effect; [intros; by apply watermarks_same|]. intros r b _.
    apply watermarks_same; unfold fence_catalog; simpl; destruct (cs_backends s !! id); try done; by destruct (_ && _).
  - unfold update_capacity. pose proof (apply_evidence_watermarks e "update_capacity" now OutcomeCode.REJECT_STALE_CAPACITY s) as Hw.
    destruct (apply_evidence _ _ _ _ _) as [result s']. unfold watermarks_rise in *. cbn [snd] in Hw.
    destruct (_ && _); [by apply (watermarks_same s (reject OutcomeCode.NO_CHANGE "" "" s))|].
    destruct (_ && _); [by apply (watermarks_same s (reject OutcomeCode.NO_CHANGE "" "" s))|].
    cbv beta iota zeta. destruct (negb (accepted result)); cbn [snd]; [done|].
    by destruct (store_capacity_detail_watermarks detail s') as [-> ->].
  - unfold update_latency. walk; by apply watermarks_same.
  - unfold set_policy. walk; by apply watermarks_same.
  - unfold set_budget. walk; by apply watermarks_same.
  - unfold set_slo. walk; by apply watermarks_same.
  - unfold set_compatibility. walk; by apply watermarks_same.
  - unfold set_trust. walk; try by apply watermarks_same. set (s1 := s <| cs_trust := _ |>).
    destruct (apply_trust_backends e s1) as (_ & _ & E1 & E2). by apply watermarks_same.
  - unfold set_cost. walk; by apply watermarks_same.
Qed.

(** Generations never regress: over any sequence of calls the watermark of a
    model and of a backend only rises, so no later registration can bring back
    an older generation than one that was accepted, even after the backend was
    unregistered or fenced. *)
Theorem watermarks_never_regress (calls : list (MutationCall * UnixMillis)) (s : CanonicalState) :
  watermark_rises (cs_model_watermark s) (cs_model_watermark (run_calls calls s)) /\
  watermark_rises (cs_backend_watermark s) (cs_backend_watermark (run_calls calls s)).
Proof.
  revert s. induction calls as [|[call now] calls IH]; intros s; [split; apply watermark_rises_refl|].
  destruct (perform_watermarks call now s) as [H1 H2]. destruct (IH (snd (perform call now s))) as [H3 H4].
  split; by eapply watermark_rises_trans.
Qed.

(** ** What a call does to retained decisions *)

(** [s'] retains the decisions of [s], some of them marked stale. *)
Definition decisions_staled (s s' : CanonicalState) : Prop :=
  cs_route_order s' = cs_route_order s /\ cs_limits s' = cs_limits s /\
  exists f, cs_routes s' = f <$> cs_routes s /\ forall r, only_staled r (f r).

Lemma only_staled_trans r1 r2 r3 : only_staled r1 r2 -> only_staled r2 r3 -> only_staled r1 r3.
Proof.
  intros [->|[H1 ->]] [->|[H2 ->]]; [by left|by right|by right|].
  by rewrite mark_stale_not_executable in H2.
Qed.

Lemma decisions_staled_trans s1 s2 s3 :
  decisions_staled s1 s2 -> decisions_staled s2 s3 -> decisions_staled s1 s3.
Proof.
  intros (O1 & L1 & f & F1 & Hf) (O2 & L2 & g & F2 & Hg). split_and!; [by rewrite O2|by rewrite L2|].
  exists (g ∘ f). split; [by rewrite F2, F1, map_fmap_compose|]. intros r. by eapply only_staled_trans.
Qed.

(** Nothing happened to the decisions. *)
Lemma decisions_untouched s s' :
  cs_routes s' = cs_routes s -> cs_route_order s' = cs_route_order s -> cs_limits s' = cs_limits s ->
  decisions_staled s s'.
Proof. intros E O L. split_and!; [done|done|]. exists id. rewrite map_fmap_id. by split; [|left]. Qed.

Lemma stale_change_staled now s s' :
  decisions_staled s s' -> decisions_staled s (stale_decisions_for_authority_change now s').
Proof.
  intros H. eapply decisions_staled_trans; [exact H|]. split_and!; [done|done|].
  exists (stale_decision_if_not_dispatchable s' now). split; [done|]. intros r.
  by apply stale_if_not_dispatchable_spec.
Qed.

Lemma retire_incarnation_staled id boot now s s' :
  decisions_staled s s' -> decisions_staled s (retire_incarnation id boot now s').
Proof.
  intros H. apply stale_change_staled. eapply decisions_staled_trans; [exact H|]. split_and!; [done|done|].
  exists (stale_for_backend id boot). split; [done|]. intros r. apply stale_for_backend_spec.
Qed.

Definition reply_staled (s : CanonicalState) (r : Reply) : Prop := decisions_staled s (snd r).

Lemma reject_staled code subject message s : reply_staled s (reject code subject message s).
Proof. by apply decisions_untouched. Qed.
Lemma accept_staled b s s' : decisions_staled s s' -> reply_staled s (accept b s').
Proof. done. Qed.

Create HintDb staled.
#[export] Hint Resolve reject_staled accept_staled stale_change_staled retire_incarnation_staled : staled.
#[export] Hint Extern 5 (decisions_staled _ _) => by apply decisions_untouched : staled.
Ltac staled := walk; auto with staled.

Lemma apply_evidence_staled {S g} `{EqDecision S, EvidenceSlot S g} (e : BackendEvidence S g) subject now code s :
  reply_staled s (apply_evidence e subject now code s).
Proof. unfold apply_evidence. staled. Qed.

Lemma replace_backend_staled d s s' : decisions_staled s s' -> decisions_staled s (replace_backend d s').
Proof.
  intros H. eapply decisions_staled_trans; [exact H|]. unfold replace_backend.
  destruct (cs_backends s' !! _); by apply decisions_untouched.
Qed.

Lemma apply_trust_staled e s s' : decisions_staled s s' -> decisions_staled s (apply_trust e s').
Proof.
  intros H. eapply decisions_staled_trans; [exact H|]. unfold apply_trust.
  destruct (cs_backends s' !! _); by apply decisions_untouched.
Qed.

Lemma store_capacity_detail_staled detail s s' :
  decisions_staled s s' -> decisions_staled s (store_capacity_detail detail s').
Proof.
  intros H. eapply decisions_staled_trans; [exact H|]. unfold store_capacity_detail.
  destruct (cs_backends s' !! _); by apply decisions_untouched.
Qed.

Lemma fence_catalog_staled id generation boot r s :
  decisions_staled s ((fence_catalog id generation boot s)
    <| cs_fenced_boots := <[fence_key id boot := r]> (cs_fenced_boots s) |>).
Proof.
  unfold fence_catalog. destruct (cs_backends s !! id) as [d|]; [destruct (_ && _)|];
    by apply decisions_untouched.
Qed.
#[export] Hint Resolve apply_evidence_staled replace_backend_staled apply_trust_staled
  store_capacity_detail_staled fence_catalog_staled : staled.

Lemma perform_staled call now s : decisions_staled s (snd (perform call now s)).
Proof.
  change (reply_staled s (perform call now s)). destruct call; unfold perform; auto with staled;
    try (apply fence_backend_boot_effect; auto with staled);
    unfold_call; try by staled.
  pose proof (apply_evidence_staled e "update_capacity" now OutcomeCode.REJECT_STALE_CAPACITY s) as Ha.
  staled. unfold reply_staled in *. cbn [snd] in *. auto with staled.
Qed.

(** A mutating call never invents, drops, reorders or revives a routing
    decision: the retained decisions after it are those before it, in the same
    eviction order, and each is exactly what it was or, if it was executable,
    marked stale. *)
Theorem perform_only_stales (call : MutationCall) (now : UnixMillis) (s : CanonicalState) :
  cs_route_order (snd (perform call now s)) = cs_route_order s /\
  forall id,
    (is_Some (cs_routes (snd (perform call now s)) !! id) <-> is_Some (cs_routes s !! id)) /\
    (forall r r', cs_routes s !! id = Some r -> cs_routes (snd (perform call now s)) !! id = Some r' ->
       r' = r \/ (retained_executable r = true /\ r' = mark_stale r)).
Proof.
  destruct (perform_staled call now s) as (E & _ & f & -> & Hf). split; [done|]. intros id.
  rewrite lookup_fmap, fmap_is_Some. split; [done|]. intros r r' -> [= <-]. apply Hf.
Qed.
