(* ===== verification/Providers.v ===== *)
(** * Adapters and effects ([providers.hpp])

    The adapters are supplied by the embedder: the model takes them as
    functions that may read and change an environment of their own, [E], in
    which the clock also lives.  A pass over the router is a computation on the
    canonical state, the process-wide identity allocator and that environment;
    what other threads do in between is an explicit schedule. *)
From S2P Require Import Prelude Ids Outcome Limits Clock Evidence Catalog Request Candidate.
From S2P Require Import Decision RouterState.

Record EvidenceResult (T : Type) := {
  er_code : OutcomeCode.t;
  er_value : T;
  er_has_value : bool;
  er_detail : string
}.
Arguments er_code {T} _.
Arguments er_value {T} _.
Arguments er_has_value {T} _.
Arguments er_detail {T} _.

Definition er_ok {T} (r : EvidenceResult T) : bool :=
  er_has_value r && ((er_code r == OutcomeCode.ACCEPTED) || (er_code r == OutcomeCode.NO_CHANGE)).

Definition evidence_accepted {T} (v : T) : EvidenceResult T :=
  {| er_code := OutcomeCode.ACCEPTED; er_value := v; er_has_value := true; er_detail := "" |}.

(** [unavailable]: the value is the default one of the type. *)
Definition evidence_unavailable {T} (default_value : T) (code : OutcomeCode.t) (detail : string)
    : EvidenceResult T :=
  {| er_code := code; er_value := default_value; er_has_value := false; er_detail := detail |}.

Record DiscoveryContext := {
  dx_router_id : EntityId RouterTag;
  dx_router_epoch : Generation RouterEpochTag;
  dx_coordinator_epoch : Generation CoordinatorEpochTag;
  dx_tenant : EntityId TenantTag;
  dx_name_space : EntityId NamespaceTag;
  dx_now : UnixMillis;
  dx_limits : ResourceLimits
}.

(** One member function of an adapter: its arguments are applied, its effect on
    the environment remains. *)
Definition Call (E A : Type) : Type := E -> A * E.

(** A member function that may draw identities from the process-wide allocator,
    which it is given and leaves. *)
Definition IssuingCall (E A : Type) : Type := Allocator -> E -> A * Allocator * E.

Record SloProvider (E : Type) := {
  slo_fetch : EntityId SloTag -> Generation SloTag -> RouteRequest -> DiscoveryContext ->
    Call E (EvidenceResult SloEvidence);
  slo_feasibility : RouteCandidate -> SloEvidence -> RouteRequest -> DiscoveryContext ->
    Call E (EvidenceResult SloVerdict.t)
}.
Arguments slo_fetch {E} _.
Arguments slo_feasibility {E} _.

(** [None] is the null pointer. *)
Record ProviderSet (E : Type) := {
  pr_candidates : option (RouteRequest -> DiscoveryContext -> Call E (EvidenceResult (list RouteCandidate)));
  pr_policy : option (EntityId PolicyTag -> Generation PolicyTag -> DiscoveryContext ->
    Call E (EvidenceResult PolicySnapshot));
  pr_budget : option (EntityId BudgetTag -> Generation BudgetTag -> RouteRequest -> DiscoveryContext ->
    Call E (EvidenceResult BudgetSnapshot));
  pr_cost : option (RouteCandidate -> RouteRequest -> DiscoveryContext -> Call E (EvidenceResult CostEvidence));
  pr_slo : option (SloProvider E);
  pr_compatibility : option (RouteCandidate -> RouteRequest -> DiscoveryContext ->
    Call E (EvidenceResult CompatibilityEvidence));
  pr_trust : option (RouteCandidate -> DiscoveryContext -> Call E (EvidenceResult TrustEvidence));
  pr_reservation : option (RouteCandidate -> RouteRequest -> DiscoveryContext ->
    Call E (EvidenceResult ReservationEvidence));
  pr_dispatcher : option (RouteDecision -> RoutePlan -> DiscoveryContext -> IssuingCall E DispatchRecord);
  pr_clock : Call E UnixMillis
}.
Arguments pr_candidates {E} _.
Arguments pr_policy {E} _.
Arguments pr_budget {E} _.
Arguments pr_cost {E} _.
Arguments pr_slo {E} _.
Arguments pr_compatibility {E} _.
Arguments pr_trust {E} _.
Arguments pr_reservation {E} _.
Arguments pr_dispatcher {E} _.
Arguments pr_clock {E} _.

(** No adapter, and a clock that always shows [t]: the library on its own. *)
Definition no_providers (t : UnixMillis) : ProviderSet unit :=
  {| pr_candidates := None; pr_policy := None; pr_budget := None; pr_cost := None; pr_slo := None;
     pr_compatibility := None; pr_trust := None; pr_reservation := None; pr_dispatcher := None;
     pr_clock e := (t, e) |}.

(** ** Computations *)

(** What other threads do to the router's state and to the identity allocator
    between two critical sections of this one. *)
Definition Interference : Type := CanonicalState * Allocator -> CanonicalState * Allocator.

(** [w_others] is the schedule: its first element runs just before the next
    critical section; an empty schedule leaves this thread alone. *)
Record World (E : Type) := {
  w_state : CanonicalState;
  w_ids : Allocator;
  w_env : E;
  w_others : list Interference
}.
Arguments w_state {E} _.
Arguments w_ids {E} _.
Arguments w_env {E} _.
Arguments w_others {E} _.
#[export] Instance world_eta E : Eta (World E) := fun w =>
  {| w_state := w_state w; w_ids := w_ids w; w_env := w_env w; w_others := w_others w |}.

Definition interfere {E} (w : World E) : World E :=
  match w_others w with
  | [] => w
  | f :: others =>
      let '(s, ids) := f (w_state w, w_ids w) in
      w <| w_state := s |> <| w_ids := ids |> <| w_others := others |>
  end.

Definition M (E A : Type) : Type := World E -> A * World E.

#[export] Instance M_ret {E} : MRet (M E) := fun A a w => (a, w).
#[export] Instance M_bind {E} : MBind (M E) := fun A B f m w => let '(a, w) := m w in f a w.

Section Effects.
Context {E : Type}.

(** One critical section under the exclusive lock, with the identities it
    allocates: nothing else runs between its reads and writes. *)
Definition locked_ids {A} (f : CanonicalState -> Allocator -> A * CanonicalState * Allocator) : M E A := fun w =>
  let w := interfere w in
  let '(a, s, ids) := f (w_state w) (w_ids w) in (a, w <| w_state := s |> <| w_ids := ids |>).

Definition locked {A} (f : CanonicalState -> A * CanonicalState) : M E A :=
  locked_ids (fun s ids => let '(a, s) := f s in (a, s, ids)).

(** A critical section under the shared lock. *)
Definition locked_shared {A} (f : CanonicalState -> A) : M E A := fun w =>
  let w := interfere w in (f (w_state w), w).

Definition new_id (t : Tag) : M E (EntityId t) := fun w =>
  let '(id, ids) := allocate_id t (w_ids w) in (id, w <| w_ids := ids |>).

Definition ask {A} (f : Call E A) : M E A := fun w =>
  let '(a, e) := f (w_env w) in (a, w <| w_env := e |>).

(** The allocator's cell only rises: what the adapter left in it is observed. *)
Definition ask_issuing {A} (f : IssuingCall E A) : M E A := fun w =>
  let '(a, ids, e) := f (w_ids w) (w_env w) in
  (a, w <| w_ids := allocator_observe ids (w_ids w) |> <| w_env := e |>).

(** [return] out of the middle of a function. *)
Definition or_return {A B} (m : M E (B + A)) (f : A -> M E B) : M E B :=
  m ≫= fun r => match r with inl b => mret b | inr a => f a end.
End Effects.

Notation "x ←? m ; k" := (or_return m (fun x => k))
  (at level 20, m at level 100, k at level 200, format "x  ←?  m ;  '//' k") : router_scope.

(** ** Reasoning about a computation *)

(** A computation determines its answer and the world it leaves from the world
    it starts in: what is stated of a run is stated of those worlds. *)
Section Runs.
Context {E : Type}.

Lemma ret_runs {A} (a : A) (w : World E) : mret (M := M E) a w = (a, w).
Proof. reflexivity. Qed.
Lemma bind_runs {A B} (m : M E A) (f : A -> M E B) w a w' : m w = (a, w') -> (m ≫= f) w = f a w'.
Proof. intros H. unfold mbind, M_bind. by rewrite H. Qed.
Lemma shared_runs {A} (f : CanonicalState -> A) (w : World E) :
  locked_shared f w = (f (w_state (interfere w)), interfere w).
Proof. reflexivity. Qed.
Lemma or_return_left {A B} (m : M E (B + A)) f w b w' : m w = (inl b, w') -> or_return m f w = (b, w').
Proof. intros H. unfold or_return. by rewrite (bind_runs _ _ _ _ _ H). Qed.
Lemma or_return_right {A B} (m : M E (B + A)) f w a w' : m w = (inr a, w') -> or_return m f w = f a w'.
Proof. intros H. unfold or_return. by rewrite (bind_runs _ _ _ _ _ H). Qed.

(** What an adapter is asked from [w] answers ok, with [a]; without an adapter
    [a] is what is known. *)
Definition supplied {A} (source : option (Call E (EvidenceResult A))) (known : A) (w : World E)
    (a : A) (w' : World E) : Prop :=
  match source with
  | None => a = known /\ w' = w
  | Some call => exists result, ask call w = (result, w') /\ er_ok result = true /\ a = er_value result
  end.
End Runs.

(** Runs the first step of a computation the goal applies to a world. *)
Tactic Notation "run_bind" ident(a) ident(w') ident(H) :=
  match goal with
  | |- context [mbind ?f ?m ?w] => destruct (m w) as [a w'] eqn:H; rewrite (bind_runs m f w a w' H)
  end.
Tactic Notation "run_return" ident(o) ident(a) ident(w') ident(H) :=
  match goal with
  | |- context [or_return ?m ?f ?w] =>
      destruct (m w) as [[o|a] w'] eqn:H;
      [rewrite (or_return_left m f w o w' H)|rewrite (or_return_right m f w a w' H)]
  end.

(** [keeps I Q m]: whatever the other threads do, as long as each of their
    steps keeps [I], the computation keeps [I] and its result satisfies [Q]. *)
Section Keeps.
Context {E : Type} (I : CanonicalState -> Allocator -> Prop).

Definition interference_keeps (f : Interference) : Prop :=
  forall s ids, I s ids -> I (f (s, ids)).1 (f (s, ids)).2.

Definition world_ok (w : World E) : Prop :=
  I (w_state w) (w_ids w) /\ Forall interference_keeps (w_others w).

Definition keeps {A} (Q : A -> Prop) (m : M E A) : Prop :=
  forall w, world_ok w -> Q (m w).1 /\ world_ok (m w).2.

Lemma interfere_ok w : world_ok w -> world_ok (interfere w).
Proof.
  intros [HI HF]. unfold interfere. destruct (w_others w) as [|f others] eqn:Eo; [by rewrite <- Eo in HF|].
  apply Forall_cons in HF as [Hf HF]. specialize (Hf _ _ HI).
  destruct (f (w_state w, w_ids w)) as [s ids]. by split.
Qed.

Lemma keeps_ret {A} (Q : A -> Prop) a : Q a -> keeps Q (mret a).
Proof. by intros H w Hw. Qed.

Lemma keeps_weaken {A} (P Q : A -> Prop) m : (forall a, P a -> Q a) -> keeps P m -> keeps Q m.
Proof. intros H Hm w Hw. destruct (Hm w Hw). split; auto. Qed.

Lemma keeps_bind {A B} (P : A -> Prop) (Q : B -> Prop) m f :
  keeps P m -> (forall a, P a -> keeps Q (f a)) -> keeps Q (m ≫= f).
Proof.
  intros Hm Hf w Hw. destruct (Hm w Hw) as [Ha Hw']. unfold mbind, M_bind.
  destruct (m w) as [a w']. by apply Hf.
Qed.

Lemma keeps_or_return {A B} (P : A -> Prop) (Q : B -> Prop) (m : M E (B + A)) f :
  keeps (fun r => match r with inl b => Q b | inr a => P a end) m -> (forall a, P a -> keeps Q (f a)) ->
  keeps Q (or_return m f).
Proof. intros Hm Hf. eapply keeps_bind; [exact Hm|]. intros [b|a] H; [by apply keeps_ret|by apply Hf]. Qed.

Lemma keeps_or_return_any {A B} (Q : B -> Prop) (m : M E (B + A)) f :
  (forall b, Q b) -> keeps (fun _ => True) m -> (forall a, keeps Q (f a)) -> keeps Q (or_return m f).
Proof.
  intros HQ Hm Hf. apply (keeps_or_return (fun _ => True)); [|by intros a _].
  eapply keeps_weaken; [|exact Hm]. by intros [b|a] _.
Qed.

Lemma keeps_ask {A} (Q : A -> Prop) (f : Call E A) : (forall a, Q a) -> keeps Q (ask f).
Proof. intros H w Hw. unfold ask. by destruct (f (w_env w)). Qed.

Lemma keeps_ask_issuing {A} (Q : A -> Prop) (f : IssuingCall E A) :
  (forall s ids ids', ids <= ids' -> I s ids -> I s ids') -> (forall a, Q a) -> keeps Q (ask_issuing f).
Proof.
  intros Hrises H w [HI HF]. unfold ask_issuing. destruct (f (w_ids w) (w_env w)) as [[a ids] e].
  split; [apply H|]. split; [|done]. cbn. apply (Hrises _ (w_ids w)); [|done]. unfold allocator_observe.
  destruct (_ <? ids); [done|]. destruct (Z.ltb_spec (w_ids w) ids); lia.
Qed.

Lemma keeps_shared {A} (Q : A -> Prop) (f : CanonicalState -> A) :
  (forall s ids, I s ids -> Q (f s)) -> keeps Q (locked_shared f).
Proof. intros H w Hw. apply interfere_ok in Hw. split; [|done]. simpl. eapply H, Hw. Qed.

Lemma keeps_locked_ids {A} (Q : A -> Prop) f :
  (forall s ids, I s ids -> let '(a, s', ids') := f s ids in Q a /\ I s' ids') -> keeps Q (locked_ids f).
Proof.
  intros H w Hw. apply interfere_ok in Hw as [HI HF]. unfold locked_ids. specialize (H _ _ HI).
  destruct (f (w_state (interfere w)) (w_ids (interfere w))) as [[a s] ids]. destruct H. by split; [|split].
Qed.

Lemma keeps_locked {A} (Q : A -> Prop) f :
  (forall s ids, I s ids -> let '(a, s') := f s in Q a /\ I s' ids) -> keeps Q (locked f).
Proof. intros H. apply keeps_locked_ids. intros s ids HI. specialize (H s ids HI). by destruct (f s). Qed.

Lemma keeps_new_id t (Q : EntityId t -> Prop) :
  (forall s ids, I s ids -> Q (allocate_id t ids).1 /\ I s (allocate_id t ids).2) -> keeps Q (new_id t).
Proof.
  intros H w [HI HF]. specialize (H _ _ HI). unfold new_id. destruct (allocate_id t (w_ids w)) as [id ids].
  destruct H. by repeat split.
Qed.
End Keeps.
