(* ===== verification/RouterRoute.v ===== *)
(** * The routing pipeline ([router_route.cpp])

    Admission, discovery, resolution of evidence, hard eligibility, ranking,
    authority binding and commit.  Each critical section reads or writes the
    state it finds, so what other threads do between two sections is whatever
    state the later one is given. *)
From S2P Require Import Prelude Ids Outcome Limits Clock Capability Evidence Catalog Request.
From S2P Require Import Candidate Policy Authority Eligibility Ranking Decision RouterState.
From S2P Require Import RouterMutation Providers.

(** ** Discovery *)

Definition derive_slo_feasibility (candidate : RouteCandidate) (slo : SloEvidence) (now : UnixMillis)
    : SloVerdict.t :=
  let target := if negb (sl_latency_target_micros slo =? kUnspecified)
                then sl_latency_target_micros slo else kUnspecified in
  return_if (target =? kUnspecified) || (target =? 0) with SloVerdict.UNKNOWN ;;
  let latency := bd_latency (rc_backend candidate) in
  return_if latency_expired latency now || (lt_dispatch_micros latency =? kUnknownLatencyMicros)
    with SloVerdict.UNKNOWN ;;
  if lt_dispatch_micros latency <=? target then SloVerdict.FEASIBLE else SloVerdict.INFEASIBLE.

Definition key_of (model : ModelDescriptor) (backend : BackendDescriptor) : CandidateKey := {|
  ck_model_id := md_model_id model;
  ck_model_generation := md_model_generation model;
  ck_artifact_generation := md_artifact_generation model;
  ck_backend_id := bd_backend_id backend;
  ck_backend_generation := bd_backend_generation backend;
  ck_backend_boot := bd_backend_boot backend;
  ck_endpoint_id := ep_endpoint_id (bd_endpoint backend);
  ck_endpoint_generation := ep_endpoint_generation (bd_endpoint backend) |}.

Definition catalog_candidate (model : ModelDescriptor) (backend : BackendDescriptor) (binding : ModelBinding)
    : RouteCandidate :=
  route_candidate_default <| rc_key := key_of model backend |>
    <| rc_model := model |> <| rc_backend := backend |> <| rc_endpoint := bd_endpoint backend |>
    <| rc_context_limit_tokens := if negb (mb_context_limit_tokens binding =? 0)
                                  then mb_context_limit_tokens binding else md_context_limit_tokens model |>
    <| rc_quality_class := if negb (mb_quality_class binding =? kUnclassifiedQuality)
                           then mb_quality_class binding else md_quality_class model |>
    <| rc_discovery_source := "catalog" |>.

(** The request is not used. *)
Definition build_candidate_from_catalog (model_id : EntityId ModelTag) (backend_id : EntityId BackendTag)
    (s : CanonicalState) : option RouteCandidate :=
  match cs_models s !! model_id, cs_backends s !! backend_id with
  | Some model, Some backend => catalog_candidate model backend <$> find_binding backend model_id
  | _, _ => None
  end.

(** The candidates one index entry contributes. *)
Definition discover_entry (s : CanonicalState) (model_id : EntityId ModelTag) : list RouteCandidate :=
  omap (fun backend_id => build_candidate_from_catalog model_id backend_id s)
    (stable_sort id_ltb (elements (default ∅ (cs_index_by_model s !! model_id)))).

Definition discover_catalog (s : CanonicalState) : list RouteCandidate :=
  ordered_keys id_ltb (cs_index_by_model s) ≫= discover_entry s.

(** One capture of the evidence maps a pass needs. *)
Record EvidenceSnapshot := {
  sn_compatibility : gmap (EntityId BackendTag) CompatibilityEvidence;
  sn_trust : gmap (EntityId BackendTag) TrustEvidence;
  sn_reservations : gmap (EntityId BackendTag) ReservationEvidence;
  sn_slo : SloEvidence
}.
Definition capture (s : CanonicalState) : EvidenceSnapshot :=
  {| sn_compatibility := cs_compatibility s; sn_trust := cs_trust s;
     sn_reservations := cs_reservations s; sn_slo := cs_slo s |}.

(** What the first critical section of a pass copies out. *)
Record RoutingPass := {
  ps_limits : ResourceLimits;
  ps_weights : RankingWeights;
  ps_scales : RankingScales;
  ps_policy : PolicySnapshot;
  ps_budget : BudgetSnapshot;
  ps_slo : SloEvidence;
  ps_epoch : Generation RouterEpochTag;
  ps_coordinator_epoch : Generation CoordinatorEpochTag;
  ps_router_id : EntityId RouterTag;
  ps_context : DiscoveryContext;
  ps_continuity : option (EntityId BackendTag);
  ps_snapshot : EvidenceSnapshot
}.

Definition capture_pass (tenant : EntityId TenantTag) (name_space : EntityId NamespaceTag) (now : UnixMillis)
    (s : CanonicalState) : RoutingPass := {|
  ps_limits := cs_limits s; ps_weights := cs_weights s; ps_scales := cs_scales s;
  ps_policy := cs_policy s; ps_budget := cs_budget s; ps_slo := cs_slo s;
  ps_epoch := cs_router_epoch s; ps_coordinator_epoch := cs_coordinator_epoch s;
  ps_router_id := cs_router_id s;
  ps_context := {| dx_router_id := cs_router_id s; dx_router_epoch := cs_router_epoch s;
    dx_coordinator_epoch := cs_coordinator_epoch s; dx_tenant := tenant; dx_name_space := name_space;
    dx_now := now; dx_limits := cs_limits s |};
  ps_continuity := cs_last_winner_by_tenant s !! tenant;
  ps_snapshot := capture s |}.

(** The first critical section: a refusal, or the pass. *)
Definition admit_route (request : RouteRequest) (now : UnixMillis) (s : CanonicalState)
    : RouteOutcome + RoutingPass :=
  return_if cs_shutting_down s
    with inl (outcome_make OutcomeCode.SHUTTING_DOWN "route"
                "router is shutting down and cannot admit a route request") ;;
  return_if negb (cs_running s)
    with inl (outcome_make OutcomeCode.REJECT_INVALID "route" "router is not running") ;;
  inr (capture_pass (rr_tenant request) (rr_name_space request) now s).

Section Route.
Context {E : Type} (providers : ProviderSet E).

Definition discover (request : RouteRequest) (context : DiscoveryContext) : M E (list RouteCandidate) :=
  match pr_candidates providers with
  | Some ask_discover =>
      result ← ask (ask_discover request context);
      mret (if er_ok result then er_value result else [])
  | None => locked_shared discover_catalog
  end.

(** *** Resolution of a candidate's evidence *)

(** [Some fetch]: the answer when it is ok, the default otherwise. *)
Definition answer {A} (default_value : A) (call : Call E (EvidenceResult A)) : M E A :=
  result ← ask call;
  mret (if er_ok result then er_value result else default_value).

Definition resolve_cost (request : RouteRequest) (context : DiscoveryContext) (candidate : RouteCandidate)
    : M E CostEvidence :=
  cost ← match pr_cost providers with
         | Some fetch => answer cost_evidence_default (fetch candidate request context)
         | None => mret (match find_binding (rc_backend candidate) (ck_model_id (rc_key candidate)) with
                         | Some binding => mb_cost binding
                         | None => cost_evidence_default
                         end)
         end;
  mret (if negb (valid (co_backend_id cost))
        then cost <| co_backend_id := ck_backend_id (rc_key candidate) |>
                  <| co_model_id := ck_model_id (rc_key candidate) |>
        else cost).

Definition resolve_compatibility (request : RouteRequest) (context : DiscoveryContext)
    (snapshot : EvidenceSnapshot) (candidate : RouteCandidate) : M E CompatibilityEvidence :=
  match pr_compatibility providers with
  | Some fetch => answer compatibility_evidence_default (fetch candidate request context)
  | None => mret (default compatibility_evidence_default
                    (sn_compatibility snapshot !! ck_backend_id (rc_key candidate)))
  end.

Definition resolve_trust (context : DiscoveryContext) (candidate : RouteCandidate) : M E TrustEvidence :=
  match pr_trust providers with
  | Some fetch => answer trust_evidence_default (fetch candidate context)
  | None => mret (trust_evidence_default
                    <| tr_profile_id := bd_trust_profile_id (rc_backend candidate) |>
                    <| tr_generation := bd_trust_generation (rc_backend candidate) |>
                    <| tr_backend_id := ck_backend_id (rc_key candidate) |>
                    <| tr_domain := bd_trust_domain (rc_backend candidate) |>)
  end.

(** The SLO evidence, whether a verdict is known, and the verdict. *)
Definition resolve_slo (request : RouteRequest) (context : DiscoveryContext) (snapshot : EvidenceSnapshot)
    (candidate : RouteCandidate) : M E (SloEvidence * bool * SloVerdict.t) :=
  match pr_slo providers with
  | Some provider =>
      slo ← (if valid (rr_slo_id request)
             then answer slo_evidence_default
                    (slo_fetch provider (rr_slo_id request) (rr_slo_generation request) request context)
             else mret (sn_slo snapshot));
      feasibility ← ask (slo_feasibility provider candidate slo request context);
      mret (slo, er_ok feasibility, if er_ok feasibility then er_value feasibility else SloVerdict.UNKNOWN)
  | None =>
      let slo := sn_slo snapshot in
      let derived := derive_slo_feasibility candidate slo (dx_now context) in
      mret (slo, derived != SloVerdict.UNKNOWN, derived)
  end.

Definition resolve_reservation (request : RouteRequest) (context : DiscoveryContext)
    (snapshot : EvidenceSnapshot) (candidate : RouteCandidate) : M E (option ReservationEvidence) :=
  match pr_reservation providers with
  | Some reserve =>
      result ← ask (reserve candidate request context);
      mret (if er_ok result then Some (er_value result) else None)
  | None => mret (sn_reservations snapshot !! ck_backend_id (rc_key candidate))
  end.

Definition resolve_candidate (request : RouteRequest) (context : DiscoveryContext)
    (snapshot : EvidenceSnapshot) (candidate : RouteCandidate) : M E CandidateEvidence :=
  cost ← resolve_cost request context candidate;
  compatibility ← resolve_compatibility request context snapshot candidate;
  trust ← resolve_trust context candidate;
  slo ← resolve_slo request context snapshot candidate;
  reservation ← resolve_reservation request context snapshot candidate;
  let '(evidence, known, verdict) := slo in
  mret {| ce_cost := cost; ce_compatibility := compatibility; ce_trust := trust; ce_slo := evidence;
          ce_slo_verdict := verdict; ce_slo_verdict_known := known;
          ce_reservation := default reservation_evidence_default reservation;
          ce_reservation_present := bool_decide (is_Some reservation) |}.
End Route.

(** ** Judging one candidate *)

(** The lambda [satisfies] of the preferred capabilities. *)
Definition is_present (now : UnixMillis) (evidence : option CapabilityEvidence) : bool :=
  match evidence with
  | Some e => is_satisfying (ce_state e) && negb (ce_expired e now)
  | None => false
  end.

Definition count_satisfied {A} (satisfied : A -> bool) (l : list A) : Z :=
  Request.size (List.filter satisfied l).

(** The coverage counts a candidate carries into eligibility and ranking. *)
Definition with_coverage (q : RouteRequirements) (now : UnixMillis) (c : RouteCandidate) : RouteCandidate :=
  let model_find key := profile_find (md_capabilities (rc_model c)) key in
  let backend_find key := profile_find (bd_capabilities (rc_backend c)) key in
  c <| rc_required_total := word32 (Request.size (rq_required_capabilities q)) |>
    <| rc_required_satisfied := word32 (count_satisfied
         (fun r => satisfies now (model_find (cr_key r)) (cr_minimum_state r) ||
                   satisfies now (backend_find (cr_key r)) (cr_minimum_state r))
         (rq_required_capabilities q)) |>
    <| rc_preferred_total := word32 (Request.size (rq_preferred_capabilities q)) |>
    <| rc_preferred_satisfied := word32 (count_satisfied
         (fun key => is_present now (model_find key) || is_present now (backend_find key))
         (rq_preferred_capabilities q)) |>.

(** What a pass has settled on before it looks at candidates. *)
Record PassInputs := {
  pi_request : RouteRequest;
  pi_policy : PolicySnapshot;
  pi_budget : BudgetSnapshot;
  pi_slo : SloEvidence;
  pi_weights : RankingWeights;
  pi_scales : RankingScales;
  pi_continuity : option (EntityId BackendTag);
  pi_now : UnixMillis
}.

Definition eligibility_of (p : PassInputs) (c : RouteCandidate) (evidence : CandidateEvidence)
    : EligibilityVerdict :=
  evaluate_hard_eligibility {| in_request := Some (pi_request p); in_candidate := Some c;
    in_policy := Some (pi_policy p); in_budget := Some (pi_budget p); in_evidence := Some evidence;
    in_now := pi_now p |}.

Definition ranking_context (p : PassInputs) (c : RouteCandidate) (evidence : CandidateEvidence)
    : RankingContext := {|
  cx_request := pi_request p; cx_evidence := evidence;
  cx_policy_verdict := Some (evaluate_candidate (pi_policy p) (pi_request p) c (pi_now p));
  cx_weights := pi_weights p; cx_scales := pi_scales p; cx_now := pi_now p;
  cx_continuity_backend := default none (pi_continuity p);
  cx_has_continuity_backend := bool_decide (is_Some (pi_continuity p));
  cx_diversity_reference_provider := none; cx_has_diversity_reference := false |}.

Definition rank_candidate (p : PassInputs) (c : RouteCandidate) (evidence : CandidateEvidence)
    : RankedCandidate :=
  let '(factors, score) := build_factors c (ranking_context p c evidence) in
  ranked_candidate_default <| rk_key := rc_key c |> <| rk_factors := factors |> <| rk_score := score |>.

Definition rejection_of (c : RouteCandidate) (verdict : EligibilityVerdict) : RouteRejection := {|
  rj_model_id := value (ck_model_id (rc_key c));
  rj_model_generation := ck_model_generation (rc_key c);
  rj_backend_id := value (ck_backend_id (rc_key c));
  rj_backend_generation := ck_backend_generation (rc_key c);
  rj_backend_boot := ck_backend_boot (rc_key c);
  rj_endpoint_id := value (ck_endpoint_id (rc_key c));
  rj_code := el_code verdict;
  rj_detail := el_detail verdict |}.

(** One turn of the loop over the candidates. *)
Definition judge (p : PassInputs) (candidate : RouteCandidate) (evidence : CandidateEvidence)
    : RouteRejection + RankedCandidate :=
  let c := with_coverage (rr_requirements (pi_request p)) (pi_now p) candidate in
  let verdict := eligibility_of p c evidence in
  return_if negb (eligible verdict) with inl (rejection_of c verdict) ;;
  inr (rank_candidate p c evidence).

(** Puts one judgement in front of the lists. *)
Definition collect (j : RouteRejection + RankedCandidate)
    (rest : list RankedCandidate * list RouteRejection) : list RankedCandidate * list RouteRejection :=
  match j with
  | inl rejection => (rest.1, rejection :: rest.2)
  | inr ranked => (ranked :: rest.1, rest.2)
  end.

(** Canonical candidates: sorted by key, without duplicates. *)
Definition candidate_less (l r : RouteCandidate) : bool := candidate_key_ltb (rc_key l) (rc_key r).
Definition canonical_candidates (l : list RouteCandidate) : list RouteCandidate :=
  unique (fun l r => rc_key l == rc_key r) (stable_sort candidate_less l).

Definition rank_all (ranked : list RankedCandidate) : list RankedCandidate :=
  number_ranks (stable_sort candidate_ranks_before ranked).

(** ** Authority binding and fallbacks *)

(** The authority of the winner: what the pass knows, then what the second
    shared section reads from the state it finds. *)
Definition bind_authority (pass : RoutingPass) (p : PassInputs) (winner : CandidateKey) (s : CanonicalState)
    : RouteAuthority :=
  let request := pi_request p in
  let a := route_authority_default
    <| au_router_id := ps_router_id pass |> <| au_router_epoch := ps_epoch pass |>
    <| au_coordinator_epoch := ps_coordinator_epoch pass |>
    <| au_request_id := rr_request_id request |> <| au_request_generation := rr_request_generation request |>
    <| au_model_id := ck_model_id winner |> <| au_model_generation := ck_model_generation winner |>
    <| au_artifact_generation := ck_artifact_generation winner |>
    <| au_backend_id := ck_backend_id winner |> <| au_backend_generation := ck_backend_generation winner |>
    <| au_backend_boot := ck_backend_boot winner |>
    <| au_endpoint_id := ck_endpoint_id winner |> <| au_endpoint_generation := ck_endpoint_generation winner |>
    <| au_tenant := rr_tenant request |> <| au_name_space := rr_name_space request |>
    <| au_issued_at := pi_now p |> <| au_expires_at := rr_expires_at request |> in
  let a := match cs_backends s !! ck_backend_id winner with
           | None => a
           | Some b =>
               a <| au_provider_id := bd_provider_id b |> <| au_provider_generation := bd_provider_generation b |>
                 <| au_registration_generation := bd_registration_generation b |>
                 <| au_capability_profile_id := bd_capability_profile_id b |>
                 <| au_capability_generation := bd_capability_generation b |>
                 <| au_compatibility_profile_id := bd_compatibility_profile_id b |>
                 <| au_compatibility_generation := bd_compatibility_generation b |>
                 <| au_trust_profile_id := bd_trust_profile_id b |> <| au_trust_generation := bd_trust_generation b |>
                 <| au_health_generation := ev_generation (bd_health b) |>
                 <| au_availability_generation := ev_generation (bd_availability b) |>
                 <| au_readiness_generation := ev_generation (bd_readiness b) |>
                 <| au_residency_generation := ev_generation (bd_residency b) |>
                 <| au_capacity_generation := ev_generation (bd_capacity b) |>
           end in
  let a := a <| au_policy_id := po_policy_id (pi_policy p) |> <| au_policy_generation := po_generation (pi_policy p) |> in
  let a := if valid (rr_budget_id request)
           then a <| au_budget_id := rr_budget_id request |> <| au_budget_generation := bu_generation (pi_budget p) |>
           else a in
  a <| au_slo_id := sl_slo_id (pi_slo p) |> <| au_slo_generation := sl_generation (pi_slo p) |>.

(** Cost and reservation of the winner, from evidence resolved once more. *)
Definition bind_evidence (evidence : CandidateEvidence) (a : RouteAuthority) : RouteAuthority :=
  let a := a <| au_cost_evidence_id := co_evidence_id (ce_cost evidence) |>
             <| au_price_generation := co_price_generation (ce_cost evidence) |> in
  if ce_reservation_present evidence
  then a <| au_reservation_id := rs_reservation_id (ce_reservation evidence) |>
         <| au_reservation_generation := rs_generation (ce_reservation evidence) |>
  else a.

Definition permitted_fallbacks (limits : ResourceLimits) (p : PassInputs) : Z :=
  let requested := Z.min (rp_max_fallbacks (rq_retry_policy (rr_requirements (pi_request p))))
                         (max_fallback_candidates limits) in
  if po_fallback_policy (pi_policy p) == FallbackPolicy.FORBIDDEN then 0
  else Z.min requested (po_max_fallback_depth (pi_policy p)).

(** A different backend than the winner's comes first. *)
Definition other_domain_first (winner : CandidateKey) (l r : RankedCandidate) : bool :=
  let left_same := ck_backend_id (rk_key l) == ck_backend_id winner in
  let right_same := ck_backend_id (rk_key r) == ck_backend_id winner in
  if negb (eqb left_same right_same) then negb left_same else false.

Definition fallback_order (permitted : Z) (winner : CandidateKey) (tail : list RankedCandidate)
    : list CandidateKey :=
  if 0 <? permitted
  then map rk_key (take (Z.to_nat permitted) (stable_sort (other_domain_first winner) tail))
  else [].

(** ** Commit *)

(** Evicts from the front until fewer than [limit] decisions are retained. *)
Fixpoint evict (limit : Z) (order : list (EntityId RouteDecisionTag))
    (routes : gmap (EntityId RouteDecisionTag) RouteRecord)
    : list (EntityId RouteDecisionTag) * gmap (EntityId RouteDecisionTag) RouteRecord :=
  match order with
  | victim :: rest =>
      if limit <=? Request.size order then evict limit rest (delete victim routes) else (order, routes)
  | [] => (order, routes)
  end.

Definition evict_history (s : CanonicalState) : CanonicalState :=
  let '(order, routes) := evict (max_route_history (cs_limits s)) (cs_route_order s) (cs_routes s) in
  s <| cs_route_order := order |> <| cs_routes := routes |>.

(** The state a commit inserts into: evicted when the history is full. *)
Definition evicted (s : CanonicalState) : CanonicalState :=
  if max_route_history (cs_limits s) <=? map_size (cs_routes s) then evict_history s else s.

(** [std::map::emplace] keeps an entry that is already there. *)
Definition emplace `{Countable K} {A} (k : K) (a : A) (m : gmap K A) : gmap K A :=
  match m !! k with Some _ => m | None => <[k := a]> m end.

(** The comparison at commit time.  When the identity is gone the comparison is
    built without differences, so it reads as current. *)
Definition authority_current_at_commit (s : CanonicalState) (a : RouteAuthority) : bool :=
  comparison_current
    match build_current_authority s a with
    | Some observed => compare_authority a observed (required_mask a)
    | None => {| cm_code := OutcomeCode.REJECT_STALE_BACKEND; cm_differences := [] |}
    end.

Definition mark_decision_stale (d : RouteDecision) : RouteDecision :=
  d <| de_status := RouteStatus.STALE |>
    <| de_explanation := (de_explanation d) <| rx_currentness := Currentness.STALE |>
                           <| rx_revalidation_required := true |> |>.

(** The decision named, compared and digested: what is committed, and whether
    the comparison found it current. *)
Definition finalize_decision (s : CanonicalState) (id : EntityId RouteDecisionTag) (d : RouteDecision)
    : RouteDecision * bool :=
  let generation := GenerationOf 1 in
  let a := (de_authority d) <| au_decision_id := id |> <| au_decision_generation := generation |> in
  let d := d <| de_decision_id := id |> <| de_decision_generation := generation |>
             <| de_authority := a |> <| de_explanation := (de_explanation d) <| rx_authority := a |> |> in
  let current := authority_current_at_commit s a in
  let d := if current then d else mark_decision_stale d in
  (d <| de_explanation := (de_explanation d)
          <| rx_semantic_digest := compute_semantic_digest (de_explanation d) |> |>, current).

Definition make_plan (p : PassInputs) (winner : CandidateKey) (permitted : Z) (a : RouteAuthority)
    (plan_id : EntityId RoutePlanTag) (d : RouteDecision) : RoutePlan :=
  let q := rr_requirements (pi_request p) in
  route_plan_default <| pl_plan_id := plan_id |> <| pl_plan_generation := GenerationOf 1 |>
    <| pl_decision_id := de_decision_id d |> <| pl_decision_generation := de_decision_generation d |>
    <| pl_primary := winner |> <| pl_fallbacks := de_fallbacks d |> <| pl_authority := a |>
    <| pl_constraints := dispatch_constraints_default <| dk_require_revalidation := true |>
         <| dk_require_reservation := rq_require_reservation q |>
         <| dk_max_attempts := rp_max_attempts (rq_retry_policy q) |> <| dk_max_fallbacks := permitted |> |>
    <| pl_retry_policy := rq_retry_policy q |> <| pl_fallback_policy := po_fallback_policy (pi_policy p) |>
    <| pl_created_at := pi_now p |> <| pl_expires_at := rr_expires_at (pi_request p) |>.

(** Retains the record under its decision identity, then re-checks it: the
    result tells whether the retained decision is CURRENT. *)
Definition retain_record (now : UnixMillis) (id : EntityId RouteDecisionTag) (record : RouteRecord)
    (s : CanonicalState) : bool * CanonicalState :=
  let s := s <| cs_routes := emplace id record (cs_routes s) |>
             <| cs_route_order := cs_route_order s ++ [id] |> in
  match cs_routes s !! id with
  | None => (true, s)
  | Some inserted =>
      let inserted := stale_decision_if_not_dispatchable s now inserted in
      (de_status (rec_decision inserted) == RouteStatus.CURRENT,
       s <| cs_routes := <[id := inserted]> (cs_routes s) |>)
  end.

Definition commit_record (p : PassInputs) (winner : CandidateKey) (permitted : Z) (a : RouteAuthority)
    (d : RouteDecision) (s : CanonicalState) (ids : Allocator)
    : (RouteDecision * bool) * CanonicalState * Allocator :=
  let '(id, ids) := allocate_id RouteDecisionTag ids in
  let '(d, current) := finalize_decision s id d in
  let '(plan_id, ids) := allocate_id RoutePlanTag ids in
  let record := {| rec_decision := d; rec_plan := make_plan p winner permitted a plan_id d;
                   rec_tenant := rr_tenant (pi_request p); rec_name_space := rr_name_space (pi_request p) |} in
  let '(retained_current, s) := retain_record (pi_now p) id record s in
  ((d, current && retained_current), s, ids).

Definition set_winner (p : PassInputs) (winner : CandidateKey) (eligible_count rejected_count : Z)
    (s : CanonicalState) : CanonicalState :=
  note_tenant (rr_tenant (pi_request p))
    (s <| cs_last_eligible := eligible_count |> <| cs_last_rejected := rejected_count |>
       <| cs_last_winner_by_tenant := <[rr_tenant (pi_request p) := ck_backend_id winner]>
                                        (cs_last_winner_by_tenant s) |>).

(** The commit of a full pass, under the exclusive lock. *)
Definition commit_route (pass : RoutingPass) (p : PassInputs) (explanation : RouteExplanation)
    (permitted : Z) (d : RouteDecision) (s : CanonicalState) (ids : Allocator)
    : (RouteOutcome + RouteDecision * bool) * CanonicalState * Allocator :=
  return_if cs_shutting_down s
    with (inl (outcome_make OutcomeCode.SHUTTING_DOWN "route"
                 "router began shutting down before the route could be committed"), s, ids) ;;
  return_if (cs_router_epoch s != ps_epoch pass) || (cs_coordinator_epoch s != ps_coordinator_epoch pass)
    with (inl (outcome_make OutcomeCode.REJECT_STALE_ROUTER_EPOCH "route"
                 "router epoch advanced before the route could be committed"), s, ids) ;;
  let winner := rx_winner explanation in
  let s := evicted s in
  let '(committed, s, ids) := commit_record p winner permitted (de_authority d) d s ids in
  let c := cs_counters s in
  let s := s <| cs_counters := c <| pc_route_requests := incremented (pc_route_requests c) |>
                                 <| pc_route_decisions := incremented (pc_route_decisions c) |> |> in
  (inr committed, set_winner p winner (rx_eligible_count explanation) (rx_rejected_count explanation) s, ids).

(** A pass that found nothing eligible counts itself and leaves no decision. *)
Definition count_rejection (tenant : EntityId TenantTag) (rejected_count : Z) (s : CanonicalState)
    : CanonicalState :=
  let c := cs_counters s in
  note_tenant tenant
    (s <| cs_counters := c <| pc_route_requests := incremented (pc_route_requests c) |>
                            <| pc_route_rejections := incremented (pc_route_rejections c) |> |>
       <| cs_last_eligible := 0 |> <| cs_last_rejected := rejected_count |>).

(** ** The pipeline *)

Definition or_text (detail fallback : string) : string := if detail == "" then fallback else detail.

Section Pipeline.
Context {E : Type} (providers : ProviderSet E).

Definition normalize_request (request : RouteRequest) : M E RouteRequest :=
  let request := request <| rr_requirements := requirements_canonicalize (rr_requirements request) |> in
  id ← (if valid (rr_request_id request) then mret (rr_request_id request) else new_id RouteRequestTag);
  mret (request <| rr_request_id := id |>
          <| rr_request_generation := if valid (rr_request_generation request)
                                      then rr_request_generation request else GenerationOf 1 |>).

(** Policy evidence that admits the request. *)
Definition settle_policy (pass : RoutingPass) (request : RouteRequest) (now : UnixMillis)
    : M E (RouteOutcome + PolicySnapshot) :=
  policy ←? match pr_policy providers with
            | Some fetch =>
                result ← ask (fetch (rr_policy_id request) (rr_policy_generation request) (ps_context pass));
                mret (if er_ok result then inr (er_value result)
                      else inl (inl (outcome_make (er_code result) "route"
                             (or_text (er_detail result) "policy evidence is unavailable"))))
            | None => mret (inr (ps_policy pass))
            end;
  let policy := policy_canonicalize policy in
  return_if negb (valid (po_generation policy))
    with mret (inl (outcome_make OutcomeCode.REJECT_STALE_POLICY "route"
                      "no current policy evidence is available")) ;;
  let verdict := evaluate_request policy request now in
  return_if negb (policy_allowed verdict)
    with mret (inl (outcome_make (pv_code verdict) "route" (pv_detail verdict))) ;;
  mret (inr policy).

Definition settle_budget (pass : RoutingPass) (request : RouteRequest) : M E (RouteOutcome + BudgetSnapshot) :=
  return_if negb (valid (rr_budget_id request)) with mret (inr (ps_budget pass)) ;;
  budget ←? match pr_budget providers with
            | Some fetch =>
                result ← ask (fetch (rr_budget_id request) (rr_budget_generation request) request (ps_context pass));
                mret (if er_ok result then inr (er_value result)
                      else inl (inl (outcome_make (er_code result) "route"
                             (or_text (er_detail result) "budget evidence is unavailable"))))
            | None => mret (inr (ps_budget pass))
            end;
  return_if negb (valid (bu_generation budget)) || (bu_verdict budget == BudgetVerdict.UNKNOWN)
    with mret (inl (outcome_make OutcomeCode.REJECT_UNKNOWN_EVIDENCE "route" "budget evidence is UNKNOWN")) ;;
  return_if bu_generation budget != rr_budget_generation request
    with mret (inl (outcome_make OutcomeCode.REJECT_STALE_BUDGET "route"
                      "budget generation is not the request budget generation")) ;;
  return_if bu_verdict budget == BudgetVerdict.DENIED
    with mret (inl (outcome_make OutcomeCode.REJECT_BUDGET "route" "budget verdict denies the request")) ;;
  mret (inr budget).

Definition settle_slo (pass : RoutingPass) (request : RouteRequest) : M E (RouteOutcome + SloEvidence) :=
  return_if negb (rq_require_slo (rr_requirements request)) with mret (inr (ps_slo pass)) ;;
  slo ←? match pr_slo providers with
         | Some provider =>
             result ← ask (slo_fetch provider (rr_slo_id request) (rr_slo_generation request) request
                             (ps_context pass));
             mret (if er_ok result then inr (er_value result)
                   else inl (inl (outcome_make (er_code result) "route"
                          (or_text (er_detail result) "SLO evidence is unavailable"))))
         | None => mret (inr (ps_slo pass))
         end;
  return_if negb (valid (sl_generation slo)) || (sl_verdict slo == SloVerdict.UNKNOWN)
    with mret (inl (outcome_make OutcomeCode.REJECT_UNKNOWN_EVIDENCE "route" "SLO evidence is UNKNOWN")) ;;
  return_if sl_generation slo != rr_slo_generation request
    with mret (inl (outcome_make OutcomeCode.REJECT_STALE_SLO "route"
                      "SLO generation is not the request SLO generation")) ;;
  return_if sl_verdict slo == SloVerdict.INFEASIBLE
    with mret (inl (outcome_make OutcomeCode.REJECT_SLO "route" "SLO verdict is infeasible")) ;;
  mret (inr slo).

(** The loop over the candidates: what each resolves to, judged. *)
Fixpoint judge_all (pass : RoutingPass) (p : PassInputs) (candidates : list RouteCandidate)
    : M E (list RankedCandidate * list RouteRejection) :=
  match candidates with
  | [] => mret ([], [])
  | c :: candidates =>
      evidence ← resolve_candidate providers (pi_request p) (ps_context pass) (ps_snapshot pass) c;
      rest ← judge_all pass p candidates;
      mret (collect (judge p c evidence) rest)
  end.

(** The explanation of a pass, before a winner is bound. *)
Definition explain_pass (p : PassInputs) (ranked : list RankedCandidate) (rejections : list RouteRejection)
    : RouteExplanation :=
  route_explanation_default
    <| rx_request_id := rr_request_id (pi_request p) |>
    <| rx_request_generation := rr_request_generation (pi_request p) |>
    <| rx_policy := pi_policy p |> <| rx_budget := pi_budget p |> <| rx_slo := pi_slo p |>
    <| rx_requirement_digest := requirements_digest (rr_requirements (pi_request p)) |>
    <| rx_policy_result := pv_code (evaluate_request (pi_policy p) (pi_request p) (pi_now p)) |>
    <| rx_eligible_count := word32 (Request.size ranked) |>
    <| rx_rejected_count := word32 (Request.size rejections) |>
    <| rx_rejections := rejections |> <| rx_ranking := ranked |>.

(** The winner's evidence, resolved a second time. *)
Definition resolve_winner (pass : RoutingPass) (p : PassInputs) (candidates : list RouteCandidate)
    (winner : CandidateKey) : M E (option CandidateEvidence) :=
  match find_sorted candidate_key_ltb rc_key candidates winner with
  | Some c =>
      evidence ← resolve_candidate providers (pi_request p) (ps_context pass) (ps_snapshot pass) c;
      mret (Some evidence)
  | None => mret None
  end.

(** From the ranked winner to the committed outcome. *)
Definition commit_winner (pass : RoutingPass) (p : PassInputs) (candidates : list RouteCandidate)
    (explanation : RouteExplanation) (winner : RankedCandidate) (tail : list RankedCandidate)
    : M E RouteOutcome :=
  let key := rk_key winner in
  a ← locked_shared (bind_authority pass p key);
  resolved ← resolve_winner pass p candidates key;
  let a := match resolved with Some evidence => bind_evidence evidence a | None => a end in
  let cost := match resolved with Some evidence => ce_cost evidence | None => rx_cost explanation end in
  let permitted := permitted_fallbacks (ps_limits pass) p in
  let explanation := explanation <| rx_cost := cost |> <| rx_winner := key |> <| rx_authority := a |>
    <| rx_currentness := Currentness.CURRENT |> <| rx_revalidation_required := false |>
    <| rx_tie_break_reason := match tail with
                              | second :: _ => if rk_score winner =? rk_score second
                                  then "canonical factor sequence then canonical candidate identity"
                                  else "higher integer score"
                              | [] => "higher integer score"
                              end |>
    <| rx_fallback_order := fallback_order permitted key tail |> in
  let d := route_decision_default
    <| de_request_id := rr_request_id (pi_request p) |>
    <| de_request_generation := rr_request_generation (pi_request p) |>
    <| de_status := RouteStatus.CURRENT |> <| de_code := OutcomeCode.ROUTED |> <| de_authority := a |>
    <| de_fallbacks := rx_fallback_order explanation |> <| de_created_at := pi_now p |>
    <| de_explanation := explanation <| rx_semantic_digest := "" |> |> in
  committed ←? (r ← locked_ids (commit_route pass p explanation permitted d); mret r);
  let '(d, current) := committed in
  let code := if current then OutcomeCode.ROUTED else OutcomeCode.REVALIDATION_REQUIRED in
  mret (route_outcome_default <| oc_code := code |> <| oc_decision := d |> <| oc_route := de_explanation d |>
    <| oc_has_decision := true |>
    <| oc_explanation := build (builder code "route"
         >>> add_int "decision_id" (value (de_decision_id d))
         >>> add_int "eligible" (rx_eligible_count explanation)
         >>> add_int "rejected" (rx_rejected_count explanation)
         >>> add_int "model_id" (value (ck_model_id key))
         >>> add_int "backend_id" (value (ck_backend_id key))
         >>> add_int "backend_boot" (value (ck_backend_boot key))
         >>> add_int "score" (word64 (rk_score winner))
         >>> add_bool "committed_current" current
         >>> add "authority_digest" (authority_digest (de_authority d))
         >>> set_message (if current then "route decision committed"
               else "route decision committed stale: authority advanced during the pass")) |>).

(** The pass once policy, budget and SLO are settled. *)
Definition route_candidates (pass : RoutingPass) (p : PassInputs) : M E RouteOutcome :=
  let limits := ps_limits pass in
  found ← discover providers (pi_request p) (ps_context pass);
  return_if max_candidates_per_request limits <? Request.size found
    with mret (outcome_make OutcomeCode.REJECT_LIMIT "route"
                 "candidate discovery exceeded the configured limit") ;;
  let candidates := canonical_candidates found in
  judged ← judge_all pass p candidates;
  let '(ranked, rejections) := judged in
  return_if max_ranked_candidates limits <? Request.size ranked
    with mret (outcome_make OutcomeCode.REJECT_LIMIT "route"
                 "eligible candidate count exceeds the configured ranking limit") ;;
  let rejections := take (Z.to_nat (max_rejection_records limits)) rejections in
  let explanation := explain_pass p (rank_all ranked) rejections in
  match rank_all ranked with
  | [] =>
      let outcome := (outcome_make OutcomeCode.NO_ELIGIBLE_CANDIDATE "route"
                        "no candidate satisfies every current hard requirement")
                       <| oc_route := explanation <| rx_eligible_count := 0 |> |> in
      _ ← locked (fun s => (tt, count_rejection (rr_tenant (pi_request p)) (rx_rejected_count explanation) s));
      mret outcome
  | winner :: tail => commit_winner pass p candidates explanation winner tail
  end.

Definition route (request : RouteRequest) : M E RouteOutcome :=
  request ← normalize_request request;
  now ← ask (pr_clock providers);
  let request := if rr_created_at request =? 0 then request <| rr_created_at := now |> else request in
  pass ←? locked_shared (admit_route request now);
  let error := request_validate (ps_limits pass) request in
  return_if error != "" with mret (outcome_make OutcomeCode.REJECT_INVALID "route" error) ;;
  return_if request_expired request now
    with mret (outcome_make OutcomeCode.REJECT_STALE_REQUEST "route" "route request has expired") ;;
  policy ←? settle_policy pass request now;
  budget ←? settle_budget pass request;
  slo ←? settle_slo pass request;
  route_candidates pass {| pi_request := request; pi_policy := policy; pi_budget := budget; pi_slo := slo;
    pi_weights := ps_weights pass; pi_scales := ps_scales pass; pi_continuity := ps_continuity pass;
    pi_now := now |}.
End Pipeline.

(** ** The retained history *)

(** The eviction order lists exactly the retained decisions, none twice, none
    beyond the identities issued, and no more than the limit. *)
Record history_ok (s : CanonicalState) (ids : Allocator) : Prop := {
  history_keys : forall id, id ∈ cs_route_order s <-> is_Some (cs_routes s !! id);
  history_NoDup : NoDup (cs_route_order s);
  history_issued : forall id, id ∈ cs_route_order s -> value id <= ids;
  history_bound : Request.size (cs_route_order s) <= max_route_history (cs_limits s)
}.

Lemma evict_spec limit order routes :
  NoDup order -> (forall id, id ∈ order <-> is_Some (routes !! id)) -> 0 < limit ->
  let '(order', routes') := evict limit order routes in
  NoDup order' /\ (forall id, id ∈ order' <-> is_Some (routes' !! id)) /\
  (forall id, id ∈ order' -> id ∈ order) /\ Request.size order' < limit /\
  (forall id, id ∈ order' -> routes' !! id = routes !! id).
Proof.
  revert routes. induction order as [|v order IH]; intros routes Hn Hk Hl; cbn [evict].
  - split_and!; try done; unfold Request.size; simpl; lia.
  - destruct (Z.leb_spec limit (Request.size (v :: order))) as [Hle|Hlt].
    + apply NoDup_cons in Hn as [Hv Hn].
      assert (Hk' : forall id, id ∈ order <-> is_Some (delete v routes !! id)).
      { intros id. rewrite lookup_delete_is_Some, <- Hk, elem_of_cons. split; [intros H; split; [|by right]|].
        - by intros ->.
        - intros [Hne [->|H]]; done. }
      specialize (IH (delete v routes) Hn Hk' Hl).
      destruct (evict limit order (delete v routes)) as [order' routes'].
      destruct IH as (H1 & H2 & H3 & H4 & H5). split_and!; try done.
      * intros id Hid. right. by apply H3.
      * intros id Hid. rewrite H5 by done. apply lookup_delete_ne. intros ->. apply Hv. by apply H3.
    + by split_and!.
Qed.

Lemma emplace_fresh `{Countable K} {A} k (a : A) (m : gmap K A) : m !! k = None -> emplace k a m = <[k := a]> m.
Proof. unfold emplace. by intros ->. Qed.

(** Retaining a fresh record: it is stored, CURRENT only if it can be executed
    in the state it is stored in. *)
Lemma retain_record_spec now id r s :
  cs_routes s !! id = None ->
  let '(current, s') := retain_record now id r s in
  let r' := stale_decision_if_not_dispatchable s now r in
  cs_routes s' = <[id := r']> (cs_routes s) /\ cs_route_order s' = cs_route_order s ++ [id] /\
  current = (de_status (rec_decision r') == RouteStatus.CURRENT) /\
  (forall a t, is_authority_dispatchable s' a t = is_authority_dispatchable s a t) /\
  cs_limits s' = cs_limits s.
Proof.
  intros Hn. unfold retain_record. rewrite emplace_fresh by done. cbn [cs_routes update_field].
  rewrite lookup_insert_eq. split_and!; try done. simpl. by rewrite insert_insert_eq.
Qed.

Lemma allocate_fresh t ids : ids < id_ceiling -> allocate_id t ids = (EntityIdOf (ids + 1), ids + 1).
Proof. intros H. unfold allocate_id, allocator_next. by rewrite (proj2 (Z.leb_gt _ _) H). Qed.

(** What a commit under the exclusive lock leaves, whatever happened before. *)
Lemma commit_record_spec p winner permitted a d s ids :
  ids + 1 < id_ceiling -> (forall id, is_Some (cs_routes s !! id) -> value id <= ids) ->
  let '((d', current), s', ids') := commit_record p winner permitted a d s ids in
  exists r, de_decision_id d' = EntityIdOf (ids + 1) /\ ids' = ids + 2 /\
    cs_routes s !! de_decision_id d' = None /\
    cs_routes s' = <[de_decision_id d' := r]> (cs_routes s) /\
    cs_route_order s' = cs_route_order s ++ [de_decision_id d'] /\ cs_limits s' = cs_limits s /\
    de_authority (rec_decision r) = de_authority d' /\
    (retained_executable r = true -> is_authority_dispatchable s' (de_authority d') (pi_now p) = true) /\
    (current = true -> rec_decision r = d' /\ de_status d' = RouteStatus.CURRENT).
Proof.
  intros Hids Hb. unfold commit_record. rewrite allocate_fresh by lia.
  destruct (finalize_decision s (EntityIdOf (ids + 1)) d) as [d' current] eqn:Ef.
  assert (Hid : de_decision_id d' = EntityIdOf (ids + 1)).
  { unfold finalize_decision in Ef. injection Ef as <- _. by destruct (authority_current_at_commit _ _). }
  rewrite allocate_fresh by lia.
  set (r := {| rec_decision := d'; rec_plan := _; rec_tenant := _; rec_name_space := _ |}).
  assert (Hn : cs_routes s !! EntityIdOf (ids + 1) = None).
  { apply eq_None_not_Some. intros Hs. apply Hb in Hs. simpl in Hs. lia. }
  pose proof (retain_record_spec (pi_now p) (EntityIdOf (ids + 1)) r s Hn) as H.
  destruct (retain_record _ _ r s) as [retained s']. destruct H as (H1 & H2 & H3 & H4 & H5).
  destruct (stale_if_not_dispatchable_spec s (pi_now p) r) as [Hs He].
  exists (stale_decision_if_not_dispatchable s (pi_now p) r). rewrite Hid. split_and!; try done; [lia|..].
  - by destruct Hs as [->|[_ ->]].
  - intros Hx. rewrite H4. destruct (He Hx) as [E Hd]. by rewrite E in Hd.
  - intros [_ Hc]%andb_true_iff. rewrite H3 in Hc. apply bool_decide_eq_true in Hc.
    destruct Hs as [E|[_ E]]; rewrite E in Hc |- *; [by split|done].
Qed.

(** ** Committing a pass *)

(** The invariant of the retained history, as long as identities remain. *)
Definition history_inv (s : CanonicalState) (ids : Allocator) : Prop :=
  0 < max_route_history (cs_limits s) /\ (ids < id_ceiling -> history_ok s ids).

Lemma history_size s ids : history_ok s ids -> map_size (cs_routes s) = Request.size (cs_route_order s).
Proof.
  intros H. unfold map_size, Request.size.
  assert (E : dom (cs_routes s) = list_to_set (cs_route_order s)).
  { apply set_eq. intros id. rewrite elem_of_dom, elem_of_list_to_set. symmetry. apply H. }
  by rewrite <- size_dom, E, size_list_to_set by apply H.
Qed.

Lemma history_frame s s' ids :
  cs_routes s' = cs_routes s -> cs_route_order s' = cs_route_order s -> cs_limits s' = cs_limits s ->
  history_ok s ids -> history_ok s' ids.
Proof. intros Er Eo El [H1 H2 H3 H4]. split; rewrite ?Er, ?Eo, ?El; done. Qed.

Lemma history_rises s ids ids' : ids <= ids' -> history_ok s ids -> history_ok s ids'.
Proof. intros Hle [H1 H2 H3 H4]. split; try done. intros id Hid. specialize (H3 id Hid). lia. Qed.

(** Staling decisions does not touch the history. *)
Lemma history_staled s ids f : history_ok s ids -> history_ok (s <| cs_routes := f <$> cs_routes s |>) ids.
Proof. intros [H1 H2 H3 H4]. split; try done. intros id. simpl. by rewrite H1, lookup_fmap, fmap_is_Some. Qed.

(** Eviction makes room for one more decision. *)
Lemma evict_history_spec s ids :
  history_ok s ids -> 0 < max_route_history (cs_limits s) ->
  history_ok (evict_history s) ids /\
  Request.size (cs_route_order (evict_history s)) < max_route_history (cs_limits s) /\
  cs_limits (evict_history s) = cs_limits s /\
  (forall a t, is_authority_dispatchable (evict_history s) a t = is_authority_dispatchable s a t).
Proof.
  intros [H1 H2 H3 H4] Hl. unfold evict_history.
  pose proof (evict_spec (max_route_history (cs_limits s)) _ _ H2 H1 Hl) as H.
  destruct (evict _ _ _) as [order routes]. destruct H as (E1 & E2 & E3 & E4 & _).
  split_and!; try done. split; simpl; [done|done|intros id Hid; by apply H3, E3|lia].
Qed.

Lemma evicted_spec s ids :
  history_ok s ids -> 0 < max_route_history (cs_limits s) ->
  history_ok (evicted s) ids /\
  Request.size (cs_route_order (evicted s)) < max_route_history (cs_limits s) /\
  cs_limits (evicted s) = cs_limits s /\
  (forall a t, is_authority_dispatchable (evicted s) a t = is_authority_dispatchable s a t).
Proof.
  intros H Hl. unfold evicted. destruct (Z.leb_spec (max_route_history (cs_limits s)) (map_size (cs_routes s))).
  - by apply evict_history_spec.
  - rewrite (history_size s ids) in * by done. by split_and!.
Qed.

(** What is retained for a committed decision, and what the caller is told. *)
Definition committed_ok (now : UnixMillis) (d : RouteDecision) (current : bool) (s' : CanonicalState) : Prop :=
  exists r, cs_routes s' !! de_decision_id d = Some r /\
    de_authority (rec_decision r) = de_authority d /\
    (retained_executable r = true -> is_authority_dispatchable s' (de_authority d) now = true) /\
    (current = true -> de_status (rec_decision r) = RouteStatus.CURRENT /\ de_status d = RouteStatus.CURRENT).

Lemma allocate_id_mono t ids : ids <= (allocate_id t ids).2.
Proof. unfold allocate_id, allocator_next. destruct (_ <=? _); simpl; lia. Qed.

Lemma allocate_below t ids :
  (allocate_id t ids).2 < id_ceiling -> ids < id_ceiling /\ (allocate_id t ids).2 = ids + 1.
Proof. unfold allocate_id, allocator_next. destruct (Z.leb_spec id_ceiling ids); simpl; lia. Qed.

Lemma commit_record_ids p winner permitted a d s ids :
  (commit_record p winner permitted a d s ids).2 = (allocate_id RoutePlanTag (allocate_id RouteDecisionTag ids).2).2.
Proof.
  unfold commit_record. destruct (allocate_id RouteDecisionTag ids) as [id ids1]. cbn [snd].
  destruct (finalize_decision s id d). destruct (allocate_id RoutePlanTag ids1).
  destruct (retain_record _ _ _ _). reflexivity.
Qed.

Lemma commit_record_limits p winner permitted a d s ids :
  cs_limits (commit_record p winner permitted a d s ids).1.2 = cs_limits s.
Proof.
  unfold commit_record. destruct (allocate_id RouteDecisionTag ids) as [id ids1].
  destruct (finalize_decision s id d). destruct (allocate_id RoutePlanTag ids1).
  unfold retain_record. cbv zeta. by destruct (cs_routes (update_field _ _ _) !! id).
Qed.

Lemma history_insert s s' ids id r :
  history_ok s ids -> Request.size (cs_route_order s) < max_route_history (cs_limits s) ->
  cs_routes s !! id = None -> value id <= ids ->
  cs_routes s' = <[id := r]> (cs_routes s) -> cs_route_order s' = cs_route_order s ++ [id] ->
  cs_limits s' = cs_limits s -> history_ok s' ids.
Proof.
  intros [H1 H2 H3 H4] Hlt Hn Hid Er Eo El. unfold Request.size in *. split; rewrite ?Er, ?Eo, ?El.
  - intros j. rewrite lookup_insert_is_Some, elem_of_app, list_elem_of_singleton, H1. split.
    + intros [H| ->]; [|by left]. destruct (decide (id = j)); [by left|by right].
    + intros [->|[_ H]]; [by right|by left].
  - apply NoDup_app. split_and!; [done| |apply NoDup_singleton].
    intros j Hj ->%list_elem_of_singleton. apply H1 in Hj. by rewrite Hn in Hj; apply is_Some_None in Hj.
  - intros j [Hj| ->%list_elem_of_singleton]%elem_of_app; [by apply H3|done].
  - unfold Request.size. rewrite length_app. simpl. lia.
Qed.

Lemma finalize_decision_facts s id d :
  let '(d', current) := finalize_decision s id d in
  de_decision_id d' = id /\
  de_authority d' = (de_authority d) <| au_decision_id := id |> <| au_decision_generation := GenerationOf 1 |> /\
  (current = true -> de_status d' = de_status d) /\
  rx_winner (de_explanation d') = rx_winner (de_explanation d) /\
  rx_ranking (de_explanation d') = rx_ranking (de_explanation d) /\
  de_fallbacks d' = de_fallbacks d.
Proof. unfold finalize_decision. by destruct (authority_current_at_commit _ _). Qed.

Lemma commit_record_ok p winner permitted a d s ids :
  history_ok s ids -> Request.size (cs_route_order s) < max_route_history (cs_limits s) ->
  ids + 1 < id_ceiling ->
  let '((d', current), s', ids') := commit_record p winner permitted a d s ids in
  history_ok s' ids' /\ committed_ok (pi_now p) d' current s' /\ de_decision_id d' = EntityIdOf (ids + 1).
Proof.
  intros Hh Hlt Hids.
  assert (Hb : forall id, is_Some (cs_routes s !! id) -> value id <= ids).
  { intros id Hs. by apply (history_issued _ _ Hh), (history_keys _ _ Hh). }
  pose proof (commit_record_spec p winner permitted a d s ids Hids Hb) as H.
  destruct (commit_record p winner permitted a d s ids) as [[[d' current] s'] ids'].
  destruct H as (r & E1 & -> & En & Er & Eo & El & Ha & Hx & Hc). split_and!; try done.
  - eapply (history_insert s); try done; [by apply (history_rises _ ids); [lia|]|]. rewrite E1. simpl. lia.
  - exists r. rewrite Er, lookup_insert_eq. split_and!; try done. intros Hcur. by destruct (Hc Hcur) as [-> ?].
Qed.

(** Committing to a state with room for one more decision keeps the history,
    identities exhausted or not. *)
Lemma commit_record_history p winner permitted a d s ids :
  0 < max_route_history (cs_limits s) ->
  (ids < id_ceiling -> history_ok s ids /\ Request.size (cs_route_order s) < max_route_history (cs_limits s)) ->
  let '(_, s', ids') := commit_record p winner permitted a d s ids in history_inv s' ids'.
Proof.
  intros Hl Hh. pose proof (commit_record_ids p winner permitted a d s ids) as Ei.
  pose proof (commit_record_limits p winner permitted a d s ids) as El.
  pose proof (commit_record_ok p winner permitted a d s ids) as H.
  destruct (commit_record _ _ _ _ _ _ ids) as [[[d' current] s'] ids']. cbn [fst snd] in Ei, El.
  split; [by rewrite El|]. intros Hids.
  assert (Hids1 : ids + 1 < id_ceiling) by (rewrite Ei in Hids;
    apply allocate_below in Hids as [H1 _]; by rewrite (proj2 (allocate_below _ _ H1)) in H1).
  destruct (Hh ltac:(lia)). by apply H.
Qed.

Lemma history_inv_frame s s' ids :
  cs_routes s' = cs_routes s -> cs_route_order s' = cs_route_order s -> cs_limits s' = cs_limits s ->
  history_inv s ids -> history_inv s' ids.
Proof.
  intros Er Eo El [Hl H]. split; [by rewrite El|]. intros Hc. apply (history_frame s); [done..|]. by apply H.
Qed.

Lemma set_winner_history p winner e r s ids : history_inv s ids -> history_inv (set_winner p winner e r s) ids.
Proof. intros H. unfold set_winner, note_tenant. destruct (valid _); by apply (history_inv_frame s). Qed.

Lemma evict_history_limits s : cs_limits (evict_history s) = cs_limits s.
Proof. unfold evict_history. by destruct (evict _ _ _). Qed.

Lemma evicted_limits s : cs_limits (evicted s) = cs_limits s.
Proof. unfold evicted. destruct (_ <=? _); [apply evict_history_limits|done]. Qed.

Lemma commit_route_history pass p explanation permitted d s ids :
  history_inv s ids ->
  let '(_, s', ids') := commit_route pass p explanation permitted d s ids in history_inv s' ids'.
Proof.
  intros [Hl Hh]. unfold commit_route. destruct (cs_shutting_down s); [done|].
  destruct (_ || _); [done|].
  pose proof (commit_record_history p (rx_winner explanation) permitted (de_authority d) d (evicted s) ids) as H.
  rewrite evicted_limits in H. specialize (H Hl).
  destruct (commit_record _ _ _ _ _ _ ids) as [[[d' current] s'] ids'].
  apply set_winner_history, (history_inv_frame s'); [done..|]. apply H. intros Hi.
  by destruct (evicted_spec s ids (Hh Hi) Hl) as (H1 & H2 & _).
Qed.

(** ** What a pass keeps *)

(** Decomposes a computation into its calls; [auto with keeps] closes the ones
    that are already known. *)
Create HintDb keeps.
Ltac keep_step :=
  match goal with
  | |- True => exact I
  | |- keeps _ _ _ => solve [auto 2 with keeps]
  | |- keeps _ _ (mret _) => apply keeps_ret; cbv beta iota; try exact I
  | |- keeps _ _ (ask _) => apply keeps_ask; intros ?
  | |- keeps _ _ (locked_shared _) => apply keeps_shared; intros ? ? ?
  | |- keeps _ _ (or_return _ _) => apply keeps_or_return_any; [intros ?; exact I| |intros ?]
  | |- keeps _ _ (or_return _ _) => apply (keeps_or_return _ (fun _ => True)); [|intros ? _]
  | |- keeps _ _ (_ ≫= _) => apply (keeps_bind _ (fun _ => True)); [|intros ? _]
  | |- keeps _ _ (answer _ _) => unfold answer
  | |- keeps _ _ (if ?c then _ else _) => destruct c
  | |- keeps _ _ (match ?x with _ => _ end) => destruct x
  | |- match ?x with inl _ => _ | inr _ => _ end =>
      lazymatch x with if ?c then _ else _ => destruct c | _ => destruct x end; cbv beta iota; try exact I
  end.
Ltac keep := repeat (cbv zeta; keep_step).

Section PassKeeps.
Context {E : Type} (providers : ProviderSet E) (I : CanonicalState -> Allocator -> Prop).

Lemma resolve_candidate_keeps request context snapshot c :
  keeps I (fun _ => True) (resolve_candidate providers request context snapshot c).
Proof.
  unfold resolve_candidate, resolve_cost, resolve_compatibility, resolve_trust, resolve_slo, resolve_reservation.
  keep.
Qed.

Lemma discover_keeps request context : keeps I (fun _ => True) (discover providers request context).
Proof. unfold discover. keep. Qed.

Lemma judge_all_keeps pass p candidates : keeps I (fun _ => True) (judge_all providers pass p candidates).
Proof.
  induction candidates as [|c candidates IH]; cbn [judge_all]; keep. apply resolve_candidate_keeps.
Qed.

Lemma resolve_winner_keeps pass p candidates winner :
  keeps I (fun _ => True) (resolve_winner providers pass p candidates winner).
Proof. unfold resolve_winner. keep. apply resolve_candidate_keeps. Qed.

Lemma settle_policy_keeps pass request now :
  keeps I (fun _ => True) (settle_policy providers pass request now).
Proof. unfold settle_policy. keep. Qed.

Lemma settle_budget_keeps pass request : keeps I (fun _ => True) (settle_budget providers pass request).
Proof. unfold settle_budget. keep. Qed.

Lemma settle_slo_keeps pass request : keeps I (fun _ => True) (settle_slo providers pass request).
Proof. unfold settle_slo. keep. Qed.
End PassKeeps.

Lemma history_inv_rises s ids ids' : ids <= ids' -> history_inv s ids -> history_inv s ids'.
Proof. intros Hle [Hl H]. split; [done|]. intros Hc. apply (history_rises _ ids); [done|]. apply H. lia. Qed.

(** What is asked of an invariant that a routing pass is to keep: each of the
    pass's writes keeps it. *)
Class RoutingInvariant (I : CanonicalState -> Allocator -> Prop) : Prop := {
  rising_keeps s ids ids' : ids <= ids' -> I s ids -> I s ids';
  commit_route_keeps pass p explanation permitted d s ids : I s ids ->
    let '(_, s', ids') := commit_route pass p explanation permitted d s ids in I s' ids';
  count_rejection_keeps tenant n s ids : I s ids -> I (count_rejection tenant n s) ids
}.

Lemma allocation_keeps I `{!RoutingInvariant I} t s ids : I s ids -> I s (allocate_id t ids).2.
Proof. apply rising_keeps, allocate_id_mono. Qed.

#[export] Instance history_routing : RoutingInvariant history_inv.
Proof.
  split; [exact history_inv_rises|intros; by apply commit_route_history|].
  intros tenant n s ids H. unfold count_rejection, note_tenant. destruct (valid _); by apply (history_inv_frame s).
Qed.

Section RoutingKeeps.
Context {E : Type} (providers : ProviderSet E) (I : CanonicalState -> Allocator -> Prop) `{!RoutingInvariant I}.

Lemma normalize_request_keeps request : keeps (E := E) I (fun _ => True) (normalize_request request).
Proof. unfold normalize_request. keep. apply keeps_new_id. intros s ids H. split; [done|]. by apply allocation_keeps. Qed.

Lemma commit_winner_keeps pass p candidates explanation winner tail :
  keeps I (fun _ => True) (commit_winner providers pass p candidates explanation winner tail).
Proof.
  unfold commit_winner. keep; [apply resolve_winner_keeps|].
  apply keeps_locked_ids. intros s ids H.
  match goal with |- context [commit_route pass p ?e ?n ?d s ids] =>
    pose proof (commit_route_keeps pass p e n d s ids H) as Hc;
    destruct (commit_route pass p e n d s ids) as [[r s'] ids']
  end. by split.
Qed.

Lemma route_candidates_keeps pass p : keeps I (fun _ => True) (route_candidates providers pass p).
Proof.
  unfold route_candidates. keep.
  - apply discover_keeps.
  - apply judge_all_keeps.
  - apply keeps_locked. intros s ids H. split; [done|]. by apply count_rejection_keeps.
  - apply commit_winner_keeps.
Qed.

Lemma route_keeps request : keeps I (fun _ => True) (route providers request).
Proof.
  unfold route. keep; auto using normalize_request_keeps, settle_policy_keeps, settle_budget_keeps,
    settle_slo_keeps, route_candidates_keeps.
Qed.
End RoutingKeeps.

(** C27: Whatever adapters the embedder supplies, and whatever other threads do
    between the critical sections as long as each of their steps keeps the
    history invariant, a routing pass keeps it: the eviction order lists exactly
    the retained decisions, none twice, and never more than the configured
    limit. *)
Theorem route_keeps_history {E} (providers : ProviderSet E) (request : RouteRequest) (w : World E)
    (Hinv : history_inv (w_state w) (w_ids w))
    (Hothers : Forall (interference_keeps history_inv) (w_others w)) :
  history_inv (w_state (route providers request w).2) (w_ids (route providers request w).2).
Proof.
  by apply (route_keeps providers history_inv request w).
Qed.

(** C3: Whatever other threads did since the pass was admitted, its commit
    either refuses and leaves the router as it found it, or retains the decision
    in the state it commits to; a decision retained as CURRENT or DISPATCHED
    names a model and a backend that can be executed in that very state, and the
    pass reports itself current only when the retained decision is CURRENT. *)
Theorem commit_route_safe (pass : RoutingPass) (p : PassInputs) (explanation : RouteExplanation)
    (permitted : Z) (d : RouteDecision) (s : CanonicalState) (ids : Allocator)
    (Hinv : history_inv s ids) (Hids : ids + 1 < id_ceiling) :
  match commit_route pass p explanation permitted d s ids with
  | (inl refused, s', ids') => s' = s /\ ids' = ids /\ oc_has_decision refused = false
  | (inr (d', current), s', _) =>
      cs_routes s !! de_decision_id d' = None /\ committed_ok (pi_now p) d' current s' /\
      cs_router_epoch s = ps_epoch pass /\ cs_coordinator_epoch s = ps_coordinator_epoch pass
  end.
Proof.
  destruct Hinv as [Hl Hh]. specialize (Hh ltac:(lia)). unfold commit_route.
  destruct (cs_shutting_down s); [done|].
  destruct (_ || _) eqn:Ee; [done|]. apply orb_false_iff in Ee as [E1 E2].
  apply negb_false_iff, bool_decide_eq_true in E1, E2.
  destruct (evicted_spec s ids Hh Hl) as (He1 & He2 & He3 & _). rewrite <- He3 in He2.
  pose proof (commit_record_ok p (rx_winner explanation) permitted (de_authority d) d _ ids He1 He2 Hids) as H.
  destruct (commit_record _ _ _ _ _ _ ids) as [[[d' current] s'] ids']. destruct H as (_ & Hc & Hid).
  split_and!; try done.
  - apply eq_None_not_Some. rewrite Hid. intros Hs.
    apply (history_keys _ _ Hh), (history_issued _ _ Hh) in Hs. simpl in Hs. lia.
  - destruct Hc as (r & Hr & Hc). exists r. unfold set_winner, note_tenant. by destruct (valid _).
Qed.

(** ** What a pass answers *)

(** The result of the computation, whatever the world and the schedule. *)
Abbreviation returns Q m := (keeps (fun _ _ => True) Q m).

Lemma returns_world {E A} (Q : A -> Prop) (m : M E A) w : returns Q m -> Q (m w).1.
Proof. intros H. apply (H w). split; [done|]. by apply Forall_forall. Qed.

(** A candidate with the evidence it was judged on. *)
Abbreviation Judged := (RouteCandidate * CandidateEvidence)%type.

Section Judgements.
Context (p : PassInputs).

Definition covered (j : Judged) : RouteCandidate :=
  with_coverage (rr_requirements (pi_request p)) (pi_now p) j.1.
Definition entry_verdict (j : Judged) : EligibilityVerdict := eligibility_of p (covered j) j.2.
Definition entry_eligible (j : Judged) : bool := eligible (entry_verdict j).
Definition entry_ranked (j : Judged) : RankedCandidate := rank_candidate p (covered j) j.2.

Lemma entry_ranked_key j : rk_key (entry_ranked j) = rc_key j.1.
Proof.
  unfold entry_ranked, rank_candidate. destruct (build_factors (covered j) _) as [factors score]. reflexivity.
Qed.

(** The ranked and the rejected of a list of judgements. *)
Definition collected (js : list Judged) : list RankedCandidate * list RouteRejection :=
  (map entry_ranked (List.filter entry_eligible js),
   map (fun j => rejection_of (covered j) (entry_verdict j)) (List.filter (fun j => negb (entry_eligible j)) js)).

Lemma judge_entry j :
  judge p j.1 j.2 = if entry_eligible j then inr (entry_ranked j) else inl (rejection_of (covered j) (entry_verdict j)).
Proof.
  unfold judge, entry_ranked, entry_eligible, entry_verdict, covered. cbv zeta.
  destruct (eligible _); reflexivity.
Qed.

Lemma collect_judge j js : collect (judge p j.1 j.2) (collected js) = collected (j :: js).
Proof.
  rewrite judge_entry. unfold collected. cbn [List.filter]. destruct (entry_eligible j); reflexivity.
Qed.

#[local] Opaque entry_ranked entry_verdict.

(** The best of the ranked: [rank_all] puts it first. *)
Lemma rank_all_best js winner tail :
  rank_all (map entry_ranked (List.filter entry_eligible js)) = winner :: tail ->
  exists j, j ∈ js /\ entry_eligible j = true /\ rk_key winner = rc_key j.1 /\
    (forall j', j' ∈ js -> entry_eligible j' = true ->
       candidate_ranks_before (entry_ranked j') (entry_ranked j) = false) /\
    Forall (fun r => exists j', j' ∈ js /\ entry_eligible j' = true /\ rk_key r = rc_key j'.1) tail.
Proof.
  unfold rank_all, number_ranks. set (ranked := map _ _). intros E.
  pose proof (stable_sort_sorted candidate_ranks_before ranked) as Hsort.
  assert (Hin : forall r, r ∈ stable_sort candidate_ranks_before ranked ->
    exists j, j ∈ js /\ entry_eligible j = true /\ r = entry_ranked j).
  { intros r Hr%elem_of_stable_sort. apply list_elem_of_fmap in Hr as (j & -> & Hj).
    apply list_elem_of_In, filter_In in Hj as [Hj He]. exists j. by rewrite list_elem_of_In. }
  destruct (stable_sort candidate_ranks_before ranked) as [|b rest] eqn:Es; [done|].
  rewrite imap_cons in E. injection E as <- <-.
  destruct (Hin b ltac:(left)) as (j & Hj & He & ->). exists j. do 2 (split; [done|]). split; [apply entry_ranked_key|split].
  - intros j' Hj' He'. assert (Hr : entry_ranked j' ∈ entry_ranked j :: rest).
    { rewrite <- Es. apply elem_of_stable_sort. apply (list_elem_of_fmap_2 entry_ranked).
      apply list_elem_of_In, filter_In. by rewrite <- list_elem_of_In. }
    apply StronglySorted_cons in Hsort as [Hb _]. apply elem_of_cons in Hr as [->|Hr].
    + apply swb_irrefl.
    + rewrite Forall_forall in Hb. by apply Hb.
  - apply Forall_forall. intros r Hr. apply elem_of_lookup_imap in Hr as (i & x & -> & Hx).
    apply list_elem_of_lookup_2 in Hx. destruct (Hin x ltac:(by right)) as (j' & Hj' & He' & ->).
    exists j'. do 2 (split; [done|]). apply entry_ranked_key.
Qed.
End Judgements.

(** ** Soundness of the pass *)

Section Soundness.
Context {E : Type} (providers : ProviderSet E).

(** The candidates a pass finds from [w]: without an adapter, those of the
    catalog in the state its critical section finds. *)
Definition discovered (request : RouteRequest) (context : DiscoveryContext) (w : World E)
    (found : list RouteCandidate) (w' : World E) : Prop :=
  match pr_candidates providers with
  | None => found = discover_catalog (w_state (interfere w)) /\ w' = interfere w
  | Some ask_discover => exists result, ask (ask_discover request context) w = (result, w') /\
      found = if er_ok result then er_value result else []
  end.

Lemma discover_discovered request context w :
  discovered request context w (discover providers request context w).1 (discover providers request context w).2.
Proof.
  unfold discovered, discover. destruct (pr_candidates providers) as [f|]; [|done].
  unfold mbind, M_bind. destruct (ask (f request context) w) as [result w']. by exists result.
Qed.

(** Each candidate of [candidates], in order, with the evidence the adapters
    give for it when they are asked one after the other from [w]. *)
Fixpoint judged_from (pass : RoutingPass) (p : PassInputs) (candidates : list RouteCandidate) (w : World E)
    (js : list Judged) (w' : World E) : Prop :=
  match candidates, js with
  | [], [] => w' = w
  | c :: candidates, j :: js => j.1 = c /\ exists w1,
      resolve_candidate providers (pi_request p) (ps_context pass) (ps_snapshot pass) c w = (j.2, w1) /\
      judged_from pass p candidates w1 js w'
  | _, _ => False
  end.

Lemma judge_all_judged pass p candidates w :
  exists js w', judged_from pass p candidates w js w' /\
    judge_all providers pass p candidates w = (collected p js, w').
Proof.
  revert w. induction candidates as [|c candidates IH]; intros w; cbn [judge_all].
  - by exists [], w.
  - run_bind evidence w1 He. destruct (IH w1) as (js & w' & Hj & Hr).
    exists ((c, evidence) :: js), w'. split; [split; [done|by exists w1]|].
    rewrite (bind_runs _ _ _ _ _ Hr), ret_runs. f_equal. apply (collect_judge p (c, evidence)).
Qed.

(** The outcome names the best eligible candidate: no eligible candidate ranks
    before it, the authority it binds is its identity, and every fallback is
    another eligible candidate. *)
Definition decides_best (p : PassInputs) (js : list Judged) (o : RouteOutcome) : Prop :=
  exists j, j ∈ js /\ entry_eligible p j = true /\
    rx_winner (oc_route o) = rc_key j.1 /\
    (forall j', j' ∈ js -> entry_eligible p j' = true ->
       candidate_ranks_before (entry_ranked p j') (entry_ranked p j) = false) /\
    au_model_id (de_authority (oc_decision o)) = ck_model_id (rc_key j.1) /\
    au_backend_id (de_authority (oc_decision o)) = ck_backend_id (rc_key j.1) /\
    au_backend_boot (de_authority (oc_decision o)) = ck_backend_boot (rc_key j.1) /\
    Forall (fun key => exists j', j' ∈ js /\ entry_eligible p j' = true /\ key = rc_key j'.1)
      (de_fallbacks (oc_decision o)).

(** What a pass may answer, once it has judged [js]. *)
Definition justified (p : PassInputs) (js : list Judged) (o : RouteOutcome) : Prop :=
  (oc_has_decision o = true -> decides_best p js o) /\
  (oc_code o = OutcomeCode.NO_ELIGIBLE_CANDIDATE -> Forall (fun j => entry_eligible p j = false) js).

Lemma refused_justified p js code subject message :
  code <> OutcomeCode.NO_ELIGIBLE_CANDIDATE -> justified p js (outcome_make code subject message).
Proof. by split. Qed.

(** What the caller gets from the commit is the decision that was built, named. *)
Lemma commit_route_facts pass p explanation permitted d s ids :
  match (commit_route pass p explanation permitted d s ids).1.1 with
  | inl refused => exists code message, refused = outcome_make code "route" message /\
      code <> OutcomeCode.NO_ELIGIBLE_CANDIDATE
  | inr (d', _) => exists id, de_authority d' = (de_authority d) <| au_decision_id := id |>
                                <| au_decision_generation := GenerationOf 1 |> /\
      rx_winner (de_explanation d') = rx_winner (de_explanation d) /\ de_fallbacks d' = de_fallbacks d
  end.
Proof.
  unfold commit_route. destruct (cs_shutting_down s); [by eexists _, _|].
  destruct (_ || _); [by eexists _, _|]. unfold commit_record.
  destruct (allocate_id RouteDecisionTag ids) as [id ids1].
  pose proof (finalize_decision_facts (evicted s) id d) as H.
  destruct (finalize_decision (evicted s) id d) as [d' current]. destruct H as (_ & Ha & _ & Hw & _ & Hf).
  destruct (allocate_id RoutePlanTag ids1). destruct (retain_record _ _ _ _). by exists id.
Qed.

(** The authority of a pass names the winner's identity. *)
Lemma bind_authority_identity pass p key s :
  let a := bind_authority pass p key s in
  au_model_id a = ck_model_id key /\ au_backend_id a = ck_backend_id key /\
  au_backend_boot a = ck_backend_boot key.
Proof.
  unfold bind_authority. cbv zeta. destruct (cs_backends s !! _), (valid (rr_budget_id _)); done.
Qed.

Lemma bind_evidence_identity evidence a :
  au_model_id (bind_evidence evidence a) = au_model_id a /\
  au_backend_id (bind_evidence evidence a) = au_backend_id a /\
  au_backend_boot (bind_evidence evidence a) = au_backend_boot a.
Proof. unfold bind_evidence. by destruct (ce_reservation_present evidence). Qed.

Lemma fallback_order_tail permitted key tail k :
  k ∈ fallback_order permitted key tail -> exists r, r ∈ tail /\ k = rk_key r.
Proof.
  unfold fallback_order. destruct (0 <? permitted); [|by intros ?%not_elem_of_nil].
  intros (r & -> & Hr)%list_elem_of_fmap. exists r. split; [|done].
  apply elem_of_take in Hr as (i & Hr & _). apply list_elem_of_lookup_2 in Hr. by apply elem_of_stable_sort in Hr.
Qed.

Lemma commit_winner_justified pass p candidates explanation js winner tail :
  rank_all (map (entry_ranked p) (List.filter (entry_eligible p) js)) = winner :: tail ->
  returns (justified p js) (commit_winner providers pass p candidates explanation winner tail).
Proof.
  intros Hr. destruct (rank_all_best p js winner tail Hr) as (j & Hj & He & Hk & Hb & Ht). unfold commit_winner.
  eapply (keeps_bind _ (fun a => au_model_id a = ck_model_id (rc_key j.1) /\
    au_backend_id a = ck_backend_id (rc_key j.1) /\ au_backend_boot a = ck_backend_boot (rc_key j.1))).
  { apply keeps_shared. intros s _ _. rewrite <- Hk. apply bind_authority_identity. }
  intros a Ha. apply (keeps_bind _ (fun _ => True)); [apply resolve_winner_keeps|]. intros resolved _. cbv zeta.
  set (a' := match resolved with Some _ => _ | None => _ end).
  assert (Ha' : au_model_id a' = ck_model_id (rc_key j.1) /\
    au_backend_id a' = ck_backend_id (rc_key j.1) /\ au_backend_boot a' = ck_backend_boot (rc_key j.1)).
  { unfold a'. destruct resolved as [evidence|]; [|done].
    by destruct (bind_evidence_identity evidence a) as (-> & -> & ->). }
  clearbody a'.
  apply (keeps_or_return _ (fun c => exists id, de_authority c.1 = a' <| au_decision_id := id |>
           <| au_decision_generation := GenerationOf 1 |> /\
         rx_winner (de_explanation c.1) = rk_key winner /\
         de_fallbacks c.1 = fallback_order (permitted_fallbacks (ps_limits pass) p) (rk_key winner) tail)).
  - eapply keeps_bind; [|by intros r Hr'; apply keeps_ret, Hr'].
    apply keeps_locked_ids. intros s ids _.
    match goal with |- context [commit_route pass p ?e ?n ?d s ids] =>
      pose proof (commit_route_facts pass p e n d s ids) as Hc;
      destruct (commit_route pass p e n d s ids) as [[[refused|[d' current]] s'] ids']
    end; (split; [|done]); cbn [fst] in Hc.
    + destruct Hc as (code & message & -> & Hne). by apply refused_justified.
    + destruct Hc as (id & E1 & E2 & E3). exists id. split_and!; [exact E1|exact E2|exact E3].
  - intros [d current] (id & E1 & E2 & E3). cbn [fst] in *. apply keeps_ret. split.
    + intros _. exists j. cbn. rewrite E1, E2, E3. split_and!; try done; try apply Ha'.
      apply Forall_forall. intros k (r & Hr' & ->)%fallback_order_tail.
      rewrite Forall_forall in Ht. by apply Ht.
    + by destruct current.
Qed.

(** What is asked of a pass at its candidates: they are within the limit, each
    was judged on what the adapters answered for it, in order. *)
Definition candidates_judged (pass : RoutingPass) (p : PassInputs) (w : World E) (js : list Judged) : Prop :=
  exists found w1 w2, discovered (pi_request p) (ps_context pass) w found w1 /\
    Request.size found <= max_candidates_per_request (ps_limits pass) /\
    judged_from pass p (canonical_candidates found) w1 js w2.

Lemma filter_none {A} (f : A -> bool) l : List.filter f l = [] -> Forall (fun a => f a = false) l.
Proof.
  intros Hl. apply Forall_forall. intros a Ha. destruct (f a) eqn:Ef; [|done].
  assert (Hin : a ∈ List.filter f l) by (apply list_elem_of_In, filter_In; by rewrite <- list_elem_of_In).
  rewrite Hl in Hin. by apply not_elem_of_nil in Hin.
Qed.

Lemma rank_all_length ranked : length (rank_all ranked) = length ranked.
Proof. unfold rank_all, number_ranks. by rewrite length_imap, stable_sort_length. Qed.

Lemma rank_all_nil p js :
  rank_all (map (entry_ranked p) (List.filter (entry_eligible p) js)) = [] ->
  List.filter (entry_eligible p) js = [].
Proof.
  intros Hr. pose proof (rank_all_length (map (entry_ranked p) (List.filter (entry_eligible p) js))) as Hl.
  rewrite Hr, length_map in Hl. by destruct (List.filter _ _).
Qed.

Lemma route_candidates_justified pass p w :
  let o := (route_candidates providers pass p w).1 in
  oc_has_decision o = true \/ oc_code o = OutcomeCode.NO_ELIGIBLE_CANDIDATE ->
  exists js, candidates_judged pass p w js /\ justified p js o.
Proof.
  cbv zeta. unfold route_candidates. cbv zeta.
  pose proof (discover_discovered (pi_request p) (ps_context pass) w) as Hf.
  run_bind found w1 E1. cbn [fst snd] in Hf.
  destruct (Z.ltb_spec (max_candidates_per_request (ps_limits pass)) (Request.size found)) as [Hlt|Hle];
    [by intros []|].
  destruct (judge_all_judged pass p (canonical_candidates found) w1) as (js & w2 & Hj & E2).
  rewrite (bind_runs _ _ _ _ _ E2). unfold collected. cbv iota beta.
  destruct (_ <? _); [by intros []|].
  assert (Hjs : candidates_judged pass p w js) by (by exists found, w1, w2).
  destruct (rank_all _) as [|winner tail] eqn:Er.
  - intros _. exists js. split; [done|]. split; [intros H; discriminate H|]. intros _.
    by apply filter_none, rank_all_nil.
  - intros _. exists js. split; [done|].
    apply (returns_world (justified p js)). by apply commit_winner_justified.
Qed.

(** *** What is settled before the candidates *)

(** The request under its identity: the caller's, or a fresh one. *)
Definition identify (request : RouteRequest) : M E (EntityId RouteRequestTag) := fun w =>
  if valid (rr_request_id request) then (rr_request_id request, w) else new_id RouteRequestTag w.

Definition identified (request : RouteRequest) (id : EntityId RouteRequestTag) : RouteRequest :=
  request <| rr_requirements := requirements_canonicalize (rr_requirements request) |>
    <| rr_request_id := id |>
    <| rr_request_generation := if valid (rr_request_generation request)
                                then rr_request_generation request else GenerationOf 1 |>.

(** ... and dated, when it was not. *)
Definition dated (request : RouteRequest) (now : UnixMillis) : RouteRequest :=
  request <| rr_created_at := if rr_created_at request =? 0 then now else rr_created_at request |>.

Lemma normalize_request_identified request w :
  normalize_request request w = (identified request (identify request w).1, (identify request w).2).
Proof.
  unfold normalize_request, identify. cbv zeta. cbn [rr_request_id update_field].
  destruct (valid (rr_request_id request)) eqn:Ev; unfold mbind, M_bind.
  - by rewrite ret_runs.
  - by destruct (new_id RouteRequestTag w).
Qed.

(** A policy in force that allows the request: the one the adapter answers from
    [w], or the one the pass captured. *)
Definition policy_settled (pass : RoutingPass) (request : RouteRequest) (now : UnixMillis) (w : World E)
    (policy : PolicySnapshot) (w' : World E) : Prop :=
  exists known,
    supplied ((fun fetch => fetch (rr_policy_id request) (rr_policy_generation request) (ps_context pass))
               <$> pr_policy providers) (ps_policy pass) w known w' /\
    policy = policy_canonicalize known /\ valid (po_generation policy) = true /\
    policy_allowed (evaluate_request policy request now) = true.

(** A request that names a budget gets the one of its generation, not denied. *)
Definition budget_settled (pass : RoutingPass) (request : RouteRequest) (w : World E)
    (budget : BudgetSnapshot) (w' : World E) : Prop :=
  if valid (rr_budget_id request)
  then supplied ((fun fetch => fetch (rr_budget_id request) (rr_budget_generation request) request (ps_context pass))
                  <$> pr_budget providers) (ps_budget pass) w budget w' /\
    valid (bu_generation budget) = true /\ bu_generation budget = rr_budget_generation request /\
    bu_verdict budget <> BudgetVerdict.UNKNOWN /\ bu_verdict budget <> BudgetVerdict.DENIED
  else budget = ps_budget pass /\ w' = w.

(** A request that requires an SLO gets the one of its generation, feasible. *)
Definition slo_settled (pass : RoutingPass) (request : RouteRequest) (w : World E)
    (slo : SloEvidence) (w' : World E) : Prop :=
  if rq_require_slo (rr_requirements request)
  then supplied ((fun provider => slo_fetch provider (rr_slo_id request) (rr_slo_generation request) request
                                   (ps_context pass)) <$> pr_slo providers) (ps_slo pass) w slo w' /\
    valid (sl_generation slo) = true /\ sl_generation slo = rr_slo_generation request /\
    sl_verdict slo <> SloVerdict.UNKNOWN /\ sl_verdict slo <> SloVerdict.INFEASIBLE
  else slo = ps_slo pass /\ w' = w.

(** A refusal carries no decision; what is settled is settled as asked. *)
Definition settles {A} (Q : A -> World E -> Prop) (r : (RouteOutcome + A) * World E) : Prop :=
  match r.1 with inl o => oc_has_decision o = false | inr a => Q a r.2 end.

Lemma asked_inv {A B} (call : Call E (EvidenceResult A)) (refuse : EvidenceResult A -> B) w r w' :
  (result ← ask call; mret (if er_ok result then inr (er_value result) else inl (refuse result))) w = (r, w') ->
  match r with
  | inl b => exists result, b = refuse result
  | inr a => exists result, ask call w = (result, w') /\ er_ok result = true /\ a = er_value result
  end.
Proof.
  run_bind result w1 E1. rewrite ret_runs. destruct (er_ok result) eqn:Eo; intros [= <- <-]; by exists result.
Qed.

Lemma settle_policy_settled pass request now w :
  settles (policy_settled pass request now w) (settle_policy providers pass request now w).
Proof.
  unfold settle_policy, settles, policy_settled. run_return o known w' Hk.
  { destruct (pr_policy providers); [|done]. by apply asked_inv in Hk as [result ->]. }
  cbv zeta. destruct (negb (valid _)) eqn:Ev; [done|]. apply negb_false_iff in Ev.
  destruct (policy_allowed _) eqn:Ea; [|done]. exists known. split; [|done].
  destruct (pr_policy providers); [by apply asked_inv in Hk|by injection Hk as <- <-].
Qed.

Lemma settle_budget_settled pass request w :
  settles (budget_settled pass request w) (settle_budget providers pass request w).
Proof.
  unfold settle_budget, settles, budget_settled. destruct (valid (rr_budget_id request)); cbn [negb]; [|done].
  run_return o budget w' Hk.
  { destruct (pr_budget providers); [|done]. by apply asked_inv in Hk as [result ->]. }
  destruct (negb (valid _) || _) eqn:E1; [done|].
  apply orb_false_iff in E1 as [Ev%negb_false_iff E1%bool_decide_eq_false].
  destruct (_ != rr_budget_generation request) eqn:E2; [done|]. apply negb_false_iff, bool_decide_eq_true in E2.
  destruct (bu_verdict budget == BudgetVerdict.DENIED) eqn:E3; [done|]. apply bool_decide_eq_false in E3.
  split; [|done]. destruct (pr_budget providers); [by apply asked_inv in Hk|by injection Hk as <- <-].
Qed.

Lemma settle_slo_settled pass request w :
  settles (slo_settled pass request w) (settle_slo providers pass request w).
Proof.
  unfold settle_slo, settles, slo_settled. destruct (rq_require_slo _); cbn [negb]; [|done].
  run_return o slo w' Hk.
  { destruct (pr_slo providers); [|done]. by apply asked_inv in Hk as [result ->]. }
  destruct (negb (valid _) || _) eqn:E1; [done|].
  apply orb_false_iff in E1 as [Ev%negb_false_iff E1%bool_decide_eq_false].
  destruct (_ != rr_slo_generation request) eqn:E2; [done|]. apply negb_false_iff, bool_decide_eq_true in E2.
  destruct (sl_verdict slo == SloVerdict.INFEASIBLE) eqn:E3; [done|]. apply bool_decide_eq_false in E3.
  split; [|done]. destruct (pr_slo providers); [by apply asked_inv in Hk|by injection Hk as <- <-].
Qed.
End Soundness.

(** C1: When a routing pass returns a decision, then in the state its first
    critical section found the router was running and not shutting down; the
    request it worked on was the caller's, with its requirements in canonical
    form and an identity, a generation and a date filled in where they were
    missing, and it was valid and unexpired at the clock's time; the policy in
    force (the adapter's answer, or the one captured in that section) allowed
    it, and the budget and the SLO it asks for were of its generation and not
    refused.  The decision then names the best of the candidates discovered from
    there that pass every hard requirement on the evidence the adapters gave,
    asked in order: no eligible candidate ranks before it, the bound authority
    is its identity, and each fallback is an eligible candidate of the same
    pass.  Every state and answer is the one of the run from [w], whatever the
    adapters answer and whatever other threads do meanwhile. *)
Theorem route_decides_best {E} (providers : ProviderSet E) (request : RouteRequest) (w : World E)
    (Hdecision : oc_has_decision (route providers request w).1 = true) :
  let '(id, w1) := identify request w in
  let '(now, w2) := ask (pr_clock providers) w1 in
  let w3 := interfere w2 in
  let s := w_state w3 in
  let r := dated (identified request id) now in
  let pass := capture_pass (rr_tenant request) (rr_name_space request) now s in
  cs_shutting_down s = false /\ cs_running s = true /\
  request_validate (cs_limits s) r = "" /\ request_expired r now = false /\
  exists policy w4 budget w5 slo w6 js,
    policy_settled providers pass r now w3 policy w4 /\
    budget_settled providers pass r w4 budget w5 /\
    slo_settled providers pass r w5 slo w6 /\
    let p := {| pi_request := r; pi_policy := policy; pi_budget := budget; pi_slo := slo;
                pi_weights := cs_weights s; pi_scales := cs_scales s;
                pi_continuity := cs_last_winner_by_tenant s !! rr_tenant request; pi_now := now |} in
    candidates_judged providers pass p w6 js /\ decides_best p js (route providers request w).1.
Proof.
  revert Hdecision. unfold route. rewrite (bind_runs _ _ _ _ _ (normalize_request_identified request w)).
  destruct (identify request w) as [id w1]. cbn [fst snd]. run_bind now w2 Hnow. cbv zeta.
  assert (Hr : (if rr_created_at (identified request id) =? 0
                then (identified request id) <| rr_created_at := now |> else identified request id)
               = dated (identified request id) now)
    by (unfold dated; by destruct (rr_created_at (identified request id) =? 0)).
  rewrite Hr. clear Hr. set (r := dated _ now).
  run_return o pass w3 Hpass; rewrite shared_runs in Hpass; injection Hpass as Hpass <-; revert Hpass;
    unfold admit_route; (destruct (cs_shutting_down _) eqn:Hs; [by intros [= <-]|]);
    (destruct (cs_running _) eqn:Hc; cbn [negb]; [|by intros [= <-]]); intros [= <-].
  cbn [ps_limits capture_pass]. destruct (request_validate _ r != "") eqn:E1; [intros H; discriminate H|].
  apply negb_false_iff, bool_decide_eq_true in E1.
  destruct (request_expired r now) eqn:E2; [intros H; discriminate H|].
  change (capture_pass (rr_tenant r) (rr_name_space r)) with (capture_pass (rr_tenant request) (rr_name_space request)).
  set (pass := capture_pass _ _ _ _).
  pose proof (settle_policy_settled providers pass r now (interfere w2)) as Hp.
  run_return o policy w4 E3; unfold settles in Hp; cbn [fst snd] in Hp; [cbn [fst]; by rewrite Hp|].
  pose proof (settle_budget_settled providers pass r w4) as Hb.
  run_return o budget w5 E4; unfold settles in Hb; cbn [fst snd] in Hb; [cbn [fst]; by rewrite Hb|].
  pose proof (settle_slo_settled providers pass r w5) as Hl.
  run_return o slo w6 E5; unfold settles in Hl; cbn [fst snd] in Hl; [cbn [fst]; by rewrite Hl|].
  intros Hd. destruct (route_candidates_justified providers pass _ w6 (or_introl Hd)) as (js & Hj & Ho & _).
  split_and!; try done. exists policy, w4, budget, w5, slo, w6, js. split_and!; try done. by apply Ho.
Qed.

(** A pass that answers NO_ELIGIBLE_CANDIDATE found none: every candidate it
    discovered fails a hard requirement on the evidence it was judged on. *)
Theorem no_eligible_means_none {E} (providers : ProviderSet E) (pass : RoutingPass) (p : PassInputs)
    (w : World E)
    (Hcode : oc_code (route_candidates providers pass p w).1 = OutcomeCode.NO_ELIGIBLE_CANDIDATE) :
  exists js, candidates_judged providers pass p w js /\ Forall (fun j => entry_eligible p j = false) js.
Proof.
  destruct (route_candidates_justified providers pass p w (or_intror Hcode)) as (js & Hj & _ & Hn).
  exists js. split; [done|]. by apply Hn.
Qed.

(** ** A serving router *)

(** Two backends that serve the sample model; evidence for both is live until 200. *)
Definition serving_model : ModelDescriptor :=
  sample_model <| md_max_output_tokens := 1024 |>.
Definition serving_backend (id boot : Z) : BackendDescriptor :=
  let observed {S g} (s : S) : BackendEvidence S g :=
    BackendEvidenceOf s (GenerationOf 1) (EntityIdOf id) (GenerationOf 2) (GenerationOf boot)
      (GenerationOf 1) 50 200 "probe" "" in
  sample_backend <| bd_backend_id := EntityIdOf id |> <| bd_backend_boot := GenerationOf boot |>
    <| bd_endpoint := endpoint_descriptor_default <| ep_endpoint_id := EntityIdOf (id + 2) |>
         <| ep_endpoint_generation := GenerationOf 1 |> <| ep_backend_id := EntityIdOf id |>
         <| ep_backend_boot := GenerationOf boot |> <| ep_reference := "local:1" |> |>
    <| bd_availability := observed AvailabilityState.AVAILABLE |>
    <| bd_health := observed HealthState.HEALTHY |>
    <| bd_readiness := observed ReadinessState.READY |>.
Definition serving_policy : PolicySnapshot :=
  policy_snapshot_default <| po_policy_id := EntityIdOf 11 |> <| po_generation := GenerationOf 1 |>
    <| po_fallback_policy := FallbackPolicy.PERMITTED |>.
Definition serving_calls : list (MutationCall * UnixMillis) := [
  (RegisterModel serving_model, 60); (RegisterBackend (serving_backend 4 9), 60);
  (RegisterBackend (serving_backend 7 8), 60); (SetPolicy serving_policy, 60)].
Definition started_state : CanonicalState :=
  snd (start model_router_options_default 50 (fst (router_init model_router_options_default 100))).
Definition serving_state : CanonicalState := run_calls serving_calls started_state.
Definition serving_world : World unit :=
  {| w_state := serving_state; w_ids := 200; w_env := tt; w_others := [] |}.
Definition serving_request : RouteRequest :=
  route_request_default <| rr_policy_id := EntityIdOf 11 |> <| rr_policy_generation := GenerationOf 1 |>
    <| rr_tenant := EntityIdOf 12 |>
    <| rr_requirements := route_requirements_default <| rq_input_modalities := ModalitySetOf 1 |>
         <| rq_min_context_tokens := 4096 |> <| rq_retry_policy := retry_reroute_policy_default
              <| rp_max_fallbacks := 1 |> |> |>.

(** What other threads may do between two sections: a list of calls. *)
Definition other_calls (calls : list (MutationCall * UnixMillis)) : Interference := fun si =>
  (run_calls calls si.1, si.2).

Lemma run_calls_staled calls s : decisions_staled s (run_calls calls s).
Proof.
  revert s. induction calls as [|[call now] calls IH]; intros s; [by apply decisions_untouched|].
  eapply decisions_staled_trans; [apply (perform_staled call now)|apply IH].
Qed.

Lemma run_calls_history calls s ids : history_inv s ids -> history_inv (run_calls calls s) ids.
Proof.
  intros [Hl Hh]. destruct (run_calls_staled calls s) as (Eo & El & f & Ef & _).
  split; [by rewrite El|]. intros Hi. destruct (Hh Hi) as [H1 H2 H3 H4].
  split; rewrite ?Eo, ?El, ?Ef; try done. intros id. by rewrite lookup_fmap, fmap_is_Some.
Qed.

Lemma other_calls_keep calls : interference_keeps history_inv (other_calls calls).
Proof. intros s ids. apply run_calls_history. Qed.

Lemma empty_history ids : history_inv canonical_state_default ids.
Proof.
  split; [done|]. intros _. split; simpl; [|constructor|by intros ? ?%not_elem_of_nil|done].
  intros id. rewrite lookup_empty. split; [by intros ?%not_elem_of_nil|by intros ?%is_Some_None].
Qed.

Lemma serving_history ids : history_inv serving_state ids.
Proof.
  unfold serving_state. apply run_calls_history.
  apply (history_inv_frame canonical_state_default); [reflexivity..|apply empty_history].
Qed.

(** The winner's backend is fenced while the pass is between binding the
    authority and committing it. *)
Definition fencing_schedule : list Interference :=
  [other_calls []; other_calls []; other_calls [];
   other_calls [(FenceBackendBoot (EntityIdOf 4) none (GenerationOf 9) OutcomeCode.FENCED, 100)]].
Definition fenced_world : World unit := serving_world <| w_others := fencing_schedule |>.

Lemma route_keeps_history_witness :
  let w := route (no_providers 100) serving_request fenced_world in
  oc_code w.1 = OutcomeCode.REVALIDATION_REQUIRED /\
  (fun e => de_status (rec_decision e.2)) <$> map_to_list (cs_routes (w_state w.2)) = [RouteStatus.STALE] /\
  history_inv (w_state w.2) (w_ids w.2).
Proof.
  intros w. do 2 (split; [vm_compute; reflexivity|]).
  apply (route_keeps_history (no_providers 100) serving_request fenced_world).
  - apply (serving_history 200).
  - change (Forall (interference_keeps history_inv) fencing_schedule). unfold fencing_schedule.
    repeat (apply Forall_cons_2; [apply other_calls_keep|]). by apply Forall_nil.
Defined.

Lemma route_decides_best_witness :
  let o := (route (no_providers 100) serving_request fenced_world).1 in
  oc_has_decision o = true /\ exists p js, pi_now p = 100 /\ decides_best p js o.
Proof.
  intros o. assert (H : oc_has_decision o = true) by (vm_compute; reflexivity). split; [done|].
  pose proof (route_decides_best (no_providers 100) serving_request fenced_world H) as Hr.
  destruct Hr as (_ & _ & _ & _ & policy & w4 & budget & w5 & slo & w6 & js & _ & _ & _ & _ & Hr).
  eexists. exists js. split; [|exact Hr]. reflexivity.
Defined.

(** Evidence has run out at 200: both candidates are rejected. *)
Definition serving_pass : RoutingPass := capture_pass (EntityIdOf 12) none 250 serving_state.
Definition serving_inputs : PassInputs :=
  {| pi_request := serving_request; pi_policy := serving_policy; pi_budget := cs_budget serving_state;
     pi_slo := cs_slo serving_state; pi_weights := cs_weights serving_state;
     pi_scales := cs_scales serving_state; pi_continuity := None; pi_now := 250 |}.

Lemma no_eligible_means_none_witness :
  exists js, candidates_judged (no_providers 250) serving_pass serving_inputs serving_world js /\
    Forall (fun j => entry_eligible serving_inputs j = false) js.
Proof.
  apply (no_eligible_means_none (no_providers 250) serving_pass serving_inputs serving_world).
  vm_compute. reflexivity.
Defined.

(** The commit of the sample decision to a state that has lost its backend. *)
Lemma commit_route_safe_witness :
  let '(r, _, _) := commit_route serving_pass serving_inputs
    (route_explanation_default <| rx_winner := key_of serving_model (serving_backend 4 9) |>) 1
    route_decision_default serving_state 200 in
  match r with inl _ => False | inr (d, current) => current = false end.
Proof.
  pose proof (commit_route_safe serving_pass serving_inputs
    (route_explanation_default <| rx_winner := key_of serving_model (serving_backend 4 9) |>) 1
    route_decision_default serving_state 200) as H.
  specialize (H (serving_history 200) eq_refl). revert H.
  destruct (commit_route _ _ _ _ _ _ _) as [[[refused|[d current]] s'] ids'] eqn:E.
  - intros _. exfalso. revert E. vm_compute. discriminate.
  - intros (_ & (r & _ & _ & _ & Hc) & _). destruct current; [|done]. exfalso.
    revert E. vm_compute. discriminate.
Defined.
