(* ===== verification/RouterLiveness.v ===== *)
(** * What a routing pass is bound to answer ([router_route.cpp])

    Liveness of the routing pass: unless the router is shut down or restarted
    under it, a pass that comes to its candidates decides. *)
From S2P Require Import Prelude.
From S2P Require Import Ids.
From S2P Require Import Outcome.
From S2P Require Import Limits.
From S2P Require Import Capability.
From S2P Require Import Evidence.
From S2P Require Import Catalog.
From S2P Require Import Request.
From S2P Require Import Candidate.
From S2P Require Import Policy.
From S2P Require Import Authority.
From S2P Require Import Eligibility.
From S2P Require Import Ranking.
From S2P Require Import Decision.
From S2P Require Import RouterState.
From S2P Require Import RouterMutation.
From S2P Require Import Providers.
From S2P Require Import RouterRoute.

(** ** The session a state belongs to *)

(** What only [start], [load] and [shutdown] change. *)
Definition session (s : CanonicalState) :=
  (cs_limits s, cs_running s, cs_shutting_down s, cs_router_epoch s, cs_coordinator_epoch s).

Definition same_session (s s' : CanonicalState) : Prop := session s' = session s.

Lemma same_session_trans s1 s2 s3 : same_session s1 s2 -> same_session s2 s3 -> same_session s1 s3.
Proof. unfold same_session. congruence. Qed.

Definition reply_session (s : CanonicalState) (r : Reply) : Prop := same_session s (snd r).

Create HintDb session.
#[local] Hint Extern 5 (same_session _ _) => reflexivity : session.

Lemma reject_session code subject message s : reply_session s (reject code subject message s).
Proof. reflexivity. Qed.
Lemma accept_session b s s' : same_session s s' -> reply_session s (accept b s').
Proof. done. Qed.
#[local] Hint Resolve reject_session accept_session : session.
Ltac session := walk; auto with session.

Lemma apply_evidence_session {S g} `{EqDecision S, EvidenceSlot S g} (e : BackendEvidence S g) subject now code s :
  reply_session s (apply_evidence e subject now code s).
Proof. unfold apply_evidence. session. Qed.

Lemma replace_backend_session d s s' : same_session s s' -> same_session s (replace_backend d s').
Proof. unfold replace_backend. by destruct (cs_backends s' !! _). Qed.

Lemma apply_trust_session e s s' : same_session s s' -> same_session s (apply_trust e s').
Proof. unfold apply_trust. by destruct (cs_backends s' !! _). Qed.

Lemma store_capacity_detail_session detail s s' :
  same_session s s' -> same_session s (store_capacity_detail detail s').
Proof. unfold store_capacity_detail. by destruct (cs_backends s' !! _). Qed.

Lemma fence_catalog_session id generation boot r s :
  same_session s ((fence_catalog id generation boot s)
    <| cs_fenced_boots := <[fence_key id boot := r]> (cs_fenced_boots s) |>).
Proof. unfold fence_catalog. destruct (cs_backends s !! id) as [d|]; [by destruct (_ && _)|done]. Qed.

Lemma stale_change_session now s s' :
  same_session s s' -> same_session s (stale_decisions_for_authority_change now s').
Proof. done. Qed.

Lemma retire_incarnation_session id boot now s s' :
  same_session s s' -> same_session s (retire_incarnation id boot now s').
Proof. done. Qed.
#[local] Hint Resolve apply_evidence_session replace_backend_session apply_trust_session
  store_capacity_detail_session fence_catalog_session stale_change_session retire_incarnation_session : session.

(** No catalog, evidence or configuration call leaves the session. *)
Lemma perform_session call now s : same_session s (snd (perform call now s)).
Proof.
  change (reply_session s (perform call now s)). destruct call; unfold perform; auto with session;
    try (apply fence_backend_boot_effect; auto with session);
    unfold_call; try by session.
  pose proof (apply_evidence_session e "update_capacity" now OutcomeCode.REJECT_STALE_CAPACITY s) as Ha.
  session. unfold reply_session in *. cbn [snd] in *. auto with session.
Qed.

Lemma run_calls_session calls s : same_session s (run_calls calls s).
Proof.
  revert s. induction calls as [|[call now] calls IH]; intros s; [done|].
  eapply same_session_trans; [apply (perform_session call now)|apply IH].
Qed.

(** ** A pass nothing interrupts *)

(** The router is neither shutting down nor restarted since the pass was admitted. *)
Definition uninterrupted (pass : RoutingPass) (s : CanonicalState) : Prop :=
  cs_shutting_down s = false /\ cs_router_epoch s = ps_epoch pass /\
  cs_coordinator_epoch s = ps_coordinator_epoch pass.

(** The invariant the other threads are to keep. *)
Abbreviation stays pass := (fun s (_ : Allocator) => uninterrupted pass s).

Lemma same_session_uninterrupted pass s s' : same_session s s' -> uninterrupted pass s -> uninterrupted pass s'.
Proof. unfold same_session, session, uninterrupted. intros [= E1 E2 E3 E4 E5]. by rewrite E3, E4, E5. Qed.

Lemma other_calls_stay pass calls : interference_keeps (stays pass) (other_calls calls).
Proof. intros s ids. apply same_session_uninterrupted, run_calls_session. Qed.

Lemma note_tenant_session tenant s : same_session s (note_tenant tenant s).
Proof. unfold note_tenant. by destruct (valid _). Qed.

Lemma evicted_session s : same_session s (evicted s).
Proof. unfold evicted, evict_history. destruct (_ <=? _); [by destruct (evict _ _ _)|done]. Qed.

Lemma commit_record_session p winner permitted a d s ids :
  same_session s (commit_record p winner permitted a d s ids).1.2.
Proof.
  unfold commit_record. destruct (allocate_id RouteDecisionTag ids) as [id ids1].
  destruct (finalize_decision s id d). destruct (allocate_id RoutePlanTag ids1).
  unfold retain_record. cbv zeta. by destruct (cs_routes (update_field _ _ _) !! id).
Qed.

(** The commit of an uninterrupted pass is not refused. *)
Lemma commit_route_proceeds pass p explanation permitted d s ids :
  uninterrupted pass s ->
  let '(r, s', _) := commit_route pass p explanation permitted d s ids in
  (exists committed, r = inr committed) /\ uninterrupted pass s'.
Proof.
  intros Hu. pose proof Hu as (H1 & H2 & H3). unfold commit_route. rewrite H1, H2, H3.
  rewrite !bool_decide_eq_true_2 by done. cbn [negb orb].
  pose proof (commit_record_session p (rx_winner explanation) permitted (de_authority d) d (evicted s) ids) as Hc.
  destruct (commit_record _ _ _ _ _ _ ids) as [[committed s'] ids']. cbn [fst snd] in Hc.
  split; [by eexists|]. eapply same_session_uninterrupted, Hu.
  eapply same_session_trans; [apply evicted_session|]. eapply same_session_trans; [exact Hc|].
  unfold set_winner. eapply same_session_trans; [|apply note_tenant_session]. done.
Qed.

Lemma existsb_filter {A} (f : A -> bool) l :
  existsb f l = match List.filter f l with [] => false | _ => true end.
Proof. induction l as [|a l IH]; simpl; [done|]. by destruct (f a). Qed.

Section Decided.
Context {E : Type} (providers : ProviderSet E) (pass : RoutingPass) (p : PassInputs).

Lemma commit_winner_decides candidates explanation winner tail :
  keeps (stays pass) (fun o => oc_has_decision o = true)
    (commit_winner providers pass p candidates explanation winner tail).
Proof.
  unfold commit_winner. apply (keeps_bind _ (fun _ => True)); [by apply keeps_shared|]. intros a _.
  apply (keeps_bind _ (fun _ => True)); [apply resolve_winner_keeps|]. intros resolved _. cbv zeta.
  apply (keeps_or_return _ (fun _ => True)); [|by intros [d current] _; apply keeps_ret].
  eapply keeps_bind; [|by intros r Hr; apply keeps_ret, Hr].
  apply keeps_locked_ids. intros s ids Hu.
  match goal with |- context [commit_route pass p ?e ?n ?d s ids] =>
    pose proof (commit_route_proceeds pass p e n d s ids Hu) as Hc;
    destruct (commit_route pass p e n d s ids) as [[r s'] ids']
  end. by destruct Hc as [[committed ->] Hu'].
Qed.

Definition any_eligible (js : list Judged) : bool := existsb (entry_eligible p) js.

(** What the pass is to answer once it has judged [js]. *)
Definition decided (js : list Judged) (o : RouteOutcome) : Prop :=
  if max_ranked_candidates (ps_limits pass) <? Request.size (List.filter (entry_eligible p) js)
  then oc_code o = OutcomeCode.REJECT_LIMIT
  else if any_eligible js then oc_has_decision o = true
  else oc_code o = OutcomeCode.NO_ELIGIBLE_CANDIDATE.

(** ... and once it has discovered [found], from the world discovery left. *)
Definition answered (found : list RouteCandidate) (w : World E) (o : RouteOutcome) : Prop :=
  if max_candidates_per_request (ps_limits pass) <? Request.size found
  then oc_code o = OutcomeCode.REJECT_LIMIT
  else exists js w', judged_from providers pass p (canonical_candidates found) w js w' /\ decided js o.

Lemma any_eligible_ranked js :
  any_eligible js = match rank_all (map (entry_ranked p) (List.filter (entry_eligible p) js)) with
                    | [] => false | _ => true
                    end.
Proof.
  pose proof (rank_all_length (map (entry_ranked p) (List.filter (entry_eligible p) js))) as Hl.
  rewrite length_map in Hl. unfold any_eligible. rewrite existsb_filter. by destruct (rank_all _), (List.filter _ _).
Qed.

Lemma route_candidates_decides w : world_ok (stays pass) w ->
  exists found w1, discovered providers (pi_request p) (ps_context pass) w found w1 /\
    answered found w1 (route_candidates providers pass p w).1.
Proof.
  intros Hw. unfold route_candidates. cbv zeta.
  pose proof (discover_discovered providers (pi_request p) (ps_context pass) w) as Hf.
  pose proof (discover_keeps providers (stays pass) (pi_request p) (ps_context pass) w Hw) as [_ Hw1].
  run_bind found w1 E1. cbn [fst snd] in Hf, Hw1. exists found, w1. split; [done|]. unfold answered.
  destruct (max_candidates_per_request _ <? _); [done|].
  destruct (judge_all_judged providers pass p (canonical_candidates found) w1) as (js & w2 & Hj & E2).
  pose proof (judge_all_keeps providers (stays pass) pass p (canonical_candidates found) w1 Hw1) as [_ Hw2].
  rewrite E2 in Hw2. cbn [snd] in Hw2. rewrite (bind_runs _ _ _ _ _ E2). exists js, w2. split; [done|].
  unfold collected. cbv iota beta. unfold decided, Request.size. rewrite length_map.
  destruct (_ <? Z.of_nat _); [done|]. rewrite any_eligible_ranked. destruct (rank_all _) as [|winner tail]; [done|].
  by apply (commit_winner_decides _ _ winner tail w2).
Qed.
End Decided.

(** The candidates the catalog of a state offers: a binding of a registered
    backend to a registered model, under a model the index lists it for. *)
Definition offered (s : CanonicalState) (c : RouteCandidate) : Prop :=
  exists model_id backends backend_id model backend binding,
    cs_index_by_model s !! model_id = Some backends /\ backend_id ∈ backends /\
    cs_models s !! model_id = Some model /\ cs_backends s !! backend_id = Some backend /\
    find_binding backend model_id = Some binding /\ c = catalog_candidate model backend binding.

Lemma elem_of_ordered_keys `{Countable K} {A} (ltb : K -> K -> bool) (m : gmap K A) k :
  k ∈ ordered_keys ltb m <-> is_Some (m !! k).
Proof.
  unfold ordered_keys. rewrite elem_of_stable_sort, list_elem_of_fmap. split.
  - intros ([k' a] & -> & Hk%elem_of_map_to_list). by exists a.
  - intros [a Hk]. exists (k, a). by rewrite elem_of_map_to_list.
Qed.

Lemma discover_catalog_offered s c : c ∈ discover_catalog s <-> offered s c.
Proof.
  unfold discover_catalog, discover_entry, build_candidate_from_catalog, offered.
  rewrite list_elem_of_bind. split.
  - intros (model_id & Hc & Hm). apply list_elem_of_omap in Hc as (backend_id & Hb & Hc).
    apply elem_of_stable_sort, elem_of_elements in Hb.
    apply elem_of_ordered_keys in Hm as [backends Hm]. rewrite Hm in Hb. cbn in Hb.
    destruct (cs_models s !! model_id) as [model|] eqn:E1; [|done].
    destruct (cs_backends s !! backend_id) as [backend|] eqn:E2; [|done].
    apply fmap_Some in Hc as (binding & E3 & ->). by exists model_id, backends, backend_id, model, backend, binding.
  - intros (model_id & backends & backend_id & model & backend & binding & Hm & Hb & E1 & E2 & E3 & ->).
    exists model_id. split; [|apply elem_of_ordered_keys; by exists backends].
    apply list_elem_of_omap. exists backend_id. rewrite E1, E2, E3. split; [|done].
    rewrite Hm. by apply elem_of_stable_sort, elem_of_elements.
Qed.

(** C2: Unless the router is shut down or restarted under it, a routing pass that
    comes to its candidates decides.  The candidates are what the adapter
    answers from the world the pass comes in, or, without an adapter, exactly
    those the catalog offers in the state the pass finds; each is judged on the
    evidence the adapters then give, asked in order.  Whatever they answer and
    whatever calls other threads make meanwhile, the pass refuses only a set of
    candidates beyond the configured limits, it commits a decision if one of the
    candidates it judged is eligible, and it answers NO_ELIGIBLE_CANDIDATE if
    none is. *)
Theorem uninterrupted_pass_decides {E} (providers : ProviderSet E) (pass : RoutingPass) (p : PassInputs)
    (w : World E) (Hw : uninterrupted pass (w_state w))
    (Hothers : Forall (interference_keeps (fun s _ => uninterrupted pass s)) (w_others w)) :
  exists found w1, discovered providers (pi_request p) (ps_context pass) w found w1 /\
    (pr_candidates providers = None -> forall c, c ∈ found <-> offered (w_state (interfere w)) c) /\
    answered providers pass p found w1 (route_candidates providers pass p w).1.
Proof.
  destruct (route_candidates_decides providers pass p w) as (found & w1 & Hf & Ha); [done|].
  exists found, w1. split; [done|]. split; [|done]. intros Hn c. unfold discovered in Hf. rewrite Hn in Hf.
  destruct Hf as [-> _]. apply discover_catalog_offered.
Qed.

(** Evidence is live at 100; the winner's backend is fenced before the commit. *)
Definition live_pass : RoutingPass := capture_pass (EntityIdOf 12) none 100 serving_state.
Definition live_inputs : PassInputs :=
  {| pi_request := serving_request; pi_policy := serving_policy; pi_budget := cs_budget serving_state;
     pi_slo := cs_slo serving_state; pi_weights := cs_weights serving_state;
     pi_scales := cs_scales serving_state; pi_continuity := None; pi_now := 100 |}.

Lemma uninterrupted_pass_decides_witness :
  let o := (route_candidates (no_providers 100) live_pass live_inputs fenced_world).1 in
  oc_has_decision o = true /\
  exists found w1, (forall c, c ∈ found <-> offered (w_state (interfere fenced_world)) c) /\
    answered (no_providers 100) live_pass live_inputs found w1 o.
Proof.
  intros o. split; [vm_compute; reflexivity|].
  destruct (uninterrupted_pass_decides (no_providers 100) live_pass live_inputs
    fenced_world) as (found & w1 & _ & Ho & H).
  - split; [|split]; vm_compute; reflexivity.
  - change (Forall (interference_keeps (fun s _ => uninterrupted live_pass s)) fencing_schedule).
    unfold fencing_schedule. repeat (apply Forall_cons_2; [apply other_calls_stay|]). by apply Forall_nil.
  - exists found, w1. split; [exact (Ho eq_refl)|exact H].
Defined.
