(* ===== verification/RouterDispatch.v ===== *)
(** * Revalidation, dispatch, completion and reroute ([router_dispatch.cpp])

    The operations on a retained decision.  As in the routing pipeline, every
    critical section works on the state it finds; in between, the adapters run
    with no lock held. *)
From S2P Require Import Prelude Ids Outcome Limits Clock Capability Evidence Catalog Request.
From S2P Require Import Candidate Policy Authority Eligibility Ranking Decision RouterState.
From S2P Require Import RouterMutation Providers RouterRoute.

(** ** Changes of one retained decision *)

(** [found->second...]: the entry is changed when it is there. *)
Definition change_retained (id : EntityId RouteDecisionTag) (f : RouteRecord -> RouteRecord)
    (s : CanonicalState) : CanonicalState :=
  match cs_routes s !! id with
  | Some r => s <| cs_routes := <[id := f r]> (cs_routes s) |>
  | None => s
  end.

Definition mark_current (r : RouteRecord) : RouteRecord :=
  let d := rec_decision r in
  r <| rec_decision := d <| de_status := RouteStatus.CURRENT |>
         <| de_explanation := (de_explanation d) <| rx_currentness := Currentness.CURRENT |>
                                <| rx_revalidation_required := false |> |> |>.

Definition mark_dispatched (id : EntityId DispatchTag) (r : RouteRecord) : RouteRecord :=
  r <| rec_decision := (rec_decision r) <| de_status := RouteStatus.DISPATCHED |>
         <| de_dispatch_id := id |> <| de_dispatch_generation := GenerationOf 1 |> |>.

Definition mark_superseded (now : UnixMillis) (r : RouteRecord) : RouteRecord :=
  r <| rec_decision := (rec_decision r) <| de_status := RouteStatus.SUPERSEDED |>
         <| de_superseded_at := now |> |>.

Definition mark_completed (success : bool) (r : RouteRecord) : RouteRecord :=
  r <| rec_decision := (rec_decision r)
         <| de_status := if success then RouteStatus.COMPLETED else RouteStatus.FAILED |> |>.

(** ** Revalidation *)

Definition refuse (code : OutcomeCode.t) (subject message : string) : MutationResult :=
  mutation_make code subject message.

(** The first critical section: the projection of the record, and whether its
    incarnation is fenced. *)
Definition lookup_retained (id : EntityId RouteDecisionTag) (s : CanonicalState)
    : MutationResult + RouteLookup * bool :=
  return_if cs_shutting_down s
    with inl (refuse OutcomeCode.SHUTTING_DOWN "revalidate"
                "router is shutting down and cannot re-authorize a route") ;;
  match cs_routes s !! id with
  | None => inl (refuse OutcomeCode.REJECT_INVALID "revalidate" "route decision is not retained")
  | Some found =>
      let record := lookup_from found in
      inr (record, is_fenced s (au_backend_id (lk_authority record)) (au_backend_boot (lk_authority record)))
  end.

(** Who may revalidate, and in which states. *)
Definition revalidate_admit (caller_tenant : EntityId TenantTag) (caller_name_space : EntityId NamespaceTag)
    (record : RouteLookup) : option MutationResult :=
  return_if valid caller_tenant && (caller_tenant != lk_tenant record)
    with Some (refuse OutcomeCode.REJECT_CONFLICT "revalidate" "route decision belongs to a different tenant") ;;
  return_if valid caller_name_space && valid (lk_name_space record) &&
            (caller_name_space != lk_name_space record)
    with Some (refuse OutcomeCode.REJECT_CONFLICT "revalidate"
                 "route decision belongs to a different namespace") ;;
  return_if (lk_status record == RouteStatus.SUPERSEDED) || (lk_status record == RouteStatus.CANCELLED)
    with Some (refuse OutcomeCode.SUPERSEDED "revalidate" "route decision is no longer current") ;;
  return_if (lk_status record == RouteStatus.COMPLETED) || (lk_status record == RouteStatus.FAILED)
    with Some (refuse OutcomeCode.REJECT_INVALID "revalidate"
                 "route decision has already reached a terminal state") ;;
  None.

Definition add_difference (b : ExplanationBuilder) (d : AuthorityDifference) : ExplanationBuilder :=
  add (AuthorityComponent.to_string (df_component d))
    (to_string_int (df_bound d) +:+ "->" +:+ to_string_int (df_current d)) b.

(** The last critical section: the comparison was made against what an earlier
    section observed; dispatchability is evaluated here. *)
Definition revalidate_commit (id : EntityId RouteDecisionTag) (a observed : RouteAuthority)
    (now : UnixMillis) (s : CanonicalState) : MutationResult * CanonicalState :=
  let comparison := compare_authority a observed (required_mask a) in
  match cs_routes s !! id with
  | None => (refuse OutcomeCode.REJECT_INVALID "revalidate" "route decision is not retained", s)
  | Some _ =>
      let reason := dispatchability_reason s a now in
      return_if comparison_current comparison && (reason != OutcomeCode.ACCEPTED)
        with (mutation_built (builder reason "revalidate" >>> add_int "decision_id" (value id)
                >>> set_message "bound model or backend is no longer dispatchable"),
              change_retained id mark_stale s) ;;
      return_if negb (comparison_current comparison)
        with (mutation_built (fold_left add_difference (cm_differences comparison)
                (builder (cm_code comparison) "revalidate" >>> add_int "decision_id" (value id)
                   >>> add_int "differences" (Request.size (cm_differences comparison)))
                >>> set_message "route authority is no longer current"),
              change_retained id mark_stale s) ;;
      (mutation_built (builder OutcomeCode.ACCEPTED "revalidate" >>> add_int "decision_id" (value id)
         >>> add "authority_digest" (authority_digest observed)
         >>> set_message "every required authority component is current"),
       change_retained id mark_current s)
  end.

Section Dispatch.
Context {E : Type} (providers : ProviderSet E).

Definition revalidate (id : EntityId RouteDecisionTag) (caller_tenant : EntityId TenantTag)
    (caller_name_space : EntityId NamespaceTag) : M E MutationResult :=
  found ←? locked_shared (lookup_retained id);
  let '(record, fenced) := found in
  let a := lk_authority record in
  let stale := locked (fun s => (tt, change_retained id mark_stale s)) in
  match revalidate_admit caller_tenant caller_name_space record with
  | Some refused => mret refused
  | None =>
      now ← ask (pr_clock providers);
      return_if authority_expired a now
        with (_ ← stale; mret (refuse OutcomeCode.REJECT_STALE_REQUEST "revalidate" "route decision has expired")) ;;
      return_if (fenced : bool)
        with (_ ← stale;
              mret (mutation_built (builder OutcomeCode.REJECT_STALE_BACKEND_BOOT "revalidate"
                      >>> add_int "backend_id" (value (au_backend_id a))
                      >>> add_int "backend_boot" (value (au_backend_boot a))
                      >>> set_message "backend incarnation is fenced"))) ;;
      current ← locked_shared (fun s => build_current_authority s a);
      match current with
      | None =>
          _ ← stale;
          mret (refuse OutcomeCode.REJECT_STALE_BACKEND "revalidate"
                  "bound model or backend identity no longer exists")
      | Some observed => locked (revalidate_commit id a observed now)
      end
  end.

(** ** Dispatch *)

(** A record that goes back to the caller without a handoff. *)
Definition failed_dispatch (record : DispatchRecord) (code : OutcomeCode.t) (failure : FailureClass.t)
    (detail : string) : DispatchRecord :=
  record <| di_code := code |> <| di_failure := failure |> <| di_detail := detail |>.

(** The same, stamped with the time. *)
Definition stamped (record : DispatchRecord) : M E DispatchRecord :=
  t ← ask (pr_clock providers); mret (record <| di_dispatched_at := t |>).

Definition find_for_dispatch (record : DispatchRecord) (id : EntityId RouteDecisionTag) (s : CanonicalState)
    : DispatchRecord + RouteRecord :=
  return_if cs_shutting_down s
    with inl (record <| di_code := OutcomeCode.SHUTTING_DOWN |>
                <| di_detail := "router is shutting down and cannot dispatch" |>) ;;
  match cs_routes s !! id with
  | None => inl (record <| di_code := OutcomeCode.REJECT_INVALID |>
                   <| di_detail := "route decision is not retained" |>)
  | Some stored => inr stored
  end.

(** The request the target is re-evaluated under: the identities of the bound
    authority and the default requirements. *)
Definition dispatch_request (stored : RouteRecord) : RouteRequest :=
  let d := rec_decision stored in
  let a := de_authority d in
  route_request_default <| rr_request_id := de_request_id d |>
    <| rr_request_generation := de_request_generation d |>
    <| rr_tenant := rec_tenant stored |> <| rr_name_space := rec_name_space stored |>
    <| rr_policy_id := au_policy_id a |> <| rr_policy_generation := au_policy_generation a |>
    <| rr_budget_id := au_budget_id a |> <| rr_budget_generation := au_budget_generation a |>
    <| rr_slo_id := au_slo_id a |> <| rr_slo_generation := au_slo_generation a |>
    <| rr_expires_at := au_expires_at a |>.

Definition inputs_of (pass : RoutingPass) (policy : PolicySnapshot) (request : RouteRequest) : PassInputs :=
  {| pi_request := request; pi_policy := policy; pi_budget := ps_budget pass; pi_slo := ps_slo pass;
     pi_weights := ps_weights pass; pi_scales := ps_scales pass; pi_continuity := ps_continuity pass;
     pi_now := dx_now (ps_context pass) |}.

(** What the handler answered, as the router completes it. *)
Definition handed_over (id : EntityId RouteDecisionTag) (stored : RouteRecord) (target : CandidateKey)
    (handler_record : DispatchRecord) : M E DispatchRecord :=
  let record := handler_record <| di_decision_id := id |>
    <| di_decision_generation := de_decision_generation (rec_decision stored) |>
    <| di_target := target |> <| di_revalidated := true |> in
  if di_dispatched_at record =? 0 then stamped record else mret record.

(** The last critical section: the handoff is recorded, whatever became of the
    decision's status in the meantime. *)
Definition record_dispatch (id : EntityId RouteDecisionTag) (pass : RoutingPass) (record : DispatchRecord)
    (s : CanonicalState) (ids : Allocator) : DispatchRecord * CanonicalState * Allocator :=
  match cs_routes s !! id with
  | None => (record <| di_code := OutcomeCode.REJECT_INVALID |>
               <| di_detail := "route decision disappeared before the dispatch could be recorded" |>, s, ids)
  | Some _ =>
      return_if (cs_router_epoch s != ps_epoch pass) || (cs_coordinator_epoch s != ps_coordinator_epoch pass)
        with (record <| di_code := OutcomeCode.REJECT_STALE_ROUTER_EPOCH |>
                <| di_failure := FailureClass.STALE_ROUTE |> <| di_handed_off := false |>
                <| di_detail := "router epoch advanced during the dispatch handoff" |>, s, ids) ;;
      let '(dispatch_id, ids) := allocate_id DispatchTag ids in
      let record := record <| di_dispatch_id := dispatch_id |> <| di_dispatch_generation := GenerationOf 1 |> in
      let s := change_retained id (mark_dispatched dispatch_id) s in
      let c := cs_counters s in
      (record,
       s <| cs_dispatches := <[id := record]> (cs_dispatches s) |>
         <| cs_dispatch_index := <[dispatch_id := id]> (cs_dispatch_index s) |>
         <| cs_counters := c <| pc_dispatches := incremented (pc_dispatches c) |> |>, ids)
  end.

(** From the admitted record to the handler. *)
Definition dispatch_target (id : EntityId RouteDecisionTag) (stored : RouteRecord) (record : DispatchRecord)
    : M E DispatchRecord :=
  captured ← locked_shared (fun s => s);
  now ← ask (pr_clock providers);
  let pass := capture_pass (rec_tenant stored) (rec_name_space stored) now captured in
  let request := dispatch_request stored in
  found ← locked_shared (build_candidate_from_catalog (ck_model_id (di_target record))
                           (ck_backend_id (di_target record)));
  match found with
  | None => mret (failed_dispatch record OutcomeCode.REJECT_STALE_BACKEND FailureClass.STALE_ROUTE
                    "bound candidate identity no longer exists")
  | Some candidate =>
      return_if rc_key candidate != di_target record
        with mret (failed_dispatch record OutcomeCode.REJECT_STALE_BACKEND_BOOT
                     FailureClass.BACKEND_RESTARTED "bound candidate identity is not the current incarnation") ;;
      evidence ← resolve_candidate providers request (ps_context pass) (ps_snapshot pass) candidate;
      let verdict := eligibility_of (inputs_of pass (ps_policy pass) request) candidate evidence in
      return_if negb (eligible verdict)
        with stamped (failed_dispatch record (el_code verdict) (classify_failure (el_code verdict))
                        (el_detail verdict)) ;;
      match pr_dispatcher providers with
      | None => stamped (failed_dispatch record OutcomeCode.REJECT_INVALID FailureClass.UNKNOWN
                           "no dispatch handler is configured")
      | Some handoff =>
          answered ← ask_issuing (handoff (rec_decision stored) (rec_plan stored) (ps_context pass));
          record ← handed_over id stored (rc_key candidate) answered;
          return_if (di_code record != OutcomeCode.DISPATCHED) && (di_code record != OutcomeCode.ACCEPTED)
            with mret (record <| di_handed_off := false |>
                         <| di_failure := if di_failure record == FailureClass.UNKNOWN
                                          then classify_failure (di_code record) else di_failure record |>) ;;
          locked_ids (record_dispatch id pass
            (record <| di_code := OutcomeCode.DISPATCHED |> <| di_handed_off := true |>))
      end
  end.

Definition dispatch (id : EntityId RouteDecisionTag) (caller_tenant : EntityId TenantTag)
    (caller_name_space : EntityId NamespaceTag) : M E DispatchRecord :=
  let record := dispatch_record_default <| di_decision_id := id |> <| di_code := OutcomeCode.INTERNAL_ERROR |> in
  stored ←? locked_shared (find_for_dispatch record id);
  let record := record <| di_decision_generation := de_decision_generation (rec_decision stored) |>
                       <| di_target := pl_primary (rec_plan stored) |> in
  return_if valid caller_tenant && (caller_tenant != rec_tenant stored)
    with mret (record <| di_code := OutcomeCode.REJECT_CONFLICT |>
                 <| di_detail := "route decision belongs to a different tenant" |>) ;;
  return_if valid caller_name_space && valid (rec_name_space stored) &&
            (caller_name_space != rec_name_space stored)
    with mret (record <| di_code := OutcomeCode.REJECT_CONFLICT |>
                 <| di_detail := "route decision belongs to a different namespace" |>) ;;
  revalidated ← revalidate id caller_tenant caller_name_space;
  let record := record <| di_revalidated := true |> in
  return_if negb (accepted revalidated)
    with stamped (failed_dispatch record (mr_code revalidated) (classify_failure (mr_code revalidated))
                    (ex_message (mr_explanation revalidated))) ;;
  dispatch_target id stored record.
End Dispatch.

(** ** Completion *)

Definition completes (c : CompletionRecord) : bool :=
  (cn_code c == OutcomeCode.COMPLETED) || (cn_code c == OutcomeCode.ACCEPTED).

(** The decision the completion is about: a dispatch identity takes precedence
    over the decision identity. *)
Definition completed_decision (c : CompletionRecord) (s : CanonicalState)
    : option (EntityId RouteDecisionTag) :=
  if valid (cn_dispatch_id c) then cs_dispatch_index s !! cn_dispatch_id c else Some (cn_decision_id c).

Definition record_completion (c : CompletionRecord) (s : CanonicalState) : Reply :=
  match completed_decision c s with
  | None => reject OutcomeCode.REJECT_INVALID "record_completion" "dispatch identity is not retained" s
  | Some id =>
      match cs_routes s !! id with
      | None => reject OutcomeCode.REJECT_INVALID "record_completion" "route decision is not retained" s
      | Some found =>
          return_if de_status (rec_decision found) != RouteStatus.DISPATCHED
            with reject OutcomeCode.REJECT_CONFLICT "record_completion" "route decision was not dispatched" s ;;
          let code := if completes c then OutcomeCode.COMPLETED else OutcomeCode.FAILED in
          let s := change_retained id (mark_completed (completes c)) s in
          let s := match cs_dispatches s !! id with
                   | Some d => s <| cs_dispatches := <[id := d <| di_code := cn_code c |>
                                                            <| di_failure := cn_failure c |>]> (cs_dispatches s) |>
                   | None => s
                   end in
          (mutation_built (builder code "record_completion" >>> add_int "decision_id" (value id)
             >>> add "failure" (FailureClass.to_string (cn_failure c))
             >>> add_int "observed_latency_micros" (cn_observed_latency_micros c)), s)
      end
  end.

(** ** Reroute *)

(** The fallbacks the new decision keeps: the old ones but the candidate. *)
Definition kept_fallbacks (permitted : Z) (key : CandidateKey) (fallbacks : list CandidateKey)
    : list CandidateKey :=
  take (Z.to_nat permitted) (filter (fun k => k <> key) fallbacks).

Definition single_authority (router_id : EntityId RouterTag) (pass : RoutingPass) (p : PassInputs)
    (c : RouteCandidate) (evidence : CandidateEvidence) : RouteAuthority :=
  let request := pi_request p in
  let key := rc_key c in
  let b := rc_backend c in
  let a := route_authority_default
    <| au_router_id := router_id |> <| au_router_epoch := ps_epoch pass |>
    <| au_coordinator_epoch := ps_coordinator_epoch pass |>
    <| au_request_id := rr_request_id request |> <| au_request_generation := rr_request_generation request |>
    <| au_model_id := ck_model_id key |> <| au_model_generation := ck_model_generation key |>
    <| au_artifact_generation := ck_artifact_generation key |>
    <| au_provider_id := bd_provider_id b |> <| au_provider_generation := bd_provider_generation b |>
    <| au_backend_id := ck_backend_id key |> <| au_backend_generation := ck_backend_generation key |>
    <| au_backend_boot := ck_backend_boot key |>
    <| au_registration_generation := bd_registration_generation b |>
    <| au_endpoint_id := ck_endpoint_id key |> <| au_endpoint_generation := ck_endpoint_generation key |>
    <| au_capability_profile_id := bd_capability_profile_id b |>
    <| au_capability_generation := bd_capability_generation b |>
    <| au_compatibility_profile_id := bd_compatibility_profile_id b |>
    <| au_compatibility_generation := bd_compatibility_generation b |>
    <| au_trust_profile_id := bd_trust_profile_id b |> <| au_trust_generation := bd_trust_generation b |>
    <| au_health_generation := ev_generation (bd_health b) |>
    <| au_availability_generation := ev_generation (bd_availability b) |>
    <| au_readiness_generation := ev_generation (bd_readiness b) |>
    <| au_residency_generation := ev_generation (bd_residency b) |>
    <| au_capacity_generation := ev_generation (bd_capacity b) |>
    <| au_policy_id := po_policy_id (pi_policy p) |> <| au_policy_generation := po_generation (pi_policy p) |> in
  let a := if valid (rr_budget_id request)
           then a <| au_budget_id := rr_budget_id request |> <| au_budget_generation := bu_generation (pi_budget p) |>
           else a in
  let a := a <| au_slo_id := sl_slo_id (pi_slo p) |> <| au_slo_generation := sl_generation (pi_slo p) |>
    <| au_tenant := rr_tenant request |> <| au_name_space := rr_name_space request |>
    <| au_issued_at := pi_now p |> <| au_expires_at := rr_expires_at request |> in
  bind_evidence evidence a.

Definition single_explanation (p : PassInputs) (c : RouteCandidate) (evidence : CandidateEvidence)
    (a : RouteAuthority) (fallbacks : list CandidateKey) : RouteExplanation :=
  route_explanation_default
    <| rx_request_id := rr_request_id (pi_request p) |>
    <| rx_request_generation := rr_request_generation (pi_request p) |>
    <| rx_winner := rc_key c |> <| rx_eligible_count := 1 |> <| rx_rejected_count := 0 |>
    <| rx_ranking := [(rank_candidate p c evidence) <| rk_rank := 1 |>] |>
    <| rx_policy := pi_policy p |> <| rx_budget := pi_budget p |> <| rx_slo := pi_slo p |>
    <| rx_cost := ce_cost evidence |>
    <| rx_policy_result := pv_code (evaluate_candidate (pi_policy p) (pi_request p) c (pi_now p)) |>
    <| rx_requirement_digest := requirements_digest (rr_requirements (pi_request p)) |>
    <| rx_currentness := Currentness.CURRENT |>
    <| rx_tie_break_reason := "single freshly revalidated fallback candidate" |>
    <| rx_authority := a |> <| rx_fallback_order := fallbacks |>.

(** The commit of a fallback: the eviction is unconditional, the rest is the
    commit of a full pass with other counters. *)
Definition commit_fallback (pass : RoutingPass) (p : PassInputs) (winner : CandidateKey) (permitted : Z)
    (d : RouteDecision) (s : CanonicalState) (ids : Allocator)
    : (RouteOutcome + RouteDecision * bool) * CanonicalState * Allocator :=
  return_if cs_shutting_down s
    with (inl (outcome_make OutcomeCode.SHUTTING_DOWN "reroute" "router is shutting down"), s, ids) ;;
  return_if (cs_router_epoch s != ps_epoch pass) || (cs_coordinator_epoch s != ps_coordinator_epoch pass)
    with (inl (outcome_make OutcomeCode.REJECT_STALE_ROUTER_EPOCH "reroute"
                 "router epoch advanced before the reroute could be committed"), s, ids) ;;
  let '(committed, s, ids) := commit_record p winner permitted (de_authority d) d (evict_history s) ids in
  let c := cs_counters s in
  let s := s <| cs_counters := c <| pc_route_decisions := incremented (pc_route_decisions c) |>
                                 <| pc_reroutes := incremented (pc_reroutes c) |>
                                 <| pc_fallbacks_taken := incremented (pc_fallbacks_taken c) |> |> in
  (inr committed, set_winner p winner 1 0 s, ids).

Definition find_for_reroute (id : EntityId RouteDecisionTag) (s : CanonicalState)
    : RouteOutcome + RouteRecord * CanonicalState :=
  match cs_routes s !! id with
  | None => inl (outcome_make OutcomeCode.REJECT_INVALID "reroute" "route decision is not retained")
  | Some stored =>
      return_if cs_shutting_down s
        with inl (outcome_make OutcomeCode.SHUTTING_DOWN "reroute" "router is shutting down") ;;
      inr (stored, s)
  end.

(** The refusals that need no adapter. *)
Definition reroute_admit (stored : RouteRecord) (request : RouteRequest) (now : UnixMillis)
    : option RouteOutcome :=
  let status := de_status (rec_decision stored) in
  return_if (status == RouteStatus.COMPLETED) || (status == RouteStatus.CANCELLED)
    with Some (outcome_make OutcomeCode.REJECT_INVALID "reroute"
                 "route decision has reached a terminal state") ;;
  return_if rr_tenant request != rec_tenant stored
    with Some (outcome_make OutcomeCode.REJECT_CONFLICT "reroute"
                 "reroute request tenant does not match the route decision tenant") ;;
  return_if request_expired request now
    with Some (outcome_make OutcomeCode.REJECT_STALE_REQUEST "reroute" "reroute request has expired") ;;
  None.

(** The refusals under the policy.  The trigger is the code of the stored
    decision, not the failure. *)
Definition reroute_policy (stored : RouteRecord) (failure : FailureClass.t) (policy : PolicySnapshot)
    (request : RouteRequest) (now : UnixMillis) : option RouteOutcome :=
  let verdict := evaluate_request policy request now in
  return_if negb (policy_allowed verdict) with Some (outcome_make (pv_code verdict) "reroute" (pv_detail verdict)) ;;
  return_if negb (fallback_permitted policy (rr_requirements request) (de_code (rec_decision stored)))
    with Some (outcome_make OutcomeCode.REJECT_POLICY "reroute"
                 "fallback is not permitted for this failure by policy") ;;
  return_if is_permanent failure
    with Some (outcome_make OutcomeCode.REJECT_POLICY "reroute"
                 "the failure class is permanent and may not be rerouted") ;;
  None.

Definition reroute_permitted (limits : ResourceLimits) (policy : PolicySnapshot) (request : RouteRequest) : Z :=
  if po_fallback_policy policy == FallbackPolicy.FORBIDDEN then 0
  else Z.min (rp_max_fallbacks (rq_retry_policy (rr_requirements request)))
         (Z.min (po_max_fallback_depth policy) (max_fallback_candidates limits)).

Section Reroute.
Context {E : Type} (providers : ProviderSet E).

(** The router identity is read without the lock. *)
Definition commit_single_candidate (pass : RoutingPass) (p : PassInputs) (candidate : RouteCandidate)
    (evidence : CandidateEvidence) (fallbacks : list CandidateKey) (permitted : Z) : M E RouteOutcome :=
  let c := with_coverage (rr_requirements (pi_request p)) (pi_now p) candidate in
  let key := rc_key c in
  let verdict := eligibility_of p c evidence in
  return_if negb (eligible verdict)
    with mret ((outcome_make (el_code verdict) "reroute" (el_detail verdict))
                 <| oc_route := route_explanation_default
                      <| rx_request_id := rr_request_id (pi_request p) |>
                      <| rx_request_generation := rr_request_generation (pi_request p) |> |>) ;;
  router_id ← locked_shared cs_router_id;
  let a := single_authority router_id pass p c evidence in
  let explanation := single_explanation p c evidence a (kept_fallbacks permitted key fallbacks) in
  let d := route_decision_default
    <| de_request_id := rr_request_id (pi_request p) |>
    <| de_request_generation := rr_request_generation (pi_request p) |>
    <| de_status := RouteStatus.CURRENT |> <| de_code := OutcomeCode.ROUTED |> <| de_authority := a |>
    <| de_fallbacks := rx_fallback_order explanation |> <| de_created_at := pi_now p |>
    <| de_explanation := explanation |> in
  committed ←? locked_ids (commit_fallback pass p key permitted d);
  let '(d, current) := committed in
  let code := if (current : bool) then OutcomeCode.ROUTED else OutcomeCode.REVALIDATION_REQUIRED in
  mret (route_outcome_default <| oc_code := code |> <| oc_decision := d |> <| oc_route := de_explanation d |>
    <| oc_has_decision := true |>
    <| oc_explanation := build (builder code "reroute"
         >>> add_int "decision_id" (value (de_decision_id d))
         >>> add_int "backend_id" (value (ck_backend_id key))
         >>> add_int "backend_boot" (value (ck_backend_boot key))
         >>> add_bool "committed_current" current
         >>> set_message (if current then "fallback candidate freshly revalidated and committed"
               else "fallback committed stale: authority advanced during validation")) |>).

(** One turn of the walk: the outcome of the fallback, when it can be tried. *)
Definition try_fallback (pass : RoutingPass) (p : PassInputs) (fallbacks : list CandidateKey) (permitted : Z)
    (key : CandidateKey) : M E (option RouteOutcome) :=
  found ← locked_shared (build_candidate_from_catalog (ck_model_id key) (ck_backend_id key));
  match found with
  | None => mret None
  | Some candidate =>
      return_if rc_key candidate != key with mret None ;;
      evidence ← resolve_candidate providers (pi_request p) (ps_context pass) (ps_snapshot pass) candidate;
      outcome ← commit_single_candidate pass p candidate evidence fallbacks permitted;
      mret (Some outcome)
  end.

Definition supersede (id : EntityId RouteDecisionTag) (now : UnixMillis) : M E unit :=
  locked (fun s => (tt, change_retained id (mark_superseded now) s)).

(** The ordered walk: the first fallback that is routed ends it. *)
Fixpoint walk_fallbacks (id : EntityId RouteDecisionTag) (pass : RoutingPass) (p : PassInputs)
    (fallbacks : list CandidateKey) (permitted : Z) (keys : list CandidateKey) : M E (option RouteOutcome) :=
  match keys with
  | [] => mret None
  | key :: keys =>
      outcome ← try_fallback pass p fallbacks permitted key;
      match outcome with
      | Some outcome =>
          if oc_code outcome == OutcomeCode.ROUTED
          then (_ ← supersede id (pi_now p); mret (Some outcome))
          else walk_fallbacks id pass p fallbacks permitted keys
      | None => walk_fallbacks id pass p fallbacks permitted keys
      end
  end.

Definition reroute_settle_policy (pass : RoutingPass) (request : RouteRequest)
    : M E (RouteOutcome + PolicySnapshot) :=
  match pr_policy providers with
  | None => mret (inr (ps_policy pass))
  | Some fetch =>
      result ← ask (fetch (rr_policy_id request) (rr_policy_generation request) (ps_context pass));
      mret (if er_ok result then inr (er_value result)
            else inl (outcome_make (er_code result) "reroute" (er_detail result)))
  end.

(** No fallback remained: a full pass under the same request. *)
Definition reroute_fresh (id : EntityId RouteDecisionTag) (request : RouteRequest) (now : UnixMillis)
    : M E RouteOutcome :=
  fresh ← route providers request;
  if oc_code fresh == OutcomeCode.ROUTED
  then (_ ← locked (fun s =>
              let s := change_retained id (mark_superseded now) s in
              let c := cs_counters s in
              (tt, s <| cs_counters := c <| pc_reroutes := incremented (pc_reroutes c) |> |>));
        mret fresh)
  else mret fresh.

Definition reroute (id : EntityId RouteDecisionTag) (failure : FailureClass.t) (request : RouteRequest)
    : M E RouteOutcome :=
  request ← normalize_request request;
  found ←? locked_shared (find_for_reroute id);
  let '(stored, captured) := found in
  now ← ask (pr_clock providers);
  let pass := capture_pass (rec_tenant stored) (rec_name_space stored) now captured in
  match reroute_admit stored request now with
  | Some refused => mret refused
  | None =>
      policy ←? reroute_settle_policy pass request;
      let policy := policy_canonicalize policy in
      match reroute_policy stored failure policy request now with
      | Some refused => mret refused
      | None =>
          let p := inputs_of pass policy request in
          let permitted := reroute_permitted (ps_limits pass) policy request in
          let fallbacks := pl_fallbacks (rec_plan stored) in
          taken ← walk_fallbacks id pass p fallbacks permitted fallbacks;
          match taken with
          | Some outcome => mret outcome
          | None => reroute_fresh id request now
          end
      end
  end.
End Reroute.

(** ** Facts about one retained decision *)

Lemma change_retained_lookup id f s :
  cs_routes (change_retained id f s) !! id = f <$> cs_routes s !! id.
Proof.
  unfold change_retained. destruct (cs_routes s !! id) as [r|] eqn:E; [|by rewrite E].
  simpl. by rewrite lookup_insert_eq.
Qed.

Lemma change_retained_other id id' f s :
  id' <> id -> cs_routes (change_retained id f s) !! id' = cs_routes s !! id'.
Proof.
  intros H. unfold change_retained. destruct (cs_routes s !! id); [|done]. simpl. by rewrite lookup_insert_ne.
Qed.

(** Only the decisions change: whether an authority can be executed does not. *)
Lemma change_retained_dispatchable id f s a t :
  dispatchability_reason (change_retained id f s) a t = dispatchability_reason s a t.
Proof. unfold change_retained. by destruct (cs_routes s !! id). Qed.

Lemma change_retained_history id f s ids : history_inv s ids -> history_inv (change_retained id f s) ids.
Proof.
  unfold change_retained. destruct (cs_routes s !! id) as [r|] eqn:E; [|done].
  intros [Hl H]. split; [done|]. intros Hi. destruct (H Hi) as [H1 H2 H3 H4]. split; try done.
  intros j. simpl. rewrite H1, lookup_insert_is_Some'. split; [by right|]. intros [<-|?]; [by rewrite E|done].
Qed.

(** The code of a reply built step by step is the code it was started with. *)
Lemma accepted_built b : accepted (mutation_built b) = OutcomeCode.is_acceptance (b_code b).
Proof. reflexivity. Qed.
Lemma code_builder code subject : b_code (builder code subject) = code.
Proof. reflexivity. Qed.
Lemma code_add key v b : b_code (add key v b) = b_code b.
Proof. reflexivity. Qed.
Lemma code_add_int key v b : b_code (add_int key v b) = b_code b.
Proof. reflexivity. Qed.
Lemma code_message m b : b_code (set_message m b) = b_code b.
Proof. reflexivity. Qed.
Create Rewrite HintDb codes.
#[export] Hint Rewrite accepted_built code_builder code_add code_add_int code_message : codes.

Lemma add_difference_code ds b : b_code (fold_left add_difference ds b) = b_code b.
Proof. revert b. induction ds as [|d ds IH]; intros b; simpl; [done|]. by rewrite IH. Qed.

Lemma rejection_not_acceptance code : OutcomeCode.is_rejection code = true -> OutcomeCode.is_acceptance code = false.
Proof. by destruct code. Qed.

#[export] Hint Rewrite add_difference_code : codes.

(** C5: revalidation decides in the state it writes.  Whatever happened since the
    decision was looked up, the last step of [revalidate] accepts exactly when
    the decision is still retained, the observed authority agrees with the
    bound one in every required component, and the bound model and backend can
    be executed in that very state; then the decision is CURRENT.  Otherwise it
    is marked STALE, and no other decision is touched. *)
Theorem revalidate_commit_spec (id : EntityId RouteDecisionTag) (a observed : RouteAuthority)
    (now : UnixMillis) (s : CanonicalState) :
  let '(result, s') := revalidate_commit id a observed now s in
  (accepted result = true <->
     is_Some (cs_routes s !! id) /\
     comparison_current (compare_authority a observed (required_mask a)) = true /\
     is_authority_dispatchable s a now = true) /\
  cs_routes s' !! id = (if accepted result then mark_current else mark_stale) <$> cs_routes s !! id /\
  (forall id', id' <> id -> cs_routes s' !! id' = cs_routes s !! id') /\
  (forall a' t, is_authority_dispatchable s' a' t = is_authority_dispatchable s a' t).
Proof.
  unfold revalidate_commit, is_authority_dispatchable. cbv zeta.
  destruct (cs_routes s !! id) as [r|] eqn:Er; [|split_and!; [split; [intros H; discriminate H|by intros ([? [=]] & _)]|by rewrite Er|done..]].
  assert (Hreason := dispatchability_reason_cases s a now).
  destruct (comparison_current _) eqn:Ec; [|apply compare_authority_rejects in Ec as Hc]; cbn [andb negb].
  - case_bool_decide as Ed; cbn [negb].
    + autorewrite with codes. split_and!.
      * split; [|done]. intros _. split; [by eexists|done].
      * rewrite change_retained_lookup, Er. done.
      * intros id' Hne. by apply change_retained_other.
      * intros a' t. by rewrite change_retained_dispatchable.
    + assert (Hr : OutcomeCode.is_acceptance (dispatchability_reason s a now) = false).
      { destruct Hreason as [[_ ?]|?]; [done|by apply rejection_not_acceptance]. }
      autorewrite with codes. rewrite Hr. split_and!.
      * split; [done|]. intros (_ & _ & ?). done.
      * rewrite change_retained_lookup, Er. done.
      * intros id' Hne. by apply change_retained_other.
      * intros a' t. by rewrite change_retained_dispatchable.
  - autorewrite with codes. rewrite (rejection_not_acceptance _ Hc). split_and!.
    * split; [done|]. by intros (_ & ? & _).
    * rewrite change_retained_lookup, Er. done.
    * intros id' Hne. by apply change_retained_other.
    * intros a' t. by rewrite change_retained_dispatchable.
Qed.

(** ** What a dispatch has checked *)

(** The statuses no operation may execute again. *)
Definition terminal (s : RouteStatus.t) : bool :=
  (s == RouteStatus.SUPERSEDED) || (s == RouteStatus.CANCELLED) ||
  (s == RouteStatus.COMPLETED) || (s == RouteStatus.FAILED).

(** The caller may act on the decision: a tenant or a namespace it names is the
    decision's own. *)
Definition open_to (caller_tenant : EntityId TenantTag) (caller_name_space : EntityId NamespaceTag)
    (r : RouteRecord) : Prop :=
  (valid caller_tenant = true -> caller_tenant = rec_tenant r) /\
  (valid caller_name_space = true -> valid (rec_name_space r) = true -> caller_name_space = rec_name_space r).

Lemma refuse_None {A} (c : bool) (a : A) rest :
  (if c then Some a else rest) = None <-> c = false /\ rest = None.
Proof. destruct c; split; [done|by intros []|done|by intros []]. Qed.

Lemma names_another `{EqDecision A} (named known : bool) (a b : A) :
  named && known && (a != b) = false <-> (named = true -> known = true -> a = b).
Proof.
  destruct named, known; cbn [andb]; try by split.
  rewrite negb_false_iff, bool_decide_eq_true. split; [by intros ->|]. intros H. by apply H.
Qed.

Lemma names_another_one `{EqDecision A} (named : bool) (a b : A) :
  named && (a != b) = false <-> (named = true -> a = b).
Proof.
  destruct named; cbn [andb]; [|by split].
  rewrite negb_false_iff, bool_decide_eq_true. split; [by intros ->|]. intros H. by apply H.
Qed.

Lemma revalidate_admit_None caller_tenant caller_name_space r :
  revalidate_admit caller_tenant caller_name_space (lookup_from r) = None <->
  open_to caller_tenant caller_name_space r /\ terminal (de_status (rec_decision r)) = false.
Proof.
  unfold revalidate_admit, terminal, open_to. cbn [lk_tenant lk_name_space lk_status lookup_from].
  rewrite !refuse_None, names_another, names_another_one, !orb_false_iff. tauto.
Qed.

Lemma revalidate_admit_refuses caller_tenant caller_name_space record refused :
  revalidate_admit caller_tenant caller_name_space record = Some refused -> accepted refused = false.
Proof. unfold revalidate_admit. repeat (case_match; [by intros [= <-]|]). done. Qed.

Section DispatchSafety.
Context {E : Type} (providers : ProviderSet E) (id : EntityId RouteDecisionTag)
  (caller_tenant : EntityId TenantTag) (caller_name_space : EntityId NamespaceTag).

(** A revalidation from [w] passes and leaves [w']: the decision is retained in
    the state its first section finds, open to the caller, not terminal, not
    expired at the clock's time and not fenced; the authority observed by the
    next section agrees with the bound one; and in the state of the last section
    the decision is still retained and its authority can be executed. *)
Definition revalidated (w w' : World E) : Prop :=
  let w1 := interfere w in
  let s := w_state w1 in
  exists r now w2 observed,
    cs_shutting_down s = false /\ cs_routes s !! id = Some r /\
    open_to caller_tenant caller_name_space r /\ terminal (de_status (rec_decision r)) = false /\
    let a := de_authority (rec_decision r) in
    ask (pr_clock providers) w1 = (now, w2) /\ authority_expired a now = false /\
    is_fenced s (au_backend_id a) (au_backend_boot a) = false /\
    let w3 := interfere w2 in
    build_current_authority (w_state w3) a = Some observed /\
    comparison_current (compare_authority a observed (required_mask a)) = true /\
    let w4 := interfere w3 in
    is_Some (cs_routes (w_state w4) !! id) /\ is_authority_dispatchable (w_state w4) a now = true /\
    w' = w4 <| w_state := change_retained id mark_current (w_state w4) |>.

Lemma revalidate_commit_state a observed now s :
  accepted (revalidate_commit id a observed now s).1 = true ->
  (revalidate_commit id a observed now s).2 = change_retained id mark_current s.
Proof.
  unfold revalidate_commit. destruct (cs_routes s !! id); [|by intros H]. cbv zeta.
  assert (Hreason := dispatchability_reason_cases s a now).
  destruct (comparison_current _) eqn:Ec; [|apply compare_authority_rejects in Ec as Hc]; cbn [andb negb].
  - case_bool_decide as Ed; cbn [negb]; [done|]. destruct Hreason as [[_ ?]|Hr]; [done|].
    cbn [fst]. autorewrite with codes. by rewrite (rejection_not_acceptance _ Hr).
  - cbn [fst]. autorewrite with codes. by rewrite (rejection_not_acceptance _ Hc).
Qed.

(** What is refused after the decision was marked STALE. *)
Lemma stale_refuses w (refused result : MutationResult) w' :
  (locked (E := E) (fun s => (tt, change_retained id mark_stale s)) ≫= fun _ => mret refused) w = (result, w') ->
  result = refused.
Proof. by intros [= <- _]. Qed.

Lemma lookup_retained_cases s :
  match lookup_retained id s with
  | inl refused => accepted refused = false /\ (cs_shutting_down s = true \/ cs_routes s !! id = None)
  | inr (record, fenced) => exists r, cs_shutting_down s = false /\ cs_routes s !! id = Some r /\
      record = lookup_from r /\
      fenced = is_fenced s (au_backend_id (de_authority (rec_decision r)))
                           (au_backend_boot (de_authority (rec_decision r)))
  end.
Proof.
  unfold lookup_retained. destruct (cs_shutting_down s); [by split; [|left]|].
  destruct (cs_routes s !! id) as [r|]; [by exists r|by split; [|right]].
Qed.

(** Closes the branches in which the code refuses: what is asked there fails. *)
Ltac refuted Hacc :=
  split; [|intros (result & Hrun & Haccepted); exfalso; revert Haccepted;
           first [injection Hrun as <- <-; rewrite Hacc|rewrite (Hacc _ _ _ Hrun)]; done];
  intros Hpass; exfalso; cbv delta [revalidated] beta zeta in Hpass;
  repeat match type of Hpass with ex _ => let x := fresh "x" in destruct Hpass as [x Hpass] end;
  destruct_and! Hpass; simplify_eq; try congruence.

Lemma revalidate_revalidated w w' :
  revalidated w w' <->
  exists result, revalidate providers id caller_tenant caller_name_space w = (result, w') /\ accepted result = true.
Proof.
  unfold revalidate. pose proof (lookup_retained_cases (w_state (interfere w))) as Hl.
  run_return o found w1 H1; rewrite shared_runs in H1; injection H1 as H1 <-; rewrite H1 in Hl.
  { destruct Hl as [Hacc Hl]. refuted Hacc. destruct Hl; congruence. }
  destruct found as [record fenced], Hl as (r & Hs & Hr & -> & ->).
  cbv zeta. destruct (revalidate_admit _ _ _) as [refused|] eqn:Ha.
  { pose proof (revalidate_admit_refuses _ _ _ _ Ha) as Hacc. rewrite ret_runs. refuted Hacc.
    by rewrite (proj2 (revalidate_admit_None caller_tenant caller_name_space r)) in Ha. }
  apply revalidate_admit_None in Ha as [Ho Ht]. run_bind now w2 Hnow. cbn [lk_authority lookup_from].
  destruct (authority_expired _ now) eqn:He; [refuted (stale_refuses w2)|].
  destruct (is_fenced _ _ _) eqn:Hf; [refuted (stale_refuses w2)|].
  rewrite (bind_runs _ _ _ _ _ (shared_runs _ _)).
  destruct (build_current_authority _ _) as [observed|] eqn:Hb; [|refuted (stale_refuses (interfere w2))].
  unfold locked, locked_ids. set (w4 := interfere (interfere w2)).
  pose proof (revalidate_commit_spec id (de_authority (rec_decision r)) observed now (w_state w4)) as Hspec.
  pose proof (revalidate_commit_state (de_authority (rec_decision r)) observed now (w_state w4)) as Hstate.
  destruct (revalidate_commit id _ observed now (w_state w4)) as [result s']. destruct Hspec as [Hok _].
  cbn [fst snd] in Hstate |- *. split.
  - intros (r' & now' & w2' & observed' & H). cbv zeta in H.
    destruct H as (_ & Hr' & _ & _ & Hn' & _ & _ & Hb' & Hc & Hk & Hd & ->).
    rewrite Hr in Hr'. injection Hr' as <-. rewrite Hnow in Hn'. injection Hn' as <- <-.
    rewrite Hb in Hb'. injection Hb' as <-. assert (Hacc : accepted result = true) by (by apply Hok).
    exists result. split; [|done]. by rewrite Hstate.
  - intros (result' & [= <- <-] & Hacc). pose proof (proj1 Hok Hacc) as (Hk & Hc & Hd).
    rewrite (Hstate Hacc). by exists r, now, w2, observed.
Qed.

(** The target of an admitted dispatch is handed over from [w], with answer
    [record] and world [w']: the primary candidate of the plan is rebuilt from
    the catalog under the very key the plan names and is eligible on the evidence
    resolved next; the handler is then called with the retained decision and its
    plan, and takes it.  The last section records the handoff unless the router
    was restarted; a decision that is gone is reported so. *)
Definition target_handed (stored : RouteRecord) (w : World E) (record : DispatchRecord) (w' : World E) : Prop :=
  let target := pl_primary (rec_plan stored) in
  let w1 := interfere w in
  exists now w2 candidate evidence w4 handoff answer w5,
    ask (pr_clock providers) w1 = (now, w2) /\
    let pass := capture_pass (rec_tenant stored) (rec_name_space stored) now (w_state w1) in
    let w3 := interfere w2 in
    build_candidate_from_catalog (ck_model_id target) (ck_backend_id target) (w_state w3) = Some candidate /\
    rc_key candidate = target /\
    resolve_candidate providers (dispatch_request stored) (ps_context pass) (ps_snapshot pass) candidate w3 =
      (evidence, w4) /\
    eligible (eligibility_of (inputs_of pass (ps_policy pass) (dispatch_request stored)) candidate evidence) = true /\
    pr_dispatcher providers = Some handoff /\
    ask_issuing (handoff (rec_decision stored) (rec_plan stored) (ps_context pass)) w4 = (answer, w5) /\
    (di_code answer = OutcomeCode.DISPATCHED \/ di_code answer = OutcomeCode.ACCEPTED) /\
    let w6 := if di_dispatched_at answer =? 0 then (ask (pr_clock providers) w5).2 else w5 in
    let s := w_state (interfere w6) in
    di_target record = target /\
    match cs_routes s !! id with
    | None => di_code record = OutcomeCode.REJECT_INVALID /\ w_state w' = s
    | Some r => cs_router_epoch s = ps_epoch pass /\ cs_coordinator_epoch s = ps_coordinator_epoch pass /\
        di_code record = OutcomeCode.DISPATCHED /\
        cs_routes (w_state w') !! id = Some (mark_dispatched (di_dispatch_id record) r)
    end.

(** A dispatch from [w] hands the decision over: it is retained in the state the
    first section finds, open to the caller, revalidation passes from there, and
    the target is handed over. *)
Definition handed_off (w : World E) (record : DispatchRecord) (w' : World E) : Prop :=
  let w1 := interfere w in
  exists stored w2,
    cs_shutting_down (w_state w1) = false /\ cs_routes (w_state w1) !! id = Some stored /\
    open_to caller_tenant caller_name_space stored /\ revalidated w1 w2 /\
    target_handed stored w2 record w'.

Lemma handed_over_spec stored target answer w :
  let '(record, w') := handed_over providers id stored target answer w in
  di_target record = target /\ di_code record = di_code answer /\
  w' = if di_dispatched_at answer =? 0 then (ask (pr_clock providers) w).2 else w.
Proof.
  unfold handed_over. cbv zeta. cbn [di_dispatched_at update_field].
  destruct (di_dispatched_at answer =? 0); [|done]. unfold stamped. run_bind t w1 Ht. done.
Qed.

Lemma record_dispatch_spec pass record s ids :
  di_handed_off record = true -> di_code record = OutcomeCode.DISPATCHED ->
  let '(recorded, s', _) := record_dispatch id pass record s ids in
  di_target recorded = di_target record /\
  (di_handed_off recorded = true <->
   match cs_routes s !! id with
   | None => di_code recorded = OutcomeCode.REJECT_INVALID /\ s' = s
   | Some r => cs_router_epoch s = ps_epoch pass /\ cs_coordinator_epoch s = ps_coordinator_epoch pass /\
       di_code recorded = OutcomeCode.DISPATCHED /\
       cs_routes s' !! id = Some (mark_dispatched (di_dispatch_id recorded) r)
   end).
Proof.
  intros Hh Hc. unfold record_dispatch. destruct (cs_routes s !! id) as [r|] eqn:Er; [|by split].
  destruct (_ || _) eqn:Ee.
  - split; [done|]. split; [done|]. intros (E1 & E2 & _). revert Ee. by rewrite E1, E2, !bool_decide_eq_true_2.
  - apply orb_false_iff in Ee as [E1%negb_false_iff%bool_decide_eq_true E2%negb_false_iff%bool_decide_eq_true].
    destruct (allocate_id DispatchTag ids) as [dispatch_id ids']. split; [done|]. split; [|done]. intros _.
    split_and!; try done. cbn [cs_routes update_field]. by rewrite change_retained_lookup, Er.
Qed.

Ltac unhanded :=
  intros Hpass; exfalso; cbv delta [target_handed] beta zeta in Hpass;
  repeat match type of Hpass with ex _ => let x := fresh "x" in destruct Hpass as [x Hpass] end;
  destruct_and! Hpass; simplify_eq; repeat match goal with H : _ \/ _ |- _ => destruct H end; congruence.

Lemma stamped_runs record w :
  stamped providers record w =
    (record <| di_dispatched_at := (ask (pr_clock providers) w).1 |>, (ask (pr_clock providers) w).2).
Proof. unfold stamped. by run_bind t w1 Ht. Qed.

Lemma dispatch_target_handed stored record w :
  di_target record = pl_primary (rec_plan stored) -> di_handed_off record = false ->
  let '(r, w') := dispatch_target providers id stored record w in
  di_handed_off r = true <-> target_handed stored w r w'.
Proof.
  intros Ht Hh. unfold dispatch_target. rewrite (bind_runs _ _ _ _ _ (shared_runs _ _)).
  run_bind now w2 Hnow. cbv zeta.
  rewrite (bind_runs _ _ _ _ _ (shared_runs _ _)), Ht.
  destruct (build_candidate_from_catalog _ _ _) as [candidate|] eqn:Hc.
  2: { rewrite ret_runs. cbn [di_handed_off update_field failed_dispatch fst]. rewrite Hh. split; [done|]. unhanded. }
  destruct (rc_key candidate != _) eqn:Ek.
  { rewrite ret_runs. cbn [di_handed_off update_field failed_dispatch fst]. rewrite Hh. split; [done|]. apply negb_true_iff, bool_decide_eq_false in Ek. unhanded. }
  apply negb_false_iff, bool_decide_eq_true in Ek. run_bind evidence w4 He.
  destruct (negb (eligible _)) eqn:Eel.
  { rewrite stamped_runs. cbn [di_handed_off update_field failed_dispatch fst]. rewrite Hh. split; [done|]. apply negb_true_iff in Eel. unhanded. }
  apply negb_false_iff in Eel. destruct (pr_dispatcher providers) as [handoff|] eqn:Ed.
  2: { rewrite stamped_runs. cbn [di_handed_off update_field failed_dispatch fst]. rewrite Hh. split; [done|]. unhanded. }
  run_bind answer w5 Ha. pose proof (handed_over_spec stored (rc_key candidate) answer w5) as Hover.
  run_bind r w6 Hr. destruct Hover as (Htarget & Hcode & Hw6). rewrite Hcode.
  destruct (_ && _) eqn:Eco.
  { split; [done|]. apply andb_true_iff in Eco as [E1%negb_true_iff%bool_decide_eq_false
      E2%negb_true_iff%bool_decide_eq_false]. clear Hw6. unhanded. }
  assert (Htaken : di_code answer = OutcomeCode.DISPATCHED \/ di_code answer = OutcomeCode.ACCEPTED).
  { apply andb_false_iff in Eco as [E1%negb_false_iff%bool_decide_eq_true|E1%negb_false_iff%bool_decide_eq_true];
      [by left|by right]. }
  unfold locked_ids.
  match goal with |- context [record_dispatch id ?pass ?record _ _] =>
    pose proof (record_dispatch_spec pass record (w_state (interfere w6)) (w_ids (interfere w6)) eq_refl eq_refl) as Hd;
    destruct (record_dispatch id pass record _ _) as [[recorded s'] ids']
  end.
  destruct Hd as [Htarget' ->]. cbn [di_target update_field] in Htarget'. split.
  - intros Hm. exists now, w2, candidate, evidence, w4, handoff, answer, w5. cbv zeta. rewrite <- Hw6.
    split_and!; try done. by rewrite Htarget', Htarget.
  - intros (now' & w2' & candidate' & evidence' & w4' & handoff' & answer' & w5' & H). cbv zeta in H.
    destruct H as (H1 & H2 & _ & H3 & _ & H4 & H5 & _ & _ & Hm).
    rewrite Hnow in H1. injection H1 as <- <-. rewrite Hc in H2. injection H2 as <-.
    rewrite He in H3. injection H3 as <- <-. rewrite Ed in H4. injection H4 as <-.
    rewrite Ha in H5. injection H5 as <- <-. by rewrite <- Hw6 in Hm.
Qed.

End DispatchSafety.

(** C4: A dispatch hands its decision over if and only if every check passed, each
    in the state of the run from [w] in which the code makes it: the router is
    not shutting down and the decision is retained and open to the calling tenant
    and namespace; the revalidation passes (retained, not terminal, not expired,
    not fenced, the bound authority agrees with the observed one and can still be
    executed); the target is the plan's primary candidate, registered under the
    identity, generations and boot the plan names, and eligible on freshly
    resolved evidence; the handler takes the retained decision and its plan; and
    the router is not restarted before the handoff is recorded.  Then the decision
    is DISPATCHED under the identity that is answered, or the answer says that it
    was dropped from the history meanwhile.  No answer of an adapter forges a
    handoff, and no schedule of other threads skips a check. *)
Theorem dispatch_handoff_justified {E} (providers : ProviderSet E) (id : EntityId RouteDecisionTag)
    (caller_tenant : EntityId TenantTag) (caller_name_space : EntityId NamespaceTag) (w : World E) :
  let '(record, w') := dispatch providers id caller_tenant caller_name_space w in
  di_handed_off record = true <-> handed_off providers id caller_tenant caller_name_space w record w'.
Proof.
  unfold dispatch. cbv zeta. unfold or_return. rewrite (bind_runs _ _ _ _ _ (shared_runs _ _)).
  unfold find_for_dispatch at 1.
  destruct (cs_shutting_down _) eqn:Hs.
  { split; [done|]. intros (stored & w2 & H). cbv zeta in H. destruct_and! H. congruence. }
  destruct (cs_routes _ !! id) as [stored|] eqn:Hr.
  2: { split; [done|]. intros (stored & w2 & H). cbv zeta in H. destruct_and! H. congruence. }
  assert (Hopen : valid caller_tenant && (caller_tenant != rec_tenant stored) = false ->
    valid caller_name_space && valid (rec_name_space stored) && (caller_name_space != rec_name_space stored) = false ->
    open_to caller_tenant caller_name_space stored)
    by (intros H1 H2; by split; [apply names_another_one|apply names_another]).
  destruct (_ && _) eqn:E1.
  { split; [done|]. intros (stored' & w2 & H). cbv zeta in H. destruct H as (_ & H1 & [H2 _] & _).
    rewrite Hr in H1. injection H1 as <-. apply names_another_one in H2. congruence. }
  destruct (_ && _ && _) eqn:E2.
  { split; [done|]. intros (stored' & w2 & H). cbv zeta in H. destruct H as (_ & H1 & [_ H2] & _).
    rewrite Hr in H1. injection H1 as <-. apply names_another in H2. congruence. }
  run_bind result w2 Hv.
  destruct (accepted result) eqn:Hacc; cbn [negb].
  - pose proof (dispatch_target_handed providers id stored
      (dispatch_record_default <| di_decision_id := id |> <| di_code := OutcomeCode.INTERNAL_ERROR |>
         <| di_decision_generation := de_decision_generation (rec_decision stored) |>
         <| di_target := pl_primary (rec_plan stored) |> <| di_revalidated := true |>) w2 eq_refl eq_refl) as Ht.
    destruct (dispatch_target _ _ _ _ _) as [record w'] eqn:Et. rewrite Ht. split.
    + intros H. exists stored, w2. split_and!; try done; [by apply Hopen|].
      apply revalidate_revalidated. by exists result.
    + intros (stored' & w2' & H). cbv zeta in H. destruct H as (_ & H1 & _ & H2 & H3).
      rewrite Hr in H1. injection H1 as <-. apply revalidate_revalidated in H2 as (result' & H2 & _).
      rewrite Hv in H2. by injection H2 as <- <-.
  - rewrite stamped_runs. split; [done|]. intros (stored' & w2' & H). cbv zeta in H.
    destruct H as (_ & _ & _ & H2 & _). apply revalidate_revalidated in H2 as (result' & H2 & H3).
    rewrite Hv in H2. injection H2 as <- <-. congruence.
Qed.

(** ** Completion *)

Lemma alter_present `{Countable K} {A} (f : A -> A) (m : gmap K A) k a :
  m !! k = Some a -> alter f k m = <[k := f a]> m.
Proof. intros Hk. rewrite <- (insert_id m k a Hk) at 1. apply alter_insert_eq. Qed.

(** C11: Completion is a step from DISPATCHED to a terminal status, taken at most
    once.  A completion names a decision by the dispatch identity it carries, or
    else by the decision identity.  If that decision is retained and DISPATCHED
    the completion makes it COMPLETED or FAILED, as it reports, copies the
    reported outcome and failure class into the dispatch record kept for it, and
    changes nothing else in the router; a second one is then refused.  If the
    dispatch or the decision is not retained, or the decision is not DISPATCHED,
    the completion is refused and changes nothing. *)
Theorem record_completion_spec (c : CompletionRecord) (s : CanonicalState) :
  let '(result, s') := record_completion c s in
  match completed_decision c s ≫= (fun id => pair id <$> cs_routes s !! id) with
  | Some (id, r) =>
      if de_status (rec_decision r) == RouteStatus.DISPATCHED
      then mr_code result = (if completes c then OutcomeCode.COMPLETED else OutcomeCode.FAILED) /\
        s' = s <| cs_routes := <[id := mark_completed (completes c) r]> (cs_routes s) |>
               <| cs_dispatches := alter (fun d => d <| di_code := cn_code c |> <| di_failure := cn_failure c |>) id
                                     (cs_dispatches s) |> /\
        mr_code (record_completion c s').1 = OutcomeCode.REJECT_CONFLICT /\ (record_completion c s').2 = s'
      else mr_code result = OutcomeCode.REJECT_CONFLICT /\ s' = s
  | None => mr_code result = OutcomeCode.REJECT_INVALID /\ s' = s
  end.
Proof.
  unfold record_completion at 1. destruct (completed_decision c s) as [id|] eqn:Ei; [|done]. cbn [mbind option_bind].
  destruct (cs_routes s !! id) as [r|] eqn:Er; [|done]. cbn [fmap option_fmap option_map].
  destruct (de_status (rec_decision r) == RouteStatus.DISPATCHED) eqn:Ed; cbn [negb]; [|done].
  assert (Hs : match cs_dispatches (change_retained id (mark_completed (completes c)) s) !! id with
               | Some d => (change_retained id (mark_completed (completes c)) s) <| cs_dispatches :=
                   <[id := d <| di_code := cn_code c |> <| di_failure := cn_failure c |>]>
                     (cs_dispatches (change_retained id (mark_completed (completes c)) s)) |>
               | None => change_retained id (mark_completed (completes c)) s
               end = s <| cs_routes := <[id := mark_completed (completes c) r]> (cs_routes s) |>
               <| cs_dispatches := alter (fun d => d <| di_code := cn_code c |> <| di_failure := cn_failure c |>) id
                                     (cs_dispatches s) |>).
  { unfold change_retained. rewrite Er. cbn [cs_dispatches update_field].
    destruct (cs_dispatches s !! id) as [d|] eqn:Edi.
    - by rewrite (alter_present _ _ _ _ Edi).
    - rewrite alter_id by congruence. by destruct s. }
  rewrite Hs. clear Hs. set (s' := s <| cs_routes := _ |> <| cs_dispatches := _ |>).
  assert (Hagain : record_completion c s' =
    reject OutcomeCode.REJECT_CONFLICT "record_completion" "route decision was not dispatched" s').
  { unfold record_completion. change (completed_decision c s') with (completed_decision c s). rewrite Ei.
    change (cs_routes s') with (<[id := mark_completed (completes c) r]> (cs_routes s)). rewrite lookup_insert_eq.
    by destruct (completes c). }
  by rewrite Hagain.
Qed.

(** ** A serving router that dispatches *)

(** A handler that accepts every handoff. *)
Definition dispatching (t : UnixMillis) : ProviderSet unit :=
  {| pr_candidates := None; pr_policy := None; pr_budget := None; pr_cost := None; pr_slo := None;
     pr_compatibility := None; pr_trust := None; pr_reservation := None;
     pr_dispatcher := Some (fun _ _ _ ids e => (dispatch_record_default <| di_code := OutcomeCode.DISPATCHED |>, ids, e));
     pr_clock e := (t, e) |}.

(** The sample decision, routed and CURRENT, and its identity. *)
Definition routed_world : World unit := (route (dispatching 100) serving_request serving_world).2.
Definition sample_decision : EntityId RouteDecisionTag := EntityIdOf 202.
Definition status_of (id : EntityId RouteDecisionTag) (w : World unit) : option RouteStatus.t :=
  (fun r => de_status (rec_decision r)) <$> cs_routes (w_state w) !! id.

Lemma dispatch_handoff_justified_witness :
  let r := dispatch (dispatching 110) sample_decision (EntityIdOf 12) none routed_world in
  di_code r.1 = OutcomeCode.DISPATCHED /\ status_of sample_decision r.2 = Some RouteStatus.DISPATCHED /\
  handed_off (dispatching 110) sample_decision (EntityIdOf 12) none routed_world r.1 r.2.
Proof.
  intros r. do 2 (split; [vm_compute; reflexivity|]). subst r.
  pose proof (dispatch_handoff_justified (dispatching 110) sample_decision (EntityIdOf 12) none routed_world) as H.
  assert (Hh : di_handed_off (dispatch (dispatching 110) sample_decision (EntityIdOf 12) none routed_world).1 = true)
    by (vm_compute; reflexivity).
  revert Hh H. generalize (dispatch (dispatching 110) sample_decision (EntityIdOf 12) none routed_world).
  intros [record w'] Hh [H _]. exact (H Hh).
Defined.

(** Whoever dispatched the sample decision completes it. *)
Example record_completion_completes :
  let d := dispatch (dispatching 110) sample_decision none none routed_world in
  let r := record_completion (completion_record_default <| cn_dispatch_id := di_dispatch_id d.1 |>
                                <| cn_code := OutcomeCode.COMPLETED |>) (w_state d.2) in
  mr_code r.1 = OutcomeCode.COMPLETED /\ status_of sample_decision (d.2 <| w_state := r.2 |>) = Some RouteStatus.COMPLETED.
Proof. vm_compute. by split. Qed.

(** A decision that was already dispatched can be dispatched again: the
    revalidation before the second handoff resets it to CURRENT, so the handler
    receives the same decision twice, under two dispatch identities, and the
    completion of the first handoff completes the second. *)
Theorem dispatch_twice :
  let first := dispatch (dispatching 110) sample_decision none none routed_world in
  let second := dispatch (dispatching 120) sample_decision none none first.2 in
  let completion := completion_record_default <| cn_dispatch_id := di_dispatch_id first.1 |>
                      <| cn_code := OutcomeCode.COMPLETED |> in
  di_handed_off first.1 = true /\ di_handed_off second.1 = true /\
  di_dispatch_id first.1 <> di_dispatch_id second.1 /\
  mr_code (record_completion completion (w_state second.2)).1 = OutcomeCode.COMPLETED.
Proof. cbv zeta. split_and!; vm_compute; [reflexivity|reflexivity|discriminate|reflexivity]. Qed.

(** Another thread completes the sample decision. *)
Definition completing (dispatch_id : EntityId DispatchTag) : Interference := fun si =>
  ((record_completion (completion_record_default <| cn_dispatch_id := dispatch_id |>
      <| cn_code := OutcomeCode.COMPLETED |>) si.1).2, si.2).

(** A completed decision can come back to life: when the completion lands
    between the two critical sections of a revalidation, the revalidation, which
    looked at the status in the first one only, makes the COMPLETED decision
    CURRENT again. *)
Theorem revalidation_revives_completed :
  let dispatched := dispatch (dispatching 110) sample_decision none none routed_world in
  let w := dispatched.2 <| w_others := [other_calls []; completing (di_dispatch_id dispatched.1)] |> in
  let completed := (completing (di_dispatch_id dispatched.1) (w_state dispatched.2, w_ids dispatched.2)).1 in
  status_of sample_decision (w <| w_state := completed |>) = Some RouteStatus.COMPLETED /\
  mr_code (revalidate (dispatching 120) sample_decision none none w).1 = OutcomeCode.ACCEPTED /\
  status_of sample_decision (revalidate (dispatching 120) sample_decision none none w).2 =
    Some RouteStatus.CURRENT.
Proof. cbv zeta. split_and!; vm_compute; reflexivity. Qed.

(** The handoff is recorded whatever happened to the decision meanwhile: when
    its backend is fenced while the handler runs, the decision, which the fence
    marked STALE, is made DISPATCHED again although it cannot be executed. *)
Theorem dispatch_overrides_fence :
  let quiet := other_calls [] in
  let fence := other_calls [(FenceBackendBoot (EntityIdOf 4) none (GenerationOf 9) OutcomeCode.FENCED, 110)] in
  let w := routed_world <| w_others := [quiet; quiet; quiet; quiet; quiet; quiet; fence] |> in
  let r := dispatch (dispatching 110) sample_decision none none w in
  di_handed_off r.1 = true /\
  match cs_routes (w_state r.2) !! sample_decision with
  | Some kept => retained_executable kept = true /\
      is_authority_dispatchable (w_state r.2) (de_authority (rec_decision kept)) 110 = false
  | None => False
  end.
Proof. cbv zeta. split; vm_compute; [reflexivity|by split]. Qed.

(** ** What a reroute has checked *)

Lemma commit_fallback_history pass p winner permitted d s ids :
  history_inv s ids ->
  let '(_, s', ids') := commit_fallback pass p winner permitted d s ids in history_inv s' ids'.
Proof.
  intros [Hl Hh]. unfold commit_fallback. destruct (cs_shutting_down s); [done|].
  destruct (_ || _); [done|].
  pose proof (commit_record_history p winner permitted (de_authority d) d (evict_history s) ids) as H.
  rewrite evict_history_limits in H. specialize (H Hl).
  destruct (commit_record _ _ _ _ _ _ ids) as [[[d' current] s'] ids'].
  apply set_winner_history, (history_inv_frame s'); [done..|]. apply H. intros Hi.
  by destruct (evict_history_spec s ids (Hh Hi) Hl) as (H1 & H2 & _).
Qed.

Lemma record_dispatch_history id pass record s ids :
  history_inv s ids ->
  let '(_, s', ids') := record_dispatch id pass record s ids in history_inv s' ids'.
Proof.
  intros H. unfold record_dispatch. destruct (cs_routes s !! id); [|done]. destruct (_ || _); [done|].
  pose proof (allocate_id_mono DispatchTag ids) as Hm.
  destruct (allocate_id DispatchTag ids) as [dispatch_id ids'].
  apply (history_inv_frame (change_retained id (mark_dispatched dispatch_id) s)); [done..|].
  by apply change_retained_history, (history_inv_rises _ ids).
Qed.

Lemma record_completion_history c s ids : history_inv s ids -> history_inv (record_completion c s).2 ids.
Proof.
  intros H. unfold record_completion. destruct (completed_decision c s) as [id|]; [|done].
  destruct (cs_routes s !! id); [|done]. destruct (_ != _); [done|].
  apply (change_retained_history id (mark_completed (completes c))) in H.
  cbn [snd]. destruct (cs_dispatches _ !! id); [|done]. by apply (history_inv_frame (change_retained id (mark_completed (completes c)) s)).
Qed.

(** What is asked of an invariant that revalidation, dispatch, completion and
    reroute are to keep, besides. *)
Class DispatchInvariant (I : CanonicalState -> Allocator -> Prop) : Prop := {
  dispatch_routing :: RoutingInvariant I;
  change_retained_keeps id f s ids : I s ids -> I (change_retained id f s) ids;
  count_keeps c s ids : I s ids -> I (s <| cs_counters := c |>) ids;
  record_dispatch_keeps id pass record s ids : I s ids ->
    let '(_, s', ids') := record_dispatch id pass record s ids in I s' ids';
  commit_fallback_keeps pass p winner permitted d s ids : I s ids ->
    let '(_, s', ids') := commit_fallback pass p winner permitted d s ids in I s' ids';
  record_completion_keeps c s ids : I s ids -> I (record_completion c s).2 ids
}.

#[export] Instance history_dispatch : DispatchInvariant history_inv.
Proof.
  split; [apply _|intros; by apply change_retained_history|intros; by apply (history_inv_frame s)|
    intros; by apply record_dispatch_history|intros; by apply commit_fallback_history|
    intros; by apply record_completion_history].
Qed.

Section DispatchKeeps.
Context {E : Type} (providers : ProviderSet E) (I : CanonicalState -> Allocator -> Prop) `{!DispatchInvariant I}.

Lemma commit_single_keeps pass p candidate evidence fallbacks permitted :
  keeps (E := E) I (fun _ => True) (commit_single_candidate pass p candidate evidence fallbacks permitted).
Proof.
  unfold commit_single_candidate. keep. apply keeps_locked_ids. intros s ids H.
  match goal with |- context [commit_fallback pass p ?w ?n ?d s ids] =>
    pose proof (commit_fallback_keeps pass p w n d s ids H) as Hc;
    destruct (commit_fallback pass p w n d s ids) as [[? ?] ?]
  end. by split.
Qed.

Lemma supersede_keeps id now : keeps (E := E) I (fun _ => True) (supersede id now).
Proof. apply keeps_locked. intros s ids H. split; [done|]. by apply change_retained_keeps. Qed.

Lemma walk_fallbacks_keeps id pass p fallbacks permitted keys :
  keeps I (fun _ => True) (walk_fallbacks providers id pass p fallbacks permitted keys).
Proof.
  induction keys as [|key keys IH]; cbn [walk_fallbacks]; unfold try_fallback; keep;
    auto using resolve_candidate_keeps, commit_single_keeps, supersede_keeps.
Qed.

Lemma reroute_keeps id failure request : keeps I (fun _ => True) (reroute providers id failure request).
Proof.
  unfold reroute, reroute_settle_policy, reroute_fresh.
  keep; auto using normalize_request_keeps, walk_fallbacks_keeps, route_keeps with typeclass_instances.
  apply keeps_locked. intros s ids H. split; [done|]. by apply count_keeps, change_retained_keeps.
Qed.

Lemma revalidate_commit_keeps id a observed now s ids : I s ids -> I (revalidate_commit id a observed now s).2 ids.
Proof.
  intros H. unfold revalidate_commit. destruct (cs_routes s !! id); [|done]. cbv zeta.
  destruct (_ && _); [by apply change_retained_keeps|].
  destruct (negb _); by apply change_retained_keeps.
Qed.

Lemma revalidate_keeps id tenant name_space : keeps I (fun _ => True) (revalidate providers id tenant name_space).
Proof.
  assert (Hstale : keeps (E := E) I (fun _ => True)
    (locked (fun s => (tt, change_retained id mark_stale s)))).
  { apply keeps_locked. intros s ids H. split; [done|]. by apply change_retained_keeps. }
  unfold revalidate. keep; try exact Hstale. apply keeps_locked. intros s ids H.
  match goal with |- context [revalidate_commit id ?a ?o ?t s] =>
    pose proof (revalidate_commit_keeps id a o t s ids H) as Hc;
    destruct (revalidate_commit id a o t s) as [? ?]
  end. by split.
Qed.

Lemma dispatch_keeps id tenant name_space : keeps I (fun _ => True) (dispatch providers id tenant name_space).
Proof.
  unfold dispatch, dispatch_target, handed_over, stamped.
  keep; auto using revalidate_keeps, resolve_candidate_keeps.
  { apply keeps_ask_issuing; [|done]. intros s ids ids'. apply rising_keeps. }
  apply keeps_locked_ids. intros s ids H.
  match goal with |- context [record_dispatch id ?pass ?r s ids] =>
    pose proof (record_dispatch_keeps id pass r s ids H) as Hc;
    destruct (record_dispatch id pass r s ids) as [[? ?] ?]
  end. by split.
Qed.
End DispatchKeeps.

(** Whatever other threads did since the fallback was validated, its commit
    either refuses and leaves the router as it found it, or retains a fresh
    decision; if the retained decision is CURRENT or DISPATCHED, its model and
    backend can be executed in the state it is committed to, and the reroute
    reports success only when it is CURRENT. *)
Theorem commit_fallback_safe (pass : RoutingPass) (p : PassInputs) (winner : CandidateKey) (permitted : Z)
    (d : RouteDecision) (s : CanonicalState) (ids : Allocator)
    (Hinv : history_inv s ids) (Hids : ids + 1 < id_ceiling) :
  match commit_fallback pass p winner permitted d s ids with
  | (inl refused, s', ids') => s' = s /\ ids' = ids /\ oc_has_decision refused = false
  | (inr (d', current), s', _) =>
      cs_routes s !! de_decision_id d' = None /\ committed_ok (pi_now p) d' current s'
  end.
Proof.
  destruct Hinv as [Hl Hh]. specialize (Hh ltac:(lia)). unfold commit_fallback.
  destruct (cs_shutting_down s); [done|]. destruct (_ || _); [done|].
  destruct (evict_history_spec s ids Hh Hl) as (He1 & He2 & He3 & _). rewrite <- He3 in He2.
  pose proof (commit_record_ok p winner permitted (de_authority d) d _ ids He1 He2 Hids) as H.
  destruct (commit_record _ _ _ _ _ _ ids) as [[[d' current] s'] ids']. destruct H as (_ & Hc & Hid).
  split; [|destruct Hc as (r & Hr & Hc); exists r; unfold set_winner, note_tenant; by destruct (valid _)].
  apply eq_None_not_Some. rewrite Hid. intros Hs.
  apply (history_keys _ _ Hh), (history_issued _ _ Hh) in Hs. simpl in Hs. lia.
Qed.

(** The request a reroute works with: the caller's, in canonical form. *)
Definition rerouted_as (request r : RouteRequest) : Prop :=
  rr_tenant r = rr_tenant request /\
  rr_requirements r = requirements_canonicalize (rr_requirements request).

Lemma normalize_request_rerouted {E} (I : CanonicalState -> Allocator -> Prop) request :
  (forall s ids t, I s ids -> I s (allocate_id t ids).2) ->
  keeps (E := E) I (rerouted_as request) (normalize_request request).
Proof.
  intros HI. unfold normalize_request. eapply (keeps_bind _ (fun _ => True)); [|by intros; apply keeps_ret].
  destruct (valid _); [by apply keeps_ret|]. apply keeps_new_id. intros s ids H. split; [done|]. by apply HI.
Qed.

Lemma reroute_admit_None stored request now :
  reroute_admit stored request now = None ->
  de_status (rec_decision stored) <> RouteStatus.COMPLETED /\
  de_status (rec_decision stored) <> RouteStatus.CANCELLED /\
  rr_tenant request = rec_tenant stored /\ request_expired request now = false.
Proof.
  unfold reroute_admit. cbv zeta. destruct (_ || _) eqn:E1; [done|]. destruct (_ != _) eqn:E2; [done|].
  destruct (request_expired request now); [done|]. intros _.
  apply orb_false_iff in E1 as [H1%bool_decide_eq_false H2%bool_decide_eq_false].
  by apply negb_false_iff, bool_decide_eq_true in E2.
Qed.

Lemma reroute_policy_None stored failure policy request now :
  reroute_policy stored failure policy request now = None ->
  policy_allowed (evaluate_request policy request now) = true /\
  fallback_permitted policy (rr_requirements request) (de_code (rec_decision stored)) = true /\
  is_permanent failure = false.
Proof.
  unfold reroute_policy. cbv zeta. destruct (policy_allowed _); [|done].
  destruct (fallback_permitted _ _ _); [|done]. by destruct (is_permanent failure).
Qed.

Lemma admit_refuses stored request now o : reroute_admit stored request now = Some o -> oc_has_decision o = false.
Proof. unfold reroute_admit. cbv zeta. repeat (case_match; [by intros [= <-]|]). done. Qed.
Lemma policy_refuses stored failure policy request now o :
  reroute_policy stored failure policy request now = Some o -> oc_has_decision o = false.
Proof. unfold reroute_policy. cbv zeta. repeat (case_match; [by intros [= <-]|]). done. Qed.

Lemma reroute_settle_policy_settled {E} (providers : ProviderSet E) pass request w :
  settles (fun known w' => supplied
      ((fun fetch => fetch (rr_policy_id request) (rr_policy_generation request) (ps_context pass))
         <$> pr_policy providers) (ps_policy pass) w known w')
    (reroute_settle_policy providers pass request w).
Proof.
  unfold reroute_settle_policy, settles. destruct (pr_policy providers) as [fetch|]; [|done].
  run_bind result w1 E1. rewrite ret_runs. cbn [fst snd fmap option_fmap option_map supplied].
  destruct (er_ok result) eqn:Eo; [by exists result|done].
Qed.

(** C6: A reroute yields a new decision only under permission: the failure is not
    permanent; in the state its first section finds the router is not shutting
    down and the old decision is retained, neither COMPLETED nor CANCELLED, and
    owned by the caller's tenant; the caller's request, in canonical form, has
    not expired at the time the clock then shows; and the policy in force (the
    adapter's answer, or the one of that state) allows the request and permits a
    fallback for the outcome of the old decision.  Every state and answer is the
    one of the run from [w]. *)
Theorem reroute_needs_permission {E} (providers : ProviderSet E) (id : EntityId RouteDecisionTag)
    (failure : FailureClass.t) (request : RouteRequest) (w : World E)
    (Hdecision : oc_has_decision (reroute providers id failure request w).1 = true) :
  is_permanent failure = false /\
  let '(request_id, w1) := identify request w in
  let r := identified request request_id in
  let w2 := interfere w1 in
  let s := w_state w2 in
  let '(now, w3) := ask (pr_clock providers) w2 in
  cs_shutting_down s = false /\ request_expired r now = false /\
  exists stored known w4,
    cs_routes s !! id = Some stored /\ rr_tenant request = rec_tenant stored /\
    de_status (rec_decision stored) <> RouteStatus.COMPLETED /\
    de_status (rec_decision stored) <> RouteStatus.CANCELLED /\
    supplied ((fun fetch => fetch (rr_policy_id request) (rr_policy_generation request)
                (ps_context (capture_pass (rec_tenant stored) (rec_name_space stored) now s)))
               <$> pr_policy providers) (cs_policy s) w3 known w4 /\
    policy_allowed (evaluate_request (policy_canonicalize known) r now) = true /\
    fallback_permitted (policy_canonicalize known) (requirements_canonicalize (rr_requirements request))
      (de_code (rec_decision stored)) = true.
Proof.
  revert Hdecision. unfold reroute. rewrite (bind_runs _ _ _ _ _ (normalize_request_identified request w)).
  destruct (identify request w) as [request_id w1]. cbn [fst snd]. set (r := identified request request_id).
  unfold or_return at 1. rewrite (bind_runs _ _ _ _ _ (shared_runs _ _)). unfold find_for_reroute at 1.
  destruct (cs_routes _ !! id) as [stored|] eqn:Hr; [|by intros H].
  destruct (cs_shutting_down _) eqn:Hs; [by intros H|].
  run_bind now w3 Hnow. cbv zeta. set (pass := capture_pass _ _ now _).
  destruct (reroute_admit _ _ _) as [o|] eqn:Ea.
  { rewrite ret_runs. cbn [fst]. by rewrite (admit_refuses _ _ _ _ Ea). }
  pose proof (reroute_settle_policy_settled providers pass r w3) as Hp.
  run_return o known w4 E3; unfold settles in Hp; cbn [fst snd] in Hp; [cbn [fst]; by rewrite Hp|].
  destruct (reroute_policy _ _ _ _ _) as [o|] eqn:Ep.
  { rewrite ret_runs. cbn [fst]. by rewrite (policy_refuses _ _ _ _ _ _ Ep). }
  apply reroute_admit_None in Ea as (H1 & H2 & H3 & H4). apply reroute_policy_None in Ep as (H5 & H6 & H7).
  intros _. do 3 (split; [done|]). by exists stored, known, w4.
Qed.

(** EXPLICIT_ONLY forbids what it should permit.  The trigger a reroute asks
    the policy about is the code of the old decision, which is ROUTED, not the
    failure that is reported: under an EXPLICIT_ONLY policy that does not list
    ROUTED itself, whatever failure outcomes it lists, every reroute of a routed
    decision is refused and changes nothing. *)
Theorem explicit_only_never_reroutes {E} (providers : ProviderSet E) (id : EntityId RouteDecisionTag)
    (failure : FailureClass.t) (request : RouteRequest) (w : World E)
    (Hquiet : w_others w = []) (Hadapter : pr_policy providers = None)
    (Hpolicy : po_fallback_policy (cs_policy (w_state w)) = FallbackPolicy.EXPLICIT_ONLY)
    (Hlisted : OutcomeCode.ROUTED ∉ po_fallback_permitted_outcomes (cs_policy (w_state w)))
    (Hcode : forall stored, cs_routes (w_state w) !! id = Some stored ->
       de_code (rec_decision stored) = OutcomeCode.ROUTED) :
  oc_has_decision (reroute providers id failure request w).1 = false /\
  w_state (reroute providers id failure request w).2 = w_state w.
Proof.
  assert (Hk : keeps (fun s _ => s = w_state w) (fun o => oc_has_decision o = false)
    (reroute providers id failure request)).
  { unfold reroute. eapply keeps_bind; [by apply normalize_request_rerouted|]. intros r Hr.
    apply (keeps_or_return _ (fun f => cs_routes f.2 !! id = Some f.1 /\ f.2 = w_state w)).
    { apply keeps_shared. intros s _ ->. unfold find_for_reroute.
      destruct (cs_routes (w_state w) !! id) as [stored|] eqn:E1; [|done]. by destruct (cs_shutting_down _). }
    intros [stored s] [Hs Hd]. cbn [fst snd] in Hs, Hd. subst s.
    eapply (keeps_bind _ (fun _ => True)); [by apply keeps_ask|]. intros now _. cbv zeta.
    destruct (reroute_admit _ _ _) as [o|] eqn:Ea; [apply keeps_ret; by eapply admit_refuses|].
    apply (keeps_or_return _ (fun policy => policy = cs_policy (w_state w))).
    { unfold reroute_settle_policy. rewrite Hadapter. by apply keeps_ret. }
    intros policy ->. destruct (reroute_policy _ _ _ _ _) as [o|] eqn:Ep;
      [apply keeps_ret; by eapply policy_refuses|].
    exfalso. apply reroute_policy_None in Ep as (_ & Hf & _). rewrite (Hcode _ Hs) in Hf.
    apply fallback_permitted_iff in Hf as (_ & _ & [Hf|[_ Hf]] & _).
    - simpl in Hf. by rewrite Hpolicy in Hf.
    - apply Hlisted. by apply (elem_of_sort_unique outcome_ltb). }
  destruct (Hk w) as (H1 & H2 & _); [|done]. split; [done|]. rewrite Hquiet. constructor.
Qed.

(** ** A serving router that reroutes *)

(** The backend of the sample decision is gone; the other one takes over. *)
Definition failing_world : World unit :=
  routed_world <| w_state := run_calls [(FenceBackendBoot (EntityIdOf 4) none (GenerationOf 9)
                                          OutcomeCode.FENCED, 110)] (w_state routed_world) |>.

Lemma reroute_needs_permission_witness :
  let r := reroute (dispatching 110) sample_decision FailureClass.BACKEND_RESTARTED serving_request failing_world in
  oc_code r.1 = OutcomeCode.ROUTED /\ status_of sample_decision r.2 = Some RouteStatus.SUPERSEDED /\
  is_permanent FailureClass.BACKEND_RESTARTED = false.
Proof.
  intros r. do 2 (split; [vm_compute; reflexivity|]). subst r.
  assert (H : oc_has_decision (reroute (dispatching 110) sample_decision FailureClass.BACKEND_RESTARTED
    serving_request failing_world).1 = true) by (vm_compute; reflexivity).
  pose proof (reroute_needs_permission (dispatching 110) sample_decision FailureClass.BACKEND_RESTARTED
    serving_request failing_world H) as [Hp _]. exact Hp.
Defined.

(** The policy lists the very outcome of the failure that is reported. *)
Definition explicit_policy : PolicySnapshot :=
  serving_policy <| po_generation := GenerationOf 2 |> <| po_fallback_policy := FallbackPolicy.EXPLICIT_ONLY |>
    <| po_fallback_permitted_outcomes := [OutcomeCode.REJECT_STALE_BACKEND_BOOT] |>.
Definition explicit_world : World unit :=
  failing_world <| w_state := run_calls [(SetPolicy explicit_policy, 110)] (w_state failing_world) |>.

Lemma explicit_only_never_reroutes_witness :
  let r := reroute (dispatching 110) sample_decision FailureClass.BACKEND_RESTARTED
    (serving_request <| rr_policy_generation := GenerationOf 2 |>) explicit_world in
  po_fallback_permitted_outcomes (cs_policy (w_state explicit_world)) = [OutcomeCode.REJECT_STALE_BACKEND_BOOT] /\
  oc_code r.1 = OutcomeCode.REJECT_POLICY /\ oc_has_decision r.1 = false.
Proof.
  intros r. do 2 (split; [vm_compute; reflexivity|]). subst r.
  refine (proj1 (explicit_only_never_reroutes (dispatching 110) sample_decision FailureClass.BACKEND_RESTARTED
           (serving_request <| rr_policy_generation := GenerationOf 2 |>) explicit_world _ _ _ _ _)).
  1-3: vm_compute; reflexivity.
  - vm_compute. intros H. inversion H as [|? ? ? H']; subst. inversion H'.
  - intros stored Hs.
    assert (E : (fun r => de_code (rec_decision r)) <$> cs_routes (w_state explicit_world) !! sample_decision =
                Some OutcomeCode.ROUTED) by (vm_compute; reflexivity).
    rewrite Hs in E. by injection E.
Defined.

(** The fallback is committed to a state that has lost its backend meanwhile. *)
Lemma commit_fallback_safe_witness :
  let '(r, _, _) := commit_fallback serving_pass serving_inputs (key_of serving_model (serving_backend 4 9)) 1
    route_decision_default serving_state 200 in
  match r with inl _ => False | inr (d, current) => current = false end.
Proof.
  pose proof (commit_fallback_safe serving_pass serving_inputs (key_of serving_model (serving_backend 4 9)) 1
    route_decision_default serving_state 200) as H.
  specialize (H (serving_history 200) eq_refl). revert H.
  destruct (commit_fallback _ _ _ _ _ _ _) as [[[refused|[d current]] s'] ids'] eqn:E.
  - intros _. exfalso. revert E. vm_compute. discriminate.
  - intros (_ & (r & _ & _ & _ & Hc)). destruct current; [|done]. exfalso.
    revert E. vm_compute. discriminate.
Defined.
