(* ===== verification/RouterInspect.v ===== *)
(** * The invariant scan ([router_inspect.cpp])

    [check_invariants] as an executable report over the canonical state, and
    what a report says about the invariants of this library. *)
From S2P Require Import Prelude Ids Outcome Limits Clock Evidence Catalog Request Candidate Policy.
From S2P Require Import Authority Decision Json RouteReport RouterState RouterMutation RouterRoute.

Record InvariantViolation := { iv_name : string; iv_detail : string }.

Record InvariantReport := { ir_violations : list InvariantViolation; ir_checks_run : Z }.

Definition report_ok (r : InvariantReport) : bool := is_empty (ir_violations r).

(** ** The checks *)

(** [if (c) violate(&report, name, detail);] *)
Definition violate_if (c : bool) (name detail : string) : list InvariantViolation :=
  if c then [{| iv_name := name; iv_detail := detail |}] else [].

(** One report for every element that an earlier element equals. *)
Fixpoint repeats {A K} `{EqDecision K} (key : A -> K) (report : A -> list InvariantViolation) (seen : list K)
    (l : list A) : list InvariantViolation :=
  match l with
  | [] => []
  | x :: l => (if bool_decide (key x ∈ seen) then report x else []) ++ repeats key report (key x :: seen) l
  end.

(** The loop that stops at the first neighbours in the wrong order. *)
Fixpoint out_of_order {A} (before : A -> A -> bool) (l : list A) : bool :=
  match l with
  | [] => false
  | x :: rest => match rest with y :: _ => before y x | [] => false end || out_of_order before rest
  end.

Section Scan.
Context (now : UnixMillis) (s : CanonicalState).

Definition check_epochs : list InvariantViolation :=
  violate_if (cs_running s && (negb (valid (cs_router_epoch s)) || negb (valid (cs_coordinator_epoch s))))
    "one_current_router_epoch" "router is running without a published router or coordinator epoch".

Definition check_incarnations : list InvariantViolation :=
  repeats (fun b => fence_key (bd_backend_id b) (bd_backend_boot b))
    (fun b => violate_if true "backend_incarnation_unique"
       ("duplicate backend incarnation " +:+ number (bd_backend_id b) +:+ ".boot=" +:+ number (bd_backend_boot b)))
    [] (entries id_ltb (cs_backends s)).*2.

Definition check_fences : list InvariantViolation :=
  (entries id_ltb (cs_backends s)).*2 ≫= fun b =>
    violate_if (is_fenced s (bd_backend_id b) (bd_backend_boot b)) "fenced_boot_never_authoritative"
      ("fenced incarnation is present in canonical state: backend=" +:+ number (bd_backend_id b) +:+
       " boot=" +:+ number (bd_backend_boot b)).

Definition check_model_watermarks : list InvariantViolation :=
  entries id_ltb (cs_models s) ≫= fun '(id, m) =>
    violate_if match cs_model_watermark s !! id with Some w => id_ltb (md_model_generation m) w | None => false end
      "model_generation_monotonic" ("model " +:+ number id +:+ " regressed").

Definition check_backend_watermarks : list InvariantViolation :=
  entries id_ltb (cs_backends s) ≫= fun '(id, b) =>
    violate_if match cs_backend_watermark s !! id with Some w => id_ltb (bd_backend_generation b) w | None => false end
      "backend_generation_monotonic" ("backend " +:+ number id +:+ " regressed").

(** The scan fills the indexes the way [rebuild_indexes] does. *)
Definition check_indexes : list InvariantViolation :=
  let scan := rebuild_indexes s in
  violate_if (cs_index_by_model scan != cs_index_by_model s) "index_backends_by_model"
    "index disagrees with the canonical scan" ++
  violate_if (cs_index_by_provider scan != cs_index_by_provider s) "index_backends_by_provider"
    "index disagrees with the canonical scan" ++
  violate_if (cs_index_by_trust scan != cs_index_by_trust s) "index_backends_by_trust"
    "index disagrees with the canonical scan".

Definition check_bounds : list InvariantViolation :=
  violate_if ((max_route_history (cs_limits s) <? map_size (cs_routes s)) ||
              (max_route_history (cs_limits s) <? Request.size (cs_route_order s)))
    "bounded_route_history" "retained route history exceeds the configured bound" ++
  violate_if (negb (Request.size (cs_route_order s) =? map_size (cs_routes s)))
    "route_order_consistent" "route eviction order and retained route map disagree" ++
  violate_if (max_backend_incarnations (cs_limits s) <? map_size (cs_fenced_boots s))
    "bounded_fenced_boots" "fenced incarnation history exceeds the bound".

Definition is_current (r : RouteRecord) : bool := de_status (rec_decision r) == RouteStatus.CURRENT.

Definition check_shutdown : list InvariantViolation :=
  violate_if (cs_shutting_down s && existsb is_current (entries id_ltb (cs_routes s)).*2)
    "shutdown_no_executable_route" "a current route exists while the router is shutting down".

Definition about (id : EntityId RouteDecisionTag) (text : string) : string := "decision " +:+ number id +:+ text.
Definition about_current (id : EntityId RouteDecisionTag) (text : string) : string :=
  "current decision " +:+ number id +:+ text.

(** What is asked of every retained decision. *)
Definition check_retained (id : EntityId RouteDecisionTag) (r : RouteRecord) : list InvariantViolation :=
  let d := rec_decision r in
  let x := de_explanation d in
  violate_if (negb (valid (de_decision_generation d))) "route_generation_monotonic"
    (about id " has no valid generation") ++
  violate_if (rec_tenant r != au_tenant (de_authority d)) "tenant_isolation"
    (about id " record tenant disagrees with its bound authority tenant") ++
  violate_if (rx_authority x != de_authority d) "bound_generations_match_snapshot"
    (about id " explanation authority differs from its bound authority") ++
  violate_if (valid (rx_request_id x) && (rx_request_id x != de_request_id d)) "bound_request_identity"
    (about id " explanation request identity differs from the decision") ++
  violate_if match rx_ranking x with ranked :: _ => rk_key ranked != pl_primary (rec_plan r) | [] => false end
    "winner_is_top_ranked" (about id " plan primary is not the top-ranked candidate") ++
  violate_if (de_fallbacks d != pl_fallbacks (rec_plan r)) "fallback_order_stable"
    (about id " fallback list differs from its plan") ++
  repeats rk_key (fun _ => violate_if true "no_duplicate_ranked_candidate"
    (about id " contains a duplicate candidate identity")) [] (rx_ranking x) ++
  violate_if (out_of_order candidate_ranks_before (rx_ranking x)) "deterministic_ranking_order"
    (about id " ranked list is not in canonical order") ++
  violate_if (out_of_order rejection_canonical_less (rx_rejections x)) "deterministic_rejection_order"
    (about id " rejection list is not in canonical order") ++
  violate_if (negb (dk_require_revalidation (pl_constraints (rec_plan r)))) "cache_cannot_bypass_revalidation"
    (about id " plan does not require pre-dispatch revalidation").

(** The request the policy is asked about. *)
Definition inspected_request (d : RouteDecision) : RouteRequest :=
  let a := de_authority d in
  route_request_default <| rr_request_id := de_request_id d |> <| rr_request_generation := de_request_generation d |>
    <| rr_tenant := au_tenant a |> <| rr_name_space := au_name_space a |> <| rr_policy_id := au_policy_id a |>
    <| rr_policy_generation := au_policy_generation a |>.

Definition check_policy (id : EntityId RouteDecisionTag) (d : RouteDecision) (m : ModelDescriptor)
    (b : BackendDescriptor) : list InvariantViolation :=
  match find_binding b (au_model_id (de_authority d)) with
  | None => []
  | Some binding =>
      let candidate := (catalog_candidate m b binding)
        <| rc_discovery_source := rc_discovery_source route_candidate_default |> in
      violate_if (negb (policy_allowed (evaluate_candidate (cs_policy s) (inspected_request d) candidate now)))
        "policy_denied_route_cannot_dispatch" (about_current id " is denied by the current policy")
  end.

(** What is asked of a CURRENT decision. *)
Definition check_current (id : EntityId RouteDecisionTag) (d : RouteDecision) : list InvariantViolation :=
  let a := de_authority d in
  match cs_models s !! au_model_id a with
  | None => violate_if true "current_route_winner_exists" (about_current id " references an unregistered model")
  | Some m =>
      violate_if (md_lifecycle m == ModelLifecycle.RETIRED) "retired_model_cannot_dispatch"
        (about_current id " references a retired model") ++
      match cs_backends s !! au_backend_id a with
      | None => violate_if true "current_route_winner_exists" (about_current id " references an unregistered backend")
      | Some b =>
          violate_if (is_fenced s (bd_backend_id b) (bd_backend_boot b)) "stale_backend_boot_cannot_dispatch"
            (about_current id " references a fenced incarnation") ++
          violate_if (bd_backend_boot b != au_backend_boot a) "stale_backend_boot_cannot_dispatch"
            (about_current id " bound an older backend incarnation") ++
          violate_if (backend_retired b || backend_draining b) "unavailable_backend_cannot_dispatch"
            (about_current id " references a retired or draining backend") ++
          violate_if (po_generation (cs_policy s) != au_policy_generation a) "stale_policy_cannot_dispatch"
            (about_current id " bound an older policy generation") ++
          violate_if (cs_router_epoch s != au_router_epoch a) "stale_router_epoch_cannot_dispatch"
            (about_current id " bound an older router epoch") ++
          violate_if (cs_coordinator_epoch s != au_coordinator_epoch a) "stale_coordinator_epoch_cannot_dispatch"
            (about_current id " bound an older coordinator epoch") ++
          violate_if (authority_expired a now) "expired_route_cannot_dispatch" (about_current id " has expired") ++
          check_policy id d m b
      end
  end.

Definition check_route (entry : EntityId RouteDecisionTag * RouteRecord) : list InvariantViolation :=
  let '(id, r) := entry in
  check_retained id r ++ (if is_current r then check_current id (rec_decision r) else []).

Definition violation_ltb (x y : InvariantViolation) : bool :=
  if iv_name x != iv_name y then string_ltb (iv_name x) (iv_name y) else string_ltb (iv_detail x) (iv_detail y).

Definition found_violations : list InvariantViolation :=
  check_epochs ++ check_incarnations ++ check_fences ++ check_model_watermarks ++ check_backend_watermarks ++
  check_indexes ++ check_bounds ++ check_shutdown ++ (entries id_ltb (cs_routes s) ≫= check_route).

Definition check_invariants : InvariantReport :=
  {| ir_violations := stable_sort violation_ltb found_violations;
     ir_checks_run := word32 (7 + map_size (cs_routes s)) |}.
End Scan.

(** ** Rendering *)

Definition report_to_text (r : InvariantReport) : string :=
  (if is_empty (ir_violations r) then "OK" else "VIOLATED") +:+ " checks=" +:+ to_string_int (ir_checks_run r) +:+
  " violations=" +:+ to_string_int (Request.size (ir_violations r)) +:+ newline +:+
  foldr (fun v rest => "  " +:+ iv_name v +:+ ": " +:+ iv_detail v +:+ newline +:+ rest) "" (ir_violations r).

Definition violation_to_json (v : InvariantViolation) : string :=
  "{" +:+ member "name" (quoted (iv_name v)) +:+ "," +:+ member "detail" (quoted (iv_detail v)) +:+ "}".

Definition report_to_json (r : InvariantReport) : string :=
  "{" +:+ member "ok" (truth (is_empty (ir_violations r))) +:+
  "," +:+ member "checks" (to_string_int (ir_checks_run r)) +:+
  "," +:+ member "violations" ("[" +:+ join_comma (violation_to_json <$> ir_violations r) +:+ "]") +:+ "}".

(** ** Reading a report *)

(** The report has a violation of this name. *)
Definition reports (name : string) (l : list InvariantViolation) : bool :=
  existsb (fun v => String.eqb (iv_name v) name) l.

Definition reported (name : string) (now : UnixMillis) (s : CanonicalState) : bool :=
  reports name (ir_violations (check_invariants now s)).

(** Every name of the list is one of these. *)
Definition only_names (names : list string) (l : list InvariantViolation) : Prop :=
  Forall (fun v => iv_name v ∈ names) l.

Lemma reports_app n l1 l2 : reports n (l1 ++ l2) = reports n l1 || reports n l2.
Proof. apply existsb_app. Qed.

Lemma reports_if n c name detail : reports n (violate_if c name detail) = c && String.eqb name n.
Proof. unfold violate_if, reports. destruct c; simpl; [by rewrite orb_false_r|done]. Qed.

Lemma reports_bind {A} n (f : A -> list InvariantViolation) (l : list A) :
  reports n (l ≫= f) = existsb (fun x => reports n (f x)) l.
Proof. induction l as [|x l IH]; [done|]. rewrite bind_cons, reports_app, IH. done. Qed.

Lemma reports_names n names l : only_names names l -> existsb (String.eqb n) names = false -> reports n l = false.
Proof.
  intros Hl Hn. apply not_true_is_false. unfold reports. rewrite existsb_exists.
  intros (v & Hv%list_elem_of_In & E%String.eqb_eq). unfold only_names in Hl. rewrite Forall_forall in Hl.
  apply not_true_iff_false in Hn. apply Hn, existsb_exists. exists n. rewrite <- E, String.eqb_refl.
  split; [|done]. by apply list_elem_of_In, Hl.
Qed.

Lemma reported_found n now s : reported n now s = reports n (found_violations now s).
Proof.
  unfold reported, reports, check_invariants. simpl. apply eq_true_iff_eq. rewrite !existsb_exists.
  setoid_rewrite <- list_elem_of_In. by setoid_rewrite elem_of_stable_sort.
Qed.

Lemma only_names_nil names : only_names names [].
Proof. constructor. Qed.
Lemma only_names_if names c name detail : name ∈ names -> only_names names (violate_if c name detail).
Proof. intros H. unfold violate_if. destruct c; repeat constructor. done. Qed.
Lemma only_names_app names l1 l2 : only_names names l1 -> only_names names l2 -> only_names names (l1 ++ l2).
Proof. apply Forall_app_2. Qed.
Lemma only_names_bind {A} names (f : A -> list InvariantViolation) (l : list A) :
  (forall x, only_names names (f x)) -> only_names names (l ≫= f).
Proof. intros H. induction l; [apply only_names_nil|]. rewrite bind_cons. by apply only_names_app. Qed.
Lemma only_names_repeats {A K} `{EqDecision K} names (key : A -> K) report seen l :
  (forall x, only_names names (report x)) -> only_names names (repeats key report seen l).
Proof.
  intros H. revert seen. induction l; intros seen; cbn [repeats]; [apply only_names_nil|].
  apply only_names_app; [|done]. case_bool_decide; [done|apply only_names_nil].
Qed.
Lemma only_names_mono names names' l : names ⊆ names' -> only_names names l -> only_names names' l.
Proof. intros Hs Hl. eapply Forall_impl; [exact Hl|]. intros v. apply Hs. Qed.

Create HintDb scan.
#[export] Hint Resolve only_names_nil only_names_if only_names_app only_names_bind only_names_repeats : scan.
#[export] Hint Extern 0 (_ ∈ _ :: _) => solve [repeat first [by left | right]] : scan.

Lemma repeats_none {A K} `{EqDecision K} (key : A -> K) report l seen :
  NoDup (key <$> l) -> (forall x, x ∈ l -> key x ∉ seen) -> repeats key report seen l = [].
Proof.
  revert seen. induction l as [|x l IH]; intros seen Hn Hs; [done|].
  apply NoDup_cons in Hn as [Hx Hn]. cbn [repeats]. rewrite bool_decide_false by (apply Hs; left). simpl.
  apply IH; [done|]. intros y Hy [E|Hy']%elem_of_cons; [|by apply (Hs y); [right|]].
  apply Hx. rewrite <- E. by apply list_elem_of_fmap_2.
Qed.

Lemma bind_none {A} (f : A -> list InvariantViolation) l : (forall x, x ∈ l -> f x = []) -> l ≫= f = [].
Proof.
  intros Hf. induction l as [|x l IH]; [done|]. rewrite bind_cons, Hf by left. apply IH. intros y Hy. apply Hf. by right.
Qed.

Lemma elem_of_entries `{Countable K} {A} ltb (m : gmap K A) k x : (k, x) ∈ entries ltb m <-> m !! k = Some x.
Proof. unfold entries. by rewrite elem_of_stable_sort, elem_of_map_to_list. Qed.

Lemma elem_of_entries_2 `{Countable K} {A} ltb (m : gmap K A) x :
  x ∈ (entries ltb m).*2 <-> exists k, m !! k = Some x.
Proof.
  rewrite list_elem_of_fmap. split.
  - intros ([k y] & -> & Hy%elem_of_entries). by exists k.
  - intros (k & Hk). exists (k, x). by rewrite elem_of_entries.
Qed.

Lemma entries_NoDup `{Countable K} {A} ltb (m : gmap K A) : NoDup (entries ltb m).*1.
Proof. unfold entries. rewrite stable_sort_perm. apply NoDup_fst_map_to_list. Qed.

Lemma existsb_entries `{Countable K} {A} ltb (m : gmap K A) f :
  existsb f (entries ltb m) = true <-> exists k x, m !! k = Some x /\ f (k, x) = true.
Proof.
  rewrite existsb_exists. split.
  - intros ([k x] & Hx%list_elem_of_In%elem_of_entries & Hf). by exists k, x.
  - intros (k & x & Hx & Hf). exists (k, x). split; [|done]. by apply list_elem_of_In, elem_of_entries.
Qed.

(** ** What each check finds *)

Definition retained_names : list string := [
  "route_generation_monotonic"; "tenant_isolation"; "bound_generations_match_snapshot"; "bound_request_identity";
  "winner_is_top_ranked"; "fallback_order_stable"; "no_duplicate_ranked_candidate"; "deterministic_ranking_order";
  "deterministic_rejection_order"; "cache_cannot_bypass_revalidation"].

Definition current_names : list string := [
  "current_route_winner_exists"; "retired_model_cannot_dispatch"; "stale_backend_boot_cannot_dispatch";
  "unavailable_backend_cannot_dispatch"; "stale_policy_cannot_dispatch"; "stale_router_epoch_cannot_dispatch";
  "stale_coordinator_epoch_cannot_dispatch"; "expired_route_cannot_dispatch"; "policy_denied_route_cannot_dispatch"].

Section Findings.
Context (now : UnixMillis) (s : CanonicalState).

Lemma epochs_names : only_names ["one_current_router_epoch"] (check_epochs s).
Proof. unfold check_epochs. auto 20 with scan. Qed.
Lemma incarnations_names : only_names ["backend_incarnation_unique"] (check_incarnations s).
Proof. unfold check_incarnations. auto 20 with scan. Qed.
Lemma fences_names : only_names ["fenced_boot_never_authoritative"] (check_fences s).
Proof. unfold check_fences. auto 20 with scan. Qed.
Lemma model_watermarks_names : only_names ["model_generation_monotonic"] (check_model_watermarks s).
Proof. apply only_names_bind. intros []. auto 20 with scan. Qed.
Lemma backend_watermarks_names : only_names ["backend_generation_monotonic"] (check_backend_watermarks s).
Proof. apply only_names_bind. intros []. auto 20 with scan. Qed.
Lemma indexes_names :
  only_names ["index_backends_by_model"; "index_backends_by_provider"; "index_backends_by_trust"] (check_indexes s).
Proof. unfold check_indexes. cbv zeta. auto 20 with scan. Qed.
Lemma bounds_names :
  only_names ["bounded_route_history"; "route_order_consistent"; "bounded_fenced_boots"] (check_bounds s).
Proof. unfold check_bounds. auto 20 with scan. Qed.
Lemma shutdown_names : only_names ["shutdown_no_executable_route"] (check_shutdown s).
Proof. unfold check_shutdown. auto 20 with scan. Qed.
Lemma retained_only_names id r : only_names retained_names (check_retained id r).
Proof. unfold check_retained, retained_names. auto 20 with scan. Qed.
Lemma policy_names id d m b : only_names ["policy_denied_route_cannot_dispatch"] (check_policy now s id d m b).
Proof. unfold check_policy. destruct (find_binding _ _); auto 20 with scan. Qed.
Lemma current_only_names id d : only_names current_names (check_current now s id d).
Proof.
  unfold check_current, current_names. destruct (cs_models s !! _); [|auto 20 with scan].
  apply only_names_app; [auto 20 with scan|]. destruct (cs_backends s !! _); [|auto 20 with scan].
  repeat (apply only_names_app; [auto 20 with scan|]).
  eapply only_names_mono; [|apply policy_names]. set_solver.
Qed.
Lemma route_names e : only_names (retained_names ++ current_names) (check_route now s e).
Proof.
  destruct e as [id r]. apply only_names_app.
  - eapply only_names_mono, retained_only_names. set_solver.
  - destruct (is_current r); [|apply only_names_nil]. eapply only_names_mono, current_only_names. set_solver.
Qed.
Lemma routes_names : only_names (retained_names ++ current_names) (entries id_ltb (cs_routes s) ≫= check_route now s).
Proof. apply only_names_bind, route_names. Qed.

(** A report by name is the report of the check of that name. *)
Ltac other_checks :=
  rewrite !reported_found; unfold found_violations; rewrite !reports_app;
  rewrite ?(reports_names _ _ _ epochs_names) by reflexivity;
  rewrite ?(reports_names _ _ _ incarnations_names) by reflexivity;
  rewrite ?(reports_names _ _ _ fences_names) by reflexivity;
  rewrite ?(reports_names _ _ _ model_watermarks_names) by reflexivity;
  rewrite ?(reports_names _ _ _ backend_watermarks_names) by reflexivity;
  rewrite ?(reports_names _ _ _ indexes_names) by reflexivity;
  rewrite ?(reports_names _ _ _ bounds_names) by reflexivity;
  rewrite ?(reports_names _ _ _ shutdown_names) by reflexivity;
  rewrite ?(reports_names _ _ _ routes_names) by reflexivity.

(** The check of the fences finds what [fences_respected] excludes. *)
Lemma reported_fences (Hk : keyed s) :
  reported "fenced_boot_never_authoritative" now s = false <-> fences_respected s.
Proof.
  other_checks. rewrite !orb_false_r, !orb_false_l. unfold check_fences. rewrite reports_bind, ?orb_false_l.
  rewrite <- not_true_iff_false, existsb_exists. unfold fences_respected. split.
  - intros H id b Hb. apply not_true_is_false. intros Hf. apply H. exists b. split.
    + apply list_elem_of_In, elem_of_entries_2. by exists id.
    + rewrite reports_if, (Hk _ _ Hb), Hf. done.
  - intros H (b & [id Hb]%list_elem_of_In%elem_of_entries_2 & Hr). rewrite reports_if, (Hk _ _ Hb), (H _ _ Hb) in Hr.
    done.
Qed.

Lemma reported_indexes :
  reported "index_backends_by_model" now s || reported "index_backends_by_provider" now s ||
  reported "index_backends_by_trust" now s = false <-> indexes_ok s.
Proof.
  other_checks. rewrite !orb_false_r, !orb_false_l. unfold check_indexes. cbv zeta. rewrite !reports_app, !reports_if.
  cbn [String.eqb Ascii.eqb Bool.eqb]. rewrite ?andb_false_r, ?andb_true_r, ?orb_false_r, ?orb_false_l.
  rewrite indexes_ok_rebuild, !orb_false_iff, !negb_false_iff, !bool_decide_eq_true.
  split; [|by intros ->]. intros [[E1 E2] E3]. destruct (rebuild_indexes_loop s) as [_ E].
  rewrite E, E1, E2, E3. by destruct s.
Qed.

Lemma reported_bounds :
  reported "bounded_route_history" now s || reported "route_order_consistent" now s = false <->
  map_size (cs_routes s) = Request.size (cs_route_order s) /\
  Request.size (cs_route_order s) <= max_route_history (cs_limits s).
Proof.
  other_checks. rewrite !orb_false_r, !orb_false_l. unfold check_bounds. rewrite !reports_app, !reports_if.
  cbn [String.eqb Ascii.eqb Bool.eqb]. rewrite ?andb_false_r, ?andb_true_r, ?orb_false_r, ?orb_false_l.
  rewrite !orb_false_iff, !negb_false_iff, !Z.ltb_ge, Z.eqb_eq. lia.
Qed.

Lemma reported_fence_bound :
  reported "bounded_fenced_boots" now s = (max_backend_incarnations (cs_limits s) <? map_size (cs_fenced_boots s)).
Proof.
  other_checks. rewrite !orb_false_r, !orb_false_l. unfold check_bounds. rewrite !reports_app, !reports_if.
  cbn [String.eqb Ascii.eqb Bool.eqb]. by rewrite ?andb_false_r, ?andb_true_r, ?orb_false_r, ?orb_false_l.
Qed.

(** *** In a well-formed state *)

Lemma incarnations_none : keyed s -> check_incarnations s = [].
Proof.
  intros Hk. unfold check_incarnations. apply repeats_none; [|by intros ? _ ?%not_elem_of_nil].
  assert (E : bd_backend_id <$> (entries id_ltb (cs_backends s)).*2 = (entries id_ltb (cs_backends s)).*1).
  { rewrite <- list_fmap_compose. apply list_fmap_ext. intros i [id b] Hi. simpl.
    by apply Hk, (elem_of_entries id_ltb), (list_elem_of_lookup_2 _ i). }
  apply (NoDup_fmap_1 fk_backend_id). rewrite <- list_fmap_compose. simpl.
  change (NoDup (bd_backend_id <$> (entries id_ltb (cs_backends s)).*2)). rewrite E. apply entries_NoDup.
Qed.

Lemma watermarks_none : router_wf s -> check_model_watermarks s ++ check_backend_watermarks s = [].
Proof.
  intros Hw. unfold check_model_watermarks, check_backend_watermarks. rewrite !bind_none; [done|..].
  - intros [id b] Hb%elem_of_entries. rewrite (wf_backend_watermark s Hw _ _ Hb). unfold violate_if, id_ltb.
    by rewrite Z.ltb_irrefl.
  - intros [id m] Hm%elem_of_entries. rewrite (wf_model_watermark s Hw _ _ Hm). unfold violate_if, id_ltb.
    by rewrite Z.ltb_irrefl.
Qed.

Lemma fences_none : keyed s -> fences_respected s -> check_fences s = [].
Proof.
  intros Hk Hf. apply bind_none. intros b [id Hb]%elem_of_entries_2. by rewrite (Hk _ _ Hb), (Hf _ _ Hb).
Qed.

Lemma indexes_none : indexes_ok s -> check_indexes s = [].
Proof. intros E%indexes_ok_rebuild. unfold check_indexes. cbv zeta. by rewrite E, !bool_decide_true by done. Qed.

(** A decision that can be executed is found at fault by the policy check only. *)
Lemma executable_current_names id d m b :
  keyed s -> executable s (de_authority d) now m b ->
  only_names ["policy_denied_route_cannot_dispatch"] (check_current now s id d).
Proof.
  intros Hk H. pose proof (executable_bound _ _ _ _ _ H) as (E1 & E2 & _ & _ & E3 & _ & E4).
  destruct H as [Hx Hu Hm Hb Hl Hr Hd _]. unfold check_current. rewrite Hm, Hb, Hl, Hx.
  rewrite (Hk _ _ Hb), <- E3, Hu. unfold backend_retired, backend_draining.
  rewrite (bool_decide_false _ Hr), (bool_decide_false _ Hd). rewrite E1, E2, E4, !(bool_decide_true _ eq_refl).
  apply policy_names.
Qed.
End Findings.

(** What may still be reported: names that depend on more than the invariants
    of this library. *)
Definition open_names : list string :=
  ["one_current_router_epoch"; "bounded_fenced_boots"; "shutdown_no_executable_route";
   "policy_denied_route_cannot_dispatch"] ++ retained_names.

Lemma bounds_open s ids : history_ok s ids -> only_names open_names (check_bounds s).
Proof.
  intros H. unfold check_bounds. rewrite (history_size s ids H), Z.eqb_refl.
  rewrite (proj2 (Z.ltb_ge _ _) (history_bound s ids H)). cbn [orb negb violate_if app].
  apply only_names_if. unfold open_names. right. left.
Qed.

(** C30: on a well-formed state that respects its fences, whose history is in
    order and whose CURRENT decisions can be executed, the scan reports nothing
    about incarnations, fences, watermarks, indexes, the bound and the order of
    the history, or the authority of a current decision. *)
Theorem scan_accepts_invariants (now : UnixMillis) (s : CanonicalState) (ids : Allocator)
    (Hw : router_wf s) (Hf : fences_respected s) (Hh : history_ok s ids) (Hd : decisions_dispatchable now s) :
  only_names open_names (ir_violations (check_invariants now s)).
Proof.
  unfold check_invariants, only_names. simpl. rewrite stable_sort_perm. unfold found_violations.
  change (only_names open_names (check_epochs s ++ check_incarnations s ++ check_fences s ++ check_model_watermarks s ++
    check_backend_watermarks s ++ check_indexes s ++ check_bounds s ++ check_shutdown s ++
    (entries id_ltb (cs_routes s) ≫= check_route now s))).
  rewrite incarnations_none by apply Hw. rewrite (fences_none s) by (done || apply Hw).
  rewrite (app_assoc (check_model_watermarks s)), (watermarks_none s Hw), (indexes_none s) by apply Hw.
  rewrite !app_nil_l.
  apply only_names_app; [eapply only_names_mono, epochs_names; set_solver|].
  apply only_names_app; [by eapply bounds_open|].
  apply only_names_app; [eapply only_names_mono, shutdown_names; set_solver|].
  apply Forall_bind, Forall_forall. intros [id r] Hr%elem_of_entries.
  apply only_names_app; [eapply only_names_mono, retained_only_names; set_solver|].
  destruct (is_current r) eqn:Ec; [|apply only_names_nil].
  assert (Hx : retained_executable r = true) by (unfold retained_executable; unfold is_current in Ec; by rewrite Ec).
  destruct (proj1 (dispatchable_executable _ _ _) (Hd _ _ Hr Hx)) as (m & b & He).
  eapply only_names_mono, executable_current_names; [set_solver|apply Hw|exact He].
Qed.

(** The scan decides the invariants of the catalog and the history: it is
    silent about fences exactly when no registered backend runs a fenced
    incarnation, about the indexes exactly when they are the scans of the
    backends, about the history exactly when order and map have one size within
    the limit; and it reports the fence records exactly when they exceed theirs. *)
Theorem scan_decides (now : UnixMillis) (s : CanonicalState) (Hk : keyed s) :
  (reported "fenced_boot_never_authoritative" now s = false <-> fences_respected s) /\
  (reported "index_backends_by_model" now s || reported "index_backends_by_provider" now s ||
   reported "index_backends_by_trust" now s = false <-> indexes_ok s) /\
  (reported "bounded_route_history" now s || reported "route_order_consistent" now s = false <->
   map_size (cs_routes s) = Request.size (cs_route_order s) /\
   Request.size (cs_route_order s) <= max_route_history (cs_limits s)) /\
  reported "bounded_fenced_boots" now s = (max_backend_incarnations (cs_limits s) <? map_size (cs_fenced_boots s)).
Proof.
  split_and!; [by apply reported_fences | apply reported_indexes | apply reported_bounds | apply reported_fence_bound].
Qed.

(** ** Sample reports *)

Definition inspected_catalog : CanonicalState :=
  run_calls [(RegisterBackend sample_backend, 100); (RegisterModel sample_model, 100)] canonical_state_default.

Definition retaining (catalog : CanonicalState) : CanonicalState :=
  catalog <| cs_routes := {[ EntityIdOf 30 := sample_record ]} |> <| cs_route_order := [EntityIdOf 30] |>.

Lemma retaining_wf catalog : router_wf catalog -> router_wf (retaining catalog).
Proof. by apply wf_frame. Qed.

Lemma retaining_history catalog ids :
  30 <= ids -> 1 <= max_route_history (cs_limits catalog) -> history_ok (retaining catalog) ids.
Proof.
  intros Hids Hl. split; [|apply NoDup_singleton|by intros id ->%list_elem_of_singleton|done].
  intros id. simpl. rewrite list_elem_of_singleton. split; [intros ->; by rewrite lookup_singleton_eq|].
  by intros [r [<- _]%lookup_singleton_Some].
Qed.

Lemma retaining_dispatchable now catalog :
  is_authority_dispatchable (retaining catalog) sample_authority now = true -> decisions_dispatchable now (retaining catalog).
Proof. intros H id r Hr _. simpl in Hr. apply lookup_singleton_Some in Hr as [<- <-]. exact H. Qed.

Lemma inspected_wf : router_wf inspected_catalog.
Proof. apply run_calls_wf, wf_empty. Qed.

Lemma inspected_fences : fences_respected (retaining inspected_catalog).
Proof.
  intros id b _. unfold is_fenced.
  replace (cs_fenced_boots (retaining inspected_catalog)) with (∅ : gmap FenceKey FencedBootRecord) by (vm_compute; reflexivity).
  by rewrite lookup_empty.
Qed.

Lemma scan_accepts_invariants_witness :
  (fun v => iv_name v) <$> ir_violations (check_invariants 200 (retaining inspected_catalog)) =
    ["bound_generations_match_snapshot"; "policy_denied_route_cannot_dispatch"; "route_generation_monotonic"] /\
  only_names open_names (ir_violations (check_invariants 200 (retaining inspected_catalog))).
Proof.
  split; [vm_compute; reflexivity|].
  apply (scan_accepts_invariants 200 (retaining inspected_catalog) 40).
  - apply retaining_wf, inspected_wf.
  - apply inspected_fences.
  - apply retaining_history; [lia|vm_compute; discriminate].
  - apply retaining_dispatchable. vm_compute. reflexivity.
Defined.

(** The incarnation is fenced behind the router's back, and the indexes lost. *)
Definition torn (catalog : CanonicalState) : CanonicalState :=
  (retaining catalog) <| cs_index_by_model := ∅ |>
    <| cs_fenced_boots := {[ fence_key (EntityIdOf 4) (GenerationOf 9) := fenced_boot_record_default ]} |>.
Definition torn_state : CanonicalState := torn inspected_catalog.

Lemma torn_keyed catalog : router_wf catalog -> keyed (torn catalog).
Proof. intros H. exact (wf_keyed catalog H). Qed.

Lemma scan_decides_witness :
  (fun v => iv_name v) <$> ir_violations (check_invariants 200 torn_state) =
    ["bound_generations_match_snapshot"; "fenced_boot_never_authoritative"; "index_backends_by_model";
     "policy_denied_route_cannot_dispatch"; "route_generation_monotonic"; "stale_backend_boot_cannot_dispatch"] /\
  ~ fences_respected torn_state /\ ~ indexes_ok torn_state.
Proof.
  split; [vm_compute; reflexivity|].
  destruct (scan_decides 200 torn_state (torn_keyed _ inspected_wf)) as (Hf & Hi & _). rewrite <- Hf, <- Hi. by vm_compute.
Defined.
