(* ===== verification/RouterSnapshot.v ===== *)
(** * Snapshots, summaries and retained history ([router_snapshot.cpp])

    The read-only views of the router: what each shows of the state it was taken
    in, their digests, and their text and JSON. *)
From S2P Require Import Prelude.
From S2P Require Import Ids.
From S2P Require Import Sha256.
From S2P Require Import Outcome.
From S2P Require Import Json.
From S2P Require Import Limits.
From S2P Require Import Clock.
From S2P Require Import Evidence.
From S2P Require Import Catalog.
From S2P Require Import Request.
From S2P Require Import Candidate.
From S2P Require Import Policy.
From S2P Require Import Authority.
From S2P Require Import Decision.
From S2P Require Import RouteReport.
From S2P Require Import RouterState.
From S2P Require Import RouterMutation.
From S2P Require Import RouterInspect.

(** ** Data *)

Record BackendSummary := {
  bs_backend_id : EntityId BackendTag;
  bs_backend_generation : Generation BackendTag;
  bs_backend_boot : Generation BackendBootTag;
  bs_provider_id : EntityId ProviderTag;
  bs_endpoint_id : EntityId EndpointTag;
  bs_endpoint_generation : Generation EndpointTag;
  bs_trust_domain : TrustDomain.t;
  bs_locality : LocalityKey;
  bs_health : HealthState.t;
  bs_availability : AvailabilityState.t;
  bs_readiness : ReadinessState.t;
  bs_residency : ResidencyState.t;
  bs_capacity : CapacityState.t;
  bs_bound_model_count : Z;
  bs_fenced : bool;
  bs_evidence_current : bool;
  bs_price_known : bool;
  bs_provenance : Provenance.t
}.

Record RouteSummary := {
  rs_decision_id : EntityId RouteDecisionTag;
  rs_decision_generation : Generation RouteDecisionTag;
  rs_request_id : EntityId RouteRequestTag;
  rs_winner : CandidateKey;
  rs_status : RouteStatus.t;
  rs_code : OutcomeCode.t;
  rs_currentness : Currentness.t;
  rs_fallback_count : Z;
  rs_created_at : UnixMillis;
  rs_semantic_digest : string
}.

Record RouterSnapshot := {
  sn_router_id : EntityId RouterTag;
  sn_router_generation : Generation RouterTag;
  sn_router_epoch : Generation RouterEpochTag;
  sn_coordinator_epoch : Generation CoordinatorEpochTag;
  sn_router_boot : Generation RouterBootTag;
  sn_policy_generation : Generation PolicyTag;
  sn_price_generation : Generation PriceTag;
  sn_budget_generation : Generation BudgetTag;
  sn_slo_generation : Generation SloTag;
  sn_capability_generation : Generation CapabilityTag;
  sn_model_count : Z;
  sn_backend_count : Z;
  sn_fenced_boot_count : Z;
  sn_route_decision_count : Z;
  sn_tenant_count : Z;
  sn_backends : list BackendSummary;
  sn_routes : list RouteSummary;
  sn_currentness : Currentness.t;
  sn_shutting_down : bool;
  sn_taken_at : UnixMillis;
  sn_semantic_digest : string
}.

Definition authorizes_dispatch (x : RouterSnapshot) : bool :=
  (sn_currentness x == Currentness.CURRENT) && negb (sn_shutting_down x).

Record RouterSummary := {
  su_router_id : EntityId RouterTag;
  su_router_generation : Generation RouterTag;
  su_router_epoch : Generation RouterEpochTag;
  su_coordinator_epoch : Generation CoordinatorEpochTag;
  su_router_boot : Generation RouterBootTag;
  su_model_count : Z;
  su_provider_count : Z;
  su_backend_count : Z;
  su_fenced_boot_count : Z;
  su_route_decision_count : Z;
  su_tenant_count : Z;
  su_eligible_last_request : Z;
  su_rejected_last_request : Z;
  su_counters : PersistenceCounters;
  su_policy_generation : Generation PolicyTag;
  su_price_generation : Generation PriceTag;
  su_budget_generation : Generation BudgetTag;
  su_slo_generation : Generation SloTag;
  su_capability_generation : Generation CapabilityTag;
  su_running : bool;
  su_shutting_down : bool;
  su_recovered : bool;
  su_started_at : UnixMillis;
  su_semantic_digest : string
}.

(** ** The views *)

(** [static_cast<std::uint32_t>(m.size())]. *)
Definition size32 `{Countable K} {A} (m : gmap K A) : Z := word32 (map_size m).

Definition capability_generations (backends : list BackendDescriptor) : list (Generation CapabilityTag) :=
  bd_capability_generation <$> backends.
Definition price_generations (backends : list BackendDescriptor) : list (Generation PriceTag) :=
  backends ≫= fun b => (fun binding => co_price_generation (mb_cost binding)) <$> bd_model_bindings b.

Section Views.
Context (now : UnixMillis) (s : CanonicalState).

Definition backend_summary (b : BackendDescriptor) : BackendSummary :=
  {| bs_backend_id := bd_backend_id b; bs_backend_generation := bd_backend_generation b;
     bs_backend_boot := bd_backend_boot b; bs_provider_id := bd_provider_id b;
     bs_endpoint_id := ep_endpoint_id (bd_endpoint b);
     bs_endpoint_generation := ep_endpoint_generation (bd_endpoint b);
     bs_trust_domain := bd_trust_domain b; bs_locality := bd_locality b;
     bs_health := ev_state (bd_health b); bs_availability := ev_state (bd_availability b);
     bs_readiness := ev_state (bd_readiness b); bs_residency := ev_state (bd_residency b);
     bs_capacity := ev_state (bd_capacity b);
     bs_bound_model_count := word32 (Request.size (bd_model_bindings b));
     bs_fenced := is_fenced s (bd_backend_id b) (bd_backend_boot b);
     bs_evidence_current :=
       valid (ev_generation (bd_health b)) && valid (ev_generation (bd_availability b)) &&
       valid (ev_generation (bd_readiness b)) && negb (ev_expired (bd_health b) now) &&
       negb (ev_expired (bd_availability b) now) && negb (ev_expired (bd_readiness b) now);
     bs_price_known :=
       negb (is_empty (bd_model_bindings b)) &&
       forallb (fun binding => cost_known (mb_cost binding) && cost_current (mb_cost binding) now)
         (bd_model_bindings b);
     bs_provenance := bd_provenance b |}.

Definition route_summary (r : RouteRecord) : RouteSummary :=
  let d := rec_decision r in
  {| rs_decision_id := de_decision_id d; rs_decision_generation := de_decision_generation d;
     rs_request_id := de_request_id d; rs_winner := pl_primary (rec_plan r);
     rs_status := de_status d; rs_code := de_code d; rs_currentness := rx_currentness (de_explanation d);
     rs_fallback_count := word32 (Request.size (de_fallbacks d)); rs_created_at := de_created_at d;
     rs_semantic_digest := rx_semantic_digest (de_explanation d) |}.

(** The text the digest of a snapshot is made of: numbers one after another. *)
Definition snapshot_text (price : Generation PriceTag) (backends : list BackendSummary)
    (routes : list RouteSummary) : string :=
  number (cs_router_id s) +:+ number (cs_router_epoch s) +:+ number (cs_coordinator_epoch s) +:+
  number (po_generation (cs_policy s)) +:+ number price +:+
  String.concat "" ((fun b => number (bs_backend_id b) +:+ number (bs_backend_boot b) +:+
    to_string_int (HealthState.index (bs_health b)) +:+
    to_string_int (AvailabilityState.index (bs_availability b)) +:+
    to_string_int (ReadinessState.index (bs_readiness b))) <$> backends) +:+
  String.concat "" ((fun r => number (rs_decision_id r) +:+ to_string_int (RouteStatus.index (rs_status r)) +:+
    rs_semantic_digest r) <$> routes).

Definition snapshot : RouterSnapshot :=
  let backends := ordered_values id_ltb (cs_backends s) in
  let price := raised (price_generations backends) none in
  let summaries := backend_summary <$> backends in
  let routes := route_summary <$> ordered_values id_ltb (cs_routes s) in
  {| sn_router_id := cs_router_id s; sn_router_generation := cs_router_generation s;
     sn_router_epoch := cs_router_epoch s; sn_coordinator_epoch := cs_coordinator_epoch s;
     sn_router_boot := cs_router_boot s; sn_policy_generation := po_generation (cs_policy s);
     sn_price_generation := price; sn_budget_generation := bu_generation (cs_budget s);
     sn_slo_generation := sl_generation (cs_slo s);
     sn_capability_generation := raised (capability_generations backends) none;
     sn_model_count := size32 (cs_models s); sn_backend_count := size32 (cs_backends s);
     sn_fenced_boot_count := size32 (cs_fenced_boots s); sn_route_decision_count := size32 (cs_routes s);
     sn_tenant_count := word32 (Z.of_nat (base.size (cs_tenants s)));
     sn_backends := summaries; sn_routes := routes;
     sn_currentness := if cs_recovered s then Currentness.RECONSTRUCTED else Currentness.CURRENT;
     sn_shutting_down := cs_shutting_down s; sn_taken_at := now;
     sn_semantic_digest := sha256_hex (snapshot_text price summaries routes) |}.

Definition summary_text : string :=
  number (cs_router_id s) +:+ number (cs_router_epoch s) +:+ number (cs_coordinator_epoch s) +:+
  to_string_int (size32 (cs_models s)) +:+ to_string_int (size32 (cs_backends s)) +:+
  to_string_int (size32 (cs_routes s)) +:+ to_string_int (size32 (cs_fenced_boots s)).

Definition summary : RouterSummary :=
  let backends := ordered_values id_ltb (cs_backends s) in
  {| su_router_id := cs_router_id s; su_router_generation := cs_router_generation s;
     su_router_epoch := cs_router_epoch s; su_coordinator_epoch := cs_coordinator_epoch s;
     su_router_boot := cs_router_boot s; su_model_count := size32 (cs_models s);
     su_provider_count := size32 (cs_providers s); su_backend_count := size32 (cs_backends s);
     su_fenced_boot_count := size32 (cs_fenced_boots s); su_route_decision_count := size32 (cs_routes s);
     su_tenant_count := word32 (Z.of_nat (base.size (cs_tenants s)));
     su_eligible_last_request := cs_last_eligible s; su_rejected_last_request := cs_last_rejected s;
     su_counters := cs_counters s; su_policy_generation := po_generation (cs_policy s);
     su_price_generation := raised (price_generations backends) none;
     su_budget_generation := bu_generation (cs_budget s); su_slo_generation := sl_generation (cs_slo s);
     su_capability_generation := raised (capability_generations backends) none;
     su_running := cs_running s; su_shutting_down := cs_shutting_down s; su_recovered := cs_recovered s;
     su_started_at := cs_started_at s; su_semantic_digest := sha256_hex summary_text |}.

Definition find_model (id : EntityId ModelTag) : option ModelDescriptor := cs_models s !! id.
Definition find_backend (id : EntityId BackendTag) : option BackendDescriptor := cs_backends s !! id.
Definition find_decision (id : EntityId RouteDecisionTag) : option RouteDecision :=
  rec_decision <$> cs_routes s !! id.

Definition route_history : list RouteDecision := rec_decision <$> ordered_values id_ltb (cs_routes s).

Definition fenced_boots : list FencedBootRecord := ordered_values fence_key_ltb (cs_fenced_boots s).

Definition explain_route (id : EntityId RouteDecisionTag) : string :=
  match cs_routes s !! id with
  | None => OutcomeCode.to_string OutcomeCode.REJECT_INVALID +:+ " explain_route {decision_id=" +:+ number id +:+
            "} route decision is not retained"
  | Some r =>
      "decision_id=" +:+ number (de_decision_id (rec_decision r)) +:+
      " status=" +:+ RouteStatus.to_string (de_status (rec_decision r)) +:+
      " code=" +:+ OutcomeCode.to_string (de_code (rec_decision r)) +:+ newline +:+
      route_explanation_to_text (de_explanation (rec_decision r)) +:+
      newline +:+ "plan_digest=" +:+ plan_semantic_digest (rec_plan r) +:+
      " decision_digest=" +:+ decision_semantic_digest (rec_decision r)
  end.
End Views.

(** ** Text *)

Definition flag (b : bool) : string := if b then "1" else "0".

Definition backend_summary_to_text (b : BackendSummary) : string :=
  "backend " +:+ number (bs_backend_id b) +:+ "@" +:+ number (bs_backend_generation b) +:+
  ".boot=" +:+ number (bs_backend_boot b) +:+ " provider=" +:+ number (bs_provider_id b) +:+
  " endpoint=" +:+ number (bs_endpoint_id b) +:+ "@" +:+ number (bs_endpoint_generation b) +:+
  " trust=" +:+ TrustDomain.to_string (bs_trust_domain b) +:+
  " locality=" +:+ (if locality_empty (bs_locality b) then "none" else locality_string (bs_locality b)) +:+
  " health=" +:+ HealthState.to_string (bs_health b) +:+
  " availability=" +:+ AvailabilityState.to_string (bs_availability b) +:+
  " readiness=" +:+ ReadinessState.to_string (bs_readiness b) +:+
  " residency=" +:+ ResidencyState.to_string (bs_residency b) +:+
  " capacity=" +:+ CapacityState.to_string (bs_capacity b) +:+
  " models=" +:+ to_string_int (bs_bound_model_count b) +:+ " fenced=" +:+ flag (bs_fenced b) +:+
  " evidence_current=" +:+ flag (bs_evidence_current b) +:+ " price_known=" +:+ flag (bs_price_known b) +:+
  " provenance=" +:+ Provenance.to_string (bs_provenance b) +:+ newline.

Definition route_summary_to_text (r : RouteSummary) : string :=
  "decision " +:+ number (rs_decision_id r) +:+ " status=" +:+ RouteStatus.to_string (rs_status r) +:+
  " code=" +:+ OutcomeCode.to_string (rs_code r) +:+
  " currentness=" +:+ Currentness.to_string (rs_currentness r) +:+
  " fallbacks=" +:+ to_string_int (rs_fallback_count r) +:+ " winner=" +:+ key_to_string (rs_winner r) +:+
  " digest=" +:+ rs_semantic_digest r +:+ newline.

Definition snapshot_to_text (x : RouterSnapshot) : string :=
  "router=" +:+ number (sn_router_id x) +:+ " generation=" +:+ number (sn_router_generation x) +:+
  " epoch=" +:+ number (sn_router_epoch x) +:+ " coordinator_epoch=" +:+ number (sn_coordinator_epoch x) +:+
  " boot=" +:+ number (sn_router_boot x) +:+ newline +:+
  "models=" +:+ to_string_int (sn_model_count x) +:+ " backends=" +:+ to_string_int (sn_backend_count x) +:+
  " fenced_boots=" +:+ to_string_int (sn_fenced_boot_count x) +:+
  " decisions=" +:+ to_string_int (sn_route_decision_count x) +:+
  " tenants=" +:+ to_string_int (sn_tenant_count x) +:+ newline +:+
  "currentness=" +:+ Currentness.to_string (sn_currentness x) +:+
  " shutting_down=" +:+ flag (sn_shutting_down x) +:+ " digest=" +:+ sn_semantic_digest x +:+ newline +:+
  String.concat "" (backend_summary_to_text <$> sn_backends x) +:+
  String.concat "" (route_summary_to_text <$> sn_routes x).

Definition summary_to_text (x : RouterSummary) : string :=
  "router=" +:+ number (su_router_id x) +:+ " generation=" +:+ number (su_router_generation x) +:+
  " epoch=" +:+ number (su_router_epoch x) +:+ " coordinator_epoch=" +:+ number (su_coordinator_epoch x) +:+
  " boot=" +:+ number (su_router_boot x) +:+ newline +:+
  "running=" +:+ flag (su_running x) +:+ " shutting_down=" +:+ flag (su_shutting_down x) +:+
  " recovered=" +:+ flag (su_recovered x) +:+ newline +:+
  "models=" +:+ to_string_int (su_model_count x) +:+ " providers=" +:+ to_string_int (su_provider_count x) +:+
  " backends=" +:+ to_string_int (su_backend_count x) +:+
  " fenced_boots=" +:+ to_string_int (su_fenced_boot_count x) +:+
  " decisions=" +:+ to_string_int (su_route_decision_count x) +:+
  " tenants=" +:+ to_string_int (su_tenant_count x) +:+ newline +:+
  "policy_generation=" +:+ number (su_policy_generation x) +:+
  " price_generation=" +:+ number (su_price_generation x) +:+
  " budget_generation=" +:+ number (su_budget_generation x) +:+
  " slo_generation=" +:+ number (su_slo_generation x) +:+
  " capability_generation=" +:+ number (su_capability_generation x) +:+ newline +:+
  "route_requests=" +:+ to_string_int (pc_route_requests (su_counters x)) +:+
  " route_decisions=" +:+ to_string_int (pc_route_decisions (su_counters x)) +:+
  " dispatches=" +:+ to_string_int (pc_dispatches (su_counters x)) +:+
  " rejections=" +:+ to_string_int (pc_route_rejections (su_counters x)) +:+
  " reroutes=" +:+ to_string_int (pc_reroutes (su_counters x)) +:+
  " fallbacks=" +:+ to_string_int (pc_fallbacks_taken (su_counters x)) +:+ newline +:+
  "digest=" +:+ su_semantic_digest x +:+ newline.

(** ** JSON *)

Definition backend_summary_to_json (b : BackendSummary) : string :=
  "{" +:+ member "backend_id" (number (bs_backend_id b)) +:+
  "," +:+ member "backend_generation" (number (bs_backend_generation b)) +:+
  "," +:+ member "backend_boot" (number (bs_backend_boot b)) +:+
  "," +:+ member "provider_id" (number (bs_provider_id b)) +:+
  "," +:+ member "endpoint_id" (number (bs_endpoint_id b)) +:+
  "," +:+ member "endpoint_generation" (number (bs_endpoint_generation b)) +:+
  "," +:+ member "trust_domain" (quoted (TrustDomain.to_string (bs_trust_domain b))) +:+
  "," +:+ member "health" (quoted (HealthState.to_string (bs_health b))) +:+
  "," +:+ member "availability" (quoted (AvailabilityState.to_string (bs_availability b))) +:+
  "," +:+ member "readiness" (quoted (ReadinessState.to_string (bs_readiness b))) +:+
  "," +:+ member "residency" (quoted (ResidencyState.to_string (bs_residency b))) +:+
  "," +:+ member "capacity" (quoted (CapacityState.to_string (bs_capacity b))) +:+
  "," +:+ member "fenced" (truth (bs_fenced b)) +:+
  "," +:+ member "evidence_current" (truth (bs_evidence_current b)) +:+
  "," +:+ member "price_known" (truth (bs_price_known b)) +:+
  "," +:+ member "provenance" (quoted (Provenance.to_string (bs_provenance b))) +:+ "}".

Definition route_summary_to_json (r : RouteSummary) : string :=
  "{" +:+ member "decision_id" (number (rs_decision_id r)) +:+
  "," +:+ member "status" (quoted (RouteStatus.to_string (rs_status r))) +:+
  "," +:+ member "code" (quoted (OutcomeCode.to_string (rs_code r))) +:+
  "," +:+ member "currentness" (quoted (Currentness.to_string (rs_currentness r))) +:+
  "," +:+ member "fallbacks" (to_string_int (rs_fallback_count r)) +:+
  "," +:+ member "digest" (quoted (rs_semantic_digest r)) +:+ "}".

Definition snapshot_to_json (x : RouterSnapshot) : string :=
  "{" +:+ member "router_id" (number (sn_router_id x)) +:+
  "," +:+ member "router_epoch" (number (sn_router_epoch x)) +:+
  "," +:+ member "coordinator_epoch" (number (sn_coordinator_epoch x)) +:+
  "," +:+ member "router_boot" (number (sn_router_boot x)) +:+
  "," +:+ member "currentness" (quoted (Currentness.to_string (sn_currentness x))) +:+
  "," +:+ member "shutting_down" (truth (sn_shutting_down x)) +:+
  "," +:+ member "semantic_digest" (quoted (sn_semantic_digest x)) +:+
  "," +:+ member "counts"
            ("{" +:+ member "models" (to_string_int (sn_model_count x)) +:+
             "," +:+ member "backends" (to_string_int (sn_backend_count x)) +:+
             "," +:+ member "fenced_boots" (to_string_int (sn_fenced_boot_count x)) +:+
             "," +:+ member "decisions" (to_string_int (sn_route_decision_count x)) +:+
             "," +:+ member "tenants" (to_string_int (sn_tenant_count x)) +:+ "}") +:+
  "," +:+ member "backends" ("[" +:+ join_comma (backend_summary_to_json <$> sn_backends x) +:+ "]") +:+
  "," +:+ member "routes" ("[" +:+ join_comma (route_summary_to_json <$> sn_routes x) +:+ "]") +:+ "}".

Definition summary_to_json (x : RouterSummary) : string :=
  "{" +:+ member "router_id" (number (su_router_id x)) +:+
  "," +:+ member "router_epoch" (number (su_router_epoch x)) +:+
  "," +:+ member "coordinator_epoch" (number (su_coordinator_epoch x)) +:+
  "," +:+ member "router_boot" (number (su_router_boot x)) +:+
  "," +:+ member "running" (truth (su_running x)) +:+
  "," +:+ member "shutting_down" (truth (su_shutting_down x)) +:+
  "," +:+ member "recovered" (truth (su_recovered x)) +:+
  "," +:+ member "counts"
            ("{" +:+ member "models" (to_string_int (su_model_count x)) +:+
             "," +:+ member "providers" (to_string_int (su_provider_count x)) +:+
             "," +:+ member "backends" (to_string_int (su_backend_count x)) +:+
             "," +:+ member "fenced_boots" (to_string_int (su_fenced_boot_count x)) +:+
             "," +:+ member "decisions" (to_string_int (su_route_decision_count x)) +:+
             "," +:+ member "tenants" (to_string_int (su_tenant_count x)) +:+ "}") +:+
  "," +:+ member "generations"
            ("{" +:+ member "policy" (number (su_policy_generation x)) +:+
             "," +:+ member "price" (number (su_price_generation x)) +:+
             "," +:+ member "budget" (number (su_budget_generation x)) +:+
             "," +:+ member "slo" (number (su_slo_generation x)) +:+
             "," +:+ member "capability" (number (su_capability_generation x)) +:+ "}") +:+
  "," +:+ member "counters"
            ("{" +:+ member "requests" (to_string_int (pc_route_requests (su_counters x))) +:+
             "," +:+ member "decisions" (to_string_int (pc_route_decisions (su_counters x))) +:+
             "," +:+ member "dispatches" (to_string_int (pc_dispatches (su_counters x))) +:+
             "," +:+ member "rejections" (to_string_int (pc_route_rejections (su_counters x))) +:+
             "," +:+ member "reroutes" (to_string_int (pc_reroutes (su_counters x))) +:+
             "," +:+ member "fallbacks" (to_string_int (pc_fallbacks_taken (su_counters x))) +:+ "}") +:+
  "," +:+ member "semantic_digest" (quoted (su_semantic_digest x)) +:+ "}".

(** ** The documents *)

Definition backend_summary_document (b : BackendSummary) : Json :=
  JObject [("backend_id", JNumber (value (bs_backend_id b)));
    ("backend_generation", JNumber (value (bs_backend_generation b)));
    ("backend_boot", JNumber (value (bs_backend_boot b))); ("provider_id", JNumber (value (bs_provider_id b)));
    ("endpoint_id", JNumber (value (bs_endpoint_id b)));
    ("endpoint_generation", JNumber (value (bs_endpoint_generation b)));
    ("trust_domain", JString (TrustDomain.to_string (bs_trust_domain b)));
    ("health", JString (HealthState.to_string (bs_health b)));
    ("availability", JString (AvailabilityState.to_string (bs_availability b)));
    ("readiness", JString (ReadinessState.to_string (bs_readiness b)));
    ("residency", JString (ResidencyState.to_string (bs_residency b)));
    ("capacity", JString (CapacityState.to_string (bs_capacity b)));
    ("fenced", JBool (bs_fenced b)); ("evidence_current", JBool (bs_evidence_current b));
    ("price_known", JBool (bs_price_known b)); ("provenance", JString (Provenance.to_string (bs_provenance b)))].

Definition route_summary_document (r : RouteSummary) : Json :=
  JObject [("decision_id", JNumber (value (rs_decision_id r)));
    ("status", JString (RouteStatus.to_string (rs_status r)));
    ("code", JString (OutcomeCode.to_string (rs_code r)));
    ("currentness", JString (Currentness.to_string (rs_currentness r)));
    ("fallbacks", JNumber (rs_fallback_count r)); ("digest", JString (rs_semantic_digest r))].

Definition snapshot_document (x : RouterSnapshot) : Json :=
  JObject [("router_id", JNumber (value (sn_router_id x))); ("router_epoch", JNumber (value (sn_router_epoch x)));
    ("coordinator_epoch", JNumber (value (sn_coordinator_epoch x)));
    ("router_boot", JNumber (value (sn_router_boot x)));
    ("currentness", JString (Currentness.to_string (sn_currentness x)));
    ("shutting_down", JBool (sn_shutting_down x)); ("semantic_digest", JString (sn_semantic_digest x));
    ("counts", JObject [("models", JNumber (sn_model_count x)); ("backends", JNumber (sn_backend_count x));
       ("fenced_boots", JNumber (sn_fenced_boot_count x)); ("decisions", JNumber (sn_route_decision_count x));
       ("tenants", JNumber (sn_tenant_count x))]);
    ("backends", JArray (backend_summary_document <$> sn_backends x));
    ("routes", JArray (route_summary_document <$> sn_routes x))].

Definition summary_document (x : RouterSummary) : Json :=
  JObject [("router_id", JNumber (value (su_router_id x))); ("router_epoch", JNumber (value (su_router_epoch x)));
    ("coordinator_epoch", JNumber (value (su_coordinator_epoch x)));
    ("router_boot", JNumber (value (su_router_boot x))); ("running", JBool (su_running x));
    ("shutting_down", JBool (su_shutting_down x)); ("recovered", JBool (su_recovered x));
    ("counts", JObject [("models", JNumber (su_model_count x)); ("providers", JNumber (su_provider_count x));
       ("backends", JNumber (su_backend_count x)); ("fenced_boots", JNumber (su_fenced_boot_count x));
       ("decisions", JNumber (su_route_decision_count x)); ("tenants", JNumber (su_tenant_count x))]);
    ("generations", JObject [("policy", JNumber (value (su_policy_generation x)));
       ("price", JNumber (value (su_price_generation x))); ("budget", JNumber (value (su_budget_generation x)));
       ("slo", JNumber (value (su_slo_generation x)));
       ("capability", JNumber (value (su_capability_generation x)))]);
    ("counters", JObject [("requests", JNumber (pc_route_requests (su_counters x)));
       ("decisions", JNumber (pc_route_decisions (su_counters x)));
       ("dispatches", JNumber (pc_dispatches (su_counters x)));
       ("rejections", JNumber (pc_route_rejections (su_counters x)));
       ("reroutes", JNumber (pc_reroutes (su_counters x)));
       ("fallbacks", JNumber (pc_fallbacks_taken (su_counters x)))]);
    ("semantic_digest", JString (su_semantic_digest x))].

Definition violation_document (v : InvariantViolation) : Json :=
  JObject [("name", JString (iv_name v)); ("detail", JString (iv_detail v))].

Definition report_document (r : InvariantReport) : Json :=
  JObject [("ok", JBool (is_empty (ir_violations r))); ("checks", JNumber (ir_checks_run r));
    ("violations", JArray (violation_document <$> ir_violations r))].

Lemma trust_unescaped x : unescaped (TrustDomain.to_string x). Proof. by destruct x. Qed.
Lemma health_unescaped x : unescaped (HealthState.to_string x). Proof. by destruct x. Qed.
Lemma availability_unescaped x : unescaped (AvailabilityState.to_string x). Proof. by destruct x. Qed.
Lemma readiness_unescaped x : unescaped (ReadinessState.to_string x). Proof. by destruct x. Qed.
Lemma residency_unescaped x : unescaped (ResidencyState.to_string x). Proof. by destruct x. Qed.
Lemma capacity_unescaped x : unescaped (CapacityState.to_string x). Proof. by destruct x. Qed.
Lemma provenance_unescaped x : unescaped (Provenance.to_string x). Proof. by destruct x. Qed.
Lemma status_unescaped x : unescaped (RouteStatus.to_string x). Proof. by destruct x. Qed.

Lemma backend_summary_rendered b : backend_summary_to_json b = render (backend_summary_document b).
Proof.
  unfold backend_summary_to_json, backend_summary_document. spread.
  rewrite trust_unescaped, health_unescaped, availability_unescaped, readiness_unescaped, residency_unescaped,
    capacity_unescaped, provenance_unescaped. reflexivity.
Qed.

Lemma route_summary_rendered r :
  unescaped (rs_semantic_digest r) -> route_summary_to_json r = render (route_summary_document r).
Proof.
  intros H. unfold route_summary_to_json, route_summary_document. spread.
  rewrite H, status_unescaped, outcome_unescaped, currentness_unescaped. reflexivity.
Qed.

(** The digests a snapshot copies from the retained decisions are not escaped. *)
Definition plain_routes (x : RouterSnapshot) : Prop :=
  unescaped (sn_semantic_digest x) /\ Forall (fun r => unescaped (rs_semantic_digest r)) (sn_routes x).

Lemma snapshot_rendered x : plain_routes x -> snapshot_to_json x = render (snapshot_document x).
Proof.
  intros [Hd Hr]. unfold snapshot_to_json, snapshot_document. cbn [render map fst snd].
  rewrite (map_rendered backend_summary_to_json) by apply backend_summary_rendered.
  rewrite (map_rendered_all route_summary_to_json) by (eapply Forall_impl; [exact Hr|apply route_summary_rendered]).
  rewrite Hd, currentness_unescaped. spread. reflexivity.
Qed.

Lemma summary_rendered x : unescaped (su_semantic_digest x) -> summary_to_json x = render (summary_document x).
Proof. intros H. unfold summary_to_json, summary_document. spread. rewrite H. reflexivity. Qed.

(** The scan writes its own names and numbers only. *)
Definition plain_violation (v : InvariantViolation) : Prop := unescaped (iv_name v) /\ unescaped (iv_detail v).
Definition plain_violations (l : list InvariantViolation) : Prop := Forall plain_violation l.

Lemma violation_rendered v : plain_violation v -> violation_to_json v = render (violation_document v).
Proof. intros [Hn Hd]. unfold violation_to_json, violation_document. spread. rewrite Hn, Hd. reflexivity. Qed.

Lemma report_rendered r : plain_violations (ir_violations r) -> report_to_json r = render (report_document r).
Proof.
  intros H. unfold report_to_json, report_document. cbn [render map fst snd].
  rewrite (map_rendered_all violation_to_json) by (eapply Forall_impl; [exact H|apply violation_rendered]).
  spread. reflexivity.
Qed.

Lemma plain_nil : plain_violations [].
Proof. constructor. Qed.
Lemma plain_if c name detail : unescaped name -> unescaped detail -> plain_violations (violate_if c name detail).
Proof. intros Hn Hd. unfold violate_if. destruct c; repeat constructor; done. Qed.
Lemma plain_app l1 l2 : plain_violations l1 -> plain_violations l2 -> plain_violations (l1 ++ l2).
Proof. apply Forall_app_2. Qed.
Lemma plain_bind {A} (f : A -> list InvariantViolation) (l : list A) :
  (forall x, plain_violations (f x)) -> plain_violations (l ≫= f).
Proof. intros H. induction l; [apply plain_nil|]. rewrite bind_cons. by apply plain_app. Qed.
Lemma plain_repeats {A K} `{EqDecision K} (key : A -> K) report seen l :
  (forall x, plain_violations (report x)) -> plain_violations (repeats key report seen l).
Proof.
  intros H. revert seen. induction l; intros seen; cbn [repeats]; [apply plain_nil|].
  apply plain_app; [|done]. case_bool_decide; [done|apply plain_nil].
Qed.

Lemma about_unescaped id text : unescaped text -> unescaped (about id text).
Proof. intros H. unfold about. auto with unescaped. Qed.
Lemma about_current_unescaped id text : unescaped text -> unescaped (about_current id text).
Proof. intros H. unfold about_current. auto with unescaped. Qed.
#[local] Hint Resolve plain_nil plain_if plain_app plain_bind plain_repeats about_unescaped about_current_unescaped
  : unescaped.

Lemma check_current_plain now s id d : plain_violations (check_current now s id d).
Proof.
  unfold check_current. cbv zeta. destruct (cs_models s !! _) as [m|]; [|auto 20 with unescaped].
  destruct (cs_backends s !! _) as [b|]; [|auto 20 with unescaped].
  unfold check_policy. destruct (find_binding _ _); auto 20 with unescaped.
Qed.

Lemma check_retained_plain id r : plain_violations (check_retained id r).
Proof. unfold check_retained. cbv zeta. auto 30 with unescaped. Qed.

Lemma check_invariants_plain now s : plain_violations (ir_violations (check_invariants now s)).
Proof.
  unfold check_invariants. cbn [ir_violations]. unfold plain_violations. rewrite stable_sort_perm.
  fold (plain_violations (found_violations now s)).
  unfold found_violations, check_epochs, check_incarnations, check_fences, check_model_watermarks,
    check_backend_watermarks, check_indexes, check_bounds, check_shutdown. cbv zeta.
  repeat apply plain_app; auto 20 with unescaped;
    apply plain_bind; try (intros []); auto 20 with unescaped.
  unfold check_route. apply plain_app; [apply check_retained_plain|].
  destruct (is_current _); [apply check_current_plain|apply plain_nil].
Qed.

(** ** What the reports are *)

Lemma snapshot_plain now s :
  (forall id r, cs_routes s !! id = Some r -> unescaped (rx_semantic_digest (de_explanation (rec_decision r)))) ->
  plain_routes (snapshot now s).
Proof.
  intros H. split; [apply unescaped_hex|]. cbn [snapshot sn_routes]. apply Forall_fmap, Forall_forall.
  intros r Hr. unfold ordered_values in Hr. apply elem_of_entries_2 in Hr as (id & Hr). exact (H id r Hr).
Qed.

(** C39: Five of the texts the library writes are one JSON document each, and a
    reader that follows the grammar gets back exactly the values they were
    written from: the explanation of a call, the explanation of a route, the
    report of the invariant scan, a snapshot and a summary.  Every text in them
    is escaped, except for the two digests of a route explanation: for a route
    explanation and a snapshot, the digests they show are assumed to hold no
    character that needs escaping, and with a quotation mark for a digest what is
    written is not JSON. *)
Theorem reports_are_json :
  (forall e, read_json (explanation_to_json e) = Some (explanation_document e)) /\
  (forall e, plain_digests e -> read_json (route_explanation_to_json e) = Some (route_explanation_document e)) /\
  (forall now s, read_json (report_to_json (check_invariants now s)) = Some (report_document (check_invariants now s))) /\
  (forall now s,
     (forall id r, cs_routes s !! id = Some r -> unescaped (rx_semantic_digest (de_explanation (rec_decision r)))) ->
     read_json (snapshot_to_json (snapshot now s)) = Some (snapshot_document (snapshot now s))) /\
  (forall s, read_json (summary_to_json (summary s)) = Some (summary_document (summary s))) /\
  read_json (route_explanation_to_json (route_explanation_default <| rx_semantic_digest := str1 dquote |>)) = None.
Proof.
  split_and!; [intros..|vm_compute; reflexivity].
  - apply explanation_reads.
  - by apply route_explanation_reads.
  - rewrite report_rendered by apply check_invariants_plain. apply read_json_render.
  - rewrite snapshot_rendered by by apply snapshot_plain. apply read_json_render.
  - rewrite summary_rendered by apply unescaped_hex. apply read_json_render.
Qed.

(** ** What a snapshot shows *)

Lemma sorted_NoDup_strict {A} (ltb : A -> A -> bool) `{!TotalB ltb} (l : list A) :
  sorted_by ltb l -> NoDup l -> strictly_sorted_by ltb l.
Proof.
  unfold sorted_by, strictly_sorted_by. induction 1 as [|x l Hl IH Hx]; [constructor|].
  intros [Hn Hd]%NoDup_cons. constructor; [by apply IH|]. apply Forall_forall. intros y Hy.
  rewrite Forall_forall in Hx. specialize (Hx y Hy). unfold not_after in Hx.
  destruct (ltb x y) eqn:E; [done|]. exfalso. apply Hn. by rewrite (total_eq x y E Hx).
Qed.

(** The values of a map whose keys they carry, in the order of those keys. *)
Lemma ordered_keys `{Countable K} {A} (ltb : K -> K -> bool) `{!TotalB ltb} (key : A -> K) (m : gmap K A) :
  (forall k x, m !! k = Some x -> key x = k) ->
  strictly_sorted_by ltb (key <$> ordered_values ltb m) /\
  (forall k, k ∈ key <$> ordered_values ltb m <-> is_Some (m !! k)).
Proof.
  intros Hk. assert (E : key <$> ordered_values ltb m = (entries ltb m).*1).
  { unfold ordered_values. rewrite <- list_fmap_compose. apply list_fmap_ext.
    intros i [k x] Hx%list_elem_of_lookup_2%elem_of_entries. by apply Hk. }
  rewrite E. split.
  - assert (Hs : sorted_by ltb (entries ltb m).*1) by apply sorted_by_fmap, stable_sort_sorted, (swb_on ltb fst).
    apply (sorted_NoDup_strict ltb _ Hs), entries_NoDup.
  - intros k. rewrite list_elem_of_fmap. split.
    + intros ([k' x] & -> & Hx%elem_of_entries). by exists x.
    + intros [x Hx]. exists (k, x). by rewrite elem_of_entries.
Qed.

Lemma raised_bound {t} (l : list (Generation t)) g :
  value g <= value (raised l g) /\ Forall (fun x => value x <= value (raised l g)) l.
Proof.
  revert g. induction l as [|x l IH]; intros g; [by split; [|constructor]|].
  cbn [raised fold_left]. fold (raised l (if id_ltb g x then x else g)).
  destruct (IH (if id_ltb g x then x else g)) as [H1 H2]. unfold id_ltb in *.
  destruct (Z.ltb_spec (value g) (value x)); (split; [lia|constructor; [lia|exact H2]]).
Qed.

(** In a well-formed router whose registered incarnations are not fenced -
    every state its calls can reach - a snapshot shows each registered backend
    once and each retained decision once, both in the order of their identities;
    it shows no backend as fenced; and the capability and price generations it
    carries are at least those of every backend. *)
Theorem snapshot_shows_state (now : UnixMillis) (s : CanonicalState)
    (Hwf : router_wf s) (Hf : fences_respected s)
    (Hr : forall id r, cs_routes s !! id = Some r -> de_decision_id (rec_decision r) = id) :
  let x := snapshot now s in
  strictly_sorted_by id_ltb (bs_backend_id <$> sn_backends x) /\
  (forall id, id ∈ bs_backend_id <$> sn_backends x <-> is_Some (cs_backends s !! id)) /\
  strictly_sorted_by id_ltb (rs_decision_id <$> sn_routes x) /\
  (forall id, id ∈ rs_decision_id <$> sn_routes x <-> is_Some (cs_routes s !! id)) /\
  Forall (fun b => bs_fenced b = false) (sn_backends x) /\
  (forall id b, cs_backends s !! id = Some b ->
     backend_summary now s b ∈ sn_backends x /\
     value (bd_capability_generation b) <= value (sn_capability_generation x) /\
     Forall (fun binding => value (co_price_generation (mb_cost binding)) <= value (sn_price_generation x))
       (bd_model_bindings b)).
Proof.
  intros x. subst x. cbn [snapshot sn_backends sn_routes sn_capability_generation sn_price_generation].
  destruct (ordered_keys id_ltb bd_backend_id (cs_backends s) (wf_keyed s Hwf)) as [Hb1 Hb2].
  destruct (ordered_keys id_ltb (fun r => de_decision_id (rec_decision r)) (cs_routes s) Hr) as [Hr1 Hr2].
  assert (Hin : forall b, b ∈ ordered_values id_ltb (cs_backends s) <-> exists id, cs_backends s !! id = Some b)
    by (intros b; apply elem_of_entries_2).
  rewrite <- !list_fmap_compose. split_and!; [exact Hb1|exact Hb2|exact Hr1|exact Hr2| |].
  - apply Forall_fmap, Forall_forall. intros b (id & Hb)%Hin. cbn. rewrite (wf_keyed s Hwf _ _ Hb). by apply (Hf id).
  - intros id b Hb. assert (Hb' : b ∈ ordered_values id_ltb (cs_backends s)) by (apply Hin; by exists id).
    split_and!; [by apply list_elem_of_fmap_2| |].
    + destruct (raised_bound (capability_generations (ordered_values id_ltb (cs_backends s))) none) as [_ H].
      rewrite Forall_forall in H. by apply H, list_elem_of_fmap_2.
    + destruct (raised_bound (price_generations (ordered_values id_ltb (cs_backends s))) none) as [_ H].
      rewrite Forall_forall in H. apply Forall_forall. intros binding Hbin. apply H, list_elem_of_bind. exists b.
      split; [|done]. by apply (list_elem_of_fmap_2 (fun binding => co_price_generation (mb_cost binding))).
Qed.

(** The digest of a snapshot writes its numbers without separators: routers with
    different identities and epochs share it. *)
Lemma snapshot_digest_collides :
  let one := canonical_state_default <| cs_router_id := EntityIdOf 1 |> <| cs_router_epoch := GenerationOf 12 |> in
  let other := canonical_state_default <| cs_router_id := EntityIdOf 11 |> <| cs_router_epoch := GenerationOf 2 |> in
  sn_router_id (snapshot 0 one) <> sn_router_id (snapshot 0 other) /\
  sn_semantic_digest (snapshot 0 one) = sn_semantic_digest (snapshot 0 other).
Proof. split; [done|]. vm_compute. reflexivity. Qed.

(** ** Samples *)

Lemma retaining_digests catalog :
  forall id r, cs_routes (retaining catalog) !! id = Some r ->
    unescaped (rx_semantic_digest (de_explanation (rec_decision r))).
Proof. intros id r Hr. simpl in Hr. apply lookup_singleton_Some in Hr as [_ <-]. reflexivity. Qed.

Lemma reports_are_json_witness :
  read_json (route_explanation_to_json route_explanation_default) =
    Some (route_explanation_document route_explanation_default) /\
  read_json (snapshot_to_json (snapshot 100 (retaining inspected_catalog))) =
    Some (snapshot_document (snapshot 100 (retaining inspected_catalog))).
Proof.
  destruct reports_are_json as (_ & He & _ & Hs & _). split.
  - apply He. by split.
  - apply (Hs 100 (retaining inspected_catalog)), retaining_digests.
Defined.

Lemma retaining_named catalog :
  forall id r, cs_routes (retaining catalog) !! id = Some r -> de_decision_id (rec_decision r) = id.
Proof. intros id r Hr. simpl in Hr. apply lookup_singleton_Some in Hr as [<- <-]. reflexivity. Qed.

Lemma snapshot_shows_state_witness :
  let x := snapshot 100 (retaining inspected_catalog) in
  length (sn_backends x) = 1%nat /\ length (sn_routes x) = 1%nat /\
  Forall (fun b => bs_fenced b = false) (sn_backends x).
Proof.
  intros x. do 2 (split; [vm_compute; reflexivity|]).
  apply (snapshot_shows_state 100 (retaining inspected_catalog)).
  - apply retaining_wf, inspected_wf.
  - apply inspected_fences.
  - apply retaining_named.
Defined.
