(* ===== verification/Frame.v ===== *)
(** * Frames of the wire protocol ([distributed/protocol.hpp], [distributed/protocol.cpp])

    The fixed header, its two checksums, and how a frame is encoded, checked and
    decoded.  The output pointers of the code are never null here; a function
    that answers false with a text is a value [inl text]. *)
From S2P Require Import Prelude Bytes Limits Crc32c.

(** ** Message types *)

Module MessageType.
Inductive t :=
  | INVALID | HELLO | HELLO_ACK | BACKEND_REGISTER | BACKEND_REGISTER_ACK | CAPABILITY_PUBLISH | HEALTH_UPDATE
  | AVAILABILITY_UPDATE | READINESS_UPDATE | RESIDENCY_UPDATE | CAPACITY_UPDATE | LATENCY_UPDATE | COST_UPDATE
  | ROUTE_REQUEST | ROUTE_RESPONSE | DISPATCH | DISPATCH_RESULT | COMPLETION | FENCE | PING | PONG | BYE
  | ERROR_MESSAGE | SNAPSHOT_REQUEST | SNAPSHOT_RESPONSE | ADMIN_REQUEST | ADMIN_RESPONSE | kCount.

#[export] Instance eq_dec : EqDecision t.
Proof. solve_decision. Defined.

(** [static_cast] to the underlying integer. *)
Definition index (m : t) : Z :=
  match m with
  | INVALID => 0 | HELLO => 1 | HELLO_ACK => 2 | BACKEND_REGISTER => 3 | BACKEND_REGISTER_ACK => 4
  | CAPABILITY_PUBLISH => 5 | HEALTH_UPDATE => 6 | AVAILABILITY_UPDATE => 7 | READINESS_UPDATE => 8
  | RESIDENCY_UPDATE => 9 | CAPACITY_UPDATE => 10 | LATENCY_UPDATE => 11 | COST_UPDATE => 12
  | ROUTE_REQUEST => 13 | ROUTE_RESPONSE => 14 | DISPATCH => 15 | DISPATCH_RESULT => 16 | COMPLETION => 17
  | FENCE => 18 | PING => 19 | PONG => 20 | BYE => 21 | ERROR_MESSAGE => 22 | SNAPSHOT_REQUEST => 23
  | SNAPSHOT_RESPONSE => 24 | ADMIN_REQUEST => 25 | ADMIN_RESPONSE => 26 | kCount => 27
  end.

(** [kTypeNames]. *)
Definition names : list string := [
  "INVALID"; "HELLO"; "HELLO_ACK"; "BACKEND_REGISTER"; "BACKEND_REGISTER_ACK"; "CAPABILITY_PUBLISH";
  "HEALTH_UPDATE"; "AVAILABILITY_UPDATE"; "READINESS_UPDATE"; "RESIDENCY_UPDATE"; "CAPACITY_UPDATE";
  "LATENCY_UPDATE"; "COST_UPDATE"; "ROUTE_REQUEST"; "ROUTE_RESPONSE"; "DISPATCH"; "DISPATCH_RESULT"; "COMPLETION";
  "FENCE"; "PING"; "PONG"; "BYE"; "ERROR_MESSAGE"; "SNAPSHOT_REQUEST"; "SNAPSHOT_RESPONSE"; "ADMIN_REQUEST";
  "ADMIN_RESPONSE"].

Definition to_string (m : t) : string := nth (Z.to_nat (index m)) names "UNKNOWN".
End MessageType.
Export (hints) MessageType.

(** ** Headers and frames *)

Definition frame_magic : Z := 1297241158.
Definition frame_header_bytes : nat := 24.
Definition protocol_version : Z := 1.

Record FrameHeader := {
  fh_magic : Z;
  fh_protocol_version : Z;
  fh_message_type : Z;
  fh_flags : Z;
  fh_payload_bytes : Z;
  fh_header_crc32c : Z;
  fh_payload_crc32c : Z
}.
#[export] Instance frame_header_eta : Eta FrameHeader := fun h =>
  {| fh_magic := fh_magic h; fh_protocol_version := fh_protocol_version h; fh_message_type := fh_message_type h;
     fh_flags := fh_flags h; fh_payload_bytes := fh_payload_bytes h; fh_header_crc32c := fh_header_crc32c h;
     fh_payload_crc32c := fh_payload_crc32c h |}.

Definition frame_header_default : FrameHeader :=
  {| fh_magic := frame_magic; fh_protocol_version := 0; fh_message_type := 0; fh_flags := 0; fh_payload_bytes := 0;
     fh_header_crc32c := 0; fh_payload_crc32c := 0 |}.

Record Frame := { fr_header : FrameHeader; fr_payload : list Z }.

Definition bytes_size (bytes : list Z) : Z := Z.of_nat (length bytes).

Definition put_header (h : FrameHeader) : list Z :=
  le_bytes 4 (fh_magic h) ++ le_bytes 2 (fh_protocol_version h) ++ le_bytes 2 (fh_message_type h) ++
  le_bytes 4 (fh_flags h) ++ le_bytes 4 (fh_payload_bytes h) ++ le_bytes 4 (fh_header_crc32c h) ++
  le_bytes 4 (fh_payload_crc32c h).

Definition header_u32 (bytes : list Z) (offset : nat) : Z := le_word (take 4 (drop offset bytes)).
Definition header_u16 (bytes : list Z) (offset : nat) : Z := le_word (take 2 (drop offset bytes)).

Definition known_type (type_index : Z) : bool :=
  negb ((type_index =? 0) || (MessageType.index MessageType.kCount <=? type_index)).

(** The header that is sent: the length and the two checksums are computed. *)
Definition completed_header (f : Frame) : FrameHeader :=
  let header := (fr_header f) <| fh_payload_bytes := word32 (bytes_size (fr_payload f)) |>
    <| fh_payload_crc32c := crc32c (fr_payload f) |> in
  header <| fh_header_crc32c := crc32c (take 16 (put_header header)) |>.

Definition encode_frame (limits : ResourceLimits) (f : Frame) : string + list Z :=
  let h := fr_header f in
  return_if negb (fh_magic h =? frame_magic) with inl "frame magic is not the protocol magic" ;;
  return_if negb (fh_protocol_version h =? protocol_version) with inl "frame protocol version is not supported" ;;
  return_if negb (known_type (fh_message_type h)) with inl "frame message type is not a known message type" ;;
  return_if (max_frame_payload_bytes limits <? bytes_size (fr_payload f)) ||
            (max_payload_bytes limits <? bytes_size (fr_payload f))
    with inl "frame payload exceeds the configured limit" ;;
  let out := put_header (completed_header f) ++ fr_payload f in
  return_if max_frame_bytes limits <? bytes_size out with inl "encoded frame exceeds the configured byte limit" ;;
  inr out.

Definition decode_header (limits : ResourceLimits) (bytes : list Z) : string + FrameHeader :=
  return_if bytes_size bytes <? Z.of_nat frame_header_bytes with inl "frame header is truncated" ;;
  let magic := header_u32 bytes 0 in
  return_if negb (magic =? frame_magic) with inl "frame magic does not match" ;;
  let version := header_u16 bytes 4 in
  return_if negb (version =? protocol_version) with inl "frame protocol version is not supported" ;;
  let type := header_u16 bytes 6 in
  return_if negb (known_type type) with inl "frame message type is not a known message type" ;;
  let stored_crc := header_u32 bytes 16 in
  let computed_crc := crc32c (take 16 bytes) in
  return_if negb (stored_crc =? computed_crc) with inl "frame header checksum mismatch" ;;
  let payload_bytes := header_u32 bytes 12 in
  return_if (max_frame_payload_bytes limits <? payload_bytes) || (max_payload_bytes limits <? payload_bytes)
    with inl "declared frame payload length exceeds the configured limit" ;;
  inr {| fh_magic := magic; fh_protocol_version := version; fh_message_type := type;
         fh_flags := header_u32 bytes 8; fh_payload_bytes := payload_bytes; fh_header_crc32c := stored_crc;
         fh_payload_crc32c := header_u32 bytes 20 |}.

Definition decode_frame (limits : ResourceLimits) (bytes : list Z) : string + Frame :=
  match decode_header limits bytes with
  | inl error => inl error
  | inr header =>
      let expected := Z.of_nat frame_header_bytes + fh_payload_bytes header in
      return_if negb (bytes_size bytes =? expected)
        with inl (if bytes_size bytes <? expected then "frame is truncated" else "frame has trailing bytes") ;;
      let payload := take (Z.to_nat (fh_payload_bytes header)) (drop frame_header_bytes bytes) in
      return_if negb (crc32c payload =? fh_payload_crc32c header) with inl "frame payload checksum mismatch" ;;
      inr {| fr_header := header; fr_payload := payload |}
  end.

(** ** Headers as bytes *)

Record header_fits (h : FrameHeader) : Prop := {
  fits_magic : is_u32 (fh_magic h);
  fits_version : 0 <= fh_protocol_version h < 65536;
  fits_type : 0 <= fh_message_type h < 65536;
  fits_flags : is_u32 (fh_flags h);
  fits_payload : is_u32 (fh_payload_bytes h);
  fits_header_crc : is_u32 (fh_header_crc32c h);
  fits_payload_crc : is_u32 (fh_payload_crc32c h)
}.

Lemma put_header_length h : length (put_header h) = frame_header_bytes.
Proof. reflexivity. Qed.

Lemma le_word_u32 x : is_u32 x -> le_word (le_bytes 4 x) = x.
Proof. intros H. rewrite le_word_bytes. by apply Z.mod_small. Qed.
Lemma le_word_u16 x : 0 <= x < 65536 -> le_word (le_bytes 2 x) = x.
Proof. intros H. rewrite le_word_bytes. by apply Z.mod_small. Qed.

(** The fields of a header are found where it was put. *)
Lemma header_fields h rest :
  header_fits h ->
  header_u32 (put_header h ++ rest) 0 = fh_magic h /\ header_u16 (put_header h ++ rest) 4 = fh_protocol_version h /\
  header_u16 (put_header h ++ rest) 6 = fh_message_type h /\ header_u32 (put_header h ++ rest) 8 = fh_flags h /\
  header_u32 (put_header h ++ rest) 12 = fh_payload_bytes h /\
  header_u32 (put_header h ++ rest) 16 = fh_header_crc32c h /\
  header_u32 (put_header h ++ rest) 20 = fh_payload_crc32c h.
Proof. intros []. split_and!; first [by apply le_word_u32 | by apply le_word_u16]. Qed.

(** And a header read from 24 bytes is put back as those bytes. *)
Lemma put_read_header bytes :
  Forall is_byte bytes -> (frame_header_bytes <= length bytes)%nat ->
  put_header {| fh_magic := header_u32 bytes 0; fh_protocol_version := header_u16 bytes 4;
    fh_message_type := header_u16 bytes 6; fh_flags := header_u32 bytes 8; fh_payload_bytes := header_u32 bytes 12;
    fh_header_crc32c := header_u32 bytes 16; fh_payload_crc32c := header_u32 bytes 20 |} = take 24 bytes.
Proof.
  intros Hb Hl. assert (Hp : forall n k, (k + n <= length bytes)%nat -> le_bytes n (le_word (take n (drop k bytes))) = take n (drop k bytes)).
  { intros n k Hk. rewrite <- (le_bytes_word (take n (drop k bytes))) at 2 by by apply Forall_take, Forall_drop.
    by rewrite length_take, length_drop, Nat.min_l by lia. }
  unfold put_header, header_u32, header_u16, frame_header_bytes in *. cbn [fh_magic fh_protocol_version fh_message_type fh_flags fh_payload_bytes fh_header_crc32c fh_payload_crc32c].
  rewrite !Hp by lia. rewrite drop_0.
  repeat (rewrite app_assoc, take_take_drop; cbn [Nat.add]). by rewrite take_take_drop.
Qed.

(** ** What a decoded frame satisfies *)

Record frame_checked (limits : ResourceLimits) (bytes : list Z) (f : Frame) : Prop := {
  checked_length : (frame_header_bytes <= length bytes)%nat;
  checked_bytes : bytes = take 24 bytes ++ fr_payload f;
  checked_magic : fh_magic (fr_header f) = frame_magic;
  checked_version : fh_protocol_version (fr_header f) = protocol_version;
  checked_type : known_type (fh_message_type (fr_header f)) = true;
  checked_size : fh_payload_bytes (fr_header f) = bytes_size (fr_payload f);
  checked_limits : bytes_size (fr_payload f) <= max_frame_payload_bytes limits /\
                   bytes_size (fr_payload f) <= max_payload_bytes limits;
  checked_header_crc : fh_header_crc32c (fr_header f) = crc32c (take 16 bytes);
  checked_payload_crc : fh_payload_crc32c (fr_header f) = crc32c (fr_payload f);
  checked_header : fr_header f =
    {| fh_magic := header_u32 bytes 0; fh_protocol_version := header_u16 bytes 4;
       fh_message_type := header_u16 bytes 6; fh_flags := header_u32 bytes 8;
       fh_payload_bytes := header_u32 bytes 12; fh_header_crc32c := header_u32 bytes 16;
       fh_payload_crc32c := header_u32 bytes 20 |}
}.

Lemma decode_frame_checked limits bytes f : decode_frame limits bytes = inr f <-> frame_checked limits bytes f.
Proof.
  unfold decode_frame, decode_header. cbv zeta. split.
  - destruct (Z.ltb_spec (bytes_size bytes) (Z.of_nat frame_header_bytes)); [done|].
    destruct (Z.eqb_spec (header_u32 bytes 0) frame_magic) as [E1|]; [|done].
    destruct (Z.eqb_spec (header_u16 bytes 4) protocol_version) as [E2|]; [|done].
    destruct (known_type (header_u16 bytes 6)) eqn:E3; [|done].
    destruct (Z.eqb_spec (header_u32 bytes 16) (crc32c (take 16 bytes))) as [E4|]; [|done].
    destruct (Z.ltb_spec (max_frame_payload_bytes limits) (header_u32 bytes 12)); [done|].
    destruct (Z.ltb_spec (max_payload_bytes limits) (header_u32 bytes 12)); [done|].
    cbn [negb orb fh_payload_bytes fh_payload_crc32c].
    destruct (Z.eqb_spec (bytes_size bytes) (Z.of_nat frame_header_bytes + header_u32 bytes 12)) as [E5|]; [|done].
    cbn [negb]. unfold bytes_size, frame_header_bytes in *.
    assert (Ed : take (Z.to_nat (header_u32 bytes 12)) (drop 24 bytes) = drop 24 bytes).
    { apply take_ge. rewrite length_drop. lia. }
    rewrite Ed. destruct (Z.eqb_spec (crc32c (drop 24 bytes)) (header_u32 bytes 20)) as [E6|]; [|done].
    cbn [negb]. intros [= <-]. split; cbn; unfold bytes_size, frame_header_bytes; rewrite ?length_drop; try done; try lia.
    by rewrite take_drop.
  - intros [Hl Hb H1 H2 H3 H4 [H5 H6] H7 H8 Hh]. rewrite Hh in H1, H2, H3, H4, H7, H8. cbn in H1, H2, H3, H4, H7, H8.
    unfold frame_header_bytes in Hl.
    assert (Ed : drop 24 bytes = fr_payload f).
    { rewrite Hb at 1. apply drop_app_length'. rewrite length_take. lia. }
    assert (Es : bytes_size bytes = 24 + bytes_size (fr_payload f)).
    { unfold bytes_size. rewrite <- Ed, length_drop. lia. }
    rewrite H1, H2, H3, H4, H7, Es, !Z.eqb_refl.
    destruct (Z.ltb_spec (24 + bytes_size (fr_payload f)) (Z.of_nat frame_header_bytes)) as [H|_].
    { unfold bytes_size, frame_header_bytes in H. lia. }
    destruct (Z.ltb_spec (max_frame_payload_bytes limits) (bytes_size (fr_payload f))); [lia|].
    destruct (Z.ltb_spec (max_payload_bytes limits) (bytes_size (fr_payload f))); [lia|].
    cbn [negb orb fh_payload_bytes fh_payload_crc32c]. change (Z.of_nat frame_header_bytes) with 24.
    rewrite Z.eqb_refl. cbn [negb]. change frame_header_bytes with 24%nat. rewrite Ed.
    unfold bytes_size. rewrite Nat2Z.id, firstn_all, <- H8, Z.eqb_refl. cbn [negb].
    destruct f as [h p]. cbn in Hh. rewrite Hh. rewrite H1, H2, H4, H7. done.
Qed.

Lemma word32_id x : is_u32 x -> word32 x = x.
Proof.
  intros H. unfold word32. change u32_max with (Z.ones 32). rewrite Z.land_ones by lia. by apply Z.mod_small.
Qed.

(** A header whose fields have the width of their types is completed within it. *)
Lemma completed_fits limits f bytes :
  is_u32 (max_payload_bytes limits) -> header_fits (fr_header f) -> encode_frame limits f = inr bytes ->
  header_fits (completed_header f) /\ fh_payload_bytes (completed_header f) = bytes_size (fr_payload f) /\
  bytes = put_header (completed_header f) ++ fr_payload f /\ bytes_size bytes <= max_frame_bytes limits /\
  fh_magic (fr_header f) = frame_magic /\ fh_protocol_version (fr_header f) = protocol_version /\
  known_type (fh_message_type (fr_header f)) = true /\
  bytes_size (fr_payload f) <= max_frame_payload_bytes limits /\ bytes_size (fr_payload f) <= max_payload_bytes limits.
Proof.
  intros Hl Hf. unfold encode_frame. cbv zeta.
  destruct (Z.eqb_spec (fh_magic (fr_header f)) frame_magic) as [E1|]; [|done].
  destruct (Z.eqb_spec (fh_protocol_version (fr_header f)) protocol_version) as [E2|]; [|done].
  destruct (known_type (fh_message_type (fr_header f))) eqn:E3; [|done].
  destruct (Z.ltb_spec (max_frame_payload_bytes limits) (bytes_size (fr_payload f))); [done|].
  destruct (Z.ltb_spec (max_payload_bytes limits) (bytes_size (fr_payload f))); [done|].
  destruct (Z.ltb_spec (max_frame_bytes limits) (bytes_size (put_header (completed_header f) ++ fr_payload f))); [done|].
  cbn [negb orb]. intros E%(inj inr). subst bytes.
  assert (Es : word32 (bytes_size (fr_payload f)) = bytes_size (fr_payload f)).
  { apply word32_id. unfold is_u32, bytes_size in *. lia. }
  split_and!; try done. destruct Hf. split; cbn; rewrite ?Es; try done.
  - unfold is_u32, bytes_size in *. lia.
  - apply crc32c_u32.
  - apply crc32c_u32.
Qed.

#[local] Opaque crc32c.
Lemma completed_header_crc f rest :
  fh_header_crc32c (completed_header f) = crc32c (take 16 (put_header (completed_header f) ++ rest)).
Proof. reflexivity. Qed.
Lemma completed_payload_crc f : fh_payload_crc32c (completed_header f) = crc32c (fr_payload f).
Proof. reflexivity. Qed.
Lemma completed_constants f :
  fh_magic (completed_header f) = fh_magic (fr_header f) /\
  fh_protocol_version (completed_header f) = fh_protocol_version (fr_header f) /\
  fh_message_type (completed_header f) = fh_message_type (fr_header f).
Proof. done. Qed.

(** Completing a header that is complete changes nothing. *)
Lemma completed_same f :
  fh_payload_bytes (fr_header f) = word32 (bytes_size (fr_payload f)) ->
  fh_payload_crc32c (fr_header f) = crc32c (fr_payload f) ->
  fh_header_crc32c (fr_header f) = crc32c (take 16 (put_header (fr_header f))) ->
  completed_header f = fr_header f.
Proof.
  destruct f as [[m v t fl pb hc pc] p]. cbn [fr_header fr_payload fh_payload_bytes fh_payload_crc32c fh_header_crc32c].
  intros -> -> E. unfold completed_header. cbv zeta. cbn [fr_header fr_payload]. 
  symmetry. transitivity {| fh_magic := m; fh_protocol_version := v; fh_message_type := t; fh_flags := fl;
    fh_payload_bytes := word32 (bytes_size p); fh_header_crc32c := hc; fh_payload_crc32c := crc32c p |}; [done|].
  rewrite E at 1. reflexivity.
Qed.

(** ** Round trips *)

Lemma decode_encoded limits f bytes :
  is_u32 (max_payload_bytes limits) -> header_fits (fr_header f) -> encode_frame limits f = inr bytes ->
  decode_frame limits bytes = inr {| fr_header := completed_header f; fr_payload := fr_payload f |}.
Proof.
  intros Hl Hf He.
  destruct (completed_fits limits f bytes Hl Hf He) as (Hc & Es & -> & _ & E1 & E2 & E3 & H1 & H2).
  apply decode_frame_checked.
  destruct (header_fields (completed_header f) (fr_payload f) Hc) as (F1 & F2 & F3 & F4 & F5 & F6 & F7).
  pose proof (completed_header_crc f (fr_payload f)) as Hh. pose proof (completed_payload_crc f) as Hp.
  destruct (completed_constants f) as (C1 & C2 & C3).
  revert Es Hc F1 F2 F3 F4 F5 F6 F7 Hh Hp C1 C2 C3. generalize (completed_header f). intros h Es Hc F1 F2 F3 F4 F5 F6 F7 Hh Hp C1 C2 C3.
  split; cbn [fr_header fr_payload].
  - rewrite length_app, put_header_length. lia.
  - by rewrite (take_app_length' (put_header h) (fr_payload f) 24 eq_refl).
  - by rewrite C1.
  - by rewrite C2.
  - by rewrite C3.
  - exact Es.
  - by split.
  - exact Hh.
  - exact Hp.
  - rewrite F1, F2, F3, F4, F5, F6, F7. by destruct h.
Qed.

(** A frame that could be encoded is decoded to itself, with its length and
    its two checksums filled in. *)
Theorem decode_encoded_frame (limits : ResourceLimits) (f : Frame) (bytes : list Z)
    (Hl : is_u32 (max_payload_bytes limits)) (Hf : header_fits (fr_header f))
    (He : encode_frame limits f = inr bytes) :
  decode_frame limits bytes = inr {| fr_header := completed_header f; fr_payload := fr_payload f |}.
Proof. by apply decode_encoded. Qed.

(** The encoding is canonical: bytes that decode to a frame are the encoding
    of that frame. *)
Theorem encode_decoded_frame (limits : ResourceLimits) (f : Frame) (bytes : list Z)
    (Hb : Forall is_byte bytes) (Hl : is_u32 (max_payload_bytes limits))
    (Hm : bytes_size bytes <= max_frame_bytes limits) (Hd : decode_frame limits bytes = inr f) :
  encode_frame limits f = inr bytes.
Proof.
  apply decode_frame_checked in Hd as [Hlen Hbytes H1 H2 H3 H4 [H5 H6] H7 H8 Hh].
  assert (Eh : put_header (fr_header f) = take 24 bytes) by (rewrite Hh at 1; by apply put_read_header).
  assert (Ec : completed_header f = fr_header f).
  { apply completed_same.
    - rewrite word32_id; [done|]. unfold is_u32, bytes_size in *. lia.
    - exact H8.
    - rewrite Eh, take_take. exact H7. }
  unfold encode_frame. rewrite H1, H2, H3, !Z.eqb_refl, Ec. cbv zeta.
  destruct (Z.ltb_spec (max_frame_payload_bytes limits) (bytes_size (fr_payload f))); [lia|].
  destruct (Z.ltb_spec (max_payload_bytes limits) (bytes_size (fr_payload f))); [lia|].
  rewrite Eh, <- Hbytes. by destruct (Z.ltb_spec (max_frame_bytes limits) (bytes_size bytes)); [lia|].
Qed.

(** ** Corruption *)

Lemma frame_sums limits bytes f :
  decode_frame limits bytes = inr f ->
  (24 <= length bytes)%nat /\ header_u32 bytes 16 = crc32c (take 16 bytes) /\
  header_u32 bytes 20 = crc32c (drop 24 bytes).
Proof.
  intros [Hl Hb _ _ _ _ _ H7 H8 Hh]%decode_frame_checked. unfold frame_header_bytes in Hl.
  assert (Ed : drop 24 bytes = fr_payload f).
  { rewrite Hb at 1. apply drop_app_length'. rewrite length_take. lia. }
  rewrite Hh in H7, H8. cbn in H7, H8. by rewrite Ed.
Qed.

Lemma changed_lookup (l : list Z) i b b' : l !! i = Some b -> <[i := b']> l = l -> b' = b.
Proof.
  intros Hi E. pose proof (list_lookup_insert_eq l i b' (lookup_lt_Some _ _ _ Hi)) as H.
  rewrite E, Hi in H. by injection H.
Qed.

Lemma changed_crc l i b b' :
  Forall is_byte l -> is_byte b' -> l !! i = Some b -> crc32c (<[i := b']> l) = crc32c l -> b' = b.
Proof.
  intros Hl Hb' Hi E. apply dec_stable. intros Hne. revert E.
  rewrite insert_take_drop by by eapply lookup_lt_Some.
  replace (crc32c l) with (crc32c (take i l ++ [b] ++ drop (S i) l)) by by rewrite <- (take_drop_middle l i b Hi) at 3.
  apply (crc32c_burst (take i l) [b'] [b] (drop (S i) l)); try done.
  - by apply Forall_take.
  - by apply Forall_singleton.
  - apply Forall_singleton. by eapply Forall_lookup_1.
  - by apply Forall_drop.
  - simpl. lia.
  - congruence.
Qed.

Lemma changed_word l i b b' :
  Forall is_byte l -> is_byte b' -> l !! i = Some b -> le_word (<[i := b']> l) = le_word l -> b' = b.
Proof.
  intros Hl Hb' Hi E. apply le_word_inj in E; [by eapply changed_lookup|by apply Forall_insert|done|by rewrite length_insert].
Qed.

(** No byte of a frame can be changed without the frame being refused. *)
Theorem changed_byte_is_refused (limits : ResourceLimits) (bytes : list Z) (f : Frame) (i : nat) (b b' : Z)
    (Hbytes : Forall is_byte bytes) (Hb' : is_byte b') (Hd : decode_frame limits bytes = inr f)
    (Hi : bytes !! i = Some b) (Hne : b' <> b) :
  exists error, decode_frame limits (<[i := b']> bytes) = inl error.
Proof.
  destruct (decode_frame limits (<[i := b']> bytes)) as [error|f'] eqn:E; [by exists error|]. destruct Hne.
  apply frame_sums in Hd as (Hl & A & B). apply frame_sums in E as (_ & A' & B').
  unfold header_u32 in *. destruct (decide (i < 16)%nat) as [H|H1]; [|destruct (decide (i < 20)%nat) as [H|H2];
    [|destruct (decide (i < 24)%nat) as [H|H3]]].
  - rewrite drop_insert_lt, A, take_insert_lt in A' by lia.
    eapply (changed_crc (take 16 bytes) i); [by apply Forall_take|done| |by symmetry].
    by rewrite lookup_take_lt.
  - rewrite take_insert_ge, <- A, drop_insert_ge, take_insert_lt in A' by lia.
    eapply (changed_word (take 4 (drop 16 bytes)) (i - 16)); [by apply Forall_take, Forall_drop|done| |done].
    rewrite lookup_take_lt, lookup_drop by lia. by replace (16 + (i - 16))%nat with i by lia.
  - rewrite (drop_insert_lt _ 24), <- B, drop_insert_ge, take_insert_lt in B' by lia.
    eapply (changed_word (take 4 (drop 20 bytes)) (i - 20)); [by apply Forall_take, Forall_drop|done| |done].
    rewrite lookup_take_lt, lookup_drop by lia. by replace (20 + (i - 20))%nat with i by lia.
  - rewrite !drop_insert_ge, take_insert_ge, B in B' by lia.
    eapply (changed_crc (drop 24 bytes) (i - 24)); [by apply Forall_drop|done| |by symmetry].
    rewrite lookup_drop. by replace (24 + (i - 24))%nat with i by lia.
Qed.

(** ** A sample frame *)

Definition ping_frame : Frame :=
  {| fr_header := frame_header_default <| fh_protocol_version := 1 |>
       <| fh_message_type := MessageType.index MessageType.PING |> <| fh_flags := 7 |>;
     fr_payload := [1; 2; 3] |}.
Definition ping_bytes : list Z := Eval vm_compute in
  match encode_frame default_resource_limits ping_frame with inr bytes => bytes | inl _ => [] end.

Lemma ping_fits : header_fits (fr_header ping_frame).
Proof. by split. Qed.
Lemma ping_are_bytes : Forall is_byte ping_bytes.
Proof. apply (bool_decide_unpack _). vm_compute. exact I. Qed.

Definition received_ping : Frame :=
  {| fr_header := completed_header ping_frame; fr_payload := fr_payload ping_frame |}.

Lemma decode_encoded_frame_witness :
  encode_frame default_resource_limits ping_frame = inr ping_bytes /\
  decode_frame default_resource_limits ping_bytes = inr received_ping.
Proof.
  split; [vm_compute; reflexivity|].
  apply decode_encoded_frame; [done|apply ping_fits|vm_compute; reflexivity].
Defined.

Lemma encode_decoded_frame_witness : encode_frame default_resource_limits received_ping = inr ping_bytes.
Proof.
  apply encode_decoded_frame; [apply ping_are_bytes|done|vm_compute; discriminate|vm_compute; reflexivity].
Defined.

Lemma changed_byte_is_refused_witness :
  exists error, decode_frame default_resource_limits (<[5%nat := 9]> ping_bytes) = inl error.
Proof.
  apply (changed_byte_is_refused default_resource_limits ping_bytes received_ping 5 0 9);
    [apply ping_are_bytes|done|vm_compute; reflexivity|reflexivity|discriminate].
Defined.
