(* ===== verification/Transport.v ===== *)
(** * The framed connection ([distributed/transport.cpp], POSIX)

    A session is a state shared by the callers of [send], [receive] and [close]
    and by its own thread, which moves bytes between the socket and the queues.
    Each section under the session's mutex is one step; what the operating
    system answers to [poll], [recv] and [send] is the label of the step. *)
From S2P Require Import Prelude.
From S2P Require Import Bytes.
From S2P Require Import Limits.
From S2P Require Import Request.
From S2P Require Import Frame.

Module CloseReason.
Inductive t := NONE | LOCAL_CLOSE | PEER_CLOSED | TRANSPORT_ERROR | PROTOCOL_ERROR | RESOURCE_LIMIT | kCount.

#[export] Instance eq_dec : EqDecision t.
Proof. solve_decision. Defined.

Definition to_string (r : t) : string :=
  match r with
  | NONE => "NONE"
  | LOCAL_CLOSE => "LOCAL_CLOSE"
  | PEER_CLOSED => "PEER_CLOSED"
  | TRANSPORT_ERROR => "TRANSPORT_ERROR"
  | PROTOCOL_ERROR => "PROTOCOL_ERROR"
  | RESOURCE_LIMIT => "RESOURCE_LIMIT"
  | kCount => "INVALID"
  end.
End CloseReason.
Export (hints) CloseReason.

Record TransportOptions := {
  to_bind_address : string;
  to_port : Z;
  to_limits : ResourceLimits;
  to_max_send_queue_frames : Z;
  to_max_receive_queue_frames : Z;
  to_connect_bound_millis : Z
}.
Definition transport_options_default : TransportOptions :=
  {| to_bind_address := "127.0.0.1"; to_port := 0; to_limits := default_resource_limits;
     to_max_send_queue_frames := 4096; to_max_receive_queue_frames := 4096; to_connect_bound_millis := 0 |}.

(** ** The session *)

(** [ss_socket]: the descriptors have not been released.  [ss_pending_offset]
    is a position in [ss_pending_write]. *)
Record Session := {
  ss_options : TransportOptions;
  ss_socket : bool;
  ss_closed : bool;
  ss_stop_requested : bool;
  ss_reason : CloseReason.t;
  ss_inbound : list Frame;
  ss_outbound : list Frame;
  ss_receive_buffer : list Z;
  ss_pending_write : list Z;
  ss_pending_offset : nat;
  ss_last_error : string;
  ss_frames_sent : Z;
  ss_frames_received : Z;
  ss_bytes_sent : Z;
  ss_bytes_received : Z
}.
#[export] Instance session_eta : Eta Session := fun s =>
  {| ss_options := ss_options s; ss_socket := ss_socket s; ss_closed := ss_closed s;
     ss_stop_requested := ss_stop_requested s; ss_reason := ss_reason s; ss_inbound := ss_inbound s;
     ss_outbound := ss_outbound s; ss_receive_buffer := ss_receive_buffer s;
     ss_pending_write := ss_pending_write s; ss_pending_offset := ss_pending_offset s;
     ss_last_error := ss_last_error s; ss_frames_sent := ss_frames_sent s;
     ss_frames_received := ss_frames_received s; ss_bytes_sent := ss_bytes_sent s;
     ss_bytes_received := ss_bytes_received s |}.

Definition session_open (options : TransportOptions) : Session :=
  {| ss_options := options; ss_socket := true; ss_closed := false; ss_stop_requested := false;
     ss_reason := CloseReason.NONE; ss_inbound := []; ss_outbound := []; ss_receive_buffer := [];
     ss_pending_write := []; ss_pending_offset := 0; ss_last_error := ""; ss_frames_sent := 0;
     ss_frames_received := 0; ss_bytes_sent := 0; ss_bytes_received := 0 |}.

(** The listener's count of live connections, shared by its sessions. *)
Record ConnectionCounter := { cc_active : Z; cc_limit : Z }.
Definition connection_counter_default : ConnectionCounter := {| cc_active := 0; cc_limit := 256 |}.

Definition limits_of (s : Session) : ResourceLimits := to_limits (ss_options s).

Definition set_error (message : string) (s : Session) : Session :=
  if ss_last_error s == "" then s <| ss_last_error := message |> else s.

(** Whoever closes first releases the socket and gives the slot back. *)
Definition mark_closed (reason : CloseReason.t) (message : string) (s : Session) (c : ConnectionCounter)
    : Session * ConnectionCounter :=
  return_if ss_closed s with (s, c) ;;
  (set_error message (s <| ss_closed := true |> <| ss_reason := reason |> <| ss_socket := false |>),
   if 0 <? cc_active c then {| cc_active := cc_active c - 1; cc_limit := cc_limit c |} else c).

(** ** The callers *)

(** [send] on an attached connection; [inl] is the error text. *)
Definition send (f : Frame) (s : Session) : (string + unit) * Session :=
  match encode_frame (limits_of s) f with
  | inl error => (inl error, s)
  | inr _ =>
      let pending := if bool_decide (ss_pending_write s = []) then 0 else 1 in
      return_if ss_closed s with (inl "connection is closed", s) ;;
      return_if to_max_send_queue_frames (ss_options s) <=? Request.size (ss_outbound s) + pending
        with (inl "send queue is full", s) ;;
      (inr tt, s <| ss_outbound := ss_outbound s ++ [f] |>)
  end.

(** [receive] once its wait is over: a frame, the error text, or still waiting. *)
Definition receive (s : Session) : option (string + Frame) * Session :=
  match ss_inbound s with
  | f :: inbound => (Some (inr f), s <| ss_inbound := inbound |>)
  | [] =>
      return_if negb (ss_closed s || ss_stop_requested s) with (None, s) ;;
      (Some (inl (if ss_last_error s == "" then "connection is closed" else ss_last_error s)), s)
  end.

(** The first half of [close]: the thread is asked to stop. *)
Definition request_stop (s : Session) : Session := s <| ss_stop_requested := true |>.

(** The second half, after the thread has been joined. *)
Definition finish_close (s : Session) (c : ConnectionCounter) : Session * ConnectionCounter :=
  mark_closed CloseReason.LOCAL_CLOSE "" s c.

(** ** The session thread *)

(** What [recv] answers: bytes, the end of the stream, or a failure. *)
Inductive Received := ReceivedBytes (bytes : list Z) | ReceivedEnd | ReceivedError.

(** What [poll] answers: the events of the socket, with what [recv] then does. *)
Inductive Polled :=
| PollFailed
| PollReady (hangup : bool) (readable : option Received) (writable : bool).

(** Where the thread is in its loop.  [Stuck]: it has called [set_error], which
    locks the session's mutex, in a section in which it holds that mutex.  What
    [std::mutex] does then is not defined; on POSIX the thread waits for itself,
    for ever, and the mutex stays locked. *)
Inductive Phase := Polling | Writing | Decoding | Ended | Stuck.
#[export] Instance phase_eq_dec : EqDecision Phase.
Proof. solve_decision. Defined.

(** From [poll] to the end of the read. *)
Definition poll_turn (answer : Polled) (s : Session) (c : ConnectionCounter)
    : Phase * Session * ConnectionCounter :=
  let closed reason message := let '(s, c) := mark_closed reason message s c in (Ended, s, c) in
  return_if ss_closed s with closed CloseReason.LOCAL_CLOSE "" ;;
  match answer with
  | PollFailed => closed CloseReason.TRANSPORT_ERROR "poll failed"
  | PollReady hangup readable writable =>
      return_if hangup with closed CloseReason.PEER_CLOSED "peer closed the connection" ;;
      let next := if writable then Writing else Decoding in
      match readable with
      | Some (ReceivedBytes bytes) =>
          (next, s <| ss_bytes_received := word64 (ss_bytes_received s + Z.of_nat (length bytes)) |>
                   <| ss_receive_buffer := ss_receive_buffer s ++ bytes |>, c)
      | Some ReceivedEnd => closed CloseReason.PEER_CLOSED "peer closed the connection"
      | Some ReceivedError | None => (next, s, c)
      end
  end.

(** What is left to write of the frame being written. *)
Definition unsent (s : Session) : list Z := drop (ss_pending_offset s) (ss_pending_write s).

(** One turn of the write loop when there is something to write: [sent] is what
    the system's [send] answers.  The bytes it took are the third result. *)
Definition write_pending (sent : Z) (s : Session) : Phase * Session * list Z :=
  return_if sent <=? 0 with (Decoding, s, []) ;;
  let offset := (ss_pending_offset s + Z.to_nat sent)%nat in
  let taken := take (Z.to_nat sent) (unsent s) in
  let s := s <| ss_pending_offset := offset |> <| ss_bytes_sent := word64 (ss_bytes_sent s + sent) |> in
  (Writing,
   if (length (ss_pending_write s) <=? offset)%nat
   then s <| ss_pending_write := [] |> <| ss_pending_offset := 0%nat |> <| ss_frames_sent := word64 (ss_frames_sent s + 1) |>
   else s, taken).

Definition write_turn (sent : Z) (s : Session) : Phase * Session * list Z :=
  match ss_pending_write s, ss_outbound s with
  | [], [] => (Decoding, s, [])
  | [], f :: outbound =>
      let s := s <| ss_outbound := outbound |> in
      match encode_frame (limits_of s) f with
      | inl _ => (Writing, s, [])
      | inr encoded => write_pending sent (s <| ss_pending_write := encoded |> <| ss_pending_offset := 0%nat |>)
      end
  | _, _ => write_pending sent s
  end.

(** One turn of the loop that decodes complete frames, under the mutex.  A header
    or a frame that is refused is reported with [set_error], which locks the
    mutex again: the thread gets no further, and the assignments that follow (the
    closed flag, the reason, the notification) are never made. *)
Definition decode_turn (s : Session) : Phase * Session :=
  let buffer := ss_receive_buffer s in
  return_if (length buffer <? frame_header_bytes)%nat with (Polling, s) ;;
  match decode_header (limits_of s) (take frame_header_bytes buffer) with
  | inl _ => (Stuck, s)
  | inr header =>
      let total := (frame_header_bytes + Z.to_nat (fh_payload_bytes header))%nat in
      return_if (length buffer <? total)%nat with (Polling, s) ;;
      match decode_frame (limits_of s) (take total buffer) with
      | inl _ => (Stuck, s)
      | inr f =>
          (Decoding, s <| ss_receive_buffer := drop total buffer |> <| ss_inbound := ss_inbound s ++ [f] |>
                       <| ss_frames_received := word64 (ss_frames_received s + 1) |>)
      end
  end.

(** ** A connection as a transition system *)

(** What happens at one end: a section of the session thread, with what the
    system answers, or a call. *)
Inductive Action :=
| DoPoll (answer : Polled)
| DoWrite (sent : Z)
| DoDecode
| DoSend (f : Frame)
| DoReceive
| DoStop
| DoJoin.

(** An end of a connection; [en_accepted] and [en_delivered] are the frames that
    [send] has accepted and [receive] has returned. *)
Record Endpoint := {
  en_session : Session;
  en_phase : Phase;
  en_counter : ConnectionCounter;
  en_accepted : list Frame;
  en_delivered : list Frame
}.
#[export] Instance endpoint_eta : Eta Endpoint := fun e =>
  {| en_session := en_session e; en_phase := en_phase e; en_counter := en_counter e;
     en_accepted := en_accepted e; en_delivered := en_delivered e |}.

Definition endpoint_open (options : TransportOptions) : Endpoint :=
  {| en_session := session_open options; en_phase := Polling; en_counter := connection_counter_default;
     en_accepted := []; en_delivered := [] |}.

(** The action waits for the mutex that a stuck thread holds: [receive] locks it
    first, [send] once the frame has been encoded.  [DoStop] is what [close] does
    before it locks it. *)
Definition waits (a : Action) (e : Endpoint) : bool :=
  (en_phase e == Stuck) &&
  match a with
  | DoSend f => match encode_frame (limits_of (en_session e)) f with inr _ => true | inl _ => false end
  | DoReceive => true
  | _ => false
  end.

(** The end after an action that does not wait, and the bytes the system took
    from it; [None] when the action is not possible. *)
Definition proceed (a : Action) (e : Endpoint) : option (Endpoint * list Z) :=
  let s := en_session e in
  match a, en_phase e with
  | DoPoll answer, Polling =>
      let '(phase, s, c) := poll_turn answer s (en_counter e) in
      Some (e <| en_session := s |> <| en_phase := phase |> <| en_counter := c |>, [])
  | DoWrite sent, Writing =>
      let '(phase, s, taken) := write_turn sent s in Some (e <| en_session := s |> <| en_phase := phase |>, taken)
  | DoDecode, Decoding =>
      let '(phase, s) := decode_turn s in Some (e <| en_session := s |> <| en_phase := phase |>, [])
  | DoSend f, _ =>
      let '(r, s) := send f s in
      Some (e <| en_session := s |>
              <| en_accepted := en_accepted e ++ match r with inr _ => [f] | inl _ => [] end |>, [])
  | DoReceive, _ =>
      let '(r, s) := receive s in
      Some (e <| en_session := s |>
              <| en_delivered := en_delivered e ++ match r with Some (inr f) => [f] | _ => [] end |>, [])
  | DoStop, _ => Some (e <| en_session := request_stop s |>, [])
  | DoJoin, Ended =>
      let '(s, c) := finish_close s (en_counter e) in Some (e <| en_session := s |> <| en_counter := c |>, [])
  | _, _ => None
  end.

Definition act (a : Action) (e : Endpoint) : option (Endpoint * list Z) :=
  return_if waits a e with None ;; proceed a e.

Lemma act_proceeds a e r : act a e = Some r -> proceed a e = Some r.
Proof. unfold act. by destruct (waits a e). Qed.

(** The bytes an action reads from the socket. *)
Definition input (a : Action) : list Z :=
  match a with DoPoll (PollReady false (Some (ReceivedBytes bytes)) _) => bytes | _ => [] end.

(** The fields of a header have the width of their types. *)
Definition typed (a : Action) : Prop := match a with DoSend f => header_fits (fr_header f) | _ => True end.

(** One direction of a connection: a sender, the bytes on their way, a receiver.
    What each does in the other direction is not constrained. *)
Record Link := { ln_from : Endpoint; ln_wire : list Z; ln_to : Endpoint }.

Inductive link_step : Link -> Link -> Prop :=
| sender_acts a from from' taken wire to :
    typed a -> act a from = Some (from', taken) ->
    link_step {| ln_from := from; ln_wire := wire; ln_to := to |}
              {| ln_from := from'; ln_wire := wire ++ taken; ln_to := to |}
| receiver_acts a from wire to to' taken :
    typed a -> act a to = Some (to', taken) ->
    link_step {| ln_from := from; ln_wire := input a ++ wire; ln_to := to |}
              {| ln_from := from; ln_wire := wire; ln_to := to' |}.

Definition link_open (options : TransportOptions) : Link :=
  {| ln_from := endpoint_open options; ln_wire := []; ln_to := endpoint_open options |}.

(** ** Frames in a stream of bytes *)

Section Stream.
Context (limits : ResourceLimits) (Hlimits : is_u32 (max_payload_bytes limits)).

(** A frame that can be sent, its bytes, and the frame they are decoded to. *)
Definition sendable (f : Frame) : Prop := header_fits (fr_header f) /\ exists bytes, encode_frame limits f = inr bytes.
Definition encoding (f : Frame) : list Z := match encode_frame limits f with inr bytes => bytes | inl _ => [] end.
Definition sealed (f : Frame) : Frame := {| fr_header := completed_header f; fr_payload := fr_payload f |}.
Definition stream (fs : list Frame) : list Z := concat (map encoding fs).

Lemma header_read n (bytes : list Z) offset :
  (offset + n <= 24)%nat -> take n (drop offset (take 24 bytes)) = take n (drop offset bytes).
Proof. intros H. rewrite !take_drop_commute, take_take. by rewrite Nat.min_l by lia. Qed.

(** Only the first 24 bytes of a frame are the header's. *)
Lemma decode_header_take bytes :
  (frame_header_bytes <= length bytes)%nat ->
  decode_header limits (take frame_header_bytes bytes) = decode_header limits bytes.
Proof.
  unfold frame_header_bytes. intros Hl. unfold decode_header, header_u32, header_u16, bytes_size, frame_header_bytes.
  rewrite length_take, Nat.min_l by done. rewrite !header_read by lia. rewrite take_take.
  by destruct (Z.ltb_spec (Z.of_nat (length bytes)) (Z.of_nat 24)); [lia|].
Qed.

Lemma sendable_facts f :
  sendable f ->
  decode_header limits (encoding f) = inr (completed_header f) /\ decode_frame limits (encoding f) = inr (sealed f) /\
  length (encoding f) = (frame_header_bytes + Z.to_nat (fh_payload_bytes (completed_header f)))%nat.
Proof.
  intros [Hf [bytes He]]. unfold encoding. rewrite He.
  pose proof (decode_encoded limits f bytes Hlimits Hf He) as Hd. fold (sealed f) in Hd. split_and!; [|done|].
  - unfold decode_frame in Hd. destruct (decode_header limits bytes) as [|header]; [done|].
    cbv zeta in Hd. destruct (negb (bytes_size bytes =? _)); [done|]. destruct (negb (_ =? fh_payload_crc32c header)); [done|].
    by injection Hd as ->.
  - destruct (completed_fits limits f bytes Hlimits Hf He) as (_ & Es & -> & _).
    rewrite Es, length_app. unfold bytes_size. rewrite Nat2Z.id. reflexivity.
Qed.

Lemma stream_cons f fs : stream (f :: fs) = encoding f ++ stream fs.
Proof. reflexivity. Qed.

Lemma stream_app fs fs' : stream (fs ++ fs') = stream fs ++ stream fs'.
Proof. unfold stream. by rewrite map_app, concat_app. Qed.

(** Enough of a stream of frames for a header: it is the first frame's. *)
Lemma stream_header buffer rest fs :
  Forall sendable fs -> buffer ++ rest = stream fs -> (frame_header_bytes <= length buffer)%nat ->
  exists f fs', fs = f :: fs' /\ sendable f /\
    decode_header limits (take frame_header_bytes buffer) = inr (completed_header f).
Proof.
  intros Hs E Hl. destruct fs as [|f fs].
  { apply app_eq_nil in E as [-> _]. unfold frame_header_bytes in Hl. simpl in Hl. lia. }
  apply Forall_cons in Hs as [Hf _]. exists f, fs. split; [done|]. split; [done|].
  destruct (sendable_facts f Hf) as (Hh & _ & Hlen). rewrite <- Hh, <- (decode_header_take (encoding f)) by lia.
  f_equal. rewrite stream_cons in E.
  rewrite <- (take_app_le buffer rest) by done. by rewrite E, take_app_le by lia.
Qed.

(** Enough for the whole frame: it is decoded, and the stream goes on. *)
Lemma stream_frame buffer rest f fs :
  sendable f -> buffer ++ rest = stream (f :: fs) ->
  let total := (frame_header_bytes + Z.to_nat (fh_payload_bytes (completed_header f)))%nat in
  (total <= length buffer)%nat ->
  decode_frame limits (take total buffer) = inr (sealed f) /\ drop total buffer ++ rest = stream fs.
Proof.
  intros Hf E total Hl. destruct (sendable_facts f Hf) as (_ & Hd & Hlen). fold total in Hlen.
  rewrite stream_cons in E.
  assert (Et : take total buffer = encoding f).
  { rewrite <- (take_app_le buffer rest) by done. rewrite E. by apply take_app_length'. }
  split; [by rewrite Et|]. rewrite <- drop_app_le by done. rewrite E. by apply drop_app_length'.
Qed.
End Stream.

(** ** What an action does *)

Section Actions.
Context (o : TransportOptions) (Hlimits : is_u32 (max_payload_bytes (to_limits o))).
Let limits : ResourceLimits := to_limits o.

(** An end that was opened with [o]: its thread runs exactly while it is open. *)
Record end_ok (e : Endpoint) : Prop := {
  end_options : ss_options (en_session e) = o;
  end_running : en_phase e <> Ended -> ss_closed (en_session e) = false;
  end_outbound : Forall (sendable limits) (ss_outbound (en_session e));
  end_accepted : Forall (sendable limits) (en_accepted e)
}.

Lemma limits_opened s : ss_options s = o -> limits_of s = limits.
Proof. intros E. unfold limits_of. by rewrite E. Qed.

Lemma set_error_options m s : ss_options (set_error m s) = ss_options s.
Proof. unfold set_error. by destruct (_ == _). Qed.
Lemma set_error_outbound m s : ss_outbound (set_error m s) = ss_outbound s.
Proof. unfold set_error. by destruct (_ == _). Qed.

Lemma mark_closed_ok reason m s c :
  let '(s', _) := mark_closed reason m s c in
  ss_options s' = ss_options s /\ ss_outbound s' = ss_outbound s /\ ss_inbound s' = ss_inbound s /\
  ss_receive_buffer s' = ss_receive_buffer s /\ unsent s' = unsent s /\
  (ss_closed s = false -> ss_reason s' = reason) /\ (ss_closed s = true -> s' = s).
Proof.
  unfold mark_closed. destruct (ss_closed s) eqn:E; [done|]. unfold set_error, unsent.
  by destruct (_ == _); split_and!.
Qed.

(** What is still to be handed to the system. *)
Definition unwritten (s : Session) : list Z := unsent s ++ stream limits (ss_outbound s).

Lemma write_pending_spec sent s :
  let '(phase, s', taken) := write_pending sent s in
  phase <> Ended /\ phase <> Stuck /\ taken ++ unsent s' = unsent s /\ ss_outbound s' = ss_outbound s /\
  ss_options s' = ss_options s /\ ss_closed s' = ss_closed s /\ ss_receive_buffer s' = ss_receive_buffer s /\
  ss_inbound s' = ss_inbound s /\ ss_reason s' = ss_reason s.
Proof.
  unfold write_pending. destruct (sent <=? 0); [by split_and!|]. cbv zeta.
  set (n := Z.to_nat sent).
  change (length (ss_pending_write (update_field _ _ _))) with (length (ss_pending_write s)).
  destruct (Nat.leb_spec (length (ss_pending_write s)) (ss_pending_offset s + n)) as [Hl|Hl];
    split_and!; try done; unfold unsent; cbn.
  - rewrite app_nil_r. apply take_ge. rewrite length_drop. lia.
  - rewrite <- (take_drop n (drop (ss_pending_offset s) (ss_pending_write s))) at 2. by rewrite drop_drop.
Qed.

Lemma write_turn_spec sent s :
  ss_options s = o -> Forall (sendable limits) (ss_outbound s) ->
  let '(phase, s', taken) := write_turn sent s in
  phase <> Ended /\ phase <> Stuck /\ taken ++ unwritten s' = unwritten s /\ Forall (sendable limits) (ss_outbound s') /\
  ss_options s' = ss_options s /\ ss_closed s' = ss_closed s /\ ss_receive_buffer s' = ss_receive_buffer s /\
  ss_inbound s' = ss_inbound s /\ ss_reason s' = ss_reason s.
Proof.
  intros Eo Hs. unfold write_turn, unwritten.
  assert (Hp : forall s, Forall (sendable limits) (ss_outbound s) ->
    let '(phase, s', taken) := write_pending sent s in
    phase <> Ended /\ phase <> Stuck /\ taken ++ unsent s' ++ stream limits (ss_outbound s') = unsent s ++ stream limits (ss_outbound s) /\
    Forall (sendable limits) (ss_outbound s') /\ ss_options s' = ss_options s /\ ss_closed s' = ss_closed s /\
    ss_receive_buffer s' = ss_receive_buffer s /\ ss_inbound s' = ss_inbound s /\ ss_reason s' = ss_reason s).
  { intros s1 H1. pose proof (write_pending_spec sent s1) as H. destruct (write_pending sent s1) as [[phase s'] taken].
    destruct H as (P1 & P0 & P2 & P3 & P4 & P5 & P6 & P7 & P8). rewrite P3. split_and!; try done. by rewrite app_assoc, P2. }
  destruct (ss_pending_write s) as [|b pending] eqn:Ep; [|by apply Hp].
  assert (Eu : unsent s = []) by (unfold unsent; by rewrite Ep, drop_nil).
  destruct (ss_outbound s) as [|f outbound] eqn:Eb; [by split_and!; rewrite ?Eb|].
  apply Forall_cons in Hs as [Hf Hs]. cbv zeta.
  rewrite (limits_opened (s <| ss_outbound := outbound |>)) by done.
  rewrite Eu, stream_cons. unfold encoding. pose proof Hf as [_ [bytes He]]. rewrite He.
  specialize (Hp (s <| ss_outbound := outbound |> <| ss_pending_write := bytes |> <| ss_pending_offset := 0%nat |>) Hs).
  destruct (write_pending _ _) as [[phase s'] taken]. destruct Hp as (P1 & P0 & P2 & P3). split; [done|]. split; [done|]. split; [|done].
  by rewrite P2.
Qed.

Lemma send_spec f s :
  ss_options s = o -> header_fits (fr_header f) ->
  let '(r, s') := send f s in
  match r with
  | inl _ => s' = s
  | inr _ => sendable limits f /\ ss_closed s = false /\ s' = s <| ss_outbound := ss_outbound s ++ [f] |>
  end.
Proof.
  intros Eo Hf. unfold send. rewrite limits_opened by done.
  destruct (encode_frame limits f) as [error|bytes] eqn:E; [done|]. cbv zeta.
  destruct (ss_closed s) eqn:Ec; [done|]. destruct (_ <=? _); [done|]. split; [|done]. split; [done|]. by exists bytes.
Qed.

(** Nothing else in the session changes when a frame is received. *)
Lemma receive_spec s :
  let '(r, s') := receive s in
  match r with
  | Some (inr f) => ss_inbound s = f :: ss_inbound s' /\ s' = s <| ss_inbound := ss_inbound s' |>
  | _ => s' = s
  end.
Proof. unfold receive. destruct (ss_inbound s); [|done]. by destruct (negb _). Qed.

Lemma poll_turn_spec answer s c :
  ss_closed s = false ->
  let '(phase, s', _) := poll_turn answer s c in
  ss_options s' = ss_options s /\ ss_outbound s' = ss_outbound s /\ unsent s' = unsent s /\
  ss_inbound s' = ss_inbound s /\ ss_receive_buffer s' = ss_receive_buffer s ++ input (DoPoll answer) /\
  (phase <> Ended -> ss_closed s' = false) /\
  (ss_reason s' = CloseReason.PROTOCOL_ERROR -> ss_reason s = CloseReason.PROTOCOL_ERROR) /\ phase <> Stuck.
Proof.
  intros Hc. unfold poll_turn. rewrite Hc.
  assert (Hclose : forall reason m, reason <> CloseReason.PROTOCOL_ERROR ->
    let '(phase, s', _) := (let '(s, c) := mark_closed reason m s c in (Ended, s, c)) in
    ss_options s' = ss_options s /\ ss_outbound s' = ss_outbound s /\ unsent s' = unsent s /\
    ss_inbound s' = ss_inbound s /\ ss_receive_buffer s' = ss_receive_buffer s ++ [] /\
    (phase <> Ended -> ss_closed s' = false) /\
    (ss_reason s' = CloseReason.PROTOCOL_ERROR -> ss_reason s = CloseReason.PROTOCOL_ERROR) /\ phase <> Stuck).
  { intros reason m Hne. pose proof (mark_closed_ok reason m s c) as H. destruct (mark_closed reason m s c) as [s' c'].
    destruct H as (E1 & E2 & E3 & E4 & E5 & E6 & _). rewrite app_nil_r, E6 by done. by split_and!. }
  destruct answer as [|[] readable writable]; cbn [input]; [by apply Hclose|by apply Hclose|].
  destruct readable as [[bytes| |]|]; cbn [input]; [| |by destruct writable; split_and!; rewrite ?app_nil_r..].
  - by destruct writable; split_and!.
  - by apply Hclose.
Qed.

Lemma decode_turn_frame s :
  let '(phase, s') := decode_turn s in
  ss_options s' = ss_options s /\ ss_outbound s' = ss_outbound s /\ unsent s' = unsent s /\
  ss_closed s' = ss_closed s.
Proof.
  unfold decode_turn. cbv zeta. destruct (_ <? _)%nat; [done|].
  destruct (decode_header _ _); [done|]. destruct (_ <? _)%nat; [done|]. by destruct (decode_frame _ _).
Qed.

(** An action leaves an end well formed and moves bytes from what is unwritten
    to the system; a frame that is accepted is appended to what is unwritten. *)
Lemma act_sends a e e' taken :
  typed a -> end_ok e -> act a e = Some (e', taken) ->
  end_ok e' /\ exists accepted, en_accepted e' = en_accepted e ++ accepted /\
    taken ++ unwritten (en_session e') = unwritten (en_session e) ++ stream limits accepted.
Proof.
  intros Ht [Eo Hr Hb Ha] E%act_proceeds.
  assert (Hidle : forall e', ss_options (en_session e') = ss_options (en_session e) ->
    ss_outbound (en_session e') = ss_outbound (en_session e) -> unsent (en_session e') = unsent (en_session e) ->
    en_accepted e' = en_accepted e -> (en_phase e' <> Ended -> ss_closed (en_session e') = false) ->
    end_ok e' /\ exists accepted, en_accepted e' = en_accepted e ++ accepted /\
      unwritten (en_session e') = unwritten (en_session e) ++ stream limits accepted).
  { intros e1 E1 E2 E3 E4 E5. split; [split; [congruence|done|by rewrite E2|by rewrite E4]|]. exists []. unfold unwritten.
    by rewrite E2, E3, E4, !app_nil_r. }
  destruct a as [answer|sent| |f| | |]; cbn [proceed] in E; try ((destruct (en_phase e) eqn:Ep; try discriminate E); [idtac]).
  - pose proof (poll_turn_spec answer (en_session e) (en_counter e) (Hr ltac:(done))) as H.
    destruct (poll_turn _ _ _) as [[phase s'] c']. injection E as <- <-. destruct H as (E1 & E2 & E3 & _ & _ & E6 & _).
    by apply Hidle.
  - pose proof (write_turn_spec sent (en_session e) Eo Hb) as H. destruct (write_turn _ _) as [[phase s'] taken'].
    injection E as <- <-. destruct H as (_ & _ & E2 & E3 & E4 & E5 & _).
    split; [split; cbn; [by rewrite E4|intros _; rewrite E5; by apply Hr|done|done]|].
    exists []. cbn [en_accepted en_session]. by rewrite !app_nil_r.
  - pose proof (decode_turn_frame (en_session e)) as H. destruct (decode_turn _) as [phase s'].
    injection E as <- <-. destruct H as (E1 & E2 & E3 & E4). apply Hidle; try done. intros Hp. cbn. rewrite E4. by apply Hr.
  - cbn [typed] in Ht. pose proof (send_spec f (en_session e) Eo Ht) as H. destruct (send f _) as [[error|[]] s'];
      injection E as <- <-.
    + subst s'. apply Hidle; try done. cbn. by rewrite app_nil_r.
    + destruct H as (Hs & Hc & ->). split.
      * split; cbn; try done; (apply Forall_app_2; [done|by apply Forall_singleton]).
      * exists [f]. split; [done|]. unfold unwritten. rewrite <- app_assoc, <- stream_app. reflexivity.
  - pose proof (receive_spec (en_session e)) as H. destruct (receive _) as [[[error|f]|] s']; injection E as <- <-;
      [subst s'; by apply Hidle| |subst s'; by apply Hidle]. destruct H as [_ ->]. by apply Hidle.
  - injection E as <- <-. by apply Hidle.
  - unfold finish_close in E. pose proof (mark_closed_ok CloseReason.LOCAL_CLOSE "" (en_session e) (en_counter e)) as H.
    destruct (mark_closed _ _ _ _) as [s' c']. injection E as <- <-. destruct H as (E1 & E2 & E3 & E4 & E5 & _).
    by apply Hidle.
Qed.

(** What an end has decoded and what it has delivered. *)
Definition arrived (e : Endpoint) : list Frame := en_delivered e ++ ss_inbound (en_session e).

(** As long as the bytes that arrive are a stream of frames, an action consumes
    a part of it, and never finds it wrong. *)
Lemma decode_turn_stream s rest todo :
  ss_options s = o -> Forall (sendable limits) todo -> ss_receive_buffer s ++ rest = stream limits todo ->
  let '(phase, s') := decode_turn s in
  exists got todo', todo = got ++ todo' /\ ss_inbound s' = ss_inbound s ++ (sealed <$> got) /\
    ss_receive_buffer s' ++ rest = stream limits todo' /\ ss_reason s' = ss_reason s /\ phase <> Stuck.
Proof.
  intros Eo Hs Hb. assert (Hstay : exists got todo', todo = got ++ todo' /\ ss_inbound s = ss_inbound s ++ (sealed <$> got) /\
    ss_receive_buffer s ++ rest = stream limits todo' /\ ss_reason s = ss_reason s /\ Polling <> Stuck).
  { exists [], todo. by rewrite app_nil_r. }
  unfold decode_turn. cbv zeta. rewrite limits_opened by done.
  destruct (Nat.ltb_spec (length (ss_receive_buffer s)) frame_header_bytes); [done|].
  destruct (stream_header limits Hlimits _ _ _ Hs Hb ltac:(done)) as (f & todo' & -> & Hf & ->).
  destruct (Nat.ltb_spec (length (ss_receive_buffer s))
    (frame_header_bytes + Z.to_nat (fh_payload_bytes (completed_header f)))); [done|].
  destruct (stream_frame limits Hlimits _ _ _ _ Hf Hb ltac:(done)) as [-> Hd].
  exists [f], todo'. by split_and!.
Qed.

(** No action of an end finds the stream wrong. *)
Definition sound (e e' : Endpoint) : Prop :=
  (ss_reason (en_session e') = CloseReason.PROTOCOL_ERROR -> ss_reason (en_session e) = CloseReason.PROTOCOL_ERROR) /\
  (en_phase e' = Stuck -> en_phase e = Stuck).

Lemma act_receives a e e' taken rest todo :
  typed a -> end_ok e -> act a e = Some (e', taken) ->
  Forall (sendable limits) todo -> ss_receive_buffer (en_session e) ++ input a ++ rest = stream limits todo ->
  exists got todo', todo = got ++ todo' /\ arrived e' = arrived e ++ (sealed <$> got) /\
    ss_receive_buffer (en_session e') ++ rest = stream limits todo' /\ sound e e'.
Proof.
  intros Ht [Eo Hr Hb Ha] E%act_proceeds Hs Hst.
  assert (Hidle : forall e', arrived e' = arrived e ->
    ss_receive_buffer (en_session e') = ss_receive_buffer (en_session e) ++ input a ->
    sound e e' -> exists got todo', todo = got ++ todo' /\ arrived e' = arrived e ++ (sealed <$> got) /\
      ss_receive_buffer (en_session e') ++ rest = stream limits todo' /\ sound e e').
  { intros e1 E1 E2 E3. exists [], todo. rewrite E1, E2, app_nil_r, <- app_assoc. by split_and!. }
  destruct a as [answer|sent| |f| | |]; cbn [proceed] in E;
    try ((destruct (en_phase e) eqn:Ep; try discriminate E); [idtac]); cbn [typed] in Ht.
  - pose proof (poll_turn_spec answer (en_session e) (en_counter e) (Hr ltac:(done))) as H.
    destruct (poll_turn _ _ _) as [[phase s'] c']. injection E as <- <-. destruct H as (_ & _ & _ & E4 & E5 & _ & E7 & E8).
    apply Hidle; [unfold arrived; cbn; by rewrite E4|done|by split].
  - pose proof (write_turn_spec sent (en_session e) Eo Hb) as H. destruct (write_turn _ _) as [[phase s'] taken'].
    injection E as <- <-. destruct H as (_ & E1 & _ & _ & _ & _ & E6 & E7 & E8).
    apply Hidle; unfold arrived, sound; cbn; rewrite ?E6, ?E7, ?E8, ?app_nil_r; done.
  - pose proof (decode_turn_stream (en_session e) rest todo Eo Hs Hst) as H. destruct (decode_turn _) as [phase s'].
    injection E as <- <-. destruct H as (got & todo' & E1 & E2 & E3 & E4 & E5). exists got, todo'. unfold arrived, sound. cbn.
    rewrite E2, E4, app_assoc. by split_and!.
  - pose proof (send_spec f (en_session e) Eo Ht) as H. destruct (send f _) as [[error|[]] s']; injection E as <- <-.
    + subst s'. apply Hidle; unfold sound; cbn; rewrite ?app_nil_r; done.
    + destruct H as (_ & _ & ->). apply Hidle; unfold sound; cbn; rewrite ?app_nil_r; done.
  - pose proof (receive_spec (en_session e)) as H. destruct (receive _) as [[[error|f]|] s']; injection E as <- <-.
    + subst s'. apply Hidle; unfold arrived, sound; cbn; rewrite ?app_nil_r; done.
    + destruct H as [E1 ->]. apply Hidle; unfold arrived, sound; cbn; rewrite ?E1, ?app_nil_r, <- ?app_assoc; done.
    + subst s'. apply Hidle; unfold arrived, sound; cbn; rewrite ?app_nil_r; done.
  - injection E as <- <-. apply Hidle; unfold arrived, sound; cbn; rewrite ?app_nil_r; done.
  - unfold finish_close in E. pose proof (mark_closed_ok CloseReason.LOCAL_CLOSE "" (en_session e) (en_counter e)) as H.
    destruct (mark_closed _ _ _ _) as [s' c']. injection E as <- <-. destruct H as (_ & _ & E3 & E4 & _ & E6 & E7).
    apply Hidle; unfold arrived, sound; cbn; rewrite ?E3, ?E4, ?app_nil_r; try done.
    split; [|done]. destruct (ss_closed (en_session e)); [by rewrite E7|by rewrite E6].
Qed.

(** ** One direction *)

(** What the receiver has is what the sender was given, in order; the rest of it
    is in its buffer, on the wire, or with the sender. *)
Record link_ok (l : Link) : Prop := {
  link_from : end_ok (ln_from l);
  link_to : end_ok (ln_to l);
  link_clean : ss_reason (en_session (ln_to l)) <> CloseReason.PROTOCOL_ERROR /\ en_phase (ln_to l) <> Stuck;
  link_frames : exists todo,
    exists done, en_accepted (ln_from l) = done ++ todo /\ arrived (ln_to l) = sealed <$> done /\
    ss_receive_buffer (en_session (ln_to l)) ++ ln_wire l ++ unwritten (en_session (ln_from l)) = stream limits todo
}.

Lemma open_ok : link_ok (link_open o).
Proof.
  assert (H : end_ok (endpoint_open o)) by (split; try done; apply Forall_nil_2).
  split; [done|done|done|]. exists [], []. by split_and!.
Qed.

Lemma link_step_ok l l' : link_ok l -> link_step l l' -> link_ok l'.
Proof.
  intros [Hf Ht Hr (todo & got & E1 & E2 & E3)] H.
  destruct H as [a from from' taken wire to Hty Ha|a from wire to to' taken Hty Ha]; cbn [ln_from ln_wire ln_to] in *.
  - destruct (act_sends a from from' taken Hty Hf Ha) as (Hf' & accepted & Ea & Eu).
    split; [done|done|done|]. exists (todo ++ accepted), got. cbn [ln_from ln_wire ln_to].
    split_and!; [by rewrite Ea, E1, app_assoc|done|]. by rewrite <- app_assoc, Eu, stream_app, <- E3, <- !app_assoc.
  - destruct (act_sends a to to' taken Hty Ht Ha) as (Ht' & _).
    assert (Hs : Forall (sendable limits) todo).
    { pose proof (end_accepted _ Hf) as Hs. rewrite E1 in Hs. by apply Forall_app in Hs as [_ Hs]. }
    rewrite <- (app_assoc (input a)) in E3.
    destruct (act_receives a to to' taken _ todo Hty Ht Ha Hs E3) as (more & todo' & -> & Er & Eb & Hc1 & Hc2).
    destruct Hr as [Hr1 Hr2]. split; [done|done|split; [by intros ?%Hc1|by intros ?%Hc2]|]. exists todo', (got ++ more). cbn [ln_from ln_wire ln_to].
    split_and!; [by rewrite E1, app_assoc|by rewrite Er, E2, fmap_app|done].
Qed.

Lemma link_reachable_ok l : rtc link_step (link_open o) l -> link_ok l.
Proof.
  intros H. pose proof open_ok as H0. induction H as [|l1 l2 l3 Hs _ IH]; [done|]. apply IH. by eapply link_step_ok.
Qed.

(** Nothing is left to write, to carry or to decode. *)
Definition idle (l : Link) : Prop :=
  unwritten (en_session (ln_from l)) = [] /\ ln_wire l = [] /\
  (decode_turn (en_session (ln_to l))).1 = Polling.

Lemma idle_all_arrived l : link_ok l -> idle l -> arrived (ln_to l) = sealed <$> en_accepted (ln_from l).
Proof.
  intros [Hf [Eo _ _ _] _ (todo & got & E1 & E2 & E3)] (Hu & Hw & Hd).
  rewrite Hu, Hw, !app_nil_r in E3. rewrite E2, E1.
  assert (Hs : Forall (sendable limits) todo).
  { pose proof (end_accepted _ Hf) as Hs. rewrite E1 in Hs. by apply Forall_app in Hs as [_ Hs]. }
  destruct todo as [|f todo]; [by rewrite app_nil_r|]. exfalso.
  apply Forall_cons in Hs as [Hsf Hs]. destruct (sendable_facts limits Hlimits f Hsf) as (_ & _ & Hlen).
  revert Hd. unfold decode_turn. cbv zeta. rewrite limits_opened by done.
  assert (Hl : (length (encoding limits f) <= length (ss_receive_buffer (en_session (ln_to l))))%nat).
  { rewrite E3, stream_cons, length_app. lia. }
  destruct (Nat.ltb_spec (length (ss_receive_buffer (en_session (ln_to l)))) frame_header_bytes); [lia|].
  rewrite <- (app_nil_r (ss_receive_buffer _)) in E3.
  destruct (stream_header limits Hlimits _ _ (f :: todo) ltac:(by apply Forall_cons_2) E3 ltac:(done))
    as (f' & todo' & [= <- <-] & _ & ->).
  destruct (Nat.ltb_spec (length (ss_receive_buffer (en_session (ln_to l))))
    (frame_header_bytes + Z.to_nat (fh_payload_bytes (completed_header f)))); [lia|].
  destruct (stream_frame limits Hlimits _ _ _ _ Hsf E3 ltac:(done)) as [-> _]. done.
Qed.
End Actions.

(** ** The listener's slots *)

(** [accept] once the system has accepted a socket: a session, or the error text. *)
Definition accept_session (options : TransportOptions) (c : ConnectionCounter)
    : (string + Session) * ConnectionCounter :=
  return_if cc_limit c <=? cc_active c with (inl "connection limit reached", c) ;;
  (inr (session_open options), {| cc_active := cc_active c + 1; cc_limit := cc_limit c |}).

(** A connection whose peer sends [bytes] in one piece and waits to be closed:
    the [close] of a session whose thread is stuck does not return. *)
Definition serve_bytes (options : TransportOptions) (bytes : list Z) (c : ConnectionCounter) : ConnectionCounter :=
  match accept_session options c with
  | (inl _, c) => c
  | (inr s, c) =>
      let '(_, s, c) := poll_turn (PollReady false (Some (ReceivedBytes bytes)) false) s c in
      match decode_turn s with
      | (Stuck, _) => c
      | (_, s) => (finish_close s c).2
      end
  end.

(** ** Runs *)

Inductive end_step : Endpoint -> Endpoint -> Prop :=
| end_acts a e e' taken : typed a -> act a e = Some (e', taken) -> end_step e e'.

Fixpoint strip (prefix l : list Z) : option (list Z) :=
  match prefix, l with
  | [], _ => Some l
  | x :: prefix, y :: l => if x =? y then strip prefix l else None
  | _ :: _, [] => None
  end.

(** A schedule of a link: [true] for the sender. *)
Fixpoint run_link (schedule : list (bool * Action)) (l : Link) : option Link :=
  match schedule with
  | [] => Some l
  | (true, a) :: schedule =>
      '(from, taken) ← act a (ln_from l);
      run_link schedule {| ln_from := from; ln_wire := ln_wire l ++ taken; ln_to := ln_to l |}
  | (false, a) :: schedule =>
      wire ← strip (input a) (ln_wire l);
      '(to, _) ← act a (ln_to l);
      run_link schedule {| ln_from := ln_from l; ln_wire := wire; ln_to := to |}
  end.

Lemma strip_spec prefix l rest : strip prefix l = Some rest -> l = prefix ++ rest.
Proof.
  revert l. induction prefix as [|x prefix IH]; intros l; simpl; [by intros [= ->]|].
  destruct l as [|y l]; [done|]. destruct (Z.eqb_spec x y) as [->|]; [|done]. intros H. by rewrite (IH l H).
Qed.

Lemma run_link_steps schedule l l' :
  Forall (fun x => typed x.2) schedule -> run_link schedule l = Some l' -> rtc link_step l l'.
Proof.
  revert l. induction schedule as [|[[] a] schedule IH]; intros [from wire to] Ht; cbn [run_link].
  - by intros [= <-].
  - apply Forall_cons in Ht as [Ha Ht]. cbn [ln_from ln_wire ln_to].
    destruct (act a from) as [[from' taken]|] eqn:E; [|done]. intros H.
    eapply rtc_l; [by apply (sender_acts a from from' taken wire to)|by apply IH].
  - apply Forall_cons in Ht as [Ha Ht]. cbn [ln_from ln_wire ln_to].
    destruct (strip (input a) wire) as [wire'|] eqn:Es; [|done]. cbn [mbind option_bind].
    destruct (act a to) as [[to' taken]|] eqn:E; [|done]. intros H. apply strip_spec in Es as ->.
    eapply rtc_l; [by apply (receiver_acts a from wire' to to' taken)|by apply IH].
Qed.

(** ** Properties *)

(** C20: A connection carries frames: however the system splits the bytes over
    writes and reads, however the calls and the two session threads interleave,
    and whatever goes on in the other direction, the frames [receive] returns are
    the frames [send] accepted, in order, none lost in between, none twice, none
    invented, each with its length and checksums filled in; the receiver never
    finds the stream wrong, so its thread is never stuck; and once nothing is left to write, to carry or to
    decode, every accepted frame has been delivered or waits to be received.
    Both ends have the same limits. *)
Theorem frames_arrive_in_order (o : TransportOptions) (l : Link)
    (Hlimits : is_u32 (max_payload_bytes (to_limits o))) (Hreach : rtc link_step (link_open o) l) :
  (exists n, en_delivered (ln_to l) = sealed <$> take n (en_accepted (ln_from l))) /\
  (ss_reason (en_session (ln_to l)) <> CloseReason.PROTOCOL_ERROR /\ en_phase (ln_to l) <> Stuck) /\
  (idle o l -> arrived (ln_to l) = sealed <$> en_accepted (ln_from l)).
Proof.
  pose proof (link_reachable_ok o Hlimits l Hreach) as Hl. split; [|split; [apply Hl|by apply idle_all_arrived]].
  destruct (link_frames o l Hl) as (todo & got & E1 & E2 & _). exists (length (en_delivered (ln_to l))).
  unfold arrived in E2. pose proof (f_equal (take (length (en_delivered (ln_to l)))) E2) as E.
  rewrite take_app_length, <- fmap_take in E. rewrite E at 1. f_equal. rewrite E1, take_app_le; [done|].
  apply (f_equal length) in E2. rewrite length_app, length_fmap in E2. lia.
Qed.

(** What waits to be sent, with the frame being written. *)
Definition queued (s : Session) : Z :=
  Request.size (ss_outbound s) + (if bool_decide (ss_pending_write s = []) then 0 else 1).

Lemma mark_closed_queued reason m s c : queued (mark_closed reason m s c).1 = queued s.
Proof. unfold mark_closed, set_error. destruct (ss_closed s); [done|]. by destruct (_ == _). Qed.

Lemma write_pending_queued sent s : ss_pending_write s <> [] -> queued (write_pending sent s).1.2 <= queued s.
Proof.
  intros Hp. unfold write_pending, queued. destruct (sent <=? 0); [done|]. cbv zeta.
  rewrite (bool_decide_eq_false_2 (ss_pending_write s = [])) by done.
  destruct (_ <=? _)%nat; cbn; [lia|]. by rewrite bool_decide_eq_false_2.
Qed.

Lemma encode_nonempty limits f bytes : encode_frame limits f = inr bytes -> bytes <> [].
Proof.
  unfold encode_frame. cbv zeta.
  repeat match goal with |- context [if ?c then _ else _] => destruct c; [done|] end.
  intros H%(inj inr). subst bytes. intros E. apply (f_equal length) in E.
  by rewrite length_app, put_header_length in E.
Qed.

Lemma write_turn_queued sent s :
  queued (write_turn sent s).1.2 <= queued s.
Proof.
  unfold write_turn. destruct (ss_pending_write s) as [|b pending] eqn:Ep.
  2: { apply write_pending_queued. by rewrite Ep. }
  destruct (ss_outbound s) as [|f outbound] eqn:Eo; [done|]. cbv zeta.
  assert (Eq : queued s = Request.size outbound + 1).
  { unfold queued, Request.size. rewrite Ep, Eo, bool_decide_eq_true_2 by done. simpl length. lia. }
  rewrite Eq. destruct (encode_frame _ f) as [error|bytes] eqn:E.
  - unfold queued. cbn. rewrite Ep, bool_decide_eq_true_2 by done. lia.
  - assert (Hne : bytes <> []) by by eapply encode_nonempty.
    etransitivity; [apply write_pending_queued; exact Hne|]. unfold queued. cbn. by rewrite bool_decide_eq_false_2.
Qed.

Lemma decode_turn_queued s : queued (decode_turn s).2 = queued s.
Proof.
  unfold decode_turn. cbv zeta. destruct (_ <? _)%nat; [done|].
  destruct (decode_header _ _); [done|]. destruct (_ <? _)%nat; [done|]. by destruct (decode_frame _ _).
Qed.

Lemma poll_turn_queued answer s c : queued (poll_turn answer s c).1.2 = queued s.
Proof.
  unfold poll_turn. assert (Hclose : forall reason m,
    queued (let '(s, c) := mark_closed reason m s c in (Ended, s, c)).1.2 = queued s).
  { intros reason m. pose proof (mark_closed_queued reason m s c) as H. by destruct (mark_closed _ _ _ _). }
  destruct (ss_closed s); [apply Hclose|].
  destruct answer as [|[] [[bytes| |]|] writable]; try apply Hclose; done.
Qed.

Lemma act_queued a e e' taken limit :
  act a e = Some (e', taken) -> to_max_send_queue_frames (ss_options (en_session e)) = limit ->
  queued (en_session e) <= limit ->
  queued (en_session e') <= limit.
Proof.
  intros E%act_proceeds El Hq. destruct a as [answer|sent| |f| | |]; cbn [proceed] in E;
    try ((destruct (en_phase e) eqn:Ep; try discriminate E); [idtac]).
  - pose proof (poll_turn_queued answer (en_session e) (en_counter e)) as H.
    destruct (poll_turn _ _ _) as [[phase s'] c']. injection E as <- <-. cbn in *. lia.
  - pose proof (write_turn_queued sent (en_session e)) as H. destruct (write_turn _ _) as [[phase s'] w].
    injection E as <- <-. cbn in *. lia.
  - pose proof (decode_turn_queued (en_session e)) as H. destruct (decode_turn _) as [phase s'].
    injection E as <- <-. cbn in *. lia.
  - unfold send in E. destruct (encode_frame _ f); [by injection E as <- <-|]. cbv zeta in E.
    destruct (ss_closed _); [by injection E as <- <-|].
    destruct (Z.leb_spec (to_max_send_queue_frames (ss_options (en_session e)))
      (Request.size (ss_outbound (en_session e)) + (if bool_decide (ss_pending_write (en_session e) = []) then 0 else 1)));
      injection E as <- <-; [done|].
    unfold queued in *. cbn. unfold Request.size in *. rewrite length_app. simpl length. lia.
  - unfold receive in E. destruct (ss_inbound _); [destruct (negb _)|]; by injection E as <- <-.
  - by injection E as <- <-.
  - unfold finish_close in E. pose proof (mark_closed_queued CloseReason.LOCAL_CLOSE "" (en_session e) (en_counter e)) as H.
    destruct (mark_closed _ _ _ _) as [s' c']. injection E as <- <-. cbn in *. lia.
Qed.

Lemma end_step_ok o e e' : end_ok o e -> end_step e e' -> end_ok o e'.
Proof. intros He Hs. destruct Hs as [a e e' taken Ht Ha]. by destruct (act_sends o a e e' taken Ht He Ha). Qed.

Lemma end_reachable_ok o e : rtc end_step (endpoint_open o) e -> end_ok o e.
Proof.
  intros H. assert (H0 : end_ok o (endpoint_open o)) by (split; try done; apply Forall_nil_2).
  induction H as [|e1 e2 e3 Hs _ IH]; [done|]. apply IH. by eapply end_step_ok.
Qed.

(** C23: The frames waiting to be sent, with the one being written, never exceed
    the configured bound, whatever is sent and however slowly the peer reads. *)
Theorem send_queue_bounded (o : TransportOptions) (e : Endpoint)
    (Hmax : 0 <= to_max_send_queue_frames o)
    (Hreach : rtc end_step (endpoint_open o) e) :
  queued (en_session e) <= to_max_send_queue_frames o.
Proof.
  assert (H0 : end_ok o (endpoint_open o)) by (split; try done; apply Forall_nil_2).
  assert (Hq : queued (en_session (endpoint_open o)) <= to_max_send_queue_frames o) by done.
  induction Hreach as [|e1 e2 e3 Hs _ IH]; [done|]. apply IH; [by eapply end_step_ok|].
  destruct Hs as [a e1 e2 taken Ht Ha]. eapply act_queued; [exact Ha| |exact Hq]. by rewrite (end_options _ _ H0).
Qed.

(** Asking a session to stop does not end its thread: it ends when [poll]
    fails, or when the peer hangs up or ends the stream, and on nothing else.
    [close] joins the thread, so it returns only after one of these: while the
    peer keeps the connection open, it waits. *)
Theorem close_waits_for_peer (o : TransportOptions) (e e' : Endpoint) (a : Action) (taken : list Z)
    (Hreach : rtc end_step (endpoint_open o) e)
    (Hact : act a e = Some (e', taken)) :
  (a = DoJoin -> en_phase e = Ended) /\
  (en_phase e <> Ended -> en_phase e' = Ended ->
     a = DoPoll PollFailed \/
     (exists readable writable, a = DoPoll (PollReady true readable writable)) \/
     (exists writable, a = DoPoll (PollReady false (Some ReceivedEnd) writable))).
Proof.
  pose proof (end_reachable_ok o e Hreach) as [_ Hr _ _]. apply act_proceeds in Hact. split.
  - intros ->. cbn [proceed] in Hact. by destruct (en_phase e).
  - intros Hne Hend. specialize (Hr Hne). destruct a as [answer|sent| |f| | |]; cbn [proceed] in Hact;
      try ((destruct (en_phase e) eqn:Ep; try discriminate Hact); [idtac]).
    + destruct answer as [|[] readable writable]; [by left|right; left; by eexists _, _|].
      destruct readable as [[bytes| |]|]; [|right; right; by eexists| |];
        unfold poll_turn in Hact; rewrite Hr in Hact; injection Hact as <- <-; by destruct writable.
    + assert (Hw : (write_turn sent (en_session e)).1.1 <> Ended).
      { unfold write_turn, write_pending. repeat case_match; done. }
      destruct (write_turn _ _) as [[phase s'] w]. injection Hact as <- <-. done.
    + exfalso. revert Hact Hend. unfold decode_turn. cbv zeta.
      destruct (_ <? _)%nat; [by intros [= <- <-]|].
      destruct (decode_header _ _); [by intros [= <- <-]|].
      destruct (_ <? _)%nat; [by intros [= <- <-]|]. destruct (decode_frame _ _); by intros [= <- <-].
    + destruct (send f _) as [r s']. by injection Hact as <- <-.
    + destruct (receive _) as [r s']. by injection Hact as <- <-.
    + by injection Hact as <- <-.
    + done.
Qed.

(** The receive buffer begins with a whole header, or a whole frame, that the
    decoder refuses. *)
Definition refuses (s : Session) : Prop :=
  let buffer := ss_receive_buffer s in
  (frame_header_bytes <= length buffer)%nat /\
  match decode_header (limits_of s) (take frame_header_bytes buffer) with
  | inl _ => True
  | inr header =>
      let total := (frame_header_bytes + Z.to_nat (fh_payload_bytes header))%nat in
      (total <= length buffer)%nat /\
      match decode_frame (limits_of s) (take total buffer) with inl _ => True | inr _ => False end
  end.

Lemma decode_turn_refused s : refuses s -> decode_turn s = (Stuck, s).
Proof.
  intros [Hl Hr]. unfold decode_turn. cbv zeta. rewrite (proj2 (Nat.ltb_ge _ _) Hl).
  destruct (decode_header _ _) as [error|header]; [done|]. destruct Hr as [Ht Hr].
  rewrite (proj2 (Nat.ltb_ge _ _) Ht). by destruct (decode_frame _ _).
Qed.

(** Nothing but the request to stop changes an end whose thread is stuck. *)
Definition hung_with (stop : bool) (e : Endpoint) : Endpoint :=
  e <| en_phase := Stuck |> <| en_session := (en_session e) <| ss_stop_requested := stop |> |>.

Lemma hung_step stop e e' : end_step (hung_with stop e) e' -> exists stop', e' = hung_with stop' e.
Proof.
  intros Hs. remember (hung_with stop e) as h eqn:Eh. destruct Hs as [a h e' taken Ht Ha]. subst h.
  destruct a as [answer|sent| |f| | |]; try discriminate Ha.
  - exists stop. revert Ha. unfold act, waits. cbn [proceed hung_with en_phase en_session update_field].
    rewrite bool_decide_eq_true_2 by done. unfold send. cbn [andb].
    destruct (encode_frame _ f) as [error|bytes] eqn:E; [|done]. intros [= <- <-].
    unfold hung_with. destruct e. cbn. by rewrite app_nil_r.
  - exists true. by injection Ha as <- <-.
Qed.


(** After as many connections that send a malformed header as the listener has
    slots, it refuses every other. *)
Theorem hung_sessions_exhaust_slots (o : TransportOptions) (bytes : list Z) (error : string) (n limit : nat)
    (Hheader : decode_header (to_limits o) (take frame_header_bytes bytes) = inl error)
    (Hlength : (frame_header_bytes <= length bytes)%nat) (Hn : (limit <= n)%nat) :
  accept_session o (Nat.iter n (serve_bytes o bytes) {| cc_active := 0; cc_limit := Z.of_nat limit |}) =
    (inl "connection limit reached", {| cc_active := Z.of_nat limit; cc_limit := Z.of_nat limit |}).
Proof.
  assert (Hone : forall k, Z.of_nat k < Z.of_nat limit ->
    serve_bytes o bytes {| cc_active := Z.of_nat k; cc_limit := Z.of_nat limit |} =
    {| cc_active := Z.of_nat (S k); cc_limit := Z.of_nat limit |}).
  { intros k Hk. unfold serve_bytes, accept_session. cbn [cc_limit cc_active].
    destruct (Z.leb_spec (Z.of_nat limit) (Z.of_nat k)); [lia|]. cbn [poll_turn ss_closed session_open].
    rewrite decode_turn_refused by (split; [exact Hlength|]; unfold limits_of; cbn [ss_receive_buffer ss_options update_field session_open app]; by rewrite Hheader). f_equal. lia. }
  assert (Hfull : serve_bytes o bytes {| cc_active := Z.of_nat limit; cc_limit := Z.of_nat limit |} =
    {| cc_active := Z.of_nat limit; cc_limit := Z.of_nat limit |}).
  { unfold serve_bytes, accept_session. cbn [cc_limit cc_active]. by rewrite Z.leb_refl. }
  assert (Hiter : forall k, Nat.iter k (serve_bytes o bytes) {| cc_active := 0; cc_limit := Z.of_nat limit |} =
    {| cc_active := Z.of_nat (Nat.min k limit); cc_limit := Z.of_nat limit |}).
  { induction k as [|k IH]; [done|]. cbn [Nat.iter nat_rect]. unfold Nat.iter in IH. rewrite IH.
    destruct (decide (k < limit)%nat); [rewrite Hone by lia|rewrite (Nat.min_r k) by lia; rewrite Hfull]; f_equal; lia. }
  rewrite Hiter, Nat.min_r by done. unfold accept_session. cbn [cc_limit cc_active]. by rewrite Z.leb_refl.
Qed.

(** ** A connection at work *)

(** A frame is sent, written in two pieces, read in two pieces and received. *)
Definition ping_schedule : list (bool * Action) := [
  (true, DoSend ping_frame);
  (true, DoPoll (PollReady false None true)); (true, DoWrite 10); (true, DoWrite 0);
  (false, DoPoll (PollReady false (Some (ReceivedBytes (take 10 ping_bytes))) false)); (false, DoDecode);
  (true, DoDecode); (true, DoPoll (PollReady false None true)); (true, DoWrite 17); (true, DoWrite 0);
  (false, DoPoll (PollReady false (Some (ReceivedBytes (drop 10 ping_bytes))) false)); (false, DoDecode);
  (false, DoDecode); (false, DoReceive)].
Definition ping_link : Link := Eval vm_compute in
  match run_link ping_schedule (link_open transport_options_default) with
  | Some l => l
  | None => link_open transport_options_default
  end.

Lemma ping_typed : Forall (fun x => typed x.2) ping_schedule.
Proof. unfold ping_schedule. repeat (apply Forall_cons_2; [first [exact I | apply ping_fits]|]). apply Forall_nil_2. Qed.

Lemma frames_arrive_in_order_witness :
  en_delivered (ln_to ping_link) = [sealed ping_frame] /\
  exists n, en_delivered (ln_to ping_link) = sealed <$> take n (en_accepted (ln_from ping_link)).
Proof.
  split; [vm_compute; reflexivity|].
  apply (frames_arrive_in_order transport_options_default ping_link); [by vm_compute|].
  apply (run_link_steps ping_schedule); [apply ping_typed|vm_compute; reflexivity].
Defined.

(** An end of a connection with room for one frame, after it was given one. *)
Definition narrow_options : TransportOptions :=
  {| to_bind_address := "127.0.0.1"; to_port := 0; to_limits := default_resource_limits;
     to_max_send_queue_frames := 1; to_max_receive_queue_frames := 1; to_connect_bound_millis := 0 |}.
Definition after_action (a : Action) (e : Endpoint) : Endpoint :=
  match act a e with Some (e', _) => e' | None => e end.
Definition full_end : Endpoint := after_action (DoSend ping_frame) (endpoint_open narrow_options).

Lemma full_reachable : rtc end_step (endpoint_open narrow_options) full_end.
Proof. apply rtc_once, (end_acts (DoSend ping_frame) _ _ []); [apply ping_fits|vm_compute; reflexivity]. Qed.

Lemma send_queue_bounded_witness :
  (send ping_frame (en_session full_end)).1 = inl "send queue is full" /\
  queued (en_session full_end) <= to_max_send_queue_frames narrow_options.
Proof.
  split; [vm_compute; reflexivity|]. apply send_queue_bounded; [by vm_compute|apply full_reachable].
Defined.

(** A session that was asked to stop polls, finds nothing, and polls again. *)
Definition stopped_end : Endpoint := after_action DoStop full_end.

Lemma stopped_reachable : rtc end_step (endpoint_open narrow_options) stopped_end.
Proof.
  eapply rtc_r; [apply full_reachable|]. apply (end_acts DoStop _ _ []); [exact I|vm_compute; reflexivity].
Qed.

Lemma close_waits_for_peer_witness :
  ss_stop_requested (en_session stopped_end) = true /\
  en_phase (after_action (DoPoll (PollReady false None false)) stopped_end) <> Ended.
Proof.
  split; [vm_compute; reflexivity|]. intros H.
  destruct (close_waits_for_peer narrow_options stopped_end
    (after_action (DoPoll (PollReady false None false)) stopped_end) (DoPoll (PollReady false None false)) [])
    as [_ Hend]; [apply stopped_reachable|vm_compute; reflexivity|].
  destruct (Hend ltac:(by vm_compute) H) as [E|[(r & w & E)|(w & E)]]; discriminate E.
Defined.

(** Twenty-four bytes that are not a header, read by the thread. *)
Definition refused_end : Endpoint :=
  after_action (DoPoll (PollReady false (Some (ReceivedBytes (repeat 0 24))) false)) (endpoint_open transport_options_default).

Lemma refused_reachable : rtc end_step (endpoint_open transport_options_default) refused_end.
Proof.
  apply rtc_once, (end_acts (DoPoll (PollReady false (Some (ReceivedBytes (repeat 0 24))) false)) _ _ []); [exact I|].
  vm_compute. reflexivity.
Qed.


Lemma hung_sessions_exhaust_slots_witness :
  (accept_session transport_options_default
    (Nat.iter 256 (serve_bytes transport_options_default (repeat 0 24)) connection_counter_default)).1 =
    inl "connection limit reached".
Proof.
  change connection_counter_default with {| cc_active := 0; cc_limit := Z.of_nat 256 |}.
  rewrite (hung_sessions_exhaust_slots transport_options_default (repeat 0 24) "frame magic does not match" 256%nat 256%nat);
    [done|vm_compute; reflexivity|done|done].
Defined.
