(* ===== verification/WireRecords.v ===== *)
(** * The records of the wire protocol ([distributed/protocol.cpp])

    [PayloadWriter] and [PayloadReader], and how the records of the messages are
    written and read field by field, with the theorem that what is written is
    read back.  Every output object of the readers is a fresh one, as in each of
    their callers.  The reads of a cost, a binding, a candidate key, an authority
    and a profile are statement for statement those of the durable format. *)
From S2P Require Import Prelude Bytes Ids Limits Clock Codec Outcome Capability Evidence Catalog Request Candidate.
From S2P Require Import Authority Decision PersistRecords.

(** ** The payload writer and reader *)

(** [PayloadReader::get_*] with an early return of false. *)
Notation "x ←! m ; k" := (or_fail m (fun x => k)) (at level 20, m at level 100, k at level 200) : router_scope.

(** [return reader->ok()] after the last field. *)
Definition if_ok {A} (a : A) : Get (option A) := 
  ok ← reader_ok; mret (match ok with true => Some a | false => None end).

Definition byte_block_too_long : string := "byte block exceeds the configured limit".
Definition declared_block_too_long : string := "declared byte block length exceeds the configured limit".

(** A declared count, checked against its limit before the loop it bounds. *)
Definition get_counted {A} (limit : Z) (get : Get A) : Get (option (list A)) :=
  count ← get_u32; ok ← reader_ok;
  return_if negb ok || (limit <? count) with mret None ;;
  l ← get_each (Z.to_nat count) get; mret (Some l).
Definition get_counted_or_fail {A} (limit : Z) (get : Get (option A)) : Get (option (list A)) :=
  count ← get_u32; ok ← reader_ok;
  return_if negb ok || (limit <? count) with mret None ;;
  get_each_or_fail (Z.to_nat count) get.

(** ** Enumerations *)

Definition health_states : list HealthState.t := [
  HealthState.UNKNOWN; HealthState.HEALTHY; HealthState.DEGRADED; HealthState.UNHEALTHY; HealthState.DRAINING;
  HealthState.RETIRED; HealthState.kCount].
Definition availability_states : list AvailabilityState.t := [
  AvailabilityState.UNKNOWN; AvailabilityState.AVAILABLE; AvailabilityState.UNAVAILABLE; AvailabilityState.kCount].
Definition readiness_states : list ReadinessState.t := [
  ReadinessState.UNKNOWN; ReadinessState.READY; ReadinessState.WARMING; ReadinessState.NOT_READY;
  ReadinessState.kCount].
Definition residency_states : list ResidencyState.t := [
  ResidencyState.UNKNOWN; ResidencyState.RESIDENT; ResidencyState.LOADING; ResidencyState.NOT_RESIDENT;
  ResidencyState.EVICTING; ResidencyState.kCount].
Definition capacity_states : list CapacityState.t := [
  CapacityState.UNKNOWN; CapacityState.AVAILABLE; CapacityState.SATURATED; CapacityState.kCount].
Definition fallback_policies : list FallbackPolicy.t := [
  FallbackPolicy.FORBIDDEN; FallbackPolicy.EXPLICIT_ONLY; FallbackPolicy.PERMITTED; FallbackPolicy.kCount].
Definition currentness_values : list Currentness.t := [
  Currentness.CURRENT; Currentness.STALE; Currentness.REVALIDATION_REQUIRED; Currentness.RECONSTRUCTED;
  Currentness.kCount].
Definition failure_classes : list FailureClass.t := [
  FailureClass.TRANSIENT_BACKEND_FAILURE; FailureClass.BACKEND_UNAVAILABLE; FailureClass.BACKEND_RESTARTED;
  FailureClass.MODEL_UNAVAILABLE; FailureClass.STALE_ROUTE; FailureClass.POLICY_CHANGED; FailureClass.BUDGET_CHANGED;
  FailureClass.PRICE_CHANGED; FailureClass.SLO_CHANGED; FailureClass.CAPACITY_CHANGED;
  FailureClass.COMPATIBILITY_CHANGED; FailureClass.PERMANENT_REJECTION; FailureClass.CALLER_CANCELLED;
  FailureClass.UNKNOWN; FailureClass.kCount].
Definition ranking_factors : list RankingFactor.t := [
  RankingFactor.CAPABILITY_FIT; RankingFactor.PREFERRED_CAPABILITY_COVERAGE; RankingFactor.QUALITY_CLASS;
  RankingFactor.COST_TOTAL; RankingFactor.LATENCY; RankingFactor.TAIL_LATENCY; RankingFactor.QUEUE_DELAY;
  RankingFactor.WARMTH; RankingFactor.RESIDENCY; RankingFactor.LOCALITY; RankingFactor.NETWORK_DISTANCE;
  RankingFactor.PROVIDER_AVAILABILITY; RankingFactor.BACKEND_HEALTH; RankingFactor.BACKEND_READINESS;
  RankingFactor.CAPACITY_HEADROOM; RankingFactor.RESERVATION_CONFIDENCE; RankingFactor.SLO_HEADROOM;
  RankingFactor.CONTEXT_HEADROOM; RankingFactor.TRUST_PREFERENCE; RankingFactor.POLICY_PREFERENCE;
  RankingFactor.MODEL_AFFINITY; RankingFactor.CACHE_AFFINITY; RankingFactor.HISTORICAL_RELIABILITY;
  RankingFactor.FAILURE_DOMAIN_DIVERSITY; RankingFactor.DATA_MOVEMENT_COST; RankingFactor.BACKEND_STARTUP_COST;
  RankingFactor.ROUTE_SWITCH_PENALTY; RankingFactor.CONTINUITY_STICKINESS; RankingFactor.CALLER_PREFERENCE;
  RankingFactor.kCount].

(** A read whose caller rejects every value from [kCount] on. *)
Definition get_checked {T} (values : list T) (index : T -> Z) (kCount : T) : Get T :=
  x ← get_u8; mret (default kCount (enum_of values index x)).

(** Reads that nobody checks. *)
Definition get_unchecked_capability_state : Get CapabilityState.t :=
  get_enum capability_states CapabilityState.index CapabilityState.kCount get_u8.
Definition get_fallback_policy : Get FallbackPolicy.t :=
  get_enum fallback_policies FallbackPolicy.index FallbackPolicy.kCount get_u8.
Definition get_currentness : Get Currentness.t :=
  get_enum currentness_values Currentness.index Currentness.kCount get_u8.

(** ** Writers and readers *)

Section WireRecords.
Context (limits : ResourceLimits).

(** Unlike the writer of the durable format this one goes on after a failure;
    [encode_message] then drops what it wrote. *)
Definition put_text (s : string) : Put := fun w =>
  let size := Z.of_nat (String.length s) in
  return_if max_string_bytes limits <? size with writer_fail string_too_long w ;;
  append_bytes (string_codes s) (put_u32 size w).

Definition put_bytes (bytes : list Z) : Put := fun w =>
  let size := Z.of_nat (length bytes) in
  return_if max_payload_bytes limits <? size with writer_fail byte_block_too_long w ;;
  append_bytes bytes (put_u32 size w).

Definition get_bytes : Get (list Z) :=
  size ← get_u32; ok ← reader_ok;
  return_if negb ok with mret [] ;;
  return_if max_payload_bytes limits <? size with reader_fail declared_block_too_long [] ;;
  granted ← require size;
  return_if negb granted with mret [] ;;
  take_bytes size.

Definition put_capability (e : CapabilityEvidence) : Put := in_order [
  put_text (key_string (ce_key e)); put_u8 (CapabilityState.index (ce_state e)); put_generation (ce_generation e);
  put_id (ce_profile_id e); put_generation (ce_model_generation e); put_generation (ce_backend_generation e);
  put_generation (ce_backend_boot e); put_i64 (ce_observed_at e); put_i64 (ce_expires_at e); put_text (ce_source e);
  put_text (ce_detail e)].

Definition put_profile (p : CapabilityProfile) : Put := in_order [
  put_id (profile_id p); put_generation (profile_generation p); put_u32 (size32 (profile_entries p));
  put_each put_capability (profile_entries p)].

Definition put_cost (c : CostEvidence) : Put := in_order [
  put_id (co_evidence_id c); put_generation (co_price_generation c); put_id (co_backend_id c);
  put_id (co_model_id c); put_text (cu_currency (co_unit c)); put_text (cu_basis (co_unit c));
  put_i64 (co_input_micros_per_unit c); put_i64 (co_output_micros_per_unit c); put_i64 (co_request_minimum_micros c);
  put_i64 (co_cache_read_micros_per_unit c); put_i64 (co_cache_write_micros_per_unit c);
  put_i64 (co_estimated_total_micros c); put_u8 (CostKnownness.index (co_knownness c)); put_i64 (co_effective_at c);
  put_i64 (co_expires_at c); put_text (co_source c)].

Definition put_binding (b : ModelBinding) : Put := in_order [
  put_id (mb_model_id b); put_generation (mb_model_generation b); put_generation (mb_artifact_generation b);
  put_u32 (mb_context_limit_tokens b); put_u32 (mb_quality_class b); put_cost (mb_cost b); put_i64 (mb_bound_at b)].

Definition put_backend (b : BackendDescriptor) : Put := in_order [
  put_id (bd_backend_id b); put_generation (bd_backend_generation b); put_generation (bd_backend_boot b);
  put_generation (bd_registration_generation b); put_id (bd_provider_id b); put_generation (bd_provider_generation b);
  put_id (ep_endpoint_id (bd_endpoint b)); put_generation (ep_endpoint_generation (bd_endpoint b));
  put_id (ep_backend_id (bd_endpoint b)); put_generation (ep_backend_boot (bd_endpoint b));
  put_text (ep_reference (bd_endpoint b)); put_text (ep_protocol (bd_endpoint b));
  put_u32 (ep_protocol_version (bd_endpoint b)); put_id (bd_trust_profile_id b);
  put_generation (bd_trust_generation b); put_u8 (TrustDomain.index (bd_trust_domain b));
  put_text (locality_string (bd_locality b)); put_u32 (bd_network_distance b); put_id (bd_capability_profile_id b);
  put_generation (bd_capability_generation b); put_id (bd_compatibility_profile_id b);
  put_generation (bd_compatibility_generation b); put_u32 (size32 (bd_model_bindings b));
  put_each put_binding (bd_model_bindings b); put_u32 (bd_reliability_ppm b); put_bool (bd_offline_capable b);
  put_u8 (Provenance.index (bd_provenance b)); put_i64 (bd_registered_at b); put_i64 (bd_expires_at b)].

Definition get_backend : Get (option BackendDescriptor) :=
  backend_id ← get_id; backend_generation ← get_generation; backend_boot ← get_generation;
  registration_generation ← get_generation; provider_id ← get_id; provider_generation ← get_generation;
  endpoint_id ← get_id; endpoint_generation ← get_generation; endpoint_backend_id ← get_id;
  endpoint_backend_boot ← get_generation; reference ← get_string limits; protocol ← get_string limits;
  protocol_version ← get_u32; trust_profile_id ← get_id; trust_generation ← get_generation;
  trust_domain ← get_trust_domain; locality ← get_string limits; network_distance ← get_u32;
  capability_profile_id ← get_id; capability_generation ← get_generation; compatibility_profile_id ← get_id;
  compatibility_generation ← get_generation;
  bindings ←! get_counted_or_fail (max_model_bindings_per_backend limits) (read_binding limits);
  reliability_ppm ← get_u32; offline_capable ← get_bool; provenance ← get_provenance; registered_at ← get_i64;
  expires_at ← get_i64;
  if_ok (backend_descriptor_default <| bd_backend_id := backend_id |>
    <| bd_backend_generation := backend_generation |> <| bd_backend_boot := backend_boot |>
    <| bd_registration_generation := registration_generation |> <| bd_provider_id := provider_id |>
    <| bd_provider_generation := provider_generation |>
    <| bd_endpoint := {| ep_endpoint_id := endpoint_id; ep_endpoint_generation := endpoint_generation;
         ep_backend_id := endpoint_backend_id; ep_backend_boot := endpoint_backend_boot;
         ep_reference := reference; ep_protocol := protocol; ep_protocol_version := protocol_version |} |>
    <| bd_trust_profile_id := trust_profile_id |> <| bd_trust_generation := trust_generation |>
    <| bd_trust_domain := trust_domain |> <| bd_locality := LocalityKeyOf locality |>
    <| bd_network_distance := network_distance |> <| bd_capability_profile_id := capability_profile_id |>
    <| bd_capability_generation := capability_generation |>
    <| bd_compatibility_profile_id := compatibility_profile_id |>
    <| bd_compatibility_generation := compatibility_generation |> <| bd_model_bindings := bindings |>
    <| bd_reliability_ppm := reliability_ppm |> <| bd_offline_capable := offline_capable |>
    <| bd_provenance := provenance |> <| bd_registered_at := registered_at |> <| bd_expires_at := expires_at |>).

Definition put_candidate_key : CandidateKey -> Put := write_candidate_key.
Definition put_authority : RouteAuthority -> Put := write_authority.

Definition put_requirement (r : CapabilityRequirement) : Put := in_order [
  put_text (key_string (cr_key r)); put_u8 (CapabilityState.index (cr_minimum_state r))].

Definition get_requirement : Get (option CapabilityRequirement) :=
  key ← get_string limits; state ← get_capability_state; ok ← reader_ok;
  return_if negb ok || negb (CapabilityState.index state <? CapabilityState.index CapabilityState.kCount)
    with mret None ;;
  mret (Some {| cr_key := CapabilityKeyOf key; cr_minimum_state := state |}).

Definition put_requirements (q : RouteRequirements) : Put := in_order [
  put_u32 (size32 (rq_required_capabilities q)); put_each put_requirement (rq_required_capabilities q);
  put_u32 (size32 (rq_preferred_capabilities q));
  put_each (fun key => put_text (key_string key)) (rq_preferred_capabilities q);
  put_u8 (CapabilityState.index (rq_minimum_capability_evidence q)); put_u32 (rq_min_context_tokens q);
  put_u32 (rq_max_output_tokens q); put_u32 (modality_bits (rq_input_modalities q));
  put_u32 (modality_bits (rq_output_modalities q)); put_bool (rq_require_structured_output q);
  put_bool (rq_require_json_schema q); put_bool (rq_require_tool_calling q); put_bool (rq_require_streaming q);
  put_bool (rq_require_logprobs q); put_bool (rq_require_deterministic_seed q); put_u32 (rq_quality_floor q);
  put_u32 (size32 (rq_model_allowlist q)); put_each put_id (rq_model_allowlist q);
  put_u32 (size32 (rq_model_denylist q)); put_each put_id (rq_model_denylist q);
  put_u32 (size32 (rq_family_allowlist q)); put_each put_id (rq_family_allowlist q);
  put_u32 (size32 (rq_family_denylist q)); put_each put_id (rq_family_denylist q);
  put_u32 (size32 (rq_provider_allowlist q)); put_each put_id (rq_provider_allowlist q);
  put_u32 (size32 (rq_provider_denylist q)); put_each put_id (rq_provider_denylist q);
  put_u32 (size32 (rq_backend_allowlist q)); put_each put_id (rq_backend_allowlist q);
  put_u32 (size32 (rq_backend_denylist q)); put_each put_id (rq_backend_denylist q);
  put_bool (rq_local_only q); put_bool (rq_offline_only q); put_bool (rq_remote_allowed q);
  put_u32 (size32 (rq_required_localities q));
  put_each (fun key => put_text (locality_string key)) (rq_required_localities q);
  put_u32 (size32 (rq_denied_localities q));
  put_each (fun key => put_text (locality_string key)) (rq_denied_localities q);
  put_u8 (TrustDomain.index (rq_minimum_trust q)); put_bool (rq_require_known_cost q);
  put_bool (rq_enforce_cost_ceiling q); put_text (cu_currency (mo_unit (rq_maximum_cost q)));
  put_text (cu_basis (mo_unit (rq_maximum_cost q))); put_i64 (mo_micros (rq_maximum_cost q));
  put_u32 (rq_max_latency_micros q); put_u32 (rq_deadline_micros q); put_bool (rq_require_slo q);
  put_bool (rq_require_available q); put_bool (rq_require_healthy q); put_bool (rq_require_ready q);
  put_bool (rq_require_resident q); put_bool (rq_require_capacity q); put_bool (rq_require_reservation q);
  put_bool (rq_require_known_latency q); put_bool (rq_require_known_compatibility q);
  put_text (rq_required_protocol q); put_u32 (rq_required_protocol_version q); put_id (rq_affinity_model q);
  put_id (rq_affinity_provider q); put_id (rq_affinity_backend q);
  put_bool (sk_prefer_same_model_family (rq_stickiness q));
  put_bool (sk_prefer_same_provider (rq_stickiness q)); put_bool (sk_prefer_same_backend (rq_stickiness q));
  put_bool (sk_prefer_context_locality (rq_stickiness q)); put_id (sk_family (rq_stickiness q));
  put_id (sk_provider (rq_stickiness q)); put_id (sk_backend (rq_stickiness q));
  put_bool (rq_allow_fallbacks q); put_u8 (FallbackPolicy.index (rq_fallback_policy q));
  put_bool (rp_allow_retry (rq_retry_policy q)); put_bool (rp_allow_reroute (rq_retry_policy q));
  put_bool (rp_allow_model_switch (rq_retry_policy q));
  put_bool (rp_allow_provider_switch (rq_retry_policy q)); put_u32 (rp_max_attempts (rq_retry_policy q));
  put_u32 (rp_max_fallbacks (rq_retry_policy q))].

(** [read_ids]. *)
Definition read_ids {t} : Get (option (list (EntityId t))) :=
  l ←! get_counted (max_allowlist_entries limits) get_id;
  if_ok l.

Definition get_requirements : Get (option RouteRequirements) :=
  required_capabilities ←! get_counted_or_fail (max_requirement_entries limits) get_requirement;
  preferred_capabilities ←! get_counted (max_requirement_entries limits) (key ← get_string limits; mret (CapabilityKeyOf key));
  minimum_capability_evidence ← get_unchecked_capability_state; min_context_tokens ← get_u32;
  max_output_tokens ← get_u32; required_input_modalities ← get_u32; required_output_modalities ← get_u32;
  require_structured_output ← get_bool; require_json_schema ← get_bool; require_tool_calling ← get_bool;
  require_streaming ← get_bool; require_logprobs ← get_bool; require_deterministic_seed ← get_bool;
  quality_floor ← get_u32;
  model_allowlist ←! read_ids;
  model_denylist ←! read_ids;
  family_allowlist ←! read_ids;
  family_denylist ←! read_ids;
  provider_allowlist ←! read_ids;
  provider_denylist ←! read_ids;
  backend_allowlist ←! read_ids;
  backend_denylist ←! read_ids;
  local_only ← get_bool; offline_only ← get_bool; remote_allowed ← get_bool;
  required_localities ←! get_counted (max_allowlist_entries limits) (key ← get_string limits; mret (LocalityKeyOf key));
  denied_localities ←! get_counted (max_allowlist_entries limits) (key ← get_string limits; mret (LocalityKeyOf key));
  minimum_trust ← get_trust_domain; require_known_cost ← get_bool; enforce_cost_ceiling ← get_bool;
  currency ← get_string limits; basis ← get_string limits; maximum_micros ← get_i64; max_latency_micros ← get_u32;
  deadline_micros ← get_u32; require_slo ← get_bool; require_available ← get_bool; require_healthy ← get_bool;
  require_ready ← get_bool; require_resident ← get_bool; require_capacity ← get_bool;
  require_reservation ← get_bool; require_known_latency ← get_bool; require_known_compatibility ← get_bool;
  required_protocol ← get_string limits; required_protocol_version ← get_u32; affinity_model ← get_id;
  affinity_provider ← get_id; affinity_backend ← get_id; prefer_same_model_family ← get_bool;
  prefer_same_provider ← get_bool; prefer_same_backend ← get_bool; prefer_context_locality ← get_bool;
  sticky_family ← get_id; sticky_provider ← get_id; sticky_backend ← get_id; allow_fallbacks ← get_bool;
  fallback_policy ← get_fallback_policy; allow_retry ← get_bool; allow_reroute ← get_bool;
  allow_model_switch ← get_bool; allow_provider_switch ← get_bool; max_attempts ← get_u32;
  max_fallbacks ← get_u32;
  if_ok {|
    rq_required_capabilities := required_capabilities; rq_preferred_capabilities := preferred_capabilities;
    rq_minimum_capability_evidence := minimum_capability_evidence; rq_min_context_tokens := min_context_tokens;
    rq_max_output_tokens := max_output_tokens; rq_input_modalities := ModalitySetOf required_input_modalities;
    rq_output_modalities := ModalitySetOf required_output_modalities; rq_require_structured_output :=
    require_structured_output; rq_require_json_schema := require_json_schema; rq_require_tool_calling :=
    require_tool_calling; rq_require_streaming := require_streaming; rq_require_logprobs := require_logprobs;
    rq_require_deterministic_seed := require_deterministic_seed; rq_quality_floor := quality_floor;
    rq_model_allowlist := model_allowlist; rq_model_denylist := model_denylist; rq_family_allowlist :=
    family_allowlist; rq_family_denylist := family_denylist; rq_provider_allowlist := provider_allowlist;
    rq_provider_denylist := provider_denylist; rq_backend_allowlist := backend_allowlist; rq_backend_denylist
    := backend_denylist; rq_local_only := local_only; rq_offline_only := offline_only; rq_remote_allowed :=
    remote_allowed; rq_required_localities := required_localities; rq_denied_localities := denied_localities;
    rq_minimum_trust := minimum_trust; rq_require_known_cost := require_known_cost; rq_enforce_cost_ceiling :=
    enforce_cost_ceiling; rq_maximum_cost := {| mo_micros := maximum_micros; mo_unit := {| cu_currency :=
    currency; cu_basis := basis |} |}; rq_max_latency_micros := max_latency_micros; rq_deadline_micros :=
    deadline_micros; rq_require_slo := require_slo; rq_require_available := require_available;
    rq_require_healthy := require_healthy; rq_require_ready := require_ready; rq_require_resident :=
    require_resident; rq_require_capacity := require_capacity; rq_require_reservation := require_reservation;
    rq_require_known_latency := require_known_latency; rq_require_known_compatibility :=
    require_known_compatibility; rq_required_protocol := required_protocol; rq_required_protocol_version :=
    required_protocol_version; rq_affinity_model := affinity_model; rq_affinity_provider := affinity_provider;
    rq_affinity_backend := affinity_backend; rq_stickiness := {| sk_prefer_same_model_family :=
    prefer_same_model_family; sk_prefer_same_provider := prefer_same_provider; sk_prefer_same_backend :=
    prefer_same_backend; sk_prefer_context_locality := prefer_context_locality; sk_family := sticky_family;
    sk_provider := sticky_provider; sk_backend := sticky_backend |}; rq_allow_fallbacks := allow_fallbacks;
    rq_fallback_policy := fallback_policy; rq_retry_policy := {| rp_allow_retry := allow_retry;
    rp_allow_reroute := allow_reroute; rp_allow_model_switch := allow_model_switch; rp_allow_provider_switch :=
    allow_provider_switch; rp_max_attempts := max_attempts; rp_max_fallbacks := max_fallbacks |} |}.

Definition put_factor (f : FactorValue) : Put := in_order [
  put_u8 (RankingFactor.index (fv_factor f)); put_bool (fv_known f); put_i64 (fv_normalized f); put_i64 (fv_raw f);
  put_i64 (fv_weight_ppm f); put_i64 (fv_contribution f); put_u64 (fv_evidence_generation f); put_text (fv_source f)].

Definition get_factor : Get (option FactorValue) :=
  factor ← get_checked ranking_factors RankingFactor.index RankingFactor.kCount; known ← get_bool;
  normalized ← get_i64; raw ← get_i64; weight_ppm ← get_i64; contribution ← get_i64; evidence_generation ← get_u64;
  source ← get_string limits; ok ← reader_ok;
  return_if negb ok || (RankingFactor.index RankingFactor.kCount <=? RankingFactor.index factor) with mret None ;;
  mret (Some {| fv_factor := factor; fv_known := known; fv_normalized := normalized; fv_raw := raw;
    fv_weight_ppm := weight_ppm; fv_contribution := contribution; fv_evidence_generation := evidence_generation;
    fv_source := source |}).

Definition put_ranked (r : RankedCandidate) : Put := in_order [
  put_candidate_key (rk_key r); put_i64 (rk_score r); put_u32 (rk_rank r); put_u32 (size32 (rk_factors r));
  put_each put_factor (rk_factors r)].

Definition get_ranked : Get (option RankedCandidate) :=
  key ← read_candidate_key; score ← get_i64; rank ← get_u32;
  factors ←! get_counted_or_fail (max_explanation_factors limits) get_factor;
  mret (Some {| rk_key := key; rk_score := score; rk_factors := factors; rk_rank := rank |}).

Definition put_rejection (r : RouteRejection) : Put := in_order [
  put_u64 (rj_model_id r); put_generation (rj_model_generation r); put_u64 (rj_backend_id r);
  put_generation (rj_backend_generation r); put_generation (rj_backend_boot r); put_u64 (rj_endpoint_id r);
  put_u16 (OutcomeCode.index (rj_code r)); put_text (rj_detail r)].

Definition get_rejection : Get RouteRejection :=
  model_id ← get_u64; model_generation ← get_generation; backend_id ← get_u64; backend_generation ← get_generation;
  backend_boot ← get_generation; endpoint_id ← get_u64; code ← get_outcome_code; detail ← get_string limits;
  mret {| rj_model_id := model_id; rj_model_generation := model_generation; rj_backend_id := backend_id;
    rj_backend_generation := backend_generation; rj_backend_boot := backend_boot; rj_endpoint_id := endpoint_id;
    rj_code := code; rj_detail := detail |}.

Definition put_decision (d : RouteDecision) : Put :=
  let x := de_explanation d in
  in_order [
  put_id (de_decision_id d); put_generation (de_decision_generation d); put_id (de_request_id d);
  put_generation (de_request_generation d); put_u8 (RouteStatus.index (de_status d));
  put_u16 (OutcomeCode.index (de_code d)); put_authority (de_authority d); put_candidate_key (rx_winner x);
  put_u32 (size32 (de_fallbacks d)); put_each put_candidate_key (de_fallbacks d); put_u32 (rx_eligible_count x);
  put_u32 (rx_rejected_count x); put_text (rx_tie_break_reason x); put_text (rx_requirement_digest x);
  put_text (rx_semantic_digest x); put_u8 (Currentness.index (rx_currentness x));
  put_u16 (OutcomeCode.index (rx_policy_result x)); put_cost (rx_cost x); put_u32 (size32 (rx_ranking x));
  put_each put_ranked (rx_ranking x); put_u32 (size32 (rx_rejections x)); put_each put_rejection (rx_rejections x);
  put_i64 (de_created_at d)].

Definition get_decision : Get (option RouteDecision) :=
  decision_id ← get_id; decision_generation ← get_generation; request_id ← get_id;
  request_generation ← get_generation; status ← get_route_status; code ← get_outcome_code;
  authority ← read_authority; winner ← read_candidate_key;
  fallbacks ←! get_counted (max_fallback_candidates limits) read_candidate_key;
  eligible_count ← get_u32; rejected_count ← get_u32; tie_break_reason ← get_string limits;
  requirement_digest ← get_string limits; semantic_digest ← get_string limits; currentness ← get_currentness;
  policy_result ← get_outcome_code;
  cost ←! read_cost limits;
  ranking ←! get_counted_or_fail (max_ranked_candidates limits) get_ranked;
  rejections ←! get_counted (max_rejection_records limits) get_rejection;
  created_at ← get_i64;
  if_ok (route_decision_default <| de_decision_id := decision_id |> <| de_decision_generation := decision_generation |>
    <| de_request_id := request_id |> <| de_request_generation := request_generation |> <| de_status := status |>
    <| de_code := code |> <| de_authority := authority |> <| de_fallbacks := fallbacks |>
    <| de_created_at := created_at |>
    <| de_explanation := route_explanation_default <| rx_request_id := request_id |>
         <| rx_request_generation := request_generation |> <| rx_winner := winner |>
         <| rx_eligible_count := eligible_count |> <| rx_rejected_count := rejected_count |>
         <| rx_rejections := rejections |> <| rx_ranking := ranking |> <| rx_tie_break_reason := tie_break_reason |>
         <| rx_authority := authority |> <| rx_cost := cost |> <| rx_policy_result := policy_result |>
         <| rx_fallback_order := fallbacks |> <| rx_currentness := currentness |>
         <| rx_requirement_digest := requirement_digest |> <| rx_semantic_digest := semantic_digest |> |>).

(** *** Evidence of a backend *)

Definition put_backend_evidence {S g} (index : S -> Z) (e : BackendEvidence S g) : Put := in_order [
  put_u8 (index (ev_state e)); put_generation (ev_generation e); put_id (ev_backend_id e);
  put_generation (ev_backend_generation e); put_generation (ev_backend_boot e);
  put_generation (ev_endpoint_generation e); put_i64 (ev_observed_at e); put_i64 (ev_expires_at e);
  put_text (ev_source e); put_text (ev_detail e)].

Definition get_backend_evidence {S g} (values : list S) (index : S -> Z) (kCount : S) : Get (option (BackendEvidence S g)) :=
  state ← get_checked values index kCount; generation ← get_generation; backend_id ← get_id;
  backend_generation ← get_generation; backend_boot ← get_generation; endpoint_generation ← get_generation;
  observed_at ← get_i64; expires_at ← get_i64; source ← get_string limits; detail ← get_string limits;
  ok ← reader_ok;
  return_if negb (ok && (index state <? index kCount)) with mret None ;;
  mret (Some {| ev_state := state; ev_generation := generation; ev_backend_id := backend_id;
    ev_backend_generation := backend_generation; ev_backend_boot := backend_boot;
    ev_endpoint_generation := endpoint_generation; ev_observed_at := observed_at; ev_expires_at := expires_at;
    ev_source := source; ev_detail := detail |}).

Definition put_capacity_detail (d : CapacityDetail) : Put := in_order [
  put_generation (cd_generation d); put_id (cd_backend_id d); put_generation (cd_backend_boot d);
  put_u32 (cd_available_slots d); put_u32 (cd_total_slots d); put_u32 (cd_queue_depth d);
  put_u32 (cd_max_queue_depth d); put_i64 (cd_observed_at d); put_i64 (cd_expires_at d)].

Definition get_capacity_detail : Get (option CapacityDetail) :=
  generation ← get_generation; backend_id ← get_id; backend_boot ← get_generation; available_slots ← get_u32;
  total_slots ← get_u32; queue_depth ← get_u32; max_queue_depth ← get_u32; observed_at ← get_i64;
  expires_at ← get_i64;
  if_ok {| cd_generation := generation; cd_backend_id := backend_id; cd_backend_boot := backend_boot;
    cd_available_slots := available_slots; cd_total_slots := total_slots; cd_queue_depth := queue_depth;
    cd_max_queue_depth := max_queue_depth; cd_observed_at := observed_at; cd_expires_at := expires_at |}.

Definition put_latency (e : LatencyEvidence) : Put := in_order [
  put_generation (lt_health_generation e); put_id (lt_backend_id e); put_generation (lt_backend_boot e);
  put_u32 (lt_dispatch_micros e); put_u32 (lt_time_to_first_token_micros e); put_u32 (lt_completed_micros e);
  put_u32 (lt_tail_micros e); put_u32 (lt_queue_micros e); put_u32 (lt_warm_start_penalty_micros e);
  put_u32 (lt_cold_start_penalty_micros e); put_u32 (lt_sample_count e); put_i64 (lt_observed_at e);
  put_i64 (lt_expires_at e); put_text (lt_source e)].

Definition get_latency : Get (option LatencyEvidence) :=
  health_generation ← get_generation; backend_id ← get_id; backend_boot ← get_generation;
  dispatch_micros ← get_u32; time_to_first_token_micros ← get_u32; completed_micros ← get_u32;
  tail_micros ← get_u32; queue_micros ← get_u32; warm_start_penalty_micros ← get_u32;
  cold_start_penalty_micros ← get_u32; sample_count ← get_u32; observed_at ← get_i64; expires_at ← get_i64;
  source ← get_string limits;
  if_ok {| lt_health_generation := health_generation; lt_backend_id := backend_id; lt_backend_boot := backend_boot;
    lt_dispatch_micros := dispatch_micros; lt_time_to_first_token_micros := time_to_first_token_micros;
    lt_completed_micros := completed_micros; lt_tail_micros := tail_micros; lt_queue_micros := queue_micros;
    lt_warm_start_penalty_micros := warm_start_penalty_micros;
    lt_cold_start_penalty_micros := cold_start_penalty_micros; lt_sample_count := sample_count;
    lt_observed_at := observed_at; lt_expires_at := expires_at; lt_source := source |}.
End WireRecords.

(** ** Machine ranges *)

Definition ids_fit {t} (l : list (EntityId t)) : Prop := Forall (fun id => is_u64 (value id)) l.

(** A list fits when it is no longer than the limit its reader imposes. *)
Definition within {A} (l : list A) (limit : Z) : Prop := Z.of_nat (length l) <= limit.

Section Fits.
Context (limits : ResourceLimits).

(** The limits are 32-bit fields. *)
Definition wire_limits : Prop := Forall is_u32 [
  max_string_bytes limits; max_capability_entries limits; max_capability_entries_per_backend limits;
  max_model_bindings_per_backend limits; max_requirement_entries limits; max_allowlist_entries limits;
  max_fallback_candidates limits; max_ranked_candidates limits; max_explanation_factors limits;
  max_rejection_records limits].

Definition backend_fits (b : BackendDescriptor) : Prop :=
  Forall is_u64 [
    value (bd_backend_id b); value (bd_backend_generation b); value (bd_backend_boot b);
    value (bd_registration_generation b); value (bd_provider_id b); value (bd_provider_generation b);
    value (ep_endpoint_id (bd_endpoint b)); value (ep_endpoint_generation (bd_endpoint b));
    value (ep_backend_id (bd_endpoint b)); value (ep_backend_boot (bd_endpoint b)); value (bd_trust_profile_id b);
    value (bd_trust_generation b); value (bd_capability_profile_id b); value (bd_capability_generation b);
    value (bd_compatibility_profile_id b); value (bd_compatibility_generation b)] /\
  Forall is_u32 [ep_protocol_version (bd_endpoint b); bd_network_distance b; bd_reliability_ppm b] /\
  Forall in_i64 [bd_registered_at b; bd_expires_at b] /\
  Forall binding_fits (bd_model_bindings b) /\ within (bd_model_bindings b) (max_model_bindings_per_backend limits).

Definition requirement_fits (r : CapabilityRequirement) : Prop := cr_minimum_state r <> CapabilityState.kCount.

Definition requirements_fit (q : RouteRequirements) : Prop :=
  Forall is_u32 [
    rq_min_context_tokens q; rq_max_output_tokens q; modality_bits (rq_input_modalities q);
    modality_bits (rq_output_modalities q); rq_quality_floor q; rq_max_latency_micros q; rq_deadline_micros q;
    rq_required_protocol_version q; rp_max_attempts (rq_retry_policy q); rp_max_fallbacks (rq_retry_policy q)] /\
  Forall is_u64 [
    value (rq_affinity_model q); value (rq_affinity_provider q); value (rq_affinity_backend q);
    value (sk_family (rq_stickiness q)); value (sk_provider (rq_stickiness q)); value (sk_backend (rq_stickiness q))] /\
  Forall in_i64 [mo_micros (rq_maximum_cost q)] /\
  (ids_fit (rq_model_allowlist q) /\ ids_fit (rq_model_denylist q) /\ ids_fit (rq_family_allowlist q) /\
   ids_fit (rq_family_denylist q) /\ ids_fit (rq_provider_allowlist q) /\ ids_fit (rq_provider_denylist q) /\
   ids_fit (rq_backend_allowlist q) /\ ids_fit (rq_backend_denylist q)) /\
  (within (rq_model_allowlist q) (max_allowlist_entries limits) /\
   within (rq_model_denylist q) (max_allowlist_entries limits) /\
   within (rq_family_allowlist q) (max_allowlist_entries limits) /\
   within (rq_family_denylist q) (max_allowlist_entries limits) /\
   within (rq_provider_allowlist q) (max_allowlist_entries limits) /\
   within (rq_provider_denylist q) (max_allowlist_entries limits) /\
   within (rq_backend_allowlist q) (max_allowlist_entries limits) /\
   within (rq_backend_denylist q) (max_allowlist_entries limits) /\
   within (rq_required_localities q) (max_allowlist_entries limits) /\
   within (rq_denied_localities q) (max_allowlist_entries limits)) /\
  Forall requirement_fits (rq_required_capabilities q) /\
  within (rq_required_capabilities q) (max_requirement_entries limits) /\
  within (rq_preferred_capabilities q) (max_requirement_entries limits).

Definition factor_fits (f : FactorValue) : Prop :=
  Forall in_i64 [fv_normalized f; fv_raw f; fv_weight_ppm f; fv_contribution f] /\
  is_u64 (fv_evidence_generation f) /\ fv_factor f <> RankingFactor.kCount.

Definition ranked_fits (r : RankedCandidate) : Prop :=
  candidate_key_fits (rk_key r) /\ in_i64 (rk_score r) /\ is_u32 (rk_rank r) /\
  Forall factor_fits (rk_factors r) /\ within (rk_factors r) (max_explanation_factors limits).

Definition rejection_fits (r : RouteRejection) : Prop :=
  Forall is_u64 [rj_model_id r; value (rj_model_generation r); rj_backend_id r; value (rj_backend_generation r);
    value (rj_backend_boot r); rj_endpoint_id r].

Definition decision_fits (d : RouteDecision) : Prop :=
  let x := de_explanation d in
  Forall is_u64 [value (de_decision_id d); value (de_decision_generation d); value (de_request_id d);
    value (de_request_generation d)] /\
  authority_fits (de_authority d) /\ candidate_key_fits (rx_winner x) /\
  Forall candidate_key_fits (de_fallbacks d) /\ within (de_fallbacks d) (max_fallback_candidates limits) /\
  Forall is_u32 [rx_eligible_count x; rx_rejected_count x] /\ cost_fits (rx_cost x) /\
  Forall ranked_fits (rx_ranking x) /\ within (rx_ranking x) (max_ranked_candidates limits) /\
  Forall rejection_fits (rx_rejections x) /\ within (rx_rejections x) (max_rejection_records limits) /\
  in_i64 (de_created_at d).

Definition evidence_fits {S g} (kCount : S) (e : BackendEvidence S g) : Prop :=
  Forall is_u64 [value (ev_generation e); value (ev_backend_id e); value (ev_backend_generation e);
    value (ev_backend_boot e); value (ev_endpoint_generation e)] /\
  Forall in_i64 [ev_observed_at e; ev_expires_at e] /\ ev_state e <> kCount.

Definition capacity_detail_fits (d : CapacityDetail) : Prop :=
  Forall is_u64 [value (cd_generation d); value (cd_backend_id d); value (cd_backend_boot d)] /\
  Forall is_u32 [cd_available_slots d; cd_total_slots d; cd_queue_depth d; cd_max_queue_depth d] /\
  Forall in_i64 [cd_observed_at d; cd_expires_at d].

Definition latency_fits (e : LatencyEvidence) : Prop :=
  Forall is_u64 [value (lt_health_generation e); value (lt_backend_id e); value (lt_backend_boot e)] /\
  Forall is_u32 [lt_dispatch_micros e; lt_time_to_first_token_micros e; lt_completed_micros e; lt_tail_micros e;
    lt_queue_micros e; lt_warm_start_penalty_micros e; lt_cold_start_penalty_micros e; lt_sample_count e] /\
  Forall in_i64 [lt_observed_at e; lt_expires_at e].
End Fits.

(** ** What arrives *)

(** A registration carries no evidence: it arrives with none. *)
Definition received_backend (b : BackendDescriptor) : BackendDescriptor :=
  b <| bd_capabilities := bd_capabilities backend_descriptor_default |>
    <| bd_health := bd_health backend_descriptor_default |>
    <| bd_availability := bd_availability backend_descriptor_default |>
    <| bd_readiness := bd_readiness backend_descriptor_default |>
    <| bd_residency := bd_residency backend_descriptor_default |>
    <| bd_capacity := bd_capacity backend_descriptor_default |>
    <| bd_capacity_detail := bd_capacity_detail backend_descriptor_default |>
    <| bd_latency := bd_latency backend_descriptor_default |>.

(** A decision arrives without its dispatch, its reservation and the evidence
    snapshots of its explanation; what the explanation repeats is copied from
    the decision. *)
Definition received_explanation (d : RouteDecision) : RouteExplanation :=
  let x := de_explanation d in
  x <| rx_request_id := de_request_id d |> <| rx_request_generation := de_request_generation d |>
    <| rx_authority := de_authority d |> <| rx_fallback_order := de_fallbacks d |>
    <| rx_slo := rx_slo route_explanation_default |> <| rx_budget := rx_budget route_explanation_default |>
    <| rx_policy := rx_policy route_explanation_default |>
    <| rx_revalidation_required := rx_revalidation_required route_explanation_default |>
    <| rx_detail_retained := rx_detail_retained route_explanation_default |>.
Definition received_decision (d : RouteDecision) : RouteDecision :=
  d <| de_explanation := received_explanation d |>
    <| de_dispatch_generation := none |> <| de_dispatch_id := none |>
    <| de_reservation := de_reservation route_decision_default |>
    <| de_superseded_at := de_superseded_at route_decision_default |>.

(** ** Round trips *)

Lemma codec_checked {T} (values : list T) index kCount v :
  enum_of values index (index v) = Some v -> is_byte (index v) ->
  codec (put_u8 (index v)) (get_checked values index kCount) v.
Proof. intros Hv Hb. unfold get_checked. eapply codec_map; [by apply codec_u8|]. by rewrite Hv. Qed.

Lemma codec_unchecked_capability_state v : codec (put_u8 (CapabilityState.index v)) get_unchecked_capability_state v.
Proof. apply codec_enum; [by destruct v|]. apply codec_u8. by destruct v. Qed.
Lemma codec_fallback_policy v : codec (put_u8 (FallbackPolicy.index v)) get_fallback_policy v.
Proof. apply codec_enum; [by destruct v|]. apply codec_u8. by destruct v. Qed.
Lemma codec_currentness v : codec (put_u8 (Currentness.index v)) get_currentness v.
Proof. apply codec_enum; [by destruct v|]. apply codec_u8. by destruct v. Qed.
Lemma codec_ranking_factor v :
  codec (put_u8 (RankingFactor.index v)) (get_checked ranking_factors RankingFactor.index RankingFactor.kCount) v.
Proof. apply codec_checked; by destruct v. Qed.
#[export] Hint Resolve codec_unchecked_capability_state codec_fallback_policy codec_currentness codec_ranking_factor : codec.

(** A counted block is two statements of the writer and one read. *)
Lemma codec_or_fail2 {A B} put1 put2 block (get : Get (option A)) (k : A -> Get (option B)) a b :
  codec (in_order [put1; put2]) get (Some a) -> codec (in_order block) (k a) b ->
  codec (in_order (put1 :: put2 :: block)) (or_fail get k) b.
Proof. exact (codec_or_fail (in_order [put1; put2]) block get k a b). Qed.

Lemma codec_if_ok {A} (a b : A) : a = b -> codec (in_order []) (if_ok a) (Some b).
Proof. intros <-. unfold if_ok. by apply codec_ok, codec_nil. Qed.

Lemma codec_counted {A} (put : A -> Put) (get : Get A) l limit :
  is_u32 limit -> within l limit -> Forall (fun a => codec (put a) get a) l ->
  codec (in_order [put_u32 (size32 l); put_each put l]) (get_counted limit get) (Some l).
Proof.
  intros Hu Hn Hl. unfold within, is_u32 in *. unfold get_counted.
  eapply codec_cons; [apply codec_size32; unfold u32_max; lia|]. apply codec_ok.
  destruct (Z.ltb_spec limit (Z.of_nat (length l))); [lia|]. cbn [negb orb]. rewrite Nat2Z.id.
  eapply codec_cons; [by apply codec_each|]. by apply codec_nil.
Qed.

Lemma codec_counted_or_fail {A} (put : A -> Put) (get : Get (option A)) l limit :
  is_u32 limit -> within l limit -> Forall (fun a => codec (put a) get (Some a)) l ->
  codec (in_order [put_u32 (size32 l); put_each put l]) (get_counted_or_fail limit get) (Some l).
Proof.
  intros Hu Hn Hl. unfold within, is_u32 in *. unfold get_counted_or_fail.
  eapply codec_cons; [apply codec_size32; unfold u32_max; lia|]. apply codec_ok.
  destruct (Z.ltb_spec limit (Z.of_nat (length l))); [lia|]. cbn [negb orb]. rewrite Nat2Z.id.
  apply codec_block. by apply codec_each_or_fail.
Qed.

Section RoundTrips.
Context (limits : ResourceLimits) (Hlimits : wire_limits limits).

Lemma codec_text s : codec (put_text limits s) (get_string limits) s.
Proof.
  intros w. unfold put_text, writer_fail. pose proof (Forall_inv Hlimits) as Hu.
  destruct (Z.ltb_spec (max_string_bytes limits) (Z.of_nat (String.length s))) as [|Hs].
  - intros Hok. exfalso. destruct (wr_ok w) eqn:Ew; [discriminate Hok|congruence].
  - intros Hok. pose proof (codec_string limits s Hu w) as H. unfold put_string in H.
    assert (Ew : wr_ok w = true) by (revert Hok; unfold append_bytes, put_u32; by rewrite put_shifted_bytes).
    rewrite Ew in H. destruct (Z.ltb_spec (max_string_bytes limits) (Z.of_nat (String.length s))); [lia|].
    destruct (H Hok) as [_ H']. by split.
Qed.
#[local] Hint Resolve codec_text : codec.

Ltac limit_hypotheses := pose proof Hlimits as Hl; unfold wire_limits in Hl; fit_hypotheses.

Lemma codec_put_key k : candidate_key_fits k -> codec (put_candidate_key k) read_candidate_key k.
Proof. apply codec_candidate_key. Qed.
Lemma codec_put_authority a : authority_fits a -> codec (put_authority a) read_authority a.
Proof. apply codec_authority. Qed.

Lemma codec_put_capability e :
  capability_fits e -> codec (put_capability limits e) (read_capability limits) (Some e).
Proof.
  intros H. unfold capability_fits in H. fit_hypotheses. unfold put_capability, read_capability. repeat codec_step.
  assert ((CapabilityState.index (ce_state e) <? CapabilityState.index CapabilityState.kCount) = true) as ->
    by by destruct (ce_state e).
  cbn [negb]. apply codec_nil. by destruct e as [[]].
Qed.

Lemma codec_put_cost c : cost_fits c -> codec (put_cost limits c) (read_cost limits) (Some c).
Proof.
  intros H. unfold cost_fits in H. fit_hypotheses. unfold put_cost, read_cost. repeat codec_step.
  assert ((CostKnownness.index (co_knownness c) <? CostKnownness.index CostKnownness.kCount) = true) as ->
    by by destruct (co_knownness c).
  cbn [negb]. apply codec_nil. by destruct c as [????[]].
Qed.
#[local] Hint Resolve codec_put_key codec_put_authority codec_put_capability codec_put_cost : codec.

Lemma codec_put_binding b : binding_fits b -> codec (put_binding limits b) (read_binding limits) (Some b).
Proof.
  intros H. unfold binding_fits in H. fit_hypotheses. unfold put_binding, read_binding. repeat codec_step.
  apply codec_nil. by destruct b.
Qed.

Ltac wire_step := first [codec_step | eapply codec_or_fail2; [solve [eauto with codec]|]].

Lemma counted_bindings l :
  Forall binding_fits l -> within l (max_model_bindings_per_backend limits) ->
  codec (in_order [put_u32 (size32 l); put_each (put_binding limits) l])
    (get_counted_or_fail (max_model_bindings_per_backend limits) (read_binding limits)) (Some l).
Proof.
  intros Hb Hn. limit_hypotheses. apply codec_counted_or_fail; [done..|].
  eapply Forall_impl; [exact Hb|]. apply codec_put_binding.
Qed.
#[local] Hint Resolve counted_bindings : codec.

Lemma codec_put_backend b :
  backend_fits limits b -> codec (put_backend limits b) (get_backend limits) (Some (received_backend b)).
Proof.
  intros H. unfold backend_fits in H. fit_hypotheses. unfold put_backend, get_backend.
  repeat wire_step. apply codec_if_ok. by destruct b as [?????? [] ??? []].
Qed.

Lemma codec_put_requirement r : requirement_fits r -> codec (put_requirement limits r) (get_requirement limits) (Some r).
Proof.
  intros H. unfold requirement_fits in H. unfold put_requirement, get_requirement. repeat codec_step.
  assert ((CapabilityState.index (cr_minimum_state r) <? CapabilityState.index CapabilityState.kCount) = true) as ->
    by by destruct (cr_minimum_state r).
  cbn [negb]. apply codec_nil. by destruct r as [[]].
Qed.

Lemma counted_requirements l :
  Forall requirement_fits l -> within l (max_requirement_entries limits) ->
  codec (in_order [put_u32 (size32 l); put_each (put_requirement limits) l])
    (get_counted_or_fail (max_requirement_entries limits) (get_requirement limits)) (Some l).
Proof.
  intros Hb Hn. limit_hypotheses. apply codec_counted_or_fail; [done..|].
  eapply Forall_impl; [exact Hb|]. apply codec_put_requirement.
Qed.

Lemma counted_keys l :
  within l (max_requirement_entries limits) ->
  codec (in_order [put_u32 (size32 l); put_each (fun key => put_text limits (key_string key)) l])
    (get_counted (max_requirement_entries limits) (key ← get_string limits; mret (CapabilityKeyOf key))) (Some l).
Proof.
  intros Hn. limit_hypotheses. apply codec_counted; [done..|]. apply Forall_forall. intros [key] _.
  apply (codec_map _ _ CapabilityKeyOf key); [apply codec_text|done].
Qed.

Lemma counted_localities l :
  within l (max_allowlist_entries limits) ->
  codec (in_order [put_u32 (size32 l); put_each (fun key => put_text limits (locality_string key)) l])
    (get_counted (max_allowlist_entries limits) (key ← get_string limits; mret (LocalityKeyOf key))) (Some l).
Proof.
  intros Hn. limit_hypotheses. apply codec_counted; [done..|]. apply Forall_forall. intros [key] _.
  apply (codec_map _ _ LocalityKeyOf key); [apply codec_text|done].
Qed.

Lemma counted_ids {t} (l : list (EntityId t)) :
  ids_fit l -> within l (max_allowlist_entries limits) ->
  codec (in_order [put_u32 (size32 l); put_each put_id l]) (read_ids limits) (Some l).
Proof.
  intros Hi Hn. limit_hypotheses. unfold read_ids. apply (codec_or_fail2 _ _ []  _ _ l); [|by apply codec_if_ok].
  apply codec_counted; [done..|]. eapply Forall_impl; [exact Hi|]. intros id. apply codec_id.
Qed.
#[local] Hint Resolve counted_requirements counted_keys counted_localities counted_ids : codec.

Lemma codec_put_requirements q :
  requirements_fit limits q -> codec (put_requirements limits q) (get_requirements limits) (Some q).
Proof.
  intros H. unfold requirements_fit in H. fit_hypotheses. unfold put_requirements, get_requirements.
  repeat wire_step. apply codec_if_ok. destruct q; cbn.
  repeat match goal with
         | x : ModalitySet |- _ => destruct x
         | x : Money |- _ => destruct x
         | x : CostUnit |- _ => destruct x
         | x : Stickiness |- _ => destruct x
         | x : RetryReroutePolicy |- _ => destruct x
         end.
  reflexivity.
Qed.

Lemma codec_put_factor f : factor_fits f -> codec (put_factor limits f) (get_factor limits) (Some f).
Proof.
  intros H. unfold factor_fits in H. fit_hypotheses. unfold put_factor, get_factor. repeat codec_step.
  assert ((RankingFactor.index RankingFactor.kCount <=? RankingFactor.index (fv_factor f)) = false) as ->
    by by destruct (fv_factor f).
  cbn [orb]. apply codec_nil. by destruct f.
Qed.

Lemma counted_factors l :
  Forall factor_fits l -> within l (max_explanation_factors limits) ->
  codec (in_order [put_u32 (size32 l); put_each (put_factor limits) l])
    (get_counted_or_fail (max_explanation_factors limits) (get_factor limits)) (Some l).
Proof.
  intros Hb Hn. limit_hypotheses. apply codec_counted_or_fail; [done..|].
  eapply Forall_impl; [exact Hb|]. apply codec_put_factor.
Qed.
#[local] Hint Resolve counted_factors : codec.

Lemma codec_put_ranked r : ranked_fits limits r -> codec (put_ranked limits r) (get_ranked limits) (Some r).
Proof.
  intros H. unfold ranked_fits in H. fit_hypotheses. unfold put_ranked, get_ranked. repeat wire_step.
  apply codec_nil. by destruct r.
Qed.

Lemma codec_put_rejection r : rejection_fits r -> codec (put_rejection limits r) (get_rejection limits) r.
Proof.
  intros H. unfold rejection_fits in H. fit_hypotheses. unfold put_rejection, get_rejection. repeat wire_step.
  apply codec_nil. by destruct r.
Qed.

Lemma counted_fallbacks l :
  Forall candidate_key_fits l -> within l (max_fallback_candidates limits) ->
  codec (in_order [put_u32 (size32 l); put_each put_candidate_key l])
    (get_counted (max_fallback_candidates limits) read_candidate_key) (Some l).
Proof.
  intros Hb Hn. limit_hypotheses. apply codec_counted; [done..|].
  eapply Forall_impl; [exact Hb|]. apply codec_put_key.
Qed.
Lemma counted_ranked l :
  Forall (ranked_fits limits) l -> within l (max_ranked_candidates limits) ->
  codec (in_order [put_u32 (size32 l); put_each (put_ranked limits) l])
    (get_counted_or_fail (max_ranked_candidates limits) (get_ranked limits)) (Some l).
Proof.
  intros Hb Hn. limit_hypotheses. apply codec_counted_or_fail; [done..|].
  eapply Forall_impl; [exact Hb|]. apply codec_put_ranked.
Qed.
Lemma counted_rejections l :
  Forall rejection_fits l -> within l (max_rejection_records limits) ->
  codec (in_order [put_u32 (size32 l); put_each (put_rejection limits) l])
    (get_counted (max_rejection_records limits) (get_rejection limits)) (Some l).
Proof.
  intros Hb Hn. limit_hypotheses. apply codec_counted; [done..|].
  eapply Forall_impl; [exact Hb|]. apply codec_put_rejection.
Qed.
#[local] Hint Resolve counted_fallbacks counted_ranked counted_rejections : codec.

Lemma codec_put_decision d :
  decision_fits limits d -> codec (put_decision limits d) (get_decision limits) (Some (received_decision d)).
Proof.
  intros H. unfold decision_fits in H. fit_hypotheses. unfold put_decision, get_decision. cbv zeta.
  repeat wire_step. apply codec_if_ok. destruct d as [??????? x ??????]. by destruct x.
Qed.

Lemma codec_put_evidence {S g} (values : list S) (index : S -> Z) kCount (e : BackendEvidence S g) :
  (forall v, enum_of values index (index v) = Some v) -> (forall v, is_byte (index v)) ->
  (forall v, v <> kCount -> index v < index kCount) ->
  evidence_fits kCount e ->
  codec (put_backend_evidence limits index e) (get_backend_evidence limits values index kCount) (Some e).
Proof.
  intros Hv Hi Hk H. unfold evidence_fits in H. fit_hypotheses. unfold put_backend_evidence, get_backend_evidence.
  eapply codec_cons; [by apply codec_checked|]. repeat codec_step.
  rewrite (proj2 (Z.ltb_lt _ _)) by by apply Hk. cbn [negb]. apply codec_nil. by destruct e.
Qed.

Lemma codec_put_capacity_detail d :
  capacity_detail_fits d -> codec (put_capacity_detail d) get_capacity_detail (Some d).
Proof.
  intros H. unfold capacity_detail_fits in H. fit_hypotheses. unfold put_capacity_detail, get_capacity_detail.
  repeat wire_step. apply codec_if_ok. by destruct d.
Qed.

Lemma codec_put_latency e : latency_fits e -> codec (put_latency limits e) (get_latency limits) (Some e).
Proof.
  intros H. unfold latency_fits in H. fit_hypotheses. unfold put_latency, get_latency.
  repeat wire_step. apply codec_if_ok. by destruct e.
Qed.
End RoundTrips.
#[export] Hint Resolve codec_text codec_put_key codec_put_authority codec_put_capability codec_put_cost codec_put_backend
  codec_put_requirements codec_put_decision codec_put_capacity_detail codec_put_latency : codec.
