(* ===== verification/WireMessages.v ===== *)
(** * The messages of the wire protocol ([distributed/protocol.hpp], [distributed/protocol.cpp])

    Each message, what its encoder writes and its decoder reads, as instances of
    one interface; the theorems are about every instance of it. *)
From S2P Require Import Prelude Bytes Ids Limits Clock Codec Outcome Capability Evidence Catalog Request Candidate.
From S2P Require Import Authority Decision PersistRecords Frame WireRecords.

(** ** Encoding and decoding a payload *)

Definition encode_message (encode : Put) : string + list Z :=
  let w := encode byte_writer in
  return_if negb (wr_ok w) with inl (wr_error w) ;;
  inr (wr_bytes w).

(** [None] where the decoded value holds an enumerator that does not exist,
    which the code stores unchecked and this library has no value for. *)
Definition decode_message {A} (limits : ResourceLimits) (payload : list Z) (decode : Get (option A))
    : option (string + A) :=
  return_if max_payload_bytes limits <? bytes_size payload
    with Some (inl "message payload exceeds the configured limit") ;;
  let '(decoded, reader) := decode (byte_reader payload) in
  match decoded with
  | None => Some (inl (if rd_ok reader then "message payload is malformed" else rd_error reader))
  | Some a =>
      return_if negb (bool_decide (rd_rest reader = [])) with Some (inl "message payload has trailing bytes") ;;
      if rd_known reader then Some (inr a) else None
  end.

(** What a message promises: what its encoder writes its decoder reads, as the
    value that is received. *)
Class WireMessage (M : Type) := {
  put_message : ResourceLimits -> M -> Put;
  get_message : ResourceLimits -> Get (option M);
  received : M -> M;
  message_fits : ResourceLimits -> M -> Prop;
  message_codec : forall limits m, wire_limits limits -> message_fits limits m ->
    codec (put_message limits m) (get_message limits) (Some (received m))
}.

Definition encode_wire `{WireMessage M} (limits : ResourceLimits) (m : M) : string + list Z :=
  encode_message (put_message limits m).
Definition decode_wire `{WireMessage M} (limits : ResourceLimits) (payload : list Z) : option (string + M) :=
  decode_message limits payload (get_message limits).

(** ** The messages *)

Record HelloMessage := {
  hm_router_id : EntityId RouterTag;
  hm_router_epoch : Generation RouterEpochTag;
  hm_coordinator_epoch : Generation CoordinatorEpochTag;
  hm_backend_id : EntityId BackendTag;
  hm_backend_generation : Generation BackendTag;
  hm_backend_boot : Generation BackendBootTag;
  hm_product : string;
  hm_protocol_version : Z
}.

Record HelloAckMessage := {
  ha_router_id : EntityId RouterTag;
  ha_router_epoch : Generation RouterEpochTag;
  ha_coordinator_epoch : Generation CoordinatorEpochTag;
  ha_code : OutcomeCode.t;
  ha_detail : string
}.

Record BackendRegisterMessage := BackendRegisterOf { br_backend : BackendDescriptor }.

Record BackendRegisterAckMessage := {
  ba_backend_id : EntityId BackendTag;
  ba_backend_boot : Generation BackendBootTag;
  ba_code : OutcomeCode.t;
  ba_detail : string
}.

Record CapabilityPublishMessage := CapabilityPublishOf { cp_publication : BackendCapabilityPublication }.

Record RouteRequestMessage := RouteRequestOf { rm_request : RouteRequest }.

Record RouteResponseMessage := {
  ro_code : OutcomeCode.t;
  ro_decision : RouteDecision;
  ro_has_decision : bool;
  ro_detail : string
}.

Record DispatchMessage := {
  dm_dispatch_id : EntityId DispatchTag;
  dm_dispatch_generation : Generation DispatchTag;
  dm_decision_id : EntityId RouteDecisionTag;
  dm_decision_generation : Generation RouteDecisionTag;
  dm_target : CandidateKey;
  dm_attempt : Z
}.

Record DispatchResultMessage := {
  dr_dispatch_id : EntityId DispatchTag;
  dr_decision_id : EntityId RouteDecisionTag;
  dr_code : OutcomeCode.t;
  dr_failure : FailureClass.t;
  dr_latency_micros : Z;
  dr_detail : string
}.

Record ErrorMessage := { er_code : OutcomeCode.t; er_detail : string }.

Module AdminOp.
Inductive t :=
  | NONE | SNAPSHOT | INVARIANTS | SUMMARY | REVALIDATE | DISPATCH | REROUTE | SET_POLICY_OPEN
  | SET_POLICY_DENY_BACKEND | SET_POLICY_DENY_MODEL | SET_BUDGET_DENIED | SET_BUDGET_ALLOWED | ADVANCE_PRICE
  | FENCE_BACKEND | RETIRE_MODEL | REVOKE_CAPABILITY | SET_READINESS | SET_AVAILABILITY | SAVE | LOAD | SHUTDOWN
  | BACKEND_COUNT | kCount.

#[export] Instance eq_dec : EqDecision t.
Proof. solve_decision. Defined.

Definition all : list t := [
  NONE; SNAPSHOT; INVARIANTS; SUMMARY; REVALIDATE; DISPATCH; REROUTE; SET_POLICY_OPEN; SET_POLICY_DENY_BACKEND;
  SET_POLICY_DENY_MODEL; SET_BUDGET_DENIED; SET_BUDGET_ALLOWED; ADVANCE_PRICE; FENCE_BACKEND; RETIRE_MODEL;
  REVOKE_CAPABILITY; SET_READINESS; SET_AVAILABILITY; SAVE; LOAD; SHUTDOWN; BACKEND_COUNT; kCount].

(** [static_cast] to the underlying integer. *)
Definition index (op : t) : Z :=
  match op with
  | NONE => 0 | SNAPSHOT => 1 | INVARIANTS => 2 | SUMMARY => 3 | REVALIDATE => 4 | DISPATCH => 5 | REROUTE => 6
  | SET_POLICY_OPEN => 7 | SET_POLICY_DENY_BACKEND => 8 | SET_POLICY_DENY_MODEL => 9 | SET_BUDGET_DENIED => 10
  | SET_BUDGET_ALLOWED => 11 | ADVANCE_PRICE => 12 | FENCE_BACKEND => 13 | RETIRE_MODEL => 14
  | REVOKE_CAPABILITY => 15 | SET_READINESS => 16 | SET_AVAILABILITY => 17 | SAVE => 18 | LOAD => 19
  | SHUTDOWN => 20 | BACKEND_COUNT => 21 | kCount => 22
  end.

Definition to_string (op : t) : string :=
  match op with
  | NONE => "NONE" | SNAPSHOT => "SNAPSHOT" | INVARIANTS => "INVARIANTS" | SUMMARY => "SUMMARY"
  | REVALIDATE => "REVALIDATE" | DISPATCH => "DISPATCH" | REROUTE => "REROUTE"
  | SET_POLICY_OPEN => "SET_POLICY_OPEN" | SET_POLICY_DENY_BACKEND => "SET_POLICY_DENY_BACKEND"
  | SET_POLICY_DENY_MODEL => "SET_POLICY_DENY_MODEL" | SET_BUDGET_DENIED => "SET_BUDGET_DENIED"
  | SET_BUDGET_ALLOWED => "SET_BUDGET_ALLOWED" | ADVANCE_PRICE => "ADVANCE_PRICE"
  | FENCE_BACKEND => "FENCE_BACKEND" | RETIRE_MODEL => "RETIRE_MODEL" | REVOKE_CAPABILITY => "REVOKE_CAPABILITY"
  | SET_READINESS => "SET_READINESS" | SET_AVAILABILITY => "SET_AVAILABILITY" | SAVE => "SAVE" | LOAD => "LOAD"
  | SHUTDOWN => "SHUTDOWN" | BACKEND_COUNT => "BACKEND_COUNT" | kCount => "INVALID"
  end.
End AdminOp.
Export (hints) AdminOp.

Record AdminRequest := {
  ar_op : AdminOp.t;
  ar_backend_id : EntityId BackendTag;
  ar_model_id : EntityId ModelTag;
  ar_decision_id : EntityId RouteDecisionTag;
  ar_generation : Z;
  ar_value : Z;
  ar_detail : string
}.

Record AdminResponse := { ap_code : OutcomeCode.t; ap_detail : string; ap_json : string }.

(** ** Their encoders and decoders *)

Section Codecs.
Context (limits : ResourceLimits).

Definition put_hello (m : HelloMessage) : Put := in_order [
  put_id (hm_router_id m); put_generation (hm_router_epoch m); put_generation (hm_coordinator_epoch m);
  put_id (hm_backend_id m); put_generation (hm_backend_generation m); put_generation (hm_backend_boot m);
  put_text limits (hm_product m); put_u32 (hm_protocol_version m)].

Definition get_hello : Get (option HelloMessage) :=
  router_id ← get_id; router_epoch ← get_generation; coordinator_epoch ← get_generation; backend_id ← get_id;
  backend_generation ← get_generation; backend_boot ← get_generation; product ← get_string limits;
  version ← get_u32;
  if_ok {| hm_router_id := router_id; hm_router_epoch := router_epoch; hm_coordinator_epoch := coordinator_epoch;
    hm_backend_id := backend_id; hm_backend_generation := backend_generation; hm_backend_boot := backend_boot;
    hm_product := product; hm_protocol_version := version |}.

Definition put_hello_ack (m : HelloAckMessage) : Put := in_order [
  put_id (ha_router_id m); put_generation (ha_router_epoch m); put_generation (ha_coordinator_epoch m);
  put_u16 (OutcomeCode.index (ha_code m)); put_text limits (ha_detail m)].

Definition get_hello_ack : Get (option HelloAckMessage) :=
  router_id ← get_id; router_epoch ← get_generation; coordinator_epoch ← get_generation; code ← get_outcome_code;
  detail ← get_string limits;
  if_ok {| ha_router_id := router_id; ha_router_epoch := router_epoch; ha_coordinator_epoch := coordinator_epoch;
    ha_code := code; ha_detail := detail |}.

Definition put_backend_register (m : BackendRegisterMessage) : Put := put_backend limits (br_backend m).
Definition get_backend_register : Get (option BackendRegisterMessage) :=
  backend ←! get_backend limits; mret (Some (BackendRegisterOf backend)).

Definition put_backend_register_ack (m : BackendRegisterAckMessage) : Put := in_order [
  put_id (ba_backend_id m); put_generation (ba_backend_boot m); put_u16 (OutcomeCode.index (ba_code m));
  put_text limits (ba_detail m)].

Definition get_backend_register_ack : Get (option BackendRegisterAckMessage) :=
  backend_id ← get_id; backend_boot ← get_generation; code ← get_outcome_code; detail ← get_string limits;
  if_ok {| ba_backend_id := backend_id; ba_backend_boot := backend_boot; ba_code := code; ba_detail := detail |}.

Definition put_capability_publish (m : CapabilityPublishMessage) : Put :=
  let p := cp_publication m in
  in_order [
  put_id (pub_backend_id p); put_generation (pub_backend_generation p); put_generation (pub_backend_boot p);
  put_id (pub_profile_id p); put_generation (pub_generation p); put_u32 (size32 (pub_claims p));
  put_each (put_capability limits) (pub_claims p)].

Definition get_capability_publish : Get (option CapabilityPublishMessage) :=
  backend_id ← get_id; backend_generation ← get_generation; backend_boot ← get_generation; profile_id ← get_id;
  generation ← get_generation;
  claims ←! get_counted_or_fail (max_capability_entries_per_backend limits) (read_capability limits);
  if_ok (CapabilityPublishOf {| pub_backend_id := backend_id; pub_backend_generation := backend_generation;
    pub_backend_boot := backend_boot; pub_profile_id := profile_id; pub_generation := generation;
    pub_claims := claims |}).

Definition put_route_request (m : RouteRequestMessage) : Put :=
  let r := rm_request m in
  let c := rr_caller r in
  in_order [
  put_id (rr_request_id r); put_generation (rr_request_generation r); put_id (rr_tenant r); put_id (rr_name_space r);
  put_id (rr_policy_id r); put_generation (rr_policy_generation r); put_id (rr_budget_id r);
  put_generation (rr_budget_generation r); put_id (rr_slo_id r); put_generation (rr_slo_generation r);
  put_id (rr_correlation_id r); put_u64 (ca_agent_runtime_id c); put_u64 (ca_agent_run_id c); put_u64 (ca_action_id c);
  put_u64 (ca_action_generation c); put_u64 (ca_attempt_generation c); put_u64 (ca_work_id c);
  put_u64 (ca_work_generation c); put_u32 (rr_estimated_input_tokens r); put_u32 (rr_estimated_output_tokens r);
  put_i64 (rr_created_at r); put_i64 (rr_expires_at r); put_requirements limits (rr_requirements r)].

Definition get_route_request : Get (option RouteRequestMessage) :=
  request_id ← get_id; request_generation ← get_generation; tenant ← get_id; name_space ← get_id;
  policy_id ← get_id; policy_generation ← get_generation; budget_id ← get_id; budget_generation ← get_generation;
  slo_id ← get_id; slo_generation ← get_generation; correlation_id ← get_id; agent_runtime_id ← get_u64;
  agent_run_id ← get_u64; action_id ← get_u64; action_generation ← get_u64; attempt_generation ← get_u64;
  work_id ← get_u64; work_generation ← get_u64; estimated_input_tokens ← get_u32; estimated_output_tokens ← get_u32;
  created_at ← get_i64; expires_at ← get_i64;
  requirements ←! get_requirements limits;
  mret (Some (RouteRequestOf {|
    rr_request_id := request_id; rr_request_generation := request_generation; rr_requirements := requirements;
    rr_caller := {| ca_agent_runtime_id := agent_runtime_id; ca_agent_run_id := agent_run_id;
      ca_action_id := action_id; ca_action_generation := action_generation;
      ca_attempt_generation := attempt_generation; ca_work_id := work_id; ca_work_generation := work_generation |};
    rr_tenant := tenant; rr_name_space := name_space; rr_policy_id := policy_id;
    rr_policy_generation := policy_generation; rr_budget_id := budget_id; rr_budget_generation := budget_generation;
    rr_slo_id := slo_id; rr_slo_generation := slo_generation; rr_correlation_id := correlation_id;
    rr_estimated_input_tokens := estimated_input_tokens; rr_estimated_output_tokens := estimated_output_tokens;
    rr_created_at := created_at; rr_expires_at := expires_at |})).

Definition put_route_response (m : RouteResponseMessage) : Put := in_order [
  put_u16 (OutcomeCode.index (ro_code m)); put_bool (ro_has_decision m); put_decision limits (ro_decision m);
  put_text limits (ro_detail m)].

Definition get_route_response : Get (option RouteResponseMessage) :=
  code ← get_outcome_code; has_decision ← get_bool;
  decision ←! get_decision limits;
  detail ← get_string limits;
  if_ok {| ro_code := code; ro_decision := decision; ro_has_decision := has_decision; ro_detail := detail |}.

Definition put_dispatch (m : DispatchMessage) : Put := in_order [
  put_id (dm_dispatch_id m); put_generation (dm_dispatch_generation m); put_id (dm_decision_id m);
  put_generation (dm_decision_generation m); put_candidate_key (dm_target m); put_u32 (dm_attempt m)].

Definition get_dispatch : Get (option DispatchMessage) :=
  dispatch_id ← get_id; dispatch_generation ← get_generation; decision_id ← get_id;
  decision_generation ← get_generation; target ← read_candidate_key; attempt ← get_u32;
  if_ok {| dm_dispatch_id := dispatch_id; dm_dispatch_generation := dispatch_generation;
    dm_decision_id := decision_id; dm_decision_generation := decision_generation; dm_target := target;
    dm_attempt := attempt |}.

Definition put_dispatch_result (m : DispatchResultMessage) : Put := in_order [
  put_id (dr_dispatch_id m); put_id (dr_decision_id m); put_u16 (OutcomeCode.index (dr_code m));
  put_u8 (FailureClass.index (dr_failure m)); put_u32 (dr_latency_micros m); put_text limits (dr_detail m)].

Definition get_dispatch_result : Get (option DispatchResultMessage) :=
  dispatch_id ← get_id; decision_id ← get_id; code ← get_outcome_code;
  failure ← get_checked failure_classes FailureClass.index FailureClass.kCount; latency_micros ← get_u32;
  detail ← get_string limits; ok ← reader_ok;
  return_if negb (ok && (FailureClass.index failure <? FailureClass.index FailureClass.kCount)) with mret None ;;
  mret (Some {| dr_dispatch_id := dispatch_id; dr_decision_id := decision_id; dr_code := code;
    dr_failure := failure; dr_latency_micros := latency_micros; dr_detail := detail |}).

Definition put_error (m : ErrorMessage) : Put := in_order [
  put_u16 (OutcomeCode.index (er_code m)); put_text limits (er_detail m)].

Definition get_error : Get (option ErrorMessage) :=
  code ← get_outcome_code; detail ← get_string limits;
  if_ok {| er_code := code; er_detail := detail |}.

Definition put_health : HealthEvidence -> Put := put_backend_evidence limits HealthState.index.
Definition get_health : Get (option HealthEvidence) :=
  get_backend_evidence limits health_states HealthState.index HealthState.kCount.

Definition put_availability : AvailabilityEvidence -> Put := put_backend_evidence limits AvailabilityState.index.
Definition get_availability : Get (option AvailabilityEvidence) :=
  get_backend_evidence limits availability_states AvailabilityState.index AvailabilityState.kCount.

Definition put_readiness : ReadinessEvidence -> Put := put_backend_evidence limits ReadinessState.index.
Definition get_readiness : Get (option ReadinessEvidence) :=
  get_backend_evidence limits readiness_states ReadinessState.index ReadinessState.kCount.

Definition put_residency : ResidencyEvidence -> Put := put_backend_evidence limits ResidencyState.index.
Definition get_residency : Get (option ResidencyEvidence) :=
  get_backend_evidence limits residency_states ResidencyState.index ResidencyState.kCount.

Definition put_capacity (m : CapacityEvidence * CapacityDetail) : Put := in_order [
  put_backend_evidence limits CapacityState.index m.1; put_capacity_detail m.2].

Definition get_capacity : Get (option (CapacityEvidence * CapacityDetail)) :=
  evidence ←! get_backend_evidence limits capacity_states CapacityState.index CapacityState.kCount;
  detail ←! get_capacity_detail;
  mret (Some (evidence, detail)).

Definition put_admin_request (m : AdminRequest) : Put := in_order [
  put_u16 (AdminOp.index (ar_op m)); put_id (ar_backend_id m); put_id (ar_model_id m); put_id (ar_decision_id m);
  put_u64 (ar_generation m); put_u64 (ar_value m); put_text limits (ar_detail m)].

Definition get_admin_request : Get (option AdminRequest) :=
  word ← get_u16;
  let op := default AdminOp.kCount (enum_of AdminOp.all AdminOp.index word) in
  backend_id ← get_id; model_id ← get_id; decision_id ← get_id; generation ← get_u64; argument ← get_u64;
  detail ← get_string limits; ok ← reader_ok;
  return_if negb (ok && (AdminOp.index op <? AdminOp.index AdminOp.kCount)) with mret None ;;
  mret (Some {| ar_op := op; ar_backend_id := backend_id; ar_model_id := model_id; ar_decision_id := decision_id;
    ar_generation := generation; ar_value := argument; ar_detail := detail |}).

Definition put_admin_response (m : AdminResponse) : Put := in_order [
  put_u16 (OutcomeCode.index (ap_code m)); put_text limits (ap_detail m); put_text limits (ap_json m)].

Definition get_admin_response : Get (option AdminResponse) :=
  code ← get_outcome_code; detail ← get_string limits; json ← get_string limits;
  if_ok {| ap_code := code; ap_detail := detail; ap_json := json |}.
End Codecs.

(** ** Machine ranges *)

Definition hello_fits (limits : ResourceLimits) (m : HelloMessage) : Prop :=
  Forall is_u64 [value (hm_router_id m); value (hm_router_epoch m); value (hm_coordinator_epoch m);
    value (hm_backend_id m); value (hm_backend_generation m); value (hm_backend_boot m)] /\
  is_u32 (hm_protocol_version m).
Definition hello_ack_fits (limits : ResourceLimits) (m : HelloAckMessage) : Prop :=
  Forall is_u64 [value (ha_router_id m); value (ha_router_epoch m); value (ha_coordinator_epoch m)].
Definition backend_register_fits (limits : ResourceLimits) (m : BackendRegisterMessage) : Prop :=
  backend_fits limits (br_backend m).
Definition backend_register_ack_fits (limits : ResourceLimits) (m : BackendRegisterAckMessage) : Prop :=
  Forall is_u64 [value (ba_backend_id m); value (ba_backend_boot m)].
Definition capability_publish_fits (limits : ResourceLimits) (m : CapabilityPublishMessage) : Prop :=
  let p := cp_publication m in
  Forall is_u64 [value (pub_backend_id p); value (pub_backend_generation p); value (pub_backend_boot p);
    value (pub_profile_id p); value (pub_generation p)] /\
  Forall capability_fits (pub_claims p) /\ within (pub_claims p) (max_capability_entries_per_backend limits).
Definition route_request_fits (limits : ResourceLimits) (m : RouteRequestMessage) : Prop :=
  let r := rm_request m in
  let c := rr_caller r in
  Forall is_u64 [value (rr_request_id r); value (rr_request_generation r); value (rr_tenant r);
    value (rr_name_space r); value (rr_policy_id r); value (rr_policy_generation r); value (rr_budget_id r);
    value (rr_budget_generation r); value (rr_slo_id r); value (rr_slo_generation r); value (rr_correlation_id r);
    ca_agent_runtime_id c; ca_agent_run_id c; ca_action_id c; ca_action_generation c; ca_attempt_generation c;
    ca_work_id c; ca_work_generation c] /\
  Forall is_u32 [rr_estimated_input_tokens r; rr_estimated_output_tokens r] /\
  Forall in_i64 [rr_created_at r; rr_expires_at r] /\ requirements_fit limits (rr_requirements r).
Definition route_response_fits (limits : ResourceLimits) (m : RouteResponseMessage) : Prop :=
  decision_fits limits (ro_decision m).
Definition dispatch_fits (limits : ResourceLimits) (m : DispatchMessage) : Prop :=
  Forall is_u64 [value (dm_dispatch_id m); value (dm_dispatch_generation m); value (dm_decision_id m);
    value (dm_decision_generation m)] /\
  candidate_key_fits (dm_target m) /\ is_u32 (dm_attempt m).
Definition dispatch_result_fits (limits : ResourceLimits) (m : DispatchResultMessage) : Prop :=
  Forall is_u64 [value (dr_dispatch_id m); value (dr_decision_id m)] /\ is_u32 (dr_latency_micros m) /\
  dr_failure m <> FailureClass.kCount.
Definition capacity_fits (limits : ResourceLimits) (m : CapacityEvidence * CapacityDetail) : Prop :=
  evidence_fits CapacityState.kCount m.1 /\ capacity_detail_fits m.2.
Definition admin_request_fits (limits : ResourceLimits) (m : AdminRequest) : Prop :=
  Forall is_u64 [value (ar_backend_id m); value (ar_model_id m); value (ar_decision_id m); ar_generation m; ar_value m] /\
  ar_op m <> AdminOp.kCount.

(** ** The instances *)

(** A message of one record whose last field is followed by [reader->ok()]. *)
Ltac message_codec :=
  intros limits m Hl H; try red in H; cbv zeta in H; fit_hypotheses; cbv zeta; unfold id;
  repeat first [codec_step | eapply codec_or_fail2; [solve [eauto with codec]|]].

#[export] Instance hello_message : WireMessage HelloMessage.
Proof.
  refine {| put_message := put_hello; get_message := get_hello; received := id; message_fits := hello_fits |}.
  unfold put_hello, get_hello. message_codec. apply codec_if_ok. by destruct m.
Defined.

#[export] Instance hello_ack_message : WireMessage HelloAckMessage.
Proof.
  refine {| put_message := put_hello_ack; get_message := get_hello_ack; received := id; message_fits := hello_ack_fits |}.
  unfold put_hello_ack, get_hello_ack. message_codec. apply codec_if_ok. by destruct m.
Defined.

#[export] Instance backend_register_message : WireMessage BackendRegisterMessage.
Proof.
  refine {| put_message := put_backend_register; get_message := get_backend_register;
    received m := BackendRegisterOf (received_backend (br_backend m)); message_fits := backend_register_fits |}.
  intros limits m Hl H. apply codec_block. eapply codec_or_fail; [by apply codec_put_backend|]. by apply codec_nil.
Defined.

#[export] Instance backend_register_ack_message : WireMessage BackendRegisterAckMessage.
Proof.
  refine {| put_message := put_backend_register_ack; get_message := get_backend_register_ack; received := id;
    message_fits := backend_register_ack_fits |}.
  unfold put_backend_register_ack, get_backend_register_ack. message_codec. apply codec_if_ok. by destruct m.
Defined.

Lemma counted_claims limits l :
  wire_limits limits -> Forall capability_fits l -> within l (max_capability_entries_per_backend limits) ->
  codec (in_order [put_u32 (size32 l); put_each (put_capability limits) l])
    (get_counted_or_fail (max_capability_entries_per_backend limits) (read_capability limits)) (Some l).
Proof.
  intros Hl Hb Hn. apply codec_counted_or_fail; [unfold wire_limits in Hl; by fit_hypotheses|done|].
  eapply Forall_impl; [exact Hb|]. intros e. by apply codec_put_capability.
Qed.
#[export] Hint Resolve counted_claims : codec.

#[export] Instance capability_publish_message : WireMessage CapabilityPublishMessage.
Proof.
  refine {| put_message := put_capability_publish; get_message := get_capability_publish; received := id;
    message_fits := capability_publish_fits |}.
  unfold put_capability_publish, get_capability_publish. message_codec. apply codec_if_ok. by destruct m as [[]].
Defined.

#[export] Instance route_request_message : WireMessage RouteRequestMessage.
Proof.
  refine {| put_message := put_route_request; get_message := get_route_request; received := id;
    message_fits := route_request_fits |}.
  unfold put_route_request, get_route_request. message_codec. apply codec_nil. by destruct m as [[??? []]].
Defined.

#[export] Instance route_response_message : WireMessage RouteResponseMessage.
Proof.
  refine {| put_message := put_route_response; get_message := get_route_response;
    received m := {| ro_code := ro_code m; ro_decision := received_decision (ro_decision m);
      ro_has_decision := ro_has_decision m; ro_detail := ro_detail m |};
    message_fits := route_response_fits |}.
  unfold put_route_response, get_route_response. message_codec. by apply codec_if_ok.
Defined.

#[export] Instance dispatch_message : WireMessage DispatchMessage.
Proof.
  refine {| put_message limits := put_dispatch; get_message limits := get_dispatch; received := id;
    message_fits := dispatch_fits |}.
  unfold put_dispatch, get_dispatch. message_codec. apply codec_if_ok. by destruct m.
Defined.

Lemma codec_failure_class v :
  codec (put_u8 (FailureClass.index v)) (get_checked failure_classes FailureClass.index FailureClass.kCount) v.
Proof. apply codec_checked; by destruct v. Qed.
#[export] Hint Resolve codec_failure_class : codec.

#[export] Instance dispatch_result_message : WireMessage DispatchResultMessage.
Proof.
  refine {| put_message := put_dispatch_result; get_message := get_dispatch_result; received := id;
    message_fits := dispatch_result_fits |}.
  unfold put_dispatch_result, get_dispatch_result. message_codec.
  assert ((FailureClass.index (dr_failure m) <? FailureClass.index FailureClass.kCount) = true) as ->
    by by destruct (dr_failure m).
  apply codec_nil. by destruct m.
Defined.

#[export] Instance error_message : WireMessage ErrorMessage.
Proof.
  refine {| put_message := put_error; get_message := get_error; received := id; message_fits _ _ := True |}.
  unfold put_error, get_error. message_codec. apply codec_if_ok. by destruct m.
Defined.

#[export] Instance health_message : WireMessage HealthEvidence.
Proof.
  refine {| put_message := put_health; get_message := get_health; received := id;
    message_fits _ := evidence_fits HealthState.kCount |}.
  intros limits e Hl H. apply codec_put_evidence; by try intros [].
Defined.
#[export] Instance availability_message : WireMessage AvailabilityEvidence.
Proof.
  refine {| put_message := put_availability; get_message := get_availability; received := id;
    message_fits _ := evidence_fits AvailabilityState.kCount |}.
  intros limits e Hl H. apply codec_put_evidence; by try intros [].
Defined.
#[export] Instance readiness_message : WireMessage ReadinessEvidence.
Proof.
  refine {| put_message := put_readiness; get_message := get_readiness; received := id;
    message_fits _ := evidence_fits ReadinessState.kCount |}.
  intros limits e Hl H. apply codec_put_evidence; by try intros [].
Defined.
#[export] Instance residency_message : WireMessage ResidencyEvidence.
Proof.
  refine {| put_message := put_residency; get_message := get_residency; received := id;
    message_fits _ := evidence_fits ResidencyState.kCount |}.
  intros limits e Hl H. apply codec_put_evidence; by try intros [].
Defined.

#[export] Instance capacity_message : WireMessage (CapacityEvidence * CapacityDetail).
Proof.
  refine {| put_message := put_capacity; get_message := get_capacity; received := id; message_fits := capacity_fits |}.
  intros limits [e d] Hl [He Hd]. unfold put_capacity, get_capacity.
  eapply codec_or_fail; [by apply codec_put_evidence; try intros []|].
  eapply codec_or_fail; [by apply codec_put_capacity_detail|]. by apply codec_nil.
Defined.

#[export] Instance cost_message : WireMessage CostEvidence.
Proof.
  refine {| put_message := put_cost; get_message := read_cost; received := id; message_fits _ := cost_fits |}.
  intros limits c Hl H. by apply codec_put_cost.
Defined.

#[export] Instance latency_message : WireMessage LatencyEvidence.
Proof.
  refine {| put_message := put_latency; get_message := get_latency; received := id; message_fits _ := latency_fits |}.
  intros limits e Hl H. by apply codec_put_latency.
Defined.

#[export] Instance admin_request_message : WireMessage AdminRequest.
Proof.
  refine {| put_message := put_admin_request; get_message := get_admin_request; received := id;
    message_fits := admin_request_fits |}.
  unfold put_admin_request, get_admin_request. intros limits m Hl H. red in H. fit_hypotheses.
  eapply codec_cons; [apply codec_u16; by destruct (ar_op m)|].
  assert (enum_of AdminOp.all AdminOp.index (AdminOp.index (ar_op m)) = Some (ar_op m)) as -> by by destruct (ar_op m).
  cbn [default]. cbv zeta. unfold id. repeat codec_step.
  assert ((AdminOp.index (ar_op m) <? AdminOp.index AdminOp.kCount) = true) as -> by by destruct (ar_op m).
  apply codec_nil. by destruct m.
Defined.

#[export] Instance admin_response_message : WireMessage AdminResponse.
Proof.
  refine {| put_message := put_admin_response; get_message := get_admin_response; received := id;
    message_fits _ _ := True |}.
  unfold put_admin_response, get_admin_response. message_codec. apply codec_if_ok. by destruct m.
Defined.

(** ** Sending and receiving *)

(** What an encoding is: the writer did not fail, and reading from its bytes
    yields the value and stops where they end. *)
Lemma encode_bytes `{WireMessage M} limits m payload :
  wire_limits limits -> message_fits limits m -> encode_wire limits m = inr payload ->
  Forall is_byte payload /\
  forall rest, get_message limits (byte_reader (payload ++ rest)) = (Some (received m), reading rest).
Proof.
  intros Hl Hm. unfold encode_wire, encode_message. cbv zeta.
  destruct (wr_ok (put_message limits m byte_writer)) eqn:Ew; [|done]. cbn [negb]. intros E%(inj inr).
  destruct (message_codec limits m Hl Hm byte_writer Ew) as (_ & bytes & Eb & Hb & Hg).
  change (wr_bytes byte_writer) with (@nil Z) in Eb. rewrite app_nil_l in Eb.
  rewrite <- E, Eb. by split.
Qed.

Lemma decode_encoded_wire `{WireMessage M} limits m payload :
  wire_limits limits -> message_fits limits m -> encode_wire limits m = inr payload ->
  bytes_size payload <= max_payload_bytes limits -> decode_wire limits payload = Some (inr (received m)).
Proof.
  intros Hl Hm He Hs.
  destruct (encode_bytes limits m payload Hl Hm He) as [_ Hg]. specialize (Hg []). rewrite app_nil_r in Hg.
  unfold decode_wire, decode_message. rewrite Hg. by destruct (Z.ltb_spec (max_payload_bytes limits) (bytes_size payload)); [lia|].
Qed.

(** Whatever message could be encoded is decoded to what its receiver is to
    get: the message itself, less what the protocol does not carry. *)
Theorem message_roundtrip `{WireMessage M} (limits : ResourceLimits) (m : M) (payload : list Z)
    (Hl : wire_limits limits) (Hm : message_fits limits m) (He : encode_wire limits m = inr payload)
    (Hs : bytes_size payload <= max_payload_bytes limits) :
  decode_wire limits payload = Some (inr (received m)).
Proof. by apply decode_encoded_wire. Qed.

(** An encoding with anything after it is refused. *)
Theorem trailing_bytes_are_refused `{WireMessage M} (limits : ResourceLimits) (m : M) (payload rest : list Z)
    (Hl : wire_limits limits) (Hm : message_fits limits m) (He : encode_wire limits m = inr payload) (Hrest : rest <> []) :
  exists error, decode_wire (M := M) limits (payload ++ rest) = Some (inl error).
Proof.
  destruct (encode_bytes limits m payload Hl Hm He) as [_ Hg].
  unfold decode_wire, decode_message. rewrite Hg. destruct (max_payload_bytes limits <? _); [by eexists|].
  cbn [rd_rest]. rewrite bool_decide_false by done. by eexists.
Qed.

(** *** In a frame *)

(** What a peer sends and what the other makes of the bytes. *)
Definition send `{WireMessage M} (limits : ResourceLimits) (type : MessageType.t) (m : M) : string + list Z :=
  match encode_wire limits m with
  | inl error => inl error
  | inr payload =>
      encode_frame limits {| fr_header := frame_header_default <| fh_protocol_version := protocol_version |>
                               <| fh_message_type := MessageType.index type |>;
                             fr_payload := payload |}
  end.
Definition receive `{WireMessage M} (limits : ResourceLimits) (bytes : list Z) : option (string + Z * M) :=
  match decode_frame limits bytes with
  | inl error => Some (inl error)
  | inr f =>
      match decode_wire limits (fr_payload f) with
      | Some (inr m) => Some (inr (fh_message_type (fr_header f), m))
      | Some (inl error) => Some (inl error)
      | None => None
      end
  end.

Lemma sent_is_received `{WireMessage M} (limits : ResourceLimits) (type : MessageType.t) (m : M) (bytes : list Z)
    (Hl : wire_limits limits) (Hp : is_u32 (max_payload_bytes limits)) (Hm : message_fits limits m)
    (He : send limits type m = inr bytes) :
  receive limits bytes = Some (inr (MessageType.index type, received m)).
Proof.
  unfold send in He. destruct (encode_wire limits m) as [|payload] eqn:Ep; [done|].
  assert (Hf : header_fits (frame_header_default <| fh_protocol_version := protocol_version |>
                              <| fh_message_type := MessageType.index type |>)).
  { by destruct type; split. }
  set (f := Build_Frame _ payload) in He. change (header_fits (fr_header f)) in Hf.
  unfold receive. rewrite (decode_encoded limits f bytes Hp Hf He). cbn [fr_header fr_payload].
  destruct (completed_fits limits f bytes Hp Hf He) as (_ & _ & _ & _ & _ & _ & _ & _ & Hs).
  change (fr_payload f) with payload in Hs |- *. rewrite (decode_encoded_wire limits m payload Hl Hm Ep Hs).
  by destruct (completed_constants f) as (_ & _ & ->).
Qed.

(** Where the message is within its ranges and can be sent, what is made of the
    bytes is its type and [m']. *)
Definition arrives_as `{WireMessage M} (limits : ResourceLimits) (type : MessageType.t) (m m' : M) : Prop :=
  forall bytes, message_fits limits m -> send limits type m = inr bytes ->
    receive limits bytes = Some (inr (MessageType.index type, m')).

(** C24: What is sent in a frame is received with its type, whatever the message
    of the protocol, as long as its fields are within their machine types and
    its lists within the limits, which both ends share.  Seventeen kinds of
    message arrive as they were sent.  A registration arrives without the
    backend's capabilities and evidence, which are those of a fresh descriptor.
    A route response arrives with its decision less the dispatch, the
    reservation, the time it was superseded and, in the explanation, the
    objective, budget and policy snapshots and the two flags, and with the
    explanation's request, authority and fallbacks copied from the decision. *)
Theorem received_as_sent (limits : ResourceLimits) (Hl : wire_limits limits) (Hp : is_u32 (max_payload_bytes limits)) :
  (forall m : HelloMessage, arrives_as limits MessageType.HELLO m m) /\
  (forall m : HelloAckMessage, arrives_as limits MessageType.HELLO_ACK m m) /\
  (forall m : BackendRegisterAckMessage, arrives_as limits MessageType.BACKEND_REGISTER_ACK m m) /\
  (forall m : CapabilityPublishMessage, arrives_as limits MessageType.CAPABILITY_PUBLISH m m) /\
  (forall m : HealthEvidence, arrives_as limits MessageType.HEALTH_UPDATE m m) /\
  (forall m : AvailabilityEvidence, arrives_as limits MessageType.AVAILABILITY_UPDATE m m) /\
  (forall m : ReadinessEvidence, arrives_as limits MessageType.READINESS_UPDATE m m) /\
  (forall m : ResidencyEvidence, arrives_as limits MessageType.RESIDENCY_UPDATE m m) /\
  (forall m : CapacityEvidence * CapacityDetail, arrives_as limits MessageType.CAPACITY_UPDATE m m) /\
  (forall m : LatencyEvidence, arrives_as limits MessageType.LATENCY_UPDATE m m) /\
  (forall m : CostEvidence, arrives_as limits MessageType.COST_UPDATE m m) /\
  (forall m : RouteRequestMessage, arrives_as limits MessageType.ROUTE_REQUEST m m) /\
  (forall m : DispatchMessage, arrives_as limits MessageType.DISPATCH m m) /\
  (forall m : DispatchResultMessage, arrives_as limits MessageType.DISPATCH_RESULT m m) /\
  (forall m : ErrorMessage, arrives_as limits MessageType.ERROR_MESSAGE m m) /\
  (forall m : AdminRequest, arrives_as limits MessageType.ADMIN_REQUEST m m) /\
  (forall m : AdminResponse, arrives_as limits MessageType.ADMIN_RESPONSE m m) /\
  (forall m : BackendRegisterMessage, arrives_as limits MessageType.BACKEND_REGISTER m (BackendRegisterOf (received_backend (br_backend m)))) /\
  (forall m : RouteResponseMessage, arrives_as limits MessageType.ROUTE_RESPONSE m {|
     ro_code := ro_code m; ro_decision := received_decision (ro_decision m);
     ro_has_decision := ro_has_decision m; ro_detail := ro_detail m |}).
Proof. split_and!; intros m bytes Hm He; exact (sent_is_received limits _ m bytes Hl Hp Hm He). Qed.

(** ** Sample messages *)

Definition sample_request_message : RouteRequestMessage :=
  RouteRequestOf (route_request_default <| rr_request_id := EntityIdOf 7 |> <| rr_tenant := EntityIdOf 3 |>
    <| rr_requirements := route_requirements_default
         <| rq_required_capabilities := [{| cr_key := CapabilityKeyOf "tools"; cr_minimum_state := CapabilityState.VERIFIED |}] |>
         <| rq_model_allowlist := [EntityIdOf 5; EntityIdOf 6] |> |>).

Lemma default_wire_limits : wire_limits default_resource_limits.
Proof. repeat (apply Forall_cons_2; [done|]). by apply Forall_nil. Qed.

Ltac fits := repeat first [split | apply Forall_cons_2 | apply Forall_nil]; try done.

Lemma sample_request_fits : message_fits default_resource_limits sample_request_message.
Proof. unfold message_fits, route_request_message, route_request_fits, requirements_fit, ids_fit. fits. Qed.

Definition sample_payload : list Z := Eval vm_compute in
  match encode_wire default_resource_limits sample_request_message with inr payload => payload | inl _ => [] end.

Lemma message_roundtrip_witness :
  bytes_size sample_payload = 382 /\
  decode_wire default_resource_limits sample_payload = Some (inr sample_request_message).
Proof.
  split; [vm_compute; reflexivity|].
  refine (message_roundtrip default_resource_limits sample_request_message sample_payload _ _ _ _);
    [apply default_wire_limits|apply sample_request_fits|vm_compute; reflexivity|vm_compute; discriminate].
Defined.

Lemma trailing_bytes_are_refused_witness :
  exists error, decode_wire (M := RouteRequestMessage) default_resource_limits (sample_payload ++ [0]) = Some (inl error).
Proof.
  apply (trailing_bytes_are_refused default_resource_limits sample_request_message);
    [apply default_wire_limits|apply sample_request_fits|vm_compute; reflexivity|discriminate].
Defined.

Definition sample_bytes : list Z := Eval vm_compute in
  match send default_resource_limits MessageType.ROUTE_REQUEST sample_request_message with inr bytes => bytes | inl _ => [] end.

Lemma received_as_sent_witness :
  receive default_resource_limits sample_bytes = Some (inr (13, sample_request_message)).
Proof.
  refine (proj1 (proj2 (proj2 (proj2 (proj2 (proj2 (proj2 (proj2 (proj2 (proj2 (proj2 (proj2
    (received_as_sent default_resource_limits _ _)))))))))))) sample_request_message sample_bytes _ _);
    [apply default_wire_limits|done|apply sample_request_fits|vm_compute; reflexivity].
Defined.
