(* ===== verification/RouterPersist.v ===== *)
(** * Export, import and recovery ([router_persist.cpp], lifecycle in [router.cpp])

    What of the router's state becomes durable, what a router that loads durable
    state makes of it, and the calls that save, load, start and stop.  The state
    file is reached through an interface that the environment of the router
    offers. *)
From S2P Require Import Prelude Bytes Ids Sha256 Outcome Limits Clock Codec Capability Evidence.
From S2P Require Import Catalog Candidate Authority Decision RouterState PersistRecords Persistence.
From S2P Require Import PersistRoundTrip FileStore RouterMutation Providers RouterRoute.

(** ** Export *)

Definition persisted_backend (b : BackendDescriptor) : PersistedBackendRecord := {|
  pb_backend_id := bd_backend_id b; pb_backend_generation := bd_backend_generation b;
  pb_last_boot := bd_backend_boot b; pb_last_registration_generation := bd_registration_generation b;
  pb_provider_id := bd_provider_id b; pb_provider_generation := bd_provider_generation b;
  pb_endpoint_id := ep_endpoint_id (bd_endpoint b);
  pb_last_endpoint_generation := ep_endpoint_generation (bd_endpoint b);
  pb_trust_profile_id := bd_trust_profile_id b; pb_trust_generation := bd_trust_generation b;
  pb_trust_domain := bd_trust_domain b; pb_locality := bd_locality b;
  pb_network_distance := bd_network_distance b; pb_capability_profile_id := bd_capability_profile_id b;
  pb_capability_generation := bd_capability_generation b; pb_capabilities := bd_capabilities b;
  pb_model_bindings := bd_model_bindings b; pb_offline_capable := bd_offline_capable b;
  pb_provenance := bd_provenance b; pb_registered_at := bd_registered_at b |}.

Definition persisted_route (r : RouteRecord) : PersistedRouteRecord :=
  let d := rec_decision r in {|
  pt_decision_id := de_decision_id d; pt_decision_generation := de_decision_generation d;
  pt_request_id := de_request_id d; pt_request_generation := de_request_generation d;
  pt_winner := pl_primary (rec_plan r); pt_fallbacks := de_fallbacks d; pt_authority := de_authority d;
  pt_status := de_status d; pt_code := de_code d; pt_cost := rx_cost (de_explanation d);
  pt_policy_generation := au_policy_generation (de_authority d);
  pt_price_generation := au_price_generation (de_authority d);
  pt_budget_generation := au_budget_generation (de_authority d);
  pt_slo_generation := au_slo_generation (de_authority d);
  pt_semantic_digest := rx_semantic_digest (de_explanation d);
  pt_requirement_digest := rx_requirement_digest (de_explanation d); pt_created_at := de_created_at d |}.

(** The state under the shared lock, with the clock and the identity allocator
    as they are read there. *)
Definition export_state (now : UnixMillis) (highest : Allocator) (s : CanonicalState) : RouterPersistentState :=
  let models := ordered_values id_ltb (cs_models s) in
  let backends := ordered_values id_ltb (cs_backends s) in
  state_canonicalize {|
    st_router_id := cs_router_id s; st_router_generation := cs_router_generation s;
    st_last_router_epoch := cs_router_epoch s; st_last_coordinator_epoch := cs_coordinator_epoch s;
    st_last_boot := cs_router_boot s; st_limits := cs_limits s; st_weights := cs_weights s;
    st_last_policy_generation := po_generation (cs_policy s);
    st_last_price_generation :=
      raised (map (fun m => co_price_generation (mb_cost m)) (backends ≫= bd_model_bindings)) none;
    st_last_budget_generation := bu_generation (cs_budget s);
    st_last_slo_generation := sl_generation (cs_slo s);
    st_last_capability_generation :=
      raised (map bd_capability_generation backends) (raised (map md_capability_generation models) none);
    st_last_model_generation := raised (map md_model_generation models) none;
    st_last_backend_generation := raised (map bd_backend_generation backends) none;
    st_models := models; st_backends := map persisted_backend backends;
    st_fenced_boots := ordered_values fence_key_ltb (cs_fenced_boots s);
    st_routes := map persisted_route (ordered_values id_ltb (cs_routes s));
    st_counters := (cs_counters s) <| pc_highest_identity_issued := allocator_highest_issued highest |>;
    st_saved_at := now; st_last_started_at := cs_started_at s |}.

(** ** Import *)

Definition import_model (s : CanonicalState) (m : ModelDescriptor) : CanonicalState :=
  s <| cs_models := <[md_model_id m := m]> (cs_models s) |>
    <| cs_model_watermark := <[md_model_id m := md_model_generation m]> (cs_model_watermark s) |>.

(** What is known about a recovered incarnation: nothing. *)
Definition unobserved {S g} (unknown : S) (r : PersistedBackendRecord) : BackendEvidence S g :=
  BackendEvidenceOf unknown none (pb_backend_id r) none (pb_last_boot r) none 0 kNoExpiry "" "".

Definition recovered_endpoint (r : PersistedBackendRecord) : EndpointDescriptor := {|
  ep_endpoint_id := pb_endpoint_id r; ep_endpoint_generation := pb_last_endpoint_generation r;
  ep_backend_id := pb_backend_id r; ep_backend_boot := pb_last_boot r; ep_reference := "recovered";
  ep_protocol := ep_protocol endpoint_descriptor_default;
  ep_protocol_version := ep_protocol_version endpoint_descriptor_default |}.

(** What the record does not carry is as in a fresh descriptor. *)
Definition recovered_backend (r : PersistedBackendRecord) : BackendDescriptor :=
  backend_canonicalize {|
    bd_backend_id := pb_backend_id r; bd_backend_generation := pb_backend_generation r;
    bd_backend_boot := pb_last_boot r; bd_registration_generation := pb_last_registration_generation r;
    bd_provider_id := pb_provider_id r; bd_provider_generation := pb_provider_generation r;
    bd_endpoint := recovered_endpoint r; bd_trust_profile_id := pb_trust_profile_id r;
    bd_trust_generation := pb_trust_generation r; bd_trust_domain := pb_trust_domain r;
    bd_locality := pb_locality r; bd_network_distance := pb_network_distance r;
    bd_capability_profile_id := pb_capability_profile_id r;
    bd_capability_generation := pb_capability_generation r; bd_capabilities := pb_capabilities r;
    bd_compatibility_profile_id := none; bd_compatibility_generation := none;
    bd_model_bindings := pb_model_bindings r; bd_health := unobserved HealthState.UNKNOWN r;
    bd_availability := unobserved AvailabilityState.UNKNOWN r;
    bd_readiness := unobserved ReadinessState.UNKNOWN r; bd_residency := unobserved ResidencyState.UNKNOWN r;
    bd_capacity := unobserved CapacityState.UNKNOWN r; bd_capacity_detail := capacity_detail_default;
    bd_latency := latency_evidence_default <| lt_backend_id := pb_backend_id r |>
                    <| lt_backend_boot := pb_last_boot r |>;
    bd_reliability_ppm := bd_reliability_ppm backend_descriptor_default;
    bd_offline_capable := pb_offline_capable r; bd_provenance := pb_provenance r;
    bd_registered_at := pb_registered_at r; bd_expires_at := kNoExpiry |}.

Definition import_backend (s : CanonicalState) (r : PersistedBackendRecord) : CanonicalState :=
  s <| cs_backends := <[pb_backend_id r := recovered_backend r]> (cs_backends s) |>
    <| cs_backend_watermark := <[pb_backend_id r := pb_backend_generation r]> (cs_backend_watermark s) |>.

Definition import_fence (s : CanonicalState) (f : FencedBootRecord) : CanonicalState :=
  s <| cs_fenced_boots := <[fence_key (fb_backend_id f) (fb_backend_boot f) := f]> (cs_fenced_boots s) |>.

Definition recovered_route (r : PersistedRouteRecord) (plan_id : EntityId RoutePlanTag) : RouteRecord := {|
  rec_decision := route_decision_default
    <| de_decision_id := pt_decision_id r |> <| de_decision_generation := pt_decision_generation r |>
    <| de_request_id := pt_request_id r |> <| de_request_generation := pt_request_generation r |>
    <| de_status := RouteStatus.STALE |> <| de_code := pt_code r |> <| de_authority := pt_authority r |>
    <| de_fallbacks := pt_fallbacks r |> <| de_created_at := pt_created_at r |>
    <| de_explanation := route_explanation_default
         <| rx_request_id := pt_request_id r |> <| rx_request_generation := pt_request_generation r |>
         <| rx_winner := pt_winner r |> <| rx_authority := pt_authority r |> <| rx_cost := pt_cost r |>
         <| rx_requirement_digest := pt_requirement_digest r |> <| rx_semantic_digest := pt_semantic_digest r |>
         <| rx_fallback_order := pt_fallbacks r |> <| rx_currentness := Currentness.RECONSTRUCTED |>
         <| rx_revalidation_required := true |> <| rx_detail_retained := false |> |>;
  rec_plan := route_plan_default
    <| pl_plan_id := plan_id |> <| pl_plan_generation := GenerationOf 1 |>
    <| pl_decision_id := pt_decision_id r |> <| pl_decision_generation := pt_decision_generation r |>
    <| pl_primary := pt_winner r |> <| pl_fallbacks := pt_fallbacks r |> <| pl_authority := pt_authority r |>
    <| pl_constraints := dispatch_constraints_default <| dk_require_revalidation := true |> |>
    <| pl_created_at := pt_created_at r |>;
  rec_tenant := au_tenant (pt_authority r);
  rec_name_space := au_name_space (pt_authority r) |}.

(** A plan identity is allocated for every decision. *)
Definition import_route (at_state : CanonicalState * Allocator) (r : PersistedRouteRecord)
    : CanonicalState * Allocator :=
  let '(s, ids) := at_state in
  let '(plan_id, ids) := allocate_id RoutePlanTag ids in
  (s <| cs_routes := <[pt_decision_id r := recovered_route r plan_id]> (cs_routes s) |>
     <| cs_route_order := cs_route_order s ++ [pt_decision_id r] |>, ids).

(** The state before the records are read in: identity, limits, counters and
    advanced epochs; the collections are empty, except for the providers, which
    are left as they are. *)
Definition import_reset (c : RouterPersistentState) (s : CanonicalState) : CanonicalState :=
  s <| cs_router_id := st_router_id c |> <| cs_router_generation := st_router_generation c |>
    <| cs_router_epoch := next (st_last_router_epoch c) |>
    <| cs_coordinator_epoch := next (st_last_coordinator_epoch c) |>
    <| cs_router_boot := st_last_boot c |> <| cs_limits := st_limits c |> <| cs_weights := st_weights c |>
    <| cs_counters := st_counters c |> <| cs_started_at := st_last_started_at c |> <| cs_recovered := true |>
    <| cs_models := ∅ |> <| cs_backends := ∅ |> <| cs_fenced_boots := ∅ |> <| cs_routes := ∅ |>
    <| cs_route_order := [] |> <| cs_dispatches := ∅ |> <| cs_dispatch_index := ∅ |>
    <| cs_compatibility := ∅ |> <| cs_trust := ∅ |> <| cs_costs := ∅ |> <| cs_reservations := ∅ |>
    <| cs_last_winner_by_tenant := ∅ |> <| cs_tenants := ∅ |> <| cs_model_watermark := ∅ |>
    <| cs_backend_watermark := ∅ |>.

Definition import_records (c : RouterPersistentState) (s : CanonicalState) (ids : Allocator)
    : CanonicalState * Allocator :=
  let s := fold_left import_model (st_models c) (import_reset c s) in
  let s := fold_left import_backend (st_backends c) s in
  let s := fold_left import_fence (st_fenced_boots c) s in
  let '(s, ids) := fold_left import_route (st_routes c) (s, ids) in
  let s := s <| cs_policy := policy_snapshot_default |> <| cs_budget := budget_snapshot_default |>
             <| cs_slo := slo_evidence_default |> in
  (rebuild_indexes s, allocator_observe (pc_highest_identity_issued (st_counters c)) ids).

(** The critical section of the import. *)
Definition import_install (c : RouterPersistentState) (s : CanonicalState) (ids : Allocator)
    : MutationResult * CanonicalState * Allocator :=
  return_if cs_running s
    with (mutation_make OutcomeCode.REJECT_CONFLICT "load"
            "durable state cannot be loaded while the router is running", s, ids) ;;
  let '(s, ids) := import_records c s ids in
  (mutation_built (builder OutcomeCode.ACCEPTED "load"
     >>> add_int "router_id" (value (cs_router_id s))
     >>> add_int "router_epoch" (value (cs_router_epoch s))
     >>> add_int "coordinator_epoch" (value (cs_coordinator_epoch s))
     >>> add_int "models" (map_size (cs_models s))
     >>> add_int "backends" (map_size (cs_backends s))
     >>> add_int "fenced_boots" (map_size (cs_fenced_boots s))
     >>> add_int "route_history" (map_size (cs_routes s))
     >>> set_message ("durable state restored; dynamic evidence invalidated and old dispatch authority " +:+
                      "invalidated")), s, ids).

(** ** Calls *)

(** What the router uses of its environment besides the adapters: the file
    system. *)
Class HasFiles (E : Type) := {
  files_of : E -> FileSystem;
  with_files : FileSystem -> E -> E;
  files_of_with : forall fs e, files_of (with_files fs e) = fs
}.
#[export] Instance file_system_files : HasFiles FileSystem :=
  {| files_of fs := fs; with_files fs _ := fs; files_of_with _ _ := eq_refl |}.

Section Calls.
Context {E : Type} `{HasFiles E} (clock : Call E UnixMillis).

Definition on_files {A} (f : FileSystem -> A * FileSystem) : M E A :=
  ask (fun e => let '(a, fs) := f (files_of e) in (a, with_files fs e)).

(** Under the shared lock. *)
Definition export_persistent_state : M E RouterPersistentState :=
  now ← ask clock;
  locked_ids (fun s ids => (export_state now ids s, s, ids)).

(** The limits are read before the lock is taken. *)
Definition import_persistent_state (persisted : RouterPersistentState) : M E MutationResult :=
  let canonical := state_canonicalize persisted in
  limits ← locked_shared cs_limits;
  let error := state_validate limits canonical in
  return_if error != "" with mret (mutation_make OutcomeCode.REJECT_INVALID "load" error) ;;
  locked_ids (import_install canonical).

Definition save (path : string) : M E PersistenceResult :=
  persisted ← export_persistent_state;
  limits ← locked_shared cs_limits;
  on_files (store_save persisted path limits).

(** [None]: see [decode]. *)
Definition load (path : string) : M E (option PersistenceResult) :=
  limits ← locked_shared cs_limits;
  loaded ← on_files (store_load path limits);
  match loaded with
  | None => mret None
  | Some l =>
      return_if negb (load_ok l) with mret (Some (refused (ld_code l) (ld_detail l))) ;;
      imported ← import_persistent_state (ld_state l);
      return_if negb (accepted imported)
        with mret (Some (refused (mr_code imported) (ex_message (mr_explanation imported)))) ;;
      mret (Some {| pe_code := ld_code l; pe_detail := "records=" +:+ to_string_int (ld_record_count l) |})
  end.

(** The durable state that [start] finds: none was asked for, one was read, or
    the error; [None]: see [decode]. *)
Definition start_read (o : ModelRouterOptions) : M E (option (option (PersistenceResult + RouterPersistentState))) :=
  return_if negb (op_load_on_start o && (op_persistence_path o != "")) with mret (Some None) ;;
  limits ← locked_shared cs_limits;
  loaded ← on_files (store_load (op_persistence_path o) limits);
  mret ((fun l => Some (if load_ok l then inr (ld_state l) else inl (refused (ld_code l) (ld_detail l)))) <$> loaded).

Definition publish_start : M E MutationResult :=
  now ← ask clock;
  locked (start_publish now).

(** An error is recognised by its text. *)
Definition start_router (o : ModelRouterOptions) : M E (option MutationResult) :=
  let options_error := options_validate o in
  return_if options_error != ""
    with mret (Some (mutation_make OutcomeCode.REJECT_INVALID "start" ("router options are invalid: " +:+ options_error))) ;;
  found ← start_read o;
  match found with
  | None => mret None
  | Some found =>
      refused ← locked start_admit;
      match refused, found with
      | Some answer, _ => mret (Some answer)
      | None, Some (inl failure) =>
          return_if pe_detail failure == "" with (answer ← publish_start; mret (Some answer)) ;;
          mret (Some (mutation_make (pe_code failure) "start"
                        ("durable state could not be loaded: " +:+ pe_detail failure)))
      | None, Some (inr persisted) =>
          imported ← import_persistent_state persisted;
          return_if negb (accepted imported) with mret (Some imported) ;;
          answer ← publish_start; mret (Some answer)
      | None, None => answer ← publish_start; mret (Some answer)
      end
  end.
End Calls.

(** [shutdown]; [None]: with [save_on_shutdown] the export takes the shared lock
    of a mutex that this thread holds exclusively, and nothing is known about
    the rest of the run. *)
Definition shutdown_router (o : ModelRouterOptions) (s : CanonicalState) : option Reply :=
  match shutdown_stop s with
  | (Some refused, s) => Some (refused, s)
  | (None, s') =>
      if op_save_on_shutdown o && (op_persistence_path o != "") then None else Some (shutdown s)
  end.

(** ** The import as a function of the durable state *)

(** The loops [for (x : l) map[key(x)] = value(x);]. *)
Section Assigned.
Context `{Countable K} {A B : Type} (key : A -> K) (value : A -> B).

Definition assigned (l : list A) : gmap K B := fold_left (fun m x => <[key x := value x]> m) l ∅.

Lemma assigned_snoc l x : assigned (l ++ [x]) = <[key x := value x]> (assigned l).
Proof. unfold assigned. by rewrite fold_left_app. Qed.

Lemma assigned_Some l k y : assigned l !! k = Some y -> exists x, x ∈ l /\ key x = k /\ value x = y.
Proof.
  induction l as [|x l IH] using rev_ind; [done|]. rewrite assigned_snoc, lookup_insert_Some.
  intros [[<- <-]|[_ Hy]]; [exists x; set_solver|]. destruct (IH Hy) as (z & ? & ? & ?). exists z. set_solver.
Qed.

Lemma assigned_is_Some l k : is_Some (assigned l !! k) <-> k ∈ key <$> l.
Proof.
  split.
  - intros [y (x & Hx & <- & _)%assigned_Some]. by apply list_elem_of_fmap_2.
  - induction l as [|x l IH] using rev_ind; [intros Hk; by apply elem_of_nil in Hk|].
    rewrite fmap_app, elem_of_app, assigned_snoc. intros Hk. destruct (decide (key x = k)) as [<-|Hne].
    + rewrite lookup_insert_eq. by eexists.
    + rewrite lookup_insert_ne by done. apply IH. destruct Hk as [|Hk]; [done|]. set_solver.
Qed.

(** When no key comes twice, every record is found. *)
Lemma assigned_elem l x : NoDup (key <$> l) -> x ∈ l -> assigned l !! key x = Some (value x).
Proof.
  intros Hn Hx. destruct (proj2 (assigned_is_Some l (key x)) (list_elem_of_fmap_2 key _ _ Hx)) as [y Hy].
  rewrite Hy. apply assigned_Some in Hy as (z & Hz & Ek & <-). do 2 f_equal.
  apply list_elem_of_lookup in Hx as [i Hi], Hz as [j Hj].
  assert (i = j) as ->; [|congruence].
  apply (NoDup_lookup (key <$> l) i j (key x)); [done|..]; rewrite list_lookup_fmap, ?Hi, ?Hj; simpl; congruence.
Qed.
End Assigned.

Lemma assigned_fmap `{Countable K} {A B C} (key : A -> K) (f : A -> B) (g : B -> C) l :
  assigned key (g ∘ f) l = g <$> assigned key f l.
Proof.
  induction l as [|x l IH] using rev_ind; [symmetry; apply fmap_empty|]. by rewrite !assigned_snoc, fmap_insert, IH.
Qed.

(** Reading the values of a map back under their keys gives the map, whatever
    order they come in. *)
Lemma assigned_values `{Countable K} {A B} (key : B -> K) (f : A -> B) (m : gmap K A) l :
  (forall k x, m !! k = Some x -> key (f x) = k) -> l ≡ₚ f <$> (map_to_list m).*2 ->
  assigned key (fun x => x) l = f <$> m.
Proof.
  intros Hk Hl.
  assert (Hin : forall k x, m !! k = Some x -> f x ∈ l).
  { intros k x Hx. rewrite Hl. apply list_elem_of_fmap_2. apply elem_of_map_to_list in Hx.
    by apply (list_elem_of_fmap_2 snd) in Hx. }
  assert (Hn : NoDup (key <$> l)).
  { rewrite Hl, <- !list_fmap_compose.
    rewrite (list_fmap_ext _ fst); [apply NoDup_fst_map_to_list|].
    intros i [k x] Hx%list_elem_of_lookup_2%elem_of_map_to_list. by apply Hk. }
  apply map_eq. intros k. rewrite lookup_fmap. destruct (m !! k) as [x|] eqn:E; simpl.
  - rewrite <- (Hk k x E) at 1. apply (assigned_elem key (fun x => x) l (f x)); [done|]. by eapply Hin.
  - apply eq_None_not_Some. intros Hs. apply assigned_is_Some in Hs as (y & -> & Hy)%list_elem_of_fmap.
    rewrite Hl in Hy. apply list_elem_of_fmap in Hy as (x & -> & ([k' x'] & -> & Hx)%list_elem_of_fmap).
    apply elem_of_map_to_list in Hx. simpl in E. rewrite (Hk _ _ Hx) in E. congruence.
Qed.

Lemma ordered_values_perm `{Countable K} {A} (ltb : K -> K -> bool) (m : gmap K A) :
  ordered_values ltb m ≡ₚ (map_to_list m).*2.
Proof. unfold ordered_values, entries. by rewrite stable_sort_perm. Qed.

(** A loop leaves what its body leaves. *)
Lemma fold_left_keeps {A B C} (f : A -> B -> A) (p : A -> C) l a :
  (forall a b, p (f a b) = p a) -> p (fold_left f l a) = p a.
Proof. intros Hf. revert a. induction l as [|b l IH]; intros a; simpl; [done|]. by rewrite IH, Hf. Qed.

Lemma fold_left_assigned `{Countable K} {A B S} (f : S -> A -> S) (p : S -> gmap K B) key value l s :
  (forall s x, p (f s x) = <[key x := value x]> (p s)) -> p s = ∅ -> p (fold_left f l s) = assigned key value l.
Proof.
  intros Hf Hs. induction l as [|x l IH] using rev_ind; [done|].
  by rewrite fold_left_app, assigned_snoc, <- IH, <- Hf.
Qed.

(** ** What an import leaves *)

Lemma rebuild_indexes_frame s :
  exists i1 i2 i3, rebuild_indexes s =
    s <| cs_index_by_model := i1 |> <| cs_index_by_provider := i2 |> <| cs_index_by_trust := i3 |>.
Proof. rewrite (proj2 (rebuild_indexes_loop s)). by eexists _, _, _. Qed.

(** The loop over the decisions. *)
Lemma import_routes_spec l s ids :
  let '(s', ids') := fold_left import_route l (s, ids) in
  s' = s <| cs_routes := cs_routes s' |> <| cs_route_order := cs_route_order s ++ map pt_decision_id l |> /\
  (forall id r', cs_routes s' !! id = Some r' ->
     cs_routes s !! id = Some r' \/
     exists r plan_id, r ∈ l /\ pt_decision_id r = id /\ r' = recovered_route r plan_id /\
       (0 <= ids -> ids + count l <= id_ceiling -> ids < value plan_id <= ids + count l)) /\
  (forall id, is_Some (cs_routes s' !! id) <-> is_Some (cs_routes s !! id) \/ id ∈ map pt_decision_id l) /\
  (0 <= ids <= id_ceiling -> ids <= ids' <= id_ceiling).
Proof.
  revert s ids. induction l as [|r l IH]; intros s ids; cbn [fold_left map].
  { split_and!.
    - rewrite app_nil_r. by destruct s.
    - by left.
    - set_solver.
    - lia. }
  unfold import_route at 2. destruct (allocate_id RoutePlanTag ids) as [plan_id ids1] eqn:Ea.
  set (s1 := s <| cs_routes := _ |> <| cs_route_order := _ |>).
  pose proof (IH s1 ids1) as H. destruct (fold_left import_route l (s1, ids1)) as [s' ids'].
  destruct H as (H1 & H2 & H3 & H4).
  unfold allocate_id in Ea. destruct (allocator_next ids) as [v ids2] eqn:En. injection Ea as <- <-.
  assert (Hc : count (r :: l) = 1 + count l) by (unfold count; simpl; lia).
  split_and!.
  - rewrite H1 at 1. unfold s1. cbn. by rewrite <- app_assoc.
  - intros id r' Hr. destruct (H2 id r' Hr) as [Hr'|(x & plan & Hx & E & -> & Hp)].
    + unfold s1 in Hr'. cbn in Hr'. apply lookup_insert_Some in Hr' as [[E <-]|[_ Hr']]; [|by left].
      right. exists r, (EntityIdOf v). split_and!; [left|done|done|]. intros H0 Hle. rewrite Hc in *.
      unfold allocator_next in En. destruct (Z.leb_spec id_ceiling ids); [unfold count in *; lia|].
      injection En as <- <-. cbn. unfold count in *. lia.
    + right. exists x, plan. split_and!; [by right|done|done|]. intros H0 Hle. rewrite Hc in *.
      unfold allocator_next in En. destruct (Z.leb_spec id_ceiling ids); [unfold count in *; lia|].
      injection En as <- <-. specialize (Hp ltac:(lia) ltac:(lia)). lia.
  - intros id. rewrite H3. unfold s1. cbn. rewrite elem_of_cons. destruct (decide (id = pt_decision_id r)) as [->|Hne].
    + rewrite lookup_insert_eq. split; [by right; left|]. intros _. left. by eexists.
    + rewrite lookup_insert_ne by done. naive_solver.
  - intros Hb. destruct (allocator_next_bounds ids v ids2 Hb En) as (? & -> & _). specialize (H4 ltac:(lia)). lia.
Qed.

(** The recovered state, field by field. *)
Record imported (c : RouterPersistentState) (s s' : CanonicalState) (ids ids' : Allocator) : Prop := {
  im_models : cs_models s' = assigned md_model_id (fun m => m) (st_models c);
  im_model_watermark : cs_model_watermark s' = assigned md_model_id md_model_generation (st_models c);
  im_backends : cs_backends s' = assigned pb_backend_id recovered_backend (st_backends c);
  im_backend_watermark : cs_backend_watermark s' = assigned pb_backend_id pb_backend_generation (st_backends c);
  im_fenced : cs_fenced_boots s' =
    assigned (fun f => fence_key (fb_backend_id f) (fb_backend_boot f)) (fun f => f) (st_fenced_boots c);
  im_order : cs_route_order s' = map pt_decision_id (st_routes c);
  im_routes : forall id r', cs_routes s' !! id = Some r' ->
    exists r plan_id, r ∈ st_routes c /\ pt_decision_id r = id /\ r' = recovered_route r plan_id /\
      (0 <= ids -> ids + count (st_routes c) <= id_ceiling -> ids < value plan_id <= ids + count (st_routes c));
  im_retained : forall id, is_Some (cs_routes s' !! id) <-> id ∈ cs_route_order s';
  im_dispatches : cs_dispatches s' = ∅ /\ cs_dispatch_index s' = ∅;
  im_evidence : cs_compatibility s' = ∅ /\ cs_trust s' = ∅ /\ cs_costs s' = ∅ /\ cs_reservations s' = ∅ /\
    cs_policy s' = policy_snapshot_default /\ cs_budget s' = budget_snapshot_default /\
    cs_slo s' = slo_evidence_default;
  im_epochs : cs_router_epoch s' = next (st_last_router_epoch c) /\
    cs_coordinator_epoch s' = next (st_last_coordinator_epoch c);
  im_identity : cs_router_id s' = st_router_id c /\ cs_router_generation s' = st_router_generation c /\
    cs_router_boot s' = st_last_boot c;
  im_limits : cs_limits s' = st_limits c;
  im_flags : cs_running s' = cs_running s /\ cs_shutting_down s' = cs_shutting_down s;
  im_indexes : indexes_ok s';
  im_ids : 0 <= ids <= id_ceiling -> ids <= ids' <= id_ceiling;
  im_observed : pc_highest_identity_issued (st_counters c) <= id_ceiling ->
    pc_highest_identity_issued (st_counters c) <= ids'
}.

Lemma import_records_spec c s ids :
  imported c s (import_records c s ids).1 ids (import_records c s ids).2.
Proof.
  unfold import_records. cbv zeta.
  set (s1 := fold_left import_model (st_models c) (import_reset c s)).
  set (s2 := fold_left import_backend (st_backends c) s1).
  set (s3 := fold_left import_fence (st_fenced_boots c) s2).
  pose proof (import_routes_spec (st_routes c) s3 ids) as H.
  destruct (fold_left import_route (st_routes c) (s3, ids)) as [s4 ids4].
  destruct H as (E4 & Hr & Hs & Hids).
  assert (K : forall {B} (p : CanonicalState -> B),
    (forall s x, p (import_model s x) = p s) -> (forall s x, p (import_backend s x) = p s) ->
    (forall s x, p (import_fence s x) = p s) -> p s3 = p (import_reset c s)).
  { intros B p H1 H2 H3. unfold s3, s2, s1. by rewrite !fold_left_keeps. }
  assert (Em : cs_models s3 = assigned md_model_id (fun m => m) (st_models c)).
  { unfold s3, s2. rewrite !fold_left_keeps by done. by apply (fold_left_assigned import_model cs_models). }
  assert (Ew : cs_model_watermark s3 = assigned md_model_id md_model_generation (st_models c)).
  { unfold s3, s2. rewrite !fold_left_keeps by done. by apply (fold_left_assigned import_model cs_model_watermark). }
  assert (Eb : cs_backends s3 = assigned pb_backend_id recovered_backend (st_backends c)).
  { unfold s3. rewrite fold_left_keeps by done. apply (fold_left_assigned import_backend cs_backends); [done|].
    unfold s1. by rewrite fold_left_keeps. }
  assert (Ev : cs_backend_watermark s3 = assigned pb_backend_id pb_backend_generation (st_backends c)).
  { unfold s3. rewrite fold_left_keeps by done. apply (fold_left_assigned import_backend cs_backend_watermark); [done|].
    unfold s1. by rewrite fold_left_keeps. }
  assert (Ef : cs_fenced_boots s3 =
    assigned (fun f => fence_key (fb_backend_id f) (fb_backend_boot f)) (fun f => f) (st_fenced_boots c)).
  { apply (fold_left_assigned import_fence cs_fenced_boots); [done|]. unfold s2, s1. by rewrite !fold_left_keeps. }
  set (s5 := s4 <| cs_policy := _ |> <| cs_budget := _ |> <| cs_slo := _ |>). cbn [fst snd].
  pose proof (rebuild_indexes_ok s5) as Hi. destruct (rebuild_indexes_frame s5) as (i1 & i2 & i3 & E5).
  rewrite E5 in Hi |- *. clear E5.
  assert (Ero : cs_routes s3 = ∅) by (by apply (K _ cs_routes)).
  assert (Eor : cs_route_order s3 = []) by (by apply (K _ cs_route_order)).
  assert (Efl : cs_running s3 = cs_running s /\ cs_shutting_down s3 = cs_shutting_down s)
    by (by split; [apply (K _ cs_running)|apply (K _ cs_shutting_down)]).
  rewrite Eor in E4. rewrite Ero in Hr, Hs.
  assert (Ekeep : forall {B} (p : CanonicalState -> B),
    (forall s r o, p (s <| cs_routes := r |> <| cs_route_order := o |>) = p s) -> p s4 = p s3).
  { intros B p Hp. rewrite E4. apply Hp. }
  split; cbn.
  - by rewrite (Ekeep _ cs_models).
  - by rewrite (Ekeep _ cs_model_watermark).
  - by rewrite (Ekeep _ cs_backends).
  - by rewrite (Ekeep _ cs_backend_watermark).
  - by rewrite (Ekeep _ cs_fenced_boots).
  - by rewrite E4.
  - intros id r' Hr'. destruct (Hr id r' Hr') as [He|?]; [by rewrite lookup_empty in He|done].
  - intros id. rewrite Hs, E4. cbn. split; [|by right]. intros [[? He]|]; [by rewrite lookup_empty in He|done].
  - rewrite (Ekeep _ cs_dispatches), (Ekeep _ cs_dispatch_index) by done.
    by split; [apply (K _ cs_dispatches)|apply (K _ cs_dispatch_index)].
  - rewrite (Ekeep _ cs_compatibility), (Ekeep _ cs_trust), (Ekeep _ cs_costs), (Ekeep _ cs_reservations) by done.
    split_and!; [by apply (K _ cs_compatibility)|by apply (K _ cs_trust)|by apply (K _ cs_costs)
      |by apply (K _ cs_reservations)|done..].
  - rewrite (Ekeep _ cs_router_epoch), (Ekeep _ cs_coordinator_epoch) by done.
    by split; [apply (K _ cs_router_epoch)|apply (K _ cs_coordinator_epoch)].
  - rewrite (Ekeep _ cs_router_id), (Ekeep _ cs_router_generation), (Ekeep _ cs_router_boot) by done.
    by split_and!; [apply (K _ cs_router_id)|apply (K _ cs_router_generation)|apply (K _ cs_router_boot)].
  - rewrite (Ekeep _ cs_limits) by done. by apply (K _ cs_limits).
  - rewrite (Ekeep _ cs_running), (Ekeep _ cs_shutting_down) by done. exact Efl.
  - exact Hi.
  - intros Hb. specialize (Hids Hb). pose proof (allocator_observe_bounds (pc_highest_identity_issued (st_counters c)) ids4). lia.
  - intros Hh. unfold allocator_observe. destruct (Z.ltb_spec id_ceiling (pc_highest_identity_issued (st_counters c))); [lia|].
    destruct (Z.ltb_spec ids4 (pc_highest_identity_issued (st_counters c))); lia.
Qed.

(** ** A recovered router *)

Section Recovered.
Context (c : RouterPersistentState) (s : CanonicalState) (ids : Allocator) (Hstopped : cs_running s = false).

Lemma import_install_spec :
  let '(answer, s', ids') := import_install c s ids in
  mr_code answer = OutcomeCode.ACCEPTED /\ imported c s s' ids ids'.
Proof.
  unfold import_install. rewrite Hstopped. pose proof (import_records_spec c s ids) as H.
  destruct (import_records c s ids) as [s' ids']. by split.
Qed.

Lemma import_wf
    (Hlimit : 0 < max_route_history (st_limits c))
    (Hsize : count (st_routes c) <= max_route_history (st_limits c))
    (Hunique : NoDup (map pt_decision_id (st_routes c)))
    (Hissued : Forall (fun r => value (pt_decision_id r) <= pc_highest_identity_issued (st_counters c)) (st_routes c))
    (Hceiling : pc_highest_identity_issued (st_counters c) <= id_ceiling) :
  let '(_, s', ids') := import_install c s ids in
  router_wf s' /\ history_inv s' ids' /\ pc_highest_identity_issued (st_counters c) <= ids'.
Proof.
  pose proof import_install_spec as H. destruct (import_install c s ids) as [[answer s'] ids'].
  destruct H as [_ H]. split_and!.
  - split.
    + intros id d. rewrite (im_backends _ _ _ _ _ H). by intros (r & _ & <- & <-)%assigned_Some.
    + intros id m. rewrite (im_models _ _ _ _ _ H). by intros (x & _ & <- & <-)%assigned_Some.
    + apply H.
    + intros id d. rewrite (im_backends _ _ _ _ _ H), (im_backend_watermark _ _ _ _ _ H).
      rewrite (assigned_fmap pb_backend_id (fun r => r) recovered_backend).
      rewrite (assigned_fmap pb_backend_id (fun r => r) pb_backend_generation), !lookup_fmap.
      destruct (assigned pb_backend_id _ _ !! id); [|done]. by intros [= <-].
    + intros id m. rewrite (im_models _ _ _ _ _ H), (im_model_watermark _ _ _ _ _ H).
      rewrite (assigned_fmap md_model_id (fun r => r) md_model_generation), lookup_fmap. by intros ->.
  - split; [by rewrite (im_limits _ _ _ _ _ H)|]. intros _. split.
    + intros id. symmetry. apply H.
    + by rewrite (im_order _ _ _ _ _ H).
    + intros id. rewrite (im_order _ _ _ _ _ H). intros (r & -> & Hr)%list_elem_of_fmap.
      rewrite Forall_forall in Hissued. etransitivity; [by apply Hissued|]. by apply (im_observed _ _ _ _ _ H).
    + rewrite (im_order _ _ _ _ _ H), (im_limits _ _ _ _ _ H). unfold Request.size. by rewrite length_map.
  - by apply (im_observed _ _ _ _ _ H).
Qed.

(** A state loaded from durable records is well-formed: the derived indexes
    are those of the recovered backends and the watermarks those of the
    recovered generations.  When the records name every decision once, below the
    highest identity issued, and fit the history limit, the retained history is
    in order, and identities allocated from now on are new to it. *)
Theorem import_keeps_wf
    (Hlimit : 0 < max_route_history (st_limits c))
    (Hsize : count (st_routes c) <= max_route_history (st_limits c))
    (Hunique : NoDup (map pt_decision_id (st_routes c)))
    (Hissued : Forall (fun r => value (pt_decision_id r) <= pc_highest_identity_issued (st_counters c)) (st_routes c))
    (Hceiling : pc_highest_identity_issued (st_counters c) <= id_ceiling) :
  let '(_, s', ids') := import_install c s ids in
  router_wf s' /\ history_inv s' ids' /\ pc_highest_identity_issued (st_counters c) <= ids'.
Proof. by apply import_wf. Qed.

Lemma next_not_below {t} (g x : Generation t) :
  value g < generation_max -> value x <= value g -> value x < value (next g).
Proof.
  intros Hg Hx. unfold next. cbn. destruct (Z.eqb_spec (generation_value g) generation_max); cbn in *; lia.
Qed.

Lemma next_monotone {t} (g : Generation t) : value g <= generation_max -> value g <= value (next g).
Proof.
  intros Hg. unfold next. cbn. destruct (Z.eqb_spec (generation_value g) generation_max); cbn in *; lia.
Qed.

Lemma next_bounded {t} (g : Generation t) : value g <= generation_max -> value (next g) <= generation_max.
Proof.
  intros Hg. unfold next. cbn. destruct (Z.eqb_spec (generation_value g) generation_max); cbn in *; lia.
Qed.

(** Authority bound under another router epoch is not dispatchable. *)
Lemma other_epoch_void s0 a now : au_router_epoch a <> cs_router_epoch s0 -> is_authority_dispatchable s0 a now = false.
Proof.
  intros Hne. apply not_true_iff_false. intros (m & b & H)%dispatchable_executable.
  by destruct (executable_bound _ _ _ _ _ H).
Qed.

(** The state of a backend is not known: the five kinds of evidence are UNKNOWN
    and carry no generation and no time, and there is no capacity and no latency. *)
Record unknown_state (b : BackendDescriptor) (r : PersistedBackendRecord) : Prop := {
  unknown_health : bd_health b = unobserved HealthState.UNKNOWN r;
  unknown_availability : bd_availability b = unobserved AvailabilityState.UNKNOWN r;
  unknown_readiness : bd_readiness b = unobserved ReadinessState.UNKNOWN r;
  unknown_residency : bd_residency b = unobserved ResidencyState.UNKNOWN r;
  unknown_capacity : bd_capacity b = unobserved CapacityState.UNKNOWN r;
  unknown_detail : bd_capacity_detail b = capacity_detail_default;
  unknown_latency : bd_latency b = latency_evidence_default <| lt_backend_id := pb_backend_id r |>
                                     <| lt_backend_boot := pb_last_boot r |>
}.

Lemma recovered_unknown r : unknown_state (recovered_backend r) r.
Proof. by split. Qed.

(** Authority of an epoch up to the recovered one is void before and after the start. *)
Lemma recovered_epoch_void (Hepoch : 0 <= value (st_last_router_epoch c) < generation_max) :
  let '(_, s', _) := import_install c s ids in
  forall a now started, value (au_router_epoch a) <= value (st_last_router_epoch c) ->
    is_authority_dispatchable s' a now = false /\
    is_authority_dispatchable (start_publish started s').2 a now = false.
Proof.
  pose proof import_install_spec as H. destruct (import_install c s ids) as [[answer s'] ids'].
  destruct H as [_ H]. intros a now started Hle. destruct (im_epochs _ _ _ _ _ H) as [E _].
  pose proof (next_not_below (st_last_router_epoch c) (au_router_epoch a) (proj2 Hepoch) Hle) as Hlt.
  assert (Hmax : value (next (st_last_router_epoch c)) <= generation_max) by (apply next_bounded; lia).
  pose proof (next_monotone _ Hmax) as Hmono.
  split; apply other_epoch_void; [rewrite E; intros Eq; rewrite Eq in Hlt; lia|].
  unfold start_publish. destruct (im_flags _ _ _ _ _ H) as [-> _]. rewrite Hstopped. cbn. rewrite E.
  intros Eq. rewrite Eq in Hlt. cbn in *. lia.
Qed.

(** The plans of recovered decisions are given identities before the
    allocator has observed what was issued: in a fresh process, whose allocator
    is at zero, every recovered plan carries an identity that the previous
    process had already issued. *)
Theorem recovery_reissues_identities (Hfresh : ids = 0)
    (Hissued : count (st_routes c) <= pc_highest_identity_issued (st_counters c) <= id_ceiling) :
  let '(_, s', _) := import_install c s ids in
  forall id r, cs_routes s' !! id = Some r ->
    0 < value (pl_plan_id (rec_plan r)) <= pc_highest_identity_issued (st_counters c).
Proof.
  pose proof import_install_spec as H. destruct (import_install c s ids) as [[answer s'] ids'].
  destruct H as [_ H]. intros id r' Hr. destruct (im_routes _ _ _ _ _ H id r' Hr) as (r & plan & _ & _ & -> & Hp).
  subst ids. specialize (Hp ltac:(lia) ltac:(lia)). cbn. cbn in Hp. lia.
Qed.
End Recovered.

(** ** A restart: exporting, and importing what was exported *)

(** The key of a fence is the incarnation it names. *)
Definition fences_keyed (s : CanonicalState) : Prop :=
  forall k r, cs_fenced_boots s !! k = Some r -> fence_key (fb_backend_id r) (fb_backend_boot r) = k.

Lemma fences_keyed_step s s' : catalog_step s s' -> fences_keyed s -> fences_keyed s'.
Proof.
  intros Hstep H k r. destruct Hstep as [_ ->|? ? ? _ _ _ ->|? _ _ _ ->|id boot f Hk -> _]; [apply H..|].
  intros [[<- <-]|[_ Hr]]%lookup_insert_Some; [exact Hk|by apply H].
Qed.

Lemma fences_keyed_calls calls s : fences_keyed s -> fences_keyed (run_calls calls s).
Proof.
  intros H. induction (run_calls_catalog calls s) as [|? ? ? Hstep _ IH]; [done|].
  apply IH. by eapply fences_keyed_step.
Qed.

(** The decisions are retained under their own identities. *)
Definition routes_keyed (s : CanonicalState) : Prop :=
  forall id r, cs_routes s !! id = Some r -> de_decision_id (rec_decision r) = id.

Definition restart (now : UnixMillis) (highest : Allocator) (s : CanonicalState) (fresh : CanonicalState)
    (ids : Allocator) : MutationResult * CanonicalState * Allocator :=
  import_install (state_canonicalize (export_state now highest s)) fresh ids.

(** What becomes of a backend. *)
Definition restarted_backend (b : BackendDescriptor) : BackendDescriptor :=
  recovered_backend (persisted_backend b).

(** Sorting the bindings first makes no difference. *)
Lemma recovered_sorted r : recovered_backend (sort_bindings r) = recovered_backend r.
Proof.
  unfold recovered_backend, backend_canonicalize, sort_bindings. destruct r. cbn.
  f_equal. unfold sort_unique_by. f_equal. apply stable_sort_id, stable_sort_sorted. apply (swb_on id_ltb mb_model_id).
Qed.

Section Restart.
Context (now : UnixMillis) (highest : Allocator) (s fresh : CanonicalState) (ids : Allocator).
Context (Hstopped : cs_running fresh = false).

Lemma restart_models :
  (forall id m, cs_models s !! id = Some m -> md_model_id m = id) ->
  assigned md_model_id (fun m => m) (st_models (state_canonicalize (export_state now highest s))) = cs_models s.
Proof.
  intros Hk. rewrite <- (map_fmap_id (cs_models s)). apply assigned_values; [done|].
  unfold export_state. rewrite canonicalize_twice. cbn. by rewrite stable_sort_perm, ordered_values_perm, list_fmap_id.
Qed.

Lemma restart_fences :
  fences_keyed s ->
  assigned (fun f => fence_key (fb_backend_id f) (fb_backend_boot f)) (fun f => f)
    (st_fenced_boots (state_canonicalize (export_state now highest s))) = cs_fenced_boots s.
Proof.
  intros Hk. rewrite <- (map_fmap_id (cs_fenced_boots s)). apply assigned_values; [done|].
  unfold export_state. rewrite canonicalize_twice. cbn. by rewrite stable_sort_perm, ordered_values_perm, list_fmap_id.
Qed.

Lemma restart_backends :
  keyed s ->
  assigned pb_backend_id recovered_backend (st_backends (state_canonicalize (export_state now highest s))) =
    restarted_backend <$> cs_backends s.
Proof.
  intros Hk. rewrite (assigned_fmap pb_backend_id (fun r => r) recovered_backend).
  rewrite (assigned_values pb_backend_id (sort_bindings ∘ persisted_backend) (cs_backends s)).
  - rewrite <- map_fmap_compose. apply map_fmap_ext. intros id b _. cbn. apply recovered_sorted.
  - intros id b Hb. by apply Hk.
  - unfold export_state. rewrite canonicalize_twice. cbn. rewrite stable_sort_perm, ordered_values_perm.
    change (map persisted_backend) with (fmap (M := list) persisted_backend). by rewrite <- list_fmap_compose.
Qed.

(** The decisions of the export, in some order. *)
Lemma restart_routes :
  st_routes (state_canonicalize (export_state now highest s)) ≡ₚ persisted_route <$> (map_to_list (cs_routes s)).*2.
Proof. unfold export_state. rewrite canonicalize_twice. cbn. by rewrite stable_sort_perm, ordered_values_perm. Qed.

Lemma restart_route_ids :
  routes_keyed s ->
  map pt_decision_id (st_routes (state_canonicalize (export_state now highest s))) ≡ₚ (map_to_list (cs_routes s)).*1.
Proof.
  intros Hk. change (map pt_decision_id) with (fmap (M := list) pt_decision_id).
  rewrite restart_routes, <- !list_fmap_compose. apply reflexive_eq, list_fmap_ext.
  intros i [id r] Hr%list_elem_of_lookup_2%elem_of_map_to_list. by apply Hk.
Qed.

#[local] Abbreviation exported := (state_canonicalize (export_state now highest s)).

Lemma restart_wf :
  history_ok s highest -> 0 < max_route_history (cs_limits s) -> highest <= id_ceiling -> routes_keyed s ->
  let '(_, s', ids') := restart now highest s fresh ids in router_wf s' /\ history_inv s' ids' /\ highest <= ids'.
Proof.
  intros Hh Hl Hc Hk. pose proof (history_size s highest Hh) as Hsize. destruct Hh as [Hkeys Hn Hi Hb].
  pose proof (restart_route_ids Hk) as Hids.
  apply (import_wf exported fresh ids Hstopped); [exact Hl| | | |exact Hc].
  - assert (E : count (st_routes exported) = map_size (cs_routes s)).
    { unfold count. rewrite restart_routes, !length_fmap. unfold map_size. by rewrite length_map_to_list. }
    rewrite E, Hsize. exact Hb.
  - rewrite Hids. apply NoDup_fst_map_to_list.
  - change (pc_highest_identity_issued (st_counters exported)) with highest.
    apply Forall_forall. intros r Hr. apply Hi, Hkeys.
    assert (Hin : pt_decision_id r ∈ map pt_decision_id (st_routes exported)) by (by apply list_elem_of_fmap_2).
    rewrite Hids in Hin. apply list_elem_of_fmap in Hin as ([id x] & -> & Hx%elem_of_map_to_list). by eexists.
Qed.

Lemma restart_spec :
  let '(answer, s', ids') := restart now highest s fresh ids in
  mr_code answer = OutcomeCode.ACCEPTED /\ imported exported fresh s' ids ids'.
Proof. by apply import_install_spec. Qed.

(** The decision retained under an identity. *)
Lemma restart_route_at s' ids' id :
  routes_keyed s -> imported exported fresh s' ids ids' ->
  match cs_routes s !! id with
  | None => cs_routes s' !! id = None
  | Some r => exists plan_id, cs_routes s' !! id = Some (recovered_route (persisted_route r) plan_id)
  end.
Proof.
  intros Hk H. pose proof (restart_route_ids Hk) as Hids.
  assert (Hsome : is_Some (cs_routes s' !! id) <-> is_Some (cs_routes s !! id)).
  { rewrite (im_retained _ _ _ _ _ H), (im_order _ _ _ _ _ H), Hids. split.
    - intros ([x r] & -> & Hx%elem_of_map_to_list)%list_elem_of_fmap. by eexists.
    - intros [r Hr]. apply elem_of_map_to_list in Hr. by apply (list_elem_of_fmap_2 fst) in Hr. }
  destruct (cs_routes s !! id) as [r|] eqn:Er.
  - destruct (cs_routes s' !! id) as [r'|] eqn:Er'; [|by destruct (proj2 Hsome (mk_is_Some _ _ eq_refl))].
    destruct (im_routes _ _ _ _ _ H id r' Er') as (p & plan & Hp & Hid & -> & _). exists plan. do 2 f_equal.
    rewrite restart_routes in Hp. apply list_elem_of_fmap in Hp as (x & -> & ([k y] & -> & Hy%elem_of_map_to_list)%list_elem_of_fmap).
    cbn in Hid |- *. rewrite (Hk _ _ Hy) in Hid. congruence.
  - apply eq_None_not_Some. intros Hs. by destruct (proj1 Hsome Hs).
Qed.

(** What a restart keeps.  A stopped router that imports what another
    exported has its models, its fences and its limits; its backends with their
    registration and nothing observed about them; its decisions, each
    reconstructed under its identity; the next epochs; and it is well-formed. *)
Theorem restart_restores (Hwf : router_wf s) (Hfences : fences_keyed s) (Hroutes : routes_keyed s)
    (Hhistory : history_ok s highest) (Hlimit : 0 < max_route_history (cs_limits s)) (Hceiling : highest <= id_ceiling) :
  let '(answer, s', ids') := restart now highest s fresh ids in
  mr_code answer = OutcomeCode.ACCEPTED /\ router_wf s' /\ history_inv s' ids' /\ highest <= ids' /\
  cs_models s' = cs_models s /\ cs_fenced_boots s' = cs_fenced_boots s /\ cs_limits s' = cs_limits s /\
  cs_backends s' = restarted_backend <$> cs_backends s /\
  cs_router_epoch s' = next (cs_router_epoch s) /\ cs_coordinator_epoch s' = next (cs_coordinator_epoch s) /\
  forall id, match cs_routes s !! id with
    | None => cs_routes s' !! id = None
    | Some r => exists plan_id, cs_routes s' !! id = Some (recovered_route (persisted_route r) plan_id)
    end.
Proof.
  pose proof restart_spec as H. pose proof (restart_wf Hhistory Hlimit Hceiling Hroutes) as W.
  destruct (restart now highest s fresh ids) as [[answer s'] ids']. destruct H as [Ha H], W as (W1 & W2 & W3).
  destruct (im_epochs _ _ _ _ _ H) as [E1 E2]. split_and!; try done.
  - rewrite (im_models _ _ _ _ _ H). apply restart_models, Hwf.
  - rewrite (im_fenced _ _ _ _ _ H). by apply restart_fences.
  - by rewrite (im_limits _ _ _ _ _ H).
  - rewrite (im_backends _ _ _ _ _ H). apply restart_backends, Hwf.
  - intros id. by apply (restart_route_at s' ids').
Qed.

(** C14: fences survive a restart, and so does what they promise: an incarnation
    is fenced after the restart exactly when it was before, and a fenced
    incarnation that was gone does not come back, whatever calls the restarted
    router is given. *)
Theorem restart_keeps_fences (Hwf : router_wf s) (Hfences : fences_keyed s) (id : EntityId BackendTag)
    (boot : Generation BackendBootTag) :
  let '(_, s', _) := restart now highest s fresh ids in
  is_fenced s' id boot = is_fenced s id boot /\
  (retired_boot s id boot -> forall calls, retired_boot (run_calls calls s') id boot).
Proof.
  pose proof restart_spec as H. destruct (restart now highest s fresh ids) as [[answer s'] ids'].
  destruct H as [_ H].
  assert (Ef : cs_fenced_boots s' = cs_fenced_boots s).
  { rewrite (im_fenced _ _ _ _ _ H). by apply restart_fences. }
  split; [by apply is_fenced_same|]. intros [Hf Hb] calls.
  eapply retired_boot_steps; [apply run_calls_catalog|]. split; [by rewrite (is_fenced_same s s')|].
  intros d. rewrite (im_backends _ _ _ _ _ H), restart_backends by apply Hwf.
  rewrite lookup_fmap. intros (b & Hd & ->)%fmap_Some. exact (Hb b Hd).
Qed.

(** The watermarks of what is no longer registered do not survive a restart:
    of a backend that was unregistered, any older generation may be registered
    again afterwards. *)
Theorem restart_forgets_watermarks (Hwf : router_wf s) (id : EntityId BackendTag) (w : Generation BackendTag)
    (Hgone : cs_backends s !! id = None) (Hseen : cs_backend_watermark s !! id = Some w) :
  let '(_, s', _) := restart now highest s fresh ids in cs_backend_watermark s' !! id = None.
Proof.
  pose proof restart_spec as H. destruct (restart now highest s fresh ids) as [[answer s'] ids'].
  destruct H as [_ H]. rewrite (im_backend_watermark _ _ _ _ _ H). apply eq_None_not_Some. intros Hs.
  apply assigned_is_Some in Hs. rewrite <- (assigned_is_Some pb_backend_id recovered_backend) in Hs.
  rewrite restart_backends in Hs by apply Hwf. rewrite lookup_fmap, Hgone in Hs. by destruct Hs.
Qed.
End Restart.

(** ** From one process to the next *)

(** The records that come back from the file. *)
Lemma restored_records st :
  st_models (restored st) = st_models (state_canonicalize st) /\
  st_backends (restored st) = st_backends (state_canonicalize st) /\
  st_fenced_boots (restored st) = st_fenced_boots (state_canonicalize st).
Proof. split_and!; reflexivity. Qed.

Lemma canonicalize_epoch st : st_last_router_epoch (state_canonicalize st) = st_last_router_epoch st.
Proof. reflexivity. Qed.

#[local] Opaque state_canonicalize export_state restored.

Section Processes.
Context {E : Type} `{HasFiles E} (clock : Call E UnixMillis).

(** A thread that runs alone. *)
Definition alone (s : CanonicalState) (ids : Allocator) (e : E) : World E :=
  {| w_state := s; w_ids := ids; w_env := e; w_others := [] |}.

Lemma bind_run {A B} (m : M E A) (f : A -> M E B) w : (m ≫= f) w = let '(a, w') := m w in f a w'.
Proof. reflexivity. Qed.
Lemma ret_run {A} (a : A) (w : World E) : mret (M := M E) a w = (a, w).
Proof. reflexivity. Qed.
Lemma locked_ids_run {A} (f : CanonicalState -> Allocator -> A * CanonicalState * Allocator) s ids e :
  locked_ids f (alone s ids e) = let '(a, s', ids') := f s ids in (a, alone s' ids' e).
Proof. reflexivity. Qed.
Lemma locked_run {A} (f : CanonicalState -> A * CanonicalState) s ids e :
  locked f (alone s ids e) = let '(a, s') := f s in (a, alone s' ids e).
Proof. unfold locked. rewrite locked_ids_run. by destruct (f s). Qed.
Lemma shared_run {A} (f : CanonicalState -> A) s ids e :
  locked_shared f (alone s ids e) = (f s, alone s ids e).
Proof. reflexivity. Qed.
Lemma ask_run {A} (f : Call E A) s ids e : ask f (alone s ids e) = let '(a, e') := f e in (a, alone s ids e').
Proof. reflexivity. Qed.
Lemma on_files_run {A} (f : FileSystem -> A * FileSystem) s ids e :
  on_files f (alone s ids e) = let '(a, fs) := f (files_of e) in (a, alone s ids (with_files fs e)).
Proof. unfold on_files. rewrite ask_run. by destruct (f (files_of e)). Qed.

Ltac run_alone :=
  repeat (rewrite ?bind_run, ?ret_run, ?shared_run, ?locked_ids_run, ?locked_run, ?on_files_run, ?ask_run;
          cbv beta iota).

(** [save] when no other thread runs. *)
Lemma save_alone s ids e path :
  save clock path (alone s ids e) =
    let '(now, e) := clock e in
    let '(r, fs) := store_save (export_state now ids s) path (cs_limits s) (files_of e) in
    (r, alone s ids (with_files fs e)).
Proof.
  unfold save, export_persistent_state. run_alone. destruct (clock e) as [now e1]. cbv beta iota.
  run_alone. by destruct (store_save _ _ _ _).
Qed.

Lemma import_alone s ids e p :
  state_validate (cs_limits s) (state_canonicalize p) = "" ->
  import_persistent_state p (alone s ids e) =
    let '(answer, s', ids') := import_install (state_canonicalize p) s ids in (answer, alone s' ids' e).
Proof.
  intros Hv. unfold import_persistent_state. run_alone. rewrite Hv. rewrite bool_decide_eq_true_2 by done.
  cbn [negb]. by rewrite locked_ids_run.
Qed.

Lemma publish_alone s ids e :
  publish_start clock (alone s ids e) =
    let '(now, e) := clock e in ((start_publish now s).1, alone (start_publish now s).2 ids e).
Proof.
  unfold publish_start. run_alone. destruct (clock e) as [now e1]. run_alone. by destruct (start_publish now s).
Qed.

(** [start] when no other thread runs and durable state is found. *)
Lemma start_alone s ids e o l fs :
  cs_running s = false -> options_validate o = "" ->
  op_load_on_start o = true -> op_persistence_path o <> "" ->
  store_load (op_persistence_path o) (cs_limits s) (files_of e) = (Some l, fs) ->
  load_ok l = true -> state_canonicalize (ld_state l) = ld_state l ->
  state_validate (cs_limits s) (ld_state l) = "" ->
  exists now e', let '(_, s', ids') := import_install (ld_state l) (s <| cs_shutting_down := false |>) ids in
    start_router clock o (alone s ids e) = (Some (start_publish now s').1, alone (start_publish now s').2 ids' e').
Proof.
  intros Hr Hv Hl Hp Hload Hok Hc Hvalid.
  set (s1 := s <| cs_shutting_down := false |>).
  assert (Ha : start_admit s = (None, s1)) by (unfold start_admit; by rewrite Hr).
  assert (Hacc : accepted (import_install (ld_state l) s1 ids).1.1 = true).
  { unfold import_install. replace (cs_running s1) with false. by destruct (import_records _ _ _). }
  exists (clock (with_files fs e)).1, (clock (with_files fs e)).2.
  unfold start_router. rewrite Hv, (bool_decide_eq_true_2 ("" = "")) by done. cbn [negb]. rewrite bind_run.
  assert (Hread : start_read o (alone s ids e) = (Some (Some (inr (ld_state l))), alone s ids (with_files fs e))).
  { unfold start_read. rewrite Hl, (bool_decide_eq_false_2 _ Hp). cbn [negb andb]. run_alone. rewrite Hload.
    run_alone. cbn [fmap option_fmap option_map]. by rewrite Hok. }
  rewrite Hread. run_alone. rewrite Ha. rewrite bind_run, import_alone; rewrite Hc; [|exact Hvalid].
  destruct (import_install (ld_state l) s1 ids) as [[answer s'] ids']. cbn in Hacc. rewrite Hacc. cbn [negb].
  rewrite bind_run, publish_alone. by destruct (clock (with_files fs e)).
Qed.

Lemma start_publish_running now s : cs_running s = false -> (start_publish now s).2 =
  s <| cs_router_boot := next (cs_router_boot s) |> <| cs_router_epoch := next (cs_router_epoch s) |>
    <| cs_coordinator_epoch := next (cs_coordinator_epoch s) |>
    <| cs_running := true |> <| cs_shutting_down := false |> <| cs_started_at := now |> /\
  mr_code (start_publish now s).1 = OutcomeCode.ACCEPTED.
Proof. unfold start_publish. by intros ->. Qed.


(** C13: from save to start, through the state file.  A router that is
    well-formed, has its fences under their keys, its epoch short of the last
    generation and its records within the ranges and the limits the reader of the
    file sets, is saved to a disk on which the file of that path, if there is
    one, is on the device, as an image within the payload limit, and the save
    succeeds.  A new process, whose disk is the one the save
    left and has no more write faults, starts a router with the same limits from
    that file.  Neither process shares its router or the file with another
    thread.  Then the start is accepted; the router has the models, the fences
    and the registrations of the old one; none of its decisions is current, and
    authority the old process issued is dispatchable no more; and its allocator
    is no lower than the old one's. *)
Theorem save_start_recovers (s : CanonicalState) (ids : Allocator) (e : E) (path : string)
    (o : ModelRouterOptions) (issued : Allocator) (e2 : E)
    (Hwf : router_wf s) (Hfences : fences_keyed s) (Hepoch : 0 <= value (cs_router_epoch s) < generation_max)
    (Hids : ids <= id_ceiling) (Hdisk : settled path (files_of (clock e).2))
    (Hfits : image_conditions (cs_limits s) (export_state (clock e).1 ids s))
    (Hpayload : forall image records, encode (cs_limits s) (export_state (clock e).1 ids s) = inr (image, records) ->
       count image <= persistence_header_bytes + max_payload_bytes (cs_limits s))
    (Hsaved : pe_ok (save clock path (alone s ids e)).1 = true)
    (Hfile : files_of e2 = (files_of (w_env (save clock path (alone s ids e)).2)) <| fs_faults := [] |>)
    (Hoptions : options_validate o = "") (Hload : op_load_on_start o = true)
    (Hpath : op_persistence_path o = path) (Hlimits : op_limits o = cs_limits s) :
  exists answer s' ids' e',
    start_router clock o (alone (router_init o issued).1 (router_init o issued).2 e2) = (Some answer, alone s' ids' e') /\
    mr_code answer = OutcomeCode.ACCEPTED /\ cs_running s' = true /\ cs_models s' = cs_models s /\
    cs_backends s' = restarted_backend <$> cs_backends s /\
    (forall id boot, is_fenced s' id boot = is_fenced s id boot) /\
    (forall id r, cs_routes s' !! id = Some r -> de_status (rec_decision r) = RouteStatus.STALE) /\
    (forall a now, value (au_router_epoch a) <= value (cs_router_epoch s) -> is_authority_dispatchable s' a now = false) /\
    ids <= ids'.
Proof.
  rewrite save_alone in Hsaved, Hfile. destruct (clock e) as [now e1]. cbn [fst snd] in *.
  set (st := export_state now ids s) in *.
  destruct (store_save st path (cs_limits s) (files_of e1)) as [r fs] eqn:Esave. cbn [fst snd] in *.
  cbn [w_env alone] in Hfile. rewrite files_of_with in Hfile.
  destruct (saved_loads (cs_limits s) st path (files_of e1) fs r Hdisk Hfits Esave Hsaved Hpayload)
    as (load & Hloads & Hok & Hstate).
  assert (Hp : path <> "").
  { intros ->. unfold store_save in Esave. rewrite bool_decide_eq_true_2 in Esave by done.
    injection Esave as <- _. discriminate Hsaved. }
  assert (Hencoded : state_validate (cs_limits s) (state_canonicalize st) = "").
  { eapply store_save_valid; [exact Esave|exact Hsaved]. }
  destruct (router_init o issued) as [fresh fresh_ids] eqn:Einit.
  assert (Hfresh : cs_limits fresh = cs_limits s /\ cs_running fresh = false).
  { unfold router_init in Einit. destruct (valid (op_router_id o)); [|destruct (allocate_id _ _)];
      injection Einit as <- <-; by split. }
  destruct Hfresh as [Hfl Hfr].
  destruct (start_alone fresh fresh_ids e2 o load (fs <| fs_faults := [] |>)) as (started & e' & Hstart); try done.
  - by rewrite Hpath.
  - by rewrite Hpath, Hfl, Hfile.
  - by rewrite Hstate, restored_canonical.
  - rewrite Hstate, Hfl. by apply restored_valid.
  - set (stopped := fresh <| cs_shutting_down := false |>) in *.
    pose proof (import_install_spec (ld_state load) stopped fresh_ids Hfr) as Hi.
    destruct (import_install (ld_state load) stopped fresh_ids) as [[answer s'] ids']. destruct Hi as [_ Hi].
    rewrite Hstate in Hi. destruct (restored_records st) as (Rm & Rb & Rf). exists (start_publish started s').1, (start_publish started s').2, ids', e'.
    assert (Hr : cs_running s' = false) by (rewrite (proj1 (im_flags _ _ _ _ _ Hi)); exact Hfr).
    destruct (start_publish_running started s' Hr) as [E2 Ha]. split; [exact Hstart|]. rewrite E2.
    split; [exact Ha|]. clear Hstart. split_and!; [reflexivity|..].
    + change (cs_models s' = cs_models s). rewrite (im_models _ _ _ _ _ Hi), Rm. exact (restart_models now ids s (wf_models _ Hwf)).
    + change (cs_backends s' = restarted_backend <$> cs_backends s). rewrite (im_backends _ _ _ _ _ Hi), Rb. exact (restart_backends now ids s (wf_keyed _ Hwf)).
    + intros id boot. apply is_fenced_same. change (cs_fenced_boots s' = cs_fenced_boots s).
      rewrite (im_fenced _ _ _ _ _ Hi), Rf. exact (restart_fences now ids s Hfences).
    + intros id r' Hr'. by destruct (im_routes _ _ _ _ _ Hi id r' Hr') as (p & plan & _ & _ & -> & _).
    + intros a t Hle. apply other_epoch_void. change (au_router_epoch a <> next (cs_router_epoch s')). rewrite (proj1 (im_epochs _ _ _ _ _ Hi)).
      replace (st_last_router_epoch (restored st)) with (cs_router_epoch s) by reflexivity.
      pose proof (next_not_below (cs_router_epoch s) (au_router_epoch a) (proj2 Hepoch) Hle) as Hlt.
      assert (Hm : value (next (cs_router_epoch s)) <= generation_max) by (apply next_bounded; lia).
      pose proof (next_monotone _ Hm). intros Eq. rewrite Eq in Hlt. cbn in *. lia.
    + apply (im_observed _ _ _ _ _ Hi). exact Hids.
Qed.
End Processes.

(** ** A restart *)

(** Durable records with one decision, and a router that imports them. *)
Definition counted_state : RouterPersistentState :=
  durable_state <| st_last_router_epoch := GenerationOf 6 |>
    <| st_counters := persistence_counters_default <| pc_highest_identity_issued := 90 |> |>.
Definition fresh_router : CanonicalState := (router_init model_router_options_default 0).1.

Lemma import_keeps_wf_witness :
  let '(_, s', ids') := import_install counted_state fresh_router 1 in
  router_wf s' /\ history_inv s' ids' /\ 90 <= ids'.
Proof.
  apply (import_keeps_wf counted_state fresh_router 1).
  - reflexivity.
  - reflexivity.
  - vm_compute. discriminate.
  - apply (bool_decide_unpack _). vm_compute. exact I.
  - apply (bool_decide_unpack _). vm_compute. exact I.
  - vm_compute. discriminate.
Defined.


Lemma recovery_reissues_identities_witness :
  let '(_, s', _) := import_install counted_state fresh_router 0 in
  base.size (cs_routes s') = 1%nat /\
  forall id r, cs_routes s' !! id = Some r -> 0 < value (pl_plan_id (rec_plan r)) <= 90.
Proof.
  pose proof (recovery_reissues_identities counted_state fresh_router 0 eq_refl eq_refl) as H.
  assert (E : base.size (cs_routes (import_install counted_state fresh_router 0).1.2) = 1%nat) by (vm_compute; reflexivity).
  assert (B : count (st_routes counted_state) <= pc_highest_identity_issued (st_counters counted_state) <= id_ceiling)
    by (split; vm_compute; discriminate).
  specialize (H B). destruct (import_install counted_state fresh_router 0) as [[answer s'] ids'].
  split; [exact E|]. exact H.
Defined.

(** A router that has run: a backend is registered and unregistered, and so is
    fenced, and another one is registered. *)
Definition other_backend : BackendDescriptor :=
  sample_backend <| bd_backend_id := EntityIdOf 8 |>
    <| bd_endpoint := (bd_endpoint sample_backend) <| ep_backend_id := EntityIdOf 8 |> |>.
Definition old_calls : list (MutationCall * UnixMillis) :=
  [(RegisterBackend sample_backend, 20); (UnregisterBackend (EntityIdOf 4) (GenerationOf 2), 30);
   (RegisterBackend other_backend, 40)].
Definition started_router : CanonicalState := (start_publish 10 (router_init model_router_options_default 0).1).2.
Definition old_router : CanonicalState := run_calls old_calls started_router.

Lemma started_wf : router_wf started_router /\ fences_keyed started_router.
Proof.
  split; [|intros k r; change (cs_fenced_boots started_router) with (∅ : gmap FenceKey FencedBootRecord); by rewrite lookup_empty].
  by apply (wf_frame canonical_state_default); [..|apply wf_empty].
Qed.

Lemma old_wf : router_wf old_router.
Proof.
  apply run_calls_wf, started_wf.
Qed.

Lemma old_fences : fences_keyed old_router.
Proof. apply fences_keyed_calls, started_wf. Qed.

Lemma old_routes : routes_keyed old_router.
Proof. intros id r Hr. exfalso. revert Hr. replace (cs_routes old_router) with (∅ : gmap (EntityId RouteDecisionTag) RouteRecord) by (vm_compute; reflexivity). by rewrite lookup_empty. Qed.

Lemma restart_restores_witness :
  let '(answer, s', ids') := restart 50 100 old_router fresh_router 1 in
  mr_code answer = OutcomeCode.ACCEPTED /\ router_wf s' /\ cs_fenced_boots s' = cs_fenced_boots old_router /\
  map_size (cs_fenced_boots s') = 1 /\ map_size (cs_backends s') = 1.
Proof.
  assert (Hh : history_ok old_router 100).
  { split; try (vm_compute; discriminate).
    - intros id. replace (cs_routes old_router) with (∅ : gmap (EntityId RouteDecisionTag) RouteRecord) by (vm_compute; reflexivity).
      replace (cs_route_order old_router) with (@nil (EntityId RouteDecisionTag)) by (vm_compute; reflexivity).
      rewrite lookup_empty. split; [intros Hin; by apply elem_of_nil in Hin|by intros [? ?]].
    - apply (bool_decide_unpack _). vm_compute. exact I.
    - intros id. replace (cs_route_order old_router) with (@nil (EntityId RouteDecisionTag)) by (vm_compute; reflexivity).
      intros Hin. by apply elem_of_nil in Hin. }
  assert (E : map_size (cs_fenced_boots (restart 50 100 old_router fresh_router 1).1.2) = 1 /\
              map_size (cs_backends (restart 50 100 old_router fresh_router 1).1.2) = 1) by (vm_compute; split; reflexivity).
  assert (Hl : 0 < max_route_history (cs_limits old_router)) by (vm_compute; reflexivity).
  assert (Hc : 100 <= id_ceiling) by (vm_compute; discriminate).
  pose proof (restart_restores 50 100 old_router fresh_router 1 eq_refl old_wf old_fences old_routes Hh Hl Hc) as H.
  destruct (restart 50 100 old_router fresh_router 1) as [[answer s'] ids'].
  exact (conj (proj1 H) (conj (proj1 (proj2 H)) (conj (proj1 (proj2 (proj2 (proj2 (proj2 (proj2 H)))))) E))).
Defined.

Lemma restart_keeps_fences_witness :
  let '(_, s', _) := restart 50 100 old_router fresh_router 1 in
  is_fenced s' (EntityIdOf 4) (GenerationOf 9) = is_fenced old_router (EntityIdOf 4) (GenerationOf 9) /\
  retired_boot (run_calls [(RegisterBackend sample_backend, 70)] s') (EntityIdOf 4) (GenerationOf 9).
Proof.
  pose proof (restart_keeps_fences 50 100 old_router fresh_router 1 eq_refl old_wf old_fences
    (EntityIdOf 4) (GenerationOf 9)) as H.
  destruct (restart 50 100 old_router fresh_router 1) as [[answer s'] ids']. destruct H as [H1 H2].
  split; [exact H1|]. apply H2. split; [vm_compute; reflexivity|]. intros d Hd. exfalso. revert Hd.
  replace (cs_backends old_router !! EntityIdOf 4) with (@None BackendDescriptor) by (vm_compute; reflexivity).
  discriminate.
Defined.

(** An older generation of the backend, in another incarnation: refused before
    the restart, registered after it. *)
Definition older_backend : BackendDescriptor :=
  sample_backend <| bd_backend_generation := GenerationOf 1 |> <| bd_backend_boot := GenerationOf 7 |>
    <| bd_endpoint := (bd_endpoint sample_backend) <| ep_backend_boot := GenerationOf 7 |> |>.

Lemma restart_forgets_watermarks_witness :
  let restarted := restart 50 100 old_router fresh_router 1 in
  cs_backend_watermark restarted.1.2 !! EntityIdOf 4 = None /\
  mr_code (register_backend older_backend 60 old_router).1 = OutcomeCode.REJECT_STALE_BACKEND /\
  mr_code (register_backend older_backend 60 restarted.1.2).1 = OutcomeCode.ACCEPTED.
Proof.
  assert (H1 : cs_backends old_router !! EntityIdOf 4 = None) by (vm_compute; reflexivity).
  assert (H2 : cs_backend_watermark old_router !! EntityIdOf 4 = Some (GenerationOf 2)) by (vm_compute; reflexivity).
  pose proof (restart_forgets_watermarks 50 100 old_router fresh_router 1 eq_refl old_wf _ _ H1 H2) as H.
  split; [|split; vm_compute; reflexivity].
  destruct (restart 50 100 old_router fresh_router 1) as [[answer s'] ids']. exact H.
Defined.

(** Saved by one process, started by the next. *)
Definition recovering : ModelRouterOptions :=
  model_router_options_default <| op_load_on_start := true |> <| op_persistence_path := "state" |>.
Definition wall_clock : Call FileSystem UnixMillis := fun fs => (50, fs).
Definition saved_disk : FileSystem := w_env (save wall_clock "state" (alone old_router 100 empty_disk)).2.

Lemma empty_settled path : settled path empty_disk.
Proof.
  split.
  - intros names file Hn. apply elem_of_cons in Hn as [->|Hn]; [|by apply elem_of_nil in Hn].
    cbn [fs_names empty_disk]. by rewrite lookup_empty.
  - intros file. cbn [fs_names empty_disk]. by rewrite lookup_empty.
Qed.

Lemma save_start_recovers_witness :
  exists answer s' ids' e',
    start_router wall_clock recovering (alone (router_init recovering 0).1 (router_init recovering 0).2 saved_disk) =
      (Some answer, alone s' ids' e') /\
    mr_code answer = OutcomeCode.ACCEPTED /\ cs_running s' = true /\
    is_fenced s' (EntityIdOf 4) (GenerationOf 9) = true /\ 100 <= ids'.
Proof.
  destruct (save_start_recovers wall_clock old_router 100 empty_disk "state" recovering 0 saved_disk)
    as (answer & s' & ids' & e' & H1 & H2 & H3 & _ & _ & H4 & _ & _ & H5).
  - exact old_wf.
  - exact old_fences.
  - vm_compute. split; [discriminate|reflexivity].
  - vm_compute. discriminate.
  - exact (empty_settled "state").
  - split; unfold meta_fits, model_fits, persisted_backend_fits, persisted_route_fits, fenced_fits; try fits_concretely.
    all: unfold capability_fits, profile_fits, profile_wf, binding_fits, candidate_key_fits, authority_fits, cost_fits;
      fits_concretely.
  - intros image records E. unfold persistence_header_bytes.
    assert (B : match encode (cs_limits old_router) (export_state (wall_clock empty_disk).1 100 old_router) with
      | inr (image, _) => bool_decide (count image <= 72 + max_payload_bytes (cs_limits old_router)) | inl _ => false end = true)
      by (vm_compute; reflexivity).
    rewrite E in B. apply bool_decide_eq_true in B. exact B.
  - vm_compute. reflexivity.
  - vm_compute. reflexivity.
  - vm_compute. reflexivity.
  - reflexivity.
  - reflexivity.
  - reflexivity.
  - exists answer, s', ids', e'. split; [exact H1|]. split; [exact H2|]. split; [exact H3|]. split; [|exact H5].
    rewrite H4. vm_compute. reflexivity.
Defined.
