(* ===== verification/RouterRun.v ===== *)
(** * What a running router keeps

    The invariants of the router as one interface: an invariant that each write
    of the router keeps is kept by every operation, whatever the other threads
    do in between.  Instances: the retained history, the catalog, the fences and
    the session; conjunctions of instances. *)
From S2P Require Import Prelude.
From S2P Require Import Ids.
From S2P Require Import Outcome.
From S2P Require Import Limits.
From S2P Require Import Clock.
From S2P Require Import Catalog.
From S2P Require Import Request.
From S2P Require Import Candidate.
From S2P Require Import Authority.
From S2P Require Import Decision.
From S2P Require Import RouterState.
From S2P Require Import RouterMutation.
From S2P Require Import Providers.
From S2P Require Import RouterRoute.
From S2P Require Import RouterLiveness.
From S2P Require Import RouterDispatch.
From S2P Require Import Persistence.
From S2P Require Import FileStore.
From S2P Require Import RouterPersist.

(** ** The catalog, which routing does not write *)

Definition catalog_of (s : CanonicalState) :=
  (cs_models s, cs_providers s, cs_backends s, cs_fenced_boots s, cs_model_watermark s, cs_backend_watermark s,
   (cs_index_by_model s, cs_index_by_provider s, cs_index_by_trust s), session s).
Definition same_catalog (s s' : CanonicalState) : Prop := catalog_of s' = catalog_of s.

#[export] Instance same_catalog_preorder : PreOrder same_catalog.
Proof. split; [done|]. unfold same_catalog. intros s1 s2 s3. congruence. Qed.

Lemma note_tenant_catalog tenant s : same_catalog s (note_tenant tenant s).
Proof. unfold note_tenant. by destruct (valid _). Qed.

Lemma count_rejection_catalog tenant n s : same_catalog s (count_rejection tenant n s).
Proof. unfold count_rejection, note_tenant. by destruct (valid _). Qed.

Lemma change_retained_catalog id f s : same_catalog s (change_retained id f s).
Proof. unfold change_retained. by destruct (cs_routes s !! id). Qed.

Lemma evict_history_catalog s : same_catalog s (evict_history s).
Proof. unfold evict_history. by destruct (evict _ _ _). Qed.

Lemma evicted_catalog s : same_catalog s (evicted s).
Proof. unfold evicted. destruct (_ <=? _); [apply evict_history_catalog|done]. Qed.

Lemma commit_record_catalog p winner permitted a d s ids :
  same_catalog s (commit_record p winner permitted a d s ids).1.2.
Proof.
  unfold commit_record. destruct (allocate_id RouteDecisionTag ids) as [id ids1].
  destruct (finalize_decision s id d). destruct (allocate_id RoutePlanTag ids1).
  unfold retain_record. cbv zeta. by destruct (cs_routes (update_field _ _ _) !! id).
Qed.

Lemma set_winner_catalog p winner e r s : same_catalog s (set_winner p winner e r s).
Proof. unfold set_winner. etrans; [|apply note_tenant_catalog]. done. Qed.

Lemma commit_route_catalog pass p explanation permitted d s ids :
  same_catalog s (commit_route pass p explanation permitted d s ids).1.2.
Proof.
  unfold commit_route. destruct (cs_shutting_down s); [done|]. destruct (_ || _); [done|].
  pose proof (commit_record_catalog p (rx_winner explanation) permitted (de_authority d) d (evicted s) ids) as H.
  destruct (commit_record _ _ _ _ _ _ ids) as [[[d' current] s'] ids']. cbn [fst snd] in *.
  etrans; [apply evicted_catalog|]. etrans; [exact H|]. etrans; [|apply set_winner_catalog]. done.
Qed.

Lemma commit_fallback_catalog pass p winner permitted d s ids :
  same_catalog s (commit_fallback pass p winner permitted d s ids).1.2.
Proof.
  unfold commit_fallback. destruct (cs_shutting_down s); [done|]. destruct (_ || _); [done|].
  pose proof (commit_record_catalog p winner permitted (de_authority d) d (evict_history s) ids) as H.
  destruct (commit_record _ _ _ _ _ _ ids) as [[[d' current] s'] ids']. cbn [fst snd] in *.
  etrans; [apply evict_history_catalog|]. etrans; [exact H|]. etrans; [|apply set_winner_catalog]. done.
Qed.

Lemma record_dispatch_catalog id pass record s ids : same_catalog s (record_dispatch id pass record s ids).1.2.
Proof.
  unfold record_dispatch. destruct (cs_routes s !! id); [|done]. destruct (_ || _); [done|].
  destruct (allocate_id DispatchTag ids) as [dispatch_id ids']. cbn [fst snd].
  etrans; [apply (change_retained_catalog id (mark_dispatched dispatch_id))|done].
Qed.

Lemma record_completion_catalog c s : same_catalog s (record_completion c s).2.
Proof.
  unfold record_completion. destruct (completed_decision c s) as [id|]; [|done].
  destruct (cs_routes s !! id); [|done]. destruct (_ != _); [done|]. cbn [snd].
  etrans; [apply (change_retained_catalog id (mark_completed (completes c)))|].
  by destruct (cs_dispatches _ !! id).
Qed.

(** ** Invariants of the catalog *)

Class CatalogPredicate (P : CanonicalState -> Prop) : Prop :=
  catalog_frame : forall s s', same_catalog s s' -> P s -> P s'.

Section CatalogPredicate.
Context (P : CanonicalState -> Prop) `{!CatalogPredicate P}.

#[export] Instance catalog_routing : RoutingInvariant (fun s _ => P s).
Proof.
  split; [done| |].
  - intros pass p e n d s ids. pose proof (commit_route_catalog pass p e n d s ids) as H.
    destruct (commit_route pass p e n d s ids) as [[? ?] ?]. by apply catalog_frame.
  - intros tenant n s _. apply catalog_frame, count_rejection_catalog.
Qed.

#[export] Instance catalog_dispatch : DispatchInvariant (fun s _ => P s).
Proof.
  split; [apply _| | | | |].
  - intros id f s _. apply catalog_frame, change_retained_catalog.
  - intros c s _. by apply catalog_frame.
  - intros id pass record s ids. pose proof (record_dispatch_catalog id pass record s ids) as H.
    destruct (record_dispatch id pass record s ids) as [[? ?] ?]. by apply catalog_frame.
  - intros pass p winner n d s ids. pose proof (commit_fallback_catalog pass p winner n d s ids) as H.
    destruct (commit_fallback pass p winner n d s ids) as [[? ?] ?]. by apply catalog_frame.
  - intros c s _. apply catalog_frame, record_completion_catalog.
Qed.
End CatalogPredicate.

(** ** Conjunctions *)

Section Both.
Context (I J : CanonicalState -> Allocator -> Prop).
Let both : CanonicalState -> Allocator -> Prop := fun s ids => I s ids /\ J s ids.

#[export] Instance both_routing : RoutingInvariant I -> RoutingInvariant J -> RoutingInvariant both.
Proof.
  intros HI HJ. split.
  - intros s ids ids' Hle [H1 H2]. split; by apply (rising_keeps s ids).
  - intros pass p e n d s ids [H1 H2].
    pose proof (commit_route_keeps pass p e n d s ids H1) as K1. pose proof (commit_route_keeps pass p e n d s ids H2).
    destruct (commit_route pass p e n d s ids) as [[? ?] ?]. by split.
  - intros tenant n s ids [H1 H2]. split; by apply count_rejection_keeps.
Qed.

#[export] Instance both_dispatch : DispatchInvariant I -> DispatchInvariant J -> DispatchInvariant both.
Proof.
  intros HI HJ. split; [apply _| | | | |].
  - intros id f s ids [H1 H2]. split; by apply change_retained_keeps.
  - intros c s ids [H1 H2]. split; by apply count_keeps.
  - intros id pass record s ids [H1 H2]. pose proof (record_dispatch_keeps id pass record s ids H1) as K1.
    pose proof (record_dispatch_keeps id pass record s ids H2).
    destruct (record_dispatch id pass record s ids) as [[? ?] ?]. by split.
  - intros pass p winner n d s ids [H1 H2]. pose proof (commit_fallback_keeps pass p winner n d s ids H1) as K1.
    pose proof (commit_fallback_keeps pass p winner n d s ids H2).
    destruct (commit_fallback pass p winner n d s ids) as [[? ?] ?]. by split.
  - intros c s ids [H1 H2]. split; by apply record_completion_keeps.
Qed.
End Both.

(** ** Invariants of every operation *)

Class RouterInvariant (I : CanonicalState -> Allocator -> Prop) : Prop := {
  router_dispatch :: DispatchInvariant I;
  perform_keeps request now s ids : I s ids -> I (snd (perform request now s)) ids
}.

#[export] Instance both_router I J : RouterInvariant I -> RouterInvariant J -> RouterInvariant (fun s ids => I s ids /\ J s ids).
Proof. intros HI HJ. split; [apply _|]. intros request now s ids [H1 H2]. split; by apply perform_keeps. Qed.

#[export] Instance history_router : RouterInvariant history_inv.
Proof. split; [apply _|]. intros request now s ids. apply (run_calls_history [(request, now)]). Qed.

#[export] Instance wf_catalog : CatalogPredicate router_wf.
Proof. intros s s' [= E1 E2 E3 E4 E5 E6 E7 E8 E9]. by apply wf_frame. Qed.
#[export] Instance wf_router : RouterInvariant (fun s _ => router_wf s).
Proof. split; [apply _|]. intros request now s _. apply perform_wf. Qed.

#[export] Instance retired_catalog id boot : CatalogPredicate (fun s => retired_boot s id boot).
Proof. intros s s' [= E1 E2 E3 E4 E5 E6 E7 E8 E9]. unfold retired_boot. by rewrite (is_fenced_same s s'), E3. Qed.
#[export] Instance retired_router id boot : RouterInvariant (fun s _ => retired_boot s id boot).
Proof. split; [apply _|]. intros request now s _. apply retired_boot_steps, perform_catalog. Qed.

#[export] Instance running_catalog : CatalogPredicate cs_running.
Proof. intros s s' [=]. congruence. Qed.
#[export] Instance running_router : RouterInvariant (fun s _ => cs_running s).
Proof.
  split; [apply _|]. intros request now s _. pose proof (perform_session request now s) as [= E1 E2 E3 E4 E5]. by rewrite E2.
Qed.

(** ** The durable state of a running router *)

Section Files.
Context {E : Type} `{HasFiles E} (clock : Call E UnixMillis) (I : CanonicalState -> Allocator -> Prop).

Lemma on_files_keeps {A} (f : FileSystem -> A * FileSystem) : keeps (E := E) I (fun _ => True) (on_files f).
Proof. by apply keeps_ask. Qed.

Lemma save_keeps path : keeps I (fun _ => True) (save clock path).
Proof.
  unfold save, export_persistent_state. keep; [|apply on_files_keeps].
  by apply keeps_locked_ids.
Qed.

(** A running router refuses to import. *)
Lemma import_install_running c s ids :
  cs_running s = true -> import_install c s ids = ((import_install c s ids).1.1, s, ids).
Proof. intros Hr. unfold import_install. by rewrite Hr. Qed.

Lemma load_keeps path :
  (forall s ids, I s ids -> cs_running s = true) -> keeps I (fun _ => True) (load (E := E) path).
Proof.
  intros Hr. unfold load, import_persistent_state. keep; [apply on_files_keeps|].
  apply keeps_locked_ids. intros s ids HI. rewrite import_install_running by eauto. by split.
Qed.
End Files.
