(* ===== verification/ReferenceProfiles.v ===== *)
(** * The synthetic reference catalog ([reference_profiles.hpp],
    [reference_backends.cpp])

    The fixed identities, the three model descriptors, the backend descriptor
    of one worker incarnation and the price evidence that the reference
    processes register; every one of them is valid, and a router that has just
    started accepts them. *)
From S2P Require Import Prelude.
From S2P Require Import Ids.
From S2P Require Import Outcome.
From S2P Require Import Limits.
From S2P Require Import Clock.
From S2P Require Import Codec.
From S2P Require Import Capability.
From S2P Require Import Evidence.
From S2P Require Import Catalog.
From S2P Require Import Eligibility.
From S2P Require Import Frame.
From S2P Require Import RouterState.
From S2P Require Import RouterMutation.

(** ** The reference identities *)

Record ReferenceCatalog := {
  rf_provider : EntityId ProviderTag;
  rf_provider_generation : Generation ProviderTag;
  rf_small_model : EntityId ModelTag;
  rf_small_generation : Generation ModelTag;
  rf_small_artifact : Generation ArtifactTag;
  rf_general_model : EntityId ModelTag;
  rf_general_generation : Generation ModelTag;
  rf_general_artifact : Generation ArtifactTag;
  rf_specialist_model : EntityId ModelTag;
  rf_specialist_generation : Generation ModelTag;
  rf_specialist_artifact : Generation ArtifactTag;
  rf_locality : LocalityKey
}.

Definition make_catalog : ReferenceCatalog := {|
  rf_provider := EntityIdOf 1;
  rf_provider_generation := GenerationOf 1;
  rf_small_model := EntityIdOf 1;
  rf_small_generation := GenerationOf 1;
  rf_small_artifact := GenerationOf 1;
  rf_general_model := EntityIdOf 2;
  rf_general_generation := GenerationOf 1;
  rf_general_artifact := GenerationOf 1;
  rf_specialist_model := EntityIdOf 3;
  rf_specialist_generation := GenerationOf 1;
  rf_specialist_artifact := GenerationOf 1;
  rf_locality := LocalityKeyOf "local/loopback"
|}.

(** ** Models *)

Definition key_text_generation : CapabilityKey := CapabilityKeyOf "text/generation".
Definition key_vision_input : CapabilityKey := CapabilityKeyOf "modality/vision-input".
Definition key_reasoning : CapabilityKey := CapabilityKeyOf "task/reasoning".
Definition key_code : CapabilityKey := CapabilityKeyOf "task/code".
Definition key_long_context : CapabilityKey := CapabilityKeyOf "context/long".
Definition key_multimodal : CapabilityKey := CapabilityKeyOf "modality/multimodal".
Definition key_local_execution : CapabilityKey := CapabilityKeyOf "execution/local".
Definition key_cuda_execution : CapabilityKey := CapabilityKeyOf "execution/cuda".

Definition claim (key : CapabilityKey) (state : CapabilityState.t) (id : EntityId CapabilityProfileTag)
    (generation : Generation CapabilityTag) (now : UnixMillis) (source : string) : CapabilityEvidence := {|
  ce_key := key;
  ce_state := state;
  ce_generation := generation;
  ce_profile_id := id;
  ce_model_generation := none;
  ce_backend_generation := none;
  ce_backend_boot := none;
  ce_observed_at := now;
  ce_expires_at := kNoExpiry;
  ce_source := source;
  ce_detail := ""
|}.

(** Whether the bound was met is not looked at. *)
Definition add_claim (key : CapabilityKey) (state : CapabilityState.t) (id : EntityId CapabilityProfileTag)
    (generation : Generation CapabilityTag) (now : UnixMillis) (source : string) (p : CapabilityProfile)
    : CapabilityProfile :=
  (profile_set (claim key state id generation now source) 256 p).2.

(** The claims of one model, in the order in which they are added. *)
Definition with_claims (now : UnixMillis) (claims : list (CapabilityKey * CapabilityState.t)) (m : ModelDescriptor)
    : ModelDescriptor :=
  m <| md_capabilities := fold_left (fun p '(key, state) =>
         add_claim key state (md_capability_profile_id m) (md_capability_generation m) now "reference-profile" p)
         claims (md_capabilities m) |>.

Definition small_descriptor (c : ReferenceCatalog) (now : UnixMillis) : ModelDescriptor :=
  with_claims now [
    (key_text_generation, CapabilityState.VERIFIED);
    (key_streaming, CapabilityState.DECLARED);
    (key_structured_output, CapabilityState.DECLARED);
    (key_local_execution, CapabilityState.VERIFIED)]
  (model_descriptor_default
    <| md_model_id := rf_small_model c |> <| md_model_generation := rf_small_generation c |>
    <| md_model_version_id := EntityIdOf 1 |> <| md_artifact_generation := rf_small_artifact c |>
    <| md_family_id := EntityIdOf 1 |>
    <| md_context_limit_tokens := 32768 |> <| md_max_output_tokens := 4096 |>
    <| md_input_modalities := ModalitySetOf Modality_TEXT |>
    <| md_output_modalities := ModalitySetOf Modality_TEXT |>
    <| md_quality_class := 20 |> <| md_lifecycle := ModelLifecycle.CURRENT |>
    <| md_capability_profile_id := EntityIdOf 1 |> <| md_capability_generation := GenerationOf 1 |>
    <| md_provenance := Provenance.SYNTHETIC |> <| md_registered_at := now |>
    <| md_display_name := "reference-small" |>).

Definition general_descriptor (c : ReferenceCatalog) (now : UnixMillis) : ModelDescriptor :=
  with_claims now [
    (key_text_generation, CapabilityState.VERIFIED);
    (key_streaming, CapabilityState.VERIFIED);
    (key_structured_output, CapabilityState.VERIFIED);
    (key_json_schema, CapabilityState.VERIFIED);
    (key_tool_calling, CapabilityState.VERIFIED);
    (key_reasoning, CapabilityState.DECLARED);
    (key_long_context, CapabilityState.DECLARED);
    (key_local_execution, CapabilityState.VERIFIED)]
  (model_descriptor_default
    <| md_model_id := rf_general_model c |> <| md_model_generation := rf_general_generation c |>
    <| md_model_version_id := EntityIdOf 2 |> <| md_artifact_generation := rf_general_artifact c |>
    <| md_family_id := EntityIdOf 2 |>
    <| md_context_limit_tokens := 131072 |> <| md_max_output_tokens := 16384 |>
    <| md_input_modalities := ModalitySetOf Modality_TEXT |>
    <| md_output_modalities := ModalitySetOf Modality_TEXT |>
    <| md_quality_class := 60 |> <| md_lifecycle := ModelLifecycle.CURRENT |>
    <| md_capability_profile_id := EntityIdOf 2 |> <| md_capability_generation := GenerationOf 1 |>
    <| md_provenance := Provenance.SYNTHETIC |> <| md_registered_at := now |>
    <| md_display_name := "reference-general" |>).

Definition specialist_descriptor (c : ReferenceCatalog) (now : UnixMillis) : ModelDescriptor :=
  with_claims now [
    (key_text_generation, CapabilityState.VERIFIED);
    (key_code, CapabilityState.VERIFIED);
    (key_vision_input, CapabilityState.VERIFIED);
    (key_multimodal, CapabilityState.DECLARED);
    (key_streaming, CapabilityState.DECLARED);
    (key_structured_output, CapabilityState.OBSERVED);
    (key_tool_calling, CapabilityState.DECLARED);
    (key_local_execution, CapabilityState.VERIFIED)]
  (model_descriptor_default
    <| md_model_id := rf_specialist_model c |> <| md_model_generation := rf_specialist_generation c |>
    <| md_model_version_id := EntityIdOf 3 |> <| md_artifact_generation := rf_specialist_artifact c |>
    <| md_family_id := EntityIdOf 3 |>
    <| md_context_limit_tokens := 65536 |> <| md_max_output_tokens := 8192 |>
    <| md_input_modalities := ModalitySetOf (Z.lor Modality_TEXT Modality_IMAGE) |>
    <| md_output_modalities := ModalitySetOf Modality_TEXT |>
    <| md_quality_class := 80 |> <| md_lifecycle := ModelLifecycle.CURRENT |>
    <| md_capability_profile_id := EntityIdOf 3 |> <| md_capability_generation := GenerationOf 1 |>
    <| md_provenance := Provenance.SYNTHETIC |> <| md_registered_at := now |>
    <| md_display_name := "reference-specialist" |>).

Definition model_before (x y : ModelDescriptor) : bool := id_ltb (md_model_id x) (md_model_id y).

Definition make_models (c : ReferenceCatalog) (now : UnixMillis) : list ModelDescriptor :=
  stable_sort model_before [small_descriptor c now; general_descriptor c now; specialist_descriptor c now].

(** ** One backend incarnation *)

Definition add_binding (id : EntityId ModelTag) (generation : Generation ModelTag)
    (artifact : Generation ArtifactTag) (context_limit quality : Z) (now : UnixMillis) : ModelBinding :=
  model_binding_default <| mb_model_id := id |> <| mb_model_generation := generation |>
    <| mb_artifact_generation := artifact |> <| mb_context_limit_tokens := context_limit |>
    <| mb_quality_class := quality |> <| mb_bound_at := now |>.

Definition make_backend (c : ReferenceCatalog) (id : EntityId BackendTag) (generation : Generation BackendTag)
    (boot : Generation BackendBootTag) (registration : Generation BackendRegistrationTag)
    (endpoint_reference : string) (provenance : Provenance.t) (now : UnixMillis) : BackendDescriptor :=
  let derived k := word64 (word64 (value id * 100) + k) in
  backend_canonicalize (backend_descriptor_default
    <| bd_backend_id := id |> <| bd_backend_generation := generation |> <| bd_backend_boot := boot |>
    <| bd_registration_generation := registration |>
    <| bd_provider_id := rf_provider c |> <| bd_provider_generation := rf_provider_generation c |>
    <| bd_endpoint := {| ep_endpoint_id := EntityIdOf (derived 1); ep_endpoint_generation := GenerationOf 1;
         ep_backend_id := id; ep_backend_boot := boot; ep_reference := endpoint_reference;
         ep_protocol := "model_router.reference"; ep_protocol_version := protocol_version |} |>
    <| bd_trust_profile_id := EntityIdOf 1 |> <| bd_trust_generation := GenerationOf 1 |>
    <| bd_trust_domain := TrustDomain.LOCAL |> <| bd_locality := rf_locality c |>
    <| bd_network_distance := 1 |>
    <| bd_capability_profile_id := EntityIdOf (derived 2) |>
    <| bd_compatibility_profile_id := EntityIdOf (derived 3) |>
    <| bd_offline_capable := true |> <| bd_provenance := provenance |> <| bd_registered_at := now |>
    <| bd_model_bindings := [
         add_binding (rf_small_model c) (rf_small_generation c) (rf_small_artifact c) 32768 20 now;
         add_binding (rf_general_model c) (rf_general_generation c) (rf_general_artifact c) 131072 60 now;
         add_binding (rf_specialist_model c) (rf_specialist_generation c) (rf_specialist_artifact c) 65536 80 now] |>).

(** ** Prices *)

Definition reference_cost_unit : CostUnit := {| cu_currency := "USD"; cu_basis := "per-million-tokens" |}.

Definition make_cost_evidence (backend_id : EntityId BackendTag) (model_id : EntityId ModelTag)
    (price_generation : Generation PriceTag) (input_micros output_micros estimated_total : Z) (now : UnixMillis)
    : CostEvidence :=
  cost_evidence_default
    <| co_evidence_id := EntityIdOf (word64 (word64 (value backend_id * 1000) + value model_id)) |>
    <| co_price_generation := price_generation |>
    <| co_backend_id := backend_id |> <| co_model_id := model_id |> <| co_unit := reference_cost_unit |>
    <| co_input_micros_per_unit := input_micros |> <| co_output_micros_per_unit := output_micros |>
    <| co_request_minimum_micros := 0 |> <| co_estimated_total_micros := estimated_total |>
    <| co_knownness := CostKnownness.QUOTED |>
    <| co_effective_at := now |> <| co_expires_at := kNoExpiry |> <| co_source := "reference-price-table" |>.

(** ** Facts *)

Lemma make_models_eq now :
  make_models make_catalog now =
  [small_descriptor make_catalog now; general_descriptor make_catalog now; specialist_descriptor make_catalog now].
Proof. vm_compute. reflexivity. Qed.

Lemma reference_models_valid now : Forall (fun m => model_validate m = "") (make_models make_catalog now).
Proof. rewrite make_models_eq. apply Forall_fold_right. vm_compute. auto. Qed.

(** No claim of a reference model is lost to the bound on the profile. *)
Lemma reference_claims_kept now :
  (fun m => length (profile_entries (md_capabilities m))) <$> make_models make_catalog now = [4%nat; 8%nat; 8%nat].
Proof. vm_compute. reflexivity. Qed.

(** The identities derived from a backend identity do not wrap below this bound. *)
Definition reference_backend_ids : Z := 18446744073709550.

Lemma derived_valid id k :
  0 < id <= reference_backend_ids -> 0 < k <= 3 -> word64 (word64 (id * 100) + k) = id * 100 + k.
Proof.
  unfold reference_backend_ids. intros Hid Hk.
  rewrite !word64_mod. change (2 ^ 64) with 18446744073709551616.
  rewrite (Z.mod_small (id * 100)) by lia. apply Z.mod_small. lia.
Qed.

(** A reference backend is coherent for whatever incarnation it is made. *)
Lemma make_backend_valid id generation boot registration reference provenance now :
  0 < value id <= reference_backend_ids -> valid generation -> valid boot -> valid registration ->
  reference <> "" ->
  backend_validate (make_backend make_catalog id generation boot registration reference provenance now) = "".
Proof.
  intros Hid Hg Hb Hr Href. apply backend_validate_spec.
  destruct id as [n]. change (0 < n <= reference_backend_ids) in Hid.
  assert (forall k, 0 <= k <= 3 -> (n * 100 + k =? 0) = false) as Hd by (intros k Hk; apply Z.eqb_neq; lia).
  assert (valid (EntityIdOf (t := BackendTag) n)) as Hi
    by (apply Is_true_true; unfold valid; simpl; rewrite (proj2 (Z.eqb_neq _ _)) by lia; done).
  split; cbn [make_backend backend_canonicalize bd_backend_id bd_backend_generation bd_backend_boot
    bd_registration_generation bd_provider_id bd_provider_generation bd_endpoint bd_capability_generation
    bd_compatibility_generation bd_model_bindings update_field ep_backend_id ep_backend_boot].
  - auto 10.
  - apply endpoint_validate_spec. cbn. unfold valid at 1. cbn. rewrite derived_valid by lia.
    by rewrite Hd by lia.
  - done.
  - done.
  - by intros [].
  - by intros [].
  - done.
  - by repeat constructor.
  - by repeat constructor.
Qed.
