(* ===== verification/Coordinator.v ===== *)
(** * The reference coordinator ([reference/coordinator.hpp], [reference/coordinator.cpp])

    One process hosts a router and serves framed connections: what a frame or a
    control-plane request does to the router and to the coordinator's own maps,
    what is answered, and how a dispatch reaches a worker.

    The coordinator's own data, its connections and the files are the
    environment of the router's computations.  The handling of one frame is one
    computation: other threads act on the router between its critical sections,
    as everywhere, and on the coordinator's data while a dispatch waits. *)
From S2P Require Import Prelude.
From S2P Require Import Ids.
From S2P Require Import Outcome.
From S2P Require Import Limits.
From S2P Require Import Clock.
From S2P Require Import Codec.
From S2P Require Import Capability.
From S2P Require Import Evidence.
From S2P Require Import Catalog.
From S2P Require Import Request.
From S2P Require Import Candidate.
From S2P Require Import Policy.
From S2P Require Import Authority.
From S2P Require Import Decision.
From S2P Require Import RouteReport.
From S2P Require Import RouterState.
From S2P Require Import PersistRecords.
From S2P Require Import Persistence.
From S2P Require Import FileStore.
From S2P Require Import RouterMutation.
From S2P Require Import Providers.
From S2P Require Import RouterRoute.
From S2P Require Import RouterDispatch.
From S2P Require Import RouterInspect.
From S2P Require Import RouterSnapshot.
From S2P Require Import Frame.
From S2P Require Import Transport.
From S2P Require Import WireRecords.
From S2P Require Import WireMessages.
From S2P Require Import RouterPersist.
From S2P Require Import ReferenceProfiles.

(** ** Data *)

Record CoordinatorOptions := {
  cn_bind_address : string;
  cn_port : Z;
  cn_limits : ResourceLimits;
  cn_state_path : string;
  cn_load_on_start : bool;
  cn_save_on_shutdown : bool;
  cn_router_generation : Generation RouterTag
}.
Definition coordinator_options_default : CoordinatorOptions :=
  {| cn_bind_address := "127.0.0.1"; cn_port := 0; cn_limits := default_resource_limits; cn_state_path := "";
     cn_load_on_start := false; cn_save_on_shutdown := false; cn_router_generation := GenerationOf 1 |}.

(** A connection and a link are shared objects: they are named by references. *)
Definition ConnectionRef := nat.
Definition LinkRef := nat.

Record BackendLink := {
  bl_backend_id : EntityId BackendTag;
  bl_backend_generation : Generation BackendTag;
  bl_backend_boot : Generation BackendBootTag;
  bl_connection : ConnectionRef;
  bl_results : gmap (EntityId DispatchTag) DispatchResultMessage;
  bl_closed : bool
}.
#[export] Instance backend_link_eta : Eta BackendLink := fun l =>
  {| bl_backend_id := bl_backend_id l; bl_backend_generation := bl_backend_generation l;
     bl_backend_boot := bl_backend_boot l; bl_connection := bl_connection l; bl_results := bl_results l;
     bl_closed := bl_closed l |}.

(** What another session does while a dispatch waits: a result arrives on a
    connection, or the session that served a link ends. *)
Inductive Arrival :=
| ResultArrives (conn : ConnectionRef) (m : DispatchResultMessage)
| SessionEnds (link : LinkRef).

(** [cd_heap]: the link objects; [cd_links]: the map by backend.
    [cd_session_threads]: the size of [sessions_].
    [cd_arrivals]: what is still to happen in other sessions. *)
Record Coordinator := {
  cd_files : FileSystem;
  cd_connections : gmap ConnectionRef Session;
  cd_counter : ConnectionCounter;
  cd_heap : gmap LinkRef BackendLink;
  cd_links : gmap (EntityId BackendTag) LinkRef;
  cd_requests : gmap (EntityId RouteDecisionTag) RouteRequest;
  cd_evidence_generations : gmap (EntityId BackendTag) Z;
  cd_stopping : bool;
  cd_listening : bool;
  cd_last_error : string;
  cd_session_threads : Z;
  cd_sessions_served : Z;
  cd_frames_handled : Z;
  cd_arrivals : list Arrival
}.
#[export] Instance coordinator_eta : Eta Coordinator := fun c =>
  {| cd_files := cd_files c; cd_connections := cd_connections c; cd_counter := cd_counter c; cd_heap := cd_heap c;
     cd_links := cd_links c; cd_requests := cd_requests c; cd_evidence_generations := cd_evidence_generations c;
     cd_stopping := cd_stopping c; cd_listening := cd_listening c; cd_last_error := cd_last_error c;
     cd_session_threads := cd_session_threads c; cd_sessions_served := cd_sessions_served c;
     cd_frames_handled := cd_frames_handled c;
     cd_arrivals := cd_arrivals c |}.
Definition coordinator_idle (fs : FileSystem) : Coordinator :=
  {| cd_files := fs; cd_connections := ∅; cd_counter := connection_counter_default; cd_heap := ∅; cd_links := ∅;
     cd_requests := ∅; cd_evidence_generations := ∅; cd_stopping := false; cd_listening := false;
     cd_last_error := ""; cd_session_threads := 0; cd_sessions_served := 0; cd_frames_handled := 0;
     cd_arrivals := [] |}.
#[export] Instance coordinator_files : HasFiles Coordinator :=
  {| files_of := cd_files; with_files fs c := c <| cd_files := fs |>; files_of_with _ _ := eq_refl |}.

(** ** Sending *)

Definition make_frame (type : MessageType.t) (payload : list Z) : Frame :=
  {| fr_header := frame_header_default <| fh_protocol_version := protocol_version |>
                    <| fh_message_type := MessageType.index type |>;
     fr_payload := payload |}.

Definition on_coordinator {A} (f : Coordinator -> A * Coordinator) : M Coordinator A := ask f.
Definition change (f : Coordinator -> Coordinator) : M Coordinator unit := ask (fun c => (tt, f c)).

(** [connection->send]: the error text, or accepted for sending. *)
Definition send_on (conn : ConnectionRef) (f : Frame) (c : Coordinator) : (string + unit) * Coordinator :=
  match cd_connections c !! conn with
  | None => (inl "connection is closed", c)
  | Some s =>
      let '(r, s) := Transport.send f s in (r, c <| cd_connections := <[conn := s]> (cd_connections c) |>)
  end.
Definition send_frame (conn : ConnectionRef) (f : Frame) : M Coordinator bool :=
  r ← on_coordinator (send_on conn f); mret (match r with inr _ => true | inl _ => false end).

Definition reply_error (conn : ConnectionRef) (limits : ResourceLimits) (code : OutcomeCode.t) (detail : string)
    : M Coordinator bool :=
  match encode_wire limits {| er_code := code; er_detail := detail |} with
  | inl _ => mret false
  | inr payload => send_frame conn (make_frame MessageType.ERROR_MESSAGE payload)
  end.

(** An answer that cannot be encoded is replaced by an error message. *)
Definition reply (conn : ConnectionRef) (type : MessageType.t) (limits : ResourceLimits)
    (encoded : string + list Z) : M Coordinator bool :=
  match encoded with
  | inl error => reply_error conn limits OutcomeCode.REJECT_INVALID error
  | inr payload => send_frame conn (make_frame type payload)
  end.

Definition reply_status (conn : ConnectionRef) (limits : ResourceLimits) (code : OutcomeCode.t) (detail : string)
    : M Coordinator bool :=
  match encode_wire limits {| ap_code := code; ap_detail := detail; ap_json := "" |} with
  | inl _ => mret false
  | inr payload => send_frame conn (make_frame MessageType.ADMIN_RESPONSE payload)
  end.

(** The conversion of a 64-bit value to the 8-bit enumeration. *)
Definition capability_state_from (v : Z) : CapabilityState.t :=
  match enum_of capability_states CapabilityState.index (Z.land v 255) with
  | Some CapabilityState.kCount | None => CapabilityState.REVOKED
  | Some state => state
  end.

(** ** Links *)

(** The first link in key order that this connection carries. *)
Definition serves (c : Coordinator) (conn : ConnectionRef) (link : LinkRef) : bool :=
  match cd_heap c !! link with Some l => bool_decide (bl_connection l = conn) | None => false end.
Definition link_of (conn : ConnectionRef) (c : Coordinator) : option LinkRef :=
  List.find (serves c conn) (ordered_values id_ltb (cd_links c)).

Definition change_link (link : LinkRef) (f : BackendLink -> BackendLink) (c : Coordinator) : Coordinator :=
  c <| cd_heap := alter f link (cd_heap c) |>.

(** [links_[id] = std::make_shared<BackendLink>()]. *)
Definition install_link (d : BackendDescriptor) (conn : ConnectionRef) (c : Coordinator) : Coordinator :=
  let link := fresh (dom (cd_heap c)) in
  c <| cd_heap := <[link := {| bl_backend_id := bd_backend_id d;
         bl_backend_generation := bd_backend_generation d; bl_backend_boot := bd_backend_boot d;
         bl_connection := conn; bl_results := ∅; bl_closed := false |}]> (cd_heap c) |>
    <| cd_links := <[bd_backend_id d := link]> (cd_links c) |>.

Definition store_result (conn : ConnectionRef) (m : DispatchResultMessage) (c : Coordinator) : Coordinator :=
  match link_of conn c with
  | None => c
  | Some link => change_link link (fun l => l <| bl_results := <[dr_dispatch_id m := m]> (bl_results l) |>) c
  end.

(** What a session does to the maps when it ends: its link is closed, and
    whatever link the backend has is forgotten. *)
Definition drop_link (link : LinkRef) (c : Coordinator) : Coordinator :=
  match cd_heap c !! link with
  | None => c
  | Some l =>
      (change_link link (fun l => l <| bl_closed := true |>) c)
        <| cd_links := delete (bl_backend_id l) (cd_links c) |>
  end.

Definition arrive (a : Arrival) : Coordinator -> Coordinator :=
  match a with ResultArrives conn m => store_result conn m | SessionEnds link => drop_link link end.

(** ** The dispatcher *)

(** [condition.wait]: the predicate is looked at first and after every arrival.
    The wait of the code has no bound; here it ends with the link when nothing
    more arrives. *)
Fixpoint await (link : LinkRef) (id : EntityId DispatchTag) (arrivals : list Arrival) (c : Coordinator)
    : Coordinator :=
  let ready := match cd_heap c !! link with
               | Some l => bl_closed l || bool_decide (is_Some (bl_results l !! id))
               | None => true
               end in
  return_if ready with c <| cd_arrivals := arrivals |> ;;
  match arrivals with
  | [] => (drop_link link c) <| cd_arrivals := [] |>
  | a :: arrivals => await link id arrivals (arrive a c)
  end.

Definition take_result (link : LinkRef) (id : EntityId DispatchTag) (c : Coordinator)
    : option DispatchResultMessage * Coordinator :=
  let c := await link id (cd_arrivals c) c in
  match cd_heap c !! link ≫= fun l => bl_results l !! id with
  | None => (None, c)
  | Some m => (Some m, change_link link (fun l => l <| bl_results := delete id (bl_results l) |>) c)
  end.

Definition dispatch_message_of (id : EntityId DispatchTag) (d : RouteDecision) (plan : RoutePlan)
    : DispatchMessage :=
  {| dm_dispatch_id := id; dm_dispatch_generation := GenerationOf 1; dm_decision_id := de_decision_id d;
     dm_decision_generation := de_decision_generation d; dm_target := pl_primary plan; dm_attempt := 1 |}.

Definition handoff (limits : ResourceLimits) (d : RouteDecision) (plan : RoutePlan) (_ : DiscoveryContext)
    : IssuingCall Coordinator DispatchRecord := fun ids c =>
  let record := dispatch_record_default <| di_decision_id := de_decision_id d |>
    <| di_decision_generation := de_decision_generation d |> <| di_target := pl_primary plan |> in
  let failed := failed_dispatch record in
  match cd_links c !! ck_backend_id (pl_primary plan) ≫= fun link => pair link <$> cd_heap c !! link with
  | None => (failed OutcomeCode.REJECT_STALE_BACKEND FailureClass.BACKEND_UNAVAILABLE
               "no live backend worker connection for the target backend", ids, c)
  | Some (link, l) =>
      return_if bl_backend_boot l != ck_backend_boot (pl_primary plan)
        with (failed OutcomeCode.REJECT_STALE_BACKEND_BOOT FailureClass.BACKEND_RESTARTED
                "live connection belongs to a different backend incarnation", ids, c) ;;
      let '(id, ids) := allocate_id DispatchTag ids in
      let message := dispatch_message_of id d plan in
      match encode_wire limits message with
      | inl error => (failed OutcomeCode.REJECT_INVALID FailureClass.UNKNOWN error, ids, c)
      | inr payload =>
          match send_on (bl_connection l) (make_frame MessageType.DISPATCH payload) c with
          | (inl error, c) => (failed OutcomeCode.REJECT_UNAVAILABLE FailureClass.BACKEND_UNAVAILABLE error, ids, c)
          | (inr _, c) =>
              match take_result link id c with
              | (None, c) => (failed OutcomeCode.REJECT_UNAVAILABLE FailureClass.BACKEND_UNAVAILABLE
                                "backend connection closed before the dispatch result arrived", ids, c)
              | (Some result, c) =>
                  (record <| di_dispatch_id := id |> <| di_dispatch_generation := dm_dispatch_generation message |>
                     <| di_code := dr_code result |> <| di_failure := dr_failure result |>
                     <| di_handed_off := dr_code result == OutcomeCode.DISPATCHED |>
                     <| di_dispatched_at := 1 |> <| di_detail := dr_detail result |>, ids, c)
              end
          end
      end
  end.

(** The router's adapters: only the dispatcher is set. *)
Definition coordinator_providers (limits : ResourceLimits) (clock : Call Coordinator UnixMillis)
    : ProviderSet Coordinator :=
  {| pr_candidates := None; pr_policy := None; pr_budget := None; pr_cost := None; pr_slo := None;
     pr_compatibility := None; pr_trust := None; pr_reservation := None;
     pr_dispatcher := Some (handoff limits); pr_clock := clock |}.

(** ** The control plane *)

Section Handlers.
Context (limits : ResourceLimits) (clock : Call Coordinator UnixMillis) (catalog : ReferenceCatalog).
Let providers := coordinator_providers limits clock.

(** One mutating call of the router. *)
Definition call (request : MutationCall) : M Coordinator MutationResult :=
  now ← ask clock; locked (perform request now).

Definition admin_accepted : AdminResponse :=
  {| ap_code := OutcomeCode.ACCEPTED; ap_detail := ""; ap_json := "" |}.
Definition admin_refused (code : OutcomeCode.t) (detail : string) : AdminResponse :=
  {| ap_code := code; ap_detail := detail; ap_json := "" |}.
Definition backend_missing : AdminResponse :=
  admin_refused OutcomeCode.REJECT_STALE_BACKEND "backend is not registered".

(** The lambda [apply]. *)
Definition applied (r : MutationResult) : AdminResponse :=
  {| ap_code := mr_code r; ap_detail := explanation_to_text (mr_explanation r); ap_json := "" |}.

Definition apply_call (request : MutationCall) : M Coordinator (option AdminResponse) :=
  r ← call request; mret (Some (applied r)).

Definition with_backend (id : EntityId BackendTag)
    (f : BackendDescriptor -> M Coordinator (option AdminResponse)) : M Coordinator (option AdminResponse) :=
  found ← locked_shared (fun s => find_backend s id);
  match found with None => mret (Some backend_missing) | Some backend => f backend end.

(** [counter = max(counter, observed) + 1] in the coordinator's own map. *)
Definition next_evidence_generation (id : EntityId BackendTag) (observed : Z) : M Coordinator Z :=
  on_coordinator (fun c =>
    let counter := word64 (Z.max (default 0 (cd_evidence_generations c !! id)) observed + 1) in
    (counter, c <| cd_evidence_generations := <[id := counter]> (cd_evidence_generations c) |>)).

Definition control_plane : string := "reference-control-plane".

Definition open_policy (generation : Z) (denied : list PolicyBuilderCall) : PolicySnapshot :=
  policy_build (fold_left policy_builder_step
    (denied ++ [SetFallbackPolicy FallbackPolicy.PERMITTED; MaxFallbackDepth 4])
    (policy_builder (EntityIdOf 1) (GenerationOf generation))).

Definition reference_budget (generation : Z) (verdict : BudgetVerdict.t) : BudgetSnapshot :=
  {| bu_budget_id := EntityIdOf 1; bu_generation := GenerationOf generation; bu_verdict := verdict;
     bu_unit := reference_cost_unit; bu_limit_micros := bu_limit_micros budget_snapshot_default;
     bu_consumed_micros := bu_consumed_micros budget_snapshot_default;
     bu_remaining_micros := bu_remaining_micros budget_snapshot_default;
     bu_observed_at := bu_observed_at budget_snapshot_default;
     bu_expires_at := bu_expires_at budget_snapshot_default |}.

(** [base * factor] in [int64_t]; [None]: it overflows, which is undefined. *)
Definition scaled_price (base factor : Z) : option Z :=
  let total := base * factor in if (i64_min <=? total) && (total <=? i64_max) then Some total else None.

(** The price evidence of the three models, published one by one while it is
    accepted; [None] after an undefined multiplication. *)
Fixpoint advance_prices (backend_id : EntityId BackendTag) (generation : Generation PriceTag) (base : Z)
    (prices : list (EntityId ModelTag * Z)) (last : MutationResult) : M Coordinator (option MutationResult) :=
  match prices with
  | [] => mret (Some last)
  | (model_id, factor) :: prices =>
      return_if negb (accepted last) with mret (Some last) ;;
      match scaled_price base factor with
      | None => mret None
      | Some total =>
          last ← call (SetCost (make_cost_evidence backend_id model_id generation total total total 1));
          advance_prices backend_id generation base prices last
      end
  end.

Definition advance_price (backend_id : EntityId BackendTag) (generation : Generation PriceTag) (base : Z)
    : M Coordinator (option MutationResult) :=
  last ← call (SetCost (make_cost_evidence backend_id (rf_small_model catalog) generation base base base 1));
  advance_prices backend_id generation base
    [(rf_general_model catalog, 3); (rf_specialist_model catalog, 5)] last.

(** The publication that replaces every claim of the backend. *)
Definition revoked_claim (request : AdminRequest) (generation : Generation CapabilityTag)
    (boot : Generation BackendBootTag) (claim : CapabilityEvidence) : CapabilityEvidence :=
  claim <| ce_state := if ar_detail request == "" then CapabilityState.REVOKED
                       else capability_state_from (ar_value request) |>
        <| ce_generation := generation |> <| ce_backend_boot := boot |> <| ce_observed_at := 1 |>
        <| ce_source := control_plane |>.
Definition revoked_publication (request : AdminRequest) (backend : BackendDescriptor) (counter : Z)
    : BackendCapabilityPublication :=
  let generation := GenerationOf counter in
  let boot := bd_backend_boot backend in
  let profile_id := bd_capability_profile_id backend in
  let claims := revoked_claim request generation boot <$> profile_entries (bd_capabilities backend) in
  {| pub_backend_id := bd_backend_id backend; pub_backend_generation := bd_backend_generation backend;
     pub_backend_boot := boot; pub_profile_id := profile_id; pub_generation := generation;
     pub_claims := match claims with
                   | [] => [(claim key_cuda_execution CapabilityState.REVOKED profile_id generation 1 control_plane)
                              <| ce_backend_boot := boot |>]
                   | _ => claims
                   end |}.

(** Evidence the control plane makes about the registered incarnation. *)
Definition control_evidence {S g} (state : S) (counter : Z) (backend : BackendDescriptor) : BackendEvidence S g :=
  BackendEvidenceOf state (GenerationOf counter) (bd_backend_id backend) none (bd_backend_boot backend) none
    1 kNoExpiry control_plane "".

Definition stored_request (id : EntityId RouteDecisionTag) : M Coordinator (option RouteRequest) :=
  on_coordinator (fun c => (cd_requests c !! id, c)).
Definition store_request (id : EntityId RouteDecisionTag) (request : RouteRequest) (c : Coordinator) : Coordinator :=
  c <| cd_requests := <[id := request]> (cd_requests c) |>.

Definition admin_json (json : string) : AdminResponse :=
  {| ap_code := OutcomeCode.ACCEPTED; ap_detail := ""; ap_json := json |}.

Definition admin_reroute (request : AdminRequest) : M Coordinator (option AdminResponse) :=
  found ← stored_request (ar_decision_id request);
  match found with
  | None => mret (Some (admin_refused OutcomeCode.REJECT_INVALID "no retained request for the decision"))
  | Some stored =>
      match enum_of failure_classes FailureClass.index (Z.land (ar_value request) 255) with
      | None => mret None
      | Some failure =>
          outcome ← reroute providers (ar_decision_id request) failure stored;
          let id := de_decision_id (oc_decision outcome) in
          let response := admin_refused (oc_code outcome) (explanation_to_text (oc_explanation outcome)) in
          return_if negb (oc_has_decision outcome) with mret (Some response) ;;
          _ ← change (store_request id stored);
          mret (Some {| ap_code := ap_code response; ap_detail := ap_detail response; ap_json := number id |})
      end
  end.

Definition admin_dispatch (id : EntityId RouteDecisionTag) : M Coordinator (option AdminResponse) :=
  record ← dispatch providers id none none;
  let code := OutcomeCode.to_string (di_code record) in
  mret (Some {| ap_code := di_code record; ap_detail := code +:+ " " +:+ di_detail record;
    ap_json := "{" +:+ quoted "code" +:+ ":" +:+ quoted code +:+ "," +:+ quoted "handed_off" +:+ ":" +:+
      (if di_handed_off record then "true" else "false") +:+ "}" |}).

Definition persisted_response (r : PersistenceResult) : AdminResponse := admin_refused (pe_code r) (pe_detail r).

Definition set_stopping : M Coordinator unit :=
  change (fun c => c <| cd_stopping := true |> <| cd_listening := false |>).

Definition handle_admin (request : AdminRequest) : M Coordinator (option AdminResponse) :=
  let generation := ar_generation request in
  let backend_id := ar_backend_id request in
  match ar_op request with
  | AdminOp.SNAPSHOT =>
      now ← ask clock; x ← locked_shared (snapshot now); mret (Some (admin_json (snapshot_to_json x)))
  | AdminOp.INVARIANTS =>
      now ← ask clock; x ← locked_shared (check_invariants now); mret (Some (admin_json (report_to_json x)))
  | AdminOp.SUMMARY => x ← locked_shared summary; mret (Some (admin_json (summary_to_json x)))
  | AdminOp.BACKEND_COUNT =>
      x ← locked_shared summary;
      mret (Some (admin_refused OutcomeCode.ACCEPTED (to_string_int (su_backend_count x))))
  | AdminOp.REVALIDATE =>
      r ← revalidate providers (ar_decision_id request) none none; mret (Some (applied r))
  | AdminOp.DISPATCH => admin_dispatch (ar_decision_id request)
  | AdminOp.REROUTE => admin_reroute request
  | AdminOp.SET_POLICY_OPEN => apply_call (SetPolicy (open_policy generation []))
  | AdminOp.SET_POLICY_DENY_BACKEND => apply_call (SetPolicy (open_policy generation [DenyBackend backend_id]))
  | AdminOp.SET_POLICY_DENY_MODEL =>
      apply_call (SetPolicy (open_policy generation [DenyModel (ar_model_id request)]))
  | AdminOp.SET_BUDGET_DENIED => apply_call (SetBudget (reference_budget generation BudgetVerdict.DENIED))
  | AdminOp.SET_BUDGET_ALLOWED => apply_call (SetBudget (reference_budget generation BudgetVerdict.ALLOWED))
  | AdminOp.ADVANCE_PRICE =>
      r ← advance_price backend_id (GenerationOf generation) (signed64 (ar_value request)); mret (applied <$> r)
  | AdminOp.FENCE_BACKEND =>
      with_backend backend_id (fun b =>
        apply_call (FenceBackendBoot (bd_backend_id b) (bd_backend_generation b) (bd_backend_boot b)
                      OutcomeCode.FENCED))
  | AdminOp.RETIRE_MODEL => apply_call (RetireModel (ar_model_id request) (GenerationOf generation))
  | AdminOp.REVOKE_CAPABILITY =>
      with_backend backend_id (fun b =>
        counter ← next_evidence_generation backend_id (value (bd_capability_generation b));
        apply_call (PublishCapabilities (revoked_publication request b counter)))
  | AdminOp.SET_READINESS =>
      with_backend backend_id (fun b =>
        counter ← next_evidence_generation backend_id (value (ev_generation (bd_readiness b)));
        apply_call (UpdateReadiness (control_evidence
          (if ar_value request =? 0 then ReadinessState.NOT_READY else ReadinessState.READY) counter b)))
  | AdminOp.SET_AVAILABILITY =>
      with_backend backend_id (fun b =>
        counter ← next_evidence_generation backend_id (value (ev_generation (bd_availability b)));
        apply_call (UpdateAvailability (control_evidence
          (if ar_value request =? 0 then AvailabilityState.UNAVAILABLE else AvailabilityState.AVAILABLE) counter b)))
  | AdminOp.SAVE => r ← save clock (ar_detail request); mret (Some (persisted_response r))
  | AdminOp.LOAD => r ← load (ar_detail request); mret (persisted_response <$> r)
  | AdminOp.SHUTDOWN =>
      _ ← set_stopping; mret (Some (admin_refused OutcomeCode.ACCEPTED "shutdown requested"))
  | _ => mret (Some (admin_refused OutcomeCode.REJECT_INVALID "unsupported admin operation"))
  end.

(** ** Frames *)

(** Whether the handler succeeded, and [*keep_going]. *)
Record Handled := { hd_ok : bool; hd_keep_going : bool }.
Definition going_on (ok : bool) : option Handled := Some {| hd_ok := ok; hd_keep_going := true |}.

(** A payload that is not a message is answered with an error; [None]: the
    payload holds an enumerator without a name, see [decode_message]. *)
Definition decoded {A} `{WireMessage A} (conn : ConnectionRef) (f : Frame)
    (handle : A -> M Coordinator (option Handled)) : M Coordinator (option Handled) :=
  match decode_wire limits (fr_payload f) with
  | None => mret None
  | Some (inl error) => ok ← reply_error conn limits OutcomeCode.REJECT_INVALID error; mret (going_on ok)
  | Some (inr m) => handle m
  end.

Definition replied {A} `{WireMessage A} (conn : ConnectionRef) (type : MessageType.t) (m : A)
    : M Coordinator (option Handled) :=
  ok ← reply conn type limits (encode_wire limits m); mret (going_on ok).

(** The evidence messages: one mutating call, answered with its status. *)
Definition mutate {A} `{WireMessage A} (conn : ConnectionRef) (f : Frame) (request : A -> MutationCall)
    : M Coordinator (option Handled) :=
  decoded conn f (fun m =>
    r ← call (request m);
    ok ← reply_status conn limits (mr_code r) (ex_message (mr_explanation r)); mret (going_on ok)).

Definition handle_hello (conn : ConnectionRef) (f : Frame) : M Coordinator (option Handled) :=
  decoded conn f (fun _ : HelloMessage =>
    router_id ← locked_shared cs_router_id;
    router_epoch ← locked_shared cs_router_epoch;
    coordinator_epoch ← locked_shared cs_coordinator_epoch;
    replied conn MessageType.HELLO_ACK {| ha_router_id := router_id; ha_router_epoch := router_epoch;
      ha_coordinator_epoch := coordinator_epoch; ha_code := OutcomeCode.ACCEPTED;
      ha_detail := "Model Router 1.0.0" |}).

Definition handle_register (conn : ConnectionRef) (f : Frame) : M Coordinator (option Handled) :=
  decoded conn f (fun m : BackendRegisterMessage =>
    let backend := br_backend m in
    r ← call (RegisterBackend backend);
    _ ← change (fun c => if accepted r then install_link backend conn c else c);
    replied conn MessageType.BACKEND_REGISTER_ACK {| ba_backend_id := bd_backend_id backend;
      ba_backend_boot := bd_backend_boot backend; ba_code := mr_code r;
      ba_detail := ex_message (mr_explanation r) |}).

(** The request of a decision is kept for a later reroute. *)
Definition retain_request (outcome : RouteOutcome) (request : RouteRequest) (c : Coordinator) : Coordinator :=
  return_if negb (oc_has_decision outcome) with c ;;
  let c := if max_route_requests limits <=? map_size (cd_requests c) then c <| cd_requests := ∅ |> else c in
  store_request (de_decision_id (oc_decision outcome)) request c.

Definition rejection_text (r : RouteRejection) : string :=
  " | model=" +:+ to_string_int (rj_model_id r) +:+ " backend=" +:+ to_string_int (rj_backend_id r) +:+
  " code=" +:+ OutcomeCode.to_string (rj_code r) +:+ " " +:+ rj_detail r.

Definition route_response (o : RouteOutcome) : RouteResponseMessage := {|
  ro_code := oc_code o; ro_decision := oc_decision o; ro_has_decision := oc_has_decision o;
  ro_detail := ex_message (oc_explanation o) +:+
    (if oc_has_decision o then "" else String.concat "" (rejection_text <$> rx_rejections (oc_route o))) |}.

Definition handle_route (conn : ConnectionRef) (f : Frame) : M Coordinator (option Handled) :=
  decoded conn f (fun m : RouteRequestMessage =>
    outcome ← route providers (rm_request m);
    _ ← change (retain_request outcome (rm_request m));
    replied conn MessageType.ROUTE_RESPONSE (route_response outcome)).

Definition handle_result (conn : ConnectionRef) (f : Frame) : M Coordinator (option Handled) :=
  decoded conn f (fun m : DispatchResultMessage => _ ← change (store_result conn m); mret (going_on true)).

Definition handle_control (conn : ConnectionRef) (f : Frame) : M Coordinator (option Handled) :=
  decoded conn f (fun m : AdminRequest =>
    response ← handle_admin m;
    match response with None => mret None | Some a => replied conn MessageType.ADMIN_RESPONSE a end).

Definition handle_ping (conn : ConnectionRef) : M Coordinator (option Handled) :=
  ok ← send_frame conn (make_frame MessageType.PONG []); mret (going_on ok).

Definition handle_snapshot (conn : ConnectionRef) : M Coordinator (option Handled) :=
  now ← ask clock;
  x ← locked_shared (snapshot now);
  ok ← reply conn MessageType.SNAPSHOT_RESPONSE limits (encode_message (put_string limits (snapshot_to_json x)));
  mret (going_on ok).

Definition message_types : list MessageType.t := [
  MessageType.HELLO; MessageType.BACKEND_REGISTER; MessageType.CAPABILITY_PUBLISH; MessageType.HEALTH_UPDATE;
  MessageType.AVAILABILITY_UPDATE; MessageType.READINESS_UPDATE; MessageType.RESIDENCY_UPDATE;
  MessageType.CAPACITY_UPDATE; MessageType.LATENCY_UPDATE; MessageType.COST_UPDATE; MessageType.ROUTE_REQUEST;
  MessageType.DISPATCH_RESULT; MessageType.ADMIN_REQUEST; MessageType.PING; MessageType.BYE;
  MessageType.SNAPSHOT_REQUEST].

(** The [switch] over the message type. *)
Definition handle_frame (conn : ConnectionRef) (f : Frame) : M Coordinator (option Handled) :=
  match enum_of message_types MessageType.index (fh_message_type (fr_header f)) with
  | Some MessageType.HELLO => handle_hello conn f
  | Some MessageType.BACKEND_REGISTER => handle_register conn f
  | Some MessageType.CAPABILITY_PUBLISH =>
      mutate conn f (fun m => PublishCapabilities (cp_publication m))
  | Some MessageType.HEALTH_UPDATE => mutate conn f UpdateHealth
  | Some MessageType.AVAILABILITY_UPDATE => mutate conn f UpdateAvailability
  | Some MessageType.READINESS_UPDATE => mutate conn f UpdateReadiness
  | Some MessageType.RESIDENCY_UPDATE => mutate conn f UpdateResidency
  | Some MessageType.CAPACITY_UPDATE => mutate conn f (fun '(e, detail) => UpdateCapacity e detail)
  | Some MessageType.LATENCY_UPDATE => mutate conn f UpdateLatency
  | Some MessageType.COST_UPDATE => mutate conn f SetCost
  | Some MessageType.ROUTE_REQUEST => handle_route conn f
  | Some MessageType.DISPATCH_RESULT => handle_result conn f
  | Some MessageType.ADMIN_REQUEST => handle_control conn f
  | Some MessageType.PING => handle_ping conn
  | Some MessageType.BYE => mret (Some {| hd_ok := true; hd_keep_going := false |})
  | Some MessageType.SNAPSHOT_REQUEST => handle_snapshot conn
  | _ =>
      ok ← reply_error conn limits OutcomeCode.REJECT_INVALID "unsupported reference message type";
      mret (going_on ok)
  end.

(** ** Sessions *)

(** One round of a session's loop: the frame is handled, and the link is looked
    up until there is one. [None] as the result: see [decoded]; otherwise
    whether the loop goes on, and the session's link. *)
Definition serve_round (conn : ConnectionRef) (link : option LinkRef) (f : Frame)
    : M Coordinator (option (bool * option LinkRef)) :=
  _ ← change (fun c => c <| cd_frames_handled := word64 (cd_frames_handled c + 1) |>);
  handled ← handle_frame conn f;
  match handled with
  | None => mret None
  | Some h =>
      return_if negb (hd_ok h) with mret (Some (false, link)) ;;
      link ← match link with
             | Some _ => mret link
             | None => on_coordinator (fun c => (link_of conn c, c))
             end;
      mret (Some (hd_keep_going h, link))
  end.

(** [connection->close], which returns when the connection's thread has ended. *)
Definition close_connection (conn : ConnectionRef) (c : Coordinator) : Coordinator :=
  match cd_connections c !! conn with
  | None => c
  | Some s =>
      let '(s, counter) := finish_close (request_stop s) (cd_counter c) in
      c <| cd_connections := <[conn := s]> (cd_connections c) |> <| cd_counter := counter |>
  end.

(** The end of a session; what the router answers is not looked at. *)
Definition serve_end (conn : ConnectionRef) (link : option LinkRef) : M Coordinator unit :=
  _ ← change (close_connection conn);
  match link with
  | None => mret tt
  | Some link =>
      found ← on_coordinator (fun c => (cd_heap c !! link, c));
      match found with
      | None => mret tt
      | Some l =>
          _ ← change (drop_link link);
          _ ← call (FenceBackendBoot (bl_backend_id l) (bl_backend_generation l) (bl_backend_boot l)
                      OutcomeCode.FENCED);
          mret tt
      end
  end.

(** The whole session: [frames] are what [receive] returns before it fails. *)
Fixpoint serve (conn : ConnectionRef) (link : option LinkRef) (frames : list Frame) : M Coordinator (option unit) :=
  match frames with
  | [] => _ ← serve_end conn link; mret (Some tt)
  | f :: frames =>
      round ← serve_round conn link f;
      match round with
      | None => mret None
      | Some (true, link) => serve conn link frames
      | Some (false, link) => _ ← serve_end conn link; mret (Some tt)
      end
  end.

(** One round of the accept loop past its test of [stopping_], with what
    [listener_.accept] returned: false when the loop is left here, and the
    connection that gets a session. *)
Definition accept_round (accepted : string + Session) : M Coordinator (bool * option ConnectionRef) :=
  on_coordinator (fun c =>
    match accepted with
    | inl error =>
        return_if cd_stopping c with ((false, None), c) ;;
        ((true, None), if cd_last_error c == "" then c <| cd_last_error := error |> else c)
    | inr s =>
        let conn := fresh (dom (cd_connections c)) in
        let c := c <| cd_connections := <[conn := s]> (cd_connections c) |> in
        return_if max_session_threads limits <=? cd_session_threads c
          with ((true, None), close_connection conn c) ;;
        ((true, Some conn), c <| cd_session_threads := cd_session_threads c + 1 |>
                              <| cd_sessions_served := word64 (cd_sessions_served c + 1) |>)
    end).

(** ** Start and stop *)

Definition reference_provider : ProviderDescriptor :=
  {| pd_provider_id := rf_provider catalog; pd_generation := rf_provider_generation catalog;
     pd_display_name := "reference-provider"; pd_default_trust_domain := TrustDomain.LOCAL;
     pd_third_party := false |}.

(** Calls until one is refused: its explanation. *)
Fixpoint call_all (requests : list MutationCall) : M Coordinator (option string) :=
  match requests with
  | [] => mret None
  | request :: requests =>
      r ← call request;
      return_if negb (accepted r) with mret (Some (ex_message (mr_explanation r))) ;;
      call_all requests
  end.

Definition catalog_calls : list MutationCall :=
  RegisterProvider reference_provider :: (RegisterModel <$> make_models catalog 1).
End Handlers.

Definition router_options (o : CoordinatorOptions) : ModelRouterOptions :=
  model_router_options_default <| op_router_generation := cn_router_generation o |>
    <| op_limits := cn_limits o |> <| op_persistence_path := cn_state_path o |>
    <| op_load_on_start := cn_load_on_start o |> <| op_save_on_shutdown := cn_save_on_shutdown o |>.

Definition construct_router (o : ModelRouterOptions) : M Coordinator unit := fun w =>
  let '(s, ids) := router_init o (w_ids w) in (tt, w <| w_state := s |> <| w_ids := ids |>).

(** [listened]: what [listener_.start] answers. The result is [None] where the
    router's [start] has none, and otherwise the error text, if any. *)
Definition start_coordinator (o : CoordinatorOptions) (clock : Call Coordinator UnixMillis)
    (catalog : ReferenceCatalog) (listened : string + unit) : M Coordinator (option (option string)) :=
  _ ← construct_router (router_options o);
  started ← start_router clock (router_options o);
  match started with
  | None => mret None
  | Some r =>
      return_if negb (accepted r) with mret (Some (Some (ex_message (mr_explanation r)))) ;;
      refused ← call_all clock (catalog_calls catalog);
      match refused, listened with
      | Some error, _ => mret (Some (Some error))
      | None, inl error => _ ← change (fun c => c <| cd_last_error := error |>); mret (Some (Some error))
      | None, inr _ => _ ← change (fun c => c <| cd_listening := true |>); mret (Some None)
      end
  end.

(** What [stop] does before it waits for the sessions: false when a stop has
    been asked for before. *)
Definition stop_links : M Coordinator bool :=
  on_coordinator (fun c =>
    return_if cd_stopping c with (false, c) ;;
    let c := c <| cd_stopping := true |> <| cd_listening := false |> in
    (true, fold_left (fun c link =>
       match cd_heap c !! link with
       | None => c
       | Some l => change_link link (fun l => l <| bl_closed := true |>) (close_connection (bl_connection l) c)
       end) (ordered_values id_ltb (cd_links c)) c)).

(** The sessions that are still running end one by one. *)
Fixpoint join_sessions (clock : Call Coordinator UnixMillis) (sessions : list (ConnectionRef * option LinkRef))
    : M Coordinator unit :=
  match sessions with
  | [] => mret tt
  | (conn, link) :: sessions => _ ← serve_end clock conn link; join_sessions clock sessions
  end.

(** [None]: see [shutdown_router]. *)
Definition stop (o : CoordinatorOptions) (clock : Call Coordinator UnixMillis)
    (sessions : list (ConnectionRef * option LinkRef)) : M Coordinator (option unit) :=
  first ← stop_links;
  return_if negb first with mret (Some tt) ;;
  _ ← join_sessions clock sessions;
  stopped ← locked (fun s => match shutdown_router (router_options o) s with
                             | None => (None, s)
                             | Some (_, s) => (Some tt, s)
                             end);
  mret stopped.
