(* ===== verification/CoordinatorRun.v ===== *)
(** * What serving connections keeps, and what it promises

    The theorems about the coordinator: no frame breaks the router, a malformed
    frame changes nothing, what a dispatch that was handed over means, and what
    the end of a session leaves. *)
From S2P Require Import Prelude.
From S2P Require Import Ids.
From S2P Require Import Outcome.
From S2P Require Import Limits.
From S2P Require Import Clock.
From S2P Require Import Codec.
From S2P Require Import Capability.
From S2P Require Import Evidence.
From S2P Require Import Catalog.
From S2P Require Import Request.
From S2P Require Import Candidate.
From S2P Require Import Policy.
From S2P Require Import Authority.
From S2P Require Import Decision.
From S2P Require Import RouterState.
From S2P Require Import PersistRecords.
From S2P Require Import Persistence.
From S2P Require Import FileStore.
From S2P Require Import RouterMutation.
From S2P Require Import Providers.
From S2P Require Import RouterRoute.
From S2P Require Import RouterLiveness.
From S2P Require Import RouterDispatch.
From S2P Require Import RouterInspect.
From S2P Require Import RouterSnapshot.
From S2P Require Import Frame.
From S2P Require Import Transport.
From S2P Require Import WireRecords.
From S2P Require Import WireMessages.
From S2P Require Import RouterPersist.
From S2P Require Import ReferenceProfiles.
From S2P Require Import RouterRun.
From S2P Require Import Coordinator.

(** ** Every handler keeps the router's invariants *)

Section Keeps.
Context (limits : ResourceLimits) (clock : Call Coordinator UnixMillis) (catalog : ReferenceCatalog).
Context (I : CanonicalState -> Allocator -> Prop) `{!RouterInvariant I}.
Context (Hrunning : forall s ids, I s ids -> cs_running s = true).
Abbreviation harmless m := (keeps I (fun _ => True) m).

Lemma on_coordinator_keeps {A} (f : Coordinator -> A * Coordinator) : harmless (on_coordinator f).
Proof. by apply keeps_ask. Qed.
Lemma change_keeps f : harmless (change f).
Proof. by apply keeps_ask. Qed.
Lemma call_keeps request : harmless (call clock request).
Proof.
  unfold call. keep. apply keeps_locked. intros s ids HI. pose proof (perform_keeps request a s ids HI) as H.
  by destruct (perform request a s).
Qed.
#[local] Hint Resolve on_coordinator_keeps change_keeps call_keeps : keeps.

Lemma send_frame_keeps conn f : harmless (send_frame conn f).
Proof. unfold send_frame. keep. Qed.
#[local] Hint Resolve send_frame_keeps : keeps.

Lemma reply_error_keeps conn code detail : harmless (reply_error conn limits code detail).
Proof. unfold reply_error. keep. Qed.
Lemma reply_status_keeps conn code detail : harmless (reply_status conn limits code detail).
Proof. unfold reply_status. keep. Qed.
#[local] Hint Resolve reply_error_keeps reply_status_keeps : keeps.
Lemma reply_keeps conn type encoded : harmless (reply conn type limits encoded).
Proof. unfold reply. keep. Qed.
#[local] Hint Resolve reply_keeps : keeps.
Lemma replied_keeps {A} `{WireMessage A} conn type (m : A) : harmless (replied limits conn type m).
Proof. unfold replied. keep. Qed.
#[local] Hint Resolve replied_keeps : keeps.

Lemma decoded_keeps {A} `{WireMessage A} conn f handle :
  (forall m : A, harmless (handle m)) -> harmless (decoded limits conn f handle).
Proof. intros Hh. unfold decoded. keep; apply Hh. Qed.

Lemma mutate_keeps {A} `{WireMessage A} conn f (request : A -> MutationCall) :
  harmless (mutate limits clock conn f request).
Proof. unfold mutate. apply decoded_keeps. intros m. keep. Qed.

Lemma apply_call_keeps request : harmless (apply_call clock request).
Proof. unfold apply_call. keep. Qed.
#[local] Hint Resolve apply_call_keeps : keeps.

Lemma with_backend_keeps id f : (forall b, harmless (f b)) -> harmless (with_backend id f).
Proof. intros Hf. unfold with_backend. keep; apply Hf. Qed.

Lemma advance_prices_keeps backend_id generation base prices last :
  harmless (advance_prices clock backend_id generation base prices last).
Proof.
  revert last. induction prices as [|[model_id factor] prices IH]; intros last; cbn [advance_prices]; keep; apply IH.
Qed.

Lemma handle_admin_keeps request : harmless (handle_admin limits clock catalog request).
Proof.
  unfold handle_admin, advance_price, admin_reroute, admin_dispatch, set_stopping, next_evidence_generation,
    stored_request.
  keep; auto using revalidate_keeps, dispatch_keeps, reroute_keeps, save_keeps, load_keeps, advance_prices_keeps
    with typeclass_instances;
    try (apply with_backend_keeps; intros ?; keep).
Qed.
#[local] Hint Resolve handle_admin_keeps : keeps.

Lemma handle_frame_keeps conn f : harmless (handle_frame limits clock catalog conn f).
Proof.
  unfold handle_frame. destruct (enum_of _ _ _) as [[]|]; auto using mutate_keeps;
    unfold handle_hello, handle_register, handle_route, handle_result, handle_control, handle_ping, handle_snapshot;
    try (apply decoded_keeps; intros ?); keep; auto using route_keeps with typeclass_instances.
Qed.
#[local] Hint Resolve handle_frame_keeps : keeps.

Lemma serve_end_keeps conn link : harmless (serve_end clock conn link).
Proof. unfold serve_end. keep. Qed.
#[local] Hint Resolve serve_end_keeps : keeps.

Lemma serve_round_keeps conn link f : harmless (serve_round limits clock catalog conn link f).
Proof. unfold serve_round. keep. Qed.
#[local] Hint Resolve serve_round_keeps : keeps.

Lemma serve_keeps conn link frames : harmless (serve limits clock catalog conn link frames).
Proof.
  revert link. induction frames as [|f frames IH]; intros link; cbn [serve]; keep; apply IH.
Qed.
End Keeps.

(** ** Malformed frames *)

Definition decode_error {A} `{WireMessage A} (limits : ResourceLimits) (payload : list Z) : option string :=
  match decode_wire (M := A) limits payload with Some (inl error) => Some error | _ => None end.

(** The error of a frame whose payload is not a message of its type. *)
Definition payload_error (limits : ResourceLimits) (f : Frame) : option string :=
  let error A `{WireMessage A} := decode_error (A := A) limits (fr_payload f) in
  match enum_of message_types MessageType.index (fh_message_type (fr_header f)) with
  | Some MessageType.HELLO => error HelloMessage
  | Some MessageType.BACKEND_REGISTER => error BackendRegisterMessage
  | Some MessageType.CAPABILITY_PUBLISH => error CapabilityPublishMessage
  | Some MessageType.HEALTH_UPDATE => error HealthEvidence
  | Some MessageType.AVAILABILITY_UPDATE => error AvailabilityEvidence
  | Some MessageType.READINESS_UPDATE => error ReadinessEvidence
  | Some MessageType.RESIDENCY_UPDATE => error ResidencyEvidence
  | Some MessageType.CAPACITY_UPDATE => error (CapacityEvidence * CapacityDetail)%type
  | Some MessageType.LATENCY_UPDATE => error LatencyEvidence
  | Some MessageType.COST_UPDATE => error CostEvidence
  | Some MessageType.ROUTE_REQUEST => error RouteRequestMessage
  | Some MessageType.DISPATCH_RESULT => error DispatchResultMessage
  | Some MessageType.ADMIN_REQUEST => error AdminRequest
  | _ => None
  end.

Lemma decoded_error {A} `{WireMessage A} limits conn f (handle : A -> M Coordinator (option Handled)) error payload w :
  decode_error (A := A) limits (fr_payload f) = Some error ->
  encode_wire limits {| er_code := OutcomeCode.REJECT_INVALID; er_detail := error |} = inr payload ->
  decoded limits conn f handle w =
  (let '(r, c) := send_on conn (make_frame MessageType.ERROR_MESSAGE payload) (w_env w) in
   (going_on (match r with inr _ => true | inl _ => false end), w <| w_env := c |>)).
Proof.
  unfold decode_error, decoded. destruct (decode_wire limits _) as [[e|m]|]; [|done..]. intros [= ->] He.
  unfold reply_error. rewrite He. unfold send_frame, on_coordinator, ask, mbind, M_bind, mret, M_ret.
  by destruct (send_on _ _ _) as [[|] c].
Qed.

(** C22: A frame whose payload is not a message of its type leaves the router, the
    identities and every map of the coordinator as they are, takes no lock, and
    is answered on its own connection with REJECT_INVALID and the decoder's
    error. *)
Theorem malformed_frame_changes_nothing (limits : ResourceLimits) (clock : Call Coordinator UnixMillis)
    (catalog : ReferenceCatalog) (conn : ConnectionRef) (f : Frame) (error : string) (payload : list Z)
    (w : World Coordinator) (He : payload_error limits f = Some error)
    (Hp : encode_wire limits {| er_code := OutcomeCode.REJECT_INVALID; er_detail := error |} = inr payload) :
  handle_frame limits clock catalog conn f w =
  (let '(r, c) := send_on conn (make_frame MessageType.ERROR_MESSAGE payload) (w_env w) in
   (going_on (match r with inr _ => true | inl _ => false end), w <| w_env := c |>)).
Proof.
  unfold payload_error in He. unfold handle_frame.
  destruct (enum_of _ _ _) as [[]|]; try done; unfold mutate, handle_hello, handle_register, handle_route,
    handle_result, handle_control; by apply (decoded_error _ _ _ _ error).
Qed.

(** ** Handing over *)

Lemma serves_link_of conn c link : link_of conn c = Some link ->
  exists l, cd_heap c !! link = Some l /\ bl_connection l = conn.
Proof.
  unfold link_of. intros [_ H]%List.find_some. unfold serves in H.
  destruct (cd_heap c !! link) as [l|]; [|done]. exists l. by apply bool_decide_eq_true in H.
Qed.

Lemma change_link_lookup link link' f c :
  cd_heap (change_link link f c) !! link' = (if decide (link' = link) then f else id) <$> cd_heap c !! link'.
Proof.
  unfold change_link. cbn [cd_heap update_field]. destruct (decide (link' = link)) as [->|Hn].
  - apply lookup_alter_eq.
  - rewrite lookup_alter_ne by done. by destruct (cd_heap c !! link').
Qed.

(** A link keeps its connection, and gets results from there only. *)
Lemma arrive_link a c link l' :
  cd_heap (arrive a c) !! link = Some l' ->
  exists l, cd_heap c !! link = Some l /\ bl_connection l = bl_connection l' /\
    forall id m, bl_results l' !! id = Some m ->
      bl_results l !! id = Some m \/ (a = ResultArrives (bl_connection l) m /\ dr_dispatch_id m = id).
Proof.
  destruct a as [conn m'|ended]; cbn [arrive].
  - unfold store_result. destruct (link_of conn c) as [link'|] eqn:El; [|by exists l'; auto].
    apply serves_link_of in El as (l0 & Hl0 & Hc). rewrite change_link_lookup.
    destruct (decide (link = link')) as [->|]; [|exists l'; split; [|by auto]; by destruct (cd_heap c !! link)].
    rewrite Hl0. intros [= <-]. exists l0. split_and!; [done..|]. cbn [bl_results update_field]. intros id m.
    intros [[<- <-]|[_ Hr]]%lookup_insert_Some; rewrite <- Hc; auto.
  - unfold drop_link. destruct (cd_heap c !! ended) as [l0|]; [|by exists l'; auto].
    intros H. change (cd_heap (change_link ended (fun l => l <| bl_closed := true |>) c) !! link = Some l') in H.
    rewrite change_link_lookup in H. destruct (cd_heap c !! link) as [l|]; [|done]. injection H as <-. exists l.
    by destruct (decide (link = ended)); auto.
Qed.

Lemma await_link link id arrivals c l' :
  cd_heap (await link id arrivals c) !! link = Some l' ->
  exists l, cd_heap c !! link = Some l /\ bl_connection l = bl_connection l' /\
    forall id m, bl_results l' !! id = Some m ->
      bl_results l !! id = Some m \/ (ResultArrives (bl_connection l) m ∈ arrivals /\ dr_dispatch_id m = id).
Proof.
  revert c. induction arrivals as [|a arrivals IH]; intros c; cbn [await]; cbv zeta;
    (destruct (match cd_heap c !! link with Some _ => _ | None => _ end); [by exists l'; auto|]).
  - intros (l & H1 & H2 & H3)%(arrive_link (SessionEnds link)). exists l. split_and!; [done..|].
    intros id' m [?|[? _]]%H3; [by left|done].
  - intros (l1 & (l & H1 & E1 & H2)%arrive_link & E2 & H3)%IH. exists l. split_and!; [done|congruence|].
    intros id' m [[?|[-> ?]]%H2|[Hin ?]]%H3; [by left| |]; right; (split; [|done]).
    + by left.
    + right. by rewrite E1.
Qed.

Lemma take_result_from link id c l m :
  (take_result link id c).1 = Some m -> cd_heap c !! link = Some l ->
  bl_results l !! id = Some m \/ (ResultArrives (bl_connection l) m ∈ cd_arrivals c /\ dr_dispatch_id m = id).
Proof.
  unfold take_result. destruct (cd_heap (await link id (cd_arrivals c) c) !! link) as [l'|] eqn:E; [|done].
  cbn [mbind option_bind]. destruct (bl_results l' !! id) as [m'|] eqn:Er; [|done]. intros [= ->] Hl.
  apply await_link in E as (l1 & H1 & _ & H2). rewrite Hl in H1. injection H1 as <-. by apply H2.
Qed.

Lemma send_on_frame conn f c r c' : send_on conn f c = (r, c') ->
  cd_heap c' = cd_heap c /\ cd_links c' = cd_links c /\ cd_arrivals c' = cd_arrivals c /\
  (r = inr tt -> exists s s', cd_connections c !! conn = Some s /\ Transport.send f s = (inr tt, s')).
Proof.
  unfold send_on. destruct (cd_connections c !! conn) as [s|]; [|by intros [= <- <-]].
  destruct (Transport.send f s) as [r' s'] eqn:E. intros [= <- <-]. split_and!; [done..|]. intros ->.
  exists s, s'. done.
Qed.

(** C7: Whatever identity the process-wide allocator then issues for it, a
    dispatch is reported as handed over only through the link the target
    backend has at that moment, whose incarnation is the plan's, after the
    dispatch message was accepted for sending on that link's own connection, and
    on a result with this dispatch's identity and the code DISPATCHED that had
    come, or came while waiting, over that connection. *)
Theorem handoff_reaches_bound_incarnation (limits : ResourceLimits) (d : RouteDecision) (plan : RoutePlan)
    (context : DiscoveryContext) (ids : Allocator) (c : Coordinator)
    (Hover : di_handed_off (handoff limits d plan context ids c).1.1 = true) :
  let id := (allocate_id DispatchTag ids).1 in
  exists link l payload s s' m,
    cd_links c !! ck_backend_id (pl_primary plan) = Some link /\ cd_heap c !! link = Some l /\
    bl_backend_boot l = ck_backend_boot (pl_primary plan) /\
    encode_wire limits (dispatch_message_of id d plan) = inr payload /\
    cd_connections c !! bl_connection l = Some s /\
    Transport.send (make_frame MessageType.DISPATCH payload) s = (inr tt, s') /\
    dr_code m = OutcomeCode.DISPATCHED /\ di_dispatch_id (handoff limits d plan context ids c).1.1 = id /\
    (bl_results l !! id = Some m \/ (ResultArrives (bl_connection l) m ∈ cd_arrivals c /\ dr_dispatch_id m = id)).
Proof.
  cbv zeta. revert Hover. unfold handoff.
  destruct (cd_links c !! _) as [link|] eqn:Elink; [|done]. cbn [mbind option_bind].
  destruct (cd_heap c !! link) as [l|] eqn:El; [|done]. cbn [fmap option_fmap option_map].
  destruct (bl_backend_boot l != _) eqn:Eb; [done|]. apply negb_false_iff, bool_decide_eq_true in Eb.
  destruct (allocate_id DispatchTag ids) as [id ids']. cbn [fst].
  destruct (encode_wire limits _) as [|payload] eqn:Ep; [done|].
  destruct (send_on _ _ _) as [r c1] eqn:Es. apply send_on_frame in Es as (Eh & _ & Ea & Hs).
  destruct r as [|[]]; [done|]. destruct (Hs eq_refl) as (s & s' & Hc & Hsend).
  pose proof (take_result_from link id c1 l) as Ht. rewrite Eh, Ea in Ht.
  destruct (take_result link id c1) as [[m|] c2]; [|done]. intros Hcode%bool_decide_eq_true.
  exists link, l, payload, s, s', m. split_and!; try done. by apply Ht.
Qed.

(** ** The end of a session *)

Lemma fence_call_fences id generation boot now s :
  valid id -> valid boot ->
  let s' := (perform (FenceBackendBoot id generation boot OutcomeCode.FENCED) now s).2 in
  is_fenced s' id boot = true \/ max_backend_incarnations (cs_limits s') <= map_size (cs_fenced_boots s').
Proof.
  intros Hi Hb. cbv zeta. unfold perform, fence_backend_boot. rewrite !Is_true_true in *. rewrite Hi, Hb. cbn [negb orb].
  destruct (is_fenced s id boot) eqn:Ef; [by left|].
  destruct (Z.leb_spec (max_backend_incarnations (cs_limits s)) (map_size (cs_fenced_boots s))) as [Hle|_]; [by right|].
  left. destruct (cs_backends s !! id) as [e|]; [destruct (_ && _)|];
    unfold is_fenced; simpl; rewrite bool_decide_eq_true; apply lookup_insert_is_Some'; by left.
Qed.

Lemma call_outcome clock request (w : World Coordinator) :
  let '(r, w') := call clock request w in
  w_env w' = (clock (w_env w)).2 /\
  exists now s, r = (perform request now s).1 /\ w_state w' = (perform request now s).2.
Proof.
  unfold call, ask, locked, locked_ids, interfere, mbind, M_bind.
  destruct (clock (w_env w)) as [now c]. cbn [w_others update_field].
  destruct (w_others w) as [|f others]; [|destruct (f _) as [s ids]];
    cbn [w_state w_ids w_env w_others update_field];
    (destruct (perform request now _) as [r s'] eqn:E; split; [done|]; eexists now, _; by rewrite E).
Qed.

Lemma drop_link_lookup link c l :
  cd_heap c !! link = Some l ->
  cd_heap (drop_link link c) !! link = Some (l <| bl_closed := true |>) /\
  cd_links (drop_link link c) = delete (bl_backend_id l) (cd_links c).
Proof.
  intros Hl. unfold drop_link. rewrite Hl. split; [|done]. unfold change_link. simpl.
  by rewrite lookup_alter_eq, Hl.
Qed.

Lemma close_connection_maps conn c :
  cd_heap (close_connection conn c) = cd_heap c /\ cd_links (close_connection conn c) = cd_links c.
Proof. unfold close_connection. destruct (cd_connections c !! conn); [|done]. by destruct (finish_close _ _). Qed.

Lemma handoff_unlinked limits d plan context ids c :
  cd_links c !! ck_backend_id (pl_primary plan) = None ->
  di_code (handoff limits d plan context ids c).1.1 = OutcomeCode.REJECT_STALE_BACKEND.
Proof. intros H. unfold handoff. by rewrite H. Qed.

(** The end of a session that has a link: the link is dropped, then its
    incarnation is fenced. *)
Lemma serve_end_linked clock conn link l w :
  cd_heap (w_env w) !! link = Some l ->
  serve_end clock conn (Some link) w =
  (tt, (call clock (FenceBackendBoot (bl_backend_id l) (bl_backend_generation l) (bl_backend_boot l) OutcomeCode.FENCED)
          (w <| w_env := drop_link link (close_connection conn (w_env w)) |>)).2).
Proof.
  intros Hl. unfold serve_end, change, on_coordinator, ask, mbind, M_bind, mret, M_ret. cbn [w_env update_field].
  destruct (close_connection_maps conn (w_env w)) as [-> _]. rewrite Hl. cbn [w_env update_field].
  by destruct (call clock _ _).
Qed.

(** C10: When a session ends, the link it served is closed and its backend has no
    link, so that every later dispatch to that backend is refused as long as
    none is registered; and the incarnation is fenced, unless the router's table
    of fenced incarnations is full. *)
Theorem ended_session_is_fenced (limits : ResourceLimits) (clock : Call Coordinator UnixMillis) (conn : ConnectionRef)
    (link : LinkRef) (l : BackendLink) (w : World Coordinator)
    (Hclock : forall c, cd_links (clock c).2 = cd_links c /\ cd_heap (clock c).2 = cd_heap c)
    (Hl : cd_heap (w_env w) !! link = Some l) (Hid : valid (bl_backend_id l)) (Hboot : valid (bl_backend_boot l)) :
  let w' := (serve_end clock conn (Some link) w).2 in
  (is_fenced (w_state w') (bl_backend_id l) (bl_backend_boot l) = true \/
   max_backend_incarnations (cs_limits (w_state w')) <= map_size (cs_fenced_boots (w_state w'))) /\
  cd_heap (w_env w') !! link = Some (l <| bl_closed := true |>) /\
  forall d plan context ids, ck_backend_id (pl_primary plan) = bl_backend_id l ->
    di_code (handoff limits d plan context ids (w_env w')).1.1 = OutcomeCode.REJECT_STALE_BACKEND.
Proof.
  cbv zeta. rewrite (serve_end_linked _ _ _ l) by done. cbn [snd].
  match goal with |- context [call clock ?request ?w0] =>
    pose proof (call_outcome clock request w0) as H; destruct (call clock request w0) as [r w']
  end.
  destruct H as (He & now & s & _ & Hs). cbn [snd w_env update_field] in *.
  destruct (close_connection_maps conn (w_env w)) as [Eh El]. rewrite <- Eh in Hl.
  destruct (drop_link_lookup link _ l Hl) as [Hd1 Hd2].
  destruct (Hclock (drop_link link (close_connection conn (w_env w)))) as [C1 C2].
  split; [|rewrite He; split].
  - rewrite Hs. by apply fence_call_fences.
  - by rewrite C2.
  - intros d plan context ids Hp. apply handoff_unlinked. rewrite Hp, C1, Hd2. apply lookup_delete_eq.
Qed.

(** ** Serving a connection *)

(** What a router that serves keeps: it runs, it is well formed, its history is
    in order, and no incarnation that was fenced and gone in [s0] is back. *)
Definition no_retired_back (s0 s : CanonicalState) : Prop :=
  forall id boot, retired_boot s0 id boot -> retired_boot s id boot.
Definition serving_inv (s0 s : CanonicalState) (ids : Allocator) : Prop :=
  cs_running s /\ router_wf s /\ history_inv s ids /\ no_retired_back s0 s.

#[export] Instance no_retired_back_catalog s0 : CatalogPredicate (no_retired_back s0).
Proof. intros s s' Hs H id boot Hr. eapply retired_catalog; [exact Hs|]. by apply H. Qed.
#[export] Instance no_retired_back_router s0 : RouterInvariant (fun s _ => no_retired_back s0 s).
Proof.
  split; [apply _|]. intros request now s ids H id boot Hr.
  by apply (perform_keeps (I := fun s _ => retired_boot s id boot) request now s ids), H.
Qed.
#[export] Instance serving_router s0 : RouterInvariant (serving_inv s0).
Proof. unfold serving_inv. apply both_router; [apply _|]. apply both_router; [apply _|]. apply both_router; apply _. Qed.

(** C9: Whatever frames a connection delivers - malformed ones, calls the router
    refuses, dispatches, reroutes, control-plane requests and the end of the
    session included - and whatever the other threads do in between as long as
    each of their steps keeps the same invariant, serving it leaves the router
    running, its catalog well formed, its history in order, and every
    incarnation that was fenced and gone stays so. *)
Theorem serving_keeps_router (limits : ResourceLimits) (clock : Call Coordinator UnixMillis) (catalog : ReferenceCatalog)
    (conn : ConnectionRef) (link : option LinkRef) (frames : list Frame) (w : World Coordinator)
    (Hrunning : cs_running (w_state w)) (Hwf : router_wf (w_state w)) (Hhistory : history_inv (w_state w) (w_ids w))
    (Hothers : Forall (interference_keeps (serving_inv (w_state w))) (w_others w)) :
  let w' := (serve limits clock catalog conn link frames w).2 in
  cs_running (w_state w') /\ router_wf (w_state w') /\ history_inv (w_state w') (w_ids w') /\
  no_retired_back (w_state w) (w_state w').
Proof.
  cbv zeta. refine (proj1 (proj2 (serve_keeps limits clock catalog (serving_inv (w_state w)) _ conn link frames w _))).
  - intros s ids [H _]. by apply Is_true_true.
  - split; [|done]. unfold serving_inv. split_and!; try done. by intros id boot.
Qed.

(** ** Shutting down *)

(** After the control-plane request to shut down, stopping the coordinator
    does nothing: no connection is closed, no session is waited for, and the
    router is still running. *)
Theorem admin_shutdown_disables_stop (limits : ResourceLimits) (clock : Call Coordinator UnixMillis)
    (catalog : ReferenceCatalog) (o : CoordinatorOptions) (sessions : list (ConnectionRef * option LinkRef))
    (request : AdminRequest) (w : World Coordinator) (Hop : ar_op request = AdminOp.SHUTDOWN) :
  let w' := (handle_admin limits clock catalog request w).2 in
  stop o clock sessions w' = (Some tt, w') /\ w_state w' = w_state w /\
  cd_connections (w_env w') = cd_connections (w_env w).
Proof. unfold handle_admin. rewrite Hop. by split_and!. Qed.

(** ** Starting *)

Lemma run_calls_keep I `{!RouterInvariant I} calls s ids : I s ids -> I (run_calls calls s) ids.
Proof.
  revert s. induction calls as [|[request now] calls IH]; intros s H; [done|]. by apply IH, perform_keeps.
Qed.

Fixpoint all_accepted (requests : list MutationCall) (s : CanonicalState) : bool :=
  match requests with
  | [] => true
  | request :: requests =>
      accepted (perform request 0 s).1 && all_accepted requests (perform request 0 s).2
  end.

Definition timeless (request : MutationCall) : Prop := forall now s, perform request now s = perform request 0 s.

Lemma call_all_alone clock requests s ids e :
  Forall timeless requests -> all_accepted requests s = true ->
  exists e', call_all clock requests (alone s ids e) =
    (None, alone (run_calls ((fun r => (r, 0)) <$> requests) s) ids e').
Proof.
  revert s e. induction requests as [|request requests IH]; intros s e Ht Ha; [by exists e|].
  apply Forall_cons in Ht as [Ht Hts]. cbn [all_accepted] in Ha. apply andb_true_iff in Ha as [Ha Has].
  cbn [call_all]. unfold call. rewrite !bind_run, ask_run. destruct (clock e) as [now e1]. cbv beta iota.
  rewrite locked_run, Ht. destruct (perform request 0 s) as [r s1] eqn:E. cbn [fst snd] in Ha, Has.
  cbv beta iota. rewrite Ha. cbn [negb]. destruct (IH s1 e1 Hts Has) as [e' ->]. exists e'.
  unfold run_calls. cbn [fmap list_fmap fold_left fst snd]. by rewrite E.
Qed.

Lemma catalog_calls_timeless catalog : Forall timeless (catalog_calls catalog).
Proof. unfold catalog_calls. constructor; [done|]. apply Forall_fmap, Forall_forall. by intros m _. Qed.

Lemma map_size_insert {K A} `{Countable K} k (a : A) (m : gmap K A) :
  m !! k = None -> map_size (<[k := a]> m) = map_size m + 1.
Proof. intros Hk. unfold map_size. rewrite map_size_insert_None by done. lia. Qed.

Definition with_models (models : gmap (EntityId ModelTag) ModelDescriptor) (ms : list ModelDescriptor)
    : gmap (EntityId ModelTag) ModelDescriptor :=
  fold_left (fun models m => <[md_model_id m := m]> models) ms models.

(** Models the router does not know yet, as many as it has room for. *)
Lemma register_models_accepted ms s :
  cs_shutting_down s = false -> Forall (fun m => model_validate m = "") ms -> NoDup (md_model_id <$> ms) ->
  Forall (fun m => cs_models s !! md_model_id m = None /\ cs_model_watermark s !! md_model_id m = None) ms ->
  map_size (cs_models s) + Z.of_nat (length ms) <= max_models (cs_limits s) ->
  all_accepted (RegisterModel <$> ms) s = true /\
  cs_models (run_calls ((fun r => (r, 0)) <$> (RegisterModel <$> ms)) s) = with_models (cs_models s) ms.
Proof.
  revert s. induction ms as [|m ms IH]; intros s Hs Hv Hn Hf Hl; [done|].
  apply Forall_cons in Hv as [Hv Hvs]. apply Forall_cons in Hf as [[Hm Hw] Hf]. rewrite fmap_cons in Hn.
  apply NoDup_cons in Hn as [Hm' Hn]. cbn [length] in Hl.
  set (s1 := s <| cs_model_watermark := <[md_model_id m := md_model_generation m]> (cs_model_watermark s) |>
               <| cs_models := <[md_model_id m := m]> (cs_models s) |>).
  assert (exists r, perform (RegisterModel m) 0 s = (r, s1) /\ accepted r = true) as (r & Hr & Ha).
  { eexists. split; [|shelve]. unfold perform, register_model. cbv zeta. rewrite Hv, Hs, Hm, Hw.
    rewrite (proj2 (Z.leb_gt _ _)) by lia. reflexivity. Unshelve. reflexivity. }
  change (RegisterModel <$> m :: ms) with (RegisterModel m :: (RegisterModel <$> ms)).
  cbn [all_accepted fmap list_fmap run_calls fold_left fst snd]. rewrite Hr. cbn [fst snd]. rewrite Ha.
  apply (IH s1); try done.
  - apply Forall_forall. intros m2 Hin. assert (md_model_id m <> md_model_id m2).
    { intros E. apply Hm'. rewrite E. by apply list_elem_of_fmap_2. }
    rewrite Forall_forall in Hf. destruct (Hf _ Hin). unfold s1. cbn. by rewrite !lookup_insert_ne.
  - unfold s1. cbn. rewrite map_size_insert by done. lia.
Qed.

Lemma all_accepted_cons request requests s s1 r :
  perform request 0 s = (r, s1) -> accepted r = true ->
  all_accepted (request :: requests) s = all_accepted requests s1 /\
  run_calls ((fun r => (r, 0)) <$> request :: requests) s = run_calls ((fun r => (r, 0)) <$> requests) s1.
Proof.
  intros Hr Ha. unfold run_calls. cbn [all_accepted fmap list_fmap fold_left fst snd]. rewrite Hr. cbn [fst snd].
  by rewrite Ha.
Qed.

(** A provider and models fit a router that has none. *)
Lemma catalog_accepted p ms s :
  valid (pd_provider_id p) -> valid (pd_generation p) ->
  Forall (fun m => model_validate m = "") ms -> NoDup (md_model_id <$> ms) ->
  cs_shutting_down s = false -> cs_models s = ∅ -> cs_providers s = ∅ -> cs_model_watermark s = ∅ ->
  1 <= max_providers (cs_limits s) -> Z.of_nat (length ms) <= max_models (cs_limits s) ->
  all_accepted (RegisterProvider p :: (RegisterModel <$> ms)) s = true /\
  cs_models (run_calls ((fun r => (r, 0)) <$> RegisterProvider p :: (RegisterModel <$> ms)) s) = with_models ∅ ms.
Proof.
  intros Hi Hg Hvalid Hnodup Hs Hm Hp Hw H1 H3.
  set (s1 := s <| cs_providers := <[pd_provider_id p := p]> (cs_providers s) |>).
  assert (exists r, perform (RegisterProvider p) 0 s = (r, s1) /\ accepted r = true) as (r & Hr & Ha).
  { eexists. split; [|shelve]. unfold perform, register_provider. cbv zeta. rewrite Hs, Hp.
    rewrite !Is_true_true in *. rewrite Hi, Hg, lookup_empty.
    change (map_size (∅ : gmap (EntityId ProviderTag) ProviderDescriptor)) with 0.
    rewrite (proj2 (Z.leb_gt _ _)) by lia. cbn [negb andb]. unfold s1. rewrite Hp. reflexivity.
    Unshelve. reflexivity. }
  destruct (all_accepted_cons _ (RegisterModel <$> ms) _ _ _ Hr Ha) as [-> ->].
  rewrite <- Hm. apply (register_models_accepted ms s1); try done.
  - apply Forall_forall. intros m _. cbn. by rewrite Hm, Hw.
  - cbn. rewrite Hm. change (map_size ∅) with 0. lia.
Qed.

Lemma with_models_lookup ms models m :
  NoDup (md_model_id <$> ms) -> m ∈ ms -> with_models models ms !! md_model_id m = Some m.
Proof.
  unfold with_models. revert models. induction ms as [|m0 ms IH]; intros models Hn Hin; [by apply not_elem_of_nil in Hin|].
  rewrite fmap_cons in Hn. apply NoDup_cons in Hn as [H0 Hn]. apply elem_of_cons in Hin as [->|Hin]; [|by apply IH].
  cbn [fold_left]. clear IH Hn. revert models. induction ms as [|m1 ms IH] using rev_ind; intros models; cbn [fold_left].
  - apply lookup_insert_eq.
  - rewrite fmap_app, not_elem_of_app in H0. destruct H0 as [H0 H1]. rewrite fold_left_app. cbn [fold_left].
    rewrite lookup_insert_ne; [by apply IH|]. intros E. apply H1. rewrite <- E. by left.
Qed.

Lemma reference_model_ids :
  md_model_id <$> make_models make_catalog 1 = [EntityIdOf 1; EntityIdOf 2; EntityIdOf 3].
Proof. vm_compute. reflexivity. Qed.

(** [start] when nothing is to be loaded and no other thread runs. *)
Lemma start_unloaded (clock : Call Coordinator UnixMillis) s ids e o :
  cs_running s = false -> options_validate o = "" -> op_load_on_start o = false ->
  exists now e', start_router clock o (alone s ids e) =
    (Some (start_publish now (s <| cs_shutting_down := false |>)).1,
     alone (start_publish now (s <| cs_shutting_down := false |>)).2 ids e').
Proof.
  intros Hr Hv Hl. unfold start_router, start_read. rewrite Hv, Hl, bool_decide_eq_true_2 by done. cbn [negb andb].
  rewrite bind_run, ret_run. cbv beta iota. rewrite bind_run, locked_run.
  unfold start_admit. rewrite Hr. cbv beta iota. rewrite bind_run, publish_alone.
  destruct (clock e) as [now e1]. cbv beta iota. rewrite ret_run. by exists now, e1.
Qed.

Lemma construct_run o s ids e :
  construct_router o (alone s ids e) = (tt, alone (router_init o ids).1 (router_init o ids).2 e).
Proof. unfold construct_router. cbn [alone w_ids]. by destruct (router_init o ids). Qed.

(** What [start] does to a router that has just been constructed. *)
Definition fresh_start (o : ModelRouterOptions) (ids : Allocator) (now : UnixMillis) : CanonicalState :=
  (start_publish now ((router_init o ids).1 <| cs_shutting_down := false |>)).2.

Lemma fresh_start_facts o ids now :
  cs_running (router_init o ids).1 = false /\
  accepted (start_publish now ((router_init o ids).1 <| cs_shutting_down := false |>)).1 = true /\
  cs_shutting_down (fresh_start o ids now) = false /\ cs_models (fresh_start o ids now) = ∅ /\
  cs_providers (fresh_start o ids now) = ∅ /\ cs_model_watermark (fresh_start o ids now) = ∅ /\
  cs_limits (fresh_start o ids now) = op_limits o /\
  (0 < max_route_history (op_limits o) ->
   serving_inv (fresh_start o ids now) (fresh_start o ids now) (router_init o ids).2).
Proof.
  unfold fresh_start, router_init. destruct (if valid (op_router_id o) then _ else _) as [router_id ids'].
  split_and!; try done. intros Hh. unfold serving_inv. split_and!; [done| | |by intros id boot].
  - by apply (wf_frame canonical_state_default), wf_empty.
  - split; [done|]. intros _. split; cbn; [|constructor|by intros ? ?%not_elem_of_nil|unfold Request.size; simpl; lia].
    intros id. rewrite lookup_empty. split; [by intros ?%not_elem_of_nil|by intros ?%is_Some_None].
Qed.

Lemma start_fresh (clock : Call Coordinator UnixMillis) o ids e :
  options_validate o = "" -> op_load_on_start o = false ->
  exists now e' r, start_router clock o (alone (router_init o ids).1 (router_init o ids).2 e) =
    (Some r, alone (fresh_start o ids now) (router_init o ids).2 e') /\ accepted r = true.
Proof.
  intros Hv Hl. destruct (fresh_start_facts o ids 0) as [Hr _].
  destruct (start_unloaded clock _ (router_init o ids).2 e o Hr Hv Hl) as (now & e1 & E).
  exists now, e1. eexists. split; [exact E|apply fresh_start_facts].
Qed.

(** Where nothing is loaded and no other thread runs yet, a coordinator whose
    options are coherent and whose limits have room for the reference catalog
    starts: its router runs and knows exactly the three reference models, the
    listener is open, and everything a serving router keeps holds. *)
Theorem coordinator_starts (o : CoordinatorOptions) (clock : Call Coordinator UnixMillis) (w : World Coordinator)
    (Halone : w_others w = []) (Hload : cn_load_on_start o = false)
    (Hoptions : options_validate (router_options o) = "") (Hproviders : 1 <= max_providers (cn_limits o))
    (Hmodels : 3 <= max_models (cn_limits o)) (Hhistory : 0 < max_route_history (cn_limits o)) :
  let '(r, w') := start_coordinator o clock make_catalog (inr tt) w in
  r = Some None /\ cd_listening (w_env w') = true /\
  cs_models (w_state w') = with_models ∅ (make_models make_catalog 1) /\
  (forall m, m ∈ make_models make_catalog 1 -> cs_models (w_state w') !! md_model_id m = Some m) /\
  serving_inv (w_state w') (w_state w') (w_ids w').
Proof.
  destruct w as [s0 ids e others]. cbn [w_others] in Halone. subst others. fold (alone s0 ids e).
  unfold start_coordinator. rewrite bind_run, construct_run. cbv beta iota. rewrite bind_run.
  destruct (start_fresh clock (router_options o) ids e Hoptions Hload) as (now & e1 & r & -> & Ha). cbv beta iota.
  rewrite Ha. cbn [negb].
  destruct (fresh_start_facts (router_options o) ids now) as (_ & _ & Hs & Hm & Hp & Hw & Hlimits & Hinv).
  change (op_limits (router_options o)) with (cn_limits o) in Hlimits, Hinv. specialize (Hinv Hhistory).
  revert Hs Hm Hp Hw Hlimits Hinv. generalize (fresh_start (router_options o) ids now), (router_init (router_options o) ids).2.
  intros s ids1 Hs Hm Hp Hw Hlimits Hinv.
  pose proof (reference_models_valid 1) as Hvalid. pose proof reference_model_ids as Hids.
  assert (Hnodup : NoDup (md_model_id <$> make_models make_catalog 1)).
  { rewrite Hids. by apply (bool_decide_unpack _), Is_true_true. }
  assert (Hlen : length (make_models make_catalog 1) = 3%nat).
  { pose proof (f_equal length Hids) as H. by rewrite length_fmap in H. }
  pose proof (catalog_calls_timeless make_catalog) as Htimeless. unfold catalog_calls in *.
  revert Hvalid Hnodup Hlen Htimeless. generalize (make_models make_catalog 1). intros ms Hvalid Hnodup Hlen Htimeless.
  destruct (catalog_accepted (reference_provider make_catalog) ms s) as [Hacc Hmodels']; try done;
    [rewrite Hlimits; lia|rewrite Hlimits, Hlen; lia|].
  destruct (call_all_alone clock _ s ids1 e1 Htimeless Hacc) as [e2 Hcall].
  rewrite bind_run, Hcall. cbv beta iota. rewrite bind_run. unfold change. rewrite ask_run. cbv beta iota.
  rewrite ret_run. split_and!; [done|done|exact Hmodels'| |].
  - intros m Hin. cbn [alone w_state]. rewrite Hmodels'. by apply with_models_lookup.
  - cbn [alone w_state w_ids]. match goal with |- serving_inv ?s' _ _ =>
      assert (serving_inv s s' ids1) as (H1 & H2 & H3 & _) by by apply run_calls_keep; try apply _ end.
    unfold serving_inv. split_and!; [exact H1|exact H2|exact H3|by intros id boot].
Qed.

(** ** A coordinator with one connection *)

Definition sample_clock : Call Coordinator UnixMillis := fun c => (100, c).
Definition loopback : Coordinator :=
  (coordinator_idle empty_disk) <| cd_connections := {[0%nat := session_open transport_options_default]} |>.
Definition sample_options : ModelRouterOptions := router_options coordinator_options_default.
Definition waiting_coordinator : World Coordinator :=
  alone (fresh_start sample_options 0 100) (router_init sample_options 0).2 loopback.

(** A connected backend, and a plan for its incarnation. *)
Definition sample_incarnation : BackendDescriptor :=
  backend_descriptor_default <| bd_backend_id := EntityIdOf 7 |> <| bd_backend_generation := GenerationOf 1 |>
    <| bd_backend_boot := GenerationOf 3 |>.
Definition linked : Coordinator := install_link sample_incarnation 0%nat loopback.
Definition sample_plan : RoutePlan :=
  route_plan_default <| pl_primary :=
    candidate_key_default <| ck_backend_id := EntityIdOf 7 |> <| ck_backend_boot := GenerationOf 3 |> |>.
Definition dispatched_result : DispatchResultMessage :=
  {| dr_dispatch_id := (allocate_id DispatchTag 0).1; dr_decision_id := EntityIdOf 1; dr_code := OutcomeCode.DISPATCHED;
     dr_failure := FailureClass.UNKNOWN; dr_latency_micros := 5; dr_detail := "done" |}.
Definition answering : Coordinator := linked <| cd_arrivals := [ResultArrives 0%nat dispatched_result] |>.

Definition sample_context : DiscoveryContext :=
  {| dx_router_id := EntityIdOf 1; dx_router_epoch := GenerationOf 1; dx_coordinator_epoch := GenerationOf 1;
     dx_tenant := none; dx_name_space := none; dx_now := 100; dx_limits := default_resource_limits |}.
Definition shutdown_request : AdminRequest :=
  {| ar_op := AdminOp.SHUTDOWN; ar_backend_id := none; ar_model_id := none; ar_decision_id := none;
     ar_generation := 0; ar_value := 0; ar_detail := "" |}.

Lemma malformed_frame_changes_nothing_witness :
  let f := make_frame MessageType.BACKEND_REGISTER [1; 2; 3] in
  exists error payload,
    handle_frame default_resource_limits sample_clock make_catalog 0%nat f waiting_coordinator =
    (going_on true, waiting_coordinator <| w_env :=
       (send_on 0%nat (make_frame MessageType.ERROR_MESSAGE payload) loopback).2 |>) /\
    payload_error default_resource_limits f = Some error.
Proof.
  intros f. destruct (payload_error default_resource_limits f) as [error|] eqn:He; [|vm_compute in He; discriminate He].
  destruct (encode_wire default_resource_limits {| er_code := OutcomeCode.REJECT_INVALID; er_detail := error |})
    as [e|payload] eqn:Hp.
  - exfalso. revert e Hp. vm_compute in He. injection He as <-. vm_compute. discriminate.
  - exists error, payload. split; [|done].
    rewrite (malformed_frame_changes_nothing _ _ _ _ f error payload _ He Hp).
    vm_compute in He. injection He as <-. vm_compute in Hp. injection Hp as <-. vm_compute. reflexivity.
Defined.

Lemma handoff_reaches_bound_incarnation_witness :
  exists payload m,
    encode_wire default_resource_limits (dispatch_message_of (allocate_id DispatchTag 0).1 route_decision_default sample_plan)
      = inr payload /\
    dr_code m = OutcomeCode.DISPATCHED /\ ResultArrives 0%nat m ∈ cd_arrivals answering.
Proof.
  destruct (handoff_reaches_bound_incarnation default_resource_limits route_decision_default sample_plan
    sample_context 0 answering) as (link & l & payload & s & s' & m & H1 & H2 & _ & He & _ & _ & Hm & _ & Hr);
    [vm_compute; reflexivity|].
  vm_compute in H1. injection H1 as <-. vm_compute in H2. injection H2 as <-.
  exists payload, m. split; [exact He|]. split; [exact Hm|].
  destruct Hr as [Hr|[Hr _]]; [discriminate Hr|exact Hr].
Defined.

Lemma ended_session_is_fenced_witness :
  let w' := (serve_end sample_clock 0%nat (Some 0%nat) (waiting_coordinator <| w_env := linked |>)).2 in
  is_fenced (w_state w') (EntityIdOf 7) (GenerationOf 3) = true /\
  di_code (handoff default_resource_limits route_decision_default sample_plan sample_context 0 (w_env w')).1.1
    = OutcomeCode.REJECT_STALE_BACKEND.
Proof.
  intros w'.
  destruct (ended_session_is_fenced default_resource_limits sample_clock 0%nat 0%nat
    {| bl_backend_id := EntityIdOf 7; bl_backend_generation := GenerationOf 1; bl_backend_boot := GenerationOf 3;
       bl_connection := 0%nat; bl_results := ∅; bl_closed := false |} (waiting_coordinator <| w_env := linked |>))
    as (Hf & _ & Hd); [done|vm_compute; reflexivity|exact I|exact I|].
  split; [|by apply Hd].
  destruct Hf as [Hf|Hf]; [exact Hf|]. exfalso. revert Hf. vm_compute. intros H. by apply H.
Defined.

(** A session with a malformed registration, a ping and the end, during which
    another thread registers a model. *)
Definition sample_frames : list Frame :=
  [make_frame MessageType.BACKEND_REGISTER [1; 2; 3]; make_frame MessageType.PING []].
Definition busy_coordinator : World Coordinator :=
  waiting_coordinator <| w_others := [other_calls [(RegisterModel (small_descriptor make_catalog 1), 100)]] |>.

Lemma serving_keeps_router_witness :
  let w' := (serve default_resource_limits sample_clock make_catalog 0%nat None sample_frames busy_coordinator).2 in
  ss_closed <$> cd_connections (w_env w') !! 0%nat = Some true /\ cs_running (w_state w') /\ router_wf (w_state w').
Proof.
  intros w'. split; [vm_compute; reflexivity|].
  destruct (fresh_start_facts sample_options 0 100) as (_ & _ & _ & _ & _ & _ & _ & Hinv).
  destruct Hinv as (H1 & H2 & H3 & _); [by vm_compute|].
  destruct (serving_keeps_router default_resource_limits sample_clock make_catalog 0%nat None sample_frames busy_coordinator)
    as (R & W & _); [exact H1|exact H2|exact H3| |exact (conj R W)].
  apply Forall_singleton. intros s ids Hs. exact (run_calls_keep (serving_inv _) _ s ids Hs).
Defined.

Lemma admin_shutdown_disables_stop_witness :
  let w' := (handle_admin default_resource_limits sample_clock make_catalog
    shutdown_request waiting_coordinator).2 in
  stop coordinator_options_default sample_clock [(0%nat, None)] w' = (Some tt, w') /\
  cs_running (w_state w') = true /\ ss_closed <$> cd_connections (w_env w') !! 0%nat = Some false.
Proof.
  intros w'.
  destruct (admin_shutdown_disables_stop default_resource_limits sample_clock make_catalog coordinator_options_default
    [(0%nat, None)] shutdown_request waiting_coordinator) as (Hs & _ & _); [done|].
  split; [exact Hs|]. split; vm_compute; reflexivity.
Defined.

Lemma coordinator_starts_witness :
  let '(r, w') := start_coordinator coordinator_options_default sample_clock make_catalog (inr tt)
    (alone canonical_state_default 0 loopback) in
  r = Some None /\ cd_listening (w_env w') = true /\ map_size (cs_models (w_state w')) = 3.
Proof.
  pose proof (coordinator_starts coordinator_options_default sample_clock (alone canonical_state_default 0 loopback)
    eq_refl eq_refl) as H.
  destruct (start_coordinator _ _ _ _ _) as [r w'] eqn:E.
  destruct H as (Hr & Hl & Hm & _); [by vm_compute..|]. split; [exact Hr|]. split; [exact Hl|].
  rewrite Hm. vm_compute. reflexivity.
Defined.
