(* ===== verification/BackendWorker.v ===== *)
(** * The reference backend worker ([reference/backend_worker_main.cpp])

    The other end of a coordinator's connection: the messages a worker sends to
    join, how it reads the answers, and how it answers dispatches.  The theorems
    put the two ends together: a router the worker is new to accepts everything
    it sends and then holds its evidence, and what it answers to a dispatch is
    what the coordinator's handoff waits for. *)
From S2P Require Import Prelude.
From S2P Require Import Bytes.
From S2P Require Import Ids.
From S2P Require Import Outcome.
From S2P Require Import Limits.
From S2P Require Import Clock.
From S2P Require Import Codec.
From S2P Require Import PersistRecords.
From S2P Require Import Capability.
From S2P Require Import Evidence.
From S2P Require Import Catalog.
From S2P Require Import Request.
From S2P Require Import Candidate.
From S2P Require Import Eligibility.
From S2P Require Import Decision.
From S2P Require Import RouterState.
From S2P Require Import RouterMutation.
From S2P Require Import Providers.
From S2P Require Import Frame.
From S2P Require Import Transport.
From S2P Require Import WireRecords.
From S2P Require Import WireMessages.
From S2P Require Import ReferenceProfiles.
From S2P Require Import RouterRun.
From S2P Require Import Coordinator.
From S2P Require Import CoordinatorRun.

(** ** What a worker publishes *)

(** [wo_cuda_verified]: the build has a probe, it was asked for, and it found a
    device and checked it. *)
Record WorkerOptions := {
  wo_host : string;
  wo_port : Z;
  wo_backend_id : Z;
  wo_boot : Z;
  wo_generation : Z;
  wo_registration : Z;
  wo_cost_base : Z;
  wo_latency_micros : Z;
  wo_queue_micros : Z;
  wo_price_generation : Z;
  wo_cuda_verified : bool
}.
Definition worker_options_default : WorkerOptions :=
  {| wo_host := "127.0.0.1"; wo_port := 0; wo_backend_id := 1; wo_boot := 1; wo_generation := 1;
     wo_registration := 1; wo_cost_base := 100; wo_latency_micros := 1000; wo_queue_micros := 100;
     wo_price_generation := 1; wo_cuda_verified := false |}.

Section Messages.
Context (o : WorkerOptions).
Let id : EntityId BackendTag := EntityIdOf (wo_backend_id o).
Let boot : Generation BackendBootTag := GenerationOf (wo_boot o).
Let generation : Generation BackendTag := GenerationOf (wo_generation o).
Definition worker_source : string := "reference-backend-worker".

Definition worker_hello : HelloMessage :=
  {| hm_router_id := none; hm_router_epoch := none; hm_coordinator_epoch := none; hm_backend_id := id;
     hm_backend_generation := generation; hm_backend_boot := boot; hm_product := "Model Router 1.0.0";
     hm_protocol_version := protocol_version |}.

Definition worker_backend : BackendDescriptor :=
  make_backend make_catalog id generation boot (GenerationOf (wo_registration o))
    (wo_host o +:+ ":" +:+ to_string_int (wo_port o)) Provenance.SYNTHETIC 1.

Definition worker_claim (key : CapabilityKey) : CapabilityEvidence :=
  (claim key CapabilityState.VERIFIED (bd_capability_profile_id worker_backend) (GenerationOf 1) 1 worker_source)
    <| ce_backend_boot := boot |>.
Definition key_offline_execution : CapabilityKey := CapabilityKeyOf "execution/offline".
Definition worker_publication : BackendCapabilityPublication :=
  {| pub_backend_id := id; pub_backend_generation := generation; pub_backend_boot := boot;
     pub_profile_id := bd_capability_profile_id worker_backend; pub_generation := GenerationOf 1;
     pub_claims := worker_claim <$>
       [key_streaming; key_local_execution; key_offline_execution; key_text_generation] ++
       (if wo_cuda_verified o then [key_cuda_execution] else []) |}.

Definition worker_evidence {S g} (state : S) : BackendEvidence S g :=
  BackendEvidenceOf state (GenerationOf 1) id generation boot none 1 kNoExpiry worker_source "".

Definition worker_capacity : CapacityDetail :=
  capacity_detail_default <| cd_backend_id := id |> <| cd_backend_boot := boot |>
    <| cd_available_slots := 16 |> <| cd_total_slots := 16 |> <| cd_observed_at := 1 |>.

Definition worker_latency : LatencyEvidence :=
  latency_evidence_default <| lt_backend_id := id |> <| lt_backend_boot := boot |>
    <| lt_health_generation := GenerationOf 1 |> <| lt_dispatch_micros := wo_latency_micros o |>
    <| lt_queue_micros := wo_queue_micros o |> <| lt_tail_micros := wo_latency_micros o |>
    <| lt_completed_micros := wo_latency_micros o |> <| lt_sample_count := 32 |>
    <| lt_observed_at := 1 |> <| lt_source := worker_source |>.

Definition worker_cost (model_id : EntityId ModelTag) (total : Z) : CostEvidence :=
  make_cost_evidence id model_id (GenerationOf (wo_price_generation o)) total total total 1.

(** The base price of the three models; [None]: the multiplication is undefined. *)
Definition worker_prices : list (EntityId ModelTag * option Z) :=
  let base := signed64 (wo_cost_base o) in
  [(rf_small_model make_catalog, Some base); (rf_general_model make_catalog, scaled_price base 3);
   (rf_specialist_model make_catalog, scaled_price base 5)].
End Messages.

(** ** Joining *)

Section Join.
Context (limits : ResourceLimits) (o : WorkerOptions).
Context {P : Type} (exchange : Frame -> P -> option Frame * P).

(** One step of [main]: the state of the peer, and [inl] the exit status;
    [None]: nothing is known about the rest of the run. *)
Definition Step : Type := P -> option (Z + unit) * P.
Definition exits (status : Z) : Step := fun p => (Some (inl status), p).
Definition unknown : Step := fun p => (None, p).
Definition goes_on : Step := fun p => (Some (inr tt), p).

(** Encode, send and wait for an answer; each failure ends the worker. *)
Definition ask_peer {A} `{WireMessage A} (type : MessageType.t) (m : A) (k : Frame -> Step) : Step := fun p =>
  match encode_wire limits m with
  | inl _ => exits 3 p
  | inr payload =>
      match exchange (make_frame type payload) p with
      | (None, p) => exits 3 p
      | (Some response, p) => k response p
      end
  end.

Definition read_answer {A} `{WireMessage A} (response : Frame) (k : A -> Step) : Step :=
  match decode_wire limits (fr_payload response) with
  | None => unknown
  | Some (inl _) => exits 3
  | Some (inr m) => k m
  end.

Fixpoint in_turn (steps : list Step) : Step := fun p =>
  match steps with
  | [] => goes_on p
  | step :: steps =>
      match step p with
      | (Some (inr _), p) => in_turn steps p
      | stopped => stopped
      end
  end.

Definition say_hello : Step :=
  ask_peer MessageType.HELLO (worker_hello o) (fun response =>
    if fh_message_type (fr_header response) =? MessageType.index MessageType.HELLO_ACK then goes_on else exits 3).

Definition register : Step :=
  ask_peer MessageType.BACKEND_REGISTER (BackendRegisterOf (worker_backend o)) (fun response =>
    read_answer response (fun ack : BackendRegisterAckMessage =>
      if ba_code ack == OutcomeCode.ACCEPTED then goes_on else exits 4)).

(** [send_evidence], and the same steps for the capabilities. *)
Definition publish {A} `{WireMessage A} (type : MessageType.t) (m : A) : Step :=
  ask_peer type m (fun response =>
    read_answer response (fun status : AdminResponse =>
      if (ap_code status == OutcomeCode.ACCEPTED) || (ap_code status == OutcomeCode.NO_CHANGE)
      then goes_on else exits 3)).

Definition publish_price (price : EntityId ModelTag * option Z) : Step :=
  match price.2 with
  | None => unknown
  | Some total => publish MessageType.COST_UPDATE (worker_cost o price.1 total)
  end.

Definition join : Step := in_turn ([
  say_hello; register;
  publish MessageType.CAPABILITY_PUBLISH (CapabilityPublishOf (worker_publication o));
  publish MessageType.HEALTH_UPDATE (worker_evidence o HealthState.HEALTHY);
  publish MessageType.AVAILABILITY_UPDATE (worker_evidence o AvailabilityState.AVAILABLE);
  publish MessageType.READINESS_UPDATE (worker_evidence o ReadinessState.READY);
  publish MessageType.RESIDENCY_UPDATE (worker_evidence o ResidencyState.RESIDENT);
  publish MessageType.CAPACITY_UPDATE (worker_evidence o CapacityState.AVAILABLE, worker_capacity o);
  publish MessageType.LATENCY_UPDATE (worker_latency o)] ++ (publish_price <$> worker_prices o)).

(** ** Serving dispatches *)

(** A fixed arithmetic transform of the target: 64-bit FNV over its identities. *)
Definition mix (v item : Z) : Z := word64 (Z.lxor v item * 1099511628211).
Definition synthetic_step (key : CandidateKey) (attempt : Z) : Z :=
  fold_left mix [value (ck_model_id key); value (ck_model_generation key); value (ck_backend_id key);
    value (ck_backend_boot key); value (ck_endpoint_id key); attempt] 14695981039346656037.

Definition worker_result (m : DispatchMessage) : DispatchResultMessage :=
  {| dr_dispatch_id := dm_dispatch_id m; dr_decision_id := dm_decision_id m; dr_code := OutcomeCode.DISPATCHED;
     dr_failure := FailureClass.UNKNOWN; dr_latency_micros := wo_latency_micros o;
     dr_detail := "synthetic-step=" +:+ to_string_int (synthetic_step (dm_target m) (dm_attempt m)) |}.

(** One round of the serving loop: what is sent, if anything, or the loop ends;
    [None]: see [decode_message]. *)
Inductive Round := RoundSends (f : Frame) | RoundSkips | RoundEnds.
Definition worker_round (f : Frame) : option Round :=
  let type := fh_message_type (fr_header f) in
  return_if type =? MessageType.index MessageType.PING with Some (RoundSends (make_frame MessageType.PONG [])) ;;
  return_if type =? MessageType.index MessageType.BYE with Some RoundEnds ;;
  return_if negb (type =? MessageType.index MessageType.DISPATCH) with Some RoundSkips ;;
  match decode_wire (M := DispatchMessage) limits (fr_payload f) with
  | None => None
  | Some (inl _) => Some RoundSkips
  | Some (inr m) =>
      Some (match encode_wire limits (worker_result m) with
            | inl _ => RoundEnds
            | inr payload => RoundSends (make_frame MessageType.DISPATCH_RESULT payload)
            end)
  end.
End Join.

(** ** A dispatch, from the coordinator to the worker and back *)

Lemma worker_round_dispatch limits o m payload answer :
  wire_limits limits -> message_fits limits m -> encode_wire limits m = inr payload ->
  bytes_size payload <= max_payload_bytes limits -> encode_wire limits (worker_result o m) = inr answer ->
  worker_round limits o (make_frame MessageType.DISPATCH payload) =
  Some (RoundSends (make_frame MessageType.DISPATCH_RESULT answer)).
Proof.
  intros Hl Hm He Hs Ha. unfold worker_round. cbn [make_frame fr_payload].
  rewrite (decode_encoded_wire limits m payload Hl Hm He Hs).
  change (received m) with m. by rewrite Ha.
Qed.

Lemma await_first_result link id m rest conn l c :
  cd_heap c !! link = Some l -> bl_closed l = false -> bl_results l !! id = None ->
  link_of conn c = Some link -> dr_dispatch_id m = id -> cd_arrivals c = ResultArrives conn m :: rest ->
  (take_result link id c).1 = Some m.
Proof.
  intros Hl Hopen Hnone Hlink <- Ha. unfold take_result. rewrite Ha. cbn [await]. rewrite Hl, Hopen, Hnone.
  rewrite bool_decide_eq_false_2 by by intros [? [=]]. cbn [orb arrive].
  unfold store_result. rewrite Hlink.
  set (c1 := change_link link _ c).
  assert (Hl1 : cd_heap c1 !! link = Some (l <| bl_results := <[dr_dispatch_id m := m]> (bl_results l) |>)).
  { unfold c1. rewrite change_link_lookup, Hl. by rewrite decide_True. }
  assert (Hready : await link (dr_dispatch_id m) rest c1 = c1 <| cd_arrivals := rest |>).
  { destruct rest; cbn [await]; rewrite Hl1; cbn [bl_closed bl_results update_field]; rewrite lookup_insert_eq;
      rewrite bool_decide_eq_true_2 by (by eexists); by rewrite orb_true_r. }
  rewrite Hready. cbn [cd_heap update_field]. rewrite Hl1. cbn [mbind option_bind bl_results update_field].
  by rewrite lookup_insert_eq.
Qed.

(** A handoff whose wait ends with a result DISPATCHED. *)
Lemma handoff_answered limits d plan context ids c link l payload s s' m :
  cd_links c !! ck_backend_id (pl_primary plan) = Some link -> cd_heap c !! link = Some l ->
  bl_backend_boot l = ck_backend_boot (pl_primary plan) ->
  encode_wire limits (dispatch_message_of (allocate_id DispatchTag ids).1 d plan) = inr payload ->
  cd_connections c !! bl_connection l = Some s ->
  Transport.send (make_frame MessageType.DISPATCH payload) s = (inr tt, s') ->
  dr_code m = OutcomeCode.DISPATCHED ->
  (forall c1, cd_heap c1 = cd_heap c -> cd_links c1 = cd_links c -> cd_arrivals c1 = cd_arrivals c ->
     (take_result link (allocate_id DispatchTag ids).1 c1).1 = Some m) ->
  exists r, (handoff limits d plan context ids c).1.1 = r /\ di_code r = OutcomeCode.DISPATCHED /\ di_handed_off r = true /\
    di_dispatch_id r = (allocate_id DispatchTag ids).1 /\ di_detail r = dr_detail m.
Proof.
  intros Hlink Hl Hboot He Hs Hsend Hm Ht. eexists. split; [reflexivity|]. unfold handoff. rewrite Hlink.
  cbn [mbind option_bind]. rewrite Hl. cbn [fmap option_fmap option_map].
  rewrite (bool_decide_eq_true_2 _ Hboot). cbn [negb].
  destruct (allocate_id DispatchTag ids) as [id ids']. cbn [fst] in *. rewrite He.
  destruct (send_on _ _ _) as [r c1] eqn:Es. unfold send_on in Es. cbn [cd_connections update_field] in Es.
  rewrite Hs, Hsend in Es. injection Es as <- <-.
  match goal with |- context [take_result link id ?c1] => specialize (Ht c1 eq_refl eq_refl eq_refl); destruct (take_result link id c1) as [r c2] end.
  cbn [fst] in Ht. subst r. cbn [fst]. rewrite <- Hm. split_and!; try done. by apply bool_decide_eq_true_2.
Qed.

(** C15: A dispatch to a backend served by the reference worker is handed over:
    where the plan's incarnation has an open link and the dispatch message is
    accepted for sending, the worker answers that very message, and when its
    answer is the next thing to arrive on the connection, the handoff reports
    DISPATCHED with the worker's synthetic step as detail. *)
Theorem worker_answer_completes_handoff (limits : ResourceLimits) (o : WorkerOptions) (d : RouteDecision)
    (plan : RoutePlan) (context : DiscoveryContext) (ids : Allocator) (c : Coordinator) (link : LinkRef) (l : BackendLink)
    (payload answer : list Z) (s s' : Session) (rest : list Arrival) :
  let id := (allocate_id DispatchTag ids).1 in
  let m := dispatch_message_of id d plan in
  forall (Hlimits : wire_limits limits) (Hm : message_fits limits m) (Hr : message_fits limits (worker_result o m))
    (Hlink : cd_links c !! ck_backend_id (pl_primary plan) = Some link) (Hl : cd_heap c !! link = Some l)
    (Hboot : bl_backend_boot l = ck_backend_boot (pl_primary plan)) (Hopen : bl_closed l = false)
    (Hnone : bl_results l !! id = None) (Hserves : link_of (bl_connection l) c = Some link)
    (Hencode : encode_wire limits m = inr payload) (Hsize : bytes_size payload <= max_payload_bytes limits)
    (Hsession : cd_connections c !! bl_connection l = Some s)
    (Hsend : Transport.send (make_frame MessageType.DISPATCH payload) s = (inr tt, s'))
    (Hanswer : encode_wire limits (worker_result o m) = inr answer)
    (Hasize : bytes_size answer <= max_payload_bytes limits)
    (Harrives : forall r, decode_wire limits answer = Some (inr r) ->
       cd_arrivals c = ResultArrives (bl_connection l) r :: rest),
  worker_round limits o (make_frame MessageType.DISPATCH payload) =
    Some (RoundSends (make_frame MessageType.DISPATCH_RESULT answer)) /\
  let record := (handoff limits d plan context ids c).1.1 in
  di_code record = OutcomeCode.DISPATCHED /\ di_handed_off record = true /\ di_dispatch_id record = id /\
  di_detail record = "synthetic-step=" +:+ to_string_int (synthetic_step (pl_primary plan) 1).
Proof.
  intros id m Hlimits Hm Hr Hlink Hl Hboot Hopen Hnone Hserves Hencode Hsize Hsession Hsend Hanswer Hasize Harrives.
  split; [exact (worker_round_dispatch limits o m payload answer Hlimits Hm Hencode Hsize Hanswer)|].
  specialize (Harrives _ (decode_encoded_wire limits _ answer Hlimits Hr Hanswer Hasize)).
  unfold received, dispatch_result_message, Datatypes.id in Harrives.
  destruct (handoff_answered limits d plan context ids c link l payload s s' (worker_result o m))
    as (r & -> & H1 & H2 & H3 & H4); [done..| |by split_and!].
  intros c1 Eh El Ea. apply (await_first_result link id (worker_result o m) rest (bl_connection l) l c1);
    [by rewrite Eh|done|done| |done|by rewrite Ea].
  unfold link_of, serves. by rewrite Eh, El.
Qed.

(** ** A worker joins a router that does not know it *)

(** The router holds [d] for the incarnation, which is not fenced. *)
Record holds (limits : ResourceLimits) (id : EntityId BackendTag) (boot : Generation BackendBootTag)
    (d : BackendDescriptor) (s : CanonicalState) : Prop := {
  holds_open : cs_shutting_down s = false;
  holds_unfenced : is_fenced s id boot = false;
  holds_descriptor : cs_backends s !! id = Some d;
  holds_limits : cs_limits s = limits
}.

(** ACCEPTED, with nothing to add. *)
Definition acknowledged (r : MutationResult) : Prop :=
  mr_code r = OutcomeCode.ACCEPTED /\ ex_message (mr_explanation r) = "".
Lemma acknowledged_accepted r : acknowledged r -> accepted r = true.
Proof. intros [H _]. unfold accepted. by rewrite H. Qed.

(** The call is accepted whenever it is made, and [d] becomes [d']. *)
Definition takes (limits : ResourceLimits) (id : EntityId BackendTag) (boot : Generation BackendBootTag)
    (request : MutationCall) (d d' : BackendDescriptor) : Prop :=
  forall now s, holds limits id boot d s ->
    acknowledged (perform request now s).1 /\ holds limits id boot d' (perform request now s).2.

Inductive takes_all (limits : ResourceLimits) (id : EntityId BackendTag) (boot : Generation BackendBootTag)
    : list MutationCall -> BackendDescriptor -> BackendDescriptor -> Prop :=
| takes_nil d : takes_all limits id boot [] d d
| takes_cons request requests d d1 d2 :
    takes limits id boot request d d1 -> takes_all limits id boot requests d1 d2 ->
    takes_all limits id boot (request :: requests) d d2.

Lemma holds_update limits id boot d d' now s :
  holds limits id boot d s ->
  holds limits id boot d' (stale_decisions_for_authority_change now (s <| cs_backends := <[id := d']> (cs_backends s) |>)).
Proof. intros [H1 H2 H3 H4]. split; [done|done| |done]. simpl. by rewrite lookup_insert_eq. Qed.

Section Evidence.
Context {S : Type} {g : Tag} `{EqDecision S, !EvidenceSlot S g}.

Lemma takes_evidence limits (e : BackendEvidence S g) subject code d now s :
  valid (ev_backend_id e) -> valid (ev_backend_boot e) -> valid (ev_generation e) ->
  bd_backend_boot d = ev_backend_boot e -> bd_backend_generation d = ev_backend_generation e ->
  ev_generation (slot d) = none -> holds limits (ev_backend_id e) (ev_backend_boot e) d s ->
  acknowledged (apply_evidence e subject now code s).1 /\
  holds limits (ev_backend_id e) (ev_backend_boot e) (set_slot e d) (apply_evidence e subject now code s).2.
Proof.
  intros Hi Hb Hg Eb Eg Hslot Hs. pose proof Hs as [H1 H2 H3 H4]. unfold apply_evidence.
  rewrite !Is_true_true in *. rewrite Hi, Hb, Hg, H1, H2, H3, Eb, Eg, Hslot.
  rewrite !bool_decide_eq_true_2 by done. cbn [negb orb andb]. rewrite andb_false_r.
  unfold generation_regressed. cbn [value generation_identity generation_value none of_value Z.eqb negb andb].
  split; [by split|]. by apply (holds_update _ _ _ d).
Qed.
Lemma takes_slot limits (e : BackendEvidence S g) request subject code d
    (Hrequest : forall now s, perform request now s = apply_evidence e subject now code s)
    (Hi : valid (ev_backend_id e)) (Hb : valid (ev_backend_boot e)) (Hg : valid (ev_generation e))
    (Eb : bd_backend_boot d = ev_backend_boot e) (Eg : bd_backend_generation d = ev_backend_generation e)
    (Hslot : ev_generation (slot d) = none) :
  takes limits (ev_backend_id e) (ev_backend_boot e) request d (set_slot e d).
Proof.
  intros now s Hs. rewrite Hrequest. exact (takes_evidence limits e subject code d now s Hi Hb Hg Eb Eg Hslot Hs).
Qed.
End Evidence.

(** *** Its calls, one by one *)

Lemma profile_set_length e n p :
  (length (profile_entries (profile_set e n p).2) <= length (profile_entries p) + 1)%nat.
Proof.
  unfold profile_set. case_match; cbn [snd profile_entries update_field].
  - unfold replace_sorted. rewrite length_insert. lia.
  - case_match; cbn [snd profile_entries update_field]; [lia|]. unfold insert_sorted.
    rewrite length_app, length_take. cbn [length]. rewrite length_drop. lia.
Qed.

(** The claim as it is stored. *)
Definition bound_claim (publication : BackendCapabilityPublication) (d : BackendDescriptor) (e : CapabilityEvidence)
    : CapabilityEvidence :=
  e <| ce_profile_id := pub_profile_id publication |> <| ce_generation := pub_generation publication |>
    <| ce_backend_boot := pub_backend_boot publication |> <| ce_backend_generation := bd_backend_generation d |>.

Lemma publish_claims_accepted publication d max claims p :
  profile_wf p -> Forall (fun e => capability_key_validate (key_string (ce_key e)) = "") claims ->
  Z.of_nat (length (profile_entries p) + length claims) <= max ->
  exists p', publish_claims publication d max claims p = inr p' /\
    profile_id p' = profile_id p /\ profile_generation p' = profile_generation p /\
    forall k, (k ∉ ce_key <$> claims -> profile_find p' k = profile_find p k) /\
      (k ∈ ce_key <$> claims ->
       exists e, e ∈ claims /\ ce_key e = k /\ profile_find p' k = Some (bound_claim publication d e)).
Proof.
  intros Hp Hv. revert p Hp. induction Hv as [|e claims He _ IH]; intros p Hp Hlen.
  { exists p. split_and!; [done..|]. intros k. split; [done|]. by intros ?%not_elem_of_nil. }
  cbn [publish_claims length] in *. rewrite He, bool_decide_eq_true_2 by done. cbn [negb].
  fold (bound_claim publication d e).
  pose proof (profile_set_length (bound_claim publication d e) max p) as Hl.
  pose proof (fun k => profile_set_find p (bound_claim publication d e) max k Hp) as Hset.
  destruct (profile_set (bound_claim publication d e) max p) as [ok p1] eqn:E. cbn [snd] in Hl.
  destruct ok; [|destruct (Hset (ce_key e)) as (_ & [[_ Hfull] _] & _); [done|lia]].
  cbn [negb]. destruct (IH p1) as (p' & Hp' & Hid & Hgen & Hfind); [by apply (Hset (ce_key e))|lia|].
  destruct (profile_set_entries _ _ _ _ Hp E) as (_ & Hid1 & Hgen1).
  exists p'. split; [done|]. split; [congruence|]. split; [congruence|]. intros k. destruct (Hfind k) as [Hout Hin]. rewrite fmap_cons, not_elem_of_cons, elem_of_cons.
  destruct (Hset k) as (_ & _ & Hk & _). cbn [andb] in Hk. change (ce_key (bound_claim publication d e)) with (ce_key e) in Hk.
  split.
  - intros [Hne Hnin]. rewrite Hout, Hk by done. by rewrite bool_decide_eq_false_2.
  - destruct (decide (k ∈ ce_key <$> claims)) as [Hc|Hc].
    + intros _. destruct (Hin Hc) as (e' & He' & Hke & Hf). exists e'. split; [by right|done].
    + intros [->|?]; [|done]. exists e. split; [by left|]. split; [done|].
      by rewrite Hout, Hk, bool_decide_eq_true_2.
Qed.

Definition with_profile (publication : BackendCapabilityPublication) (p : CapabilityProfile) (d : BackendDescriptor)
    : BackendDescriptor :=
  d <| bd_capabilities := p |> <| bd_capability_profile_id := pub_profile_id publication |>
    <| bd_capability_generation := pub_generation publication |>.

Lemma takes_publication limits publication d :
  valid (pub_backend_id publication) -> valid (pub_backend_boot publication) -> valid (pub_generation publication) ->
  bd_backend_boot d = pub_backend_boot publication -> bd_backend_generation d = pub_backend_generation publication ->
  bd_capability_generation d = none ->
  Forall (fun e => capability_key_validate (key_string (ce_key e)) = "") (pub_claims publication) ->
  Request.size (pub_claims publication) <= max_capability_entries_per_backend limits ->
  exists p, takes limits (pub_backend_id publication) (pub_backend_boot publication) (PublishCapabilities publication)
      d (with_profile publication p d) /\
    profile_id p = pub_profile_id publication /\ profile_generation p = pub_generation publication /\
    forall k, (k ∉ ce_key <$> pub_claims publication -> profile_find p k = None) /\
      (k ∈ ce_key <$> pub_claims publication ->
       exists e, e ∈ pub_claims publication /\ ce_key e = k /\ profile_find p k = Some (bound_claim publication d e)).
Proof.
  intros Hi Hb Hg Eb Eg Ec Hv Hsize.
  set (p0 := {| profile_id := pub_profile_id publication; profile_generation := pub_generation publication;
                profile_entries := [] |}).
  destruct (publish_claims_accepted publication d (max_capability_entries_per_backend limits) (pub_claims publication) p0)
    as (p & Hp & Hid & Hgen & Hfind); [by constructor|done|exact Hsize|].
  exists p. split; [|done].
  intros now s Hs. pose proof Hs as [H1 H2 H3 H4]. unfold perform, publish_capabilities.
  rewrite !Is_true_true in *. rewrite Hi, Hb, Hg, H1, H2, H3, Eb, Eg, H4, Ec.
  rewrite !bool_decide_eq_true_2 by done. cbn [negb orb andb]. rewrite andb_false_r.
  unfold generation_regressed. cbn [value generation_identity generation_value none of_value Z.eqb negb andb].
  rewrite (proj2 (Z.ltb_ge _ _)) by done. fold p0. rewrite Hp.
  split; [by split|]. by apply (holds_update _ _ _ d).
Qed.

Lemma takes_capacity limits e detail d :
  cd_backend_id detail = ev_backend_id e -> cd_backend_boot detail = ev_backend_boot e ->
  valid (ev_backend_id e) -> valid (ev_backend_boot e) -> valid (ev_generation e) ->
  bd_backend_boot d = ev_backend_boot e -> bd_backend_generation d = ev_backend_generation e ->
  ev_generation (bd_capacity d) = none ->
  takes limits (ev_backend_id e) (ev_backend_boot e) (UpdateCapacity e detail) d
    ((d <| bd_capacity := e |>) <| bd_capacity_detail := detail <| cd_generation := ev_generation e |> |>).
Proof.
  intros Ei Ebt Hi Hb Hg Eb Eg Hslot now s Hs. unfold perform, update_capacity. rewrite Ei, Ebt.
  rewrite !bool_decide_eq_true_2 by done. rewrite !andb_false_r.
  destruct (takes_evidence limits e "update_capacity" OutcomeCode.REJECT_STALE_CAPACITY d now s Hi Hb Hg Eb Eg)
    as [Ha Hs']; [exact Hslot|done|].
  destruct (apply_evidence e "update_capacity" now OutcomeCode.REJECT_STALE_CAPACITY s) as [r s1]. cbn [fst snd] in *.
  rewrite (acknowledged_accepted _ Ha). cbn [negb fst snd]. split; [exact Ha|]. destruct Hs' as [H1 H2 H3 H4].
  unfold store_capacity_detail. rewrite Ei, H3. split; try done. simpl. by rewrite lookup_insert_eq.
Qed.

Lemma takes_latency limits e d :
  valid (lt_backend_id e) -> valid (lt_backend_boot e) -> bd_backend_boot d = lt_backend_boot e ->
  lt_health_generation (bd_latency d) = none ->
  takes limits (lt_backend_id e) (lt_backend_boot e) (UpdateLatency e) d (d <| bd_latency := e |>).
Proof.
  intros Hi Hb Eb Hslot now s Hs. pose proof Hs as [H1 H2 H3 H4]. unfold perform, update_latency.
  rewrite !Is_true_true in *. rewrite Hi, Hb, H1, H2, H3, Eb, Hslot. rewrite !bool_decide_eq_true_2 by done.
  cbn [negb orb andb]. unfold generation_regressed. cbn [value generation_identity generation_value none of_value Z.eqb negb andb].
  split; [by split|]. by apply (holds_update _ _ _ d).
Qed.

Lemma takes_cost limits boot e d b :
  valid (co_price_generation e) -> valid (co_backend_id e) -> valid (co_model_id e) -> unit_valid (co_unit e) = true ->
  0 <= co_estimated_total_micros e -> find_binding d (co_model_id e) = Some b -> co_price_generation (mb_cost b) = none ->
  takes limits (co_backend_id e) boot (SetCost e) d
    (d <| bd_model_bindings := replace_sorted id_ltb mb_model_id (bd_model_bindings d) (b <| mb_cost := e |>) |>).
Proof.
  intros Hp Hi Hm Hu He Hb Hnone now s Hs. pose proof Hs as [H1 H2 H3 H4]. unfold perform, set_cost.
  rewrite !Is_true_true in *. rewrite Hp, Hi, Hm, Hu, H1, H3, Hb, Hnone, (proj2 (Z.ltb_ge _ _)) by done.
  rewrite andb_false_r. cbn [negb orb andb]. unfold generation_regressed.
  cbn [value generation_identity generation_value none of_value Z.eqb negb andb].
  split; [by split|]. destruct (holds_update _ _ _ d
    (d <| bd_model_bindings := replace_sorted id_ltb mb_model_id (bd_model_bindings d) (b <| mb_cost := e |>) |>) now s Hs).
  by split.
Qed.

(** A backend the router does not know. *)
Lemma registers limits d now s :
  backend_canonicalize d = d -> backend_validate d = "" ->
  cs_limits s = limits -> cs_shutting_down s = false -> is_fenced s (bd_backend_id d) (bd_backend_boot d) = false ->
  cs_backends s !! bd_backend_id d = None -> cs_backend_watermark s !! bd_backend_id d = None ->
  map_size (cs_backends s) < max_backends limits ->
  acknowledged (perform (RegisterBackend d) now s).1 /\
  holds limits (bd_backend_id d) (bd_backend_boot d) d (perform (RegisterBackend d) now s).2.
Proof.
  intros Hc Hv Hl Hs Hf Hb Hw Hm. unfold perform, register_backend. cbv zeta.
  rewrite Hc, Hv, bool_decide_eq_true_2, Hs, Hf, Hb, Hw, Hl, (proj2 (Z.leb_gt _ _)) by done. cbn [negb andb].
  split; [by split|]. unfold replace_backend. cbn [cs_backends update_field]. rewrite Hb.
  split; try done. apply lookup_insert_eq.
Qed.

(** *** Joining as a whole *)

(** The calls of the router that the worker's messages ask for after its
    registration, in order. *)
Definition worker_prices_of (o : WorkerOptions) : list MutationCall :=
  omap (fun price => (fun total => SetCost (worker_cost o price.1 total)) <$> price.2) (worker_prices o).
Definition worker_evidence_calls (o : WorkerOptions) : list MutationCall := [
  PublishCapabilities (worker_publication o);
  UpdateHealth (worker_evidence o HealthState.HEALTHY);
  UpdateAvailability (worker_evidence o AvailabilityState.AVAILABLE);
  UpdateReadiness (worker_evidence o ReadinessState.READY);
  UpdateResidency (worker_evidence o ResidencyState.RESIDENT);
  UpdateCapacity (worker_evidence o CapacityState.AVAILABLE) (worker_capacity o);
  UpdateLatency (worker_latency o)].
(** Options whose identities do not wrap and whose prices do not overflow. *)
Record worker_sound (o : WorkerOptions) : Prop := {
  sound_id : 0 < wo_backend_id o <= reference_backend_ids;
  sound_boot : wo_boot o <> 0;
  sound_generation : wo_generation o <> 0;
  sound_registration : wo_registration o <> 0;
  sound_price : wo_price_generation o <> 0;
  sound_cost : 0 <= wo_cost_base o /\ wo_cost_base o * 5 <= i64_max
}.

Section WorkerJoins.
Context (limits : ResourceLimits) (o : WorkerOptions) (Hsound : worker_sound o).
Let id : EntityId BackendTag := EntityIdOf (wo_backend_id o).
Let boot : Generation BackendBootTag := GenerationOf (wo_boot o).

Lemma valid_identity {A} `{Identity A} (x : A) : value x <> 0 -> valid x.
Proof. intros Hx. apply Is_true_true. unfold valid. by rewrite (proj2 (Z.eqb_neq _ _) Hx). Qed.

Lemma worker_identities : valid id /\ valid boot /\ valid (GenerationOf (t := BackendTag) (wo_generation o)).
Proof. destruct Hsound. split_and!; apply valid_identity; simpl; [lia|done|done]. Qed.

Lemma worker_backend_valid : backend_validate (worker_backend o) = "".
Proof.
  destruct worker_identities as (_ & Hb & Hg).
  unfold worker_backend. apply make_backend_valid; [apply (sound_id _ Hsound)|exact Hg|exact Hb|apply valid_identity, (sound_registration _ Hsound)|].
  by destruct (wo_host o).
Qed.

Lemma worker_backend_canonical : backend_canonicalize (worker_backend o) = worker_backend o.
Proof.
  unfold worker_backend, make_backend. cbv zeta.
  match goal with |- backend_canonicalize (backend_canonicalize ?b) = _ =>
    exact (proj2 (proj2 (backend_canonicalize_find b none))) end.
Qed.

(** The keys the worker claims, and a claim as the router holds it: bound to
    the incarnation's registration. *)
Definition worker_keys : list CapabilityKey := ce_key <$> pub_claims (worker_publication o).
Definition worker_holds (key : CapabilityKey) : CapabilityEvidence :=
  (worker_claim o key) <| ce_backend_generation := GenerationOf (wo_generation o) |>.

(** The worker's three models and the factor of its base price for each. *)
Definition reference_prices : list (EntityId ModelTag * Z) :=
  [(EntityIdOf 1, 1); (EntityIdOf 2, 3); (EntityIdOf 3, 5)].
Definition priced_binding (b : ModelBinding) (price : EntityId ModelTag * Z) : ModelBinding :=
  b <| mb_cost := worker_cost o price.1 (wo_cost_base o * price.2) |>.

(** The backend the worker registers, with everything the worker publishes and
    the given profile; and the same before the prices. *)
Definition evidenced_backend (p : CapabilityProfile) : BackendDescriptor :=
  (worker_backend o)
    <| bd_capabilities := p |>
    <| bd_capability_profile_id := pub_profile_id (worker_publication o) |>
    <| bd_capability_generation := pub_generation (worker_publication o) |>
    <| bd_health := worker_evidence o HealthState.HEALTHY |>
    <| bd_availability := worker_evidence o AvailabilityState.AVAILABLE |>
    <| bd_readiness := worker_evidence o ReadinessState.READY |>
    <| bd_residency := worker_evidence o ResidencyState.RESIDENT |>
    <| bd_capacity := worker_evidence o CapacityState.AVAILABLE |>
    <| bd_capacity_detail := (worker_capacity o) <| cd_generation := GenerationOf 1 |> |>
    <| bd_latency := worker_latency o |>.
Definition published_backend (p : CapabilityProfile) : BackendDescriptor :=
  (evidenced_backend p)
    <| bd_model_bindings := zip_with priced_binding (bd_model_bindings (worker_backend o)) reference_prices |>.

(** The profile holds the worker's claims and no others. *)
Record published_profile (p : CapabilityProfile) : Prop := {
  published_id : profile_id p = pub_profile_id (worker_publication o);
  published_generation : profile_generation p = GenerationOf 1;
  published_claims : forall k,
    profile_find p k = if bool_decide (k ∈ worker_keys) then Some (worker_holds k) else None
}.

Lemma worker_claims_valid : Forall (fun e => capability_key_validate (key_string (ce_key e)) = "") (pub_claims (worker_publication o)).
Proof.
  unfold worker_publication. cbn [pub_claims]. apply Forall_fmap. apply Forall_app. split.
  - by repeat constructor.
  - destruct (wo_cuda_verified o); by repeat constructor.
Qed.

Lemma worker_claims_size : Request.size (pub_claims (worker_publication o)) <= 5.
Proof. unfold worker_publication. cbn [pub_claims]. destruct (wo_cuda_verified o); vm_compute; discriminate. Qed.

Ltac slot_taken request :=
  eapply takes_cons;
  [refine (takes_slot limits _ request _ _ _ (fun _ _ => eq_refl) _ _ I _ _ _); [assumption|assumption|reflexivity..]|].

Lemma worker_claim_bound e :
  e ∈ pub_claims (worker_publication o) ->
  bound_claim (worker_publication o) (worker_backend o) e = worker_holds (ce_key e).
Proof.
  unfold worker_publication. cbn [pub_claims]. intros (key & -> & _)%list_elem_of_fmap. reflexivity.
Qed.

Lemma evidence_published :
  5 <= max_capability_entries_per_backend limits ->
  exists p, takes_all limits id boot (worker_evidence_calls o) (worker_backend o) (evidenced_backend p) /\ published_profile p.
Proof.
  intros Hmax. pose proof worker_identities as (Hi & Hb & Hg). pose proof worker_claims_size as Hsize.
  destruct (takes_publication limits (worker_publication o) (worker_backend o)) as (p & Hp & Hid & Hgen & Hfind);
    [exact Hi|exact Hb|done|reflexivity|reflexivity|reflexivity|exact worker_claims_valid|lia|].
  exists p. split.
  - eapply takes_cons; [exact Hp|].
    slot_taken (UpdateHealth (worker_evidence o HealthState.HEALTHY)).
    slot_taken (UpdateAvailability (worker_evidence o AvailabilityState.AVAILABLE)).
    slot_taken (UpdateReadiness (worker_evidence o ReadinessState.READY)).
    slot_taken (UpdateResidency (worker_evidence o ResidencyState.RESIDENT)).
    eapply takes_cons; [refine (takes_capacity limits (worker_evidence o CapacityState.AVAILABLE) (worker_capacity o) _
      eq_refl eq_refl Hi Hb I _ _ _); reflexivity|].
    eapply takes_cons; [refine (takes_latency limits (worker_latency o) _ Hi Hb _ _); reflexivity|]. apply takes_nil.
  - split; [exact Hid|exact Hgen|]. intros k. destruct (Hfind k) as [Hout Hin]. unfold worker_keys.
    destruct (bool_decide_reflect (k ∈ ce_key <$> pub_claims (worker_publication o))) as [Hk|Hk]; [|by apply Hout].
    destruct (Hin Hk) as (e & He & <- & ->). by rewrite worker_claim_bound.
Qed.

Lemma worker_prices_sound :
  worker_prices o = (fun p => (p.1, Some (wo_cost_base o * p.2))) <$> reference_prices.
Proof.
  destruct (sound_cost _ Hsound) as [H0 H5]. unfold worker_prices, signed64, i64_max in *.
  rewrite (proj2 (Z.ltb_ge _ _)) by lia. unfold scaled_price. unfold i64_min, i64_max.
  rewrite !(proj2 (Z.leb_le _ _)) by lia. cbn [andb reference_prices fmap list_fmap fst snd].
  rewrite Z.mul_1_r. reflexivity.
Qed.

Definition reference_binding (model limit quality : Z) (cost : CostEvidence) : ModelBinding :=
  (add_binding (EntityIdOf model) (GenerationOf 1) (GenerationOf 1) limit quality 1) <| mb_cost := cost |>.
Definition reference_bindings (costs : CostEvidence * CostEvidence * CostEvidence) : list ModelBinding :=
  let '(c1, c2, c3) := costs in
  [reference_binding 1 32768 20 c1;
   reference_binding 2 131072 60 c2;
   reference_binding 3 65536 80 c3].

Lemma worker_bindings :
  bd_model_bindings (worker_backend o) =
  reference_bindings (cost_evidence_default, cost_evidence_default, cost_evidence_default).
Proof. reflexivity. Qed.

Lemma priced d model factor b :
  0 <= factor -> valid model -> find_binding d model = Some b -> co_price_generation (mb_cost b) = none ->
  let e := worker_cost o model (wo_cost_base o * factor) in
  takes limits id boot (SetCost e) d
    (d <| bd_model_bindings := replace_sorted id_ltb mb_model_id (bd_model_bindings d) (b <| mb_cost := e |>) |>).
Proof.
  intros Hf Hm Hb Hn. cbv zeta. destruct worker_identities as (Hi & _ & _).
  apply (takes_cost limits boot (worker_cost o model (wo_cost_base o * factor)) d b); [|exact Hi|exact Hm|reflexivity| |exact Hb|exact Hn].
  - apply valid_identity. exact (sound_price _ Hsound).
  - change (0 <= wo_cost_base o * factor). destruct (sound_cost _ Hsound). nia.
Qed.

Lemma prices_published p :
  takes_all limits id boot (worker_prices_of o) (evidenced_backend p) (published_backend p).
Proof.
  unfold worker_prices_of. rewrite worker_prices_sound.
  cbn [reference_prices fmap list_fmap omap list_omap fst snd option_fmap option_map].
  set (e1 := worker_cost o (EntityIdOf 1) _). set (e2 := worker_cost o (EntityIdOf 2) _).
  set (e3 := worker_cost o (EntityIdOf 3) _).
  set (with_costs c1 c2 c3 := (evidenced_backend p) <| bd_model_bindings := reference_bindings (c1, c2, c3) |>).
  apply takes_cons with (with_costs e1 cost_evidence_default cost_evidence_default);
    [exact (priced (evidenced_backend p) (EntityIdOf 1) 1 _ ltac:(lia) I eq_refl eq_refl)|].
  apply takes_cons with (with_costs e1 e2 cost_evidence_default);
    [exact (priced (with_costs e1 cost_evidence_default cost_evidence_default) (EntityIdOf 2) 3 _ ltac:(lia) I eq_refl eq_refl)|].
  apply takes_cons with (with_costs e1 e2 e3);
    [exact (priced (with_costs e1 e2 cost_evidence_default) (EntityIdOf 3) 5 _ ltac:(lia) I eq_refl eq_refl)|].
  apply takes_nil.
Qed.

Lemma takes_all_app requests requests' d d1 d2 :
  takes_all limits id boot requests d d1 -> takes_all limits id boot requests' d1 d2 ->
  takes_all limits id boot (requests ++ requests') d d2.
Proof. induction 1; [done|]. intros H2. eapply takes_cons; [done|auto]. Qed.

Lemma worker_takes_all :
  5 <= max_capability_entries_per_backend limits ->
  exists p, published_profile p /\
    takes_all limits id boot (worker_evidence_calls o ++ worker_prices_of o) (worker_backend o) (published_backend p).
Proof.
  intros Hmax. destruct (evidence_published Hmax) as (p & H & Hp). exists p. split; [exact Hp|].
  apply takes_all_app with (evidenced_backend p); [exact H|apply prices_published].
Qed.
End WorkerJoins.

(** ** The theorems at work *)

Definition sample_dispatch : DispatchMessage :=
  dispatch_message_of (allocate_id DispatchTag 0).1 route_decision_default sample_plan.
Definition payload_of {A} `{WireMessage A} (m : A) : list Z :=
  match encode_wire default_resource_limits m with inr payload => payload | inl _ => [] end.
Definition answer_of (m : DispatchMessage) : DispatchResultMessage := worker_result worker_options_default m.
Definition worker_answering : Coordinator :=
  linked <| cd_arrivals := [ResultArrives 0%nat (answer_of sample_dispatch)] |>.

Lemma small_u64 x : (0 <=? x) && (x <? 2 ^ 64) = true -> is_u64 x.
Proof. intros [H1%Z.leb_le H2%Z.ltb_lt]%andb_true_iff. by split. Qed.

Lemma small_u32 x : (0 <=? x) && (x <? 2 ^ 32) = true -> is_u32 x.
Proof. intros [H1%Z.leb_le H2%Z.ltb_lt]%andb_true_iff. by split. Qed.
Lemma small_i64 x : (i64_min <=? x) && (x <=? i64_max) = true -> in_i64 x.
Proof. intros [H1%Z.leb_le H2%Z.leb_le]%andb_true_iff. by split. Qed.

(** Concrete fields are in range. *)
Ltac in_range :=
  repeat match goal with
         | |- is_u64 _ => apply small_u64; vm_compute; reflexivity
         | |- is_u32 _ => apply small_u32; vm_compute; reflexivity
         | |- in_i64 _ => apply small_i64; vm_compute; reflexivity
         | |- within _ _ => vm_compute; discriminate
         | |- Forall _ _ => first [apply Forall_nil_2 | apply Forall_cons_2]
         | |- _ <> _ => discriminate
         | |- message_fits _ _ => hnf
         | |- _ => first [split | progress hnf]
         end.
Lemma sample_dispatch_fits : message_fits default_resource_limits sample_dispatch.
Proof. in_range. Qed.
Lemma sample_answer_fits : message_fits default_resource_limits (answer_of sample_dispatch).
Proof. in_range. Qed.

Lemma worker_answer_completes_handoff_witness :
  worker_round default_resource_limits worker_options_default
    (make_frame MessageType.DISPATCH (payload_of sample_dispatch)) =
  Some (RoundSends (make_frame MessageType.DISPATCH_RESULT (payload_of (answer_of sample_dispatch)))) /\
  di_code (handoff default_resource_limits route_decision_default sample_plan sample_context 0 worker_answering).1.1 =
  OutcomeCode.DISPATCHED.
Proof.
  destruct (worker_answer_completes_handoff default_resource_limits worker_options_default route_decision_default
    sample_plan sample_context 0 worker_answering 0%nat
    {| bl_backend_id := EntityIdOf 7; bl_backend_generation := GenerationOf 1; bl_backend_boot := GenerationOf 3;
       bl_connection := 0%nat; bl_results := ∅; bl_closed := false |}
    (payload_of sample_dispatch) (payload_of (answer_of sample_dispatch)) (session_open transport_options_default)
    (Transport.send (make_frame MessageType.DISPATCH (payload_of sample_dispatch))
       (session_open transport_options_default)).2 []) as [Hw [Hc _]].
  - exact default_wire_limits.
  - exact sample_dispatch_fits.
  - exact sample_answer_fits.
  - vm_compute. reflexivity.
  - vm_compute. reflexivity.
  - reflexivity.
  - reflexivity.
  - reflexivity.
  - vm_compute. reflexivity.
  - vm_compute. reflexivity.
  - vm_compute. discriminate.
  - vm_compute. reflexivity.
  - vm_compute. reflexivity.
  - vm_compute. reflexivity.
  - vm_compute. discriminate.
  - intros r. vm_compute. intros [= <-]. reflexivity.
  - exact (conj Hw Hc).
Defined.

Lemma default_sound : worker_sound worker_options_default.
Proof.
  split; [split; [reflexivity|vm_compute; discriminate]|discriminate|discriminate|discriminate|discriminate|].
  split; vm_compute; discriminate.
Qed.
