(* ===== verification/WorkerJoin.v ===== *)
(** * A worker joins a coordinator

    The two ends of one connection put together: every frame of the worker's
    start goes through the encoders, the coordinator's handlers, the router and
    back, and the worker's [main] reaches its serving loop. *)
From S2P Require Import Prelude.
From S2P Require Import Ids.
From S2P Require Import Outcome.
From S2P Require Import Limits.
From S2P Require Import Clock.
From S2P Require Import Codec.
From S2P Require Import Capability.
From S2P Require Import Evidence.
From S2P Require Import Catalog.
From S2P Require Import Decision.
From S2P Require Import RouterState.
From S2P Require Import RouterMutation.
From S2P Require Import Providers.
From S2P Require Import FileStore.
From S2P Require Import Frame.
From S2P Require Import Transport.
From S2P Require Import WireRecords.
From S2P Require Import WireMessages.
From S2P Require Import RouterPersist.
From S2P Require Import Eligibility.
From S2P Require Import ReferenceProfiles.
From S2P Require Import RouterRun.
From S2P Require Import Coordinator.
From S2P Require Import CoordinatorRun.
From S2P Require Import BackendWorker.

(** ** One connection *)

(** What the transport delivers to the peer next. *)
Definition take_sent (conn : ConnectionRef) (w : World Coordinator) : option Frame * World Coordinator :=
  let c := w_env w in
  match ss_outbound <$> cd_connections c !! conn with
  | Some (f :: rest) =>
      (Some f, w <| w_env := c <| cd_connections := alter (fun s => s <| ss_outbound := rest |>) conn (cd_connections c) |> |>)
  | _ => (None, w)
  end.

Ltac run_alone :=
  repeat (rewrite ?bind_run, ?ret_run, ?shared_run, ?locked_run, ?ask_run; cbv beta iota).

Section Connection.
Context (limits : ResourceLimits) (clock : Call Coordinator UnixMillis) (catalog : ReferenceCatalog).
Context (conn : ConnectionRef).

(** A frame is received, handled in a round of the session's loop, and the
    first frame that waits to be sent is the answer. *)
Definition exchange_on (f : Frame) (w : World Coordinator) : option Frame * World Coordinator :=
  take_sent conn (serve_round limits clock catalog conn None f w).2.

(** An open session with nothing to send and room to send. *)
Definition quiet (c : Coordinator) : Prop :=
  exists s, cd_connections c !! conn = Some s /\ limits_of s = limits /\ ss_closed s = false /\
    ss_outbound s = [] /\ ss_pending_write s = [] /\ 0 < to_max_send_queue_frames (ss_options s).

(** The connection is quiet afterwards, and no link has changed. *)
Record undisturbed (c c' : Coordinator) : Prop := {
  undisturbed_quiet : quiet c';
  undisturbed_links : cd_links c' = cd_links c;
  undisturbed_heap : cd_heap c' = cd_heap c
}.

(** The message can be sent and is received as it is. *)
Definition transmits {A} `{WireMessage A} (type : MessageType.t) (m : A) : Prop :=
  message_fits limits m /\ received m = m /\
  exists payload bytes, encode_wire limits m = inr payload /\ encode_frame limits (make_frame type payload) = inr bytes.

Lemma encode_frame_size type payload bytes :
  encode_frame limits (make_frame type payload) = inr bytes -> bytes_size payload <= max_payload_bytes limits.
Proof.
  unfold encode_frame. cbv zeta. cbn [make_frame fr_payload].
  destruct (Z.ltb_spec (max_payload_bytes limits) (bytes_size payload)) as [_|H]; [|by intros _].
  rewrite orb_true_r. repeat case_match; done.
Qed.

Lemma transmitted {A} `{WireMessage A} type (m : A) payload :
  wire_limits limits -> transmits type m -> encode_wire limits m = inr payload ->
  decode_wire limits payload = Some (inr m).
Proof.
  intros Hl (Hf & Hr & payload' & bytes & E & Hb) E'. rewrite E in E'. injection E' as ->.
  pose proof (decode_encoded_wire limits m payload Hl Hf E (encode_frame_size _ _ _ Hb)) as Hd. by rewrite Hr in Hd.
Qed.

(** A quiet connection delivers what it is given. *)
Lemma quiet_sends s ids c f bytes :
  quiet c -> encode_frame limits f = inr bytes ->
  exists c1 c2, send_on conn f c = (inr tt, c1) /\ take_sent conn (alone s ids c1) = (Some f, alone s ids c2) /\ undisturbed c c2.
Proof.
  intros (ss & Hc & Hl & Ho & Hb & Hp & Hq) Hf. do 2 eexists. unfold send_on. rewrite Hc.
  unfold Transport.send. rewrite Hl, Hf, Ho, Hb, Hp, bool_decide_eq_true_2 by done.
  destruct (Z.leb_spec (to_max_send_queue_frames (ss_options ss)) (Request.size (A := Frame) [] + 0)) as [H|_];
    [change (Request.size (A := Frame) []) with 0 in H; lia|].
  split; [done|]. unfold take_sent. cbn [alone w_env cd_connections update_field]. rewrite lookup_insert_eq.
  cbn [fmap option_fmap option_map ss_outbound update_field app]. split; [done|].
  split; [|done|done].
  eexists. cbn [cd_connections update_field]. rewrite lookup_alter_eq, lookup_insert_eq. split; [done|]. by split_and!.
Qed.

Context (Hlimits : wire_limits limits) (Hclock : forall c, (clock c).2 = c).

(** One message of the worker and its answer. *)
Lemma asked {A} `{WireMessage A} type (m : A) (k : Frame -> Step) w :
  transmits type m ->
  exists payload, encode_wire limits m = inr payload /\ decode_wire limits payload = Some (inr m) /\
    ask_peer limits exchange_on type m k w =
    (let '(answer, w) := exchange_on (make_frame type payload) w in
     match answer with None => exits 3 w | Some response => k response w end).
Proof.
  intros Ht. pose proof Ht as (_ & _ & payload & bytes & He & _). exists payload. split; [done|].
  split; [by apply (transmitted type)|]. unfold ask_peer. rewrite He. by destruct (exchange_on _ w) as [[|] ?].
Qed.

Definition status_message : AdminResponse :=
  {| ap_code := OutcomeCode.ACCEPTED; ap_detail := ""; ap_json := "" |}.
Context (Hstatus : transmits MessageType.ADMIN_RESPONSE status_message).

Lemma call_run request s ids c :
  call clock request (alone s ids c) =
  ((perform request (clock c).1 s).1, alone (perform request (clock c).1 s).2 ids c).
Proof.
  unfold call. rewrite bind_run, ask_run. pose proof (Hclock c) as H. destruct (clock c) as [now c1].
  cbn [snd] in H. subst c1. cbn [fst]. rewrite locked_run. by destruct (perform request now s).
Qed.

Definition counted (c : Coordinator) : Coordinator :=
  c <| cd_frames_handled := word64 (cd_frames_handled c + 1) |>.

(** A round whose handler leaves one frame to be sent. *)
Lemma round_answers f s s' ids c c1 c2 answer :
  handle_frame limits clock catalog conn f (alone s ids (counted c)) = (going_on true, alone s' ids c1) ->
  take_sent conn (alone s' ids c1) = (Some answer, alone s' ids c2) ->
  exchange_on f (alone s ids c) = (Some answer, alone s' ids c2).
Proof.
  intros Hh Ht. unfold exchange_on, serve_round. rewrite bind_run. unfold change. rewrite ask_run. cbv beta iota.
  fold (counted c). rewrite bind_run, Hh. cbn [going_on hd_ok negb]. unfold on_coordinator. run_alone. exact Ht.
Qed.

(** An answer of a handler, as it reaches the worker. *)
Lemma answered {A} `{WireMessage A} type (m : A) s ids c :
  transmits type m -> quiet c ->
  exists answer c1 c2, encode_wire limits m = inr answer /\
    send_frame conn (make_frame type answer) (alone s ids c) = (true, alone s ids c1) /\
    take_sent conn (alone s ids c1) = (Some (make_frame type answer), alone s ids c2) /\
    undisturbed c c2 /\ decode_wire limits answer = Some (inr m).
Proof.
  intros Ht Hq. pose proof Ht as (_ & _ & answer & bytes & He & Hb).
  destruct (quiet_sends s ids c _ bytes Hq Hb) as (c1 & c2 & Hs & Hsent & Hc).
  exists answer, c1, c2. split; [done|]. split; [|split; [done|split; [done|by apply (transmitted type)]]].
  unfold send_frame, on_coordinator. rewrite bind_run, ask_run, Hs. cbv beta iota. by rewrite ret_run.
Qed.

(** The coordinator's round on a frame that asks for one call. *)
Lemma round_mutates {A} `{WireMessage A} type payload (m : A) (request : A -> MutationCall) s ids c :
  (forall f, fh_message_type (fr_header f) = MessageType.index type ->
     handle_frame limits clock catalog conn f = mutate limits clock conn f request) ->
  decode_wire limits payload = Some (inr m) -> quiet c ->
  (forall now, acknowledged (perform (request m) now s).1) ->
  exists now c' answer, exchange_on (make_frame type payload) (alone s ids c) =
      (Some (make_frame MessageType.ADMIN_RESPONSE answer), alone (perform (request m) now s).2 ids c') /\
    undisturbed c c' /\ decode_wire limits answer = Some (inr status_message).
Proof.
  intros Hh Hd Hq Ha. exists (clock (counted c)).1. destruct (Ha (clock (counted c)).1) as [Hcode Hmessage].
  destruct (answered _ status_message (perform (request m) (clock (counted c)).1 s).2 ids (counted c) Hstatus Hq)
    as (answer & c1 & c2 & He & Hs & Hsent & [H1 H2 H3] & Hr).
  exists c2, answer. split; [|by split]. apply (round_answers _ _ _ _ _ c1); [|exact Hsent].
  rewrite Hh by done. unfold mutate, decoded. cbn [make_frame fr_payload].
  rewrite Hd, bind_run, call_run. cbv beta iota. unfold reply_status. rewrite Hcode, Hmessage.
  fold status_message. by rewrite He, bind_run, Hs.
Qed.

(** ** The worker's steps *)

Context (o : WorkerOptions) (Hsound : worker_sound o).
Let id : EntityId BackendTag := EntityIdOf (wo_backend_id o).
Let boot : Generation BackendBootTag := GenerationOf (wo_boot o).

(** The step succeeds on a router that holds [d], which then holds [d']. *)
Definition step_takes (step : Step (P := World Coordinator)) (d d' : BackendDescriptor) : Prop :=
  forall s ids c, holds limits id boot d s -> quiet c ->
    exists s' c', step (alone s ids c) = (Some (inr tt), alone s' ids c') /\ holds limits id boot d' s' /\
      undisturbed c c'.

Definition step_makes (step : Step (P := World Coordinator)) (request : MutationCall) : Prop :=
  forall d d', takes limits id boot request d d' -> step_takes step d d'.

Lemma publish_makes {A} `{WireMessage A} type (m : A) (request : A -> MutationCall) :
  (forall f, fh_message_type (fr_header f) = MessageType.index type ->
     handle_frame limits clock catalog conn f = mutate limits clock conn f request) ->
  transmits type m -> step_makes (publish limits exchange_on type m) (request m).
Proof.
  intros Hh Ht d d' Htakes s ids c Hs Hq. unfold publish.
  destruct (asked type m (fun response => read_answer limits response (fun status : AdminResponse =>
      if (ap_code status == OutcomeCode.ACCEPTED) || (ap_code status == OutcomeCode.NO_CHANGE)
      then goes_on else exits 3)) (alone s ids c) Ht) as (payload & _ & Hd & ->).
  destruct (round_mutates type payload m request s ids c Hh Hd Hq) as (now & c' & answer & -> & Hc & Ha);
    [intros now; by apply (Htakes now s Hs)|].
  exists (perform (request m) now s).2, c'. split; [|split; [by apply (Htakes now s Hs)|exact Hc]].
  unfold read_answer. cbn [make_frame fr_payload]. by rewrite Ha.
Qed.

Lemma in_turn_takes steps requests d d' :
  Forall2 step_makes steps requests -> takes_all limits id boot requests d d' -> step_takes (in_turn steps) d d'.
Proof.
  intros Hsteps Ht. revert steps Hsteps.
  induction Ht as [d|request requests d d1 d2 Htakes _ IH]; intros steps Hsteps s ids c Hs Hq.
  - apply Forall2_nil_inv_r in Hsteps as ->. by exists s, c.
  - apply Forall2_cons_inv_r in Hsteps as (step & steps' & Hstep & Hsteps & ->). cbn [in_turn].
    destruct (Hstep d d1 Htakes s ids c Hs Hq) as (s1 & c1 & -> & Hs1 & [Hq1 E1 E2]).
    destruct (IH steps' Hsteps s1 ids c1 Hs1 Hq1) as (s2 & c2 & -> & Hs2 & [Hq2 F1 F2]).
    exists s2, c2. split; [done|]. split; [done|]. by split; [|rewrite F1|rewrite F2].
Qed.

Definition hello_answer (s : CanonicalState) : HelloAckMessage :=
  {| ha_router_id := cs_router_id s; ha_router_epoch := cs_router_epoch s;
     ha_coordinator_epoch := cs_coordinator_epoch s; ha_code := OutcomeCode.ACCEPTED;
     ha_detail := "Model Router 1.0.0" |}.
Definition register_answer : BackendRegisterAckMessage :=
  {| ba_backend_id := id; ba_backend_boot := boot; ba_code := OutcomeCode.ACCEPTED; ba_detail := "" |}.

(** Every message of the start, and every answer, can be sent. *)
Record start_transmits (s : CanonicalState) : Prop := {
  sends_hello : transmits MessageType.HELLO (worker_hello o);
  answers_hello : transmits MessageType.HELLO_ACK (hello_answer s);
  sends_backend : transmits MessageType.BACKEND_REGISTER (BackendRegisterOf (worker_backend o));
  answers_backend : transmits MessageType.BACKEND_REGISTER_ACK register_answer;
  sends_claims : transmits MessageType.CAPABILITY_PUBLISH (CapabilityPublishOf (worker_publication o));
  sends_health : transmits (A := HealthEvidence) MessageType.HEALTH_UPDATE (worker_evidence o HealthState.HEALTHY);
  sends_availability :
    transmits (A := AvailabilityEvidence) MessageType.AVAILABILITY_UPDATE (worker_evidence o AvailabilityState.AVAILABLE);
  sends_readiness : transmits (A := ReadinessEvidence) MessageType.READINESS_UPDATE (worker_evidence o ReadinessState.READY);
  sends_residency :
    transmits (A := ResidencyEvidence) MessageType.RESIDENCY_UPDATE (worker_evidence o ResidencyState.RESIDENT);
  sends_capacity : transmits (A := CapacityEvidence * CapacityDetail) MessageType.CAPACITY_UPDATE
    (worker_evidence o CapacityState.AVAILABLE, worker_capacity o);
  sends_latency : transmits MessageType.LATENCY_UPDATE (worker_latency o);
  sends_prices : Forall (fun p => transmits MessageType.COST_UPDATE (worker_cost o p.1 (wo_cost_base o * p.2))) reference_prices
}.

Lemma hello_answered s ids c :
  transmits MessageType.HELLO (worker_hello o) -> transmits MessageType.HELLO_ACK (hello_answer s) -> quiet c ->
  exists c', say_hello limits o exchange_on (alone s ids c) = (Some (inr tt), alone s ids c') /\ undisturbed c c'.
Proof.
  intros Ht Ha Hq. unfold say_hello.
  match goal with |- context [ask_peer _ _ _ _ ?k] =>
    destruct (asked MessageType.HELLO (worker_hello o) k (alone s ids c) Ht) as (payload & _ & Hd & ->) end.
  destruct (answered _ _ s ids (counted c) Ha Hq) as (answer & c1 & c2 & He & Hs & Hsent & [H1 H2 H3] & _).
  exists c2. split; [|by split]. rewrite (round_answers (make_frame MessageType.HELLO payload) s s ids c c1 c2 (make_frame MessageType.HELLO_ACK answer)); [done| |exact Hsent].
  change (handle_hello limits conn (make_frame MessageType.HELLO payload) (alone s ids (counted c)) =
    (going_on true, alone s ids c1)).
  unfold handle_hello, decoded. cbn [make_frame fr_payload]. rewrite Hd. run_alone.
  unfold replied, reply. fold (hello_answer s). by rewrite He, bind_run, Hs.
Qed.

Lemma registered s ids c :
  start_transmits s -> quiet c -> (forall now, acknowledged (perform (RegisterBackend (worker_backend o)) now s).1) ->
  exists now c', register limits o exchange_on (alone s ids c) =
      (Some (inr tt), alone (perform (RegisterBackend (worker_backend o)) now s).2 ids c') /\
    undisturbed (install_link (worker_backend o) conn c) c'.
Proof.
  intros Ht Hq Hr. unfold register.
  match goal with |- context [ask_peer _ _ _ _ ?k] =>
    destruct (asked MessageType.BACKEND_REGISTER (BackendRegisterOf (worker_backend o)) k (alone s ids c) (sends_backend _ Ht))
      as (payload & _ & Hd & ->) end.
  exists (clock (counted c)).1. destruct (Hr (clock (counted c)).1) as [Hcode Hmessage].
  set (s1 := (perform (RegisterBackend (worker_backend o)) (clock (counted c)).1 s).2).
  destruct (answered _ _ s1 ids (install_link (worker_backend o) conn (counted c)) (answers_backend _ Ht) Hq)
    as (answer & c1 & c2 & He & Hs & Hsent & [H1 H2 H3] & Ha).
  exists c2. split; [|by split]. rewrite (round_answers (make_frame MessageType.BACKEND_REGISTER payload) s s1 ids c c1 c2
    (make_frame MessageType.BACKEND_REGISTER_ACK answer)); [|  |exact Hsent].
  { unfold read_answer. cbn [make_frame fr_payload]. by rewrite Ha. }
  change (handle_register limits clock conn (make_frame MessageType.BACKEND_REGISTER payload) (alone s ids (counted c)) =
    (going_on true, alone s1 ids c1)).
  unfold handle_register, decoded. cbn [make_frame fr_payload]. rewrite Hd, bind_run. cbn [br_backend].
  rewrite call_run. cbv beta iota. fold s1. rewrite bind_run. unfold change. rewrite ask_run. cbv beta iota.
  rewrite (acknowledged_accepted _ (Hr _)), Hcode, Hmessage. unfold replied, reply.
  change (encode_wire limits _) with (encode_wire limits register_answer). by rewrite He, bind_run, Hs.
Qed.

(** The request a message of this type is a call of. *)
Ltac makes message request Hsends :=
  apply (publish_makes _ message request); [unfold handle_frame; by intros f ->|exact Hsends].

Lemma evidence_steps s :
  start_transmits s ->
  Forall2 step_makes [
    publish limits exchange_on MessageType.CAPABILITY_PUBLISH (CapabilityPublishOf (worker_publication o));
    publish (A := HealthEvidence) limits exchange_on MessageType.HEALTH_UPDATE (worker_evidence o HealthState.HEALTHY);
    publish (A := AvailabilityEvidence) limits exchange_on MessageType.AVAILABILITY_UPDATE
      (worker_evidence o AvailabilityState.AVAILABLE);
    publish (A := ReadinessEvidence) limits exchange_on MessageType.READINESS_UPDATE (worker_evidence o ReadinessState.READY);
    publish (A := ResidencyEvidence) limits exchange_on MessageType.RESIDENCY_UPDATE
      (worker_evidence o ResidencyState.RESIDENT);
    publish (A := CapacityEvidence * CapacityDetail) limits exchange_on MessageType.CAPACITY_UPDATE
      (worker_evidence o CapacityState.AVAILABLE, worker_capacity o);
    publish limits exchange_on MessageType.LATENCY_UPDATE (worker_latency o)] (worker_evidence_calls o).
Proof.
  intros Hs. unfold worker_evidence_calls. repeat apply Forall2_cons_2; [..|apply Forall2_nil_2].
  - makes (CapabilityPublishOf (worker_publication o)) (fun m => PublishCapabilities (cp_publication m)) (sends_claims _ Hs).
  - makes (worker_evidence o HealthState.HEALTHY : HealthEvidence) UpdateHealth (sends_health _ Hs).
  - makes (worker_evidence o AvailabilityState.AVAILABLE : AvailabilityEvidence) UpdateAvailability (sends_availability _ Hs).
  - makes (worker_evidence o ReadinessState.READY : ReadinessEvidence) UpdateReadiness (sends_readiness _ Hs).
  - makes (worker_evidence o ResidencyState.RESIDENT : ResidencyEvidence) UpdateResidency (sends_residency _ Hs).
  - makes (worker_evidence (S := CapacityState.t) (g := CapacityTag) o CapacityState.AVAILABLE, worker_capacity o)
      (fun '(e, detail) => UpdateCapacity e detail) (sends_capacity _ Hs).
  - makes (worker_latency o) UpdateLatency (sends_latency _ Hs).
Qed.

Lemma price_steps s :
  start_transmits s -> Forall2 step_makes (publish_price limits o exchange_on <$> worker_prices o) (worker_prices_of o).
Proof.
  intros H. apply sends_prices in H. unfold worker_prices_of. rewrite worker_prices_sound by done.
  induction H as [|p l Hp _ IH]; [apply Forall2_nil_2|]. apply Forall2_cons_2; [|exact IH].
  unfold publish_price. cbn [fst snd]. makes (worker_cost o p.1 (wo_cost_base o * p.2)) SetCost Hp.
Qed.
End Connection.


(** ** The default worker on a fresh coordinator *)

Definition joining_state : CanonicalState := fresh_start sample_options 0 100.


Ltac transmits_now :=
  split; [in_range|split; [vm_compute; reflexivity|do 2 eexists; split; [vm_compute; reflexivity|vm_compute; reflexivity]]].

Lemma default_starts : start_transmits default_resource_limits worker_options_default joining_state.
Proof.
  split; [transmits_now..|]. repeat (apply Forall_cons_2; [transmits_now|]); apply Forall_nil_2.
Qed.

