(* ===== verification/ReferenceRun.v ===== *)
(** * The reference system, run

    A coordinator that was started, the worker and a client on two of its
    connections, and the frames they exchange, evaluated: the worker joins, the
    client opens the policy, routes a request and has the decision dispatched to
    the worker, and once the worker's session has ended the next dispatch is
    refused. Every step is taken by the handlers and the encoders themselves. *)
From S2P Require Import Prelude.
From S2P Require Import Ids.
From S2P Require Import Outcome.
From S2P Require Import Limits.
From S2P Require Import Decision.
From S2P Require Import RouterState.
From S2P Require Import RouterRoute.
From S2P Require Import Providers.
From S2P Require Import Request.
From S2P Require Import FileStore.
From S2P Require Import Frame.
From S2P Require Import Transport.
From S2P Require Import WireRecords.
From S2P Require Import WireMessages.
From S2P Require Import RouterPersist.
From S2P Require Import ReferenceProfiles.
From S2P Require Import Coordinator.
From S2P Require Import CoordinatorRun.
From S2P Require Import BackendWorker.
From S2P Require Import WorkerJoin.

Definition worker_conn : ConnectionRef := 0%nat.
Definition client_conn : ConnectionRef := 1%nat.
Definition two_connections : Coordinator :=
  (coordinator_idle empty_disk) <| cd_connections :=
    {[worker_conn := session_open transport_options_default; client_conn := session_open transport_options_default]} |>.
Definition run_start : World Coordinator :=
  (start_coordinator coordinator_options_default sample_clock make_catalog (inr tt)
     (alone canonical_state_default 0 two_connections)).2.

Definition exchange (conn : ConnectionRef) : Frame -> World Coordinator -> option Frame * World Coordinator :=
  exchange_on default_resource_limits sample_clock make_catalog conn.

Definition read_frame {B} `{WireMessage B} (f : Frame) : option B :=
  match decode_wire default_resource_limits (fr_payload f) with Some (inr m) => Some m | _ => None end.
Definition ask_on {A B} `{WireMessage A} `{WireMessage B} (conn : ConnectionRef) (type : MessageType.t) (m : A)
    (w : World Coordinator) : option B * World Coordinator :=
  match encode_wire default_resource_limits m with
  | inl _ => (None, w)
  | inr payload => let '(f, w) := exchange conn (make_frame type payload) w in (f ≫= read_frame, w)
  end.

Definition control (op : AdminOp.t) (decision : EntityId RouteDecisionTag) (generation : Z) : AdminRequest :=
  {| ar_op := op; ar_backend_id := none; ar_model_id := none; ar_decision_id := decision;
     ar_generation := generation; ar_value := 0; ar_detail := "" |}.
Definition control_on (op : AdminOp.t) (decision : EntityId RouteDecisionTag) (w : World Coordinator)
    : option AdminResponse * World Coordinator :=
  ask_on (A := AdminRequest) (B := AdminResponse) client_conn MessageType.ADMIN_REQUEST (control op decision 1) w.

Definition run_joined : option (Z + unit) * World Coordinator :=
  join default_resource_limits worker_options_default (exchange worker_conn) run_start.
Definition run_opened : option AdminResponse * World Coordinator :=
  control_on AdminOp.SET_POLICY_OPEN none run_joined.2.
Definition run_request : RouteRequest := serving_request <| rr_policy_id := EntityIdOf 1 |>.
Definition run_routed : option RouteResponseMessage * World Coordinator :=
  ask_on (A := RouteRequestMessage) (B := RouteResponseMessage) client_conn MessageType.ROUTE_REQUEST (RouteRequestOf run_request) run_opened.2.
Definition decision_in (r : option RouteResponseMessage) : EntityId RouteDecisionTag :=
  match r with Some r => de_decision_id (ro_decision r) | None => none end.
Definition run_decision : EntityId RouteDecisionTag := decision_in run_routed.1.

(** What the worker's session receives when it answers a frame. *)
Definition answers_to (f : option Frame) : list Arrival :=
  match f ≫= worker_round default_resource_limits worker_options_default with
  | Some (RoundSends answer) =>
      match read_frame answer with Some m => [ResultArrives worker_conn m] | None => [] end
  | _ => []
  end.
Definition with_arrivals (arrivals : list Arrival) (w : World Coordinator) : World Coordinator :=
  let c := w_env w in w <| w_env := c <| cd_arrivals := arrivals |> |>.

(** The dispatch the client asks for, with the worker's answer to the very frame
    that this dispatch sends. *)
Definition run_sent : option Frame :=
  (take_sent worker_conn (control_on AdminOp.DISPATCH run_decision run_routed.2).2).1.
Definition run_dispatched : option AdminResponse * World Coordinator :=
  control_on AdminOp.DISPATCH run_decision
    (with_arrivals (answers_to run_sent) run_routed.2).
Definition run_ended : World Coordinator :=
  let w := run_dispatched.2 in
  (serve_end sample_clock worker_conn (link_of worker_conn (w_env w)) w).2.
Definition run_refused : option AdminResponse * World Coordinator :=
  control_on AdminOp.DISPATCH run_decision run_ended.

Definition codes : option (Z + unit) * list (option OutcomeCode.t) :=
  (run_joined.1, [ap_code <$> run_opened.1; ro_code <$> run_routed.1; ap_code <$> run_dispatched.1;
                  ap_code <$> run_refused.1]).

Example reference_system_runs :
  codes = (Some (inr tt), [Some OutcomeCode.ACCEPTED; Some OutcomeCode.ROUTED; Some OutcomeCode.DISPATCHED;
                           Some OutcomeCode.REJECT_STALE_BACKEND_BOOT]).
Proof. vm_compute. reflexivity. Qed.
