(* ===== verification/InspectTool.v ===== *)
(** * The inspection tool ([tools/model_router_inspect.cpp])

    Its command line, what it prints for each section, and [main] on a router of
    its own.  The theorems: the tool only reads the files; in JSON mode every
    line it prints is a JSON text that is read back as the values it shows; and
    what an exit status of zero stands for. *)
From Stdlib Require Import Ascii.
From S2P Require Import Prelude.
From S2P Require Import Ids.
From S2P Require Import Outcome.
From S2P Require Import Limits.
From S2P Require Import Clock.
From S2P Require Import Codec.
From S2P Require Import Capability.
From S2P Require Import Evidence.
From S2P Require Import Catalog.
From S2P Require Import Candidate.
From S2P Require Import Authority.
From S2P Require Import Decision.
From S2P Require Import RouterState.
From S2P Require Import Persistence.
From S2P Require Import FileStore.
From S2P Require Import RouterMutation.
From S2P Require Import Providers.
From S2P Require Import RouterInspect.
From S2P Require Import Json.
From S2P Require Import RouteReport.
From S2P Require Import RouterSnapshot.
From S2P Require Import RouterPersist.

(** ** The command line *)

Record InspectOptions := {
  ip_has_state : bool;
  ip_state_path : string;
  ip_validate : bool;
  ip_summary : bool;
  ip_models : bool;
  ip_backends : bool;
  ip_routes : bool;
  ip_fenced : bool;
  ip_json : bool;
  ip_explain : bool;
  ip_explain_id : Z;
  ip_version : bool;
  ip_help : bool
}.
#[export] Instance inspect_options_eta : Eta InspectOptions := fun o =>
  {| ip_has_state := ip_has_state o; ip_state_path := ip_state_path o; ip_validate := ip_validate o;
     ip_summary := ip_summary o; ip_models := ip_models o; ip_backends := ip_backends o; ip_routes := ip_routes o;
     ip_fenced := ip_fenced o; ip_json := ip_json o; ip_explain := ip_explain o; ip_explain_id := ip_explain_id o;
     ip_version := ip_version o; ip_help := ip_help o |}.
Definition inspect_options_default : InspectOptions :=
  {| ip_has_state := false; ip_state_path := ""; ip_validate := false; ip_summary := false; ip_models := false;
     ip_backends := false; ip_routes := false; ip_fenced := false; ip_json := false; ip_explain := false;
     ip_explain_id := 0; ip_version := false; ip_help := false |}.

Definition any_section (o : InspectOptions) : bool :=
  ip_validate o || ip_summary o || ip_models o || ip_backends o || ip_routes o || ip_fenced o || ip_explain o.

Definition line (text : string) : string := text +:+ newline.

Definition version_string : string := "1.0.0".
Definition product_string : string := "Model Router " +:+ version_string.

Definition usage : string := String.concat "" (line <$> [
  "Model Router inspection tool " +:+ version_string;
  "";
  "usage: model_router_inspect [options]";
  "";
  "options:";
  "  --state <file>        load a persisted router state file";
  "  --validate            validate the state file integrity and print the result";
  "  --summary             print the router summary";
  "  --models              print registered models";
  "  --backends            print registered backends";
  "  --routes              print retained route decisions";
  "  --fenced              print fenced backend incarnations";
  "  --explain-route <id>  print the canonical explanation of one retained decision";
  "  --json                emit JSON instead of text where a JSON form exists";
  "  --version             print the product version string";
  "  --help                print this usage";
  "";
  "Without --state the tool inspects a fresh, unloaded router.";
  "Exit codes: 0 success, 1 validation or load failure, 2 usage error."]).

(** A 64-bit accumulator: a value that does not fit wraps. *)
Fixpoint parse_digits (acc : Z) (text : string) : option Z :=
  match text with
  | EmptyString => Some acc
  | String c text =>
      return_if negb (is_digit c) with None ;; parse_digits (word64 (acc * 10 + digit_value c)) text
  end.
Definition parse_u64 (text : string) : option Z := return_if text == "" with None ;; parse_digits 0 text.

(** The name before the first [=], and what follows it if there is one. *)
Fixpoint split_option (argument : string) : string * option string :=
  match argument with
  | EmptyString => ("", None)
  | String c rest =>
      return_if c == "="%char with ("", Some rest) ;;
      let '(name, v) := split_option rest in (String c name, v)
  end.

(** The options that take no value; a value that is given is not looked at. *)
Definition set_flag (name : string) (o : InspectOptions) : option InspectOptions :=
  return_if name == "--help" with Some (o <| ip_help := true |>) ;;
  return_if name == "--version" with Some (o <| ip_version := true |>) ;;
  return_if name == "--json" with Some (o <| ip_json := true |>) ;;
  return_if name == "--validate" with Some (o <| ip_validate := true |>) ;;
  return_if name == "--summary" with Some (o <| ip_summary := true |>) ;;
  return_if name == "--models" with Some (o <| ip_models := true |>) ;;
  return_if name == "--backends" with Some (o <| ip_backends := true |>) ;;
  return_if name == "--routes" with Some (o <| ip_routes := true |>) ;;
  return_if name == "--fenced" with Some (o <| ip_fenced := true |>) ;;
  None.

Definition set_state (path : string) (o : InspectOptions) : string + InspectOptions :=
  return_if path == "" with inl (line "error: --state requires a non-empty file path") ;;
  inr (o <| ip_has_state := true |> <| ip_state_path := path |>).

Definition set_explain (text : string) (o : InspectOptions) : string + InspectOptions :=
  match parse_u64 text with
  | None => inl (line "error: --explain-route requires a decimal decision identity")
  | Some id => inr (o <| ip_explain_id := id |> <| ip_explain := true |>)
  end.

(** The options, or the text of a usage error. *)
Fixpoint parse_arguments (arguments : list string) (o : InspectOptions) : string + InspectOptions :=
  match arguments with
  | [] => inr o
  | argument :: arguments =>
      let '(name, given) := split_option argument in
      match set_flag name o with
      | Some o => parse_arguments arguments o
      | None =>
          return_if negb ((name == "--state") || (name == "--explain-route"))
            with inl (line ("error: unknown option " +:+ argument) +:+ usage) ;;
          let set := if name == "--state" then set_state else set_explain in
          match given, arguments with
          | Some v, _ =>
              match set v o with inl error => inl error | inr o => parse_arguments arguments o end
          | None, v :: arguments =>
              match set v o with inl error => inl error | inr o => parse_arguments arguments o end
          | None, [] =>
              inl (line (if name == "--state" then "error: --state requires a file path"
                         else "error: --explain-route requires a decision identity"))
          end
      end
  end.

(** ** What is printed *)

Definition text_of (s : string) : string := quoted (escape_json s).
(** A C string ends at its first NUL. *)
Fixpoint c_str (s : string) : string :=
  match s with
  | EmptyString => ""
  | String c s => return_if c == Ascii.zero with "" ;; String c (c_str s)
  end.
Definition label (s : string) : string := if s == "" then "(none)" else c_str s.
Definition array (parts : list string) : string := "[" +:+ join_comma parts +:+ "]".
Definition object (members : list (string * string)) : string :=
  "{" +:+ join_comma ((fun m => member m.1 m.2) <$> members) +:+ "}".

Definition load_report (json : bool) (path : string) (l : PersistenceLoad) : string :=
  if json then
    line (object [("state", object [("path", text_of path); ("code", quoted (OutcomeCode.to_string (ld_code l)));
      ("format_version", to_string_int (ld_format_version l)); ("records", to_string_int (ld_record_count l));
      ("detail", text_of (ld_detail l))])])
  else
    line ("state path=" +:+ path +:+ " code=" +:+ OutcomeCode.to_string (ld_code l) +:+
      " format=" +:+ to_string_int (ld_format_version l) +:+ " records=" +:+ to_string_int (ld_record_count l) +:+
      " detail=" +:+ ld_detail l).

Definition validation_report (o : InspectOptions) (file : PersistenceResult) (r : InvariantReport) : string :=
  if ip_json o then
    line (object [("validate", object [("path", text_of (if ip_has_state o then ip_state_path o else ""));
      ("file_code", quoted (OutcomeCode.to_string (pe_code file))); ("file_detail", text_of (pe_detail file));
      ("invariants", report_to_json r)])])
  else
    line ("validate file=" +:+ (if ip_has_state o then c_str (ip_state_path o) else "(none)") +:+
      " code=" +:+ OutcomeCode.to_string (pe_code file) +:+ " detail=" +:+ pe_detail file) +:+ report_to_text r.

Definition summary_report (json : bool) (x : RouterSummary) : string :=
  if json then line (summary_to_json x) else summary_to_text x.

Definition profile_size (m : ModelDescriptor) : Z := Z.of_nat (length (profile_entries (md_capabilities m))).

Definition model_json (m : ModelDescriptor) : string := object [
  ("model_id", number (md_model_id m)); ("model_generation", number (md_model_generation m));
  ("artifact_generation", number (md_artifact_generation m)); ("family_id", number (md_family_id m));
  ("context_limit_tokens", to_string_int (md_context_limit_tokens m));
  ("max_output_tokens", to_string_int (md_max_output_tokens m));
  ("quality_class", to_string_int (md_quality_class m));
  ("lifecycle", quoted (ModelLifecycle.to_string (md_lifecycle m)));
  ("provenance", quoted (Provenance.to_string (md_provenance m)));
  ("capabilities", to_string_int (profile_size m)); ("display_name", text_of (md_display_name m))].

Definition model_text (m : ModelDescriptor) : string := line (
  "  model id=" +:+ number (md_model_id m) +:+ " generation=" +:+ number (md_model_generation m) +:+
  " artifact=" +:+ number (md_artifact_generation m) +:+ " family=" +:+ number (md_family_id m) +:+
  " context=" +:+ to_string_int (md_context_limit_tokens m) +:+
  " max_output=" +:+ to_string_int (md_max_output_tokens m) +:+
  " quality=" +:+ to_string_int (md_quality_class m) +:+
  " lifecycle=" +:+ ModelLifecycle.to_string (md_lifecycle m) +:+
  " provenance=" +:+ Provenance.to_string (md_provenance m) +:+
  " capabilities=" +:+ to_string_int (profile_size m) +:+ " name=" +:+ label (md_display_name m)).

(** One section: an array under its name, or a count and a line each. *)
Definition section {A} (json : bool) (name : string) (to_json to_text : A -> string) (l : list A) : string :=
  if json then line (object [(name, array (to_json <$> l))])
  else line (name +:+ " count=" +:+ to_string_int (Z.of_nat (length l))) +:+ String.concat "" (to_text <$> l).

Definition models_report (json : bool) (l : list ModelDescriptor) : string :=
  section json "models" model_json model_text l.

Definition backend_json (b : BackendSummary) : string := object [
  ("backend_id", number (bs_backend_id b)); ("backend_generation", number (bs_backend_generation b));
  ("backend_boot", number (bs_backend_boot b)); ("provider_id", number (bs_provider_id b));
  ("endpoint_id", number (bs_endpoint_id b)); ("endpoint_generation", number (bs_endpoint_generation b));
  ("trust_domain", quoted (TrustDomain.to_string (bs_trust_domain b)));
  ("locality", text_of (locality_string (bs_locality b)));
  ("health", quoted (HealthState.to_string (bs_health b)));
  ("availability", quoted (AvailabilityState.to_string (bs_availability b)));
  ("readiness", quoted (ReadinessState.to_string (bs_readiness b)));
  ("residency", quoted (ResidencyState.to_string (bs_residency b)));
  ("capacity", quoted (CapacityState.to_string (bs_capacity b)));
  ("bound_models", to_string_int (bs_bound_model_count b)); ("fenced", truth (bs_fenced b));
  ("evidence_current", truth (bs_evidence_current b));
  ("provenance", quoted (Provenance.to_string (bs_provenance b)))].

Definition backend_text (b : BackendSummary) : string := line (
  "  backend id=" +:+ number (bs_backend_id b) +:+ " generation=" +:+ number (bs_backend_generation b) +:+
  " boot=" +:+ number (bs_backend_boot b) +:+ " provider=" +:+ number (bs_provider_id b) +:+
  " endpoint=" +:+ number (bs_endpoint_id b) +:+ "@" +:+ number (bs_endpoint_generation b) +:+
  " trust=" +:+ TrustDomain.to_string (bs_trust_domain b) +:+
  " locality=" +:+ label (locality_string (bs_locality b)) +:+
  " health=" +:+ HealthState.to_string (bs_health b) +:+
  " availability=" +:+ AvailabilityState.to_string (bs_availability b) +:+
  " readiness=" +:+ ReadinessState.to_string (bs_readiness b) +:+
  " residency=" +:+ ResidencyState.to_string (bs_residency b) +:+
  " capacity=" +:+ CapacityState.to_string (bs_capacity b) +:+
  " models=" +:+ to_string_int (bs_bound_model_count b) +:+ " fenced=" +:+ flag (bs_fenced b) +:+
  " evidence_current=" +:+ flag (bs_evidence_current b) +:+
  " provenance=" +:+ Provenance.to_string (bs_provenance b)).

Definition backends_report (json : bool) (x : RouterSnapshot) : string :=
  section json "backends" backend_json backend_text (sn_backends x).

Definition decision_json (d : RouteDecision) : string :=
  let x := de_explanation d in object [
  ("decision_id", number (de_decision_id d)); ("decision_generation", number (de_decision_generation d));
  ("request_id", number (de_request_id d)); ("request_generation", number (de_request_generation d));
  ("status", quoted (RouteStatus.to_string (de_status d))); ("code", quoted (OutcomeCode.to_string (de_code d)));
  ("currentness", quoted (Currentness.to_string (rx_currentness x)));
  ("fallbacks", to_string_int (Z.of_nat (length (de_fallbacks d))));
  ("created_at", to_string_int (de_created_at d)); ("winner", text_of (key_to_string (rx_winner x)));
  ("semantic_digest", quoted (rx_semantic_digest x)); ("explanation", route_explanation_to_json x)].

Definition decision_text (d : RouteDecision) : string :=
  let x := de_explanation d in line (
  "  decision id=" +:+ number (de_decision_id d) +:+ " generation=" +:+ number (de_decision_generation d) +:+
  " request=" +:+ number (de_request_id d) +:+ " request_generation=" +:+ number (de_request_generation d) +:+
  " status=" +:+ RouteStatus.to_string (de_status d) +:+ " code=" +:+ OutcomeCode.to_string (de_code d) +:+
  " currentness=" +:+ Currentness.to_string (rx_currentness x) +:+
  " fallbacks=" +:+ to_string_int (Z.of_nat (length (de_fallbacks d))) +:+
  " created_at=" +:+ to_string_int (de_created_at d) +:+ " winner=" +:+ key_to_string (rx_winner x) +:+
  " digest=" +:+ rx_semantic_digest x).

Definition routes_report (json : bool) (l : list RouteDecision) : string :=
  section json "routes" decision_json decision_text l.

Definition fence_json (f : FencedBootRecord) : string := object [
  ("backend_id", number (fb_backend_id f)); ("backend_generation", number (fb_backend_generation f));
  ("backend_boot", number (fb_backend_boot f)); ("reason", quoted (OutcomeCode.to_string (fb_reason f)));
  ("fenced_at", to_string_int (fb_fenced_at f))].

Definition fence_text (f : FencedBootRecord) : string := line (
  "  fenced backend=" +:+ number (fb_backend_id f) +:+ " generation=" +:+ number (fb_backend_generation f) +:+
  " boot=" +:+ number (fb_backend_boot f) +:+ " reason=" +:+ OutcomeCode.to_string (fb_reason f) +:+
  " at=" +:+ to_string_int (fb_fenced_at f)).

Definition fenced_report (json : bool) (l : list FencedBootRecord) : string :=
  section json "fenced" fence_json fence_text l.

Definition explain_json (d : RouteDecision) : string :=
  object [("explain", object [("decision_id", number (de_decision_id d));
    ("decision_generation", number (de_decision_generation d));
    ("status", quoted (RouteStatus.to_string (de_status d))); ("code", quoted (OutcomeCode.to_string (de_code d)));
    ("semantic_digest", quoted (rx_semantic_digest (de_explanation d)));
    ("explanation", route_explanation_to_json (de_explanation d))])].

(** ** [main] *)

Definition exit_success : Z := 0.
Definition exit_failure : Z := 1.
Definition exit_usage : Z := 2.

Record Printed := { pt_status : Z; pt_out : string; pt_err : string }.

(** What one section prints, and whether it makes the tool fail. *)
Record Output := { ot_out : string; ot_err : string; ot_fails : bool }.
Definition shows (text : string) : Output := {| ot_out := text; ot_err := ""; ot_fails := false |}.
Definition outputs (l : list Output) : Output :=
  {| ot_out := String.concat "" (ot_out <$> l); ot_err := String.concat "" (ot_err <$> l);
     ot_fails := existsb ot_fails l |}.

Section Main.
Context {E : Type} `{HasFiles E} (clock : Call E UnixMillis).

(** [None]: the state file holds an enumerator without a name. *)
Definition validation (o : InspectOptions) : M E (option Output) :=
  file ← (if ip_has_state o then on_files (validate_file (ip_state_path o) default_resource_limits)
          else mret (Some {| pe_code := OutcomeCode.ACCEPTED; pe_detail := "no state file" |}));
  match file with
  | None => mret None
  | Some file =>
      now ← ask clock;
      report ← locked_shared (check_invariants now);
      mret (Some {| ot_out := validation_report o file report; ot_err := "";
                    ot_fails := negb (pe_ok file) || negb (report_ok report) |})
  end.

(** The models the backends are bound to, each once and in order. *)
Fixpoint found_models (ids : list (EntityId ModelTag)) : M E (list ModelDescriptor) :=
  match ids with
  | [] => mret []
  | id :: ids =>
      found ← locked_shared (fun s => find_model s id);
      rest ← found_models ids;
      mret (match found with Some m => m :: rest | None => rest end)
  end.
Fixpoint bound_models (backends : list BackendSummary) : M E (list (EntityId ModelTag)) :=
  match backends with
  | [] => mret []
  | b :: backends =>
      found ← locked_shared (fun s => find_backend s (bs_backend_id b));
      rest ← bound_models backends;
      mret (match found with Some d => (mb_model_id <$> bd_model_bindings d) ++ rest | None => rest end)
  end.
Definition inspected_models (loaded : option PersistenceLoad) : M E (list ModelDescriptor) :=
  match loaded with
  | Some l => mret (st_models (ld_state l))
  | None =>
      now ← ask clock;
      x ← locked_shared (snapshot now);
      ids ← bound_models (sn_backends x);
      found_models (sort_unique_by id_ltb id ids)
  end.

Definition explanation (o : InspectOptions) : M E Output :=
  let id := EntityIdOf (ip_explain_id o) in
  found ← locked_shared (fun s => find_decision s id);
  match found with
  | None =>
      mret {| ot_out := ""; ot_fails := true;
              ot_err := line ("error: decision " +:+ to_string_int (ip_explain_id o) +:+ " is not retained") |}
  | Some d =>
      return_if ip_json o with mret (shows (line (explain_json d))) ;;
      text ← locked_shared (fun s => explain_route s id);
      mret (shows (line ("explain decision=" +:+ to_string_int (ip_explain_id o)) +:+ line text))
  end.

(** The sections that were asked for, in the order of the code. *)
Definition asked_for (wanted : bool) (m : M E Output) : M E (list Output) :=
  if wanted then (o ← m; mret [o]) else mret [].
Definition sections (o : InspectOptions) (loaded : option PersistenceLoad) : M E (option Output) :=
  let json := ip_json o in
  checked ← (if ip_validate o then validation o else mret (Some (shows "")));
  match checked with
  | None => mret None
  | Some checked =>
      summaries ← asked_for (ip_summary o) (x ← locked_shared summary; mret (shows (summary_report json x)));
      models ← asked_for (ip_models o) (l ← inspected_models loaded; mret (shows (models_report json l)));
      backends ← asked_for (ip_backends o)
        (now ← ask clock; x ← locked_shared (snapshot now); mret (shows (backends_report json x)));
      routes ← asked_for (ip_routes o) (l ← locked_shared route_history; mret (shows (routes_report json l)));
      fenced ← asked_for (ip_fenced o) (l ← locked_shared fenced_boots; mret (shows (fenced_report json l)));
      explained ← asked_for (ip_explain o) (explanation o);
      mret (Some (outputs (checked :: summaries ++ models ++ backends ++ routes ++ fenced ++ explained)))
  end.

Definition finished (printed : string) (x : option Output) : option Printed :=
  (fun x => {| pt_status := if ot_fails x then exit_failure else exit_success; pt_out := printed +:+ ot_out x;
               pt_err := ot_err x |}) <$> x.

(** The state file is read once for the report and once more by the router. *)
Definition inspect_file (o : InspectOptions) : M E (option Printed) :=
  loaded ← on_files (store_load (ip_state_path o) default_resource_limits);
  match loaded with
  | None => mret None
  | Some l =>
      let printed := load_report (ip_json o) (ip_state_path o) l in
      return_if negb (load_ok l) with mret (Some {| pt_status := exit_failure; pt_out := printed; pt_err := "" |}) ;;
      return_if negb (any_section o) with mret (Some {| pt_status := exit_success; pt_out := printed; pt_err := "" |}) ;;
      imported ← load (ip_state_path o);
      match imported with
      | None => mret None
      | Some r =>
          return_if negb (pe_ok r)
            with mret (Some {| pt_status := exit_failure; pt_out := printed;
                   pt_err := line ("error: durable state could not be imported: " +:+
                     OutcomeCode.to_string (pe_code r) +:+ " " +:+ pe_detail r) |}) ;;
          x ← sections o (Some l);
          mret (finished printed x)
      end
  end.

Definition inspect_options (o : InspectOptions) : M E (option Printed) :=
  return_if ip_help o with mret (Some {| pt_status := exit_success; pt_out := usage; pt_err := "" |}) ;;
  return_if ip_version o
    with mret (Some {| pt_status := exit_success; pt_out := line product_string; pt_err := "" |}) ;;
  return_if negb (ip_has_state o) && negb (any_section o)
    with mret (Some {| pt_status := exit_usage; pt_out := "";
                       pt_err := line "error: no inspection option was given" +:+ usage |}) ;;
  return_if ip_has_state o with inspect_file o ;;
  x ← sections o None; mret (finished "" x).

Definition inspect (arguments : list string) : M E (option Printed) :=
  match parse_arguments arguments inspect_options_default with
  | inl error => mret (Some {| pt_status := exit_usage; pt_out := ""; pt_err := error |})
  | inr o => inspect_options o
  end.
End Main.

(** The router of the tool: it is constructed and not started. *)
Definition inspect_world (ids : Allocator) (fs : FileSystem) : World FileSystem :=
  let '(s, ids) := router_init model_router_options_default ids in alone s ids fs.

(** ** The tool only reads *)

(** The same files under the same names, whatever faults were met. *)
Record same_disk (fs fs' : FileSystem) : Prop := {
  same_names : fs_names fs' = fs_names fs;
  same_pending : fs_pending fs' = fs_pending fs;
  same_files : fs_files fs' = fs_files fs;
  same_dirty : fs_dirty fs' = fs_dirty fs
}.
#[export] Instance same_disk_preorder : PreOrder same_disk.
Proof. split; [by split|]. intros fs1 fs2 fs3 [] []. split; congruence. Qed.

Lemma next_fault_same fs : same_disk fs (next_fault fs).2.
Proof. unfold next_fault. destruct (fs_faults fs); by split. Qed.

Lemma read_image_same path limits fs : same_disk fs (read_image path limits fs).2.
Proof.
  unfold read_image. pose proof (next_fault_same fs) as S1. destruct (next_fault fs) as [f1 fs1]. cbn [snd] in S1.
  destruct (if ft_fails f1 then None else contents fs1 path) as [bytes|]; [|exact S1].
  pose proof (next_fault_same fs1) as S2. destruct (next_fault fs1) as [f2 fs2]. cbn [snd] in S2.
  assert (same_disk fs fs2) as S12 by by etrans. destruct (ft_fails f2); [exact S12|].
  pose proof (next_fault_same fs2) as S3. destruct (next_fault fs2) as [f3 fs3]. cbn [snd] in S3.
  assert (same_disk fs fs3) as S13 by by etrans. do 3 (case_match; [exact S13|]).
  pose proof (next_fault_same fs3) as S4. destruct (next_fault fs3) as [f4 fs4]. cbn [snd] in S4.
  assert (same_disk fs fs4) by by etrans. by case_match.
Qed.

Lemma store_load_same path limits fs : same_disk fs (store_load path limits fs).2.
Proof.
  unfold store_load. case_match; [done|]. pose proof (read_image_same path limits fs) as S.
  by destruct (read_image path limits fs) as [[error|image] fs1].
Qed.

Create HintDb reads.

Section ReadsOnly.
Context {E : Type} `{HasFiles E} (clock : Call E UnixMillis).
Context (Hclock : forall e, same_disk (files_of e) (files_of (clock e).2)).

Definition reads_only {A} (m : M E A) : Prop := forall w, same_disk (files_of (w_env w)) (files_of (w_env (m w).2)).

Lemma ret_reads {A} (a : A) : reads_only (mret a).
Proof. by intros w. Qed.
Lemma bind_reads {A B} (m : M E A) (f : A -> M E B) :
  reads_only m -> (forall a, reads_only (f a)) -> reads_only (m ≫= f).
Proof.
  intros Hm Hf w. unfold mbind, M_bind. pose proof (Hm w) as H1. destruct (m w) as [a w1]. cbn [snd] in H1.
  etrans; [exact H1|apply Hf].
Qed.
Lemma locked_ids_reads {A} (f : CanonicalState -> Allocator -> A * CanonicalState * Allocator) : reads_only (locked_ids f).
Proof.
  intros w. unfold locked_ids, interfere. destruct (w_others w) as [|g others]; [|destruct (g _) as [s ids]];
    cbn; by destruct (f _ _) as [[a s'] ids'].
Qed.
Lemma shared_reads {A} (f : CanonicalState -> A) : reads_only (locked_shared f).
Proof.
  intros w. unfold locked_shared, interfere. destruct (w_others w) as [|g others]; [|destruct (g _) as [s ids]]; done.
Qed.
Lemma clock_reads : reads_only (ask clock).
Proof. intros w. unfold ask. pose proof (Hclock (w_env w)) as H1. by destruct (clock (w_env w)). Qed.
Lemma on_files_reads {A} (f : FileSystem -> A * FileSystem) : (forall fs, same_disk fs (f fs).2) -> reads_only (on_files f).
Proof.
  intros Hf w. unfold on_files, ask. specialize (Hf (files_of (w_env w))).
  destruct (f (files_of (w_env w))) as [a fs]. cbn [snd] in Hf. cbn. by rewrite files_of_with.
Qed.

#[local] Hint Resolve ret_reads locked_ids_reads shared_reads clock_reads on_files_reads store_load_same : reads.
Ltac read_through := repeat first [solve [auto with reads] | apply bind_reads; [|intros ?] | case_match].

Lemma validate_file_same path limits fs : same_disk fs (validate_file path limits fs).2.
Proof. unfold validate_file. pose proof (store_load_same path limits fs). by destruct (store_load path limits fs). Qed.
#[local] Hint Resolve validate_file_same : reads.

Lemma load_reads path : reads_only (load path).
Proof. unfold load, import_persistent_state. read_through. Qed.
Lemma found_models_reads ids : reads_only (found_models (E := E) ids).
Proof. induction ids; cbn [found_models]; read_through. Qed.
Lemma bound_models_reads l : reads_only (bound_models (E := E) l).
Proof. induction l; cbn [bound_models]; read_through. Qed.
#[local] Hint Resolve load_reads found_models_reads bound_models_reads : reads.

Lemma sections_reads o loaded : reads_only (sections clock o loaded).
Proof. unfold sections, validation, inspected_models, explanation, asked_for. read_through. Qed.
#[local] Hint Resolve sections_reads : reads.

Lemma inspect_reads arguments : reads_only (inspect clock arguments).
Proof. unfold inspect, inspect_options, inspect_file. read_through. Qed.
End ReadsOnly.

(** Whatever it is asked to show, whatever the state file holds and whatever
    fails while it is read, the tool leaves every file as it was. *)
Theorem inspect_leaves_files {E : Type} `{HasFiles E} (clock : Call E UnixMillis) (arguments : list string)
    (w : World E) (Hclock : forall e, same_disk (files_of e) (files_of (clock e).2)) :
  same_disk (files_of (w_env w)) (files_of (w_env (inspect clock arguments w).2)).
Proof. by apply inspect_reads. Qed.

(** ** JSON mode *)

Definition is_json (s : string) : Prop := exists j, s = render j.

Lemma json_int x : is_json (to_string_int x).
Proof. by exists (JNumber x). Qed.
Lemma json_number {A} `{Identity A} (x : A) : is_json (number x).
Proof. apply json_int. Qed.
Lemma json_truth b : is_json (truth b).
Proof. exists (JBool b). by destruct b. Qed.
Lemma json_text s : is_json (text_of s).
Proof. by exists (JString s). Qed.
Lemma json_quoted s : unescaped s -> is_json (quoted s).
Proof. intros Hs. exists (JString s). cbn [render]. by rewrite Hs. Qed.

Lemma json_array parts : Forall is_json parts -> is_json (array parts).
Proof.
  intros Hp. assert (exists l, parts = map render l) as [l ->].
  { induction Hp as [|p parts [j ->] _ [l ->]]; [by exists []|by exists (j :: l)]. }
  by exists (JArray l).
Qed.

Lemma json_object members : Forall (fun m => unescaped m.1 /\ is_json m.2) members -> is_json (object members).
Proof.
  intros Hm. assert (exists l : list (string * Json), (fun m => member m.1 m.2) <$> members =
    map (fun kv => quoted (escape_json kv.1) +:+ ":" +:+ render kv.2) l) as [l E].
  { induction Hm as [|[k v] members [Hk [j Hj]] _ [l E]]; [by exists []|].
    exists ((k, j) :: l). cbn [fmap list_fmap map fst snd] in *. by rewrite E, Hk, Hj. }
  exists (JObject l). unfold object. by rewrite E.
Qed.

Lemma lifecycle_unescaped x : unescaped (ModelLifecycle.to_string x).
Proof. by destruct x. Qed.
Create HintDb json.
#[local] Hint Resolve json_int json_number json_truth json_text json_quoted outcome_unescaped currentness_unescaped
  lifecycle_unescaped trust_unescaped health_unescaped availability_unescaped readiness_unescaped residency_unescaped
  capacity_unescaped provenance_unescaped status_unescaped : json.

Ltac members :=
  apply json_object; repeat (apply Forall_cons_2; [split; [reflexivity|cbn [snd]; try solve [auto with json]]|]);
  try apply Forall_nil_2.

Lemma model_is_json m : is_json (model_json m).
Proof. unfold model_json. members. Qed.
Lemma backend_is_json b : is_json (backend_json b).
Proof. unfold backend_json. members. Qed.
Lemma fence_is_json f : is_json (fence_json f).
Proof. unfold fence_json. members. Qed.

Definition plain_decision (d : RouteDecision) : Prop := plain_digests (de_explanation d).
Lemma explanation_is_json d : plain_decision d -> is_json (route_explanation_to_json (de_explanation d)).
Proof. intros Hd. eexists. by apply route_explanation_rendered. Qed.
Lemma decision_is_json d : plain_decision d -> is_json (decision_json d).
Proof.
  intros Hd. unfold decision_json. cbv zeta. members; [by apply json_quoted, Hd|by apply explanation_is_json].
Qed.
Lemma explain_is_json d : plain_decision d -> is_json (explain_json d).
Proof. intros Hd. unfold explain_json. members. members; [by apply json_quoted, Hd|by apply explanation_is_json]. Qed.

(** A text made of lines, each of which is a JSON text. *)
Definition json_lines (s : string) : Prop := exists l, Forall is_json l /\ s = String.concat "" (line <$> l).

Lemma concat_append (l1 l2 : list string) : String.concat "" (l1 ++ l2) = String.concat "" l1 +:+ String.concat "" l2.
Proof. induction l1 as [|s l1 IH]; [done|]. cbn [app]. by rewrite !concat_cons, IH, append_assoc. Qed.

Lemma lines_one s : is_json s -> json_lines (line s).
Proof. intros Hs. exists [s]. split; [by apply Forall_singleton|done]. Qed.
Lemma lines_none : json_lines "".
Proof. by exists []. Qed.
Lemma lines_append s t : json_lines s -> json_lines t -> json_lines (s +:+ t).
Proof.
  intros (l1 & H1 & ->) (l2 & H2 & ->). exists (l1 ++ l2). split; [by apply Forall_app|]. by rewrite fmap_app, concat_append.
Qed.
Lemma lines_concat l : Forall json_lines l -> json_lines (String.concat "" l).
Proof. induction 1 as [|s l Hs _ IH]; [apply lines_none|]. rewrite concat_cons. by apply lines_append. Qed.

Lemma section_lines {A} name to_json to_text (l : list A) :
  unescaped name -> Forall (fun a => is_json (to_json a)) l -> json_lines (section true name to_json to_text l).
Proof.
  intros Hn Hl. apply lines_one, json_object, Forall_singleton. split; [done|]. by apply json_array, Forall_fmap.
Qed.

Lemma load_report_lines path l : json_lines (load_report true path l).
Proof. apply lines_one. members. members. Qed.
Lemma validation_report_lines o file now s : ip_json o = true -> json_lines (validation_report o file (check_invariants now s)).
Proof.
  intros Hj. unfold validation_report. rewrite Hj. apply lines_one. members. members.
  eexists. apply report_rendered, check_invariants_plain.
Qed.
Lemma summary_report_lines s : json_lines (summary_report true (summary s)).
Proof. apply lines_one. eexists. apply summary_rendered, unescaped_hex. Qed.

(** On a router that no other thread uses: the state stays as it is, and the
    result has a property. *)
Section Viewing.
Context {E : Type} `{HasFiles E} (clock : Call E UnixMillis) (s : CanonicalState) (ids : Allocator).

Definition views {A} (Q : A -> Prop) (m : M E A) : Prop :=
  forall e, exists a e', m (alone s ids e) = (a, alone s ids e') /\ Q a.

Lemma views_ret {A} (Q : A -> Prop) a : Q a -> views Q (mret a).
Proof. intros Ha e. by exists a, e. Qed.
Lemma views_bind {A B} (Q : A -> Prop) (R : B -> Prop) (m : M E A) (f : A -> M E B) :
  views Q m -> (forall a, Q a -> views R (f a)) -> views R (m ≫= f).
Proof.
  intros Hm Hf e. destruct (Hm e) as (a & e1 & Ea & Ha). destruct (Hf a Ha e1) as (b & e2 & Eb & Hb).
  exists b, e2. by rewrite bind_run, Ea.
Qed.
Lemma views_shared {A} (Q : A -> Prop) (f : CanonicalState -> A) : Q (f s) -> views Q (locked_shared f).
Proof. intros Hf e. exists (f s), e. by rewrite shared_run. Qed.
Lemma views_ask {A} (f : Call E A) : views (fun a => exists e, a = (f e).1) (ask f).
Proof. intros e. rewrite ask_run. destruct (f e) as [a e'] eqn:Ef. exists a, e'. split; [done|]. exists e. by rewrite Ef. Qed.
Lemma views_files {A} (f : FileSystem -> A * FileSystem) : views (fun _ => True) (on_files f).
Proof. intros e. rewrite on_files_run. destruct (f (files_of e)) as [a fs]. by eexists _, _. Qed.

(** What is printed, if every decision the router retains has digests that need
    no escaping. *)
Definition plain_history : Prop := forall id r, cs_routes s !! id = Some r -> plain_decision (rec_decision r).
Definition prints_json (x : Output) : Prop := plain_history -> json_lines (ot_out x).
Definition shows_json (l : list Output) : Prop := Forall prints_json l.
Definition json_result (x : option Output) : Prop := forall out, x = Some out -> prints_json out.

Lemma asked_for_views wanted m : views prints_json m -> views shows_json (asked_for wanted m).
Proof.
  intros Hm. unfold asked_for. destruct wanted; [|apply views_ret, Forall_nil_2].
  eapply views_bind; [exact Hm|]. intros x Hx. by apply views_ret, Forall_singleton.
Qed.

Lemma validation_views o : ip_json o = true -> views json_result (validation clock o).
Proof.
  intros Hj. unfold validation.
  apply (views_bind (fun _ => True)); [destruct (ip_has_state o); [apply views_files|by apply views_ret]|].
  intros [file|] _; [|by apply views_ret]. eapply views_bind; [apply views_ask|]. intros now _.
  apply (views_bind (fun r => exists now, r = check_invariants now s)); [apply views_shared; by exists now|].
  intros r [now' ->]. apply views_ret. intros out [= <-] _. by apply validation_report_lines.
Qed.

Lemma models_views loaded : views (fun _ => True) (inspected_models clock loaded).
Proof.
  assert (forall ids', views (fun _ => True) (found_models (E := E) ids')) as Hfound.
  { induction ids' as [|id' ids' IH]; [by apply views_ret|]. cbn [found_models].
    apply (views_bind (fun _ => True)); [by apply views_shared|]. intros found _.
    apply (views_bind (fun _ => True)); [exact IH|]. intros rest _. by apply views_ret. }
  assert (forall l, views (fun _ => True) (bound_models (E := E) l)) as Hbound.
  { induction l as [|b l IH]; [by apply views_ret|]. cbn [bound_models].
    apply (views_bind (fun _ => True)); [by apply views_shared|]. intros found _.
    apply (views_bind (fun _ => True)); [exact IH|]. intros rest _. by apply views_ret. }
  unfold inspected_models. destruct loaded as [l|]; [by apply views_ret|].
  eapply views_bind; [apply views_ask|]. intros now _.
  apply (views_bind (fun _ => True)); [by apply views_shared|]. intros x _.
  eapply views_bind; [apply Hbound|]. intros ids' _. apply Hfound.
Qed.

Lemma explanation_views o : ip_json o = true -> views prints_json (explanation o).
Proof.
  intros Hj. unfold explanation. rewrite Hj.
  apply (views_bind (fun found => forall d, found = Some d -> plain_history -> plain_decision d)).
  { apply views_shared. unfold find_decision. intros d Hd Hplain. apply fmap_Some in Hd as (r & Hr & ->). by apply (Hplain _ r Hr). }
  intros [d|] Hd; apply views_ret; intros Hplain; [by apply lines_one, explain_is_json, Hd|apply lines_none].
Qed.

Lemma history_json : plain_history -> Forall (fun d => is_json (decision_json d)) (route_history s).
Proof.
  intros Hplain. unfold route_history. apply Forall_fmap, Forall_forall. intros r Hr. unfold ordered_values in Hr.
  apply elem_of_entries_2 in Hr as (id & Hr). by apply decision_is_json, (Hplain id).
Qed.

Lemma sections_views o loaded : ip_json o = true -> views json_result (sections clock o loaded).
Proof.
  intros Hj. unfold sections. rewrite Hj. apply (views_bind json_result).
  { destruct (ip_validate o); [by apply validation_views|]. apply views_ret. intros out [= <-] _. apply lines_none. }
  intros [checked|] Hchecked; [|by apply views_ret].
  eapply views_bind; [apply asked_for_views|].
  { apply (views_bind (fun x => x = summary s)); [by apply views_shared|]. intros x ->.
    apply views_ret. intros _. apply summary_report_lines. }
  intros summaries H1. eapply views_bind; [apply asked_for_views|].
  { eapply views_bind; [apply models_views|]. intros l _. apply views_ret. intros _. apply section_lines; [reflexivity|].
    apply Forall_forall. intros m _. apply model_is_json. }
  intros models H2. eapply views_bind; [apply asked_for_views|].
  { eapply views_bind; [apply views_ask|]. intros now _.
    apply (views_bind (fun _ => True)); [by apply views_shared|]. intros x _.
    apply views_ret. intros _. apply section_lines; [reflexivity|]. apply Forall_forall. intros b _. apply backend_is_json. }
  intros backends H3. eapply views_bind; [apply asked_for_views|].
  { apply (views_bind (fun l => l = route_history s)); [by apply views_shared|]. intros l ->.
    apply views_ret. intros Hplain. apply section_lines; [reflexivity|]. by apply history_json. }
  intros routes H4. eapply views_bind; [apply asked_for_views|].
  { apply (views_bind (fun _ => True)); [by apply views_shared|]. intros l _.
    apply views_ret. intros _. apply section_lines; [reflexivity|]. apply Forall_forall. intros f _. apply fence_is_json. }
  intros fenced H5. eapply views_bind; [apply asked_for_views; by apply explanation_views|].
  intros explained H6. apply views_ret. intros out [= <-] Hplain. apply lines_concat, Forall_fmap.
  apply Forall_cons_2; [by apply Hchecked|]. unfold shows_json in *.
  eapply Forall_impl; [rewrite !Forall_app; by split_and!|]. intros x Hx. by apply Hx.
Qed.
End Viewing.

Lemma import_run {E : Type} `{HasFiles E} c s ids (e : E) :
  exists r s' ids', import_persistent_state c (alone s ids e) = (r, alone s' ids' e).
Proof.
  unfold import_persistent_state. rewrite bind_run, shared_run. cbv beta iota. case_match.
  - rewrite ret_run. by eexists _, _, _.
  - rewrite locked_ids_run. destruct (import_install _ s ids) as [[r s'] ids']. by eexists _, _, _.
Qed.

Lemma load_run {E : Type} `{HasFiles E} path s ids (e : E) :
  exists r s' ids' e', load path (alone s ids e) = (r, alone s' ids' e').
Proof.
  unfold load. rewrite bind_run, shared_run. cbv beta iota. rewrite bind_run, on_files_run.
  destruct (store_load path (cs_limits s) (files_of e)) as [[l|] fs]; cbv beta iota; [|rewrite ret_run; by eexists _, _, _, _].
  destruct (negb (load_ok l)); [rewrite ret_run; by eexists _, _, _, _|]. rewrite bind_run.
  destruct (import_run (ld_state l) s ids (with_files fs e)) as (r & s' & ids' & ->). cbv beta iota.
  destruct (negb (accepted r)); rewrite ret_run; by eexists _, _, _, _.
Qed.

(** In JSON mode, whatever sections are asked for and whether or not they
    succeed, what the tool prints is a sequence of lines each of which is one
    JSON text, provided the decisions its router ends up with carry digests that
    need no escaping. *)
Theorem inspect_prints_json {E : Type} `{HasFiles E} (clock : Call E UnixMillis) (o : InspectOptions)
    (s : CanonicalState) (ids : Allocator) (e : E) (p : Printed) (s' : CanonicalState) (ids' : Allocator) (e' : E)
    (Hjson : ip_json o = true) (Hhelp : ip_help o = false) (Hversion : ip_version o = false)
    (Hrun : inspect_options clock o (alone s ids e) = (Some p, alone s' ids' e'))
    (Hplain : forall id r, cs_routes s' !! id = Some r -> plain_decision (rec_decision r)) :
  json_lines (pt_out p).
Proof.
  unfold inspect_options in Hrun. rewrite Hhelp, Hversion in Hrun.
  destruct (negb (ip_has_state o) && _); [injection Hrun as <- <- <- <-; apply lines_none|].
  destruct (ip_has_state o).
  - unfold inspect_file in Hrun. rewrite bind_run, on_files_run, Hjson in Hrun.
    destruct (store_load _ _ _) as [[l|] fs]; cbv beta iota in Hrun; [|discriminate Hrun].
    pose proof (load_report_lines (ip_state_path o) l) as Hl.
    destruct (negb (load_ok l)); [injection Hrun as <- <- <- <-; exact Hl|].
    destruct (negb (any_section o)); [injection Hrun as <- <- <- <-; exact Hl|].
    rewrite bind_run in Hrun. destruct (load_run (ip_state_path o) s ids (with_files fs e)) as (r & s1 & ids1 & e1 & E1).
    rewrite E1 in Hrun. cbv beta iota in Hrun. destruct r as [r|]; [|discriminate Hrun].
    destruct (negb (pe_ok r)); [injection Hrun as <- <- <- <-; exact Hl|]. rewrite bind_run in Hrun.
    destruct (sections_views clock s1 ids1 o (Some l) Hjson e1) as (x & e2 & E2 & Hx). rewrite E2 in Hrun.
    cbv beta iota in Hrun. rewrite ret_run in Hrun. destruct x as [out|]; [|discriminate Hrun].
    injection Hrun as <- <- <- <-. apply lines_append; [exact Hl|]. by apply Hx.
  - rewrite bind_run in Hrun. destruct (sections_views clock s ids o None Hjson e) as (x & e2 & E2 & Hx).
    rewrite E2 in Hrun. cbv beta iota in Hrun. rewrite ret_run in Hrun. destruct x as [out|]; [|discriminate Hrun].
    injection Hrun as <- <- <- <-. by apply Hx.
Qed.

(** ** Decimal identities *)

Lemma parse_digits_read acc text :
  parse_digits (word64 acc) text =
  (let '(n, rest) := read_digits acc text in return_if negb (rest == "") with None ;; Some (word64 n)).
Proof.
  revert acc. induction text as [|c text IH]; intros acc; cbn [parse_digits read_digits]; [done|].
  destruct (is_digit c) eqn:Ec; cbn [negb]; [|by rewrite bool_decide_eq_false_2].
  rewrite <- IH. f_equal. rewrite !word64_mod, (Z.mul_comm 10), Zplus_mod, Zmult_mod_idemp_l, <- Zplus_mod. done.
Qed.

(** The identity given to --explain-route is read back from its decimal form
    when it fits 64 bits; a larger number is not refused but taken modulo 2^64,
    so that it names another decision. *)
Theorem parse_u64_decimal (n : Z) (Hn : 0 <= n) : parse_u64 (to_string_int n) = Some (n mod 2 ^ 64).
Proof.
  destruct (natural_digits n Hn) as [Hr Ht]. unfold parse_u64. rewrite bool_decide_eq_false_2 by done.
  change 0 with (word64 0) at 1. by rewrite parse_digits_read, Hr, <- word64_mod.
Qed.

(** ** The exit status *)

(** What the sections that make the tool fail have found. *)
Definition found_well {E} (clock : Call E UnixMillis) (o : InspectOptions) (s : CanonicalState) : Prop :=
  (ip_validate o = true -> exists e, report_ok (check_invariants (clock e).1 s) = true) /\
  (ip_explain o = true -> is_Some (cs_routes s !! EntityIdOf (ip_explain_id o))).

Section Status.
Context {E : Type} `{HasFiles E} (clock : Call E UnixMillis) (s : CanonicalState) (ids : Allocator).

Lemma validation_status o :
  views s ids (fun x => forall out, x = Some out -> ot_fails out = false ->
    exists e, report_ok (check_invariants (clock e).1 s) = true) (validation clock o).
Proof.
  unfold validation.
  apply (views_bind s ids (fun _ => True)); [destruct (ip_has_state o); [apply views_files|by apply views_ret]|].
  intros [file|] _; [|by apply views_ret]. eapply views_bind; [apply views_ask|]. intros now [e ->].
  apply (views_bind s ids (fun r => r = check_invariants (clock e).1 s)); [by apply views_shared|].
  intros r ->. apply views_ret. intros out [= <-] Hf. exists e. cbn [ot_fails] in Hf.
  apply orb_false_iff in Hf as [_ Hf]. by apply negb_false_iff in Hf.
Qed.

Lemma explanation_status o :
  views s ids (fun x => ot_fails x = false -> is_Some (cs_routes s !! EntityIdOf (ip_explain_id o))) (explanation (E := E) o).
Proof.
  unfold explanation.
  apply (views_bind s ids (fun found => found = find_decision s (EntityIdOf (ip_explain_id o)))); [by apply views_shared|].
  intros found ->. unfold find_decision. destruct (cs_routes s !! _) as [r|]; cbn [fmap option_fmap option_map]; [|by apply views_ret].
  destruct (ip_json o); [apply views_ret; by eexists|].
  apply (views_bind s ids (fun _ => True)); [by apply views_shared|]. intros text _. apply views_ret. by eexists.
Qed.

Lemma asked_for_any wanted (Q : Output -> Prop) (m : M E Output) :
  views s ids Q m -> views s ids (fun l => wanted = true -> exists x, l = [x] /\ Q x) (asked_for wanted m).
Proof.
  intros Hm. unfold asked_for. destruct wanted; [|by apply views_ret].
  eapply views_bind; [exact Hm|]. intros x Hx. apply views_ret. intros _. by exists x.
Qed.

Lemma sections_status o loaded :
  views s ids (fun x => forall out, x = Some out -> ot_fails out = false -> found_well clock o s) (sections clock o loaded).
Proof.
  assert (forall (T : Type) (f : T -> Output) (m : M E T), views s ids (fun _ => True) m ->
    views s ids (fun _ => True) (x ← m; mret (f x))) as Hany.
  { intros T f m Hm. eapply views_bind; [exact Hm|]. intros x _. by apply views_ret. }
  unfold sections. apply (views_bind s ids (fun x => forall out, x = Some out -> ot_fails out = false ->
    ip_validate o = true -> exists e, report_ok (check_invariants (clock e).1 s) = true)).
  { destruct (ip_validate o); [|by apply views_ret]. intros e.
    destruct (validation_status o e) as (x & e' & E1 & Hx). exists x, e'. split; [exact E1|]. eauto. }
  intros [checked|] Hchecked; [|by apply views_ret].
  eapply views_bind; [apply asked_for_any, Hany, views_shared; exact I|]. intros summaries _.
  eapply views_bind; [apply asked_for_any, Hany, models_views|]. intros models _.
  eapply views_bind; [apply asked_for_any|].
  { eapply views_bind; [apply views_ask|]. intros now _. apply Hany, views_shared. exact I. }
  intros backends _. eapply views_bind; [apply asked_for_any, Hany, views_shared; exact I|]. intros routes _.
  eapply views_bind; [apply asked_for_any, Hany, views_shared; exact I|]. intros fenced _.
  eapply views_bind; [apply asked_for_any, explanation_status|]. intros explained Hexplained.
  apply views_ret. intros out [= <-] Hf. cbn [outputs ot_fails existsb] in Hf. apply orb_false_iff in Hf as [Hc Hf].
  split; [exact (Hchecked checked eq_refl Hc)|]. intros Hx. destruct (Hexplained Hx) as (x & -> & Hr). apply Hr. rewrite !existsb_app, !orb_false_iff in Hf.
  destruct Hf as (_ & _ & _ & _ & _ & Hf). by apply orb_false_iff in Hf as [Hf _].
Qed.
End Status.

(** What the options ask for holds after the run: the state file, if one was
    named, could be read; on the state the router then has, the scan and the
    lookup that were asked for succeed. *)
Definition asked_holds {E : Type} `{HasFiles E} (clock : Call E UnixMillis) (o : InspectOptions) (e : E) (s' : CanonicalState) : Prop :=
  (ip_has_state o || any_section o = true) /\
  (ip_has_state o = true -> exists l, (store_load (ip_state_path o) default_resource_limits (files_of e)).1 = Some l /\
     load_ok l = true) /\
  found_well clock o s'.

Lemma options_succeed {E : Type} `{HasFiles E} (clock : Call E UnixMillis) o s ids (e : E) p w' :
  ip_help o = false -> ip_version o = false ->
  inspect_options clock o (alone s ids e) = (Some p, w') -> pt_status p = exit_success -> asked_holds clock o e (w_state w').
Proof.
  intros Hhelp Hversion Hrun Hstatus.
  assert (forall text (out : Output) q, finished text (Some out) = Some q -> pt_status q = exit_success -> ot_fails out = false)
    as Hfinished by (intros text out q [= <-] Hq; cbn [pt_status] in Hq; by destruct (ot_fails out)).
  unfold inspect_options in Hrun. rewrite Hhelp, Hversion in Hrun.
  destruct (negb (ip_has_state o) && _) eqn:Eusage; [injection Hrun as <- <-; discriminate Hstatus|].
  split; [destruct (ip_has_state o), (any_section o); done|].
  destruct (ip_has_state o).
  - unfold inspect_file in Hrun. rewrite bind_run, on_files_run in Hrun.
    destruct (store_load _ _ _) as [[l|] fs]; cbv beta iota in Hrun; [|discriminate Hrun].
    destruct (load_ok l) eqn:El; cbn [negb] in Hrun; [|injection Hrun as <- <-; discriminate Hstatus].
    split; [intros _; by exists l|]. destruct (any_section o) eqn:Ea; cbn [negb] in Hrun.
    2:{ unfold any_section in Ea. rewrite !orb_false_iff in Ea. unfold found_well. destruct Ea as [[[[[[-> _] _] _] _] _] ->]. done. }
    rewrite bind_run in Hrun. destruct (load_run (ip_state_path o) s ids (with_files fs e)) as (r & s1 & ids1 & e1 & E1).
    rewrite E1 in Hrun. cbv beta iota in Hrun. destruct r as [r|]; [|discriminate Hrun].
    destruct (negb (pe_ok r)); [injection Hrun as <- <-; discriminate Hstatus|]. rewrite bind_run in Hrun.
    destruct (sections_status clock s1 ids1 o (Some l) e1) as (x & e2 & E2 & Hx). rewrite E2 in Hrun.
    cbv beta iota in Hrun. rewrite ret_run in Hrun. destruct x as [out|]; [|discriminate Hrun].
    pose proof (f_equal fst Hrun) as Hp. cbn [fst] in Hp.
    injection Hrun as _ <-. by apply (Hx out), (Hfinished _ out p Hp).
  - split; [done|]. rewrite bind_run in Hrun. destruct (sections_status clock s ids o None e) as (x & e2 & E2 & Hx).
    rewrite E2 in Hrun. cbv beta iota in Hrun. rewrite ret_run in Hrun. destruct x as [out|]; [|discriminate Hrun].
    pose proof (f_equal fst Hrun) as Hp. cbn [fst] in Hp.
    injection Hrun as _ <-. by apply (Hx out), (Hfinished _ out p Hp).
Qed.

(** C25: What an exit status of zero means.  When the tool runs on its arguments,
    on a router no other thread uses, and exits with zero, the arguments were
    understood, and one of three things happened.  With --help the usage is
    printed, and with --version otherwise the version, and nothing else is done,
    whatever other options are given.  Without both, a state file or a section was asked for;
    the state file, if one was named, could be read and is coherent; and on the
    state the router then has, the invariant scan, at a time the clock gave,
    finds nothing if --validate was given and the decision is retained if --explain-route was. *)
Theorem inspect_succeeds {E : Type} `{HasFiles E} (clock : Call E UnixMillis) (arguments : list string)
    (s : CanonicalState) (ids : Allocator) (e : E) (p : Printed) (w' : World E)
    (Hrun : inspect clock arguments (alone s ids e) = (Some p, w')) (Hstatus : pt_status p = exit_success) :
  exists o, parse_arguments arguments inspect_options_default = inr o /\
    if ip_help o then pt_out p = usage /\ w' = alone s ids e
    else if ip_version o then pt_out p = line product_string /\ w' = alone s ids e
    else asked_holds clock o e (w_state w').
Proof.
  unfold inspect in Hrun. destruct (parse_arguments _ _) as [error|o]; [injection Hrun as <- <-; discriminate Hstatus|].
  exists o. split; [done|]. destruct (ip_help o) eqn:Eh; [|destruct (ip_version o) eqn:Ev].
  - unfold inspect_options in Hrun. rewrite Eh in Hrun. by injection Hrun as <- <-.
  - unfold inspect_options in Hrun. rewrite Eh, Ev in Hrun. by injection Hrun as <- <-.
  - by apply (options_succeed clock o s ids e p w').
Qed.

(** ** The tool on a saved state *)

Definition sample_arguments : list string := ["--state=state"; "--validate"; "--fenced"; "--routes"; "--json"].
Definition sample_options : InspectOptions :=
  inspect_options_default <| ip_has_state := true |> <| ip_state_path := "state" |> <| ip_validate := true |>
    <| ip_fenced := true |> <| ip_routes := true |> <| ip_json := true |>.
Example sample_arguments_parsed : parse_arguments sample_arguments inspect_options_default = inr sample_options.
Proof. reflexivity. Qed.

Definition fresh_router : CanonicalState * Allocator := router_init model_router_options_default 0.
#[local] Abbreviation inspected_world := (alone fresh_router.1 fresh_router.2 saved_disk).
#[local] Abbreviation sample_run := (inspect_options wall_clock sample_options inspected_world).

(** What the run prints is evaluated once; the witnesses below take its parts. *)
Lemma sample_run_printed : exists p s' ids' e',
  sample_run = (Some p, alone s' ids' e') /\ pt_status p = 0 /\ cs_routes s' = ∅.
Proof.
  pose proof (eq_refl sample_run) as E.
  match type of E with _ = ?r => let v := eval vm_compute in r in
    assert (r = v) as E' by (vm_compute; reflexivity) end.
  eexists _, _, _, _. split; [exact E'|split; reflexivity].
Qed.

Lemma inspect_leaves_files_witness :
  same_disk (files_of (w_env inspected_world)) (files_of (w_env (inspect wall_clock sample_arguments inspected_world).2)).
Proof.
  exact (inspect_leaves_files wall_clock sample_arguments inspected_world (fun fs => reflexivity fs)).
Defined.

Lemma inspect_prints_json_witness :
  exists p w', sample_run = (Some p, w') /\ json_lines (pt_out p).
Proof.
  destruct sample_run_printed as (p & s' & ids' & e' & E & Hp & Hr).
  exists p, (alone s' ids' e'). split; [exact E|].
  apply (inspect_prints_json wall_clock sample_options _ _ saved_disk p s' ids' e' eq_refl eq_refl eq_refl E).
  intros id r H. rewrite Hr in H. discriminate H.
Defined.

Lemma parse_u64_decimal_witness :
  parse_u64 "18446744073709551617" = Some 1 /\ 18446744073709551617 mod 2 ^ 64 = 1.
Proof. split; [exact (parse_u64_decimal 18446744073709551617 ltac:(lia))|reflexivity]. Defined.

Lemma inspect_succeeds_witness :
  exists p w' now, inspect wall_clock sample_arguments inspected_world = (Some p, w') /\
    report_ok (check_invariants now (w_state w')) = true.
Proof.
  destruct sample_run_printed as (p & s' & ids' & e' & E & Hp & _).
  assert (inspect wall_clock sample_arguments inspected_world = (Some p, alone s' ids' e')) as E'
    by (unfold inspect; rewrite sample_arguments_parsed; exact E).
  destruct (inspect_succeeds wall_clock sample_arguments _ _ saved_disk p _ E' Hp) as (o & Ho & H).
  rewrite sample_arguments_parsed in Ho. injection Ho as <-. destruct H as (_ & _ & Hv & _).
  destruct (Hv eq_refl) as [now Hnow]. exists p, (alone s' ids' e'), (wall_clock now).1. exact (conj E' Hnow).
Defined.
