(* ===== verification/Listener.v ===== *)
(** * Sockets and their owners ([distributed/transport.cpp], POSIX)

    The listener, the connector and the descriptors that they and the
    connections own.  The kernel keeps the set of open descriptors; what it
    answers to a call is an input.  The thread that accepts, the ones that stop
    the listener and the ones that end connections interleave between calls;
    [stop] takes no lock, so each of its tests, calls and assignments is a step. *)
From S2P Require Import Prelude.
From S2P Require Import Limits.
From S2P Require Import Transport.

(** ** The kernel *)

(** [Refused]: the call fails. *)
Inductive Answer := Refused | Granted (value : Z).

(** [kn_misused]: a descriptor that was not open has been closed. *)
Record Kernel := { kn_open : gset Z; kn_misused : bool; kn_answers : list Answer }.
#[export] Instance kernel_eta : Eta Kernel := fun k =>
  {| kn_open := kn_open k; kn_misused := kn_misused k; kn_answers := kn_answers k |}.

Definition next_answer (k : Kernel) : Answer * Kernel :=
  match kn_answers k with
  | [] => (Refused, k)
  | answer :: answers => (answer, k <| kn_answers := answers |>)
  end.

(** A call that opens nothing: whether it succeeds. *)
Definition call_check (k : Kernel) : bool * Kernel :=
  let '(answer, k) := next_answer k in (match answer with Granted _ => true | Refused => false end, k).
Definition call_value (k : Kernel) : option Z * Kernel :=
  let '(answer, k) := next_answer k in (match answer with Granted v => Some v | Refused => None end, k).

(** A new descriptor is a number that is not in use. *)
Definition call_open (k : Kernel) : option Z * Kernel :=
  let '(answer, k) := next_answer k in
  match answer with
  | Granted fd =>
      return_if (fd <? 0) || bool_decide (fd ∈ kn_open k) with (None, k) ;;
      (Some fd, k <| kn_open := {[fd]} ∪ kn_open k |>)
  | Refused => (None, k)
  end.

Definition call_close (fd : Z) (k : Kernel) : Kernel :=
  k <| kn_misused := kn_misused k || negb (bool_decide (fd ∈ kn_open k)) |> <| kn_open := kn_open k ∖ {[fd]} |>.

(** [pipe]: both ends or none. *)
Definition call_pipe (k : Kernel) : option (Z * Z) * Kernel :=
  match call_open k with
  | (None, k) => (None, k)
  | (Some fd, k1) =>
      match call_open k1 with
      | (None, k2) => (None, call_close fd k2)
      | (Some fd', k2) => (Some (fd, fd'), k2)
      end
  end.

(** ** Descriptors *)

(** A socket and the two ends of a pipe; [-1] where there is none. *)
Record Descriptors := { ds_socket : Z; ds_pipe : Z * Z }.
Definition no_descriptors : Descriptors := {| ds_socket := -1; ds_pipe := (-1, -1) |}.

Definition close_one (fd : Z) (k : Kernel) : Kernel := if 0 <=? fd then call_close fd k else k.
Definition release (d : Descriptors) (k : Kernel) : Descriptors * Kernel :=
  (no_descriptors, close_one (ds_pipe d).2 (close_one (ds_pipe d).1 (close_one (ds_socket d) k))).

(** ** Connections *)

(** [cn_hung]: the session's thread waits for the mutex it holds. *)
Record Connection := { cn_session : Session; cn_owned : Descriptors; cn_peer : string; cn_hung : bool }.
#[export] Instance connection_eta : Eta Connection := fun c =>
  {| cn_session := cn_session c; cn_owned := cn_owned c; cn_peer := cn_peer c; cn_hung := cn_hung c |}.

(** [mark_closed] by the session's thread. *)
Definition end_connection (reason : CloseReason.t) (message : string) (c : Connection) (counter : ConnectionCounter)
    (k : Kernel) : Connection * ConnectionCounter * Kernel :=
  let first := negb (ss_closed (cn_session c)) in
  let '(s, counter) := mark_closed reason message (cn_session c) counter in
  return_if negb first with (c <| cn_session := s |>, counter, k) ;;
  let '(owned, k) := release (cn_owned c) k in
  (c <| cn_session := s |> <| cn_owned := owned |>, counter, k).

(** A frame that cannot be decoded: the thread is stuck, as in [decode_turn]. *)
Definition hang_connection (c : Connection) : Connection := c <| cn_hung := true |>.

(** [close] after the thread has been joined: the state is destroyed. *)
Definition destroy_connection (c : Connection) (counter : ConnectionCounter) (k : Kernel)
    : ConnectionCounter * Kernel :=
  let '(c, counter, k) := end_connection CloseReason.LOCAL_CLOSE "" c counter k in
  (counter, (release (cn_owned c) k).2).

(** ** Who owns what *)

Definition held (d : Descriptors) : list Z :=
  filter (fun fd => 0 <= fd) [ds_socket d; (ds_pipe d).1; (ds_pipe d).2].

(** The kernel has [fds] open, each with one owner, and what was open before;
    nothing has been closed twice. *)
Record owns (base : gset Z) (fds : list Z) (k : Kernel) : Prop := {
  ow_open : kn_open k = base ∪ list_to_set fds;
  ow_base : base ## list_to_set fds;
  ow_once : NoDup fds;
  ow_proper : kn_misused k = false
}.

#[export] Instance owns_perm base : Proper ((≡ₚ) ==> eq ==> iff) (owns base).
Proof.
  assert (forall fds fds' k, fds ≡ₚ fds' -> owns base fds k -> owns base fds' k) as H.
  { intros fds fds' k E [H1 H2 H3 H4]. pose proof (list_to_set_perm (C := gset Z) fds fds' E) as Es.
    apply leibniz_equiv in Es. split; [by rewrite <- Es|by rewrite <- Es|by rewrite <- E|exact H4]. }
  intros fds fds' E k ? <-. split; [by apply H|by apply H; symmetry].
Qed.

Lemma owns_answers base fds k answers :
  owns base fds (k <| kn_answers := answers |>) <-> owns base fds k.
Proof. split; intros [H1 H2 H3 H4]; by split. Qed.

Lemma next_answer_owns base fds k : owns base fds k -> owns base fds (next_answer k).2.
Proof. unfold next_answer. destruct (kn_answers k); [done|]. intros H. by apply owns_answers. Qed.

Lemma call_check_owns base fds k : owns base fds k -> owns base fds (call_check k).2.
Proof. intros H%next_answer_owns. unfold call_check. by destruct (next_answer k). Qed.
Lemma call_value_owns base fds k : owns base fds k -> owns base fds (call_value k).2.
Proof. intros H%next_answer_owns. unfold call_value. by destruct (next_answer k). Qed.

(** What is opened gets an owner. *)
Definition taken (fd : option Z) : list Z := match fd with Some fd => [fd] | None => [] end.

Lemma call_open_owns base fds k : owns base fds k ->
  owns base (taken (call_open k).1 ++ fds) (call_open k).2 /\ forall fd, (call_open k).1 = Some fd -> 0 <= fd.
Proof.
  intros H%next_answer_owns. unfold call_open. destruct (next_answer k) as [[|fd] k'] eqn:E; cbn [snd] in H; [done|].
  destruct ((fd <? 0) || _) eqn:Efd; [done|]. apply orb_false_iff in Efd as [Hfd Hnew%bool_decide_eq_false].
  destruct H as [H1 H2 H3 H4]. cbn [fst snd taken app]. split; [|intros ? [= <-]; lia].
  rewrite H1 in Hnew. split; cbn [kn_open kn_misused update_field list_to_set].
  - rewrite H1. set_solver.
  - set_solver.
  - constructor; [|done]. set_solver.
  - done.
Qed.

Lemma call_close_owns base fd fds k : owns base (fd :: fds) k -> owns base fds (call_close fd k).
Proof.
  intros [H1 H2 H3 H4]. apply NoDup_cons in H3 as [Hn H3]. cbn [list_to_set] in H1, H2.
  split; cbn [call_close kn_open kn_misused update_field]; [|set_solver|done|].
  - rewrite H1. apply leibniz_equiv. assert (fd ∉ base) by set_solver.
    assert (fd ∉ (list_to_set fds : gset Z)) by (by rewrite elem_of_list_to_set). set_solver.
  - rewrite H4. by rewrite (bool_decide_eq_true_2 (fd ∈ kn_open k)) by (rewrite H1; set_solver).
Qed.

Lemma call_pipe_owns base fds k : owns base fds k ->
  match call_pipe k with
  | (None, k) => owns base fds k
  | (Some p, k) => owns base (p.1 :: p.2 :: fds) k /\ 0 <= p.1 /\ 0 <= p.2
  end.
Proof.
  intros H. unfold call_pipe. destruct (call_open_owns _ _ _ H) as [H1 Hp1].
  destruct (call_open k) as [[fd|] k1]; cbn [fst snd taken app] in *; [|done].
  destruct (call_open_owns _ _ _ H1) as [H2 Hp2].
  destruct (call_open k1) as [[fd'|] k2]; cbn [fst snd taken app] in *.
  - split_and!; [by rewrite (Permutation_swap fd' fd)|by apply Hp1|by apply Hp2].
  - by apply call_close_owns.
Qed.

Lemma close_one_owns base fd fds k :
  owns base (filter (fun fd => 0 <= fd) [fd] ++ fds) k -> owns base fds (close_one fd k).
Proof.
  unfold close_one. destruct (Z.leb_spec 0 fd) as [Hfd|Hfd]; intros H.
  - rewrite filter_cons_True in H by done. by apply call_close_owns.
  - by rewrite filter_cons_False in H by lia.
Qed.

Lemma release_owns base d fds k : owns base (held d ++ fds) k -> owns base fds (release d k).2.
Proof.
  intros H. unfold release, held in *. cbn [snd]. do 3 apply close_one_owns. revert H.
  change [ds_socket d; (ds_pipe d).1; (ds_pipe d).2] with ([ds_socket d] ++ [(ds_pipe d).1] ++ [(ds_pipe d).2]).
  by rewrite !filter_app, <- !app_assoc.
Qed.

Lemma held_none : held no_descriptors = [].
Proof. reflexivity. Qed.
Lemma held_socket fd : 0 <= fd -> held {| ds_socket := fd; ds_pipe := (-1, -1) |} = [fd].
Proof. intros H. unfold held. by rewrite filter_cons_True by done. Qed.
Lemma held_all fd p : 0 <= fd -> 0 <= p.1 -> 0 <= p.2 -> held {| ds_socket := fd; ds_pipe := p |} = [fd; p.1; p.2].
Proof. intros H1 H2 H3. unfold held. cbn [ds_socket ds_pipe]. by rewrite !filter_cons_True by done. Qed.

(** A socket that has been opened is closed again, or gets its pipe. *)
Lemma socket_released base fd fds k :
  0 <= fd -> owns base (fd :: fds) k -> owns base fds (release {| ds_socket := fd; ds_pipe := (-1, -1) |} k).2.
Proof. intros H1 H2. apply release_owns. by rewrite held_socket. Qed.
Lemma socket_piped base fd p fds k :
  0 <= fd -> owns base (p.1 :: p.2 :: fd :: fds) k /\ 0 <= p.1 /\ 0 <= p.2 ->
  owns base (held {| ds_socket := fd; ds_pipe := p |} ++ fds) k.
Proof.
  intros H (H1 & H2 & H3). rewrite held_all by done. cbn [app]. revert H1.
  rewrite (Permutation_swap fd p.2), (Permutation_swap fd p.1). done.
Qed.

Lemma end_connection_owns base reason message c counter fds k :
  owns base (held (cn_owned c) ++ fds) k ->
  let '(c', _, k') := end_connection reason message c counter k in owns base (held (cn_owned c') ++ fds) k'.
Proof.
  intros H. unfold end_connection. destruct (mark_closed _ _ _ _) as [s counter'].
  destruct (ss_closed (cn_session c)); [done|]. cbn [negb cn_owned]. by apply release_owns.
Qed.

Lemma destroy_connection_owns base c counter fds k :
  owns base (held (cn_owned c) ++ fds) k -> owns base fds (destroy_connection c counter k).2.
Proof.
  intros H. unfold destroy_connection. pose proof (end_connection_owns base CloseReason.LOCAL_CLOSE "" c counter fds k H) as H1.
  destruct (end_connection _ _ _ _ _) as [[c' counter'] k']. by apply release_owns.
Qed.

Section Sockets.
(** [inet_pton] on an address, and the text of the peer of a descriptor. *)
Context (is_ipv4 : string -> bool) (peer_text : Z -> option string).

(** [connect]: a connection, or the error text. *)
Definition connect (host : string) (port : Z) (options : TransportOptions) (k : Kernel)
    : (string + Connection) * Kernel :=
  match call_open k with
  | (None, k) => (inl "connector socket could not be created", k)
  | (Some socket, k) =>
      return_if negb (is_ipv4 host) with (inl "connect host is not a valid IPv4 literal", call_close socket k) ;;
      let '(connected, k) := call_check k in
      return_if negb connected with (inl "connect failed", call_close socket k) ;;
      match call_pipe k with
      | (None, k) =>
          (inl "session wake pipe could not be created",
           (release {| ds_socket := socket; ds_pipe := (-1, -1) |} k).2)
      | (Some wake, k) =>
          (inr {| cn_session := session_open options; cn_owned := {| ds_socket := socket; ds_pipe := wake |};
                  cn_peer := host +:+ ":" +:+ to_string_int port; cn_hung := false |}, k)
      end
  end.

(** ** The listener *)

Record Listener := {
  li_options : TransportOptions;
  li_counter : ConnectionCounter;
  li_stopped : bool;
  li_bound_port : Z;
  li_owned : Descriptors
}.
#[export] Instance listener_eta : Eta Listener := fun l =>
  {| li_options := li_options l; li_counter := li_counter l; li_stopped := li_stopped l;
     li_bound_port := li_bound_port l; li_owned := li_owned l |}.
Definition listener_idle : Listener :=
  {| li_options := transport_options_default; li_counter := connection_counter_default; li_stopped := false;
     li_bound_port := 0; li_owned := no_descriptors |}.

(** [release] by a thread that has the listener to itself. *)
Definition listener_release (l : Listener) (k : Kernel) : Listener * Kernel :=
  let '(owned, k) := release (li_owned l) k in (l <| li_owned := owned |>, k).

(** [start]: the error text, or the listener is ready. *)
Definition listener_start (options : TransportOptions) (l : Listener) (k : Kernel)
    : option string * Listener * Kernel :=
  let l := l <| li_options := options |>
             <| li_counter := {| cc_active := cc_active (li_counter l);
                                 cc_limit := max_connections (to_limits options) |} |>
             <| li_stopped := false |> in
  match call_open k with
  | (None, k) => (Some "listener socket could not be created", l, k)
  | (Some socket, k) =>
      let '(_, k) := call_check k in
      return_if negb (is_ipv4 (to_bind_address options))
        with (Some "bind address is not a valid IPv4 literal", l, call_close socket k) ;;
      let '(bound, k) := call_check k in
      return_if negb bound
        with (Some ("listener could not bind " +:+ to_bind_address options +:+ ":" +:+
                to_string_int (to_port options)), l, call_close socket k) ;;
      let '(listening, k) := call_check k in
      return_if negb listening with (Some "listener could not listen", l, call_close socket k) ;;
      let '(port, k) := call_value k in
      let l := match port with Some port => l <| li_bound_port := port |> | None => l end in
      let owned := {| ds_socket := socket; ds_pipe := ds_pipe (li_owned l) |} in
      match call_pipe k with
      | (None, k) =>
          let '(l, k) := listener_release (l <| li_owned := owned |>) k in
          (Some "listener wake pipe could not be created", l, k)
      | (Some stop, k) =>
          (None, l <| li_owned := {| ds_socket := ds_socket owned; ds_pipe := stop |} |>, k)
      end
  end.

(** [accept]: the caller has found the listener running, waits on the
    descriptors it was given, or was told that a peer is there. *)
Inductive Accepting := Checked | Waiting (socket stop : Z) | Ready.

Inductive PollAnswer := PollError | PollEvents (socket_ready stop_ready : bool).

(** A wait without a bound ends on an event of a descriptor, which can be one
    that was not asked for; a negative descriptor has none. *)
Definition poll_possible (socket stop : Z) (answer : PollAnswer) : bool :=
  match answer with
  | PollError => true
  | PollEvents socket_ready stop_ready =>
      ((0 <=? socket) || (0 <=? stop)) && implb socket_ready (0 <=? socket) && implb stop_ready (0 <=? stop)
  end.

(** What [accept] does next, or what it returns. *)
Inductive Turn := Continue (phase : Accepting) | Failed (error : string) | Connected (c : Connection).

Definition accept_check (l : Listener) : Turn :=
  if li_stopped l then Failed "listener is stopped" else Continue Checked.
Definition accept_wait (l : Listener) : Turn := Continue (Waiting (ds_socket (li_owned l)) (ds_pipe (li_owned l)).1).
Definition accept_polled (answer : PollAnswer) : Turn :=
  match answer with
  | PollError => Failed "listener poll failed"
  | PollEvents socket_ready stop_ready =>
      return_if stop_ready with Failed "listener is stopped" ;;
      return_if negb socket_ready with Continue Checked ;;
      Continue Ready
  end.
Definition accept_take (l : Listener) (k : Kernel) : Turn * ConnectionCounter * Kernel :=
  let counter := li_counter l in
  return_if ds_socket (li_owned l) <? 0 with (Continue Checked, counter, k) ;;
  match call_open k with
  | (None, k) => (Continue Checked, counter, k)
  | (Some socket, k) =>
      match accept_session (li_options l) counter with
      | (inl error, counter) => (Failed error, counter, call_close socket k)
      | (inr s, taken) =>
          match call_pipe k with
          | (None, k) =>
              (Failed "session wake pipe could not be created", counter,
               (release {| ds_socket := socket; ds_pipe := (-1, -1) |} k).2)
          | (Some wake, k) =>
              (Connected {| cn_session := s; cn_owned := {| ds_socket := socket; ds_pipe := wake |};
                            cn_peer := default "" (peer_text socket); cn_hung := false |}, taken, k)
          end
      end
  end.

(** *** Stopping *)

(** The descriptors in the order in which [release] closes them. *)
Inductive Slot := ListenSocket | StopRead | StopWrite.
Definition slot_get (x : Slot) (d : Descriptors) : Z :=
  match x with ListenSocket => ds_socket d | StopRead => (ds_pipe d).1 | StopWrite => (ds_pipe d).2 end.
Definition slot_set (x : Slot) (fd : Z) (d : Descriptors) : Descriptors :=
  match x with
  | ListenSocket => {| ds_socket := fd; ds_pipe := ds_pipe d |}
  | StopRead => {| ds_socket := ds_socket d; ds_pipe := (fd, (ds_pipe d).2) |}
  | StopWrite => {| ds_socket := ds_socket d; ds_pipe := ((ds_pipe d).1, fd) |}
  end.

(** Where a thread is in [stop]: it has set the flag, has found the pipe open
    and writes to it; then, for one descriptor after the other, it tests the
    descriptor, closes it, and forgets it. *)
Inductive Stopping := Flagged | Writing | Testing (x : Slot) | Closing (x : Slot) | Forgetting (x : Slot).

Definition after_slot (x : Slot) : option Stopping :=
  match x with ListenSocket => Some (Testing StopRead) | StopRead => Some (Testing StopWrite) | StopWrite => None end.

(** [stopped.exchange(true)]: only the first to set the flag writes to the pipe. *)
Definition stop_enter (l : Listener) : Stopping * Listener :=
  (if li_stopped l then Testing ListenSocket else Flagged, l <| li_stopped := true |>).

(** The next step of a thread in [stop]; [None]: it has returned.  The byte in the
    pipe is an event that [poll] may report. *)
Definition stop_turn (phase : Stopping) (l : Listener) (k : Kernel) : option Stopping * Listener * Kernel :=
  match phase with
  | Flagged => (Some (if 0 <=? slot_get StopWrite (li_owned l) then Writing else Testing ListenSocket), l, k)
  | Writing => (Some (Testing ListenSocket), l, k)
  | Testing x => (if 0 <=? slot_get x (li_owned l) then Some (Closing x) else after_slot x, l, k)
  | Closing x => (Some (Forgetting x), l, close_one (slot_get x (li_owned l)) k)
  | Forgetting x => (after_slot x, l <| li_owned := slot_set x (-1) (li_owned l) |>, k)
  end.

(** ** The process that listens *)

(** [nt_stopping]: the threads that are in [stop]. *)
Record Net := {
  nt_listener : Listener;
  nt_accept : option Accepting;
  nt_stopping : list Stopping;
  nt_error : string;
  nt_connections : list Connection;
  nt_kernel : Kernel
}.
#[export] Instance net_eta : Eta Net := fun n =>
  {| nt_listener := nt_listener n; nt_accept := nt_accept n; nt_stopping := nt_stopping n; nt_error := nt_error n;
     nt_connections := nt_connections n; nt_kernel := nt_kernel n |}.
Definition net_open (k : Kernel) : Net :=
  {| nt_listener := listener_idle; nt_accept := None; nt_stopping := []; nt_error := ""; nt_connections := []; nt_kernel := k |}.

Definition set_connections (l : list Connection) (counter : ConnectionCounter) (k : Kernel) (n : Net) : Net :=
  n <| nt_connections := l |> <| nt_listener := (nt_listener n) <| li_counter := counter |> |> <| nt_kernel := k |>.

(** The accepting thread has taken a turn. *)
Definition turned (t : Turn) (n : Net) : Net :=
  match t with
  | Continue phase => n <| nt_accept := Some phase |>
  | Failed error => n <| nt_accept := None |> <| nt_error := error |>
  | Connected c => n <| nt_accept := None |> <| nt_connections := nt_connections n ++ [c] |>
  end.

Inductive Event :=
| Start (options : TransportOptions)
| Enter
| Wait
| Polled (answer : PollAnswer)
| Take
| Stop
| StopTurn (i : nat)
| Ended (i : nat) (reason : CloseReason.t) (message : string)
| Garbled (i : nat)
| Closed (i : nat).

(** [None]: the event cannot happen now. *)
Definition net_act (event : Event) (n : Net) : option Net :=
  let l := nt_listener n in
  let k := nt_kernel n in
  match event, nt_accept n with
  | Start options, _ =>
      let '(failed, l, k) := listener_start options l k in
      Some (n <| nt_listener := l |> <| nt_error := default "" failed |> <| nt_kernel := k |>)
  | Enter, None => Some (turned (accept_check l) n)
  | Wait, Some Checked => Some (turned (accept_wait l) n)
  | Polled answer, Some (Waiting socket stop) =>
      if poll_possible socket stop answer then Some (turned (accept_polled answer) n) else None
  | Take, Some Ready =>
      let '(t, counter, k) := accept_take l k in
      Some (turned t (set_connections (nt_connections n) counter k n))
  | Stop, _ =>
      let '(phase, l) := stop_enter l in
      Some (n <| nt_listener := l |> <| nt_stopping := nt_stopping n ++ [phase] |>)
  | StopTurn i, _ =>
      phase ← nt_stopping n !! i;
      let '(next, l, k) := stop_turn phase l k in
      Some (n <| nt_listener := l |> <| nt_kernel := k |>
              <| nt_stopping := match next with
                                | Some phase => <[i := phase]> (nt_stopping n)
                                | None => delete i (nt_stopping n)
                                end |>)
  | Ended i reason message, _ =>
      c ← nt_connections n !! i;
      return_if cn_hung c with None ;;
      let '(c, counter, k) := end_connection reason message c (li_counter l) k in
      Some (set_connections (<[i := c]> (nt_connections n)) counter k n)
  | Garbled i, _ =>
      c ← nt_connections n !! i;
      return_if cn_hung c || ss_closed (cn_session c) with None ;;
      Some (n <| nt_connections := <[i := hang_connection c]> (nt_connections n) |>)
  | Closed i, _ =>
      c ← nt_connections n !! i;
      return_if cn_hung c with None ;;
      let '(counter, k) := destroy_connection c (li_counter l) k in
      Some (set_connections (delete i (nt_connections n)) counter k n)
  | _, _ => None
  end.

Fixpoint net_run (events : list Event) (n : Net) : option Net :=
  match events with
  | [] => Some n
  | event :: events => n ← net_act event n; net_run events n
  end.

(** A listener is started when it owns nothing (never, or after [stop]) and
    always with the same limit; nobody stops it while it is started, and one
    thread at a time is in [stop]. *)
Definition orderly (limit : Z) (event : Event) (n : Net) : Prop :=
  match event with
  | Start o => li_owned (nt_listener n) = no_descriptors /\ nt_stopping n = [] /\
      max_connections (to_limits o) = limit
  | Stop => nt_stopping n = []
  | _ => True
  end.
Inductive net_step (limit : Z) (n n' : Net) : Prop :=
| net_acts event : orderly limit event n -> net_act event n = Some n' -> net_step limit n n'.

(** The connections that have not ended. *)
Definition live (n : Net) : nat := length (filter (fun c => ss_closed (cn_session c) = false) (nt_connections n)).

(** ** Every operation keeps owners *)

Lemma connect_owns base host port o fds k : owns base fds k ->
  match connect host port o k with
  | (inr c, k) => owns base (held (cn_owned c) ++ fds) k
  | (inl _, k) => owns base fds k
  end.
Proof.
  intros H. unfold connect. destruct (call_open_owns _ _ _ H) as [H1 Hfd].
  destruct (call_open k) as [[fd|] k1]; cbn [fst snd taken app] in *; [|done]. specialize (Hfd fd eq_refl).
  destruct (negb (is_ipv4 host)); [by apply call_close_owns|].
  apply call_check_owns in H1. destruct (call_check k1) as [ok k2]. cbn [snd] in H1.
  destruct ok; cbn [negb]; [|by apply call_close_owns].
  apply call_pipe_owns in H1. destruct (call_pipe k2) as [[p|] k3]; [by apply socket_piped|by apply socket_released].
Qed.

Lemma listener_start_owns base o l fds k : li_owned l = no_descriptors -> owns base fds k ->
  let '(_, l', k') := listener_start o l k in owns base (held (li_owned l') ++ fds) k'.
Proof.
  destruct l as [o0 counter stopped bound owned]. cbn [li_owned]. intros -> H. unfold listener_start.
  destruct (call_open_owns _ _ _ H) as [H1 Hfd].
  destruct (call_open k) as [[fd|] k1]; cbn [fst snd taken app] in *; [|done].
  specialize (Hfd fd eq_refl). apply call_check_owns in H1. destruct (call_check k1) as [? k2]. cbn [snd] in H1.
  destruct (negb _); [by apply call_close_owns|].
  apply call_check_owns in H1. destruct (call_check k2) as [[|] k3]; cbn [snd negb] in *; [|by apply call_close_owns].
  apply call_check_owns in H1. destruct (call_check k3) as [[|] k4]; cbn [snd negb] in *; [|by apply call_close_owns].
  apply call_value_owns in H1. destruct (call_value k4) as [port k5]. cbn [snd] in H1.
  apply call_pipe_owns in H1. destruct (call_pipe k5) as [[p|] k6].
  - by destruct port; apply socket_piped.
  - by destruct port; apply socket_released.
Qed.

Lemma accept_take_owns base l fds k : owns base fds k ->
  let '(t, _, k') := accept_take l k in
  owns base (match t with Connected c => held (cn_owned c) ++ fds | _ => fds end) k'.
Proof.
  intros H. unfold accept_take. destruct (_ <? 0); [done|]. destruct (call_open_owns _ _ _ H) as [H1 Hfd].
  destruct (call_open k) as [[fd|] k1]; cbn [fst snd taken app] in *; [|done]. specialize (Hfd fd eq_refl).
  destruct (accept_session _ _) as [[error|s] counter]; [by apply call_close_owns|].
  apply call_pipe_owns in H1. destruct (call_pipe k1) as [[p|] k2]; [by apply socket_piped|by apply socket_released].
Qed.

Definition connection_fds (l : list Connection) : list Z := concat ((fun c => held (cn_owned c)) <$> l).
(** What the listener owns: a descriptor that a thread has closed and is about to
    forget is not its any more. *)
Definition still_owned (stopping : list Stopping) (d : Descriptors) : Descriptors :=
  fold_right (fun phase d => match phase with Forgetting x => slot_set x (-1) d | _ => d end) d stopping.
(** The descriptors of the listener and of every connection. *)
Definition owned_fds (n : Net) : list Z :=
  held (still_owned (nt_stopping n) (li_owned (nt_listener n))) ++ connection_fds (nt_connections n).

Lemma insert_at {A} (l1 l2 : list A) (x y : A) : <[length l1 := y]> (l1 ++ x :: l2) = l1 ++ y :: l2.
Proof. induction l1 as [|z l1 IH]; [done|]. cbn. by f_equal. Qed.

Lemma connection_fds_at l i c : l !! i = Some c ->
  (forall c', connection_fds (<[i := c']> l) ≡ₚ held (cn_owned c') ++ connection_fds (delete i l)) /\
  connection_fds l ≡ₚ held (cn_owned c) ++ connection_fds (delete i l).
Proof.
  intros (l1 & l2 & -> & ->)%list_elem_of_split_length. rewrite delete_middle.
  assert (forall c', connection_fds (l1 ++ c' :: l2) ≡ₚ held (cn_owned c') ++ connection_fds (l1 ++ l2)) as H.
  { intros c'. unfold connection_fds. rewrite !fmap_app, fmap_cons, !concat_app. cbn [concat].
    rewrite !app_assoc. by rewrite (Permutation_app_comm (concat _) (held (cn_owned c'))). }
  split; [|apply H]. intros c'. by rewrite insert_at.
Qed.

Lemma connection_fds_last l c : connection_fds (l ++ [c]) ≡ₚ held (cn_owned c) ++ connection_fds l.
Proof. unfold connection_fds. rewrite fmap_app, concat_app. cbn. by rewrite app_nil_r, Permutation_app_comm. Qed.

Lemma held_slot x d :
  held d ≡ₚ filter (fun fd => 0 <= fd) [slot_get x d] ++ held (slot_set x (-1) d).
Proof.
  destruct d as [socket [r w]], x; unfold held, slot_get, slot_set; cbn [ds_socket ds_pipe fst snd];
    rewrite !filter_cons, filter_nil; repeat case_decide; try lia; cbn [app]; solve_Permutation.
Qed.

Lemma slot_closed base x d fds k : owns base (held d ++ fds) k ->
  owns base (held (slot_set x (-1) d) ++ fds) (close_one (slot_get x d) k).
Proof. intros H. apply close_one_owns. by rewrite (held_slot x d), <- app_assoc in H. Qed.

(** Threads that have not just closed a descriptor leave the listener's as they are. *)
Lemma still_owned_one phase d :
  still_owned [phase] d = match phase with Forgetting x => slot_set x (-1) d | _ => d end.
Proof. done. Qed.

Lemma stop_turn_owns base phase l fds k :
  owns base (held (still_owned [phase] (li_owned l)) ++ fds) k ->
  let '(next, l', k') := stop_turn phase l k in
  owns base (held (still_owned (option_list next) (li_owned l')) ++ fds) k' /\ li_counter l' = li_counter l.
Proof.
  rewrite still_owned_one. destruct phase as [| |x|x|x]; cbn [stop_turn]; intros H; split; try done.
  - by destruct (_ <=? _).
  - destruct (_ <=? _); [done|]. by destruct x.
  - by apply slot_closed.
  - by destruct x.
Qed.

(** Every open descriptor has one owner, and one thread at a time is in [stop]. *)
Record net_ok (base : gset Z) (n : Net) : Prop := {
  no_owns : owns base (owned_fds n) (nt_kernel n);
  no_stopping : (length (nt_stopping n) <= 1)%nat
}.

Lemma stop_turn_of i phase n : (length (nt_stopping n) <= 1)%nat -> nt_stopping n !! i = Some phase ->
  i = 0%nat /\ nt_stopping n = [phase].
Proof.
  destruct (nt_stopping n) as [|phase' [|? ?]]; cbn [length]; intros Hl; [done| |lia].
  destruct i as [|i]; [by intros [= ->]|done].
Qed.

Lemma net_act_owns base limit event n n' : orderly limit event n -> net_act event n = Some n' ->
  net_ok base n -> net_ok base n'.
Proof.
  intros Ho Hact [H Hone].
  assert (Hsame : nt_stopping n' = nt_stopping n -> owns base (owned_fds n') (nt_kernel n') -> net_ok base n')
    by (intros Es Hn; split; [done|by rewrite Es]).
  unfold owned_fds in *.
  destruct event as [o| | |answer| | |i|i reason message|i|i]; cbn [net_act orderly] in *.
  - destruct Ho as (Ho & Hs & _). rewrite Ho, Hs in H. pose proof (listener_start_owns base o _ _ _ Ho H) as H1.
    destruct (listener_start _ _ _) as [[failed l] k]. injection Hact as <-. apply Hsame; [done|].
    unfold owned_fds. cbn. by rewrite Hs.
  - destruct (nt_accept n); [discriminate Hact|]. unfold accept_check in Hact.
    destruct (li_stopped _); injection Hact as <-; by apply Hsame.
  - destruct (nt_accept n) as [[]|]; try discriminate Hact. injection Hact as <-. by apply Hsame.
  - destruct (nt_accept n) as [[|socket stop|]|]; try discriminate Hact.
    destruct (poll_possible _ _ _); [|discriminate Hact].
    destruct answer as [|[] []]; injection Hact as <-; by apply Hsame.
  - destruct (nt_accept n) as [[]|]; try discriminate Hact.
    pose proof (accept_take_owns base (nt_listener n) _ _ H) as H1.
    destruct (accept_take _ _) as [[[phase|error|c] counter] k]; injection Hact as <-;
      [by apply Hsame|by apply Hsame|]. apply Hsame; [done|]. unfold owned_fds.
    cbn [nt_stopping nt_listener nt_connections nt_kernel li_owned update_field turned set_connections].
    by rewrite connection_fds_last, Permutation_app_swap_app.
  - injection Hact as <-. unfold owned_fds, stop_enter. rewrite Ho in H |- *.
    split; [|cbn; lia]. unfold owned_fds. cbn. by destruct (li_stopped _).
  - destruct (nt_stopping n !! i) as [phase|] eqn:Ei; [|discriminate Hact]. cbn [mbind option_bind] in Hact.
    destruct (stop_turn_of _ _ _ Hone Ei) as [-> Es]. rewrite Es in H.
    pose proof (stop_turn_owns base phase _ _ _ H) as H1.
    destruct (stop_turn phase _ _) as [[next l] k]. destruct H1 as [H1 _]. rewrite Es in Hact. injection Hact as <-.
    split; cbn; destruct next; [exact H1|exact H1|cbn; lia|cbn; lia].
  - destruct (nt_connections n !! i) as [c|] eqn:Ec; [|discriminate Hact]. cbn [mbind option_bind] in Hact.
    destruct (cn_hung c); [discriminate Hact|].
    destruct (connection_fds_at _ _ _ Ec) as [Hi Hc]. rewrite Hc, Permutation_app_swap_app in H.
    pose proof (end_connection_owns base reason message c (li_counter (nt_listener n)) _ _ H) as H1.
    destruct (end_connection _ _ _ _ _) as [[c' counter] k]. injection Hact as <-. apply Hsame; [done|].
    unfold owned_fds. cbn [nt_stopping nt_listener nt_connections nt_kernel li_owned update_field set_connections].
    by rewrite Hi, Permutation_app_swap_app.
  - destruct (nt_connections n !! i) as [c|] eqn:Ec; [|discriminate Hact]. cbn [mbind option_bind] in Hact.
    destruct (cn_hung c || _); [discriminate Hact|]. injection Hact as <-.
    destruct (connection_fds_at _ _ _ Ec) as [Hi Hc]. rewrite Hc in H. apply Hsame; [done|].
    unfold owned_fds. cbn [nt_stopping nt_listener nt_connections nt_kernel li_owned update_field].
    by rewrite Hi.
  - destruct (nt_connections n !! i) as [c|] eqn:Ec; [|discriminate Hact]. cbn [mbind option_bind] in Hact.
    destruct (cn_hung c); [discriminate Hact|].
    destruct (connection_fds_at _ _ _ Ec) as [_ Hc]. rewrite Hc, Permutation_app_swap_app in H.
    apply (destroy_connection_owns base c (li_counter (nt_listener n))) in H.
    destruct (destroy_connection _ _ _) as [counter k]. injection Hact as <-. by apply Hsame.
Qed.

Lemma net_reachable_owns k limit n : kn_misused k = false -> rtc (net_step limit) (net_open k) n ->
  net_ok (kn_open k) n.
Proof.
  intros Hk. apply (rtc_ind_r (fun n => net_ok (kn_open k) n)).
  - split; [|cbn; lia].
    split; [change (kn_open k = kn_open k ∪ ∅); by rewrite union_empty_r_L|cbn; set_solver|constructor|exact Hk].
  - intros n1 n2 _ [event Ho Ha] H. by eapply net_act_owns.
Qed.


(** A thread that is alone in [stop] returns after at most eleven steps, and has
    done what [release] does in one go. *)
Fixpoint stop_run (fuel : nat) (phase : Stopping) (l : Listener) (k : Kernel) : option (Listener * Kernel) :=
  match fuel with
  | O => None
  | S fuel =>
      match stop_turn phase l k with
      | (None, l, k) => Some (l, k)
      | (Some phase, l, k) => stop_run fuel phase l k
      end
  end.

Definition opened_or_none (fd : Z) : Prop := fd = -1 \/ 0 <= fd.

Lemma stop_run_more n m phase l k r : stop_run n phase l k = Some r -> (n <= m)%nat -> stop_run m phase l k = Some r.
Proof.
  revert m phase l k. induction n as [|n IH]; intros [|m] phase l k Hr Hm; try done; [lia|]. cbn [stop_run] in *.
  destruct (stop_turn phase l k) as [[[phase'|] l'] k']; [|done]. apply IH; [done|lia].
Qed.

Lemma stop_run_S fuel phase l k :
  stop_run (S fuel) phase l k = match stop_turn phase l k with
                                | (None, l, k) => Some (l, k)
                                | (Some phase, l, k) => stop_run fuel phase l k
                                end.
Proof. done. Qed.

(** One descriptor takes at most three steps. *)
Definition forgotten (x : Slot) (l : Listener) : Listener := l <| li_owned := slot_set x (-1) (li_owned l) |>.
Definition stop_from (fuel : nat) (next : option Stopping) (l : Listener) (k : Kernel) : option (Listener * Kernel) :=
  match next with Some phase => stop_run fuel phase l k | None => Some (l, k) end.

Lemma slot_set_same x d : slot_set x (slot_get x d) d = d.
Proof. by destruct d as [socket [r w]], x. Qed.

Lemma stop_run_slot x fuel l k r : opened_or_none (slot_get x (li_owned l)) ->
  stop_from fuel (after_slot x) (forgotten x l) (close_one (slot_get x (li_owned l)) k) = Some r ->
  stop_run (S (S (S fuel))) (Testing x) l k = Some r.
Proof.
  unfold close_one. intros [Hfd|Hfd] Hr; rewrite stop_run_S; cbn [stop_turn].
  - rewrite Hfd in Hr |- *. cbn [Z.leb Z.compare] in *.
    assert (El : forgotten x l = l) by (unfold forgotten; rewrite <- Hfd, slot_set_same; by destruct l).
    rewrite El in Hr. revert Hr. destruct x; cbn [after_slot stop_from]; [..|done];
      intros Hr; by eapply stop_run_more; [exact Hr|lia].
  - rewrite (proj2 (Z.leb_le _ _) Hfd) in Hr |- *. do 2 (rewrite stop_run_S; cbn [stop_turn]).
    unfold close_one. rewrite (proj2 (Z.leb_le _ _) Hfd). unfold forgotten in Hr. by destruct x.
Qed.

Lemma stop_run_release l k :
  opened_or_none (ds_socket (li_owned l)) -> opened_or_none (ds_pipe (li_owned l)).1 ->
  opened_or_none (ds_pipe (li_owned l)).2 ->
  stop_run 9 (Testing ListenSocket) l k = Some (listener_release l k).
Proof. intros H1 H2 H3. do 3 (apply (stop_run_slot _ _ _ _ _); [done|]; cbn [after_slot stop_from]). done. Qed.

Theorem stop_alone_releases (l : Listener) (k : Kernel)
    (Hfds : opened_or_none (ds_socket (li_owned l)) /\ opened_or_none (ds_pipe (li_owned l)).1 /\
            opened_or_none (ds_pipe (li_owned l)).2) :
  let '(phase, l') := stop_enter l in
  li_stopped l' = true /\ stop_run 11 phase l' k = Some (listener_release l' k).
Proof.
  destruct Hfds as (H1 & H2 & H3). unfold stop_enter. split; [done|]. set (l' := l <| li_stopped := true |>).
  assert (H : stop_run 9 (Testing ListenSocket) l' k = Some (listener_release l' k)) by (by apply stop_run_release).
  destruct (li_stopped l); [by eapply stop_run_more; [exact H|lia]|]. rewrite stop_run_S. cbn [stop_turn].
  destruct (_ <=? _); [rewrite stop_run_S; exact H|by eapply stop_run_more; [exact H|lia]].
Qed.

(** ** The slots *)

Definition live_one (c : Connection) : nat := if ss_closed (cn_session c) then 0 else 1.
Lemma live_sum l : length (filter (fun c => ss_closed (cn_session c) = false) l) = sum_list_with live_one l.
Proof.
  induction l as [|c l IH]; [done|]. rewrite filter_cons. change (sum_list_with live_one (c :: l)) with
    (live_one c + sum_list_with live_one l)%nat. rewrite <- IH. unfold live_one.
  by destruct (ss_closed (cn_session c)).
Qed.

Lemma live_at l i c : l !! i = Some c ->
  sum_list_with live_one l = (live_one c + sum_list_with live_one (delete i l))%nat /\
  forall c', sum_list_with live_one (<[i := c']> l) = (live_one c' + sum_list_with live_one (delete i l))%nat.
Proof.
  intros (l1 & l2 & -> & ->)%list_elem_of_split_length. rewrite delete_middle.
  split; [|intros c'; rewrite insert_at]; rewrite !sum_list_with_app; cbn; lia.
Qed.

(** A slot is taken for every connection that has not ended; before the first
    start there is none. *)
Record slots (limit : Z) (n : Net) : Prop := {
  sl_live : Z.of_nat (sum_list_with live_one (nt_connections n)) <= cc_active (li_counter (nt_listener n));
  sl_active : cc_active (li_counter (nt_listener n)) <= limit;
  sl_limit : cc_limit (li_counter (nt_listener n)) = limit \/ ds_socket (li_owned (nt_listener n)) < 0
}.

Lemma end_connection_slots reason message c counter k :
  let '(c', counter', _) := end_connection reason message c counter k in
  live_one c' = 0%nat /\ cc_limit counter' = cc_limit counter /\
  (cc_active counter' = cc_active counter - Z.of_nat (live_one c) \/
   cc_active counter <= 0 /\ cc_active counter' = cc_active counter).
Proof.
  unfold end_connection, mark_closed, live_one, set_error. destruct c as [s owned peer hung]. cbn [cn_session cn_owned cn_peer].
  destruct (ss_closed s) eqn:Es; cbn [negb].
  - cbn. rewrite Es. split_and!; [done|done|left; lia].
  - destruct (Z.ltb_spec 0 (cc_active counter)); destruct (_ == ""); cbn; split_and!; try done; (left; lia) || (right; lia).
Qed.

Lemma destroy_connection_slots c counter k :
  let '(counter', _) := destroy_connection c counter k in
  cc_limit counter' = cc_limit counter /\
  (cc_active counter' = cc_active counter - Z.of_nat (live_one c) \/
   cc_active counter <= 0 /\ cc_active counter' = cc_active counter).
Proof.
  unfold destroy_connection. pose proof (end_connection_slots CloseReason.LOCAL_CLOSE "" c counter k) as H.
  destruct (end_connection _ _ _ _ _) as [[c' counter'] k']. by destruct H as (_ & H).
Qed.

Lemma listener_start_slots o l k :
  let '(_, l', _) := listener_start o l k in
  li_counter l' = {| cc_active := cc_active (li_counter l); cc_limit := max_connections (to_limits o) |}.
Proof.
  unfold listener_start. destruct (call_open k) as [[fd|] k1]; [|done]. destruct (call_check k1) as [? k2].
  destruct (negb _); [done|]. destruct (call_check k2) as [[|] k3]; [|done].
  destruct (call_check k3) as [[|] k4]; [|done]. destruct (call_value k4) as [[port|] k5]; by destruct (call_pipe k5) as [[p|] k6].
Qed.

Lemma accept_take_slots l k :
  let '(t, counter, _) := accept_take l k in
  match t with
  | Connected c => live_one c = 1%nat /\ cc_active counter = cc_active (li_counter l) + 1 /\
      cc_limit counter = cc_limit (li_counter l) /\ cc_active (li_counter l) < cc_limit (li_counter l) /\
      0 <= ds_socket (li_owned l)
  | _ => counter = li_counter l
  end.
Proof.
  unfold accept_take. destruct (Z.ltb_spec (ds_socket (li_owned l)) 0); [done|].
  destruct (call_open k) as [[fd|] k1]; [|done]. unfold accept_session.
  destruct (Z.leb_spec (cc_limit (li_counter l)) (cc_active (li_counter l))); [done|].
  by destruct (call_pipe k1) as [[p|] k2].
Qed.

Lemma stop_turn_slots phase l k :
  let '(_, l', _) := stop_turn phase l k in
  li_counter l' = li_counter l /\
  (ds_socket (li_owned l) < 0 -> ds_socket (li_owned l') < 0).
Proof. by destruct phase as [| |x|x|[]]. Qed.

Lemma net_act_slots limit event n n' : orderly limit event n -> net_act event n = Some n' ->
  slots limit n -> slots limit n'.
Proof.
  intros Ho Hact [H1 H2 H3].
  destruct event as [o| | |answer| | |i|i reason message|i|i]; cbn [net_act orderly] in *.
  - destruct Ho as (Ho & _ & <-). pose proof (listener_start_slots o (nt_listener n) (nt_kernel n)) as Hs.
    destruct (listener_start _ _ _) as [[failed l] k]. injection Hact as <-.
    split; cbn; rewrite Hs; cbn; [done|done|by left].
  - destruct (nt_accept n); [discriminate Hact|]. unfold accept_check in Hact.
    destruct (li_stopped _); injection Hact as <-; by split.
  - destruct (nt_accept n) as [[]|]; try discriminate Hact. injection Hact as <-. by split.
  - destruct (nt_accept n) as [[|socket stop|]|]; try discriminate Hact.
    destruct (poll_possible _ _ _); [|discriminate Hact].
    destruct answer as [|[] []]; injection Hact as <-; by split.
  - destruct (nt_accept n) as [[]|]; try discriminate Hact.
    pose proof (accept_take_slots (nt_listener n) (nt_kernel n)) as Hs.
    destruct (accept_take _ _) as [[[phase|error|c] counter] k]; injection Hact as <-;
      [rewrite Hs; by split|rewrite Hs; by split|].
    destruct Hs as (Hc & Ha & Hl & Hlt & Hfd).
    split; cbn; rewrite ?sum_list_with_app; cbn; rewrite ?Hc, ?Ha, ?Hl; lia.
  - injection Hact as <-. by split.
  - destruct (nt_stopping n !! i) as [phase|]; [|discriminate Hact]. cbn [mbind option_bind] in Hact.
    pose proof (stop_turn_slots phase (nt_listener n) (nt_kernel n)) as Hs.
    destruct (stop_turn phase _ _) as [[next l] k]. destruct Hs as [Hc Hd]. injection Hact as <-.
    split; cbn; rewrite ?Hc; [done|done|]. destruct H3 as [H3|H3]; [by left|right; lia].
  - destruct (nt_connections n !! i) as [c|] eqn:Ec; [|discriminate Hact]. cbn [mbind option_bind] in Hact.
    destruct (cn_hung c); [discriminate Hact|].
    destruct (live_at _ _ _ Ec) as [Hl Hi].
    pose proof (end_connection_slots reason message c (li_counter (nt_listener n)) (nt_kernel n)) as Hs.
    destruct (end_connection _ _ _ _ _) as [[c' counter] k]. injection Hact as <-.
    destruct Hs as (Hc & Hlimit & Ha). specialize (Hi c'). split; cbn; rewrite ?Hlimit, ?Hi, ?Hc; lia.
  - destruct (nt_connections n !! i) as [c|] eqn:Ec; [|discriminate Hact]. cbn [mbind option_bind] in Hact.
    destruct (cn_hung c || _); [discriminate Hact|]. injection Hact as <-.
    destruct (live_at _ _ _ Ec) as [Hl Hi]. split; cbn; [rewrite Hi; unfold live_one in *; cbn; lia|done|done].
  - destruct (nt_connections n !! i) as [c|] eqn:Ec; [|discriminate Hact]. cbn [mbind option_bind] in Hact.
    destruct (cn_hung c); [discriminate Hact|].
    destruct (live_at _ _ _ Ec) as [Hl _].
    pose proof (destroy_connection_slots c (li_counter (nt_listener n)) (nt_kernel n)) as Hs.
    destruct (destroy_connection _ _ _) as [counter k]. injection Hact as <-.
    destruct Hs as (Hlimit & Ha). split; cbn; rewrite ?Hlimit; lia.
Qed.

(** There are never more connections that have not ended than slots are
    taken, and never more slots taken than the listener's limit allows. *)
Theorem connections_within_limit (k : Kernel) (limit : Z) (n : Net)
    (Hlimit : 0 <= limit) (Hreach : rtc (net_step limit) (net_open k) n) :
  Z.of_nat (live n) <= cc_active (li_counter (nt_listener n)) <= limit.
Proof.
  assert (slots limit n) as [H1 H2 _]; [|unfold live; rewrite live_sum; lia].
  revert Hreach. apply (rtc_ind_r (fun n => slots limit n)); [split; cbn; [lia|lia|by right]|].
  intros n1 n2 _ [event Ho Ha] H. by eapply net_act_slots.
Qed.

(** ** A stop that [accept] does not see *)

(** What leaves the listener stopped: no new start, and no failure of [poll]. *)
Definition undisturbed (event : Event) : bool :=
  match event with Start _ | Polled PollError => false | _ => true end.

Definition stranded (n : Net) : Prop :=
  li_owned (nt_listener n) = no_descriptors /\
  (nt_accept n = Some Checked \/ nt_accept n = Some (Waiting (-1) (-1)) \/ nt_accept n = Some Ready).

Lemma net_act_stranded event n n' :
  undisturbed event = true -> net_act event n = Some n' -> stranded n -> stranded n'.
Proof.
  intros He Hact [Hl Ha]. unfold stranded.
  destruct event as [o| | |answer| | |i|i reason message|i|i]; cbn [net_act undisturbed] in *; [done|..].
  - destruct (nt_accept n); [discriminate Hact|]. by destruct Ha as [|[|]].
  - destruct (nt_accept n) as [[]|]; try discriminate Hact. injection Hact as <-. cbn. rewrite Hl. eauto.
  - destruct Ha as [Ha|[Ha|Ha]]; rewrite Ha in Hact; try discriminate Hact.
    by destruct answer as [|[] []].
  - destruct (nt_accept n) as [[]|]; try discriminate Hact. unfold accept_take in Hact. rewrite Hl in Hact.
    injection Hact as <-. cbn. eauto.
  - by injection Hact as <-.
  - destruct (nt_stopping n !! i) as [phase|]; [|discriminate Hact]. cbn [mbind option_bind] in Hact.
    assert (Hs : li_owned (stop_turn phase (nt_listener n) (nt_kernel n)).1.2 = no_descriptors)
      by (destruct phase as [| |x|x|x]; cbn; rewrite ?Hl; try done; by destruct x).
    destruct (stop_turn phase _ _) as [[next l] k]. by injection Hact as <-.
  - destruct (nt_connections n !! i) as [c|]; [|discriminate Hact]. cbn [mbind option_bind] in Hact.
    destruct (cn_hung c); [discriminate Hact|].
    destruct (end_connection _ _ _ _ _) as [[c' counter] k]. by injection Hact as <-.
  - destruct (nt_connections n !! i) as [c|]; [|discriminate Hact]. cbn [mbind option_bind] in Hact.
    destruct (cn_hung c || _); [discriminate Hact|]. by injection Hact as <-.
  - destruct (nt_connections n !! i) as [c|]; [|discriminate Hact]. cbn [mbind option_bind] in Hact.
    destruct (cn_hung c); [discriminate Hact|].
    destruct (destroy_connection _ _ _) as [counter k]. by injection Hact as <-.
Qed.

(** A call of [accept] that found the listener running and has not waited
    yet when [stop] releases the descriptors does not return, whatever happens
    next, unless the listener is started again or [poll] fails: it waits without
    a bound on descriptors that have no events. *)
Theorem stopped_accept_never_returns (events : list Event) (n n' : Net)
    (Hreleased : li_owned (nt_listener n) = no_descriptors) (Hchecked : nt_accept n = Some Checked)
    (Hevents : forallb undisturbed events = true) (Hrun : net_run events n = Some n') :
  nt_accept n' <> None.
Proof.
  assert (stranded n) as H by (split; eauto). clear Hreleased Hchecked. revert n H Hevents Hrun.
  induction events as [|event events IH]; intros n H; cbn [forallb net_run].
  - intros _ [= <-] E. destruct H as [_ [H|[H|H]]]; by rewrite E in H.
  - intros [He Hes]%andb_true_iff. destruct (net_act event n) as [n1|] eqn:Ea; [|done].
    apply (IH n1); [|done]. by eapply net_act_stranded.
Qed.

(** ** A connection that hangs *)

Lemma elem_of_insert_ne {A} (l : list A) i (x y z : A) : l !! i = Some y -> x <> y -> x ∈ l -> x ∈ <[i := z]> l.
Proof.
  intros Hi Hne (j & Hj)%list_elem_of_lookup. apply list_elem_of_lookup. exists j.
  rewrite list_lookup_insert_ne; [done|]. intros ->. congruence.
Qed.

Lemma elem_of_delete_ne {A} (l : list A) i (x y : A) : l !! i = Some y -> x <> y -> x ∈ l -> x ∈ delete i l.
Proof.
  intros (l1 & l2 & -> & ->)%list_elem_of_split_length Hne. rewrite delete_middle, !elem_of_app, elem_of_cons.
  intros [?|[?|?]]; [by left|done|by right].
Qed.

Lemma net_act_hung event n n' c : net_act event n = Some n' -> cn_hung c = true ->
  c ∈ nt_connections n -> c ∈ nt_connections n'.
Proof.
  intros Hact Hh Hin.
  destruct event as [o| | |answer| | |i|i reason message|i|i]; cbn [net_act] in Hact.
  - destruct (listener_start _ _ _) as [[failed l] k]. by injection Hact as <-.
  - destruct (nt_accept n); [discriminate Hact|]. unfold accept_check in Hact.
    destruct (li_stopped _); by injection Hact as <-.
  - destruct (nt_accept n) as [[]|]; try discriminate Hact. by injection Hact as <-.
  - destruct (nt_accept n) as [[|socket stop|]|]; try discriminate Hact.
    destruct (poll_possible _ _ _); [|discriminate Hact]. destruct answer as [|[] []]; by injection Hact as <-.
  - destruct (nt_accept n) as [[]|]; try discriminate Hact.
    destruct (accept_take _ _) as [[[phase|error|c'] counter] k]; injection Hact as <-; [done|done|].
    apply elem_of_app. by left.
  - by injection Hact as <-.
  - destruct (nt_stopping n !! i) as [phase|]; [|discriminate Hact]. cbn [mbind option_bind] in Hact.
    destruct (stop_turn phase _ _) as [[next l] k]. by injection Hact as <-.
  - destruct (nt_connections n !! i) as [c'|] eqn:Ec; [|discriminate Hact]. cbn [mbind option_bind] in Hact.
    destruct (cn_hung c') eqn:Eh; [discriminate Hact|]. destruct (end_connection _ _ _ _ _) as [[c1 counter] k].
    injection Hact as <-. eapply elem_of_insert_ne; [exact Ec| |exact Hin]. congruence.
  - destruct (nt_connections n !! i) as [c'|] eqn:Ec; [|discriminate Hact]. cbn [mbind option_bind] in Hact.
    destruct (cn_hung c') eqn:Eh; [discriminate Hact|]. destruct (ss_closed _); [discriminate Hact|]. injection Hact as <-.
    eapply elem_of_insert_ne; [exact Ec| |exact Hin]. congruence.
  - destruct (nt_connections n !! i) as [c'|] eqn:Ec; [|discriminate Hact]. cbn [mbind option_bind] in Hact.
    destruct (cn_hung c') eqn:Eh; [discriminate Hact|]. destruct (destroy_connection _ _ _) as [counter k].
    injection Hact as <-. eapply elem_of_delete_ne; [exact Ec| |exact Hin]. congruence.
Qed.

(** A connection whose peer sent what is not a frame stays as it is, with its
    descriptors and its slot, whatever happens: it neither ends nor is closed. *)
Theorem hung_connection_stays (c : Connection) (events : list Event) (n n' : Net)
    (Hhung : cn_hung c = true) (Hc : c ∈ nt_connections n) (Hrun : net_run events n = Some n') :
  c ∈ nt_connections n'.
Proof.
  revert n Hc Hrun. induction events as [|event events IH]; intros n Hc; cbn [net_run]; [by intros [= <-]|].
  destruct (net_act event n) as [n1|] eqn:Ea; [|done]. apply IH. by eapply net_act_hung.
Qed.

(** ** A second start *)

(** What a start that succeeds does, it does whatever the listener owned. *)
Lemma listener_start_forgets o l l' k k' owned : listener_start o l k = (None, l', k') ->
  exists l0, li_owned l0 = owned /\ listener_start o l0 k = (None, l', k').
Proof.
  intros H. exists (l <| li_owned := owned |>). split; [done|]. revert H.
  destruct l as [o0 counter stopped bound owned0]. unfold listener_start.
  destruct (call_open k) as [[fd|] k1]; [|done]. destruct (call_check k1) as [? k2].
  destruct (negb _); [done|]. destruct (call_check k2) as [[|] k3]; [|done].
  destruct (call_check k3) as [[|] k4]; [|done]. destruct (call_value k4) as [[port|] k5]; by destruct (call_pipe k5) as [[p|] k6].
Qed.

(** Starting a listener that has been started and not stopped leaves the
    descriptors it had open, and owned by nobody. *)
Theorem second_start_leaks (options : TransportOptions) (l l' : Listener) (k k' : Kernel) (fd : Z)
    (Hk : kn_misused k = false) (Hopen : list_to_set (held (li_owned l)) ⊆ kn_open k)
    (Hstart : listener_start options l k = (None, l', k')) (Hfd : fd ∈ held (li_owned l)) :
  fd ∈ kn_open k' /\ fd ∉ held (li_owned l').
Proof.
  clear peer_text. apply (listener_start_forgets _ _ _ _ _ no_descriptors) in Hstart as (l0 & Hl0 & Hstart).
  pose proof (listener_start_owns (kn_open k) options l0 [] k Hl0) as H.
  rewrite Hstart, app_nil_r in H. destruct H as [H1 H2 _ _].
  { split; [symmetry; apply union_empty_r_L|cbn; set_solver|constructor|exact Hk]. }
  assert (fd ∈ kn_open k) by (apply Hopen; by rewrite elem_of_list_to_set).
  split; [rewrite H1; set_solver|]. intros Hin. apply (H2 fd); [done|by rewrite elem_of_list_to_set].
Qed.
End Sockets.

(** ** Runs *)

Definition loopback_only (address : string) : bool := address == "127.0.0.1".
Definition peer_of_descriptor (fd : Z) : option string := Some ("127.0.0.1:" +:+ to_string_int (40000 + fd)).

(** What the system answers to a start, and to one accepted connection. *)
Definition sample_kernel : Kernel :=
  {| kn_open := {[0; 1; 2]}; kn_misused := false;
     kn_answers := [Granted 3; Granted 0; Granted 0; Granted 0; Granted 5000; Granted 4; Granted 5;
                    Granted 6; Granted 7; Granted 8] |}.
Definition one_connection : list Event :=
  [Start transport_options_default; Enter; Wait; Polled (PollEvents true false); Take].
(** [stop] from the flag to its return. *)
Definition whole_stop : list Event := Stop :: repeat (StopTurn 0) 11.
Definition stop_in_between : list Event := [Start transport_options_default; Enter] ++ whole_stop.

Definition sample_limit : Z := max_connections default_resource_limits.
#[local] Abbreviation run := (net_run loopback_only peer_of_descriptor).
#[local] Abbreviation step := (net_step loopback_only peer_of_descriptor sample_limit).

Lemma run_reaches events n n' :
  Forall (fun event => match event with Start _ | Stop => False | _ => True end) events ->
  run events n = Some n' -> rtc step n n'.
Proof.
  intros H. revert n. induction H as [|event events He H IH]; intros n; cbn [net_run]; [by intros [= <-]|].
  destruct (net_act _ _ event n) as [n1|] eqn:Ea; [|done]. intros Hrun.
  eapply rtc_l; [|by apply IH]. exists event; [by destruct event|exact Ea].
Qed.

Lemma started_reaches events n : Forall (fun event => match event with Start _ | Stop => False | _ => True end) events ->
  run (Start transport_options_default :: events) (net_open sample_kernel) = Some n ->
  rtc step (net_open sample_kernel) n.
Proof.
  intros H. cbn [net_run]. destruct (net_act _ _ (Start _) _) as [n1|] eqn:Ea; [|done]. intros Hrun.
  eapply rtc_l; [|by eapply run_reaches]. exists (Start transport_options_default); [by split_and!|exact Ea].
Qed.


Lemma connections_within_limit_witness : exists n,
  run one_connection (net_open sample_kernel) = Some n /\ live n = 1%nat /\
  cc_active (li_counter (nt_listener n)) <= sample_limit.
Proof.
  destruct (run one_connection (net_open sample_kernel)) as [n|] eqn:E; [|vm_compute in E; discriminate E].
  exists n. split; [reflexivity|]. split; [revert E; vm_compute; intros [= <-]; reflexivity|].
  apply (connections_within_limit loopback_only peer_of_descriptor sample_kernel sample_limit n); [done|].
  apply (started_reaches [Enter; Wait; Polled (PollEvents true false); Take]); [by repeat constructor|exact E].
Defined.

(** The accepting thread and the stopping one, in an order that strands it. *)
Lemma stopped_accept_never_returns_witness : exists n n',
  run stop_in_between (net_open sample_kernel) = Some n /\ run [Wait] n = Some n' /\ nt_accept n' <> None.
Proof.
  destruct (run stop_in_between (net_open sample_kernel)) as [n|] eqn:E; [|vm_compute in E; discriminate E].
  assert (li_owned (nt_listener n) = no_descriptors /\ nt_accept n = Some Checked) as [Hl Ha]
    by (revert E; vm_compute; intros [= <-]; split; reflexivity).
  destruct (run [Wait] n) as [n'|] eqn:E'; [|cbn in E'; rewrite Ha in E'; discriminate E'].
  exists n, n'. split; [reflexivity|]. split; [exact E'|].
  exact (stopped_accept_never_returns loopback_only peer_of_descriptor [Wait] n n' Hl Ha eq_refl E').
Defined.

(** [stop] takes no lock.  When two threads are in it at once, the second can
    find the listening socket open after the first has and before it forgets it,
    and both close it: by then the number may be that of another descriptor. *)
Definition racing_stops : list Event :=
  [Start transport_options_default; Stop; Stop; StopTurn 0; StopTurn 0; StopTurn 0; StopTurn 1;
   StopTurn 0; StopTurn 1].
Theorem racing_stops_close_twice : exists n,
  run racing_stops (net_open sample_kernel) = Some n /\
  nt_stopping n = [Forgetting ListenSocket; Forgetting ListenSocket] /\ kn_misused (nt_kernel n) = true.
Proof.
  destruct (run racing_stops (net_open sample_kernel)) as [n|] eqn:E; [|vm_compute in E; discriminate E].
  exists n. split; [reflexivity|]. revert E. vm_compute. intros [= <-]. split; reflexivity.
Qed.

Definition two_starts : Kernel :=
  sample_kernel <| kn_answers := Granted <$> [3; 0; 0; 0; 5000; 4; 5; 6; 0; 0; 0; 5001; 7; 8] |>.
Definition first_start : option string * Listener * Kernel :=
  listener_start loopback_only transport_options_default listener_idle two_starts.
Lemma second_start_leaks_witness : exists l' k',
  listener_start loopback_only transport_options_default first_start.1.2 first_start.2 = (None, l', k') /\ 3 ∈ kn_open k' /\ 3 ∉ held (li_owned l').
Proof.
  destruct (listener_start loopback_only transport_options_default first_start.1.2 first_start.2)
    as [[[error|] l'] k'] eqn:E; [vm_compute in E; discriminate E|].
  exists l', k'. split; [reflexivity|].
  apply (second_start_leaks loopback_only transport_options_default first_start.1.2 l' first_start.2 k' 3).
  - reflexivity.
  - apply (bool_decide_eq_true _). vm_compute. reflexivity.
  - exact E.
  - apply (bool_decide_eq_true _). vm_compute. reflexivity.
Defined.

Definition net_after (events : list Event) (n : Net) : Net := default n (run events n).
Definition hung_net : Net := net_after (one_connection ++ [Garbled 0]) (net_open sample_kernel).
Definition hung_connection : list Connection := nt_connections hung_net.

Lemma hung_connection_stays_witness :
  (held ∘ cn_owned) <$> hung_connection = [[6; 7; 8]] /\
  run whole_stop hung_net = Some (net_after whole_stop hung_net) /\
  Forall (fun c => c ∈ nt_connections (net_after whole_stop hung_net)) hung_connection.
Proof.
  assert (Hrun : run whole_stop hung_net = Some (net_after whole_stop hung_net)) by (vm_compute; reflexivity).
  split; [vm_compute; reflexivity|]. split; [exact Hrun|]. apply Forall_forall. intros c Hc.
  assert (Hh : Forall (fun c => cn_hung c = true) hung_connection)
    by (vm_compute; constructor; [reflexivity|constructor]).
  apply (hung_connection_stays loopback_only peer_of_descriptor c whole_stop hung_net); [|exact Hc|exact Hrun].
  exact (proj1 (Forall_forall _ _) Hh c Hc).
Defined.

Lemma stop_alone_releases_witness :
  let l := first_start.1.2 in
  held (li_owned l) <> [] /\
  stop_run 11 (stop_enter l).1 (stop_enter l).2 first_start.2 = Some (listener_release (stop_enter l).2 first_start.2).
Proof.
  split; [vm_compute; discriminate|].
  apply (stop_alone_releases first_start.1.2 first_start.2). split_and!; right; apply Z.leb_le; vm_compute; reflexivity.
Defined.
