(* ===== verification/CommandLine.v ===== *)
(** * The command lines of the reference processes

    [reference/backend_worker_main.cpp] and [reference/router_coordinator_main.cpp]
    read their options with [strtoul]; [reference/reference_harness_main.cpp]
    starts them with arguments it has printed. *)
From Stdlib Require Import Ascii.
From S2P Require Import Prelude.
From S2P Require Import Ids.
From S2P Require Import Json.
From S2P Require Import Limits.
From S2P Require Import ReferenceProfiles.
From S2P Require Import Coordinator.
From S2P Require Import BackendWorker.

(** ** [strtoul] and [strtoull], base 10 *)

Definition is_space (c : ascii) : bool := let n := N_of_ascii c in ((n =? 32) || ((9 <=? n) && (n <=? 13)))%N.
Fixpoint skip_space (s : string) : string :=
  match s with
  | String c rest => if is_space c then skip_space rest else s
  | EmptyString => ""
  end.

(** The digits that follow blanks and a sign: 0 if there are none, the largest
    value if they do not fit; a negative number is negated in 64 bits. *)
Definition strtoull (text : string) : Z :=
  let text := skip_space text in
  let '(negative, digits) :=
    match text with
    | String c rest =>
        return_if c == "-"%char with (true, rest) ;;
        return_if c == "+"%char with (false, rest) ;;
        (false, text)
    | EmptyString => (false, text)
    end in
  let n := (read_digits 0 digits).1 in
  return_if u64_max <? n with u64_max ;;
  if negative then word64 (- n) else n.

Definition word16 (x : Z) : Z := Z.land x 65535.

(** ** The loop over the arguments *)

Section Options.
Context {O : Type} (flag : string -> option (O -> O)) (valued : string -> option (string -> O -> O)).

(** An option whose value is missing gets the empty string. *)
Fixpoint parse_options (arguments : list string) (o : O) : option O :=
  match arguments with
  | [] => Some o
  | name :: arguments =>
      match flag name, valued name with
      | Some set, _ => parse_options arguments (set o)
      | None, None => None
      | None, Some set =>
          match arguments with
          | [] => Some (set "" o)
          | v :: arguments => parse_options arguments (set v o)
          end
      end
  end.

Lemma parse_flag name set arguments o :
  flag name = Some set -> parse_options (name :: arguments) o = parse_options arguments (set o).
Proof. intros H. cbn [parse_options]. by rewrite H. Qed.
Lemma parse_valued name set v arguments o : flag name = None -> valued name = Some set ->
  parse_options (name :: v :: arguments) o = parse_options arguments (set v o).
Proof. intros H1 H2. cbn [parse_options]. by rewrite H1, H2. Qed.
End Options.

(** ** The worker *)

#[export] Instance worker_options_eta : Eta WorkerOptions := fun o =>
  {| wo_host := wo_host o; wo_port := wo_port o; wo_backend_id := wo_backend_id o; wo_boot := wo_boot o;
     wo_generation := wo_generation o; wo_registration := wo_registration o; wo_cost_base := wo_cost_base o;
     wo_latency_micros := wo_latency_micros o; wo_queue_micros := wo_queue_micros o;
     wo_price_generation := wo_price_generation o; wo_cuda_verified := wo_cuda_verified o |}.

(** The options, and whether the CUDA capability is to be published. *)
Definition worker_valued (name : string) : option (string -> WorkerOptions * bool -> WorkerOptions * bool) :=
  let set (f : string -> WorkerOptions -> WorkerOptions) := Some (fun v (o : WorkerOptions * bool) => (f v o.1, o.2)) in
  return_if name == "--host" with set (fun v o => o <| wo_host := v |>) ;;
  return_if name == "--port" with set (fun v o => o <| wo_port := word16 (strtoull v) |>) ;;
  return_if name == "--backend-id" with set (fun v o => o <| wo_backend_id := strtoull v |>) ;;
  return_if name == "--boot" with set (fun v o => o <| wo_boot := strtoull v |>) ;;
  return_if name == "--generation" with set (fun v o => o <| wo_generation := strtoull v |>) ;;
  return_if name == "--registration" with set (fun v o => o <| wo_registration := strtoull v |>) ;;
  return_if name == "--cost-base" with set (fun v o => o <| wo_cost_base := strtoull v |>) ;;
  return_if name == "--latency-micros" with set (fun v o => o <| wo_latency_micros := word32 (strtoull v) |>) ;;
  return_if name == "--queue-micros" with set (fun v o => o <| wo_queue_micros := word32 (strtoull v) |>) ;;
  return_if name == "--price-generation" with set (fun v o => o <| wo_price_generation := strtoull v |>) ;;
  None.
Definition worker_flag (name : string) : option (WorkerOptions * bool -> WorkerOptions * bool) :=
  return_if name == "--no-cuda" with Some (fun o => (o.1, false)) ;; None.

(** [verified]: what the CUDA probe of the build would answer. *)
Definition worker_command (verified : bool) (arguments : list string) : option WorkerOptions :=
  '(o, publish) ← parse_options worker_flag worker_valued arguments (worker_options_default, true);
  return_if wo_port o =? 0 with None ;;
  Some (o <| wo_cuda_verified := publish && verified |>).

(** ** The coordinator *)

#[export] Instance coordinator_options_eta : Eta CoordinatorOptions := fun o =>
  {| cn_bind_address := cn_bind_address o; cn_port := cn_port o; cn_limits := cn_limits o;
     cn_state_path := cn_state_path o; cn_load_on_start := cn_load_on_start o;
     cn_save_on_shutdown := cn_save_on_shutdown o; cn_router_generation := cn_router_generation o |}.

Definition coordinator_valued (name : string) : option (string -> CoordinatorOptions -> CoordinatorOptions) :=
  return_if name == "--port" with Some (fun v o => o <| cn_port := word16 (strtoull v) |>) ;;
  return_if name == "--bind" with Some (fun v o => o <| cn_bind_address := v |>) ;;
  return_if name == "--state" with Some (fun v o => o <| cn_state_path := v |>) ;;
  return_if name == "--router-generation"
    with Some (fun v o => o <| cn_router_generation := GenerationOf (strtoull v) |>) ;;
  None.
(** [--quiet] is accepted and read by nothing. *)
Definition coordinator_flag (name : string) : option (CoordinatorOptions -> CoordinatorOptions) :=
  return_if name == "--load" with Some (fun o => o <| cn_load_on_start := true |>) ;;
  return_if name == "--save" with Some (fun o => o <| cn_save_on_shutdown := true |>) ;;
  return_if name == "--quiet" with Some (fun o => o) ;;
  None.
Definition coordinator_command (arguments : list string) : option CoordinatorOptions :=
  parse_options coordinator_flag coordinator_valued arguments coordinator_options_default.

(** ** The harness *)

Record WorkerSpec := { ws_backend_id : Z; ws_boot : Z; ws_cost_base : Z; ws_latency_micros : Z }.
Definition worker_specs : list WorkerSpec := [
  {| ws_backend_id := 1; ws_boot := 1; ws_cost_base := 100; ws_latency_micros := 1000 |};
  {| ws_backend_id := 2; ws_boot := 1; ws_cost_base := 400; ws_latency_micros := 2000 |};
  {| ws_backend_id := 3; ws_boot := 1; ws_cost_base := 900; ws_latency_micros := 3000 |}].
Definition base_port : Z := 17800.

Definition worker_arguments (port : Z) (spec : WorkerSpec) : list string := [
  "--port"; to_string_int port; "--backend-id"; to_string_int (ws_backend_id spec);
  "--boot"; to_string_int (ws_boot spec); "--cost-base"; to_string_int (ws_cost_base spec);
  "--latency-micros"; to_string_int (ws_latency_micros spec)].
Definition restart_arguments (port : Z) (state_path : string) : list string :=
  ["--port"; to_string_int port; "--state"; state_path; "--load"].

(** ** What is printed is read back *)

(** Neither a blank nor a sign. *)
Definition opens_number (c : ascii) : bool := negb (is_space c || (c == "-"%char) || (c == "+"%char)).

(** The decimal form of a natural number is read back, up to the largest value. *)
Lemma strtoull_small n : 0 <= n -> strtoull (to_string_int n) = Z.min n u64_max.
Proof.
  intros Hn. destruct (natural_digits n Hn) as [Hr _]. unfold strtoull.
  assert (skip_space (to_string_int n) = to_string_int n /\
    exists c rest, to_string_int n = String c rest /\ c <> "-"%char /\ c <> "+"%char) as [Hs (c & rest & E & H1 & H2)].
  { destruct n as [|p|p]; [split; [done|]; by exists "0"%char, ""| |lia].
    destruct (read_positive p "" I) as (d & t & E & Hd & _). rewrite append_nil_r in E.
    change (to_string_int (Z.pos p)) with (pretty (N.pos p)). rewrite E.
    assert (opens_number (pretty_N_char d) = true) as H
      by (apply (try_below (fun d => opens_number (pretty_N_char d)) 10); [reflexivity|lia]).
    unfold opens_number in H. rewrite negb_true_iff, !orb_false_iff, !bool_decide_eq_false in H. destruct H as [[H0 H1] H2].
    split; [cbn [skip_space]; by rewrite H0|]. by eexists _, _. }
  rewrite Hs, E. rewrite !bool_decide_eq_false_2 by done. rewrite <- E, Hr. cbn [fst].
  destruct (Z.ltb_spec u64_max n); lia.
Qed.

Lemma strtoull_read n : 0 <= n <= u64_max -> strtoull (to_string_int n) = n.
Proof. intros H. rewrite strtoull_small by lia. lia. Qed.

Lemma port_word : 65536 <= u64_max.
Proof. vm_compute. discriminate. Qed.
Lemma latency_word : u32_max <= u64_max.
Proof. vm_compute. discriminate. Qed.

Lemma word16_small n : 0 <= n < 65536 -> word16 n = n.
Proof. intros H. unfold word16. change 65535 with (Z.ones 16). rewrite Z.land_ones by lia. by apply Z.mod_small. Qed.
Lemma word32_mod x : word32 x = x mod 2 ^ 32.
Proof. unfold word32. change u32_max with (Z.ones 32). by rewrite Z.land_ones by lia. Qed.
Lemma word32_bounds x : 0 <= word32 x <= u32_max.
Proof. rewrite word32_mod. pose proof (Z.mod_pos_bound x (2 ^ 32) eq_refl). unfold u32_max. lia. Qed.
Lemma word32_small n : 0 <= n <= u32_max -> word32 n = n.
Proof. intros H. rewrite word32_mod. apply Z.mod_small. unfold u32_max in H. lia. Qed.

(** The values a spec can hold in the harness. *)
Record spec_fits (spec : WorkerSpec) : Prop := {
  spec_id : 0 <= ws_backend_id spec <= u64_max;
  spec_boot : 0 <= ws_boot spec <= u64_max;
  spec_cost : 0 <= ws_cost_base spec <= u64_max;
  spec_latency : 0 <= ws_latency_micros spec <= u32_max
}.

Definition spec_options (verified : bool) (port : Z) (spec : WorkerSpec) : WorkerOptions :=
  worker_options_default <| wo_port := port |> <| wo_backend_id := ws_backend_id spec |>
    <| wo_boot := ws_boot spec |> <| wo_cost_base := ws_cost_base spec |>
    <| wo_latency_micros := ws_latency_micros spec |> <| wo_cuda_verified := verified |>.

(** A worker that the harness starts has exactly the port, identity, boot,
    cost and latency it was started with, and defaults otherwise; and the three
    workers that the harness starts are workers that can join a coordinator. *)
Theorem harness_starts_workers (verified : bool) (port : Z) (spec : WorkerSpec)
    (Hport : 0 < port < 65536) (Hspec : spec_fits spec) :
  worker_command verified (worker_arguments port spec) = Some (spec_options verified port spec) /\
  Forall (fun spec => worker_sound (spec_options verified port spec)) worker_specs.
Proof.
  destruct Hspec as [H1 H2 H3 H4]. pose proof port_word. pose proof latency_word. split.
  - unfold worker_command, worker_arguments. do 5 (erewrite parse_valued by reflexivity).
    cbn [parse_options mbind option_bind fst snd]. rewrite !strtoull_read, word16_small, word32_small by lia.
    cbn. rewrite (proj2 (Z.eqb_neq port 0)) by lia. by destruct spec.
  - repeat apply Forall_cons_2; [..|apply Forall_nil_2];
      (split; cbn; [split; [lia|vm_compute; discriminate]|lia|lia|lia|lia|split; vm_compute; discriminate]).
Qed.

(** The coordinator that the harness starts again loads the state file the
    harness names, whatever its name, on the port it names. *)
Theorem harness_restarts_coordinator (port : Z) (path : string) (Hport : 0 <= port < 65536) :
  coordinator_command (restart_arguments port path) =
    Some (coordinator_options_default <| cn_port := port |> <| cn_state_path := path |> <| cn_load_on_start := true |>).
Proof.
  unfold coordinator_command, restart_arguments. do 2 (erewrite parse_valued by reflexivity). erewrite parse_flag by reflexivity.
  cbn [parse_options]. pose proof port_word. by rewrite strtoull_read, word16_small by lia.
Qed.

(** A port that does not fit 16 bits is not refused but cut to its low bits,
    so that the worker connects to another one. *)
Theorem worker_port_is_cut (verified : bool) (port : Z) (Hport : 0 <= port <= u64_max) :
  worker_command verified ["--port"; to_string_int port] =
    (return_if port mod 65536 =? 0 with None ;;
     Some (worker_options_default <| wo_port := port mod 65536 |> <| wo_cuda_verified := verified |>)).
Proof.
  unfold worker_command. erewrite parse_valued by reflexivity. cbn [parse_options mbind option_bind fst snd].
  rewrite strtoull_read by lia. unfold word16. change 65535 with (Z.ones 16). by rewrite Z.land_ones by lia.
Qed.

Definition second_spec : WorkerSpec := {| ws_backend_id := 2; ws_boot := 1; ws_cost_base := 400; ws_latency_micros := 2000 |}.
Lemma harness_starts_workers_witness :
  worker_command false ["--port"; "17800"; "--backend-id"; "2"; "--boot"; "1"; "--cost-base"; "400";
                        "--latency-micros"; "2000"] = Some (spec_options false base_port second_spec).
Proof.
  assert (spec_fits second_spec) as H by (split; vm_compute; split; discriminate).
  exact (proj1 (harness_starts_workers false base_port second_spec ltac:(split; reflexivity) H)).
Defined.

Lemma harness_restarts_coordinator_witness :
  coordinator_command ["--port"; "17800"; "--state"; "proof.state"; "--load"] =
    Some (coordinator_options_default <| cn_port := 17800 |> <| cn_state_path := "proof.state" |>
            <| cn_load_on_start := true |>).
Proof. exact (harness_restarts_coordinator 17800 "proof.state" ltac:(split; [discriminate|reflexivity])). Defined.

Lemma worker_port_is_cut_witness :
  worker_command false ["--port"; "65616"] =
    Some (worker_options_default <| wo_port := 80 |> <| wo_cuda_verified := false |>).
Proof. exact (worker_port_is_cut false 65616 ltac:(split; discriminate)). Defined.
