(* ===== verification/HarnessClient.v ===== *)
(** * The client of the reference harness

    [reference/reference_harness_main.cpp] drives a coordinator over one
    connection: it sends control and route requests, and polls the control plane
    until the workers it has started are there. *)
From S2P Require Import Prelude.
From S2P Require Import Ids.
From S2P Require Import Outcome.
From S2P Require Import Limits.
From S2P Require Import Clock.
From S2P Require Import Capability.
From S2P Require Import Catalog.
From S2P Require Import Request.
From S2P Require Import Decision.
From S2P Require Import RouterState.
From S2P Require Import RouterMutation.
From S2P Require Import Providers.
From S2P Require Import RouterSnapshot.
From S2P Require Import RouterPersist.
From S2P Require Import Frame.
From S2P Require Import WireRecords.
From S2P Require Import WireMessages.
From S2P Require Import ReferenceProfiles.
From S2P Require Import RouterRun.
From S2P Require Import Coordinator.
From S2P Require Import CoordinatorRun.
From S2P Require Import BackendWorker.
From S2P Require Import WorkerJoin.
From S2P Require Import CommandLine.

(** ** Requests *)

Definition harness_capability (capability : string) : list CapabilityRequirement :=
  return_if capability == "" with [] ;;
  [{| cr_key := CapabilityKeyOf capability; cr_minimum_state := CapabilityState.DECLARED |}].

Definition make_request (ids : Allocator) (tenant : EntityId TenantTag) (policy_generation : Z) (capability : string)
    : RouteRequest * Allocator :=
  let '(id, ids) := allocate_id RouteRequestTag ids in
  (route_request_default <| rr_request_id := id |> <| rr_request_generation := GenerationOf 1 |>
     <| rr_tenant := tenant |> <| rr_name_space := EntityIdOf 1 |> <| rr_policy_id := EntityIdOf 1 |>
     <| rr_policy_generation := GenerationOf policy_generation |> <| rr_estimated_input_tokens := 1000 |>
     <| rr_estimated_output_tokens := 500 |>
     <| rr_requirements := route_requirements_default <| rq_input_modalities := ModalitySetOf Modality_TEXT |>
          <| rq_output_modalities := ModalitySetOf Modality_TEXT |>
          <| rq_retry_policy := retry_reroute_policy_default <| rp_max_fallbacks := 2 |> |>
          <| rq_require_known_cost := true |>
          <| rq_required_capabilities := harness_capability capability |> |>, ids).

Section Client.
Context (limits : ResourceLimits) {P : Type}.
(** [send] and then [receive]: a frame, or the error text. *)
Context (exchange : Frame -> P -> (string + Frame) * P).
(** Whether the child process still runs. *)
Context (running : P -> bool * P).

(** One request; [None]: the answer was no message, or one with an enumerator
    that the model has no value for; what was read of it is in the response. *)
Definition admin (request : AdminRequest) : P -> option AdminResponse * P := fun p =>
  let failed error := Some (admin_refused OutcomeCode.INTERNAL_ERROR error) in
  match encode_wire limits request with
  | inl error => (failed error, p)
  | inr payload =>
      match exchange (make_frame MessageType.ADMIN_REQUEST payload) p with
      | (inl error, p) => (failed error, p)
      | (inr response, p) =>
          return_if negb (fh_message_type (fr_header response) =? MessageType.index MessageType.ADMIN_RESPONSE)
            with (failed "unexpected response type", p) ;;
          (match decode_wire limits (fr_payload response) with Some (inr m) => Some m | _ => None end, p)
      end
  end.

(** The type of the answer is not looked at. *)
Definition route (request : RouteRequest) : P -> option RouteResponseMessage * P := fun p =>
  let failed error := Some {| ro_code := OutcomeCode.INTERNAL_ERROR; ro_decision := route_decision_default;
                              ro_has_decision := false; ro_detail := error |} in
  match encode_wire limits (RouteRequestOf request) with
  | inl error => (failed error, p)
  | inr payload =>
      match exchange (make_frame MessageType.ROUTE_REQUEST payload) p with
      | (inl error, p) => (failed error, p)
      | (inr response, p) =>
          (match decode_wire limits (fr_payload response) with Some (inr m) => Some m | _ => None end, p)
      end
  end.

Definition count_request : AdminRequest :=
  {| ar_op := AdminOp.BACKEND_COUNT; ar_backend_id := none; ar_model_id := none; ar_decision_id := none;
     ar_generation := 0; ar_value := 0; ar_detail := "" |}.

(** What one attempt ends with; [Unknown]: the answer holds an enumerator that
    the model has no value for. *)
Inductive Attempt := Again | Finished (result : bool) | Unknown.

Definition count_attempt (expected : Z) : P -> Attempt * P := fun p =>
  let '(runs, p) := running p in
  return_if negb runs with (Finished false, p) ;;
  match encode_wire limits count_request with
  | inl _ => (Finished false, p)
  | inr payload =>
      match exchange (make_frame MessageType.ADMIN_REQUEST payload) p with
      | (inl _, p) => (Finished false, p)
      | (inr response, p) =>
          (match decode_wire (M := AdminResponse) limits (fr_payload response) with
           | Some (inr m) => if expected <=? word32 (strtoull (ap_detail m)) then Finished true else Again
           | Some (inl _) => Finished false
           | None => Unknown
           end, p)
      end
  end.

Fixpoint count_attempts (attempts : nat) (expected : Z) : P -> option bool * P := fun p =>
  match attempts with
  | O => (Some false, p)
  | S attempts =>
      match count_attempt expected p with
      | (Finished result, p) => (Some result, p)
      | (Again, p) => count_attempts attempts expected p
      | (Unknown, p) => (None, p)
      end
  end.
Definition wait_for_backend_count (expected : Z) : P -> option bool * P := count_attempts (Z.to_nat 20000) expected.
End Client.

(** ** The poll sees what the router holds *)

Section Polling.
Context (limits : ResourceLimits) (clock : Call Coordinator UnixMillis) (catalog : ReferenceCatalog).
Context (conn : ConnectionRef) (Hlimits : wire_limits limits).

Definition client_exchange (f : Frame) (w : World Coordinator) : (string + Frame) * World Coordinator :=
  let '(answer, w) := exchange_on limits clock catalog conn f w in
  (match answer with Some f => inr f | None => inl "connection is closed" end, w).
Definition always_running (w : World Coordinator) : bool * World Coordinator := (true, w).

Definition backend_count (s : CanonicalState) : Z := su_backend_count (summary s).
Definition count_answer (s : CanonicalState) : AdminResponse :=
  admin_refused OutcomeCode.ACCEPTED (to_string_int (backend_count s)).

Context (s : CanonicalState) (ids : Allocator).
Context (Hrequest : transmits limits MessageType.ADMIN_REQUEST count_request).
Context (Hanswer : transmits limits MessageType.ADMIN_RESPONSE (count_answer s)).

Lemma backend_count_bounds : 0 <= backend_count s <= u32_max.
Proof. exact (word32_bounds _). Qed.

Lemma count_exchanged c : quiet limits conn c ->
  exists payload answer c', encode_wire limits count_request = inr payload /\
    exchange_on limits clock catalog conn (make_frame MessageType.ADMIN_REQUEST payload) (alone s ids c) =
      (Some (make_frame MessageType.ADMIN_RESPONSE answer), alone s ids c') /\
    undisturbed limits conn c c' /\ decode_wire limits answer = Some (inr (count_answer s)).
Proof.
  intros Hq. pose proof Hrequest as (_ & _ & payload & bytes & He & _).
  pose proof (transmitted limits _ _ payload Hlimits Hrequest He) as Hd.
  destruct (answered limits conn Hlimits _ _ s ids (counted c) Hanswer Hq)
    as (answer & c1 & c2 & Ha & Hs & Hsent & [H1 H2 H3] & Hr).
  exists payload, answer, c2. split; [done|]. split; [|by split].
  apply (round_answers _ _ _ _ _ _ _ _ _ c1); [|exact Hsent].
  change (handle_control limits clock catalog conn (make_frame MessageType.ADMIN_REQUEST payload)
    (alone s ids (counted c)) = (going_on true, alone s ids c1)).
  unfold handle_control, decoded. cbn [make_frame fr_payload]. rewrite Hd. cbn [handle_admin count_request ar_op].
  run_alone. fold (backend_count s). fold (count_answer s). unfold replied, reply. by rewrite Ha, bind_run, Hs.
Qed.

Lemma count_attempt_run expected c : quiet limits conn c ->
  exists c', count_attempt limits client_exchange always_running expected (alone s ids c) =
      (if expected <=? backend_count s then Finished true else Again, alone s ids c') /\ undisturbed limits conn c c'.
Proof.
  intros Hq. destruct (count_exchanged c Hq) as (payload & answer & c' & He & Hx & Hc & Hr). exists c'. split; [|done].
  unfold count_attempt, always_running, client_exchange. rewrite He. cbn [negb]. rewrite Hx. cbn [make_frame fr_payload].
  rewrite Hr. cbn [count_answer admin_refused ap_detail]. pose proof latency_word. pose proof backend_count_bounds.
  by rewrite strtoull_read, word32_small by lia.
Qed.

Lemma count_attempts_run attempts expected c : quiet limits conn c ->
  exists c', count_attempts limits client_exchange always_running (S attempts) expected (alone s ids c) =
      (Some (expected <=? backend_count s), alone s ids c') /\ undisturbed limits conn c c'.
Proof.
  revert c. induction attempts as [|attempts IH]; intros c Hq;
    destruct (count_attempt_run expected c Hq) as (c1 & E & [H1 H2 H3]).
  - exists c1. split; [|by split]. cbn [count_attempts]. rewrite E. by destruct (expected <=? _).
  - destruct (IH c1 H1) as (c2 & E2 & [H4 H5 H6]).
    destruct (expected <=? backend_count s) eqn:Hle.
    + exists c1. split; [|by split]. cbn [count_attempts]. by rewrite E.
    + exists c2. split; [|split; [done|by rewrite H5|by rewrite H6]].
      change (count_attempts limits client_exchange always_running (S (S attempts)) expected (alone s ids c))
        with (match count_attempt limits client_exchange always_running expected (alone s ids c) with
              | (Finished result, p) => (Some result, p)
              | (Again, p) => count_attempts limits client_exchange always_running (S attempts) expected p
              | (Unknown, p) => (None, p)
              end).
      by rewrite E, E2.
Qed.
End Polling.

(** While nothing else changes the router, the harness's poll over a quiet
    connection answers exactly whether the router holds as many backends as are
    expected: the request, the coordinator's handler, the count printed into the
    answer and read back from it agree; and the router is as it was. *)
Theorem harness_sees_backend_count (limits : ResourceLimits) (clock : Call Coordinator UnixMillis)
    (catalog : ReferenceCatalog) (conn : ConnectionRef) (s : CanonicalState) (ids : Allocator) (c : Coordinator)
    (expected : Z) (Hlimits : wire_limits limits)
    (Hrequest : transmits limits MessageType.ADMIN_REQUEST count_request)
    (Hanswer : transmits limits MessageType.ADMIN_RESPONSE (count_answer s))
    (Hquiet : quiet limits conn c) :
  exists c', wait_for_backend_count limits (client_exchange limits clock catalog conn) always_running expected
      (alone s ids c) = (Some (expected <=? backend_count s), alone s ids c') /\ undisturbed limits conn c c'.
Proof.
  unfold wait_for_backend_count. change (Z.to_nat 20000) with (S (Z.to_nat 19999)).
  by apply count_attempts_run.
Qed.

(** ** One backend *)

Definition one_backend : CanonicalState :=
  (perform (RegisterBackend (worker_backend worker_options_default)) 1 joining_state).2.

Lemma harness_sees_backend_count_witness : exists c',
  wait_for_backend_count default_resource_limits
    (client_exchange default_resource_limits sample_clock make_catalog 0%nat) always_running 1
    (alone one_backend 0 loopback) = (Some true, alone one_backend 0 c').
Proof.
  destruct (harness_sees_backend_count default_resource_limits sample_clock make_catalog 0%nat one_backend 0 loopback 1)
    as (c' & E & _).
  - exact default_wire_limits.
  - transmits_now.
  - transmits_now.
  - eexists. split; [reflexivity|]. split_and!; reflexivity.
  - exists c'. exact E.
Defined.
